(* ===== verification/_CoqProject ===== *)
-Q . S2P
Prelude.v
ListHead.v
HList.v
IdxPointer.v
StrUtil.v
IpBucket.v
Slab.v
Hash.v
Timer.v
SockTcp.v
Device.v
DeviceInv.v
DeviceOps.v
DeviceConf.v
Http.v
HttpProofs.v
Server.v
ServerInv.v
ServerOps.v
ServerExpire.v
ServerPut.v
ServerHandlers.v
ServerFinalize.v
Conf.v
ConfProofs.v
Format.v
FormatProofs.v
ServerConf.v
DeviceLoad.v
Cache.v
DeviceDestroy.v
DeviceLife.v
Life.v
CacheProofs.v
Owned.v
ServerReload.v
ServerLoad.v
DeviceReload.v
Reload.v
Apart.v
Net.v
Status.v
Worker.v
Request.v
Master.v
WorkerProofs.v
MasterProofs.v
Reloads.v
Main.v
RequestProofs.v
Jstore.v
