(* ===== verification/Prelude.v ===== *)
(** * OliveHC: verification of the Olive HTTP cache

    OliveHC is an HTTP cache on raw devices.  A master thread accepts
    connections, parses requests, and keeps the cache: servers (one per port)
    with a hash table of items and LRU lists, and devices whose space is cut
    into items and free blocks.  A request with a body is handed through a pipe
    to a worker thread, which moves bytes between socket and device and hands it
    back to be finished.  All state but the ring of workers and the bytes in
    flight belongs to the master thread.

    ** Style

    Code is a function in the monad [M S] of this file: explicit state and a
    [fault] when C would follow a bad pointer, leave an array, use an undefined
    value or call [exit].  A theorem that a program returns [Ret] therefore says
    that none of this happens.  A pointer is an integer; memory is a [gmap] from
    addresses to records with the fields of the C structure; a freed address is
    no longer in the map.  Machine integers are [Z] with the wrap written out
    where the code can reach it ([u64], [u32], [u16], [u40], [i16], [i32],
    [i64]).  Intrusive lists are treated twice: ListHead.v and HList.v model
    them pointer by pointer and prove that they implement sequences, which the
    other files then use.

    ** Files, in order

    - ListHead.v, HList.v: utils/list.h, [list_head] rings and [hlist]s.
    - IdxPointer.v: utils/idx_pointer.h.  StrUtil.v: utils/string.h.
    - IpBucket.v: utils/ipbucket.h, size classes and queues of free blocks.
    - Slab.v: utils/slab.c, and the class [Allocator], which is all that the
      clients of a slab rely on; the slab is an instance of it.
    - Hash.v: utils/hash.c.  Timer.v: utils/timer.c.
    - SockTcp.v: utils/socktcp.c, over the class [Kernel] of the socket calls,
      and the function of server.c that sets the options of a connection.
    - Device.v: device.c, allocation and return of blocks; DeviceInv.v its
      invariant [dev_inv], DeviceOps.v and DeviceConf.v the proofs.
    - Http.v, HttpProofs.v: http.c, parsing of requests and the headers sent.
    - Server.v: server.c, and the functions of device.c that call back into it;
      ServerInv.v the invariant [cache_inv] of servers, items and devices
      together; ServerOps.v (deletion), ServerExpire.v, ServerPut.v,
      ServerHandlers.v, ServerFinalize.v that each operation keeps it.
    - Conf.v, ConfProofs.v: conf.c, the configuration parser.
    - Format.v, FormatProofs.v: format.c, the dump of a device at shutdown.
    - ServerConf.v and DeviceLoad.v: the configuration parts of server.c and
      device.c; Cache.v proves that creating a server and the routine of the
      servers keep the invariant, DeviceDestroy.v the same of the routine that
      takes deleted devices apart, DeviceLife.v of adding, updating and deleting
      a device.
    - Life.v: the cache as a transition system, events on a state with the holds
      of the requests; CacheProofs.v its properties.
    - ServerReload.v and ServerLoad.v: what checking, loading and rolling back a
      configuration does to the servers; DeviceReload.v: the same of the devices;
      Owned.v: the descriptors a configuration has open; Reload.v: devices and
      servers checked together, and loaded or rolled back together.
    - Net.v: the state of the whole process with request.h, worker.h, event.c
      and what the kernel answers; Status.v: what is printed, status, access log
      and error log; Worker.v: worker.c; Request.v: request.c and the loops of
      worker.c; Master.v: the master loop of olivehc.c; WorkerProofs.v,
      MasterProofs.v and RequestProofs.v their properties.
    - Main.v: main of olivehc.c, options, start and end.
    - Jstore.v: nginx-jstore, the module for nginx that stores responses in the
      cache.

    ** What the theorems show

    The cache.  [cache_run_safe]: whatever sequence of requests, ends of
    requests, routine calls and changes of servers and devices happens, the cache
    stays consistent and no operation faults; [cache_items_apart]: so no two items
    share a byte of a device.  The handlers do what they promise on each branch
    ([server_request_get_correct], [..._put_...], [..._delete_...],
    [..._finalize_...]); a completed PUT is found by a GET ([put_then_get]); an
    item in use outlives its deletion ([server_item_delete_correct]); room is
    made from the least recently used item on ([server_item_expire_correct]) and
    the search for it ends ([put_alloc_terminates]); a deleted device is taken
    apart under the requests that use it ([device_destroy_correct]).

    Bytes.  [request_send_file_exact], [request_put_exact]: what is sent is the
    part of the device asked for, and what is written lies in the item's block,
    however the kernel cuts the transfer; [request_range_correct]: ranges;
    [request_header_bounds], [http_request_parse_safe]: the input buffer.

    The data structures.  Pointer lists, the hash table, the size classes, the
    slab and the timers against their abstract counterparts.

    Persistence and configuration.  A dump is read back ([format_round_trip]),
    once ([format_load_once]), and not when damaged; the configuration parser is
    total and its results are in range; a reload is taken over by all of
    the program or by none of it ([olivehc_reload_atomic], over
    [server_reload_atomic], [device_reload_atomic] and [worker_conf_correct]).

    The edges.  [options_read_back]: the command line; [main_pid_file]: the pid
    file is there while the program runs; [status_readable]: a client of the
    admin port can read the status back.  [tcp_accept_correct]: a socket that is accepted is set up or
    closed; [jstore_body_exact]: what the nginx module stores is what the client
    gets.

    Errors of the code that modelling showed are stated as theorems of their
    own where they are about a reachable state: [request_get_eio],
    [worker_rollback_again], [server_destroy_dangles]; outside the list of
    properties, [format_load_uninitialised] and [conf_include_overrun].

    ** Parameters

    MD5, [mktime], [malloc] and [calloc], [tcp_bind], [fopen], [stat], [open]
    and [ioctl] are arguments of the definitions that use them.  [malloc] for a
    slab is a function of the state whose address must not overlap live blocks
    (the class in Slab.v); every other one may answer anything.  What the kernel
    does with a socket is a script in the state (Net.v); theorems hold for every
    script.  The socket calls of SockTcp.v are a class with the promises of the
    kernel and an instance; the answers of nginx in Jstore.v are a record of
    functions.

    ** Fuel

    [socket_fuel] of Net.v: a loop repeated on EINTR uses up one entry of the
    script each time, and the loop over the body of a PUT one entry or at least
    one byte; [recv_spec] and [put_loop_spec] prove it enough.  [put_alloc] has
    the 14 rounds that [put_alloc_terminates] proves sufficient;
    [conf_parse_file] the eleven levels the code allows.  Loops over lists are
    structural.

    ** Not modelled

    What is library or system: [daemon], signals, the descriptors 0 and 1, the
    buffers of stdio, the texts of [strerror] and [inet_ntoa].  The text of each
    log is a function ([request_log], [log_error]); the files it goes to are not
    part of the state.  [ipbucket_destory], which nothing calls, is left out, and
    [hash_destroy] is the removal of the server that owns the table.  The threads
    are modelled by the order of their rounds: a round
    of a worker or of the master is one step, and they share only the pipes. *)

From stdpp Require Import prelude fin_maps gmap.

(** ** Faults

    C code that leaves its contract (a null or dangling pointer, an index
    outside an array, an explicit [exit]) ends in a [Fail]; everything else
    returns. *)

Inductive fault :=
  | NullPtr        (* dereference of NULL *)
  | Dangling       (* access to memory that was freed or never allocated *)
  | OutOfBounds    (* array index outside the array *)
  | Undef          (* a value the C standard or the machine leaves undefined *)
  | ProgExit.      (* a call of exit(3) *)

Inductive outcome (A : Type) :=
  | Ret (a : A)
  | Fail (f : fault).
Arguments Ret {A} _.
Arguments Fail {A} _.

(** State-and-fault monad in which the stateful code is written. *)
Definition M (S A : Type) : Type := S → outcome (A * S).

#[global] Instance outcome_ret : MRet outcome := λ _ a, Ret a.
#[global] Instance outcome_bind : MBind outcome := λ _ _ k c,
  match c with Ret a => k a | Fail f => Fail f end.
#[global] Instance M_ret {S} : MRet (M S) := λ _ a s, Ret (a, s).
#[global] Instance M_bind {S} : MBind (M S) := λ _ _ k c s,
  match c s with Ret (a, s') => k a s' | Fail f => Fail f end.

Section monad_ops.
Context {S : Type}.
Definition get : M S S := λ s, Ret (s, s).
Definition gets {A} (f : S → A) : M S A := λ s, Ret (f s, s).
Definition modify (f : S → S) : M S unit := λ s, Ret (tt, f s).
Definition fail {A} (f : fault) : M S A := λ _, Fail f.
Definition act {A} (f : S → outcome (A * S)) : M S A := f.
(** Dereference: the value, or the fault of a missing object. *)
Definition deref {A} (f : fault) (o : option A) : M S A :=
  match o with Some a => mret a | None => fail f end.
End monad_ops.

(** ** Running monadic code *)

Section monad_laws.
Context {S : Type}.
Implicit Types s : S.

Lemma bind_ret {A B} (c : M S A) (k : A → M S B) s a s' :
  c s = Ret (a, s') → (c ≫= k) s = k a s'.
Proof. intros H. unfold mbind, M_bind. by rewrite H. Qed.

Lemma bind_fail {A B} (c : M S A) (k : A → M S B) s f :
  c s = Fail f → (c ≫= k) s = Fail f.
Proof. intros H. unfold mbind, M_bind. by rewrite H. Qed.

Lemma bind_inv {A B} (c : M S A) (k : A → M S B) s b s' :
  (c ≫= k) s = Ret (b, s') →
  ∃ a s1, c s = Ret (a, s1) ∧ k a s1 = Ret (b, s').
Proof.
  unfold mbind, M_bind. destruct (c s) as [[a s1]|f]; [|done]. eauto.
Qed.
End monad_laws.

(** ** What a computation may change

    [within R c]: when [c] returns, the states before and after are in [R]. *)

Section within.
Context {S : Type} (R : S → S → Prop) {HR : PreOrder R}.
Definition within {A} (c : M S A) : Prop := ∀ s a s', c s = Ret (a, s') → R s s'.

Lemma within_ret {A} (a : A) : within (mret a).
Proof. intros s a' s' [= _ <-]. reflexivity. Qed.
Lemma within_bind {A B} (c : M S A) (k : A → M S B) : within c → (∀ a, within (k a)) → within (c ≫= k).
Proof. intros Hc Hk s b s' (a & s1 & E1 & E2)%bind_inv. etrans; [by eapply Hc|by eapply Hk]. Qed.
Lemma within_get : within get.
Proof. intros s a s' [= _ <-]. reflexivity. Qed.
Lemma within_modify f : (∀ s, R s (f s)) → within (modify f).
Proof. by intros Hf s a s' [= _ <-]. Qed.
Lemma within_fail {A} e : within (fail e : M S A).
Proof. by intros s a s'. Qed.
Lemma within_deref {A} e (o : option A) : within (deref e o).
Proof. destruct o; [apply within_ret|apply within_fail]. Qed.
Lemma within_if {A} (b : bool) (c1 c2 : M S A) : within c1 → within c2 → within (if b then c1 else c2).
Proof. by destruct b. Qed.
End within.
Create HintDb within.
#[export] Hint Resolve within_ret within_bind within_get within_deref within_if : within.

(** One step of a monadic run: rewrite the first action with what is known of
    it, or compute it. *)
Ltac mstep :=
  match goal with
  | H : ?c ?s = Ret _ |- context [mbind _ ?c ?s] => rewrite (bind_ret c _ s _ _ H)
  | H : ?c ?s = Ret _ |- context [mbind ?k ?c ?s] => rewrite (bind_ret c k s _ _ H)
  end.

(** Inversion of a run that returned. *)
Ltac minv H :=
  let a := fresh "a" in let s := fresh "s" in let E := fresh "E" in
  apply bind_inv in H as (a & s & E & H).

(** ** Machine integers *)

Open Scope Z_scope.

(** [wrap w x] is [x] in an unsigned [w]-bit integer, [swrap w x] in a
    two's-complement one. *)
Definition wrap (w x : Z) : Z := x mod 2 ^ w.
Definition swrap (w x : Z) : Z := (x + 2 ^ (w - 1)) mod 2 ^ w - 2 ^ (w - 1).

Abbreviation u16 := (wrap 16).
Abbreviation u32 := (wrap 32).
Abbreviation u40 := (wrap 40).
Abbreviation u64 := (wrap 64).
Abbreviation i16 := (swrap 16).
Abbreviation i32 := (swrap 32).
Abbreviation i64 := (swrap 64).

Lemma wrap_range w x : 0 ≤ w → 0 ≤ wrap w x < 2 ^ w.
Proof. intros. apply Z.mod_pos_bound. lia. Qed.

Lemma wrap_small w x : 0 ≤ x < 2 ^ w → wrap w x = x.
Proof. apply Z.mod_small. Qed.

Lemma swrap_small w x :
  0 < w → - 2 ^ (w - 1) ≤ x < 2 ^ (w - 1) → swrap w x = x.
Proof.
  intros Hw Hx. unfold swrap. rewrite Z.mod_small; [lia|].
  replace (2 ^ w) with (2 * 2 ^ (w - 1)); [lia|].
  rewrite <- Z.pow_succ_r by lia. f_equal. lia.
Qed.

Lemma swrap_range w x : 0 < w → - 2 ^ (w - 1) ≤ swrap w x < 2 ^ (w - 1).
Proof.
  intros Hw. unfold swrap.
  assert (2 ^ w = 2 * 2 ^ (w - 1)) as E.
  { rewrite <- Z.pow_succ_r by lia. f_equal. lia. }
  pose proof (Z.mod_pos_bound (x + 2 ^ (w - 1)) (2 ^ w)). lia.
Qed.

(** Reduces a wrapped literal range; used where a bound is in the context. *)
Ltac unwrap :=
  repeat (rewrite wrap_small in * by lia); repeat (rewrite swrap_small in * by lia).

(** [lia] with division and remainder by literals. *)
Ltac dlia := Z.div_mod_to_equations; lia.

Create HintDb ohc discriminated.
#[export] Hint Resolve wrap_range : ohc.

(** ** Lists *)

Lemma in_tail {A} (x : A) l : x ∈ tail l → x ∈ l.
Proof. destruct l; simpl; [done|]. apply list_elem_of_further. Qed.

Lemma in_removelast {A} (x : A) l : x ∈ removelast l → x ∈ l.
Proof.
  destruct l as [|a l _] using rev_ind; [done|].
  rewrite removelast_last, elem_of_app. auto.
Qed.

(** Every element but one, keeping the order: what unlinking a node does. *)
Definition list_remove_one `{EqDecision A} (x : A) (l : list A) : list A :=
  filter (λ y, y ≠ x) l.

Lemma list_remove_one_notin `{EqDecision A} (x : A) l :
  x ∉ l → list_remove_one x l = l.
Proof.
  unfold list_remove_one. induction l as [|y l IH]; [done|].
  rewrite not_elem_of_cons. intros [? ?]. rewrite filter_cons_True by done.
  f_equal. auto.
Qed.

Lemma list_remove_one_split `{EqDecision A} (x : A) l1 l2 :
  NoDup (l1 ++ x :: l2) → list_remove_one x (l1 ++ x :: l2) = l1 ++ l2.
Proof.
  intros (_ & Hd & [Hx _]%NoDup_cons)%NoDup_app.
  unfold list_remove_one. rewrite filter_app, filter_cons_False by naive_solver.
  f_equal; apply list_remove_one_notin; [|done].
  intros ?. apply (Hd x); [done|]. apply list_elem_of_here.
Qed.

Lemma list_filter_nil {A} (Q : A → Prop) `{∀ x, Decision (Q x)} (l : list A) : (∀ x, x ∈ l → ¬ Q x) → filter Q l = [].
Proof.
  intros HQ. destruct (filter Q l) as [|x k] eqn:E; [done|].
  assert (x ∈ filter Q l) as [Hx Hin]%list_elem_of_filter by (rewrite E; apply list_elem_of_here). by apply (HQ x) in Hin.
Qed.
Lemma list_filter_all {A} (Q : A → Prop) `{∀ x, Decision (Q x)} (l : list A) : (∀ x, x ∈ l → Q x) → filter Q l = l.
Proof.
  induction l as [|x l IH]; intros HQ; [done|]. rewrite filter_cons_True by apply HQ, list_elem_of_here.
  f_equal. apply IH. intros y Hy. by apply HQ, list_elem_of_further.
Qed.

Lemma elem_of_list_remove_one `{EqDecision A} (x y : A) l :
  y ∈ list_remove_one x l ↔ y ∈ l ∧ y ≠ x.
Proof. unfold list_remove_one. rewrite list_elem_of_filter. tauto. Qed.

Lemma NoDup_list_remove_one `{EqDecision A} (x : A) l :
  NoDup l → NoDup (list_remove_one x l).
Proof. apply NoDup_filter. Qed.

Lemma length_list_remove_one `{EqDecision A} (x : A) l :
  NoDup l → x ∈ l → length l = S (length (list_remove_one x l)).
Proof.
  intros Hn (l1 & l2 & ->)%list_elem_of_split.
  rewrite (list_remove_one_split x l1 l2 Hn), !length_app. simpl. lia.
Qed.

Lemma list_remove_one_mid `{EqDecision A} (x : A) l1 seg l2 :
  x ∉ l1 → x ∉ l2 → list_remove_one x (l1 ++ seg ++ l2) = l1 ++ list_remove_one x seg ++ l2.
Proof.
  intros H1 H2. unfold list_remove_one. rewrite !filter_app.
  f_equal; [by apply list_remove_one_notin|]. f_equal. by apply list_remove_one_notin.
Qed.

Lemma NoDup_reverse {A} (l : list A) : NoDup l → NoDup (reverse l).
Proof. intros Hl. by rewrite reverse_Permutation. Qed.
