(* ===== verification/ListHead.v ===== *)
(** * utils/list.h: intrusive doubly linked rings

    The pointer-level model of [struct list_head]: a heap of [next]/[prev]
    pairs and the inline functions of list.h as programs over it.  [dlist h hd l]
    says that the ring at head [hd] holds the nodes [l] in order; [lists_rep h m]
    says so for a family [m] of disjoint rings at once.  The refinement
    theorems show that each pointer program implements the list operation that
    the other components of the development use for their queues. *)

From stdpp Require Import prelude fin_maps gmap.
From S2P Require Import Prelude.

Record list_head := ListHead { lh_next : Z; lh_prev : Z }.

Abbreviation lheap := (gmap Z list_head).

(** Memory accesses: address 0 is NULL, an address outside the heap is not
    allocated. *)
Definition bad_ptr (p : Z) : fault := if p =? 0 then NullPtr else Dangling.
Definition load (p : Z) : M lheap list_head := λ h,
  match h !! p with Some n => Ret (n, h) | None => Fail (bad_ptr p) end.
Definition set_next (p v : Z) : M lheap unit :=
  n ← load p; modify (<[p := ListHead v (lh_prev n)]>).
Definition set_prev (p v : Z) : M lheap unit :=
  n ← load p; modify (<[p := ListHead (lh_next n) v]>).

(** ** The operations of list.h *)

Definition INIT_LIST_HEAD (p : Z) : M lheap unit :=
  set_next p p;; set_prev p p.

Definition __list_add (nnew prev next : Z) : M lheap unit :=
  set_prev next nnew;;
  set_next nnew next;;
  set_prev nnew prev;;
  set_next prev nnew.

Definition list_add (nnew head : Z) : M lheap unit :=
  n ← load head; __list_add nnew head (lh_next n).

Definition list_add_tail (nnew head : Z) : M lheap unit :=
  n ← load head; __list_add nnew (lh_prev n) head.

Definition __list_del (prev next : Z) : M lheap unit :=
  set_prev next prev;;
  set_next prev next.

Definition list_del (entry : Z) : M lheap unit :=
  n ← load entry;
  __list_del (lh_prev n) (lh_next n);;
  set_prev entry 0;;
  set_next entry 0.

Definition list_del_init (entry : Z) : M lheap unit :=
  n ← load entry;
  __list_del (lh_prev n) (lh_next n);;
  INIT_LIST_HEAD entry.

Definition list_empty (head : Z) : M lheap bool :=
  n ← load head; mret (lh_next n =? head).

Definition list_splice (list head : Z) : M lheap unit :=
  n ← load list;
  let first := lh_next n in
  if first =? list then mret tt else
  let last := lh_prev n in
  m ← load head;
  let at_ := lh_next m in
  set_prev first head;;
  set_next head first;;
  set_next last at_;;
  set_prev at_ last.

(** [list_for_each]: the nodes in the order the loop visits them.  The fuel
    bounds the number of iterations. *)
Fixpoint list_for_each_from (fuel : nat) (pos head : Z) : M lheap (list Z) :=
  match fuel with
  | O => fail Undef
  | S fuel =>
      if pos =? head then mret [] else
      n ← load pos;
      rest ← list_for_each_from fuel (lh_next n) head;
      mret (pos :: rest)
  end.
Definition list_for_each (fuel : nat) (head : Z) : M lheap (list Z) :=
  n ← load head; list_for_each_from fuel (lh_next n) head.

(** [list_for_each_safe] loads the successor before the body runs, so the
    body may unlink or free the node.  It loads the successor's successor in
    the same way, which is defined because the ring is closed. *)
Fixpoint list_for_each_safe_from (fuel : nat) (body : Z → M lheap unit)
    (pos n head : Z) : M lheap unit :=
  match fuel with
  | O => fail Undef
  | S fuel =>
      if pos =? head then mret tt else
      body pos;;
      nn ← load n;
      list_for_each_safe_from fuel body n (lh_next nn) head
  end.
Definition list_for_each_safe (fuel : nat) (body : Z → M lheap unit)
    (head : Z) : M lheap unit :=
  h ← load head;
  p ← load (lh_next h);
  list_for_each_safe_from fuel body (lh_next h) (lh_next p) head.

(** ** Representation *)

Definition nx (h : lheap) (p : Z) : option Z := lh_next <$> h !! p.
Definition pv (h : lheap) (p : Z) : option Z := lh_prev <$> h !! p.

Fixpoint links (h : lheap) (xs : list Z) : Prop :=
  match xs with
  | a :: (b :: _) as t => nx h a = Some b ∧ pv h b = Some a ∧ links h t
  | _ => True
  end.

(** The ring at [hd] holds exactly [l], in order. *)
Definition dlist (h : lheap) (hd : Z) (l : list Z) : Prop :=
  NoDup (hd :: l) ∧ links h (hd :: l ++ [hd]).

(** *** Field-level effect of a program

    [runs c h fn fp ps]: the program returns and leaves [next] fields [fn],
    [prev] fields [fp]; only the nodes in [ps] change, and none is freed. *)
Definition upd (f : Z → option Z) (p v : Z) : Z → option Z :=
  λ q, if decide (q = p) then Some v else f q.

Definition runs (c : M lheap unit) (h : lheap) (fn fp : Z → option Z)
    (ps : list Z) : Prop :=
  ∃ h', c h = Ret (tt, h') ∧ (∀ q, nx h' q = fn q) ∧ (∀ q, pv h' q = fp q) ∧
        (∀ q, q ∉ ps → h' !! q = h !! q) ∧
        (∀ q, is_Some (h !! q) → is_Some (h' !! q)).

Lemma nx_alive h p : is_Some (nx h p) ↔ is_Some (h !! p).
Proof. unfold nx. by rewrite fmap_is_Some. Qed.
Lemma pv_alive h p : is_Some (pv h p) ↔ is_Some (h !! p).
Proof. unfold pv. by rewrite fmap_is_Some. Qed.

Lemma upd_eq f p v : upd f p v p = Some v.
Proof. unfold upd. by rewrite decide_True. Qed.
Lemma upd_ne f p v q : q ≠ p → upd f p v q = f q.
Proof. intros. unfold upd. by rewrite decide_False. Qed.

(** Both stores update one field of one live node. *)
Ltac store_tac p :=
  intros [n Hn]; eexists; split;
    [unfold set_next, set_prev, load, mbind, M_bind; rewrite Hn; done|];
  unfold nx, pv, upd; repeat split; intros q;
  [ destruct (decide (q = p)) as [->|];
      [rewrite lookup_insert_eq; try rewrite Hn; done | by rewrite lookup_insert_ne ] ..
  | rewrite list_elem_of_singleton; intros; by rewrite lookup_insert_ne
  | intros; apply lookup_insert_is_Some'; auto ].

Lemma set_next_runs h p v :
  is_Some (h !! p) → runs (set_next p v) h (upd (nx h) p v) (pv h) [p].
Proof. store_tac p. Qed.

Lemma set_prev_runs h p v :
  is_Some (h !! p) → runs (set_prev p v) h (nx h) (upd (pv h) p v) [p].
Proof. store_tac p. Qed.

Lemma runs_seq c1 c2 h fn fp ps1 fn' fp' ps2 :
  runs c1 h fn fp ps1 →
  (∀ h1, (∀ q, nx h1 q = fn q) → (∀ q, pv h1 q = fp q) →
         (∀ q, is_Some (h !! q) → is_Some (h1 !! q)) →
         runs c2 h1 fn' fp' ps2) →
  runs (c1;; c2) h fn' fp' (ps1 ++ ps2).
Proof.
  intros (h1 & E1 & Hn1 & Hp1 & Hf1 & Ha1) H2.
  destruct (H2 h1 Hn1 Hp1 Ha1) as (h2 & E2 & Hn2 & Hp2 & Hf2 & Ha2).
  exists h2. split_and!; auto.
  - unfold mbind, M_bind. by rewrite E1.
  - intros q Hq. rewrite not_elem_of_app in Hq. rewrite Hf2, Hf1; tauto.
Qed.

Lemma runs_ext c h fn fp fn' fp' ps :
  runs c h fn fp ps → (∀ q, fn q = fn' q) → (∀ q, fp q = fp' q) →
  runs c h fn' fp' ps.
Proof.
  intros (h' & ? & Hn & Hp & ? & ?) En Ep. exists h'. split_and!; auto; intros q.
  - by rewrite Hn. 
  - by rewrite Hp.
Qed.

(** Chains stores.  What is left says that the touched nodes are live. *)
Ltac live :=
  match goal with
  | |- is_Some _ => solve [eauto 8 with ohc]
  end.
Ltac fields :=
  intros ?q; unfold upd;
  repeat match goal with
  | H : ∀ q, nx ?h q = _ |- context [nx ?h _] => progress (rewrite ?H; unfold upd)
  | H : ∀ q, pv ?h q = _ |- context [pv ?h _] => progress (rewrite ?H; unfold upd)
  end;
  unfold upd; repeat case_decide; subst; try done; try congruence.
Ltac run_stores :=
  repeat (eapply runs_seq;
    [first [eapply set_next_runs | eapply set_prev_runs]; try live
    | let h := fresh "h" in intros h ? ? ?]);
  (eapply runs_ext;
    [first [eapply set_next_runs | eapply set_prev_runs]; try live | fields | fields]).

Lemma __list_add_runs h nnew prev next :
  is_Some (h !! nnew) → is_Some (h !! prev) → is_Some (h !! next) →
  runs (__list_add nnew prev next) h
    (upd (upd (nx h) nnew next) prev nnew)
    (upd (upd (pv h) next nnew) nnew prev)
    [next; nnew; nnew; prev].
Proof.
  intros. unfold __list_add.
  change [next; nnew; nnew; prev] with ([next] ++ [nnew] ++ [nnew] ++ [prev]).
  run_stores.
Qed.

Lemma __list_del_runs h prev next :
  is_Some (h !! prev) → is_Some (h !! next) →
  runs (__list_del prev next) h
    (upd (nx h) prev next) (upd (pv h) next prev) [next; prev].
Proof.
  intros. unfold __list_del. change [next; prev] with ([next] ++ [prev]).
  run_stores.
Qed.

(** ** Chains of links *)

Lemma links_cons2 h a b xs :
  links h (a :: b :: xs) ↔ nx h a = Some b ∧ pv h b = Some a ∧ links h (b :: xs).
Proof. reflexivity. Qed.

Lemma links_app h xs a ys :
  links h (xs ++ a :: ys) ↔ links h (xs ++ [a]) ∧ links h (a :: ys).
Proof.
  induction xs as [|x [|y xs] IH]; simpl in *.
  - tauto.
  - destruct ys; simpl; tauto.
  - rewrite IH. tauto.
Qed.

(** A chain only depends on the [next] fields before its last node and on the
    [prev] fields after its first. *)
Lemma links_frame h h' xs :
  links h xs →
  (∀ q, q ∈ removelast xs → nx h' q = nx h q) →
  (∀ q, q ∈ tail xs → pv h' q = pv h q) →
  links h' xs.
Proof.
  induction xs as [|x [|y xs] IH]; [done..|].
  intros (Hn & Hp & Hl) Fn Fp. simpl. split_and!.
  - rewrite Fn; [done|]. simpl. apply list_elem_of_here.
  - rewrite Fp; [done|]. simpl. apply list_elem_of_here.
  - apply IH; [done| |].
    + intros q Hq. apply Fn. by apply list_elem_of_further.
    + intros q Hq. apply Fp. simpl in *. by apply list_elem_of_further.
Qed.

Lemma links_alive h a b xs q :
  links h (a :: b :: xs) → q ∈ a :: b :: xs → is_Some (h !! q).
Proof.
  revert a b. induction xs as [|c xs IH]; intros a b (Hn & Hp & Hl) Hq.
  - apply elem_of_cons in Hq as [->|Hq]; [by apply nx_alive; rewrite Hn|].
    apply list_elem_of_singleton in Hq as ->. by apply pv_alive; rewrite Hp.
  - apply elem_of_cons in Hq as [->|Hq]; [by apply nx_alive; rewrite Hn|].
    by apply (IH b c).
Qed.

Lemma dlist_alive h hd l q : dlist h hd l → q ∈ hd :: l → is_Some (h !! q).
Proof.
  intros [_ Hl] Hq. destruct l as [|x l]; simpl in Hl.
  - apply list_elem_of_singleton in Hq as ->. apply nx_alive. by rewrite (proj1 Hl).
  - eapply (links_alive h hd x (l ++ [hd])); [done|].
    rewrite app_comm_cons, app_comm_cons, elem_of_app. by left.
Qed.

(** Splitting a ring at a gap: [prev] is the node before it and [next] the
    node after it. *)
Lemma ring_gap hd (l1 l2 : list Z) :
  ∃ xs prev next ys, hd :: l1 = xs ++ [prev] ∧ l2 ++ [hd] = next :: ys ∧
    hd :: (l1 ++ l2) ++ [hd] = xs ++ prev :: next :: ys.
Proof.
  assert (∃ xs prev, hd :: l1 = xs ++ [prev]) as (xs & prev & E1).
  { destruct l1 as [|x l1 _] using rev_ind; [by exists [], hd|].
    by exists (hd :: l1), x. }
  assert (∃ next ys, l2 ++ [hd] = next :: ys) as (next & ys & E2).
  { destruct l2; simpl; eauto. }
  exists xs, prev, next, ys. split_and!; [done..|].
  by rewrite <- app_assoc, E2, app_comm_cons, E1, <- app_assoc.
Qed.

(** Facts about the two halves of a ring around a gap. *)
Lemma gap_facts hd (l1 l2 : list Z) xs prev next ys :
  NoDup (hd :: l1 ++ l2) → hd :: l1 = xs ++ [prev] → l2 ++ [hd] = next :: ys →
  (∀ q, q ∈ xs → q ≠ prev) ∧ (∀ q, q ∈ l1 → q ≠ next) ∧
  (∀ q, q ∈ l2 → q ≠ prev) ∧ (∀ q, q ∈ ys → q ≠ next) ∧
  prev ∈ hd :: l1 ∧ next ∈ hd :: l2 ∧
  (∀ q, q ∈ xs → q ∈ hd :: l1) ∧ (∀ q, q ∈ ys → q ∈ hd :: l2).
Proof.
  intros Hnd E1 E2.
  assert (NoDup (xs ++ [prev])) as N1.
  { rewrite <- E1. apply NoDup_cons in Hnd as [Hh Hnd].
    apply NoDup_app in Hnd as (? & _ & _). apply NoDup_cons. set_solver. }
  assert (NoDup (next :: ys)) as N2.
  { rewrite <- E2. apply NoDup_cons in Hnd as [Hh Hnd].
    apply NoDup_app in Hnd as (_ & _ & ?). apply NoDup_app. set_solver by apply NoDup_singleton. }
  assert (prev ∈ hd :: l1) by (rewrite E1; set_solver).
  assert (next ∈ l2 ++ [hd]) by (rewrite E2; set_solver).
  assert (∀ q, q ∈ xs → q ∈ hd :: l1) by (intros; rewrite E1; set_solver).
  assert (∀ q, q ∈ ys → q ∈ l2 ++ [hd]) by (intros; rewrite E2; set_solver).
  apply NoDup_app in N1 as (_ & N1 & _). apply NoDup_cons in N2 as [N2 _].
  apply NoDup_cons in Hnd as [Hh (_ & Hd & _)%NoDup_app].
  split_and!; set_solver.
Qed.

(** Inserting at a gap. *)
Lemma ring_insert h hd l1 l2 nnew prev next xs ys :
  dlist h hd (l1 ++ l2) → nnew ∉ hd :: l1 ++ l2 → is_Some (h !! nnew) →
  hd :: l1 = xs ++ [prev] → l2 ++ [hd] = next :: ys →
  ∃ h', __list_add nnew prev next h = Ret (tt, h') ∧
        dlist h' hd (l1 ++ nnew :: l2) ∧
        (∀ q, q ∉ nnew :: hd :: l1 ++ l2 → h' !! q = h !! q) ∧
        (∀ q, is_Some (h !! q) → is_Some (h' !! q)).
Proof.
  intros Hd Hnew Ha E1 E2. pose proof Hd as [Hnd Hl].
  destruct (gap_facts _ _ _ _ _ _ _ Hnd E1 E2) as (F1 & F2 & F3 & F4 & Fp & Fn & Fx & Fy).
  destruct (__list_add_runs h nnew prev next) as (h' & E & Hn & Hp & Hf & Hal);
    [done|eapply dlist_alive; [done|set_solver]..|].
  exists h'. split_and!; [done| |set_solver|done]. split.
  { apply NoDup_cons in Hnd as [? ?]. apply NoDup_cons. split; [set_solver|].
    rewrite <- Permutation_middle. apply NoDup_cons. set_solver. }
  assert (hd :: (l1 ++ nnew :: l2) ++ [hd] = xs ++ prev :: nnew :: next :: ys) as ->.
  { rewrite <- app_assoc, app_comm_cons, E1, <- app_assoc. simpl. by rewrite <- E2. }
  rewrite <- app_assoc, E2, app_comm_cons, E1, <- app_assoc in Hl.
  simpl in Hl. apply links_app in Hl as (Hl1 & _ & _ & Hl2).
  apply links_app. split.
  - apply (links_frame h); [done| |]; intros q Hq.
    + rewrite removelast_last in Hq. rewrite Hn, !upd_ne; set_solver.
    + rewrite <- E1 in Hq. simpl in Hq. rewrite Hp, !upd_ne; set_solver.
  - rewrite !links_cons2, Hn, Hp, upd_eq, upd_eq, Hn, Hp.
    rewrite (upd_ne _ prev), upd_eq, (upd_ne _ nnew), upd_eq by set_solver.
    split_and!; [done..|]. apply (links_frame h); [done| |]; intros q Hq.
    + rewrite <- E2, removelast_last in Hq. rewrite Hn, !upd_ne; set_solver.
    + simpl in Hq. rewrite Hp, !upd_ne; set_solver.
Qed.

(** Unlinking the node of a ring at a gap. *)
Lemma ring_unlink h hd l1 x l2 prev next xs ys :
  dlist h hd (l1 ++ x :: l2) → hd :: l1 = xs ++ [prev] → l2 ++ [hd] = next :: ys →
  nx h x = Some next ∧ pv h x = Some prev ∧
  ∃ h', __list_del prev next h = Ret (tt, h') ∧ dlist h' hd (l1 ++ l2) ∧
        (∀ q, q ∉ hd :: l1 ++ l2 → h' !! q = h !! q) ∧
        (∀ q, is_Some (h !! q) → is_Some (h' !! q)).
Proof.
  intros Hd E1 E2. pose proof Hd as [Hnd Hl].
  assert ((x ∉ hd :: l1 ++ l2) ∧ NoDup (hd :: l1 ++ l2)) as [Hx Hnd'].
  { rewrite <- Permutation_middle, Permutation_swap in Hnd.
    by apply NoDup_cons in Hnd. }
  destruct (gap_facts _ _ _ _ _ _ _ Hnd' E1 E2) as (F1 & F2 & F3 & F4 & Fp & Fn & Fx & Fy).
  assert (hd :: (l1 ++ x :: l2) ++ [hd] = xs ++ prev :: x :: next :: ys) as El.
  { rewrite <- app_assoc, app_comm_cons, E1, <- app_assoc. simpl. by rewrite <- E2. }
  rewrite El in Hl. apply links_app in Hl as (Hl1 & _ & Px & Nx & _ & Hl2).
  destruct (__list_del_runs h prev next) as (h' & E & Hn & Hp & Hf & Hal);
    [eapply dlist_alive; [done|set_solver]..|].
  split_and!; [done..|]. exists h'. split_and!; [done| |set_solver|done]. split; [done|].
  rewrite <- app_assoc, E2, app_comm_cons, E1, <- app_assoc. simpl.
  apply links_app. split.
  - apply (links_frame h); [done| |]; intros q Hq.
    + rewrite removelast_last in Hq. rewrite Hn, !upd_ne; set_solver.
    + rewrite <- E1 in Hq. simpl in Hq. rewrite Hp, !upd_ne; set_solver.
  - rewrite links_cons2, Hn, Hp, upd_eq, upd_eq. split_and!; [done..|].
    apply (links_frame h); [done| |]; intros q Hq.
    + rewrite <- E2, removelast_last in Hq. rewrite Hn, !upd_ne; set_solver.
    + simpl in Hq. rewrite Hp, !upd_ne; set_solver.
Qed.

(** ** Families of disjoint rings

    [m] maps the head of each ring to its nodes. *)
Abbreviation lists := (gmap Z (list Z)).

Definition detached (m : lists) (x : Z) : Prop :=
  ∀ hd l, m !! hd = Some l → x ∉ hd :: l.

Definition lists_rep (h : lheap) (m : lists) : Prop :=
  (∀ hd l, m !! hd = Some l → dlist h hd l) ∧
  (∀ hd1 hd2 l1 l2 q, m !! hd1 = Some l1 → m !! hd2 = Some l2 → hd1 ≠ hd2 →
     q ∈ hd1 :: l1 → q ∉ hd2 :: l2).

(** The list operations that the pointer programs implement. *)
Definition abs_add (x hd : Z) (m : lists) : lists := alter (cons x) hd m.
Definition abs_add_tail (x hd : Z) (m : lists) : lists :=
  alter (λ l, l ++ [x]) hd m.
Definition abs_del (x : Z) (m : lists) : lists := list_remove_one x <$> m.
Definition abs_splice (list head : Z) (m : lists) : lists :=
  delete list (alter (λ l, default [] (m !! list) ++ l) head m).

Lemma dlist_frame h h' hd l :
  dlist h hd l → (∀ q, q ∈ hd :: l → h' !! q = h !! q) → dlist h' hd l.
Proof.
  intros [Hnd Hl] Hf. split; [done|]. apply (links_frame h); [done| |]; intros q Hq.
  - unfold nx. rewrite Hf; [done|].
    rewrite app_comm_cons, removelast_last in Hq. done.
  - unfold pv. rewrite Hf; [done|]. simpl in Hq. set_solver.
Qed.

(** Rewriting one ring of a family inside its own footprint. *)
Lemma lists_rep_update h h' m hd l l' :
  lists_rep h m → m !! hd = Some l → dlist h' hd l' →
  (∀ q, q ∈ l' → q ∈ l ∨ detached m q) →
  (∀ q, q ∉ hd :: l → ¬ detached m q → h' !! q = h !! q) →
  lists_rep h' (<[hd := l']> m).
Proof.
  intros [Hr Hdis] Hm Hd' Hin Hf. split.
  - intros hd2 l2 [(-> & ->)|(Hne & H2)]%lookup_insert_Some; [done|].
    apply (dlist_frame h); [by apply Hr|]. intros q Hq. apply Hf.
    + eapply Hdis; [exact H2|exact Hm| |]; done.
    + intros Hdet. by apply (Hdet hd2 l2).
  - intros hd1 hd2 l1 l2 q [(<- & <-)|(Hne1 & H1)]%lookup_insert_Some
      [(<- & <-)|(Hne2 & H2)]%lookup_insert_Some Hne Hq; [done| | |eauto].
    + destruct (decide (q ∈ hd :: l)) as [Hq'|Hq'];
        [exact (Hdis hd hd2 l l2 q Hm H2 Hne Hq')|].
      apply elem_of_cons in Hq as [->|Hq]; [by destruct Hq'; apply list_elem_of_here|].
      destruct (Hin q Hq) as [?|Hdet]; [|exact (Hdet hd2 l2 H2)].
      destruct Hq'. by apply list_elem_of_further.
    + apply not_elem_of_cons.
      pose proof (Hdis hd1 hd l1 l q H1 Hm Hne Hq) as [? Hl]%not_elem_of_cons.
      split; [done|]. intros Hq2. destruct (Hin q Hq2) as [?|Hdet]; [done|].
      by apply (Hdet hd1 l1).
Qed.

Lemma alter_insert_eq (f : list Z → list Z) hd (m : lists) l :
  m !! hd = Some l → alter f hd m = <[hd := f l]> m.
Proof.
  intros Hm. apply map_eq. intros i. destruct (decide (i = hd)) as [->|].
  - by rewrite lookup_alter_eq, lookup_insert_eq, Hm.
  - by rewrite lookup_alter_ne, lookup_insert_ne.
Qed.

Lemma load_run h p n : h !! p = Some n → load p h = Ret (n, h).
Proof. intros H. unfold load. by rewrite H. Qed.

Lemma load_nx h p v : nx h p = Some v → ∃ n, load p h = Ret (n, h) ∧ lh_next n = v.
Proof.
  unfold nx. intros (n & Hn & ->)%fmap_Some. exists n. by rewrite (load_run _ _ n).
Qed.
Lemma load_pv h p v : pv h p = Some v → ∃ n, load p h = Ret (n, h) ∧ lh_prev n = v.
Proof.
  unfold pv. intros (n & Hn & ->)%fmap_Some. exists n. by rewrite (load_run _ _ n).
Qed.

Lemma lists_rep_insert h m hd l1 l2 x prev next xs ys :
  lists_rep h m → m !! hd = Some (l1 ++ l2) → detached m x → is_Some (h !! x) →
  hd :: l1 = xs ++ [prev] → l2 ++ [hd] = next :: ys →
  ∃ h', __list_add x prev next h = Ret (tt, h') ∧
        lists_rep h' (<[hd := l1 ++ x :: l2]> m).
Proof.
  intros Hr Hm Hx Ha E1 E2.
  destruct (ring_insert h hd l1 l2 x prev next xs ys) as (h' & E & Hd & Hf & _);
    [by apply Hr|by apply Hx|done..|].
  exists h'. split; [done|]. eapply lists_rep_update; [done..| |].
  - intros q Hq. destruct (decide (q = x)) as [->|]; [by right|left; set_solver].
  - intros q Hq Hdet. apply Hf. apply not_elem_of_cons. split; [by intros ->|done].
Qed.

(** ** Refinement: the pointer programs implement the list operations *)

Lemma list_add_refines h m x hd :
  lists_rep h m → is_Some (m !! hd) → detached m x → is_Some (h !! x) →
  ∃ h', list_add x hd h = Ret (tt, h') ∧ lists_rep h' (abs_add x hd m).
Proof.
  intros Hr [l Hm] Hx Ha. unfold abs_add. rewrite (alter_insert_eq _ _ _ l) by done.
  destruct (l ++ [hd]) as [|next ys] eqn:E2; [by destruct l|].
  destruct (lists_rep_insert h m hd [] l x hd next [] ys) as (h' & E & Hr'); [done..|].
  exists h'. split; [|done]. destruct (proj1 Hr hd l Hm) as [_ Hl].
  rewrite E2 in Hl. destruct Hl as (Hn & _).
  apply load_nx in Hn as (n & Hn & <-). unfold list_add. by rewrite (bind_ret _ _ _ _ _ Hn).
Qed.

Lemma snoc_view (hd : Z) l : ∃ xs prev, hd :: l = xs ++ [prev].
Proof.
  destruct l as [|x l _] using rev_ind; [by exists [], hd|]. by exists (hd :: l), x.
Qed.

Lemma list_add_tail_refines h m x hd :
  lists_rep h m → is_Some (m !! hd) → detached m x → is_Some (h !! x) →
  ∃ h', list_add_tail x hd h = Ret (tt, h') ∧ lists_rep h' (abs_add_tail x hd m).
Proof.
  intros Hr [l Hm] Hx Ha. unfold abs_add_tail. rewrite (alter_insert_eq _ _ _ l) by done.
  destruct (snoc_view hd l) as (xs & prev & E1).
  destruct (lists_rep_insert h m hd l [] x prev hd xs []) as (h' & E & Hr');
    [done|by rewrite app_nil_r|done..|].
  exists h'. split; [|done]. destruct (proj1 Hr hd l Hm) as [_ Hl].
  rewrite app_comm_cons, E1, <- app_assoc in Hl.
  apply links_app in Hl as (_ & _ & Hp & _).
  apply load_pv in Hp as (n & Hn & <-). unfold list_add_tail.
  by rewrite (bind_ret _ _ _ _ _ Hn).
Qed.

Lemma abs_del_split m hd l1 x l2 h :
  lists_rep h m → m !! hd = Some (l1 ++ x :: l2) →
  abs_del x m = <[hd := l1 ++ l2]> m.
Proof.
  intros [Hr Hdis] Hm. apply map_eq. intros i. unfold abs_del. rewrite lookup_fmap.
  pose proof (proj1 (Hr _ _ Hm)) as Hnd.
  destruct (decide (i = hd)) as [->|Hi].
  - rewrite lookup_insert_eq, Hm. simpl. f_equal. apply list_remove_one_split.
    by apply NoDup_cons in Hnd as [_ ?].
  - rewrite lookup_insert_ne by done. destruct (m !! i) as [l|] eqn:Ei; [|done].
    simpl. f_equal. apply list_remove_one_notin.
    pose proof (Hdis hd i _ l x Hm Ei). set_solver.
Qed.

(** Unlinking, without the stores to the unlinked node. *)
Lemma lists_rep_unlink h m hd l x :
  lists_rep h m → m !! hd = Some l → x ∈ l →
  ∃ n h', load x h = Ret (n, h) ∧ __list_del (lh_prev n) (lh_next n) h = Ret (tt, h') ∧
    lists_rep h' (abs_del x m) ∧ detached (abs_del x m) x ∧ is_Some (h' !! x).
Proof.
  intros Hr Hm (l1 & l2 & ->)%list_elem_of_split.
  rewrite (abs_del_split m hd l1 x l2 h) by done.
  destruct (ring_gap hd l1 l2) as (xs & prev & next & ys & E1 & E2 & _).
  pose proof (proj1 Hr _ _ Hm) as Hd.
  destruct (ring_unlink h hd l1 x l2 prev next xs ys)
    as (Hn & Hp & h' & E & Hd' & Hf & Ha); [done..|].
  assert (is_Some (h !! x)) as [n Hx]. { apply nx_alive. by rewrite Hn. }
  unfold nx in Hn. unfold pv in Hp. rewrite Hx in Hn, Hp. simplify_eq/=.
  exists n, h'. split_and!; [by apply load_run|done| | |eauto].
  - eapply lists_rep_update; [done..| |]; [set_solver|].
    intros q Hq _. apply Hf. set_solver.
  - intros hd' l' [(<- & <-)|(Hne & H2)]%lookup_insert_Some.
    + destruct Hd as [Hnd _]. rewrite <- Permutation_middle in Hnd.
      rewrite Permutation_swap in Hnd. by apply NoDup_cons in Hnd as [? _].
    + apply (proj2 Hr hd hd' _ _ x Hm H2); [done|set_solver].
Qed.

(** Stores to a detached node do not disturb the family. *)
Lemma lists_rep_detached h h' m x :
  lists_rep h m → detached m x → (∀ q, q ≠ x → h' !! q = h !! q) → lists_rep h' m.
Proof.
  intros [Hr Hdis] Hx Hf. split; [|done]. intros hd l Hm.
  apply (dlist_frame h); [by apply Hr|]. intros q Hq. apply Hf. intros ->.
  by apply (Hx hd l).
Qed.

Lemma list_del_refines h m x hd l :
  lists_rep h m → m !! hd = Some l → x ∈ l →
  ∃ h', list_del x h = Ret (tt, h') ∧ lists_rep h' (abs_del x m) ∧
        detached (abs_del x m) x ∧ h' !! x = Some (ListHead 0 0).
Proof.
  intros Hr Hm Hx. destruct (lists_rep_unlink h m hd l x) as
    (n & h1 & El & Ed & Hr1 & Hdet & [n1 Hn1]); [done..|].
  exists (<[x := ListHead 0 0]> h1). split_and!;
    [|by eapply lists_rep_detached; [..|intros; by rewrite lookup_insert_ne]|done|].
  - unfold list_del. rewrite (bind_ret _ _ _ _ _ El), (bind_ret _ _ _ _ _ Ed).
    unfold set_prev, set_next, mbind, M_bind, load. rewrite Hn1. simpl.
    rewrite lookup_insert_eq. simpl. unfold modify. by rewrite insert_insert_eq.
  - by rewrite lookup_insert_eq.
Qed.

Lemma lists_rep_new h m x :
  lists_rep h m → detached m x → lists_rep (<[x := ListHead x x]> h) (<[x := []]> m).
Proof.
  intros Hr Hx.
  assert (lists_rep (<[x := ListHead x x]> h) m) as [Hr' Hdis].
  { apply (lists_rep_detached h _ m x); [done..|]. intros. by rewrite lookup_insert_ne. }
  split.
  - intros hd l [(<- & <-)|(? & ?)]%lookup_insert_Some; [|by apply Hr'].
    split; [apply NoDup_singleton|]. simpl. unfold nx, pv. by rewrite lookup_insert_eq.
  - intros hd1 hd2 l1 l2 q [(<- & <-)|(? & H1)]%lookup_insert_Some
      [(<- & <-)|(? & H2)]%lookup_insert_Some Hne Hq; [done| | |eauto].
    + apply list_elem_of_singleton in Hq as ->. by apply (Hx hd2 l2).
    + intros ->%list_elem_of_singleton. by apply (Hx hd1 l1).
Qed.

Lemma INIT_LIST_HEAD_refines h m x :
  lists_rep h m → detached m x → is_Some (h !! x) →
  ∃ h', INIT_LIST_HEAD x h = Ret (tt, h') ∧ lists_rep h' (<[x := []]> m).
Proof.
  intros Hr Hx [n Hn]. exists (<[x := ListHead x x]> h).
  split; [|by apply lists_rep_new].
  unfold INIT_LIST_HEAD, set_next, set_prev, mbind, M_bind, load. rewrite Hn. simpl.
  rewrite lookup_insert_eq. simpl. unfold modify. by rewrite insert_insert_eq.
Qed.

Lemma list_del_init_refines h m x hd l :
  lists_rep h m → m !! hd = Some l → x ∈ l →
  ∃ h', list_del_init x h = Ret (tt, h') ∧ lists_rep h' (<[x := []]> (abs_del x m)).
Proof.
  intros Hr Hm Hx. destruct (lists_rep_unlink h m hd l x) as
    (n & h1 & El & Ed & Hr1 & Hdet & Ha1); [done..|].
  destruct (INIT_LIST_HEAD_refines h1 (abs_del x m) x) as (h' & E & Hr'); [done..|].
  exists h'. split; [|done]. unfold list_del_init.
  by rewrite (bind_ret _ _ _ _ _ El), (bind_ret _ _ _ _ _ Ed).
Qed.

Lemma dlist_first h hd l next ys :
  dlist h hd l → l ++ [hd] = next :: ys → nx h hd = Some next.
Proof. intros [_ Hl] E. rewrite E in Hl. apply Hl. Qed.

Lemma list_empty_spec h hd l :
  dlist h hd l → list_empty hd h = Ret (bool_decide (l = []), h).
Proof.
  intros Hd. destruct (l ++ [hd]) as [|next ys] eqn:E; [by destruct l|].
  pose proof (dlist_first _ _ _ _ _ Hd E) as Hn.
  apply load_nx in Hn as (n & Hn & Hnx). unfold list_empty.
  rewrite (bind_ret _ _ _ _ _ Hn), Hnx. unfold mret, M_ret.
  destruct l as [|x l]; simplify_eq/=.
  - by rewrite Z.eqb_refl.
  - destruct Hd as [Hnd _]. apply NoDup_cons in Hnd as [Hh _].
    apply not_elem_of_cons in Hh as [Hh _]. apply not_eq_sym, Z.eqb_neq in Hh. by rewrite Hh.
Qed.

(** The loop visits the nodes of the ring in order and ends. *)
Lemma list_for_each_from_spec h hd l fuel pos ys :
  links h (l ++ [hd]) → hd ∉ l → l ++ [hd] = pos :: ys → (length l < fuel)%nat →
  list_for_each_from fuel pos hd h = Ret (l, h).
Proof.
  revert pos ys fuel. induction l as [|x l IH]; intros pos ys fuel Hl Hh E Hf;
    (destruct fuel as [|fuel]; [lia|]); simplify_eq/=; [by rewrite Z.eqb_refl|].
  apply not_elem_of_cons in Hh as [Hne Hh].
  rewrite (proj2 (Z.eqb_neq pos hd)) by done.
  destruct (l ++ [hd]) as [|next zs] eqn:E2; [by destruct l|].
  destruct Hl as (Hn & _ & Hl). apply load_nx in Hn as (n & Hn & Hnx).
  rewrite (bind_ret _ _ _ _ _ Hn), Hnx.
  erewrite bind_ret; [done|]. eapply IH; eauto. simpl in Hf; lia.
Qed.

Lemma list_for_each_spec h hd l fuel :
  dlist h hd l → (length l < fuel)%nat → list_for_each fuel hd h = Ret (l, h).
Proof.
  intros Hd Hf. destruct (l ++ [hd]) as [|next ys] eqn:E; [by destruct l|].
  pose proof (dlist_first _ _ _ _ _ Hd E) as Hn. destruct Hd as [Hnd Hl].
  apply load_nx in Hn as (n & Hn & Hnx). unfold list_for_each.
  rewrite (bind_ret _ _ _ _ _ Hn), Hnx. eapply list_for_each_from_spec; eauto.
  - rewrite E in *. apply Hl.
  - by apply NoDup_cons in Hnd as [? _].
Qed.

Lemma links_sub h a xs b : links h (a :: xs ++ [b]) → links h xs.
Proof.
  destruct xs as [|y xs _] using rev_ind; [done|].
  rewrite <- app_assoc, app_comm_cons. intros [Hl _]%links_app.
  destruct xs as [|x xs]; [done|]. apply Hl.
Qed.

Lemma list_splice_runs h list head first last at_ :
  is_Some (h !! first) → is_Some (h !! last) → is_Some (h !! at_) →
  h !! list = Some (ListHead first last) → first ≠ list → nx h head = Some at_ →
  runs (list_splice list head) h (upd (upd (nx h) head first) last at_)
    (upd (upd (pv h) first head) at_ last) [first; head; last; at_].
Proof.
  intros Hf Hl Ha Hlist Hne Hh.
  assert (is_Some (h !! head)) by (apply nx_alive; by rewrite Hh).
  apply load_nx in Hh as (n & Hn & Hnx).
  assert (runs (set_prev first head;; set_next head first;; set_next last at_;;
                set_prev at_ last) h (upd (upd (nx h) head first) last at_)
    (upd (upd (pv h) first head) at_ last) [first; head; last; at_]) as (h' & E & ?).
  { change [first; head; last; at_] with ([first] ++ [head] ++ [last] ++ [at_]).
    run_stores. }
  exists h'. split; [|done]. unfold list_splice.
  rewrite (bind_ret _ _ _ _ _ (load_run _ _ _ Hlist)). simpl.
  rewrite (proj2 (Z.eqb_neq first list)) by done.
  rewrite (bind_ret _ _ _ _ _ Hn), Hnx. done.
Qed.

Lemma dlist_splice h list head first last at_ ll l xs tl ys :
  dlist h list ll → dlist h head l → ll = first :: tl → ll = xs ++ [last] →
  l ++ [head] = at_ :: ys → (∀ q, q ∈ list :: ll → q ∉ head :: l) →
  ∃ h', list_splice list head h = Ret (tt, h') ∧ dlist h' head (ll ++ l) ∧
        (∀ q, q ∉ head :: l → q ∉ ll → h' !! q = h !! q).
Proof.
  intros Hd1 Hd2 E1 E2 E3 Hdis. pose proof Hd1 as [N1 L1]. pose proof Hd2 as [N2 L2].
  assert (at_ ∈ l ++ [head]) by (rewrite E3; set_solver).
  assert (∀ q, q ∈ ys → q ∈ l ++ [head]) by (rewrite E3; set_solver).
  assert (first ∈ ll ∧ last ∈ ll) as [? ?] by (split; [rewrite E1|rewrite E2]; set_solver).
  assert (h !! list = Some (ListHead first last)) as Hlist.
  { assert (nx h list = Some first) as Hn by (rewrite E1 in L1; apply L1).
    assert (pv h list = Some last) as Hp.
    { rewrite E2, <- app_assoc, app_comm_cons in L1. apply links_app in L1. apply L1. }
    unfold nx, pv in *. destruct (h !! list) as [[a b]|]; by simplify_eq/=. }
  destruct (list_splice_runs h list head first last at_) as (h' & E & Hn & Hp & Hf & _);
    [apply (dlist_alive h list ll); [done|set_solver]
    |apply (dlist_alive h list ll); [done|set_solver]
    |apply (dlist_alive h head l); [done|set_solver]|done| | |].
  { intros ->. by apply NoDup_cons in N1 as [? _]. }
  { by eapply dlist_first. }
  assert (∀ q q', q ∈ ll → q' ∈ head :: l → q ≠ q') as D.
  { clear -Hdis. intros q q' Hq Hq' ->. apply (Hdis q'); [set_solver|done]. }
  assert (at_ ∈ head :: l) as Hat by (clear -H; set_solver).
  assert (∀ q, q ∈ ys → q ∈ head :: l) as Hys by (clear -H0; set_solver).
  assert (head ∈ head :: l) as Hhd by apply list_elem_of_here.
  exists h'. split_and!; [done| |intros q Hq1 Hq2; apply Hf; clear -Hq1 Hq2 Hat H1 H2; set_solver].
  apply NoDup_cons in N1 as [N1h N1]. apply NoDup_cons in N2 as [N2h N2].
  assert (NoDup (xs ++ [last])) as (_ & F1 & _)%NoDup_app by (by rewrite <- E2).
  assert (NoDup (first :: tl)) as [F2 _]%NoDup_cons by (by rewrite <- E1).
  assert (NoDup (at_ :: ys)) as [F3 _]%NoDup_cons.
  { rewrite <- E3. apply NoDup_app. split_and!; [done|set_solver|apply NoDup_singleton]. }
  split.
  { apply NoDup_cons. split; [clear -D N2h; set_solver|]. apply NoDup_app.
    split_and!; [done|clear -D; set_solver|done]. }
  assert (head :: (ll ++ l) ++ [head] = (head :: xs) ++ last :: at_ :: ys) as ->.
  { rewrite <- app_assoc, E3, E2, <- app_assoc. done. }
  assert (∀ q, q ∈ xs → q ∈ ll ∧ q ≠ last) as Hxs.
  { clear -E2 F1. intros q Hq. split; [rewrite E2; set_solver|]. intros ->.
    apply (F1 last Hq). apply list_elem_of_here. }
  assert (∀ q, q ∈ tl → q ∈ ll ∧ q ≠ first) as Htl.
  { clear -E1 F2. intros q Hq. split; [rewrite E1; set_solver|]. by intros ->. }
  apply links_app. split.
  - change ((head :: xs) ++ [last]) with (head :: (xs ++ [last])).
    rewrite <- E2, E1, links_cons2, Hn, Hp, <- E1.
    rewrite upd_ne, upd_eq, upd_ne, upd_eq by first [by apply D | apply not_eq_sym; by apply D].
    split_and!; [done..|].
    apply (links_frame h); [by eapply links_sub| |]; intros q Hq.
    + rewrite E2, removelast_last in Hq. apply Hxs in Hq as [Hq Hql].
      rewrite Hn, !upd_ne; [done|by apply D|done].
    + rewrite E1 in Hq. apply Htl in Hq as [Hq Hqf].
      rewrite Hp, !upd_ne; [done|done|by apply D].
  - rewrite links_cons2, Hn, Hp, !upd_eq. split_and!; [done..|].
    apply (links_frame h).
    + rewrite E3 in L2. apply L2.
    + intros q Hq. rewrite <- E3, removelast_last in Hq. rewrite Hn, !upd_ne;
        [done|by intros ->|apply not_eq_sym, D; [done|by apply list_elem_of_further]].
    + intros q Hq. simpl in Hq. rewrite Hp, !upd_ne;
        [done|apply not_eq_sym, D; [done|by apply Hys]|by intros ->].
Qed.

Lemma lists_rep_delete h m hd : lists_rep h m → lists_rep h (delete hd m).
Proof.
  intros [Hr Hdis]. split.
  - intros hd' l [_ ?]%lookup_delete_Some. by apply Hr.
  - intros hd1 hd2 l1 l2 q [_ ?]%lookup_delete_Some [_ ?]%lookup_delete_Some. eauto.
Qed.

Lemma list_splice_refines h m list head ll l :
  lists_rep h m → m !! list = Some ll → m !! head = Some l → list ≠ head →
  ∃ h', list_splice list head h = Ret (tt, h') ∧ lists_rep h' (abs_splice list head m).
Proof.
  intros Hr H1 H2 Hne. unfold abs_splice. rewrite H1, (alter_insert_eq _ _ _ l) by done.
  simpl. destruct ll as [|first tl].
  - exists h. split.
    + pose proof (dlist_first h list [] list [] (proj1 Hr _ _ H1) eq_refl) as Hn.
      apply load_nx in Hn as (n & Hn & Hnx). unfold list_splice.
      rewrite (bind_ret _ _ _ _ _ Hn), Hnx, Z.eqb_refl. done.
    + simpl. rewrite insert_id by done. by apply lists_rep_delete.
  - destruct (snoc_view first tl) as (xs & last & E2).
    destruct (l ++ [head]) as [|at_ ys] eqn:E3; [by destruct l|].
    destruct (dlist_splice h list head first last at_ (first :: tl) l xs tl ys)
      as (h' & E & Hd & Hf); [by apply Hr..|done|done|done| |].
    { intros q Hq. by apply (proj2 Hr list head _ _ q H1 H2). }
    exists h'. split; [done|]. rewrite delete_insert_ne by done.
    assert (lists_rep h (delete list m)) as Hr' by by apply lists_rep_delete.
    assert (∀ q, q ∈ first :: tl → detached (delete list m) q) as Hdet.
    { intros q Hq hd' l' [Hne' Hl']%lookup_delete_Some.
      apply (proj2 Hr list hd' _ _ q H1 Hl'); [done|]. by apply list_elem_of_further. }
    eapply (lists_rep_update h _ _ head l); [done|by rewrite lookup_delete_ne|done| |].
    + intros q [Hq|Hq]%elem_of_app; [right|by left]. by apply Hdet.
    + intros q Hq Hnd. apply Hf; [done|]. intros Hq'. by apply Hnd, Hdet.
Qed.

(** ** Runs of operations

    The programs neither allocate nor free: the memory that holds the nodes is
    the same before and after. *)
Definition same_nodes (h h' : lheap) : Prop := dom h' = dom h.
#[local] Instance same_nodes_preorder : PreOrder same_nodes.
Proof. split; [done|]. unfold same_nodes. intros h1 h2 h3 -> ->. done. Qed.
Abbreviation keeps := (within same_nodes).

Lemma keeps_load p : keeps (load p).
Proof. intros h a h'. unfold load. by destruct (h !! p) as [n|]; [intros [= <- <-]|]. Qed.
Lemma keeps_write (p : Z) (f : list_head → list_head) :
  keeps (n ← load p; modify (<[p := f n]>)).
Proof.
  intros h [] h' (n & h1 & E1 & E2)%bind_inv. unfold load in E1.
  destruct (h !! p) as [n'|] eqn:E; [|done]. injection E1 as -> ->. injection E2 as <-.
  unfold same_nodes. rewrite dom_insert_lookup_L; eauto.
Qed.
Lemma keeps_set_next p v : keeps (set_next p v).
Proof. apply (keeps_write p (λ n, ListHead v (lh_prev n))). Qed.
Lemma keeps_set_prev p v : keeps (set_prev p v).
Proof. apply (keeps_write p (λ n, ListHead (lh_next n) v)). Qed.
#[export] Hint Resolve keeps_load keeps_set_next keeps_set_prev : within.
#[local] Hint Resolve same_nodes_preorder : within.

Inductive list_op :=
  | LInit (x : Z)
  | LAdd (x hd : Z)
  | LAddTail (x hd : Z)
  | LDel (x : Z)
  | LDelInit (x : Z)
  | LSplice (l hd : Z).

Definition list_step (o : list_op) : M lheap unit :=
  match o with
  | LInit x => INIT_LIST_HEAD x
  | LAdd x hd => list_add x hd
  | LAddTail x hd => list_add_tail x hd
  | LDel x => list_del x
  | LDelInit x => list_del_init x
  | LSplice l hd => list_splice l hd
  end.

Lemma list_step_keeps o : keeps (list_step o).
Proof.
  destruct o; simpl; unfold INIT_LIST_HEAD, list_add, list_add_tail, list_del, list_del_init,
    list_splice, __list_add, __list_del; eauto 15 with ohc within.
Qed.

Fixpoint list_run (os : list list_op) : M lheap unit :=
  match os with [] => mret tt | o :: os => list_step o;; list_run os end.

(** The same run on sequences, [None] when a caller breaks the contract: a
    node is added or initialised while it is linked or a head, a node deleted
    that is in no list, a list spliced onto itself, a node that is not in the
    memory [A]. *)
#[global] Instance detached_dec (m : lists) x : Decision (detached m x).
Proof.
  refine (cast_if (decide (map_Forall (λ hd l, x ∉ hd :: l) m))); abstract (unfold detached; done).
Defined.

Definition in_list (m : lists) (x : Z) : bool := bool_decide (map_Exists (λ _ l, x ∈ l) m).

Definition seq_step (A : gset Z) (o : list_op) (m : lists) : option lists :=
  match o with
  | LInit x => if decide (detached m x ∧ x ∈ A) then Some (<[x := []]> m) else None
  | LAdd x hd =>
      if decide (is_Some (m !! hd) ∧ detached m x ∧ x ∈ A) then Some (abs_add x hd m) else None
  | LAddTail x hd =>
      if decide (is_Some (m !! hd) ∧ detached m x ∧ x ∈ A) then Some (abs_add_tail x hd m) else None
  | LDel x => if in_list m x then Some (abs_del x m) else None
  | LDelInit x => if in_list m x then Some (<[x := []]> (abs_del x m)) else None
  | LSplice l hd =>
      if decide (is_Some (m !! l) ∧ is_Some (m !! hd) ∧ l ≠ hd)
      then Some (abs_splice l hd m) else None
  end.
Fixpoint seq_run (A : gset Z) (os : list list_op) (m : lists) : option lists :=
  match os with [] => Some m | o :: os => m ← seq_step A o m; seq_run A os m end.

Lemma list_step_refines A o h m m' :
  lists_rep h m → A ⊆ dom h → seq_step A o m = Some m' →
  ∃ h', list_step o h = Ret (tt, h') ∧ lists_rep h' m'.
Proof.
  intros Hr HA. assert (∀ x, x ∈ A → is_Some (h !! x)) as Hd by (intros x Hx; by apply elem_of_dom, HA).
  destruct o; simpl; unfold in_list.
  - case_decide as Hc; [|done]. intros [= <-]. destruct Hc. by apply INIT_LIST_HEAD_refines; auto.
  - case_decide as Hc; [|done]. intros [= <-]. destruct Hc as (? & ? & ?). by apply list_add_refines; auto.
  - case_decide as Hc; [|done]. intros [= <-]. destruct Hc as (? & ? & ?). by apply list_add_tail_refines; auto.
  - case_bool_decide as Hc; [|done]. intros [= <-]. destruct Hc as (hd & l & Hl & Hx).
    destruct (list_del_refines h m x hd l Hr Hl Hx) as (h' & ? & ? & _). eauto.
  - case_bool_decide as Hc; [|done]. intros [= <-]. destruct Hc as (hd & l & Hl & Hx).
    by apply (list_del_init_refines h m x hd l).
  - case_decide as Hc; [|done]. intros [= <-]. destruct Hc as ([ll ?] & [l' ?] & ?).
    by apply (list_splice_refines h m l hd ll l').
Qed.

Lemma list_run_rep A os h m m' :
  lists_rep h m → A ⊆ dom h → seq_run A os m = Some m' →
  ∃ h', list_run os h = Ret (tt, h') ∧ lists_rep h' m'.
Proof.
  revert h m. induction os as [|o os IH]; intros h m Hr HA; cbn [list_run seq_run].
  - intros [= <-]. by exists h.
  - destruct (seq_step A o m) as [m1|] eqn:E; [|done]. cbn [mbind option_bind]. intros E2.
    destruct (list_step_refines A o h m m1 Hr HA E) as (h1 & E1 & Hr1).
    destruct (IH h1 m1) as (h' & E' & Hr'); [done| |done|].
    { by rewrite (list_step_keeps o h tt h1 E1). }
    exists h'. split; [|done]. by rewrite (bind_ret _ _ _ _ _ E1).
Qed.

(** C36: list.h implements sequences.  Whatever the operations a caller runs
    on a family of disjoint rings (initialising a head, adding a node at either
    end, deleting, deleting with re-initialisation, splicing), as long as it
    keeps their contract, the pointer program runs without a fault, and the
    rings then hold, in order, what the operations on sequences give: so
    [list_for_each] visits, and [list_empty] answers. *)
Theorem list_run_refines A os h m m' :
  lists_rep h m → A ⊆ dom h → seq_run A os m = Some m' →
  ∃ h', list_run os h = Ret (tt, h') ∧ lists_rep h' m' ∧
    ∀ hd l, m' !! hd = Some l →
      list_for_each (S (length l)) hd h' = Ret (l, h') ∧
      list_empty hd h' = Ret (bool_decide (l = []), h').
Proof.
  intros Hr HA E. destruct (list_run_rep A os h m m') as (h' & E' & Hr'); [done..|].
  exists h'. split_and!; [done..|]. intros hd l Hl. apply Hr' in Hl.
  split; [apply list_for_each_spec; [done|lia]|by apply list_empty_spec].
Qed.

(** Rings 1 and 2 get the nodes 3, 4 and 5; 4 is deleted and 2 spliced onto 1. *)
Definition demo_heap : lheap := gset_to_gmap (ListHead 0 0) (list_to_set [1; 2; 3; 4; 5]).
Definition demo_ops : list list_op :=
  [LInit 1; LInit 2; LAdd 3 1; LAdd 4 2; LAddTail 5 2; LDel 4; LAdd 4 2; LSplice 2 1].

Lemma list_run_refines_witness :
  ∃ h', list_run demo_ops demo_heap = Ret (tt, h') ∧ list_for_each 4 1 h' = Ret ([4; 5; 3], h').
Proof.
  destruct (list_run_refines (dom demo_heap) demo_ops demo_heap ∅ {[1 := [4; 5; 3]]})
    as (h' & E & _ & Hl); [| | |exists h'; split; [exact E|by apply (Hl 1 [4; 5; 3])]].
  - split; intros ? *; rewrite lookup_empty; done.
  - done.
  - vm_compute. reflexivity.
Defined.
