(* ===== verification/HList.v ===== *)
(** * utils/list.h: hash-table lists with a single-pointer head

    The [hlist] half of list.h.  A node's [pprev] holds the address of the
    pointer that points to the node: the [first] field of a head or the [next]
    field of the node before.  The model keeps these two kinds of address apart
    ([pslot]).  [hlists_rep h m] says that the heap holds the lists [m], and the
    refinement lemmas show what the programs do to [m]. *)

From stdpp Require Import prelude fin_maps gmap.
From S2P Require Import Prelude ListHead.

(** Address of a pointer to a node. *)
Inductive pslot :=
  | PNull
  | PFirst (hd : Z)   (* &hd->first *)
  | PNext (n : Z).    (* &n->next *)

#[global] Instance pslot_eq_dec : EqDecision pslot.
Proof. solve_decision. Defined.

Record hlist_node := HNode { hn_next : Z; hn_pprev : pslot }.

Record hheap := HHeap {
  hh_nodes : gmap Z hlist_node;
  hh_heads : gmap Z Z            (* struct hlist_head: the [first] pointer *)
}.

Definition hnode_at (p : Z) : M hheap hlist_node := λ h,
  match hh_nodes h !! p with Some n => Ret (n, h) | None => Fail (bad_ptr p) end.
Definition first_of (hd : Z) : M hheap Z := λ h,
  match hh_heads h !! hd with Some f => Ret (f, h) | None => Fail (bad_ptr hd) end.

Definition set_hnext (p v : Z) : M hheap unit :=
  n ← hnode_at p;
  modify (λ h, HHeap (<[p := HNode v (hn_pprev n)]> (hh_nodes h)) (hh_heads h)).
Definition set_pprev (p : Z) (v : pslot) : M hheap unit :=
  n ← hnode_at p;
  modify (λ h, HHeap (<[p := HNode (hn_next n) v]> (hh_nodes h)) (hh_heads h)).
Definition set_first (hd v : Z) : M hheap unit :=
  _ ← first_of hd;
  modify (λ h, HHeap (hh_nodes h) (<[hd := v]> (hh_heads h))).

(** [*pprev = v] *)
Definition store_slot (s : pslot) (v : Z) : M hheap unit :=
  match s with
  | PNull => fail NullPtr
  | PFirst hd => set_first hd v
  | PNext n => set_hnext n v
  end.

(** ** The operations of list.h *)

Definition INIT_HLIST_HEAD (hd : Z) : M hheap unit := set_first hd 0.

Definition INIT_HLIST_NODE (p : Z) : M hheap unit :=
  set_hnext p 0;; set_pprev p PNull.

Definition hlist_unhashed (p : Z) : M hheap bool :=
  n ← hnode_at p; mret (bool_decide (hn_pprev n = PNull)).

Definition hlist_empty (hd : Z) : M hheap bool :=
  f ← first_of hd; mret (f =? 0).

Definition __hlist_del (p : Z) : M hheap unit :=
  n ← hnode_at p;
  let next := hn_next n in
  let pprev := hn_pprev n in
  store_slot pprev next;;
  if next =? 0 then mret tt else set_pprev next pprev.

Definition hlist_del (p : Z) : M hheap unit :=
  __hlist_del p;;
  set_hnext p 0;;
  set_pprev p PNull.

Definition hlist_del_init (p : Z) : M hheap unit :=
  u ← hlist_unhashed p;
  if u : bool then mret tt else
  __hlist_del p;;
  INIT_HLIST_NODE p.

Definition hlist_add_head (p hd : Z) : M hheap unit :=
  first ← first_of hd;
  set_hnext p first;;
  (if first =? 0 then mret tt else set_pprev first (PNext p));;
  set_first hd p;;
  set_pprev p (PFirst hd).

Definition hlist_add_before (p next : Z) : M hheap unit :=
  nn ← hnode_at next;
  set_pprev p (hn_pprev nn);;
  set_hnext p next;;
  set_pprev next (PNext p);;
  store_slot (hn_pprev nn) p.

Definition hlist_add_after (p next : Z) : M hheap unit :=
  n ← hnode_at p;
  set_hnext next (hn_next n);;
  set_hnext p next;;
  set_pprev next (PNext p);;
  nn ← hnode_at next;
  if hn_next nn =? 0 then mret tt else set_pprev (hn_next nn) (PNext next).

Definition hlist_move_list (old nnew : Z) : M hheap unit :=
  f ← first_of old;
  set_first nnew f;;
  (if f =? 0 then mret tt else set_pprev f (PFirst nnew));;
  set_first old 0.

(** [hlist_for_each]: the nodes in the order the loop visits them. *)
Fixpoint hlist_for_each_from (fuel : nat) (pos : Z) : M hheap (list Z) :=
  match fuel with
  | O => fail Undef
  | S fuel =>
      if pos =? 0 then mret [] else
      n ← hnode_at pos;
      rest ← hlist_for_each_from fuel (hn_next n);
      mret (pos :: rest)
  end.
Definition hlist_for_each (fuel : nat) (hd : Z) : M hheap (list Z) :=
  f ← first_of hd; hlist_for_each_from fuel f.

(** ** Representation *)

(** The node a pointer field points to. *)
Definition slot_val (h : hheap) (s : pslot) : option Z :=
  match s with
  | PNull => None
  | PFirst hd => hh_heads h !! hd
  | PNext n => hn_next <$> hh_nodes h !! n
  end.
Definition pprev_of (h : hheap) (p : Z) : option pslot := hn_pprev <$> hh_nodes h !! p.

Fixpoint hseg (h : hheap) (s : pslot) (l : list Z) : Prop :=
  match l with
  | [] => slot_val h s = Some 0
  | x :: l => slot_val h s = Some x ∧ x ≠ 0 ∧ pprev_of h x = Some s ∧ hseg h (PNext x) l
  end.

Definition hlist (h : hheap) (hd : Z) (l : list Z) : Prop :=
  NoDup l ∧ hseg h (PFirst hd) l.

(** *** Field-level effect of a program *)

Definition updf `{EqDecision K} {V} (f : K → option V) (k : K) (v : V) : K → option V :=
  λ j, if decide (j = k) then Some v else f j.

Lemma updf_eq `{EqDecision K} {V} (f : K → option V) k v : updf f k v k = Some v.
Proof. unfold updf. by rewrite decide_True. Qed.
Lemma updf_ne `{EqDecision K} {V} (f : K → option V) k v j : j ≠ k → updf f k v j = f j.
Proof. intros. unfold updf. by rewrite decide_False. Qed.

Lemma updf_ext `{EqDecision K} {V} (f g : K → option V) k v j :
  (∀ i, f i = g i) → updf f k v j = updf g k v j.
Proof. intros E. unfold updf. by rewrite E. Qed.

Definition hruns (c : M hheap unit) (h : hheap) (sv : pslot → option Z)
    (pp : Z → option pslot) : Prop :=
  ∃ h', c h = Ret (tt, h') ∧ (∀ s, slot_val h' s = sv s) ∧ (∀ p, pprev_of h' p = pp p).

Lemma node_alive h p :
  is_Some (pprev_of h p) ↔ is_Some (hh_nodes h !! p).
Proof. unfold pprev_of. by rewrite fmap_is_Some. Qed.
Lemma slot_next_alive h p :
  is_Some (slot_val h (PNext p)) ↔ is_Some (hh_nodes h !! p).
Proof. simpl. by rewrite fmap_is_Some. Qed.

Lemma store_slot_runs h s v :
  is_Some (slot_val h s) → hruns (store_slot s v) h (updf (slot_val h) s v) (pprev_of h).
Proof.
  destruct s as [|hd|n]; simpl.
  - by intros [? ?].
  - intros [f Hf]. eexists. split;
      [unfold set_first, first_of, mbind, M_bind; rewrite Hf; done|]. unfold updf. split; [|done].
    intros s'. case_decide; [subst; simpl; by rewrite lookup_insert_eq|].
    destruct s' as [|hd'|n]; simpl; [done| |done]. rewrite lookup_insert_ne; congruence.
  - intros [f (nd & Hn & ->)%fmap_Some]. eexists. split;
      [unfold set_hnext, hnode_at, mbind, M_bind; rewrite Hn; done|]. unfold updf, pprev_of. split.
    + intros s'. case_decide; [subst; simpl; by rewrite lookup_insert_eq|].
      destruct s' as [|hd'|n']; simpl; [done..|]. rewrite lookup_insert_ne; congruence.
    + intros p. simpl. destruct (decide (p = n)) as [->|].
      * by rewrite lookup_insert_eq, Hn.
      * by rewrite lookup_insert_ne.
Qed.

Lemma set_pprev_runs h p s :
  is_Some (hh_nodes h !! p) → hruns (set_pprev p s) h (slot_val h) (updf (pprev_of h) p s).
Proof.
  intros [n Hn]. eexists. split;
    [unfold set_pprev, hnode_at, mbind, M_bind; rewrite Hn; done|]. unfold updf, pprev_of. split.
  - intros [|hd|q]; simpl; try done. destruct (decide (q = p)) as [->|].
    + by rewrite lookup_insert_eq, Hn.
    + by rewrite lookup_insert_ne.
  - intros q. simpl. case_decide; subst.
    + by rewrite lookup_insert_eq.
    + by rewrite lookup_insert_ne.
Qed.

Lemma hruns_seq c1 c2 h sv pp sv' pp' :
  hruns c1 h sv pp →
  (∀ h1, (∀ s, slot_val h1 s = sv s) → (∀ p, pprev_of h1 p = pp p) →
         hruns c2 h1 sv' pp') →
  hruns (c1;; c2) h sv' pp'.
Proof.
  intros (h1 & E1 & Hs1 & Hp1) H2.
  destruct (H2 h1 Hs1 Hp1) as (h2 & E2 & Hs2 & Hp2).
  exists h2. split_and!; [|done..]. unfold mbind, M_bind. by rewrite E1.
Qed.

Lemma hruns_ext c h sv pp sv' pp' :
  hruns c h sv pp → (∀ s, sv s = sv' s) → (∀ p, pp p = pp' p) → hruns c h sv' pp'.
Proof.
  intros (h' & ? & Hs & Hp) Es Ep. exists h'. split_and!; [done|..]; intros x.
  - by rewrite Hs.
  - by rewrite Hp.
Qed.

Lemma hruns_skip (b : bool) c h sv pp :
  (b = true → (∀ s, slot_val h s = sv s) ∧ (∀ p, pprev_of h p = pp p)) →
  (b = false → hruns c h sv pp) →
  hruns (if b then mret tt else c) h sv pp.
Proof.
  intros H1 H2. destruct b; [|by apply H2]. exists h. split_and!; [done|by apply H1..].
Qed.

(** ** Segments *)

Fixpoint lastslot (s : pslot) (l : list Z) : pslot :=
  match l with [] => s | x :: l => lastslot (PNext x) l end.
Fixpoint hpath (h : hheap) (s : pslot) (l : list Z) : Prop :=
  match l with
  | [] => True
  | x :: l => slot_val h s = Some x ∧ x ≠ 0 ∧ pprev_of h x = Some s ∧ hpath h (PNext x) l
  end.

Lemma hseg_app h s l1 l2 :
  hseg h s (l1 ++ l2) ↔ hpath h s l1 ∧ hseg h (lastslot s l1) l2.
Proof. revert s. induction l1 as [|x l1 IH]; intros s; simpl; [tauto|]. rewrite IH. tauto. Qed.

Lemma lastslot_in s l : lastslot s l = s ∧ l = [] ∨ ∃ x, x ∈ l ∧ lastslot s l = PNext x.
Proof.
  revert s. induction l as [|x l IH]; intros s; simpl; [by left|]. right.
  destruct (IH (PNext x)) as [[-> _]|(y & Hy & ->)]; [exists x|exists y]; set_solver.
Qed.

Lemma hseg_frame h h' s l :
  hseg h s l → slot_val h' s = slot_val h s →
  (∀ x, x ∈ l → slot_val h' (PNext x) = slot_val h (PNext x)) →
  (∀ x, x ∈ l → pprev_of h' x = pprev_of h x) → hseg h' s l.
Proof.
  revert s. induction l as [|x l IH]; intros s Hs E Fs Fp; simpl in *; [by rewrite E|].
  destruct Hs as (? & ? & ? & Hl). rewrite E, Fp by apply list_elem_of_here.
  split_and!; [done..|]. apply IH; [done|..].
  - apply Fs, list_elem_of_here.
  - intros. by apply Fs, list_elem_of_further.
  - intros. by apply Fp, list_elem_of_further.
Qed.

(** A path does not read the slot it ends in. *)
Lemma hpath_frame h h' s l :
  hpath h s l → NoDup l → (∀ x, x ∈ l → s ≠ PNext x) →
  (∀ s', s' ≠ lastslot s l → s' = s ∨ (∃ x, x ∈ l ∧ s' = PNext x) →
         slot_val h' s' = slot_val h s') →
  (∀ x, x ∈ l → pprev_of h' x = pprev_of h x) → hpath h' s l.
Proof.
  revert s. induction l as [|x l IH]; intros s Hp Hnd Hs Fs Fp; simpl in *; [done|].
  destruct Hp as (? & ? & ? & Hl). apply NoDup_cons in Hnd as [Hx Hnd].
  rewrite Fs, Fp; [|apply list_elem_of_here|..|by left].
  - split_and!; [done..|]. apply IH; [done..| | |].
    + intros y Hy [= ->]. done.
    + intros s' Hne [->|(y & Hy & ->)]; apply Fs; [done|right; exists x|done|right; exists y];
        set_solver.
    + intros. by apply Fp, list_elem_of_further.
  - destruct (lastslot_in (PNext x) l) as [[-> _]|(y & Hy & ->)]; apply Hs; set_solver.
Qed.

(** ** Field-level effect of the operations *)

Definition updf_if (b : bool) (f : Z → option pslot) (k : Z) (v : pslot) :=
  if b then f else updf f k v.

Lemma first_of_run h hd f :
  slot_val h (PFirst hd) = Some f → first_of hd h = Ret (f, h).
Proof. simpl. intros H. unfold first_of. by rewrite H. Qed.

Lemma hnode_at_run h p nxt s :
  slot_val h (PNext p) = Some nxt → pprev_of h p = Some s →
  hnode_at p h = Ret (HNode nxt s, h).
Proof.
  unfold pprev_of, hnode_at. simpl. destruct (hh_nodes h !! p) as [[a b]|]; [|done].
  by intros [= ->] [= ->].
Qed.

Lemma hlist_add_head_runs h p hd f :
  slot_val h (PFirst hd) = Some f → is_Some (hh_nodes h !! p) →
  (f ≠ 0 → is_Some (hh_nodes h !! f)) →
  hruns (hlist_add_head p hd) h
    (updf (updf (slot_val h) (PNext p) f) (PFirst hd) p)
    (updf (updf_if (f =? 0) (pprev_of h) f (PNext p)) p (PFirst hd)).
Proof.
  intros Hf Hp Hfa. unfold hlist_add_head.
  assert (hruns (set_hnext p f;; (if f =? 0 then mret tt else set_pprev f (PNext p));;
    set_first hd p;; set_pprev p (PFirst hd)) h
    (updf (updf (slot_val h) (PNext p) f) (PFirst hd) p)
    (updf (updf_if (f =? 0) (pprev_of h) f (PNext p)) p (PFirst hd))) as (h' & E & ?).
  2:{ exists h'. split; [|done]. by rewrite (bind_ret _ _ _ _ _ (first_of_run _ _ _ Hf)). }
  apply slot_next_alive in Hp as Hp1. apply node_alive in Hp as Hp2.
  assert (f ≠ 0 → is_Some (pprev_of h f)) as Hfa' by (intros; apply node_alive; auto).
  eapply hruns_seq; [by apply (store_slot_runs h (PNext p))|]. intros h1 S1 P1.
  eapply (hruns_seq _ _ _ (updf (slot_val h) (PNext p) f)
            (updf_if (f =? 0) (pprev_of h) f (PNext p))).
  { apply hruns_skip; unfold updf_if; intros E0; rewrite E0; [done|].
    apply Z.eqb_neq in E0.
    eapply hruns_ext; [apply set_pprev_runs|done|].
    - apply node_alive. rewrite P1. by apply Hfa'.
    - intros q. by apply updf_ext. }
  intros h2 S2 P2.
  eapply hruns_seq; [apply (store_slot_runs h2 (PFirst hd))|].
  { rewrite S2, updf_ne by done. eauto. }
  intros h3 S3 P3. eapply hruns_ext; [apply set_pprev_runs|intros s; rewrite S3|intros q].
  - apply node_alive. rewrite P3, P2. unfold updf_if, updf. destruct (f =? 0); [done|].
    case_decide; eauto.
  - by apply updf_ext.
  - apply updf_ext. intros i. by rewrite P3, P2.
Qed.

Lemma __hlist_del_runs h x nxt s :
  slot_val h (PNext x) = Some nxt → pprev_of h x = Some s → is_Some (slot_val h s) →
  (nxt ≠ 0 → is_Some (hh_nodes h !! nxt)) →
  hruns (__hlist_del x) h (updf (slot_val h) s nxt)
    (updf_if (nxt =? 0) (pprev_of h) nxt s).
Proof.
  intros Hn Hp Hs Ha.
  assert (nxt ≠ 0 → is_Some (pprev_of h nxt)) as Ha' by (intros; apply node_alive; auto).
  assert (hruns (store_slot s nxt;; if nxt =? 0 then mret tt else set_pprev nxt s) h
    (updf (slot_val h) s nxt) (updf_if (nxt =? 0) (pprev_of h) nxt s)) as (h' & E & ?).
  2:{ exists h'. split; [|done]. unfold __hlist_del.
      by rewrite (bind_ret _ _ _ _ _ (hnode_at_run _ _ _ _ Hn Hp)). }
  eapply hruns_seq; [by apply store_slot_runs|]. intros h1 S1 P1.
  apply hruns_skip; unfold updf_if; intros E0; rewrite E0; [done|].
  apply Z.eqb_neq in E0. eapply hruns_ext; [apply set_pprev_runs|done|intros; by apply updf_ext].
  apply node_alive. rewrite P1. by apply Ha'.
Qed.

Lemma hlist_del_runs h x nxt s :
  slot_val h (PNext x) = Some nxt → pprev_of h x = Some s → is_Some (slot_val h s) →
  (nxt ≠ 0 → is_Some (hh_nodes h !! nxt)) →
  hruns (hlist_del x) h (updf (updf (slot_val h) s nxt) (PNext x) 0)
    (updf (updf_if (nxt =? 0) (pprev_of h) nxt s) x PNull).
Proof.
  intros Hn Hp Hs Ha. unfold hlist_del.
  eapply hruns_seq; [by apply __hlist_del_runs|]. intros h1 S1 P1.
  eapply hruns_seq; [apply (store_slot_runs h1 (PNext x))|].
  { rewrite S1. unfold updf. case_decide; eauto. }
  intros h2 S2 P2.
  eapply hruns_ext; [apply set_pprev_runs|intros s'; rewrite S2; by apply updf_ext|intros q].
  - apply slot_next_alive. rewrite S2, updf_eq. eauto.
  - apply updf_ext. intros i. by rewrite P2, P1.
Qed.

(** ** One list *)

Lemma hseg_alive h s l x : hseg h s l → x ∈ l → is_Some (hh_nodes h !! x) ∧ x ≠ 0.
Proof.
  revert s. induction l as [|y l IH]; intros s Hs Hx; [by apply not_elem_of_nil in Hx|].
  destruct Hs as (_ & ? & Hp & Hl). apply elem_of_cons in Hx as [->|Hx]; [|by eapply IH].
  split; [|done]. apply node_alive. rewrite Hp. eauto.
Qed.

(** The first node of a segment, 0 for none. *)
Definition seg_first (l : list Z) : Z := match l with [] => 0 | x :: _ => x end.

Lemma hseg_first h s l : hseg h s l → slot_val h s = Some (seg_first l).
Proof. destruct l; simpl; [done|]. by intros [? _]. Qed.

Lemma seg_first_zero h s l : hseg h s l → (seg_first l =? 0) = bool_decide (l = []).
Proof. destruct l as [|x l]; simpl; [done|]. intros (_ & ? & _). by apply Z.eqb_neq. Qed.

(** Re-rooting a segment: the slot that points to it changes, and so does the
    [pprev] of its first node. *)
Lemma hseg_reroot h h' s s' l :
  hseg h s l → NoDup l → slot_val h' s' = Some (seg_first l) →
  (∀ x, x ∈ l → slot_val h' (PNext x) = slot_val h (PNext x)) →
  (∀ x, x ∈ l → pprev_of h' x = updf (pprev_of h) (seg_first l) s' x) →
  hseg h' s' l.
Proof.
  destruct l as [|x l]; simpl; [done|].
  intros (_ & Hx & _ & Hl) [Hn Hnd]%NoDup_cons Hs Fs Fp. split_and!; [done..| |].
  - by rewrite Fp, updf_eq by apply list_elem_of_here.
  - apply (hseg_frame h); [done|apply Fs, list_elem_of_here|..]; intros y Hy.
    + by apply Fs, list_elem_of_further.
    + rewrite Fp, updf_ne; [done|by intros ->|by apply list_elem_of_further].
Qed.

Lemma hlist_add_head_spec h hd l p :
  hlist h hd l → p ∉ l → p ≠ 0 → is_Some (hh_nodes h !! p) →
  ∃ h', hlist_add_head p hd h = Ret (tt, h') ∧ hlist h' hd (p :: l) ∧
    (∀ s, s ≠ PFirst hd → s ≠ PNext p → slot_val h' s = slot_val h s) ∧
    (∀ q, q ∉ p :: l → pprev_of h' q = pprev_of h q).
Proof.
  intros [Hnd Hs] Hp Hp0 Ha.
  destruct (hlist_add_head_runs h p hd (seg_first l)) as (h' & E & Sv & Pp);
    [by apply hseg_first|done| |].
  { intros Hf. destruct l as [|x l]; [done|]. eapply hseg_alive; [done|apply list_elem_of_here]. }
  exists h'. split_and!; [done| | |].
  - split; [by apply NoDup_cons|]. simpl.
    pose proof (Sv (PFirst hd)) as Sf. rewrite updf_eq in Sf. simpl in Sf. split_and!; [done..| |].
    { by rewrite Pp, updf_eq. }
    apply (hseg_reroot h h' (PFirst hd)); [done..| | |].
    + by rewrite Sv, updf_ne, updf_eq.
    + intros x Hx. rewrite Sv, !updf_ne; [done|intros [= ->]; done|done].
    + intros x Hx. rewrite Pp, updf_ne by (by intros ->). unfold updf_if.
      rewrite (seg_first_zero h (PFirst hd)) by done.
      case_bool_decide; [subst; by apply not_elem_of_nil in Hx|done].
  - intros s H1 H2. by rewrite Sv, !updf_ne.
  - intros q [Hq1 Hq2]%not_elem_of_cons. rewrite Pp, updf_ne by done. unfold updf_if.
    destruct (seg_first l =? 0) eqn:E0; [done|]. rewrite updf_ne; [done|].
    intros ->. destruct l; [done|]. apply Hq2, list_elem_of_here.
Qed.

Lemma hlist_del_spec h hd l1 x l2 :
  hlist h hd (l1 ++ x :: l2) →
  ∃ h', hlist_del x h = Ret (tt, h') ∧ hlist h' hd (l1 ++ l2) ∧
    (∀ s, s ≠ PFirst hd → (∀ y, y ∈ l1 ++ x :: l2 → s ≠ PNext y) →
          slot_val h' s = slot_val h s) ∧
    (∀ q, q ∉ l1 ++ x :: l2 → pprev_of h' q = pprev_of h q) ∧
    hh_nodes h' !! x = Some (HNode 0 PNull).
Proof.
  intros [Hnd Hs]. apply hseg_app in Hs as [Hp1 (Hsv & Hx0 & Hpp & Hs2)].
  set (s0 := lastslot (PFirst hd) l1) in *.
  destruct (hlist_del_runs h x (seg_first l2) s0) as (h' & E & Sv & Pp);
    [by apply hseg_first|done|by rewrite Hsv| |].
  { intros Hf. destruct l2 as [|y l2]; [done|]. eapply hseg_alive; [done|apply list_elem_of_here]. }
  apply NoDup_app in Hnd as (N1 & Nd & N2). apply NoDup_cons in N2 as [Nx N2].
  assert (x ∉ l1) as Nx1. { intros H. apply (Nd x H). apply list_elem_of_here. }
  assert (∀ y, y ∈ l2 → y ∉ l1) as Nd'. { intros y Hy H. apply (Nd y H). by apply list_elem_of_further. }
  assert (s0 = PFirst hd ∨ ∃ y, y ∈ l1 ∧ s0 = PNext y) as Hs0.
  { destruct (lastslot_in (PFirst hd) l1) as [[? _]|?]; auto. }
  assert (∀ y, y ∉ l1 → PNext y ≠ s0) as Hs0n.
  { intros y Hy. destruct Hs0 as [->|(z & Hz & ->)]; [done|]. by intros [= ->]. }
  assert (∀ q, q ≠ x → q ∉ l2 → pprev_of h' q = pprev_of h q) as Fp.
  { intros q Hq Hq2. rewrite Pp, updf_ne by done. unfold updf_if.
    destruct (seg_first l2 =? 0) eqn:E0; [done|]. rewrite updf_ne; [done|].
    intros ->. destruct l2; [done|]. apply Hq2, list_elem_of_here. }
  exists h'. split_and!; [done| | | |].
  - split. { apply NoDup_app. split_and!; [done| |done]. intros y Hy Hy2. by apply (Nd' y). }
    apply hseg_app. split.
    + apply (hpath_frame h); [done..| |].
      * intros s' Hne Hin. rewrite Sv, !updf_ne; [done|done|].
        destruct Hin as [->|(y & Hy & ->)]; [done|]. by intros [= ->].
      * intros y Hy. apply Fp; [by intros ->|]. intros Hy2. by apply (Nd' y).
    + fold s0. apply (hseg_reroot h h' (PNext x)); [done..| | |].
      * rewrite Sv, updf_ne, updf_eq; [done|]. apply not_eq_sym, Hs0n, Nx1.
      * intros y Hy. rewrite Sv, !updf_ne; [done|by apply Hs0n, Nd'|by intros [= ->]].
      * intros y Hy. rewrite Pp, updf_ne by (by intros ->). unfold updf_if.
        rewrite (seg_first_zero h (PNext x)) by done.
        case_bool_decide; [subst; by apply not_elem_of_nil in Hy|done].
  - intros s H1 H2. rewrite Sv, !updf_ne; [done| |].
    + destruct Hs0 as [->|(z & Hz & ->)]; [done|]. apply H2, elem_of_app. by left.
    + apply H2, elem_of_app. right. apply list_elem_of_here.
  - intros q Hq. apply not_elem_of_app in Hq as [_ [? ?]%not_elem_of_cons]. by apply Fp.
  - pose proof (Sv (PNext x)) as S1. pose proof (Pp x) as P1.
    rewrite updf_eq in S1. rewrite updf_eq in P1. unfold pprev_of in P1. simpl in S1.
    destruct (hh_nodes h' !! x) as [[a b]|]; by simplify_eq/=.
Qed.

(** The traversal visits the nodes in order and ends. *)
Lemma hlist_for_each_spec h hd l fuel :
  hlist h hd l → (length l < fuel)%nat → hlist_for_each fuel hd h = Ret (l, h).
Proof.
  intros [_ Hs] Hf. unfold hlist_for_each.
  erewrite bind_ret by (apply first_of_run; by apply hseg_first).
  revert Hs Hf. generalize (PFirst hd) as s. revert fuel.
  induction l as [|x l IH]; intros [|fuel] s Hs Hf; simpl in *; try lia; [done|].
  destruct Hs as (_ & Hx & Hp & Hl). rewrite (proj2 (Z.eqb_neq x 0)) by done.
  pose proof (hseg_first _ _ _ Hl) as Hn.
  erewrite bind_ret by (by apply hnode_at_run).
  erewrite bind_ret; [done|]. eapply IH; [done|lia].
Qed.

(** ** Families of disjoint lists *)

Definition hlists_rep (h : hheap) (m : lists) : Prop :=
  (∀ hd l, m !! hd = Some l → hlist h hd l) ∧
  (∀ hd1 hd2 l1 l2 q, m !! hd1 = Some l1 → m !! hd2 = Some l2 → hd1 ≠ hd2 →
     q ∈ l1 → q ∉ l2).

Definition unlinked (m : lists) (x : Z) : Prop := ∀ hd l, m !! hd = Some l → x ∉ l.

Lemma hlist_frame h h' hd l :
  hlist h hd l → slot_val h' (PFirst hd) = slot_val h (PFirst hd) →
  (∀ x, x ∈ l → slot_val h' (PNext x) = slot_val h (PNext x)) →
  (∀ x, x ∈ l → pprev_of h' x = pprev_of h x) → hlist h' hd l.
Proof. intros [? ?] ? ? ?. split; [done|]. by apply (hseg_frame h). Qed.

Lemma hlists_rep_update h h' m hd l l' :
  hlists_rep h m → m !! hd = Some l → hlist h' hd l' →
  (∀ q, q ∈ l' → q ∈ l ∨ unlinked m q) →
  (∀ s, s ≠ PFirst hd → (∀ y, y ∈ l ∨ unlinked m y → s ≠ PNext y) →
        slot_val h' s = slot_val h s) →
  (∀ q, q ∉ l → ¬ unlinked m q → pprev_of h' q = pprev_of h q) →
  hlists_rep h' (<[hd := l']> m).
Proof.
  intros [Hr Hdis] Hm Hd' Hin Fs Fp. split.
  - intros hd2 l2 [(-> & ->)|(Hne & H2)]%lookup_insert_Some; [done|].
    assert (∀ x, x ∈ l2 → (x ∉ l) ∧ ¬ unlinked m x) as Hx.
    { intros x Hx. split; [exact (Hdis hd2 hd l2 l x H2 Hm (not_eq_sym Hne) Hx)|].
      intros Hu. by apply (Hu hd2 l2). }
    apply (hlist_frame h); [by apply Hr|apply Fs; [by intros [= ->]|done]|..]; intros x Hx2;
      apply Hx in Hx2 as [? ?].
    + apply Fs; [done|]. intros y [Hy|Hy] [= ->]; done.
    + by apply Fp.
  - intros hd1 hd2 l1 l2 q [(<- & <-)|(Hne1 & H1)]%lookup_insert_Some
      [(<- & <-)|(Hne2 & H2)]%lookup_insert_Some Hne Hq; [done| | |eauto].
    + destruct (Hin q Hq) as [Hq'|Hu]; [exact (Hdis hd hd2 l l2 q Hm H2 Hne Hq')|].
      by apply (Hu hd2).
    + intros Hq2. destruct (Hin q Hq2) as [Hq'|Hu]; [|by apply (Hu hd1 l1)].
      exact (Hdis hd1 hd l1 l q H1 Hm Hne Hq Hq').
Qed.

Lemma hlist_add_head_refines h m p hd :
  hlists_rep h m → is_Some (m !! hd) → unlinked m p → p ≠ 0 → is_Some (hh_nodes h !! p) →
  ∃ h', hlist_add_head p hd h = Ret (tt, h') ∧ hlists_rep h' (abs_add p hd m).
Proof.
  intros Hr [l Hm] Hp Hp0 Ha. unfold abs_add. rewrite (alter_insert_eq _ _ _ l) by done.
  destruct (hlist_add_head_spec h hd l p) as (h' & E & Hl & Fs & Fp);
    [by apply Hr|by eapply Hp|done..|].
  exists h'. split; [done|]. eapply hlists_rep_update; [done..| | |].
  - intros q [->|?]%elem_of_cons; auto.
  - intros s Hs Hy. apply Fs; [done|]. apply Hy. by right.
  - intros q Hq Hu. apply Fp. apply not_elem_of_cons. split; [by intros ->|done].
Qed.

Lemma hlist_del_refines h m x hd l :
  hlists_rep h m → m !! hd = Some l → x ∈ l →
  ∃ h', hlist_del x h = Ret (tt, h') ∧ hlists_rep h' (abs_del x m) ∧
        unlinked (abs_del x m) x ∧ hh_nodes h' !! x = Some (HNode 0 PNull).
Proof.
  intros Hr Hm (l1 & l2 & ->)%list_elem_of_split.
  destruct (hlist_del_spec h hd l1 x l2) as (h' & E & Hl & Fs & Fp & Hx); [by apply Hr|].
  assert (abs_del x m = <[hd := l1 ++ l2]> m) as Em.
  { apply map_eq. intros i. unfold abs_del. rewrite lookup_fmap.
    pose proof (proj1 (proj1 Hr _ _ Hm)) as Hnd.
    destruct (decide (i = hd)) as [->|Hi].
    - rewrite lookup_insert_eq, Hm. simpl. f_equal. by apply list_remove_one_split.
    - rewrite lookup_insert_ne by done. destruct (m !! i) as [l|] eqn:Ei; [|done].
      simpl. f_equal. apply list_remove_one_notin.
      apply (proj2 Hr hd i _ l x Hm Ei); [done|]. apply elem_of_app. right. apply list_elem_of_here. }
  exists h'. split_and!; [done| | |done].
  - rewrite Em. eapply hlists_rep_update; [done..| | |].
    + intros q Hq. left. set_solver.
    + intros s Hs Hy. apply Fs; [done|]. intros y Hin. apply Hy. by left.
    + intros q Hq _. by apply Fp.
  - intros hd' l' (l0 & <- & _)%lookup_fmap_Some. rewrite elem_of_list_remove_one. tauto.
Qed.

(** Deleting a node that is not linked dereferences its null [pprev]. *)
Lemma hlist_del_unlinked_faults h x :
  hh_nodes h !! x = Some (HNode 0 PNull) → hlist_del x h = Fail NullPtr.
Proof.
  intros Hx. unfold hlist_del, __hlist_del, mbind, M_bind, hnode_at. by rewrite Hx.
Qed.

(** ** Runs of operations *)

Definition same_hnodes (h h' : hheap) : Prop := dom (hh_nodes h') = dom (hh_nodes h).
#[local] Instance same_hnodes_preorder : PreOrder same_hnodes.
Proof. split; [done|]. unfold same_hnodes. intros h1 h2 h3 -> ->. done. Qed.
#[local] Hint Resolve same_hnodes_preorder : within.
Abbreviation hkeeps := (within same_hnodes).

Lemma hkeeps_first_of hd : hkeeps (first_of hd).
Proof. intros h a h'. unfold first_of. by destruct (hh_heads h !! hd); [intros [= <- <-]|]. Qed.
Lemma hkeeps_hnode_at p : hkeeps (hnode_at p).
Proof. intros h a h'. unfold hnode_at. by destruct (hh_nodes h !! p); [intros [= <- <-]|]. Qed.
Lemma hkeeps_write (p : Z) (f : hlist_node → hlist_node) :
  hkeeps (n ← hnode_at p; modify (λ h, HHeap (<[p := f n]> (hh_nodes h)) (hh_heads h))).
Proof.
  intros h [] h' (n & h1 & E1 & E2)%bind_inv. unfold hnode_at in E1.
  destruct (hh_nodes h !! p) as [n'|] eqn:E; [|done]. injection E1 as -> ->. injection E2 as <-.
  unfold same_hnodes. simpl. rewrite dom_insert_lookup_L; eauto.
Qed.
Lemma hkeeps_set_hnext p v : hkeeps (set_hnext p v).
Proof. apply (hkeeps_write p (λ n, HNode v (hn_pprev n))). Qed.
Lemma hkeeps_set_pprev p v : hkeeps (set_pprev p v).
Proof. apply (hkeeps_write p (λ n, HNode (hn_next n) v)). Qed.
Lemma hkeeps_set_first hd v : hkeeps (set_first hd v).
Proof. apply (within_bind same_hnodes); [apply hkeeps_first_of|]. by intros _ h [] h' [= <-]. Qed.
Lemma hkeeps_store_slot s v : hkeeps (store_slot s v).
Proof. destruct s; [done|apply hkeeps_set_first|apply hkeeps_set_hnext]. Qed.
#[export] Hint Resolve hkeeps_first_of hkeeps_hnode_at hkeeps_set_hnext hkeeps_set_pprev hkeeps_set_first hkeeps_store_slot : within.

Inductive hlist_op := HAdd (x hd : Z) | HDel (x : Z).

Definition hlist_step (o : hlist_op) : M hheap unit :=
  match o with HAdd x hd => hlist_add_head x hd | HDel x => hlist_del x end.
Fixpoint hlist_run (os : list hlist_op) : M hheap unit :=
  match os with [] => mret tt | o :: os => hlist_step o;; hlist_run os end.

Lemma hlist_step_keeps o : hkeeps (hlist_step o).
Proof. destruct o; simpl; unfold hlist_add_head, hlist_del, __hlist_del; eauto 15 with ohc within. Qed.

(** On sequences, [None] when a caller adds a node that is linked, NULL or
    not in the memory [A], or deletes one that is in no list. *)
Definition hseq_step (A : gset Z) (o : hlist_op) (m : lists) : option lists :=
  match o with
  | HAdd x hd =>
      if decide (is_Some (m !! hd) ∧ x ≠ 0 ∧ x ∈ A) then
        if in_list m x then None else Some (abs_add x hd m)
      else None
  | HDel x => if in_list m x then Some (abs_del x m) else None
  end.
Fixpoint hseq_run (A : gset Z) (os : list hlist_op) (m : lists) : option lists :=
  match os with [] => Some m | o :: os => m ← hseq_step A o m; hseq_run A os m end.

Lemma hlist_step_refines A o h m m' :
  hlists_rep h m → A ⊆ dom (hh_nodes h) → hseq_step A o m = Some m' →
  ∃ h', hlist_step o h = Ret (tt, h') ∧ hlists_rep h' m'.
Proof.
  intros Hr HA. destruct o as [x hd|x]; simpl; unfold in_list.
  - case_decide as Hc; [|done]. case_bool_decide as Hl; [done|]. intros [= <-].
    destruct Hc as (? & ? & ?). apply hlist_add_head_refines; [done..| |done|by apply elem_of_dom, HA].
    intros hd' l Hm Hx. apply Hl. by exists hd', l.
  - case_bool_decide as Hc; [|done]. intros [= <-]. destruct Hc as (hd & l & Hl & Hx).
    destruct (hlist_del_refines h m x hd l Hr Hl Hx) as (h' & ? & ? & _). eauto.
Qed.

(** C37: the [pprev] lists of list.h implement sequences.  Adding nodes at the
    head and deleting them through their own address, in any order that keeps
    the contract, runs without a fault, and each list then visits, in order,
    what the operations on sequences give. *)
Theorem hlist_run_refines A os h m m' :
  hlists_rep h m → A ⊆ dom (hh_nodes h) → hseq_run A os m = Some m' →
  ∃ h', hlist_run os h = Ret (tt, h') ∧ hlists_rep h' m' ∧
    ∀ hd l, m' !! hd = Some l → hlist_for_each (S (length l)) hd h' = Ret (l, h').
Proof.
  revert h m. induction os as [|o os IH]; intros h m Hr HA; cbn [hlist_run hseq_run].
  - intros [= <-]. exists h. split_and!; [done..|]. intros hd l Hl.
    apply hlist_for_each_spec; [by apply Hr|lia].
  - destruct (hseq_step A o m) as [m1|] eqn:E; [|done]. cbn [mbind option_bind]. intros E2.
    destruct (hlist_step_refines A o h m m1 Hr HA E) as (h1 & E1 & Hr1).
    destruct (IH h1 m1) as (h' & E' & Hr'); [done| |done|].
    { by rewrite (hlist_step_keeps o h tt h1 E1). }
    exists h'. split; [|done]. by rewrite (bind_ret _ _ _ _ _ E1).
Qed.

Definition demo_hheap : hheap :=
  HHeap (gset_to_gmap (HNode 0 PNull) (list_to_set [3; 4; 5])) {[1 := 0; 2 := 0]}.
Definition demo_hops : list hlist_op := [HAdd 3 1; HAdd 4 1; HAdd 5 1; HDel 4; HAdd 4 2; HDel 3].

Lemma hlist_run_refines_witness :
  ∃ h', hlist_run demo_hops demo_hheap = Ret (tt, h') ∧
    hlist_for_each 2 1 h' = Ret ([5], h') ∧ hlist_for_each 2 2 h' = Ret ([4], h').
Proof.
  destruct (hlist_run_refines (list_to_set [3; 4; 5]) demo_hops demo_hheap {[1 := []; 2 := []]}
    {[1 := [5]; 2 := [4]]}) as (h' & E & _ & Hl).
  - split.
    + intros hd l Hl. apply lookup_insert_Some in Hl as [[<- <-]|[_ Hl]];
        [|apply lookup_singleton_Some in Hl as [<- <-]]; split; try apply NoDup_nil_2; done.
    + intros hd1 hd2 l1 l2 q Hl1 _ _ Hq. apply lookup_insert_Some in Hl1 as [[_ <-]|[_ Hl1]];
        [by apply elem_of_nil in Hq|].
      apply lookup_singleton_Some in Hl1 as [_ <-]. by apply elem_of_nil in Hq.
  - vm_compute. set_solver.
  - vm_compute. reflexivity.
  - exists h'. split_and!; [exact E|by apply (Hl 1 [5])|by apply (Hl 2 [4])].
Defined.
