(* ===== verification/IdxPointer.v ===== *)
(** * utils/idx_pointer.h: small integers as pointers

    A table of [IPT_ARRAY_SIZE] pointers handing out the lowest free index.  An
    entry is [None] for NULL.  [idx_pointer_add] scans without a bound check, so
    a full table whose [lowest] lies below the size reads past the array; the
    invariant and the count of used entries say when it does not. *)

From stdpp Require Import prelude fin_maps gmap.
From S2P Require Import Prelude.

Definition IPT_ARRAY_SIZE : Z := 4096.

Section idx_pointer.
Context {P : Type}.   (* what is pointed to *)

Record idx_pointer_t := IdxPointer {
  lowest : Z;               (* short *)
  array : list (option P)   (* void *array[IPT_ARRAY_SIZE] *)
}.

Definition IDX_POINTER_INIT : idx_pointer_t :=
  IdxPointer 0 (replicate (Z.to_nat IPT_ARRAY_SIZE) None).

(** [ipt->array[index]] *)
Definition array_get (a : list (option P)) (index : Z) : outcome (option P) :=
  if decide (0 ≤ index) then
    match a !! Z.to_nat index with Some p => Ret p | None => Fail OutOfBounds end
  else Fail OutOfBounds.
Definition array_set (a : list (option P)) (index : Z) (p : option P) :
    outcome (list (option P)) :=
  if decide (0 ≤ index < Z.of_nat (length a)) then
    Ret (<[Z.to_nat index := p]> a)
  else Fail OutOfBounds.

Definition idx_pointer_get (ipt : idx_pointer_t) (index : Z) : outcome (option P) :=
  array_get (array ipt) index.

(** [while(ipt->array[index] != NULL) index++;] *)
Fixpoint scan (fuel : nat) (a : list (option P)) (index : Z) : outcome Z :=
  match fuel with
  | O => Fail Undef
  | S fuel =>
      p ← array_get a index;
      match p with
      | Some _ => scan fuel a (index + 1)
      | None => Ret index
      end
  end.

Definition idx_pointer_add (ipt : idx_pointer_t) (pointer : P) :
    outcome (Z * idx_pointer_t) :=
  let index := lowest ipt in
  if decide (IPT_ARRAY_SIZE ≤ index) then Ret (-1, ipt) else
  index ← scan (S (length (array ipt))) (array ipt) index;
  a ← array_set (array ipt) index (Some pointer);
  Ret (index, IdxPointer (index + 1) a).

Definition idx_pointer_delete (ipt : idx_pointer_t) (index : Z) :
    outcome idx_pointer_t :=
  a ← array_set (array ipt) index None;
  Ret (IdxPointer (if decide (index < lowest ipt) then index else lowest ipt) a).
End idx_pointer.
Arguments idx_pointer_t : clear implicits.

(** ** Invariant: every entry below [lowest] is in use *)

Section idx_invariant.
Context {P : Type}.
Implicit Types (ipt : idx_pointer_t P) (a : list (option P)).

Definition used_at a (i : nat) : Prop := ∃ p, a !! i = Some (Some p).

Definition idx_inv ipt : Prop :=
  length (array ipt) = Z.to_nat IPT_ARRAY_SIZE ∧
  0 ≤ lowest ipt ≤ IPT_ARRAY_SIZE ∧
  ∀ i, Z.of_nat i < lowest ipt → used_at (array ipt) i.

(** Number of entries in use. *)
Definition used_nr ipt : nat := length (filter (λ o, is_Some o) (array ipt)).

Lemma used_nr_full a :
  (∀ i, (i < length a)%nat → used_at a i) →
  length (filter (λ o : option P, is_Some o) a) = length a.
Proof.
  induction a as [|o a IH]; intros Hu; [done|].
  destruct (Hu 0%nat) as [p Hp]; [simpl; lia|]. simpl in Hp. simplify_eq.
  rewrite filter_cons_True by eauto. simpl. f_equal. apply IH.
  intros i Hi. apply (Hu (S i)). simpl. lia.
Qed.

(** If not every entry is in use, one is free. *)
Lemma free_entry ipt :
  (used_nr ipt < length (array ipt))%nat →
  ∃ j, (j < length (array ipt))%nat ∧ array ipt !! j = Some None.
Proof.
  intros Hn. destruct (decide (Exists (λ o, o = None) (array ipt))) as [He|He].
  - apply Exists_exists in He as (o & Ho & ->).
    apply list_elem_of_lookup in Ho as (j & Hj). exists j.
    split; [by eapply lookup_lt_Some|done].
  - exfalso. apply not_Exists_Forall in He; [|apply _].
    enough (used_nr ipt = length (array ipt)) by lia. apply used_nr_full.
    intros i [o Ho]%lookup_lt_is_Some_2. pose proof (Forall_lookup_1 _ _ _ _ He Ho) as Hx. simpl in Hx.
    destruct o as [p|]; [by exists p|done].
Qed.

Lemma array_get_lookup a i :
  array_get a (Z.of_nat i) = match a !! i with Some p => Ret p | None => Fail OutOfBounds end.
Proof. unfold array_get. rewrite decide_True by lia. by rewrite Nat2Z.id. Qed.

(** The scan stops at the first free entry at or after its start. *)
Lemma scan_found fuel a i j :
  (i ≤ j)%nat → (j < i + fuel)%nat →
  (∀ k, (i ≤ k < j)%nat → used_at a k) → a !! j = Some None →
  scan fuel a (Z.of_nat i) = Ret (Z.of_nat j).
Proof.
  revert i. induction fuel as [|fuel IH]; intros i Hij Hf Hu Hj; [lia|].
  simpl. rewrite array_get_lookup. destruct (decide (i = j)) as [->|Hne].
  - by rewrite Hj.
  - destruct (Hu i) as [p ->]; [lia|]. simpl.
    replace (Z.of_nat i + 1) with (Z.of_nat (S i)) by lia.
    apply IH; [lia..| |done]. intros k Hk. apply Hu. lia.
Qed.

(** With no free entry it runs past the end of the array. *)
Lemma scan_overrun fuel a i :
  (i ≤ length a)%nat → (length a < i + fuel)%nat →
  (∀ k, (i ≤ k < length a)%nat → used_at a k) →
  scan fuel a (Z.of_nat i) = Fail OutOfBounds.
Proof.
  revert i. induction fuel as [|fuel IH]; intros i Hi Hf Hu; [lia|].
  simpl. rewrite array_get_lookup. destruct (decide (i = length a)) as [->|Hne].
  - by rewrite lookup_ge_None_2.
  - destruct (Hu i) as [p ->]; [lia|]. simpl.
    replace (Z.of_nat i + 1) with (Z.of_nat (S i)) by lia.
    apply IH; [lia..|]. intros k Hk. apply Hu. lia.
Qed.

(** The lowest free entry, found by a search on the list. *)
Lemma first_free a j :
  a !! j = Some None →
  ∃ k, (k ≤ j)%nat ∧ a !! k = Some None ∧ ∀ i, (i < k)%nat → used_at a i.
Proof.
  induction j as [j IH] using lt_wf_ind. intros Hj.
  destruct (decide (Exists (λ o, o = None) (take j a))) as [He|He].
  - apply Exists_exists in He as (o & Ho & ->).
    apply list_elem_of_lookup in Ho as (i & Hi).
    apply lookup_take_Some in Hi as [Hi Hlt].
    destruct (IH i Hlt Hi) as (k & ? & ? & ?). exists k. split_and!; [lia|done..].
  - exists j. split_and!; [done..|]. intros i Hi.
    apply not_Exists_Forall in He; [|apply _].
    destruct (a !! i) as [[p|]|] eqn:Ei.
    + by exists p.
    + exfalso. assert (take j a !! i = Some None) as Ht by by rewrite lookup_take_lt.
      pose proof (Forall_lookup_1 _ _ _ _ He Ht) as Hx. simpl in Hx. done.
    + apply lookup_ge_None in Ei. apply lookup_lt_Some in Hj. lia.
Qed.

Lemma idx_init_inv : idx_inv IDX_POINTER_INIT.
Proof.
  split_and!; [apply length_replicate|done|done|]. intros i Hi.
  unfold IDX_POINTER_INIT in Hi. cbn [lowest] in Hi. lia.
Qed.

(** Adding to a table with a free entry stays in the array, returns the
    lowest free index and changes no other entry. *)
Lemma idx_add_spec ipt p :
  idx_inv ipt → (used_nr ipt < Z.to_nat IPT_ARRAY_SIZE)%nat →
  ∃ i : nat, (i < Z.to_nat IPT_ARRAY_SIZE)%nat ∧ array ipt !! i = Some None ∧
    (∀ k, (k < i)%nat → used_at (array ipt) k) ∧
    idx_pointer_add ipt p =
      Ret (Z.of_nat i, IdxPointer (Z.of_nat i + 1) (<[i := Some p]> (array ipt))).
Proof.
  intros (Hlen & Hlow & Hu) Hn. destruct (free_entry ipt) as (j & Hj & Ej); [lia|].
  destruct (first_free _ _ Ej) as (i & Hij & Ei & Hmin). exists i.
  split_and!; [lia|done..|]. unfold idx_pointer_add.
  assert (lowest ipt ≤ Z.of_nat i) as Hli.
  { destruct (decide (lowest ipt ≤ Z.of_nat i)); [done|].
    destruct (Hu i) as [q Hq]; [lia|]. congruence. }
  rewrite decide_False by lia.
  pose proof (scan_found (S (length (array ipt))) (array ipt) (Z.to_nat (lowest ipt)) i) as Hs.
  rewrite Z2Nat.id in Hs by lia. rewrite Hs; [|lia|lia|intros; apply Hmin; lia|done].
  simpl. unfold array_set. rewrite decide_True by lia. simpl. by rewrite Nat2Z.id.
Qed.

Lemma idx_add_inv ipt p r ipt' :
  idx_inv ipt → idx_pointer_add ipt p = Ret (r, ipt') → idx_inv ipt'.
Proof.
  intros (Hlen & Hlow & Hu). unfold idx_pointer_add.
  case_decide; [by intros [= <- <-]|].
  set (a := array ipt) in *.
  destruct (scan _ _ _) as [k|] eqn:Es; [|done]. simpl. unfold array_set.
  case_decide as Hk; [|done]. simpl. intros [= <- <-].
  assert (∀ fuel i, scan fuel a i = Ret k → i ≤ k ∧
    (∀ q, i ≤ Z.of_nat q < k → used_at a q)) as Hscan.
  { induction fuel as [|fuel IH]; simpl; [done|]. intros i.
    unfold array_get at 1. case_decide; [|done].
    destruct (a !! Z.to_nat i) as [[q|]|] eqn:Ei; simpl; [|intros [= ->]|done].
    - intros [? Hq]%IH. split; [lia|]. intros q' Hq'.
      destruct (decide (Z.of_nat q' = i)) as [<-|]; [|apply Hq; lia].
      rewrite Nat2Z.id in Ei. by exists q.
    - split; [lia|]. intros; lia. }
  destruct (Hscan _ _ Es) as [Hle Hbetween].
  split_and!; simpl.
  - by rewrite length_insert.
  - lia.
  - unfold IPT_ARRAY_SIZE in *. lia.
  - intros i Hi. destruct (decide (Z.of_nat i = k)) as [<-|].
    + rewrite Nat2Z.id. exists p. apply list_lookup_insert_eq. lia.
    + destruct (decide (Z.of_nat i < lowest ipt)) as [Hl|].
      * destruct (Hu i Hl) as [q Hq]. exists q. rewrite list_lookup_insert_ne by lia. done.
      * destruct (Hbetween i) as [q Hq]; [lia|]. exists q.
        rewrite list_lookup_insert_ne by lia. done.
Qed.

Lemma idx_delete_spec ipt i ipt' :
  idx_inv ipt → idx_pointer_delete ipt i = Ret ipt' →
  idx_inv ipt' ∧ 0 ≤ i < IPT_ARRAY_SIZE ∧
  array ipt' = <[Z.to_nat i := None]> (array ipt).
Proof.
  intros (Hlen & Hlow & Hu). unfold idx_pointer_delete, array_set.
  destruct (decide (0 ≤ i < Z.of_nat (length (array ipt)))) as [Hi|]; [|done].
  simpl. intros [= <-]. split; [|split; [lia|done]].
  split_and!; simpl; [by rewrite length_insert|case_decide; lia|case_decide; lia|].
  intros k Hk. destruct (Hu k) as [q Hq]; [case_decide; lia|]. exists q.
  rewrite list_lookup_insert_ne; [done|]. case_decide; lia.
Qed.
End idx_invariant.

Lemma used_nr_add {A} (ipt : idx_pointer_t A) p i t :
  idx_inv ipt → (used_nr ipt < Z.to_nat IPT_ARRAY_SIZE)%nat → idx_pointer_add ipt p = Ret (i, t) → used_nr t = S (used_nr ipt).
Proof.
  intros Hi Hn E. destruct (idx_add_spec ipt p Hi Hn) as (j & Hj & Ej & _ & E'). rewrite E in E'. injection E' as -> ->.
  unfold used_nr. cbn [array]. rewrite <- (take_drop_middle _ _ _ Ej) at 2. rewrite insert_take_drop by (by eapply lookup_lt_Some).
  rewrite !filter_app. rewrite (filter_cons_True _ (Some p)) by (by eexists). rewrite (filter_cons_False _ None) by (by intros []).
  rewrite !length_app. cbn. lia.
Qed.

Lemma idx_add_get {P} (ipt : idx_pointer_t P) (p : P) :
  idx_inv ipt → (used_nr ipt < Z.to_nat IPT_ARRAY_SIZE)%nat →
  ∃ i ipt', idx_pointer_add ipt p = Ret (i, ipt') ∧ 0 ≤ i < IPT_ARRAY_SIZE ∧
    idx_inv ipt' ∧ idx_pointer_get ipt i = Ret None ∧
    idx_pointer_get ipt' i = Ret (Some p) ∧
    (∀ k, 0 ≤ k < i → ∃ q, idx_pointer_get ipt k = Ret (Some q)) ∧
    (∀ k, k ≠ i → idx_pointer_get ipt' k = idx_pointer_get ipt k).
Proof.
  intros Hinv Hn. destruct (idx_add_spec ipt p Hinv Hn) as (i & Hi & Ei & Hmin & E).
  pose proof (idx_add_inv _ _ _ _ Hinv E) as Hinv'. destruct Hinv as (Hlen & _).
  eexists _, _. split; [done|]. unfold idx_pointer_get. simpl.
  rewrite !array_get_lookup, Ei, list_lookup_insert_eq by lia.
  split_and!; [lia|lia|done|done|done| |].
  - intros k Hk. destruct (Hmin (Z.to_nat k)) as [q Hq]; [lia|]. exists q.
    unfold array_get. by rewrite decide_True, Hq by lia.
  - intros k Hk. unfold array_get. case_decide; [|done].
    by rewrite list_lookup_insert_ne by lia.
Qed.

(** ** Properties *)

(** A pointer added to a table with a free entry gets the lowest free
    index, is found there afterwards and leaves every other entry alone. *)
Theorem idx_pointer_add_correct {P} (ipt : idx_pointer_t P) (p : P) :
  idx_inv ipt → (used_nr ipt < Z.to_nat IPT_ARRAY_SIZE)%nat →
  ∃ i ipt', idx_pointer_add ipt p = Ret (i, ipt') ∧ 0 ≤ i < IPT_ARRAY_SIZE ∧
    idx_inv ipt' ∧ idx_pointer_get ipt i = Ret None ∧
    idx_pointer_get ipt' i = Ret (Some p) ∧
    (∀ k, 0 ≤ k < i → ∃ q, idx_pointer_get ipt k = Ret (Some q)) ∧
    (∀ k, k ≠ i → idx_pointer_get ipt' k = idx_pointer_get ipt k).
Proof. apply idx_add_get. Qed.

(** Entries 0 and 2 in use, and [lowest] behind the first. *)
Definition demo_ipt : idx_pointer_t Z :=
  IdxPointer 1 (Some 70 :: None :: Some 72 :: replicate 4093 None).
Lemma demo_ipt_inv : idx_inv demo_ipt.
Proof.
  split_and!; [vm_compute; reflexivity|unfold demo_ipt, IPT_ARRAY_SIZE; simpl; lia..|].
  intros i Hi. exists 70. simpl in Hi. by replace i with 0%nat by lia.
Qed.

Lemma idx_pointer_add_correct_witness :
  ∃ ipt', idx_pointer_add demo_ipt 71 = Ret (1, ipt') ∧ idx_pointer_get ipt' 1 = Ret (Some 71).
Proof.
  destruct (idx_pointer_add_correct demo_ipt 71) as (i & ipt' & E & Hi & _ & H0 & H1 & Hlow & _).
  - apply demo_ipt_inv.
  - apply Nat.ltb_lt. vm_compute. reflexivity.
  - assert (i = 1) as ->.
    { assert (i = 0 ∨ i = 1 ∨ 1 < i) as [?|[?|?]] by lia; [subst i|done|].
      - vm_compute in H0. discriminate H0.
      - destruct (Hlow 1) as [q Hq]; [lia|]. vm_compute in Hq. discriminate Hq. }
    by exists ipt'.
Defined.

(** On a full table [idx_pointer_add] answers -1 only when [lowest] stands
    at the end; otherwise it scans past the end of the array. *)
Theorem idx_pointer_add_full {P} (ipt : idx_pointer_t P) (p : P) :
  idx_inv ipt → used_nr ipt = Z.to_nat IPT_ARRAY_SIZE →
  idx_pointer_add ipt p =
    if decide (lowest ipt = IPT_ARRAY_SIZE) then Ret (-1, ipt) else Fail OutOfBounds.
Proof.
  intros (Hlen & Hlow & Hu) Hn. unfold idx_pointer_add.
  case_decide; (case_decide; try lia); [done|].
  assert (∀ i, (i < length (array ipt))%nat → used_at (array ipt) i) as Hall.
  { intros i [o Ho]%lookup_lt_is_Some_2. destruct o as [q|]; [by exists q|].
    exfalso. apply list_elem_of_split_length in Ho as (l1 & l2 & El & _).
    unfold used_nr in Hn. rewrite El, filter_app, filter_cons_False in Hn
      by (by intros [? ?]).
    rewrite length_app in Hn. rewrite El, length_app in Hlen. simpl in Hlen.
    pose proof (length_filter (λ o, is_Some o) l1).
    pose proof (length_filter (λ o, is_Some o) l2). lia. }
  pose proof (scan_overrun (S (length (array ipt))) (array ipt) (Z.to_nat (lowest ipt))) as Hs.
  rewrite Z2Nat.id in Hs by lia. rewrite Hs; [done|lia|lia|].
  intros k Hk. apply Hall. lia.
Qed.

(** Such a table: all entries in use after entry 5 was deleted and added again. *)
Definition full_ipt : idx_pointer_t Z :=
  IdxPointer 6 (replicate (Z.to_nat IPT_ARRAY_SIZE) (Some 70)).

Lemma idx_pointer_add_full_witness : idx_pointer_add full_ipt 71 = Fail OutOfBounds.
Proof.
  rewrite (idx_pointer_add_full full_ipt 71); [by rewrite decide_False by done|..].
  - split_and!; [vm_compute; reflexivity|unfold full_ipt, IPT_ARRAY_SIZE; simpl; lia..|].
    intros i Hi. exists 70. simpl in Hi. apply lookup_replicate_2. unfold IPT_ARRAY_SIZE. lia.
  - vm_compute. reflexivity.
Defined.
