(* ===== verification/StrUtil.v ===== *)
(** * utils/string.h: bit and character helpers

    A [char] is its byte value 0..255.  The helpers that test a character
    compare it with ASCII letters only, so the sign of [char] does not matter. *)

From Stdlib Require Import Ascii String.
From stdpp Require Import prelude fin_maps gmap.
From S2P Require Import Prelude.

(** A C string literal, without its terminating NUL. *)
Definition bytes (s : string) : list Z := (λ c, Z.of_N (N_of_ascii c)) <$> list_ascii_of_string s.

(** printf's [%d] of a natural number, and [%0nd]; a [long] has at most 19
    digits, so 20 steps are enough. *)
Fixpoint dec_loop (fuel : nat) (n : Z) (acc : list Z) : list Z :=
  match fuel with
  | O => acc
  | S fuel =>
      let acc := (48 + n mod 10) :: acc in
      if n / 10 =? 0 then acc else dec_loop fuel (n / 10) acc
  end.
Definition dec (n : Z) : list Z := dec_loop 20 n [].
Definition pad0 (w : nat) (l : list Z) : list Z := replicate (w - length l) 48 ++ l.

(** [bit_mask(num)]: [(1L << num) - 1]. *)
Definition bit_mask (num : Z) : Z := Z.shiftl 1 num - 1.
Definition bit_set (num set : Z) : Z := Z.lor num (Z.shiftl 1 set).
Definition bit_clear (num set : Z) : Z := Z.land num (Z.lnot (Z.shiftl 1 set)).

(** [bsrq]: the index of the highest bit set.  The instruction leaves its
    destination undefined for 0; the callers only pass positive sizes. *)
Definition bit_highest (n : Z) : Z := Z.log2 n.

Definition char2hex (c : Z) : Z :=
  if (48 <=? c) && (c <=? 57) then c - 48 else
  let c := Z.land c 0xdf in
  if (65 <=? c) && (c <=? 70) then c - 65 + 10 else -1.

(** [while(n) { len++; n /= 10; }], by fuel: a [long] has at most 19 digits. *)
Fixpoint numlen_loop (fuel : nat) (n len : Z) : Z :=
  match fuel with
  | O => len
  | S fuel => if n =? 0 then len else numlen_loop fuel (Z.quot n 10) (len + 1)
  end.
Definition numlen (n : Z) : Z :=
  if n =? 0 then 1 else numlen_loop 20 n 0.

(** ** Bits *)

Lemma bit_mask_pow2 k : 0 ≤ k → bit_mask k = 2 ^ k - 1.
Proof. intros. unfold bit_mask. by rewrite Z.shiftl_1_l. Qed.

(** Clearing the low [k] bits rounds down to a multiple of [2^k]. *)
Lemma clear_low x k : 0 ≤ k → Z.land x (Z.lnot (2 ^ k - 1)) = x / 2 ^ k * 2 ^ k.
Proof.
  intros Hk. rewrite <- Z.ldiff_land.
  replace (2 ^ k - 1) with (Z.ones k) by (rewrite Z.ones_equiv; lia).
  by rewrite Z.ldiff_ones_r, Z.shiftl_mul_pow2, Z.shiftr_div_pow2 by done.
Qed.

Lemma keep_low x k : 0 ≤ k → Z.land x (2 ^ k - 1) = x mod 2 ^ k.
Proof.
  intros Hk. replace (2 ^ k - 1) with (Z.ones k) by (rewrite Z.ones_equiv; lia).
  by rewrite Z.land_ones.
Qed.

(** ** Hexadecimal digits *)

Lemma char2hex_range c : 0 ≤ c < 256 → -1 ≤ char2hex c < 16.
Proof.
  intros Hc. unfold char2hex.
  destruct ((48 <=? c) && (c <=? 57)) eqn:E1; [lia|].
  destruct ((65 <=? Z.land c 223) && (Z.land c 223 <=? 70)) eqn:E2; lia.
Qed.

(** ** Decimal lengths *)

Lemma numlen_loop_pow n len fuel k :
  0 < n → 10 ^ k ≤ n < 10 ^ (k + 1) → 0 ≤ k → k < Z.of_nat fuel →
  numlen_loop fuel n len = len + k + 1.
Proof.
  intros Hn Hk Hk0. revert n len k Hn Hk Hk0.
  induction fuel as [|fuel IH]; intros n len k Hn Hk Hk0 Hf; [lia|]. simpl.
  rewrite (proj2 (Z.eqb_neq n 0)) by lia. rewrite Z.quot_div_nonneg by lia.
  destruct (decide (k = 0)) as [->|].
  - rewrite (Z.div_small n 10) by lia. destruct fuel; simpl; lia.
  - rewrite (IH _ _ (k - 1)); [lia| | |lia..].
    + apply Z.div_str_pos. split; [lia|].
      apply Z.le_trans with (10 ^ k); [|lia]. replace k with (1 + (k - 1)) by lia.
      rewrite Z.pow_add_r by lia. lia.
    + replace (k + 1) with (1 + k) in Hk by lia.
      replace k with (1 + (k - 1)) in Hk at 1 by lia.
      rewrite !Z.pow_add_r in Hk by lia. replace (k - 1 + 1) with k by lia.
      split; [apply Z.div_le_lower_bound|apply Z.div_lt_upper_bound]; lia.
Qed.

Lemma numlen_pow n k :
  0 ≤ k → k < 20 → 10 ^ k ≤ n < 10 ^ (k + 1) → numlen n = k + 1.
Proof.
  intros Hk0 Hk Hn. unfold numlen.
  assert (0 < n) by (pose proof (Z.pow_pos_nonneg 10 k); lia).
  rewrite (proj2 (Z.eqb_neq n 0)) by lia. rewrite (numlen_loop_pow _ _ _ k); lia.
Qed.
