(* ===== verification/IpBucket.v ===== *)
(** * utils/ipbucket.h: size classes and the free-block queues

    Block sizes are 512, 1024, 1536, 2048 and then four equally spaced values
    per power of two up to 2^32.  [ipbucket_block_size] rounds a request up to a
    class, [ipbucket_index] maps a size to the queue whose class is the next one
    up or down. *)

From stdpp Require Import prelude fin_maps gmap.
From S2P Require Import Prelude StrUtil.

Definition IPB_BEGIN : Z := 9.
Definition IPB_END : Z := 32.
Definition IPB_BUCKETS : Z := (IPB_END - IPB_BEGIN) * 4 - 4 + 1.

Definition IPB_1ST : Z := Z.shiftl 1 IPB_BEGIN.
Definition IPB_2ND : Z := IPB_1ST * 2.
Definition IPB_3RD : Z := IPB_1ST * 3.
Definition IPB_4TH : Z := IPB_1ST * 4.

(** [size_t ipbucket_block_size(size_t size)] *)
Definition ipbucket_block_size (size : Z) : Z :=
  let mask := if size <=? IPB_4TH then bit_mask IPB_BEGIN
              else bit_mask (bit_highest size - 2) in
  Z.land (u64 (size + mask)) (Z.lnot mask).

(** [int ipbucket_index(size_t size, int up)] *)
Definition ipbucket_index (size : Z) (up : bool) : Z :=
  if Z.shiftl 1 IPB_END <? size then (if up then -1 else IPB_BUCKETS - 1) else
  if size <=? IPB_4TH then
    if up then
      if size <=? IPB_1ST then 0 else
      if size <=? IPB_2ND then 1 else
      if size <=? IPB_3RD then 2 else 3
    else
      if size <? IPB_2ND then 0 else
      if size <? IPB_3RD then 1 else
      if size <? IPB_4TH then 2 else 3
  else
  let first := bit_highest size in
  let index := (first - IPB_BEGIN) * 4 - 5 in
  let subidx := Z.land (Z.shiftr size (first - 2)) 3 in
  let tail := if up then
                if Z.land size (bit_mask (first - 2)) =? 0 then 0 else 1
              else 0 in
  index + subidx + tail.

(** ** Reference definition of the size classes *)

(** Size of class [i]. *)
Definition class_size (i : Z) : Z :=
  if i <=? 3 then 512 * (i + 1)
  else (4 + (i + 5) mod 4) * 2 ^ ((i + 5) / 4 + 7).

Lemma class_size_pow f q :
  11 ≤ f → 4 ≤ q ≤ 8 → class_size ((f - 9) * 4 - 5 + (q - 4)) = q * 2 ^ (f - 2).
Proof.
  intros Hf Hq. unfold class_size. set (i := _ - 5 + _).
  assert (i + 5 = (q - 4) + (f - 9) * 4) as E by (unfold i; lia).
  destruct (i <=? 3) eqn:Ei.
  - assert (f = 11 ∧ q = 4) as [-> ->] by lia. unfold i. reflexivity.
  - rewrite E, Z.mod_add, Z.div_add by lia.
    destruct (decide (q = 8)) as [->|].
    + replace ((8 - 4) mod 4) with 0 by done. replace ((8 - 4) / 4) with 1 by done.
      replace (1 + (f - 9) + 7) with (1 + (f - 2)) by lia. rewrite Z.pow_add_r by lia. lia.
    + rewrite Z.mod_small, Z.div_small by lia. f_equal; [lia|]. f_equal. lia.
Qed.

Lemma class_size_step i : 0 ≤ i → class_size i < class_size (i + 1).
Proof.
  intros Hi. destruct (decide (i ≤ 2)) as [|H3].
  { unfold class_size. rewrite !(proj2 (Z.leb_le _ 3)) by lia. lia. }
  set (f := (i + 5) / 4 + 9). set (q := (i + 5) mod 4 + 4).
  assert (i = (f - 9) * 4 - 5 + (q - 4)) as E.
  { unfold f, q. pose proof (Z.div_mod (i + 5) 4). lia. }
  assert (11 ≤ f). { unfold f. pose proof (Z.div_le_lower_bound (i + 5) 4 2). lia. }
  assert (4 ≤ q < 8). { unfold q. pose proof (Z.mod_pos_bound (i + 5) 4). lia. }
  rewrite E at 1. rewrite class_size_pow by lia.
  replace (i + 1) with ((f - 9) * 4 - 5 + ((q + 1) - 4)) by lia.
  rewrite class_size_pow by lia. pose proof (Z.pow_pos_nonneg 2 (f - 2)). lia.
Qed.

Lemma class_size_le i j : 0 ≤ i ≤ j → class_size i ≤ class_size j.
Proof.
  intros [Hi Hij]. replace j with (i + Z.of_nat (Z.to_nat (j - i))) by lia.
  induction (Z.to_nat (j - i)) as [|n IH]; [by rewrite Z.add_0_r|].
  pose proof (class_size_step (i + Z.of_nat n)).
  replace (i + Z.of_nat (S n)) with (i + Z.of_nat n + 1) by lia. lia.
Qed.

Lemma class_size_pos i : 0 ≤ i → 512 ≤ class_size i.
Proof. intros Hi. pose proof (class_size_le 0 i). unfold class_size at 1 in H. simpl in H. lia. Qed.

(** A size above 2048 splits at its highest bits: [q] in 4..7 counts units of
    a quarter of its power of two. *)
Lemma size_split size :
  2048 < size ≤ 2 ^ 32 →
  ∃ f q r, bit_highest size = f ∧ 11 ≤ f ≤ 32 ∧ 4 ≤ q < 8 ∧ 0 ≤ r < 2 ^ (f - 2) ∧
    size = q * 2 ^ (f - 2) + r ∧ Z.shiftr size (f - 2) = q ∧ size mod 2 ^ (f - 2) = r.
Proof.
  intros Hs. set (f := Z.log2 size).
  assert (11 ≤ f ≤ 32).
  { split; [apply Z.log2_le_pow2; lia|]. unfold f. etransitivity; [apply Z.log2_le_mono, Hs|]. done. }
  pose proof (Z.log2_spec size ltac:(lia)) as Hl. fold f in Hl.
  set (u := 2 ^ (f - 2)). assert (0 < u) by (apply Z.pow_pos_nonneg; lia).
  assert (2 ^ f = 4 * u) as E4. { unfold u. replace f with (2 + (f - 2)) at 1 by lia. by rewrite Z.pow_add_r by lia. }
  assert (2 ^ Z.succ f = 8 * u) as E8 by (rewrite Z.pow_succ_r, E4 by lia; lia).
  pose proof (Z.div_mod size u) as Hdm. pose proof (Z.mod_pos_bound size u) as Hm.
  exists f, (size / u), (size mod u).
  split_and!; try done; try lia.
  - apply Z.div_le_lower_bound; lia.
  - apply Z.div_lt_upper_bound; lia.
  - rewrite Z.shiftr_div_pow2 by lia. done.
Qed.

(** Rounding up to a multiple. *)
Lemma round_up q r u :
  0 < u → 0 ≤ r < u → (q * u + r + (u - 1)) / u = if r =? 0 then q else q + 1.
Proof.
  intros Hu Hr. replace (q * u + r + (u - 1)) with ((r + (u - 1)) + q * u) by lia.
  rewrite Z.div_add by lia. destruct (r =? 0) eqn:E.
  - rewrite Z.div_small by lia. lia.
  - replace (r + (u - 1)) with ((r - 1) + 1 * u) by lia.
    rewrite Z.div_add, Z.div_small by lia. lia.
Qed.

Lemma block_size_round size u k :
  u = 2 ^ k → 0 ≤ k → 0 ≤ size → size + (u - 1) < 2 ^ 64 →
  Z.land (u64 (size + bit_mask k)) (Z.lnot (bit_mask k)) = (size + (u - 1)) / u * u.
Proof.
  intros -> Hk Hs Hb. rewrite bit_mask_pow2 by done.
  pose proof (Z.pow_pos_nonneg 2 k). rewrite wrap_small by lia. by rewrite clear_low.
Qed.

Ltac ipb_consts :=
  change IPB_1ST with 512 in *; change IPB_2ND with 1024 in *;
  change IPB_3RD with 1536 in *; change IPB_4TH with 2048 in *;
  change (Z.shiftl 1 IPB_END) with (2 ^ 32) in *;
  change IPB_BUCKETS with 89 in *; change IPB_BEGIN with 9 in *.

Lemma index_range_pow f q : 11 ≤ f ≤ 32 → 4 ≤ q ≤ 8 → q * 2 ^ (f - 2) ≤ 2 ^ 32 →
  3 ≤ (f - 9) * 4 - 5 + (q - 4) ≤ 87.
Proof.
  intros Hf Hq Hb. split; [lia|]. destruct (decide (f ≤ 31)); [lia|].
  assert (f = 32) as -> by lia. change (2 ^ (32 - 2)) with (2 ^ 30) in Hb.
  assert (q * 2 ^ 30 ≤ 4 * 2 ^ 30) by (change (4 * 2 ^ 30) with (2 ^ 32); lia). lia.
Qed.

Lemma class_size_small i : 0 ≤ i ≤ 3 → class_size i = 512 * (i + 1).
Proof. intros. unfold class_size. by rewrite (proj2 (Z.leb_le i 3)) by lia. Qed.

(** Rounding up: the queue index names the smallest class that holds the size,
    and the block size is that class. *)
Lemma index_up size :
  0 < size ≤ 2 ^ 32 →
  let i := ipbucket_index size true in
  0 ≤ i ≤ 87 ∧ ipbucket_block_size size = class_size i ∧ size ≤ class_size i ∧
  (0 < i → class_size (i - 1) < size).
Proof.
  intros Hs. cbn zeta. unfold ipbucket_index, ipbucket_block_size. ipb_consts.
  rewrite (proj2 (Z.ltb_ge (2 ^ 32) size)) by lia.
  destruct (size <=? 2048) eqn:E4.
  - rewrite (block_size_round size 512) by (done || lia).
    match goal with |- 0 ≤ ?i ≤ _ ∧ _ => assert (i = (size + 511) / 512 - 1) as -> end.
    { destruct (size <=? 512) eqn:E1; [|destruct (size <=? 1024) eqn:E2;
        [|destruct (size <=? 1536) eqn:E3]]; dlia. }
    rewrite class_size_small by dlia. split_and!; [dlia..|].
    intros. rewrite class_size_small; dlia.
  - destruct (size_split size) as (f & q & r & Ef & Hf & Hq & Hr & Esz & Eq & Er); [lia|].
    rewrite Ef, Eq, (block_size_round size (2 ^ (f - 2)) (f - 2)), bit_mask_pow2, keep_low, Er;
      try lia.
    2:{ pose proof (Z.pow_le_mono_r 2 (f - 2) 30). lia. }
    pose proof (Z.pow_pos_nonneg 2 (f - 2)) as Hu.
    rewrite Esz, round_up by lia.
    replace (Z.land q 3) with (q - 4)
      by (assert (q = 4 ∨ q = 5 ∨ q = 6 ∨ q = 7) as [->|[->|[->| ->]]] by lia; done).
    destruct (r =? 0) eqn:E0.
    + assert (r = 0) as -> by lia. rewrite Z.add_0_r.
      pose proof (index_range_pow f q ltac:(lia) ltac:(lia) ltac:(lia)).
      rewrite class_size_pow by lia. split_and!; [lia..|]. intros _.
      pose proof (class_size_step ((f - 9) * 4 - 5 + (q - 4) - 1)) as Hstep.
      replace (_ - 1 + 1) with ((f - 9) * 4 - 5 + (q - 4)) in Hstep by lia.
      rewrite class_size_pow in Hstep by lia. rewrite Z.add_0_r. lia.
    + assert ((q + 1) * 2 ^ (f - 2) ≤ 2 ^ 32) as Hb.
      { assert (f ≤ 31). { destruct (decide (f = 32)) as [->|]; [|lia].
          change (2 ^ (32 - 2)) with (2 ^ 30) in *. change (2 ^ 32) with (4 * 2 ^ 30) in *. lia. }
        replace (2 ^ 32) with (2 ^ (34 - f) * 2 ^ (f - 2)) by (rewrite <- Z.pow_add_r by lia; f_equal; lia).
        apply Z.mul_le_mono_nonneg_r; [lia|].
        pose proof (Z.pow_le_mono_r 2 3 (34 - f) ltac:(lia) ltac:(lia)). lia. }
      pose proof (index_range_pow f (q + 1) ltac:(lia) ltac:(lia) Hb).
      replace ((f - 9) * 4 - 5 + (q - 4) + 1) with ((f - 9) * 4 - 5 + ((q + 1) - 4)) by lia.
      rewrite class_size_pow by lia. split_and!; [lia..|]. intros _.
      replace (_ - 1) with ((f - 9) * 4 - 5 + (q - 4)) by lia.
      rewrite class_size_pow by lia. lia.
Qed.

(** Rounding down: the queue index names the largest class within the size. *)
Lemma index_down size :
  512 ≤ size ≤ 2 ^ 32 →
  let i := ipbucket_index size false in
  0 ≤ i ≤ 87 ∧ class_size i ≤ size < class_size (i + 1).
Proof.
  intros Hs. cbn zeta. unfold ipbucket_index. ipb_consts.
  rewrite (proj2 (Z.ltb_ge (2 ^ 32) size)) by lia.
  destruct (size <=? 2048) eqn:E4.
  - match goal with |- 0 ≤ ?i ≤ _ ∧ _ => assert (i = size / 512 - 1) as -> end.
    { destruct (size <? 1024) eqn:E1; [|destruct (size <? 1536) eqn:E2;
        [|destruct (size <? 2048) eqn:E3]]; dlia. }
    rewrite class_size_small by dlia. split_and!; [dlia..|].
    destruct (decide (size = 2048)) as [->|]; [done|]. rewrite class_size_small; dlia.
  - destruct (size_split size) as (f & q & r & Ef & Hf & Hq & Hr & Esz & Eq & Er); [lia|].
    rewrite Ef, Eq. pose proof (Z.pow_pos_nonneg 2 (f - 2)) as Hu.
    replace (Z.land q 3) with (q - 4)
      by (assert (q = 4 ∨ q = 5 ∨ q = 6 ∨ q = 7) as [->|[->|[->| ->]]] by lia; done).
    rewrite Z.add_0_r. pose proof (index_range_pow f q ltac:(lia) ltac:(lia) ltac:(lia)).
    split; [lia|]. replace (_ + 1) with ((f - 9) * 4 - 5 + ((q + 1) - 4)) by lia.
    rewrite !class_size_pow by lia. lia.
Qed.

Lemma index_down_big size : 2 ^ 32 < size → ipbucket_index size false = 88.
Proof.
  intros Hs. unfold ipbucket_index. ipb_consts. by rewrite (proj2 (Z.ltb_lt _ _)).
Qed.

Lemma class_size_max : class_size 87 = 2 ^ 32.
Proof. reflexivity. Qed.

(** ** Soundness and completeness of the class search *)

Lemma index_down_range size : 0 ≤ size → 0 ≤ ipbucket_index size false ≤ 88.
Proof.
  intros Hs. destruct (decide (2 ^ 32 < size)) as [|H1]; [rewrite index_down_big; lia|].
  destruct (decide (512 ≤ size)); [pose proof (index_down size ltac:(lia)) as [? _]; lia|].
  unfold ipbucket_index. ipb_consts. rewrite (proj2 (Z.ltb_ge (2 ^ 32) size)) by lia.
  rewrite (proj2 (Z.leb_le size 2048)), (proj2 (Z.ltb_lt size 1024)) by lia. lia.
Qed.

(** A block in a queue at or above the request's index is large enough, and a
    block that is large enough is in such a queue. *)
Lemma index_search size req :
  512 ≤ size → 0 < req ≤ 2 ^ 32 →
  ipbucket_index req true ≤ ipbucket_index size false ↔ ipbucket_block_size req ≤ size.
Proof.
  intros Hs Hr. pose proof (index_up req Hr) as (Hi & Eb & _ & _). rewrite Eb.
  set (i := ipbucket_index req true) in *.
  destruct (decide (size ≤ 2 ^ 32)) as [Hle|Hgt].
  - pose proof (index_down size ltac:(lia)) as (Hj & Hlo & Hhi).
    set (j := ipbucket_index size false) in *. split; intros H.
    + pose proof (class_size_le i j). lia.
    + destruct (decide (i ≤ j)); [done|]. pose proof (class_size_le (j + 1) i). lia.
  - rewrite index_down_big by lia. split; intros; [|lia].
    pose proof (class_size_le i 87). rewrite class_size_max in *. lia.
Qed.

Lemma block_size_bounds req :
  0 < req ≤ 2 ^ 32 →
  req ≤ ipbucket_block_size req ≤ 2 ^ 32 ∧ 512 ≤ ipbucket_block_size req.
Proof.
  intros Hr. pose proof (index_up req Hr) as (Hi & -> & ? & _).
  set (i := ipbucket_index req true) in *.
  pose proof (class_size_le i 87). pose proof (class_size_pos i).
  rewrite class_size_max in *. lia.
Qed.

Lemma class_size_aligned i : 0 ≤ i → (512 | class_size i).
Proof.
  intros Hi. destruct (decide (i ≤ 3)).
  - rewrite class_size_small by lia. exists (i + 1). lia.
  - unfold class_size. rewrite (proj2 (Z.leb_gt i 3)) by lia.
    apply Z.divide_mul_r. replace ((i + 5) / 4 + 7) with (9 + ((i + 5) / 4 - 2)) by lia.
    rewrite Z.pow_add_r; [apply Z.divide_factor_l|lia|dlia].
Qed.

Lemma block_size_aligned req : 0 < req ≤ 2 ^ 32 → (512 | ipbucket_block_size req).
Proof.
  intros Hr. pose proof (index_up req Hr) as (Hi & -> & _). apply class_size_aligned. lia.
Qed.

(** ** The queues *)

Section queues.
Context {A : Type} `{EqDecision A}.   (* identities of the linked blocks *)

Abbreviation ohc_ipbucket_t := (list (list A)).   (* queue[IPB_BUCKETS] *)
Implicit Type ipb : ohc_ipbucket_t.

Definition ipbucket_init : ohc_ipbucket_t := replicate (Z.to_nat IPB_BUCKETS) [].

Definition ipbucket_add ipb (node : A) (size : Z) : ohc_ipbucket_t :=
  let p := Z.to_nat (ipbucket_index size false) in
  if size =? ipbucket_block_size size
  then alter (λ q, node :: q) p ipb
  else alter (λ q, q ++ [node]) p ipb.

(** [list_del], where the node is linked: it leaves its queue. *)
Definition queue_del ipb (node : A) : ohc_ipbucket_t := list_remove_one node <$> ipb.
Definition queue_linked ipb (node : A) : bool :=
  existsb (λ q, bool_decide (node ∈ q)) ipb.

(** [if(node->prev) list_del(node)]: an unlinked node has [prev == NULL]. *)
Definition ipbucket_del ipb (node : A) : ohc_ipbucket_t :=
  if queue_linked ipb node then queue_del ipb node else ipb.

(** [list_del] of an unlinked node writes through its null pointers. *)
Definition ipbucket_update ipb (node : A) (size : Z) : outcome ohc_ipbucket_t :=
  if queue_linked ipb node then Ret (ipbucket_add (queue_del ipb node) node size)
  else Fail NullPtr.

Fixpoint ipbucket_get_loop (n index : nat) ipb : option (A * ohc_ipbucket_t) :=
  match n with
  | O => None
  | S n =>
      match ipb !! index with
      | Some (p :: q) => Some (p, <[index := q]> ipb)
      | _ => ipbucket_get_loop n (S index) ipb
      end
  end.

Definition ipbucket_get ipb (size : Z) : option (A * ohc_ipbucket_t) :=
  let index := ipbucket_index size true in
  if index =? -1 then None
  else ipbucket_get_loop (Z.to_nat (IPB_BUCKETS - index)) (Z.to_nat index) ipb.

Fixpoint ipbucket_biggest_loop (n : nat) ipb : option A :=
  match n with
  | O => None
  | S index =>
      match ipb !! index with
      | Some (x :: q) => last (x :: q)
      | _ => ipbucket_biggest_loop index ipb
      end
  end.
Definition ipbucket_biggest ipb : option A :=
  ipbucket_biggest_loop (Z.to_nat IPB_BUCKETS) ipb.
End queues.

(** ** Queue invariant

    [buckets_ok sz ipb]: every linked block [x] has a size, is linked once, and
    is in the queue of its class.  [sz] maps a block to its size. *)
Section queue_invariant.
Context {A : Type} `{EqDecision A}.
Implicit Types (ipb : list (list A)) (sz : A → option Z).

Definition linked ipb (x : A) (i : nat) : Prop := ∃ q, ipb !! i = Some q ∧ x ∈ q.

Record buckets_ok sz ipb : Prop := {
  bo_length : length ipb = Z.to_nat IPB_BUCKETS;
  bo_nodup : ∀ i q, ipb !! i = Some q → NoDup q;
  bo_class : ∀ x i, linked ipb x i →
    ∃ s, sz x = Some s ∧ Z.of_nat i = ipbucket_index s false;
}.

(** A block is in at most one queue. *)
Lemma linked_unique sz ipb x i j :
  buckets_ok sz ipb → linked ipb x i → linked ipb x j → i = j.
Proof.
  intros Hb Hi Hj. destruct (bo_class _ _ Hb _ _ Hi) as (s & Es & Ei).
  destruct (bo_class _ _ Hb _ _ Hj) as (s' & Es' & Ej). simplify_eq. lia.
Qed.

Lemma queue_linked_spec ipb x : queue_linked ipb x = true ↔ ∃ i, linked ipb x i.
Proof.
  unfold queue_linked, linked. rewrite existsb_exists. split.
  - intros (q & Hq & Hx). apply list_elem_of_In, list_elem_of_lookup in Hq as [i Hi].
    apply bool_decide_eq_true in Hx. eauto.
  - intros (i & q & Hi & Hx). exists q. split.
    + apply list_elem_of_In, list_elem_of_lookup. eauto.
    + by apply bool_decide_eq_true.
Qed.

Lemma linked_queue_del ipb x y i :
  linked (queue_del ipb x) y i ↔ linked ipb y i ∧ y ≠ x.
Proof.
  unfold linked, queue_del. setoid_rewrite list_lookup_fmap. split.
  - intros (q & (q' & Hq & ->)%fmap_Some & Hy). apply elem_of_list_remove_one in Hy as [? ?].
    eauto.
  - intros [(q & Hq & Hy) Hne]. exists (list_remove_one x q). rewrite Hq.
    split; [done|]. by apply elem_of_list_remove_one.
Qed.

Lemma linked_add ipb x s y i :
  length ipb = Z.to_nat IPB_BUCKETS → 0 ≤ s →
  linked (ipbucket_add ipb x s) y i ↔
    linked ipb y i ∨ (y = x ∧ Z.of_nat i = ipbucket_index s false).
Proof.
  intros Hlen Hs. pose proof (index_down_range s Hs) as Hr.
  unfold ipbucket_add. set (p := Z.to_nat (ipbucket_index s false)).
  assert (is_Some (ipb !! p)) as [qp Hp].
  { apply lookup_lt_is_Some. unfold p. change IPB_BUCKETS with 89 in Hlen. lia. }
  assert (∀ f : list A → list A, (∀ q z, z ∈ f q ↔ z = x ∨ z ∈ q) →
    linked (alter f p ipb) y i ↔ linked ipb y i ∨ (y = x ∧ i = p)) as Halt.
  { intros f Hf. unfold linked. rewrite list_lookup_alter.
    case_decide; subst; [rewrite Hp|].
    - split.
      + intros (q & [= <-] & [->|?]%Hf); eauto.
      + intros [(q & ? & ?)|[-> _]]; simplify_eq/=; eexists; (split; [done|]); apply Hf; auto.
    - split; [by left|]. intros [?|[_ ?]]; [done|congruence]. }
  assert (Z.of_nat i = ipbucket_index s false ↔ i = p) as -> by (unfold p; lia).
  destruct (s =? ipbucket_block_size s); apply Halt; intros q z.
  - by rewrite elem_of_cons.
  - rewrite elem_of_app, list_elem_of_singleton. tauto.
Qed.

Lemma buckets_init sz : buckets_ok sz ipbucket_init.
Proof.
  split.
  - apply length_replicate.
  - intros i q [-> _]%lookup_replicate. constructor.
  - intros x i (q & [-> _]%lookup_replicate & Hx). by apply not_elem_of_nil in Hx.
Qed.

Lemma buckets_add sz ipb x s :
  buckets_ok sz ipb → (∀ i, ¬ linked ipb x i) → sz x = Some s → 0 ≤ s →
  buckets_ok sz (ipbucket_add ipb x s).
Proof.
  intros Hb Hx Es Hs. split.
  - unfold ipbucket_add. destruct (_ =? _); rewrite length_alter; apply Hb.
  - intros i q. unfold ipbucket_add.
    destruct (_ =? _); rewrite list_lookup_alter; case_decide; subst; try apply Hb;
      intros (q' & Hq & ->)%fmap_Some; pose proof (bo_nodup _ _ Hb _ _ Hq).
    + apply NoDup_cons. split; [|done]. intros ?. eapply Hx. by eexists.
    + apply NoDup_app. split_and!; [done| |apply NoDup_singleton].
      intros z Hz ->%list_elem_of_singleton. eapply Hx. by eexists.
  - intros y i [Hy|[-> Hi]]%linked_add; [by eapply bo_class|eauto|by apply Hb|done].
Qed.

Lemma buckets_del sz ipb x : buckets_ok sz ipb → buckets_ok sz (queue_del ipb x).
Proof.
  intros Hb. split.
  - unfold queue_del. rewrite length_fmap. apply Hb.
  - intros i q. unfold queue_del. rewrite list_lookup_fmap.
    intros (q' & Hq & ->)%fmap_Some. apply NoDup_list_remove_one. by eapply bo_nodup.
  - intros y i [Hy _]%linked_queue_del. by eapply bo_class.
Qed.

(** Only the sizes of linked blocks matter. *)
Lemma buckets_ext sz sz' ipb :
  buckets_ok sz ipb → (∀ x i, linked ipb x i → sz' x = sz x) → buckets_ok sz' ipb.
Proof.
  intros Hb Hs. split; [apply Hb..|]. intros x i Hx. rewrite (Hs x i Hx).
  by eapply bo_class.
Qed.

Lemma ipbucket_del_eq ipb x : ipbucket_del ipb x = queue_del ipb x.
Proof.
  unfold ipbucket_del. destruct (queue_linked ipb x) eqn:E; [done|].
  unfold queue_del. symmetry. rewrite <- (list_fmap_id ipb) at 2.
  apply list_fmap_ext. intros i q Hq. simpl. apply list_remove_one_notin. intros Hx.
  assert (queue_linked ipb x = true); [|congruence].
  apply queue_linked_spec. exists i. by eexists.
Qed.

(** *** Taking a block *)

Lemma get_loop_spec n index ipb r :
  ipbucket_get_loop n index ipb = r →
  match r with
  | Some (x, ipb') => ∃ i q, (index ≤ i < index + n)%nat ∧ ipb !! i = Some (x :: q) ∧
      ipb' = <[i := q]> ipb ∧ ∀ j y, (index ≤ j < i)%nat → ¬ linked ipb y j
  | None => ∀ i, (index ≤ i < index + n)%nat → ∀ x, ¬ linked ipb x i
  end.
Proof.
  revert index. induction n as [|n IH]; intros index; simpl; [intros <- i Hi; lia|].
  destruct (ipb !! index) as [[|y q]|] eqn:E.
  - intros Hr%IH. destruct r as [[x ipb']|].
    + destruct Hr as (i & q & ? & ? & ? & Hmin). exists i, q. split_and!; [lia..|done|done|].
      intros j y Hj Hy. destruct (decide (j = index)) as [->|]; [|apply (Hmin j y); [lia|done]].
      destruct Hy as (q' & Hq & Hy). simplify_eq. by apply not_elem_of_nil in Hy.
    + intros i Hi x Hx. destruct (decide (i = index)) as [->|]; [|exact (Hr i ltac:(lia) x Hx)].
      destruct Hx as (q & Hq & Hx). simplify_eq. by apply not_elem_of_nil in Hx.
  - intros <-. exists index, q. split_and!; [lia..|done|done|]. intros; lia.
  - intros Hr%IH. destruct r as [[x ipb']|].
    + destruct Hr as (i & q & ? & ? & ? & Hmin). exists i, q. split_and!; [lia..|done|done|].
      intros j y Hj Hy. destruct (decide (j = index)) as [->|]; [|apply (Hmin j y); [lia|done]].
      destruct Hy as (q' & Hq & Hy). congruence.
    + intros i Hi x Hx. destruct (decide (i = index)) as [->|]; [|exact (Hr i ltac:(lia) x Hx)].
      destruct Hx as (q & Hq & Hx). congruence.
Qed.

Lemma ipbucket_get_unlinks sz ipb i x q :
  buckets_ok sz ipb → ipb !! i = Some (x :: q) → <[i := q]> ipb = queue_del ipb x.
Proof.
  intros Hb Hi. apply list_eq. intros j. unfold queue_del. rewrite list_lookup_fmap.
  pose proof (bo_nodup _ _ Hb _ _ Hi) as [Hx Hnd]%NoDup_cons.
  destruct (decide (j = i)) as [->|Hne].
  - rewrite Hi, list_lookup_insert_eq by (by eapply lookup_lt_Some). simpl. f_equal.
    unfold list_remove_one. rewrite filter_cons_False by tauto.
    symmetry. by apply list_remove_one_notin.
  - rewrite list_lookup_insert_ne by done. destruct (ipb !! j) as [q'|] eqn:Ej; [|done].
    simpl. f_equal. symmetry. apply list_remove_one_notin. intros Hq'.
    destruct Hne. eapply (linked_unique sz ipb x); [done|by eexists|].
    exists (x :: q). split; [done|]. apply list_elem_of_here.
Qed.

(** [ipbucket_get] returns a block of the lowest class that is large enough for
    the request, and fails only if there is none. *)
Lemma ipbucket_get_spec sz ipb req :
  buckets_ok sz ipb → (∀ x i s, linked ipb x i → sz x = Some s → 512 ≤ s) →
  0 < req ≤ 2 ^ 32 →
  match ipbucket_get ipb req with
  | Some (x, ipb') => ipb' = queue_del ipb x ∧ (∃ i, linked ipb x i) ∧
      ∃ s, sz x = Some s ∧ ipbucket_block_size req ≤ s ∧
        ∀ y i' s', linked ipb y i' → sz y = Some s' → ipbucket_block_size req ≤ s' →
          ipbucket_index s false ≤ ipbucket_index s' false
  | None => ∀ x i s, linked ipb x i → sz x = Some s → s < ipbucket_block_size req
  end.
Proof.
  intros Hb Hmin Hreq. unfold ipbucket_get.
  pose proof (index_up req Hreq) as (Hi & _).
  rewrite (proj2 (Z.eqb_neq _ (-1))) by lia.
  set (k := Z.to_nat (ipbucket_index req true)).
  change IPB_BUCKETS with 89.
  destruct (ipbucket_get_loop _ k ipb) as [[x ipb']|] eqn:E; apply get_loop_spec in E.
  - destruct E as (i & q & Hik & Hq & -> & Hlow). split_and!.
    + by eapply ipbucket_get_unlinks.
    + exists i, (x :: q). split; [done|]. apply list_elem_of_here.
    + assert (linked ipb x i) as Hl. { exists (x :: q). split; [done|]. apply list_elem_of_here. }
      destruct (bo_class _ _ Hb _ _ Hl) as (s & Es & Ei). exists s. split_and!; [done| |].
      { apply index_search; [by eapply Hmin|done|]. rewrite <- Ei. lia. }
      intros y i' s' Hy Es' Hs'. destruct (bo_class _ _ Hb _ _ Hy) as (s2 & ? & Ei'). simplify_eq.
      apply index_search in Hs'; [|by eapply Hmin|done].
      destruct (decide (i ≤ i')%nat); [lia|]. destruct (Hlow i' y); [lia|done].
  - intros x i s Hl Es. destruct (bo_class _ _ Hb _ _ Hl) as (s' & Es' & Ei). simplify_eq.
    destruct (decide (s < ipbucket_block_size req)) as [|Hge]; [done|].
    exfalso. assert (ipbucket_index req true ≤ ipbucket_index s false) as Hle.
    { apply index_search; [by eapply Hmin|done|lia]. }
    apply (E i) with x; [|done]. rewrite <- Ei in Hle.
    destruct Hl as (q & Hq & _). apply lookup_lt_Some in Hq.
    rewrite (bo_length _ _ Hb) in Hq. change IPB_BUCKETS with 89 in Hq. lia.
Qed.
End queue_invariant.

(** *** The biggest block *)
Section biggest.
Context {A : Type}.
Implicit Types ipb : list (list A).

Lemma biggest_loop_spec n ipb :
  match ipbucket_biggest_loop n ipb with
  | Some x => ∃ i, (i < n)%nat ∧ linked ipb x i ∧
      ∀ y j, (j < n)%nat → linked ipb y j → (j ≤ i)%nat
  | None => ∀ y j, (j < n)%nat → ¬ linked ipb y j
  end.
Proof.
  induction n as [|n IH]; simpl; [intros; lia|].
  assert (∀ q, ipb !! n = Some q → q = [] ∨ ∃ x, last q = Some x ∧ x ∈ q) as Hl.
  { intros q _. destruct q as [|x q _] using rev_ind; [by left|]. right. exists x.
    rewrite last_snoc, elem_of_app, list_elem_of_singleton. auto. }
  destruct (ipb !! n) as [[|x q]|] eqn:E.
  - destruct (ipbucket_biggest_loop n ipb) as [x|].
    + destruct IH as (i & Hi & Hx & Hmax). exists i. split_and!; [lia|done|].
      intros y j Hj Hy. destruct (decide (j = n)) as [->|]; [|apply (Hmax y); [lia|done]].
      destruct Hy as (q & Hq & Hy). simplify_eq. by apply not_elem_of_nil in Hy.
    + intros y j Hj Hy. destruct (decide (j = n)) as [->|]; [|apply (IH y j); [lia|done]].
      destruct Hy as (q & Hq & Hy). simplify_eq. by apply not_elem_of_nil in Hy.
  - destruct (Hl _ eq_refl) as [?|(z & Ez & Hz)]; [done|]. rewrite Ez. exists n.
    split_and!; [lia|by exists (x :: q)|]. intros; lia.
  - destruct (ipbucket_biggest_loop n ipb) as [x|].
    + destruct IH as (i & Hi & Hx & Hmax). exists i. split_and!; [lia|done|].
      intros y j Hj Hy. destruct (decide (j = n)) as [->|]; [|apply (Hmax y); [lia|done]].
      destruct Hy as (q & Hq & Hy). congruence.
    + intros y j Hj Hy. destruct (decide (j = n)) as [->|]; [|apply (IH y j); [lia|done]].
      destruct Hy as (q & Hq & Hy). congruence.
Qed.
End biggest.

(** ** Properties *)

(** C34: the size classes.  The block a request of [req] bytes gets is the
    smallest class that holds it, a multiple of 512; and a free block of [size]
    bytes is in a queue at or above the one where the search for [req] starts
    exactly if the block fits. *)
Theorem ipbucket_best_fit req size :
  0 < req ≤ 2 ^ 32 → 512 ≤ size →
  let b := ipbucket_block_size req in
  b = class_size (ipbucket_index req true) ∧ req ≤ b ≤ 2 ^ 32 ∧ (512 | b) ∧
  (∀ j, 0 ≤ j → req ≤ class_size j → b ≤ class_size j) ∧
  (ipbucket_index req true ≤ ipbucket_index size false ↔ b ≤ size).
Proof.
  intros Hr Hs b. destruct (index_up req Hr) as (Hi & Eb & _ & Hlow).
  destruct (block_size_bounds req Hr) as [Hb _]. split_and!; try done; try lia.
  - by apply block_size_aligned.
  - intros j Hj Hle. unfold b. rewrite Eb. apply class_size_le.
    destruct (decide (ipbucket_index req true ≤ j)); [lia|].
    pose proof (class_size_le j (ipbucket_index req true - 1)). lia.
  - by apply index_search.
Qed.

Lemma ipbucket_best_fit_witness : ipbucket_index 3000 true ≤ ipbucket_index 3072 false.
Proof.
  apply (ipbucket_best_fit 3000 3072); [lia|lia|]. apply Z.leb_le. vm_compute. reflexivity.
Defined.

(** Three free blocks, by their address, and the queues that hold them. *)
Definition demo_sizes : gmap Z Z := {[ 1 := 512; 2 := 3072; 3 := 40000 ]}.
Definition demo_queues : list (list Z) :=
  ipbucket_add (ipbucket_add (ipbucket_add ipbucket_init 1 512) 2 3072) 3 40000.

Lemma demo_queues_ok : buckets_ok (demo_sizes !!.) demo_queues.
Proof.
  assert (∀ ipb (x : Z), queue_linked ipb x = false → ∀ i, ¬ linked ipb x i) as Hl.
  { intros ipb x E i Hi. rewrite (proj2 (queue_linked_spec ipb x)) in E; [done|by exists i]. }
  unfold demo_queues. repeat apply buckets_add; try apply buckets_init;
    first [apply Hl; vm_compute; reflexivity|vm_compute; reflexivity|lia].
Qed.
Lemma demo_sizes_min x s : demo_sizes !! x = Some s → 512 ≤ s.
Proof.
  intros Hs. unfold demo_sizes in Hs.
  repeat (apply lookup_insert_Some in Hs as [[_ <-]|[_ Hs]]; [lia|]).
  apply lookup_singleton_Some in Hs as [_ <-]. lia.
Qed.

(** Allocation from the free blocks.  [ipbucket_get] finds a block that is
    large enough for the request whenever there is one, takes it out of its
    queue, and no block of a lower class would have done. *)
Theorem ipbucket_get_correct (sz : Z → option Z) ipb req :
  buckets_ok sz ipb → (∀ x i s, linked ipb x i → sz x = Some s → 512 ≤ s) →
  0 < req ≤ 2 ^ 32 →
  match ipbucket_get ipb req with
  | Some (x, ipb') => ipb' = queue_del ipb x ∧ (∃ i, linked ipb x i) ∧
      ∃ s, sz x = Some s ∧ ipbucket_block_size req ≤ s ∧
        ∀ y i' s', linked ipb y i' → sz y = Some s' → ipbucket_block_size req ≤ s' →
          ipbucket_index s false ≤ ipbucket_index s' false
  | None => ∀ x i s, linked ipb x i → sz x = Some s → s < ipbucket_block_size req
  end.
Proof. apply ipbucket_get_spec. Qed.

Lemma ipbucket_get_correct_witness :
  ∃ ipb', ipbucket_get demo_queues 2500 = Some (2, ipb') ∧ ipb' = queue_del demo_queues 2.
Proof.
  pose proof (ipbucket_get_correct (demo_sizes !!.) demo_queues 2500 demo_queues_ok
    (λ x i s _, demo_sizes_min x s) ltac:(lia)) as Hg.
  destruct (ipbucket_get demo_queues 2500) as [[x ipb']|] eqn:E; vm_compute in E; [|done].
  injection E as <- Eq. exists ipb'. split; [by rewrite <- Eq|apply Hg].
Defined.

(** [ipbucket_biggest] answers a block of the highest class in use, and
    NULL only if there is no free block. *)
Theorem ipbucket_biggest_correct (sz : Z → option Z) ipb :
  buckets_ok sz ipb →
  match ipbucket_biggest ipb with
  | Some x => ∃ i s, linked ipb x i ∧ sz x = Some s ∧
      ∀ y j s', linked ipb y j → sz y = Some s' → ipbucket_index s' false ≤ ipbucket_index s false
  | None => ∀ y j, ¬ linked ipb y j
  end.
Proof.
  intros Hb. pose proof (biggest_loop_spec (Z.to_nat IPB_BUCKETS) ipb) as Hs. fold (ipbucket_biggest ipb) in Hs.
  assert (∀ y j, linked ipb y j → (j < Z.to_nat IPB_BUCKETS)%nat) as Hlt.
  { intros y j (q & Hq & _). apply lookup_lt_Some in Hq. by rewrite (bo_length _ _ Hb) in Hq. }
  destruct (ipbucket_biggest ipb) as [x|]; [|intros y j Hy; by apply (Hs y j); [eapply Hlt|]].
  destruct Hs as (i & _ & Hx & Hmax). destruct (bo_class _ _ Hb _ _ Hx) as (s & Es & Ei).
  exists i, s. split_and!; [done..|]. intros y j s' Hy Es'.
  destruct (bo_class _ _ Hb _ _ Hy) as (s2 & ? & Ej). simplify_eq.
  pose proof (Hmax y j (Hlt y j Hy) Hy). lia.
Qed.

Lemma ipbucket_biggest_correct_witness :
  ipbucket_biggest demo_queues = Some 3 ∧ ∃ i, linked demo_queues 3 i.
Proof.
  pose proof (ipbucket_biggest_correct (demo_sizes !!.) demo_queues demo_queues_ok) as Hg.
  destruct (ipbucket_biggest demo_queues) as [x|] eqn:E; vm_compute in E; [|done].
  injection E as <-. destruct Hg as (i & _ & Hi & _). split; [done|by exists i].
Defined.
