(* ===== verification/Slab.v ===== *)
(** * utils/slab.c: the slab allocator

    A slab hands out items of one size from blocks of about 128 KB.  In front
    of every item lies a leader word holding the address of its block, from
    which [slab_free] finds the block.  [malloc] is a parameter: it sees the
    state (and so may fail at any call) and returns an address whose region is
    disjoint from the live blocks. *)

From stdpp Require Import prelude fin_maps gmap.
From S2P Require Import Prelude ListHead.

(** slab_block_t.  [block_node] is the block's membership in [block_head],
    and the back pointer to the slab is the state itself. *)
Record slab_block_t := SlabBlock {
  item_head : list Z;   (* free items *)
  frees : Z
}.

Record ohc_slab_t := Slab {
  block_head : list Z;             (* blocks with free items *)
  item_size : Z;
  blocks : gmap Z slab_block_t;    (* the live malloc'ed blocks *)
  leaders : gmap Z Z;              (* leader words, by address *)
  mallocs : nat                    (* calls of malloc so far *)
}.

Definition sizeof_slab_block_t : Z := 40.
Definition sizeof_ptr : Z := 8.

(** OHC_SLAB_INIT(type) *)
Definition OHC_SLAB_INIT (sizeof_type : Z) : ohc_slab_t :=
  Slab [] (sizeof_type + sizeof_ptr) ∅ ∅ 0.

Definition slab_buckets (slab : ohc_slab_t) : Z :=
  (128 * 1024 - sizeof_slab_block_t - 100) / item_size slab.

Section slab.
Context (malloc : ohc_slab_t → Z → option Z).

Definition set_block (b : Z) (blk : slab_block_t) (s : ohc_slab_t) : ohc_slab_t :=
  Slab (block_head s) (item_size s) (<[b := blk]> (blocks s)) (leaders s) (mallocs s).
Definition set_block_head (l : list Z) (s : ohc_slab_t) : ohc_slab_t :=
  Slab l (item_size s) (blocks s) (leaders s) (mallocs s).

(** The loop that writes the leaders and links the items: item [i] is
    pushed in front of the items before it. *)
Fixpoint carve (n : nat) (b leader isz : Z) (items : list Z) (ls : gmap Z Z) :
    list Z * gmap Z Z :=
  match n with
  | O => (items, ls)
  | S n => carve n b (leader + isz) isz (leader + sizeof_ptr :: items) (<[leader := b]> ls)
  end.

(** Makes sure [block_head] has a block: its first one, or a new one. *)
Definition slab_block (s : ohc_slab_t) : option (Z * ohc_slab_t) :=
  match block_head s with
  | b :: _ => Some (b, s)
  | [] =>
      let buckets := slab_buckets s in
      match malloc s (sizeof_slab_block_t + item_size s * buckets) with
      | None => None
      | Some b =>
          let '(items, ls) := carve (Z.to_nat buckets) b (b + sizeof_slab_block_t)
                                (item_size s) [] (leaders s) in
          Some (b, Slab [b] (item_size s) (<[b := SlabBlock items buckets]> (blocks s))
                     ls (S (mallocs s)))
      end
  end.

Definition slab_alloc (s : ohc_slab_t) : outcome (option Z * ohc_slab_t) :=
  match slab_block s with
  | None => Ret (None, Slab (block_head s) (item_size s) (blocks s) (leaders s) (S (mallocs s)))
  | Some (b, s) =>
      match blocks s !! b with
      | None => Fail Dangling
      | Some (SlabBlock [] _) => Fail NullPtr
      | Some (SlabBlock (p :: items) n) =>
          let s := set_block b (SlabBlock items (n - 1)) s in
          Ret (Some p,
               if n - 1 =? 0 then set_block_head (list_remove_one b (block_head s)) s else s)
      end
  end.

(** The leader words of a block. *)
Fixpoint uncarve (n : nat) (leader isz : Z) (ls : gmap Z Z) : gmap Z Z :=
  match n with
  | O => ls
  | S n => uncarve n (leader + isz) isz (delete leader ls)
  end.

Definition free_block (b : Z) (s : ohc_slab_t) : ohc_slab_t :=
  Slab (list_remove_one b (block_head s)) (item_size s) (delete b (blocks s))
    (uncarve (Z.to_nat (slab_buckets s)) (b + sizeof_slab_block_t) (item_size s) (leaders s))
    (mallocs s).

Definition slab_free (s : ohc_slab_t) (p : Z) : outcome ohc_slab_t :=
  match leaders s !! (p - sizeof_ptr) with
  | None => Fail Dangling
  | Some b =>
      match blocks s !! b with
      | None => Fail Dangling
      | Some (SlabBlock items n) =>
          let s := if n =? 0 then set_block_head (b :: block_head s) s else s in
          let s := set_block b (SlabBlock (p :: items) (n + 1)) s in
          (* block_node.next is non-null: the block is not the last one *)
          if (n + 1 =? slab_buckets s) && negb (bool_decide (last (block_head s) = Some b))
          then Ret (free_block b s)
          else Ret s
      end
  end.
End slab.

(** ** Invariant *)

Definition item_addr (isz b : Z) (i : nat) : Z :=
  b + sizeof_slab_block_t + Z.of_nat i * isz + sizeof_ptr.
Definition items_of (s : ohc_slab_t) (b : Z) : list Z :=
  item_addr (item_size s) b <$> seq 0 (Z.to_nat (slab_buckets s)).
Definition block_bytes (s : ohc_slab_t) : Z :=
  sizeof_slab_block_t + item_size s * slab_buckets s.

Record slab_inv (s : ohc_slab_t) : Prop := {
  si_size : 24 ≤ item_size s ≤ 130932;
  si_nodup : NoDup (block_head s);
  si_head : ∀ b, b ∈ block_head s ↔ ∃ blk, blocks s !! b = Some blk ∧ item_head blk ≠ [];
  si_block : ∀ b blk, blocks s !! b = Some blk →
    frees blk = Z.of_nat (length (item_head blk)) ∧ NoDup (item_head blk) ∧
    ∀ p, p ∈ item_head blk → p ∈ items_of s b;
  si_leader : ∀ b p, is_Some (blocks s !! b) → p ∈ items_of s b →
    leaders s !! (p - sizeof_ptr) = Some b;
  si_disjoint : ∀ b1 b2, is_Some (blocks s !! b1) → is_Some (blocks s !! b2) → b1 ≠ b2 →
    b1 + block_bytes s ≤ b2 ∨ b2 + block_bytes s ≤ b1;
}.

(** The items handed out and not returned. *)
Definition slab_live (s : ohc_slab_t) (p : Z) : Prop :=
  ∃ b blk, blocks s !! b = Some blk ∧ p ∈ items_of s b ∧ p ∉ item_head blk.

(** What malloc promises: a region away from the live blocks. *)
Definition malloc_fresh (malloc : ohc_slab_t → Z → option Z) : Prop :=
  ∀ s n a, malloc s n = Some a →
    ∀ b, is_Some (blocks s !! b) → a + n ≤ b ∨ b + n ≤ a.

Lemma items_of_elem s b p :
  p ∈ items_of s b ↔
  ∃ i, 0 ≤ i < slab_buckets s ∧ p = b + sizeof_slab_block_t + i * item_size s + sizeof_ptr.
Proof.
  unfold items_of. rewrite list_elem_of_fmap. setoid_rewrite elem_of_seq. split.
  - intros (i & -> & Hi). exists (Z.of_nat i). unfold item_addr. lia.
  - intros (i & Hi & ->). exists (Z.to_nat i). unfold item_addr.
    rewrite Z2Nat.id by lia. split; [done|lia].
Qed.

Lemma items_of_length s b : length (items_of s b) = Z.to_nat (slab_buckets s).
Proof. unfold items_of. by rewrite length_fmap, length_seq. Qed.

Lemma buckets_pos s : 24 ≤ item_size s ≤ 130932 → 1 ≤ slab_buckets s.
Proof.
  intros Hs. unfold slab_buckets, sizeof_slab_block_t. apply Z.div_le_lower_bound; lia.
Qed.

(** An item lies inside its block. *)
Lemma item_in_block s b p :
  24 ≤ item_size s ≤ 130932 → p ∈ items_of s b →
  b + sizeof_slab_block_t + sizeof_ptr ≤ p ∧ p + (item_size s - sizeof_ptr) ≤ b + block_bytes s.
Proof.
  intros Hs (i & Hi & ->)%items_of_elem. unfold block_bytes.
  assert (i * item_size s ≤ (slab_buckets s - 1) * item_size s)
    by (apply Z.mul_le_mono_nonneg_r; lia).
  assert (0 ≤ i * item_size s) by (apply Z.mul_nonneg_nonneg; lia). lia.
Qed.

Lemma item_block_unique s b1 b2 p :
  slab_inv s → is_Some (blocks s !! b1) → is_Some (blocks s !! b2) →
  p ∈ items_of s b1 → p ∈ items_of s b2 → b1 = b2.
Proof.
  intros Hi H1 H2 Hp1 Hp2. destruct (decide (b1 = b2)) as [|Hne]; [done|].
  pose proof (item_in_block s b1 p (si_size _ Hi) Hp1) as I1.
  pose proof (item_in_block s b2 p (si_size _ Hi) Hp2) as I2.
  pose proof (si_size _ Hi). unfold sizeof_ptr, sizeof_slab_block_t in *.
  destruct (si_disjoint _ Hi b1 b2 H1 H2 Hne); lia.
Qed.

(** ** The initialisation loop *)

Lemma carve_spec n b leader isz items ls items' ls' :
  0 < isz → carve n b leader isz items ls = (items', ls') →
  items' = reverse ((λ i : nat, leader + Z.of_nat i * isz + sizeof_ptr) <$> seq 0 n) ++ items ∧
  (∀ a, ls' !! a = Some b ∧ (∃ i : nat, (i < n)%nat ∧ a = leader + Z.of_nat i * isz) ∨
        ls' !! a = ls !! a ∧ ∀ i : nat, (i < n)%nat → a ≠ leader + Z.of_nat i * isz).
Proof.
  intros Hisz. revert leader items ls. induction n as [|n IH]; intros leader items ls; simpl.
  - intros [= <- <-]. split; [done|]. intros a. right. split; [done|]. lia.
  - intros [-> Hls]%IH. split.
    + rewrite <- fmap_S_seq, <- list_fmap_compose. unfold compose. simpl.
      rewrite reverse_cons, <- app_assoc. simpl. f_equal; [|f_equal; lia].
      f_equal. apply list_fmap_ext. intros i x _. lia.
    + intros a. destruct (Hls a) as [(E & i & Hi & ->)|(E & Hi)].
      * left. split; [done|]. exists (S i). lia.
      * rewrite lookup_insert in E. case_decide as Ha; subst.
        -- left. split; [done|]. exists 0%nat. lia.
        -- right. split; [done|]. intros [|i] Hin; [lia|]. specialize (Hi i). lia.
Qed.

Lemma uncarve_spec n leader isz ls a :
  (∀ i : nat, (i < n)%nat → a ≠ leader + Z.of_nat i * isz) →
  uncarve n leader isz ls !! a = ls !! a.
Proof.
  revert leader ls. induction n as [|n IH]; intros leader ls Ha; simpl; [done|].
  rewrite IH.
  - rewrite lookup_delete_ne; [done|]. specialize (Ha 0%nat). lia.
  - intros i Hi. specialize (Ha (S i)). lia.
Qed.

(** ** Taking an item from a block *)

Definition take_item (b p : Z) (items : list Z) (n : Z) (s : ohc_slab_t) : ohc_slab_t :=
  let s := set_block b (SlabBlock items (n - 1)) s in
  if n - 1 =? 0 then set_block_head (list_remove_one b (block_head s)) s else s.

Lemma take_item_fields b p items n s :
  let s' := take_item b p items n s in
  item_size s' = item_size s ∧ blocks s' = <[b := SlabBlock items (n - 1)]> (blocks s) ∧
  leaders s' = leaders s ∧
  block_head s' = if n - 1 =? 0 then list_remove_one b (block_head s) else block_head s.
Proof. unfold take_item. by destruct (n - 1 =? 0). Qed.

Lemma take_item_spec s b p items n :
  slab_inv s → blocks s !! b = Some (SlabBlock (p :: items) n) →
  let s' := take_item b p items n s in
  slab_inv s' ∧ ¬ slab_live s p ∧ ∀ q, slab_live s' q ↔ q = p ∨ slab_live s q.
Proof.
  intros Hi Hb s'. destruct (take_item_fields b p items n s) as (Esz & Ebl & Eld & Ehd).
  fold s' in Esz, Ebl, Eld, Ehd.
  destruct (si_block _ Hi _ _ Hb) as (Hf & Hnd & Hin). simpl in Hf, Hnd, Hin.
  apply NoDup_cons in Hnd as [Hp Hnd].
  assert (∀ c, items_of s' c = items_of s c) as Eit.
  { intros c. unfold items_of, slab_buckets. by rewrite Esz. }
  assert (block_bytes s' = block_bytes s) as Ebb.
  { unfold block_bytes, slab_buckets. by rewrite Esz. }
  assert ((n - 1 =? 0) = bool_decide (items = [])) as En.
  { destruct items; [simpl in Hf; by subst|]. rewrite bool_decide_false by done.
    apply Z.eqb_neq. simpl in Hf. lia. }
  assert (∀ c, is_Some (blocks s' !! c) → is_Some (blocks s !! c)) as Hdom.
  { intros c. rewrite Ebl, lookup_insert_is_Some'. intros [->|?]; eauto. }
  assert (p ∈ items_of s b) as Hpb by apply Hin, list_elem_of_here.
  split_and!.
  - split.
    + rewrite Esz. apply Hi.
    + rewrite Ehd. destruct (n - 1 =? 0); [apply NoDup_list_remove_one|]; apply Hi.
    + intros c. rewrite Ehd, Ebl, En. setoid_rewrite lookup_insert_Some.
      destruct (decide (c = b)) as [->|Hne].
      * case_bool_decide as Hem.
        -- rewrite elem_of_list_remove_one. split; [tauto|].
           intros (blk & [[_ <-]|[? _]] & Hne); done.
        -- split; [|intros _; apply (si_head _ Hi); eauto].
           intros _. exists (SlabBlock items (n - 1)). auto.
      * transitivity (c ∈ block_head s).
        -- case_bool_decide; [rewrite elem_of_list_remove_one; tauto|done].
        -- rewrite (si_head _ Hi). split; intros (blk & H & Hemp); exists blk;
             (split; [|done]); [right; auto|]. destruct H as [[? _]|[_ ?]]; done.
    + intros c blk. rewrite Ebl, Eit. intros [[<- <-]|[? Hc]]%lookup_insert_Some; simpl.
      * split_and!; [lia|done|]. intros q Hq. apply Hin. by apply list_elem_of_further.
      * by apply (si_block _ Hi).
    + intros c q Hc. rewrite Eit, Eld. apply (si_leader _ Hi), Hdom, Hc.
    + intros b1 b2 H1 H2. rewrite Ebb. apply (si_disjoint _ Hi); by apply Hdom.
  - intros (c & blk & Hc & Hpc & Hnot).
    assert (c = b) as -> by (eapply (item_block_unique s); eauto).
    simplify_eq/=. apply Hnot, list_elem_of_here.
  - intros q. unfold slab_live. setoid_rewrite Eit. rewrite Ebl.
    setoid_rewrite lookup_insert_Some. split.
    + intros (c & blk & [[<- <-]|[Hne Hc]] & Hqc & Hnot); simpl in *.
      * destruct (decide (q = p)) as [->|]; [by left|]. right. exists b, (SlabBlock (p :: items) n).
        split_and!; [done..|]. simpl. set_solver.
      * right. eauto.
    + intros [->|(c & blk & Hc & Hqc & Hnot)].
      * exists b, (SlabBlock items (n - 1)). auto.
      * destruct (decide (c = b)) as [->|]; [|by eauto 10].
        rewrite Hb in Hc. injection Hc as <-. exists b, (SlabBlock items (n - 1)).
        simpl in *. split_and!; [by left|done|set_solver].
Qed.

(** ** A new block *)

Section alloc.
Context (malloc : ohc_slab_t → Z → option Z) (Hmalloc : malloc_fresh malloc).

Lemma slab_block_spec s b s1 :
  slab_inv s → slab_block malloc s = Some (b, s1) →
  slab_inv s1 ∧ (∀ q, slab_live s1 q ↔ slab_live s q) ∧
  ∃ blk, blocks s1 !! b = Some blk ∧ item_head blk ≠ [].
Proof.
  intros Hi. unfold slab_block. destruct (block_head s) as [|b0 bs] eqn:Ebh.
  2:{ intros [= <- <-]. split_and!; [done..|]. apply (si_head _ Hi). rewrite Ebh.
      apply list_elem_of_here. }
  destruct (malloc s _) as [b1|] eqn:Em; [|done].
  destruct (carve _ _ _ _ _ _) as [items ls] eqn:Ec. intros [= <- <-].
  pose proof (si_size _ Hi) as Hsz. pose proof (buckets_pos s Hsz) as Hbk.
  apply carve_spec in Ec as [Eit Hls]; [|lia].
  set (s1 := Slab _ _ _ _ _).
  assert (∀ c, items_of s1 c = items_of s c) as Eitems by done.
  assert (items = reverse (items_of s b1)) as Eit'.
  { by rewrite Eit, app_nil_r. }
  clear Eit. fold (block_bytes s) in Em.
  pose proof (Hmalloc _ _ _ Em) as Hfresh.
  assert (blocks s !! b1 = None) as Hb1.
  { destruct (blocks s !! b1) eqn:E; [|done]. exfalso.
    assert (0 < item_size s * slab_buckets s) by (apply Z.mul_pos_pos; lia).
    destruct (Hfresh b1); [by rewrite E|..]; unfold block_bytes, sizeof_slab_block_t in *; lia. }
  assert (NoDup (items_of s b1)) as Hndi.
  { unfold items_of. apply NoDup_fmap_2; [|apply NoDup_seq]. intros i j Hij.
    unfold item_addr in Hij.
    assert (Z.of_nat i * item_size s = Z.of_nat j * item_size s) as Em' by lia.
    apply Z.mul_cancel_r in Em'; lia. }
  assert (items ≠ []) as Hne.
  { intros E. pose proof (items_of_length s b1) as Hl. rewrite <- length_reverse, <- Eit', E in Hl.
    simpl in Hl. lia. }
  assert (∀ c, is_Some (blocks s1 !! c) → c = b1 ∨ c ≠ b1 ∧ is_Some (blocks s !! c)) as Hdom.
  { intros c. simpl. rewrite lookup_insert_is_Some. intros [->|[? ?]]; auto. }
  split_and!.
  - split; simpl.
    + done.
    + apply NoDup_singleton.
    + intros c. rewrite list_elem_of_singleton. setoid_rewrite lookup_insert_Some. split.
      * intros ->. eexists. split; [by left|done].
      * intros (blk & [[-> _]|[Hc Hblk]] & Hemp); [done|].
        assert (c ∈ block_head s) as Hin by (apply (si_head _ Hi); eauto).
        rewrite Ebh in Hin. by apply not_elem_of_nil in Hin.
    + intros c blk. rewrite Eitems. intros [[<- <-]|[Hc Hblk]]%lookup_insert_Some; simpl.
      * rewrite Eit', length_reverse, items_of_length. split_and!; [lia|by rewrite (reverse_Permutation (items_of s b1))|].
        intros p. by rewrite elem_of_reverse.
      * by apply (si_block _ Hi).
    + intros c p Hc. rewrite Eitems. intros Hp.
      pose proof (item_in_block s c p Hsz Hp) as Hin.
      destruct (Hls (p - sizeof_ptr)) as [(E & i & Hik & Ea)|(E & Hno)]; rewrite E.
      * apply Hdom in Hc as [->|[Hcne Hc]]; [done|]. exfalso.
        assert (p ∈ items_of s b1) as Hp1.
        { apply items_of_elem. exists (Z.of_nat i). lia. }
        pose proof (item_in_block s b1 p Hsz Hp1). unfold sizeof_ptr, sizeof_slab_block_t in *.
        destruct (Hfresh c Hc); lia.
      * apply Hdom in Hc as [->|[Hcne Hc]]; [|by apply (si_leader _ Hi)]. exfalso.
        apply items_of_elem in Hp as (i & Hib & ->). apply (Hno (Z.to_nat i)); [lia|].
        rewrite Z2Nat.id by lia. lia.
    + intros c1 c2 H1 H2 Hne12. change (block_bytes _) with (block_bytes s).
      apply Hdom in H1 as [->|[? H1]]; apply Hdom in H2 as [->|[? H2]]; [done| | |].
      * by apply Hfresh.
      * destruct (Hfresh c1 H1); auto.
      * by apply (si_disjoint _ Hi).
  - intros q. unfold slab_live. setoid_rewrite Eitems. simpl.
    setoid_rewrite lookup_insert_Some. split.
    + intros (c & blk & [[<- <-]|[Hc Hblk]] & Hq & Hnot); [|by eauto].
      simpl in Hnot. rewrite Eit', elem_of_reverse in Hnot. done.
    + intros (c & blk & Hblk & Hq & Hnot). exists c, blk. split_and!; [|done..].
      right. split; [|done]. by intros ->; rewrite Hb1 in Hblk.
  - eexists. split; [apply lookup_insert_eq|done].
Qed.

(** [slab_alloc] never faults; it returns an item that is not in use and
    nothing else changes, or NULL exactly when malloc fails. *)
Lemma slab_alloc_spec s :
  slab_inv s →
  ∃ r s', slab_alloc malloc s = Ret (r, s') ∧ slab_inv s' ∧
    match r with
    | Some p => ¬ slab_live s p ∧ ∀ q, slab_live s' q ↔ q = p ∨ slab_live s q
    | None => block_head s = [] ∧ (∀ q, slab_live s' q ↔ slab_live s q)
    end.
Proof.
  intros Hi. unfold slab_alloc. destruct (slab_block malloc s) as [[b s1]|] eqn:E.
  - destruct (slab_block_spec _ _ _ Hi E) as (Hi1 & Hl & blk & Hb & Hne).
    rewrite Hb. destruct blk as [[|p items] n]; [done|].
    destruct (take_item_spec s1 b p items n Hi1 Hb) as (Hi' & Hnl & Hl').
    eexists _, _. split; [done|]. split; [done|]. split.
    + by rewrite <- Hl.
    + intros q. by rewrite Hl', Hl.
  - eexists _, _. split; [done|]. split_and!.
    + by destruct Hi; split.
    + unfold slab_block in E. destruct (block_head s); [done|done].
    + done.
Qed.
End alloc.

(** ** Returning an item *)

Definition give_item (b p : Z) (items : list Z) (n : Z) (s : ohc_slab_t) : ohc_slab_t :=
  let s := if n =? 0 then set_block_head (b :: block_head s) s else s in
  set_block b (SlabBlock (p :: items) (n + 1)) s.

Lemma give_item_fields b p items n s :
  let s' := give_item b p items n s in
  item_size s' = item_size s ∧ blocks s' = <[b := SlabBlock (p :: items) (n + 1)]> (blocks s) ∧
  leaders s' = leaders s ∧
  block_head s' = if n =? 0 then b :: block_head s else block_head s.
Proof. unfold give_item. by destruct (n =? 0). Qed.

Lemma give_item_spec s b p items n :
  slab_inv s → blocks s !! b = Some (SlabBlock items n) → p ∈ items_of s b → p ∉ items →
  let s' := give_item b p items n s in
  slab_inv s' ∧ b ∈ block_head s' ∧ ∀ q, slab_live s' q ↔ slab_live s q ∧ q ≠ p.
Proof.
  intros Hi Hb Hpb Hp s'. destruct (give_item_fields b p items n s) as (Esz & Ebl & Eld & Ehd).
  fold s' in Esz, Ebl, Eld, Ehd.
  destruct (si_block _ Hi _ _ Hb) as (Hf & Hnd & Hin). simpl in Hf, Hnd, Hin.
  assert (∀ c, items_of s' c = items_of s c) as Eit.
  { intros c. unfold items_of, slab_buckets. by rewrite Esz. }
  assert (block_bytes s' = block_bytes s) as Ebb.
  { unfold block_bytes, slab_buckets. by rewrite Esz. }
  assert ((n =? 0) = bool_decide (items = [])) as En.
  { destruct items; [simpl in Hf; by subst|]. rewrite bool_decide_false by done.
    apply Z.eqb_neq. simpl in Hf. lia. }
  assert (b ∈ block_head s ↔ items ≠ []) as Hbh.
  { rewrite (si_head _ Hi). split; [|by eauto]. intros (blk & ? & ?). by simplify_eq/=. }
  assert (∀ c, is_Some (blocks s' !! c) → is_Some (blocks s !! c)) as Hdom.
  { intros c. rewrite Ebl, lookup_insert_is_Some'. intros [->|?]; eauto. }
  assert (b ∈ block_head s') as Hbh'.
  { rewrite Ehd, En. case_bool_decide; [apply list_elem_of_here|by apply Hbh]. }
  split_and!; [|done|].
  - split.
    + rewrite Esz. apply Hi.
    + rewrite Ehd, En. case_bool_decide; [|apply Hi]. apply NoDup_cons. split; [|apply Hi].
      rewrite Hbh. by intros ?.
    + intros c. rewrite Ebl. setoid_rewrite lookup_insert_Some.
      destruct (decide (c = b)) as [->|Hne].
      * split; [intros _|done]. exists (SlabBlock (p :: items) (n + 1)). split; [by left|done].
      * transitivity (c ∈ block_head s).
        -- rewrite Ehd. destruct (n =? 0); [rewrite elem_of_cons; tauto|done].
        -- rewrite (si_head _ Hi). split; intros (blk & H & Hemp); exists blk;
             (split; [|done]); [right; auto|]. destruct H as [[? _]|[_ ?]]; done.
    + intros c blk. rewrite Ebl, Eit. intros [[<- <-]|[? Hc]]%lookup_insert_Some; simpl.
      * split_and!; [lia|by apply NoDup_cons|]. intros q [->|Hq]%elem_of_cons; [done|]. by apply Hin.
      * by apply (si_block _ Hi).
    + intros c q Hc. rewrite Eit, Eld. apply (si_leader _ Hi), Hdom, Hc.
    + intros b1 b2 H1 H2. rewrite Ebb. apply (si_disjoint _ Hi); by apply Hdom.
  - intros q. unfold slab_live. setoid_rewrite Eit. rewrite Ebl.
    setoid_rewrite lookup_insert_Some. split.
    + intros (c & blk & [[<- <-]|[Hne Hc]] & Hqc & Hnot); simpl in *.
      * split; [|set_solver]. exists b, (SlabBlock items n). split_and!; [done..|]. set_solver.
      * split; [by eauto|]. intros ->. destruct Hne.
        by eapply (item_block_unique s b c p).
    + intros [(c & blk & Hc & Hqc & Hnot) Hqp].
      destruct (decide (c = b)) as [->|]; [|by eauto 10].
      rewrite Hb in Hc. injection Hc as <-. exists b, (SlabBlock (p :: items) (n + 1)).
      simpl in *. split_and!; [by left|done|set_solver].
Qed.

Lemma free_block_spec s b blk :
  slab_inv s → blocks s !! b = Some blk → (∀ p, p ∈ items_of s b → p ∈ item_head blk) →
  slab_inv (free_block b s) ∧ ∀ q, slab_live (free_block b s) q ↔ slab_live s q.
Proof.
  intros Hi Hb Hall. pose proof (si_size _ Hi) as Hsz.
  assert (∀ c, items_of (free_block b s) c = items_of s c) as Eit by done.
  split.
  - split; simpl.
    + done.
    + apply NoDup_list_remove_one, Hi.
    + intros c. rewrite elem_of_list_remove_one, (si_head _ Hi). split.
      * intros [(blk' & ? & ?) ?]. exists blk'. by rewrite lookup_delete_ne.
      * intros (blk' & [? ?]%lookup_delete_Some & ?). eauto.
    + intros c blk' [? ?]%lookup_delete_Some. by apply (si_block _ Hi).
    + intros c p [Hne Hc]%lookup_delete_is_Some Hp. rewrite Eit in Hp.
      rewrite uncarve_spec; [by apply (si_leader _ Hi)|]. intros i Hik Ea. destruct Hne.
      eapply (item_block_unique s _ _ p); [done|eauto|done| |done].
      apply items_of_elem. exists (Z.of_nat i). lia.
    + intros b1 b2 [_ ?]%lookup_delete_is_Some [_ ?]%lookup_delete_is_Some.
      by apply (si_disjoint _ Hi).
  - intros q. unfold slab_live. setoid_rewrite Eit. simpl.
    setoid_rewrite lookup_delete_Some. split.
    + intros (c & blk' & [? ?] & ? & ?). eauto.
    + intros (c & blk' & Hc & Hq & Hnot). exists c, blk'. split_and!; [|done..].
      intros ->. simplify_eq. by apply Hnot, Hall.
Qed.

(** A block is given back to [free] only when none of its items is in use. *)
Lemma slab_free_spec s p :
  slab_inv s → slab_live s p →
  ∃ s', slab_free s p = Ret s' ∧ slab_inv s' ∧ ∀ q, slab_live s' q ↔ slab_live s q ∧ q ≠ p.
Proof.
  intros Hi (b & [items n] & Hb & Hpb & Hp). simpl in Hp. unfold slab_free.
  rewrite (si_leader _ Hi b p) by eauto. rewrite Hb.
  destruct (give_item_spec s b p items n Hi Hb Hpb Hp) as (Hi' & Hbh & Hl).
  fold (give_item b p items n s). set (s1 := give_item b p items n s) in *.
  destruct (give_item_fields b p items n s) as (Esz & Ebl & _). fold s1 in Esz, Ebl.
  destruct (_ && _) eqn:E; [|eauto].
  apply andb_true_iff in E as [E _]. apply Z.eqb_eq in E.
  assert (blocks s1 !! b = Some (SlabBlock (p :: items) (n + 1))) as Hb1.
  { rewrite Ebl. apply lookup_insert_eq. }
  destruct (free_block_spec s1 b _ Hi' Hb1) as [Hi2 Hl2].
  { destruct (si_block _ Hi' _ _ Hb1) as (Hf & Hnd & Hin). simpl in Hf, Hnd, Hin.
    assert (p :: items ≡ₚ items_of s1 b) as HP.
    { apply submseteq_length_Permutation; [by apply NoDup_submseteq|].
      rewrite items_of_length. simpl length in *. lia. }
    simpl. intros q Hq. by rewrite HP. }
  eexists. split; [done|]. split; [done|]. intros q. by rewrite Hl2, Hl.
Qed.

(** ** The interface the other components use

    What a client may rely on: allocation returns an address that is not in
    use or NULL, release of an address in use works, and neither disturbs the
    other addresses. *)
Class Allocator (S : Type) := {
  al_alloc : S → outcome (option Z * S);
  al_free : S → Z → outcome S;
  al_ok : S → Prop;
  al_live : S → Z → Prop;
  al_alloc_ok : ∀ s, al_ok s →
    ∃ r s', al_alloc s = Ret (r, s') ∧ al_ok s' ∧
      match r with
      | Some p => ¬ al_live s p ∧ ∀ q, al_live s' q ↔ q = p ∨ al_live s q
      | None => ∀ q, al_live s' q ↔ al_live s q
      end;
  al_free_ok : ∀ s p, al_ok s → al_live s p →
    ∃ s', al_free s p = Ret s' ∧ al_ok s' ∧ ∀ q, al_live s' q ↔ al_live s q ∧ q ≠ p;
}.

(** The slab of slab.c over any malloc that keeps its promise. *)
#[refine] Instance slab_allocator (malloc : ohc_slab_t → Z → option Z)
    (Hm : malloc_fresh malloc) : Allocator ohc_slab_t := {
  al_alloc := slab_alloc malloc;
  al_free := slab_free;
  al_ok := slab_inv;
  al_live := slab_live;
}.
Proof.
  - intros s Hi. destruct (slab_alloc_spec malloc Hm s Hi) as (r & s' & E & Hi' & Hr).
    exists r, s'. split_and!; [done..|]. destruct r; [done|]. by apply Hr.
  - intros s p Hi Hp. by apply slab_free_spec.
Defined.

(** A malloc that places each block above all the others. *)
Definition top_block (s : ohc_slab_t) : Z := map_fold (λ b _ t, Z.max b t) 0 (blocks s).
Definition bump_malloc (s : ohc_slab_t) (n : Z) : option Z := Some (top_block s + Z.max n 64).

Lemma top_block_max s b : is_Some (blocks s !! b) → b ≤ top_block s.
Proof.
  unfold top_block. revert b.
  apply (map_fold_weak_ind (λ t (m : gmap Z slab_block_t), ∀ b, is_Some (m !! b) → b ≤ t)).
  - intros b [? ?]. done.
  - intros b blk m t _ IH b' [->|[_ H]]%lookup_insert_is_Some; [lia|].
    specialize (IH b' H). lia.
Qed.

Lemma bump_malloc_fresh : malloc_fresh bump_malloc.
Proof.
  intros s n a [= <-] b Hb. apply top_block_max in Hb. lia.
Qed.

Lemma slab_init_inv n : 16 ≤ n ≤ 130924 → slab_inv (OHC_SLAB_INIT n).
Proof.
  intros Hn. unfold OHC_SLAB_INIT, sizeof_ptr. split; simpl.
  - lia.
  - constructor.
  - intros b. split; [by intros ?%not_elem_of_nil|]. by intros (? & ? & _).
  - done.
  - by intros b p [? ?].
  - by intros b1 b2 [? ?].
Qed.

(** Two items in use do not overlap, the leader word of each included. *)
Lemma slab_live_disjoint s p q :
  slab_inv s → slab_live s p → slab_live s q → p ≠ q →
  p + item_size s ≤ q ∨ q + item_size s ≤ p.
Proof.
  intros Hi (b1 & blk1 & E1 & Hp & _) (b2 & blk2 & E2 & Hq & _) Hne.
  pose proof (si_size _ Hi) as Hsz. destruct (decide (b1 = b2)) as [<-|Hb].
  - apply items_of_elem in Hp as (i & _ & ->). apply items_of_elem in Hq as (j & _ & ->).
    assert (i ≠ j) by (by intros ->).
    assert (i + 1 ≤ j ∨ j + 1 ≤ i) as [Hij|Hij] by lia; [left|right]; nia.
  - pose proof (item_in_block s b1 p Hsz Hp). pose proof (item_in_block s b2 q Hsz Hq).
    unfold sizeof_slab_block_t, sizeof_ptr in *.
    destruct (si_disjoint _ Hi b1 b2) as [?|?]; [by eexists..|done|left|right]; lia.
Qed.

(** ** Properties *)

(** C33: [slab_alloc] over a [malloc] that keeps its promise.  The address it
    returns was not in use, its item (with the leader word) overlaps no item in
    use, and nothing else comes into or goes out of use; it returns NULL only
    when no block has a free item, and then changes no item. *)
Theorem slab_alloc_correct malloc s :
  malloc_fresh malloc → slab_inv s →
  ∃ r s', slab_alloc malloc s = Ret (r, s') ∧ slab_inv s' ∧
    match r with
    | Some p => ¬ slab_live s p ∧ (∀ q, slab_live s' q ↔ q = p ∨ slab_live s q) ∧
        ∀ q, slab_live s q → p + item_size s' ≤ q ∨ q + item_size s' ≤ p
    | None => block_head s = [] ∧ (∀ q, slab_live s' q ↔ slab_live s q)
    end.
Proof.
  intros Hm Hi. destruct (slab_alloc_spec malloc Hm s Hi) as (r & s' & E & Hi' & Hr).
  exists r, s'. split_and!; [done..|]. destruct r as [p|]; [|done]. destruct Hr as [Hp Hl].
  split_and!; [done..|]. intros q Hq.
  apply slab_live_disjoint; [done|apply Hl; by left|apply Hl; by right|by intros ->].
Qed.

Lemma slab_alloc_correct_witness :
  ∃ r s', slab_alloc bump_malloc (OHC_SLAB_INIT 64) = Ret (r, s') ∧ slab_inv s'.
Proof.
  destruct (slab_alloc_correct bump_malloc (OHC_SLAB_INIT 64) bump_malloc_fresh) as (r & s' & E & Hi & _).
  - apply slab_init_inv. lia.
  - exists r, s'. exact (conj E Hi).
Defined.

(** The first item of a new slab. *)
Definition demo_slab : ohc_slab_t :=
  match slab_alloc bump_malloc (OHC_SLAB_INIT 64) with Ret (_, s) => s | Fail _ => OHC_SLAB_INIT 64 end.
Lemma demo_slab_ok : slab_inv demo_slab ∧ ∃ p, slab_live demo_slab p.
Proof.
  destruct (slab_alloc_spec bump_malloc bump_malloc_fresh (OHC_SLAB_INIT 64)) as (r & s' & E & Hi & Hr).
  { apply slab_init_inv. lia. }
  unfold demo_slab. rewrite E. split; [done|]. destruct r as [p|].
  - exists p. apply Hr. by left.
  - assert (match slab_alloc bump_malloc (OHC_SLAB_INIT 64) with Ret (Some _, _) => true | _ => false end
      = true) as Hs by (vm_compute; reflexivity). by rewrite E in Hs.
Qed.

(** [slab_free] of an item in use takes just that item out of use, gives
    its block back to [malloc] when it is no longer needed, and keeps the slab
    well formed. *)
Theorem slab_free_correct s p :
  slab_inv s → slab_live s p →
  ∃ s', slab_free s p = Ret s' ∧ slab_inv s' ∧ ∀ q, slab_live s' q ↔ slab_live s q ∧ q ≠ p.
Proof. apply slab_free_spec. Qed.

Lemma slab_free_correct_witness :
  ∃ p s', slab_free demo_slab p = Ret s' ∧ slab_inv s' ∧ ¬ slab_live s' p.
Proof.
  destruct demo_slab_ok as [Hi [p Hp]].
  destruct (slab_free_correct demo_slab p Hi Hp) as (s' & E & Hi' & Hl).
  exists p, s'. split_and!; [done..|]. rewrite Hl. tauto.
Defined.
