(* ===== verification/Hash.v ===== *)
(** * utils/hash.c: linear dynamic hashing

    A chained hash table that doubles its bucket array when the chains grow and
    then moves one old bucket per operation.  A node is identified by its
    address; [ids] holds the [id] field (the 16 bytes of an MD5 as two 64-bit
    words) of the nodes in memory.  MD5 is a parameter. *)

From stdpp Require Import prelude fin_maps gmap.
From S2P Require Import Prelude StrUtil.

Definition HASH_BUCKET_SIZE_BEGIN : Z := Z.shiftl 1 4.
Definition HASH_BUCKET_SIZE_MAX : Z := Z.shiftl 1 28.
Definition HASH_COLLISIONS : Z := 10.

(** [unsigned char id[16]], read as [uint64_t p[2]]. *)
Record md5_id := Md5 { id_lo : Z; id_hi : Z }.
#[global] Instance md5_id_eq_dec : EqDecision md5_id.
Proof. solve_decision. Defined.
#[global] Instance md5_id_countable : Countable md5_id.
Proof.
  apply (inj_countable' (λ i, (id_lo i, id_hi i)) (λ p, Md5 p.1 p.2)). by intros [].
Defined.

(** [N] is the type of the nodes, pointers to [ohc_hash_node_t]. *)
Section nodes.
Context {N : Type} `{Countable N}.

Record ohc_hash_t := Hash {
  buckets : list (list N);
  bucket_size : Z;
  items : Z;
  prev_buckets : option (list (list N));
  split : Z
}.

Definition md5_equal (id1 id2 : md5_id) : bool :=
  (id_lo id1 =? id_lo id2) && (id_hi id1 =? id_hi id2).

Definition hash_index (hash : ohc_hash_t) (id : md5_id) : Z :=
  Z.land (Z.lxor (id_lo id) (id_hi id)) (bucket_size hash - 1).

(** hash_init: [calloc] leaves empty buckets; NULL when out of memory. *)
Definition hash_init (malloc_ok calloc_ok : bool) : option ohc_hash_t :=
  if malloc_ok then
    if calloc_ok then
      Some (Hash (replicate (Z.to_nat HASH_BUCKET_SIZE_BEGIN) []) HASH_BUCKET_SIZE_BEGIN 0 None 0)
    else None
  else None.

Section hash.
Context (MD5 : list Z → md5_id).

Abbreviation ids := (gmap N md5_id).

Definition set_buckets (b : list (list N)) (h : ohc_hash_t) : ohc_hash_t :=
  Hash b (bucket_size h) (items h) (prev_buckets h) (split h).
Definition set_items (n : Z) (h : ohc_hash_t) : ohc_hash_t :=
  Hash (buckets h) (bucket_size h) n (prev_buckets h) (split h).

(** [hlist_add_head(p, &hash->buckets[hash_index(hash, hnode->id)])] *)
Definition bucket_push (m : ids) (p : N) (h : ohc_hash_t) : outcome ohc_hash_t :=
  match m !! p with
  | None => Fail Dangling
  | Some id =>
      let i := Z.to_nat (hash_index h id) in
      if decide (i < length (buckets h))%nat
      then Ret (set_buckets (alter (cons p) i (buckets h)) h)
      else Fail OutOfBounds
  end.

(** [for(p = prev_buckets[split].first; p; p = safe)]: the successor is read
    before the node is moved. *)
Fixpoint move_nodes (m : ids) (ns : list N) (h : ohc_hash_t) : outcome ohc_hash_t :=
  match ns with
  | [] => Ret h
  | p :: ns => h ← bucket_push m p h; move_nodes m ns h
  end.

(** First half: start an expansion. *)
Definition hash_double (calloc_ok : bool) (h : ohc_hash_t) : option ohc_hash_t :=
  if (HASH_COLLISIONS <=? Z.quot (items h) (bucket_size h))
     && bool_decide (prev_buckets h = None)
     && (bucket_size h <? HASH_BUCKET_SIZE_MAX)
  then
    if calloc_ok then
      Some (Hash (replicate (Z.to_nat (bucket_size h * 2)) []) (bucket_size h * 2)
              (items h) (Some (buckets h)) 0)
    else None
  else Some h.

(** Second half: split a bucket. *)
Definition hash_split (m : ids) (h : ohc_hash_t) : outcome ohc_hash_t :=
  match prev_buckets h with
  | None => Ret h
  | Some pb =>
      match pb !! Z.to_nat (split h) with
      | None => Fail OutOfBounds
      | Some ns =>
          h ← move_nodes m ns h;
          let pb := <[Z.to_nat (split h) := []]> pb in
          let sp := split h + 1 in
          Ret (Hash (buckets h) (bucket_size h) (items h)
                 (if sp =? Z.quot (bucket_size h) 2 then None else Some pb) sp)
      end
  end.

Definition hash_expansion (calloc_ok : bool) (m : ids) (h : ohc_hash_t) :
    outcome ohc_hash_t :=
  match hash_double calloc_ok h with
  | None => Ret h    (* if calloc fails, do nothing *)
  | Some h => hash_split m h
  end.

(** [str] is NULL or the key; with a key the node's id is computed. *)
Definition hash_add (calloc_ok : bool) (m : ids) (h : ohc_hash_t) (hnode : N)
    (str : option (list Z)) : outcome (ids * ohc_hash_t) :=
  let m := match str with Some k => <[hnode := MD5 k]> m | None => m end in
  h ← bucket_push m hnode h;
  h ← hash_expansion calloc_ok m (set_items (items h + 1) h);
  Ret (m, h).

Fixpoint hash_search (m : ids) (slot : list N) (id : md5_id) : outcome (option N) :=
  match slot with
  | [] => Ret None
  | p :: slot =>
      match m !! p with
      | None => Fail Dangling
      | Some i => if md5_equal i id then Ret (Some p) else hash_search m slot id
      end
  end.

Definition search_at (m : ids) (bs : list (list N)) (index : Z) (id : md5_id) :
    outcome (option N) :=
  match bs !! Z.to_nat index with
  | None => Fail OutOfBounds
  | Some slot => hash_search m slot id
  end.

(** The node found, the id of the key and the table. *)
Definition hash_get (calloc_ok : bool) (m : ids) (h : ohc_hash_t) (str : list Z) :
    outcome (option N * md5_id * ohc_hash_t) :=
  h ← hash_expansion calloc_ok m h;
  let id := MD5 str in
  let index := hash_index h id in
  ret ← search_at m (buckets h) index id;
  match ret with
  | Some p => Ret (Some p, id, h)
  | None =>
      match prev_buckets h with
      | None => Ret (None, id, h)
      | Some pb =>
          let pbsize := Z.quot (bucket_size h) 2 in
          let index := if pbsize <=? index then index - pbsize else index in
          r ← search_at m pb index id;
          Ret (r, id, h)
      end
  end.

(** The chains, new and old. *)
Definition hash_chains (h : ohc_hash_t) : list (list N) :=
  buckets h ++ default [] (prev_buckets h).

(** [hlist_del] unlinks the node from the chain it is in; on a node in no
    chain it writes through the null [pprev]. *)
Definition hash_del (h : ohc_hash_t) (hnode : N) : outcome ohc_hash_t :=
  if existsb (λ q, bool_decide (hnode ∈ q)) (hash_chains h) then
    Ret (Hash (list_remove_one hnode <$> buckets h) (bucket_size h) (items h - 1)
           (fmap (M:=list) (list_remove_one hnode) <$> prev_buckets h) (split h))
  else Fail NullPtr.
End hash.

(** ** Chains as one list *)

Section chains.
Context {A : Type}.
Implicit Types bs : list (list A).

Lemma concat_split bs i q :
  bs !! i = Some q → concat bs ≡ₚ q ++ concat (<[i := []]> bs).
Proof.
  intros Hi. rewrite (insert_take_drop bs i) by (by eapply lookup_lt_Some).
  rewrite <- (take_drop_middle bs i q Hi) at 1. rewrite !concat_app. simpl.
  rewrite !app_assoc. apply Permutation_app_tail, Permutation_app_comm.
Qed.

Lemma concat_insert bs i q q' :
  bs !! i = Some q → concat (<[i := q']> bs) ≡ₚ q' ++ concat (<[i := []]> bs).
Proof.
  intros Hi. rewrite (concat_split (<[i := q']> bs) i q').
  - by rewrite list_insert_insert_eq.
  - apply list_lookup_insert_eq. by eapply lookup_lt_Some.
Qed.

Lemma concat_push bs i p :
  (i < length bs)%nat → concat (alter (cons p) i bs) ≡ₚ p :: concat bs.
Proof.
  intros [q Hq]%lookup_lt_is_Some.
  assert (alter (cons p) i bs = <[i := p :: q]> bs) as ->.
  { apply list_eq. intros j. rewrite list_lookup_alter. case_decide; subst.
    - by rewrite Hq, list_lookup_insert_eq by (by eapply lookup_lt_Some).
    - by rewrite list_lookup_insert_ne. }
  by rewrite (concat_insert bs i q), (concat_split bs i q) by done.
Qed.

Lemma elem_of_concat bs x : x ∈ concat bs ↔ ∃ i q, bs !! i = Some q ∧ x ∈ q.
Proof.
  rewrite list_elem_of_In, in_concat. split.
  - intros (q & Hq & Hx). apply list_elem_of_In, list_elem_of_lookup in Hq as [i Hi].
    exists i, q. by rewrite list_elem_of_In.
  - intros (i & q & Hi & Hx). exists q. split; [|by apply list_elem_of_In].
    apply list_elem_of_In, list_elem_of_lookup. eauto.
Qed.

Lemma concat_replicate_nil n : concat (replicate n ([] : list A)) = [].
Proof. induction n; simpl; auto. Qed.

Lemma all_nil_concat bs : (∀ i q, bs !! i = Some q → q = []) → concat bs = [].
Proof.
  induction bs as [|q bs IH]; [done|]. intros Hb. simpl.
  rewrite (Hb 0%nat q eq_refl), IH; [done|]. intros i. apply (Hb (S i)).
Qed.

Lemma concat_remove `{EqDecision A} bs x :
  concat (list_remove_one x <$> bs) = list_remove_one x (concat bs).
Proof.
  induction bs as [|q bs IH]; [done|]. rewrite fmap_cons. simpl. rewrite IH.
  unfold list_remove_one. by rewrite filter_app.
Qed.
End chains.

(** ** Invariant *)

Definition hash_nodes (h : ohc_hash_t) : list N := concat (hash_chains h).

Record hash_inv (m : gmap N md5_id) (h : ohc_hash_t) : Prop := {
  hi_pow : ∃ k, 4 ≤ k ≤ 28 ∧ bucket_size h = 2 ^ k;
  hi_len : length (buckets h) = Z.to_nat (bucket_size h);
  hi_bucket : ∀ i q x, buckets h !! i = Some q → x ∈ q →
    ∃ id, m !! x = Some id ∧ Z.of_nat i = hash_index h id;
  hi_prev : ∀ pb, prev_buckets h = Some pb →
    32 ≤ bucket_size h ∧ length pb = Z.to_nat (bucket_size h / 2) ∧
    0 ≤ split h < bucket_size h / 2 ∧
    (∀ i, Z.of_nat i < split h → pb !! i = Some []) ∧
    ∀ i q x, pb !! i = Some q → x ∈ q →
      ∃ id, m !! x = Some id ∧ Z.of_nat i = hash_index h id mod (bucket_size h / 2);
  hi_nodup : NoDup (hash_nodes h);
  hi_items : items h = Z.of_nat (length (hash_nodes h));
}.

Lemma hash_index_mod h k id :
  bucket_size h = 2 ^ k → 0 ≤ k →
  hash_index h id = Z.lxor (id_lo id) (id_hi id) mod 2 ^ k.
Proof. intros E Hk. unfold hash_index. by rewrite E, keep_low. Qed.

Lemma hash_index_range h id :
  (∃ k, 4 ≤ k ≤ 28 ∧ bucket_size h = 2 ^ k) → 0 ≤ hash_index h id < bucket_size h.
Proof.
  intros (k & Hk & E). rewrite (hash_index_mod h k) by (done || lia). rewrite E.
  apply Z.mod_pos_bound, Z.pow_pos_nonneg; lia.
Qed.

Lemma md5_equal_spec i j : md5_equal i j = true ↔ i = j.
Proof.
  unfold md5_equal. destruct i, j; simpl. rewrite andb_true_iff, !Z.eqb_eq.
  split; [by intros [-> ->]|by intros [= -> ->]].
Qed.

Lemma hash_nodes_elem h x :
  x ∈ hash_nodes h ↔ x ∈ concat (buckets h) ∨
    ∃ pb, prev_buckets h = Some pb ∧ x ∈ concat pb.
Proof.
  unfold hash_nodes, hash_chains. rewrite concat_app, elem_of_app.
  destruct (prev_buckets h) as [pb|]; simpl.
  - split; [intros [?|?]; eauto|]. intros [?|(pb' & [= <-] & ?)]; auto.
  - split.
    + intros [?|Hx]; [by left|]. by apply not_elem_of_nil in Hx.
    + intros [?|(pb & ? & _)]; [by left|done].
Qed.

(** ** Moving nodes into the new buckets *)

(** Everything but the buckets. *)
Definition same_frame (h h' : ohc_hash_t) : Prop :=
  bucket_size h' = bucket_size h ∧ items h' = items h ∧
  prev_buckets h' = prev_buckets h ∧ split h' = split h ∧
  length (buckets h') = length (buckets h).

Definition buckets_classed (m : gmap N md5_id) (h : ohc_hash_t) : Prop :=
  ∀ i q x, buckets h !! i = Some q → x ∈ q →
    ∃ id, m !! x = Some id ∧ Z.of_nat i = hash_index h id.

Section hash_ops.
Context (MD5 : list Z → md5_id).
Implicit Types (m : gmap N md5_id) (h : ohc_hash_t).

Lemma bucket_push_spec m p h :
  (∃ k, 4 ≤ k ≤ 28 ∧ bucket_size h = 2 ^ k) →
  length (buckets h) = Z.to_nat (bucket_size h) → buckets_classed m h → is_Some (m !! p) →
  ∃ h', bucket_push m p h = Ret h' ∧ same_frame h h' ∧ buckets_classed m h' ∧
        concat (buckets h') ≡ₚ p :: concat (buckets h).
Proof.
  intros Hpow Hlen Hcl [id Hid]. unfold bucket_push. rewrite Hid.
  pose proof (hash_index_range h id Hpow) as Hr. rewrite decide_True by lia.
  eexists. split; [done|]. split_and!.
  - by unfold same_frame; simpl; rewrite length_alter.
  - intros i q x. simpl. rewrite list_lookup_alter. case_decide; subst; [|apply Hcl].
    intros (q' & Hq & ->)%fmap_Some [->|Hx]%elem_of_cons.
    + exists id. split; [done|]. change (hash_index (set_buckets _ h) id) with (hash_index h id).
      lia.
    + by eapply Hcl.
  - simpl. apply concat_push. lia.
Qed.

Lemma move_nodes_spec m ns h :
  (∃ k, 4 ≤ k ≤ 28 ∧ bucket_size h = 2 ^ k) →
  length (buckets h) = Z.to_nat (bucket_size h) → buckets_classed m h →
  (∀ x, x ∈ ns → is_Some (m !! x)) →
  ∃ h', move_nodes m ns h = Ret h' ∧ same_frame h h' ∧ buckets_classed m h' ∧
        concat (buckets h') ≡ₚ ns ++ concat (buckets h).
Proof.
  revert h. induction ns as [|p ns IH]; intros h Hpow Hlen Hcl Hids; simpl.
  - exists h. done.
  - destruct (bucket_push_spec m p h Hpow Hlen Hcl) as (h1 & E1 & F1 & C1 & P1).
    { apply Hids, list_elem_of_here. }
    destruct F1 as (Fs & Fi & Fp & Fsp & Fl).
    destruct (IH h1) as (h2 & E2 & F2 & C2 & P2).
    + by rewrite Fs.
    + by rewrite Fl, Fs.
    + done.
    + intros x Hx. by apply Hids, list_elem_of_further.
    + exists h2. rewrite E1. simpl. split_and!; [done| |done|].
      * destruct F2 as (? & ? & ? & ? & ?). unfold same_frame. by rewrite <- Fs, <- Fi, <- Fp, <- Fsp, <- Fl.
      * rewrite P2, P1. symmetry. apply Permutation_middle.
Qed.

Lemma pow_half k : 4 ≤ k → 2 ^ (k + 1) / 2 = 2 ^ k.
Proof. intros. rewrite Z.pow_add_r, Z.div_mul by lia. done. Qed.

Lemma mod_pow_half a k : 0 ≤ k → a mod 2 ^ k = (a mod 2 ^ (k + 1)) mod 2 ^ k.
Proof.
  intros. symmetry. apply Z.mod_mod_divide.
  exists 2. rewrite Z.pow_add_r by lia. lia.
Qed.

(** Starting an expansion keeps the nodes: the old buckets become
    [prev_buckets], and an index modulo the old size is the old index. *)
Lemma hash_double_inv m h calloc_ok h' :
  hash_inv m h → hash_double calloc_ok h = Some h' →
  hash_inv m h' ∧ hash_nodes h' = hash_nodes h.
Proof.
  intros Hi. unfold hash_double.
  destruct (_ && _ && _) eqn:E; [|by intros [= <-]].
  destruct calloc_ok; [|done]. intros [= <-].
  rewrite !andb_true_iff in E. destruct E as [[_ Hn] Hmax].
  apply bool_decide_eq_true in Hn. apply Z.ltb_lt in Hmax.
  destruct (hi_pow _ _ Hi) as (k & Hk & Ek).
  assert (bucket_size h * 2 = 2 ^ (k + 1)) as Ek1 by (rewrite Ek, Z.pow_add_r by lia; lia).
  assert (k < 28) as Hk28.
  { apply (Z.pow_lt_mono_r_iff 2); [lia..|]. rewrite <- Ek. done. }
  assert (hash_nodes (Hash (replicate (Z.to_nat (bucket_size h * 2)) []) (bucket_size h * 2)
              (items h) (Some (buckets h)) 0) = hash_nodes h) as Enodes.
  { unfold hash_nodes, hash_chains. simpl. rewrite Hn. simpl.
    by rewrite concat_app, concat_replicate_nil, app_nil_r. }
  split; [|done]. split; simpl.
  - exists (k + 1). lia.
  - by rewrite length_replicate.
  - intros i q x [-> _]%lookup_replicate Hx. by apply not_elem_of_nil in Hx.
  - intros pb [= <-]. rewrite Ek1, pow_half by lia. split_and!.
    + pose proof (Z.pow_le_mono_r 2 5 (k + 1)). lia.
    + rewrite (hi_len _ _ Hi). by rewrite Ek.
    + done.
    + apply Z.pow_pos_nonneg; lia.
    + lia.
    + intros i q x Hq Hx. destruct (hi_bucket _ _ Hi i q x Hq Hx) as (id & Hid & Hx').
      exists id. split; [done|]. rewrite Hx', (hash_index_mod h k), (hash_index_mod _ (k + 1)) by (done || lia).
      apply mod_pow_half; lia.
  - rewrite Enodes. apply Hi.
  - rewrite Enodes. apply Hi.
Qed.

(** Splitting one bucket moves its nodes and keeps all others. *)
Lemma hash_split_inv m h :
  hash_inv m h →
  ∃ h', hash_split m h = Ret h' ∧ hash_inv m h' ∧ hash_nodes h' ≡ₚ hash_nodes h.
Proof.
  intros Hi. unfold hash_split. destruct (prev_buckets h) as [pb|] eqn:Ep; [|by exists h].
  destruct (hi_prev _ _ Hi pb Ep) as (Hb & Hl & Hs & He & Hc).
  destruct (lookup_lt_is_Some_2 pb (Z.to_nat (split h))) as [ns Hns]; [lia|].
  rewrite Hns.
  destruct (move_nodes_spec m ns h) as (h1 & E1 & (Fs & Fi & Fp & Fsp & Fl) & C1 & P1);
    [apply Hi|apply Hi|exact (hi_bucket _ _ Hi)| |].
  { intros x Hx. destruct (Hc _ _ x Hns Hx) as (id & -> & _). done. }
  rewrite E1. simpl. eexists. split; [done|].
  rewrite Fs, Fsp, Fi, Z.quot_div_nonneg by lia.
  set (pb' := if split h + 1 =? bucket_size h / 2 then None
              else Some (<[Z.to_nat (split h) := []]> pb)).
  assert (concat (default [] pb') = concat (<[Z.to_nat (split h) := []]> pb)) as Epb.
  { subst pb'. destruct (Z.eqb_spec (split h + 1) (bucket_size h / 2)) as [El|]; [|done].
    simpl. symmetry. apply all_nil_concat. intros i q Hq.
    destruct (decide (i = Z.to_nat (split h))) as [->|Hne].
    - rewrite list_lookup_insert_eq in Hq by lia. by simplify_eq.
    - rewrite list_lookup_insert_ne in Hq by done.
      rewrite He in Hq; [by simplify_eq|]. apply lookup_lt_Some in Hq. lia. }
  assert (hash_nodes (Hash (buckets h1) (bucket_size h) (items h) pb' (split h + 1))
            ≡ₚ hash_nodes h) as Pn.
  { unfold hash_nodes, hash_chains. simpl. rewrite !concat_app, Epb, P1, Ep. simpl.
    rewrite (concat_split pb _ _ Hns).
    rewrite !app_assoc. apply Permutation_app_tail, Permutation_app_comm. }
  split; [|done]. split; simpl.
  - apply Hi.
  - rewrite Fl. apply Hi.
  - intros i q x Hq Hx. destruct (C1 i q x Hq Hx) as (id & ? & Hid). exists id.
    split; [done|]. rewrite Hid. unfold hash_index. simpl. by rewrite Fs.
  - intros pb1. subst pb'. destruct (Z.eqb_spec (split h + 1) (bucket_size h / 2)); [done|].
    intros [= <-]. split_and!; [done|by rewrite length_insert|lia|lia|..].
    + intros i Hlt. destruct (decide (i = Z.to_nat (split h))) as [->|Hne].
      * apply list_lookup_insert_eq. lia.
      * rewrite list_lookup_insert_ne by done. apply He. lia.
    + intros i q x Hq Hx. destruct (decide (i = Z.to_nat (split h))) as [->|Hne].
      * rewrite list_lookup_insert_eq in Hq by lia. simplify_eq. by apply not_elem_of_nil in Hx.
      * rewrite list_lookup_insert_ne in Hq by done. apply (Hc i q x Hq Hx).
  - rewrite Pn. apply Hi.
  - rewrite Pn. apply Hi.
Qed.

Lemma hash_expansion_inv calloc_ok m h :
  hash_inv m h →
  ∃ h', hash_expansion calloc_ok m h = Ret h' ∧ hash_inv m h' ∧ hash_nodes h' ≡ₚ hash_nodes h.
Proof.
  intros Hi. unfold hash_expansion. destruct (hash_double calloc_ok h) as [h1|] eqn:E.
  - destruct (hash_double_inv m h calloc_ok h1 Hi E) as [Hi1 <-]. by apply hash_split_inv.
  - by exists h.
Qed.

(** Ids of nodes outside the table do not matter. *)
Lemma hash_inv_ext m m' h :
  (∀ x, x ∈ hash_nodes h → m' !! x = m !! x) → hash_inv m h → hash_inv m' h.
Proof.
  intros Hm [Hp Hl Hb Hv Hn Hi]. split; [done..| | |done|done].
  - intros i q x Hq Hx. destruct (Hb i q x Hq Hx) as (id & ? & ?). exists id.
    rewrite Hm; [done|]. apply hash_nodes_elem. left. apply elem_of_concat. eauto.
  - intros pb Ep. destruct (Hv pb Ep) as (? & ? & ? & ? & Hc). split_and!; [done..|lia|lia|done|].
    intros i q x Hq Hx. destruct (Hc i q x Hq Hx) as (id & ? & ?). exists id.
    rewrite Hm; [done|]. apply hash_nodes_elem. right. exists pb. split; [done|].
    apply elem_of_concat. eauto.
Qed.

Lemma bucket_push_inv m h p :
  hash_inv m h → is_Some (m !! p) → p ∉ hash_nodes h →
  ∃ h', bucket_push m p h = Ret h' ∧ hash_inv m (set_items (items h' + 1) h') ∧
        hash_nodes (set_items (items h' + 1) h') ≡ₚ p :: hash_nodes h.
Proof.
  intros Hi Hp Hnew.
  destruct (bucket_push_spec m p h) as (h' & E & (Fs & Fi & Fp & Fsp & Fl) & C & P);
    [apply Hi|apply Hi|exact (hi_bucket _ _ Hi)|done|].
  exists h'. split; [done|].
  assert (hash_nodes (set_items (items h' + 1) h') ≡ₚ p :: hash_nodes h) as Pn.
  { unfold hash_nodes, hash_chains. simpl. by rewrite !concat_app, P, Fp. }
  split; [|done]. split; simpl.
  - rewrite Fs. apply Hi.
  - rewrite Fl, Fs. apply Hi.
  - intros i q x Hq Hx. destruct (C i q x Hq Hx) as (id & ? & Hid). by exists id.
  - unfold hash_index. simpl. rewrite Fs, Fp, Fsp. exact (hi_prev _ _ Hi).
  - rewrite Pn. apply NoDup_cons. split; [done|]. apply Hi.
  - rewrite Pn, Fi, (hi_items _ _ Hi). simpl. lia.
Qed.

Lemma hash_add_spec calloc_ok m h hnode str :
  hash_inv m h → hnode ∉ hash_nodes h → (str = None → is_Some (m !! hnode)) →
  ∃ m' h', hash_add MD5 calloc_ok m h hnode str = Ret (m', h') ∧
    m' = match str with Some k => <[hnode := MD5 k]> m | None => m end ∧
    hash_inv m' h' ∧ hash_nodes h' ≡ₚ hnode :: hash_nodes h.
Proof.
  intros Hi Hnew Hstr. unfold hash_add.
  set (m' := match str with Some k => <[hnode := MD5 k]> m | None => m end).
  assert (hash_inv m' h) as Hi'.
  { apply (hash_inv_ext m); [|done]. intros x Hx. subst m'. destruct str; [|done].
    apply lookup_insert_ne. by intros ->. }
  assert (is_Some (m' !! hnode)) as Hid.
  { subst m'. destruct str; [rewrite lookup_insert_eq; eauto|auto]. }
  destruct (bucket_push_inv m' h hnode Hi' Hid Hnew) as (h1 & E1 & Hi1 & P1).
  destruct (hash_expansion_inv calloc_ok m' _ Hi1) as (h2 & E2 & Hi2 & P2).
  exists m', h2. rewrite E1. simpl. rewrite E2. simpl. split_and!; [done..|].
  by rewrite P2, P1.
Qed.

Lemma hash_search_spec m slot id :
  (∀ x, x ∈ slot → is_Some (m !! x)) →
  ∃ r, hash_search m slot id = Ret r ∧
    match r with
    | Some p => p ∈ slot ∧ m !! p = Some id
    | None => ∀ p, p ∈ slot → m !! p ≠ Some id
    end.
Proof.
  induction slot as [|p slot IH]; intros Hm; simpl.
  - exists None. split; [done|]. by intros p ?%not_elem_of_nil.
  - destruct (Hm p) as [i Hi]; [apply list_elem_of_here|]. rewrite Hi.
    destruct (md5_equal i id) eqn:E.
    + apply md5_equal_spec in E as ->. exists (Some p). split_and!; [done| |done].
      apply list_elem_of_here.
    + destruct IH as (r & Hr & Hs). { intros x Hx. by apply Hm, list_elem_of_further. }
      exists r. split; [done|]. destruct r as [q|].
      * destruct Hs. split; [by apply list_elem_of_further|done].
      * intros q [->|Hq]%elem_of_cons; [|auto]. rewrite Hi. intros [= ->].
        assert (md5_equal id id = true) by by apply md5_equal_spec. congruence.
Qed.

Lemma search_at_spec m bs index id :
  0 ≤ index < Z.of_nat (length bs) →
  (∀ x, x ∈ concat bs → is_Some (m !! x)) →
  (∀ i q x, bs !! i = Some q → x ∈ q → m !! x = Some id → Z.of_nat i = index) →
  ∃ r, search_at m bs index id = Ret r ∧
    match r with
    | Some p => p ∈ concat bs ∧ m !! p = Some id
    | None => ∀ p, p ∈ concat bs → m !! p ≠ Some id
    end.
Proof.
  intros Hr Hm Hcl. unfold search_at.
  destruct (lookup_lt_is_Some_2 bs (Z.to_nat index)) as [q Hq]; [lia|]. rewrite Hq.
  destruct (hash_search_spec m q id) as (r & E & Hs).
  { intros x Hx. apply Hm, elem_of_concat. eauto. }
  exists r. split; [done|]. destruct r as [p|].
  - destruct Hs. split; [|done]. apply elem_of_concat. eauto.
  - intros p (i & q' & Hq' & Hp)%elem_of_concat Hid.
    pose proof (Hcl i q' p Hq' Hp Hid). replace i with (Z.to_nat index) in Hq' by lia.
    rewrite Hq in Hq'. simplify_eq. by apply (Hs p).
Qed.

Lemma hash_inv_ids m h x : hash_inv m h → x ∈ hash_nodes h → is_Some (m !! x).
Proof.
  intros Hi [(i & q & Hq & Hx)%elem_of_concat|(pb & Ep & (i & q & Hq & Hx)%elem_of_concat)]%hash_nodes_elem.
  - destruct (hi_bucket _ _ Hi i q x Hq Hx) as (id & -> & _). done.
  - destruct (hi_prev _ _ Hi pb Ep) as (_ & _ & _ & _ & Hc).
    destruct (Hc i q x Hq Hx) as (id & -> & _). done.
Qed.

(** The index of the old table is the new one less the old size, when it is
    in the upper half. *)
Lemma old_index i half : 0 < half → 0 ≤ i < 2 * half →
  i mod half = if half <=? i then i - half else i.
Proof.
  intros. destruct (Z.leb_spec half i).
  - symmetry. apply (Z.mod_unique _ _ 1); lia.
  - apply Z.mod_small. lia.
Qed.

Lemma hash_get_spec calloc_ok m h str :
  hash_inv m h →
  ∃ r h', hash_get MD5 calloc_ok m h str = Ret (r, MD5 str, h') ∧
    hash_inv m h' ∧ hash_nodes h' ≡ₚ hash_nodes h ∧
    match r with
    | Some p => p ∈ hash_nodes h ∧ m !! p = Some (MD5 str)
    | None => ∀ p, p ∈ hash_nodes h → m !! p ≠ Some (MD5 str)
    end.
Proof.
  intros Hi0. unfold hash_get.
  destruct (hash_expansion_inv calloc_ok m h Hi0) as (h' & E & Hi & P).
  rewrite E. simpl. set (id := MD5 str).
  pose proof (hash_index_range h' id (hi_pow _ _ Hi)) as Hr.
  destruct (search_at_spec m (buckets h') (hash_index h' id) id) as (r & Er & Hs).
  { rewrite (hi_len _ _ Hi). lia. }
  { intros x Hx. apply (hash_inv_ids m h'); [done|]. apply hash_nodes_elem. auto. }
  { intros i q x Hq Hx Hid. destruct (hi_bucket _ _ Hi i q x Hq Hx) as (? & ? & ?). by simplify_eq. }
  rewrite Er. simpl. destruct r as [p|].
  { exists (Some p), h'. split_and!; [done..| |]; [|apply Hs].
    rewrite <- P. apply hash_nodes_elem. left. apply Hs. }
  destruct (prev_buckets h') as [pb|] eqn:Ep.
  - destruct (hi_prev _ _ Hi pb Ep) as (Hb & Hl & _ & _ & Hc).
    assert (bucket_size h' = 2 * (bucket_size h' / 2)) as Eb.
    { destruct (hi_pow _ _ Hi) as (k & Hk & ->). apply Z.div_exact; [lia|].
      replace k with (k - 1 + 1) by lia. rewrite Z.pow_add_r, Z.mod_mul by lia. done. }
    rewrite Z.quot_div_nonneg by lia. rewrite <- old_index by lia.
    destruct (search_at_spec m pb (hash_index h' id mod (bucket_size h' / 2)) id)
      as (r & Er2 & Hs2).
    { rewrite Hl. pose proof (Z.mod_pos_bound (hash_index h' id) (bucket_size h' / 2)). lia. }
    { intros x Hx. apply (hash_inv_ids m h'); [done|]. apply hash_nodes_elem. eauto. }
    { intros i q x Hq Hx Hid. destruct (Hc i q x Hq Hx) as (? & ? & ?). by simplify_eq. }
    rewrite Er2. simpl. exists r, h'. split_and!; [done..|]. destruct r as [p|].
    + split; [|apply Hs2]. rewrite <- P. apply hash_nodes_elem. right. exists pb.
      split; [done|apply Hs2].
    + intros p. rewrite <- P, hash_nodes_elem. intros [?|(? & ? & ?)]; [auto|].
      simplify_eq. auto.
  - exists None, h'. split_and!; [done..|]. intros p. rewrite <- P, hash_nodes_elem.
    intros [?|(? & ? & ?)]; [auto|congruence].
Qed.

Lemma hash_del_spec m h hnode :
  hash_inv m h → hnode ∈ hash_nodes h →
  ∃ h', hash_del h hnode = Ret h' ∧ hash_inv m h' ∧
        hash_nodes h' = list_remove_one hnode (hash_nodes h).
Proof.
  intros Hi Hx. unfold hash_del.
  assert (existsb (λ q, bool_decide (hnode ∈ q)) (hash_chains h) = true) as ->.
  { apply existsb_exists. apply elem_of_concat in Hx as (i & q & Hq & Hx). exists q.
    rewrite bool_decide_eq_true. split; [|done]. apply list_elem_of_In, list_elem_of_lookup. eauto. }
  eexists. split; [done|].
  match goal with |- hash_inv m ?x ∧ _ => set (h' := x) end.
  assert (hash_nodes h' = list_remove_one hnode (hash_nodes h)) as En.
  { unfold hash_nodes, hash_chains, h'. simpl. rewrite <- concat_remove, fmap_app.
    by destruct (prev_buckets h). }
  split; [|done]. split.
  - apply Hi.
  - unfold h'. simpl. rewrite length_fmap. apply Hi.
  - intros i q x. unfold h'. simpl. rewrite list_lookup_fmap.
    intros (q' & Hq & ->)%fmap_Some [Hxq _]%elem_of_list_remove_one.
    exact (hi_bucket _ _ Hi i q' x Hq Hxq).
  - intros pb'. unfold h' at 1. simpl. intros (pb & Ep & ->)%fmap_Some.
    destruct (hi_prev _ _ Hi pb Ep) as (? & ? & ? & He & Hc).
    split_and!; [done|by rewrite length_fmap|simpl; lia|simpl; lia| |].
    + intros i Hlt. rewrite list_lookup_fmap, He by done. done.
    + intros i q x. rewrite list_lookup_fmap.
      intros (q' & Hq & ->)%fmap_Some [Hxq _]%elem_of_list_remove_one.
      exact (Hc i q' x Hq Hxq).
  - rewrite En. apply NoDup_list_remove_one, Hi.
  - rewrite En. unfold h'. simpl. rewrite (hi_items _ _ Hi).
    rewrite (length_list_remove_one hnode (hash_nodes h)); [lia|apply Hi|done].
Qed.

Lemma hash_init_inv m h : hash_init true true = Some h → hash_inv m h ∧ hash_nodes h = [].
Proof.
  intros Hh.
  assert (hash_nodes h = []) as E by (injection Hh as <-; done).
  split; [|exact E]. split.
  - injection Hh as <-. by exists 4.
  - by injection Hh as <-.
  - intros i q x Hq Hx. destruct (not_elem_of_nil x). rewrite <- E.
    apply hash_nodes_elem. left. apply elem_of_concat. eauto.
  - by injection Hh as <-.
  - rewrite E. constructor.
  - rewrite E. by injection Hh as <-.
Qed.
End hash_ops.

(** ** Refinement of a finite map

    The table is a map from ids to nodes as long as no id is added twice. *)

Definition hash_rep (m : gmap N md5_id) (h : ohc_hash_t) (T : gmap md5_id N) : Prop :=
  hash_inv m h ∧ ∀ id p, T !! id = Some p ↔ p ∈ hash_nodes h ∧ m !! p = Some id.

Section hash_refinement.
Context (MD5 : list Z → md5_id).
Implicit Types (m : gmap N md5_id) (h : ohc_hash_t) (T : gmap md5_id N).

Lemma hash_init_rep h : hash_init true true = Some h → hash_rep ∅ h ∅.
Proof.
  intros [Hi En]%(hash_init_inv ∅). split; [done|]. intros id p.
  rewrite En, !lookup_empty. split; [done|]. by intros [?%not_elem_of_nil _].
Qed.

Lemma hash_add_rep calloc_ok m h T hnode k :
  hash_rep m h T → hnode ∉ hash_nodes h → T !! MD5 k = None →
  ∃ m' h', hash_add MD5 calloc_ok m h hnode (Some k) = Ret (m', h') ∧
    hash_rep m' h' (<[MD5 k := hnode]> T).
Proof.
  intros [Hi HT] Hnew Hnone.
  destruct (hash_add_spec MD5 calloc_ok m h hnode (Some k) Hi Hnew) as (m' & h' & E & -> & Hi' & P);
    [done|].
  exists (<[hnode := MD5 k]> m), h'. split; [done|]. split; [done|]. intros id p.
  rewrite P, elem_of_cons. destruct (decide (p = hnode)) as [->|Hne].
  - rewrite lookup_insert_eq. split.
    + intros Hid. split; [by left|]. destruct (decide (id = MD5 k)) as [->|]; [done|].
      rewrite lookup_insert_ne in Hid by done. apply HT in Hid as [? _]. done.
    + intros [_ [= <-]]. apply lookup_insert_eq.
  - rewrite (lookup_insert_ne m) by done. destruct (decide (id = MD5 k)) as [->|].
    + rewrite lookup_insert_eq. split; [intros [= ->]; done|].
      intros [[?|?] ?]; [done|]. assert (T !! MD5 k = Some p) by by apply HT. congruence.
    + rewrite lookup_insert_ne by done. rewrite HT. naive_solver.
Qed.

Lemma hash_get_rep calloc_ok m h T str :
  hash_rep m h T →
  ∃ h', hash_get MD5 calloc_ok m h str = Ret (T !! MD5 str, MD5 str, h') ∧ hash_rep m h' T.
Proof.
  intros [Hi HT].
  destruct (hash_get_spec MD5 calloc_ok m h str Hi) as (r & h' & E & Hi' & P & Hr).
  exists h'. split; [|split; [done|]; intros id p; by rewrite P].
  rewrite E. do 3 f_equal. destruct r as [p|].
  - symmetry. by apply HT.
  - symmetry. apply eq_None_ne_Some. intros p [? ?]%HT. by apply (Hr p).
Qed.

Lemma hash_del_rep m h T hnode id :
  hash_rep m h T → T !! id = Some hnode →
  ∃ h', hash_del h hnode = Ret h' ∧ hash_rep m h' (delete id T).
Proof.
  intros [Hi HT] Hid. destruct (proj1 (HT _ _) Hid) as [Hin Hm].
  destruct (hash_del_spec m h hnode Hi Hin) as (h' & E & Hi' & En).
  exists h'. split; [done|]. split; [done|]. intros id' p.
  rewrite En, elem_of_list_remove_one. destruct (decide (id' = id)) as [->|].
  - rewrite lookup_delete_eq. split; [done|]. intros [[? ?] ?].
    assert (T !! id = Some p) by by apply HT. congruence.
  - rewrite lookup_delete_ne, HT by done. naive_solver.
Qed.
End hash_refinement.

(** *** Runs of operations

    [calloc_ok] says whether the allocation an expansion asks for succeeds. *)
Inductive hash_op :=
  | OpAdd (calloc_ok : bool) (hnode : N) (k : list Z)
  | OpGet (calloc_ok : bool) (k : list Z)
  | OpDel (hnode : N).

Section hash_runs.
Context (MD5 : list Z → md5_id).
Implicit Types (m : gmap N md5_id) (h : ohc_hash_t) (T : gmap md5_id N).

Definition table_step (o : hash_op) (s : gmap N md5_id * ohc_hash_t) :
    outcome (option N * (gmap N md5_id * ohc_hash_t)) :=
  let '(m, h) := s in
  match o with
  | OpAdd c p k => s ← hash_add MD5 c m h p (Some k); Ret (None, s)
  | OpGet c k => '(r, _, h) ← hash_get MD5 c m h k; Ret (r, (m, h))
  | OpDel p => h ← hash_del h p; Ret (None, (m, h))
  end.

(** The map the table stands for; [None] when the caller breaks the contract
    (a node or an id added twice, a node deleted that is not there). *)
Definition map_step (o : hash_op) T : option (option N * gmap md5_id N) :=
  match o with
  | OpAdd _ p k =>
      if bool_decide (map_Exists (λ _ q, q = p) T) then None
      else match T !! MD5 k with
           | Some _ => None
           | None => Some (None, <[MD5 k := p]> T)
           end
  | OpGet _ k => Some (T !! MD5 k, T)
  | OpDel p =>
      if bool_decide (map_Exists (λ _ q, q = p) T)
      then Some (None, filter (λ kv, kv.2 ≠ p) T) else None
  end.

Fixpoint table_run (os : list hash_op) (s : gmap N md5_id * ohc_hash_t) :
    outcome (list (option N) * (gmap N md5_id * ohc_hash_t)) :=
  match os with
  | [] => Ret ([], s)
  | o :: os =>
      '(r, s) ← table_step o s;
      '(rs, s) ← table_run os s;
      Ret (r :: rs, s)
  end.

Fixpoint map_run (os : list hash_op) T : option (list (option N) * gmap md5_id N) :=
  match os with
  | [] => Some ([], T)
  | o :: os =>
      '(r, T) ← map_step o T;
      '(rs, T) ← map_run os T;
      Some (r :: rs, T)
  end.

Lemma hash_rep_values m h T p :
  hash_rep m h T → p ∈ hash_nodes h ↔ map_Exists (λ _ q, q = p) T.
Proof.
  intros [Hi HT]. unfold map_Exists. split.
  - intros Hp. destruct (hash_inv_ids m h p Hi Hp) as [id Hid]. exists id, p.
    split; [by apply HT|done].
  - intros (id & q & Hid & ->). by apply HT in Hid as [? _].
Qed.

Lemma hash_rep_filter m h T p id :
  hash_rep m h T → T !! id = Some p → filter (λ kv, kv.2 ≠ p) T = delete id T.
Proof.
  intros [Hi HT] Hid. apply map_eq. intros id'. apply option_eq. intros q.
  rewrite map_lookup_filter_Some, lookup_delete_Some. simpl. split.
  - intros [Hq Hne]. split; [intros ->; congruence|done].
  - intros [Hne Hq]. split; [done|]. intros ->.
    apply HT in Hid as [_ ?]. apply HT in Hq as [_ ?]. congruence.
Qed.

Lemma table_step_refines o m h T r T' :
  hash_rep m h T → map_step o T = Some (r, T') →
  ∃ m' h', table_step o (m, h) = Ret (r, (m', h')) ∧ hash_rep m' h' T'.
Proof.
  intros Hrep. destruct o as [c p k|c k|p]; simpl.
  - case_bool_decide as Hex; [done|]. destruct (T !! MD5 k) eqn:Ek; [done|].
    intros [= <- <-]. rewrite <- (hash_rep_values m h T p Hrep) in Hex.
    destruct (hash_add_rep MD5 c m h T p k Hrep Hex Ek) as (m' & h' & -> & ?).
    by exists m', h'.
  - intros [= <- <-]. destruct (hash_get_rep MD5 c m h T k Hrep) as (h' & -> & ?).
    by exists m, h'.
  - case_bool_decide as Hex; [|done]. intros [= <- <-].
    destruct Hex as (id & q & Hid & ->).
    destruct (hash_del_rep m h T p id Hrep Hid) as (h' & -> & ?).
    exists m, h'. split; [done|]. by rewrite (hash_rep_filter m h T p id).
Qed.

Lemma table_run_refines os m h T rs T' :
  hash_rep m h T → map_run os T = Some (rs, T') →
  ∃ m' h', table_run os (m, h) = Ret (rs, (m', h')) ∧ hash_rep m' h' T'.
Proof.
  revert m h T rs. induction os as [|o os IH]; intros m h T rs Hrep;
    cbn [table_run map_run].
  - intros [= <- <-]. by exists m, h.
  - destruct (map_step o T) as [[r T1]|] eqn:E; [|done]. cbn [mbind option_bind].
    destruct (map_run os T1) as [[rs1 T2]|] eqn:E2; [|done]. cbn [mbind option_bind]. intros [= <- <-].
    destruct (table_step_refines o m h T r T1 Hrep E) as (m1 & h1 & -> & Hrep1).
    cbn [mbind outcome_bind].
    destruct (IH m1 h1 T1 rs1 Hrep1 E2) as (m2 & h2 & -> & ?). by exists m2, h2.
Qed.
End hash_runs.
End nodes.
Arguments ohc_hash_t : clear implicits.
Arguments hash_op : clear implicits.

(** ** Properties *)

(** C16: hash.c implements a finite map from ids to nodes.  Along any run of
    additions, searches and deletions that keeps the contract, with the table
    doubling and splitting its buckets in between and with allocations of a
    bigger table failing or not, every search answers what the map answers and
    no operation faults. *)
Theorem hash_run_refines `{Countable K} (MD5 : list Z → md5_id) (os : list (hash_op K)) m h T rs T' :
  hash_rep m h T → map_run MD5 os T = Some (rs, T') →
  ∃ m' h', table_run MD5 os (m, h) = Ret (rs, (m', h')) ∧ hash_rep m' h' T'.
Proof. apply table_run_refines. Qed.

(** A digest that is easy to compute. *)
Definition toy_md5 (l : list Z) : md5_id := Md5 (foldr Z.add 0 l) (Z.of_nat (length l)).
Definition demo_hash : ohc_hash_t Z :=
  Hash (replicate (Z.to_nat HASH_BUCKET_SIZE_BEGIN) []) HASH_BUCKET_SIZE_BEGIN 0 None 0.
Definition demo_hash_ops : list (hash_op Z) :=
  ((λ i, OpAdd true (Z.of_nat i) [Z.of_nat i]) <$> seq 1 170) ++
  [OpGet true [7]; OpGet false [171]; OpDel 7; OpGet true [7]; OpGet true [170]].

Lemma hash_run_refines_witness :
  ∃ T m h, hash_rep m h T ∧ table_run toy_md5 demo_hash_ops (∅, demo_hash) =
    Ret (replicate 170 None ++ [Some 7; None; None; None; Some 170], (m, h)).
Proof.
  destruct (map_run toy_md5 demo_hash_ops ∅) as [[rs T]|] eqn:E.
  - destruct (hash_run_refines toy_md5 demo_hash_ops ∅ demo_hash ∅ rs T) as (m & h & Er & Hr).
    + by apply hash_init_rep.
    + exact E.
    + exists T, m, h. split; [exact Hr|]. rewrite Er. do 2 f_equal.
      assert (fst <$> map_run toy_md5 demo_hash_ops ∅ =
        Some (replicate 170 None ++ [Some 7; None; None; None; Some 170])) as Hrs
        by (vm_compute; reflexivity).
      rewrite E in Hrs. by injection Hrs.
  - assert (bool_decide (is_Some (map_run toy_md5 demo_hash_ops ∅)) = true) as Hs by (vm_compute; reflexivity).
    by rewrite E in Hs.
Defined.
