(* ===== verification/Timer.v ===== *)
(** * utils/timer.c: timers and the cached time

    Timer nodes of equal duration share a group, a list kept in the order of
    insertion; the groups hang on the timer, and the nodes that ran out wait in
    [expires].  A node and a group are known by their addresses.  [time(NULL)]
    and [malloc] are arguments: the time read, and the address obtained. *)

From Stdlib Require Import Sorted String.
From stdpp Require Import prelude fin_maps gmap.
From S2P Require Import Prelude ListHead StrUtil.

Definition BIG_TIME : Z := 3638880000.

Record ohc_timer_node_t := TNode { tn_timeout : Z; tn_group : Z }.
Record ohc_timer_group_t := TGroup { tg_addr : Z; tg_timeout : Z; tnode_head : list Z }.
Record ohc_timer_t := Timer {
  tgroup_head : list ohc_timer_group_t;
  expires : list Z;
  now : Z;
  tnodes : gmap Z ohc_timer_node_t
}.

Definition set_groups (gs : list ohc_timer_group_t) (t : ohc_timer_t) : ohc_timer_t :=
  Timer gs (expires t) (now t) (tnodes t).
Definition set_nodes (l : list Z) (g : ohc_timer_group_t) : ohc_timer_group_t :=
  TGroup (tg_addr g) (tg_timeout g) l.

Definition timer_refresh (time : Z) (t : ohc_timer_t) : ohc_timer_t :=
  Timer (tgroup_head t) (expires t) time (tnodes t).

Definition timer_init (time : Z) (mem : gmap Z ohc_timer_node_t) : ohc_timer_t :=
  timer_refresh time (Timer [] [] 0 mem).

Definition timer_now (t : ohc_timer_t) : Z := now t.

(** The node is in a list of the timer. *)
Definition timer_linked (t : ohc_timer_t) (x : Z) : bool :=
  bool_decide (x ∈ expires t)
  || existsb (λ g, bool_decide (x ∈ tnode_head g)) (tgroup_head t).

Definition group_unlink (x : Z) (g : ohc_timer_group_t) : ohc_timer_group_t :=
  set_nodes (list_remove_one x (tnode_head g)) g.
Definition timer_unlink (x : Z) (t : ohc_timer_t) : ohc_timer_t :=
  Timer (group_unlink x <$> tgroup_head t) (list_remove_one x (expires t)) (now t) (tnodes t).

(** [list_del] of an unlinked node goes through null pointers. *)
Definition timer_del (t : ohc_timer_t) (tnode : Z) : outcome ohc_timer_t :=
  if timer_linked t tnode then Ret (timer_unlink tnode t) else Fail NullPtr.

(** [list_add_tail(&tnode->tnode_node, &tgroup->tnode_head)], the timeout and
    the group pointer. *)
Definition group_push (x a : Z) (g : ohc_timer_group_t) : ohc_timer_group_t :=
  if tg_addr g =? a then set_nodes (tnode_head g ++ [x]) g else g.
Definition timer_push (t : ohc_timer_t) (tnode a timeout : Z) : ohc_timer_t :=
  Timer (group_push tnode a <$> tgroup_head t) (expires t) (now t)
    (<[tnode := TNode (now t + timeout) a]> (tnodes t)).

(** The node must be unlinked: linking it a second time corrupts both lists. *)
Definition timer_add (malloc : option Z) (t : ohc_timer_t) (tnode timeout : Z) :
    outcome (Z * ohc_timer_t) :=
  if timer_linked t tnode then Fail Undef else
  match list_find (λ g, tg_timeout g = timeout) (tgroup_head t) with
  | Some (_, g) => Ret (0, timer_push t tnode (tg_addr g) timeout)
  | None =>
      match malloc with
      | None => Ret (1, t)
      | Some a =>
          Ret (0, timer_push (set_groups (TGroup a timeout [] :: tgroup_head t) t) tnode a timeout)
      end
  end.

Definition group_at (t : ohc_timer_t) (a : Z) : option ohc_timer_group_t :=
  snd <$> list_find (λ g, tg_addr g = a) (tgroup_head t).

(** [tnode->group] is read first: it dangles when the group was freed. *)
Definition timer_update (malloc : option Z) (t : ohc_timer_t) (tnode timeout : Z) :
    outcome (Z * ohc_timer_t) :=
  match tnodes t !! tnode with
  | None => Fail Dangling
  | Some n =>
      match group_at t (tn_group n) with
      | None => Fail Dangling
      | Some g =>
          if (timeout =? 0) || (timeout =? tg_timeout g) then
            t ← timer_del t tnode;
            Ret (0, timer_push t tnode (tg_addr g) (tg_timeout g))
          else
            t ← timer_del t tnode;
            timer_add malloc t tnode timeout
      end
  end.

(** Walks the nodes of a group up to the first one that is not due: the nodes
    moved to [expires], and the rest. *)
Fixpoint expire_group (mem : gmap Z ohc_timer_node_t) (time : Z) (q : list Z) :
    outcome (list Z * list Z) :=
  match q with
  | [] => Ret ([], [])
  | x :: q' =>
      match mem !! x with
      | None => Fail Dangling
      | Some n =>
          if time <? tn_timeout n then Ret ([], q)
          else '(out, rest) ← expire_group mem time q'; Ret (x :: out, rest)
      end
  end.

Fixpoint expire_groups (mem : gmap Z ohc_timer_node_t) (time : Z)
    (gs : list ohc_timer_group_t) : outcome (list Z * list ohc_timer_group_t) :=
  match gs with
  | [] => Ret ([], [])
  | g :: gs =>
      '(out, rest) ← expire_group mem time (tnode_head g);
      '(outs, gs) ← expire_groups mem time gs;
      Ret (out ++ outs, set_nodes rest g :: gs)
  end.

(** [time] is what [timer_refresh] reads; the result is the list [expires]. *)
Definition timer_expire (time : Z) (t : ohc_timer_t) : outcome (list Z * ohc_timer_t) :=
  let t := timer_refresh time t in
  '(out, gs) ← expire_groups (tnodes t) (now t) (tgroup_head t);
  let ex := expires t ++ out in
  Ret (ex, Timer gs ex (now t) (tnodes t)).

(** Frees the empty groups and keeps the least first timeout. *)
Fixpoint closest_groups (mem : gmap Z ohc_timer_node_t) (closest : Z)
    (gs : list ohc_timer_group_t) : outcome (Z * list ohc_timer_group_t) :=
  match gs with
  | [] => Ret (closest, [])
  | g :: gs =>
      match tnode_head g with
      | [] => closest_groups mem closest gs
      | x :: _ =>
          match mem !! x with
          | None => Fail Dangling
          | Some n =>
              '(c, gs) ← closest_groups mem
                 (if tn_timeout n <? closest then tn_timeout n else closest) gs;
              Ret (c, g :: gs)
          end
      end
  end.

Definition timer_closest (time : Z) (t : ohc_timer_t) : outcome (Z * ohc_timer_t) :=
  '(closest, gs) ← closest_groups (tnodes t) BIG_TIME (tgroup_head t);
  let t := timer_refresh time (set_groups gs t) in
  Ret (if closest <=? now t then 0 else closest - now t, t).

(** [timer_destroy] on the heap of list nodes: [free] takes the node away, and
    [list_for_each] then reads its [next]. *)
Fixpoint timer_destroy_from (fuel : nat) (p head : Z) : M lheap unit :=
  match fuel with
  | O => fail Undef
  | S fuel =>
      if p =? head then mret tt else
      modify (delete p);;
      n ← load p;
      timer_destroy_from fuel (lh_next n) head
  end.
Definition timer_destroy (fuel : nat) (head : Z) : M lheap unit :=
  n ← load head; timer_destroy_from fuel (lh_next n) head.

(** ** Invariant *)

Definition pending (t : ohc_timer_t) : list Z := concat (tnode_head <$> tgroup_head t).
Definition due_at (t : ohc_timer_t) (x : Z) : Z := default 0 (tn_timeout <$> tnodes t !! x).

Record timer_inv (t : ohc_timer_t) : Prop := {
  ti_addr : NoDup (tg_addr <$> tgroup_head t);
  ti_timeout : NoDup (tg_timeout <$> tgroup_head t);
  ti_nodup : NoDup (expires t ++ pending t);
  ti_node : ∀ g x, g ∈ tgroup_head t → x ∈ tnode_head g →
    ∃ n, tnodes t !! x = Some n ∧ tn_group n = tg_addr g ∧
         tn_timeout n ≤ now t + tg_timeout g;
  ti_sorted : ∀ g, g ∈ tgroup_head t →
    StronglySorted (λ x y, due_at t x ≤ due_at t y) (tnode_head g)
}.

Lemma elem_of_pending t x :
  x ∈ pending t ↔ ∃ g, g ∈ tgroup_head t ∧ x ∈ tnode_head g.
Proof.
  unfold pending. rewrite list_elem_of_In, in_concat. split.
  - intros (q & Hq & Hx). apply list_elem_of_In, list_elem_of_fmap in Hq as (g & -> & Hg).
    exists g. split; [done|by apply list_elem_of_In].
  - intros (g & Hg & Hx). exists (tnode_head g). split; [|by apply list_elem_of_In].
    apply list_elem_of_In, list_elem_of_fmap. eauto.
Qed.

Lemma timer_linked_spec t x :
  timer_linked t x = true ↔ x ∈ expires t ∨ x ∈ pending t.
Proof.
  unfold timer_linked. rewrite orb_true_iff, bool_decide_eq_true, existsb_exists, elem_of_pending.
  apply or_iff_compat_l. split; intros (g & Hg & Hx); exists g;
    rewrite ?bool_decide_eq_true, ?list_elem_of_In in *; done.
Qed.

Lemma concat_fmap_remove x (gs : list ohc_timer_group_t) :
  concat (tnode_head <$> (group_unlink x <$> gs)) = list_remove_one x (concat (tnode_head <$> gs)).
Proof.
  induction gs as [|g gs IH]; [done|]. rewrite !fmap_cons. simpl. rewrite IH.
  unfold list_remove_one. by rewrite filter_app.
Qed.

Lemma pending_unlink x t : pending (timer_unlink x t) = list_remove_one x (pending t).
Proof. apply concat_fmap_remove. Qed.

Lemma sorted_filter {A} (R : A → A → Prop) (P : A → Prop) `{∀ x, Decision (P x)} l :
  StronglySorted R l → StronglySorted R (filter P l).
Proof.
  induction 1 as [|x l Hs IH Hx]; [constructor|]. rewrite filter_cons. case_decide; [|done].
  constructor; [done|]. rewrite Forall_forall in *. intros y. rewrite list_elem_of_filter.
  naive_solver.
Qed.

Lemma sorted_ext {A} (R R' : A → A → Prop) l :
  (∀ x y, x ∈ l → y ∈ l → R x y → R' x y) → StronglySorted R l → StronglySorted R' l.
Proof.
  intros HR. induction 1 as [|x l Hs IH Hx]; constructor.
  - apply IH. intros. apply HR; [by apply list_elem_of_further..|done].
  - rewrite Forall_forall in *. intros y Hy.
    apply HR; [apply list_elem_of_here|by apply list_elem_of_further|auto].
Qed.

Lemma sorted_snoc {A} (R : A → A → Prop) l x :
  StronglySorted R l → Forall (λ y, R y x) l → StronglySorted R (l ++ [x]).
Proof.
  induction 1 as [|y l Hs IH Hx]; simpl.
  - intros _. repeat constructor.
  - intros [? ?]%Forall_cons. constructor; [auto|]. by rewrite Forall_app, Forall_singleton.
Qed.

Lemma timer_unlink_inv x t : timer_inv t → timer_inv (timer_unlink x t).
Proof.
  intros [Ha Ht Hn Hx Hs]. split; simpl.
  - by rewrite <- list_fmap_compose.
  - by rewrite <- list_fmap_compose.
  - rewrite pending_unlink. unfold list_remove_one. rewrite <- filter_app. by apply NoDup_filter.
  - intros g y (g' & -> & Hg)%list_elem_of_fmap [Hy _]%elem_of_list_remove_one. simpl. eauto.
  - intros g (g' & -> & Hg)%list_elem_of_fmap. simpl. by apply sorted_filter, Hs.
Qed.

Lemma timer_unlink_notin x t :
  (x ∉ expires (timer_unlink x t)) ∧ (x ∉ pending (timer_unlink x t)).
Proof.
  rewrite pending_unlink. simpl. rewrite !elem_of_list_remove_one. naive_solver.
Qed.

(** [timer_refresh] with a later time. *)
Lemma timer_refresh_inv time t :
  now t ≤ time → timer_inv t → timer_inv (timer_refresh time t).
Proof.
  intros Hle [Ha Ht Hn Hx Hs]. split; simpl; try done.
  intros g x Hg Hin. destruct (Hx g x Hg Hin) as (n & ? & ? & ?). exists n.
  split_and!; [done..|lia].
Qed.

(** ** Linking a node at the tail of a group *)

Lemma pending_push_perm x a (gs : list ohc_timer_group_t) :
  NoDup (tg_addr <$> gs) → a ∈ (tg_addr <$> gs) →
  concat (tnode_head <$> (group_push x a <$> gs)) ≡ₚ x :: concat (tnode_head <$> gs).
Proof.
  induction gs as [|g gs IH]; [by intros _ ?%not_elem_of_nil|].
  rewrite !fmap_cons. simpl. intros [Hg Hn]%NoDup_cons.
  unfold group_push at 1. destruct (Z.eqb_spec (tg_addr g) a) as [<-|Hne]; simpl.
  - intros _. assert (group_push x (tg_addr g) <$> gs = gs) as ->.
    { rewrite <- list_fmap_id. apply list_fmap_ext. intros i g' Hg'. unfold group_push.
      destruct (Z.eqb_spec (tg_addr g') (tg_addr g)) as [E|]; [|done].
      destruct Hg. rewrite <- E. apply list_elem_of_fmap_2, (list_elem_of_lookup_2 _ _ _ Hg'). }
    rewrite <- app_assoc. simpl. symmetry. apply Permutation_middle.
  - intros [->|Ha]%elem_of_cons; [done|]. rewrite IH by done.
    symmetry. apply Permutation_middle.
Qed.

Lemma group_push_addr x a g : tg_addr (group_push x a g) = tg_addr g.
Proof. unfold group_push. by destruct (_ =? _). Qed.
Lemma group_push_timeout x a g : tg_timeout (group_push x a g) = tg_timeout g.
Proof. unfold group_push. by destruct (_ =? _). Qed.

Lemma group_addr_inj gs g g' :
  NoDup (tg_addr <$> gs) → g ∈ gs → g' ∈ gs → tg_addr g = tg_addr g' → g = g'.
Proof.
  intros Hn [i Hi]%list_elem_of_lookup [j Hj]%list_elem_of_lookup E.
  assert (i = j) as ->; [|congruence].
  eapply (NoDup_lookup _ i j (tg_addr g)); [exact Hn|..]; rewrite list_lookup_fmap.
  - by rewrite Hi.
  - rewrite Hj. simpl. by rewrite E.
Qed.

Lemma timer_push_inv t x a timeout g :
  timer_inv t → x ∉ expires t → x ∉ pending t →
  g ∈ tgroup_head t → tg_addr g = a → tg_timeout g = timeout →
  timer_inv (timer_push t x a timeout) ∧ pending (timer_push t x a timeout) ≡ₚ x :: pending t.
Proof.
  intros [Ha Ht Hn Hx Hs] Hxe Hxp Hg <- <-.
  assert (pending (timer_push t x (tg_addr g) (tg_timeout g)) ≡ₚ x :: pending t) as Pp.
  { apply pending_push_perm; [done|]. by apply list_elem_of_fmap_2. }
  split; [|done].
  assert (∀ g' y, g' ∈ tgroup_head t → y ∈ tnode_head g' → y ≠ x) as Hfr.
  { intros g' y Hg' Hy ->. apply Hxp, elem_of_pending. eauto. }
  assert (∀ g' y, g' ∈ tgroup_head t → y ∈ tnode_head g' →
    due_at (timer_push t x (tg_addr g) (tg_timeout g)) y = due_at t y) as Hdue.
  { intros g' y Hg' Hy. unfold due_at. simpl. rewrite lookup_insert_ne; [done|].
    intros <-. by eapply Hfr. }
  split.
  - simpl. rewrite <- list_fmap_compose. erewrite list_fmap_ext; [exact Ha|].
    intros. apply group_push_addr.
  - simpl. rewrite <- list_fmap_compose. erewrite list_fmap_ext; [exact Ht|].
    intros. apply group_push_timeout.
  - rewrite Pp. simpl. rewrite <- Permutation_middle. apply NoDup_cons.
    split; [|done]. rewrite elem_of_app. tauto.
  - simpl. intros g1 y (g' & -> & Hg')%list_elem_of_fmap.
    rewrite group_push_addr, group_push_timeout. intros Hy.
    destruct (decide (y = x)) as [->|Hne].
    + rewrite lookup_insert_eq. eexists. split; [done|]. simpl.
      unfold group_push in Hy. destruct (Z.eqb_spec (tg_addr g') (tg_addr g)) as [E|].
      * assert (g' = g) as -> by (by apply (group_addr_inj (tgroup_head t))).
        split; [done|lia].
      * by destruct (Hfr g' x).
    + rewrite lookup_insert_ne by done. apply Hx; [done|].
      unfold group_push in Hy. destruct (_ =? _); [|done]. simpl in Hy.
      apply elem_of_app in Hy as [?|Hy]; [done|]. by apply list_elem_of_singleton in Hy.
  - simpl. intros g1 (g' & -> & Hg')%list_elem_of_fmap. unfold group_push.
    assert (StronglySorted (λ u v, due_at (timer_push t x (tg_addr g) (tg_timeout g)) u
      ≤ due_at (timer_push t x (tg_addr g) (tg_timeout g)) v) (tnode_head g')) as Hs'.
    { eapply sorted_ext; [|by apply Hs]. intros u v Hu Hv ?. by rewrite !(Hdue g'). }
    destruct (Z.eqb_spec (tg_addr g') (tg_addr g)) as [E|]; [|done]. simpl.
    apply sorted_snoc; [done|]. apply Forall_forall. intros y Hy.
    rewrite (Hdue g') by done. unfold due_at. simpl. rewrite lookup_insert_eq. simpl.
    destruct (Hx g' y Hg' Hy) as (n & -> & _ & Hle). simpl.
    by rewrite <- (group_addr_inj (tgroup_head t) g' g Ha Hg' Hg E).
Qed.

(** ** Operations *)

(** The group a node of duration [timeout] goes to. *)
Lemma timer_add_spec malloc t x timeout :
  timer_inv t → x ∉ expires t → x ∉ pending t →
  (∀ a, malloc = Some a → a ∉ (tg_addr <$> tgroup_head t)) →
  ∃ r t', timer_add malloc t x timeout = Ret (r, t') ∧ timer_inv t' ∧
    (r = 1 ∧ t' = t ∧ malloc = None ∧ (∀ g, g ∈ tgroup_head t → tg_timeout g ≠ timeout)
     ∨ r = 0 ∧ pending t' ≡ₚ x :: pending t ∧ expires t' = expires t ∧ now t' = now t ∧
       due_at t' x = now t + timeout ∧
       ∀ y, y ≠ x → tnodes t' !! y = tnodes t !! y).
Proof.
  intros Hi Hxe Hxp Hm. unfold timer_add.
  assert (timer_linked t x = false) as ->.
  { apply not_true_is_false. rewrite timer_linked_spec. tauto. }
  assert (∀ t1 a, now t1 = now t → tnodes t1 = tnodes t →
    due_at (timer_push t1 x a timeout) x = now t + timeout ∧
    ∀ y, y ≠ x → tnodes (timer_push t1 x a timeout) !! y = tnodes t !! y) as Hfin.
  { intros t1 a E1 E2. unfold due_at. simpl. rewrite lookup_insert_eq, E1, E2. split; [done|].
    intros y Hy. by rewrite lookup_insert_ne. }
  destruct (list_find _ _) as [[i g]|] eqn:Ef.
  - apply list_find_Some in Ef as (Hg & Et & _). apply list_elem_of_lookup_2 in Hg.
    destruct (timer_push_inv t x (tg_addr g) timeout g Hi Hxe Hxp Hg eq_refl Et) as [Hi' P].
    eexists _, _. split; [done|]. split; [done|]. right. split_and!; [done..| |]; by apply Hfin.
  - apply list_find_None in Ef. rewrite Forall_forall in Ef.
    destruct malloc as [a|]; [|by eexists _, _; split_and!; [done..|left]].
    set (t1 := set_groups (TGroup a timeout [] :: tgroup_head t) t).
    assert (timer_inv t1) as Hi1.
    { destruct Hi as [Ha Ht Hn Hx Hs]. split; simpl.
      - apply NoDup_cons. split; [by apply Hm|done].
      - apply NoDup_cons. split; [|done]. intros (g & -> & Hg)%list_elem_of_fmap. by apply (Ef g).
      - done.
      - intros g y [->|Hg]%elem_of_cons; [by intros ?%not_elem_of_nil|]. by apply Hx.
      - intros g [->|Hg]%elem_of_cons; [constructor|]. by apply Hs. }
    destruct (timer_push_inv t1 x a timeout (TGroup a timeout []) Hi1) as [Hi' P];
      [done|done|apply list_elem_of_here|done|done|].
    eexists _, _. split; [done|]. split; [done|]. right. split_and!; [done..| |]; by apply Hfin.
Qed.

Lemma timer_del_spec t x :
  timer_inv t → x ∈ expires t ∨ x ∈ pending t →
  timer_del t x = Ret (timer_unlink x t) ∧ timer_inv (timer_unlink x t) ∧
  pending (timer_unlink x t) = list_remove_one x (pending t).
Proof.
  intros Hi Hx. unfold timer_del. rewrite (proj2 (timer_linked_spec t x) Hx).
  split_and!; [done|by apply timer_unlink_inv|apply pending_unlink].
Qed.

Lemma group_at_found t g :
  timer_inv t → g ∈ tgroup_head t → group_at t (tg_addr g) = Some g.
Proof.
  intros Hi Hg. unfold group_at.
  destruct (list_find _ _) as [[i g']|] eqn:Ef; simpl.
  - apply list_find_Some in Ef as (Hg' & Ea & _). apply list_elem_of_lookup_2 in Hg'.
    f_equal. by apply (group_addr_inj (tgroup_head t)); [apply Hi|..].
  - apply list_find_None in Ef. rewrite Forall_forall in Ef. by destruct (Ef g Hg).
Qed.

Lemma remove_add_perm x (l : list Z) :
  NoDup l → x ∈ l → x :: list_remove_one x l ≡ₚ l.
Proof.
  intros Hn (l1 & l2 & ->)%list_elem_of_split.
  rewrite (list_remove_one_split x l1 l2 Hn). apply Permutation_middle.
Qed.

(** A pending node is rescheduled [timeout] (0: its old duration) after the
    current time, and nothing else moves. *)
Lemma timer_update_spec malloc t x timeout g :
  timer_inv t → g ∈ tgroup_head t → x ∈ tnode_head g →
  (∀ a, malloc = Some a → a ∉ (tg_addr <$> tgroup_head t)) →
  let d := if timeout =? 0 then tg_timeout g else timeout in
  ∃ r t', timer_update malloc t x timeout = Ret (r, t') ∧ timer_inv t' ∧ now t' = now t ∧
    expires t' = expires t ∧
    (r = 1 ∧ malloc = None ∧ pending t' = list_remove_one x (pending t) ∧
       (∀ g', g' ∈ tgroup_head t → tg_timeout g' ≠ d)
     ∨ r = 0 ∧ pending t' ≡ₚ pending t ∧ due_at t' x = now t + d ∧
       ∀ y, y ≠ x → tnodes t' !! y = tnodes t !! y).
Proof.
  intros Hi Hg Hx Hm d.
  destruct (ti_node t Hi g x Hg Hx) as (n & En & Eg & _).
  assert (x ∈ pending t) as Hp by (apply elem_of_pending; eauto).
  assert (x ∉ expires t) as Hxe.
  { intros ?. destruct (proj1 (NoDup_app _ _) (ti_nodup t Hi)) as (_ & Hd & _). by apply (Hd x). }
  assert (NoDup (pending t)) as Hnp by (eapply NoDup_app, (ti_nodup t Hi)).
  destruct (timer_del_spec t x Hi (or_intror Hp)) as (Ed & Hi1 & P1).
  destruct (timer_unlink_notin x t) as [Hn1 Hn2].
  assert (expires (timer_unlink x t) = expires t) as Ee by by apply list_remove_one_notin.
  unfold timer_update. rewrite En, Eg, (group_at_found t g Hi Hg), Ed. simpl.
  destruct ((timeout =? 0) || (timeout =? tg_timeout g)) eqn:Eb.
  - assert (d = tg_timeout g) as ->.
    { subst d. destruct (Z.eqb_spec timeout 0); [done|]. simpl in Eb. by apply Z.eqb_eq. }
    destruct (timer_push_inv (timer_unlink x t) x (tg_addr g) (tg_timeout g) (group_unlink x g)
      Hi1 Hn1 Hn2) as [Hi2 P2]; [by apply list_elem_of_fmap_2|done..|].
    eexists _, _. split; [done|]. split_and!; [done..|]. right. split_and!; [done|..].
    + rewrite P2, P1. by apply remove_add_perm.
    + unfold due_at. simpl. by rewrite lookup_insert_eq.
    + intros y Hy. simpl. by rewrite lookup_insert_ne.
  - apply orb_false_iff in Eb as [Ez%Z.eqb_neq Et%Z.eqb_neq].
    assert (d = timeout) as -> by (subst d; by destruct (Z.eqb_spec timeout 0)).
    destruct (timer_add_spec malloc (timer_unlink x t) x timeout Hi1 Hn1 Hn2)
      as (r & t' & Ea & Hi2 & Hr).
    { intros a Ha. simpl. rewrite <- list_fmap_compose. by apply Hm. }
    exists r, t'. split; [done|]. split; [done|].
    destruct Hr as [(-> & -> & -> & Hno)|(-> & P2 & Ee2 & En2 & Hd & Hy)].
    + split_and!; [done..|]. left. split_and!; [done..|]. intros g' Hg'.
      apply (Hno (group_unlink x g')). by apply list_elem_of_fmap_2.
    + split_and!; [done|by rewrite Ee2|]. right. split_and!; [done| |done|done].
      rewrite P2, P1. by apply remove_add_perm.
Qed.

(** ** Expiry *)

Definition due_in (mem : gmap Z ohc_timer_node_t) (x : Z) : Z :=
  default 0 (tn_timeout <$> mem !! x).

Lemma expire_group_spec mem time q :
  (∀ x, x ∈ q → is_Some (mem !! x)) →
  StronglySorted (λ x y, due_in mem x ≤ due_in mem y) q →
  ∃ out rest, expire_group mem time q = Ret (out, rest) ∧ q = out ++ rest ∧
    (∀ x, x ∈ out → due_in mem x ≤ time) ∧ (∀ x, x ∈ rest → time < due_in mem x).
Proof.
  intros Hm. induction 1 as [|x q Hs IH Hx]; simpl.
  - exists [], []. split_and!; [done|done|by intros x ?%not_elem_of_nil..].
  - destruct (Hm x) as [n Hn]; [apply list_elem_of_here|]. rewrite Hn.
    assert (due_in mem x = tn_timeout n) as Ed by (unfold due_in; by rewrite Hn).
    rewrite Forall_forall in Hx. destruct (Z.ltb_spec time (tn_timeout n)).
    + exists [], (x :: q). split_and!; [done|done|by intros y ?%not_elem_of_nil|].
      intros y [->|Hy]%elem_of_cons; [lia|]. specialize (Hx y Hy). simpl in Hx. lia.
    + destruct IH as (out & rest & -> & -> & Ho & Hr).
      { intros y Hy. by apply Hm, list_elem_of_further. }
      exists (x :: out), rest. split_and!; [done|done| |done].
      intros y [->|Hy]%elem_of_cons; [lia|auto].
Qed.

Lemma expire_groups_spec mem time gs :
  (∀ g x, g ∈ gs → x ∈ tnode_head g → is_Some (mem !! x)) →
  (∀ g, g ∈ gs → StronglySorted (λ x y, due_in mem x ≤ due_in mem y) (tnode_head g)) →
  ∃ out gs', expire_groups mem time gs = Ret (out, gs') ∧
    Forall2 (λ g g', ∃ pre, g = set_nodes (pre ++ tnode_head g') g') gs gs' ∧
    out ++ concat (tnode_head <$> gs') ≡ₚ concat (tnode_head <$> gs) ∧
    (∀ x, x ∈ out → due_in mem x ≤ time) ∧
    (∀ x, x ∈ concat (tnode_head <$> gs') → time < due_in mem x).
Proof.
  induction gs as [|g gs IH]; intros Hm Hs; simpl.
  - exists [], []. split_and!; [done|constructor|done|by intros x ?%not_elem_of_nil..].
  - destruct (expire_group_spec mem time (tnode_head g)) as (out & rest & -> & Eg & Ho & Hr).
    { intros x. apply Hm, list_elem_of_here. }
    { apply Hs, list_elem_of_here. }
    destruct IH as (outs & gs' & -> & Hf & P & Hos & Hrs).
    { intros g' x Hg'. apply Hm. by apply list_elem_of_further. }
    { intros g' Hg'. apply Hs. by apply list_elem_of_further. }
    eexists _, _. split; [done|]. split_and!.
    + constructor; [|done]. exists out. simpl. rewrite <- Eg. by destruct g.
    + simpl. rewrite Eg, <- P. rewrite <- !app_assoc. apply Permutation_app_head.
      rewrite !app_assoc. apply Permutation_app_tail, Permutation_app_comm.
    + intros x [?|?]%elem_of_app; auto.
    + simpl. intros x [?|?]%elem_of_app; auto.
Qed.

Lemma sorted_suffix {A} (R : A → A → Prop) l1 l2 :
  StronglySorted R (l1 ++ l2) → StronglySorted R l2.
Proof. induction l1; simpl; [done|]. inversion 1; auto. Qed.

Lemma timer_expire_spec time t :
  timer_inv t → now t ≤ time →
  ∃ out t', timer_expire time t = Ret (expires t', t') ∧ timer_inv t' ∧ now t' = time ∧
    tnodes t' = tnodes t ∧ expires t' = expires t ++ out ∧
    out ++ pending t' ≡ₚ pending t ∧
    (∀ x, x ∈ out → due_at t x ≤ time) ∧ (∀ x, x ∈ pending t' → time < due_at t x).
Proof.
  intros Hi Hle. unfold timer_expire. simpl.
  destruct (expire_groups_spec (tnodes t) time (tgroup_head t)) as (out & gs & E & Hf & P & Ho & Hr).
  { intros g x Hg Hx. destruct (ti_node t Hi g x Hg Hx) as (n & -> & _). done. }
  { apply Hi. }
  rewrite E. simpl. exists out, (Timer gs (expires t ++ out) time (tnodes t)). split; [done|].
  split; [|split_and!; [done..|exact P|exact Ho|exact Hr]].
  assert (∀ g', g' ∈ gs → ∃ g pre, g ∈ tgroup_head t ∧ g = set_nodes (pre ++ tnode_head g') g') as Hgs.
  { intros g' [i Hg']%list_elem_of_lookup.
    destruct (Forall2_lookup_r _ _ _ _ _ Hf Hg') as (g & Hg & pre & Eg).
    exists g, pre. split; [by eapply list_elem_of_lookup_2|done]. }
  assert (∀ (B : Type) (f : ohc_timer_group_t → B), (∀ g l, f (set_nodes l g) = f g) →
    f <$> gs = f <$> tgroup_head t) as Hmap.
  { intros B f Hset. clear -Hf Hset. induction Hf as [|g g' l l' (pre & ->) ? IH]; [done|].
    rewrite !fmap_cons, IH. by rewrite Hset. }
  split.
  - cbn [tgroup_head]. rewrite Hmap by done. apply Hi.
  - cbn [tgroup_head]. rewrite Hmap by done. apply Hi.
  - cbn [expires]. unfold pending. cbn [tgroup_head]. rewrite <- app_assoc, P. apply Hi.
  - simpl. intros g' x (g & pre & Hg & ->)%Hgs Hx.
    destruct (ti_node t Hi _ x Hg) as (n & ? & ? & Hto); [simpl; rewrite elem_of_app; auto|].
    exists n. split_and!; [done..|]. simpl in Hto. lia.
  - simpl. intros g' (g & pre & Hg & ->)%Hgs.
    eapply sorted_suffix. exact (ti_sorted t Hi _ Hg).
Qed.

(** ** The closest timeout *)

Lemma closest_groups_spec mem closest gs :
  (∀ g x, g ∈ gs → x ∈ tnode_head g → is_Some (mem !! x)) →
  (∀ g, g ∈ gs → StronglySorted (λ x y, due_in mem x ≤ due_in mem y) (tnode_head g)) →
  ∃ c, closest_groups mem closest gs = Ret (c, filter (λ g, tnode_head g ≠ []) gs) ∧
    c ≤ closest ∧ (∀ x, x ∈ concat (tnode_head <$> gs) → c ≤ due_in mem x) ∧
    (c = closest ∨ ∃ x, x ∈ concat (tnode_head <$> gs) ∧ due_in mem x = c).
Proof.
  revert closest. induction gs as [|g gs IH]; intros closest Hm Hs.
  - exists closest. split_and!; [done|lia|by intros x ?%not_elem_of_nil|by left].
  - assert (∀ g' x, g' ∈ gs → x ∈ tnode_head g' → is_Some (mem !! x)) as Hm'.
    { intros g' x Hg'. apply Hm. by apply list_elem_of_further. }
    assert (∀ g', g' ∈ gs → StronglySorted (λ x y, due_in mem x ≤ due_in mem y) (tnode_head g')) as Hs'.
    { intros g' Hg'. apply Hs. by apply list_elem_of_further. }
    cbn [closest_groups]. rewrite fmap_cons. simpl. rewrite filter_cons.
    pose proof (Hs g (list_elem_of_here _ _)) as Hsg.
    destruct (tnode_head g) as [|x q] eqn:Eg.
    + destruct (IH closest Hm' Hs') as (c & Ec & Hc). exists c.
      rewrite decide_False by (intros H; by apply H). done.
    + rewrite decide_True by done.
      destruct (Hm g x) as [n Hn]; [apply list_elem_of_here|rewrite Eg; apply list_elem_of_here|].
      rewrite Hn. assert (due_in mem x = tn_timeout n) as Ed by (unfold due_in; by rewrite Hn).
      destruct (IH (if tn_timeout n <? closest then tn_timeout n else closest) Hm' Hs')
        as (c & -> & Hle & Hall & Hex).
      exists c. split; [done|].
      inversion Hsg as [|? ? _ Hfx]; subst. rewrite Forall_forall in Hfx.
      destruct (Z.ltb_spec (tn_timeout n) closest); split_and!; try lia.
      * intros y [[->|Hy]%elem_of_cons|?]%elem_of_app; [lia| |auto]. specialize (Hfx y Hy). lia.
      * right. destruct Hex as [->|(y & ? & ?)].
        -- exists x. split; [apply list_elem_of_here|done].
        -- exists y. split; [|done]. by apply elem_of_app; right.
      * intros y [[->|Hy]%elem_of_cons|?]%elem_of_app; [lia| |auto]. specialize (Hfx y Hy). lia.
      * destruct Hex as [->|(y & ? & ?)]; [by left|]. right. exists y. split; [|done].
        by apply elem_of_app; right.
Qed.

Lemma pending_nonempty_groups (gs : list ohc_timer_group_t) :
  concat (tnode_head <$> filter (λ g, tnode_head g ≠ []) gs) = concat (tnode_head <$> gs).
Proof.
  induction gs as [|g gs IH]; [done|]. rewrite filter_cons, fmap_cons. simpl.
  destruct (decide (tnode_head g ≠ [])) as [|He].
  - rewrite fmap_cons. simpl. by rewrite IH.
  - destruct (tnode_head g); [done|]. by destruct He.
Qed.

(** [c] is the earliest timeout of a pending node, or [BIG_TIME]. *)
Lemma timer_closest_spec time t :
  timer_inv t → now t ≤ time →
  ∃ c t', timer_closest time t = Ret (Z.max 0 (c - time), t') ∧ timer_inv t' ∧
    tgroup_head t' = filter (λ g, tnode_head g ≠ []) (tgroup_head t) ∧
    pending t' = pending t ∧ expires t' = expires t ∧ now t' = time ∧ tnodes t' = tnodes t ∧
    c ≤ BIG_TIME ∧ (∀ x, x ∈ pending t → c ≤ due_at t x) ∧
    (c = BIG_TIME ∨ ∃ x, x ∈ pending t ∧ due_at t x = c).
Proof.
  intros Hi Hle. unfold timer_closest.
  destruct (closest_groups_spec (tnodes t) BIG_TIME (tgroup_head t)) as (c & -> & Hc & Hall & Hex).
  { intros g x Hg Hx. destruct (ti_node t Hi g x Hg Hx) as (n & -> & _). done. }
  { apply Hi. }
  simpl. exists c. eexists. split.
  { f_equal. f_equal. destruct (Z.leb_spec c time); lia. }
  split; [|split_and!; [done|apply pending_nonempty_groups|done..|exact Hall|exact Hex]].
  assert (∀ g, g ∈ filter (λ g, tnode_head g ≠ []) (tgroup_head t) → g ∈ tgroup_head t) as Hin.
  { intros g [_ ?]%list_elem_of_filter. done. }
  apply timer_refresh_inv; [done|]. destruct Hi as [Ha Ht Hn Hx Hs]. split; simpl.
  - eapply sublist_NoDup; [exact Ha|]. apply fmap_sublist, sublist_filter.
  - eapply sublist_NoDup; [exact Ht|]. apply fmap_sublist, sublist_filter.
  - unfold pending. simpl. by rewrite pending_nonempty_groups.
  - intros g x Hg%Hin. by apply Hx.
  - intros g Hg%Hin. by apply Hs.
Qed.

(** ** Destruction *)

Lemma timer_destroy_empty h head fuel :
  dlist h head [] → timer_destroy (S fuel) head h = Ret (tt, h).
Proof.
  intros Hd. unfold timer_destroy.
  destruct (load_nx h head head) as (n & E & Hn); [by eapply dlist_first|].
  rewrite (bind_ret _ _ _ _ _ E), Hn. simpl. by rewrite Z.eqb_refl.
Qed.

Lemma timer_destroy_nonempty h head p l fuel :
  dlist h head (p :: l) → p ≠ 0 → timer_destroy (S fuel) head h = Fail Dangling.
Proof.
  intros Hd Hp. unfold timer_destroy.
  destruct (load_nx h head p) as (n & E & Hn); [by eapply dlist_first|].
  rewrite (bind_ret _ _ _ _ _ E), Hn. simpl.
  destruct Hd as [Hnd _]. apply NoDup_cons in Hnd as [Hnot _].
  rewrite (proj2 (Z.eqb_neq p head)) by (intros ->; apply Hnot, list_elem_of_here).
  unfold mbind, M_bind, modify, load, bad_ptr. rewrite lookup_delete_eq.
  by rewrite (proj2 (Z.eqb_neq p 0)).
Qed.

(** ** Dates

    [gmtime_r] and [mktime] belong to the C library and are parameters.
    [mktime] also gets the [tm_isdst] field, which the code leaves
    uninitialised; it returns the local time and the offset [tm_gmtoff]. *)

Record tm := Tm {
  tm_sec : Z; tm_min : Z; tm_hour : Z; tm_mday : Z; tm_mon : Z; tm_year : Z; tm_wday : Z
}.

Definition month_str : list (list Z) :=
  bytes <$> ["Jan"; "Feb"; "Mar"; "Apr"; "May"; "Jun"; "Jul"; "Aug"; "Sep"; "Oct"; "Nov"; "Dec"]%string.
Definition week_str : list (list Z) :=
  bytes <$> ["Sun"; "Mon"; "Tue"; "Wed"; "Thu"; "Fri"; "Sat"]%string.
Definition LEN_TIME_FARMAT_RFC1123 : Z := 30.
Definition INVALID_TIME : Z := -1.

Section dates.
Context (gmtime_r : Z → tm).
Context (mktime : tm → Z → option (Z * Z)).

(** [*(p)]: a signed [char] of the buffer. *)
Definition char_at (p : list Z) (i : nat) : outcome Z :=
  match p !! i with Some c => Ret (swrap 8 c) | None => Fail OutOfBounds end.
Definition D2 (p : list Z) (i : nat) : outcome Z :=
  a ← char_at p i; b ← char_at p (S i); Ret ((a - 48) * 10 + b - 48).

(** [strncmp(p + i, s, strlen(s)) == 0]: stops at the first difference. *)
Fixpoint strncmp_eq (p : list Z) (i : nat) (s : list Z) : outcome bool :=
  match s with
  | [] => Ret true
  | c :: s =>
      a ← char_at p i;
      if a =? c then strncmp_eq p (S i) s else Ret false
  end.

Fixpoint month_index (p : list Z) (ms : list (list Z)) (i : Z) : outcome Z :=
  match ms with
  | [] => Ret i
  | m :: ms => b ← strncmp_eq p 8 m; if b : bool then Ret i else month_index p ms (i + 1)
  end.

Definition timer_parse_rfc1123 (isdst : Z) (p : list Z) : outcome Z :=
  gmt ← strncmp_eq p 25 (bytes " GMT");
  if negb gmt then Ret INVALID_TIME else
  mday ← D2 p 5;
  y1 ← D2 p 12;
  y2 ← D2 p 14;
  hour ← D2 p 17;
  min ← D2 p 20;
  sec ← D2 p 23;
  i ← month_index p month_str 0;
  if i =? 12 then Ret INVALID_TIME else
  match mktime (Tm sec min hour mday i (y1 * 100 + y2 - 1900) 0) isdst with
  | None => Ret INVALID_TIME
  | Some (ret, gmtoff) =>
      if ret =? INVALID_TIME then Ret INVALID_TIME else Ret (ret + gmtoff)
  end.

Definition dec02 (n : Z) : list Z := pad0 2 (dec n).

(** The string [snprintf] leaves in the cache: at most 29 characters. *)
Definition format_rfc1123 (time : Z) : outcome (list Z) :=
  let tm := gmtime_r time in
  match week_str !! Z.to_nat (tm_wday tm), month_str !! Z.to_nat (tm_mon tm) with
  | Some w, Some m =>
      Ret (take (Z.to_nat (LEN_TIME_FARMAT_RFC1123 - 1))
        (w ++ bytes ", " ++ dec02 (tm_mday tm) ++ bytes " " ++ m ++ bytes " "
           ++ dec (tm_year tm + 1900) ++ bytes " " ++ dec02 (tm_hour tm) ++ bytes ":"
           ++ dec02 (tm_min tm) ++ bytes ":" ++ dec02 (tm_sec tm) ++ bytes " GMT"))
  | _, _ => Fail OutOfBounds
  end.

(** The cache: filled when its first byte is NUL, which [timer_refresh]
    writes; [None] is that state. *)
Definition timer_format_rfc1123 (cache : option (list Z)) (time : Z) :
    outcome (list Z * option (list Z)) :=
  match cache with
  | Some s => Ret (s, cache)
  | None => s ← format_rfc1123 time; Ret (s, Some s)
  end.

Record tm_ok (tm : tm) : Prop := {
  ok_sec : 0 ≤ tm_sec tm ≤ 60; ok_min : 0 ≤ tm_min tm < 60; ok_hour : 0 ≤ tm_hour tm < 24;
  ok_mday : 1 ≤ tm_mday tm ≤ 31; ok_mon : 0 ≤ tm_mon tm < 12;
  ok_year : 1000 ≤ tm_year tm + 1900 < 10000; ok_wday : 0 ≤ tm_wday tm < 7
}.

Lemma dec02_digits n : 0 ≤ n < 100 → dec02 n = [48 + n / 10; 48 + n mod 10].
Proof.
  intros Hn. unfold dec02, dec. cbn [dec_loop]. destruct (Z.eqb_spec (n / 10) 0) as [E|E].
  - rewrite E. reflexivity.
  - rewrite (proj2 (Z.eqb_eq (n / 10 / 10) 0)) by dlia.
    by rewrite (Z.mod_small (n / 10) 10) by dlia.
Qed.

Lemma dec_digits4 n : 1000 ≤ n < 10000 →
  dec n = [48 + n / 1000; 48 + n / 100 mod 10; 48 + n / 10 mod 10; 48 + n mod 10].
Proof.
  intros Hn. unfold dec. cbn [dec_loop].
  rewrite (proj2 (Z.eqb_neq (n / 10) 0)) by dlia.
  rewrite (proj2 (Z.eqb_neq (n / 10 / 10) 0)) by dlia.
  rewrite (proj2 (Z.eqb_neq (n / 10 / 10 / 10) 0)) by dlia.
  rewrite (proj2 (Z.eqb_eq (n / 10 / 10 / 10 / 10) 0)) by dlia.
  rewrite (Z.mod_small (n / 10 / 10 / 10) 10) by dlia.
  by rewrite !Z.div_div by lia.
Qed.

Lemma char_digit p i d : p !! i = Some (48 + d) → 0 ≤ d < 10 → char_at p i = Ret (48 + d).
Proof. intros Hp Hd. unfold char_at. rewrite Hp, swrap_small; [done|lia|lia]. Qed.

Lemma D2_digits p i n :
  0 ≤ n < 100 → p !! i = Some (48 + n / 10) → p !! S i = Some (48 + n mod 10) →
  D2 p i = Ret n.
Proof.
  intros Hn H1 H2. unfold D2. rewrite (char_digit _ _ _ H1) by dlia. cbn [mbind outcome_bind].
  rewrite (char_digit _ _ _ H2) by dlia. cbn [mbind outcome_bind]. f_equal. dlia.
Qed.

(** The formatted date, character by character; [w] and [m] are the names. *)
Lemma format_chars time :
  tm_ok (gmtime_r time) →
  ∃ w m, week_str !! Z.to_nat (tm_wday (gmtime_r time)) = Some w ∧
    month_str !! Z.to_nat (tm_mon (gmtime_r time)) = Some m ∧
    length w = 3%nat ∧ length m = 3%nat ∧
    let tm := gmtime_r time in let y := tm_year tm + 1900 in
    format_rfc1123 time = Ret
      (w ++ [44; 32; 48 + tm_mday tm / 10; 48 + tm_mday tm mod 10; 32] ++ m ++
       [32; 48 + y / 1000; 48 + y / 100 mod 10; 48 + y / 10 mod 10; 48 + y mod 10; 32;
        48 + tm_hour tm / 10; 48 + tm_hour tm mod 10; 58;
        48 + tm_min tm / 10; 48 + tm_min tm mod 10; 58;
        48 + tm_sec tm / 10; 48 + tm_sec tm mod 10; 32; 71; 77; 84]).
Proof.
  intros [? ? ? ? ? ? ?]. unfold format_rfc1123.
  destruct (lookup_lt_is_Some_2 week_str (Z.to_nat (tm_wday (gmtime_r time)))) as [w Hw];
    [change (length week_str) with 7%nat; lia|].
  destruct (lookup_lt_is_Some_2 month_str (Z.to_nat (tm_mon (gmtime_r time)))) as [m Hmo];
    [change (length month_str) with 12%nat; lia|].
  exists w, m. rewrite Hw, Hmo.
  assert (length w = 3%nat) as Lw.
  { apply list_elem_of_lookup_2 in Hw. revert w Hw. by apply Forall_forall; repeat constructor. }
  assert (length m = 3%nat) as Lm.
  { apply list_elem_of_lookup_2 in Hmo. revert m Hmo. by apply Forall_forall; repeat constructor. }
  split_and!; [done..|]. simpl. rewrite !dec02_digits, dec_digits4 by lia.
  destruct w as [|? [|? [|? [|]]]]; try done. destruct m as [|? [|? [|? [|]]]]; try done.
Qed.

Lemma month_found p i m :
  month_str !! i = Some m → length m = 3%nat →
  p !! 8%nat = m !! 0%nat → p !! 9%nat = m !! 1%nat → p !! 10%nat = m !! 2%nat →
  month_index p month_str 0 = Ret (Z.of_nat i).
Proof.
  intros Hm _ H1 H2 H3.
  do 12 (destruct i as [|i]; [injection Hm as <-; simpl in H1, H2, H3;
    unfold month_index; simpl; unfold char_at; rewrite ?H1, ?H2, ?H3; reflexivity|]).
  done.
Qed.

Lemma parse_format isdst time r off :
  tm_ok (gmtime_r time) →
  (let tm := gmtime_r time in
   mktime (Tm (tm_sec tm) (tm_min tm) (tm_hour tm) (tm_mday tm) (tm_mon tm) (tm_year tm) 0) isdst
     = Some (r, off)) →
  r ≠ INVALID_TIME →
  ∃ s, format_rfc1123 time = Ret s ∧ timer_parse_rfc1123 isdst s = Ret (r + off).
Proof.
  intros Hok Hmk Hr. destruct (format_chars time Hok) as (w & m & Hw & Hm & Lw & Lm & Ef).
  eexists. split; [exact Ef|]. destruct Hok. simpl in Hmk.
  set (tm := gmtime_r time) in *. unfold timer_parse_rfc1123.
  assert (∀ n, 0 ≤ n < 10000 → n / 100 / 10 = n / 1000 ∧ n / 100 mod 10 = n / 100 mod 10 ∧
     (n mod 100) / 10 = n / 10 mod 10 ∧ (n mod 100) mod 10 = n mod 10) as Hy by (intros; dlia).
  destruct w as [|w0 [|w1 [|w2 [|]]]]; try done. destruct m as [|m0 [|m1 [|m2 [|]]]]; try done.
  destruct (Hy (tm_year tm + 1900)) as (Hy1 & _ & Hy3 & Hy4); [lia|].
  match goal with |- context [strncmp_eq ?l 25 _] => set (s := l) end.
  assert (strncmp_eq s 25 (bytes " GMT") = Ret true) as -> by reflexivity.
  cbn [mbind outcome_bind negb].
  rewrite (D2_digits s 5 (tm_mday tm)) by (done || lia). cbn [mbind outcome_bind].
  rewrite (D2_digits s 12 ((tm_year tm + 1900) / 100)) by (dlia || by rewrite ?Hy1).
  cbn [mbind outcome_bind].
  rewrite (D2_digits s 14 ((tm_year tm + 1900) mod 100)) by (dlia || by rewrite ?Hy3, ?Hy4).
  cbn [mbind outcome_bind].
  rewrite (D2_digits s 17 (tm_hour tm)) by (done || lia). cbn [mbind outcome_bind].
  rewrite (D2_digits s 20 (tm_min tm)) by (done || lia). cbn [mbind outcome_bind].
  rewrite (D2_digits s 23 (tm_sec tm)) by (done || lia). cbn [mbind outcome_bind].
  rewrite (month_found s _ _ Hm) by done. cbn [mbind outcome_bind].
  rewrite Z2Nat.id by lia. rewrite (proj2 (Z.eqb_neq (tm_mon tm) 12)) by lia.
  replace ((tm_year tm + 1900) / 100 * 100 + (tm_year tm + 1900) mod 100 - 1900)
    with (tm_year tm) by dlia.
  rewrite Hmk. by rewrite (proj2 (Z.eqb_neq r INVALID_TIME)).
Qed.
End dates.

(** ** Properties *)

Lemma timer_init_inv time mem : timer_inv (timer_init time mem).
Proof.
  split; simpl; try constructor.
  - intros g x Hg. by apply elem_of_nil in Hg.
  - intros g Hg. by apply elem_of_nil in Hg.
Qed.

(** Three nodes due at 1050, 1080 and 1050. *)
Definition demo_nodes : gmap Z ohc_timer_node_t := {[ 1 := TNode 0 0; 2 := TNode 0 0; 3 := TNode 0 0 ]}.
Definition demo_timer : ohc_timer_t :=
  Timer [TGroup 101 80 [2]; TGroup 100 50 [1; 3]] [] 1000
    {[ 1 := TNode 1050 100; 2 := TNode 1080 101; 3 := TNode 1050 100 ]}.
Lemma demo_timer_built :
  (t ← timer_add (Some 100) (timer_init 1000 demo_nodes) 1 50;
   t ← timer_add (Some 101) t.2 2 80;
   timer_add None t.2 3 50) = Ret (0, demo_timer).
Proof. vm_compute. reflexivity. Qed.
Lemma demo_timer_inv : timer_inv demo_timer.
Proof.
  assert (∀ o t x d r t', timer_inv t → timer_linked t x = false →
    (∀ a, o = Some a → bool_decide (a ∈ (tg_addr <$> tgroup_head t)) = false) →
    timer_add o t x d = Ret (r, t') → timer_inv t') as Hstep.
  { intros o t x d r t' Hi Hx Ho E. destruct (timer_add_spec o t x d) as (r' & t2 & E' & Hi' & _).
    - done.
    - intros Hin. by rewrite (proj2 (timer_linked_spec t x)) in Hx; auto.
    - intros Hin. by rewrite (proj2 (timer_linked_spec t x)) in Hx; auto.
    - intros a Ha. pose proof (Ho a Ha) as Hb. by apply bool_decide_eq_false in Hb.
    - rewrite E in E'. by injection E' as <- <-. }
  pose proof demo_timer_built as E.
  destruct (timer_add (Some 100) (timer_init 1000 demo_nodes) 1 50) as [[r1 t1]|] eqn:E1; [|done].
  cbn [mbind outcome_bind snd] in E.
  destruct (timer_add (Some 101) t1 2 80) as [[r2 t2]|] eqn:E2; [|done].
  cbn [mbind outcome_bind snd] in E.
  pose proof (timer_init_inv 1000 demo_nodes) as Hi.
  eapply Hstep in E1 as H1; [|done|reflexivity|by intros ? [= <-]].
  vm_compute in E1. injection E1 as <- <-.
  eapply Hstep in E2 as H2; [|done|reflexivity|by intros ? [= <-]].
  vm_compute in E2. injection E2 as <- <-.
  by apply (Hstep None _ 3 50 0 demo_timer H2).
Qed.

(** C35: [timer_expire] moves exactly the nodes that are due to the expired
    list: every node it moves has reached its timeout, every node still pending
    has not, and none is lost or doubled.  (The groups are scanned only up to
    their first node that is not due.) *)
Theorem timer_expire_correct time t :
  timer_inv t → now t ≤ time →
  ∃ out t', timer_expire time t = Ret (expires t', t') ∧ timer_inv t' ∧ now t' = time ∧
    tnodes t' = tnodes t ∧ expires t' = expires t ++ out ∧
    out ++ pending t' ≡ₚ pending t ∧
    (∀ x, x ∈ out → due_at t x ≤ time) ∧ (∀ x, x ∈ pending t' → time < due_at t x).
Proof. apply timer_expire_spec. Qed.

Lemma timer_expire_correct_witness :
  ∃ t', timer_expire 1060 demo_timer = Ret ([1; 3], t') ∧ timer_inv t' ∧ pending t' = [2].
Proof.
  destruct (timer_expire_correct 1060 demo_timer demo_timer_inv) as (o & t' & E & Hi & _).
  - simpl. lia.
  - assert (∃ t0, timer_expire 1060 demo_timer = Ret ([1; 3], t0) ∧ pending t0 = [2]) as (t0 & E0 & Ep)
      by (eexists; split; [vm_compute; reflexivity|reflexivity]).
    rewrite E0 in E. injection E as _ ->. by exists t'.
Defined.

(** [timer_closest] answers the time until the earliest timeout of a
    pending node (0 when it has passed), [BIG_TIME] when there is none, and
    drops only groups without nodes. *)
Theorem timer_closest_correct time t :
  timer_inv t → now t ≤ time →
  ∃ c t', timer_closest time t = Ret (Z.max 0 (c - time), t') ∧ timer_inv t' ∧
    tgroup_head t' = filter (λ g, tnode_head g ≠ []) (tgroup_head t) ∧
    pending t' = pending t ∧ expires t' = expires t ∧ now t' = time ∧ tnodes t' = tnodes t ∧
    c ≤ BIG_TIME ∧ (∀ x, x ∈ pending t → c ≤ due_at t x) ∧
    (c = BIG_TIME ∨ ∃ x, x ∈ pending t ∧ due_at t x = c).
Proof. apply timer_closest_spec. Qed.

Lemma timer_closest_correct_witness :
  ∃ t', timer_closest 1010 demo_timer = Ret (40, t') ∧ timer_inv t'.
Proof.
  destruct (timer_closest_correct 1010 demo_timer demo_timer_inv) as (c & t' & E & Hi & _).
  - simpl. lia.
  - assert (∃ t0, timer_closest 1010 demo_timer = Ret (40, t0)) as (t0 & E0)
      by (eexists; vm_compute; reflexivity).
    rewrite E0 in E. injection E as _ ->. by exists t'.
Defined.

(** [timer_update] of a pending node makes it due [timeout] (0: the
    duration it had) after the current time and moves no other node; when the
    new group cannot be allocated it answers an error, and the node is no longer
    pending. *)
Theorem timer_update_correct malloc t x timeout g :
  timer_inv t → g ∈ tgroup_head t → x ∈ tnode_head g →
  (∀ a, malloc = Some a → a ∉ (tg_addr <$> tgroup_head t)) →
  let d := if timeout =? 0 then tg_timeout g else timeout in
  ∃ r t', timer_update malloc t x timeout = Ret (r, t') ∧ timer_inv t' ∧ now t' = now t ∧
    expires t' = expires t ∧
    (r = 1 ∧ malloc = None ∧ pending t' = list_remove_one x (pending t) ∧
       (∀ g', g' ∈ tgroup_head t → tg_timeout g' ≠ d)
     ∨ r = 0 ∧ pending t' ≡ₚ pending t ∧ due_at t' x = now t + d ∧
       ∀ y, y ≠ x → tnodes t' !! y = tnodes t !! y).
Proof. apply timer_update_spec. Qed.

Lemma timer_update_correct_witness :
  ∃ t', timer_update (Some 102) demo_timer 1 30 = Ret (0, t') ∧ timer_inv t' ∧ due_at t' 1 = 1030.
Proof.
  destruct (timer_update_correct (Some 102) demo_timer 1 30 (TGroup 100 50 [1; 3]) demo_timer_inv)
    as (r & t' & E & Hi & _ & _ & [(_ & ? & _)|(-> & _ & Hd & _)]); try set_solver.
Defined.

(** [timer_destroy] of a timer that still has a group reads the [next]
    pointer of a group it has just freed. *)
Theorem timer_destroy_use_after_free h head p l fuel :
  dlist h head (p :: l) → p ≠ 0 → timer_destroy (S fuel) head h = Fail Dangling.
Proof. apply timer_destroy_nonempty. Qed.

Lemma timer_destroy_use_after_free_witness :
  timer_destroy 10 1 {[ 1 := ListHead 2 2; 2 := ListHead 1 1 ]} = Fail Dangling.
Proof.
  apply (timer_destroy_use_after_free _ 1 2 [] 9); [|done].
  split; [|by split_and!]. apply NoDup_cons. split; [set_solver|apply NoDup_singleton].
Defined.

(** An RFC 1123 date survives printing and parsing.  Over a [mktime] that
    answers [r] with offset [off] for the broken-down time of [time], parsing the
    string the server prints for [time] gives [r + off]. *)
Theorem rfc1123_round_trip gmtime_r mktime isdst time r off :
  tm_ok (gmtime_r time) →
  (let tm := gmtime_r time in
   mktime (Tm (tm_sec tm) (tm_min tm) (tm_hour tm) (tm_mday tm) (tm_mon tm) (tm_year tm) 0) isdst
     = Some (r, off)) →
  r ≠ INVALID_TIME →
  ∃ s, format_rfc1123 gmtime_r time = Ret s ∧ timer_parse_rfc1123 mktime isdst s = Ret (r + off).
Proof. apply parse_format. Qed.

(** The date of the RFC, in a zone an hour ahead of Greenwich. *)
Lemma rfc1123_round_trip_witness :
  ∃ s, format_rfc1123 (λ _, Tm 37 49 8 6 10 94 0) 784111777 = Ret s ∧
    timer_parse_rfc1123 (λ _ _, Some (784108177, 3600)) 0 s = Ret 784111777.
Proof.
  destruct (rfc1123_round_trip (λ _, Tm 37 49 8 6 10 94 0) (λ _ _, Some (784108177, 3600)) 0
    784111777 784108177 3600) as (s & E1 & E2); [|done|done|by exists s].
  split; simpl; lia.
Defined.
