(* ===== verification/SockTcp.v ===== *)
(** * utils/socktcp.c: sockets

    The system calls are those of any kernel that keeps the promises of the
    class [Kernel]: a table from descriptors to open files, and for each call
    what it does to the table when it succeeds; every call may be refused.  The
    state is the kernel's with the static [idle_fd], the spare descriptor that
    is given up to take connections off a backlog when there are no descriptors
    left, and [errno].  [TableKernel] at the end is a kernel that keeps the
    promises. *)

From stdpp Require Import prelude fin_maps gmap.
From S2P Require Import Prelude.

Definition SOL_SOCKET : Z := 1.
Definition SO_REUSEADDR : Z := 2.
Definition SO_SNDBUF : Z := 7.
Definition SO_RCVBUF : Z := 8.
Definition IPPROTO_TCP : Z := 6.
Definition TCP_CORK : Z := 3.
Definition TCP_DEFER_ACCEPT : Z := 9.
Definition O_NONBLOCK : Z := 2048.
Definition EINTR : Z := 4.
Definition EAGAIN : Z := 11.
Definition ENFILE : Z := 23.
Definition EMFILE : Z := 24.

(** ** What the kernel promises *)

(** An open file: its status flags, the socket options set, the port it is bound
    to, the limit of its backlog once it listens, and the clients waiting there
    (by address, in the order of arrival). *)
Record file := File {
  f_flags : Z;
  f_opts : gmap (Z * Z) Z;
  f_port : option Z;
  f_limit : option Z;
  f_backlog : list Z
}.

Definition new_file (flags : Z) : file := File flags ∅ None None [].
Definition set_flags (x : Z) (f : file) : file := File x (f_opts f) (f_port f) (f_limit f) (f_backlog f).
Definition set_opt (level name x : Z) (f : file) : file :=
  File (f_flags f) (<[(level, name) := x]> (f_opts f)) (f_port f) (f_limit f) (f_backlog f).
Definition set_port (x : Z) (f : file) : file := File (f_flags f) (f_opts f) (Some x) (f_limit f) (f_backlog f).
Definition set_limit (x : Z) (f : file) : file := File (f_flags f) (f_opts f) (f_port f) (Some x) (f_backlog f).
Definition set_backlog (x : list Z) (f : file) : file := File (f_flags f) (f_opts f) (f_port f) (f_limit f) x.

Abbreviation table := (gmap Z file).

(** What a call answers: a value, or -1 and [errno]. *)
Inductive answer := Done (x : Z) | Refused (errno : Z).

(** A call that changes the file [fd] by [g], or nothing. *)
Definition changes (fd : Z) (g : file → file) (t : table) (a : answer) (t' : table) : Prop :=
  match a with
  | Done x => x = 0 ∧ t' = alter g fd t
  | Refused _ => t' = t
  end.

(** A call that opens a file, or changes nothing. *)
Definition opens (f : file) (t : table) (a : answer) (t' : table) : Prop :=
  match a with
  | Done fd => 0 ≤ fd ∧ t !! fd = None ∧ t' = <[fd := f]> t
  | Refused _ => t' = t
  end.

Class Kernel (W : Type) := {
  files : W → table;
  signals : W → nat;      (* interruptions still to come *)
  sys_socket : W → answer * W;
  sys_getfl : Z → W → answer * W;
  sys_setfl : Z → Z → W → answer * W;
  sys_setsockopt : Z → Z → Z → Z → W → answer * W;
  sys_bind : Z → Z → W → answer * W;
  sys_listen : Z → Z → W → answer * W;
  sys_close : Z → W → W;
  sys_open_null : W → answer * W;
  sys_accept : Z → Z → W → answer * Z * W;
  (* the three numbers of tcp_rmem or tcp_wmem *)
  proc_tcp_mem : Z → W → option (Z * Z * Z);

  socket_ok w : opens (new_file 0) (files w) (sys_socket w).1 (files (sys_socket w).2);
  getfl_ok fd w f : files w !! fd = Some f → sys_getfl fd w = (Done (f_flags f), w);
  setfl_ok fd x w : is_Some (files w !! fd) →
    changes fd (set_flags x) (files w) (sys_setfl fd x w).1 (files (sys_setfl fd x w).2);
  setsockopt_ok fd level name x w : is_Some (files w !! fd) →
    changes fd (set_opt level name x) (files w) (sys_setsockopt fd level name x w).1
      (files (sys_setsockopt fd level name x w).2);
  bind_ok fd x w : is_Some (files w !! fd) →
    changes fd (set_port x) (files w) (sys_bind fd x w).1 (files (sys_bind fd x w).2);
  listen_ok fd x w : is_Some (files w !! fd) →
    changes fd (set_limit x) (files w) (sys_listen fd x w).1 (files (sys_listen fd x w).2);
  close_ok fd w : files (sys_close fd w) = delete fd (files w);
  open_null_ok w : opens (new_file 0) (files w) (sys_open_null w).1 (files (sys_open_null w).2);
  (* [accept] takes the client that waited longest; on an empty backlog, and
     when it is interrupted, it takes none *)
  accept_ok s flags w f : files w !! s = Some f →
    match sys_accept s flags w with
    | (Done fd, c, w') =>
        0 ≤ fd ∧ files w !! fd = None ∧
        ∃ cs, f_backlog f = c :: cs ∧
              files w' = <[fd := new_file flags]> (<[s := set_backlog cs f]> (files w))
    | (Refused e, _, w') =>
        files w' = files w ∧ (e = EAGAIN → f_backlog f = []) ∧
        (e = EINTR → (signals w' < signals w)%nat)
    end
}.

(** ** The functions of socktcp.c *)

Section code.
Context `{K : Kernel W}.

Record tcp := Tcp { idle_fd : Z; errno : Z; world : W }.
Definition set_world (w : W) (y : tcp) : tcp := Tcp (idle_fd y) (errno y) w.
Definition set_idle (fd : Z) : M tcp unit := modify (λ y, Tcp fd (errno y) (world y)).

(** A system call: its value, or -1 with [errno] set. *)
Definition sys (c : W → answer * W) : M tcp Z := λ y,
  match c (world y) with
  | (Done x, w) => Ret (x, set_world w y)
  | (Refused e, w) => Ret (-1, Tcp (idle_fd y) e w)
  end.
Definition close (fd : Z) : M tcp unit := modify (λ y, set_world (sys_close fd (world y)) y).
Definition setsockopt (fd level name x : Z) : M tcp Z := sys (sys_setsockopt fd level name x).

(** [get_tcp_rmem] and [get_tcp_wmem]: [which] is the option the numbers are for. *)
Definition get_tcp_mem (which : Z) : M tcp (option (Z * Z * Z)) := gets (λ y, proc_tcp_mem which (world y)).

Definition set_buf (which fd value : Z) : M tcp Z :=
  v ← (if value =? 0
       then m ← get_tcp_mem which; mret ((λ '(_, d, _), d) <$> m)
       else mret (Some value));
  match v with
  | None => mret (-1)
  | Some v =>
      rc ← setsockopt fd SOL_SOCKET which v;
      mret (if rc <? 0 then -1 else 0)
  end.
Definition set_sndbuf : Z → Z → M tcp Z := set_buf SO_SNDBUF.
Definition set_rcvbuf : Z → Z → M tcp Z := set_buf SO_RCVBUF.

Definition set_cork (fd cork : Z) : M tcp Z := setsockopt fd IPPROTO_TCP TCP_CORK cork.
Definition set_defer_accept (fd value : Z) : M tcp Z := setsockopt fd IPPROTO_TCP TCP_DEFER_ACCEPT value.
Definition set_nonblock (fd : Z) : M tcp Z :=
  fl ← sys (sys_getfl fd); sys (sys_setfl fd (Z.lor fl O_NONBLOCK)).

Definition tcp_bind (port : Z) : M tcp Z :=
  fd ← sys sys_socket;
  if fd <? 0 then mret (-1) else
  rc ← set_nonblock fd;
  if negb (rc =? 0) then mret (-1) else
  rc ← setsockopt fd SOL_SOCKET SO_REUSEADDR 1;
  if rc <? 0 then mret (-1) else
  rc ← set_defer_accept fd 60;
  if rc <? 0 then mret (-1) else
  rc ← sys (sys_bind fd port);
  if rc <? 0 then close fd;; mret (-1) else
  mret fd.

Definition tcp_listen (fd : Z) : M tcp Z :=
  y ← get;
  (if idle_fd y =? -1 then n ← sys sys_open_null; set_idle n else mret tt);;
  sys (sys_listen fd 1000).

(** [accept]: the descriptor, and the client it is connected to. *)
Definition accept (s flags : Z) : M tcp (Z * Z) := λ y,
  match sys_accept s flags (world y) with
  | (Done fd, c, w) => Ret ((fd, c), set_world w y)
  | (Refused e, c, w) => Ret ((-1, c), Tcp (idle_fd y) e w)
  end.

(** The loop of [clear_backlog], at most [fuel] rounds of it. *)
Fixpoint drain (fuel : nat) (s : Z) : M tcp unit :=
  y ← get;
  if 0 <=? idle_fd y then
    match fuel with
    | O => fail Undef
    | S fuel =>
        close (idle_fd y);;
        a ← accept s 0;
        set_idle a.1;;
        drain fuel s
    end
  else mret tt.

(** Each round but the last takes one client off the backlog. *)
Definition clear_backlog (s : Z) : M tcp unit :=
  y ← get;
  drain (S (match files (world y) !! s with Some f => length (f_backlog f) | None => 0 end)) s;;
  n ← sys sys_open_null; set_idle n.

(** The loop [again] of [tcp_accept], with [accept4]. *)
Fixpoint accept_again (fuel : nat) (s : Z) : M tcp (Z * Z) :=
  a ← accept s O_NONBLOCK;
  y ← get;
  if a.1 <? 0 then
    if errno y =? EINTR then
      match fuel with O => fail Undef | S fuel => accept_again fuel s end
    else
      (if (errno y =? EMFILE) || (errno y =? ENFILE) then clear_backlog s else mret tt);;
      mret a
  else mret a.

Definition tcp_accept (s : Z) : M tcp (Z * Z) :=
  y ← get; accept_again (signals (world y)) s.

(** server.c: the options of a listening socket, when a server starts to listen. *)
Definition server_listen_set (listen_fd sndbuf rcvbuf request_timeout : Z) : M tcp unit :=
  (if negb (sndbuf =? 0) then set_sndbuf listen_fd sndbuf else mret 0);;
  (if negb (rcvbuf =? 0) then set_rcvbuf listen_fd rcvbuf else mret 0);;
  (if negb (request_timeout =? 60) then set_defer_accept listen_fd request_timeout else mret 0);;
  mret tt.
End code.

(** ** Specifications *)

Section specs.
Context `{K : Kernel W}.
Implicit Types (y : @tcp W) (w : W) (f : file).

Abbreviation tab y := (files (world y)).

(** A call with the promise [changes]: 0 and the file changed, or -1 and nothing. *)
Lemma sys_changes (c : W → answer * W) fd (g : file → file) y :
  changes fd g (tab y) (c (world y)).1 (files (c (world y)).2) →
  ∃ r y', sys c y = Ret (r, y') ∧ idle_fd y' = idle_fd y ∧
    ((r = 0 ∧ tab y' = alter g fd (tab y)) ∨ (r = -1 ∧ tab y' = tab y)).
Proof.
  unfold sys. destruct (c (world y)) as [[x|e] w]; cbn.
  - intros [-> Ht]. eexists _, _. split; [reflexivity|]. cbn. auto.
  - intros Ht. eexists _, _. split; [reflexivity|]. cbn. auto.
Qed.

(** A call with the promise [opens]. *)
Lemma sys_opens (c : W → answer * W) f y :
  opens f (tab y) (c (world y)).1 (files (c (world y)).2) →
  ∃ r y', sys c y = Ret (r, y') ∧ idle_fd y' = idle_fd y ∧
    ((0 ≤ r ∧ tab y !! r = None ∧ tab y' = <[r := f]> (tab y) ∧ errno y' = errno y)
     ∨ (r = -1 ∧ tab y' = tab y)).
Proof.
  unfold sys. destruct (c (world y)) as [[x|e] w]; cbn.
  - intros (? & ? & ?). eexists _, _. split; [reflexivity|]. cbn. eauto 10.
  - intros Ht. eexists _, _. split; [reflexivity|]. cbn. auto.
Qed.

Lemma setsockopt_spec fd level name x y :
  is_Some (tab y !! fd) →
  ∃ r y', setsockopt fd level name x y = Ret (r, y') ∧ idle_fd y' = idle_fd y ∧
    ((r = 0 ∧ tab y' = alter (set_opt level name x) fd (tab y)) ∨ (r = -1 ∧ tab y' = tab y)).
Proof. intros Hs. apply sys_changes, setsockopt_ok, Hs. Qed.

Lemma set_nonblock_spec fd f y :
  tab y !! fd = Some f →
  ∃ r y', set_nonblock fd y = Ret (r, y') ∧ idle_fd y' = idle_fd y ∧
    ((r = 0 ∧ tab y' = alter (set_flags (Z.lor (f_flags f) O_NONBLOCK)) fd (tab y))
     ∨ (r = -1 ∧ tab y' = tab y)).
Proof.
  intros Hf. unfold set_nonblock.
  erewrite bind_ret; [|unfold sys; rewrite (getfl_ok _ _ _ Hf); reflexivity].
  apply (sys_changes _ fd _ (set_world (world y) y)), setfl_ok. eauto.
Qed.

(** The socket [tcp_bind] makes: non-blocking, with its options, bound. *)
Definition bound_file (port : Z) : file :=
  set_port port (set_opt IPPROTO_TCP TCP_DEFER_ACCEPT 60
    (set_opt SOL_SOCKET SO_REUSEADDR 1 (set_flags O_NONBLOCK (new_file 0)))).

(** What [tcp_bind] may end in: the bound socket, nothing, or a socket that is
    left open without a port. *)
Definition bind_post (port : Z) y (o : outcome (Z * tcp)) : Prop :=
  ∃ r y', o = Ret (r, y') ∧ idle_fd y' = idle_fd y ∧
    ((0 ≤ r ∧ tab y !! r = None ∧ tab y' = <[r := bound_file port]> (tab y))
     ∨ (r = -1 ∧ (tab y' = tab y ∨
        ∃ fd f, tab y !! fd = None ∧ tab y' = <[fd := f]> (tab y) ∧ f_port f = None))).

(** One of the calls between [socket] and [bind]: when it is refused,
    [tcp_bind] returns -1 at once. *)
Lemma bind_step port fd f (g : file → file) (c : M tcp Z) (k : Z → M tcp Z) y y1 :
  tab y !! fd = None → tab y1 = <[fd := f]> (tab y) → idle_fd y1 = idle_fd y → f_port f = None →
  (∃ r y2, c y1 = Ret (r, y2) ∧ idle_fd y2 = idle_fd y1 ∧
     ((r = 0 ∧ tab y2 = alter g fd (tab y1)) ∨ (r = -1 ∧ tab y2 = tab y1))) →
  (∀ y2, k (-1) y2 = Ret (-1, y2)) →
  (∀ y2, idle_fd y2 = idle_fd y → tab y2 = <[fd := g f]> (tab y) → bind_post port y (k 0 y2)) →
  bind_post port y ((c ≫= k) y1).
Proof.
  intros Hn Ht Hi Hp (r & y2 & Hc & Hi2 & H) Hk Hgo. rewrite (bind_ret _ _ _ _ _ Hc).
  destruct H as [[-> H]|[-> H]].
  - apply Hgo; [congruence|]. by rewrite H, Ht, alter_insert_eq.
  - rewrite Hk. eexists _, _. split; [reflexivity|]. split; [congruence|]. right. split; [done|].
    right. exists fd, f. rewrite H, Ht. auto.
Qed.

Lemma tcp_bind_spec port y : bind_post port y (tcp_bind port y).
Proof.
  unfold tcp_bind.
  destruct (sys_opens sys_socket _ y (socket_ok (world y))) as (fd & y1 & Hc & Hi & [(Hfd & Hn & Ht & _)|[-> Ht]]);
    rewrite (bind_ret _ _ _ _ _ Hc); [|eexists _, _; split; [reflexivity|]; cbn; auto].
  rewrite (proj2 (Z.ltb_ge fd 0)) by done.
  eapply (bind_step _ _ _ _ _ _ _ _ Hn Ht Hi); [done| |done|].
  { apply set_nonblock_spec. by rewrite Ht, lookup_insert_eq. }
  intros y2 Hi2 Ht2. cbn [Z.eqb negb].
  eapply (bind_step _ _ _ _ _ _ _ _ Hn Ht2 Hi2); [done| |done|].
  { apply setsockopt_spec. rewrite Ht2, lookup_insert_eq. eauto. }
  intros y3 Hi3 Ht3. cbn [Z.ltb Z.compare].
  eapply (bind_step _ _ _ _ _ _ _ _ Hn Ht3 Hi3); [done| |done|].
  { apply setsockopt_spec. rewrite Ht3, lookup_insert_eq. eauto. }
  intros y4 Hi4 Ht4. cbn [Z.ltb Z.compare].
  destruct (sys_changes (sys_bind fd port) fd (set_port port) y4) as (r5 & y5 & Hc5 & Hi5 & H5);
    [apply bind_ok; rewrite Ht4, lookup_insert_eq; eauto|].
  rewrite (bind_ret _ _ _ _ _ Hc5), Ht4 in *.
  destruct H5 as [[-> Ht5]|[-> Ht5]]; eexists _, _; (split; [reflexivity|]); cbn; (split; [congruence|]).
  - left. rewrite Ht5, alter_insert_eq. auto.
  - right. split; [done|]. left. by rewrite close_ok, Ht5, delete_insert_id.
Qed.

(** The spare descriptor is open, and is not the listening socket. *)
Definition idle_ok (s : Z) y : Prop := idle_fd y < 0 ∨ (idle_fd y ≠ s ∧ is_Some (tab y !! idle_fd y)).

Lemma accept_spec s flags y f :
  tab y !! s = Some f →
  ∃ r c y', accept s flags y = Ret ((r, c), y') ∧ idle_fd y' = idle_fd y ∧
    ((0 ≤ r ∧ r ≠ s ∧ tab y !! r = None ∧ ∃ cs, f_backlog f = c :: cs ∧
        tab y' = <[r := new_file flags]> (<[s := set_backlog cs f]> (tab y)))
     ∨ (r = -1 ∧ tab y' = tab y ∧ (errno y' = EAGAIN → f_backlog f = []) ∧
        (errno y' = EINTR → (signals (world y') < signals (world y))%nat))).
Proof.
  intros Hf. unfold accept. pose proof (accept_ok s flags (world y) f Hf) as Ha.
  destruct (sys_accept s flags (world y)) as [[[fd|e] c] w]; eexists _, _, _; (split; [reflexivity|]); cbn.
  - destruct Ha as (Hfd & Hn & cs & Hb & Ht). split; [done|]. left. split; [done|].
    split; [congruence|]. split; [done|]. eauto.
  - destruct Ha as (Ht & He & Hs). auto 10.
Qed.

Lemma drain_stop fuel s y : idle_fd y < 0 → drain fuel s y = Ret (tt, y).
Proof.
  intros Hi. destruct fuel as [|fuel]; cbn [drain]; rewrite (bind_ret _ _ y y y eq_refl);
    by rewrite (proj2 (Z.leb_gt 0 (idle_fd y))).
Qed.

Lemma set_backlog_id f : set_backlog (f_backlog f) f = f.
Proof. by destruct f. Qed.

Lemma drain_spec fuel s f y :
  tab y !! s = Some f → 0 ≤ idle_fd y → idle_fd y ≠ s → (length (f_backlog f) < fuel)%nat →
  ∃ y' k, drain fuel s y = Ret (tt, y') ∧ idle_fd y' = -1 ∧
    tab y' = <[s := set_backlog (drop k (f_backlog f)) f]> (delete (idle_fd y) (tab y)) ∧
    (errno y' = EAGAIN → drop k (f_backlog f) = []).
Proof.
  revert f y. induction fuel as [|fuel IH]; intros f y Hs Hi Hne Hl; [lia|].
  cbn [drain]. rewrite (bind_ret _ _ y y y eq_refl), (proj2 (Z.leb_le 0 (idle_fd y))) by done.
  set (y1 := set_world (sys_close (idle_fd y) (world y)) y).
  rewrite (bind_ret (close (idle_fd y)) _ y tt y1 eq_refl).
  assert (tab y1 = delete (idle_fd y) (tab y)) as Ht1 by apply close_ok.
  destruct (accept_spec s 0 y1 f) as (r & c & y2 & Ha & Hi2 & H2); [by rewrite Ht1, lookup_delete_ne|].
  rewrite (bind_ret _ _ _ _ _ Ha). cbn [fst].
  rewrite (bind_ret (set_idle r) _ y2 tt (Tcp r (errno y2) (world y2)) eq_refl).
  destruct H2 as [(Hr & Hrs & Hn & cs & Hb & Ht2)|(-> & Ht2 & He & _)].
  - rewrite Hb in *. cbn [length] in Hl.
    destruct (IH (set_backlog cs f) (Tcp r (errno y2) (world y2))) as (y' & k & Hd & Hi' & Ht' & He');
      cbn; [|done..|lia|].
    { by rewrite Ht2, lookup_insert_ne, lookup_insert_eq. }
    exists y', (S k). split; [exact Hd|]. split; [done|]. cbn in *. split; [|done].
    rewrite Ht', Ht2, Ht1, delete_insert_id; [by rewrite insert_insert_eq|].
    rewrite lookup_insert_ne by done. by rewrite <- Ht1.
  - rewrite drain_stop by (cbn; lia). eexists _, 0%nat. split; [reflexivity|]. cbn. split; [done|].
    split; [|done]. rewrite drop_0, set_backlog_id, insert_id; [by rewrite Ht2|].
    by rewrite lookup_delete_ne.
Qed.

(** Files that are neither the listening socket nor the spare descriptor. *)
Definition others_kept (s : Z) y y' : Prop :=
  ∀ fd, fd ≠ s → fd ≠ idle_fd y → fd ≠ idle_fd y' → tab y' !! fd = tab y !! fd.

(** The listening socket has lost some clients from the front of its backlog. *)
Definition drained (s : Z) f y y' : Prop :=
  idle_ok s y' ∧ others_kept s y y' ∧
  ∃ k, tab y' !! s = Some (set_backlog (drop k (f_backlog f)) f) ∧
       (0 ≤ idle_fd y' → errno y' = EAGAIN → drop k (f_backlog f) = []).

Lemma clear_backlog_spec s f y :
  tab y !! s = Some f → idle_ok s y → errno y ≠ EAGAIN →
  ∃ y', clear_backlog s y = Ret (tt, y') ∧ drained s f y y'.
Proof.
  intros Hs Hi He. unfold clear_backlog. rewrite (bind_ret _ _ y y y eq_refl), Hs.
  assert (∃ y1 k, drain (S (length (f_backlog f))) s y = Ret (tt, y1) ∧ idle_fd y1 < 0 ∧
    tab y1 !! s = Some (set_backlog (drop k (f_backlog f)) f) ∧
    (∀ fd, fd ≠ s → fd ≠ idle_fd y → tab y1 !! fd = tab y !! fd) ∧
    (errno y1 = EAGAIN → drop k (f_backlog f) = [])) as (y1 & k & Hd & Hi1 & Ht1 & Ho1 & He1).
  { destruct (decide (0 ≤ idle_fd y)) as [Hp|Hp].
    - destruct Hi as [?|[Hne _]]; [lia|].
      destruct (drain_spec (S (length (f_backlog f))) s f y) as (y1 & k & Hd & Hi1 & Ht1 & He1); [done..|lia|].
      exists y1, k. split; [done|]. split; [lia|]. split; [by rewrite Ht1, lookup_insert_eq|]. split; [|done].
      intros fd Hfs Hfi. by rewrite Ht1, lookup_insert_ne, lookup_delete_ne by done.
    - exists y, 0%nat. rewrite drain_stop by lia. split; [done|]. split; [lia|].
      rewrite drop_0, set_backlog_id. done. }
  rewrite (bind_ret _ _ _ _ _ Hd).
  destruct (sys_opens sys_open_null _ y1 (open_null_ok (world y1))) as (r & y2 & Hc & Hi2 & H2).
  rewrite (bind_ret _ _ _ _ _ Hc). eexists. split; [reflexivity|].
  unfold drained, idle_ok, others_kept; cbn.
  destruct H2 as [(Hr & Hn & Ht2 & E2)|[-> Ht2]]; rewrite Ht2.
  - assert (r ≠ s) by congruence. split; [right; split; [done|]; rewrite lookup_insert_eq; eauto|].
    split; [intros fd ???; rewrite lookup_insert_ne by done; auto|].
    exists k. rewrite lookup_insert_ne by done. rewrite E2. auto.
  - split; [by left|]. split; [auto|]. exists k. split; [done|]. lia.
Qed.

(** The result of [tcp_accept]: the client that waited longest, or a refusal. *)
Definition accept_post s f y (o : outcome ((Z * Z) * tcp)) : Prop :=
  ∃ r c y', o = Ret ((r, c), y') ∧
    ((0 ≤ r ∧ tab y !! r = None ∧ idle_fd y' = idle_fd y ∧ ∃ cs, f_backlog f = c :: cs ∧
        tab y' = <[r := new_file O_NONBLOCK]> (<[s := set_backlog cs f]> (tab y)))
     ∨ (r = -1 ∧ drained s f y y')).

Lemma drained_same s f y y1 y' :
  tab y1 = tab y → idle_fd y1 = idle_fd y → drained s f y1 y' → drained s f y y'.
Proof. unfold drained, others_kept. intros -> ->. done. Qed.

Lemma accept_post_same s f y y1 o :
  tab y1 = tab y → idle_fd y1 = idle_fd y → accept_post s f y1 o → accept_post s f y o.
Proof.
  intros Ht Hi (r & c & y' & Ho & H). exists r, c, y'. split; [done|].
  destruct H as [H|[H Hd]]; [left; by rewrite <- Ht, <- Hi|right; split; [done|]; by eapply drained_same].
Qed.

(** The end of [tcp_accept] after a refusal that was no interruption. *)
Lemma refused_spec s f y c :
  tab y !! s = Some f → idle_ok s y → (errno y = EAGAIN → f_backlog f = []) →
  accept_post s f y (((if (errno y =? EMFILE) || (errno y =? ENFILE) then clear_backlog s else mret tt);;
                      mret (-1, c)) y).
Proof.
  intros Hs Hi He. destruct ((errno y =? EMFILE) || (errno y =? ENFILE)) eqn:Hm.
  - destruct (clear_backlog_spec s f y Hs Hi) as (y' & Hc & Hd).
    { intros E. rewrite E in Hm. done. }
    rewrite (bind_ret _ _ _ _ _ Hc). exists (-1), c, y'. split; [done|]. auto.
  - exists (-1), c, y. split; [done|]. right. split; [done|]. split; [done|]. split; [done|].
    exists 0%nat. rewrite drop_0, set_backlog_id. auto.
Qed.

Lemma accept_again_spec fuel s f y :
  tab y !! s = Some f → idle_ok s y → (signals (world y) ≤ fuel)%nat →
  accept_post s f y (accept_again fuel s y).
Proof.
  revert y. induction fuel as [|fuel IH]; intros y Hs Hi Hf; cbn [accept_again];
    destruct (accept_spec s O_NONBLOCK y f Hs) as (r & c & y1 & Ha & Hi1 & H1);
    rewrite (bind_ret _ _ _ _ _ Ha), (bind_ret get _ y1 y1 y1 eq_refl); cbn [fst];
    (destruct H1 as [(Hr & Hrs & Hn & H1)|(-> & Ht & He & Hsig)];
     [rewrite (proj2 (Z.ltb_ge r 0)) by done; exists r, c, y1; split; [done|]; left; eauto 10|]);
    cbn [Z.ltb Z.compare];
    assert (tab y1 !! s = Some f) as Hs1 by (by rewrite Ht);
    assert (idle_ok s y1) as Hi1' by (unfold idle_ok; by rewrite Ht, Hi1);
    (destruct (errno y1 =? EINTR) eqn:Hint; [apply Z.eqb_eq in Hint; specialize (Hsig Hint)|clear Hsig]).
  - lia.
  - by eapply accept_post_same, refused_spec.
  - eapply accept_post_same, IH; [done..|lia].
  - by eapply accept_post_same, refused_spec.
Qed.

Lemma set_buf_spec which fd value f y :
  value ≠ 0 → tab y !! fd = Some f →
  ∃ r y', set_buf which fd value y = Ret (r, y') ∧ idle_fd y' = idle_fd y ∧
    ((r = 0 ∧ tab y' = alter (set_opt SOL_SOCKET which value) fd (tab y)) ∨ (r = -1 ∧ tab y' = tab y)).
Proof.
  intros Hv Hf. unfold set_buf. rewrite (proj2 (Z.eqb_neq value 0) Hv).
  rewrite (bind_ret (mret (Some value)) _ y _ _ eq_refl).
  destruct (setsockopt_spec fd SOL_SOCKET which value y) as (r & y' & Hc & Hi & H); [eauto|].
  rewrite (bind_ret _ _ _ _ _ Hc). destruct H as [[-> H]|[-> H]]; eexists _, _; (split; [reflexivity|]); (split; [done|]).
  - by left.
  - by right.
Qed.

(** Nothing but socket options of one file has changed. *)
Definition retuned (fd : Z) (o : gmap (Z * Z) Z) f y y' : Prop :=
  tab y' = <[fd := File (f_flags f) o (f_port f) (f_limit f) (f_backlog f)]> (tab y).

(** A call that sets an option and whose answer is not looked at. *)
Lemma tune_spec (c : M tcp Z) (skip : bool) fd level name x o f y0 y :
  retuned fd o f y0 y →
  (skip = true → tab y !! fd = Some (File (f_flags f) o (f_port f) (f_limit f) (f_backlog f)) →
   ∃ r y', c y = Ret (r, y') ∧ idle_fd y' = idle_fd y ∧
     ((r = 0 ∧ tab y' = alter (set_opt level name x) fd (tab y)) ∨ (r = -1 ∧ tab y' = tab y))) →
  ∃ r y' o', (if skip then c else mret 0) y = Ret (r, y') ∧ retuned fd o' f y0 y' ∧
    (o' = o ∨ (skip = true ∧ o' = <[(level, name) := x]> o)).
Proof.
  unfold retuned. intros Ht Hc. destruct skip; [|eexists _, _, _; split; [reflexivity|]; eauto].
  destruct Hc as (r & y' & Hc & _ & H); [done|by rewrite Ht, lookup_insert_eq|].
  rewrite Hc. destruct H as [[_ H]|[_ H]]; eexists _, _, _; (split; [reflexivity|]).
  - rewrite H, Ht, alter_insert_eq. split; [reflexivity|]. auto.
  - rewrite H, Ht. split; [reflexivity|]. auto.
Qed.
End specs.

(** ** A kernel *)

(** Descriptors below [tk_max]; the lowest free one is given out.  The first
    [tk_signals] calls of [accept] are interrupted. *)
Record table_kernel := TableKernel { tk_files : table; tk_max : Z; tk_signals : nat }.

Definition tk_set (t : table) (w : table_kernel) : table_kernel := TableKernel t (tk_max w) (tk_signals w).
Definition tk_alter (fd : Z) (g : file → file) (w : table_kernel) : answer * table_kernel :=
  (Done 0, tk_set (alter g fd (tk_files w)) w).
Definition tk_free (w : table_kernel) : option Z :=
  snd <$> list_find (λ fd, tk_files w !! fd = None) (seqZ 0 (tk_max w)).
Definition tk_open (w : table_kernel) : answer * table_kernel :=
  match tk_free w with
  | Some fd => (Done fd, tk_set (<[fd := new_file 0]> (tk_files w)) w)
  | None => (Refused EMFILE, w)
  end.
Definition tk_accept (s flags : Z) (w : table_kernel) : answer * Z * table_kernel :=
  match tk_signals w, tk_files w !! s with
  | S n, _ => (Refused EINTR, 0, TableKernel (tk_files w) (tk_max w) n)
  | O, None => (Refused 9, 0, w)
  | O, Some f =>
      match f_backlog f, tk_free w with
      | [], _ => (Refused EAGAIN, 0, w)
      | c :: cs, None => (Refused EMFILE, 0, w)
      | c :: cs, Some fd =>
          (Done fd, c, tk_set (<[fd := new_file flags]> (<[s := set_backlog cs f]> (tk_files w))) w)
      end
  end.

Lemma tk_free_spec w fd : tk_free w = Some fd → 0 ≤ fd ∧ tk_files w !! fd = None.
Proof.
  unfold tk_free. intros H. apply fmap_Some in H as ([i x] & H & ->).
  apply list_find_Some in H as (Hl & Hn & _). cbn. apply lookup_seqZ in Hl. split; [lia|done].
Qed.

#[global, program] Instance TableKernel_Kernel : Kernel table_kernel := {
  files := tk_files;
  signals := tk_signals;
  sys_socket := tk_open;
  sys_getfl fd w :=
    (match tk_files w !! fd with Some f => Done (f_flags f) | None => Refused 9 end, w);
  sys_setfl fd x := tk_alter fd (set_flags x);
  sys_setsockopt fd level name x := tk_alter fd (set_opt level name x);
  sys_bind fd x := tk_alter fd (set_port x);
  sys_listen fd x := tk_alter fd (set_limit x);
  sys_close fd w := tk_set (delete fd (tk_files w)) w;
  sys_open_null := tk_open;
  sys_accept := tk_accept;
  proc_tcp_mem _ _ := Some (4096, 87380, 6291456)
}.
Next Obligation.
  intros w. unfold tk_open. destruct (tk_free w) eqn:E; [|done].
  apply tk_free_spec in E as [??]. done.
Qed.
Next Obligation. intros fd w f Hf. cbn. by rewrite Hf. Qed.
Next Obligation. done. Qed.
Next Obligation. done. Qed.
Next Obligation. done. Qed.
Next Obligation. done. Qed.
Next Obligation. done. Qed.
Next Obligation.
  intros w. unfold tk_open. destruct (tk_free w) eqn:E; [|done].
  apply tk_free_spec in E as [??]. done.
Qed.
Next Obligation.
  intros s flags w f Hf. unfold tk_accept. rewrite Hf.
  destruct (tk_signals w); [|cbn; split; [done|]; split; [done|]; cbn; lia].
  destruct (f_backlog f) as [|c cs] eqn:Hb; [done|].
  destruct (tk_free w) eqn:E; [|done].
  apply tk_free_spec in E as [??]. split; [done|]. split; [done|]. eauto.
Qed.

(** ** Correctness *)

(** [tcp_bind] on any kernel.  It answers a descriptor that was free, now a
    non-blocking socket bound to the port with its options set, and changes
    nothing else; or it answers -1 and leaves the table as it was, or, when the
    socket could not be made non-blocking or an option was refused, with the
    unbound socket left open. *)
Theorem tcp_bind_correct `{K : Kernel W} (y : tcp) (port : Z) :
  ∃ r y', tcp_bind port y = Ret (r, y') ∧ idle_fd y' = idle_fd y ∧
    ((0 ≤ r ∧ files (world y) !! r = None ∧ files (world y') = <[r := bound_file port]> (files (world y)))
     ∨ (r = -1 ∧ (files (world y') = files (world y) ∨
        ∃ fd f, files (world y) !! fd = None ∧ files (world y') = <[fd := f]> (files (world y)) ∧
                f_port f = None))).
Proof. apply tcp_bind_spec. Qed.

(** Setting the options of a listening socket changes only its options, and of
    these only the buffers and the deferral that the server asks for; a refused
    one is left as it was. *)
Theorem server_listen_set_correct `{K : Kernel W} (y : tcp) (fd sndbuf rcvbuf timeout : Z) (f : file) :
  files (world y) !! fd = Some f →
  ∃ y' o, server_listen_set fd sndbuf rcvbuf timeout y = Ret (tt, y') ∧
    files (world y') = <[fd := File (f_flags f) o (f_port f) (f_limit f) (f_backlog f)]> (files (world y)) ∧
    (∀ k, o !! k = f_opts f !! k
      ∨ (sndbuf ≠ 0 ∧ k = (SOL_SOCKET, SO_SNDBUF) ∧ o !! k = Some sndbuf)
      ∨ (rcvbuf ≠ 0 ∧ k = (SOL_SOCKET, SO_RCVBUF) ∧ o !! k = Some rcvbuf)
      ∨ (timeout ≠ 60 ∧ k = (IPPROTO_TCP, TCP_DEFER_ACCEPT) ∧ o !! k = Some timeout)).
Proof.
  intros Hf. unfold server_listen_set.
  assert (retuned fd (f_opts f) f y y) as H0.
  { unfold retuned. rewrite insert_id; [done|]. rewrite Hf. by destruct f. }
  destruct (tune_spec (set_sndbuf fd sndbuf) (negb (sndbuf =? 0)) fd SOL_SOCKET SO_SNDBUF sndbuf _ _ _ _ H0)
    as (r1 & y1 & o1 & E1 & H1 & D1).
  { intros Hv%negb_true_iff%Z.eqb_neq Hl. by eapply set_buf_spec. }
  destruct (tune_spec (set_rcvbuf fd rcvbuf) (negb (rcvbuf =? 0)) fd SOL_SOCKET SO_RCVBUF rcvbuf _ _ _ _ H1)
    as (r2 & y2 & o2 & E2 & H2 & D2).
  { intros Hv%negb_true_iff%Z.eqb_neq Hl. by eapply set_buf_spec. }
  destruct (tune_spec (set_defer_accept fd timeout) (negb (timeout =? 60)) fd IPPROTO_TCP TCP_DEFER_ACCEPT timeout _ _ _ _ H2)
    as (r3 & y3 & o3 & E3 & H3 & D3).
  { intros _ Hl. apply setsockopt_spec. rewrite Hl. eauto. }
  rewrite (bind_ret _ _ _ _ _ E1), (bind_ret _ _ _ _ _ E2), (bind_ret _ _ _ _ _ E3).
  exists y3, o3. split; [done|]. split; [exact H3|]. intros k.
  rewrite !negb_true_iff, !Z.eqb_neq in *.
  destruct D3 as [-> |[? ->]]; [|destruct (decide (k = (IPPROTO_TCP, TCP_DEFER_ACCEPT))) as [-> |?];
    [rewrite lookup_insert_eq; auto 10|rewrite lookup_insert_ne by done]].
  all: destruct D2 as [-> |[? ->]]; [|destruct (decide (k = (SOL_SOCKET, SO_RCVBUF))) as [-> |?];
    [rewrite lookup_insert_eq; auto 10|rewrite lookup_insert_ne by done]].
  all: destruct D1 as [-> |[? ->]]; [|destruct (decide (k = (SOL_SOCKET, SO_SNDBUF))) as [-> |?];
    [rewrite lookup_insert_eq; auto 10|rewrite lookup_insert_ne by done]].
  all: auto.
Qed.


(** Descriptors 0 to 5 are all in use, 3 being the listening socket with two
    clients and 5 the spare descriptor: the interrupted call drops both clients
    and leaves the table full, with a spare descriptor again. *)
Definition full_kernel : table_kernel :=
  TableKernel (list_to_map ((λ i, (i, new_file 0)) <$> [0; 1; 2; 4; 5]) ∪ {[3 := set_backlog [71; 72] (bound_file 80)]}) 6 1.

