(* ===== verification/Device.v ===== *)
(** * device.c: devices and free blocks

    A device is a file cut into extents.  Its order list holds, by offset, the
    items stored on it and the free blocks between them; the free blocks of all
    devices hang in one ipbucket.  Nodes of an order list are told apart by the
    bit [fblock] that follows the list node: here a constructor of [onode].
    Free blocks, items and devices are known by their addresses; the slab of
    the free blocks is any [Allocator].  The functions of device.c that delete
    items through server.c are in Server.v. *)

From stdpp Require Import prelude fin_maps gmap.
From S2P Require Import Prelude IdxPointer StrUtil IpBucket Slab.

Definition LOOP_LIMIT : nat := 1000.
Definition DEVICES_LIMIT : Z := IPT_ARRAY_SIZE.
Definition SENDFILE_LIMIT : Z := 0x4020010000.

(** A node of an order list: a free block or an item. *)
Inductive onode := OFb (fblock : Z) | OItem (item : Z).
#[global] Instance onode_eq_dec : EqDecision onode.
Proof. solve_decision. Defined.

Record ohc_free_block_t := FreeBlock {
  fb_device_index : Z;
  fb_offset : Z;
  fb_block_size : Z
}.

Record ohc_item_t := Item {
  it_length : Z;
  it_expire : Z;
  it_offset : Z;
  it_putting : bool;
  it_deleted : bool;
  it_badblock : bool;
  it_server_index : Z;
  it_device_index : Z;
  it_headers_len : Z;
  it_used : Z;
  it_clear : Z
}.

Record ohc_device_t := Device {
  d_deleted : bool;
  d_kicked : bool;
  d_fd : Z;
  d_index : Z;
  d_used : Z;
  d_filename : list Z;
  d_dev : Z;
  d_inode : Z;
  d_item_nr : Z;
  d_fblock_nr : Z;
  d_capacity : Z;
  d_consumed : Z;
  d_badblock : Z;
  order_head : list onode;
  d_conf : option Z
}.

#[global] Instance free_block_eq_dec : EqDecision ohc_free_block_t.
Proof. solve_decision. Defined.
#[global] Instance item_eq_dec : EqDecision ohc_item_t.
Proof. solve_decision. Defined.

(** *** Assignments to fields *)
Definition set_fb_offset (v : Z) (r : ohc_free_block_t) : ohc_free_block_t :=
  FreeBlock (fb_device_index r) v (fb_block_size r).
Definition set_fb_block_size (v : Z) (r : ohc_free_block_t) : ohc_free_block_t :=
  FreeBlock (fb_device_index r) (fb_offset r) v.
Definition set_it_length (v : Z) (r : ohc_item_t) : ohc_item_t :=
  Item v (it_expire r) (it_offset r) (it_putting r) (it_deleted r) (it_badblock r) (it_server_index r) (it_device_index r) (it_headers_len r) (it_used r) (it_clear r).
Definition set_it_expire (v : Z) (r : ohc_item_t) : ohc_item_t :=
  Item (it_length r) v (it_offset r) (it_putting r) (it_deleted r) (it_badblock r) (it_server_index r) (it_device_index r) (it_headers_len r) (it_used r) (it_clear r).
Definition set_it_offset (v : Z) (r : ohc_item_t) : ohc_item_t :=
  Item (it_length r) (it_expire r) v (it_putting r) (it_deleted r) (it_badblock r) (it_server_index r) (it_device_index r) (it_headers_len r) (it_used r) (it_clear r).
Definition set_it_putting (v : bool) (r : ohc_item_t) : ohc_item_t :=
  Item (it_length r) (it_expire r) (it_offset r) v (it_deleted r) (it_badblock r) (it_server_index r) (it_device_index r) (it_headers_len r) (it_used r) (it_clear r).
Definition set_it_deleted (v : bool) (r : ohc_item_t) : ohc_item_t :=
  Item (it_length r) (it_expire r) (it_offset r) (it_putting r) v (it_badblock r) (it_server_index r) (it_device_index r) (it_headers_len r) (it_used r) (it_clear r).
Definition set_it_badblock (v : bool) (r : ohc_item_t) : ohc_item_t :=
  Item (it_length r) (it_expire r) (it_offset r) (it_putting r) (it_deleted r) v (it_server_index r) (it_device_index r) (it_headers_len r) (it_used r) (it_clear r).
Definition set_it_server_index (v : Z) (r : ohc_item_t) : ohc_item_t :=
  Item (it_length r) (it_expire r) (it_offset r) (it_putting r) (it_deleted r) (it_badblock r) v (it_device_index r) (it_headers_len r) (it_used r) (it_clear r).
Definition set_it_device_index (v : Z) (r : ohc_item_t) : ohc_item_t :=
  Item (it_length r) (it_expire r) (it_offset r) (it_putting r) (it_deleted r) (it_badblock r) (it_server_index r) v (it_headers_len r) (it_used r) (it_clear r).
Definition set_it_headers_len (v : Z) (r : ohc_item_t) : ohc_item_t :=
  Item (it_length r) (it_expire r) (it_offset r) (it_putting r) (it_deleted r) (it_badblock r) (it_server_index r) (it_device_index r) v (it_used r) (it_clear r).
Definition set_it_used (v : Z) (r : ohc_item_t) : ohc_item_t :=
  Item (it_length r) (it_expire r) (it_offset r) (it_putting r) (it_deleted r) (it_badblock r) (it_server_index r) (it_device_index r) (it_headers_len r) v (it_clear r).
Definition set_it_clear (v : Z) (r : ohc_item_t) : ohc_item_t :=
  Item (it_length r) (it_expire r) (it_offset r) (it_putting r) (it_deleted r) (it_badblock r) (it_server_index r) (it_device_index r) (it_headers_len r) (it_used r) v.
Definition set_d_deleted (v : bool) (r : ohc_device_t) : ohc_device_t :=
  Device v (d_kicked r) (d_fd r) (d_index r) (d_used r) (d_filename r) (d_dev r) (d_inode r) (d_item_nr r) (d_fblock_nr r) (d_capacity r) (d_consumed r) (d_badblock r) (order_head r) (d_conf r).
Definition set_d_kicked (v : bool) (r : ohc_device_t) : ohc_device_t :=
  Device (d_deleted r) v (d_fd r) (d_index r) (d_used r) (d_filename r) (d_dev r) (d_inode r) (d_item_nr r) (d_fblock_nr r) (d_capacity r) (d_consumed r) (d_badblock r) (order_head r) (d_conf r).
Definition set_d_fd (v : Z) (r : ohc_device_t) : ohc_device_t :=
  Device (d_deleted r) (d_kicked r) v (d_index r) (d_used r) (d_filename r) (d_dev r) (d_inode r) (d_item_nr r) (d_fblock_nr r) (d_capacity r) (d_consumed r) (d_badblock r) (order_head r) (d_conf r).
Definition set_d_index (v : Z) (r : ohc_device_t) : ohc_device_t :=
  Device (d_deleted r) (d_kicked r) (d_fd r) v (d_used r) (d_filename r) (d_dev r) (d_inode r) (d_item_nr r) (d_fblock_nr r) (d_capacity r) (d_consumed r) (d_badblock r) (order_head r) (d_conf r).
Definition set_d_used (v : Z) (r : ohc_device_t) : ohc_device_t :=
  Device (d_deleted r) (d_kicked r) (d_fd r) (d_index r) v (d_filename r) (d_dev r) (d_inode r) (d_item_nr r) (d_fblock_nr r) (d_capacity r) (d_consumed r) (d_badblock r) (order_head r) (d_conf r).
Definition set_d_filename (v : list Z) (r : ohc_device_t) : ohc_device_t :=
  Device (d_deleted r) (d_kicked r) (d_fd r) (d_index r) (d_used r) v (d_dev r) (d_inode r) (d_item_nr r) (d_fblock_nr r) (d_capacity r) (d_consumed r) (d_badblock r) (order_head r) (d_conf r).
Definition set_d_dev (v : Z) (r : ohc_device_t) : ohc_device_t :=
  Device (d_deleted r) (d_kicked r) (d_fd r) (d_index r) (d_used r) (d_filename r) v (d_inode r) (d_item_nr r) (d_fblock_nr r) (d_capacity r) (d_consumed r) (d_badblock r) (order_head r) (d_conf r).
Definition set_d_inode (v : Z) (r : ohc_device_t) : ohc_device_t :=
  Device (d_deleted r) (d_kicked r) (d_fd r) (d_index r) (d_used r) (d_filename r) (d_dev r) v (d_item_nr r) (d_fblock_nr r) (d_capacity r) (d_consumed r) (d_badblock r) (order_head r) (d_conf r).
Definition set_d_item_nr (v : Z) (r : ohc_device_t) : ohc_device_t :=
  Device (d_deleted r) (d_kicked r) (d_fd r) (d_index r) (d_used r) (d_filename r) (d_dev r) (d_inode r) v (d_fblock_nr r) (d_capacity r) (d_consumed r) (d_badblock r) (order_head r) (d_conf r).
Definition set_d_fblock_nr (v : Z) (r : ohc_device_t) : ohc_device_t :=
  Device (d_deleted r) (d_kicked r) (d_fd r) (d_index r) (d_used r) (d_filename r) (d_dev r) (d_inode r) (d_item_nr r) v (d_capacity r) (d_consumed r) (d_badblock r) (order_head r) (d_conf r).
Definition set_d_capacity (v : Z) (r : ohc_device_t) : ohc_device_t :=
  Device (d_deleted r) (d_kicked r) (d_fd r) (d_index r) (d_used r) (d_filename r) (d_dev r) (d_inode r) (d_item_nr r) (d_fblock_nr r) v (d_consumed r) (d_badblock r) (order_head r) (d_conf r).
Definition set_d_consumed (v : Z) (r : ohc_device_t) : ohc_device_t :=
  Device (d_deleted r) (d_kicked r) (d_fd r) (d_index r) (d_used r) (d_filename r) (d_dev r) (d_inode r) (d_item_nr r) (d_fblock_nr r) (d_capacity r) v (d_badblock r) (order_head r) (d_conf r).
Definition set_d_badblock (v : Z) (r : ohc_device_t) : ohc_device_t :=
  Device (d_deleted r) (d_kicked r) (d_fd r) (d_index r) (d_used r) (d_filename r) (d_dev r) (d_inode r) (d_item_nr r) (d_fblock_nr r) (d_capacity r) (d_consumed r) v (order_head r) (d_conf r).
Definition set_order_head (v : list onode) (r : ohc_device_t) : ohc_device_t :=
  Device (d_deleted r) (d_kicked r) (d_fd r) (d_index r) (d_used r) (d_filename r) (d_dev r) (d_inode r) (d_item_nr r) (d_fblock_nr r) (d_capacity r) (d_consumed r) (d_badblock r) v (d_conf r).
Definition set_d_conf (v : option Z) (r : ohc_device_t) : ohc_device_t :=
  Device (d_deleted r) (d_kicked r) (d_fd r) (d_index r) (d_used r) (d_filename r) (d_dev r) (d_inode r) (d_item_nr r) (d_fblock_nr r) (d_capacity r) (d_consumed r) (d_badblock r) (order_head r) v.

(** *** Order lists *)

(** [list_add_tail(n, base)] inserts before [base]; the head is [None]. *)
Fixpoint insert_before (base : option onode) (n : onode) (l : list onode) : list onode :=
  match l with
  | [] => match base with None => [n] | Some _ => [] end
  | y :: l =>
      if decide (base = Some y) then n :: y :: l else y :: insert_before base n l
  end.
(** [list_add(n, base)] inserts after a node [base]. *)
Fixpoint insert_after (base n : onode) (l : list onode) : list onode :=
  match l with
  | [] => []
  | y :: l => if decide (base = y) then y :: n :: l else y :: insert_after base n l
  end.
(** [x->prev] and [x->next], [None] for the list head. *)
Fixpoint order_prev (x : onode) (l : list onode) : option onode :=
  match l with
  | y :: ((z :: _) as t) => if decide (z = x) then Some y else order_prev x t
  | _ => None
  end.
Fixpoint order_next (x : onode) (l : list onode) : option onode :=
  match l with
  | [] => None
  | y :: l => if decide (y = x) then head l else order_next x l
  end.

(** ** State *)

Section device.
Context {AS : Type} `{Allocator AS}.

Record dstore := DStore {
  free_blocks : list (list Z);
  fblocks : gmap Z ohc_free_block_t;
  fslab : AS;
  item_mem : gmap Z ohc_item_t;
  devs : gmap Z ohc_device_t;
  devices : list Z;
  deleted_devices : list Z;
  device_indexs : idx_pointer_t Z;
  device_badblock_percent : Z;
  device_check_270G : bool
}.

Definition set_free_blocks (v : list (list Z)) (r : dstore) : dstore :=
  DStore v (fblocks r) (fslab r) (item_mem r) (devs r) (devices r) (deleted_devices r) (device_indexs r) (device_badblock_percent r) (device_check_270G r).
Definition set_fblocks (v : gmap Z ohc_free_block_t) (r : dstore) : dstore :=
  DStore (free_blocks r) v (fslab r) (item_mem r) (devs r) (devices r) (deleted_devices r) (device_indexs r) (device_badblock_percent r) (device_check_270G r).
Definition set_fslab (v : AS) (r : dstore) : dstore :=
  DStore (free_blocks r) (fblocks r) v (item_mem r) (devs r) (devices r) (deleted_devices r) (device_indexs r) (device_badblock_percent r) (device_check_270G r).
Definition set_item_mem (v : gmap Z ohc_item_t) (r : dstore) : dstore :=
  DStore (free_blocks r) (fblocks r) (fslab r) v (devs r) (devices r) (deleted_devices r) (device_indexs r) (device_badblock_percent r) (device_check_270G r).
Definition set_devs (v : gmap Z ohc_device_t) (r : dstore) : dstore :=
  DStore (free_blocks r) (fblocks r) (fslab r) (item_mem r) v (devices r) (deleted_devices r) (device_indexs r) (device_badblock_percent r) (device_check_270G r).
Definition set_devices (v : list Z) (r : dstore) : dstore :=
  DStore (free_blocks r) (fblocks r) (fslab r) (item_mem r) (devs r) v (deleted_devices r) (device_indexs r) (device_badblock_percent r) (device_check_270G r).
Definition set_deleted_devices (v : list Z) (r : dstore) : dstore :=
  DStore (free_blocks r) (fblocks r) (fslab r) (item_mem r) (devs r) (devices r) v (device_indexs r) (device_badblock_percent r) (device_check_270G r).
Definition set_device_indexs (v : idx_pointer_t Z) (r : dstore) : dstore :=
  DStore (free_blocks r) (fblocks r) (fslab r) (item_mem r) (devs r) (devices r) (deleted_devices r) v (device_badblock_percent r) (device_check_270G r).
Definition set_device_badblock_percent (v : Z) (r : dstore) : dstore :=
  DStore (free_blocks r) (fblocks r) (fslab r) (item_mem r) (devs r) (devices r) (deleted_devices r) (device_indexs r) v (device_check_270G r).
Definition set_device_check_270G (v : bool) (r : dstore) : dstore :=
  DStore (free_blocks r) (fblocks r) (fslab r) (item_mem r) (devs r) (devices r) (deleted_devices r) (device_indexs r) (device_badblock_percent r) v.
End device.
Arguments dstore : clear implicits.

(** ** Operations *)

Section device_ops.
Context {AS : Type} `{Allocator AS}.
Abbreviation D := (M (dstore AS)).

(** Reads and writes through pointers. *)
Definition load_fb (a : Z) : D ohc_free_block_t := st ← get; deref Dangling (fblocks st !! a).
Definition load_item (x : Z) : D ohc_item_t := st ← get; deref Dangling (item_mem st !! x).
Definition load_dev (d : Z) : D ohc_device_t := st ← get; deref Dangling (devs st !! d).
Definition upd_fb (a : Z) (f : ohc_free_block_t → ohc_free_block_t) : D unit :=
  _ ← load_fb a; modify (λ st, set_fblocks (alter f a (fblocks st)) st).
Definition upd_item (x : Z) (f : ohc_item_t → ohc_item_t) : D unit :=
  _ ← load_item x; modify (λ st, set_item_mem (alter f x (item_mem st)) st).
Definition upd_dev (d : Z) (f : ohc_device_t → ohc_device_t) : D unit :=
  _ ← load_dev d; modify (λ st, set_devs (alter f d (devs st)) st).
Definition upd_order (d : Z) (f : list onode → list onode) : D unit :=
  upd_dev d (λ dv, set_order_head (f (order_head dv)) dv).

(** [list_del] of an order node: the node must be linked. *)
Definition order_del (d : Z) (n : onode) : D unit :=
  dv ← load_dev d;
  if decide (n ∈ order_head dv) then upd_order d (list_remove_one n) else fail NullPtr.

(** [idx_pointer_get(&device_indexs, index)], about to be dereferenced. *)
Definition device_at (index : Z) : D Z := λ st,
  match idx_pointer_get (device_indexs st) index with
  | Ret (Some d) => Ret (d, st)
  | Ret None => Fail NullPtr
  | Fail f => Fail f
  end.
Definition device_of_fblock (a : Z) : D Z := fb ← load_fb a; device_at (fb_device_index fb).
Definition device_of_item (x : Z) : D Z := it ← load_item x; device_at (it_device_index it).

Definition device_ipbucket_add (a : Z) : D unit :=
  fb ← load_fb a;
  modify (λ st, set_free_blocks (ipbucket_add (free_blocks st) a (fb_block_size fb)) st).
Definition device_ipbucket_update (a : Z) : D unit :=
  fb ← load_fb a;
  act (λ st, match ipbucket_update (free_blocks st) a (fb_block_size fb) with
         | Ret q => Ret (tt, set_free_blocks q st)
         | Fail f => Fail f
         end).

(** [slab_alloc(&free_block_slab)] and [slab_free]. *)
Definition fb_alloc : D (option Z) := λ st,
  match al_alloc (fslab st) with
  | Ret (r, s) => Ret (r, set_fslab s st)
  | Fail f => Fail f
  end.
Definition fb_free (a : Z) : D unit := λ st,
  match al_free (fslab st) a with
  | Ret s => Ret (tt, set_fblocks (delete a (fblocks st)) (set_fslab s st))
  | Fail f => Fail f
  end.

Definition device_fblock_insert (d : Z) (base : option onode) (offset size : Z) :
    D (option Z) :=
  dv ← load_dev d;
  r ← fb_alloc;
  match r with
  | None => mret None
  | Some a =>
      modify (λ st, set_fblocks
        (<[a := FreeBlock (i16 (d_index dv)) (u40 offset) size]> (fblocks st)) st);;
      upd_order d (insert_before base (OFb a));;
      device_ipbucket_add a;;
      upd_dev d (λ dv, set_d_fblock_nr (d_fblock_nr dv + 1) dv);;
      mret (Some a)
  end.

Definition device_fblock_delete (a : Z) : D unit :=
  d ← device_of_fblock a;
  upd_dev d (λ dv, set_d_fblock_nr (d_fblock_nr dv - 1) dv);;
  modify (λ st, set_free_blocks (ipbucket_del (free_blocks st) a) st);;
  order_del d (OFb a);;
  fb_free a.

(** [d] is already unlinked from the configuration's list. *)
Definition device_add (d : Z) : D unit :=
  modify (λ st, set_devices (devices st ++ [d]) st);;
  upd_order d (λ _, []);;
  index ← act (λ st, match idx_pointer_add (device_indexs st) d with
                 | Ret (i, t) => Ret (i, set_device_indexs t st)
                 | Fail f => Fail f
                 end);
  upd_dev d (set_d_index index);;
  dv ← load_dev d;
  if d_capacity dv =? 0 then mret tt else
  r ← device_fblock_insert d None 0 (d_capacity dv);
  match r with
  | None => upd_dev d (set_d_kicked true)
  | Some _ => mret tt
  end.

Definition dnode_del (d : Z) : D unit :=
  modify (λ st, set_devices (list_remove_one d (devices st))
                  (set_deleted_devices (list_remove_one d (deleted_devices st)) st)).

Definition device_update (d : Z) (conf_device : ohc_device_t) : D unit :=
  upd_dev d (set_d_filename (d_filename conf_device));;
  dnode_del d;;
  modify (λ st, set_devices (devices st ++ [d]) st).

Definition device_delete (d : Z) : D unit :=
  dv ← load_dev d;
  dnode_del d;;
  if d_kicked dv then modify (λ st, set_devs (delete d (devs st)) st)
  else
    upd_dev d (set_d_deleted true);;
    modify (λ st, set_deleted_devices (d :: deleted_devices st) st).

(** [list_add(&bad_dev->dnode, &device->dnode)]: right after [device]. *)
Fixpoint dnode_after (d n : Z) (l : list Z) : list Z :=
  match l with
  | [] => []
  | y :: l => if y =? d then y :: n :: l else y :: dnode_after d n l
  end.

(** [malloc] is the address of the copy, or NULL. *)
Definition device_kick (malloc : option Z) (device : Z) : D unit :=
  match malloc with
  | None => mret tt
  | Some bad_dev =>
      dv ← load_dev device;
      modify (λ st, set_devs
        (<[bad_dev := set_order_head [] (set_d_kicked true dv)]> (devs st)) st);;
      modify (λ st, set_devices (dnode_after device bad_dev (devices st)) st);;
      device_delete device
  end.

(** The free block [a], already out of its queue, serves item [x]. *)
Definition take_block (x a device : Z) (it : ohc_item_t) (fb : ohc_free_block_t)
    (dv : ohc_device_t) : D Z :=
  let bsize := ipbucket_block_size (it_length it) in
  (if bsize <? fb_block_size fb then
     upd_item x (set_it_offset (u40 (fb_offset fb + fb_block_size fb - bsize)));;
     upd_order device (insert_after (OFb a) (OItem x));;
     upd_fb a (set_fb_block_size (fb_block_size fb - bsize));;
     device_ipbucket_add a
   else if fb_block_size fb =? bsize then
     upd_item x (set_it_offset (fb_offset fb));;
     upd_order device (insert_after (OFb a) (OItem x));;
     device_fblock_delete a
   else fail ProgExit);;
  upd_dev device (λ dv, set_d_consumed (d_consumed dv + bsize)
                          (set_d_item_nr (d_item_nr dv + 1) dv));;
  upd_item x (set_it_device_index (i16 (d_index dv)));;
  mret bsize.

Fixpoint get_free_block_try (try_left : nat) (x : Z) : D Z :=
  it ← load_item x;
  r ← act (λ st, match ipbucket_get (free_blocks st) (it_length it) with
             | None => Ret (None, st)
             | Some (a, q) => Ret (Some a, set_free_blocks q st)
             end);
  match r with
  | None => mret 0
  | Some a =>
      fb ← load_fb a;
      device ← device_of_fblock a;
      dv ← load_dev device;
      if d_deleted dv then
        device_fblock_delete a;;
        match try_left with
        | S n => get_free_block_try n x
        | O => mret 0
        end
      else
        take_block x a device it fb dv
  end.
Definition device_get_free_block (x : Z) : D Z := get_free_block_try LOOP_LIMIT x.

(** The neighbour, when it is a free block: its address and contents. *)
Definition fblock_of (n : option onode) : D (option (Z * ohc_free_block_t)) :=
  match n with
  | Some (OFb a) => fb ← load_fb a; mret (Some (a, fb))
  | _ => mret None
  end.

(** The block of item [x] becomes free, merged with its free neighbours. *)
Definition merge_block (x device : Z) (it : ohc_item_t)
    (prev next : option (Z * ohc_free_block_t)) : D unit :=
  let bsize := ipbucket_block_size (it_length it) in
  let forward := match prev with
                 | Some (_, fb) => fb_offset fb + fb_block_size fb =? it_offset it
                 | None => false end in
  let backward := match next with
                  | Some (_, fb) => fb_offset fb =? it_offset it + bsize
                  | None => false end in
  match (if forward then prev else None), (if backward then next else None) with
  | Some (p, pf), Some (n, nf) =>
      upd_fb p (set_fb_block_size (fb_block_size pf + (bsize + fb_block_size nf)));;
      device_ipbucket_update p;;
      device_fblock_delete n
  | Some (p, pf), None =>
      upd_fb p (set_fb_block_size (fb_block_size pf + bsize));;
      device_ipbucket_update p
  | None, Some (n, nf) =>
      upd_fb n (λ fb, set_fb_block_size (fb_block_size nf + bsize)
                        (set_fb_offset (u40 (fb_offset nf - bsize)) fb));;
      device_ipbucket_update n
  | None, None =>
      _ ← device_fblock_insert device (Some (OItem x)) (it_offset it) bsize; mret tt
  end;;
  upd_dev device (λ dv, set_d_consumed (d_consumed dv - bsize)
                          (set_d_item_nr (d_item_nr dv - 1) dv)).

Definition recycle_block (x device : Z) (it : ohc_item_t) (dv : ohc_device_t) : D unit :=
  prev ← fblock_of (order_prev (OItem x) (order_head dv));
  next ← fblock_of (order_next (OItem x) (order_head dv));
  merge_block x device it prev next.

Definition device_return_free_block (malloc : option Z) (x : Z) : D Z :=
  it ← load_item x;
  device ← device_at (it_device_index it);
  dv ← load_dev device;
  let bsize := ipbucket_block_size (it_length it) in
  (if d_deleted dv then mret tt
   else if it_badblock it then
     let bad := u64 (d_badblock dv + bsize) in
     upd_dev device (set_d_badblock bad);;
     if d_capacity dv =? 0 then fail Undef else
     let badp := i32 (u64 (bad * 100) / d_capacity dv) in
     pct ← gets device_badblock_percent;
     if pct <? badp then device_kick malloc device else mret tt
   else
     recycle_block x device it dv);;
  order_del device (OItem x);;
  mret bsize.

(** The last node of the order list is taken for a free block. *)
Definition last_fblock (dv : ohc_device_t) : D Z :=
  match last (order_head dv) with
  | Some (OFb a) => mret a
  | _ => fail Undef
  end.

(** [gap] and [step] are [size_t], [current->block_size] is compared as such. *)
Definition device_cut_free_block (x : Z) : D Z :=
  it ← load_item x;
  device ← device_at (it_device_index it);
  dv ← load_dev device;
  current ← last_fblock dv;
  cur ← load_fb current;
  let bsize := ipbucket_block_size (it_length it) in
  let gap := u64 (it_offset it - fb_offset cur) in
  let step := u64 (bsize + gap) in
  if (it_offset it <? fb_offset cur) || (fb_block_size cur <? step) then mret 0 else
  (if 0 <? gap then
     _ ← device_fblock_insert device (Some (OFb current)) (fb_offset cur) gap; mret tt
   else mret tt);;
  upd_order device (insert_before (Some (OFb current)) (OItem x));;
  upd_fb current (λ fb, set_fb_block_size (fb_block_size fb - step)
                          (set_fb_offset (u40 (fb_offset fb + step)) fb));;
  upd_dev device (λ dv, set_d_consumed (d_consumed dv + bsize)
                          (set_d_item_nr (d_item_nr dv + 1) dv));;
  mret bsize.

Definition device_load_post (device : Z) : D unit :=
  dv ← load_dev device;
  current ← last_fblock dv;
  cur ← load_fb current;
  if fb_block_size cur =? 0 then device_fblock_delete current
  else device_ipbucket_update current.
End device_ops.
