(* ===== verification/DeviceInv.v ===== *)
(** * Invariant of the devices

    The extents of an order list are disjoint, ordered by offset, aligned and
    inside the device, and no two free blocks touch ([tiled]); every free block
    is in the ipbucket queue of its size; the counters agree with the list. *)

From stdpp Require Import prelude fin_maps gmap.
From S2P Require Import Prelude IdxPointer StrUtil IpBucket Slab Device.

(** ** Extents of an order list *)

Definition is_fb (n : onode) : bool := match n with OFb _ => true | OItem _ => false end.

Section tiling.
Implicit Types (ext : onode → Z * Z) (l : list onode) (pf : bool).

(** The nodes of [l] lie between [lo] and [hi] in order; [pf] says that a free
    block ends at [lo], in which case a free block may not start there. *)
Fixpoint tiled ext pf (lo : Z) l (hi : Z) : Prop :=
  match l with
  | [] => lo ≤ hi
  | n :: l =>
      (if pf && is_fb n then lo < (ext n).1 else lo ≤ (ext n).1) ∧
      0 < (ext n).2 ∧ (512 | (ext n).1) ∧ (512 | (ext n).2) ∧
      tiled ext (is_fb n) ((ext n).1 + (ext n).2) l hi
  end.

(** Where [l] ends. *)
Definition fin ext pf (lo : Z) l : bool * Z :=
  match last l with None => (pf, lo) | Some n => (is_fb n, (ext n).1 + (ext n).2) end.

Lemma tiled_le ext pf lo l hi : tiled ext pf lo l hi → lo ≤ hi.
Proof.
  revert pf lo. induction l as [|n l IH]; intros pf lo; simpl; [done|].
  intros (Hg & Hs & _ & _ & Ht). apply IH in Ht. destruct (pf && is_fb n); lia.
Qed.

Lemma tiled_ext ext ext' pf lo l hi :
  (∀ n, n ∈ l → ext' n = ext n) → tiled ext pf lo l hi → tiled ext' pf lo l hi.
Proof.
  revert pf lo. induction l as [|n l IH]; intros pf lo He; simpl; [done|].
  rewrite (He n) by apply list_elem_of_here. intros (? & ? & ? & ? & ?).
  split_and!; try done. apply IH; [|done]. intros. by apply He, list_elem_of_further.
Qed.

Lemma tiled_weaken ext pf lo pf' lo' l hi :
  tiled ext pf lo l hi → lo' ≤ lo → (pf' = true → pf = true ∨ lo' < lo) →
  tiled ext pf' lo' l hi.
Proof.
  destruct l as [|n l]; simpl; [lia|]. intros (Hg & ? & ? & ? & ?) Hlo Hpf.
  split_and!; try done. destruct pf', pf, (is_fb n); simpl in *; try lia.
Qed.

(** A free block may end at [lo] when none starts there. *)
Lemma tiled_free_end ext lo l hi :
  tiled ext false lo l hi →
  (∀ n, head l = Some n → is_fb n = true → (ext n).1 ≠ lo) → tiled ext true lo l hi.
Proof.
  destruct l as [|n l]; simpl; [done|]. intros (Hg & ? & ? & ? & ?) Hn.
  split_and!; try done. destruct (is_fb n) eqn:E; [|done]. specialize (Hn n eq_refl E). lia.
Qed.

Lemma fin_snoc ext pf lo l n : fin ext pf lo (l ++ [n]) = (is_fb n, (ext n).1 + (ext n).2).
Proof. unfold fin. by rewrite last_snoc. Qed.

Lemma fin_cons ext pf lo n l : fin ext pf lo (n :: l) = fin ext (is_fb n) ((ext n).1 + (ext n).2) l.
Proof. unfold fin. rewrite last_cons. by destruct (last l). Qed.

Lemma tiled_app ext pf lo l1 l2 hi :
  tiled ext pf lo (l1 ++ l2) hi ↔
  tiled ext pf lo l1 (fin ext pf lo l1).2 ∧
  tiled ext (fin ext pf lo l1).1 (fin ext pf lo l1).2 l2 hi.
Proof.
  revert pf lo. induction l1 as [|n l1 IH]; intros pf lo; simpl.
  - split; [intros; split; [lia|done]|tauto].
  - rewrite IH, fin_cons. tauto.
Qed.

Lemma fin_ext ext ext' pf lo l :
  (∀ n, n ∈ l → ext' n = ext n) → fin ext' pf lo l = fin ext pf lo l.
Proof.
  intros He. unfold fin. destruct (last l) as [n|] eqn:E; [|done].
  rewrite He; [done|]. apply last_Some in E as [l' ->]. apply elem_of_app. right.
  apply list_elem_of_here.
Qed.

(** Replacing the part between [l1] and [l2]. *)
Lemma tiled_replace ext ext' pf lo l1 seg seg' l2 hi :
  tiled ext pf lo (l1 ++ seg ++ l2) hi →
  (∀ n, n ∈ l1 ++ l2 → ext' n = ext n) →
  (∀ pf' lo', fin ext pf lo l1 = (pf', lo') → tiled ext pf' lo' (seg ++ l2) hi →
     (∀ pf lo hi, tiled ext pf lo l2 hi → tiled ext' pf lo l2 hi) →
     tiled ext' pf' lo' (seg' ++ l2) hi) →
  tiled ext' pf lo (l1 ++ seg' ++ l2) hi.
Proof.
  intros Ht He Hseg. apply tiled_app in Ht as [H1 H2].
  assert (∀ n, n ∈ l1 → ext' n = ext n) as He1 by (intros; apply He, elem_of_app; auto).
  apply tiled_app. rewrite (fin_ext ext ext') by done. split; [by eapply tiled_ext|].
  apply Hseg; [by destruct (fin _ _ _ _)|done|]. intros. eapply tiled_ext; [|done]. intros. apply He, elem_of_app. auto.
Qed.

Lemma tiled_inside ext pf lo l1 n l2 hi :
  tiled ext pf lo (l1 ++ n :: l2) hi →
  lo ≤ (ext n).1 ∧ 0 < (ext n).2 ∧ (ext n).1 + (ext n).2 ≤ hi ∧
  (512 | (ext n).1) ∧ (512 | (ext n).2).
Proof.
  intros Ht. apply tiled_app in Ht as [H1 (Hg & Hs & Ho & Hz & H2)].
  apply tiled_le in H1, H2. destruct (_ && is_fb n); split_and!; try done; lia.
Qed.

(** Extents later in the list lie behind. *)
Lemma tiled_after ext pf lo l hi m :
  tiled ext pf lo l hi → m ∈ l → lo ≤ (ext m).1 ∧ 0 < (ext m).2.
Proof.
  intros Ht (l1 & l2 & ->)%list_elem_of_split.
  destruct (tiled_inside _ _ _ _ _ _ _ Ht) as (? & ? & _). done.
Qed.

(** Distinct positions hold disjoint extents, so no node is there twice. *)
Lemma tiled_disjoint ext pf lo l1 n l2 m l3 hi :
  tiled ext pf lo (l1 ++ n :: l2 ++ m :: l3) hi →
  (ext n).1 + (ext n).2 ≤ (ext m).1.
Proof.
  intros Ht. apply tiled_app in Ht as [_ (_ & _ & _ & _ & H2)].
  eapply (tiled_after _ _ _ _ _ m) in H2 as [? _]; [done|]. apply elem_of_app. right.
  apply list_elem_of_here.
Qed.

Lemma tiled_nodup ext pf lo l hi : tiled ext pf lo l hi → NoDup l.
Proof.
  revert pf lo. induction l as [|n l IH]; intros pf lo; [constructor|].
  simpl. intros (_ & Hs & _ & _ & Ht). constructor; [|by eapply IH].
  intros Hn. apply (tiled_after _ _ _ _ _ n) in Ht as [? ?]; [lia|done].
Qed.

(** ** Sums *)

Fixpoint fb_count l : Z :=
  match l with [] => 0 | n :: l => (if is_fb n then 1 else 0) + fb_count l end.
Fixpoint item_bytes ext l : Z :=
  match l with [] => 0 | n :: l => (if is_fb n then 0 else (ext n).2) + item_bytes ext l end.
Fixpoint total_bytes ext l : Z :=
  match l with [] => 0 | n :: l => (ext n).2 + total_bytes ext l end.

Lemma fb_count_app l1 l2 : fb_count (l1 ++ l2) = fb_count l1 + fb_count l2.
Proof. induction l1; simpl; lia. Qed.
Lemma item_bytes_app ext l1 l2 : item_bytes ext (l1 ++ l2) = item_bytes ext l1 + item_bytes ext l2.
Proof. induction l1; simpl; lia. Qed.
Lemma total_bytes_app ext l1 l2 : total_bytes ext (l1 ++ l2) = total_bytes ext l1 + total_bytes ext l2.
Proof. induction l1; simpl; lia. Qed.
Lemma bytes_ext ext ext' l :
  (∀ n, n ∈ l → ext' n = ext n) →
  item_bytes ext' l = item_bytes ext l ∧ total_bytes ext' l = total_bytes ext l.
Proof.
  induction l as [|n l IH]; simpl; [done|]. intros He.
  rewrite (He n) by apply list_elem_of_here. destruct IH as [-> ->]; [|done].
  intros. by apply He, list_elem_of_further.
Qed.
Lemma total_bytes_nonneg ext pf lo l hi :
  tiled ext pf lo l hi → 0 ≤ item_bytes ext l ≤ total_bytes ext l ∧ total_bytes ext l ≤ hi - lo.
Proof.
  revert pf lo. induction l as [|n l IH]; intros pf lo; simpl; [lia|].
  intros (Hg & Hs & _ & _ & Ht). specialize (IH _ _ Ht).
  destruct (pf && is_fb n), (is_fb n); lia.
Qed.
End tiling.

(** ** Order list operations at a known position *)

Lemma insert_after_split b n l1 l2 :
  b ∉ l1 → insert_after b n (l1 ++ b :: l2) = l1 ++ b :: n :: l2.
Proof.
  induction l1 as [|y l1 IH]; simpl.
  - by rewrite decide_True.
  - rewrite not_elem_of_cons. intros [? ?]. rewrite decide_False by done. by rewrite IH.
Qed.

Lemma insert_before_split b n l1 l2 :
  b ∉ l1 → insert_before (Some b) n (l1 ++ b :: l2) = l1 ++ n :: b :: l2.
Proof.
  induction l1 as [|y l1 IH]; simpl.
  - by rewrite decide_True.
  - rewrite not_elem_of_cons. intros [? ?]. rewrite decide_False by congruence. by rewrite IH.
Qed.

Lemma insert_before_end n l : insert_before None n l = l ++ [n].
Proof. induction l as [|y l IH]; [done|]. cbn. by rewrite IH. Qed.

Lemma order_prev_none x l : x ∉ tail l → order_prev x l = None.
Proof.
  induction l as [|y l IH]; [done|]. destruct l as [|z l]; [done|]. simpl.
  rewrite not_elem_of_cons. intros [? ?]. rewrite decide_False by done. by apply IH.
Qed.

Lemma order_prev_split x l1 l2 : x ∉ l1 → x ∉ l2 → order_prev x (l1 ++ x :: l2) = last l1.
Proof.
  intros Hx Hx2. induction l1 as [|y l1 IH]; [by apply order_prev_none|].
  apply not_elem_of_cons in Hx as [Hy Hx]. destruct l1 as [|z l1].
  - simpl. by rewrite decide_True.
  - change ((y :: z :: l1) ++ x :: l2) with (y :: z :: (l1 ++ x :: l2)). simpl.
    rewrite decide_False by (intros ->; apply Hx, list_elem_of_here). apply (IH Hx).
Qed.

Lemma order_next_split x l1 l2 : x ∉ l1 → order_next x (l1 ++ x :: l2) = head l2.
Proof.
  induction l1 as [|y l1 IH]; simpl.
  - by rewrite decide_True.
  - rewrite not_elem_of_cons. intros [? ?]. rewrite decide_False by done. auto.
Qed.

(** ** Invariant *)

Section invariant.
Context {AS : Type} `{Allocator AS}.
Implicit Types (st : dstore AS) (dv : ohc_device_t).

Definition ext st (n : onode) : Z * Z :=
  match n with
  | OFb a => match fblocks st !! a with
             | Some fb => (fb_offset fb, fb_block_size fb) | None => (0, 0) end
  | OItem x => match item_mem st !! x with
               | Some it => (it_offset it, ipbucket_block_size (it_length it)) | None => (0, 0) end
  end.

Definition fb_size st (a : Z) : option Z := fb_block_size <$> fblocks st !! a.

Definition node_ok st (i : Z) (n : onode) : Prop :=
  match n with
  | OFb a => ∃ fb, fblocks st !! a = Some fb ∧ fb_device_index fb = i
  | OItem x => ∃ it, item_mem st !! x = Some it ∧ it_device_index it = i ∧
                     0 < it_length it < 2 ^ 32
  end.

Record device_ok st dv : Prop := {
  do_nodes : ∀ n, n ∈ order_head dv → node_ok st (d_index dv) n;
  do_tiled : tiled (ext st) false 0 (order_head dv) (d_capacity dv);
  do_cap : 0 ≤ d_capacity dv ≤ SENDFILE_LIMIT;
  do_fblock_nr : d_fblock_nr dv = fb_count (order_head dv);
  do_bad : 0 ≤ d_badblock dv ∧
           total_bytes (ext st) (order_head dv) + d_badblock dv ≤ d_capacity dv;
  do_consumed : d_deleted dv = false →
    d_consumed dv = item_bytes (ext st) (order_head dv) + d_badblock dv;
  do_kicked : d_kicked dv = true → order_head dv = []
}.

(** Device [dv] at [d] is the entry [i] of the table. *)
Definition registered st (i d : Z) dv : Prop :=
  idx_pointer_get (device_indexs st) i = Ret (Some d) ∧ devs st !! d = Some dv ∧ d_index dv = i.

(** A device of the list is in the table, or it is the copy a kick has left. *)
Definition live_dev st (d : Z) : Prop :=
  ∃ dv, devs st !! d = Some dv ∧
    ((∃ i, registered st i d dv ∧ d_deleted dv = false) ∨
     d_kicked dv = true ∧ ∀ i, idx_pointer_get (device_indexs st) i ≠ Ret (Some d)).

Record dev_inv st : Prop := {
  di_idx : idx_inv (device_indexs st);
  di_table : ∀ i d, idx_pointer_get (device_indexs st) i = Ret (Some d) →
    0 ≤ i < IPT_ARRAY_SIZE ∧ ∃ dv, devs st !! d = Some dv ∧ d_index dv = i;
  di_dev : ∀ i d dv, registered st i d dv → device_ok st dv;
  di_fb : ∀ a fb, fblocks st !! a = Some fb →
    ∃ d dv, registered st (fb_device_index fb) d dv ∧ OFb a ∈ order_head dv;
  di_buckets : buckets_ok (fb_size st) (free_blocks st);
  di_linked : ∀ a, is_Some (fblocks st !! a) → ∃ i, linked (free_blocks st) a i;
  di_alloc : al_ok (fslab st);
  di_live : ∀ a, al_live (fslab st) a ↔ is_Some (fblocks st !! a);
  di_devices : NoDup (devices st) ∧ ∀ d, d ∈ devices st → live_dev st d;
  di_deleted : NoDup (deleted_devices st) ∧ ∀ d, d ∈ deleted_devices st →
    ∃ i dv, registered st i d dv ∧ d_deleted dv = true
}.

(** A step on device [d] leaves the lists of devices, or [d] is deleted; when it
    is kicked a copy takes its place in the list. *)
Definition dels_step st st' (d : Z) dv dv' : Prop :=
  deleted_devices st' = deleted_devices st ∧ devices st' = devices st ∧ d_deleted dv' = d_deleted dv ∨
  deleted_devices st' = d :: list_remove_one d (deleted_devices st) ∧ d_deleted dv' = true ∧
    (devices st' = list_remove_one d (devices st) ∨
     ∃ a dv2, devices st' = list_remove_one d (dnode_after d a (devices st)) ∧ devs st !! a = None ∧
       devs st' !! a = Some dv2 ∧ d_kicked dv2 = true).

(** An item in no order list. *)
Definition detached st (x : Z) : Prop :=
  ∀ i d dv, registered st i d dv → OItem x ∉ order_head dv.

Lemma registered_inj st i d dv j d' dv' :
  registered st i d dv → registered st j d' dv' → i = j → d = d' ∧ dv = dv'.
Proof.
  intros (E1 & E2 & _) (E1' & E2' & _) ->. rewrite E1 in E1'. injection E1' as ->.
  rewrite E2 in E2'. by injection E2' as ->.
Qed.

Lemma registered_addr st i d dv j dv' :
  registered st i d dv → registered st j d dv' → i = j ∧ dv = dv'.
Proof.
  intros (_ & E2 & <-) (_ & E2' & <-). rewrite E2 in E2'. by injection E2' as ->.
Qed.

(** The node's own memory is the same in both states. *)
Definition same_node st st' (n : onode) : Prop :=
  match n with
  | OFb a => fblocks st' !! a = fblocks st !! a
  | OItem x => item_mem st' !! x = item_mem st !! x
  end.

Lemma same_node_ext st st' n : same_node st st' n → ext st' n = ext st n.
Proof. destruct n; simpl; by intros ->. Qed.
Lemma same_node_ok st st' i n : same_node st st' n → node_ok st i n → node_ok st' i n.
Proof. destruct n; simpl; by intros ->. Qed.

Lemma device_ok_ext st st' dv :
  (∀ n, n ∈ order_head dv → same_node st st' n) → device_ok st dv → device_ok st' dv.
Proof.
  intros Hs [Hn Ht Hc Hf Hb Hcon Hk].
  assert (∀ n, n ∈ order_head dv → ext st' n = ext st n) as He
    by (intros; by apply same_node_ext, Hs).
  destruct (bytes_ext _ _ _ He) as [E1 E2].
  split; rewrite ?E1, ?E2; try done.
  - intros n Hin. eapply same_node_ok; [by apply Hs|by apply Hn].
  - by eapply tiled_ext.
Qed.

(** Nodes of another device are untouched by what happens to device [i]. *)
Definition frame_ok st st' (i : Z) : Prop :=
  ∀ j d dv, registered st j d dv → j ≠ i → ∀ n, n ∈ order_head dv → same_node st st' n.

Lemma elem_of_dnode_after d a d2 l : d2 ∈ dnode_after d a l → d2 = a ∨ d2 ∈ l.
Proof.
  induction l as [|y l IH]; cbn; [by intros ?%not_elem_of_nil|].
  destruct (Z.eqb_spec y d); rewrite !elem_of_cons; tauto.
Qed.
Lemma NoDup_dnode_after d a l : a ∉ l → NoDup l → NoDup (dnode_after d a l).
Proof.
  intros Ha. induction 1 as [|y l Hy Hl IH]; cbn; [constructor|]. rewrite not_elem_of_cons in Ha.
  destruct (Z.eqb_spec y d); rewrite !NoDup_cons.
  - rewrite not_elem_of_cons. destruct Ha. split_and!; [congruence|done..].
  - destruct Ha. split; [|by apply IH]. intros [-> |?]%elem_of_dnode_after; done.
Qed.

Lemma di_devices_step st st' i d dv dv' :
  dev_inv st → registered st i d dv → dels_step st st' d dv dv' →
  device_indexs st' = device_indexs st →
  devs st' !! d = Some dv' → (∀ d2 dv2, devs st !! d2 = Some dv2 → d2 ≠ d → devs st' !! d2 = Some dv2) →
  d_index dv' = i → NoDup (devices st') ∧ ∀ d, d ∈ devices st' → live_dev st' d.
Proof.
  intros Hi Hr Hdl Et Ed Hds Ei. destruct (di_devices st Hi) as [Hnd Hall]. pose proof Hr as (E1 & E2 & _).
  assert (∀ d2, d2 ≠ d → live_dev st d2 → live_dev st' d2) as Hother.
  { intros d2 Hne (dv2 & F2 & Hor). exists dv2. split; [by apply Hds|]. unfold registered. rewrite Et.
    destruct Hor as [(j & (F1 & _ & F3) & F4)|?]; [left|by right]. exists j. split_and!; [done|by apply Hds|done..]. }
  destruct Hdl as [(_ & -> & Hdd)|(_ & _ & [-> |(a & dv2 & -> & Ha & Ha' & Hk)])].
  - split; [done|]. intros d2 Hin. destruct (decide (d2 = d)) as [-> |Hne]; [|by apply Hother, Hall].
    destruct (Hall d Hin) as (dv0 & F & Hor). rewrite E2 in F. injection F as <-. exists dv'. split; [done|].
    destruct Hor as [(j & Hrj & Hf)|[_ Hno]]; [left|by destruct (Hno i)]. exists i. rewrite Hdd. split; [|done].
    split_and!; [by rewrite Et|done..].
  - split; [by apply NoDup_list_remove_one|]. intros d2 [Hin Hne]%elem_of_list_remove_one. by apply Hother, Hall.
  - assert (a ∉ devices st) as Hna by (intros Hin; destruct (Hall a Hin) as (? & ? & _); congruence).
    split; [by apply NoDup_list_remove_one, NoDup_dnode_after|].
    intros d2 [[-> |Hin]%elem_of_dnode_after Hne]%elem_of_list_remove_one; [|by apply Hother, Hall].
    exists dv2. split; [done|]. right. split; [done|]. intros j. rewrite Et. intros F.
    destruct (di_table st Hi j a F) as (_ & dv3 & F3 & _). congruence.
Qed.

Lemma dev_inv_update st st' i d dv dv' :
  dev_inv st → registered st i d dv → dels_step st st' d dv dv' →
  device_indexs st' = device_indexs st →
  devs st' !! d = Some dv' → (∀ d2 dv2, devs st !! d2 = Some dv2 → d2 ≠ d → devs st' !! d2 = Some dv2) →
  d_index dv' = i → frame_ok st st' i → device_ok st' dv' →
  (∀ a fb, fblocks st' !! a = Some fb →
     fblocks st !! a = Some fb ∧ fb_device_index fb ≠ i ∨
     fb_device_index fb = i ∧ OFb a ∈ order_head dv') →
  buckets_ok (fb_size st') (free_blocks st') →
  (∀ a, is_Some (fblocks st' !! a) → ∃ k, linked (free_blocks st') a k) →
  al_ok (fslab st') → (∀ a, al_live (fslab st') a ↔ is_Some (fblocks st' !! a)) →
  dev_inv st'.
Proof.
  intros Hi Hr Hdl Et Ed Hds Ei Hfr Hok Hfb Hbk Hlk Hal Hlv. pose proof (di_devices_step _ _ _ _ _ _ Hi Hr Hdl Et Ed Hds Ei).
  assert (registered st' i d dv') as Hr' by (unfold registered; rewrite Et; split_and!; [apply Hr|done..]).
  assert (∀ j d2 dv2, registered st j d2 dv2 → j ≠ i → registered st' j d2 dv2) as Hother.
  { intros j d2 dv2 Hr2 Hne. pose proof Hr2 as (E1 & E2 & E3). unfold registered. rewrite Et.
    split_and!; [done| |done]. apply (Hds d2); [done|]. intros ->.
    by destruct (registered_addr _ _ _ _ _ _ Hr Hr2). }
  split; try done.
  - rewrite Et. apply Hi.
  - intros j d2. rewrite Et. intros Ej. destruct (di_table st Hi j d2 Ej) as (Hj & dv2 & E2 & E3).
    split; [done|]. destruct (decide (j = i)) as [->|Hne].
    + exists dv'. destruct Hr as (Eg & _). rewrite Eg in Ej. by injection Ej as ->.
    + exists dv2. destruct (Hother j d2 dv2) as (_ & ? & ?); done.
  - intros j d2 dv2 Hr2. destruct (decide (j = i)) as [->|Hne].
    + destruct (registered_inj _ _ _ _ _ _ _ Hr' Hr2 eq_refl) as [<- <-]. done.
    + destruct Hr2 as (Ej & E2 & E3). rewrite Et in Ej.
      destruct (di_table st Hi j d2 Ej) as (_ & dv3 & E4 & E5).
      assert (registered st j d2 dv3) as Hr3 by done.
      destruct (Hother _ _ _ Hr3 Hne) as (_ & E6 & _). simplify_eq.
      eapply device_ok_ext; [|by eapply di_dev]. intros n. by eapply Hfr.
  - intros a fb Ea. destruct (Hfb a fb Ea) as [[Eo Hne]|[Ei' Hin]].
    + destruct (di_fb st Hi a fb Eo) as (d2 & dv2 & Hr2 & ?). exists d2, dv2. auto.
    + exists d, dv'. rewrite Ei'. done.
  - destruct (di_deleted st Hi) as [Hnd Hall].
    assert (d_deleted dv' = true → ∀ d2, d2 ∈ d :: list_remove_one d (deleted_devices st) →
      ∃ j dv2, registered st' j d2 dv2 ∧ d_deleted dv2 = true) as Hkeep.
    { intros Hdel d2. rewrite elem_of_cons, elem_of_list_remove_one. intros [-> |[Hin Hne]]; [by exists i, dv'|].
      destruct (Hall d2 Hin) as (j & dv2 & Hr2 & Hd2). exists j, dv2. split; [|done]. apply Hother; [done|].
      intros ->. by destruct (registered_inj _ _ _ _ _ _ _ Hr Hr2 eq_refl). }
    destruct Hdl as [(El & _ & Hmono)|(El & Hdel & _)]; rewrite El.
    + split; [done|]. intros d2 Hin. destruct (decide (d2 = d)) as [-> |Hne].
      * destruct (Hall d Hin) as (j & dv2 & Hr2 & Hd2). destruct (registered_addr _ _ _ _ _ _ Hr Hr2) as [_ <-].
        exists i, dv'. by rewrite Hmono.
      * destruct (Hall d2 Hin) as (j & dv2 & Hr2 & Hd2). exists j, dv2. split; [|done]. apply Hother; [done|].
        intros ->. by destruct (registered_inj _ _ _ _ _ _ _ Hr Hr2 eq_refl).
    + split; [|by apply Hkeep]. apply NoDup_cons. rewrite elem_of_list_remove_one. split; [naive_solver|].
      by apply NoDup_list_remove_one.
Qed.
End invariant.

(** ** Running the primitives *)

Lemma alter_at `{Countable K} {A} (f : A → A) (m : gmap K A) k v :
  m !! k = Some v → alter f k m = <[k := f v]> m.
Proof.
  intros Hk. apply map_eq. intros j. destruct (decide (j = k)) as [->|].
  - by rewrite lookup_alter_eq, lookup_insert_eq, Hk.
  - by rewrite lookup_alter_ne, lookup_insert_ne.
Qed.

Section runs.
Context {AS : Type} `{Allocator AS}.
Implicit Types (st : dstore AS) (dv : ohc_device_t).

Lemma load_fb_run st a fb : fblocks st !! a = Some fb → load_fb a st = Ret (fb, st).
Proof. intros E. unfold load_fb, get, mbind, M_bind, deref. by rewrite E. Qed.
Lemma load_item_run st x it : item_mem st !! x = Some it → load_item x st = Ret (it, st).
Proof. intros E. unfold load_item, get, mbind, M_bind, deref. by rewrite E. Qed.
Lemma load_dev_run st d dv : devs st !! d = Some dv → load_dev d st = Ret (dv, st).
Proof. intros E. unfold load_dev, get, mbind, M_bind, deref. by rewrite E. Qed.
Lemma upd_fb_run st a f fb : fblocks st !! a = Some fb →
  upd_fb a f st = Ret (tt, set_fblocks (<[a := f fb]> (fblocks st)) st).
Proof.
  intros E. unfold upd_fb. rewrite (bind_ret _ _ _ _ _ (load_fb_run _ _ _ E)).
  unfold modify. by rewrite (alter_at _ _ _ _ E).
Qed.
Lemma upd_item_run st x f it : item_mem st !! x = Some it →
  upd_item x f st = Ret (tt, set_item_mem (<[x := f it]> (item_mem st)) st).
Proof.
  intros E. unfold upd_item. rewrite (bind_ret _ _ _ _ _ (load_item_run _ _ _ E)).
  unfold modify. by rewrite (alter_at _ _ _ _ E).
Qed.
Lemma upd_dev_run st d f dv : devs st !! d = Some dv →
  upd_dev d f st = Ret (tt, set_devs (<[d := f dv]> (devs st)) st).
Proof.
  intros E. unfold upd_dev. rewrite (bind_ret _ _ _ _ _ (load_dev_run _ _ _ E)).
  unfold modify. by rewrite (alter_at _ _ _ _ E).
Qed.
Lemma upd_order_run st d f dv : devs st !! d = Some dv →
  upd_order d f st =
    Ret (tt, set_devs (<[d := set_order_head (f (order_head dv)) dv]> (devs st)) st).
Proof. exact (upd_dev_run st d (λ dv, set_order_head (f (order_head dv)) dv) dv). Qed.
Lemma device_at_run st i d :
  idx_pointer_get (device_indexs st) i = Ret (Some d) → device_at i st = Ret (d, st).
Proof. intros E. unfold device_at. by rewrite E. Qed.
Lemma device_of_fblock_run st a fb d :
  fblocks st !! a = Some fb → idx_pointer_get (device_indexs st) (fb_device_index fb) = Ret (Some d) →
  device_of_fblock a st = Ret (d, st).
Proof.
  intros E1 E2. unfold device_of_fblock. rewrite (bind_ret _ _ _ _ _ (load_fb_run _ _ _ E1)).
  by apply device_at_run.
Qed.
Lemma order_del_run st d n dv : devs st !! d = Some dv → n ∈ order_head dv →
  order_del d n st =
    Ret (tt, set_devs (<[d := set_order_head (list_remove_one n (order_head dv)) dv]> (devs st)) st).
Proof.
  intros E Hn. unfold order_del. rewrite (bind_ret _ _ _ _ _ (load_dev_run _ _ _ E)).
  rewrite decide_True by done. by apply upd_order_run.
Qed.
Lemma ipbucket_add_run st a fb : fblocks st !! a = Some fb →
  device_ipbucket_add a st =
    Ret (tt, set_free_blocks (ipbucket_add (free_blocks st) a (fb_block_size fb)) st).
Proof.
  intros E. unfold device_ipbucket_add. by rewrite (bind_ret _ _ _ _ _ (load_fb_run _ _ _ E)).
Qed.
Lemma ipbucket_update_run st a fb : fblocks st !! a = Some fb →
  (∃ i, linked (free_blocks st) a i) →
  device_ipbucket_update a st =
    Ret (tt, set_free_blocks (ipbucket_add (queue_del (free_blocks st) a) a (fb_block_size fb)) st).
Proof.
  intros E Hl. unfold device_ipbucket_update. rewrite (bind_ret _ _ _ _ _ (load_fb_run _ _ _ E)).
  unfold act, ipbucket_update. by rewrite (proj2 (queue_linked_spec _ _) Hl).
Qed.

Lemma fblock_delete_run st a fb d dv s' :
  fblocks st !! a = Some fb →
  idx_pointer_get (device_indexs st) (fb_device_index fb) = Ret (Some d) →
  devs st !! d = Some dv → OFb a ∈ order_head dv → al_free (fslab st) a = Ret s' →
  device_fblock_delete a st = Ret (tt,
    set_free_blocks (queue_del (free_blocks st) a)
   (set_fblocks (delete a (fblocks st)) (set_fslab s'
   (set_devs (<[d := set_order_head (list_remove_one (OFb a) (order_head dv))
                      (set_d_fblock_nr (d_fblock_nr dv - 1) dv)]> (devs st)) st)))).
Proof.
  intros Ea Ei Ed Hin Es. unfold device_fblock_delete.
  rewrite (bind_ret _ _ _ _ _ (device_of_fblock_run _ _ _ _ Ea Ei)).
  rewrite (bind_ret _ _ _ _ _ (upd_dev_run _ _ _ _ Ed)).
  unfold modify at 1, mbind at 1, M_bind at 1.
  erewrite bind_ret; [|apply order_del_run; [apply lookup_insert_eq|exact Hin]].
  unfold fb_free. simpl. rewrite Es, ipbucket_del_eq, insert_insert_eq. done.
Qed.

Lemma fblock_insert_run st d dv base offset size :
  devs st !! d = Some dv → al_ok (fslab st) →
  ∃ r s', al_alloc (fslab st) = Ret (r, s') ∧ al_ok s' ∧
  match r with
  | None => (∀ q, al_live s' q ↔ al_live (fslab st) q) ∧
      device_fblock_insert d base offset size st = Ret (None, set_fslab s' st)
  | Some a =>
      let fb := FreeBlock (i16 (d_index dv)) (u40 offset) size in
      ¬ al_live (fslab st) a ∧ (∀ q, al_live s' q ↔ q = a ∨ al_live (fslab st) q) ∧
      device_fblock_insert d base offset size st = Ret (Some a,
        set_free_blocks (ipbucket_add (free_blocks st) a size)
       (set_fblocks (<[a := fb]> (fblocks st)) (set_fslab s'
       (set_devs (<[d := set_d_fblock_nr (d_fblock_nr dv + 1)
          (set_order_head (insert_before base (OFb a) (order_head dv)) dv)]> (devs st)) st))))
  end.
Proof.
  intros Ed Hok. destruct (al_alloc_ok (fslab st) Hok) as (r & s' & E & Hok' & Hr).
  exists r, s'. split; [done|]. split; [done|]. unfold device_fblock_insert.
  assert (fb_alloc st = Ret (r, set_fslab s' st)) as Efa by (unfold fb_alloc; by rewrite E).
  rewrite (bind_ret _ _ _ _ _ (load_dev_run _ _ _ Ed)), (bind_ret _ _ _ _ _ Efa).
  destruct r as [a|]; [|done]. split; [apply Hr|]. split; [apply Hr|].
  unfold modify at 1, mbind at 1, M_bind at 1.
  erewrite bind_ret; [|apply upd_order_run; exact Ed].
  erewrite bind_ret; [|apply ipbucket_add_run; apply lookup_insert_eq].
  erewrite bind_ret; [|apply upd_dev_run; apply lookup_insert_eq].
  simpl. by rewrite insert_insert_eq.
Qed.
End runs.

(** ** Taking a node out of an order list *)

Lemma tiled_remove ext pf lo l hi n :
  tiled ext pf lo l hi → n ∈ l →
  tiled ext pf lo (list_remove_one n l) hi ∧
  fb_count (list_remove_one n l) = fb_count l - (if is_fb n then 1 else 0) ∧
  item_bytes ext (list_remove_one n l) = item_bytes ext l - (if is_fb n then 0 else (ext n).2) ∧
  total_bytes ext (list_remove_one n l) = total_bytes ext l - (ext n).2.
Proof.
  intros Ht (l1 & l2 & ->)%list_elem_of_split.
  rewrite list_remove_one_split by (by eapply tiled_nodup).
  rewrite !fb_count_app, !item_bytes_app, !total_bytes_app. simpl. split_and!; try lia.
  apply (tiled_replace ext ext pf lo l1 [n] [] l2 hi); [done|done|].
  intros pf' lo' _ (Hg & Hs & _ & _ & H2) _. simpl.
  eapply tiled_weaken; [exact H2|destruct (pf' && is_fb n); lia|].
  intros _. right. destruct (pf' && is_fb n); lia.
Qed.

Section ownership.
Context {AS : Type} `{Allocator AS}.
Implicit Types (st : dstore AS) (dv : ohc_device_t).

Lemma node_owner st i d dv j d' dv' n :
  dev_inv st → registered st i d dv → registered st j d' dv' →
  n ∈ order_head dv → n ∈ order_head dv' → i = j.
Proof.
  intros Hi Hr Hr' Hn Hn'.
  pose proof (do_nodes _ _ (di_dev st Hi _ _ _ Hr) n Hn) as Ho.
  pose proof (do_nodes _ _ (di_dev st Hi _ _ _ Hr') n Hn') as Ho'.
  destruct Hr as (_ & _ & <-), Hr' as (_ & _ & <-).
  destruct n; simpl in *; naive_solver congruence.
Qed.

(** Only nodes of device [i], and nodes in no list, change. *)
Lemma frame_by_nodes st st' i d dv :
  dev_inv st → registered st i d dv →
  (∀ n, ¬ same_node st st' n → n ∈ order_head dv ∨
     ∀ j d2 dv2, registered st j d2 dv2 → n ∉ order_head dv2) →
  frame_ok st st' i.
Proof.
  intros Hi Hr Hch j d2 dv2 Hr2 Hne n Hn.
  assert (Decision (same_node st st' n)) as Hdec.
  { destruct n; simpl; apply _. }
  destruct (decide (same_node st st' n)) as [|Hns]; [done|].
  destruct (Hch n Hns) as [Hin|Hno]; [|by destruct (Hno j d2 dv2)].
  destruct Hne. symmetry. by eapply (node_owner st i d dv j d2 dv2 n).
Qed.

(** A step on one device replaces the part [seg] of its order list by [seg'];
    only the memory of nodes in [seg], or in no list, changes. *)
Lemma dev_inv_replace st st' i d dv dv' l1 seg seg' l2 :
  dev_inv st → registered st i d dv → dels_step st st' d dv dv' →
  order_head dv = l1 ++ seg ++ l2 → order_head dv' = l1 ++ seg' ++ l2 →
  devs st' !! d = Some dv' →
  (∀ d2 dv2, devs st !! d2 = Some dv2 → d2 ≠ d → devs st' !! d2 = Some dv2) →
  device_indexs st' = device_indexs st →
  d_index dv' = i → d_capacity dv' = d_capacity dv →
  (d_kicked dv' = true → d_kicked dv = true ∧ seg ≠ []) →
  (∀ n, ¬ same_node st st' n →
     n ∈ seg ∨ ∀ j d2 dv2, registered st j d2 dv2 → n ∉ order_head dv2) →
  (∀ n, n ∈ seg' → node_ok st' i n) →
  (∀ pf lo, fin (ext st) false 0 l1 = (pf, lo) →
     tiled (ext st) pf lo (seg ++ l2) (d_capacity dv) →
     (∀ pf lo hi, tiled (ext st) pf lo l2 hi → tiled (ext st') pf lo l2 hi) →
     tiled (ext st') pf lo (seg' ++ l2) (d_capacity dv)) →
  d_fblock_nr dv' = d_fblock_nr dv + fb_count seg' - fb_count seg →
  0 ≤ d_badblock dv' →
  total_bytes (ext st') seg' + d_badblock dv' ≤ total_bytes (ext st) seg + d_badblock dv →
  (d_deleted dv' = false → d_deleted dv = false ∧
     d_consumed dv' = d_consumed dv + d_badblock dv' - d_badblock dv
                      + item_bytes (ext st') seg' - item_bytes (ext st) seg) →
  (∀ a fb, fblocks st' !! a = Some fb →
     OFb a ∈ seg' ∧ fb_device_index fb = i ∨ fblocks st !! a = Some fb ∧ OFb a ∉ seg) →
  buckets_ok (fb_size st') (free_blocks st') →
  (∀ a, is_Some (fblocks st' !! a) → ∃ k, linked (free_blocks st') a k) →
  al_ok (fslab st') → (∀ a, al_live (fslab st') a ↔ is_Some (fblocks st' !! a)) →
  dev_inv st'.
Proof.
  intros Hi Hr Hdl Eo Eo' Ed Hds Et Ei Ec Hkick Hch Hnode Htile Hnr Hbad0 Hbad Hcon Hfb Hbk Hlk Hal Hlv.
  pose proof (di_dev st Hi _ _ _ Hr) as Hok.
  pose proof (do_tiled _ _ Hok) as Ht. rewrite Eo in Ht.
  pose proof (tiled_nodup _ _ _ _ _ Ht) as Hnd.
  assert (∀ n, n ∈ l1 ++ l2 → n ∈ order_head dv ∧ n ∉ seg) as Hout.
  { intros n Hn. rewrite Eo, !elem_of_app. rewrite elem_of_app in Hn.
    apply NoDup_app in Hnd as (_ & Hd1 & Hnd). apply NoDup_app in Hnd as (_ & Hd2 & _).
    split; [naive_solver|]. intros Hs. destruct Hn as [Hn|Hn].
    - apply (Hd1 n Hn). apply elem_of_app. by left.
    - by apply (Hd2 n Hs). }
  assert (∀ n, n ∈ l1 ++ l2 → same_node st st' n) as Hsame.
  { intros n Hn. destruct (Hout n Hn) as [Hin Hns].
    assert (Decision (same_node st st' n)) by (destruct n; simpl; apply _).
    destruct (decide (same_node st st' n)) as [|Hc]; [done|].
    destruct (Hch n Hc) as [?|Hno]; [done|]. by destruct (Hno _ _ _ Hr). }
  assert (∀ n, n ∈ l1 ++ l2 → ext st' n = ext st n) as Hext
    by (intros; by apply same_node_ext, Hsame).
  destruct (bytes_ext (ext st) (ext st') l1) as [I1 T1]; [intros; apply Hext, elem_of_app; auto|].
  destruct (bytes_ext (ext st) (ext st') l2) as [I2 T2]; [intros; apply Hext, elem_of_app; auto|].
  eapply (dev_inv_update st st' i d dv dv'); try done.
  - eapply frame_by_nodes; [done..|]. intros n Hn. rewrite Eo, !elem_of_app.
    destruct (Hch n Hn); auto.
  - split; rewrite ?Eo', ?Ei, ?Ec.
    + intros n. rewrite !elem_of_app. intros Hn.
      assert (n ∈ l1 ++ l2 ∨ n ∈ seg') as [Hn'|?] by (rewrite elem_of_app; tauto); [|auto].
      eapply same_node_ok; [by apply Hsame|]. destruct Hr as (_ & _ & <-).
      by apply (do_nodes _ _ Hok), Hout.
    + by eapply tiled_replace.
    + apply Hok.
    + rewrite Hnr, (do_fblock_nr _ _ Hok), Eo, !fb_count_app. lia.
    + destruct (do_bad _ _ Hok) as [_ Hb]. rewrite Eo in Hb. rewrite !total_bytes_app in *. lia.
    + intros Hdel. destruct (Hcon Hdel) as [Hdel' ->].
      rewrite (do_consumed _ _ Hok Hdel'), Eo, !item_bytes_app. lia.
    + intros [Hk%(do_kicked _ _ Hok) Hseg]%Hkick. rewrite Eo in Hk.
      apply app_eq_nil in Hk as [_ [? _]%app_eq_nil]. done.
  - intros a fb Ea. rewrite Eo', !elem_of_app.
    destruct (Hfb a fb Ea) as [[Hs E]|[E Hs]]; [by right; auto|].
    destruct (decide (fb_device_index fb = i)) as [Ex|]; [right|by left]. split; [done|].
    destruct (di_fb st Hi a fb E) as (d2 & dv2 & Hr2 & Hin).
    destruct (registered_inj _ _ _ _ _ _ _ Hr Hr2 (eq_sym Ex)) as [<- <-].
    rewrite Eo, !elem_of_app in Hin. tauto.
Qed.
End ownership.
