(* ===== verification/DeviceOps.v ===== *)
(** * The operations of device.c keep the invariant

    Allocation, release and loading of blocks: each operation returns, keeps
    [dev_inv], and hands out or takes back exactly the extent it should. *)

From stdpp Require Import prelude fin_maps gmap.
From S2P Require Import Prelude IdxPointer StrUtil IpBucket Slab Device DeviceInv.

(** Reduces the projections of a state built by assignments. *)
Ltac dev_cbn :=
  cbn [item_mem set_item_mem set_free_blocks set_fblocks set_devs set_fslab set_devices
       set_deleted_devices set_device_indexs free_blocks fblocks fslab devs devices
       deleted_devices device_indexs device_badblock_percent device_check_270G order_head
       set_order_head set_d_fblock_nr set_d_consumed set_d_item_nr set_d_badblock set_d_deleted
       fb_block_size set_fb_block_size].
(** Names the state reached and the device in it. *)
Ltac name_state d st' dv' :=
  match goal with |- dev_inv ?s ∧ _ => set (st' := s) end;
  match goal with st' := context [<[d := ?v]>] |- _ => set (dv' := v) in st' end.

Section ops.
Context {AS : Type} `{Allocator AS}.
Implicit Types (st : dstore AS) (dv : ohc_device_t).

(** What the rest of the program sees of a step: the table and the lists of
    devices stay, and so do the fields of the devices other modules use;
    [occ] says how the items on a device change. *)
Definition dev_step (occ : Z → Z → Prop → Prop) st st' : Prop :=
  device_indexs st' = device_indexs st ∧
  devices st' = devices st ∧ deleted_devices st' = deleted_devices st ∧
  device_badblock_percent st' = device_badblock_percent st ∧
  ∀ d dv', devs st' !! d = Some dv' → ∃ dv, devs st !! d = Some dv ∧
    d_index dv' = d_index dv ∧
    d_deleted dv' = d_deleted dv ∧ d_kicked dv' = d_kicked dv ∧ d_used dv' = d_used dv ∧
    d_fd dv' = d_fd dv ∧
    ∀ x, OItem x ∈ order_head dv' ↔ occ d x (OItem x ∈ order_head dv).

Lemma dev_step_registered occ st st' i d dv' :
  dev_step occ st st' → registered st' i d dv' →
  ∃ dv, registered st i d dv ∧ d_deleted dv' = d_deleted dv ∧
    ∀ x, OItem x ∈ order_head dv' ↔ occ d x (OItem x ∈ order_head dv).
Proof.
  intros (Et & _ & _ & _ & Hs) (E1 & E2 & E3).
  destruct (Hs d dv' E2) as (dv & Ed & Ei & Edel & _ & _ & _ & Hx).
  exists dv. split_and!; [split_and!|done..]; [by rewrite <- Et|done|congruence].
Qed.

(** One device changes. *)
Lemma dev_step_one occ st st' d dv dv' :
  devs st !! d = Some dv → devs st' = <[d := dv']> (devs st) →
  device_indexs st' = device_indexs st → devices st' = devices st →
  deleted_devices st' = deleted_devices st →
  device_badblock_percent st' = device_badblock_percent st →
  d_index dv' = d_index dv → d_deleted dv' = d_deleted dv → d_kicked dv' = d_kicked dv →
  d_used dv' = d_used dv → d_fd dv' = d_fd dv →
  (∀ x, OItem x ∈ order_head dv' ↔ occ d x (OItem x ∈ order_head dv)) →
  (∀ d2 dv2 x, d2 ≠ d → devs st !! d2 = Some dv2 →
     OItem x ∈ order_head dv2 ↔ occ d2 x (OItem x ∈ order_head dv2)) →
  dev_step occ st st'.
Proof.
  intros Ed Ed' ? ? ? ? ? ? ? ? ? Hx Hy. split_and!; try done. intros d2 dv2. rewrite Ed'.
  destruct (decide (d2 = d)) as [->|Hne].
  - rewrite lookup_insert_eq. intros [= <-]. exists dv. split_and!; done.
  - rewrite lookup_insert_ne by done. intros E2. exists dv2. split_and!; try done. eauto.
Qed.

(** A step that only touches free blocks. *)
Definition same_items st st' : Prop :=
  item_mem st' = item_mem st ∧ dev_step (λ _ _ P, P) st st'.

Lemma same_items_refl st : same_items st st.
Proof. repeat split; try done. intros d dv Hr. exists dv. naive_solver. Qed.

Lemma dev_step_trans occ st1 st2 st3 :
  same_items st1 st2 → dev_step occ st2 st3 →
  (∀ d x P Q, (P ↔ Q) → occ d x P ↔ occ d x Q) → dev_step occ st1 st3.
Proof.
  intros (_ & E1 & E2 & E3 & E4 & H12) (F1 & F2 & F3 & F4 & H23) Hp. split_and!; try congruence.
  intros d dv3 Hr. destruct (H23 _ _ Hr) as (dv2 & Hr2 & ? & ? & ? & ? & ? & Hx).
  destruct (H12 _ _ Hr2) as (dv1 & Hr1 & ? & ? & ? & ? & ? & Hy).
  exists dv1. split_and!; try congruence. intros x. rewrite Hx. by apply Hp.
Qed.

Lemma same_items_trans st1 st2 st3 :
  same_items st1 st2 → same_items st2 st3 → same_items st1 st3.
Proof.
  intros H1 [E H2]. split; [destruct H1; congruence|]. by eapply dev_step_trans.
Qed.

Lemma same_items_detached st st' x : same_items st st' → detached st x → detached st' x.
Proof.
  intros [_ Hs] Hd i d dv' Hr. destruct (dev_step_registered _ _ _ _ _ _ Hs Hr) as (dv & Hr' & _ & Hx).
  rewrite Hx. by eapply Hd.
Qed.

Lemma dev_of_fb st a fb :
  dev_inv st → fblocks st !! a = Some fb →
  ∃ d dv l1 l2, registered st (fb_device_index fb) d dv ∧ order_head dv = l1 ++ OFb a :: l2 ∧
    (OFb a ∉ l1) ∧ (OFb a ∉ l2) ∧ device_ok st dv.
Proof.
  intros Hi Ha. destruct (di_fb st Hi a fb Ha) as (d & dv & Hr & Hin).
  pose proof (di_dev st Hi _ _ _ Hr) as Hok.
  apply list_elem_of_split in Hin as (l1 & l2 & Eo). exists d, dv, l1, l2.
  pose proof (tiled_nodup _ _ _ _ _ (do_tiled _ _ Hok)) as Hnd. rewrite Eo in Hnd.
  apply NoDup_app in Hnd as (_ & Hd & [? _]%NoDup_cons).
  split_and!; try done. intros ?. apply (Hd (OFb a)); [done|]. apply list_elem_of_here.
Qed.

Lemma fb_size_delete st st' a b :
  fblocks st' = delete a (fblocks st) → b ≠ a → fb_size st' b = fb_size st b.
Proof. intros E Hne. unfold fb_size. by rewrite E, lookup_delete_ne. Qed.

(** A deleted free block leaves its list, its queue and the slab. *)
Lemma fblock_drop st q a fb :
  dev_inv st → fblocks st !! a = Some fb →
  q = free_blocks st ∨ q = queue_del (free_blocks st) a →
  ∃ st', device_fblock_delete a (set_free_blocks q st) = Ret (tt, st') ∧ dev_inv st' ∧
    same_items st st' ∧ fblocks st' = delete a (fblocks st).
Proof.
  intros Hi Ha Hq. destruct (dev_of_fb st a fb Hi Ha) as (d & dv & l1 & l2 & Hr & Eo & Hn1 & Hn2 & Hok).
  pose proof Hr as (Ei & Ed & Eix).
  assert (al_live (fslab st) a) as Hlv by (apply (di_live st Hi); eauto).
  destruct (al_free_ok (fslab st) a (di_alloc st Hi) Hlv) as (s' & Es & Hok' & Hlv').
  assert (OFb a ∈ order_head dv) as Hin by (rewrite Eo; apply elem_of_app; right; apply list_elem_of_here).
  eexists. split; [by eapply (fblock_delete_run (set_free_blocks q st) a fb d dv s')|].
  set (st' := set_free_blocks _ _). set (dv' := set_order_head _ _) in st'.
  assert (queue_del q a = queue_del (free_blocks st) a) as Eq.
  { destruct Hq as [->| ->]; [done|]. unfold queue_del. rewrite <- list_fmap_compose.
    apply list_fmap_ext. intros i q' _. simpl. apply list_remove_one_notin.
    rewrite elem_of_list_remove_one. naive_solver. }
  destruct (tiled_remove _ _ _ _ _ _ (do_tiled _ _ Hok) Hin) as (Ht & Hf & Hib & Htb).
  assert (∀ n, n ∈ order_head dv' → same_node st st' n) as Hsame.
  { intros n [Hn Hne]%elem_of_list_remove_one. destruct n as [b|x]; [|done]. simpl.
    apply lookup_delete_ne. congruence. }
  assert (∀ n, n ∈ order_head dv' → ext st' n = ext st n) as Hext
    by (intros; by apply same_node_ext, Hsame).
  destruct (bytes_ext _ _ _ Hext) as [Eb1 Eb2].
  split; [|split; [|done]].
  - apply (dev_inv_update st st' (fb_device_index fb) d dv dv'); try done; try (by left).
    + apply lookup_insert_eq.
    + intros d2 dv2 E2 Hne. simpl. by rewrite lookup_insert_ne.
    + eapply frame_by_nodes; [done..|]. intros n Hn. left.
      destruct (decide (n = OFb a)) as [->|Hne]; [done|]. destruct Hn.
      destruct n as [b|x]; [|done]. simpl. apply lookup_delete_ne. congruence.
    + split; try rewrite Eb1; try rewrite Eb2.
      * intros n Hn. eapply same_node_ok; [by apply Hsame|].
        change (d_index dv') with (d_index dv). apply (do_nodes _ _ Hok).
        by apply elem_of_list_remove_one in Hn as [? _].
      * eapply tiled_ext; [exact Hext|exact Ht].
      * apply Hok.
      * simpl. rewrite Hf, (do_fblock_nr _ _ Hok). done.
      * simpl. rewrite Htb. destruct (do_bad _ _ Hok).
        destruct (tiled_after _ _ _ _ _ _ (do_tiled _ _ Hok) Hin).
        split; [done|lia].
      * simpl. intros Hdel. rewrite Hib, (do_consumed _ _ Hok Hdel). simpl. lia.
      * simpl. intros Hk%(do_kicked _ _ Hok). by rewrite Hk in Hin; apply not_elem_of_nil in Hin.
    + simpl. intros b fb' [Hne Eb]%lookup_delete_Some.
      destruct (decide (fb_device_index fb' = fb_device_index fb)) as [E|]; [|by left]. right.
      split; [done|]. destruct (di_fb st Hi b fb' Eb) as (d2 & dv2 & Hr2 & Hin2).
      destruct (registered_inj _ _ _ _ _ _ _ Hr Hr2 (eq_sym E)) as [<- <-].
      apply elem_of_list_remove_one. split; [done|congruence].
    + simpl. rewrite Eq. eapply buckets_ext; [apply buckets_del, Hi|].
      intros b k [_ Hne]%linked_queue_del. by apply (fb_size_delete st st' a).
    + simpl. rewrite Eq. intros b [fb' [Hne Eb]%lookup_delete_Some].
      destruct (di_linked st Hi b) as [k Hk]; [eauto|]. exists k.
      apply linked_queue_del. done.
    + simpl. intros b. rewrite Hlv', (di_live st Hi). rewrite lookup_delete_is_Some. naive_solver.
  - split; [done|]. apply (dev_step_one _ st st' d dv dv'); try done.
    intros x. simpl. rewrite elem_of_list_remove_one. naive_solver.
Qed.

(** Offsets and sizes of a device fit their fields. *)
Lemma dev_extent_small st dv n :
  device_ok st dv → n ∈ order_head dv →
  0 ≤ (ext st n).1 ∧ 0 < (ext st n).2 ∧ (ext st n).1 + (ext st n).2 ≤ d_capacity dv ∧
  d_capacity dv < 2 ^ 40 ∧ (512 | (ext st n).1) ∧ (512 | (ext st n).2).
Proof.
  intros Hok (l1 & l2 & E)%list_elem_of_split. pose proof (do_tiled _ _ Hok) as Ht.
  rewrite E in Ht. destruct (tiled_inside _ _ _ _ _ _ _ Ht) as (? & ? & ? & ? & ?).
  pose proof (do_cap _ _ Hok) as Hc. unfold SENDFILE_LIMIT in Hc. split_and!; try done. lia.
Qed.

Lemma index_i16 st i d dv : dev_inv st → registered st i d dv → i16 (d_index dv) = i.
Proof.
  intros Hi (Ei & _ & ->). destruct (di_table st Hi i d Ei) as [Hr _].
  unfold IPT_ARRAY_SIZE in Hr. apply swrap_small; lia.
Qed.

(** The queues after [a] got a new size. *)
Lemma buckets_requeue st st' a q sz :
  dev_inv st → (∀ b, b ≠ a → fb_size st' b = fb_size st b) → fb_size st' a = Some sz → 0 ≤ sz →
  q = ipbucket_add (queue_del (free_blocks st) a) a sz →
  buckets_ok (fb_size st') q ∧ ∀ b, b = a ∨ is_Some (fblocks st !! b) → ∃ k, linked q b k.
Proof.
  intros Hi Hne Ha Hsz ->.
  assert (length (queue_del (free_blocks st) a) = Z.to_nat IPB_BUCKETS) as Hlen
    by apply (bo_length _ _ (buckets_del _ _ a (di_buckets st Hi))).
  split.
  - apply buckets_add; [|intros i [_ ?]%linked_queue_del; done|done|done].
    eapply buckets_ext; [apply buckets_del, Hi|].
    intros b k [_ Hb]%linked_queue_del. by apply Hne.
  - intros b Hb. setoid_rewrite linked_add; [|done..].
    destruct (decide (b = a)) as [->|Hba].
    + exists (Z.to_nat (ipbucket_index sz false)). right. split; [done|].
      pose proof (index_down_range sz Hsz). lia.
    + destruct Hb as [?|Hb]; [done|]. destruct (di_linked st Hi b Hb) as [k Hk].
      exists k. left. by apply linked_queue_del.
Qed.

(** A step on one device in which a single free block changes its extent. *)
Lemma dev_inv_resize st st' i d dv dv' l1 seg seg' l2 a fb fb' :
  dev_inv st → registered st i d dv →
  order_head dv = l1 ++ seg ++ l2 → order_head dv' = l1 ++ seg' ++ l2 →
  deleted_devices st' = deleted_devices st → devices st' = devices st → d_deleted dv' = d_deleted dv →
  devs st' = <[d := dv']> (devs st) → device_indexs st' = device_indexs st →
  fslab st' = fslab st → fblocks st !! a = Some fb → fblocks st' = <[a := fb']> (fblocks st) →
  fb_device_index fb' = i → OFb a ∈ seg → OFb a ∈ seg' → (∀ c, OFb c ∈ seg → c = a) →
  free_blocks st' = ipbucket_add (queue_del (free_blocks st) a) a (fb_block_size fb') →
  0 ≤ fb_block_size fb' →
  (∀ y, item_mem st' !! y ≠ item_mem st !! y → detached st y) →
  d_index dv' = i → d_capacity dv' = d_capacity dv → d_kicked dv' = d_kicked dv →
  (∀ n, n ∈ seg' → n = OFb a ∨ node_ok st' i n) →
  (∀ pf lo, fin (ext st) false 0 l1 = (pf, lo) →
     tiled (ext st) pf lo (seg ++ l2) (d_capacity dv) →
     (∀ pf lo hi, tiled (ext st) pf lo l2 hi → tiled (ext st') pf lo l2 hi) →
     tiled (ext st') pf lo (seg' ++ l2) (d_capacity dv)) →
  d_fblock_nr dv' = d_fblock_nr dv + fb_count seg' - fb_count seg →
  d_badblock dv' = d_badblock dv →
  total_bytes (ext st') seg' ≤ total_bytes (ext st) seg →
  (d_deleted dv' = false → d_deleted dv = false ∧
     d_consumed dv' = d_consumed dv + item_bytes (ext st') seg' - item_bytes (ext st) seg) →
  dev_inv st'.
Proof.
  intros Hi Hr Eo Eo' Edl Els Edd Ed Et Es Ea Ef Eix Hain Hain' Honly Eq Hsz Hit Eix' Ec Ek Hnode Htile Hnr Hbad Htot Hcon.
  assert (∀ c, c ≠ a → fblocks st' !! c = fblocks st !! c) as Hne
    by (intros; by rewrite Ef, lookup_insert_ne).
  assert (fblocks st' !! a = Some fb') as Ea' by (by rewrite Ef, lookup_insert_eq).
  assert (∀ c, is_Some (fblocks st' !! c) ↔ is_Some (fblocks st !! c)) as Hdom.
  { intros c. destruct (decide (c = a)) as [->|Hc]; [rewrite Ea, Ea'; by split|by rewrite Hne]. }
  destruct (buckets_requeue st st' a (free_blocks st') (fb_block_size fb')) as [Hbk Hlk].
  { done. } { intros c Hc. unfold fb_size. by rewrite Hne. }
  { unfold fb_size. by rewrite Ea'. } { done. } { done. }
  apply (dev_inv_replace st st' i d dv dv' l1 seg seg' l2); try done.
  - by left.
  - rewrite Ed. apply lookup_insert_eq.
  - intros d2 dv2 E2 Hd2. by rewrite Ed, lookup_insert_ne.
  - intros Hk. split; [congruence|]. intros ->. by apply not_elem_of_nil in Hain.
  - intros [c|y] Hn; simpl in Hn; [left|by right; apply Hit].
    destruct (decide (c = a)) as [->|Hc]; [done|]. by rewrite Hne in Hn.
  - intros n Hn. destruct (Hnode n Hn) as [->|?]; [|done]. simpl. eauto.
  - rewrite Hbad. apply (do_bad _ _ (di_dev st Hi _ _ _ Hr)).
  - lia.
  - intros Hdel. destruct (Hcon Hdel). split; [done|lia].
  - intros c fb1. destruct (decide (c = a)) as [->|Hc].
    + rewrite Ea'. intros [= <-]. by left.
    + rewrite Hne by done. intros E1. right. split; [done|]. intros Hin. by apply Hc, Honly.
  - intros c. rewrite Hdom. intros Hc. apply Hlk. by right.
  - rewrite Es. apply Hi.
  - intros c. by rewrite Es, Hdom, (di_live st Hi).
Qed.

Section take.
Context st x a it fb d dv
  (Hi : dev_inv st) (Hx : item_mem st !! x = Some it) (Hlen : 0 < it_length it < 2 ^ 32)
  (Hdet : detached st x) (Ha : fblocks st !! a = Some fb)
  (Hr : registered st (fb_device_index fb) d dv) (Hdel : d_deleted dv = false)
  (l1 l2 : list onode) (Eo : order_head dv = l1 ++ OFb a :: l2)
  (Hn1 : OFb a ∉ l1) (Hn2 : OFb a ∉ l2).
Let b := ipbucket_block_size (it_length it).
Let off := fb_offset fb + fb_block_size fb - b.
Let it' := set_it_device_index (d_index dv) (set_it_offset off it).
Let q := queue_del (free_blocks st) a.

Lemma take_block_pos : 0 < b ∧ (512 | b).
Proof.
  split; [pose proof (block_size_bounds (it_length it) ltac:(lia)); unfold b; lia|].
  apply block_size_aligned. lia.
Qed.

Lemma take_extent :
  0 ≤ fb_offset fb ∧ 0 < fb_block_size fb ∧ fb_offset fb + fb_block_size fb ≤ d_capacity dv ∧
  d_capacity dv < 2 ^ 40 ∧ (512 | fb_offset fb) ∧ (512 | fb_block_size fb).
Proof.
  pose proof (dev_extent_small st dv (OFb a) (di_dev st Hi _ _ _ Hr)) as Hs.
  simpl in Hs. rewrite Ha in Hs. apply Hs. rewrite Eo. apply elem_of_app. right.
  apply list_elem_of_here.
Qed.

(** Cut from the rear of a larger block. *)
Lemma take_cut : b < fb_block_size fb →
  ∃ st', take_block x a d it fb dv (set_free_blocks q st) = Ret (b, st') ∧ dev_inv st' ∧
    dev_step (λ d' y P, P ∨ d' = d ∧ y = x) st st' ∧
    item_mem st' = <[x := it']> (item_mem st).
Proof using All.
  intros Hlt. destruct take_block_pos as [Hb0 Hb512].
  destruct take_extent as (Ho & Hs & Hend & Hcap & Ho512 & Hs512).
  pose proof Hr as (Ei & Ed & Eix).
  eexists. split.
  { unfold take_block. fold b. rewrite (proj2 (Z.ltb_lt _ _) Hlt).
    erewrite bind_ret; [|
      erewrite bind_ret; [|apply upd_item_run; exact Hx];
      erewrite bind_ret; [|apply upd_order_run; exact Ed];
      erewrite bind_ret; [|apply upd_fb_run; exact Ha];
      apply ipbucket_add_run; apply lookup_insert_eq].
    erewrite bind_ret; [|apply upd_dev_run; apply lookup_insert_eq].
    erewrite bind_ret; [|apply upd_item_run; apply lookup_insert_eq].
    reflexivity. }
  fold off. rewrite (wrap_small 40 off) by (subst off; lia).
  rewrite (index_i16 st _ d dv Hi Hr), <- Eix.
  dev_cbn.
  rewrite !insert_insert_eq, Eo, insert_after_split by done.
  name_state d st' dv'.
  split; [|split; [|done]].
  - apply (dev_inv_resize st st' (fb_device_index fb) d dv dv' l1 [OFb a] [OFb a; OItem x] l2
             a fb (set_fb_block_size (fb_block_size fb - b) fb)); try done.
    1-2: apply list_elem_of_here.
    + by intros c [= ->]%list_elem_of_singleton.
    + simpl. lia.
    + simpl. intros y. destruct (decide (y = x)) as [->|]; [done|]. by rewrite lookup_insert_ne.
    + intros n [->|[->|?%not_elem_of_nil]%elem_of_cons]%elem_of_cons; [by left| |done].
      right. simpl. rewrite lookup_insert_eq. by eexists.
    + intros pf lo _ Ht Hl2. simpl in Ht |- *. rewrite Ha in Ht. rewrite !lookup_insert_eq. simpl in Ht |- *.
      fold b. destruct Ht as (Hg & _ & _ & _ & Ht). split_and!; try done; try lia.
      * by apply Z.divide_sub_r.
      * by apply Z.divide_sub_r; [apply Z.divide_add_r|].
      * apply Hl2. eapply tiled_weaken; [exact Ht|lia|done].
    + simpl. lia.
    + simpl. rewrite Ha, !lookup_insert_eq. simpl. fold b. lia.
    + intros _. split; [done|]. simpl. rewrite lookup_insert_eq. simpl. fold b. lia.
  - apply (dev_step_one _ st st' d dv dv'); try done.
    + intros y. simpl. rewrite Eo, !elem_of_app, !elem_of_cons. naive_solver.
    + naive_solver.
Qed.

(** A block of the exact size becomes the item's. *)
Lemma take_exact : fb_block_size fb = b →
  ∃ st', take_block x a d it fb dv (set_free_blocks q st) = Ret (b, st') ∧ dev_inv st' ∧
    dev_step (λ d' y P, P ∨ d' = d ∧ y = x) st st' ∧
    item_mem st' = <[x := it']> (item_mem st).
Proof using All.
  intros Heq. destruct take_block_pos as [Hb0 Hb512].
  destruct take_extent as (Ho & Hs & Hend & Hcap & Ho512 & Hs512).
  pose proof Hr as (Ei & Ed & Eix).
  assert (al_live (fslab st) a) as Hlv by (apply (di_live st Hi); eauto).
  destruct (al_free_ok (fslab st) a (di_alloc st Hi) Hlv) as (s' & Es & Hok' & Hlv').
  assert (insert_after (OFb a) (OItem x) (order_head dv) = l1 ++ OFb a :: OItem x :: l2) as Eins
    by (by rewrite Eo, insert_after_split).
  assert (list_remove_one (OFb a) (l1 ++ OFb a :: OItem x :: l2) = l1 ++ OItem x :: l2) as Erm.
  { rewrite list_remove_one_split; [done|].
    pose proof (tiled_nodup _ _ _ _ _ (do_tiled _ _ (di_dev st Hi _ _ _ Hr))) as Hnd.
    pose proof (Hdet _ _ _ Hr) as Hxo. rewrite Eo in Hnd, Hxo.
    rewrite elem_of_app, elem_of_cons in Hxo.
    apply NoDup_app in Hnd as (? & Hd & [? ?]%NoDup_cons). apply NoDup_app. split_and!; [done|..].
    - intros n Hn. rewrite !elem_of_cons. specialize (Hd n Hn). rewrite elem_of_cons in Hd.
      naive_solver.
    - apply NoDup_cons. rewrite elem_of_cons. split; [naive_solver|].
      apply NoDup_cons. naive_solver. }
  eexists. split.
  { unfold take_block. fold b. rewrite (proj2 (Z.ltb_ge _ _)) by lia.
    rewrite (proj2 (Z.eqb_eq _ _) Heq).
    erewrite bind_ret; [|
      erewrite bind_ret; [|apply upd_item_run; exact Hx];
      erewrite bind_ret; [|apply upd_order_run; exact Ed];
      eapply fblock_delete_run; [exact Ha|exact Ei|apply lookup_insert_eq| |exact Es]].
    2:{ simpl. rewrite Eins. apply elem_of_app. right. apply list_elem_of_here. }
    erewrite bind_ret; [|apply upd_dev_run; apply lookup_insert_eq].
    erewrite bind_ret; [|apply upd_item_run; apply lookup_insert_eq].
    reflexivity. }
  rewrite (index_i16 st _ d dv Hi Hr), <- Eix.
  dev_cbn.
  rewrite !insert_insert_eq, Eins, Erm. replace (fb_offset fb) with off by (unfold off; lia).
  name_state d st' dv'.
  assert (queue_del q a = q) as Eq.
  { unfold q, queue_del. rewrite <- list_fmap_compose. apply list_fmap_ext. intros k l _. simpl.
    apply list_remove_one_notin. rewrite elem_of_list_remove_one. naive_solver. }
  split; [|split; [|done]].
  - apply (dev_inv_replace st st' (fb_device_index fb) d dv dv' l1 [OFb a] [OItem x] l2);
      try done; try (by left).
    + apply lookup_insert_eq.
    + intros d2 dv2 E2 Hne. simpl. by rewrite lookup_insert_ne.
    + intros [c|y] Hn; simpl in Hn.
      * left. destruct (decide (c = a)) as [->|]; [apply list_elem_of_here|].
        by rewrite lookup_delete_ne in Hn.
      * right. destruct (decide (y = x)) as [->|]; [exact Hdet|].
        by rewrite lookup_insert_ne in Hn.
    + intros n ->%list_elem_of_singleton. simpl.
      rewrite lookup_insert_eq. eexists. split; [done|]. simpl. done.
    + intros pf lo _ Ht Hl2. simpl in Ht |- *. rewrite Ha in Ht. rewrite !lookup_insert_eq. simpl in Ht |- *.
      fold b. rewrite andb_false_r. destruct Ht as (Hg & _ & _ & _ & Ht).
      assert (off = fb_offset fb) as Eoff by (unfold off; lia). rewrite Eoff.
      split_and!; try done.
      * destruct (pf && true); lia.
      * apply Hl2. eapply tiled_weaken; [exact Ht|lia|done].
    + simpl. lia.
    + apply (do_bad _ _ (di_dev st Hi _ _ _ Hr)).
    + simpl. rewrite Ha, !lookup_insert_eq. simpl. fold b. lia.
    + intros _. split; [done|]. simpl. rewrite lookup_insert_eq. simpl. fold b. lia.
    + simpl. intros c fb' [Hc E]%lookup_delete_Some. right. split; [done|].
      rewrite list_elem_of_singleton. congruence.
    + simpl. rewrite Eq. eapply buckets_ext; [apply buckets_del, Hi|].
      intros c k [_ Hne]%linked_queue_del. by apply (fb_size_delete st st' a).
    + simpl. rewrite Eq. intros c [fb' [Hne Eb]%lookup_delete_Some].
      destruct (di_linked st Hi c) as [k Hk]; [eauto|]. exists k.
      apply linked_queue_del. done.
    + simpl. intros c. rewrite Hlv', (di_live st Hi), lookup_delete_is_Some. naive_solver.
  - apply (dev_step_one _ st st' d dv dv'); try done.
    + intros y. simpl. rewrite Eo, !elem_of_app, !elem_of_cons. naive_solver.
    + naive_solver.
Qed.

Lemma take_block_spec : b ≤ fb_block_size fb →
  ∃ st', take_block x a d it fb dv (set_free_blocks q st) = Ret (b, st') ∧ dev_inv st' ∧
    dev_step (λ d' y P, P ∨ d' = d ∧ y = x) st st' ∧
    item_mem st' = <[x := it']> (item_mem st).
Proof using All.
  intros [Hlt|Heq]%Z.lt_eq_cases; [by apply take_cut|by apply take_exact].
Qed.
End take.

(** *** device_get_free_block *)

Lemma fb_size_min st a sz : dev_inv st → fb_size st a = Some sz → 512 ≤ sz.
Proof.
  intros Hi Hs. unfold fb_size in Hs. apply fmap_Some in Hs as (fb & Ha & ->).
  destruct (dev_of_fb st a fb Hi Ha) as (d & dv & l1 & l2 & Hr & Eo & _ & _ & Hok).
  destruct (dev_extent_small st dv (OFb a) Hok) as (_ & Hp & _ & _ & _ & [k Hk]).
  { rewrite Eo. apply elem_of_app. right. apply list_elem_of_here. }
  simpl in *. rewrite Ha in *. simpl in *. lia.
Qed.

(** Free blocks that are gone belonged to deleted devices. *)
Definition dropped st st' : Prop :=
  ∀ a fb, fblocks st !! a = Some fb → fblocks st' !! a = Some fb ∨
    ∃ d dv, registered st (fb_device_index fb) d dv ∧ d_deleted dv = true.

Record got_block st st' (x : Z) (it : ohc_item_t) (d : Z) : Prop := {
  gb_block : ∃ a fb dv, fblocks st !! a = Some fb ∧ OFb a ∈ order_head dv ∧
    registered st (fb_device_index fb) d dv ∧ d_deleted dv = false ∧
    ipbucket_block_size (it_length it) ≤ fb_block_size fb ∧
    item_mem st' = <[x := set_it_device_index (fb_device_index fb)
      (set_it_offset (fb_offset fb + fb_block_size fb - ipbucket_block_size (it_length it)) it)]>
      (item_mem st);
  gb_step : dev_step (λ d' y P, P ∨ d' = d ∧ y = x) st st'
}.

Lemma get_free_block_spec n st x it :
  dev_inv st → item_mem st !! x = Some it → 0 < it_length it < 2 ^ 32 → detached st x →
  ∃ r st', get_free_block_try n x st = Ret (r, st') ∧ dev_inv st' ∧
    (r = 0 ∧ same_items st st' ∧ dropped st st' ∧
       ((∀ a fb, fblocks st' !! a = Some fb → fb_block_size fb < ipbucket_block_size (it_length it)) ∨
        size (fblocks st) = (S n + size (fblocks st'))%nat) ∨
     r = ipbucket_block_size (it_length it) ∧ 0 < r ∧ ∃ d, got_block st st' x it d).
Proof.
  revert st. induction n as [n IH] using lt_wf_ind. intros st Hi Hx Hlen Hdet.
  pose proof (ipbucket_get_spec (fb_size st) (free_blocks st) (it_length it) (di_buckets st Hi)) as Hg.
  specialize (Hg ltac:(intros ? ? ? _ ?; by eapply fb_size_min) ltac:(lia)).
  set (b := ipbucket_block_size (it_length it)) in *.
  destruct (ipbucket_get (free_blocks st) (it_length it)) as [[a q]|] eqn:Eg.
  - destruct Hg as (-> & Hl & sz & Hsz & Hfit & _).
    unfold fb_size in Hsz. apply fmap_Some in Hsz as (fb & Ha & ->).
    destruct (dev_of_fb st a fb Hi Ha) as (d & dv & l1 & l2 & Hr & Eo & Hn1 & Hn2 & Hok).
    pose proof Hr as (Ei & Ed & Eix).
    set (q := queue_del (free_blocks st) a).
    assert (get_free_block_try n x st =
      (if d_deleted dv then
         device_fblock_delete a;;
         match n with S n => get_free_block_try n x | O => mret 0 end
       else take_block x a d it fb dv) (set_free_blocks q st)) as ->.
    { destruct n; cbn [get_free_block_try];
        rewrite (bind_ret _ _ _ _ _ (load_item_run _ _ _ Hx));
        (erewrite bind_ret; [|unfold act; rewrite Eg; reflexivity]); cbn match;
        (erewrite bind_ret; [|apply load_fb_run; exact Ha]);
        (erewrite bind_ret; [|eapply device_of_fblock_run; [exact Ha|exact Ei]]);
        (erewrite bind_ret; [|apply load_dev_run; exact Ed]); done. }
    destruct (d_deleted dv) eqn:Edel.
    + destruct (fblock_drop st q a fb Hi Ha) as (st1 & E1 & Hi1 & Hsi & Ef); [by right|].
      rewrite (bind_ret _ _ _ _ _ E1).
      assert (dropped st st1) as Hd1.
      { intros c fb' Hc. rewrite Ef. destruct (decide (c = a)) as [->|Hne].
        - right. exists d, dv. rewrite Ha in Hc. by injection Hc as <-.
        - left. by rewrite lookup_delete_ne. }
      assert (size (fblocks st) = S (size (fblocks st1))) as Hsz1.
      { rewrite Ef. by rewrite <- (insert_delete_id (fblocks st) a fb Ha) at 1; rewrite map_size_insert_None by apply lookup_delete_eq. }
      destruct n as [|n].
      { exists 0, st1. split_and!; [done..|]. left. split_and!; [done..|]. right. lia. }
      destruct (IH n ltac:(lia) st1) as (r & st2 & E2 & Hi2 & Hcase).
      { done. } { by rewrite (proj1 Hsi). } { done. } { by eapply same_items_detached. }
      exists r, st2. split_and!; [done..|]. destruct Hcase as [(-> & Hs2 & Hd2 & Hex)|(-> & ? & d2 & Hgot)].
      * left. split_and!; [done|by eapply same_items_trans| |].
        -- intros c fb' Hc. destruct (Hd1 c fb' Hc) as [Hc1|?]; [|by right].
           destruct (Hd2 c fb' Hc1) as [?|(d2 & dv2 & Hr2 & Hdl)]; [by left|]. right.
           destruct (dev_step_registered _ _ _ _ _ _ (proj2 Hsi) Hr2) as (dv3 & ? & ? & _).
           exists d2, dv3. split; [done|congruence].
        -- destruct Hex as [?|Hex]; [by left|]. right. lia.
      * right. split_and!; [done..|]. exists d2. destruct Hgot as [(a2 & fb2 & dv2 & Ha2 & Hin2 & Hr2 & Hdel2 & Hfit2 & Em) Hst].
        destruct (dev_step_registered _ _ _ _ _ _ (proj2 Hsi) Hr2) as (dv3 & Hr3 & Hdel3 & _).
        split.
        -- exists a2, fb2, dv3. rewrite Ef in Ha2. apply lookup_delete_Some in Ha2 as [_ Ha2].
           split_and!; [done| |done|congruence|done|].
           ++ destruct (di_fb st Hi a2 fb2 Ha2) as (d4 & dv4 & Hr4 & Hin4).
              destruct (registered_inj _ _ _ _ _ _ _ Hr3 Hr4 eq_refl) as [_ ->]. done.
           ++ rewrite Em. by rewrite (proj1 Hsi).
        -- eapply dev_step_trans; [done|done|]. naive_solver.
    + destruct (take_block_spec st x a it fb d dv Hi Hx Hlen Hdet Ha Hr Edel l1 l2 Eo Hn1 Hn2 Hfit)
        as (st' & Et & Hi' & Hst & Em).
      exists b, st'. split_and!; [done..|]. right. split_and!; [done| |].
      { pose proof (block_size_bounds (it_length it) ltac:(lia)). lia. }
      exists d. split; [|done]. exists a, fb, dv. split_and!; try done.
      * rewrite Eo. apply elem_of_app. right. apply list_elem_of_here.
      * by rewrite Em, Eix.
  - exists 0, st. split_and!; [|done|].
    { destruct n; cbn [get_free_block_try];
        rewrite (bind_ret _ _ _ _ _ (load_item_run _ _ _ Hx));
        (erewrite bind_ret; [|unfold act; rewrite Eg; reflexivity]); done. }
    left. split_and!; [done|apply same_items_refl|by left|]. left. intros a fb Ha.
    destruct (di_linked st Hi a) as [k Hk]; [eauto|]. apply (Hg a k); [done|].
    unfold fb_size. by rewrite Ha.
Qed.

(** *** device_return_free_block *)

Lemma item_taken_out (d x y : Z) l1 seg' l2 :
  OItem x ∉ l1 → OItem x ∉ l2 → (∀ z, OItem z ∉ seg') →
  OItem y ∈ l1 ++ seg' ++ l2 ↔ OItem y ∈ l1 ++ OItem x :: l2 ∧ ¬ (d = d ∧ y = x).
Proof.
  intros H1 H2 Hs. rewrite !elem_of_app, elem_of_cons. split.
  - intros [Hy|[Hy|Hy]]; [|by destruct (Hs y)|]; (split; [tauto|intros [_ ->]; done]).
  - intros [[Hy|[[= ->]|Hy]] Hne]; [tauto|by destruct Hne|tauto].
Qed.

(** The extent is free again: inside a free block, or lost for want of
    memory for one. *)
Definition freed st' (off b : Z) : Prop :=
  ∃ a fb, fblocks st' !! a = Some fb ∧
    fb_offset fb ≤ off ∧ off + b ≤ fb_offset fb + fb_block_size fb.

Section recycle.
Context st x it d dv
  (Hi : dev_inv st) (Hx : item_mem st !! x = Some it)
  (Hr : registered st (it_device_index it) d dv) (Hdel : d_deleted dv = false)
  (l1 l2 : list onode) (Eo : order_head dv = l1 ++ OItem x :: l2).
Let b := ipbucket_block_size (it_length it).

Definition recycled (c : M (dstore AS) unit) (P : dstore AS → Prop) : Prop :=
  ∃ st', (c;; order_del d (OItem x)) st = Ret (tt, st') ∧ dev_inv st' ∧
    dev_step (λ d' y Q, Q ∧ ¬ (d' = d ∧ y = x)) st st' ∧ item_mem st' = item_mem st ∧ P st'.

Definition count_down : M (dstore AS) unit :=
  upd_dev d (λ dv, set_d_consumed (d_consumed dv - b) (set_d_item_nr (d_item_nr dv - 1) dv)).

Lemma recycle_order : NoDup (l1 ++ OItem x :: l2) ∧ (OItem x ∉ l1) ∧ (OItem x ∉ l2).
Proof using Hi Hr Eo.
  pose proof (tiled_nodup _ _ _ _ _ (do_tiled _ _ (di_dev st Hi _ _ _ Hr))) as Hnd.
  rewrite Eo in Hnd. split; [done|].
  apply NoDup_app in Hnd as (_ & Hd & [? _]%NoDup_cons). split; [|done].
  intros ?. apply (Hd (OItem x)); [done|apply list_elem_of_here].
Qed.

Lemma recycle_extent : 0 ≤ it_offset it ∧ 0 < b ∧ it_offset it + b ≤ d_capacity dv ∧
  d_capacity dv < 2 ^ 40 ∧ (512 | it_offset it) ∧ (512 | b) ∧ 0 < it_length it < 2 ^ 32.
Proof using Hi Hx Hr Eo.
  pose proof (di_dev st Hi _ _ _ Hr) as Hok.
  assert (OItem x ∈ order_head dv) as Hin
    by (rewrite Eo; apply elem_of_app; right; apply list_elem_of_here).
  pose proof (dev_extent_small st dv (OItem x) Hok Hin) as Hs. simpl in Hs. rewrite Hx in Hs.
  destruct (do_nodes _ _ Hok _ Hin) as (it1 & E1 & _ & Hl). rewrite Hx in E1.
  injection E1 as <-. simpl in Hs. split_and!; try apply Hs; apply Hl.
Qed.

(** A free block [a] of the same device. *)
Lemma neighbour_fb a : OFb a ∈ order_head dv →
  ∃ fb, fblocks st !! a = Some fb ∧ fb_device_index fb = it_device_index it ∧
    0 ≤ fb_offset fb ∧ 0 < fb_block_size fb ∧
    fb_offset fb + fb_block_size fb ≤ d_capacity dv ∧
    (512 | fb_offset fb) ∧ (512 | fb_block_size fb).
Proof using Hi Hr.
  intros Hin. pose proof (di_dev st Hi _ _ _ Hr) as Hok.
  destruct (do_nodes _ _ Hok _ Hin) as (fb & Ea & Eix). exists fb.
  pose proof (dev_extent_small st dv (OFb a) Hok Hin) as Hs. simpl in Hs. rewrite Ea in Hs.
  destruct Hr as (_ & _ & Edx). rewrite Edx in Eix. split_and!; try done; apply Hs.
Qed.

(** No free block ends where the item starts, or starts where it ends. *)
Lemma recycle_gap_before lo :
  (∀ p pf, last l1 = Some (OFb p) → fblocks st !! p = Some pf →
     fb_offset pf + fb_block_size pf ≠ it_offset it) →
  fin (ext st) false 0 l1 = (true, lo) → lo ≠ it_offset it.
Proof using Hi Hr Eo.
  intros Hprev Hfin. destruct l1 as [|m l1' _] using rev_ind; [done|].
  rewrite fin_snoc in Hfin. injection Hfin as Hm <-. destruct m as [p|]; [|done].
  destruct (neighbour_fb p) as (pf & Ep & _).
  { rewrite Eo, !elem_of_app. left; right. apply list_elem_of_here. }
  simpl. rewrite Ep. simpl. eapply Hprev; [apply last_snoc|done].
Qed.

Lemma recycle_gap_after :
  (∀ n nf, head l2 = Some (OFb n) → fblocks st !! n = Some nf →
     fb_offset nf ≠ it_offset it + b) →
  ∀ n, head l2 = Some n → is_fb n = true → (ext st n).1 ≠ it_offset it + b.
Proof using Hi Hr Eo.
  intros Hnext [n|y] Hh Hfb; [|done]. destruct (neighbour_fb n) as (nf & En & _).
  { rewrite Eo, elem_of_app, elem_of_cons. right; right.
    destruct l2; [done|]. injection Hh as ->. apply list_elem_of_here. }
  simpl. rewrite En. simpl. by eapply Hnext.
Qed.

(** Forward: the free block [p] before the item grows over it. *)
Lemma recycle_forward l1' p pf :
  l1 = l1' ++ [OFb p] → fblocks st !! p = Some pf →
  fb_offset pf + fb_block_size pf = it_offset it →
  (∀ n nf, head l2 = Some (OFb n) → fblocks st !! n = Some nf →
     fb_offset nf ≠ it_offset it + b) →
  recycled ((upd_fb p (set_fb_block_size (fb_block_size pf + b));; device_ipbucket_update p);;
            count_down) (λ st', freed st' (it_offset it) b).
Proof using All.
  intros El1 Ep Hend Hnext. destruct recycle_order as (Hnd & Hx1 & Hx2).
  destruct recycle_extent as (Ho & Hb & Hcap & Hc40 & Ho512 & Hb512 & Hlen).
  assert (OFb p ∈ order_head dv) as Hpin.
  { rewrite Eo, El1, !elem_of_app. left. right. apply list_elem_of_here. }
  destruct (neighbour_fb p Hpin) as (pf' & Ep' & Eix & Hp0 & Hps & _ & Hp1 & Hp2).
  rewrite Ep in Ep'. injection Ep' as <-.
  pose proof Hr as (Ei & Ed & Edx).
  destruct (di_linked st Hi p) as [k Hk]; [eauto|].
  unfold recycled, count_down. eexists. split.
  { erewrite bind_ret; [|
      erewrite bind_ret; [|
        erewrite bind_ret; [|apply upd_fb_run; exact Ep];
        apply ipbucket_update_run; [apply lookup_insert_eq|exists k; exact Hk]];
      apply upd_dev_run; exact Ed].
    apply order_del_run; [apply lookup_insert_eq|]. simpl. rewrite Eo.
    apply elem_of_app. right. apply list_elem_of_here. }
  dev_cbn.
  rewrite insert_insert_eq.
  name_state d st' dv'.
  assert (order_head dv' = l1' ++ [OFb p] ++ l2) as Eo'.
  { simpl. rewrite Eo, El1. change (OItem x :: l2) with ([OItem x] ++ l2).
    rewrite list_remove_one_mid by (by rewrite <- ?El1).
    unfold list_remove_one. rewrite filter_cons_False, filter_nil by naive_solver.
    by rewrite <- app_assoc. }
  split; [|split; [|split; [done|]]].
  - apply (dev_inv_resize st st' (it_device_index it) d dv dv' l1' [OFb p; OItem x] [OFb p] l2
             p pf (set_fb_block_size (fb_block_size pf + b) pf)); try done.
    + by rewrite Eo, El1, <- app_assoc.
    + apply list_elem_of_here.
    + apply list_elem_of_here.
    + intros c. rewrite !elem_of_cons, elem_of_nil. naive_solver.
    + simpl. lia.
    + intros m ->%list_elem_of_singleton. by left.
    + intros q lo _ Ht Hl2. simpl in Ht |- *. rewrite Ep, Hx in Ht. rewrite lookup_insert_eq.
      simpl in Ht |- *. fold b in Ht. destruct Ht as (Hg & _ & _ & _ & _ & _ & _ & _ & Ht).
      split_and!; try done; [lia|by apply Z.divide_add_r|].
      rewrite Z.add_assoc, Hend. apply Hl2, tiled_free_end; [done|]. by apply recycle_gap_after.
    + simpl. lia.
    + simpl. rewrite Ep, Hx, lookup_insert_eq. simpl. fold b. lia.
    + intros _. split; [done|]. simpl. rewrite Hx. simpl. fold b. lia.
  - apply (dev_step_one _ st st' d dv dv'); try done.
    + intros y. simpl. rewrite elem_of_list_remove_one. naive_solver.
    + naive_solver.
  - exists p. eexists. simpl. rewrite lookup_insert_eq. split; [done|]. simpl. lia.
Qed.

(** Backward: the free block [n] behind the item grows down over it. *)
Lemma recycle_backward n nf l2' :
  l2 = OFb n :: l2' → fblocks st !! n = Some nf → fb_offset nf = it_offset it + b →
  (∀ p pf, last l1 = Some (OFb p) → fblocks st !! p = Some pf →
     fb_offset pf + fb_block_size pf ≠ it_offset it) →
  recycled ((upd_fb n (λ fb, set_fb_block_size (fb_block_size nf + b)
                               (set_fb_offset (u40 (fb_offset nf - b)) fb));;
             device_ipbucket_update n);; count_down) (λ st', freed st' (it_offset it) b).
Proof using All.
  intros El2 En Hadj Hprev. destruct recycle_order as (Hnd & Hx1 & Hx2).
  destruct recycle_extent as (Ho & Hb & Hcap & Hc40 & Ho512 & Hb512 & Hlen).
  assert (OFb n ∈ order_head dv) as Hnin.
  { rewrite Eo, El2, !elem_of_app, !elem_of_cons. auto. }
  destruct (neighbour_fb n Hnin) as (nf' & En' & Eix & Hp0 & Hps & Hpe & Hp1 & Hp2).
  rewrite En in En'. injection En' as <-.
  pose proof Hr as (Ei & Ed & Edx).
  destruct (di_linked st Hi n) as [k Hk]; [eauto|].
  unfold recycled, count_down. eexists. split.
  { erewrite bind_ret; [|
      erewrite bind_ret; [|
        erewrite bind_ret; [|apply upd_fb_run; exact En];
        apply ipbucket_update_run; [apply lookup_insert_eq|exists k; exact Hk]];
      apply upd_dev_run; exact Ed].
    apply order_del_run; [apply lookup_insert_eq|]. simpl. rewrite Eo.
    apply elem_of_app. right. apply list_elem_of_here. }
  rewrite (wrap_small 40 (fb_offset nf - b)) by lia.
  replace (fb_offset nf - b) with (it_offset it) by lia.
  dev_cbn.
  rewrite insert_insert_eq.
  name_state d st' dv'.
  assert (order_head dv' = l1 ++ [OFb n] ++ l2') as Eo'.
  { simpl. rewrite Eo, El2. change (OItem x :: OFb n :: l2') with ([OItem x] ++ OFb n :: l2').
    rewrite list_remove_one_mid by (by rewrite <- ?El2).
    unfold list_remove_one. by rewrite filter_cons_False, filter_nil by naive_solver. }
  split; [|split; [|split; [done|]]].
  - apply (dev_inv_resize st st' (it_device_index it) d dv dv' l1 [OItem x; OFb n] [OFb n] l2'
             n nf (set_fb_block_size (fb_block_size nf + b) (set_fb_offset (it_offset it) nf)));
      try done.
    + by rewrite Eo, El2.
    + by apply list_elem_of_further, list_elem_of_here.
    + apply list_elem_of_here.
    + intros c. rewrite !elem_of_cons, elem_of_nil. naive_solver.
    + simpl. lia.
    + intros m ->%list_elem_of_singleton. by left.
    + intros q lo Hfin Ht Hl2. simpl in Ht |- *. rewrite En, Hx in Ht. rewrite lookup_insert_eq.
      simpl in Ht |- *. fold b in Ht.
      destruct Ht as (Hg & _ & _ & _ & _ & _ & _ & _ & Ht). rewrite andb_false_r in Hg.
      split_and!; try done; [|lia|by apply Z.divide_add_r|].
      * destruct q; [|done]. simpl.
        assert (lo ≠ it_offset it); [|lia].
        by eapply recycle_gap_before.
      * apply Hl2. eapply tiled_weaken; [exact Ht|lia|auto].
    + simpl. lia.
    + simpl. rewrite En, Hx, lookup_insert_eq. simpl. fold b. lia.
    + intros _. split; [done|]. simpl. rewrite Hx. simpl. fold b. lia.
  - apply (dev_step_one _ st st' d dv dv'); try done.
    + intros y. simpl. rewrite elem_of_list_remove_one. naive_solver.
    + naive_solver.
  - exists n. eexists. simpl. rewrite lookup_insert_eq. split; [done|]. simpl. lia.
Qed.

(** Both: [p] takes the item's block and the free block [n] behind it. *)
Lemma recycle_both l1' p pf n nf l2' :
  l1 = l1' ++ [OFb p] → fblocks st !! p = Some pf →
  fb_offset pf + fb_block_size pf = it_offset it →
  l2 = OFb n :: l2' → fblocks st !! n = Some nf → fb_offset nf = it_offset it + b →
  recycled ((upd_fb p (set_fb_block_size (fb_block_size pf + (b + fb_block_size nf)));;
             device_ipbucket_update p;; device_fblock_delete n);; count_down)
           (λ st', freed st' (it_offset it) b).
Proof using All.
  intros El1 Ep Hend El2 En Hadj. destruct recycle_order as (Hnd & Hx1 & Hx2).
  destruct recycle_extent as (Ho & Hb & Hcap & Hc40 & Ho512 & Hb512 & Hlen).
  assert (OFb p ∈ order_head dv) as Hpin.
  { rewrite Eo, El1, !elem_of_app. left. right. apply list_elem_of_here. }
  assert (OFb n ∈ order_head dv) as Hnin.
  { rewrite Eo, El2, !elem_of_app, !elem_of_cons. auto. }
  destruct (neighbour_fb p Hpin) as (pf' & Ep' & Eix & Hp0 & Hps & _ & Hp1 & Hp2).
  destruct (neighbour_fb n Hnin) as (nf' & En' & Enix & Hn0 & Hns & _ & Hn1 & Hn2).
  rewrite Ep in Ep'. injection Ep' as <-. rewrite En in En'. injection En' as <-.
  assert (n ≠ p) as Hnp by (intros ->; rewrite Ep in En; injection En as <-; lia).
  pose proof Hr as (Ei & Ed & Edx).
  destruct (di_linked st Hi p) as [k Hk]; [eauto|].
  assert (al_live (fslab st) n) as Hlv by (apply (di_live st Hi); eauto).
  destruct (al_free_ok (fslab st) n (di_alloc st Hi) Hlv) as (s' & Es & Hok' & Hlv').
  assert (list_remove_one (OItem x) (list_remove_one (OFb n) (order_head dv)) = l1' ++ [OFb p] ++ l2')
    as Erm.
  { rewrite Eo, El1, El2 in *.
    assert ((OFb n ∉ l1' ++ [OFb p]) ∧ (OFb n ∉ l2') ∧ (OItem x ∉ l2')) as (? & ? & ?).
    { apply NoDup_app in Hnd as (_ & Hd & [Hxn [Hnn _]%NoDup_cons]%NoDup_cons).
      apply not_elem_of_cons in Hxn as [_ Hxn]. split_and!; [|done..].
      intros Hin. apply (Hd _ Hin). rewrite !elem_of_cons. auto. }
    change (OItem x :: OFb n :: l2') with ([OItem x; OFb n] ++ l2').
    rewrite (list_remove_one_mid (OFb n)) by done.
    unfold list_remove_one at 2. rewrite filter_cons_True, filter_cons_False, filter_nil by naive_solver.
    rewrite list_remove_one_mid by done. unfold list_remove_one.
    rewrite filter_cons_False, filter_nil by naive_solver. by rewrite <- app_assoc. }
  unfold recycled, count_down. eexists. split.
  { erewrite bind_ret; [|
      erewrite bind_ret; [|
        erewrite bind_ret; [|apply upd_fb_run; exact Ep];
        erewrite bind_ret; [|apply ipbucket_update_run; [apply lookup_insert_eq|exists k; exact Hk]];
        eapply fblock_delete_run; [simpl; rewrite lookup_insert_ne by done; exact En
          |simpl; rewrite Enix; exact Ei|exact Ed|exact Hnin|exact Es]];
      apply upd_dev_run; apply lookup_insert_eq].
    apply order_del_run; [apply lookup_insert_eq|]. simpl. apply elem_of_list_remove_one.
    split; [|done]. rewrite Eo. apply elem_of_app. right. apply list_elem_of_here. }
  dev_cbn. rewrite !insert_insert_eq, Erm. name_state d st' dv'.
  set (st1 := set_fblocks (<[p := set_fb_block_size (fb_block_size pf + (b + fb_block_size nf)) pf]>
               (fblocks st)) st).
  destruct (buckets_requeue st st1 p (ipbucket_add (queue_del (free_blocks st) p) p
              (fb_block_size pf + (b + fb_block_size nf))) (fb_block_size pf + (b + fb_block_size nf)))
    as [Hbk Hlk].
  { done. } { intros c Hc. unfold fb_size. simpl. by rewrite lookup_insert_ne. }
  { unfold fb_size. simpl. by rewrite lookup_insert_eq. } { lia. } { done. }
  assert (fblocks st' !! p = Some (set_fb_block_size (fb_block_size pf + (b + fb_block_size nf)) pf)) as Ep1.
  { simpl. by rewrite lookup_delete_ne, lookup_insert_eq. }
  assert (ext st' (OFb p) = (fb_offset pf, fb_block_size pf + (b + fb_block_size nf))) as Eext
    by (unfold ext; by rewrite Ep1).
  assert (∀ c, c ≠ p → c ≠ n → fblocks st' !! c = fblocks st !! c) as Hoth.
  { intros c ? ?. simpl. by rewrite lookup_delete_ne, lookup_insert_ne. }
  split; [|split; [|split; [done|]]].
  - apply (dev_inv_replace st st' (it_device_index it) d dv dv' l1'
             [OFb p; OItem x; OFb n] [OFb p] l2'); try done; try (by left).
    + by rewrite Eo, El1, El2, <- app_assoc.
    + apply lookup_insert_eq.
    + intros d2 dv2 E2 Hne. simpl. by rewrite lookup_insert_ne.
    + intros [c|y] Hn; [|done]. left. rewrite !elem_of_cons.
      destruct (decide (c = p)) as [->|]; [auto|]. destruct (decide (c = n)) as [->|]; [auto|].
      destruct Hn. by apply Hoth.
    + intros m ->%list_elem_of_singleton. exists (set_fb_block_size (fb_block_size pf + (b + fb_block_size nf)) pf). done.
    + intros q lo _ Ht Hl2. cbn [tiled app] in Ht |- *. rewrite Eext.
      simpl in Ht. rewrite Ep, Hx, En in Ht. simpl in Ht. fold b in Ht.
      destruct Ht as (Hg & _ & _ & _ & _ & _ & _ & _ & _ & _ & _ & _ & Ht). simpl.
      split_and!; try done; [lia|by apply Z.divide_add_r; [|apply Z.divide_add_r]|].
      apply Hl2. eapply tiled_weaken; [exact Ht|lia|auto].
    + simpl. lia.
    + apply (do_bad _ _ (di_dev st Hi _ _ _ Hr)).
    + cbn [total_bytes]. rewrite Eext. simpl. rewrite Ep, Hx, En. simpl. fold b. lia.
    + intros _. split; [done|]. simpl. rewrite Hx. simpl. fold b. lia.
    + intros c fb'. destruct (decide (c = p)) as [->|Hc].
      * rewrite Ep1. intros [= <-]. left. split; [apply list_elem_of_here|done].
      * destruct (decide (c = n)) as [->|Hcn]; [simpl; by rewrite lookup_delete_eq|].
        rewrite Hoth by done. intros E. right. split; [done|].
        rewrite !elem_of_cons, elem_of_nil. naive_solver.
    + simpl. eapply (buckets_ext (fb_size st1)); [by apply buckets_del|].
      intros c j [_ Hne]%linked_queue_del. by apply (fb_size_delete st1 st' n).
    + simpl. intros c [fb' [Hne Ec]%lookup_delete_Some].
      destruct (Hlk c) as [j Hj].
      { destruct (decide (c = p)) as [|Hcp]; [by left|]. rewrite lookup_insert_ne in Ec by done. eauto. }
      exists j. by apply linked_queue_del.
    + simpl. intros c. rewrite Hlv', (di_live st Hi), lookup_delete_is_Some, lookup_insert_is_Some'.
      destruct (decide (c = p)) as [->|]; naive_solver.
  - apply (dev_step_one _ st st' d dv dv'); try done; [|naive_solver].
    intros y. change (order_head dv') with (l1' ++ [OFb p] ++ l2').
    rewrite <- Erm, !elem_of_list_remove_one. naive_solver.
  - exists p, (set_fb_block_size (fb_block_size pf + (b + fb_block_size nf)) pf).
    split; [done|]. simpl. lia.
Qed.

Lemma buckets_fresh st' a sz q :
  fblocks st !! a = None → (∀ c, c ≠ a → fb_size st' c = fb_size st c) →
  fb_size st' a = Some sz → 0 ≤ sz → q = ipbucket_add (free_blocks st) a sz →
  buckets_ok (fb_size st') q ∧ ∀ c, c = a ∨ is_Some (fblocks st !! c) → ∃ k, linked q c k.
Proof using Hi.
  intros Ha Hne Esz Hsz ->.
  assert (queue_del (free_blocks st) a = free_blocks st) as Eq.
  { rewrite <- ipbucket_del_eq. unfold ipbucket_del.
    destruct (queue_linked (free_blocks st) a) eqn:El; [|done].
    apply queue_linked_spec in El as [k Hk].
    destruct (bo_class _ _ (di_buckets st Hi) _ _ Hk) as (s & Es & _).
    unfold fb_size in Es. by rewrite Ha in Es. }
  apply (buckets_requeue st st' a _ sz); try done. by rewrite Eq.
Qed.

(** Neither: a new free block, or none when memory is short. *)
Lemma recycle_new :
  (∀ p pf, last l1 = Some (OFb p) → fblocks st !! p = Some pf →
     fb_offset pf + fb_block_size pf ≠ it_offset it) →
  (∀ n nf, head l2 = Some (OFb n) → fblocks st !! n = Some nf →
     fb_offset nf ≠ it_offset it + b) →
  recycled ((_ ← device_fblock_insert d (Some (OItem x)) (it_offset it) b; mret tt);; count_down)
           (λ st', freed st' (it_offset it) b ∨ fblocks st' = fblocks st).
Proof using All.
  intros Hprev Hnext. destruct recycle_order as (Hnd & Hx1 & Hx2).
  destruct recycle_extent as (Ho & Hb & Hcap & Hc40 & Ho512 & Hb512 & Hlen).
  pose proof Hr as (Ei & Ed & Edx).
  assert (list_remove_one (OItem x) (l1 ++ OItem x :: l2) = l1 ++ [] ++ l2) as Erm.
  { by rewrite list_remove_one_split. }
  assert (OItem x ∈ l1 ++ OItem x :: l2) as Hxin
    by (apply elem_of_app; right; apply list_elem_of_here).
  destruct (fblock_insert_run st d dv (Some (OItem x)) (it_offset it) b Ed (di_alloc st Hi))
    as ([a|] & s' & Eal & Hok' & Hres).
  - destruct Hres as (Hnew & Hlv' & Erun).
    assert (fblocks st !! a = None) as Ha.
    { apply eq_None_not_Some. by rewrite <- (di_live st Hi). }
    assert (OFb a ∉ l1 ++ l2) as Hal.
    { intros Hin. assert (OFb a ∈ order_head dv) as Hin'.
      { rewrite Eo. apply elem_of_app in Hin as [?|?]; apply elem_of_app; [by left|right].
        by apply list_elem_of_further. }
      destruct (do_nodes _ _ (di_dev st Hi _ _ _ Hr) _ Hin') as (? & ? & _). congruence. }
    rewrite not_elem_of_app in Hal. destruct Hal as [Ha1 Ha2].
    assert (list_remove_one (OItem x) (insert_before (Some (OItem x)) (OFb a) (order_head dv))
            = l1 ++ [OFb a] ++ l2) as Eins.
    { rewrite Eo, insert_before_split by done.
      change (OFb a :: OItem x :: l2) with ([OFb a; OItem x] ++ l2).
      rewrite list_remove_one_mid by done. unfold list_remove_one.
      by rewrite filter_cons_True, filter_cons_False, filter_nil by naive_solver. }
    unfold recycled, count_down. eexists. split.
    { erewrite bind_ret; [|
        erewrite bind_ret; [|erewrite bind_ret; [|exact Erun]; reflexivity];
        apply upd_dev_run; apply lookup_insert_eq].
      apply order_del_run; [apply lookup_insert_eq|]. simpl. rewrite Eo, insert_before_split by done.
      apply elem_of_app. right. apply list_elem_of_further, list_elem_of_here. }
    rewrite (index_i16 st _ d dv Hi Hr), (wrap_small 40 (it_offset it)) by lia.
    dev_cbn. rewrite !insert_insert_eq, Eins. name_state d st' dv'.
    destruct (buckets_fresh st' a b (free_blocks st') Ha) as [Hbk Hlk].
    { intros c Hc. unfold fb_size. simpl. by rewrite lookup_insert_ne. }
    { unfold fb_size. simpl. by rewrite lookup_insert_eq. } { lia. } { done. }
    split; [|split; [|split; [done|left]]].
    + apply (dev_inv_replace st st' (it_device_index it) d dv dv' l1 [OItem x] [OFb a] l2); try done; try (by left).
      * apply lookup_insert_eq.
      * intros d2 dv2 E2 Hne. simpl. by rewrite lookup_insert_ne.
      * intros [c|y] Hn; [|done]. right. simpl in Hn.
        destruct (decide (c = a)) as [->|]; [|by rewrite lookup_insert_ne in Hn].
        intros j d2 dv2 Hr2 Hin. destruct (do_nodes _ _ (di_dev st Hi _ _ _ Hr2) _ Hin) as (? & ? & _).
        congruence.
      * intros m ->%list_elem_of_singleton. simpl. rewrite lookup_insert_eq. by eexists.
      * intros q lo Hfin Ht Hl2. simpl in Ht |- *. rewrite Hx in Ht. rewrite lookup_insert_eq.
        simpl in Ht |- *. fold b in Ht. rewrite andb_false_r in Ht.
        destruct Ht as (Hg & _ & _ & _ & Ht). split_and!; try done.
        -- destruct q; [|done]. simpl. assert (lo ≠ it_offset it); [|lia].
           by eapply recycle_gap_before.
        -- apply Hl2, tiled_free_end; [done|]. by apply recycle_gap_after.
      * simpl. lia.
      * apply (do_bad _ _ (di_dev st Hi _ _ _ Hr)).
      * simpl. rewrite Hx, lookup_insert_eq. simpl. fold b. lia.
      * intros _. split; [done|]. simpl. rewrite Hx. simpl. fold b. lia.
      * simpl. intros c fb'. destruct (decide (c = a)) as [->|Hc].
        -- rewrite lookup_insert_eq. intros [= <-]. left. split; [apply list_elem_of_here|done].
        -- rewrite lookup_insert_ne by done. intros E. right. split; [done|].
           by rewrite list_elem_of_singleton.
      * intros c. simpl. intros [? Hc]. apply Hlk. destruct (decide (c = a)) as [|Hca]; [by left|].
        rewrite lookup_insert_ne in Hc by done. eauto.
      * simpl. intros c. rewrite Hlv', (di_live st Hi), lookup_insert_is_Some'. naive_solver.
    + apply (dev_step_one _ st st' d dv dv'); try done; [|naive_solver].
      intros y. change (order_head dv') with (l1 ++ [OFb a] ++ l2).
      rewrite Eo. apply item_taken_out; [done..|]. intros z. by rewrite list_elem_of_singleton.
    + exists a. eexists. simpl. rewrite lookup_insert_eq. split; [done|]. simpl. lia.
  - destruct Hres as (Hlv' & Erun).
    unfold recycled, count_down. eexists. split.
    { erewrite bind_ret; [|
        erewrite bind_ret; [|erewrite bind_ret; [|exact Erun]; reflexivity];
        apply upd_dev_run; exact Ed].
      apply order_del_run; [apply lookup_insert_eq|]. simpl. by rewrite Eo. }
    dev_cbn. rewrite !insert_insert_eq, Eo, Erm. name_state d st' dv'.
    split; [|split; [|split; [done|by right]]].
    + apply (dev_inv_replace st st' (it_device_index it) d dv dv' l1 [OItem x] [] l2); try done; try (by left).
      * apply lookup_insert_eq.
      * intros d2 dv2 E2 Hne. simpl. by rewrite lookup_insert_ne.
      * intros [c|y] Hn; by destruct Hn.
      * by intros n ?%not_elem_of_nil.
      * intros q lo _ Ht Hl2. simpl in Ht |- *. rewrite Hx in Ht. simpl in Ht. fold b in Ht.
        rewrite andb_false_r in Ht. destruct Ht as (Hg & _ & _ & _ & Ht).
        apply Hl2. eapply tiled_weaken; [exact Ht|lia|]. intros _. right. lia.
      * simpl. lia.
      * apply (do_bad _ _ (di_dev st Hi _ _ _ Hr)).
      * simpl. rewrite Hx. simpl. fold b. lia.
      * intros _. split; [done|]. simpl. rewrite Hx. simpl. fold b. lia.
      * simpl. intros c fb' E. right. split; [done|]. by rewrite list_elem_of_singleton.
      * exact (di_buckets st Hi).
      * exact (di_linked st Hi).
      * simpl. intros c. by rewrite Hlv', (di_live st Hi).
    + apply (dev_step_one _ st st' d dv dv'); try done; [|naive_solver].
      intros y. rewrite Eo. apply (item_taken_out d x y l1 [] l2); [done..|].
      intros z. apply not_elem_of_nil.
Qed.

Lemma recycled_eq c c' (P P' : dstore AS → Prop) :
  c st = c' st → (∀ s, P s → P' s) → recycled c P → recycled c' P'.
Proof.
  intros E HP (st' & Er & Hi' & Hst & Em & HPs). exists st'. split_and!; try done; [|by apply HP].
  unfold mbind, M_bind in *. by rewrite <- E.
Qed.

(** A neighbour in the order list, as [fblock_of] sees it. *)
Lemma fblock_of_run (o : option onode) :
  (∀ n, o = Some n → n ∈ order_head dv) →
  (∃ a fb, o = Some (OFb a) ∧ fblocks st !! a = Some fb ∧ fblock_of o st = Ret (Some (a, fb), st)) ∨
  (∀ a, o ≠ Some (OFb a)) ∧ fblock_of o st = Ret (None, st).
Proof using Hi Hr.
  intros Hin. destruct o as [[a|y]|]; [|by right..].
  destruct (neighbour_fb a (Hin _ eq_refl)) as (fb & Ea & _). left. exists a, fb.
  split_and!; [done..|]. simpl. by rewrite (bind_ret _ _ _ _ _ (load_fb_run _ _ _ Ea)).
Qed.

Lemma recycle_block_spec :
  recycled (recycle_block x d it dv)
           (λ st', freed st' (it_offset it) b ∨ fblocks st' = fblocks st).
Proof using All.
  destruct recycle_order as (Hnd & Hx1 & Hx2).
  assert (∀ n, last l1 = Some n → n ∈ order_head dv) as Hl.
  { intros n [l ->]%last_Some. rewrite Eo, !elem_of_app. left; right. apply list_elem_of_here. }
  assert (∀ n, head l2 = Some n → n ∈ order_head dv) as Hh.
  { intros n Hn. destruct l2 as [|m l2']; [done|]. injection Hn as ->.
    rewrite Eo, elem_of_app, !elem_of_cons. auto. }
  pose proof (fblock_of_run (last l1) Hl) as HP. pose proof (fblock_of_run (head l2) Hh) as HN.
  assert (∀ u v, fblock_of (last l1) st = Ret (u, st) → fblock_of (head l2) st = Ret (v, st) →
    recycle_block x d it dv st = merge_block x d it u v st) as Eb0.
  { intros u v Eu Ev. unfold recycle_block. rewrite Eo, order_prev_split, order_next_split by done.
    by rewrite (bind_ret _ _ _ _ _ Eu), (bind_ret _ _ _ _ _ Ev). }
  assert (∀ p pf, last l1 = Some (OFb p) → fblocks st !! p = Some pf →
    ∃ l1', l1 = l1' ++ [OFb p]) as Hl1 by (intros p pf Hp _; by apply last_Some in Hp).
  assert (∀ n nf, head l2 = Some (OFb n) → fblocks st !! n = Some nf →
    ∃ l2', l2 = OFb n :: l2') as Hl2.
  { intros n nf Hn _. destruct l2 as [|m l2']; [done|]. injection Hn as ->. eauto. }
  destruct HP as [(p & pf & Elp & Ep & Erp)|[Hnp Erp]],
           HN as [(n & nf & Ehn & En & Ern)|[Hnn Ern]]; 
    pose proof (Eb0 _ _ Erp Ern) as Eb; unfold merge_block in Eb; fold b in Eb.
  - destruct (Hl1 p pf Elp Ep) as [l1' El1]. destruct (Hl2 n nf Ehn En) as [l2' El2].
    destruct (Z.eqb_spec (fb_offset pf + fb_block_size pf) (it_offset it)) as [Ef|Ef],
             (Z.eqb_spec (fb_offset nf) (it_offset it + b)) as [Eg|Eg]; simpl in Eb.
    + eapply recycled_eq; [exact (eq_sym Eb)| |by eapply (recycle_both l1' p pf n nf l2')]. auto.
    + eapply recycled_eq; [exact (eq_sym Eb)| |by eapply (recycle_forward l1' p pf); [..|congruence]]. auto.
    + eapply recycled_eq; [exact (eq_sym Eb)| |by eapply (recycle_backward n nf l2'); [..|congruence]]. auto.
    + eapply recycled_eq; [exact (eq_sym Eb)| |apply recycle_new; congruence]. auto.
  - destruct (Hl1 p pf Elp Ep) as [l1' El1].
    destruct (Z.eqb_spec (fb_offset pf + fb_block_size pf) (it_offset it)) as [Ef|Ef]; simpl in Eb.
    + eapply recycled_eq; [exact (eq_sym Eb)| |by eapply (recycle_forward l1' p pf); [..|naive_solver]]. auto.
    + eapply recycled_eq; [exact (eq_sym Eb)| |apply recycle_new; [congruence|naive_solver]]. auto.
  - destruct (Hl2 n nf Ehn En) as [l2' El2].
    destruct (Z.eqb_spec (fb_offset nf) (it_offset it + b)) as [Eg|Eg]; simpl in Eb.
    + eapply recycled_eq; [exact (eq_sym Eb)| |by eapply (recycle_backward n nf l2'); [..|naive_solver]]. auto.
    + eapply recycled_eq; [exact (eq_sym Eb)| |apply recycle_new; [naive_solver|congruence]]. auto.
  - eapply recycled_eq; [exact (eq_sym Eb)| |apply recycle_new; naive_solver]. auto.
Qed.
End recycle.

(** The order list of [d] lost item [x]; a device may have been kicked. *)
Definition item_returned st st' (d x : Z) : Prop :=
  device_indexs st' = device_indexs st ∧ item_mem st' = item_mem st ∧
  device_badblock_percent st' = device_badblock_percent st ∧
  ∀ i d' dv', registered st' i d' dv' → ∃ dv, registered st i d' dv ∧
    d_used dv' = d_used dv ∧ (d_deleted dv = true → d_deleted dv' = true) ∧
    ∀ y, OItem y ∈ order_head dv' ↔ OItem y ∈ order_head dv ∧ ¬ (d' = d ∧ y = x).

(** Item [x] leaves its list and its block is not recycled. *)
Lemma unlink_item st st' x it i d dv dv' :
  dev_inv st → item_mem st !! x = Some it → registered st i d dv → OItem x ∈ order_head dv →
  fblocks st' = fblocks st → free_blocks st' = free_blocks st → fslab st' = fslab st →
  item_mem st' = item_mem st → device_indexs st' = device_indexs st →
  device_badblock_percent st' = device_badblock_percent st →
  dels_step st st' d dv dv' → devs st' !! d = Some dv' →
  (∀ d2 dv2, devs st !! d2 = Some dv2 → d2 ≠ d → devs st' !! d2 = Some dv2) →
  order_head dv' = list_remove_one (OItem x) (order_head dv) →
  d_index dv' = d_index dv → d_capacity dv' = d_capacity dv → d_kicked dv' = d_kicked dv →
  d_fblock_nr dv' = d_fblock_nr dv → d_used dv' = d_used dv →
  (d_badblock dv' = d_badblock dv ∧ d_deleted dv = true ∧ d_deleted dv' = true ∨
   d_badblock dv' = d_badblock dv + ipbucket_block_size (it_length it) ∧ d_deleted dv = false ∧
     d_consumed dv' = d_consumed dv) →
  dev_inv st' ∧ item_returned st st' d x.
Proof.
  intros Hi Hx Hr Hin Ef Eq Es Em Et Epc Hdl Ed Hds Eo' Eix Ec Ek Enr Eu Hacc.
  pose proof (di_dev st Hi _ _ _ Hr) as Hok.
  pose proof (tiled_nodup _ _ _ _ _ (do_tiled _ _ Hok)) as Hnd.
  pose proof Hin as (l1 & l2 & Eo)%list_elem_of_split.
  assert (ext st (OItem x) = (it_offset it, ipbucket_block_size (it_length it))) as Eext
    by (simpl; by rewrite Hx).
  assert (∀ n, ext st' n = ext st n) as Hext by (intros [?|?]; simpl; by rewrite ?Ef, ?Em).
  destruct (dev_extent_small st dv (OItem x) Hok Hin) as (_ & Hpos & _). rewrite Eext in Hpos.
  simpl in Hpos. pose proof (do_bad _ _ Hok) as [Hbad0 _].
  split.
  - apply (dev_inv_replace st st' i d dv dv' l1 [OItem x] [] l2); try done.
    + rewrite Eo', Eo. rewrite Eo in Hnd. by rewrite list_remove_one_split.
    + by destruct Hr as (_ & _ & <-).
    + by rewrite Ek.
    + intros [c|y] Hn; simpl in Hn; by rewrite ?Ef, ?Em in Hn.
    + by intros n ?%not_elem_of_nil.
    + intros pf lo _ Ht Hl2. cbn [tiled app] in Ht |- *. rewrite Eext in Ht. simpl in Ht.
      rewrite andb_false_r in Ht. destruct Ht as (Hg & _ & _ & _ & Ht).
      apply Hl2. eapply tiled_weaken; [exact Ht|lia|]. intros _. right. lia.
    + simpl. lia.
    + lia.
    + cbn [total_bytes]. rewrite Eext. simpl. lia.
    + intros Hdel. cbn [item_bytes]. rewrite Eext. simpl.
      destruct Hacc as [(_ & _ & ?)|(-> & ? & ->)]; [congruence|]. split; [done|lia].
    + rewrite Ef. intros a fb Ha. right. split; [done|]. by rewrite list_elem_of_singleton.
    + unfold fb_size. rewrite Ef, Eq. apply Hi.
    + rewrite Ef, Eq. apply Hi.
    + rewrite Es. apply Hi.
    + rewrite Es, Ef. apply Hi.
  - split_and!; try done. intros j d' dv2 (E1 & E2 & E3). rewrite Et in E1.
    destruct (decide (d' = d)) as [->|Hne].
    + rewrite Ed in E2. injection E2 as <-. exists dv.
      destruct Hr as (E4 & E5 & E6). split_and!; [split_and!; [done..|congruence]|done| |].
      * destruct Hacc as [(_ & _ & ?)|(_ & Hf & _)]; [done|by rewrite Hf].
      * intros y. rewrite Eo', elem_of_list_remove_one. naive_solver.
    + destruct (di_table st Hi j d' E1) as (_ & dv3 & E4 & E5).
      pose proof (Hds d' dv3 E4 Hne) as E6. rewrite E6 in E2. injection E2 as <-.
      exists dv3. split_and!; try done. naive_solver.
Qed.

Lemma same_items_returned occ st st' d x :
  dev_step occ st st' → item_mem st' = item_mem st →
  (∀ d' y P, occ d' y P ↔ P ∧ ¬ (d' = d ∧ y = x)) → item_returned st st' d x.
Proof.
  intros Hs Em Hocc. pose proof Hs as (Et & _ & _ & Ep & Hd). split_and!; try done.
  intros i d' dv' (E1 & E2 & E3). destruct (Hd d' dv' E2) as (dv & E4 & E5 & E6 & _ & E7 & _ & Hy).
  exists dv. split_and!; [split_and!; [by rewrite <- Et|done|congruence]|done|congruence|].
  intros y. by rewrite Hy, Hocc.
Qed.

(** A kick leaves [d] deleted, and a copy that is in no table. *)
Lemma device_kick_run st a d dv :
  devs st !! d = Some dv → d_kicked dv = false → devs st !! a = None →
  ∃ st', device_kick (Some a) d st = Ret (tt, st') ∧
    devs st' !! d = Some (set_d_deleted true dv) ∧
    (∀ d2, d2 ≠ d → is_Some (devs st !! d2) → devs st' !! d2 = devs st !! d2) ∧
    fblocks st' = fblocks st ∧ free_blocks st' = free_blocks st ∧ fslab st' = fslab st ∧
    item_mem st' = item_mem st ∧ device_indexs st' = device_indexs st ∧
    device_badblock_percent st' = device_badblock_percent st ∧
    deleted_devices st' = d :: list_remove_one d (deleted_devices st) ∧
    devices st' = list_remove_one d (dnode_after d a (devices st)) ∧
    ∃ dv2, devs st' !! a = Some dv2 ∧ d_kicked dv2 = true.
Proof.
  intros Ed Ek Ea. assert (a ≠ d) as Hne by congruence.
  eexists. split.
  { unfold device_kick. erewrite bind_ret; [|apply load_dev_run; exact Ed].
    erewrite bind_ret; [|reflexivity]. erewrite bind_ret; [|reflexivity].
    unfold device_delete.
    erewrite bind_ret; [|apply load_dev_run; simpl; rewrite lookup_insert_ne by done; exact Ed].
    erewrite bind_ret; [|reflexivity]. rewrite Ek.
    erewrite bind_ret; [|apply upd_dev_run; simpl; rewrite lookup_insert_ne by done; exact Ed].
    reflexivity. }
  simpl. split_and!; try done.
  - apply lookup_insert_eq.
  - intros d2 Hd2 [dv2 E2]. rewrite lookup_insert_ne by done. rewrite lookup_insert_ne; [done|].
    intros <-. congruence.
  - eexists. split; [rewrite lookup_insert_ne by done; apply lookup_insert_eq|done].
Qed.

(** On a deleted device the item only leaves the order list. *)
Lemma return_free_block_deleted malloc st x it d dv :
  item_mem st !! x = Some it → registered st (it_device_index it) d dv →
  OItem x ∈ order_head dv → d_deleted dv = true →
  device_return_free_block malloc x st = Ret (ipbucket_block_size (it_length it),
    set_devs (<[d := set_order_head (list_remove_one (OItem x) (order_head dv)) dv]> (devs st)) st).
Proof.
  intros Hx (Ei & Ed & _) Hin Edel. unfold device_return_free_block.
  erewrite bind_ret; [|apply load_item_run; exact Hx].
  erewrite bind_ret; [|apply device_at_run; exact Ei].
  erewrite bind_ret; [|apply load_dev_run; exact Ed]. rewrite Edel.
  erewrite bind_ret; [|reflexivity].
  by erewrite bind_ret; [|apply order_del_run; [exact Ed|exact Hin]].
Qed.

Lemma return_free_block_spec malloc st x it d dv :
  dev_inv st → item_mem st !! x = Some it → registered st (it_device_index it) d dv →
  OItem x ∈ order_head dv → (∀ a, malloc = Some a → devs st !! a = None) →
  let b := ipbucket_block_size (it_length it) in
  ∃ st', device_return_free_block malloc x st = Ret (b, st') ∧ dev_inv st' ∧
    item_returned st st' d x ∧
    (d_deleted dv = false → it_badblock it = false →
     freed st' (it_offset it) b ∨ fblocks st' = fblocks st).
Proof.
  intros Hi Hx Hr Hin Hm b. pose proof Hr as (Ei & Ed & Eix).
  pose proof (di_dev st Hi _ _ _ Hr) as Hok.
  destruct (dev_extent_small st dv (OItem x) Hok Hin) as (Ho0 & Hpos & Hend & Hc40 & _).
  simpl in Ho0, Hpos, Hend. rewrite Hx in Ho0, Hpos, Hend. simpl in Ho0, Hpos, Hend. fold b in Hpos, Hend.
  assert (d_kicked dv = false) as Ekick.
  { apply not_true_is_false. intros Hk%(do_kicked _ _ Hok). rewrite Hk in Hin.
    by apply not_elem_of_nil in Hin. }
  pose proof (do_bad _ _ Hok) as [Hbad0 Hbad1].
  pose proof (total_bytes_nonneg _ _ _ _ _ (do_tiled _ _ Hok)) as [Htb _].
  assert (b ≤ total_bytes (ext st) (order_head dv)) as Hbt.
  { destruct (tiled_remove _ _ _ _ _ _ (do_tiled _ _ Hok) Hin) as (Ht & _ & _ & Htr).
    apply total_bytes_nonneg in Ht. simpl in Htr. rewrite Hx in Htr. simpl in Htr. fold b in Htr. lia. }
  unfold device_return_free_block.
  erewrite bind_ret; [|apply load_item_run; exact Hx].
  erewrite bind_ret; [|apply device_at_run; exact Ei].
  erewrite bind_ret; [|apply load_dev_run; exact Ed]. fold b.
  destruct (d_deleted dv) eqn:Edel; [|destruct (it_badblock it) eqn:Ebad].
  - eexists. split.
    { erewrite bind_ret; [|reflexivity].
      erewrite bind_ret; [|apply order_del_run; [exact Ed|exact Hin]]. reflexivity. }
    destruct (unlink_item st (set_devs (<[d := set_order_head (list_remove_one (OItem x) (order_head dv)) dv]>
      (devs st)) st) x it _ d dv (set_order_head (list_remove_one (OItem x) (order_head dv)) dv) Hi Hx Hr Hin)
      as [Hi' Hret]; try done; try (by left).
    + apply lookup_insert_eq.
    + intros d2 dv2 E2 Hne. simpl. by rewrite lookup_insert_ne.
  - rewrite (wrap_small 64 (d_badblock dv + b)) by lia.
    set (dv1 := set_d_badblock (d_badblock dv + b) dv).
    set (st1 := set_devs (<[d := dv1]> (devs st)) st).
    assert (∃ st2 dv2, (upd_dev d (set_d_badblock (d_badblock dv + b));;
       if d_capacity dv =? 0 then fail Undef else
       pct ← gets device_badblock_percent;
       if pct <? i32 (u64 ((d_badblock dv + b) * 100) / d_capacity dv) then device_kick malloc d else mret tt) st
       = Ret (tt, st2) ∧ devs st2 !! d = Some dv2 ∧ (dv2 = dv1 ∨ dv2 = set_d_deleted true dv1) ∧
       (∀ d2, d2 ≠ d → is_Some (devs st !! d2) → devs st2 !! d2 = devs st !! d2) ∧
       fblocks st2 = fblocks st ∧ free_blocks st2 = free_blocks st ∧ fslab st2 = fslab st ∧
       item_mem st2 = item_mem st ∧ device_indexs st2 = device_indexs st ∧
       device_badblock_percent st2 = device_badblock_percent st ∧ dels_step st st2 d dv dv2)
      as (st2 & dv2 & E2 & Ed2 & Hdv2 & Hoth & ? & ? & ? & ? & ? & ? & Hdl).
    { rewrite (bind_ret _ _ _ _ _ (upd_dev_run _ _ _ _ Ed)).
      rewrite (proj2 (Z.eqb_neq (d_capacity dv) 0)) by lia.
      erewrite bind_ret; [|reflexivity].
      assert (∀ d2, d2 ≠ d → is_Some (devs st !! d2) → devs st1 !! d2 = devs st !! d2) as Ho
        by (intros d2 Hne _; by apply lookup_insert_ne).
      destruct (_ <? _) eqn:Epct; [destruct malloc as [a|]|].
      2-3: exists st1, dv1; split_and!; try done; [apply lookup_insert_eq|by left|by left].
      destruct (device_kick_run st1 a d dv1) as (st2 & E2 & Ed2 & Ho2 & ? & ? & ? & ? & ? & ? & Edl & Els & dvk & Eak & Hkk).
      { apply lookup_insert_eq. } { done. }
      { simpl. rewrite lookup_insert_ne; [by apply Hm|]. intros <-.
        by rewrite (Hm d eq_refl) in Ed. }
      exists st2, (set_d_deleted true dv1). split_and!; try done; [by right| |].
      2: { right. split_and!; [done..|]. right. exists a, dvk. split_and!; try done. by apply Hm. }
      intros d2 Hne Hs. rewrite Ho2; [by apply Ho|done|]. by rewrite Ho. }
    eexists. split.
    { erewrite bind_ret; [|exact E2].
      erewrite bind_ret; [|apply order_del_run; [exact Ed2|destruct Hdv2 as [->| ->]; exact Hin]].
      reflexivity. }
    match goal with |- dev_inv ?s ∧ _ => set (st' := s) end.
    destruct (unlink_item st st' x it _ d dv (set_order_head (list_remove_one (OItem x) (order_head dv2)) dv2)
      Hi Hx Hr Hin) as [Hi' Hret]; try done; simpl; try (by destruct Hdv2 as [->| ->]).
    + destruct Hdl as [?|(F1 & F2 & F3)]; [by left|right]. split_and!; [done..|].
      destruct F3 as [?|(a & dvk & ? & Ha & ? & ?)]; [by left|right]. exists a, dvk. split_and!; [done..| |done].
      cbn. rewrite lookup_insert_ne; [done|congruence].
    + apply lookup_insert_eq.
    + intros d3 dv3 E3 Hne. rewrite lookup_insert_ne by done. by rewrite Hoth, E3.
    + right. destruct Hdv2 as [->| ->]; simpl; done.
  - apply list_elem_of_split in Hin as (l1 & l2 & Eo).
    destruct (recycle_block_spec st x it d dv Hi Hx Hr Edel l1 l2 Eo) as (st' & Er & Hi' & Hst & Em & Hf).
    exists st'. apply bind_inv in Er as ([] & st1 & E1 & E2). split_and!; try done.
    { erewrite bind_ret; [|exact E1]. erewrite bind_ret; [|exact E2]. done. }
    by eapply same_items_returned.
Qed.

(** Changes to the items that leave their place alone. *)
Lemma dev_inv_item_mem st m' :
  dev_inv st →
  (∀ i d dv x, registered st i d dv → OItem x ∈ order_head dv →
     ∃ it it', item_mem st !! x = Some it ∧ m' !! x = Some it' ∧ it_offset it' = it_offset it ∧
       it_length it' = it_length it ∧ it_device_index it' = it_device_index it) →
  dev_inv (set_item_mem m' st).
Proof.
  intros Hi Hm. destruct Hi as [H1 H2 Hd H4 H5 H6 H7 H8 H9]. split; try done.
  intros i d dv Hr. assert (registered st i d dv) as Hr0 by exact Hr.
  destruct (Hd i d dv Hr0) as [Hn Ht Hc Hf Hb Hcon Hk].
  assert (∀ n, n ∈ order_head dv → ext (set_item_mem m' st) n = ext st n) as He.
  { intros [a|x] Hin; [done|]. destruct (Hm i d dv x Hr0 Hin) as (it & it' & E & E' & Eo & El & _).
    simpl. by rewrite E, E', Eo, El. }
  destruct (bytes_ext _ _ _ He) as [E1 E2].
  split; rewrite ?E1, ?E2; try done.
  - intros [a|x] Hin; [by apply (Hn _ Hin)|]. destruct (Hn _ Hin) as (it0 & E0 & Ei & Hl).
    destruct (Hm i d dv x Hr0 Hin) as (it & it' & E & E' & Eo & El & Ed). rewrite E in E0.
    injection E0 as <-. exists it'. simpl. by rewrite Ed, El.
  - by eapply tiled_ext.
Qed.

Lemma dev_inv_upd_item st x it it' :
  dev_inv st → item_mem st !! x = Some it → it_offset it' = it_offset it →
  it_length it' = it_length it → it_device_index it' = it_device_index it →
  dev_inv (set_item_mem (<[x := it']> (item_mem st)) st).
Proof.
  intros Hi Hx ? ? ?. apply dev_inv_item_mem; [done|]. intros i d dv y Hr Hin.
  destruct (do_nodes _ _ (di_dev st Hi _ _ _ Hr) _ Hin) as (it0 & E0 & _).
  exists it0. destruct (decide (y = x)) as [->|Hne].
  - rewrite E0 in Hx. injection Hx as <-. exists it'. rewrite lookup_insert_eq. done.
  - exists it0. rewrite lookup_insert_ne by done. done.
Qed.

(** An item in no list may go. *)
Lemma dev_inv_del_item st x :
  dev_inv st → detached st x → dev_inv (set_item_mem (delete x (item_mem st)) st).
Proof.
  intros Hi Hx. apply dev_inv_item_mem; [done|]. intros i d dv y Hr Hin.
  destruct (do_nodes _ _ (di_dev st Hi _ _ _ Hr) _ Hin) as (it0 & E0 & _).
  exists it0, it0. rewrite lookup_delete_ne; [done|]. intros ->. by apply (Hx i d dv).
Qed.
End ops.
