(* ===== verification/DeviceConf.v ===== *)
(** * device.c: devices coming and going

    Adding a device, and the two phases of a reload: [device_conf_check] looks
    at the new configuration and [device_conf_load] applies it.  The devices of
    the configuration are structures in the same memory as the others, reached
    through the configuration's list. *)

From Stdlib Require Import String.
From stdpp Require Import prelude fin_maps gmap.
From S2P Require Import Prelude IdxPointer StrUtil IpBucket Slab Device DeviceInv DeviceOps.

Section add.
Context {AS : Type} `{Allocator AS}.
Implicit Types (st : dstore AS) (dv : ohc_device_t).

(** The state at start-up, with an empty slab. *)
Definition dstore_init (s : AS) : dstore AS :=
  DStore ipbucket_init ∅ s ∅ ∅ [] [] IDX_POINTER_INIT 0 false.

Lemma idx_init_get i (d : Z) : idx_pointer_get (@IDX_POINTER_INIT Z) i ≠ Ret (Some d).
Proof.
  unfold idx_pointer_get, array_get, IDX_POINTER_INIT. destruct (decide (0 ≤ i)); [|done].
  cbn [array]. destruct (_ !! _) as [o|] eqn:E; [|done].
  apply lookup_replicate in E as [-> _]. done.
Qed.

Lemma dstore_init_inv s : al_ok s → (∀ a, ¬ al_live s a) → dev_inv (dstore_init s).
Proof.
  intros Hok Hlv. split.
  - apply idx_init_inv.
  - intros i d E. by apply idx_init_get in E.
  - intros i d dv (E & _). by apply idx_init_get in E.
  - intros a fb. simpl. by rewrite lookup_empty.
  - apply buckets_init.
  - intros a [? E]. simpl in E. by rewrite lookup_empty in E.
  - done.
  - intros a. simpl. rewrite lookup_empty. split; [by intros ?%Hlv|by intros [? ?]].
  - split; [constructor|]. by intros d ?%not_elem_of_nil.
  - split; [constructor|]. by intros d ?%not_elem_of_nil.
Qed.

(** A device as the configuration leaves it. *)
Record fresh_device dv : Prop := {
  fd_cap : 0 ≤ d_capacity dv ≤ SENDFILE_LIMIT;
  fd_aligned : (512 | d_capacity dv);
  fd_zero : d_fblock_nr dv = 0 ∧ d_item_nr dv = 0 ∧ d_consumed dv = 0 ∧ d_badblock dv = 0;
  fd_flags : d_deleted dv = false ∧ d_kicked dv = false
}.

(** A device that enters the table with an empty order list. *)
Lemma dev_inv_register st st' i d dv dv' t :
  dev_inv st → devs st !! d = Some dv → fresh_device dv →
  (∀ j, idx_pointer_get (device_indexs st) j ≠ Ret (Some d)) →
  idx_inv t → 0 ≤ i < IPT_ARRAY_SIZE →
  idx_pointer_get (device_indexs st) i = Ret None → idx_pointer_get t i = Ret (Some d) →
  (∀ k, k ≠ i → idx_pointer_get t k = idx_pointer_get (device_indexs st) k) →
  dv' = set_d_index i (set_order_head [] dv) →
  device_indexs st' = t → devs st' = <[d := dv']> (devs st) →
  fblocks st' = fblocks st → free_blocks st' = free_blocks st → fslab st' = fslab st →
  item_mem st' = item_mem st → deleted_devices st' = deleted_devices st →
  devices st' = devices st ++ [d] → d ∉ devices st → dev_inv st'.
Proof.
  intros Hi Ed Hf Hnd Ht Hir Hnone Hi' Hk -> Et Eds Ef Eq Es Em Edl Els Hnl.
  assert (∀ j d2 dv2, registered st j d2 dv2 → registered st' j d2 dv2) as Hkeep.
  { intros j d2 dv2 (E1 & E2 & E3). assert (d2 ≠ d) by (intros ->; by apply (Hnd j)).
    split_and!; [|rewrite Eds; by rewrite lookup_insert_ne|done].
    rewrite Et, Hk; [done|]. intros ->. congruence. }
  split; try (rewrite ?Ef, ?Eq, ?Es; apply Hi).
  - by rewrite Et.
  - intros j d2. rewrite Et. destruct (decide (j = i)) as [->|Hne].
    + rewrite Hi'. intros [= <-]. split; [done|]. eexists. rewrite Eds, lookup_insert_eq.
      split; [done|]. done.
    + rewrite Hk by done. intros E. destruct (di_table st Hi j d2 E) as (? & dv2 & E2 & E3).
      split; [done|]. exists dv2. assert (d2 ≠ d) by (intros ->; by apply (Hnd j)).
      rewrite Eds. by rewrite lookup_insert_ne.
  - intros j d2 dv2 (E1 & E2 & E3). rewrite Et in E1. destruct (decide (j = i)) as [->|Hne].
    + rewrite Hi' in E1. injection E1 as <-. rewrite Eds, lookup_insert_eq in E2. injection E2 as <-.
      destruct Hf as [? ? (? & ? & ? & ?) [? ?]]. split; simpl; try done; try lia.
      by intros n ?%not_elem_of_nil.
    + rewrite Hk in E1 by done. assert (d2 ≠ d) by (intros ->; by apply (Hnd j)).
      rewrite Eds, lookup_insert_ne in E2 by done.
      eapply device_ok_ext; [|by eapply (di_dev st Hi j d2)].
      intros [a|x] _; simpl; by rewrite ?Ef, ?Em.
  - intros a fb. rewrite Ef. intros Ea. destruct (di_fb st Hi a fb Ea) as (d2 & dv2 & Hr & Hin).
    exists d2, dv2. auto.
  - unfold fb_size. rewrite Ef, Eq. apply Hi.
  - rewrite Els. destruct (di_devices st Hi) as [? Hall]. split.
    { apply NoDup_app. split_and!; [done| |apply NoDup_singleton]. intros d2 Hin ->%list_elem_of_singleton. done. }
    intros d2 [Hin| ->%list_elem_of_singleton]%elem_of_app.
    + destruct (Hall d2 Hin) as (dv2 & E2 & Hor). assert (d2 ≠ d) as Hne by (by intros ->). exists dv2.
      split; [rewrite Eds; by rewrite lookup_insert_ne|]. destruct Hor as [(j & Hr & ?)|[? Hno]]; [left|right].
      * exists j. split; [by apply Hkeep|done].
      * split; [done|]. intros j. rewrite Et. destruct (decide (j = i)) as [-> |]; [congruence|]. by rewrite Hk.
    + eexists. split; [rewrite Eds; apply lookup_insert_eq|]. left. exists i. split; [|by destruct Hf as [_ _ _ []]].
      split_and!; [by rewrite Et|rewrite Eds; apply lookup_insert_eq|done].
  - rewrite Edl. destruct (di_deleted st Hi) as [? Hall]. split; [done|]. intros d2 Hin.
    destruct (Hall d2 Hin) as (j & dv2 & ? & ?). eauto.
Qed.

(** What a device is, whatever is stored on it. *)
Record same_file dv dv' : Prop := {
  sf_filename : d_filename dv' = d_filename dv;
  sf_fd : d_fd dv' = d_fd dv;
  sf_dev : d_dev dv' = d_dev dv;
  sf_inode : d_inode dv' = d_inode dv;
  sf_capacity : d_capacity dv' = d_capacity dv;
  sf_used : d_used dv' = d_used dv;
  sf_conf : d_conf dv' = d_conf dv;
  sf_deleted : d_deleted dv' = d_deleted dv
}.

(** The whole device becomes one free block. *)
Lemma device_fill st i d dv :
  dev_inv st → registered st i d dv → order_head dv = [] → 0 < d_capacity dv →
  (512 | d_capacity dv) → d_kicked dv = false → d_badblock dv = 0 →
  ∃ r st', device_fblock_insert d None 0 (d_capacity dv) st = Ret (r, st') ∧ dev_inv st' ∧
    devices st' = devices st ∧ item_mem st' = item_mem st ∧ device_indexs st' = device_indexs st ∧
    (∀ d2, d2 ≠ d → devs st' !! d2 = devs st !! d2) ∧ deleted_devices st' = deleted_devices st ∧
    match r with
    | Some a => fblocks st' !! a = Some (FreeBlock i 0 (d_capacity dv)) ∧
        ∃ dv', registered st' i d dv' ∧ order_head dv' = [OFb a] ∧ same_file dv dv'
    | None => registered st' i d dv
    end.
Proof.
  intros Hi Hr Eo Hc H512 Hk Hb. pose proof Hr as (Ei & Ed & Edx).
  pose proof (di_dev st Hi _ _ _ Hr) as Hok.
  destruct (fblock_insert_run st d dv None 0 (d_capacity dv) Ed (di_alloc st Hi))
    as ([a|] & s' & Eal & Hok' & Hres).
  - destruct Hres as (Hnew & Hlv' & Erun). exists (Some a). eexists. split; [exact Erun|].
    assert (fblocks st !! a = None) as Ha.
    { apply eq_None_not_Some. by rewrite <- (di_live st Hi). }
    rewrite Eo, (index_i16 st _ d dv Hi Hr). change (u40 0) with 0. cbn [insert_before].
    name_state d st' dv'.
    destruct (buckets_fresh st Hi st' a (d_capacity dv) (free_blocks st') Ha) as [Hbk Hlk].
    { intros c Hne. unfold fb_size. simpl. by rewrite lookup_insert_ne. }
    { unfold fb_size. simpl. by rewrite lookup_insert_eq. } { lia. } { done. }
    split; [|split_and!; try done].
    + apply (dev_inv_update st st' i d dv dv'); try done; try (by left).
      * apply lookup_insert_eq.
      * intros d2 dv2 E2 Hne. simpl. by rewrite lookup_insert_ne.
      * intros j d2 dv2 Hr2 Hne [c|y] Hn; [|done]. simpl. apply lookup_insert_ne. intros <-.
        destruct (do_nodes _ _ (di_dev st Hi _ _ _ Hr2) _ Hn) as (? & ? & _). congruence.
      * assert (ext st' (OFb a) = (0, d_capacity dv)) as Eext by (simpl; by rewrite lookup_insert_eq).
        split; cbn [order_head set_order_head set_d_fblock_nr dv' tiled total_bytes item_bytes];
          rewrite ?Eext; cbn.
        -- intros m ->%list_elem_of_singleton. simpl. rewrite lookup_insert_eq. by eexists.
        -- split_and!; [done|lia|by exists 0|done|lia].
        -- apply Hok.
        -- rewrite (do_fblock_nr _ _ Hok), Eo. done.
        -- lia.
        -- intros Hdel. rewrite (do_consumed _ _ Hok Hdel), Eo. done.
        -- congruence.
      * simpl. intros c fb. destruct (decide (c = a)) as [->|Hne].
        -- rewrite lookup_insert_eq. intros [= <-]. right. split; [done|apply list_elem_of_here].
        -- rewrite lookup_insert_ne by done. intros Ec. left. split; [done|]. intros Eix.
           destruct (di_fb st Hi c fb Ec) as (d2 & dv2 & Hr2 & Hin).
           destruct (registered_inj _ _ _ _ _ _ _ Hr Hr2 (eq_sym Eix)) as [_ <-].
           rewrite Eo in Hin. by apply not_elem_of_nil in Hin.
      * intros c. simpl. intros [? Hc']. apply Hlk. destruct (decide (c = a)) as [|Hca]; [by left|].
        rewrite lookup_insert_ne in Hc' by done. eauto.
      * simpl. intros c. rewrite Hlv', (di_live st Hi), lookup_insert_is_Some'. naive_solver.
    + intros d2 Hne. by apply lookup_insert_ne.
    + simpl. by rewrite lookup_insert_eq.
    + exists dv'. split; [|by split]. split_and!; [done|apply lookup_insert_eq|done].
  - destruct Hres as (Hlv' & Erun). exists None. eexists. split; [exact Erun|].
    split; [|split_and!; done]. destruct Hi as [? ? Hd ? ? ? ? Hl]. split; try done.
    + intros j d2 dv2 Hr2. eapply device_ok_ext; [|exact (Hd j d2 dv2 Hr2)]. by intros [?|?].
    + intros c. simpl. by rewrite Hlv', Hl.
Qed.

(** A new device becomes one free block, is empty when it has no room, or is
    marked as kicked for want of memory. *)
Lemma device_add_spec st d dv :
  dev_inv st → devs st !! d = Some dv → fresh_device dv →
  (∀ j, idx_pointer_get (device_indexs st) j ≠ Ret (Some d)) → d ∉ devices st →
  (used_nr (device_indexs st) < Z.to_nat IPT_ARRAY_SIZE)%nat →
  ∃ st' i dv', device_add d st = Ret (tt, st') ∧ dev_inv st' ∧
    devices st' = devices st ++ [d] ∧ item_mem st' = item_mem st ∧ registered st' i d dv' ∧
    (d_capacity dv = 0 ∧ order_head dv' = [] ∨ d_kicked dv' = true ∨
     ∃ a, order_head dv' = [OFb a] ∧ fblocks st' !! a = Some (FreeBlock i 0 (d_capacity dv))) ∧
    idx_pointer_get (device_indexs st) i = Ret None ∧
    (∀ k, k ≠ i → idx_pointer_get (device_indexs st') k = idx_pointer_get (device_indexs st) k) ∧
    (∀ d2, d2 ≠ d → devs st' !! d2 = devs st !! d2) ∧ same_file dv dv' ∧
    deleted_devices st' = deleted_devices st ∧ idx_pointer_add (device_indexs st) d = Ret (i, device_indexs st').
Proof.
  intros Hi Ed Hf Hnd Hnl Hn.
  destruct (idx_add_get (device_indexs st) d (di_idx st Hi) Hn)
    as (i & t & Et & Hir & Hti & Hnone & Hsome & _ & Hk).
  set (dv1 := set_d_index i (set_order_head [] dv)).
  set (st1 := DStore (free_blocks st) (fblocks st) (fslab st) (item_mem st) (<[d := dv1]> (devs st))
                (devices st ++ [d]) (deleted_devices st) t
                (device_badblock_percent st) (device_check_270G st)).
  assert (dev_inv st1) as Hi1 by (by eapply (dev_inv_register st st1 i d dv dv1 t)).
  assert (registered st1 i d dv1) as Hr1 by (split_and!; [done|apply lookup_insert_eq|done]).
  unfold device_add. erewrite bind_ret; [|reflexivity].
  erewrite bind_ret; [|apply upd_order_run; exact Ed].
  erewrite bind_ret; [|unfold act; simpl; rewrite Et; reflexivity].
  erewrite bind_ret; [|apply upd_dev_run; apply lookup_insert_eq].
  dev_cbn. rewrite insert_insert_eq. fold dv1.
  match goal with |- ∃ _ _ _, ?c ?s = _ ∧ _ => change s with st1 end.
  erewrite bind_ret; [|apply load_dev_run; apply lookup_insert_eq].
  change (d_capacity dv1) with (d_capacity dv). destruct Hf as [Hcap H512 (? & ? & ? & ?) [? ?]].
  destruct (Z.eqb_spec (d_capacity dv) 0) as [Ez|Ez].
  - exists st1, i, dv1. split_and!; try done; [by left|]. intros d2 Hne. by apply lookup_insert_ne.
  - destruct (device_fill st1 i d dv1 Hi1 Hr1) as (r & st2 & E2 & Hi2 & Edv & Em & Et2 & Hoth & Edl & Hr); try done.
    { simpl. lia. }
    assert (∀ d2, d2 ≠ d → devs st2 !! d2 = devs st !! d2) as Hdev.
    { intros d2 Hne. rewrite Hoth by done. by apply lookup_insert_ne. }
    erewrite bind_ret; [|exact E2]. destruct r as [a|].
    + destruct Hr as (Ea & dv2 & Hr2 & Eo2 & Eu2). exists st2, i, dv2. split_and!; try done.
      * right; right. exists a. done.
      * intros k Hk'. by rewrite Et2, <- Hk.
      * by destruct Eu2.
      * by rewrite Et2.
    + pose proof Hr as (Ei & Ed2 & Edx).
      erewrite (upd_dev_run st2 d (set_d_kicked true)); [|exact Ed2].
      eexists _, i, (set_d_kicked true dv1). split; [reflexivity|].
      split; [|split_and!; try done].
      * apply (dev_inv_update st2 _ i d dv1 (set_d_kicked true dv1)); try done; try apply Hi2; try (by left).
        -- apply lookup_insert_eq.
        -- intros d2 dv3 E3 Hne. simpl. by rewrite lookup_insert_ne.
        -- by intros j d2 dv3 _ _ [?|?].
        -- destruct (di_dev st2 Hi2 _ _ _ Hr) as [? ? ? ? ? ? ?]. by split.
        -- simpl. intros a fb Ea. left. split; [done|]. intros Eix.
           destruct (di_fb st2 Hi2 a fb Ea) as (d2 & dv3 & Hr3 & Hin).
           destruct (registered_inj _ _ _ _ _ _ _ Hr Hr3 (eq_sym Eix)) as [_ <-].
           by apply not_elem_of_nil in Hin.
      * split_and!; [done|apply lookup_insert_eq|done].
      * right; left. done.
      * intros k Hk'. cbn. by rewrite Et2, <- Hk.
      * intros d2 Hne. cbn. rewrite lookup_insert_ne by done. by apply Hdev.
      * cbn. by rewrite Et2.
Qed.
End add.

(** ** Properties *)

Section properties.
Context {AS : Type} `{Allocator AS}.
Implicit Types (st : dstore AS) (dv : ohc_device_t).

(** Two extents that do not meet. *)
Definition apart (e1 e2 : Z * Z) : Prop := e1.1 + e1.2 ≤ e2.1 ∨ e2.1 + e2.2 ≤ e1.1.

Lemma nodes_apart st i d dv n m :
  dev_inv st → registered st i d dv → n ∈ order_head dv → m ∈ order_head dv → n ≠ m →
  apart (ext st n) (ext st m) ∧
  0 ≤ (ext st n).1 ∧ 0 < (ext st n).2 ∧ (ext st n).1 + (ext st n).2 ≤ d_capacity dv.
Proof.
  intros Hi Hr Hn Hm Hne. pose proof (di_dev st Hi _ _ _ Hr) as Hok.
  destruct (dev_extent_small st dv n Hok Hn) as (? & ? & ? & _). split; [|done].
  pose proof (do_tiled _ _ Hok) as Ht. apply list_elem_of_split in Hn as (l1 & l2 & E). rewrite E in *.
  apply elem_of_app in Hm as [Hm|[?|Hm]%elem_of_cons]; [|done|].
  - apply list_elem_of_split in Hm as (l3 & l4 & ->). right.
    rewrite <- app_assoc in Ht. simpl in Ht. by apply tiled_disjoint in Ht.
  - apply list_elem_of_split in Hm as (l3 & l4 & ->). left. by apply tiled_disjoint in Ht.
Qed.

(** The space of a device is never given out twice.  In a consistent store
    any two nodes of a device (items or free blocks) occupy disjoint regions of
    it, each inside its capacity. *)
Theorem device_space_disjoint st i d dv n m :
  dev_inv st → registered st i d dv → n ∈ order_head dv → m ∈ order_head dv → n ≠ m →
  apart (ext st n) (ext st m) ∧
  0 ≤ (ext st n).1 ∧ 0 < (ext st n).2 ∧ (ext st n).1 + (ext st n).2 ≤ d_capacity dv.
Proof. apply nodes_apart. Qed.

(** Adding a device to a table with room keeps the store consistent; the
    whole capacity becomes one free block, unless the device has none or the
    free block cannot be allocated, when the device is marked as kicked. *)
Theorem device_add_correct st d dv :
  dev_inv st → devs st !! d = Some dv → fresh_device dv →
  (∀ j, idx_pointer_get (device_indexs st) j ≠ Ret (Some d)) → d ∉ devices st →
  (used_nr (device_indexs st) < Z.to_nat IPT_ARRAY_SIZE)%nat →
  ∃ st' i dv', device_add d st = Ret (tt, st') ∧ dev_inv st' ∧
    devices st' = devices st ++ [d] ∧ item_mem st' = item_mem st ∧ registered st' i d dv' ∧
    (d_capacity dv = 0 ∧ order_head dv' = [] ∨ d_kicked dv' = true ∨
     ∃ a, order_head dv' = [OFb a] ∧ fblocks st' !! a = Some (FreeBlock i 0 (d_capacity dv))).
Proof.
  intros Hi Ed Hf Hnd Hnl Hn. destruct (device_add_spec st d dv Hi Ed Hf Hnd Hnl Hn) as (st' & i & dv' & ? & ? & ? & ? & ? & ? & _).
  by exists st', i, dv'.
Qed.

(** C17: [device_get_free_block] for an item that has no place yet.  It keeps
    the store consistent and ends in one of two ways: it answers the block size
    of the item, which then has a region of a device in use, cut from the rear
    of a free block and apart from every other item there; or it answers 0 with
    no item touched, because no free block is large enough or it met more than
    [LOOP_LIMIT] blocks of deleted devices, and only such blocks are gone. *)
Theorem device_get_free_block_correct st x it :
  dev_inv st → item_mem st !! x = Some it → 0 < it_length it < 2 ^ 32 → detached st x →
  let b := ipbucket_block_size (it_length it) in
  ∃ r st', device_get_free_block x st = Ret (r, st') ∧ dev_inv st' ∧
    (r = 0 ∧ same_items st st' ∧ dropped st st' ∧
       ((∀ a fb, fblocks st' !! a = Some fb → fb_block_size fb < b) ∨
        size (fblocks st) = (S LOOP_LIMIT + size (fblocks st'))%nat) ∨
     r = b ∧ 0 < r ∧ ∃ d dv' it', got_block st st' x it d ∧
       item_mem st' !! x = Some it' ∧ it_length it' = it_length it ∧
       registered st' (it_device_index it') d dv' ∧ d_deleted dv' = false ∧
       OItem x ∈ order_head dv' ∧
       ∀ y, OItem y ∈ order_head dv' → y ≠ x → apart (it_offset it', b) (ext st' (OItem y))).
Proof.
  intros Hi Hx Hlen Hd b.
  destruct (get_free_block_spec LOOP_LIMIT st x it Hi Hx Hlen Hd) as (r & st' & E & Hi' & [Hr|Hr]).
  - exists r, st'. split_and!; [done..|]. by left.
  - destruct Hr as (-> & Hb & d & Hg). exists b, st'. split_and!; [done..|]. right.
    split_and!; [done..|].
    destruct Hg as [(a & fb & dv & Ha & Hin & Hr & Hdel & Hfit & Em) Hst]. pose proof Hr as (E1 & E2 & E3).
    assert (registered st (fb_device_index fb) d dv) as Hr0 by done.
    set (it' := set_it_device_index _ _) in Em.
    assert (item_mem st' !! x = Some it') as Hx' by (rewrite Em; apply lookup_insert_eq).
    pose proof Hst as (Ei & _ & _ & _ & Hds).
    destruct (di_table st' Hi' (fb_device_index fb) d) as (_ & dv' & Ed' & Ex'); [by rewrite Ei|].
    assert (registered st' (fb_device_index fb) d dv') as Hr' by (split_and!; [by rewrite Ei|done..]).
    destruct (Hds d dv' Ed') as (dv0 & Ed0 & _ & Hdd & _ & _ & _ & Hocc). rewrite E2 in Ed0. injection Ed0 as <-.
    assert (OItem x ∈ order_head dv') as Hxin by (apply Hocc; by right).
    exists d, dv', it'. split_and!; try done; [|congruence|].
    { split; [|done]. by exists a, fb, dv. }
    intros y Hy Hne. pose proof (nodes_apart st' _ d dv' (OItem x) (OItem y) Hi' Hr' Hxin Hy) as [Ha' _];
      [congruence|]. unfold ext at 1 in Ha'. by rewrite Hx' in Ha'.
Qed.

End properties.

(** *** A device of 1 MiB and an item of 3000 bytes *)

#[local] Instance demo_alloc : Allocator ohc_slab_t := slab_allocator bump_malloc bump_malloc_fresh.
Definition demo_device : ohc_device_t :=
  Device false false 3 0 0 (bytes "/dev/sdb") 8 17 0 0 1048576 0 0 [] None.
Definition demo_item : ohc_item_t := Item 3000 0 0 false false false 0 0 0 0 0.
(** The slab of free blocks: 65536 bytes of item give two items a block. *)
Definition demo_dstore0 : dstore ohc_slab_t :=
  set_item_mem {[ 7 := demo_item ]} (set_devs {[ 50 := demo_device ]} (dstore_init (OHC_SLAB_INIT 65000))).
Definition demo_dstore : dstore ohc_slab_t :=
  match device_add 50 demo_dstore0 with Ret (_, st) => st | Fail _ => demo_dstore0 end.
Definition demo_dstore2 : dstore ohc_slab_t :=
  match device_get_free_block 7 demo_dstore with Ret (_, st) => st | Fail _ => demo_dstore end.

Lemma demo_dstore0_inv : dev_inv demo_dstore0.
Proof.
  assert (dev_inv (dstore_init (OHC_SLAB_INIT 65000))) as [].
  { apply dstore_init_inv; [apply slab_init_inv; lia|]. by intros a (b & blk & Hb & _). }
  split; try done.
  - intros i d E. by apply idx_init_get in E.
  - intros i d dv (E & _). by apply idx_init_get in E.
  - split; [constructor|]. by intros d ?%not_elem_of_nil.
  - split; [constructor|]. by intros d ?%not_elem_of_nil.
Qed.
Lemma demo_device_fresh : fresh_device demo_device.
Proof.
  split; [vm_compute; split; discriminate|exists 2048; reflexivity|done|done].
Qed.
Lemma demo_table_room st : device_indexs st = IDX_POINTER_INIT →
  (used_nr (device_indexs (AS := ohc_slab_t) st) < Z.to_nat IPT_ARRAY_SIZE)%nat.
Proof. intros ->. apply Nat.ltb_lt. vm_compute. reflexivity. Qed.

(** Item 7 can only be on device 50, the first of the table. *)
Lemma demo_only st i d dv :
  dev_inv st → registered (AS := ohc_slab_t) st i d dv → OItem 7 ∈ order_head dv →
  it_device_index <$> item_mem st !! 7 = Some 0 →
  idx_pointer_get (device_indexs st) 0 = Ret (Some 50) → d = 50.
Proof.
  intros Hi Hr Hin Hx E. destruct (do_nodes _ _ (di_dev st Hi _ _ _ Hr) _ Hin) as (it & Hit & Hix & _).
  rewrite Hit in Hx. injection Hx as Hx. destruct Hr as (E1 & _ & E2).
  rewrite <- E2, <- Hix, Hx, E in E1. by injection E1.
Qed.

Lemma demo_dstore_ok : device_add 50 demo_dstore0 = Ret (tt, demo_dstore) ∧ dev_inv demo_dstore ∧
  item_mem demo_dstore !! 7 = Some demo_item ∧ detached demo_dstore 7.
Proof.
  destruct (device_add_spec demo_dstore0 50 demo_device demo_dstore0_inv)
    as (st & i & dv & E & Hi & _ & Em & _);
    [reflexivity|apply demo_device_fresh|intros j; apply idx_init_get|by intros ?%not_elem_of_nil|by apply demo_table_room|].
  assert (demo_dstore = st) as Est by (unfold demo_dstore; by rewrite E). rewrite Est.
  assert (item_mem st !! 7 = Some demo_item) as Ex by (by rewrite Em).
  split_and!; [done..|]. intros j d dv' Hr Hin. rewrite <- Est in *.
  assert (d = 50) as -> by (eapply (demo_only demo_dstore); [done..|by rewrite Ex|vm_compute; reflexivity]).
  destruct Hr as (_ & Ed & _).
  assert (existsb (λ n, negb (is_fb n)) <$> (order_head <$> devs demo_dstore !! 50) = Some false) as Ho
    by (vm_compute; reflexivity).
  rewrite Ed in Ho. injection Ho as Ho. rewrite <- not_true_iff_false, existsb_exists in Ho.
  apply Ho. exists (OItem 7). split; [by apply list_elem_of_In|done].
Qed.

Lemma device_add_correct_witness :
  ∃ st, device_add 50 demo_dstore0 = Ret (tt, st) ∧ dev_inv st.
Proof.
  destruct (device_add_correct demo_dstore0 50 demo_device demo_dstore0_inv)
    as (st & i & dv & E & Hi & _).
  - reflexivity.
  - apply demo_device_fresh.
  - intros j. apply idx_init_get.
  - by intros ?%not_elem_of_nil.
  - by apply demo_table_room.
  - exists st. exact (conj E Hi).
Defined.

Lemma device_get_free_block_correct_witness :
  ∃ r st, device_get_free_block 7 demo_dstore = Ret (r, st) ∧ dev_inv st.
Proof.
  destruct demo_dstore_ok as (_ & Hi & Hx & Hd).
  destruct (device_get_free_block_correct demo_dstore 7 demo_item Hi Hx) as (r & st & E & Hi' & _).
  - vm_compute. split; reflexivity.
  - exact Hd.
  - exists r, st. exact (conj E Hi').
Defined.

Lemma demo_dstore2_ok : dev_inv demo_dstore2 ∧
  ∃ dv it, registered demo_dstore2 0 50 dv ∧ item_mem demo_dstore2 !! 7 = Some it ∧
    it_device_index it = 0 ∧ ∃ a, order_head dv = [OFb a; OItem 7].
Proof.
  destruct demo_dstore_ok as (_ & Hi & Hx & Hd).
  destruct (get_free_block_spec LOOP_LIMIT demo_dstore 7 demo_item Hi Hx) as (r & st & E & Hi' & _);
    [vm_compute; split; reflexivity|done|].
  assert (demo_dstore2 = st) as Est by (unfold demo_dstore2, device_get_free_block; by rewrite E).
  split; [by rewrite Est|]. clear.
  destruct (devs demo_dstore2 !! 50) as [dv|] eqn:Ed; [|by vm_compute in Ed].
  destruct (item_mem demo_dstore2 !! 7) as [it|] eqn:Ex; [|by vm_compute in Ex].
  vm_compute in Ed. vm_compute in Ex. injection Ed as <-. injection Ex as <-.
  eexists _, _. split_and!; [split_and!; vm_compute; reflexivity|reflexivity|reflexivity|].
  by eexists.
Qed.


Lemma device_space_disjoint_witness :
  ∃ a, apart (ext demo_dstore2 (OFb a)) (ext demo_dstore2 (OItem 7)).
Proof.
  destruct demo_dstore2_ok as (Hi & dv & it & Hr & Hx & Ei & a & Eo).
  exists a. apply (device_space_disjoint demo_dstore2 0 50 dv (OFb a) (OItem 7) Hi Hr).
  - rewrite Eo. apply list_elem_of_here.
  - rewrite Eo. apply list_elem_of_further, list_elem_of_here.
  - done.
Defined.
