(* ===== verification/Http.v ===== *)
(** * http.c: requests parsed, headers made

    The request sits in a buffer of [REQ_BUF_SIZE] bytes; a [char *] into it is
    an index.  Reading outside the buffer is a fault, reading behind the NUL at
    [buf_pos] is not: those bytes are what an earlier request left there. *)

From Stdlib Require Import String.
From stdpp Require Import prelude fin_maps gmap.
From S2P Require Import Prelude StrUtil Timer.

Inductive ohc_rc := OHC_OK | OHC_DONE | OHC_ERROR | OHC_AGAIN | OHC_DECLINE.
#[global] Instance ohc_rc_eq_dec : EqDecision ohc_rc.
Proof. solve_decision. Defined.

Inductive http_method :=
  | METHOD_GET | METHOD_HEAD | METHOD_PUT | METHOD_POST | METHOD_PURGE | METHOD_DELETE
  | METHOD_INVALID.
#[global] Instance http_method_eq_dec : EqDecision http_method.
Proof. solve_decision. Defined.

Definition REQ_BUF_SIZE : Z := 4096.
Definition RANGE_NO_SET : Z := -1.
Definition PUT_HEADERS : nat := 10.

(** [string_t]: a part of the buffer. *)
Record string_t := Str { str_base : nat; str_len : Z }.

(** The fields of [ohc_request_s] the parser reads and writes; [server] is only
    looked at for [expire_force].  [put_headers] holds the entries in use. *)
Record hreq := HReq {
  q_method : http_method;
  q_content_length : Z;
  q_range_set : bool;
  q_range_start : Z;
  q_range_end : Z;
  q_range : option string_t;
  q_uri : option string_t;
  q_host : option string_t;
  q_ohc_key : option string_t;
  q_put_headers : list string_t;
  q_put_header_length : Z;
  q_expire : Z;
  q_keepalive : bool;
  q_http_code : Z;
  q_error_reason : option string
}.

Definition set_q_method (v : http_method) (r : hreq) : hreq :=
  HReq v (q_content_length r) (q_range_set r) (q_range_start r) (q_range_end r) (q_range r) (q_uri r) (q_host r) (q_ohc_key r) (q_put_headers r) (q_put_header_length r) (q_expire r) (q_keepalive r) (q_http_code r) (q_error_reason r).
Definition set_q_content_length (v : Z) (r : hreq) : hreq :=
  HReq (q_method r) v (q_range_set r) (q_range_start r) (q_range_end r) (q_range r) (q_uri r) (q_host r) (q_ohc_key r) (q_put_headers r) (q_put_header_length r) (q_expire r) (q_keepalive r) (q_http_code r) (q_error_reason r).
Definition set_q_range_set (v : bool) (r : hreq) : hreq :=
  HReq (q_method r) (q_content_length r) v (q_range_start r) (q_range_end r) (q_range r) (q_uri r) (q_host r) (q_ohc_key r) (q_put_headers r) (q_put_header_length r) (q_expire r) (q_keepalive r) (q_http_code r) (q_error_reason r).
Definition set_q_range_start (v : Z) (r : hreq) : hreq :=
  HReq (q_method r) (q_content_length r) (q_range_set r) v (q_range_end r) (q_range r) (q_uri r) (q_host r) (q_ohc_key r) (q_put_headers r) (q_put_header_length r) (q_expire r) (q_keepalive r) (q_http_code r) (q_error_reason r).
Definition set_q_range_end (v : Z) (r : hreq) : hreq :=
  HReq (q_method r) (q_content_length r) (q_range_set r) (q_range_start r) v (q_range r) (q_uri r) (q_host r) (q_ohc_key r) (q_put_headers r) (q_put_header_length r) (q_expire r) (q_keepalive r) (q_http_code r) (q_error_reason r).
Definition set_q_range (v : option string_t) (r : hreq) : hreq :=
  HReq (q_method r) (q_content_length r) (q_range_set r) (q_range_start r) (q_range_end r) v (q_uri r) (q_host r) (q_ohc_key r) (q_put_headers r) (q_put_header_length r) (q_expire r) (q_keepalive r) (q_http_code r) (q_error_reason r).
Definition set_q_uri (v : option string_t) (r : hreq) : hreq :=
  HReq (q_method r) (q_content_length r) (q_range_set r) (q_range_start r) (q_range_end r) (q_range r) v (q_host r) (q_ohc_key r) (q_put_headers r) (q_put_header_length r) (q_expire r) (q_keepalive r) (q_http_code r) (q_error_reason r).
Definition set_q_host (v : option string_t) (r : hreq) : hreq :=
  HReq (q_method r) (q_content_length r) (q_range_set r) (q_range_start r) (q_range_end r) (q_range r) (q_uri r) v (q_ohc_key r) (q_put_headers r) (q_put_header_length r) (q_expire r) (q_keepalive r) (q_http_code r) (q_error_reason r).
Definition set_q_ohc_key (v : option string_t) (r : hreq) : hreq :=
  HReq (q_method r) (q_content_length r) (q_range_set r) (q_range_start r) (q_range_end r) (q_range r) (q_uri r) (q_host r) v (q_put_headers r) (q_put_header_length r) (q_expire r) (q_keepalive r) (q_http_code r) (q_error_reason r).
Definition set_q_put_headers (v : list string_t) (r : hreq) : hreq :=
  HReq (q_method r) (q_content_length r) (q_range_set r) (q_range_start r) (q_range_end r) (q_range r) (q_uri r) (q_host r) (q_ohc_key r) v (q_put_header_length r) (q_expire r) (q_keepalive r) (q_http_code r) (q_error_reason r).
Definition set_q_put_header_length (v : Z) (r : hreq) : hreq :=
  HReq (q_method r) (q_content_length r) (q_range_set r) (q_range_start r) (q_range_end r) (q_range r) (q_uri r) (q_host r) (q_ohc_key r) (q_put_headers r) v (q_expire r) (q_keepalive r) (q_http_code r) (q_error_reason r).
Definition set_q_expire (v : Z) (r : hreq) : hreq :=
  HReq (q_method r) (q_content_length r) (q_range_set r) (q_range_start r) (q_range_end r) (q_range r) (q_uri r) (q_host r) (q_ohc_key r) (q_put_headers r) (q_put_header_length r) v (q_keepalive r) (q_http_code r) (q_error_reason r).
Definition set_q_keepalive (v : bool) (r : hreq) : hreq :=
  HReq (q_method r) (q_content_length r) (q_range_set r) (q_range_start r) (q_range_end r) (q_range r) (q_uri r) (q_host r) (q_ohc_key r) (q_put_headers r) (q_put_header_length r) (q_expire r) v (q_http_code r) (q_error_reason r).
Definition set_q_http_code (v : Z) (r : hreq) : hreq :=
  HReq (q_method r) (q_content_length r) (q_range_set r) (q_range_start r) (q_range_end r) (q_range r) (q_uri r) (q_host r) (q_ohc_key r) (q_put_headers r) (q_put_header_length r) (q_expire r) (q_keepalive r) v (q_error_reason r).
Definition set_q_error_reason (v : option string) (r : hreq) : hreq :=
  HReq (q_method r) (q_content_length r) (q_range_set r) (q_range_start r) (q_range_end r) (q_range r) (q_uri r) (q_host r) (q_ohc_key r) (q_put_headers r) (q_put_header_length r) (q_expire r) (q_keepalive r) (q_http_code r) v.

(** ** Characters *)

Definition at_ (buf : list Z) (p : nat) : outcome Z :=
  match buf !! p with Some c => Ret c | None => Fail OutOfBounds end.

(** [while ( *p == ' ') p++;]; a buffer has at most [length buf] of them. *)
Fixpoint skip_spaces (fuel : nat) (buf : list Z) (p : nat) : outcome nat :=
  match fuel with
  | O => Fail Undef
  | S fuel => c ← at_ buf p; if c =? 32 then skip_spaces fuel buf (S p) else Ret p
  end.

(** [strchr(p, c)] for [c] other than NUL. *)
Fixpoint strchr (fuel : nat) (buf : list Z) (p : nat) (c : Z) : outcome (option nat) :=
  match fuel with
  | O => Fail Undef
  | S fuel =>
      b ← at_ buf p;
      if b =? c then Ret (Some p) else
      if b =? 0 then Ret None else strchr fuel buf (S p) c
  end.

Definition tolower (c : Z) : Z := if (65 <=? c) && (c <=? 90) then c + 32 else c.

(** [strncmp(p, s, strlen(s)) == 0], and without regard to case: they stop at
    the first difference, so never behind the NUL. *)
Fixpoint strn_eq (f : Z → Z) (buf : list Z) (p : nat) (s : list Z) : outcome bool :=
  match s with
  | [] => Ret true
  | c :: s => b ← at_ buf p; if f b =? f c then strn_eq f buf (S p) s else Ret false
  end.
Definition strncmp (buf : list Z) (p : nat) (s : string) : outcome bool :=
  strn_eq id buf p (bytes s).
Definition strncasecmp (buf : list Z) (p : nat) (s : string) : outcome bool :=
  strn_eq tolower buf p (bytes s).

(** [strstr(p, "\r\n\r\n") != NULL] *)
Fixpoint strstr_crlf2 (fuel : nat) (buf : list Z) (p : nat) : outcome bool :=
  match fuel with
  | O => Fail Undef
  | S fuel =>
      m ← strn_eq id buf p [13; 10; 13; 10];
      if m : bool then Ret true else
      b ← at_ buf p;
      if b =? 0 then Ret false else strstr_crlf2 fuel buf (S p)
  end.

Definition is_digit (c : Z) : bool := (48 <=? c) && (c <=? 57).
Definition is_space (c : Z) : bool := (c =? 32) || ((9 <=? c) && (c <=? 13)).

(** [strtoul(p, &endp, 10)]: the value, saturated, and the end of the number. *)
Fixpoint digits_from (fuel : nat) (buf : list Z) (p : nat) (v : Z) : outcome (Z * nat) :=
  match fuel with
  | O => Fail Undef
  | S fuel =>
      c ← at_ buf p;
      if is_digit c then digits_from fuel buf (S p) (v * 10 + (c - 48)) else Ret (v, p)
  end.
Fixpoint skip_white (fuel : nat) (buf : list Z) (p : nat) : outcome nat :=
  match fuel with
  | O => Fail Undef
  | S fuel => c ← at_ buf p; if is_space c then skip_white fuel buf (S p) else Ret p
  end.
Definition strtoul (buf : list Z) (p : nat) : outcome (Z * nat) :=
  let fuel := S (length buf) in
  s ← skip_white fuel buf p;
  c ← at_ buf s;
  let neg := c =? 45 in
  let s' := if (c =? 45) || (c =? 43) then S s else s in
  '(v, e) ← digits_from fuel buf s' 0;
  if (e =? s')%nat then Ret (0, p)
  else if 2 ^ 64 <=? v then Ret (2 ^ 64 - 1, e)
  else Ret (if neg : bool then u64 (- v) else v, e).

(** ** Header values *)

(** Outcome of a header handler: the code and the request. *)
Definition herror (reason : string) (r : hreq) : outcome (ohc_rc * hreq) :=
  Ret (OHC_ERROR, set_q_error_reason (Some reason) r).

(** A table of header names and handlers. *)
Definition htable : Type :=
  list (string * (list Z → nat → Z → hreq → outcome (ohc_rc * hreq))).

Section handlers.
Context (mktime : tm → Z → option (Z * Z)) (isdst : Z).   (* for timer_parse_rfc1123 *)
Context (now expire_force : Z).                           (* master_timer, r->server *)

Abbreviation handler := (list Z → nat → Z → hreq → outcome (ohc_rc * hreq)).

Definition http_parse_put_content_length : handler := λ buf p len r,
  '(v, endp) ← strtoul buf p;
  let r := set_q_content_length (i64 v) r in
  if (endp =? p)%nat || negb (Z.of_nat endp =? Z.of_nat p + len)
  then herror "InvalidContentLength" r else Ret (OHC_OK, r).

Definition http_parse_host : handler := λ buf p len r,
  Ret (OHC_OK, set_q_host (Some (Str p len)) r).

Definition http_parse_ohc_key : handler := λ buf p len r,
  Ret (OHC_OK, set_q_ohc_key (Some (Str p len)) r).

Definition http_parse_put_cache_control : handler := λ buf p len r,
  if negb (expire_force =? 0) then Ret (OHC_DECLINE, r) else
  m ← strncmp buf p "max-age=";
  if negb m then herror "UnhandledCacheControl" r else
  '(v, endp) ← strtoul buf (p + 8);
  let r := set_q_expire (i64 v) r in
  if (endp =? p)%nat || negb (Z.of_nat endp =? Z.of_nat p + len)
  then herror "InvalidMaxAge" r
  else if q_expire r =? 0 then herror "max-age=0" r
  else Ret (OHC_DECLINE, set_q_expire (i64 (q_expire r + now)) r).

Definition http_parse_put_expires : handler := λ buf p len r,
  if negb (expire_force =? 0) || negb (q_expire r =? 0) then Ret (OHC_DECLINE, r) else
  t ← timer_parse_rfc1123 mktime isdst (drop p buf);
  let r := set_q_expire t r in
  if (t =? INVALID_TIME) || (t <=? now) then herror "InvalidExpires" r
  else Ret (OHC_DECLINE, r).

(** [v = v * 10 + *p++ - '0'] in a [ssize_t]; C leaves the overflow
    undefined, the machine wraps. *)
Fixpoint range_digits (fuel : nat) (buf : list Z) (p : nat) (v : Z) : outcome (Z * nat) :=
  match fuel with
  | O => Fail Undef
  | S fuel =>
      c ← at_ buf p;
      if is_digit c then range_digits fuel buf (S p) (i64 (v * 10 + c - 48)) else Ret (v, p)
  end.
Definition range_number (buf : list Z) (p : nat) : outcome (Z * nat) :=
  '(v, q) ← range_digits (S (length buf)) buf p 0;
  Ret (if (q =? p)%nat then RANGE_NO_SET else v, q).

Definition http_parse_get_range : handler := λ buf p len r,
  let r := set_q_range (Some (Str p len)) r in
  m ← strncmp buf p "bytes=";
  if negb m then herror "InvalidRange" r else
  '(start, p) ← range_number buf (p + 6);
  c ← at_ buf p;
  if negb (c =? 45) then herror "InvalidRange" r else
  '(end_, p) ← range_number buf (S p);
  if (start =? RANGE_NO_SET) && (end_ =? RANGE_NO_SET) then herror "InvalidRange" r else
  if negb (start =? RANGE_NO_SET) && negb (end_ =? RANGE_NO_SET) && (end_ <? start)
  then herror "InvalidRange" r else
  p ← skip_spaces (S (length buf)) buf p;
  c ← at_ buf p;
  if c =? 44 then Ret (OHC_OK, r) else
  if negb (c =? 13) then herror "InvalidRange" r else
  Ret (OHC_OK, set_q_range_end end_ (set_q_range_start start (set_q_range_set true r))).

Definition http_parse_connection : handler := λ buf p len r,
  m ← strncmp buf p "close";
  Ret (OHC_OK, if m : bool then set_q_keepalive false r else r).

Definition GENERAL_HEADERS : htable :=
  [("Host:", http_parse_host); ("OHC-Key:", http_parse_ohc_key);
   ("Connection:", http_parse_connection)]%string.
Definition http_request_header_get : htable :=
  ("Range:"%string, http_parse_get_range) :: GENERAL_HEADERS.
Definition http_request_header_put : htable :=
  [("Content-Length:", http_parse_put_content_length);
   ("Cache-Control:", http_parse_put_cache_control);
   ("Expires", http_parse_put_expires)]%string ++ GENERAL_HEADERS.
Definition http_request_header_delete : htable := GENERAL_HEADERS.
End handlers.

(** ** The headers kept for the stored item *)

(** The last entry grows when the new part follows it; an eleventh entry is
    written outside [put_headers]. *)
Definition http_add_put_headers (r : hreq) (base : nat) (len : Z) : outcome hreq :=
  match last (q_put_headers r) with
  | None => Ret (set_q_put_headers [Str base len] r)
  | Some p =>
      let hs := q_put_headers r in
      if Z.of_nat (str_base p) + str_len p =? Z.of_nat base then
        Ret (set_q_put_headers (removelast hs ++ [Str (str_base p) (str_len p + len)]) r)
      else if decide (length hs < PUT_HEADERS)%nat then
        Ret (set_q_put_headers (hs ++ [Str base len]) r)
      else Fail OutOfBounds
  end.

(** ** Responses *)

Definition CRLF : list Z := [13; 10].
Definition RESP_200_CONLEN : list Z :=
  bytes "HTTP/1.1 200 OK" ++ CRLF ++ bytes "Content-Length: ".

(** printf's [%ld] *)
Definition dec_signed (n : Z) : list Z := if n <? 0 then 45 :: dec (- n) else dec n.

(** What is printed; the C function returns its length, and computes it without
    printing when [output] is NULL. *)
Definition http_make_200_response_header (content_length : Z) : list Z :=
  RESP_200_CONLEN ++ dec_signed content_length ++ CRLF.
Definition http_200_response_header_len (content_length : Z) : Z :=
  Z.of_nat (length (RESP_200_CONLEN ++ CRLF)) + numlen content_length.

Definition http_make_206_response_header (range_start range_end body_len : Z) : list Z :=
  bytes "HTTP/1.1 206 Partial Content" ++ CRLF ++
  bytes "Content-Length: " ++ dec_signed (range_end - range_start + 1) ++ CRLF ++
  bytes "Content-Range: bytes " ++ dec_signed range_start ++ bytes "-" ++ dec_signed range_end
    ++ bytes "/" ++ dec_signed body_len ++ CRLF.

Definition page_conlen (code desc : string) : list Z :=
  bytes "HTTP/1.1 " ++ bytes code ++ bytes " " ++ bytes desc ++ CRLF
    ++ bytes "Content-Length: 0" ++ CRLF ++ CRLF.
Definition page_nolen (code desc : string) : list Z :=
  bytes "HTTP/1.1 " ++ bytes code ++ bytes " " ++ bytes desc ++ CRLF ++ CRLF.
Definition http_pages : list (Z * list Z) :=
  [(201, page_nolen "201" "Created"); (204, page_nolen "204" "No Content");
   (400, page_conlen "400" "Bad Request"); (404, page_conlen "404" "Not Found");
   (413, page_conlen "413" "Request Entity Too Large");
   (416, page_conlen "416" "Requested Range Not Satisfiable");
   (500, page_conlen "500" "Internal Server Error")].

(** NULL when there is no page. *)
Definition http_code_page (code : Z) : option (list Z) :=
  match list_find (λ p, p.1 = code) http_pages with
  | Some (_, (_, page)) => Some page
  | None => None
  end.

(** [http_decode_uri(uri, len, output)]: the bytes written. *)
Fixpoint decode_from (fuel : nat) (buf : list Z) (uri : nat) (i len : Z) : outcome (list Z) :=
  match fuel with
  | O => Fail Undef
  | S fuel =>
      if i <? len then
        c ← at_ buf (uri + Z.to_nat i);
        if c =? 37 then
          a ← at_ buf (uri + Z.to_nat (i + 1));
          b ← at_ buf (uri + Z.to_nat (i + 2));
          let a := char2hex a in
          let b := char2hex b in
          if (0 <=? a) && (0 <=? b) then
            out ← decode_from fuel buf uri (i + 3) len; Ret (Z.shiftl a 4 + b :: out)
          else out ← decode_from fuel buf uri (i + 1) len; Ret (c :: out)
        else out ← decode_from fuel buf uri (i + 1) len; Ret (c :: out)
      else Ret []
  end.
Definition http_decode_uri (buf : list Z) (uri : nat) (len : Z) : outcome (list Z) :=
  decode_from (S (Z.to_nat len)) buf uri 0 len.

(** ** The request *)

Section parse.
Context (mktime : tm → Z → option (Z * Z)) (isdst now expire_force : Z).

Definition http_methods :
    list (string * http_method * htable) :=
  [("GET ", METHOD_GET, http_request_header_get);
   ("HEAD ", METHOD_HEAD, http_request_header_get);
   ("PUT ", METHOD_PUT, http_request_header_put mktime isdst now expire_force);
   ("POST ", METHOD_POST, http_request_header_put mktime isdst now expire_force);
   ("PURGE ", METHOD_PURGE, http_request_header_delete);
   ("DELETE ", METHOD_DELETE, http_request_header_delete)]%string.

(** Where the parser ends: [goto fail], [goto not_complete] with [p], or the
    end of the headers. *)
Inductive parse_end := PFail (r : hreq) | PAgain (r : hreq) (p : nat) | PDone (r : hreq) (p : nat).

Fixpoint find_method (buf : list Z) (ms : list (string * http_method * htable)) :
    outcome (option (http_method * nat * htable)) :=
  match ms with
  | [] => Ret None
  | (s, m, hs) :: ms =>
      e ← strncmp buf 0 s;
      if e : bool then Ret (Some (m, length (bytes s), hs)) else find_method buf ms
  end.

(** The first header of the table whose name matches is handled. *)
Fixpoint handle_header (hs : htable)
    (buf : list Z) (name vbase : nat) (vlen : Z) (r : hreq) : outcome (option ohc_rc * hreq) :=
  match hs with
  | [] => Ret (None, r)
  | (s, h) :: hs =>
      e ← strncasecmp buf name s;
      if e : bool then '(rc, r) ← h buf vbase vlen r; Ret (Some rc, r)
      else handle_header hs buf name vbase vlen r
  end.

(** One turn of the loop over the headers; [rc] is the last handler's code,
    which an unhandled header leaves as it was. *)
Fixpoint parse_headers (fuel : nat) (buf : list Z)
    (hs : htable) (is_store : bool)
    (p : nat) (rc : ohc_rc) (r : hreq) : outcome parse_end :=
  match fuel with
  | O => Fail Undef
  | S fuel' =>
      let F := S (length buf) in
      p ← skip_spaces F buf p;
      c0 ← at_ buf p;
      c1 ← (if c0 =? 13 then at_ buf (S p) else Ret 0);
      if (c0 =? 13) && (c1 =? 10) then Ret (PDone r p) else
      colon ← strchr F buf p 58;
      match colon with
      | None => Ret (PAgain r p)
      | Some q =>
          let name := p in
          p ← skip_spaces F buf (S q);
          cr ← strchr F buf p 13;
          match cr with
          | None => Ret (PAgain r p)
          | Some q =>
              c ← at_ buf (S q);
              if c =? 0 then Ret (PAgain r p) else
              let value_len := Z.of_nat q - Z.of_nat p in
              '(o, r) ← handle_header hs buf name p value_len r;
              let p := (q + 2)%nat in
              let rc := default rc o in
              if decide (o = Some OHC_ERROR) then Ret (PFail r) else
              let keep := is_store && (bool_decide (o = None) || bool_decide (rc = OHC_DECLINE)) in
              r ← (if keep : bool then
                     r ← http_add_put_headers r name (Z.of_nat p - Z.of_nat name);
                     Ret (set_q_put_header_length
                            (i32 (q_put_header_length r + (Z.of_nat p - Z.of_nat name))) r)
                   else Ret r);
              parse_headers fuel' buf hs is_store p rc r
          end
      end
  end.

Definition is_put (m : http_method) : bool :=
  match m with METHOD_PUT | METHOD_POST => true | _ => false end.

(** The checks and the pre-read body behind the headers of a PUT. *)
Definition parse_store (buf_pos p : nat) (r : hreq) : outcome (ohc_rc * hreq) :=
  if q_content_length r =? -1 then herror "NoContentLengthinPUT" r else
  if q_content_length r <? Z.of_nat buf_pos - Z.of_nat p - 2
  then herror "BodyLargerThanDeclared" r else
  r ← http_add_put_headers r p (Z.of_nat buf_pos - Z.of_nat p);
  Ret (OHC_DONE, set_q_put_header_length
    (i32 (q_put_header_length r + http_200_response_header_len (q_content_length r) + 2)) r).

Definition parse_fail (r : hreq) : ohc_rc * hreq :=
  (OHC_ERROR, set_q_http_code 400 (set_q_keepalive false r)).

Definition http_request_parse (buf0 : list Z) (buf_pos : nat) (r : hreq) :
    outcome (ohc_rc * hreq) :=
  if decide (buf_pos < length buf0)%nat then
    let buf := <[buf_pos := 0]> buf0 in
    let F := S (length buf) in
    let r := set_q_put_header_length 0 (set_q_put_headers [] r) in
    let again r p := m ← strstr_crlf2 F buf p; Ret (if m : bool then parse_fail r else (OHC_AGAIN, r)) in
    om ← find_method buf http_methods;
    match om with
    | None => Ret (parse_fail (set_q_error_reason (Some "UnknownMethod"%string) r))
    | Some (m, p, headers) =>
        let r := set_q_method m r in
        p ← skip_spaces F buf p;
        oq ← strchr F buf p 32;
        match oq with
        | None => again r p
        | Some q =>
            let r := set_q_uri (Some (Str p (Z.of_nat q - Z.of_nat p))) r in
            p ← skip_spaces F buf (S q);
            h ← strncasecmp buf p "HTTP/";
            if negb h then Ret (parse_fail (set_q_error_reason (Some "NotHTTP"%string) r)) else
            oq ← strchr F buf (p + 5) 13;
            match oq with
            | None => again r p
            | Some q =>
                e ← parse_headers F buf headers (is_put m) (q + 2) OHC_OK r;
                match e with
                | PFail r => Ret (parse_fail r)
                | PAgain r p => again r p
                | PDone r p =>
                    if is_put m then
                      '(rc, r) ← parse_store buf_pos p r;
                      Ret (if decide (rc = OHC_ERROR) then parse_fail r else (rc, r))
                    else Ret (OHC_DONE, r)
                end
            end
        end
    end
  else Fail OutOfBounds.
End parse.

(** A request before parsing, as [request_reset] leaves it. *)
Definition hreq_init : hreq :=
  HReq METHOD_INVALID (-1) false 0 0 None None None None [] 0 0 true 0 None.
