(* ===== verification/HttpProofs.v ===== *)
(** * Properties of the parser and of the responses *)

From Stdlib Require Import String.
From stdpp Require Import prelude fin_maps gmap.
From S2P Require Import Prelude StrUtil Timer Http.

(** ** Reading a NUL-terminated buffer

    [n] is where the NUL is; every scan that starts at or before it ends at or
    before it. *)

Section scans.
Context (buf : list Z) (n : nat) (Hn : buf !! n = Some 0).

Lemma nul_in : (n < length buf)%nat.
Proof using Hn. by apply lookup_lt_Some in Hn. Qed.

Lemma at_run p : (p ≤ n)%nat → ∃ c, at_ buf p = Ret c ∧ buf !! p = Some c ∧ (p = n → c = 0).
Proof using Hn.
  intros Hp. destruct (lookup_lt_is_Some_2 buf p) as [c Hc]; [pose proof nul_in; lia|].
  exists c. unfold at_. rewrite Hc. split_and!; [done..|]. intros ->. congruence.
Qed.

Lemma skip_spaces_spec fuel p :
  (p ≤ n)%nat → (n - p < fuel)%nat →
  ∃ q, skip_spaces fuel buf p = Ret q ∧ (p ≤ q ≤ n)%nat ∧ buf !! q ≠ Some 32.
Proof using Hn.
  revert p. induction fuel as [|fuel IH]; intros p Hp Hf; [lia|]. simpl.
  destruct (at_run p Hp) as (c & -> & Ec & Hc0). simpl. destruct (Z.eqb_spec c 32) as [->|Hne].
  - assert (p ≠ n) by (intros ->; specialize (Hc0 eq_refl); lia).
    destruct (IH (S p)) as (q & ? & ? & ?); [lia..|]. exists q. split_and!; [done|lia|lia|done].
  - exists p. split_and!; [done|lia|lia|congruence].
Qed.

Lemma strchr_spec fuel p c :
  (p ≤ n)%nat → (n - p < fuel)%nat → c ≠ 0 →
  ∃ r, strchr fuel buf p c = Ret r ∧
    match r with
    | Some q => (p ≤ q < n)%nat ∧ buf !! q = Some c ∧ ∀ k, (p ≤ k < q)%nat → buf !! k ≠ Some c
    | None => True
    end.
Proof using Hn.
  revert p. induction fuel as [|fuel IH]; intros p Hp Hf Hc; [lia|]. simpl.
  destruct (at_run p Hp) as (b & -> & Eb & Hb0). simpl. destruct (Z.eqb_spec b c) as [->|Hne].
  - exists (Some p). split; [done|]. assert (p ≠ n) by (intros ->; by apply Hc, Hb0).
    split_and!; [lia|lia|done|]. intros; lia.
  - destruct (Z.eqb_spec b 0) as [->|Hb]; [by exists None|].
    assert (p ≠ n) by (intros ->; by apply Hb, Hb0).
    destruct (IH (S p)) as (r & -> & Hr); [lia|lia|done|]. exists r. split; [done|].
    destruct r as [q|]; [|done]. destruct Hr as (Hq & Eq & Hk). split_and!; [lia|lia|done|].
    intros k Hkq. destruct (decide (k = p)) as [->|]; [congruence|]. apply Hk. lia.
Qed.

Lemma strn_eq_spec f p s :
  (p ≤ n)%nat → Forall (λ c, f c ≠ f 0) s →
  ∃ b, strn_eq f buf p s = Ret b ∧ (b = true → (p + length s ≤ n)%nat).
Proof using Hn.
  revert p. induction s as [|c s IH]; intros p Hp; simpl.
  - intros _. exists true. split; [done|lia].
  - intros [Hc Hs]%Forall_cons. destruct (at_run p Hp) as (b & -> & Eb & Hb0). simpl.
    destruct (Z.eqb_spec (f b) (f c)) as [E|].
    + assert (p ≠ n) by (intros ->; rewrite (Hb0 eq_refl) in E; congruence).
      destruct (IH (S p)) as (r & -> & Hr); [lia|done|]. exists r. split; [done|].
      intros Ht%Hr. lia.
    + by exists false.
Qed.

Lemma strstr_spec fuel p :
  (p ≤ n)%nat → (n - p < fuel)%nat → ∃ b, strstr_crlf2 fuel buf p = Ret b.
Proof using Hn.
  revert p. induction fuel as [|fuel IH]; intros p Hp Hf; [lia|]. cbn [strstr_crlf2].
  destruct (strn_eq_spec id p [13; 10; 13; 10] Hp) as (b & -> & _).
  { repeat constructor; done. }
  cbn [mbind outcome_bind]. destruct b; [by exists true|].
  destruct (at_run p Hp) as (c & -> & Ec & Hc0). cbn [mbind outcome_bind].
  destruct (Z.eqb_spec c 0) as [->|Hc]; [by exists false|].
  apply IH; [|lia]. assert (p ≠ n) by (intros ->; by apply Hc, Hc0). lia.
Qed.

Lemma digits_from_spec fuel p v :
  (p ≤ n)%nat → (n - p < fuel)%nat →
  ∃ v' q, digits_from fuel buf p v = Ret (v', q) ∧ (p ≤ q ≤ n)%nat.
Proof using Hn.
  revert p v. induction fuel as [|fuel IH]; intros p v Hp Hf; [lia|]. simpl.
  destruct (at_run p Hp) as (c & -> & Ec & Hc0). simpl. destruct (is_digit c) eqn:Ed.
  - assert (p ≠ n) by (intros ->; rewrite Hc0 in Ed; done).
    destruct (IH (S p) (v * 10 + (c - 48))) as (v' & q & -> & ?); [lia|lia|].
    exists v', q. split; [done|lia].
  - exists v, p. split; [done|lia].
Qed.

Lemma range_digits_spec fuel p v :
  (p ≤ n)%nat → (n - p < fuel)%nat →
  ∃ v' q, range_digits fuel buf p v = Ret (v', q) ∧ (p ≤ q ≤ n)%nat.
Proof using Hn.
  revert p v. induction fuel as [|fuel IH]; intros p v Hp Hf; [lia|]. simpl.
  destruct (at_run p Hp) as (c & -> & Ec & Hc0). simpl. destruct (is_digit c) eqn:Ed.
  - assert (p ≠ n) by (intros ->; rewrite Hc0 in Ed; done).
    destruct (IH (S p) (i64 (v * 10 + c - 48))) as (v' & q & -> & ?); [lia|lia|].
    exists v', q. split; [done|lia].
  - exists v, p. split; [done|lia].
Qed.

Lemma skip_white_spec fuel p :
  (p ≤ n)%nat → (n - p < fuel)%nat → ∃ q, skip_white fuel buf p = Ret q ∧ (p ≤ q ≤ n)%nat.
Proof using Hn.
  revert p. induction fuel as [|fuel IH]; intros p Hp Hf; [lia|]. simpl.
  destruct (at_run p Hp) as (c & -> & Ec & Hc0). simpl. destruct (is_space c) eqn:Es.
  - assert (p ≠ n) by (intros ->; rewrite Hc0 in Es; done).
    destruct (IH (S p)) as (q & -> & ?); [lia|lia|]. exists q. split; [done|lia].
  - exists p. split; [done|lia].
Qed.

Lemma strtoul_spec p : (p ≤ n)%nat → ∃ v e, strtoul buf p = Ret (v, e).
Proof using Hn.
  intros Hp. pose proof nul_in. unfold strtoul.
  destruct (skip_white_spec (S (length buf)) p) as (s & -> & Hs); [lia|lia|].
  cbn [mbind outcome_bind].
  destruct (at_run s) as (c & -> & Ec & Hc0); [lia|]. cbn [mbind outcome_bind].
  set (s' := if (c =? 45) || (c =? 43) then S s else s).
  assert (s' ≤ n)%nat as Hs'.
  { subst s'. destruct ((c =? 45) || (c =? 43)) eqn:E; [|lia].
    assert (s ≠ n); [|lia]. intros ->. rewrite (Hc0 eq_refl) in E. done. }
  destruct (digits_from_spec (S (length buf)) s' 0) as (v & e & -> & He); [lia|lia|].
  cbn [mbind outcome_bind]. destruct (e =? s')%nat; [by eexists _, _|].
  destruct (2 ^ 64 <=? v); by eexists _, _.
Qed.
End scans.

(** ** Outcomes

    [fine o]: the run ends, and if not well, then with a read or write outside
    an array. *)
Definition fine {A} (o : outcome A) : Prop := match o with Ret _ => True | Fail f => f = OutOfBounds end.
Definition returns {A} (o : outcome A) : Prop := match o with Ret _ => True | Fail _ => False end.

Lemma fine_bind {A B} (o : outcome A) (k : A → outcome B) :
  fine o → (∀ a, o = Ret a → fine (k a)) → fine (o ≫= k).
Proof. destruct o; simpl; auto. Qed.
Lemma returns_bind {A B} (o : outcome A) (k : A → outcome B) :
  returns o → (∀ a, o = Ret a → returns (k a)) → returns (o ≫= k).
Proof. destruct o; simpl; [auto|done]. Qed.
Lemma returns_fine {A} (o : outcome A) : returns o → fine o.
Proof. by destruct o. Qed.
Lemma returns_ex {A} (o : outcome A) : returns o ↔ ∃ a, o = Ret a.
Proof. destruct o; simpl; [naive_solver|]. split; [done|]. by intros [? ?]. Qed.

(** *** The date parser only reads *)
Section dates_fine.
Context (mktime : tm → Z → option (Z * Z)).

Lemma char_at_fine p i : fine (char_at p i).
Proof. unfold char_at. by destruct (p !! i). Qed.
Lemma D2_fine p i : fine (D2 p i).
Proof. unfold D2. apply fine_bind; [apply char_at_fine|]. intros. by apply fine_bind; [apply char_at_fine|]. Qed.
Lemma strncmp_eq_fine p i s : fine (strncmp_eq p i s).
Proof.
  revert i. induction s as [|c s IH]; intros i; simpl; [done|].
  apply fine_bind; [apply char_at_fine|]. intros a _. by destruct (a =? c).
Qed.
Lemma month_index_fine p ms i : fine (month_index p ms i).
Proof.
  revert i. induction ms as [|m ms IH]; intros i; simpl; [done|].
  apply fine_bind; [apply strncmp_eq_fine|]. intros b _. by destruct b.
Qed.
Lemma timer_parse_fine isdst p : fine (timer_parse_rfc1123 mktime isdst p).
Proof.
  unfold timer_parse_rfc1123. apply fine_bind; [apply strncmp_eq_fine|]. intros g _.
  destruct (negb g); [done|].
  do 6 (apply fine_bind; [apply D2_fine|]; intros ? _).
  apply fine_bind; [apply month_index_fine|]. intros i _. destruct (i =? 12); [done|].
  destruct (mktime _ _) as [[ret off]|]; [|done]. by destruct (ret =? INVALID_TIME).
Qed.
End dates_fine.

(** *** Handlers *)

Definition handler_ok (ok : ∀ A : Type, outcome A → Prop)
    (h : list Z → nat → Z → hreq → outcome (ohc_rc * hreq)) : Prop :=
  ∀ buf n p len r, buf !! n = Some 0 → (p ≤ n)%nat → ok _ (h buf p len r).

Section handlers_ok.
Context (mktime : tm → Z → option (Z * Z)) (isdst now expire_force : Z).

Lemma get_range_ok : handler_ok (@returns) http_parse_get_range.
Proof.
  intros buf n p len r Hn Hp. pose proof (nul_in buf n Hn) as Hlen. unfold http_parse_get_range.
  destruct (strn_eq_spec buf n Hn id p (bytes "bytes=") Hp) as (b & Eb & Hb).
  { repeat constructor; done. }
  unfold strncmp. rewrite Eb. cbn [mbind outcome_bind]. destruct b; [|done]. cbn [negb].
  specialize (Hb eq_refl). change (length (bytes "bytes=")) with 6%nat in Hb.
  unfold range_number.
  destruct (range_digits_spec buf n Hn (S (length buf)) (p + 6) 0) as (v & q & -> & Hq); [lia|lia|].
  cbn [mbind outcome_bind]. destruct (at_run buf n Hn q) as (c & -> & Ec & Hc0); [lia|].
  cbn [mbind outcome_bind]. destruct (Z.eqb_spec c 45) as [->|]; [|done]. cbn [negb].
  assert (q ≠ n) by (intros ->; by specialize (Hc0 eq_refl)).
  destruct (range_digits_spec buf n Hn (S (length buf)) (S q) 0) as (v2 & q2 & -> & Hq2); [lia|lia|].
  cbn [mbind outcome_bind]. destruct (_ && _); [done|]. destruct (_ && _ && _); [done|].
  destruct (skip_spaces_spec buf n Hn (S (length buf)) q2) as (q3 & -> & Hq3 & _); [lia|lia|].
  cbn [mbind outcome_bind]. destruct (at_run buf n Hn q3) as (c3 & -> & _); [lia|].
  cbn [mbind outcome_bind]. destruct (c3 =? 44); [done|]. by destruct (c3 =? 13).
Qed.

Lemma general_ok : Forall (λ sh, handler_ok (@returns) sh.2) GENERAL_HEADERS.
Proof.
  unfold GENERAL_HEADERS. rewrite !Forall_cons. split_and!; [done|done| |constructor].
  intros buf n p len r Hn Hp. simpl. unfold http_parse_connection.
  destruct (strn_eq_spec buf n Hn id p (bytes "close") Hp) as (b & Eb & _).
  { repeat constructor; done. }
  unfold strncmp. rewrite Eb. done.
Qed.

Lemma content_length_ok : handler_ok (@returns) http_parse_put_content_length.
Proof.
  intros buf n p len r Hn Hp. unfold http_parse_put_content_length.
  destruct (strtoul_spec buf n Hn p Hp) as (v & e & ->). cbn [mbind outcome_bind].
  by destruct (_ || _).
Qed.

Lemma cache_control_ok :
  handler_ok (@returns) (http_parse_put_cache_control now expire_force).
Proof.
  intros buf n p len r Hn Hp. unfold http_parse_put_cache_control.
  destruct (expire_force =? 0); [|done]. cbn [negb].
  destruct (strn_eq_spec buf n Hn id p (bytes "max-age=") Hp) as (b & Eb & Hb).
  { repeat constructor; done. }
  unfold strncmp. rewrite Eb. cbn [mbind outcome_bind]. destruct b; [|done]. cbn [negb].
  specialize (Hb eq_refl). change (length (bytes "max-age=")) with 8%nat in Hb.
  destruct (strtoul_spec buf n Hn (p + 8)) as (v & e & ->); [lia|]. cbn [mbind outcome_bind].
  destruct (_ || _); [done|]. by destruct (_ =? 0).
Qed.

Lemma expires_fine :
  handler_ok (@fine) (http_parse_put_expires mktime isdst now expire_force).
Proof.
  intros buf n p len r Hn Hp. unfold http_parse_put_expires.
  destruct (_ || _); [done|]. apply fine_bind; [apply timer_parse_fine|].
  intros t _. by destruct (_ || _).
Qed.

(** The handlers of GET and DELETE always return; those of PUT may also read
    outside the buffer, in an [Expires] header close to its end. *)
Definition table_ok (ok : ∀ A : Type, outcome A → Prop) (hs : htable) : Prop :=
  Forall (λ sh, handler_ok ok sh.2 ∧ Forall (λ c, tolower c ≠ tolower 0) (bytes sh.1)) hs.

Lemma get_table_ok : table_ok (@returns) http_request_header_get.
Proof.
  pose proof general_ok as Hg. unfold GENERAL_HEADERS in Hg. rewrite !Forall_cons in Hg.
  destruct Hg as (? & ? & ? & _).
  unfold table_ok, http_request_header_get, GENERAL_HEADERS. rewrite !Forall_cons.
  split_and!; try done; try apply get_range_ok; try (repeat constructor; done).
Qed.
Lemma delete_table_ok : table_ok (@returns) http_request_header_delete.
Proof. pose proof get_table_ok as Hg. by inversion Hg. Qed.
Lemma put_table_fine :
  table_ok (@fine) (http_request_header_put mktime isdst now expire_force).
Proof.
  pose proof delete_table_ok as Hd.
  apply Forall_app. split.
  - rewrite !Forall_cons. split_and!; [| | | | | |constructor].
    + intros buf n p len r Hn Hp. apply returns_fine. by eapply content_length_ok.
    + repeat constructor; done.
    + intros buf n p len r Hn Hp. apply returns_fine. by eapply cache_control_ok.
    + repeat constructor; done.
    + apply expires_fine.
    + repeat constructor; done.
  - eapply Forall_impl; [exact Hd|]. intros sh [Hh Hs]. split; [|done].
    intros buf n p len r Hn Hp. apply returns_fine. by eapply Hh.
Qed.
End handlers_ok.

(** The position a run of the header loop ends at. *)
Definition end_pos (e : parse_end) : nat :=
  match e with PFail _ => 0 | PAgain _ p | PDone _ p => p end.

(** *** The whole parser, for either notion of outcome *)

Section parse_ok.
Context (ok : ∀ A : Type, outcome A → Prop).
Arguments ok {_} _.
Context (ok_ret : ∀ A (a : A), ok (Ret a))
  (ok_bind : ∀ A B (o : outcome A) (k : A → outcome B),
     ok o → (∀ a, o = Ret a → ok (k a)) → ok (o ≫= k))
  (buf : list Z) (n : nat) (Hn : buf !! n = Some 0)
  (is_store : bool) (Hstore : is_store = true → ∀ r b l, ok (http_add_put_headers r b l)).

Lemma ok_post {A B} (o : outcome A) (k : A → outcome B) (P : B → Prop) :
  ok o → (∀ a, o = Ret a → ok (k a) ∧ ∀ b, k a = Ret b → P b) →
  ok (o ≫= k) ∧ ∀ b, o ≫= k = Ret b → P b.
Proof using ok_bind.
  intros Ho Hk. split; [apply ok_bind; [done|]; intros a Ha; by apply Hk|].
  intros b. destruct o as [a|f]; [|done]. by apply Hk.
Qed.
Lemma ok_done {A} (a : A) (P : A → Prop) : P a → ok (Ret a) ∧ ∀ b, Ret a = Ret b → P b.
Proof using ok_ret. intros Ha. split; [apply ok_ret|]. by intros b [= <-]. Qed.

Lemma handle_header_ok hs name vbase vlen r :
  table_ok (@ok) hs → (name ≤ n)%nat → (vbase ≤ n)%nat →
  ok (handle_header hs buf name vbase vlen r).
Proof using Hn ok_ret ok_bind.
  intros Hhs Hname Hv. induction Hhs as [|[s h] hs [Hh Hs] Hhs IH]; simpl; [apply ok_ret|].
  destruct (strn_eq_spec buf n Hn tolower name (bytes s) Hname) as (b & Eb & _); [exact Hs|].
  unfold strncasecmp. rewrite Eb. cbn [mbind outcome_bind]. destruct b; [|done].
  apply ok_bind; [by eapply Hh|]. intros [rc r'] _. apply ok_ret.
Qed.

Lemma parse_headers_ok fuel hs p rc r :
  table_ok (@ok) hs → (p ≤ n)%nat → (n - p < fuel)%nat →
  ok (parse_headers fuel buf hs is_store p rc r) ∧
  ∀ e, parse_headers fuel buf hs is_store p rc r = Ret e → (end_pos e ≤ n)%nat.
Proof using Hn ok_ret ok_bind Hstore.
  intros Hhs. revert p rc r. induction fuel as [|fuel IH]; intros p rc r Hp Hf; [lia|].
  cbn [parse_headers]. pose proof (nul_in buf n Hn) as Hlen.
  destruct (skip_spaces_spec buf n Hn (S (length buf)) p) as (p1 & -> & Hp1 & _); [lia|lia|].
  cbn [mbind outcome_bind].
  destruct (at_run buf n Hn p1) as (c0 & -> & Ec0 & Hc00); [lia|]. cbn [mbind outcome_bind].
  assert (∃ c1, (if c0 =? 13 then at_ buf (S p1) else Ret 0) = Ret c1) as [c1 ->].
  { destruct (Z.eqb_spec c0 13) as [->|]; [|eauto].
    assert (p1 ≠ n) by (intros ->; by specialize (Hc00 eq_refl)).
    destruct (at_run buf n Hn (S p1)) as (c1 & -> & _); [lia|eauto]. }
  cbn [mbind outcome_bind]. destruct (_ && _); [apply ok_done; simpl; lia|].
  destruct (strchr_spec buf n Hn (S (length buf)) p1 58) as (oq & -> & Hq); [lia|lia|done|].
  cbn [mbind outcome_bind]. destruct oq as [q|]; [|apply ok_done; simpl; lia].
  destruct (skip_spaces_spec buf n Hn (S (length buf)) (S q)) as (p2 & -> & Hp2 & _); [lia|lia|].
  cbn [mbind outcome_bind].
  destruct (strchr_spec buf n Hn (S (length buf)) p2 13) as (oq2 & -> & Hq2); [lia|lia|done|].
  cbn [mbind outcome_bind]. destruct oq2 as [q2|]; [|apply ok_done; simpl; lia].
  destruct (at_run buf n Hn (S q2)) as (c & -> & Ec & Hc0); [lia|]. cbn [mbind outcome_bind].
  destruct (Z.eqb_spec c 0) as [->|Hcn]; [apply ok_done; simpl; lia|].
  assert (S q2 ≠ n) by (intros E; by apply Hcn, Hc0).
  apply ok_post; [apply handle_header_ok; [done|lia|lia]|]. intros [o r1] _.
  destruct (decide (o = Some OHC_ERROR)); [apply ok_done; simpl; lia|].
  apply ok_post.
  - destruct is_store; cbn [andb]; [|apply ok_ret].
    destruct (_ || _); [|apply ok_ret]. apply ok_bind; [by apply Hstore|]. intros. apply ok_ret.
  - intros r2 _. apply IH; lia.
Qed.
End parse_ok.

Section parse_total.
Context (mktime : tm → Z → option (Z * Z)) (isdst now expire_force : Z).

Lemma add_put_fine r b l : fine (http_add_put_headers r b l).
Proof.
  unfold http_add_put_headers. destruct (last _); [|done]. destruct (_ =? _); [done|].
  by destruct (decide _).
Qed.

Definition stores (buf : list Z) : Prop :=
  strncmp buf 0 "PUT " = Ret true ∨ strncmp buf 0 "POST " = Ret true.

Lemma find_method_spec buf n :
  buf !! n = Some 0 →
  ∃ om, find_method buf (http_methods mktime isdst now expire_force) = Ret om ∧
    match om with
    | None => True
    | Some (m, p, hs) => (p ≤ n)%nat ∧
        (is_put m = false ∧ table_ok (@returns) hs ∨
         is_put m = true ∧ stores buf ∧ table_ok (@fine) hs)
    end.
Proof.
  intros Hn. unfold http_methods, find_method, stores, strncmp.
  assert (∀ s : string, Forall (λ c, id c ≠ id 0) (bytes s) → ∃ b, strn_eq id buf 0 (bytes s) = Ret b ∧
    (b = true → (length (bytes s) ≤ n)%nat)) as Hs.
  { intros s Hs. destruct (strn_eq_spec buf n Hn id 0 (bytes s)) as (b & E & Hb); [lia|done|].
    exists b. split; [done|]. intros Ht%Hb. lia. }
  destruct (Hs "GET "%string) as (b1 & -> & H1); [repeat constructor; done|].
  destruct (Hs "HEAD "%string) as (b2 & -> & H2); [repeat constructor; done|].
  destruct (Hs "PUT "%string) as (b3 & -> & H3); [repeat constructor; done|].
  destruct (Hs "POST "%string) as (b4 & -> & H4); [repeat constructor; done|].
  destruct (Hs "PURGE "%string) as (b5 & -> & H5); [repeat constructor; done|].
  destruct (Hs "DELETE "%string) as (b6 & -> & H6); [repeat constructor; done|].
  cbn [mbind outcome_bind].
  destruct b1; [eexists; split; [done|]; split; [auto|left; split; [done|apply get_table_ok]]|].
  destruct b2; [eexists; split; [done|]; split; [auto|left; split; [done|apply get_table_ok]]|].
  destruct b3; [eexists; split; [done|]; split; [auto|right; split_and!; [done|auto|apply put_table_fine]]|].
  destruct b4; [eexists; split; [done|]; split; [auto|right; split_and!; [done|auto|apply put_table_fine]]|].
  destruct b5; [eexists; split; [done|]; split; [auto|left; split; [done|apply delete_table_ok]]|].
  destruct b6; [eexists; split; [done|]; split; [auto|left; split; [done|apply delete_table_ok]]|].
  by exists None.
Qed.

Lemma again_returns buf n p r :
  buf !! n = Some 0 → (p ≤ n)%nat →
  ∃ res, (m ← strstr_crlf2 (S (length buf)) buf p;
          Ret (if m : bool then parse_fail r else (OHC_AGAIN, r))) = Ret res.
Proof.
  intros Hn Hp. pose proof (nul_in buf n Hn).
  destruct (strstr_spec buf n Hn (S (length buf)) p) as (b & ->); [lia|lia|]. by eexists.
Qed.

Lemma http_parse_outcome buf0 n r :
  (n < length buf0)%nat → (∀ k, n = S k → buf0 !! k ≠ Some 13) →
  let o := http_request_parse mktime isdst now expire_force buf0 n r in
  fine o ∧ (¬ stores (<[n := 0]> buf0) → returns o).
Proof.
  intros Hlen Hcr o. subst o. unfold http_request_parse. rewrite decide_True by done.
  set (buf := <[n := 0]> buf0).
  assert (buf !! n = Some 0) as Hn by (by apply list_lookup_insert_eq).
  pose proof (nul_in buf n Hn) as Hlb.
  destruct (find_method_spec buf n Hn) as (om & -> & Hom). cbn [mbind outcome_bind].
  destruct om as [[[m p] hs]|]; [|done]. destruct Hom as [Hp Hhs].
  destruct (skip_spaces_spec buf n Hn (S (length buf)) p) as (p1 & -> & Hp1 & _); [lia|lia|].
  cbn [mbind outcome_bind].
  destruct (strchr_spec buf n Hn (S (length buf)) p1 32) as (oq & -> & Hq); [lia|lia|done|].
  cbn [mbind outcome_bind]. destruct oq as [q|].
  2:{ edestruct (again_returns buf n p1) as [res ->]; [done|lia|done]. }
  destruct (skip_spaces_spec buf n Hn (S (length buf)) (S q)) as (p2 & -> & Hp2 & _); [lia|lia|].
  cbn [mbind outcome_bind].
  destruct (strn_eq_spec buf n Hn tolower p2 (bytes "HTTP/")) as (b & Eb & Hb); [lia|repeat constructor; done|].
  unfold strncasecmp. rewrite Eb. cbn [mbind outcome_bind]. destruct b; [|done]. cbn [negb].
  specialize (Hb eq_refl). change (length (bytes "HTTP/")) with 5%nat in Hb.
  destruct (strchr_spec buf n Hn (S (length buf)) (p2 + 5) 13) as (oq2 & -> & Hq2); [lia|lia|done|].
  cbn [mbind outcome_bind]. destruct oq2 as [q2|].
  2:{ edestruct (again_returns buf n p2) as [res ->]; [done|lia|done]. }
  destruct Hq2 as (Hq2 & Eq2 & _).
  assert (S q2 ≠ n) as Hne.
  { intros E. apply (Hcr q2 (eq_sym E)). unfold buf in Eq2. by rewrite list_lookup_insert_ne in Eq2 by lia. }
  destruct Hhs as [[Em Hhs]|(Em & Hst & Hhs)]; rewrite Em.
  - destruct (parse_headers_ok (@returns) (λ _ _, I) (@returns_bind) buf n Hn false ltac:(done)
      (S (length buf)) hs (q2 + 2) OHC_OK
      (set_q_uri (Some (Str p1 (Z.of_nat q - Z.of_nat p1)))
         (set_q_method m (set_q_put_header_length 0 (set_q_put_headers [] r)))) Hhs)
      as [Hret Hpos]; [lia|lia|].
    apply returns_ex in Hret as [e Ee]. rewrite Ee. specialize (Hpos e Ee). cbn [mbind outcome_bind].
    destruct e as [r1|r1 p3|r1 p3]; [done| |done]. simpl in Hpos.
    edestruct (again_returns buf n p3) as [res ->]; [done|lia|done].
  - split; [|by intros Hns]. apply fine_bind.
    + apply (parse_headers_ok (@fine) (λ _ _, I) (@fine_bind) buf n Hn true); [|done|lia|lia].
      intros _ ? ? ?. apply add_put_fine.
    + intros e Ee.
      apply (parse_headers_ok (@fine) (λ _ _, I) (@fine_bind) buf n Hn true) in Ee as Hpos;
        [|intros; apply add_put_fine|done|lia|lia].
      destruct e as [r1|r1 p3|r1 p3]; [done| |]; simpl in Hpos.
      * edestruct (again_returns buf n p3) as [res ->]; [done|lia|done].
      * apply fine_bind; [|by intros [rc r2] _]. unfold parse_store.
        destruct (_ =? -1); [done|]. destruct (_ <? _); [done|].
        apply fine_bind; [apply add_put_fine|done].
Qed.
End parse_total.

(** ** Lengths of printed numbers *)

Lemma dec_loop_length fuel n acc :
  0 ≤ n < 10 ^ Z.of_nat fuel → (0 < fuel)%nat →
  Z.of_nat (length (dec_loop fuel n acc)) =
    Z.of_nat (length acc) + (if n =? 0 then 1 else numlen_loop fuel n 0).
Proof.
  assert (∀ fuel n len, numlen_loop fuel n len = len + numlen_loop fuel n 0) as Hsh.
  { induction fuel0 as [|f IH]; intros m len; simpl; [lia|]. destruct (m =? 0); [lia|].
    rewrite (IH _ (len + 1)), (IH _ (0 + 1)). lia. }
  revert n acc. induction fuel as [|fuel IH]; intros n acc Hn Hf; [lia|].
  cbn [dec_loop numlen_loop]. rewrite Z.quot_div_nonneg by lia.
  rewrite Nat2Z.inj_succ, Z.pow_succ_r in Hn by lia.
  destruct (Z.eqb_spec (n / 10) 0) as [E|E].
  - cbn [length]. rewrite E. destruct (Z.eqb_spec n 0) as [->|]; [lia|].
    rewrite Hsh. destruct fuel; simpl; lia.
  - rewrite (proj2 (Z.eqb_neq n 0)) by (intros ->; done).
    assert (fuel ≠ 0%nat) by (intros ->; simpl in Hn; dlia).
    rewrite IH; [|split; [apply Z.div_pos; lia|apply Z.div_lt_upper_bound; lia]|lia].
    rewrite (proj2 (Z.eqb_neq (n / 10) 0) E). cbn [length]. rewrite (Hsh _ _ (0 + 1)). lia.
Qed.

Lemma dec_length n : 0 ≤ n < 10 ^ 20 → Z.of_nat (length (dec n)) = numlen n.
Proof.
  intros Hn. unfold dec, numlen. rewrite dec_loop_length by (simpl; lia). simpl length.
  destruct (n =? 0); lia.
Qed.

(** ** Percent encoding *)

Definition is_hex (c d : Z) : Prop := char2hex c = d ∧ 0 ≤ d.

(** [encodes s l]: [s] is the bytes [l], each written plainly or as two
    hexadecimal digits. *)
Inductive encodes : list Z → list Z → Prop :=
  | enc_nil : encodes [] []
  | enc_plain c s l : c ≠ 37 → encodes s l → encodes (c :: s) (c :: l)
  | enc_hex a b x y s l : is_hex a x → is_hex b y → encodes s l →
      encodes (37 :: a :: b :: s) (x * 16 + y :: l).

Lemma at_here buf pre s post k j c :
  buf = pre ++ s ++ post → length pre = k → s !! j = Some c → at_ buf (k + j) = Ret c.
Proof.
  intros -> <- Hj. unfold at_. rewrite lookup_app_r by lia.
  replace (length pre + j - length pre)%nat with j by lia.
  by rewrite (lookup_app_l_Some s post j c Hj).
Qed.

Lemma decode_from_encoded buf pre s l post fuel uri i len :
  encodes s l → buf = pre ++ s ++ post → length pre = (uri + Z.to_nat i)%nat → 0 ≤ i →
  len = i + Z.of_nat (length s) → (length s < fuel)%nat →
  decode_from fuel buf uri i len = Ret l.
Proof.
  intros Henc. revert pre fuel i. induction Henc as [|c s l Hc Henc IH|a b x y s l [Ha Hx] [Hb Hy] Henc IH];
    intros pre fuel i Eb Hpre Hi Hlen Hf; destruct fuel as [|fuel]; simpl in Hlen, Hf; try lia; cbn [decode_from].
  - by rewrite (proj2 (Z.ltb_ge _ _)) by lia.
  - rewrite (proj2 (Z.ltb_lt _ _)) by lia.
    pose proof (at_here buf pre (c :: s) post _ 0 c Eb Hpre eq_refl) as E0. rewrite Nat.add_0_r in E0.
    rewrite E0. cbn [mbind outcome_bind]. rewrite (proj2 (Z.eqb_neq c 37) Hc).
    rewrite (IH (pre ++ [c])); [done|..]; try lia.
    + by rewrite Eb, <- app_assoc.
    + rewrite length_app. simpl. lia.
  - rewrite (proj2 (Z.ltb_lt _ _)) by lia.
    pose proof (at_here buf pre (37 :: a :: b :: s) post _ 0 37 Eb Hpre eq_refl) as E0. rewrite Nat.add_0_r in E0.
    pose proof (at_here buf pre (37 :: a :: b :: s) post _ 1 a Eb Hpre eq_refl) as E1.
    pose proof (at_here buf pre (37 :: a :: b :: s) post _ 2 b Eb Hpre eq_refl) as E2.
    replace (uri + Z.to_nat (i + 1))%nat with (uri + Z.to_nat i + 1)%nat by lia.
    replace (uri + Z.to_nat (i + 2))%nat with (uri + Z.to_nat i + 2)%nat by lia.
    rewrite E0, E1, E2. cbn [mbind outcome_bind]. rewrite Z.eqb_refl. cbn [mbind outcome_bind].
    rewrite Ha, Hb, (proj2 (Z.leb_le 0 x) Hx), (proj2 (Z.leb_le 0 y) Hy). cbn [andb].
    rewrite (IH (pre ++ [37; a; b])); try lia.
    + cbn [mbind outcome_bind]. by rewrite Z.shiftl_mul_pow2 by lia.
    + by rewrite Eb, <- app_assoc.
    + rewrite length_app. simpl. lia.
Qed.

(** The key buffer is as large as the request buffer: decoding never grows. *)
Lemma decode_from_spec fuel buf uri i len :
  0 ≤ i → (uri + Z.to_nat len + 2 ≤ length buf)%nat → Z.max 0 (len - i) < Z.of_nat fuel →
  ∃ out, decode_from fuel buf uri i len = Ret out ∧ Z.of_nat (length out) ≤ Z.max 0 (len - i).
Proof.
  revert i. induction fuel as [|fuel IH]; intros i Hi Hb Hf; cbn [decode_from].
  - lia.
  - destruct (Z.ltb_spec i len); [|exists []; split; [done|simpl; lia]].
    assert (∀ k : nat, (k < length buf)%nat → ∃ c, at_ buf k = Ret c) as Hat.
    { intros k [c Hc]%lookup_lt_is_Some_2. exists c. unfold at_. by rewrite Hc. }
    assert (∀ j c, i < j → ∃ out, (out ← decode_from fuel buf uri j len; Ret (c :: out)) = Ret out ∧
      Z.of_nat (length out) ≤ Z.max 0 (len - i)) as Hrec.
    { intros j c Hj. destruct (IH j) as (out & -> & Ho); [lia|lia|lia|]. exists (c :: out).
      split; [done|]. simpl. lia. }
    destruct (Hat (uri + Z.to_nat i)%nat) as [c ->]; [lia|]. cbn [mbind outcome_bind].
    destruct (c =? 37); [|apply Hrec; lia].
    destruct (Hat (uri + Z.to_nat (i + 1))%nat) as [a ->]; [lia|]. cbn [mbind outcome_bind].
    destruct (Hat (uri + Z.to_nat (i + 2))%nat) as [b ->]; [lia|]. cbn [mbind outcome_bind].
    destruct (_ && _); apply Hrec; lia.
Qed.

(** ** Ranges *)

Definition add_digit (v c : Z) : Z := v * 10 + c - 48.

Lemma dec_loop_value fuel n acc :
  0 ≤ n < 10 ^ Z.of_nat fuel → foldl add_digit 0 (dec_loop fuel n acc) = foldl add_digit n acc.
Proof.
  revert n acc. induction fuel as [|fuel IH]; intros n acc Hn.
  - simpl in *. by replace n with 0 by lia.
  - rewrite Nat2Z.inj_succ, Z.pow_succ_r in Hn by lia. cbn [dec_loop].
    destruct (Z.eqb_spec (n / 10) 0) as [E|E].
    + simpl. f_equal. unfold add_digit. dlia.
    + rewrite IH by (split; [apply Z.div_pos; lia|apply Z.div_lt_upper_bound; lia]).
      simpl. f_equal. unfold add_digit. dlia.
Qed.
Lemma dec_value n : 0 ≤ n < 10 ^ 20 → foldl add_digit 0 (dec n) = n.
Proof. intros. unfold dec. by rewrite dec_loop_value. Qed.

Lemma dec_loop_digits fuel n acc :
  0 ≤ n → Forall (λ c, is_digit c = true) acc → Forall (λ c, is_digit c = true) (dec_loop fuel n acc).
Proof.
  revert n acc. induction fuel as [|fuel IH]; intros n acc Hn Ha; [done|]. cbn [dec_loop].
  assert (is_digit (48 + n mod 10) = true).
  { unfold is_digit. apply andb_true_iff. rewrite !Z.leb_le. dlia. }
  destruct (n / 10 =? 0); [by constructor|]. apply IH; [apply Z.div_pos; lia|by constructor].
Qed.
Lemma dec_nonempty n : dec n ≠ [].
Proof.
  assert (∀ f m acc, (length acc ≤ length (dec_loop f m acc))%nat) as Hmono.
  { induction f as [|f IH]; intros m acc; [done|]. cbn [dec_loop].
    destruct (m / 10 =? 0); [simpl; lia|]. specialize (IH (m / 10) (48 + m mod 10 :: acc)).
    simpl in IH. lia. }
  assert (∀ f m, dec_loop (S f) m [] ≠ []) as Hne; [|apply Hne].
  intros f m E. specialize (Hmono f (m / 10) [48 + m mod 10]). cbn [dec_loop] in E.
  destruct (m / 10 =? 0); [done|]. rewrite E in Hmono. simpl in Hmono. lia.
Qed.

Lemma foldl_digits_ge v ds :
  0 ≤ v → Forall (λ c, is_digit c = true) ds → v ≤ foldl add_digit v ds.
Proof.
  intros Hv Hd. revert v Hv. induction Hd as [|c ds Hc Hd IH]; intros v Hv; simpl; [lia|].
  unfold is_digit in Hc. apply andb_true_iff in Hc as [?%Z.leb_le ?%Z.leb_le].
  specialize (IH (add_digit v c)). unfold add_digit in *. lia.
Qed.

Lemma range_digits_value buf pre ds c post fuel v :
  buf = pre ++ (ds ++ [c]) ++ post → Forall (λ c, is_digit c = true) ds → is_digit c = false →
  0 ≤ v → foldl add_digit v ds < 2 ^ 63 → (length ds < fuel)%nat →
  range_digits fuel buf (length pre) v = Ret (foldl add_digit v ds, (length pre + length ds)%nat).
Proof.
  intros Eb Hd Hc. revert pre fuel v Eb. induction Hd as [|d ds Hdig Hd IH]; intros pre fuel v Eb Hv Hlt Hf;
    destruct fuel as [|fuel]; simpl in Hf; try lia; cbn [range_digits].
  - pose proof (at_here buf pre ([] ++ [c]) post _ 0 c Eb eq_refl eq_refl) as E0.
    rewrite Nat.add_0_r in E0. rewrite E0. cbn [mbind outcome_bind]. by rewrite Hc, Nat.add_0_r.
  - pose proof (at_here buf pre ((d :: ds) ++ [c]) post _ 0 d Eb eq_refl eq_refl) as E0.
    rewrite Nat.add_0_r in E0. rewrite E0. cbn [mbind outcome_bind]. rewrite Hdig.
    simpl in Hlt. pose proof Hdig as Hr. unfold is_digit in Hr.
    apply andb_true_iff in Hr as [?%Z.leb_le ?%Z.leb_le].
    assert (0 ≤ add_digit v d) by (unfold add_digit; lia).
    pose proof (foldl_digits_ge (add_digit v d) ds ltac:(done) Hd).
    rewrite swrap_small by (unfold add_digit in *; lia).
    specialize (IH (pre ++ [d]) fuel (add_digit v d)). rewrite length_app in IH. simpl in IH.
    replace (length pre + 1)%nat with (S (length pre)) in IH by lia.
    change (v * 10 + d - 48) with (add_digit v d).
    rewrite IH; [|by rewrite Eb; simpl; rewrite <- ?app_assoc; simpl; rewrite <- ?app_assoc|lia|done|lia]. simpl. f_equal. f_equal. lia.
Qed.

Lemma range_number_value buf pre n c post :
  buf = pre ++ (dec n ++ [c]) ++ post → is_digit c = false → 0 ≤ n < 2 ^ 63 →
  range_number buf (length pre) = Ret (n, (length pre + length (dec n))%nat).
Proof.
  intros Eb Hc Hn. unfold range_number.
  rewrite (range_digits_value buf pre (dec n) c post (S (length buf)) 0); try done.
  - cbn [mbind outcome_bind]. rewrite dec_value by lia.
    pose proof (dec_nonempty n) as Hne.
    rewrite (proj2 (Nat.eqb_neq _ _)); [done|]. destruct (dec n); simpl; [done|lia].
  - apply dec_loop_digits; [lia|constructor].
  - rewrite dec_value by lia. lia.
  - rewrite Eb, !length_app. lia.
Qed.

(** The header [Range: bytes=a-b]. *)
Lemma get_range_value buf pre a b post len r :
  buf = pre ++ (bytes "bytes=" ++ dec a ++ [45] ++ dec b ++ [13]) ++ post →
  0 ≤ a ≤ b → b < 2 ^ 63 →
  http_parse_get_range buf (length pre) len r =
    Ret (OHC_OK, set_q_range_end b (set_q_range_start a (set_q_range_set true
                   (set_q_range (Some (Str (length pre) len)) r)))).
Proof.
  intros Eb Ha Hb. unfold http_parse_get_range.
  assert (strncmp buf (length pre) "bytes=" = Ret true) as ->.
  { unfold strncmp. change (bytes "bytes=") with [98; 121; 116; 101; 115; 61].
    pose proof (λ j c, at_here buf pre _ post _ j c Eb eq_refl) as Hat.
    cbn [strn_eq]. rewrite <- (Nat.add_0_r (length pre)).
    replace (S (length pre + 0))%nat with (length pre + 1)%nat by lia.
    replace (S (length pre + 1))%nat with (length pre + 2)%nat by lia.
    replace (S (length pre + 2))%nat with (length pre + 3)%nat by lia.
    replace (S (length pre + 3))%nat with (length pre + 4)%nat by lia.
    replace (S (length pre + 4))%nat with (length pre + 5)%nat by lia.
    rewrite (Hat 0%nat 98), (Hat 1%nat 121), (Hat 2%nat 116), (Hat 3%nat 101), (Hat 4%nat 115), (Hat 5%nat 61)
      by reflexivity. done. }
  cbn [mbind outcome_bind negb].
  rewrite !app_assoc in Eb. set (pre1 := pre ++ bytes "bytes=") in Eb.
  assert (length pre1 = (length pre + 6)%nat) as Hl1 by (unfold pre1; by rewrite length_app).
  rewrite <- Hl1.
  rewrite (range_number_value buf pre1 a 45 (dec b ++ [13] ++ post)); [|rewrite Eb; by rewrite <- !app_assoc|done|lia].
  cbn [mbind outcome_bind].
  set (pre2 := pre1 ++ dec a).
  assert (length pre2 = (length pre1 + length (dec a))%nat) as Hl2 by (unfold pre2; by rewrite length_app).
  rewrite <- Hl2. assert (buf = pre2 ++ [45] ++ (dec b ++ [13] ++ post)) as Eb2.
  { rewrite Eb. unfold pre2. by rewrite <- !app_assoc. }
  pose proof (at_here buf pre2 [45] _ _ 0 45 Eb2 eq_refl eq_refl) as E0. rewrite Nat.add_0_r in E0.
  rewrite E0. cbn [mbind outcome_bind]. rewrite Z.eqb_refl. cbn [negb].
  set (pre3 := pre2 ++ [45]).
  assert (length pre3 = S (length pre2)) as Hl3 by (unfold pre3; rewrite length_app; simpl; lia).
  assert (buf = pre3 ++ (dec b ++ [13]) ++ post) as Eb3.
  { rewrite Eb2. unfold pre3. by rewrite <- !app_assoc. }
  rewrite <- Hl3, (range_number_value buf pre3 b 13 post) by (done || lia). cbn [mbind outcome_bind].
  unfold RANGE_NO_SET. rewrite !(proj2 (Z.eqb_neq _ (-1))) by lia. cbn [andb negb].
  rewrite (proj2 (Z.ltb_ge b a)) by lia.
  set (pre4 := pre3 ++ dec b).
  assert (length pre4 = (length pre3 + length (dec b))%nat) as Hl4 by (unfold pre4; by rewrite length_app).
  assert (buf = pre4 ++ [13] ++ post) as Eb4 by (rewrite Eb3; unfold pre4; by rewrite <- !app_assoc).
  pose proof (at_here buf pre4 [13] _ _ 0 13 Eb4 eq_refl eq_refl) as E4. rewrite Nat.add_0_r in E4.
  rewrite <- Hl4. cbn [skip_spaces]. rewrite E4. cbn. rewrite E4. done.
Qed.

(** ** Headers kept for a stored item *)

Definition sub (buf : list Z) (s : string_t) : list Z := take (Z.to_nat (str_len s)) (drop (str_base s) buf).
Definition kept_bytes (buf : list Z) (r : hreq) : list Z := concat (sub buf <$> q_put_headers r).

Lemma take_plus {A} (l : list A) n m : take (n + m) l = take n l ++ take m (drop n l).
Proof.
  revert l. induction n as [|n IH]; intros [|x l]; simpl; [done|done|by rewrite take_nil|by rewrite IH].
Qed.

Lemma sub_join buf b l l' :
  0 ≤ l → 0 ≤ l' →
  sub buf (Str b (l + l')) = sub buf (Str b l) ++ sub buf (Str (b + Z.to_nat l) l').
Proof.
  intros. unfold sub. cbn [str_base str_len]. rewrite Z2Nat.inj_add by lia.
  by rewrite take_plus, drop_drop.
Qed.

(** A kept part is appended, whether or not it is joined to the last entry. *)
Lemma add_put_headers_spec buf r base len :
  Forall (λ s, 0 ≤ str_len s) (q_put_headers r) → 0 ≤ len →
  (length (q_put_headers r) < PUT_HEADERS)%nat →
  ∃ hs, http_add_put_headers r base len = Ret (set_q_put_headers hs r) ∧
    kept_bytes buf (set_q_put_headers hs r) = kept_bytes buf r ++ sub buf (Str base len) ∧
    Forall (λ s, 0 ≤ str_len s) hs ∧
    (length (q_put_headers r) ≤ length hs ≤ S (length (q_put_headers r)))%nat.
Proof.
  intros Hpos Hlen Hn. unfold http_add_put_headers, kept_bytes.
  destruct (q_put_headers r) as [|s hs _] eqn:E using rev_ind.
  - simpl. eexists. split; [done|]. simpl. split_and!; [by rewrite app_nil_r|by repeat constructor|lia|lia..].
  - rewrite last_snoc. apply Forall_app in Hpos as [Hhs [Hs _]%Forall_cons].
    destruct (Z.eqb_spec (Z.of_nat (str_base s) + str_len s) (Z.of_nat base)) as [Eb|].
    + rewrite removelast_last. eexists. split; [done|]. cbn [q_put_headers set_q_put_headers].
      rewrite !fmap_app, !concat_app. simpl. rewrite sub_join, !app_nil_r by lia.
      replace (str_base s + Z.to_nat (str_len s))%nat with base by lia. split_and!.
      * destruct s. by rewrite <- app_assoc.
      * apply Forall_app. split; [done|]. repeat constructor. simpl. lia.
      * rewrite !length_app. simpl. lia.
      * rewrite !length_app. simpl. lia.
    + rewrite decide_True by done. eexists. split; [done|]. cbn [q_put_headers set_q_put_headers].
      rewrite !fmap_app, !concat_app. simpl. rewrite !app_nil_r. split_and!; [done| |..].
      * rewrite !Forall_app. split_and!; [done|by repeat constructor..].
      * rewrite !length_app. simpl. lia.
      * rewrite !length_app. simpl. lia.
Qed.

(** ** Properties *)


Definition crlf_lines (l : list string) : list Z := concat ((λ s, bytes s ++ CRLF) <$> l).


(** A request line that ends the full buffer with a bare carriage return
    makes the parser skip the NUL and read behind the buffer. *)
Theorem http_request_parse_overrun :
  ∃ buf0, length buf0 = Z.to_nat REQ_BUF_SIZE ∧
    http_request_parse (λ _ _, None) 0 0 0 buf0 4095 hreq_init = Fail OutOfBounds.
Proof.
  exists (bytes "GET /" ++ replicate 4080 97 ++ bytes " HTTP/1.1" ++ [13; 0]).
  split; vm_compute; reflexivity.
Qed.

(** Eleven headers to keep, each between handled ones, are written
    outside [put_headers]. *)
Theorem http_put_headers_overflow :
  ∃ buf0, (length buf0 < Z.to_nat REQ_BUF_SIZE)%nat ∧
    http_request_parse (λ _ _, None) 0 0 0 (buf0 ++ [0]) (length buf0) hreq_init = Fail OutOfBounds.
Proof.
  exists (crlf_lines (["PUT /a HTTP/1.1"; "Content-Length: 0"]%string ++
    concat (replicate 11 ["X: 1"; "Connection: close"]%string) ++ [EmptyString])).
  split; [apply Nat.ltb_lt|]; vm_compute; reflexivity.
Qed.

(** The length of the response header of an item, which is computed when
    the item is stored, is that of the header sent when it is read. *)
Theorem http_200_header_length n :
  0 ≤ n < 2 ^ 63 →
  Z.of_nat (length (http_make_200_response_header n)) = http_200_response_header_len n.
Proof.
  intros Hn. unfold http_make_200_response_header, http_200_response_header_len, dec_signed.
  rewrite (proj2 (Z.ltb_ge n 0)) by lia. rewrite <- (dec_length n) by lia. rewrite !length_app. lia.
Qed.

Lemma http_200_header_length_witness :
  Z.of_nat (length (http_make_200_response_header 12345)) = http_200_response_header_len 12345.
Proof. apply http_200_header_length. lia. Defined.

(** C31: percent-decoding undoes percent-encoding, whichever characters the
    encoder chose to escape and in whichever case it wrote the digits; and for
    any URI, encoded well or not, the result is no longer than the URI. *)
Theorem http_decode_uri_correct buf pre s l post :
  buf = pre ++ s ++ post → (2 ≤ length post)%nat →
  (encodes s l → http_decode_uri buf (length pre) (Z.of_nat (length s)) = Ret l) ∧
  ∃ out, http_decode_uri buf (length pre) (Z.of_nat (length s)) = Ret out ∧
    (length out ≤ length s)%nat.
Proof.
  intros -> Hp. unfold http_decode_uri. split.
  - intros He. eapply (decode_from_encoded _ pre s l post); [done|done|lia|lia|lia|]. lia.
  - edestruct (decode_from_spec) as (out & E & Ho); [| | |exists out; split; [exact E|lia]]; [lia| |lia].
    rewrite !length_app. lia.
Qed.

Lemma http_decode_uri_correct_witness :
  http_decode_uri (bytes "/a%20%2Fb HTTP") 0 9 = Ret (bytes "/a /b").
Proof.
  apply (http_decode_uri_correct (bytes "/a%20%2Fb HTTP") [] (bytes "/a%20%2Fb") (bytes "/a /b")
    (bytes " HTTP")); [reflexivity|vm_compute; lia|].
  change (encodes [47; 97; 37; 50; 48; 37; 50; 70; 98] [47; 97; 2 * 16 + 0; 2 * 16 + 15; 98]).
  repeat first [apply enc_plain; [done|]|apply enc_hex; [split; done..|]]. apply enc_nil.
Defined.

(** A [Range: bytes=a-b] header sets the range it says. *)
Theorem http_range_correct buf pre a b post len r :
  buf = pre ++ (bytes "bytes=" ++ dec a ++ [45] ++ dec b ++ [13]) ++ post →
  0 ≤ a ≤ b → b < 2 ^ 63 →
  http_parse_get_range buf (length pre) len r =
    Ret (OHC_OK, set_q_range_end b (set_q_range_start a (set_q_range_set true
                   (set_q_range (Some (Str (length pre) len)) r)))).
Proof. apply get_range_value. Qed.

Lemma http_range_correct_witness :
  ∃ q, http_parse_get_range (bytes "bytes=10-99" ++ [13; 10]) 0 11 hreq_init = Ret (OHC_OK, q) ∧
    q_range_start q = 10 ∧ q_range_end q = 99.
Proof.
  eexists. split; [|split].
  - apply (http_range_correct (bytes "bytes=10-99" ++ [13; 10]) [] 10 99 [10] 11 hreq_init);
      [reflexivity|lia|lia].
  - reflexivity.
  - reflexivity.
Defined.

(** The headers kept with an item.  Recording one more header appends its
    bytes to the bytes kept so far, whether it grows the last entry or takes a
    new one of the ten. *)
Theorem http_put_headers_keep buf r base len :
  Forall (λ s, 0 ≤ str_len s) (q_put_headers r) → 0 ≤ len →
  (length (q_put_headers r) < PUT_HEADERS)%nat →
  ∃ hs, http_add_put_headers r base len = Ret (set_q_put_headers hs r) ∧
    kept_bytes buf (set_q_put_headers hs r) = kept_bytes buf r ++ sub buf (Str base len) ∧
    Forall (λ s, 0 ≤ str_len s) hs ∧
    (length (q_put_headers r) ≤ length hs ≤ S (length (q_put_headers r)))%nat.
Proof. apply add_put_headers_spec. Qed.

Lemma http_put_headers_keep_witness :
  ∃ hs, http_add_put_headers (set_q_put_headers [Str 2 3] hreq_init) 5 4
      = Ret (set_q_put_headers hs (set_q_put_headers [Str 2 3] hreq_init)) ∧
    kept_bytes (bytes "--abcdefg--") (set_q_put_headers hs hreq_init) = bytes "abcdefg".
Proof.
  destruct (http_put_headers_keep (bytes "--abcdefg--") (set_q_put_headers [Str 2 3] hreq_init) 5 4)
    as (hs & E & Ek & _).
  - repeat constructor; simpl; lia.
  - lia.
  - vm_compute. lia.
  - exists hs. split; [exact E|]. etransitivity; [exact Ek|]. vm_compute. reflexivity.
Defined.
