(* ===== verification/Server.v ===== *)
(** * server.c: servers and their items

    A server keeps a hash table of items (on a device) and pass-by items (only
    the key), and LRU lists of both; a server without a capacity of its own
    keeps its items in the shared LRU list.  The node of a hash table is an item
    or a pass-by item: the bit [passby] behind the hash node tells them apart,
    here a constructor of [snode].  [list_del] on an LRU node takes it out of
    whatever list it is in.

    Two counters say who may use an item: [used], the GET requests that send it,
    and [putting]; while either holds, a deletion only marks the item, and
    [server_request_finalize] completes it.

    MD5 is a parameter.  [device_delete_item], [device_free_block_extend] and
    [device_destroy] of device.c, which delete items, are here too. *)

From Stdlib Require Import String.
From stdpp Require Import prelude fin_maps gmap.
From S2P Require Import Prelude IdxPointer StrUtil IpBucket Slab Hash Device Http.

(** A node of a server's hash table. *)
Inductive snode := NItem (x : Z) | NPassby (p : Z).
#[global] Instance snode_eq_dec : EqDecision snode.
Proof. solve_decision. Defined.
#[global] Instance snode_countable : Countable snode.
Proof.
  apply (inj_countable' (λ n, match n with NItem x => inl x | NPassby p => inr p end)
           (λ s, match s with inl x => NItem x | inr p => NPassby p end)). by intros [].
Defined.

Record ohc_passby_item_t := Passby { pb_expire : Z }.

(** The counters behind the status page: total, last and current period. *)
Record server_stats := Stats {
  t_gets : Z;
  t_gets_last : Z;
  t_gets_cur : Z;
  t_hits : Z;
  t_hits_last : Z;
  t_hits_cur : Z;
  t_passby_hits : Z;
  t_passby_hits_last : Z;
  t_passby_hits_cur : Z;
  t_puts : Z;
  t_puts_last : Z;
  t_puts_cur : Z;
  t_stores : Z;
  t_stores_last : Z;
  t_stores_cur : Z;
  t_passby_stores : Z;
  t_passby_stores_last : Z;
  t_passby_stores_cur : Z;
  t_deletes : Z;
  t_deletes_last : Z;
  t_deletes_cur : Z;
  t_output_last : Z;
  t_output_cur : Z;
  t_input_last : Z;
  t_input_cur : Z
}.

(** The listening socket, the limits of its connections and the access log. *)
Record server_net := ServerNet {
  n_listen_fd : Z;
  n_sndbuf : Z;
  n_rcvbuf : Z;
  n_connections : Z;
  n_connections_limit : Z;
  n_send_timeout : Z;
  n_recv_timeout : Z;
  n_request_timeout : Z;
  n_keepalive_timeout : Z;
  n_shutdown_if_not_store : bool;
  n_access_log : list Z;
  n_access_filp : option Z
}.

Record ohc_server_t := Server {
  s_lru_head : list Z;
  s_passby_lru_head : list Z;
  s_listen_port : Z;
  s_hash : ohc_hash_t snode;
  s_capacity : Z;
  s_consumed : Z;
  s_content : Z;
  s_item_nr : Z;
  s_conf : option Z;
  s_index : Z;
  s_clear : Z;
  s_deleted : bool;
  s_server_dump : bool;
  s_key_include_host : bool;
  s_key_include_ohc_key : bool;
  s_key_include_query : bool;
  s_passby_enable : bool;
  s_passby_begin_item_nr : Z;
  s_passby_begin_consumed : Z;
  s_passby_limit_nr : Z;
  s_passby_expire : Z;
  s_passby_item_nr : Z;
  s_item_max_size : Z;
  s_expire_default : Z;
  s_expire_force : Z;
  s_stats : server_stats;
  s_last_clear : Z;
  s_status_period : Z;
  s_net : server_net
}.

(** *** Assignments to fields *)
Definition set_s_lru_head (v : list Z) (r : ohc_server_t) : ohc_server_t :=
  Server v (s_passby_lru_head r) (s_listen_port r) (s_hash r) (s_capacity r) (s_consumed r)
    (s_content r) (s_item_nr r) (s_conf r) (s_index r) (s_clear r) (s_deleted r) (s_server_dump r)
    (s_key_include_host r) (s_key_include_ohc_key r) (s_key_include_query r) (s_passby_enable r)
    (s_passby_begin_item_nr r) (s_passby_begin_consumed r) (s_passby_limit_nr r) (s_passby_expire
    r) (s_passby_item_nr r) (s_item_max_size r) (s_expire_default r) (s_expire_force r) (s_stats
    r) (s_last_clear r) (s_status_period r) (s_net r).
Definition set_s_passby_lru_head (v : list Z) (r : ohc_server_t) : ohc_server_t :=
  Server (s_lru_head r) v (s_listen_port r) (s_hash r) (s_capacity r) (s_consumed r) (s_content
    r) (s_item_nr r) (s_conf r) (s_index r) (s_clear r) (s_deleted r) (s_server_dump r)
    (s_key_include_host r) (s_key_include_ohc_key r) (s_key_include_query r) (s_passby_enable r)
    (s_passby_begin_item_nr r) (s_passby_begin_consumed r) (s_passby_limit_nr r) (s_passby_expire
    r) (s_passby_item_nr r) (s_item_max_size r) (s_expire_default r) (s_expire_force r) (s_stats
    r) (s_last_clear r) (s_status_period r) (s_net r).
Definition set_s_hash (v : ohc_hash_t snode) (r : ohc_server_t) : ohc_server_t :=
  Server (s_lru_head r) (s_passby_lru_head r) (s_listen_port r) v (s_capacity r) (s_consumed r)
    (s_content r) (s_item_nr r) (s_conf r) (s_index r) (s_clear r) (s_deleted r) (s_server_dump r)
    (s_key_include_host r) (s_key_include_ohc_key r) (s_key_include_query r) (s_passby_enable r)
    (s_passby_begin_item_nr r) (s_passby_begin_consumed r) (s_passby_limit_nr r) (s_passby_expire
    r) (s_passby_item_nr r) (s_item_max_size r) (s_expire_default r) (s_expire_force r) (s_stats
    r) (s_last_clear r) (s_status_period r) (s_net r).
Definition set_s_capacity (v : Z) (r : ohc_server_t) : ohc_server_t :=
  Server (s_lru_head r) (s_passby_lru_head r) (s_listen_port r) (s_hash r) v (s_consumed r)
    (s_content r) (s_item_nr r) (s_conf r) (s_index r) (s_clear r) (s_deleted r) (s_server_dump r)
    (s_key_include_host r) (s_key_include_ohc_key r) (s_key_include_query r) (s_passby_enable r)
    (s_passby_begin_item_nr r) (s_passby_begin_consumed r) (s_passby_limit_nr r) (s_passby_expire
    r) (s_passby_item_nr r) (s_item_max_size r) (s_expire_default r) (s_expire_force r) (s_stats
    r) (s_last_clear r) (s_status_period r) (s_net r).
Definition set_s_consumed (v : Z) (r : ohc_server_t) : ohc_server_t :=
  Server (s_lru_head r) (s_passby_lru_head r) (s_listen_port r) (s_hash r) (s_capacity r) v
    (s_content r) (s_item_nr r) (s_conf r) (s_index r) (s_clear r) (s_deleted r) (s_server_dump r)
    (s_key_include_host r) (s_key_include_ohc_key r) (s_key_include_query r) (s_passby_enable r)
    (s_passby_begin_item_nr r) (s_passby_begin_consumed r) (s_passby_limit_nr r) (s_passby_expire
    r) (s_passby_item_nr r) (s_item_max_size r) (s_expire_default r) (s_expire_force r) (s_stats
    r) (s_last_clear r) (s_status_period r) (s_net r).
Definition set_s_content (v : Z) (r : ohc_server_t) : ohc_server_t :=
  Server (s_lru_head r) (s_passby_lru_head r) (s_listen_port r) (s_hash r) (s_capacity r)
    (s_consumed r) v (s_item_nr r) (s_conf r) (s_index r) (s_clear r) (s_deleted r) (s_server_dump
    r) (s_key_include_host r) (s_key_include_ohc_key r) (s_key_include_query r) (s_passby_enable
    r) (s_passby_begin_item_nr r) (s_passby_begin_consumed r) (s_passby_limit_nr r)
    (s_passby_expire r) (s_passby_item_nr r) (s_item_max_size r) (s_expire_default r)
    (s_expire_force r) (s_stats r) (s_last_clear r) (s_status_period r) (s_net r).
Definition set_s_item_nr (v : Z) (r : ohc_server_t) : ohc_server_t :=
  Server (s_lru_head r) (s_passby_lru_head r) (s_listen_port r) (s_hash r) (s_capacity r)
    (s_consumed r) (s_content r) v (s_conf r) (s_index r) (s_clear r) (s_deleted r) (s_server_dump
    r) (s_key_include_host r) (s_key_include_ohc_key r) (s_key_include_query r) (s_passby_enable
    r) (s_passby_begin_item_nr r) (s_passby_begin_consumed r) (s_passby_limit_nr r)
    (s_passby_expire r) (s_passby_item_nr r) (s_item_max_size r) (s_expire_default r)
    (s_expire_force r) (s_stats r) (s_last_clear r) (s_status_period r) (s_net r).
Definition set_s_conf (v : option Z) (r : ohc_server_t) : ohc_server_t :=
  Server (s_lru_head r) (s_passby_lru_head r) (s_listen_port r) (s_hash r) (s_capacity r)
    (s_consumed r) (s_content r) (s_item_nr r) v (s_index r) (s_clear r) (s_deleted r)
    (s_server_dump r) (s_key_include_host r) (s_key_include_ohc_key r) (s_key_include_query r)
    (s_passby_enable r) (s_passby_begin_item_nr r) (s_passby_begin_consumed r) (s_passby_limit_nr
    r) (s_passby_expire r) (s_passby_item_nr r) (s_item_max_size r) (s_expire_default r)
    (s_expire_force r) (s_stats r) (s_last_clear r) (s_status_period r) (s_net r).
Definition set_s_index (v : Z) (r : ohc_server_t) : ohc_server_t :=
  Server (s_lru_head r) (s_passby_lru_head r) (s_listen_port r) (s_hash r) (s_capacity r)
    (s_consumed r) (s_content r) (s_item_nr r) (s_conf r) v (s_clear r) (s_deleted r)
    (s_server_dump r) (s_key_include_host r) (s_key_include_ohc_key r) (s_key_include_query r)
    (s_passby_enable r) (s_passby_begin_item_nr r) (s_passby_begin_consumed r) (s_passby_limit_nr
    r) (s_passby_expire r) (s_passby_item_nr r) (s_item_max_size r) (s_expire_default r)
    (s_expire_force r) (s_stats r) (s_last_clear r) (s_status_period r) (s_net r).
Definition set_s_clear (v : Z) (r : ohc_server_t) : ohc_server_t :=
  Server (s_lru_head r) (s_passby_lru_head r) (s_listen_port r) (s_hash r) (s_capacity r)
    (s_consumed r) (s_content r) (s_item_nr r) (s_conf r) (s_index r) v (s_deleted r)
    (s_server_dump r) (s_key_include_host r) (s_key_include_ohc_key r) (s_key_include_query r)
    (s_passby_enable r) (s_passby_begin_item_nr r) (s_passby_begin_consumed r) (s_passby_limit_nr
    r) (s_passby_expire r) (s_passby_item_nr r) (s_item_max_size r) (s_expire_default r)
    (s_expire_force r) (s_stats r) (s_last_clear r) (s_status_period r) (s_net r).
Definition set_s_deleted (v : bool) (r : ohc_server_t) : ohc_server_t :=
  Server (s_lru_head r) (s_passby_lru_head r) (s_listen_port r) (s_hash r) (s_capacity r)
    (s_consumed r) (s_content r) (s_item_nr r) (s_conf r) (s_index r) (s_clear r) v (s_server_dump
    r) (s_key_include_host r) (s_key_include_ohc_key r) (s_key_include_query r) (s_passby_enable
    r) (s_passby_begin_item_nr r) (s_passby_begin_consumed r) (s_passby_limit_nr r)
    (s_passby_expire r) (s_passby_item_nr r) (s_item_max_size r) (s_expire_default r)
    (s_expire_force r) (s_stats r) (s_last_clear r) (s_status_period r) (s_net r).
Definition set_s_passby_item_nr (v : Z) (r : ohc_server_t) : ohc_server_t :=
  Server (s_lru_head r) (s_passby_lru_head r) (s_listen_port r) (s_hash r) (s_capacity r)
    (s_consumed r) (s_content r) (s_item_nr r) (s_conf r) (s_index r) (s_clear r) (s_deleted r)
    (s_server_dump r) (s_key_include_host r) (s_key_include_ohc_key r) (s_key_include_query r)
    (s_passby_enable r) (s_passby_begin_item_nr r) (s_passby_begin_consumed r) (s_passby_limit_nr
    r) (s_passby_expire r) v (s_item_max_size r) (s_expire_default r) (s_expire_force r) (s_stats
    r) (s_last_clear r) (s_status_period r) (s_net r).
Definition set_s_stats (v : server_stats) (r : ohc_server_t) : ohc_server_t :=
  Server (s_lru_head r) (s_passby_lru_head r) (s_listen_port r) (s_hash r) (s_capacity r)
    (s_consumed r) (s_content r) (s_item_nr r) (s_conf r) (s_index r) (s_clear r) (s_deleted r)
    (s_server_dump r) (s_key_include_host r) (s_key_include_ohc_key r) (s_key_include_query r)
    (s_passby_enable r) (s_passby_begin_item_nr r) (s_passby_begin_consumed r) (s_passby_limit_nr
    r) (s_passby_expire r) (s_passby_item_nr r) (s_item_max_size r) (s_expire_default r)
    (s_expire_force r) v (s_last_clear r) (s_status_period r) (s_net r).
Definition set_s_last_clear (v : Z) (r : ohc_server_t) : ohc_server_t :=
  Server (s_lru_head r) (s_passby_lru_head r) (s_listen_port r) (s_hash r) (s_capacity r)
    (s_consumed r) (s_content r) (s_item_nr r) (s_conf r) (s_index r) (s_clear r) (s_deleted r)
    (s_server_dump r) (s_key_include_host r) (s_key_include_ohc_key r) (s_key_include_query r)
    (s_passby_enable r) (s_passby_begin_item_nr r) (s_passby_begin_consumed r) (s_passby_limit_nr
    r) (s_passby_expire r) (s_passby_item_nr r) (s_item_max_size r) (s_expire_default r)
    (s_expire_force r) (s_stats r) v (s_status_period r) (s_net r).
Definition set_s_net (v : server_net) (r : ohc_server_t) : ohc_server_t :=
  Server (s_lru_head r) (s_passby_lru_head r) (s_listen_port r) (s_hash r) (s_capacity r)
    (s_consumed r) (s_content r) (s_item_nr r) (s_conf r) (s_index r) (s_clear r) (s_deleted r)
    (s_server_dump r) (s_key_include_host r) (s_key_include_ohc_key r) (s_key_include_query r)
    (s_passby_enable r) (s_passby_begin_item_nr r) (s_passby_begin_consumed r) (s_passby_limit_nr
    r) (s_passby_expire r) (s_passby_item_nr r) (s_item_max_size r) (s_expire_default r)
    (s_expire_force r) (s_stats r) (s_last_clear r) (s_status_period r) v.

(** [s->x++; s->x_current_period++;] *)
Definition bump (f : server_stats → server_stats) (s : ohc_server_t) : ohc_server_t :=
  set_s_stats (f (s_stats s)) s.
Definition inc_gets (t : server_stats) : server_stats :=
  Stats (t_gets t + 1) (t_gets_last t) (t_gets_cur t + 1) (t_hits t) (t_hits_last t) (t_hits_cur
    t) (t_passby_hits t) (t_passby_hits_last t) (t_passby_hits_cur t) (t_puts t) (t_puts_last t)
    (t_puts_cur t) (t_stores t) (t_stores_last t) (t_stores_cur t) (t_passby_stores t)
    (t_passby_stores_last t) (t_passby_stores_cur t) (t_deletes t) (t_deletes_last t)
    (t_deletes_cur t) (t_output_last t) (t_output_cur t) (t_input_last t) (t_input_cur t).
Definition inc_hits (t : server_stats) : server_stats :=
  Stats (t_gets t) (t_gets_last t) (t_gets_cur t) (t_hits t + 1) (t_hits_last t) (t_hits_cur t +
    1) (t_passby_hits t) (t_passby_hits_last t) (t_passby_hits_cur t) (t_puts t) (t_puts_last t)
    (t_puts_cur t) (t_stores t) (t_stores_last t) (t_stores_cur t) (t_passby_stores t)
    (t_passby_stores_last t) (t_passby_stores_cur t) (t_deletes t) (t_deletes_last t)
    (t_deletes_cur t) (t_output_last t) (t_output_cur t) (t_input_last t) (t_input_cur t).
Definition inc_passby_hits (t : server_stats) : server_stats :=
  Stats (t_gets t) (t_gets_last t) (t_gets_cur t) (t_hits t) (t_hits_last t) (t_hits_cur t)
    (t_passby_hits t + 1) (t_passby_hits_last t) (t_passby_hits_cur t + 1) (t_puts t) (t_puts_last
    t) (t_puts_cur t) (t_stores t) (t_stores_last t) (t_stores_cur t) (t_passby_stores t)
    (t_passby_stores_last t) (t_passby_stores_cur t) (t_deletes t) (t_deletes_last t)
    (t_deletes_cur t) (t_output_last t) (t_output_cur t) (t_input_last t) (t_input_cur t).
Definition inc_puts (t : server_stats) : server_stats :=
  Stats (t_gets t) (t_gets_last t) (t_gets_cur t) (t_hits t) (t_hits_last t) (t_hits_cur t)
    (t_passby_hits t) (t_passby_hits_last t) (t_passby_hits_cur t) (t_puts t + 1) (t_puts_last t)
    (t_puts_cur t + 1) (t_stores t) (t_stores_last t) (t_stores_cur t) (t_passby_stores t)
    (t_passby_stores_last t) (t_passby_stores_cur t) (t_deletes t) (t_deletes_last t)
    (t_deletes_cur t) (t_output_last t) (t_output_cur t) (t_input_last t) (t_input_cur t).
Definition inc_stores (t : server_stats) : server_stats :=
  Stats (t_gets t) (t_gets_last t) (t_gets_cur t) (t_hits t) (t_hits_last t) (t_hits_cur t)
    (t_passby_hits t) (t_passby_hits_last t) (t_passby_hits_cur t) (t_puts t) (t_puts_last t)
    (t_puts_cur t) (t_stores t + 1) (t_stores_last t) (t_stores_cur t + 1) (t_passby_stores t)
    (t_passby_stores_last t) (t_passby_stores_cur t) (t_deletes t) (t_deletes_last t)
    (t_deletes_cur t) (t_output_last t) (t_output_cur t) (t_input_last t) (t_input_cur t).
Definition inc_passby_stores (t : server_stats) : server_stats :=
  Stats (t_gets t) (t_gets_last t) (t_gets_cur t) (t_hits t) (t_hits_last t) (t_hits_cur t)
    (t_passby_hits t) (t_passby_hits_last t) (t_passby_hits_cur t) (t_puts t) (t_puts_last t)
    (t_puts_cur t) (t_stores t) (t_stores_last t) (t_stores_cur t) (t_passby_stores t + 1)
    (t_passby_stores_last t) (t_passby_stores_cur t + 1) (t_deletes t) (t_deletes_last t)
    (t_deletes_cur t) (t_output_last t) (t_output_cur t) (t_input_last t) (t_input_cur t).
Definition inc_deletes (t : server_stats) : server_stats :=
  Stats (t_gets t) (t_gets_last t) (t_gets_cur t) (t_hits t) (t_hits_last t) (t_hits_cur t)
    (t_passby_hits t) (t_passby_hits_last t) (t_passby_hits_cur t) (t_puts t) (t_puts_last t)
    (t_puts_cur t) (t_stores t) (t_stores_last t) (t_stores_cur t) (t_passby_stores t)
    (t_passby_stores_last t) (t_passby_stores_cur t) (t_deletes t + 1) (t_deletes_last t)
    (t_deletes_cur t + 1) (t_output_last t) (t_output_cur t) (t_input_last t) (t_input_cur t).
(** The statistics of a finished period. *)
Definition roll_stats (t : server_stats) : server_stats :=
  Stats (t_gets t) (t_gets_cur t) 0 (t_hits t) (t_hits_cur t) 0 (t_passby_hits t)
    (t_passby_hits_cur t) 0 (t_puts t) (t_puts_cur t) 0 (t_stores t) (t_stores_cur t) 0
    (t_passby_stores t) (t_passby_stores_cur t) 0 (t_deletes t) (t_deletes_cur t) 0 (t_output_cur
    t) 0 (t_input_cur t) 0.

(** ** State *)

Section state.
Context {AS IS PS : Type}.

Record sstore := SStore {
  dst : dstore AS;
  srvs : gmap Z ohc_server_t;
  servers : list Z;
  deleted_servers : list Z;
  server_indexs : idx_pointer_t Z;
  shared_lru_head : list Z;
  hids : gmap snode md5_id;
  passbys : gmap Z ohc_passby_item_t;
  islab : IS;
  pslab : PS;
  master_now : Z
}.

Definition set_dst (v : dstore AS) (r : sstore) : sstore :=
  SStore v (srvs r) (servers r) (deleted_servers r) (server_indexs r) (shared_lru_head r)
    (hids r) (passbys r) (islab r) (pslab r) (master_now r).
Definition set_srvs (v : gmap Z ohc_server_t) (r : sstore) : sstore :=
  SStore (dst r) v (servers r) (deleted_servers r) (server_indexs r) (shared_lru_head r) (hids
    r) (passbys r) (islab r) (pslab r) (master_now r).
Definition set_servers (v : list Z) (r : sstore) : sstore :=
  SStore (dst r) (srvs r) v (deleted_servers r) (server_indexs r) (shared_lru_head r) (hids r)
    (passbys r) (islab r) (pslab r) (master_now r).
Definition set_deleted_servers (v : list Z) (r : sstore) : sstore :=
  SStore (dst r) (srvs r) (servers r) v (server_indexs r) (shared_lru_head r) (hids r)
    (passbys r) (islab r) (pslab r) (master_now r).
Definition set_server_indexs (v : idx_pointer_t Z) (r : sstore) : sstore :=
  SStore (dst r) (srvs r) (servers r) (deleted_servers r) v (shared_lru_head r) (hids r)
    (passbys r) (islab r) (pslab r) (master_now r).
Definition set_shared_lru_head (v : list Z) (r : sstore) : sstore :=
  SStore (dst r) (srvs r) (servers r) (deleted_servers r) (server_indexs r) v (hids r)
    (passbys r) (islab r) (pslab r) (master_now r).
Definition set_hids (v : gmap snode md5_id) (r : sstore) : sstore :=
  SStore (dst r) (srvs r) (servers r) (deleted_servers r) (server_indexs r) (shared_lru_head
    r) v (passbys r) (islab r) (pslab r) (master_now r).
Definition set_passbys (v : gmap Z ohc_passby_item_t) (r : sstore) : sstore :=
  SStore (dst r) (srvs r) (servers r) (deleted_servers r) (server_indexs r) (shared_lru_head
    r) (hids r) v (islab r) (pslab r) (master_now r).
Definition set_islab (v : IS) (r : sstore) : sstore :=
  SStore (dst r) (srvs r) (servers r) (deleted_servers r) (server_indexs r) (shared_lru_head
    r) (hids r) (passbys r) v (pslab r) (master_now r).
Definition set_pslab (v : PS) (r : sstore) : sstore :=
  SStore (dst r) (srvs r) (servers r) (deleted_servers r) (server_indexs r) (shared_lru_head
    r) (hids r) (passbys r) (islab r) v (master_now r).
Definition set_master_now (v : Z) (r : sstore) : sstore :=
  SStore (dst r) (srvs r) (servers r) (deleted_servers r) (server_indexs r) (shared_lru_head
    r) (hids r) (passbys r) (islab r) (pslab r) v.
End state.
Arguments sstore : clear implicits.

(** A request as the server sees it: what was parsed, the buffer it was parsed
    from, and the item it holds. *)
Record ohc_request_t := Request {
  r_server : Z;
  r_h : hreq;
  r_buf : list Z;
  r_item : option Z;
  r_process_size : Z;
  r_disk_error : bool
}.
Definition set_r_h (h : hreq) (r : ohc_request_t) : ohc_request_t :=
  Request (r_server r) h (r_buf r) (r_item r) (r_process_size r) (r_disk_error r).
Definition set_r_buf (b : list Z) (r : ohc_request_t) : ohc_request_t :=
  Request (r_server r) (r_h r) b (r_item r) (r_process_size r) (r_disk_error r).
Definition set_r_item (i : option Z) (r : ohc_request_t) : ohc_request_t :=
  Request (r_server r) (r_h r) (r_buf r) i (r_process_size r) (r_disk_error r).
Definition set_reason (why : string) (r : ohc_request_t) : ohc_request_t :=
  set_r_h (set_q_error_reason (Some why) (r_h r)) r.

(** ** Operations *)

Section server_ops.
Context {AS IS PS : Type} `{Allocator AS} `{Allocator IS} `{Allocator PS}.
Context (MD5 : list Z → md5_id).
(** The address [malloc] gives [device_kick] for the copy of a device. *)
Context (kmalloc : dstore AS → option Z).
Abbreviation V := (M (sstore AS IS PS)).

Definition lift {A} (c : M (dstore AS) A) : V A := λ st,
  match c (dst st) with Ret (a, d) => Ret (a, set_dst d st) | Fail f => Fail f end.
Definition load_srv (s : Z) : V ohc_server_t := st ← get; deref Dangling (srvs st !! s).
Definition upd_srv (s : Z) (f : ohc_server_t → ohc_server_t) : V unit :=
  _ ← load_srv s; modify (λ st, set_srvs (alter f s (srvs st)) st).
Definition out {A} (o : outcome A) : V A := λ st,
  match o with Ret a => Ret (a, st) | Fail f => Fail f end.

(** [idx_pointer_get(&server_indexs, index)], about to be dereferenced. *)
Definition server_at (index : Z) : V Z := λ st,
  match idx_pointer_get (server_indexs st) index with
  | Ret (Some s) => Ret (s, st)
  | Ret None => Fail NullPtr
  | Fail f => Fail f
  end.
Definition server_of_item (x : Z) : V Z :=
  it ← lift (load_item x); server_at (it_server_index it).

(** *** LRU lists *)
Definition lru_linked (st : sstore AS IS PS) (x : Z) : bool :=
  bool_decide (x ∈ shared_lru_head st)
  || existsb (λ ss, bool_decide (x ∈ s_lru_head ss.2)) (map_to_list (srvs st)).
Definition lru_unlink (x : Z) (st : sstore AS IS PS) : sstore AS IS PS :=
  set_shared_lru_head (list_remove_one x (shared_lru_head st))
    (set_srvs ((λ s, set_s_lru_head (list_remove_one x (s_lru_head s)) s) <$> srvs st) st).
(** [list_del(&item->lru_node)] *)
Definition lru_del (x : Z) : V unit := λ st,
  if lru_linked st x then Ret (tt, lru_unlink x st) else Fail NullPtr.
(** [list_add(&item->lru_node, server_lru_head(s))] *)
Definition lru_add (s x : Z) : V unit :=
  sv ← load_srv s;
  if s_capacity sv =? 0 then modify (λ st, set_shared_lru_head (x :: shared_lru_head st) st)
  else upd_srv s (λ sv, set_s_lru_head (x :: s_lru_head sv) sv).
Definition passby_lru_del (s p : Z) : V unit :=
  sv ← load_srv s;
  if decide (p ∈ s_passby_lru_head sv)
  then upd_srv s (λ sv, set_s_passby_lru_head (list_remove_one p (s_passby_lru_head sv)) sv)
  else fail NullPtr.
Definition passby_lru_add (s p : Z) : V unit :=
  upd_srv s (λ sv, set_s_passby_lru_head (p :: s_passby_lru_head sv) sv).

(** *** The hash table of a server *)
Definition srv_hash_del (s : Z) (n : snode) : V unit :=
  sv ← load_srv s;
  h ← out (hash_del (s_hash sv) n);
  upd_srv s (set_s_hash h).
(** [memcpy(hnode.id, hash_id, 16); hash_add(s->hash, &hnode, NULL, 0)] *)
Definition srv_hash_add (calloc_ok : bool) (s : Z) (n : snode) (id : md5_id) : V unit :=
  modify (λ st, set_hids (<[n := id]> (hids st)) st);;
  sv ← load_srv s;
  st ← get;
  mh ← out (hash_add MD5 calloc_ok (hids st) (s_hash sv) n None);
  modify (λ st, set_hids mh.1 st);;
  upd_srv s (set_s_hash mh.2).
Definition srv_hash_get (calloc_ok : bool) (s : Z) (key : list Z) : V (option snode * md5_id) :=
  sv ← load_srv s;
  st ← get;
  r ← out (hash_get MD5 calloc_ok (hids st) (s_hash sv) key);
  upd_srv s (set_s_hash r.2);;
  mret r.1.

(** *** Slabs *)
Definition item_alloc : V (option Z) := λ st,
  match al_alloc (islab st) with
  | Ret (r, sl) => Ret (r, set_islab sl st)
  | Fail f => Fail f
  end.
Definition item_free (x : Z) : V unit := λ st,
  match al_free (islab st) x with
  | Ret sl => Ret (tt, set_dst (set_item_mem (delete x (item_mem (dst st))) (dst st))
                         (set_islab sl st))
  | Fail f => Fail f
  end.
Definition passby_alloc : V (option Z) := λ st,
  match al_alloc (pslab st) with
  | Ret (r, sl) => Ret (r, set_pslab sl st)
  | Fail f => Fail f
  end.
Definition passby_free (p : Z) : V unit := λ st,
  match al_free (pslab st) p with
  | Ret sl => Ret (tt, set_passbys (delete p (passbys st)) (set_pslab sl st))
  | Fail f => Fail f
  end.

(** *** Deletion *)

Definition server_passby_item_delete (s p : Z) : V unit :=
  srv_hash_del s (NPassby p);;
  passby_lru_del s p;;
  passby_free p;;
  upd_srv s (λ sv, set_s_passby_item_nr (s_passby_item_nr sv - 1) sv).

Definition server_item_delete (x : Z) : V unit :=
  s ← server_of_item x;
  it ← lift (load_item x);
  (if it_deleted it then mret tt else srv_hash_del s (NItem x));;
  if negb (it_used it =? 0) || it_putting it then lift (upd_item x (set_it_deleted true))
  else
    lru_del x;;
    upd_srv s (λ sv, set_s_content (u64 (s_content sv - it_length it)) sv);;
    block_size ← (λ st, lift (device_return_free_block (kmalloc (dst st)) x) st);
    upd_srv s (λ sv, set_s_item_nr (s_item_nr sv - 1)
                       (set_s_consumed (u64 (s_consumed sv - block_size)) sv));;
    item_free x.

Definition server_item_valid (x : Z) : V bool :=
  d ← lift (device_of_item x);
  dv ← lift (load_dev d);
  if d_deleted dv then mret false else
  s ← server_of_item x;
  sv ← load_srv s;
  if s_deleted sv then mret false else
  it ← lift (load_item x);
  st ← get;
  mret ((it_clear it =? s_clear sv) && (master_now st <? it_expire it)).

(** [list_for_each_reverse_safe] over the items; a deletion unlinks only the
    item at hand.  Returns [count]. *)
Fixpoint expire_items (s before target : Z) (l : list Z) (count : nat) : V nat :=
  match l with
  | [] => mret count
  | x :: l =>
      sv ← load_srv s;
      stop ← (if target <=? u64 (before - s_consumed sv) then server_item_valid x else mret false);
      if stop : bool then mret count else
      server_item_delete x;;
      if decide (LOOP_LIMIT ≤ count)%nat then mret (S count)
      else expire_items s before target l (S count)
  end.

Fixpoint expire_passbys (s : Z) (l : list Z) (count : nat) : V unit :=
  match l with
  | [] => mret tt
  | p :: l =>
      sv ← load_srv s;
      st ← get;
      pb ← deref Dangling (passbys st !! p);
      if s_passby_enable sv && (s_passby_item_nr sv <? s_passby_limit_nr sv)
         && (master_now st <? pb_expire pb) then mret tt else
      server_passby_item_delete s p;;
      if decide (LOOP_LIMIT ≤ count)%nat then mret tt else expire_passbys s l (S count)
  end.

Definition server_item_expire (s target : Z) : V unit :=
  sv ← load_srv s;
  count ← expire_items s (s_consumed sv) target (reverse (s_lru_head sv)) 0;
  sv ← load_srv s;
  expire_passbys s (reverse (s_passby_lru_head sv)) count.

Fixpoint shared_expire_loop (target : Z) (l : list Z) (size : Z) (count : nat) : V unit :=
  match l with
  | [] => mret tt
  | x :: l =>
      stop ← (if target <=? size then server_item_valid x else mret false);
      if stop : bool then mret tt else
      it ← lift (load_item x);
      server_item_delete x;;
      if decide (LOOP_LIMIT ≤ count)%nat then mret tt
      else shared_expire_loop target l (u64 (size + it_length it)) (S count)
  end.
Definition server_shared_expire (target : Z) : V unit :=
  st ← get; shared_expire_loop target (reverse (shared_lru_head st)) 0 0.

(** *** The key of a request *)

Definition str_bytes (buf : list Z) (o : option string_t) : list Z :=
  match o with
  | Some t => take (Z.to_nat (str_len t)) (drop (str_base t) buf)
  | None => []
  end.

(** [key] is built in a buffer of REQ_BUF_SIZE bytes.  Without the query, a
    question mark is written behind the URI for [strchr] to find. *)
Definition server_key (sv : ohc_server_t) (r : ohc_request_t) :
    outcome (list Z * ohc_request_t) :=
  match q_uri (r_h r) with
  | None => Fail NullPtr
  | Some uri =>
      '(length, r) ←
        (if s_key_include_query sv then Ret (str_len uri, r) else
         let pos := (str_base uri + Z.to_nat (str_len uri))%nat in
         if decide (pos < List.length (r_buf r))%nat then
           let buf := <[pos := 63]> (r_buf r) in
           q ← strchr (S (List.length buf)) buf (str_base uri) 63;
           match q with
           | Some q => Ret (Z.of_nat q - Z.of_nat (str_base uri), set_r_buf buf r)
           | None => Fail NullPtr
           end
         else Fail OutOfBounds);
      key ← http_decode_uri (r_buf r) (str_base uri) length;
      let key := if s_key_include_host sv then key ++ str_bytes (r_buf r) (q_host (r_h r)) else key in
      let key := if s_key_include_ohc_key sv then key ++ str_bytes (r_buf r) (q_ohc_key (r_h r)) else key in
      if decide (Z.of_nat (List.length key) ≤ REQ_BUF_SIZE) then Ret (key, r) else Fail OutOfBounds
  end.

Definition server_hash_get (calloc_ok : bool) (r : ohc_request_t) :
    V (option snode * md5_id * ohc_request_t) :=
  sv ← load_srv (r_server r);
  kr ← out (server_key sv r);
  n ← srv_hash_get calloc_ok (r_server r) kr.1;
  mret (n, kr.2).

(** *** Requests *)

Definition server_request_get_handler (calloc_ok : bool) (r : ohc_request_t) :
    V (ohc_rc * ohc_request_t) :=
  let s := r_server r in
  upd_srv s (bump inc_gets);;
  g ← server_hash_get calloc_ok r;
  let r := g.2 in
  match g.1.1 with
  | None => mret (OHC_ERROR, r)
  | Some (NPassby p) =>
      passby_lru_del s p;;
      passby_lru_add s p;;
      upd_srv s (bump inc_passby_hits);;
      mret (OHC_ERROR, r)
  | Some (NItem x) =>
      it ← lift (load_item x);
      if it_deleted it || it_putting it then mret (OHC_ERROR, r) else
      valid ← server_item_valid x;
      if negb valid then server_item_delete x;; mret (OHC_ERROR, r) else
      upd_srv s (bump inc_hits);;
      d ← lift (device_of_item x);
      lift (upd_dev d (λ dv, set_d_used (d_used dv + 1) dv));;
      lift (upd_item x (set_it_used (u16 (it_used it + 1))));;
      lru_del x;;
      lru_add s x;;
      mret (OHC_OK, set_r_item (Some x) r)
  end.

Definition server_passby_store (calloc_ok : bool) (s : Z) (id : md5_id) : V ohc_rc :=
  sv ← load_srv s;
  if negb (s_passby_enable sv) || (s_item_nr sv <? s_passby_begin_item_nr sv)
     || (s_consumed sv <? s_passby_begin_consumed sv) then mret OHC_DECLINE else
  r ← passby_alloc;
  match r with
  | None => mret OHC_ERROR
  | Some p =>
      modify (λ st, set_passbys
        (<[p := Passby (i32 (master_now st + s_passby_expire sv))]> (passbys st)) st);;
      srv_hash_add calloc_ok s (NPassby p) id;;
      passby_lru_add s p;;
      upd_srv s (λ sv, bump inc_passby_stores (set_s_passby_item_nr (s_passby_item_nr sv + 1) sv));;
      mret OHC_OK
  end.

(** *** device.c: making room *)

Definition device_delete_item (p : option onode) : V unit :=
  match p with
  | None | Some (OFb _) => mret tt
  | Some (OItem x) =>
      it ← lift (load_item x);
      if it_putting it || negb (it_used it =? 0) then mret tt else server_item_delete x
  end.

Fixpoint extend_loop (fuel : nat) (target last_ : Z) : V ohc_rc :=
  match fuel with
  | O => mret OHC_ERROR
  | S fuel =>
      st ← get;
      match ipbucket_biggest (free_blocks (dst st)) with
      | None => mret OHC_ERROR
      | Some a =>
          fb ← lift (load_fb a);
          if target <=? fb_block_size fb then mret OHC_OK else
          if fb_block_size fb =? last_ then mret OHC_ERROR else
          d ← lift (device_of_fblock a);
          dv ← lift (load_dev d);
          if d_deleted dv then
            lift (device_fblock_delete a);;
            extend_loop fuel target (fb_block_size fb)
          else
            let next := order_next (OFb a) (order_head dv) in
            device_delete_item (order_prev (OFb a) (order_head dv));;
            device_delete_item next;;
            extend_loop fuel target (fb_block_size fb)
      end
  end.
Definition device_free_block_extend (target : Z) : V ohc_rc :=
  extend_loop LOOP_LIMIT (ipbucket_block_size target) 0.

(** *** PUT *)

(** The loop around [try_again]; at most 13 turns, since [try] grows.  [item]
    is released before its length is logged, which is not modelled. *)
Fixpoint put_alloc (fuel : nat) (s x try_ : Z) : V Z :=
  match fuel with
  | O => fail Undef
  | S fuel =>
      block_size ← lift (device_get_free_block x);
      if negb (block_size =? 0) then mret block_size else
      it ← lift (load_item x);
      let len2 := u32 (it_length it * 2) in
      sv ← load_srv s;
      st ← get;
      if (try_ <? 2) && bool_decide (s_lru_head sv ≠ [])
         && (s_capacity sv <? u64 (s_consumed sv + len2)) then
        server_item_expire s len2;; put_alloc fuel s x (try_ + 1)
      else if (try_ + 1 <? 5) && bool_decide (shared_lru_head st ≠ []) then
        server_shared_expire len2;; put_alloc fuel s x (try_ + 2)
      else if (try_ + 2 <? 9) && bool_decide (s_lru_head sv ≠ []) then
        server_item_expire s len2;; put_alloc fuel s x (try_ + 3)
      else if try_ + 3 <? 12 then
        device_free_block_extend (it_length it);; put_alloc fuel s x (try_ + 4)
      else mret 0
  end.

(** The time the item ends, or the reason to decline. *)
Definition put_expire (sv : ohc_server_t) (now : Z) (r : ohc_request_t) : option ohc_request_t :=
  if negb (s_expire_force sv =? 0)
  then Some (set_r_h (set_q_expire (s_expire_force sv + now) (r_h r)) r)
  else if q_expire (r_h r) =? 0 then
    if s_expire_default sv =? 0 then None
    else Some (set_r_h (set_q_expire (s_expire_default sv + now) (r_h r)) r)
  else Some r.

(** "check done, store the item now" *)
Definition put_store (calloc_ok : bool) (id : md5_id) (r : ohc_request_t) :
    V (ohc_rc * ohc_request_t) :=
  let s := r_server r in
  a ← item_alloc;
  match a with
  | None => mret (OHC_ERROR, r)
  | Some x =>
      let length := u32 (q_content_length (r_h r) + q_put_header_length (r_h r)) in
      (* the other fields hold what the slab left there *)
      modify (λ st, set_dst (set_item_mem (<[x := Item length 0 0 false false false 0 0
        (u16 (q_put_header_length (r_h r))) 0 0]> (item_mem (dst st))) (dst st)) st);;
      block_size ← put_alloc 14 s x 0;
      if block_size =? 0 then item_free x;; mret (OHC_ERROR, set_reason "NoSpace" r) else
      sv ← load_srv s;
      lift (upd_item x (λ it,
        set_it_putting true (set_it_badblock false (set_it_deleted false (set_it_used 0
          (set_it_clear (s_clear sv) (set_it_expire (i32 (q_expire (r_h r)))
            (set_it_server_index (i16 (s_index sv)) it))))))));;
      srv_hash_add calloc_ok s (NItem x) id;;
      lru_add s x;;
      upd_srv s (λ sv, bump inc_stores (set_s_item_nr (s_item_nr sv + 1)
        (set_s_content (u64 (s_content sv + length))
          (set_s_consumed (u64 (s_consumed sv + block_size)) sv))));;
      d ← lift (device_of_item x);
      lift (upd_dev d (λ dv, set_d_used (d_used dv + 1) dv));;
      mret (OHC_OK, set_r_item (Some x) r)
  end.

Definition server_request_put_handler (c1 c2 : bool) (r : ohc_request_t) :
    V (ohc_rc * ohc_request_t) :=
  let s := r_server r in
  upd_srv s (bump inc_puts);;
  sv ← load_srv s;
  st ← get;
  if negb (s_item_max_size sv =? 0) && (s_item_max_size sv <? u64 (q_content_length (r_h r)))
  then mret (OHC_DECLINE, set_reason "TooBigItem1" r) else
  if negb (s_capacity sv =? 0)
     && (s_capacity sv <? u64 (q_content_length (r_h r) + q_put_header_length (r_h r)))
  then mret (OHC_DECLINE, set_reason "TooBigItem2" r) else
  match put_expire sv (master_now st) r with
  | None => mret (OHC_DECLINE, set_reason "Expired" r)
  | Some r =>
      g ← server_hash_get c1 r;
      let id := g.1.2 in
      let r := g.2 in
      match g.1.1 with
      | None =>
          rc ← server_passby_store c2 s id;
          if decide (rc = OHC_OK) then mret (OHC_DECLINE, set_reason "StorePassby" r)
          else put_store c2 id r
      | Some (NPassby p) => server_passby_item_delete s p;; put_store c2 id r
      | Some (NItem x) =>
          valid ← (if decide (q_method (r_h r) = METHOD_PUT) then mret false
                   else server_item_valid x);
          if valid : bool then mret (OHC_DECLINE, set_reason "Exist" r) else
          server_item_delete x;; put_store c2 id r
      end
  end.

Definition server_request_delete_handler (calloc_ok : bool) (r : ohc_request_t) :
    V (ohc_rc * ohc_request_t) :=
  let s := r_server r in
  upd_srv s (bump inc_deletes);;
  g ← server_hash_get calloc_ok r;
  match g.1.1 with
  | None => mret (OHC_ERROR, g.2)
  | Some (NPassby p) => server_passby_item_delete s p;; mret (OHC_OK, g.2)
  | Some (NItem x) => server_item_delete x;; mret (OHC_OK, g.2)
  end.

Definition server_request_finalize (r : ohc_request_t) : V ohc_request_t :=
  match r_item r with
  | None => mret r
  | Some x =>
      let r := set_r_item None r in
      d ← lift (device_of_item x);
      lift (upd_dev d (λ dv, set_d_used (d_used dv - 1) dv));;
      it ← lift (load_item x);
      (if it_putting it then lift (upd_item x (set_it_putting false))
       else lift (upd_item x (set_it_used (u16 (it_used it - 1)))));;
      let not_finish := it_putting it && (r_process_size r <? it_length it) in
      (if r_disk_error r then
         lift (upd_item x (set_it_badblock true));; server_item_delete x
       else if it_deleted it || not_finish then server_item_delete x
       else mret tt);;
      mret r
  end.

(** *** Loading from a device *)

(** [ohc_format_item_s], an item on disk. *)
Record ohc_format_item_t := FmItem {
  fm_hash_id : md5_id;
  fm_offset : Z;
  fm_length : Z;
  fm_expire : Z;
  fm_headers_len : Z;
  fm_server_index : Z
}.

Definition server_load_fm_item (calloc_ok : bool) (s device : Z) (fm : ohc_format_item_t) :
    V ohc_rc :=
  a ← item_alloc;
  match a with
  | None => mret OHC_ERROR
  | Some x =>
      sv ← load_srv s;
      dv ← lift (load_dev device);
      modify (λ st, set_dst (set_item_mem
        (<[x := Item (fm_length fm) (fm_expire fm) (u40 (fm_offset fm)) false false false
                  (i16 (s_index sv)) (i16 (d_index dv)) (fm_headers_len fm) 0 0]>
           (item_mem (dst st))) (dst st)) st);;
      block_size ← lift (device_cut_free_block x);
      if block_size =? 0 then item_free x;; mret OHC_ERROR else
      srv_hash_add calloc_ok s (NItem x) (fm_hash_id fm);;
      lru_add s x;;
      upd_srv s (λ sv, set_s_item_nr (s_item_nr sv + 1)
        (set_s_content (u64 (s_content sv + fm_length fm))
          (set_s_consumed (u64 (s_consumed sv + block_size)) sv)));;
      mret OHC_OK
  end.

(** *** Servers by port *)

Fixpoint server_search_port (port : Z) (l : list Z) (stop : option Z) : V (option Z) :=
  match l with
  | [] => mret None
  | s :: l =>
      if decide (stop = Some s) then mret None else
      sv ← load_srv s;
      if s_listen_port sv =? port then mret (Some s) else server_search_port port l stop
  end.
Definition server_by_port (port : Z) : V (option Z) :=
  st ← get; server_search_port port (servers st) None.

Definition server_clear (port : Z) : V ohc_rc :=
  o ← server_by_port port;
  match o with
  | None => mret OHC_ERROR
  | Some s => upd_srv s (λ sv, set_s_clear (u16 (s_clear sv + 1)) sv);; mret OHC_OK
  end.

(** [ports[s->index] = s->listen_port] over an array of zeros. *)
Fixpoint dump_ports_loop (l : list Z) (ports : list Z) : V (list Z) :=
  match l with
  | [] => mret ports
  | s :: l =>
      sv ← load_srv s;
      if decide (0 ≤ s_index sv < Z.of_nat (List.length ports))
      then dump_ports_loop l (<[Z.to_nat (s_index sv) := s_listen_port sv]> ports)
      else fail OutOfBounds
  end.
Definition server_dump_ports : V (list Z) :=
  st ← get; dump_ports_loop (servers st) (replicate (Z.to_nat IPT_ARRAY_SIZE) 0).

(** *** Routines of the master thread *)

Definition server_destroy (s : Z) : V unit :=
  sv ← load_srv s;
  server_item_expire s (s_consumed sv);;
  sv ← load_srv s;
  if negb (s_item_nr sv =? 0) || negb (s_passby_item_nr sv =? 0) then mret tt else
  modify (λ st, set_deleted_servers (list_remove_one s (deleted_servers st)) st);;
  st ← get;
  t ← out (idx_pointer_delete (server_indexs st) (s_index sv));
  modify (λ st, set_srvs (delete s (srvs st)) (set_server_indexs t st)).

Definition server_period (s : Z) : V unit :=
  sv ← load_srv s;
  st ← get;
  (if s_status_period sv <=? master_now st - s_last_clear sv
   then upd_srv s (λ sv, bump roll_stats (set_s_last_clear (master_now st) sv))
   else mret tt);;
  sv ← load_srv s;
  server_item_expire s
    (if s_capacity sv <? s_consumed sv then s_consumed sv - s_capacity sv else 0).

Fixpoint for_all (f : Z → V unit) (l : list Z) : V unit :=
  match l with [] => mret tt | s :: l => f s;; for_all f l end.

Definition server_routine : V unit :=
  st ← get;
  for_all server_period (servers st);;
  server_shared_expire 0;;
  st ← get;
  for_all server_destroy (deleted_servers st).

(** [list_for_each_safe] over the order list of a deleted device, whose nodes
    are unlinked one by one without merging. *)
Fixpoint destroy_loop (l : list onode) (count : nat) : V unit :=
  match l with
  | [] => mret tt
  | n :: l =>
      match n with
      | OFb a => lift (device_fblock_delete a)
      | OItem x => server_item_delete x
      end;;
      if decide (LOOP_LIMIT ≤ count)%nat then mret tt else destroy_loop l (S count)
  end.

Definition device_destroy (d : Z) : V unit :=
  dv ← lift (load_dev d);
  destroy_loop (order_head dv) 0;;
  dv ← lift (load_dev d);
  (if (d_used dv =? 0) && negb (d_fd dv =? -1) then lift (upd_dev d (set_d_fd (-1)))
   else mret tt);;
  if decide (order_head dv = []) then
    lift (dnode_del d);;
    st ← get;
    t ← out (idx_pointer_delete (device_indexs (dst st)) (d_index dv));
    lift (modify (λ ds, set_devs (delete d (devs ds)) (set_device_indexs t ds)))
  else mret tt.

Definition device_routine : V unit :=
  st ← get; for_all device_destroy (deleted_devices (dst st)).
End server_ops.
