(* ===== verification/ServerInv.v ===== *)
(** * Invariant of the cache

    Ties the servers to the devices: every item in memory lies on a device,
    belongs to a server, is in one LRU list, and is in its server's hash table
    exactly when it is not marked as deleted; the counters of a server are sums
    over its items; an item that a request holds is in memory. *)

From Stdlib Require Import String.
From stdpp Require Import prelude fin_maps gmap.
From S2P Require Import Prelude IdxPointer StrUtil IpBucket Slab Hash Device DeviceInv DeviceOps.
From S2P Require Import Http Server.

(** ** Sums over items *)

Section sums.
Implicit Types (f : ohc_item_t → Z) (m : gmap Z ohc_item_t).

Definition msum f m : Z := map_fold (λ _ it acc, f it + acc) 0 m.

Lemma msum_empty f : msum f ∅ = 0.
Proof. apply map_fold_empty. Qed.

Lemma msum_insert f m x it : m !! x = None → msum f (<[x := it]> m) = f it + msum f m.
Proof.
  intros Hx. unfold msum.
  rewrite (map_fold_insert_L (λ _ it acc, f it + acc)); [done| |done]. intros. lia.
Qed.

Lemma msum_delete f m x it : m !! x = Some it → msum f m = f it + msum f (delete x m).
Proof.
  intros Hx. rewrite <- (insert_delete_id m x it Hx) at 1. apply msum_insert.
  apply lookup_delete_eq.
Qed.

Lemma msum_update f m x it it' :
  m !! x = Some it → f it' = f it → msum f (<[x := it']> m) = msum f m.
Proof.
  intros Hx E. rewrite (msum_delete f (<[x := it']> m) x it') by apply lookup_insert_eq.
  rewrite (msum_delete f m x it Hx), E. by rewrite delete_insert_eq.
Qed.
End sums.

(** Restricted to the items of server [i]. *)
Definition of_server (i : Z) (g : ohc_item_t → Z) (it : ohc_item_t) : Z :=
  if it_server_index it =? i then g it else 0.

Definition count_of (x : Z) (l : list Z) : Z := Z.of_nat (length (filter (λ y, y = x) l)).

Section invariant.
Context {AS IS PS : Type} `{Allocator AS} `{Allocator IS} `{Allocator PS}.
Implicit Types (st : sstore AS IS PS) (sv : ohc_server_t) (L : option Z) (G P : list Z).

(** The items in memory but [L], an item that is being allocated. *)
Definition im st L : gmap Z ohc_item_t :=
  match L with Some x => delete x (item_mem (dst st)) | None => item_mem (dst st) end.

Definition sreg st (i s : Z) sv : Prop :=
  idx_pointer_get (server_indexs st) i = Ret (Some s) ∧ srvs st !! s = Some sv ∧ s_index sv = i.

(** Item [x] is where it should be. *)
Record item_ok st (x : Z) (it : ohc_item_t) : Prop := {
  io_dev : ∃ d dv, registered (dst st) (it_device_index it) d dv ∧ OItem x ∈ order_head dv;
  io_srv : ∃ s sv, sreg st (it_server_index it) s sv ∧
    (it_deleted it = false ↔ NItem x ∈ hash_nodes (s_hash sv)) ∧
    (x ∈ s_lru_head sv ∨ x ∈ shared_lru_head st)
}.

Record server_ok st L (s : Z) sv : Prop := {
  so_hash : hash_inv (hids st) (s_hash sv);
  so_ids : ∀ n n' id, n ∈ hash_nodes (s_hash sv) → n' ∈ hash_nodes (s_hash sv) →
    hids st !! n = Some id → hids st !! n' = Some id → n = n';
  so_items : ∀ x, NItem x ∈ hash_nodes (s_hash sv) →
    ∃ it, im st L !! x = Some it ∧ it_server_index it = s_index sv;
  so_passbys : ∀ p, NPassby p ∈ hash_nodes (s_hash sv) ↔ p ∈ s_passby_lru_head sv;
  so_passby_mem : ∀ p, p ∈ s_passby_lru_head sv → is_Some (passbys st !! p);
  so_passby_nodup : NoDup (s_passby_lru_head sv);
  so_passby_nr : s_passby_item_nr sv = Z.of_nat (length (s_passby_lru_head sv));
  so_lru_nodup : NoDup (s_lru_head sv);
  so_lru : ∀ x, x ∈ s_lru_head sv → (x ∉ shared_lru_head st) ∧
    ∃ it, im st L !! x = Some it ∧ it_server_index it = s_index sv;
  so_item_nr : s_item_nr sv = msum (of_server (s_index sv) (λ _, 1)) (im st L);
  so_content : s_content sv = u64 (msum (of_server (s_index sv) it_length) (im st L));
  so_consumed : s_consumed sv =
    u64 (msum (of_server (s_index sv) (λ it, ipbucket_block_size (it_length it))) (im st L))
}.

(** The requests that hold an item of device [i]. *)
Definition holders st L G P (i : Z) : Z :=
  Z.of_nat (length (filter (λ x, it_device_index <$> im st L !! x = Some i) (G ++ P))).

(** [G] are the items GET requests hold, one entry for each, [P] those PUT
    requests hold. *)
Record cache_inv st L G P : Prop := {
  ci_dev : dev_inv (dst st);
  ci_idx : idx_inv (server_indexs st);
  ci_table : ∀ i s, idx_pointer_get (server_indexs st) i = Ret (Some s) →
    0 ≤ i < IPT_ARRAY_SIZE ∧ ∃ sv, srvs st !! s = Some sv ∧ s_index sv = i;
  ci_srv_reg : ∀ s sv, srvs st !! s = Some sv →
    idx_pointer_get (server_indexs st) (s_index sv) = Ret (Some s);
  ci_item : ∀ x it, im st L !! x = Some it → item_ok st x it;
  ci_server : ∀ i s sv, sreg st i s sv → server_ok st L s sv;
  ci_shared_nodup : NoDup (shared_lru_head st);
  ci_shared : ∀ x, x ∈ shared_lru_head st → is_Some (im st L !! x);
  ci_passby_one : ∀ i s sv j s' sv' p, sreg st i s sv → sreg st j s' sv' →
    p ∈ s_passby_lru_head sv → p ∈ s_passby_lru_head sv' → i = j;
  ci_used : ∀ x it, im st L !! x = Some it →
    it_used it = count_of x G ∧ (it_putting it = true ↔ x ∈ P);
  ci_putters : NoDup P ∧ ∀ x, x ∈ P → x ∉ G;
  ci_dused : ∀ i d dv, registered (dst st) i d dv → d_used dv = holders st L G P i;
  ci_held : ∀ x, x ∈ G ++ P → is_Some (im st L !! x);
  ci_loose : ∀ x, L = Some x → is_Some (item_mem (dst st) !! x) ∧ detached (dst st) x;
  ci_ialloc : al_ok (islab st);
  ci_ilive : ∀ x, al_live (islab st) x ↔ is_Some (item_mem (dst st) !! x);
  ci_palloc : al_ok (pslab st);
  ci_plive : ∀ p, al_live (pslab st) p ↔ is_Some (passbys st !! p)
}.
End invariant.

Lemma wrap_sub_wrap w a b : wrap w (wrap w a - b) = wrap w (a - b).
Proof. unfold wrap. apply Zminus_mod_idemp_l. Qed.
Lemma wrap_add_wrap w a b : wrap w (wrap w a + b) = wrap w (a + b).
Proof. unfold wrap. apply Zplus_mod_idemp_l. Qed.

Lemma count_of_zero x l : count_of x l = 0 ↔ x ∉ l.
Proof.
  unfold count_of. rewrite <- Nat2Z.inj_0. rewrite Nat2Z.inj_iff, length_zero_iff_nil. split.
  - intros E Hx. assert (x ∈ filter (λ y, y = x) l) as Hf by (by apply list_elem_of_filter).
    rewrite E in Hf. by apply not_elem_of_nil in Hf.
  - intros Hx. destruct (filter (λ y, y = x) l) as [|y l'] eqn:E; [done|].
    assert (y ∈ filter (λ y, y = x) l) as Hf by (rewrite E; apply list_elem_of_here).
    apply list_elem_of_filter in Hf as [-> ?]. done.
Qed.

Lemma filter_ext_in {A} (P Q : A → Prop) `{∀ x, Decision (P x), ∀ x, Decision (Q x)}
    (l : list A) :
  (∀ x, x ∈ l → P x ↔ Q x) → filter P l = filter Q l.
Proof.
  induction l as [|x l IH]; intros He; [done|]. rewrite !filter_cons.
  rewrite IH by (intros y Hy; by apply He, list_elem_of_further).
  specialize (He x (list_elem_of_here _ _)).
  destruct (decide (P x)), (decide (Q x)); tauto.
Qed.

Section frames.
Context {AS IS PS : Type} `{Allocator AS} `{Allocator IS} `{Allocator PS}.
Implicit Types (st : sstore AS IS PS) (sv : ohc_server_t) (L : option Z) (G P : list Z).

Lemma sreg_inj st i s sv s' sv' : sreg st i s sv → sreg st i s' sv' → s = s' ∧ sv = sv'.
Proof.
  intros (E1 & E2 & _) (E1' & E2' & _). rewrite E1 in E1'. injection E1' as ->.
  rewrite E2 in E2'. by injection E2' as ->.
Qed.

Lemma sreg_lookup st L G P s sv :
  cache_inv st L G P → srvs st !! s = Some sv → sreg st (s_index sv) s sv.
Proof. intros Hi Es. split_and!; [by apply (ci_srv_reg _ _ _ _ Hi)|done..]. Qed.

(** The servers change pointwise, by [F]. *)
Definition servers_by (F : Z → ohc_server_t → ohc_server_t) st st' : Prop :=
  server_indexs st' = server_indexs st ∧
  (∀ s, srvs st' !! s = F s <$> srvs st !! s) ∧
  ∀ s sv, srvs st !! s = Some sv → s_index (F s sv) = s_index sv.

Lemma servers_by_sreg F st st' i s sv' :
  servers_by F st st' → sreg st' i s sv' ↔ ∃ sv, sreg st i s sv ∧ sv' = F s sv.
Proof.
  intros (Et & Es & Ei). unfold sreg. rewrite Et, Es. split.
  - intros (E1 & (sv & E2 & ->)%fmap_Some & E3). exists sv. split_and!; try done.
    by rewrite <- E3, Ei.
  - intros (sv & (E1 & E2 & E3) & ->). rewrite E2. split_and!; [done..|]. by rewrite Ei.
Qed.

Lemma servers_by_table F st st' L G P :
  servers_by F st st' → cache_inv st L G P →
  idx_inv (server_indexs st') ∧
  (∀ i s, idx_pointer_get (server_indexs st') i = Ret (Some s) →
     0 ≤ i < IPT_ARRAY_SIZE ∧ ∃ sv, srvs st' !! s = Some sv ∧ s_index sv = i) ∧
  (∀ s sv, srvs st' !! s = Some sv →
     idx_pointer_get (server_indexs st') (s_index sv) = Ret (Some s)).
Proof.
  intros (Et & Es & Ei) Hi. rewrite Et. split_and!.
  - apply (ci_idx _ _ _ _ Hi).
  - intros i s E. destruct (ci_table _ _ _ _ Hi i s E) as (? & sv & E2 & E3).
    split; [done|]. exists (F s sv). rewrite Es, E2. split; [done|]. by rewrite Ei.
  - intros s sv'. rewrite Es. intros (sv & E2 & ->)%fmap_Some. rewrite Ei by done.
    by apply (ci_srv_reg _ _ _ _ Hi).
Qed.

(** A registered device is registered in a later state with the same table. *)
Lemma registered_later (ds ds' : dstore AS) i d dv :
  dev_inv ds' → device_indexs ds' = device_indexs ds → registered ds i d dv →
  ∃ dv', registered ds' i d dv'.
Proof.
  intros Hi Et (E1 & _ & _). destruct (di_table ds' Hi i d) as (_ & dv' & E2 & E3).
  { by rewrite Et. }
  exists dv'. split_and!; [by rewrite Et|done..].
Qed.

Lemma holders_ext st st' L L' G P i :
  (∀ x, x ∈ G ++ P → it_device_index <$> im st' L' !! x = it_device_index <$> im st L !! x) →
  holders st' L' G P i = holders st L G P i.
Proof.
  intros He. unfold holders. f_equal. f_equal. apply filter_ext_in. intros x Hx. by rewrite He.
Qed.
End frames.
