(* ===== verification/ServerOps.v ===== *)
(** * Deleting items

    [server_item_delete] keeps the invariant, removes nothing but the item, and
    only marks an item that a request holds. *)

From Stdlib Require Import String.
From stdpp Require Import prelude fin_maps gmap.
From S2P Require Import Prelude IdxPointer StrUtil IpBucket Slab Hash Device DeviceInv DeviceOps.
From S2P Require Import Http Server ServerInv.

Section runs.
Context {AS IS PS : Type} `{Allocator AS} `{Allocator IS} `{Allocator PS}.
Context (kmalloc : dstore AS → option Z).
Implicit Types (st : sstore AS IS PS) (sv : ohc_server_t).

Lemma lift_run {A} (c : M (dstore AS) A) st a ds :
  c (dst st) = Ret (a, ds) → lift c st = Ret (a, set_dst ds st).
Proof. intros E. unfold lift. by rewrite E. Qed.
Lemma lift_read {A} (c : M (dstore AS) A) st a :
  c (dst st) = Ret (a, dst st) → lift c st = Ret (a, st).
Proof. intros E. rewrite (lift_run c st a _ E). by destruct st. Qed.
Lemma load_srv_run st s sv : srvs st !! s = Some sv → load_srv s st = Ret (sv, st).
Proof. intros E. unfold load_srv, get, mbind, M_bind, deref. by rewrite E. Qed.
Lemma upd_srv_run st s f sv : srvs st !! s = Some sv →
  upd_srv s f st = Ret (tt, set_srvs (<[s := f sv]> (srvs st)) st).
Proof.
  intros E. unfold upd_srv. rewrite (bind_ret _ _ _ _ _ (load_srv_run _ _ _ E)).
  unfold modify. by rewrite (alter_at _ _ _ _ E).
Qed.
Lemma lift_load_item_run st x it : item_mem (dst st) !! x = Some it →
  lift (load_item x) st = Ret (it, st).
Proof. intros E. apply lift_read. by apply load_item_run. Qed.
Lemma server_of_item_run st x it s :
  item_mem (dst st) !! x = Some it →
  idx_pointer_get (server_indexs st) (it_server_index it) = Ret (Some s) →
  server_of_item x st = Ret (s, st).
Proof.
  intros E1 E2. unfold server_of_item.
  rewrite (bind_ret _ _ _ _ _ (lift_load_item_run _ _ _ E1)). unfold server_at. by rewrite E2.
Qed.
Lemma out_run {A} (o : outcome A) st a : o = Ret a → out o st = Ret (a, st).
Proof. by intros ->. Qed.

Lemma lru_linked_spec st x :
  lru_linked st x = true ↔ x ∈ shared_lru_head st ∨ ∃ s sv, srvs st !! s = Some sv ∧ x ∈ s_lru_head sv.
Proof.
  unfold lru_linked. rewrite orb_true_iff, bool_decide_eq_true, existsb_exists.
  apply or_iff_compat_l. split.
  - intros ([s sv] & Hin & Hx%bool_decide_eq_true). exists s, sv. split; [|done].
    apply list_elem_of_In in Hin. by apply elem_of_map_to_list.
  - intros (s & sv & Es & Hx). exists (s, sv). rewrite bool_decide_eq_true. split; [|done].
    apply list_elem_of_In. by apply elem_of_map_to_list.
Qed.

(** Unless it was done before, the item leaves the hash table. *)
Lemma hash_part_run st L G P x it i s sv :
  cache_inv st L G P → im st L !! x = Some it → it_server_index it = i → sreg st i s sv →
  ∃ h', (if it_deleted it then mret tt else srv_hash_del s (NItem x)) st =
          Ret (tt, set_srvs (<[s := set_s_hash h' sv]> (srvs st)) st) ∧
    hash_inv (hids st) h' ∧ hash_nodes h' = list_remove_one (NItem x) (hash_nodes (s_hash sv)).
Proof.
  intros Hi Hx <- Hr. pose proof (ci_server _ _ _ _ Hi _ _ _ Hr) as Hso.
  destruct (io_srv _ _ _ (ci_item _ _ _ _ Hi x it Hx)) as (s' & sv' & Hr' & Hdel & _).
  destruct (sreg_inj _ _ _ _ _ _ Hr Hr') as [<- <-]. pose proof Hr as (_ & Es & _).
  destruct (it_deleted it) eqn:Ed.
  - exists (s_hash sv). split_and!.
    + replace (set_s_hash (s_hash sv) sv) with sv by (by destruct sv).
      rewrite insert_id by done. by destruct st.
    + apply Hso.
    + symmetry. apply list_remove_one_notin. by intros ?%Hdel.
  - destruct (hash_del_spec (hids st) (s_hash sv) (NItem x) (so_hash _ _ _ _ Hso)) as (h' & E & Hh & En).
    { by apply Hdel. }
    exists h'. split_and!; [|done..]. unfold srv_hash_del.
    erewrite bind_ret; [|by apply load_srv_run].
    erewrite bind_ret; [|by apply out_run]. by apply upd_srv_run.
Qed.

Lemma im_lookup st L x it : im st L !! x = Some it → item_mem (dst st) !! x = Some it ∧ L ≠ Some x.
Proof.
  unfold im. destruct L as [y|]; [|done]. intros [? ?]%lookup_delete_Some. split; [done|congruence].
Qed.
Lemma im_lookup_2 st L x it : item_mem (dst st) !! x = Some it → L ≠ Some x → im st L !! x = Some it.
Proof. unfold im. destruct L as [y|]; [|done]. intros. rewrite lookup_delete_ne by congruence. done. Qed.
End runs.

Section delete.
Context {AS IS PS : Type} `{Allocator AS} `{Allocator IS} `{Allocator PS}.
Context (kmalloc : dstore AS → option Z).
Context (Hkm : ∀ ds a, kmalloc ds = Some a → devs ds !! a = None).
Implicit Types (st : sstore AS IS PS) (sv : ohc_server_t).

(** What is left of the hash table of [s] without item [x]. *)
Definition unhash (s : Z) (h' : ohc_hash_t snode) (s2 : Z) sv : ohc_server_t :=
  if decide (s2 = s) then set_s_hash h' sv else sv.

Lemma server_ok_ids st L s sv h' x :
  server_ok st L s sv → hash_nodes h' = list_remove_one (NItem x) (hash_nodes (s_hash sv)) →
  ∀ n n' id, n ∈ hash_nodes h' → n' ∈ hash_nodes h' →
    hids st !! n = Some id → hids st !! n' = Some id → n = n'.
Proof.
  intros Hso En n n' id. rewrite En, !elem_of_list_remove_one. intros [? _] [? _].
  by eapply so_ids.
Qed.

(** A held item is marked. *)
Lemma cache_inv_mark st L G P x it s sv h' st' :
  cache_inv st L G P → im st L !! x = Some it → sreg st (it_server_index it) s sv →
  hash_inv (hids st) h' → hash_nodes h' = list_remove_one (NItem x) (hash_nodes (s_hash sv)) →
  st' = set_dst (set_item_mem (<[x := set_it_deleted true it]> (item_mem (dst st))) (dst st))
          (set_srvs (<[s := set_s_hash h' sv]> (srvs st)) st) →
  cache_inv st' L G P.
Proof.
  intros Hi Hx Hr Hh En ->. destruct (im_lookup _ _ _ _ Hx) as [Hxm HxL].
  match goal with |- cache_inv ?s _ _ _ => set (st' := s) end.
  assert (im st' L = <[x := set_it_deleted true it]> (im st L)) as Eim.
  { unfold im, st'. simpl. destruct L as [y|]; [|done]. rewrite delete_insert_ne by congruence. done. }
  assert (servers_by (unhash s h') st st') as Hby.
  { split_and!; [done| |].
    - intros s2. simpl. unfold unhash. destruct (decide (s2 = s)) as [->|Hne].
      + rewrite lookup_insert_eq. destruct Hr as (_ & -> & _). done.
      + rewrite lookup_insert_ne by done. by destruct (srvs st !! s2).
    - intros s2 sv2 _. unfold unhash. by destruct (decide (s2 = s)). }
  destruct (servers_by_table _ _ _ _ _ _ Hby Hi) as (T1 & T2 & T3).
  assert (∀ f i, (∀ it, f (set_it_deleted true it) = f it) →
    msum (of_server i f) (im st' L) = msum (of_server i f) (im st L)) as Hsum.
  { intros f i Hf. rewrite Eim. apply (msum_update _ _ _ it); [done|]. unfold of_server. by rewrite Hf. }
  assert (∀ y it', im st' L !! y = Some it' → ∃ it0, im st L !! y = Some it0 ∧
    (it' = it0 ∧ y ≠ x ∨ it' = set_it_deleted true it0 ∧ y = x)) as Hmem.
  { intros y it'. rewrite Eim. destruct (decide (y = x)) as [->|Hne].
    - rewrite lookup_insert_eq. intros [= <-]. eauto.
    - rewrite lookup_insert_ne by done. eauto. }
  split; try done; try apply Hi.
  - apply (dev_inv_upd_item _ x it); try done. apply Hi.
  - intros y it' Hy. destruct (Hmem y it' Hy) as (it0 & Hy0 & Hcase).
    destruct (ci_item _ _ _ _ Hi y it0 Hy0) as [Hd (s2 & sv2 & Hr2 & Hdel & Hl)].
    assert (it_device_index it' = it_device_index it0 ∧ it_server_index it' = it_server_index it0) as [Ed Es].
    { destruct Hcase as [[-> _]|[-> _]]; done. }
    split; rewrite ?Ed, ?Es; [exact Hd|].
    exists s2, (unhash s h' s2 sv2). split_and!.
    + apply (servers_by_sreg _ _ _ _ _ _ Hby). eauto.
    + unfold unhash. destruct (decide (s2 = s)) as [->|Hne].
      * destruct Hr as (_ & E1 & _), Hr2 as (_ & E2 & _). rewrite E1 in E2. injection E2 as <-.
        simpl. rewrite En, elem_of_list_remove_one.
        destruct Hcase as [[-> Hne]|[-> ->]]; simpl; [rewrite Hdel; naive_solver|naive_solver].
      * destruct Hcase as [[-> _]|[-> ->]]; [done|]. rewrite Hx in Hy0. injection Hy0 as <-.
        by destruct (sreg_inj _ _ _ _ _ _ Hr Hr2) as [? _].
    + unfold unhash. by destruct (decide (s2 = s)).
  - intros i s2 sv' (sv2 & Hr2 & ->)%(servers_by_sreg _ _ _ _ _ _ Hby).
    pose proof (ci_server _ _ _ _ Hi _ _ _ Hr2) as Hso.
    assert (∀ y it0, im st L !! y = Some it0 → it_server_index it0 = s_index sv2 →
      ∃ it', im st' L !! y = Some it' ∧ it_server_index it' = s_index sv2) as Hkeep.
    { intros y it0 Hy E. rewrite Eim. destruct (decide (y = x)) as [->|Hne].
      - rewrite lookup_insert_eq. rewrite Hx in Hy. injection Hy as <-. by eexists.
      - rewrite lookup_insert_ne by done. eauto. }
    assert (∀ h2, hash_inv (hids st) h2 → (∀ n, n ∈ hash_nodes h2 → n ∈ hash_nodes (s_hash sv2)) →
      (∀ p, NPassby p ∈ hash_nodes h2 ↔ NPassby p ∈ hash_nodes (s_hash sv2)) →
      server_ok st' L s2 (set_s_hash h2 sv2)) as Hgen.
    { intros h2 Hh2 Hsub Hp. destruct Hso. split; simpl; rewrite ?Hsum; try done.
      - intros n n' id Hn Hn'. apply so_ids; auto.
      - intros y Hy. destruct (so_items y (Hsub _ Hy)) as (it0 & ? & ?). eauto.
      - intros p. by rewrite Hp.
      - intros y Hy. destruct (so_lru y Hy) as (? & it0 & ? & ?). split; eauto. }
    unfold unhash. destruct (decide (s2 = s)) as [->|Hne].
    + destruct Hr as (_ & E1 & _), Hr2 as (_ & E2 & _). rewrite E1 in E2. injection E2 as <-.
      apply Hgen; [done|..].
      * intros n. rewrite En, elem_of_list_remove_one. tauto.
      * intros p. rewrite En, elem_of_list_remove_one. naive_solver.
    + replace sv2 with (set_s_hash (s_hash sv2) sv2) by (by destruct sv2).
      apply Hgen; [apply Hso|done..].
  - intros y Hy. destruct (ci_shared _ _ _ _ Hi y Hy) as [it0 Hy0]. rewrite Eim.
    rewrite lookup_insert_is_Some'. right. eauto.
  - intros i s2 sv2' j s3 sv3' p (sv2 & Hr2 & ->)%(servers_by_sreg _ _ _ _ _ _ Hby)
      (sv3 & Hr3 & ->)%(servers_by_sreg _ _ _ _ _ _ Hby).
    intros H1' H2'. apply (ci_passby_one _ _ _ _ Hi i s2 sv2 j s3 sv3 p Hr2 Hr3);
      [unfold unhash in H1'; by destruct (decide (s2 = s))|unfold unhash in H2'; by destruct (decide (s3 = s))].
  - intros y it' Hy. destruct (Hmem y it' Hy) as (it0 & Hy0 & Hcase).
    destruct (ci_used _ _ _ _ Hi y it0 Hy0) as [? ?]. destruct Hcase as [[-> _]|[-> _]]; done.
  - intros i d dv Hrd. rewrite (holders_ext st st' L L).
    + apply (ci_dused _ _ _ _ Hi i d dv Hrd).
    + intros y _. rewrite Eim. destruct (decide (y = x)) as [->|Hne].
      * by rewrite lookup_insert_eq, Hx.
      * by rewrite lookup_insert_ne.
  - intros y Hy. rewrite Eim, lookup_insert_is_Some'. right. by apply (ci_held _ _ _ _ Hi).
  - intros y Hy. destruct (ci_loose _ _ _ _ Hi y Hy) as [? ?]. split; [|done]. simpl.
    rewrite lookup_insert_is_Some'. by right.
  - intros y. simpl. rewrite (ci_ilive _ _ _ _ Hi), lookup_insert_is_Some'.
    destruct (decide (y = x)) as [->|]; naive_solver.
Qed.

(** What a server keeps when item [x], whose server is at [s], is gone. *)
Definition drop_srv (s x : Z) (h' : ohc_hash_t snode) (it : ohc_item_t) (s2 : Z) sv : ohc_server_t :=
  let sv1 := set_s_lru_head (list_remove_one x (s_lru_head sv)) sv in
  if decide (s2 = s) then
    set_s_item_nr (s_item_nr sv - 1)
      (set_s_consumed (u64 (s_consumed sv - ipbucket_block_size (it_length it)))
        (set_s_content (u64 (s_content sv - it_length it)) (set_s_hash h' sv1)))
  else sv1.

Lemma item_returned_detached (ds ds' : dstore AS) x it d dv :
  dev_inv ds → item_mem ds !! x = Some it → registered ds (it_device_index it) d dv →
  item_returned ds ds' d x → detached ds' x.
Proof.
  intros Hi Hx Hr (_ & _ & _ & Hret) i d' dv' Hr' Hin.
  destruct (Hret i d' dv' Hr') as (dv0 & Hr0 & _ & _ & Hocc). destruct (proj1 (Hocc x) Hin) as [Hin0 Hne].
  destruct (do_nodes _ _ (di_dev _ Hi _ _ _ Hr0) _ Hin0) as (it0 & E0 & Ei & _).
  rewrite Hx in E0. injection E0 as <-.
  assert (i = it_device_index it) as -> by (destruct Hr0 as (_ & _ & <-); congruence).
  destruct (registered_inj _ _ _ _ _ _ _ Hr Hr0 eq_refl) as [-> _]. by apply Hne.
Qed.

Lemma server_ok_drop st st' L G P x it s sv h' s2 sv2 i :
  cache_inv st L G P → im st L !! x = Some it → sreg st (it_server_index it) s sv →
  hash_inv (hids st) h' → hash_nodes h' = list_remove_one (NItem x) (hash_nodes (s_hash sv)) →
  im st' L = delete x (im st L) → hids st' = hids st → passbys st' = passbys st →
  shared_lru_head st' = list_remove_one x (shared_lru_head st) →
  sreg st i s2 sv2 → server_ok st' L s2 (drop_srv s x h' it s2 sv2).
Proof.
  intros Hi Hx Hr Hh En Eim Ehid Epb Esh Hr2.
  pose proof (ci_server _ _ _ _ Hi _ _ _ Hr2) as Hso.
  assert (∀ y it0, im st L !! y = Some it0 → y ≠ x → im st' L !! y = Some it0) as Hkeep.
  { intros y it0 Hy Hne. by rewrite Eim, lookup_delete_ne. }
  assert (∀ y, y ∈ list_remove_one x (s_lru_head sv2) → (y ∉ shared_lru_head st') ∧
    ∃ it0, im st' L !! y = Some it0 ∧ it_server_index it0 = s_index sv2) as Hlru.
  { intros y [Hy Hne]%elem_of_list_remove_one. destruct (so_lru _ _ _ _ Hso y Hy) as (? & it0 & ? & ?).
    split; [|eauto]. rewrite Esh, elem_of_list_remove_one. tauto. }
  unfold drop_srv. destruct (decide (s2 = s)) as [->|Hne].
  - assert (sv2 = sv) as -> by (destruct Hr as (_ & E1 & _), Hr2 as (_ & E2 & _); congruence).
    assert (it_server_index it = s_index sv) as Eix by (symmetry; apply Hr).
    assert (∀ f, msum (of_server (s_index sv) f) (im st' L) = msum (of_server (s_index sv) f) (im st L) - f it)
      as Hsum.
    { intros f. rewrite Eim, (msum_delete _ (im st L) x it Hx). unfold of_server at 2.
      rewrite Eix, Z.eqb_refl. lia. }
    destruct Hso. split; simpl; rewrite ?Ehid, ?Epb, ?Hsum; try done.
    + intros n n' id. rewrite En, !elem_of_list_remove_one. intros [? _] [? _]. by apply so_ids.
    + intros y. rewrite En, elem_of_list_remove_one. intros [Hy Hne].
      destruct (so_items y Hy) as (it0 & ? & ?). exists it0. split; [|done]. apply Hkeep; [done|congruence].
    + intros p. rewrite En, elem_of_list_remove_one, so_passbys. naive_solver.
    + by apply NoDup_list_remove_one.
    + by rewrite so_item_nr.
    + by rewrite so_content, wrap_sub_wrap.
    + by rewrite so_consumed, wrap_sub_wrap.
  - assert (it_server_index it ≠ s_index sv2) as Eix.
    { intros E. destruct Hr2 as (E1 & E2 & <-). rewrite <- E in E1. destruct Hr as (E3 & _ & _). congruence. }
    assert (∀ f, msum (of_server (s_index sv2) f) (im st' L) = msum (of_server (s_index sv2) f) (im st L))
      as Hsum.
    { intros f. rewrite Eim, (msum_delete _ (im st L) x it Hx). unfold of_server at 2.
      by rewrite (proj2 (Z.eqb_neq _ _) Eix). }
    destruct Hso. split; simpl; rewrite ?Ehid, ?Epb, ?Hsum; try done.
    + intros y Hy. destruct (so_items y Hy) as (it0 & ? & ?). exists it0. split; [|done].
      apply Hkeep; [done|congruence].
    + by apply NoDup_list_remove_one.
Qed.

(** An item that no request holds goes. *)
Lemma cache_inv_drop st st' L G P x it s sv h' d dv ds' :
  cache_inv st L G P → im st L !! x = Some it → x ∉ G ++ P →
  sreg st (it_server_index it) s sv → hash_inv (hids st) h' →
  hash_nodes h' = list_remove_one (NItem x) (hash_nodes (s_hash sv)) →
  registered (dst st) (it_device_index it) d dv → dev_inv ds' → item_returned (dst st) ds' d x →
  dst st' = set_item_mem (delete x (item_mem ds')) ds' → servers_by (drop_srv s x h' it) st st' →
  hids st' = hids st → passbys st' = passbys st → pslab st' = pslab st →
  shared_lru_head st' = list_remove_one x (shared_lru_head st) →
  al_ok (islab st') → (∀ y, al_live (islab st') y ↔ al_live (islab st) y ∧ y ≠ x) →
  cache_inv st' L G P.
Proof.
  intros Hi Hx Hheld Hr Hh En Hrd Hid' Hret Eds Hby Ehid Epb Eps Esh Hal Hlv.
  destruct (im_lookup _ _ _ _ Hx) as [Hxm HxL]. pose proof Hret as (Eti & Em & _ & Hocc).
  assert (im st' L = delete x (im st L)) as Eim.
  { unfold im. rewrite Eds. simpl. rewrite Em. destruct L; [apply delete_delete|done]. }
  assert (∀ y it', im st' L !! y = Some it' → im st L !! y = Some it' ∧ y ≠ x) as Hmem.
  { intros y it'. rewrite Eim. intros [? ?]%lookup_delete_Some. done. }
  assert (∀ y, is_Some (im st L !! y) → y ≠ x → is_Some (im st' L !! y)) as Hstay.
  { intros y Hy Hne. by rewrite Eim, lookup_delete_ne. }
  destruct (servers_by_table _ _ _ _ _ _ Hby Hi) as (T1 & T2 & T3).
  assert (∀ y, detached (dst st) y → y ≠ x → detached (dst st') y) as Hdet.
  { rewrite Eds. intros y Hy _ i d2 dv2 Hr2 Hin. destruct (Hocc i d2 dv2 Hr2) as (dv0 & Hr0 & _ & _ & Ho).
    destruct (proj1 (Ho y) Hin) as [Hin0 _]. by apply (Hy i d2 dv0). }
  split; try done; rewrite ?Epb, ?Eps; try apply Hi.
  - rewrite Eds. apply dev_inv_del_item; [done|].
    by apply (item_returned_detached (dst st) ds' x it d dv); [apply Hi|..].
  - intros y it' Hy. destruct (Hmem y it' Hy) as [Hy0 Hne].
    destruct (ci_item _ _ _ _ Hi y it' Hy0) as [(d2 & dv2 & Hr2 & Hin) (s2 & sv2 & Hs2 & Hdel & Hl)]. split.
    + rewrite Eds. destruct (registered_later (dst st) ds' _ _ _ Hid' Eti Hr2) as (dv2' & Hr2').
      exists d2, dv2'. split; [exact Hr2'|]. destruct (Hocc _ _ _ Hr2') as (dv0 & Hr0 & _ & _ & Ho).
      destruct (registered_inj _ _ _ _ _ _ _ Hr2 Hr0 eq_refl) as [_ ->]. apply Ho. split; [done|]. tauto.
    + exists s2, (drop_srv s x h' it s2 sv2). split; [apply (servers_by_sreg _ _ _ _ _ _ Hby); eauto|].
      rewrite Esh. unfold drop_srv. destruct (decide (s2 = s)) as [->|Hne2]; simpl.
      * assert (sv2 = sv) as -> by (destruct Hr as (_ & E1 & _), Hs2 as (_ & E2 & _); congruence).
        rewrite En, !elem_of_list_remove_one, Hdel. naive_solver.
      * rewrite !elem_of_list_remove_one. naive_solver.
  - intros i s2 sv2' (sv2 & Hr2 & ->)%(servers_by_sreg _ _ _ _ _ _ Hby).
    by eapply server_ok_drop.
  - rewrite Esh. apply NoDup_list_remove_one, Hi.
  - intros y. rewrite Esh, elem_of_list_remove_one. intros [? ?].
    apply Hstay; [by apply (ci_shared _ _ _ _ Hi)|done].
  - intros i s2 sv2' j s3 sv3' p (sv2 & Hr2 & ->)%(servers_by_sreg _ _ _ _ _ _ Hby)
      (sv3 & Hr3 & ->)%(servers_by_sreg _ _ _ _ _ _ Hby).
    assert (∀ s2 sv2, s_passby_lru_head (drop_srv s x h' it s2 sv2) = s_passby_lru_head sv2) as Ep.
    { intros s4 sv4. unfold drop_srv. by destruct (decide (s4 = s)). }
    rewrite !Ep. by apply (ci_passby_one _ _ _ _ Hi i s2 sv2 j s3 sv3 p).
  - intros y it' Hy. destruct (Hmem y it' Hy) as [Hy0 Hne]. by apply (ci_used _ _ _ _ Hi).
  - rewrite Eds. intros i d2 dv2 Hr2. destruct (Hocc i d2 dv2 Hr2) as (dv0 & Hr0 & -> & _).
    rewrite (ci_dused _ _ _ _ Hi _ _ _ Hr0). symmetry. apply holders_ext. intros y Hy.
    rewrite Eim, lookup_delete_ne; [done|]. by intros ->.
  - intros y Hy. apply Hstay; [by apply (ci_held _ _ _ _ Hi)|by intros ->].
  - intros y Hy. destruct (ci_loose _ _ _ _ Hi y Hy) as [Hm Hd].
    assert (y ≠ x) as Hne by congruence. split; [|by apply Hdet].
    rewrite Eds. simpl. by rewrite Em, lookup_delete_ne.
  - intros y. rewrite Hlv, (ci_ilive _ _ _ _ Hi), Eds. simpl. rewrite Em. split.
    + intros [? ?]. by rewrite lookup_delete_ne.
    + intros [it0 [? ?]%lookup_delete_Some]. split; [by eexists|done].
Qed.

(** ** What deletions leave alone *)

(** Of a server: everything but its LRU lists, its hash table and its sums; and
    those only lose items. *)
Definition srv_shrinks sv sv' : Prop :=
  ∃ l h c b n pl pn,
    sv' = set_s_passby_item_nr pn (set_s_passby_lru_head pl (set_s_item_nr n (set_s_consumed b
            (set_s_content c (set_s_hash h (set_s_lru_head l sv)))))) ∧
    (∀ x, x ∈ l → x ∈ s_lru_head sv) ∧ (∀ q, q ∈ hash_nodes h → q ∈ hash_nodes (s_hash sv)) ∧
    (∀ q, q ∈ pl → q ∈ s_passby_lru_head sv).

(** Of the store: items only go or are marked. *)
Record shrinks st st' : Prop := {
  sh_servers : servers st' = servers st;
  sh_deleted : deleted_servers st' = deleted_servers st;
  sh_indexs : server_indexs st' = server_indexs st;
  sh_hids : hids st' = hids st;
  sh_passbys : ∀ q pb, passbys st' !! q = Some pb → passbys st !! q = Some pb;
  sh_now : master_now st' = master_now st;
  sh_devs : device_indexs (dst st') = device_indexs (dst st);
  sh_items : ∀ y it', item_mem (dst st') !! y = Some it' →
    ∃ it, item_mem (dst st) !! y = Some it ∧ (it' = it ∨ it' = set_it_deleted true it);
  sh_srvs : ∀ s sv, srvs st !! s = Some sv → ∃ sv', srvs st' !! s = Some sv' ∧ srv_shrinks sv sv';
  sh_shared : ∀ x, x ∈ shared_lru_head st' → x ∈ shared_lru_head st
}.

Lemma srv_shrinks_refl sv : srv_shrinks sv sv.
Proof.
  exists (s_lru_head sv), (s_hash sv), (s_content sv), (s_consumed sv), (s_item_nr sv),
    (s_passby_lru_head sv), (s_passby_item_nr sv). by destruct sv.
Qed.
Lemma srv_shrinks_trans sv1 sv2 sv3 : srv_shrinks sv1 sv2 → srv_shrinks sv2 sv3 → srv_shrinks sv1 sv3.
Proof.
  intros (l & h & c & b & n & pl & pn & -> & Hl & Hh & Hp)
    (l' & h' & c' & b' & n' & pl' & pn' & -> & Hl' & Hh' & Hp').
  exists l', h', c', b', n', pl', pn'. split_and!; [done|naive_solver..].
Qed.
Lemma shrinks_refl st : shrinks st st.
Proof. split; try done; [by eauto|]. intros s sv Es. exists sv. split; [done|apply srv_shrinks_refl]. Qed.
Lemma shrinks_trans st1 st2 st3 : shrinks st1 st2 → shrinks st2 st3 → shrinks st1 st3.
Proof.
  intros H12 H23. destruct H12, H23. split; try congruence; [by auto| | |by auto].
  - intros y it3 (it2 & (it1 & ? & ?)%sh_items0 & ?)%sh_items1. exists it1. split; [done|].
    naive_solver.
  - intros s sv1 (sv2 & (sv3 & ? & ?)%sh_srvs1 & ?)%sh_srvs0. exists sv3. split; [done|].
    by eapply srv_shrinks_trans.
Qed.

(** What deleting [x] does: every other item is as it was, and when the device
    of [x] is deleted the free blocks and the deleted devices are too. *)
Definition item_gone st st' (x : Z) : Prop :=
  shrinks st st' ∧ passbys st' = passbys st ∧ (∀ y, y ≠ x → item_mem (dst st') !! y = item_mem (dst st) !! y) ∧
  ∀ it d dv, item_mem (dst st) !! x = Some it → registered (dst st) (it_device_index it) d dv → d_deleted dv = true →
    fblocks (dst st') = fblocks (dst st) ∧ deleted_devices (dst st') = deleted_devices (dst st).

Lemma server_item_delete_held st L G P x it :
  cache_inv st L G P → im st L !! x = Some it → x ∈ G ++ P →
  ∃ st', server_item_delete kmalloc x st = Ret (tt, st') ∧ cache_inv st' L G P ∧ item_gone st st' x ∧
    item_mem (dst st') !! x = Some (set_it_deleted true it).
Proof.
  intros Hi Hx Hheld. destruct (im_lookup _ _ _ _ Hx) as [Hxm _].
  destruct (io_srv _ _ _ (ci_item _ _ _ _ Hi x it Hx)) as (s & sv & Hr & _).
  destruct (hash_part_run st L G P x it _ s sv Hi Hx eq_refl Hr) as (h' & E & Hh & En).
  assert (negb (it_used it =? 0) || it_putting it = true) as Eu.
  { destruct (ci_used _ _ _ _ Hi x it Hx) as [Hu Hp]. apply elem_of_app in Hheld as [Hg|Hp'].
    - destruct (Z.eqb_spec (it_used it) 0) as [E0|]; [|done]. rewrite Hu in E0.
      by apply count_of_zero in E0.
    - apply Hp in Hp'. rewrite Hp'. apply orb_true_r. }
  eexists. split.
  { unfold server_item_delete.
    erewrite bind_ret; [|apply (server_of_item_run st x it s); [done|apply Hr]].
    erewrite bind_ret; [|by apply lift_load_item_run].
    erewrite bind_ret; [|exact E]. rewrite Eu. apply lift_run. by apply upd_item_run. }
  split; [by eapply cache_inv_mark|]. split_and!; [|simpl; by rewrite lookup_insert_eq].
  split; [|split_and!; [done|intros y Hne; simpl; by rewrite lookup_insert_ne|done]].
  split; try done; simpl.
  - intros y it'. destruct (decide (y = x)) as [->|].
    + rewrite lookup_insert_eq. intros [= <-]. eauto.
    + rewrite lookup_insert_ne by done. eauto.
  - intros s2 sv2 Es. destruct (decide (s2 = s)) as [->|].
    + rewrite lookup_insert_eq. eexists. split; [done|].
      assert (sv2 = sv) as -> by (destruct Hr as (_ & E1 & _); congruence).
      exists (s_lru_head sv), h', (s_content sv), (s_consumed sv), (s_item_nr sv),
        (s_passby_lru_head sv), (s_passby_item_nr sv).
      split_and!; [by destruct sv|done| |done]. intros q. rewrite En, elem_of_list_remove_one. tauto.
    + rewrite lookup_insert_ne by done. exists sv2. split; [done|apply srv_shrinks_refl].
Qed.

Lemma server_item_delete_free st L G P x it :
  cache_inv st L G P → im st L !! x = Some it → x ∉ G ++ P →
  ∃ st', server_item_delete kmalloc x st = Ret (tt, st') ∧ cache_inv st' L G P ∧ item_gone st st' x ∧
    item_mem (dst st') !! x = None.
Proof.
  intros Hi Hx Hheld. destruct (im_lookup _ _ _ _ Hx) as [Hxm _].
  pose proof (ci_item _ _ _ _ Hi x it Hx) as [(d & dv & Hrd & Hin) (s & sv & Hr & _ & Hl)].
  destruct (hash_part_run st L G P x it _ s sv Hi Hx eq_refl Hr) as (h' & E & Hh & En).
  pose proof Hr as (Ei & Es & Eix).
  set (st1 := set_srvs (<[s := set_s_hash h' sv]> (srvs st)) st) in E.
  assert (lru_linked st1 x = true) as El.
  { apply lru_linked_spec. destruct Hl as [Hl|Hl]; [right|by left]. exists s, (set_s_hash h' sv).
    simpl. by rewrite lookup_insert_eq. }
  assert (negb (it_used it =? 0) || it_putting it = false) as Eu.
  { destruct (ci_used _ _ _ _ Hi x it Hx) as [Hu Hp].
    assert (count_of x G = 0) as E0 by (apply count_of_zero; set_solver). rewrite Hu, E0. simpl.
    apply not_true_is_false. rewrite Hp. set_solver. }
  destruct (return_free_block_spec (kmalloc (dst st)) (dst st) x it d dv) as (ds' & Eret & Hid' & Hret & _);
    [apply Hi|done..|by intros; apply Hkm|].
  destruct (al_free_ok (islab st) x) as (il' & Efr & Hal & Hlv);
    [apply Hi|apply (ci_ilive _ _ _ _ Hi); by eexists|].
  pose proof Hret as (Eti & Em & _ & _).
  assert (d_deleted dv = true → fblocks ds' = fblocks (dst st) ∧ deleted_devices ds' = deleted_devices (dst st)) as Hquiet.
  { intros Edel. rewrite (return_free_block_deleted _ (dst st) x it d dv Hxm Hrd Hin Edel) in Eret. by injection Eret as <-. }
  eexists. split.
  { unfold server_item_delete.
    erewrite bind_ret; [|by apply (server_of_item_run st x it s)].
    erewrite bind_ret; [|by apply lift_load_item_run].
    erewrite bind_ret; [|exact E]. rewrite Eu.
    erewrite bind_ret; [|unfold lru_del; rewrite El; reflexivity].
    erewrite bind_ret; [|apply upd_srv_run; simpl; rewrite lookup_fmap, lookup_insert_eq; reflexivity].
    erewrite bind_ret; [|cbn beta; eapply lift_run; exact Eret].
    erewrite bind_ret; [|apply upd_srv_run; simpl; apply lookup_insert_eq].
    unfold item_free, lru_unlink, st1. cbn [islab set_srvs set_dst set_shared_lru_head]. rewrite Efr.
    reflexivity. }
  cbn [s_content s_consumed s_item_nr set_s_content set_s_hash set_s_lru_head set_s_consumed set_s_item_nr].
  match goal with |- cache_inv ?s _ _ _ ∧ _ => set (st' := s) end.
  assert (servers_by (drop_srv s x h' it) st st') as Hby.
  { split_and!; [done| |].
    - intros s2. unfold st', st1. simpl. unfold drop_srv. destruct (decide (s2 = s)) as [->|Hne].
      + rewrite lookup_insert_eq, Es. simpl. f_equal.
      + rewrite !lookup_insert_ne by done. by rewrite lookup_fmap, lookup_insert_ne.
    - intros s2 sv2 _. unfold drop_srv. by destruct (decide (s2 = s)). }
  split; [by eapply (cache_inv_drop st st' L G P x it s sv h' d dv ds')|].
  split; [|unfold st'; simpl; by rewrite lookup_delete_eq].
  split; [|split_and!; [done|intros y Hne; unfold st'; simpl; by rewrite Em, lookup_delete_ne|]].
  2: { intros it0 d0 dv0 Hx0 Hrd0. rewrite Hxm in Hx0. injection Hx0 as <-.
       destruct (registered_inj _ _ _ _ _ _ _ Hrd Hrd0 eq_refl) as [<- <-]. done. }
  split; try done.
  - unfold st'. simpl. intros y it'. rewrite Em. intros [_ ?]%lookup_delete_Some. eauto.
  - intros s2 sv2 Es2. destruct Hby as (_ & -> & _). rewrite Es2. eexists. split; [done|].
    unfold drop_srv. destruct (decide (s2 = s)) as [->|Hne].
    + rewrite Es in Es2. injection Es2 as <-.
      exists (list_remove_one x (s_lru_head sv)), h', (u64 (s_content sv - it_length it)),
        (u64 (s_consumed sv - ipbucket_block_size (it_length it))), (s_item_nr sv - 1),
        (s_passby_lru_head sv), (s_passby_item_nr sv). split_and!; [by destruct sv|..].
      * intros y. rewrite elem_of_list_remove_one. tauto.
      * intros q. rewrite En, elem_of_list_remove_one. tauto.
      * done.
    + exists (list_remove_one x (s_lru_head sv2)), (s_hash sv2), (s_content sv2), (s_consumed sv2),
        (s_item_nr sv2), (s_passby_lru_head sv2), (s_passby_item_nr sv2).
      split_and!; [by destruct sv2| |done|done]. intros y. rewrite elem_of_list_remove_one. tauto.
  - unfold st'. simpl. intros y. rewrite elem_of_list_remove_one. tauto.
Qed.

Lemma server_item_delete_spec st L G P x it :
  cache_inv st L G P → im st L !! x = Some it →
  ∃ st', server_item_delete kmalloc x st = Ret (tt, st') ∧ cache_inv st' L G P ∧ item_gone st st' x ∧
    item_mem (dst st') !! x =
      if decide (x ∈ G ++ P) then Some (set_it_deleted true it) else None.
Proof.
  intros Hi Hx. destruct (decide (x ∈ G ++ P)).
  - by eapply server_item_delete_held.
  - by eapply server_item_delete_free.
Qed.
End delete.
