(* ===== verification/ServerExpire.v ===== *)
(** * Expiry

    The loops of server.c and device.c that make room: [server_item_expire],
    [server_shared_expire] and [device_free_block_extend] keep the invariant,
    delete a prefix of the list they walk, oldest items first, and leave the
    items that requests hold in memory. *)

From Stdlib Require Import String.
From stdpp Require Import prelude fin_maps gmap.
From S2P Require Import Prelude IdxPointer StrUtil IpBucket Slab Hash Device DeviceInv DeviceOps.
From S2P Require Import Http Server ServerInv ServerOps.

Section valid.
Context {AS IS PS : Type} `{Allocator AS} `{Allocator IS} `{Allocator PS}.
Implicit Types (st : sstore AS IS PS) (sv : ohc_server_t).

Lemma device_of_item_run st x it d :
  item_mem (dst st) !! x = Some it →
  idx_pointer_get (device_indexs (dst st)) (it_device_index it) = Ret (Some d) →
  lift (device_of_item x) st = Ret (d, st).
Proof.
  intros E1 E2. apply lift_read. unfold device_of_item.
  rewrite (bind_ret _ _ _ _ _ (load_item_run _ _ _ E1)). by apply device_at_run.
Qed.
Lemma lift_load_dev_run st d dv : devs (dst st) !! d = Some dv → lift (load_dev d) st = Ret (dv, st).
Proof. intros E. apply lift_read. by apply load_dev_run. Qed.

(** What makes an item valid. *)
Definition item_valid st (it : ohc_item_t) (dv : ohc_device_t) sv : bool :=
  negb (d_deleted dv) && negb (s_deleted sv) && (it_clear it =? s_clear sv)
  && (master_now st <? it_expire it).

Lemma server_item_valid_run st L G P x it :
  cache_inv st L G P → im st L !! x = Some it →
  ∃ d dv s sv, registered (dst st) (it_device_index it) d dv ∧ sreg st (it_server_index it) s sv ∧
    server_item_valid x st = Ret (item_valid st it dv sv, st).
Proof.
  intros Hi Hx. destruct (im_lookup _ _ _ _ Hx) as [Hxm _].
  destruct (ci_item _ _ _ _ Hi x it Hx) as [(d & dv & Hrd & _) (s & sv & Hr & _)].
  exists d, dv, s, sv. split_and!; [done..|]. unfold server_item_valid.
  erewrite bind_ret; [|apply (device_of_item_run st x it d); [done|apply Hrd]].
  erewrite bind_ret; [|apply lift_load_dev_run, Hrd].
  unfold item_valid. destruct (d_deleted dv); [done|].
  erewrite bind_ret; [|apply (server_of_item_run st x it s); [done|apply Hr]].
  erewrite bind_ret; [|apply load_srv_run, Hr].
  destruct (s_deleted sv); [done|].
  erewrite bind_ret; [|by apply lift_load_item_run]. done.
Qed.
End valid.

(** ** Passby items *)

Section passby.
Context {AS IS PS : Type} `{Allocator AS} `{Allocator IS} `{Allocator PS}.
Implicit Types (st : sstore AS IS PS) (sv : ohc_server_t).

Definition drop_passby (s p : Z) (h' : ohc_hash_t snode) (s2 : Z) sv : ohc_server_t :=
  if decide (s2 = s) then
    set_s_passby_item_nr (s_passby_item_nr sv - 1)
      (set_s_passby_lru_head (list_remove_one p (s_passby_lru_head sv)) (set_s_hash h' sv))
  else sv.

Lemma item_ok_servers st st' F x it :
  item_ok st x it → servers_by F st st' → dst st' = dst st →
  (∀ s sv, sreg st (it_server_index it) s sv →
     (NItem x ∈ hash_nodes (s_hash (F s sv)) ↔ NItem x ∈ hash_nodes (s_hash sv)) ∧
     (x ∈ s_lru_head sv ∨ x ∈ shared_lru_head st →
      x ∈ s_lru_head (F s sv) ∨ x ∈ shared_lru_head st')) →
  item_ok st' x it.
Proof.
  intros [Hd (s & sv & Hr & Hdel & Hl)] Hby Ed Hk. destruct (Hk s sv Hr) as [Hh Hl'].
  split; [by rewrite Ed|]. exists s, (F s sv). rewrite Hh. split_and!; [|done|by apply Hl'].
  apply (servers_by_sreg _ _ _ _ _ _ Hby). eauto.
Qed.

(** Changes to servers only: what is left to show. *)
Lemma cache_inv_servers st st' L G P F :
  cache_inv st L G P → servers_by F st st' → dst st' = dst st → islab st' = islab st →
  (∀ x it, im st L !! x = Some it → item_ok st' x it) →
  (∀ i s sv, sreg st i s sv → server_ok st' L s (F s sv)) →
  NoDup (shared_lru_head st') → (∀ x, x ∈ shared_lru_head st' → is_Some (im st L !! x)) →
  (∀ i s sv j s' sv' p, sreg st i s sv → sreg st j s' sv' →
     p ∈ s_passby_lru_head (F s sv) → p ∈ s_passby_lru_head (F s' sv') → i = j) →
  al_ok (pslab st') → (∀ p, al_live (pslab st') p ↔ is_Some (passbys st' !! p)) →
  cache_inv st' L G P.
Proof.
  intros Hi Hby Ed Eil Hit Hsrv Hnd Hsh Hpb Hpa Hpl.
  destruct (servers_by_table _ _ _ _ _ _ Hby Hi) as (T1 & T2 & T3).
  assert (im st' L = im st L) as Eim by (unfold im; by rewrite Ed).
  split; try done; rewrite ?Ed, ?Eil, ?Eim; try apply Hi; try done.
  - intros i s sv' (sv & Hr & ->)%(servers_by_sreg _ _ _ _ _ _ Hby). by eapply Hsrv.
  - intros i s sv1 j s' sv1' p (sv & Hr & ->)%(servers_by_sreg _ _ _ _ _ _ Hby)
      (sv' & Hr' & ->)%(servers_by_sreg _ _ _ _ _ _ Hby). by apply Hpb.
  - intros i d dv Hr. rewrite (ci_dused _ _ _ _ Hi i d dv Hr). symmetry. apply holders_ext.
    intros x _. by rewrite Eim.
Qed.

Lemma server_passby_item_delete_spec st L G P s sv p :
  cache_inv st L G P → srvs st !! s = Some sv → p ∈ s_passby_lru_head sv →
  ∃ st' h', server_passby_item_delete s p st = Ret (tt, st') ∧ cache_inv st' L G P ∧ shrinks st st' ∧
    dst st' = dst st ∧ shared_lru_head st' = shared_lru_head st ∧
    passbys st' = delete p (passbys st) ∧ srvs st' = <[s := drop_passby s p h' s sv]> (srvs st) ∧
    hash_nodes h' = list_remove_one (NPassby p) (hash_nodes (s_hash sv)).
Proof.
  intros Hi Es Hp. pose proof (sreg_lookup _ _ _ _ _ _ Hi Es) as Hr.
  pose proof (ci_server _ _ _ _ Hi _ _ _ Hr) as Hso.
  destruct (hash_del_spec (hids st) (s_hash sv) (NPassby p) (so_hash _ _ _ _ Hso)) as (h' & Eh & Hh & En).
  { by apply (so_passbys _ _ _ _ Hso). }
  destruct (al_free_ok (pslab st) p) as (pl' & Efr & Hal & Hlv);
    [apply Hi|apply (ci_plive _ _ _ _ Hi), (so_passby_mem _ _ _ _ Hso), Hp|].
  eexists _, h'. split.
  { unfold server_passby_item_delete, srv_hash_del.
    erewrite bind_ret;
      [|erewrite bind_ret; [|by apply load_srv_run]; erewrite bind_ret; [|by apply out_run];
        by apply upd_srv_run].
    erewrite bind_ret;
      [|unfold passby_lru_del; erewrite bind_ret; [|apply load_srv_run; apply lookup_insert_eq];
        rewrite decide_True by exact Hp; apply upd_srv_run; apply lookup_insert_eq].
    erewrite bind_ret; [|unfold passby_free; cbn [pslab set_srvs]; rewrite Efr; reflexivity].
    apply upd_srv_run. apply lookup_insert_eq. }
  cbn [srvs set_srvs set_passbys set_pslab]. rewrite !insert_insert_eq.
  match goal with |- cache_inv ?s _ _ _ ∧ _ => set (st' := s) end.
  assert (servers_by (drop_passby s p h') st st') as Hby.
  { split_and!; [done| |].
    - intros s2. unfold st', drop_passby. simpl. destruct (decide (s2 = s)) as [->|Hne].
      + by rewrite lookup_insert_eq, Es.
      + rewrite lookup_insert_ne by done. by destruct (srvs st !! s2).
    - intros s2 sv2 _. unfold drop_passby. by destruct (decide (s2 = s)). }
  assert (∀ s2 sv2 i, sreg st i s2 sv2 → p ∈ s_passby_lru_head sv2 → s2 = s ∧ sv2 = sv) as Hone.
  { intros s2 sv2 i Hr2 Hp2. assert (i = s_index sv) as -> by (by eapply (ci_passby_one _ _ _ _ Hi)).
    by destruct (sreg_inj _ _ _ _ _ _ Hr Hr2) as [-> ->]. }
  split_and!; try done.
  - apply (cache_inv_servers st st' L G P (drop_passby s p h')); try done; try apply Hi.
    + intros x it Hx. apply (item_ok_servers st st' (drop_passby s p h')); [by apply Hi|done..|].
      intros s2 sv2 Hr2. unfold drop_passby. destruct (decide (s2 = s)) as [->|]; [|done].
      destruct Hr2 as (_ & E2 & _). rewrite Es in E2. injection E2 as <-. simpl.
      rewrite En, elem_of_list_remove_one. split; [naive_solver|done].
    + intros i s2 sv2 Hr2. pose proof (ci_server _ _ _ _ Hi _ _ _ Hr2) as Hso2.
      unfold drop_passby. destruct (decide (s2 = s)) as [->|Hne].
      * destruct Hr2 as (_ & E2 & _). rewrite Es in E2. injection E2 as <-.
        destruct Hso. split; simpl; try done.
        -- intros n n' id. rewrite En, !elem_of_list_remove_one. intros [? _] [? _]. by apply so_ids.
        -- intros x. rewrite En, elem_of_list_remove_one. intros [? _]. by apply so_items.
        -- intros q. rewrite En, !elem_of_list_remove_one, so_passbys. naive_solver.
        -- intros q [? ?]%elem_of_list_remove_one. rewrite lookup_delete_ne by done. by apply so_passby_mem.
        -- by apply NoDup_list_remove_one.
        -- rewrite so_passby_nr, (length_list_remove_one p) by done. lia.
      * destruct Hso2. split; try done. intros q Hq. simpl. rewrite lookup_delete_ne; [by apply so_passby_mem|].
        intros Eq. subst q. destruct (Hone s2 sv2 i Hr2 Hq) as [E2 _]. by apply Hne.
    + intros i s2 sv2 j s3 sv3 q Hr2 Hr3 Hq2 Hq3.
      assert (∀ s4 sv4, q ∈ s_passby_lru_head (drop_passby s p h' s4 sv4) → q ∈ s_passby_lru_head sv4) as Hq.
      { intros s4 sv4. unfold drop_passby. destruct (decide (s4 = s)); [|done]. simpl.
        rewrite elem_of_list_remove_one. tauto. }
      eapply (ci_passby_one _ _ _ _ Hi); eauto.
    + intros q. change (pslab st') with pl'. rewrite Hlv, (ci_plive _ _ _ _ Hi). simpl. split.
      * intros [? ?]. by rewrite lookup_delete_ne.
      * intros [pb [? ?]%lookup_delete_Some]. split; [by eexists|done].
  - split; try done.
    + simpl. intros q pb Hq. by apply lookup_delete_Some in Hq as [_ ?].
    + intros y it' Hy. exists it'. auto.
    + intros s2 sv2 Es2. destruct Hby as (_ & -> & _). rewrite Es2. eexists. split; [done|].
      unfold drop_passby. destruct (decide (s2 = s)) as [->|]; [|apply srv_shrinks_refl].
      rewrite Es in Es2. injection Es2 as <-.
      exists (s_lru_head sv), h', (s_content sv), (s_consumed sv), (s_item_nr sv),
        (list_remove_one p (s_passby_lru_head sv)), (s_passby_item_nr sv - 1).
      split_and!; [by destruct sv|done|..]; intros q; rewrite ?En, elem_of_list_remove_one; tauto.
  - unfold drop_passby. rewrite decide_True by done. reflexivity.
Qed.
End passby.

(** ** The loops over items *)

Section loops.
Context {AS IS PS : Type} `{Allocator AS} `{Allocator IS} `{Allocator PS}.
Context (kmalloc : dstore AS → option Z).
Context (Hkm : ∀ ds a, kmalloc ds = Some a → devs ds !! a = None).
Implicit Types (st : sstore AS IS PS) (sv : ohc_server_t) (L : option Z) (G P l : list Z).

(** Exactly the items [l] are deleted: gone, or marked if a request holds them. *)
Definition purged G P st st' l : Prop :=
  (∀ y, y ∉ l → item_mem (dst st') !! y = item_mem (dst st) !! y) ∧
  (∀ y it, y ∈ l → item_mem (dst st) !! y = Some it →
     item_mem (dst st') !! y = if decide (y ∈ G ++ P) then Some (set_it_deleted true it) else None).

Lemma purged_nil G P st : purged G P st st [].
Proof. split; [done|]. by intros y it ?%not_elem_of_nil. Qed.

Lemma purged_cons G P st st1 st' x it l :
  item_gone st st1 x → item_mem (dst st) !! x = Some it →
  item_mem (dst st1) !! x = (if decide (x ∈ G ++ P) then Some (set_it_deleted true it) else None) →
  x ∉ l → purged G P st1 st' l → purged G P st st' (x :: l).
Proof.
  intros (_ & _ & Hg & _) Hx Hx1 Hnl [H1' H2']. split.
  - intros y [Hne Hy]%not_elem_of_cons. by rewrite H1', Hg.
  - intros y it' [->|Hy]%elem_of_cons Hm.
    + rewrite Hx in Hm. injection Hm as <-. by rewrite H1'.
    + apply H2'; [done|]. rewrite Hg; [done|]. by intros ->.
Qed.

Lemma item_gone_im st st' L x y it :
  item_gone st st' x → y ≠ x → im st L !! y = Some it → im st' L !! y = Some it.
Proof.
  intros (_ & _ & Hg & _) Hne [Hy HL]%im_lookup. apply im_lookup_2; [by rewrite Hg|done].
Qed.

Lemma shrinks_server st st' s : shrinks st st' → is_Some (srvs st !! s) → is_Some (srvs st' !! s).
Proof. intros Hs [sv Es]. destruct (sh_srvs _ _ Hs s sv Es) as (sv' & ? & _). by eexists. Qed.

(** Why a loop over items stopped. *)
Definition stopped st' (room : Prop) (c : nat) (l2 : list Z) : Prop :=
  l2 = [] ∨ (LOOP_LIMIT < c)%nat ∨
  room ∧ ∃ x, head l2 = Some x ∧ server_item_valid x st' = Ret (true, st').

Lemma expire_items_spec s before target l count st L G P :
  cache_inv st L G P → is_Some (srvs st !! s) → NoDup l → (∀ x, x ∈ l → is_Some (im st L !! x)) →
  ∃ c st' l1 l2, expire_items kmalloc s before target l count st = Ret (c, st') ∧ cache_inv st' L G P ∧
    shrinks st st' ∧ passbys st' = passbys st ∧ l = l1 ++ l2 ∧ c = (count + length l1)%nat ∧
    purged G P st st' l1 ∧
    stopped st' (∃ sv, srvs st' !! s = Some sv ∧ target ≤ u64 (before - s_consumed sv)) c l2.
Proof.
  revert count st. induction l as [|x l IH]; intros count st Hi [sv Es] Hnd Hal; simpl.
  { exists count, st, [], []. split_and!; try done; first [apply shrinks_refl|apply purged_nil|by left|simpl; lia]. }
  apply NoDup_cons in Hnd as [Hxl Hnd]. destruct (Hal x (list_elem_of_here _ _)) as [it Hx].
  destruct (server_item_valid_run st L G P x it Hi Hx) as (d & dv & s2 & sv2 & _ & _ & Ev).
  destruct (im_lookup _ _ _ _ Hx) as [Hxm _].
  destruct ((target <=? u64 (before - s_consumed sv)) && item_valid st it dv sv2) eqn:Estop.
  - apply andb_true_iff in Estop as [Et Ev1]. exists count, st, [], (x :: l). split_and!; try done.
    + erewrite bind_ret; [|by apply load_srv_run]. rewrite Et. erewrite bind_ret; [|exact Ev]. by rewrite Ev1.
    + apply shrinks_refl.
    + apply purged_nil.
    + right; right. split; [exists sv; split; [done|lia]|]. exists x. split; [done|]. by rewrite Ev, Ev1.
  - destruct (server_item_delete_spec kmalloc Hkm st L G P x it Hi Hx) as (st1 & E1 & Hi1 & Hg & Hx1).
    assert (∀ K, (sv ← load_srv s;
       stop ← (if target <=? u64 (before - s_consumed sv) then server_item_valid x else mret false);
       if stop : bool then mret count else server_item_delete kmalloc x;; K) st = K st1) as Erun.
    { intros K. erewrite bind_ret; [|by apply load_srv_run].
      assert ((if target <=? u64 (before - s_consumed sv) then server_item_valid x else mret false) st
              = Ret (false, st)) as Es0.
      { destruct (target <=? _); [|done]. simpl in Estop. by rewrite Ev, Estop. }
      erewrite bind_ret; [|exact Es0]. cbn beta iota. by rewrite (bind_ret _ _ _ _ _ E1). }
    rewrite Erun. destruct (decide (LOOP_LIMIT ≤ count)%nat) as [Hlim|Hlim].
    + exists (S count), st1, [x], l. split_and!; try done; try apply Hg; [simpl; lia| |right; left; lia].
      eapply purged_cons; [done..|apply not_elem_of_nil|apply purged_nil].
    + destruct (IH (S count) st1) as (c & st' & l1 & l2 & E & Hi' & Hsh & Hp & -> & Hc & Hpu & Hst);
        [done| |done| |].
      * apply (shrinks_server st); [apply Hg|by eexists].
      * intros y Hy. destruct (Hal y) as [it' Hy']; [by apply list_elem_of_further|]. exists it'.
        eapply item_gone_im; [done| |done]. by intros ->.
      * exists c, st', (x :: l1), l2. split_and!; try done.
        -- by eapply shrinks_trans; [apply Hg|].
        -- rewrite Hp. apply Hg.
        -- simpl. lia.
        -- eapply purged_cons; [done..| |done]. set_solver.
Qed.

Lemma shared_expire_loop_spec target l size count st L G P :
  cache_inv st L G P → NoDup l → (∀ x, x ∈ l → is_Some (im st L !! x)) →
  ∃ st' l1 l2, shared_expire_loop kmalloc target l size count st = Ret (tt, st') ∧
    cache_inv st' L G P ∧ shrinks st st' ∧ passbys st' = passbys st ∧ l = l1 ++ l2 ∧
    purged G P st st' l1 ∧ stopped st' True (count + length l1) l2.
Proof.
  revert size count st. induction l as [|x l IH]; intros size count st Hi Hnd Hal; simpl.
  { exists st, [], []. split_and!; try done; first [apply shrinks_refl|apply purged_nil|by left]. }
  apply NoDup_cons in Hnd as [Hxl Hnd]. destruct (Hal x (list_elem_of_here _ _)) as [it Hx].
  destruct (server_item_valid_run st L G P x it Hi Hx) as (d & dv & s2 & sv2 & _ & _ & Ev).
  destruct (im_lookup _ _ _ _ Hx) as [Hxm _].
  destruct ((target <=? size) && item_valid st it dv sv2) eqn:Estop.
  - apply andb_true_iff in Estop as [Et Ev1]. exists st, [], (x :: l). split_and!; try done.
    + rewrite Et. erewrite bind_ret; [|exact Ev]. by rewrite Ev1.
    + apply shrinks_refl.
    + apply purged_nil.
    + right; right. split; [done|]. exists x. split; [done|]. by rewrite Ev, Ev1.
  - destruct (server_item_delete_spec kmalloc Hkm st L G P x it Hi Hx) as (st1 & E1 & Hi1 & Hg & Hx1).
    assert ((if target <=? size then server_item_valid x else mret false) st = Ret (false, st)) as Es0.
    { destruct (target <=? _); [|done]. simpl in Estop. by rewrite Ev, Estop. }
    erewrite bind_ret; [|exact Es0]. cbn beta iota.
    erewrite bind_ret; [|by apply lift_load_item_run].
    erewrite bind_ret; [|exact E1].
    destruct (decide (LOOP_LIMIT ≤ count)%nat) as [Hlim|Hlim].
    + exists st1, [x], l. split_and!; try done; try apply Hg; [|right; left; simpl; lia].
      eapply purged_cons; [done..|apply not_elem_of_nil|apply purged_nil].
    + destruct (IH (u64 (size + it_length it)) (S count) st1)
        as (st' & l1 & l2 & E & Hi' & Hsh & Hp & -> & Hpu & Hst); [done..| |].
      * intros y Hy. destruct (Hal y) as [it' Hy']; [by apply list_elem_of_further|]. exists it'.
        eapply item_gone_im; [done| |done]. by intros ->.
      * exists st', (x :: l1), l2. split_and!; try done.
        -- by eapply shrinks_trans; [apply Hg|].
        -- rewrite Hp. apply Hg.
        -- eapply purged_cons; [done..| |done]. set_solver.
        -- simpl. by rewrite Nat.add_succ_r.
Qed.

(** *** Passby items *)

Lemma expire_passbys_spec s l count st L G P :
  cache_inv st L G P → NoDup l → (∃ sv, srvs st !! s = Some sv ∧ ∀ p, p ∈ l → p ∈ s_passby_lru_head sv) →
  ∃ st' l1 l2, expire_passbys s l count st = Ret (tt, st') ∧ cache_inv st' L G P ∧ shrinks st st' ∧
    dst st' = dst st ∧ l = l1 ++ l2 ∧
    (∀ p, p ∈ l1 → passbys st' !! p = None) ∧ (∀ p, p ∉ l1 → passbys st' !! p = passbys st !! p).
Proof.
  revert count st. induction l as [|p l IH]; intros count st Hi Hnd (sv & Es & Hsub); simpl.
  { exists st, [], []. split_and!; try done; [apply shrinks_refl|]. by intros p ?%not_elem_of_nil. }
  apply NoDup_cons in Hnd as [Hpl Hnd]. pose proof (Hsub p (list_elem_of_here _ _)) as Hp.
  pose proof (sreg_lookup _ _ _ _ _ _ Hi Es) as Hr.
  destruct (so_passby_mem _ _ _ _ (ci_server _ _ _ _ Hi _ _ _ Hr) p Hp) as [pb Epb].
  erewrite bind_ret; [|by apply load_srv_run]. erewrite bind_ret; [|reflexivity].
  erewrite bind_ret; [|rewrite Epb; reflexivity].
  destruct (s_passby_enable sv && (s_passby_item_nr sv <? s_passby_limit_nr sv)
     && (master_now st <? pb_expire pb)) eqn:Estop.
  { exists st, [], (p :: l). split_and!; try done; [apply shrinks_refl|]. by intros q ?%not_elem_of_nil. }
  destruct (server_passby_item_delete_spec st L G P s sv p Hi Es Hp)
    as (st1 & h' & E1 & Hi1 & Hsh1 & Ed1 & _ & Ep1 & Es1 & _).
  erewrite bind_ret; [|exact E1]. destruct (decide (LOOP_LIMIT ≤ count)%nat).
  { exists st1, [p], l. split_and!; try done.
    - intros q ->%list_elem_of_singleton. rewrite Ep1. apply lookup_delete_eq.
    - intros q Hq. rewrite Ep1, lookup_delete_ne; [done|]. set_solver. }
  destruct (IH (S count) st1) as (st' & l1 & l2 & E & Hi' & Hsh & Ed & -> & Hgone & Hkeep); [done..| |].
  { eexists. rewrite Es1, lookup_insert_eq. split; [done|]. intros q Hq. unfold drop_passby.
    rewrite decide_True by done. simpl. rewrite elem_of_list_remove_one. split; [|by intros ->].
    by apply Hsub, list_elem_of_further. }
  exists st', (p :: l1), l2. split_and!; try done.
  - by eapply shrinks_trans.
  - by rewrite Ed.
  - intros q [->|Hq]%elem_of_cons; [|by apply Hgone].
    rewrite Hkeep; [rewrite Ep1; apply lookup_delete_eq|]. set_solver.
  - intros q [Hne Hq]%not_elem_of_cons. rewrite Hkeep, Ep1 by done. by rewrite lookup_delete_ne.
Qed.

(** *** The whole operations *)

Lemma server_item_expire_spec s target st L G P sv :
  cache_inv st L G P → srvs st !! s = Some sv →
  ∃ st' l1 l2, server_item_expire kmalloc s target st = Ret (tt, st') ∧ cache_inv st' L G P ∧
    shrinks st st' ∧ reverse (s_lru_head sv) = l1 ++ l2 ∧ purged G P st st' l1 ∧
    (l2 = [] ∨ (LOOP_LIMIT < length l1)%nat ∨
     ∃ st1 sv1 x, dst st1 = dst st' ∧ srvs st1 !! s = Some sv1 ∧
       target ≤ u64 (s_consumed sv - s_consumed sv1) ∧ head l2 = Some x ∧
       server_item_valid x st1 = Ret (true, st1)).
Proof.
  intros Hi Es. pose proof (ci_server _ _ _ _ Hi _ _ _ (sreg_lookup _ _ _ _ _ _ Hi Es)) as Hso.
  destruct (expire_items_spec s (s_consumed sv) target (reverse (s_lru_head sv)) 0 st L G P Hi)
    as (c & st1 & l1 & l2 & E1 & Hi1 & Hsh1 & _ & El & -> & Hpu & Hst).
  - by eexists.
  - apply NoDup_reverse, Hso.
  - intros x. rewrite elem_of_reverse. intros Hx. destruct (so_lru _ _ _ _ Hso x Hx) as (_ & it & ? & _). by eexists.
  - destruct (sh_srvs _ _ Hsh1 s sv Es) as (sv1 & Es1 & _).
    pose proof (ci_server _ _ _ _ Hi1 _ _ _ (sreg_lookup _ _ _ _ _ _ Hi1 Es1)) as Hso1.
    destruct (expire_passbys_spec s (reverse (s_passby_lru_head sv1)) (length l1) st1 L G P Hi1)
      as (st' & p1 & p2 & E2 & Hi2 & Hsh2 & Ed2 & _).
    + apply NoDup_reverse, Hso1.
    + exists sv1. split; [done|]. intros p. by rewrite elem_of_reverse.
    + exists st', l1, l2. split_and!; try done.
      * unfold server_item_expire. erewrite bind_ret; [|by apply load_srv_run].
        erewrite bind_ret; [|exact E1]. erewrite bind_ret; [|by apply load_srv_run]. done.
      * by eapply shrinks_trans.
      * split; [intros y; rewrite Ed2; apply Hpu|intros y it; rewrite Ed2; apply Hpu].
      * destruct Hst as [?|[?|[(sv1' & Es1' & Ht) (x & Hx & Hv)]]]; [by left|right; left; lia|].
        right; right. exists st1, sv1', x. by rewrite Ed2.
Qed.

Lemma server_shared_expire_spec target st L G P :
  cache_inv st L G P →
  ∃ st' l1 l2, server_shared_expire kmalloc target st = Ret (tt, st') ∧ cache_inv st' L G P ∧
    shrinks st st' ∧ reverse (shared_lru_head st) = l1 ++ l2 ∧ purged G P st st' l1 ∧
    stopped st' True (length l1) l2.
Proof.
  intros Hi. destruct (shared_expire_loop_spec target (reverse (shared_lru_head st)) 0 0 st L G P Hi)
    as (st' & l1 & l2 & E & Hi' & Hsh & _ & El & Hpu & Hst).
  - apply NoDup_reverse, Hi.
  - intros x. rewrite elem_of_reverse. intros Hx. by apply (ci_shared _ _ _ _ Hi).
  - by exists st', l1, l2.
Qed.
End loops.
