(* ===== verification/ServerPut.v ===== *)
(** * Making room and storing an item

    [device_free_block_extend] and the retry loop of the PUT handler: they end,
    keep the invariant and give the new item a place on a device or report that
    there is none; [put_store] then enters the item everywhere at once. *)

From Stdlib Require Import String.
From stdpp Require Import prelude fin_maps gmap.
From S2P Require Import Prelude IdxPointer StrUtil IpBucket Slab Hash Device DeviceInv DeviceOps.
From S2P Require Import Http Server ServerInv ServerOps ServerExpire.

Section extend.
Context {AS IS PS : Type} `{Allocator AS} `{Allocator IS} `{Allocator PS}.
Context (kmalloc : dstore AS → option Z).
Context (Hkm : ∀ ds a, kmalloc ds = Some a → devs ds !! a = None).
Implicit Types (st : sstore AS IS PS) (sv : ohc_server_t) (L : option Z) (G P l : list Z).

(** A step of the devices that moves no item; devices without items may come and
    go. *)
Lemma cache_inv_devs st ds' L G P :
  cache_inv st L G P → dev_inv ds' → item_mem ds' = item_mem (dst st) →
  (∀ i d dv', registered ds' i d dv' →
     (∃ dv, registered (dst st) i d dv ∧ d_used dv' = d_used dv ∧
        ∀ x, OItem x ∈ order_head dv' ↔ OItem x ∈ order_head dv) ∨
     (d_used dv' = 0 ∧ (∀ x, OItem x ∉ order_head dv') ∧ ∀ d0 dv0, ¬ registered (dst st) i d0 dv0)) →
  (∀ i d dv x, registered (dst st) i d dv → OItem x ∈ order_head dv → ∃ dv', registered ds' i d dv') →
  cache_inv (set_dst ds' st) L G P.
Proof.
  intros Hi Hd Em Hreg Hlater.
  assert (im (set_dst ds' st) L = im st L) as Eim by (unfold im; simpl; by rewrite Em).
  split; rewrite ?Eim; try done; try apply Hi.
  - intros x it Hx. destruct (ci_item _ _ _ _ Hi x it Hx) as [(d & dv & Hr & Hin) Hs]. split; [|exact Hs].
    destruct (Hlater _ _ _ _ Hr Hin) as (dv' & Hr'). exists d, dv'. split; [exact Hr'|].
    destruct (Hreg _ _ _ Hr') as [(dv0 & Hr0 & _ & Hx0)|(_ & _ & Hno)]; [|by destruct (Hno d dv)].
    destruct (registered_inj _ _ _ _ _ _ _ Hr Hr0 eq_refl) as [_ <-]. by apply Hx0.
  - intros i s sv Hr. destruct (ci_server _ _ _ _ Hi i s sv Hr). split; rewrite ?Eim; done.
  - intros i d dv' Hr'.
    assert (holders (set_dst ds' st) L G P i = holders st L G P i) as -> by (apply holders_ext; intros; by rewrite Eim).
    destruct (Hreg _ _ _ Hr') as [(dv & Hr & -> & _)|(-> & _ & Hno)]; [by apply (ci_dused _ _ _ _ Hi _ _ _ Hr)|].
    unfold holders. rewrite list_filter_nil; [done|]. intros x Hx.
    destruct (im st L !! x) as [it|] eqn:Ex; [|done]. cbn. intros [= <-].
    destruct (io_dev _ _ _ (ci_item _ _ _ _ Hi x it Ex)) as (d0 & dv0 & Hr0 & _). by apply (Hno d0 dv0).
  - intros x HL. destruct (ci_loose _ _ _ _ Hi x HL) as [Hm Hdet]. simpl. rewrite Em. split; [done|].
    intros i d dv' Hr' Hin. destruct (Hreg _ _ _ Hr') as [(dv & Hr & _ & Hx)|(_ & Hno & _)]; [|by apply (Hno x)].
    by apply Hx, (Hdet i d dv) in Hin.
  - intros x. simpl. rewrite Em. apply (ci_ilive _ _ _ _ Hi).
Qed.

Lemma cache_inv_dev st ds' L G P :
  cache_inv st L G P → dev_inv ds' → same_items (dst st) ds' →
  cache_inv (set_dst ds' st) L G P ∧ shrinks st (set_dst ds' st).
Proof.
  intros Hi Hd (Em & Hst). pose proof Hst as (Et & _ & _ & _ & Hdv).
  split.
  - apply cache_inv_devs; try done.
    + intros i d dv' (E1 & E2 & E3). destruct (Hdv d dv' E2) as (dv & Ed & Ei & _ & _ & Eu & _ & Hx).
      left. exists dv. split; [split_and!; [by rewrite <- Et|done|congruence]|done].
    + intros i d dv x Hr _. by apply (registered_later (dst st) ds' _ _ _ Hd Et Hr).
  - split; try done.
    + intros y it'. simpl. rewrite Em. eauto.
    + intros s sv Es. exists sv. split; [done|apply srv_shrinks_refl].
Qed.

Lemma device_delete_item_spec n st L G P :
  cache_inv st L G P →
  (∀ x, n = Some (OItem x) → is_Some (im st L !! x)) →
  ∃ st', device_delete_item kmalloc n st = Ret (tt, st') ∧ cache_inv st' L G P ∧ shrinks st st' ∧
    (∀ y it, n ≠ Some (OItem y) → im st L !! y = Some it → im st' L !! y = Some it).
Proof.
  intros Hi Hn. destruct n as [[a|x]|].
  - exists st. split_and!; [done..|apply shrinks_refl|done].
  - destruct (Hn x eq_refl) as [it Hx]. pose proof (im_lookup _ _ _ _ Hx) as [Hxm _]. simpl.
    erewrite bind_ret; [|by apply lift_load_item_run]. destruct (it_putting it || _).
    { exists st. split_and!; [done..|apply shrinks_refl|done]. }
    destruct (server_item_delete_spec kmalloc Hkm st L G P x it Hi Hx) as (st' & E & Hi' & Hg & _).
    exists st'. split_and!; [done..|apply Hg|]. intros y it' Hne Hy.
    eapply item_gone_im; [done| |done]. congruence.
  - exists st. split_and!; [done..|apply shrinks_refl|done].
Qed.

(** Nodes of an order list: an item there is in memory and not being allocated. *)
Lemma order_item_im st L G P i d dv x :
  cache_inv st L G P → registered (dst st) i d dv → OItem x ∈ order_head dv → is_Some (im st L !! x).
Proof.
  intros Hi Hr Hin. destruct (do_nodes _ _ (di_dev _ (ci_dev _ _ _ _ Hi) _ _ _ Hr) _ Hin) as (it & Ex & _).
  exists it. apply im_lookup_2; [done|]. intros HL.
  destruct (ci_loose _ _ _ _ Hi x HL) as [_ Hd]. by apply (Hd i d dv).
Qed.

Lemma extend_loop_spec fuel target last_ st L G P :
  cache_inv st L G P →
  ∃ rc st', extend_loop kmalloc fuel target last_ st = Ret (rc, st') ∧ cache_inv st' L G P ∧
    shrinks st st' ∧
    (rc = OHC_OK ∧ (∃ a fb, fblocks (dst st') !! a = Some fb ∧ target ≤ fb_block_size fb) ∨ rc = OHC_ERROR).
Proof.
  revert last_ st. induction fuel as [|fuel IH]; intros last_ st Hi; simpl.
  { exists OHC_ERROR, st. split_and!; [done..|apply shrinks_refl|by right]. }
  erewrite bind_ret; [|reflexivity].
  pose proof (ci_dev _ _ _ _ Hi) as Hd.
  pose proof (biggest_loop_spec (Z.to_nat IPB_BUCKETS) (free_blocks (dst st))) as Hb.
  fold (ipbucket_biggest (free_blocks (dst st))) in Hb.
  destruct (ipbucket_biggest (free_blocks (dst st))) as [a|].
  2:{ exists OHC_ERROR, st. split_and!; [done..|apply shrinks_refl|by right]. }
  destruct Hb as (k & _ & Hlk & _). destruct (bo_class _ _ (di_buckets _ Hd) _ _ Hlk) as (sz & Esz & _).
  apply fmap_Some in Esz as (fb & Ea & ->).
  destruct (dev_of_fb (dst st) a fb Hd Ea) as (d & dv & l1 & l2 & Hr & Eo & Hn1 & Hn2 & Hok).
  pose proof Hr as (Ei & Ed & _).
  erewrite bind_ret; [|apply lift_read; by apply load_fb_run].
  destruct (target <=? fb_block_size fb) eqn:Et.
  { exists OHC_OK, st. split_and!; [done..|apply shrinks_refl|]. left. split; [done|]. exists a, fb. split; [done|lia]. }
  destruct (fb_block_size fb =? last_).
  { exists OHC_ERROR, st. split_and!; [done..|apply shrinks_refl|by right]. }
  erewrite bind_ret; [|apply lift_read; by eapply device_of_fblock_run].
  erewrite bind_ret; [|by apply lift_load_dev_run].
  destruct (d_deleted dv).
  - destruct (fblock_drop (dst st) (free_blocks (dst st)) a fb Hd Ea) as (ds' & E & Hd' & Hs & _); [by left|].
    erewrite bind_ret; [|apply lift_run; replace (dst st) with (set_free_blocks (free_blocks (dst st)) (dst st))
      by (by destruct (dst st)); exact E].
    destruct (cache_inv_dev st ds' L G P Hi Hd' Hs) as [Hi' Hsh].
    destruct (IH (fb_block_size fb) (set_dst ds' st) Hi') as (rc & st' & E' & Hi2 & Hsh2 & Hrc).
    exists rc, st'. split_and!; [done..|by eapply shrinks_trans|done].
  - rewrite Eo, order_prev_split, order_next_split by done.
    assert (∀ x, OItem x ∈ l1 ++ OFb a :: l2 → is_Some (im st L !! x)) as Him.
    { intros x. rewrite <- Eo. by apply (order_item_im st L G P (fb_device_index fb) d dv). }
    assert (NoDup (l1 ++ OFb a :: l2)) as Hnd.
    { rewrite <- Eo. eapply tiled_nodup, do_tiled, Hok. }
    destruct (device_delete_item_spec (last l1) st L G P Hi) as (st1 & E1 & Hi1 & Hsh1 & Hk1).
    { intros x Hx. apply Him, elem_of_app. left. by apply last_Some_elem_of. }
    erewrite bind_ret; [|exact E1].
    destruct (device_delete_item_spec (head l2) st1 L G P Hi1) as (st2 & E2 & Hi2 & Hsh2 & _).
    { intros x Hx. assert (OItem x ∈ l2) as Hin2 by (by apply head_Some_elem_of).
      destruct (Him x) as [it Hit]; [by apply elem_of_app; right; apply list_elem_of_further|].
      exists it. apply Hk1; [|done]. intros Hl%last_Some_elem_of.
      apply NoDup_app in Hnd as (_ & Hdis & _). apply (Hdis _ Hl). by apply list_elem_of_further. }
    erewrite bind_ret; [|exact E2].
    destruct (IH (fb_block_size fb) st2 Hi2) as (rc & st' & E' & Hi3 & Hsh3 & Hrc).
    exists rc, st'. split_and!; [done..| |done]. eapply shrinks_trans; [done|]. by eapply shrinks_trans.
Qed.

(** The item being allocated keeps its length. *)
Lemma loose_stays st st' G P x it :
  item_mem (dst st) !! x = Some it → cache_inv st' (Some x) G P → shrinks st st' →
  ∃ it', item_mem (dst st') !! x = Some it' ∧ it_length it' = it_length it ∧ detached (dst st') x.
Proof.
  intros Hx Hi Hsh. destruct (ci_loose _ _ _ _ Hi x eq_refl) as [[it' Hx'] Hd]. exists it'.
  destruct (sh_items _ _ Hsh x it' Hx') as (it0 & E0 & Hc). rewrite Hx in E0. injection E0 as <-.
  split_and!; [done| |done]. by destruct Hc as [-> | ->].
Qed.

Lemma put_alloc_spec fuel s x try_ st G P it sv :
  cache_inv st (Some x) G P → srvs st !! s = Some sv → item_mem (dst st) !! x = Some it →
  0 < it_length it < 2 ^ 32 → 0 ≤ try_ ≤ 12 → 12 - try_ < Z.of_nat fuel →
  let b := ipbucket_block_size (it_length it) in
  ∃ r st', put_alloc kmalloc fuel s x try_ st = Ret (r, st') ∧
    (r = 0 ∧ cache_inv st' (Some x) G P ∧ shrinks st st' ∨
     r = b ∧ 0 < b ∧ ∃ st1 ds' it1 d, cache_inv st1 (Some x) G P ∧ shrinks st st1 ∧
       item_mem (dst st1) !! x = Some it1 ∧ it_length it1 = it_length it ∧
       dev_inv ds' ∧ got_block (dst st1) ds' x it1 d ∧ st' = set_dst ds' st1).
Proof.
  revert try_ st it sv. induction fuel as [|fuel IH]; intros try_ st it sv Hi Es Hx Hlen Ht Hf b; [lia|].
  destruct (ci_loose _ _ _ _ Hi x eq_refl) as [_ Hdet].
  destruct (get_free_block_spec LOOP_LIMIT (dst st) x it (ci_dev _ _ _ _ Hi) Hx Hlen Hdet)
    as (r & ds' & E & Hd' & Hcase). cbn [put_alloc].
  erewrite bind_ret; [|apply lift_run; exact E].
  destruct Hcase as [(-> & Hsame & _ & _)|(-> & Hb & d & Hg)].
  2:{ rewrite (proj2 (Z.eqb_neq _ 0)) by lia. cbn [negb].
      exists b, (set_dst ds' st). split; [done|]. right. split_and!; [done..|].
      exists st, ds', it, d. split_and!; [done|apply shrinks_refl|done..]. }
  cbn [negb Z.eqb]. destruct (cache_inv_dev st ds' _ G P Hi Hd' Hsame) as [Hi1 Hsh1].
  set (st1 := set_dst ds' st) in *. pose proof (proj1 Hsame) as Em.
  assert (item_mem (dst st1) !! x = Some it) as Hx1 by (unfold st1; simpl; by rewrite Em).
  assert (∀ try2 st2, cache_inv st2 (Some x) G P → shrinks st1 st2 → try_ < try2 ≤ 12 →
    ∃ r st', put_alloc kmalloc fuel s x try2 st2 = Ret (r, st') ∧
    (r = 0 ∧ cache_inv st' (Some x) G P ∧ shrinks st st' ∨
     r = b ∧ 0 < b ∧ ∃ st1 ds' it1 d, cache_inv st1 (Some x) G P ∧ shrinks st st1 ∧
       item_mem (dst st1) !! x = Some it1 ∧ it_length it1 = it_length it ∧
       dev_inv ds' ∧ got_block (dst st1) ds' x it1 d ∧ st' = set_dst ds' st1)) as Hrec.
  { intros try2 st2 Hi2 Hsh2 Hlt. destruct (loose_stays st1 st2 G P x it Hx1 Hi2 Hsh2) as (it2 & Hx2 & El & _).
    destruct (sh_srvs _ _ Hsh2 s sv Es) as (sv2 & Es2 & _).
    assert (shrinks st st2) as Hsh by (by eapply shrinks_trans).
    destruct (IH try2 st2 it2 sv2) as (r & st' & E' & Hc); [done..|by rewrite El|lia|lia|].
    exists r, st'. split; [done|]. rewrite El in Hc. fold b in Hc.
    destruct Hc as [(-> & ? & ?)|(-> & ? & st3 & ds3 & it3 & d3 & ? & ? & ? & E3 & ? & ? & ?)].
    - left. split_and!; [done..|by eapply shrinks_trans].
    - right. split_and!; [done..|]. exists st3, ds3, it3, d3.
      split_and!; try done; by eapply shrinks_trans. }
  erewrite bind_ret; [|by apply lift_load_item_run]. cbv zeta.
  erewrite bind_ret; [|by apply load_srv_run]. erewrite bind_ret; [|reflexivity].
  destruct ((try_ <? 2) && _ && _) eqn:C1.
  { destruct (server_item_expire_spec kmalloc Hkm s (u32 (it_length it * 2)) st1 _ G P sv Hi1 Es)
      as (st2 & ? & ? & E2 & Hi2 & Hsh2 & _). erewrite bind_ret; [|exact E2]. apply Hrec; [done..|lia]. }
  destruct ((try_ + 1 <? 5) && _) eqn:C2.
  { destruct (server_shared_expire_spec kmalloc Hkm (u32 (it_length it * 2)) st1 _ G P Hi1)
      as (st2 & ? & ? & E2 & Hi2 & Hsh2 & _). erewrite bind_ret; [|exact E2]. apply Hrec; [done..|lia]. }
  destruct ((try_ + 2 <? 9) && _) eqn:C3.
  { destruct (server_item_expire_spec kmalloc Hkm s (u32 (it_length it * 2)) st1 _ G P sv Hi1 Es)
      as (st2 & ? & ? & E2 & Hi2 & Hsh2 & _). erewrite bind_ret; [|exact E2]. apply Hrec; [done..|lia]. }
  destruct (try_ + 3 <? 12) eqn:C4.
  { destruct (extend_loop_spec LOOP_LIMIT (ipbucket_block_size (it_length it)) 0 st1 _ G P Hi1)
      as (rc & st2 & E2 & Hi2 & Hsh2 & _). erewrite bind_ret; [|exact E2]. apply Hrec; [done..|lia]. }
  exists 0, st1. split; [done|]. left. done.
Qed.
End extend.

(** ** Counters of a device that its space does not depend on *)

Lemma dev_inv_used {AS} `{Allocator AS} (ds : dstore AS) i d dv n :
  dev_inv ds → registered ds i d dv →
  dev_inv (set_devs (<[d := set_d_used n dv]> (devs ds)) ds).
Proof.
  intros Hi Hr. pose proof Hr as (Ei & Ed & Eix).
  apply (dev_inv_update ds _ i d dv (set_d_used n dv)); try done; try apply Hi; try (by left).
  - simpl. apply lookup_insert_eq.
  - intros d2 dv2 E2 Hne. simpl. by rewrite lookup_insert_ne.
  - by intros j d2 dv2 _ _ [?|?].
  - destruct (di_dev _ Hi _ _ _ Hr). by split.
  - simpl. intros a fb Ea. destruct (decide (fb_device_index fb = i)) as [Ef|Ef]; [right|by left].
    split; [done|]. destruct (di_fb _ Hi a fb Ea) as (d2 & dv2 & Hr2 & Hin).
    by destruct (registered_inj _ _ _ _ _ _ _ Hr Hr2 (eq_sym Ef)) as [_ <-].
Qed.

Lemma registered_used {AS} (ds : dstore AS) i d dv n j d2 dv2 :
  registered ds i d dv →
  registered (set_devs (<[d := set_d_used n dv]> (devs ds)) ds) j d2 dv2 ↔
    ∃ dv0, registered ds j d2 dv0 ∧ dv2 = if decide (d2 = d) then set_d_used n dv0 else dv0.
Proof.
  intros (Ei & Ed & Eix). unfold registered. simpl. destruct (decide (d2 = d)) as [->|Hne].
  - rewrite lookup_insert_eq. split.
    + intros (E1 & [= <-] & E3). exists dv. done.
    + intros (dv0 & (E1 & E2 & E3) & ->). rewrite Ed in E2. injection E2 as <-. done.
  - rewrite lookup_insert_ne by done. naive_solver.
Qed.

#[local] Arguments im : simpl never.

Section store.
Context {AS IS PS : Type} `{Allocator AS} `{Allocator IS} `{Allocator PS}.
Implicit Types (st : sstore AS IS PS) (sv : ohc_server_t) (L : option Z) (G P l : list Z).

Lemma holders_perm st L G P G' P' i :
  G ++ P ≡ₚ G' ++ P' → holders st L G P i = holders st L G' P' i.
Proof. intros Hp. unfold holders. by rewrite Hp. Qed.

(** One more holder of [x]. *)
Lemma holders_cons st st' L L' G P G' P' x j i :
  G' ++ P' ≡ₚ x :: G ++ P → it_device_index <$> im st' L' !! x = Some j →
  (∀ y, y ∈ G ++ P → it_device_index <$> im st' L' !! y = it_device_index <$> im st L !! y) →
  holders st' L' G' P' i = (if decide (j = i) then 1 else 0) + holders st L G P i.
Proof.
  intros Hp Hx He. unfold holders. rewrite Hp, filter_cons, Hx.
  rewrite (filter_ext_in (λ y, it_device_index <$> im st' L' !! y = Some i)
    (λ y, it_device_index <$> im st L !! y = Some i)) by (intros y Hy; by rewrite He).
  destruct (decide (j = i)) as [->|Hne].
  - rewrite decide_True by done. simpl. lia.
  - rewrite decide_False by congruence. lia.
Qed.

(** The server at [s] takes item [x]; [t] are its new statistics. *)
Definition store_srv (s x : Z) (h' : ohc_hash_t snode) (it : ohc_item_t)
    (t : server_stats → server_stats) (s2 : Z) sv : ohc_server_t :=
  if decide (s2 = s) then
    bump t (set_s_item_nr (s_item_nr sv + 1)
      (set_s_content (u64 (s_content sv + it_length it))
        (set_s_consumed (u64 (s_consumed sv + ipbucket_block_size (it_length it)))
          (set_s_hash h'
            (if s_capacity sv =? 0 then sv else set_s_lru_head (x :: s_lru_head sv) sv)))))
  else sv.

Lemma server_ok_store st st' G P x it t s sv h' id i s2 sv2 :
  cache_inv st (Some x) G P → sreg st (it_server_index it) s sv →
  hids st' = <[NItem x := id]> (hids st) →
  hash_inv (hids st') h' → hash_nodes h' ≡ₚ NItem x :: hash_nodes (s_hash sv) →
  (∀ n, n ∈ hash_nodes (s_hash sv) → hids st !! n ≠ Some id) →
  im st' None = <[x := it]> (im st (Some x)) → passbys st' = passbys st →
  shared_lru_head st' = (if s_capacity sv =? 0 then x :: shared_lru_head st else shared_lru_head st) →
  sreg st i s2 sv2 → server_ok st' None s2 (store_srv s x h' it t s2 sv2).
Proof.
  intros Hi Hr Ehid Hh En Hid Eim Epb Esh Hr2.
  pose proof (ci_server _ _ _ _ Hi _ _ _ Hr2) as Hso.
  assert (im st (Some x) !! x = None) as Hx by apply lookup_delete_eq.
  assert (∀ y it0, im st (Some x) !! y = Some it0 → im st' None !! y = Some it0) as Hkeep.
  { intros y it0 Hy. rewrite Eim, lookup_insert_ne; [done|]. intros ->. congruence. }
  assert (∀ s3 sv3 j, sreg st j s3 sv3 → NItem x ∉ hash_nodes (s_hash sv3)) as Hnx.
  { intros s3 sv3 j Hr3 Hin. destruct (so_items _ _ _ _ (ci_server _ _ _ _ Hi _ _ _ Hr3) x Hin) as (? & ? & _). congruence. }
  assert (∀ s3 sv3 j n, sreg st j s3 sv3 → n ∈ hash_nodes (s_hash sv3) → hids st' !! n = hids st !! n) as Hhid.
  { intros s3 sv3 j n Hr3 Hn. rewrite Ehid, lookup_insert_ne; [done|]. intros <-. by eapply Hnx. }
  assert (x ∉ s_lru_head sv2) as Hxl.
  { intros Hl. destruct (so_lru _ _ _ _ Hso x Hl) as (_ & ? & ? & _). congruence. }
  assert (x ∉ shared_lru_head st) as Hxs.
  { intros Hl. destruct (ci_shared _ _ _ _ Hi x Hl). congruence. }
  unfold store_srv. destruct (decide (s2 = s)) as [->|Hne].
  - assert (sv2 = sv) as -> by (destruct Hr as (_ & E1 & _), Hr2 as (_ & E2 & _); congruence).
    assert (it_server_index it = s_index sv) as Eix by (symmetry; apply Hr).
    assert (∀ f, msum (of_server (s_index sv) f) (im st' None) = f it + msum (of_server (s_index sv) f) (im st (Some x)))
      as Hsum.
    { intros f. rewrite Eim, msum_insert by done. unfold of_server at 1. by rewrite Eix, Z.eqb_refl. }
    assert (hids st' !! NItem x = Some id) as Eid by (by rewrite Ehid, lookup_insert_eq).
    assert (∀ n n' id0, n ∈ hash_nodes h' → n' ∈ hash_nodes h' → hids st' !! n = Some id0 →
      hids st' !! n' = Some id0 → n = n') as Hids.
    { intros n n' id0. rewrite En, !elem_of_cons. intros [->|Hn] [->|Hn']; [done|..].
      - rewrite Eid, (Hhid _ _ _ _ Hr Hn'). intros [= <-] ?. by destruct (Hid n').
      - rewrite Eid, (Hhid _ _ _ _ Hr Hn). intros ? [= <-]. by destruct (Hid n).
      - rewrite (Hhid _ _ _ _ Hr Hn), (Hhid _ _ _ _ Hr Hn'). by apply (so_ids _ _ _ _ Hso). }
    destruct Hso.
    split; destruct (s_capacity sv =? 0) eqn:Ecap; simpl; rewrite ?Epb, ?Hsum; try done.
    all: try (by rewrite so_item_nr; lia).
    all: try (by rewrite so_content, wrap_add_wrap; f_equal; lia).
    all: try (by rewrite so_consumed, wrap_add_wrap; f_equal; lia).
    all: try (intros y; rewrite En, elem_of_cons; intros [[= ->]|Hy];
      [exists it; by rewrite Eim, lookup_insert_eq|destruct (so_items y Hy) as (it0 & ? & ?); eauto]).
    all: try (intros p; rewrite En, elem_of_cons, so_passbys; naive_solver).
    all: rewrite ?Esh.
    + by apply NoDup_cons.
    + intros y Hy. destruct (so_lru y Hy) as (? & it0 & ? & ?). split; [|eauto].
      rewrite elem_of_cons. intros [->|?]; done.
    + intros y [->|Hy]%elem_of_cons; [split; [done|]; exists it; by rewrite Eim, lookup_insert_eq|].
      destruct (so_lru y Hy) as (? & it0 & ? & ?). split; [done|eauto].
  - assert (it_server_index it ≠ s_index sv2) as Eix.
    { intros E. destruct Hr2 as (E1 & E2 & <-). rewrite <- E in E1. destruct Hr as (E3 & _ & _). congruence. }
    assert (∀ f, msum (of_server (s_index sv2) f) (im st' None) = msum (of_server (s_index sv2) f) (im st (Some x)))
      as Hsum.
    { intros f. rewrite Eim, msum_insert by done. unfold of_server at 1. by rewrite (proj2 (Z.eqb_neq _ _) Eix). }
    destruct Hso. split; simpl; rewrite ?Epb, ?Hsum; try done.
    + apply (hash_inv_ext (hids st)); [|done]. intros n. by apply (Hhid s2 sv2 i).
    + intros n n' id0 Hn Hn'. rewrite !(Hhid s2 sv2 i) by done. by apply so_ids.
    + intros y Hy. destruct (so_items y Hy) as (it0 & ? & ?). eauto.
    + intros y Hy. destruct (so_lru y Hy) as (? & it0 & ? & ?). split; [|eauto]. rewrite Esh.
      destruct (s_capacity sv =? 0); [|done]. rewrite elem_of_cons. intros [->|?]; done.
Qed.

(** The item as the handler leaves it: on the device, held by the request. *)
Lemma cache_inv_store st st' ds' G P x it0 it t s sv h' id d :
  cache_inv st (Some x) G P → item_mem (dst st) !! x = Some it0 →
  dev_inv ds' → got_block (dst st) ds' x it0 d →
  (∃ it1, item_mem ds' !! x = Some it1 ∧ it_offset it = it_offset it1 ∧ it_length it = it_length it1 ∧
     it_device_index it = it_device_index it1) →
  it_putting it = true → it_deleted it = false → it_used it = 0 →
  sreg st (it_server_index it) s sv →
  (∃ dv, devs ds' !! d = Some dv ∧
     dst st' = set_devs (<[d := set_d_used (d_used dv + 1) dv]> (devs ds'))
                 (set_item_mem (<[x := it]> (item_mem ds')) ds')) →
  servers_by (store_srv s x h' it t) st st' →
  hids st' = <[NItem x := id]> (hids st) →
  hash_inv (hids st') h' → hash_nodes h' ≡ₚ NItem x :: hash_nodes (s_hash sv) →
  (∀ n, n ∈ hash_nodes (s_hash sv) → hids st !! n ≠ Some id) →
  passbys st' = passbys st → pslab st' = pslab st → islab st' = islab st →
  shared_lru_head st' = (if s_capacity sv =? 0 then x :: shared_lru_head st else shared_lru_head st) →
  cache_inv st' None G (x :: P).
Proof.
  intros Hi Hx0 Hid' Hg (it1 & Hx1 & Eo & El & Ed) Eput Edel Eus Hr (dv & Edv & Edst) Hby Ehid Hh En Hnew Epb Eps Eis Esh.
  destruct Hg as [(a & fb & dv0 & _ & _ & Hr0 & _ & _ & Em) Hst]. pose proof Hst as (Et & _ & _ & _ & Hdv).
  pose proof Hr0 as (Ei0 & Ed0 & Eix0).
  assert (it_device_index it = fb_device_index fb) as Edx.
  { rewrite Ed. rewrite Em, lookup_insert_eq in Hx1. by injection Hx1 as <-. }
  assert (registered ds' (fb_device_index fb) d dv) as Hrd.
  { split_and!; [by rewrite Et|done|]. destruct (Hdv d dv Edv) as (dv1 & E1 & -> & _). congruence. }
  assert (im st (Some x) !! x = None) as Hxn by apply lookup_delete_eq.
  assert (im st' None = <[x := it]> (im st (Some x))) as Eim.
  { unfold im. rewrite Edst. simpl. rewrite Em, insert_insert_eq. by rewrite insert_delete_eq. }
  assert (∀ y it', im st (Some x) !! y = Some it' → im st' None !! y = Some it' ∧ y ≠ x) as Hkeep.
  { intros y it' Hy. assert (y ≠ x) by (intros ->; congruence). by rewrite Eim, lookup_insert_ne. }
  assert (∀ y it', im st' None !! y = Some it' → y = x ∧ it' = it ∨ y ≠ x ∧ im st (Some x) !! y = Some it') as Hmem.
  { intros y it'. rewrite Eim. intros [[<- <-]|[? ?]]%lookup_insert_Some; [by left|right; split; [congruence|done]]. }
  assert (x ∉ G ++ P) as Hxh. { intros Hh'. destruct (ci_held _ _ _ _ Hi x Hh'). congruence. }
  assert (x ∉ shared_lru_head st) as Hxs. { intros Hl. destruct (ci_shared _ _ _ _ Hi x Hl). congruence. }
  assert (∀ i d2 dv2, registered (dst st') i d2 dv2 → ∃ dv3, registered (dst st) i d2 dv3 ∧
    d_used dv2 = d_used dv3 + (if decide (fb_device_index fb = i) then 1 else 0) ∧
    ∀ y, OItem y ∈ order_head dv2 ↔ OItem y ∈ order_head dv3 ∨ d2 = d ∧ y = x) as Hreg.
  { intros i d2 dv2 Hr2. rewrite Edst in Hr2.
    apply (registered_used (set_item_mem (<[x := it]> (item_mem ds')) ds') _ d dv _ i d2 dv2 Hrd) in Hr2 as (dv4 & (E1 & E2 & E3) & ->).
    destruct (Hdv d2 dv4 E2) as (dv3 & F2 & F3 & _ & _ & F4 & _ & Hocc).
    assert (registered (dst st) i d2 dv3) as Hr3 by (split_and!; [by rewrite <- Et|done|congruence]).
    exists dv3. split; [done|].
    assert (d2 = d ↔ fb_device_index fb = i) as Hiff.
    { split; [intros ->; by destruct (registered_addr _ _ _ _ _ _ Hr0 Hr3)|].
      intros <-. by destruct (registered_inj _ _ _ _ _ _ _ Hr0 Hr3 eq_refl). }
    destruct (decide (d2 = d)) as [->|Hne].
    - rewrite decide_True by (by apply Hiff). simpl in E2. rewrite Edv in E2. injection E2 as <-. simpl. rewrite F4. done.
    - rewrite decide_False by (by rewrite <- Hiff). rewrite F4. split; [lia|done]. }
  assert (dev_inv (dst st')) as Hdi.
  { rewrite Edst. apply (dev_inv_used (set_item_mem (<[x := it]> (item_mem ds')) ds') (fb_device_index fb)); [|exact Hrd].
    by apply (dev_inv_upd_item ds' x it1). }
  assert (device_indexs (dst st') = device_indexs (dst st)) as Eti by (by rewrite Edst).
  destruct (servers_by_table _ _ _ _ _ _ Hby Hi) as (T1 & T2 & T3).
  split; try done; rewrite ?Epb, ?Eps, ?Eis; try apply Hi.
  - intros y it' Hy. destruct (Hmem y it' Hy) as [[-> ->]|[Hne Hy0]].
    + split.
      * rewrite Edx. destruct (registered_later (dst st) (dst st') _ _ _ Hdi Eti Hr0) as (dv' & Hr').
        exists d, dv'. split; [done|]. destruct (Hreg _ _ _ Hr') as (dv3 & _ & _ & Hocc). apply Hocc. by right.
      * exists s, (store_srv s x h' it t s sv). split_and!.
        -- apply (servers_by_sreg _ _ _ _ _ _ Hby). eauto.
        -- rewrite Edel. split; [intros _|done]. unfold store_srv. rewrite decide_True by done. simpl.
           rewrite En. apply list_elem_of_here.
        -- rewrite Esh. unfold store_srv. rewrite decide_True by done. simpl.
           destruct (s_capacity sv =? 0); simpl; [right|left]; apply list_elem_of_here.
    + destruct (ci_item _ _ _ _ Hi y it' Hy0) as [(d2 & dv2 & Hr2 & Hin) (s2 & sv2 & Hs2 & Hdl & Hl)]. split.
      * destruct (registered_later (dst st) (dst st') _ _ _ Hdi Eti Hr2) as (dv' & Hr').
        exists d2, dv'. split; [done|]. destruct (Hreg _ _ _ Hr') as (dv3 & Hr3 & _ & Hocc). apply Hocc.
        destruct (registered_inj _ _ _ _ _ _ _ Hr2 Hr3 eq_refl) as [_ <-]. by left.
      * exists s2, (store_srv s x h' it t s2 sv2). split_and!.
        -- apply (servers_by_sreg _ _ _ _ _ _ Hby). eauto.
        -- unfold store_srv. destruct (decide (s2 = s)) as [->|]; [|done]. simpl.
           assert (sv2 = sv) as -> by (destruct Hr as (_ & E1 & _), Hs2 as (_ & E2 & _); congruence).
           rewrite En, elem_of_cons, Hdl. naive_solver.
        -- rewrite Esh. unfold store_srv. destruct Hl as [Hl|Hl].
           ++ left. destruct (decide (s2 = s)) as [->|]; [|done]. simpl. destruct (s_capacity sv2 =? 0); [done|].
              simpl. by apply list_elem_of_further.
           ++ right. destruct (s_capacity sv =? 0); [by apply list_elem_of_further|done].
  - intros i s2 sv2' (sv2 & Hr2 & ->)%(servers_by_sreg _ _ _ _ _ _ Hby).
    eapply (server_ok_store st st' G P); try done; exact Hr2.
  - rewrite Esh. destruct (s_capacity sv =? 0); [|apply Hi]. apply NoDup_cons. split; [done|apply Hi].
  - intros y. rewrite Esh. assert (y ∈ shared_lru_head st → is_Some (im st' None !! y)) as Hold.
    { intros Hy. destruct (ci_shared _ _ _ _ Hi y Hy) as [it' Hy']. exists it'. by apply Hkeep. }
    destruct (s_capacity sv =? 0); [|done]. intros [->|Hy]%elem_of_cons; [|by apply Hold].
    rewrite Eim, lookup_insert_eq. done.
  - intros i s2 sv2' j s3 sv3' p (sv2 & Hr2 & ->)%(servers_by_sreg _ _ _ _ _ _ Hby)
      (sv3 & Hr3 & ->)%(servers_by_sreg _ _ _ _ _ _ Hby).
    assert (∀ s2 sv2, s_passby_lru_head (store_srv s x h' it t s2 sv2) = s_passby_lru_head sv2) as Ep.
    { intros s4 sv4. unfold store_srv. destruct (decide (s4 = s)); [|done]. simpl. by destruct (s_capacity sv4 =? 0). }
    rewrite !Ep. by apply (ci_passby_one _ _ _ _ Hi i s2 sv2 j s3 sv3 p).
  - intros y it' Hy. rewrite elem_of_cons. destruct (Hmem y it' Hy) as [[-> ->]|[Hne Hy0]].
    + rewrite Eus, Eput. split; [symmetry; apply count_of_zero; set_solver|]. split; [by left|done].
    + destruct (ci_used _ _ _ _ Hi y it' Hy0) as [Hu Hp]. split; [done|]. rewrite Hp. naive_solver.
  - destruct (ci_putters _ _ _ _ Hi) as [Hn Hpg]. split; [apply NoDup_cons; set_solver|].
    intros y [->|Hy]%elem_of_cons; [set_solver|by apply Hpg].
  - intros i d2 dv2 Hr2. destruct (Hreg _ _ _ Hr2) as (dv3 & Hr3 & -> & _).
    rewrite (ci_dused _ _ _ _ Hi _ _ _ Hr3).
    rewrite (holders_cons st st' (Some x) None G P G (x :: P) x (fb_device_index fb)); [lia| | |].
    + by rewrite <- Permutation_middle.
    + by rewrite Eim, lookup_insert_eq, <- Edx.
    + intros y Hy. destruct (ci_held _ _ _ _ Hi y Hy) as [it' Hy']. by rewrite (proj1 (Hkeep y it' Hy')), Hy'.
  - intros y Hy. assert (y = x ∨ y ∈ G ++ P) as [->|Hy'] by set_solver.
    + by rewrite Eim, lookup_insert_eq.
    + destruct (ci_held _ _ _ _ Hi y Hy') as [it' Hy2]. exists it'. by apply Hkeep.
  - intros y. rewrite (ci_ilive _ _ _ _ Hi), Edst. simpl. rewrite Em, insert_insert_eq.
    rewrite lookup_insert_is_Some'. destruct (decide (y = x)) as [->|]; [|naive_solver].
    split; [naive_solver|]. intros _. by eexists.
Qed.
End store.

(** ** Allocating and releasing the item *)

Section alloc.
Context {AS IS PS : Type} `{Allocator AS} `{Allocator IS} `{Allocator PS}.
Implicit Types (st : sstore AS IS PS) (sv : ohc_server_t) (L : option Z) (G P l : list Z).

(** The items in memory, but for the one being allocated, are the same. *)
Lemma cache_inv_memory st m' sl L L' G P :
  cache_inv st L G P → let st' := set_dst (set_item_mem m' (dst st)) (set_islab sl st) in
  im st' L' = im st L → dev_inv (set_item_mem m' (dst st)) →
  (∀ x, L' = Some x → is_Some (m' !! x) ∧ detached (dst st) x) →
  al_ok sl → (∀ x, al_live sl x ↔ is_Some (m' !! x)) → cache_inv st' L' G P.
Proof.
  intros Hi st' Eim Hd Hl Hal Hlv. split; rewrite ?Eim; try done; try apply Hi.
  - intros x it Hx. destruct (ci_item _ _ _ _ Hi x it Hx) as [Hdv Hs]. by split.
  - intros i s sv Hr. destruct (ci_server _ _ _ _ Hi i s sv Hr). split; rewrite ?Eim; done.
  - intros i d dv Hr. rewrite (ci_dused _ _ _ _ Hi i d dv Hr). symmetry. apply holders_ext.
    intros. by rewrite Eim.
Qed.

Lemma item_alloc_spec st G P it :
  cache_inv st None G P →
  ∃ r sl, item_alloc st = Ret (r, set_islab sl st) ∧
    match r with
    | None => cache_inv (set_islab sl st) None G P
    | Some x => item_mem (dst st) !! x = None ∧
        cache_inv (set_dst (set_item_mem (<[x := it]> (item_mem (dst st))) (dst st)) (set_islab sl st))
          (Some x) G P
    end.
Proof.
  intros Hi. destruct (al_alloc_ok (islab st) (ci_ialloc _ _ _ _ Hi)) as (r & sl & E & Hal & Hlv).
  exists r, sl. split; [unfold item_alloc; by rewrite E|]. destruct r as [x|].
  - destruct Hlv as [Hx Hlv].
    assert (item_mem (dst st) !! x = None) as Hxn.
    { apply eq_None_not_Some. intros Hs. by apply Hx, (ci_ilive _ _ _ _ Hi). }
    assert (detached (dst st) x) as Hdet.
    { intros i d dv Hr Hin.
      destruct (do_nodes _ _ (di_dev _ (ci_dev _ _ _ _ Hi) _ _ _ Hr) _ Hin) as (? & ? & _). congruence. }
    split; [done|]. apply (cache_inv_memory st _ sl None); [done|..].
    + unfold im. simpl. by rewrite delete_insert_id.
    + apply dev_inv_item_mem; [apply Hi|]. intros i d dv y Hr Hin.
      destruct (do_nodes _ _ (di_dev _ (ci_dev _ _ _ _ Hi) _ _ _ Hr) _ Hin) as (it0 & E0 & _).
      exists it0, it0. rewrite lookup_insert_ne; [done|]. intros ->. congruence.
    + intros y [= <-]. rewrite lookup_insert_eq. done.
    + done.
    + intros y. rewrite Hlv, (ci_ilive _ _ _ _ Hi), lookup_insert_is_Some'. naive_solver.
  - assert (set_islab sl st = set_dst (set_item_mem (item_mem (dst st)) (dst st)) (set_islab sl st)) as ->.
    { destruct st as [ds]. by destruct ds. }
    apply (cache_inv_memory st _ sl None); [done|done| |done|done|].
    + replace (set_item_mem (item_mem (dst st)) (dst st)) with (dst st) by (by destruct (dst st)). apply Hi.
    + intros y. by rewrite Hlv, (ci_ilive _ _ _ _ Hi).
Qed.

Lemma item_free_spec st G P x :
  cache_inv st (Some x) G P →
  ∃ st', item_free x st = Ret (tt, st') ∧ cache_inv st' None G P ∧
    srvs st' = srvs st ∧ hids st' = hids st ∧ passbys st' = passbys st ∧
    dst st' = set_item_mem (delete x (item_mem (dst st))) (dst st) ∧ shrinks st st'.
Proof.
  intros Hi. destruct (ci_loose _ _ _ _ Hi x eq_refl) as [Hx Hdet].
  destruct (al_free_ok (islab st) x) as (sl & E & Hal & Hlv); [apply Hi|by apply (ci_ilive _ _ _ _ Hi)|].
  exists (set_dst (set_item_mem (delete x (item_mem (dst st))) (dst st)) (set_islab sl st)).
  split_and!; try done.
  - unfold item_free. by rewrite E.
  - apply (cache_inv_memory st _ sl (Some x)); try done.
    + apply dev_inv_del_item; [apply Hi|done].
    + intros y. rewrite Hlv, (ci_ilive _ _ _ _ Hi). split.
      * intros [? ?]. by rewrite lookup_delete_ne.
      * intros [it [? ?]%lookup_delete_Some]. split; [by eexists|done].
  - split; try done; simpl.
    + intros y it' [_ Hy]%lookup_delete_Some. eauto.
    + intros s sv Es. exists sv. split; [done|apply srv_shrinks_refl].
Qed.
End alloc.
