(* ===== verification/ServerHandlers.v ===== *)
(** * The request handlers

    GET, PUT, POST, DELETE and the end of a request keep the invariant, and do
    what they promise: a PUT enters the item under its id and makes the request
    hold it, a GET holds an item that is valid and stored under the id of its
    key, a DELETE leaves no entry under the id. *)

From Stdlib Require Import String.
From stdpp Require Import prelude fin_maps gmap.
From S2P Require Import Prelude IdxPointer StrUtil IpBucket Slab Hash Device DeviceInv DeviceOps.
From S2P Require Import Http Server ServerInv ServerOps ServerExpire ServerPut.

#[local] Arguments im : simpl never.

Section runs.
Context {AS IS PS : Type} `{Allocator AS} `{Allocator IS} `{Allocator PS}.
Context (MD5 : list Z → md5_id).
Implicit Types (st : sstore AS IS PS) (sv : ohc_server_t) (L : option Z) (G P l : list Z).

Lemma srv_hash_add_run c st s sv n id :
  srvs st !! s = Some sv → hash_inv (hids st) (s_hash sv) → n ∉ hash_nodes (s_hash sv) →
  ∃ h', srv_hash_add MD5 c s n id st =
      Ret (tt, set_srvs (<[s := set_s_hash h' sv]> (srvs st)) (set_hids (<[n := id]> (hids st)) st)) ∧
    hash_inv (<[n := id]> (hids st)) h' ∧ hash_nodes h' ≡ₚ n :: hash_nodes (s_hash sv).
Proof.
  intros Es Hh Hn. set (m := <[n := id]> (hids st)).
  assert (hash_inv m (s_hash sv)) as Hm.
  { apply (hash_inv_ext (hids st)); [|done]. intros y Hy. apply lookup_insert_ne. by intros ->. }
  destruct (hash_add_spec MD5 c m (s_hash sv) n None Hm Hn) as (m' & h' & E & -> & Hh' & En).
  { intros _. unfold m. rewrite lookup_insert_eq. done. }
  exists h'. split_and!; [|done..]. unfold srv_hash_add.
  erewrite bind_ret; [|reflexivity].
  erewrite bind_ret; [|by apply load_srv_run]. erewrite bind_ret; [|reflexivity].
  erewrite bind_ret; [|apply out_run; exact E]. erewrite bind_ret; [|reflexivity].
  rewrite (upd_srv_run _ s (set_s_hash h') sv) by done. reflexivity.
Qed.

Lemma lru_add_run st s sv x :
  srvs st !! s = Some sv →
  lru_add s x st = Ret (tt, set_shared_lru_head
      (if s_capacity sv =? 0 then x :: shared_lru_head st else shared_lru_head st)
      (set_srvs (<[s := if s_capacity sv =? 0 then sv else set_s_lru_head (x :: s_lru_head sv) sv]> (srvs st)) st)).
Proof.
  intros Es. unfold lru_add. erewrite bind_ret; [|by apply load_srv_run].
  destruct (s_capacity sv =? 0).
  - unfold modify. rewrite insert_id by done. by destruct st.
  - rewrite (upd_srv_run _ _ _ _ Es). by destruct st.
Qed.

Lemma upd_dev_used_run st d dv (f : ohc_device_t → ohc_device_t) :
  devs (dst st) !! d = Some dv →
  lift (upd_dev d f) st = Ret (tt, set_dst (set_devs (<[d := f dv]> (devs (dst st))) (dst st)) st).
Proof. intros E. apply lift_run. by apply upd_dev_run. Qed.

Lemma index_range st L G P s sv : cache_inv st L G P → srvs st !! s = Some sv → i16 (s_index sv) = s_index sv.
Proof.
  intros Hi Es. destruct (ci_table _ _ _ _ Hi (s_index sv) s) as [Hr _]; [by apply (ci_srv_reg _ _ _ _ Hi)|].
  unfold IPT_ARRAY_SIZE in Hr. apply swrap_small; lia.
Qed.
End runs.

Section put.
Context {AS IS PS : Type} `{Allocator AS} `{Allocator IS} `{Allocator PS}.
Context (MD5 : list Z → md5_id) (kmalloc : dstore AS → option Z).
Context (Hkm : ∀ ds a, kmalloc ds = Some a → devs ds !! a = None).
Implicit Types (st : sstore AS IS PS) (sv : ohc_server_t) (L : option Z) (G P l : list Z).

(** The item of the request, as stored. *)
Record stored st st' (s x : Z) (id : md5_id) (r : ohc_request_t) : Prop := {
  sd_item : ∃ it sv, item_mem (dst st') !! x = Some it ∧ srvs st' !! s = Some sv ∧
    it_length it = q_content_length (r_h r) + q_put_header_length (r_h r) ∧
    it_expire it = i32 (q_expire (r_h r)) ∧ it_clear it = s_clear sv ∧
    it_server_index it = s_index sv ∧ it_putting it = true ∧ it_deleted it = false ∧
    NItem x ∈ hash_nodes (s_hash sv);
  sd_dev : ∃ it d dv, item_mem (dst st') !! x = Some it ∧
    registered (dst st') (it_device_index it) d dv ∧ d_deleted dv = false;
  sd_id : hids st' !! NItem x = Some id;
  sd_others : ∀ y it', y ≠ x → item_mem (dst st') !! y = Some it' →
    ∃ it, item_mem (dst st) !! y = Some it ∧ (it' = it ∨ it' = set_it_deleted true it);
  sd_now : master_now st' = master_now st
}.

Definition put_fields (sv : ohc_server_t) (r : ohc_request_t) (it : ohc_item_t) : ohc_item_t :=
  set_it_putting true (set_it_badblock false (set_it_deleted false (set_it_used 0
    (set_it_clear (s_clear sv) (set_it_expire (i32 (q_expire (r_h r)))
      (set_it_server_index (i16 (s_index sv)) it)))))).

(** What follows a successful allocation. *)
Definition put_finish (c : bool) (id : md5_id) (r : ohc_request_t) (x length block_size : Z) :
    M (sstore AS IS PS) (ohc_rc * ohc_request_t) :=
  let s := r_server r in
  sv ← load_srv s;
  lift (upd_item x (put_fields sv r));;
  srv_hash_add MD5 c s (NItem x) id;;
  lru_add s x;;
  upd_srv s (λ sv, bump inc_stores (set_s_item_nr (s_item_nr sv + 1)
    (set_s_content (u64 (s_content sv + length))
      (set_s_consumed (u64 (s_consumed sv + block_size)) sv))));;
  d ← lift (device_of_item x);
  lift (upd_dev d (λ dv, set_d_used (d_used dv + 1) dv));;
  mret (OHC_OK, set_r_item (Some x) r).

Lemma put_finish_spec c id r x st ds' it1 d sv G P :
  cache_inv st (Some x) G P → srvs st !! r_server r = Some sv →
  item_mem (dst st) !! x = Some it1 → dev_inv ds' → got_block (dst st) ds' x it1 d →
  (∀ n, n ∈ hash_nodes (s_hash sv) → hids st !! n ≠ Some id) →
  ∃ st' it, put_finish c id r x (it_length it1) (ipbucket_block_size (it_length it1)) (set_dst ds' st)
      = Ret (OHC_OK, set_r_item (Some x) r, st') ∧
    cache_inv st' None G (x :: P) ∧
    item_mem (dst st') = <[x := it]> (item_mem (dst st)) ∧
    it_length it = it_length it1 ∧ it_expire it = i32 (q_expire (r_h r)) ∧ it_clear it = s_clear sv ∧
    it_server_index it = s_index sv ∧ it_putting it = true ∧ it_deleted it = false ∧
    hids st' !! NItem x = Some id ∧ master_now st' = master_now st ∧
    (∃ d dv, registered (dst st') (it_device_index it) d dv ∧ d_deleted dv = false) ∧
    ∃ sv', srvs st' !! r_server r = Some sv' ∧ s_index sv' = s_index sv ∧ s_clear sv' = s_clear sv ∧
      NItem x ∈ hash_nodes (s_hash sv').
Proof.
  intros Hi Es Hx1 Hd' Hg Hid. set (s := r_server r) in *.
  pose proof (sreg_lookup _ _ _ _ _ _ Hi Es) as Hr. pose proof (ci_server _ _ _ _ Hi _ _ _ Hr) as Hso.
  pose proof Hg as [(a & fb & dv0 & _ & _ & Hr0 & Hdel & _ & Em) Hst].
  pose proof Hst as (Et & _). pose proof Hr0 as (Ei0 & _).
  set (it2 := set_it_device_index _ _) in Em.
  assert (item_mem ds' !! x = Some it2) as Hx2 by (rewrite Em; apply lookup_insert_eq).
  destruct (di_table ds' Hd' (fb_device_index fb) d) as (_ & dv & Edv & Eix); [by rewrite Et|].
  assert (registered ds' (fb_device_index fb) d dv) as Hrd by (split_and!; [by rewrite Et|done..]).
  assert (d_deleted dv = false) as Hdel'.
  { destruct (dev_step_registered _ _ _ _ _ _ Hst Hrd) as (dv1 & (_ & E1 & _) & -> & _).
    destruct Hr0 as (_ & E0 & _). congruence. }
  assert (NItem x ∉ hash_nodes (s_hash sv)) as Hnx.
  { intros Hin. destruct (so_items _ _ _ _ Hso x Hin) as (? & E & _). unfold im in E. by rewrite lookup_delete_eq in E. }
  set (itf := put_fields sv r it2).
  set (stA := set_dst (set_item_mem (<[x := itf]> (item_mem ds')) ds') st).
  destruct (srv_hash_add_run MD5 c stA s sv (NItem x) id) as (h' & Eh & Hh & En); [done|apply Hso|done|].
  eexists _, itf. split.
  { unfold put_finish. fold s. erewrite bind_ret; [|by apply load_srv_run].
    erewrite bind_ret; [|apply lift_run; by apply upd_item_run].
    change (set_dst _ (set_dst ds' st)) with stA.
    erewrite bind_ret; [|exact Eh].
    erewrite bind_ret; [|apply lru_add_run; apply lookup_insert_eq].
    erewrite bind_ret; [|apply upd_srv_run; simpl; apply lookup_insert_eq].
    erewrite bind_ret; [|apply (device_of_item_run _ x itf d); simpl; [apply lookup_insert_eq|by rewrite Et]].
    erewrite bind_ret; [|apply (upd_dev_used_run _ d dv); simpl; exact Edv]. reflexivity. }
  cbn [srvs set_srvs set_dst set_shared_lru_head set_hids stA dst set_item_mem set_devs devs item_mem]. rewrite !insert_insert_eq.
  match goal with |- cache_inv ?s _ _ _ ∧ _ => set (st' := s) end.
  assert (servers_by (store_srv s x h' itf inc_stores) st st') as Hby.
  { split_and!; [done| |].
    - intros s2. unfold st', store_srv. simpl. destruct (decide (s2 = s)) as [->|Hne].
      + rewrite lookup_insert_eq, Es. simpl. by destruct (s_capacity sv =? 0).
      + rewrite lookup_insert_ne by done. by destruct (srvs st !! s2).
    - intros s2 sv2 _. unfold store_srv. destruct (decide (s2 = s)); [|done]. simpl. by destruct (s_capacity sv2 =? 0). }
  split_and!; try done.
  - eapply (cache_inv_store st st' ds' G P x it1 itf inc_stores s sv h' id d); try done.
    + by exists it2.
    + unfold itf. simpl. rewrite (index_range st (Some x) G P s sv); done.
    + by exists dv.
  - simpl. by rewrite Em, insert_insert_eq.
  - unfold itf. simpl. by rewrite (index_range st (Some x) G P s sv).
  - simpl. by rewrite lookup_insert_eq.
  - exists d, (set_d_used (d_used dv + 1) dv). split; [|done]. apply (registered_used _ _ _ _ _ _ _ _ Hrd).
    exists dv. split; [done|]. by rewrite decide_True.
  - destruct Hby as (_ & Hs & _). rewrite Hs, Es. eexists. split; [reflexivity|].
    unfold store_srv. rewrite decide_True by done. destruct (s_capacity sv =? 0); simpl; rewrite En;
      split_and!; try done; apply list_elem_of_here.
Qed.

Lemma put_store_spec c id r st sv G P :
  cache_inv st None G P → srvs st !! r_server r = Some sv →
  0 < q_content_length (r_h r) + q_put_header_length (r_h r) < 2 ^ 32 →
  (∀ n, n ∈ hash_nodes (s_hash sv) → hids st !! n ≠ Some id) →
  ∃ rc r' st', put_store MD5 kmalloc c id r st = Ret (rc, r', st') ∧
    (rc = OHC_ERROR ∧ cache_inv st' None G P ∧ shrinks st st' ∧ r_item r' = r_item r ∨
     rc = OHC_OK ∧ ∃ x, r' = set_r_item (Some x) r ∧ cache_inv st' None G (x :: P) ∧
       stored st st' (r_server r) x id r).
Proof.
  intros Hi Es Hlen Hid. set (len := q_content_length (r_h r) + q_put_header_length (r_h r)) in *.
  assert (u32 len = len) as Elen by (apply wrap_small; lia).
  set (it := Item len 0 0 false false false 0 0 (u16 (q_put_header_length (r_h r))) 0 0).
  destruct (item_alloc_spec st G P it Hi) as (o & sl & Ea & Ho). unfold put_store.
  erewrite bind_ret; [|exact Ea]. destruct o as [x|].
  2:{ exists OHC_ERROR, r, (set_islab sl st). split; [done|]. left. split_and!; try done.
      split; try done; [eauto|]. intros s2 sv2 Es2. exists sv2. split; [done|apply srv_shrinks_refl]. }
  destruct Ho as [Hxn Hi0]. fold len. rewrite Elen. fold it.
  set (st0 := set_dst _ _) in Hi0. cbv zeta. erewrite bind_ret; [|reflexivity].
  change (set_dst _ (set_islab sl st)) with st0.
  assert (item_mem (dst st0) !! x = Some it) as Hx0 by apply lookup_insert_eq.
  assert (∀ y it', y ≠ x → item_mem (dst st0) !! y = Some it' → item_mem (dst st) !! y = Some it') as Hold.
  { intros y it' Hne. unfold st0. simpl. by rewrite lookup_insert_ne. }
  destruct (put_alloc_spec kmalloc Hkm 14 (r_server r) x 0 st0 G P it sv Hi0 Es Hx0) as (b & st1 & E & Hcase); [done|lia|lia|].
  erewrite bind_ret; [|exact E].
  destruct Hcase as [(-> & Hi1 & Hsh)|(-> & Hb & st2 & ds' & it1 & d & Hi2 & Hsh & Hx1 & El & Hd' & Hg & ->)].
  - cbn [Z.eqb]. destruct (item_free_spec st1 G P x Hi1) as (st' & Ef & Hi' & _ & _ & _ & Edst & Hsh').
    erewrite bind_ret; [|exact Ef]. eexists _, _, st'. split; [reflexivity|]. left. split_and!; try done.
    assert (shrinks st0 st') as Hs by (by eapply shrinks_trans). destruct Hs.
    split; try done. intros y it' Hy. destruct (sh_items y it' Hy) as (it0 & Hy0 & Hc).
    exists it0. split; [|done]. apply Hold; [|done]. intros ->. rewrite Edst in Hy. simpl in Hy.
    by rewrite lookup_delete_eq in Hy.
  - rewrite (proj2 (Z.eqb_neq _ 0)) by lia.
    destruct (sh_srvs _ _ Hsh (r_server r) sv Es) as (sv2 & Es2 & Hss).
    destruct (put_finish_spec c id r x st2 ds' it1 d sv2 G P Hi2 Es2 Hx1 Hd' Hg)
      as (st' & itf & Ef & Hi' & Em & F1 & F2 & F3 & F4 & F5 & F6 & F7 & F8 & F12 & sv' & Es' & F9 & F10 & F11).
    { destruct Hss as (? & ? & ? & ? & ? & ? & ? & -> & _ & Hn & _). intros n Hn'%Hn.
      rewrite (sh_hids _ _ Hsh). by apply Hid. }
    rewrite El in Ef. exists OHC_OK, (set_r_item (Some x) r), st'. split; [exact Ef|]. right. split; [done|].
    exists x. split_and!; [done..|]. split; try done.
    + exists itf, sv'. rewrite Em, lookup_insert_eq.
      split_and!; try done; first [by rewrite F1, El|congruence].
    + exists itf. rewrite Em, lookup_insert_eq. naive_solver.
    + intros y it' Hne. rewrite Em, lookup_insert_ne by done. intros Hy.
      destruct (sh_items _ _ Hsh y it' Hy) as (it0 & Hy0 & Hc). eauto.
    + by rewrite F8, (sh_now _ _ Hsh).
Qed.
End put.

(** ** Changes to one server that the invariant does not see *)

Section same.
Context {AS IS PS : Type} `{Allocator AS} `{Allocator IS} `{Allocator PS}.
Context (MD5 : list Z → md5_id).
Implicit Types (st : sstore AS IS PS) (sv : ohc_server_t) (L : option Z) (G P l : list Z).

Record srv_same (m : gmap snode md5_id) sv sv' : Prop := {
  ss_lru : s_lru_head sv' = s_lru_head sv;
  ss_passby : s_passby_lru_head sv' ≡ₚ s_passby_lru_head sv;
  ss_passby_nr : s_passby_item_nr sv' = s_passby_item_nr sv;
  ss_item_nr : s_item_nr sv' = s_item_nr sv;
  ss_content : s_content sv' = s_content sv;
  ss_consumed : s_consumed sv' = s_consumed sv;
  ss_index : s_index sv' = s_index sv;
  ss_hash : hash_inv m (s_hash sv') ∧ hash_nodes (s_hash sv') ≡ₚ hash_nodes (s_hash sv)
}.

Definition replace_srv (s : Z) sv' (s2 : Z) sv : ohc_server_t := if decide (s2 = s) then sv' else sv.

Lemma replace_srv_by st s sv sv' :
  srvs st !! s = Some sv → s_index sv' = s_index sv →
  servers_by (replace_srv s sv') st (set_srvs (<[s := sv']> (srvs st)) st).
Proof.
  intros Es Ei. unfold replace_srv. split_and!; [done| |].
  - intros s2. simpl. destruct (decide (s2 = s)) as [->|Hne].
    + by rewrite lookup_insert_eq, Es.
    + rewrite lookup_insert_ne by done. by destruct (srvs st !! s2).
  - intros s2 sv2 Es2. destruct (decide (s2 = s)) as [->|]; [|done]. congruence.
Qed.

Lemma cache_inv_srv_same st s sv sv' L G P :
  cache_inv st L G P → srvs st !! s = Some sv → srv_same (hids st) sv sv' →
  cache_inv (set_srvs (<[s := sv']> (srvs st)) st) L G P.
Proof.
  intros Hi Es [El Ep Epn En Ec Eco Ei [Hh Ehn]].
  pose proof (replace_srv_by st s sv sv' Es Ei) as Hby. set (st' := set_srvs _ _) in *.
  assert (∀ i s2 sv2, sreg st i s2 sv2 → s2 = s → sv2 = sv) as Hsv.
  { intros i s2 sv2 (_ & E2 & _) ->. congruence. }
  apply (cache_inv_servers st st' L G P _ Hi Hby); try done; try apply Hi.
  - intros x it Hx. apply (item_ok_servers st st' (replace_srv s sv')); [by apply Hi|done..|].
    intros s2 sv2 Hr2. unfold replace_srv. destruct (decide (s2 = s)) as [E2|]; [|done].
    rewrite (Hsv _ _ _ Hr2 E2), El, Ehn. done.
  - intros i s2 sv2 Hr2. pose proof (ci_server _ _ _ _ Hi _ _ _ Hr2) as Hso.
    unfold replace_srv. destruct (decide (s2 = s)) as [E2|]; [|by destruct Hso; split].
    rewrite (Hsv _ _ _ Hr2 E2) in Hso. destruct Hso.
    split; rewrite ?El, ?Epn, ?En, ?Ec, ?Eco, ?Ei, ?Ep; try done.
    + intros n n' id. rewrite !Ehn. by apply so_ids.
    + intros x. rewrite Ehn. by apply so_items.
    + intros p. by rewrite Ehn, Ep.
    + intros p. rewrite Ep. by apply so_passby_mem.
  - assert (∀ i s2 sv2 p, sreg st i s2 sv2 → p ∈ s_passby_lru_head (replace_srv s sv' s2 sv2) →
      p ∈ s_passby_lru_head sv2) as Hpp.
    { intros i s2 sv2 p Hr2. unfold replace_srv. destruct (decide (s2 = s)) as [E2|]; [|done].
      by rewrite (Hsv _ _ _ Hr2 E2), Ep. }
    intros i s2 sv2 j s3 sv3 p Hr2 Hr3 Hp2 Hp3.
    apply (ci_passby_one _ _ _ _ Hi i s2 sv2 j s3 sv3 p Hr2 Hr3); by eapply Hpp.
Qed.

Lemma srv_same_bump m sv f : hash_inv m (s_hash sv) → srv_same m sv (bump f sv).
Proof. by split. Qed.

(** [upd_srv] of the statistics. *)
Lemma bump_spec st s sv f L G P :
  cache_inv st L G P → srvs st !! s = Some sv →
  ∃ st', upd_srv s (bump f) st = Ret (tt, st') ∧ cache_inv st' L G P ∧
    st' = set_srvs (<[s := bump f sv]> (srvs st)) st.
Proof.
  intros Hi Es. eexists. split; [by apply upd_srv_run|]. split; [|done].
  eapply cache_inv_srv_same; [done..|]. apply srv_same_bump.
  apply (ci_server _ _ _ _ Hi _ _ _ (sreg_lookup _ _ _ _ _ _ Hi Es)).
Qed.

(** Looking a request's key up. *)
Lemma server_hash_get_spec c r st sv key r1 L G P :
  cache_inv st L G P → srvs st !! r_server r = Some sv → server_key sv r = Ret (key, r1) →
  ∃ o h' st', server_hash_get MD5 c r st = Ret (o, MD5 key, r1, st') ∧ cache_inv st' L G P ∧
    st' = set_srvs (<[r_server r := set_s_hash h' sv]> (srvs st)) st ∧
    hash_nodes h' ≡ₚ hash_nodes (s_hash sv) ∧
    match o with
    | Some n => n ∈ hash_nodes (s_hash sv) ∧ hids st !! n = Some (MD5 key)
    | None => ∀ n, n ∈ hash_nodes (s_hash sv) → hids st !! n ≠ Some (MD5 key)
    end.
Proof.
  intros Hi Es Ek. pose proof (ci_server _ _ _ _ Hi _ _ _ (sreg_lookup _ _ _ _ _ _ Hi Es)) as Hso.
  destruct (hash_get_spec MD5 c (hids st) (s_hash sv) key (so_hash _ _ _ _ Hso)) as (o & h' & E & Hh & En & Ho).
  exists o, h'. eexists. split.
  { unfold server_hash_get. erewrite bind_ret; [|by apply load_srv_run].
    erewrite bind_ret; [|by apply out_run]. unfold srv_hash_get.
    erewrite bind_ret;
      [|erewrite bind_ret; [|by apply load_srv_run]; erewrite bind_ret; [|reflexivity];
        erewrite bind_ret; [|apply out_run; exact E]; erewrite bind_ret; [|by apply upd_srv_run]; reflexivity].
    reflexivity. }
  split_and!; [|done..]. eapply cache_inv_srv_same; [done..|]. by split.
Qed.
End same.

(** ** No entry under an id *)

Section entries.
Context {AS IS PS : Type} `{Allocator AS} `{Allocator IS} `{Allocator PS}.
Context (MD5 : list Z → md5_id) (kmalloc : dstore AS → option Z).
Context (Hkm : ∀ ds a, kmalloc ds = Some a → devs ds !! a = None).
Implicit Types (st : sstore AS IS PS) (sv : ohc_server_t) (L : option Z) (G P l : list Z).

Definition no_entry st (s : Z) (id : md5_id) : Prop :=
  ∀ sv n, srvs st !! s = Some sv → n ∈ hash_nodes (s_hash sv) → hids st !! n ≠ Some id.

(** The item that server [s] holds under [id] goes. *)
Lemma item_entry_delete st L G P s sv x id :
  cache_inv st L G P → srvs st !! s = Some sv → NItem x ∈ hash_nodes (s_hash sv) →
  hids st !! NItem x = Some id →
  ∃ st' sv', server_item_delete kmalloc x st = Ret (tt, st') ∧ cache_inv st' L G P ∧ item_gone st st' x ∧
    srvs st' !! s = Some sv' ∧ srv_shrinks sv sv' ∧ no_entry st' s id.
Proof.
  intros Hi Es Hin Hid. pose proof (sreg_lookup _ _ _ _ _ _ Hi Es) as Hr.
  pose proof (ci_server _ _ _ _ Hi _ _ _ Hr) as Hso.
  destruct (so_items _ _ _ _ Hso x Hin) as (it & Hx & Eix).
  destruct (server_item_delete_spec kmalloc Hkm st L G P x it Hi Hx) as (st' & E & Hi' & Hg & Hx').
  pose proof (proj1 Hg) as Hsh. destruct (sh_srvs _ _ Hsh s sv Es) as (sv' & Es' & Hss).
  exists st', sv'. split_and!; try done. intros sv2 n Es2 Hn Hn'. rewrite Es' in Es2. injection Es2 as <-.
  pose proof Hss as (? & h & ? & ? & ? & ? & ? & -> & _ & Hsub & _). simpl in Hn.
  rewrite (sh_hids _ _ Hsh) in Hn'.
  assert (n = NItem x) as -> by (apply (so_ids _ _ _ _ Hso _ _ id); auto).
  pose proof (sreg_lookup _ _ _ _ _ _ Hi' Es') as Hr'.
  destruct (so_items _ _ _ _ (ci_server _ _ _ _ Hi' _ _ _ Hr') x Hn) as (it' & Hx2 & Eix').
  destruct (im_lookup _ _ _ _ Hx2) as [Hx2m _]. rewrite Hx' in Hx2m.
  destruct (decide (x ∈ G ++ P)); [|done]. injection Hx2m as <-.
  destruct (io_srv _ _ _ (ci_item _ _ _ _ Hi' x _ Hx2)) as (s3 & sv3 & Hr3 & Hdel & _).
  rewrite Eix' in Hr3. destruct (sreg_inj _ _ _ _ _ _ Hr' Hr3) as [-> <-].
  apply Hdel in Hn. done.
Qed.

Lemma passby_entry_delete st L G P s sv p id :
  cache_inv st L G P → srvs st !! s = Some sv → NPassby p ∈ hash_nodes (s_hash sv) →
  hids st !! NPassby p = Some id →
  ∃ st' sv', server_passby_item_delete s p st = Ret (tt, st') ∧ cache_inv st' L G P ∧ shrinks st st' ∧
    dst st' = dst st ∧ srvs st' !! s = Some sv' ∧ srv_shrinks sv sv' ∧ no_entry st' s id.
Proof.
  intros Hi Es Hin Hid. pose proof (sreg_lookup _ _ _ _ _ _ Hi Es) as Hr.
  pose proof (ci_server _ _ _ _ Hi _ _ _ Hr) as Hso.
  apply (so_passbys _ _ _ _ Hso) in Hin as Hp.
  destruct (server_passby_item_delete_spec st L G P s sv p Hi Es Hp)
    as (st' & h' & E & Hi' & Hsh & Ed & _ & _ & Es' & En).
  destruct (sh_srvs _ _ Hsh s sv Es) as (sv' & Es2 & Hss).
  exists st', sv'. split_and!; try done. intros sv2 n Es3 Hn Hn'.
  rewrite Es', lookup_insert_eq in Es3. injection Es3 as <-. unfold drop_passby in Hn.
  rewrite decide_True in Hn by done. simpl in Hn. rewrite En, elem_of_list_remove_one in Hn.
  destruct Hn as [Hn Hne]. apply Hne. rewrite (sh_hids _ _ Hsh) in Hn'.
  by apply (so_ids _ _ _ _ Hso _ _ id).
Qed.

(** ** DELETE *)

Lemma server_request_delete_spec c r st sv key r1 G P :
  cache_inv st None G P → srvs st !! r_server r = Some sv → server_key sv r = Ret (key, r1) →
  ∃ rc st', server_request_delete_handler MD5 kmalloc c r st = Ret (rc, r1, st') ∧
    cache_inv st' None G P ∧ no_entry st' (r_server r) (MD5 key) ∧
    (rc = OHC_OK ∧ (∃ n, n ∈ hash_nodes (s_hash sv) ∧ hids st !! n = Some (MD5 key)) ∨
     rc = OHC_ERROR ∧ no_entry st (r_server r) (MD5 key)).
Proof.
  intros Hi Es Ek. set (s := r_server r) in *. unfold server_request_delete_handler. fold s.
  destruct (bump_spec st s sv inc_deletes None G P Hi Es) as (st1 & E1 & Hi1 & Est1).
  erewrite bind_ret; [|exact E1].
  assert (srvs st1 !! s = Some (bump inc_deletes sv)) as Es1 by (rewrite Est1; apply lookup_insert_eq).
  destruct (server_hash_get_spec MD5 c r st1 (bump inc_deletes sv) key r1 None G P Hi1 Es1 Ek)
    as (o & h' & st2 & E2 & Hi2 & Est2 & En & Ho). fold s in Est2.
  erewrite bind_ret; [|exact E2]. cbn [fst snd].
  assert (hids st1 = hids st ∧ hids st2 = hids st1) as [Eh1 Eh2] by (by rewrite Est2, Est1).
  assert (srvs st2 !! s = Some (set_s_hash h' (bump inc_deletes sv))) as Es2 by (rewrite Est2; apply lookup_insert_eq).
  destruct o as [[x|p]|].
  - destruct Ho as [Hin Hid].
    destruct (item_entry_delete st2 None G P s _ x (MD5 key) Hi2 Es2) as (st' & sv' & E3 & Hi' & _ & _ & _ & Hno);
      [by simpl; rewrite En|by rewrite Eh2|].
    erewrite bind_ret; [|exact E3]. exists OHC_OK, st'. split_and!; try done. left. split; [done|].
    exists (NItem x). by rewrite <- Eh1.
  - destruct Ho as [Hin Hid].
    destruct (passby_entry_delete st2 None G P s _ p (MD5 key) Hi2 Es2) as (st' & sv' & E3 & Hi' & _ & _ & _ & _ & Hno);
      [by simpl; rewrite En|by rewrite Eh2|].
    erewrite bind_ret; [|exact E3]. exists OHC_OK, st'. split_and!; try done. left. split; [done|].
    exists (NPassby p). by rewrite <- Eh1.
  - exists OHC_ERROR, st2. split_and!; try done.
    + intros sv2 n Esx Hn. rewrite Es2 in Esx. injection Esx as <-. simpl in Hn. rewrite En in Hn.
      rewrite Eh2. by apply Ho.
    + right. split; [done|]. intros sv2 n Esx Hn. fold s in Esx. rewrite Es in Esx. injection Esx as <-.
      rewrite <- Eh1. by apply Ho.
Qed.
End entries.

(** ** PUT and POST *)

Section put_handler.
Context {AS IS PS : Type} `{Allocator AS} `{Allocator IS} `{Allocator PS}.
Context (MD5 : list Z → md5_id) (kmalloc : dstore AS → option Z).
Context (Hkm : ∀ ds a, kmalloc ds = Some a → devs ds !! a = None).
Implicit Types (st : sstore AS IS PS) (sv : ohc_server_t) (L : option Z) (G P l : list Z).

(** The server at [s] takes passby item [p]. *)
Definition take_passby (p : Z) (h' : ohc_hash_t snode) sv : ohc_server_t :=
  bump inc_passby_stores (set_s_passby_item_nr (s_passby_item_nr sv + 1)
    (set_s_passby_lru_head (p :: s_passby_lru_head sv) (set_s_hash h' sv))).

Lemma cache_inv_passby st st' L G P s sv p h' id pb pl :
  cache_inv st L G P → srvs st !! s = Some sv → passbys st !! p = None →
  st' = set_srvs (<[s := take_passby p h' sv]> (srvs st))
          (set_hids (<[NPassby p := id]> (hids st)) (set_passbys (<[p := pb]> (passbys st)) (set_pslab pl st))) →
  hash_inv (hids st') h' → hash_nodes h' ≡ₚ NPassby p :: hash_nodes (s_hash sv) → no_entry st s id →
  al_ok pl → (∀ q, al_live pl q ↔ q = p ∨ al_live (pslab st) q) →
  cache_inv st' L G P.
Proof.
  intros Hi Es Hp -> Hh En Hno Hal Hlv. set (st' := set_srvs _ _) in *.
  assert (servers_by (replace_srv s (take_passby p h' sv)) st st') as Hby.
  { destruct (replace_srv_by st s sv (take_passby p h' sv)) as (? & ? & ?); [done..|]. by split_and!. }
  assert (∀ s3 sv3 j, sreg st j s3 sv3 → p ∉ s_passby_lru_head sv3) as Hnp.
  { intros s3 sv3 j Hr3 Hin. destruct (so_passby_mem _ _ _ _ (ci_server _ _ _ _ Hi _ _ _ Hr3) p Hin). congruence. }
  assert (∀ s3 sv3 j n, sreg st j s3 sv3 → n ∈ hash_nodes (s_hash sv3) → hids st' !! n = hids st !! n) as Hhid.
  { intros s3 sv3 j n Hr3 Hn. simpl. rewrite lookup_insert_ne; [done|]. intros <-.
    apply (so_passbys _ _ _ _ (ci_server _ _ _ _ Hi _ _ _ Hr3)) in Hn. by eapply Hnp. }
  assert (∀ i s2 sv2, sreg st i s2 sv2 → s2 = s → sv2 = sv) as Hsv.
  { intros i s2 sv2 (_ & E2 & _) ->. congruence. }
  pose proof (sreg_lookup _ _ _ _ _ _ Hi Es) as Hr.
  assert (∀ q, q ∈ s_passby_lru_head sv → is_Some (passbys st' !! q)) as Hmem.
  { intros q Hq. simpl. rewrite lookup_insert_is_Some'. right.
    by apply (so_passby_mem _ _ _ _ (ci_server _ _ _ _ Hi _ _ _ Hr)). }
  apply (cache_inv_servers st st' L G P _ Hi Hby); try done; try apply Hi.
  - intros x it Hx. apply (item_ok_servers st st' (replace_srv s (take_passby p h' sv))); [by apply Hi|done..|].
    intros s2 sv2 Hr2. unfold replace_srv. destruct (decide (s2 = s)) as [E2|]; [|done].
    rewrite (Hsv _ _ _ Hr2 E2). simpl. rewrite En, elem_of_cons. split; [naive_solver|done].
  - intros i s2 sv2 Hr2. pose proof (ci_server _ _ _ _ Hi _ _ _ Hr2) as Hso.
    unfold replace_srv. destruct (decide (s2 = s)) as [E2|Hne2].
    + rewrite (Hsv _ _ _ Hr2 E2) in *.
      assert (∀ n, n ∈ hash_nodes (s_hash sv) → hids st !! n ≠ Some id) as Hno' by (intros n; by apply Hno).
      assert (hids st' !! NPassby p = Some id) as Eid by (simpl; by rewrite lookup_insert_eq).
      destruct Hso. split; simpl; try done.
      * intros n n' id0. rewrite En, !elem_of_cons. intros [->|Hn] [->|Hn']; [done|..].
        -- intros E3 E4. rewrite lookup_insert_eq in E3. injection E3 as <-.
           rewrite lookup_insert_ne in E4; [by destruct (Hno' n' Hn')|].
           intros <-. by apply so_passbys, (Hnp _ _ _ Hr) in Hn'.
        -- intros E3 E4. rewrite lookup_insert_eq in E4. injection E4 as <-.
           rewrite lookup_insert_ne in E3; [by destruct (Hno' n Hn)|].
           intros <-. by apply so_passbys, (Hnp _ _ _ Hr) in Hn.
        -- intros E3 E4. apply (so_ids n n' id0); [done..|by rewrite <- (Hhid _ _ _ _ Hr Hn)|by rewrite <- (Hhid _ _ _ _ Hr Hn')].
      * intros x. rewrite En, elem_of_cons. intros [?|?]; [done|]. by apply so_items.
      * intros q. rewrite En, !elem_of_cons, so_passbys. naive_solver.
      * intros q [->|Hq]%elem_of_cons; [by rewrite lookup_insert_eq|by apply Hmem].
      * apply NoDup_cons. split; [|done]. by apply (Hnp _ _ _ Hr).
      * rewrite so_passby_nr. lia.
    + destruct Hso. split; try done.
      * apply (hash_inv_ext (hids st)); [|done]. intros n. by apply (Hhid s2 sv2 i).
      * intros n n' id0 Hn Hn'. rewrite !(Hhid s2 sv2 i) by done. by apply so_ids.
      * intros q Hq. simpl. rewrite lookup_insert_is_Some'. right. by apply so_passby_mem.
  - assert (∀ i s2 sv2 q, sreg st i s2 sv2 → q ∈ s_passby_lru_head (replace_srv s (take_passby p h' sv) s2 sv2) →
      q ∈ s_passby_lru_head sv2 ∨ q = p ∧ i = s_index sv) as Hpp.
    { intros i s2 sv2 q Hr2. unfold replace_srv. destruct (decide (s2 = s)) as [E2|]; [|by left].
      rewrite (Hsv _ _ _ Hr2 E2). simpl. intros [->|?]%elem_of_cons; [|by left]. right. split; [done|].
      rewrite <- (Hsv _ _ _ Hr2 E2). symmetry. apply Hr2. }
    intros i s2 sv2 j s3 sv3 q Hr2 Hr3 Hp2 Hp3.
    destruct (Hpp _ _ _ _ Hr2 Hp2) as [H2|[-> ->]], (Hpp _ _ _ _ Hr3 Hp3) as [H3|[E3 ->]]; try done.
    + by apply (ci_passby_one _ _ _ _ Hi i s2 sv2 j s3 sv3 q).
    + subst q. by apply (Hnp _ _ _ Hr2) in H2.
    + by apply (Hnp _ _ _ Hr3) in H3.
  - intros q. simpl. rewrite Hlv, (ci_plive _ _ _ _ Hi), lookup_insert_is_Some'. naive_solver.
Qed.

Lemma server_passby_store_spec c s id st sv L G P :
  cache_inv st L G P → srvs st !! s = Some sv → no_entry st s id →
  ∃ rc st', server_passby_store MD5 c s id st = Ret (rc, st') ∧ cache_inv st' L G P ∧ dst st' = dst st ∧
    (rc = OHC_OK ∨ rc ≠ OHC_OK ∧ srvs st' = srvs st ∧ shrinks st st').
Proof.
  intros Hi Es Hno. unfold server_passby_store. erewrite bind_ret; [|by apply load_srv_run].
  destruct (negb (s_passby_enable sv) || _ || _).
  { exists OHC_DECLINE, st. split_and!; try done. right. split_and!; [done..|apply shrinks_refl]. }
  destruct (al_alloc_ok (pslab st) (ci_palloc _ _ _ _ Hi)) as (o & pl & Ea & Hal & Hlv).
  erewrite bind_ret; [|unfold passby_alloc; rewrite Ea; reflexivity]. destruct o as [p|].
  - destruct Hlv as [Hp Hlv].
    assert (passbys st !! p = None) as Hpn.
    { apply eq_None_not_Some. intros Hs. by apply Hp, (ci_plive _ _ _ _ Hi). }
    pose proof (sreg_lookup _ _ _ _ _ _ Hi Es) as Hr. pose proof (ci_server _ _ _ _ Hi _ _ _ Hr) as Hso.
    erewrite bind_ret; [|reflexivity]. cbn [passbys set_pslab master_now].
    set (pb := Passby _). set (st1 := set_passbys (<[p := pb]> (passbys st)) (set_pslab pl st)).
    destruct (srv_hash_add_run MD5 c st1 s sv (NPassby p) id) as (h' & Eh & Hh & En); [done|apply Hso| |].
    { intros Hin%(so_passbys _ _ _ _ Hso). destruct (so_passby_mem _ _ _ _ Hso p Hin). congruence. }
    erewrite bind_ret; [|exact Eh].
    erewrite bind_ret; [|unfold passby_lru_add; apply upd_srv_run; apply lookup_insert_eq].
    erewrite bind_ret; [|apply upd_srv_run; apply lookup_insert_eq].
    cbn [srvs set_srvs]. rewrite !insert_insert_eq.
    eexists OHC_OK, _. split; [reflexivity|]. split_and!; [|done|by left].
    eapply (cache_inv_passby st _ L G P s sv p h' id pb pl); done.
  - exists OHC_ERROR, (set_pslab pl st). split_and!; try done.
    + apply (cache_inv_servers st (set_pslab pl st) L G P (λ _ sv, sv) Hi); try done; try apply Hi.
      * split_and!; [done| |done]. intros s2. simpl. by destruct (srvs st !! s2).
      * intros x it Hx. destruct (ci_item _ _ _ _ Hi x it Hx). by split.
      * intros i s2 sv2 Hr2. destruct (ci_server _ _ _ _ Hi _ _ _ Hr2). by split.
      * intros q. simpl. by rewrite Hlv, (ci_plive _ _ _ _ Hi).
    + right. split_and!; try done. split; try done; [eauto|].
      intros s2 sv2 Es2. exists sv2. split; [done|apply srv_shrinks_refl].
Qed.

Lemma shrinks_stored st st1 st' s x id r :
  shrinks st st1 → stored st1 st' s x id r → stored st st' s x id r.
Proof.
  intros Hsh [Hit Hdev Hid Hoth Hnow]. split; try done; [|by rewrite Hnow, (sh_now _ _ Hsh)].
  intros y it2 Hne Hy. destruct (Hoth y it2 Hne Hy) as (it1 & Hy1 & Hc1).
  destruct (sh_items _ _ Hsh y it1 Hy1) as (it0 & Hy0 & Hc0). exists it0. split; [done|]. naive_solver.
Qed.

Lemma stored_same_items st st1 st' s x id r :
  dst st1 = dst st → master_now st1 = master_now st → stored st1 st' s x id r → stored st st' s x id r.
Proof. intros Ed En [Hit Hdev Hid Hoth Hnow]. rewrite Ed in Hoth. split; try done. by rewrite Hnow. Qed.

(** Building the key changes only the buffer of the request. *)
Lemma server_key_same sv r key r1 :
  server_key sv r = Ret (key, r1) →
  r_h r1 = r_h r ∧ r_server r1 = r_server r ∧ r_item r1 = r_item r.
Proof.
  unfold server_key. destruct (q_uri (r_h r)) as [uri|]; [|done].
  destruct (s_key_include_query sv); cbn [mbind outcome_bind].
  - destruct (http_decode_uri _ _ _); [|done]. cbn [mbind outcome_bind].
    destruct (decide _); [|done]. by intros [= _ <-].
  - destruct (decide _); [|done]. destruct (strchr _ _ _ _) as [[q|]|]; [|done..]. cbn [mbind outcome_bind].
    destruct (http_decode_uri _ _ _); [|done]. cbn [mbind outcome_bind].
    destruct (decide _); [|done]. by intros [= _ <-].
Qed.

Lemma put_expire_same sv now r r2 :
  put_expire sv now r = Some r2 →
  r_server r2 = r_server r ∧ r_item r2 = r_item r ∧ q_content_length (r_h r2) = q_content_length (r_h r) ∧
  q_put_header_length (r_h r2) = q_put_header_length (r_h r).
Proof.
  unfold put_expire. destruct (negb _); [by intros [= <-]|]. destruct (q_expire _ =? 0); [|by intros [= <-]].
  destruct (s_expire_default sv =? 0); [done|]. by intros [= <-].
Qed.

(** How the handler can end. *)
Inductive put_result st st' sv G P (r : ohc_request_t) (key : list Z) : ohc_rc → ohc_request_t → Prop :=
  | PutDeclined r' : cache_inv st' None G P → r_item r' = r_item r →
      put_result st st' sv G P r key OHC_DECLINE r'
  | PutFailed r' : cache_inv st' None G P → r_item r' = r_item r →
      put_result st st' sv G P r key OHC_ERROR r'
  | PutStored r2 r' x : put_expire sv (master_now st) r = Some r2 →
      r_h r' = r_h r2 → r_item r' = Some x → cache_inv st' None G (x :: P) →
      stored st st' (r_server r) x (MD5 key) r2 → put_result st st' sv G P r key OHC_OK r'.

(** Storing after the checks: [st0] is the state the handler started in. *)
Lemma put_store_result c r r2 r1 key st0 st sv0 sv G P :
  dst st = dst st0 ∨ shrinks (set_dst (dst st0) st) st → master_now st = master_now st0 →
  put_expire sv0 (master_now st0) r = Some r2 → server_key sv0 r2 = Ret (key, r1) →
  cache_inv st None G P → srvs st !! r_server r = Some sv →
  0 < q_content_length (r_h r) + q_put_header_length (r_h r) < 2 ^ 32 → no_entry st (r_server r) (MD5 key) →
  ∃ rc r' st', put_store MD5 kmalloc c (MD5 key) r1 st = Ret (rc, r', st') ∧
    put_result st0 st' sv0 G P r key rc r'.
Proof.
  intros Hdst Hnow Hpe Hk Hi Es Hlen Hno.
  destruct (put_expire_same _ _ _ _ Hpe) as (E1 & E2 & E3 & E4).
  destruct (server_key_same _ _ _ _ Hk) as (F1 & F2 & F3).
  assert (r_server r1 = r_server r) as Er by congruence.
  destruct (put_store_spec MD5 kmalloc Hkm c (MD5 key) r1 st sv G P Hi) as (rc & r' & st' & E & Hc).
  - by rewrite Er.
  - by rewrite F1, E3, E4.
  - intros n. by apply Hno.
  - exists rc, r', st'. split; [done|].
    destruct Hc as [(-> & Hi' & _ & Eit)|(-> & x & -> & Hi' & Hs)].
    + apply PutFailed; [done|congruence].
    + apply (PutStored _ _ _ _ _ _ _ r2 _ x); [done|done|done|done|]. rewrite Er in Hs.
      assert (stored st0 st' (r_server r) x (MD5 key) r1) as Hs'.
      { destruct Hdst as [Ed|Hsh]; [by apply (stored_same_items st0 st)|].
        apply (stored_same_items st0 (set_dst (dst st0) st)); [done|done|]. by eapply shrinks_stored. }
      destruct Hs' as [Hit ? ? ?]. split; try done. by rewrite <- F1.
Qed.

Lemma server_request_put_spec c1 c2 r st sv key G P :
  cache_inv st None G P → srvs st !! r_server r = Some sv →
  0 < q_content_length (r_h r) + q_put_header_length (r_h r) < 2 ^ 32 →
  (∀ r2, put_expire sv (master_now st) r = Some r2 → ∃ r1, server_key sv r2 = Ret (key, r1)) →
  ∃ rc r' st', server_request_put_handler MD5 kmalloc c1 c2 r st = Ret (rc, r', st') ∧
    put_result st st' sv G P r key rc r'.
Proof.
  intros Hi Es Hlen Hkey. set (s := r_server r) in *. unfold server_request_put_handler. fold s.
  destruct (bump_spec st s sv inc_puts None G P Hi Es) as (st1 & E1 & Hi1 & Est1).
  erewrite bind_ret; [|exact E1].
  assert (srvs st1 !! s = Some (bump inc_puts sv)) as Es1 by (rewrite Est1; apply lookup_insert_eq).
  assert (dst st1 = dst st ∧ master_now st1 = master_now st) as [Ed1 En1] by (by rewrite Est1).
  erewrite bind_ret; [|by apply load_srv_run]. erewrite bind_ret; [|reflexivity].
  change (put_expire (bump inc_puts sv)) with (put_expire sv). rewrite En1.
  destruct (negb (s_item_max_size (bump inc_puts sv) =? 0) && _).
  { eexists OHC_DECLINE, _, st1. split; [reflexivity|]. by apply PutDeclined. }
  destruct (negb (s_capacity (bump inc_puts sv) =? 0) && _).
  { eexists OHC_DECLINE, _, st1. split; [reflexivity|]. by apply PutDeclined. }
  destruct (put_expire sv (master_now st) r) as [r2|] eqn:Epe.
  2:{ eexists OHC_DECLINE, _, st1. split; [reflexivity|]. by apply PutDeclined. }
  destruct (Hkey r2 eq_refl) as (r1 & Ek).
  destruct (put_expire_same _ _ _ _ Epe) as (F1 & F2 & F3 & F4).
  destruct (server_key_same _ _ _ _ Ek) as (K1 & K2 & K3).
  assert (r_item r1 = r_item r) as Eri by congruence. fold s in F1.
  destruct (server_hash_get_spec MD5 c1 r2 st1 (bump inc_puts sv) key r1 None G P Hi1) as (o & h' & st2 & E2 & Hi2 & Est2 & En & Ho);
    [by rewrite F1|exact Ek|].
  rewrite F1 in Est2. erewrite bind_ret; [|exact E2]. cbn [fst snd].
  assert (srvs st2 !! s = Some (set_s_hash h' (bump inc_puts sv))) as Es2 by (rewrite Est2; apply lookup_insert_eq).
  assert (hids st2 = hids st1 ∧ dst st2 = dst st ∧ master_now st2 = master_now st) as (Eh2 & Ed2 & En2)
    by (by rewrite Est2, Est1).
  destruct o as [[x|p]|].
  - destruct Ho as [Hin Hid].
    assert (∃ valid, (if decide (q_method (r_h r1) = METHOD_PUT) then mret false else server_item_valid x) st2
      = Ret (valid, st2)) as [valid Ev].
    { destruct (decide _); [by eexists|].
      destruct (so_items _ _ _ _ (ci_server _ _ _ _ Hi2 _ _ _ (sreg_lookup _ _ _ _ _ _ Hi2 Es2)) x) as (it & Hx & _);
        [by simpl; rewrite En|].
      destruct (server_item_valid_run st2 None G P x it Hi2 Hx) as (? & ? & ? & ? & _ & _ & ?). by eexists. }
    erewrite bind_ret; [|exact Ev]. destruct valid.
    { eexists OHC_DECLINE, _, st2. split; [reflexivity|]. by apply PutDeclined. }
    destruct (item_entry_delete kmalloc Hkm st2 None G P s _ x (MD5 key) Hi2 Es2)
      as (st3 & sv3 & E3 & Hi3 & Hg & Es3 & _ & Hno); [by simpl; rewrite En|by rewrite Eh2|].
    erewrite bind_ret; [|exact E3]. pose proof (proj1 Hg) as Hsh.
    destruct (put_store_result c2 r r2 r1 key st st3 sv sv3 G P) as (rc & r' & st' & E4 & Hres); try done.
    + right. destruct Hsh. rewrite Ed2 in sh_items, sh_devs. split; try done. 
      intros s2 sv2 Es4. exists sv2. split; [done|apply srv_shrinks_refl].
    + by rewrite (sh_now _ _ Hsh).
    + eauto.
  - destruct Ho as [Hin Hid].
    destruct (passby_entry_delete st2 None G P s _ p (MD5 key) Hi2 Es2)
      as (st3 & sv3 & E3 & Hi3 & Hsh & Ed3 & Es3 & _ & Hno); [by simpl; rewrite En|by rewrite Eh2|].
    erewrite bind_ret; [|exact E3].
    destruct (put_store_result c2 r r2 r1 key st st3 sv sv3 G P) as (rc & r' & st' & E4 & Hres); try done.
    + left. congruence.
    + by rewrite (sh_now _ _ Hsh).
    + eauto.
  - assert (no_entry st2 s (MD5 key)) as Hno.
    { intros sv2 n Esx Hn. rewrite Es2 in Esx. injection Esx as <-. simpl in Hn. rewrite En in Hn.
      rewrite Eh2. by apply Ho. }
    destruct (server_passby_store_spec c2 s (MD5 key) st2 _ None G P Hi2 Es2 Hno) as (rc & st3 & E3 & Hi3 & Ed3 & Hc).
    erewrite bind_ret; [|exact E3]. destruct (decide (rc = OHC_OK)).
    { eexists OHC_DECLINE, _, st3. split; [reflexivity|]. by apply PutDeclined. }
    destruct Hc as [?|(_ & Esv & Hsh)]; [done|].
    destruct (put_store_result c2 r r2 r1 key st st3 sv (set_s_hash h' (bump inc_puts sv)) G P)
      as (rc' & r' & st' & E4 & Hres); try done.
    + left. congruence.
    + by rewrite (sh_now _ _ Hsh).
    + by rewrite Esv.
    + intros sv2 n0. rewrite Esv, (sh_hids _ _ Hsh). apply Hno.
    + eauto.
Qed.
End put_handler.

(** ** Holding an item *)

Section hold.
Context {AS IS PS : Type} `{Allocator AS} `{Allocator IS} `{Allocator PS}.
Implicit Types (st : sstore AS IS PS) (sv : ohc_server_t) (L : option Z) (G P l : list Z).

(** Item [x] gets other holders. *)
Lemma cache_inv_holders st L G P G' P' x it it' d dv n :
  cache_inv st L G P → im st L !! x = Some it → registered (dst st) (it_device_index it) d dv →
  it_offset it' = it_offset it → it_length it' = it_length it →
  it_device_index it' = it_device_index it → it_server_index it' = it_server_index it →
  it_deleted it' = it_deleted it →
  it_used it' = count_of x G' → (it_putting it' = true ↔ x ∈ P') →
  (∀ y, y ≠ x → count_of y G' = count_of y G ∧ (y ∈ P' ↔ y ∈ P)) →
  NoDup P' → (∀ y, y ∈ P' → y ∉ G') → (∀ y, y ∈ G' ++ P' → is_Some (im st L !! y)) →
  n = holders st L G' P' (it_device_index it) →
  (∀ i, i ≠ it_device_index it → holders st L G' P' i = holders st L G P i) →
  cache_inv (set_dst (set_devs (<[d := set_d_used n dv]> (devs (dst st)))
               (set_item_mem (<[x := it']> (item_mem (dst st))) (dst st))) st) L G' P'.
Proof.
  intros Hi Hx Hrd E1 E2 E3 E4 E5 Hu Hp Hoth HnP Hdis Hheld Hn Hho.
  destruct (im_lookup _ _ _ _ Hx) as [Hxm HxL].
  set (ds1 := set_item_mem (<[x := it']> (item_mem (dst st))) (dst st)).
  match goal with |- cache_inv ?s _ _ _ => set (st' := s) end.
  assert (im st' L = <[x := it']> (im st L)) as Eim.
  { unfold im, st'. simpl. destruct L as [y|]; [|done]. rewrite delete_insert_ne by congruence. done. }
  assert (∀ y it2, im st' L !! y = Some it2 → ∃ it0, im st L !! y = Some it0 ∧
    (it2 = it0 ∧ y ≠ x ∨ it2 = it' ∧ it0 = it ∧ y = x)) as Hmem.
  { intros y it2. rewrite Eim. intros [[<- <-]|[? ?]]%lookup_insert_Some; [exists it; naive_solver|].
    exists it2. split; [done|]. left. split; [done|congruence]. }
  assert (∀ y, is_Some (im st L !! y) → is_Some (im st' L !! y)) as Hstay.
  { intros y Hy. rewrite Eim, lookup_insert_is_Some'. by right. }
  assert (dev_inv ds1) as Hd1 by (apply (dev_inv_upd_item (dst st) x it it'); [apply Hi|done..]).
  assert (∀ f i, (f it' = f it) → msum (of_server i f) (im st' L) = msum (of_server i f) (im st L)) as Hsum.
  { intros f i Hf. rewrite Eim. apply (msum_update _ _ _ it); [done|]. unfold of_server. by rewrite E4, Hf. }
  assert (∀ i d2 dv2, registered (dst st') i d2 dv2 → ∃ dv3, registered (dst st) i d2 dv3 ∧
    order_head dv2 = order_head dv3 ∧
    d_used dv2 = if decide (i = it_device_index it) then n else d_used dv3) as Hreg.
  { intros i d2 dv2 Hr2.
    apply (registered_used ds1 (it_device_index it) d dv n i d2 dv2 Hrd) in Hr2 as (dv3 & Hr3 & ->).
    exists dv3. split; [exact Hr3|]. destruct (decide (d2 = d)) as [->|Hne].
    - split; [done|]. rewrite decide_True; [done|]. by destruct (registered_addr _ _ _ _ _ _ Hr3 Hrd).
    - split; [done|]. rewrite decide_False; [done|]. intros ->.
      by destruct (registered_inj _ _ _ _ _ _ _ Hr3 Hrd eq_refl) as [? _]. }
  assert (dev_inv (dst st')) as Hdi by (by apply (dev_inv_used ds1 (it_device_index it))).
  assert (∀ i, holders st' L G' P' i = holders st L G' P' i) as Hhol.
  { intros i. apply holders_ext. intros y _. rewrite Eim. destruct (decide (y = x)) as [->|].
    - rewrite lookup_insert_eq, Hx. simpl. by rewrite E3.
    - by rewrite lookup_insert_ne. }
  split; try done; try apply Hi.
  - intros y it2 Hy. destruct (Hmem y it2 Hy) as (it0 & Hy0 & Hcase).
    destruct (ci_item _ _ _ _ Hi y it0 Hy0) as [(d2 & dv2 & Hr2 & Hin) (s & sv & Hr & Hdel & Hl)].
    assert (it_device_index it2 = it_device_index it0 ∧ it_server_index it2 = it_server_index it0 ∧
      it_deleted it2 = it_deleted it0) as (F1 & F2 & F3) by (destruct Hcase as [[-> _]|(-> & -> & _)]; done).
    split; rewrite ?F1, ?F2, ?F3; [|by exists s, sv].
    destruct (registered_later (dst st) (dst st') _ _ _ Hdi eq_refl Hr2) as (dv2' & Hr2').
    exists d2, dv2'. split; [done|]. destruct (Hreg _ _ _ Hr2') as (dv3 & Hr3 & -> & _).
    by destruct (registered_inj _ _ _ _ _ _ _ Hr2 Hr3 eq_refl) as [_ <-].
  - intros i s sv Hr. destruct (ci_server _ _ _ _ Hi i s sv Hr).
    assert (∀ y it0, im st L !! y = Some it0 → it_server_index it0 = s_index sv →
      ∃ it2, im st' L !! y = Some it2 ∧ it_server_index it2 = s_index sv) as Hkeep.
    { intros y it0 Hy E. rewrite Eim. destruct (decide (y = x)) as [->|Hne].
      - rewrite lookup_insert_eq. exists it'. split; [done|]. rewrite E4. congruence.
      - rewrite lookup_insert_ne by done. eauto. }
    split; rewrite ?Hsum by (simpl; congruence); try done.
    + intros y Hy. destruct (so_items y Hy) as (it0 & ? & ?). eauto.
    + intros y Hy. destruct (so_lru y Hy) as (? & it0 & ? & ?). split; [done|]. eauto.
  - intros y Hy. apply Hstay. by apply (ci_shared _ _ _ _ Hi).
  - intros y it2 Hy. destruct (Hmem y it2 Hy) as (it0 & Hy0 & [[-> Hne]|(-> & -> & ->)]); [|done].
    destruct (ci_used _ _ _ _ Hi y it0 Hy0) as [Hu0 Hp0]. destruct (Hoth y Hne) as [-> ->]. done.
  - intros i d2 dv2 Hr2. destruct (Hreg _ _ _ Hr2) as (dv3 & Hr3 & _ & ->). rewrite Hhol.
    destruct (decide (i = it_device_index it)) as [->|Hne]; [done|].
    rewrite Hho by done. by apply (ci_dused _ _ _ _ Hi i d2).
  - intros y Hy. apply Hstay. by apply Hheld.
  - intros y Hy. destruct (ci_loose _ _ _ _ Hi y Hy) as [Hm Hd]. split.
    + simpl. rewrite lookup_insert_is_Some'. by right.
    + intros i d2 dv2 Hr2. destruct (Hreg _ _ _ Hr2) as (dv3 & Hr3 & -> & _). by apply (Hd i d2).
  - intros y. simpl. rewrite (ci_ilive _ _ _ _ Hi), lookup_insert_is_Some'.
    destruct (decide (y = x)) as [->|]; [|naive_solver]. split; [naive_solver|]. intros _. by eexists.
Qed.

(** [list_del] and [list_add]: the item becomes the newest of its list. *)
Definition move_srv (s x : Z) (s2 : Z) sv : ohc_server_t :=
  let l := list_remove_one x (s_lru_head sv) in
  if decide (s2 = s)
  then (if s_capacity sv =? 0 then set_s_lru_head l sv else set_s_lru_head (x :: l) sv)
  else set_s_lru_head l sv.

Lemma lru_move_spec st G P x it s sv :
  cache_inv st None G P → im st None !! x = Some it → sreg st (it_server_index it) s sv →
  ∃ st', (lru_del x;; lru_add s x) st = Ret (tt, st') ∧ cache_inv st' None G P ∧
    dst st' = dst st ∧ hids st' = hids st ∧ master_now st' = master_now st ∧
    servers_by (move_srv s x) st st'.
Proof.
  intros Hi Hx Hr. pose proof Hr as (Ei & Es & Eix).
  pose proof (ci_item _ _ _ _ Hi x it Hx) as [_ (s0 & sv0 & Hr0 & _ & Hl)].
  destruct (sreg_inj _ _ _ _ _ _ Hr Hr0) as [<- <-].
  assert (lru_linked st x = true) as El.
  { apply lru_linked_spec. destruct Hl as [Hl|Hl]; [right; by exists s, sv|by left]. }
  eexists. split.
  { erewrite bind_ret; [|unfold lru_del; rewrite El; reflexivity].
    apply lru_add_run. unfold lru_unlink. simpl. rewrite lookup_fmap, Es. reflexivity. }
  cbn [s_capacity set_s_lru_head s_lru_head]. match goal with |- cache_inv ?s _ _ _ ∧ _ => set (st' := s) end.
  assert (servers_by (move_srv s x) st st') as Hby.
  { split_and!; [done| |].
    - intros s2. unfold st', move_srv. simpl. destruct (decide (s2 = s)) as [->|Hne].
      + rewrite lookup_insert_eq, Es. simpl. by destruct (s_capacity sv =? 0).
      + rewrite lookup_insert_ne by done. by rewrite lookup_fmap.
    - intros s2 sv2 _. unfold move_srv. destruct (decide (s2 = s)); [|done]. by destruct (s_capacity sv2 =? 0). }
  split_and!; try done.
  assert (∀ s2 sv2, s_hash (move_srv s x s2 sv2) = s_hash sv2 ∧ s_passby_lru_head (move_srv s x s2 sv2) = s_passby_lru_head sv2)
    as Hsame.
  { intros s2 sv2. unfold move_srv. destruct (decide (s2 = s)); [|done]. by destruct (s_capacity sv2 =? 0). }
  assert (∀ y s2 sv2, y ∈ s_lru_head (move_srv s x s2 sv2) ↔
    y ∈ s_lru_head sv2 ∧ y ≠ x ∨ y = x ∧ s2 = s ∧ (s_capacity sv2 =? 0) = false) as Hlru.
  { intros y s2 sv2. unfold move_srv. destruct (decide (s2 = s)) as [->|Hne]; simpl.
    - destruct (s_capacity sv2 =? 0); simpl; rewrite ?elem_of_cons, elem_of_list_remove_one; naive_solver.
    - rewrite elem_of_list_remove_one. naive_solver. }
  assert (∀ y, y ∈ shared_lru_head st' ↔ y ∈ shared_lru_head st ∧ y ≠ x ∨ y = x ∧ (s_capacity sv =? 0) = true) as Hsh.
  { intros y. unfold st'. simpl. destruct (s_capacity sv =? 0); rewrite ?elem_of_cons, elem_of_list_remove_one; naive_solver. }
  apply (cache_inv_servers st st' None G P _ Hi Hby); try done; try apply Hi.
  - intros y it' Hy. apply (item_ok_servers st st' (move_srv s x)); [by apply Hi|done..|].
    intros s2 sv2 Hr2. rewrite (proj1 (Hsame s2 sv2)). split; [done|]. rewrite Hlru, Hsh.
    destruct (decide (y = x)) as [->|]; [|naive_solver]. intros _.
    rewrite Hx in Hy. injection Hy as <-. destruct (sreg_inj _ _ _ _ _ _ Hr Hr2) as [<- <-].
    destruct (s_capacity sv =? 0); naive_solver.
  - intros i s2 sv2 Hr2. destruct (ci_server _ _ _ _ Hi _ _ _ Hr2).
    assert (s_index (move_srv s x s2 sv2) = s_index sv2 ∧ s_item_nr (move_srv s x s2 sv2) = s_item_nr sv2 ∧
      s_content (move_srv s x s2 sv2) = s_content sv2 ∧ s_consumed (move_srv s x s2 sv2) = s_consumed sv2 ∧
      s_passby_item_nr (move_srv s x s2 sv2) = s_passby_item_nr sv2) as (Q1 & Q2 & Q3 & Q4 & Q5)
      by (unfold move_srv; destruct (decide (s2 = s)); [by destruct (s_capacity sv2 =? 0)|done]).
    destruct (Hsame s2 sv2) as [Q6 Q7]. split; rewrite ?Q1, ?Q2, ?Q3, ?Q4, ?Q5, ?Q6, ?Q7; try done.
    + unfold move_srv. destruct (decide (s2 = s)) as [->|]; [destruct (s_capacity sv2 =? 0)|]; simpl;
        try by apply NoDup_list_remove_one.
      apply NoDup_cons. split; [rewrite elem_of_list_remove_one; tauto|by apply NoDup_list_remove_one].
    + intros y. rewrite Hlru, Hsh. intros [[Hy Hne]|(-> & -> & Ec)].
      * destruct (so_lru y Hy) as (Hns & ?). split; [|done]. intros [[? _]|[? _]]; [by apply Hns|by apply Hne].
      * assert (sv2 = sv) as -> by (destruct Hr2 as (_ & E2 & _); congruence).
        split; [intros [[_ ?]|[_ ?]]; congruence|]. exists it. split; [done|]. by rewrite Eix.
  - unfold st'. simpl. destruct (s_capacity sv =? 0); [|apply NoDup_list_remove_one, Hi].
    apply NoDup_cons. split; [rewrite elem_of_list_remove_one; tauto|apply NoDup_list_remove_one, Hi].
  - intros y. rewrite Hsh. intros [[Hy _]|[-> _]]; [by apply (ci_shared _ _ _ _ Hi)|by eexists].
  - intros i s2 sv2 j s3 sv3 p Hr2 Hr3. rewrite !(proj2 (Hsame _ _)).
    by apply (ci_passby_one _ _ _ _ Hi i s2 sv2 j s3 sv3 p).
Qed.
End hold.

(** ** GET *)

Section get_handler.
Context {AS IS PS : Type} `{Allocator AS} `{Allocator IS} `{Allocator PS}.
Context (MD5 : list Z → md5_id) (kmalloc : dstore AS → option Z).
Context (Hkm : ∀ ds a, kmalloc ds = Some a → devs ds !! a = None).
Implicit Types (st : sstore AS IS PS) (sv : ohc_server_t) (L : option Z) (G P l : list Z).

(** A complete and valid item stored under [id]. *)
Definition servable st sv (id : md5_id) (x : Z) (it : ohc_item_t) : Prop :=
  NItem x ∈ hash_nodes (s_hash sv) ∧ hids st !! NItem x = Some id ∧ item_mem (dst st) !! x = Some it ∧
  it_putting it = false ∧
  ∃ d dv, registered (dst st) (it_device_index it) d dv ∧ item_valid st it dv sv = true.

Lemma count_of_le x l : 0 ≤ count_of x l ≤ Z.of_nat (length l).
Proof. unfold count_of. pose proof (length_filter (λ y, y = x) l). lia. Qed.
Lemma count_of_cons x y l : count_of x (y :: l) = (if decide (y = x) then 1 else 0) + count_of x l.
Proof. unfold count_of. rewrite filter_cons. destruct (decide (y = x)); simpl; lia. Qed.

(** The part of the handler that holds the item. *)
Lemma get_hold_spec st G P x it s sv :
  cache_inv st None G P → im st None !! x = Some it → it_putting it = false →
  sreg st (it_server_index it) s sv → Z.of_nat (length G) < 65535 →
  ∃ st', (d ← lift (device_of_item x);
          lift (upd_dev d (λ dv, set_d_used (d_used dv + 1) dv));;
          lift (upd_item x (set_it_used (u16 (it_used it + 1))));;
          lru_del x;; lru_add s x) st = Ret (tt, st') ∧ cache_inv st' None (x :: G) P ∧
    item_mem (dst st') = <[x := set_it_used (it_used it + 1) it]> (item_mem (dst st)).
Proof.
  intros Hi Hx Hput Hr Hlen. destruct (im_lookup _ _ _ _ Hx) as [Hxm _].
  destruct (io_dev _ _ _ (ci_item _ _ _ _ Hi x it Hx)) as (d & dv & Hrd & _).
  destruct (ci_used _ _ _ _ Hi x it Hx) as [Hu Hp]. pose proof (count_of_le x G) as Hcl.
  assert (u16 (it_used it + 1) = it_used it + 1) as Eu by (apply wrap_small; lia).
  set (it' := set_it_used (it_used it + 1) it).
  set (st1 := set_dst (set_devs (<[d := set_d_used (d_used dv + 1) dv]> (devs (dst st)))
               (set_item_mem (<[x := it']> (item_mem (dst st))) (dst st))) st).
  assert (cache_inv st1 None (x :: G) P) as Hi1.
  { apply (cache_inv_holders st None G P (x :: G) P x it it' d dv); try done.
    - simpl. by rewrite count_of_cons, decide_True, Hu; [lia|].
    - intros y Hne. rewrite count_of_cons, decide_False by done. done.
    - apply Hi.
    - intros y Hy. apply not_elem_of_cons. split; [|by apply (ci_putters _ _ _ _ Hi)].
      intros ->. apply Hp in Hy. congruence.
    - intros y [->|Hy]%elem_of_cons; [by eexists|by apply (ci_held _ _ _ _ Hi)].
    - rewrite (ci_dused _ _ _ _ Hi _ _ _ Hrd).
      rewrite (holders_cons st st None None G P (x :: G) P x (it_device_index it)); [|done|by rewrite Hx|done].
      rewrite decide_True by done. lia.
    - intros i Hne.
      rewrite (holders_cons st st None None G P (x :: G) P x (it_device_index it)); [|done|by rewrite Hx|done].
      by rewrite decide_False by done. }
  destruct (lru_move_spec st1 (x :: G) P x it' s sv Hi1) as (st' & E & Hi' & Ed & _ & _ & _).
  { apply im_lookup_2; [apply lookup_insert_eq|done]. }
  { done. }
  exists st'. split_and!; [|done|by rewrite Ed].
  erewrite bind_ret; [|apply (device_of_item_run st x it d); [done|apply Hrd]].
  erewrite bind_ret; [|apply (upd_dev_used_run _ d dv); apply Hrd].
  erewrite bind_ret; [|apply lift_run; apply upd_item_run; exact Hxm].
  rewrite Eu. exact E.
Qed.

Lemma server_request_get_spec c r st sv key r1 G P :
  cache_inv st None G P → srvs st !! r_server r = Some sv → server_key sv r = Ret (key, r1) →
  Z.of_nat (length G) < 65535 →
  ∃ rc r' st', server_request_get_handler MD5 kmalloc c r st = Ret (rc, r', st') ∧
    (rc = OHC_OK ∧ (∃ x it, servable st sv (MD5 key) x it ∧ r' = set_r_item (Some x) r1 ∧
        cache_inv st' None (x :: G) P ∧
        item_mem (dst st') = <[x := set_it_used (it_used it + 1) it]> (item_mem (dst st))) ∨
     rc = OHC_ERROR ∧ r' = r1 ∧ cache_inv st' None G P ∧ ∀ x it, ¬ servable st sv (MD5 key) x it).
Proof.
  intros Hi Es Ek Hlen. set (s := r_server r) in *. unfold server_request_get_handler. fold s.
  destruct (bump_spec st s sv inc_gets None G P Hi Es) as (st1 & E1 & Hi1 & Est1).
  erewrite bind_ret; [|exact E1].
  assert (srvs st1 !! s = Some (bump inc_gets sv)) as Es1 by (rewrite Est1; apply lookup_insert_eq).
  destruct (server_hash_get_spec MD5 c r st1 (bump inc_gets sv) key r1 None G P Hi1 Es1 Ek)
    as (o & h' & st2 & E2 & Hi2 & Est2 & En & Ho). fold s in Est2.
  erewrite bind_ret; [|exact E2]. cbn [fst snd].
  set (sv2 := set_s_hash h' (bump inc_gets sv)) in *.
  assert (srvs st2 !! s = Some sv2) as Es2 by (rewrite Est2; apply lookup_insert_eq).
  assert (hids st1 = hids st ∧ hids st2 = hids st ∧ dst st2 = dst st ∧ master_now st2 = master_now st)
    as (Eh1 & Eh2 & Ed2 & En2) by (by rewrite Est2, Est1). rewrite Eh1 in Ho. simpl in En, Ho.
  pose proof (sreg_lookup _ _ _ _ _ _ Hi2 Es2) as Hr2. pose proof (ci_server _ _ _ _ Hi2 _ _ _ Hr2) as Hso2.
  pose proof (ci_server _ _ _ _ Hi _ _ _ (sreg_lookup _ _ _ _ _ _ Hi Es)) as Hso.
  destruct o as [[x|p]|].
  - destruct Ho as [Hin Hid].
    assert (∀ x' it', servable st sv (MD5 key) x' it' → x' = x) as Huniq.
    { intros x' it' (Hin' & Hid' & _). assert (NItem x' = NItem x) as [= ->]; [|done].
      by apply (so_ids _ _ _ _ Hso _ _ (MD5 key)). }
    destruct (so_items _ _ _ _ Hso2 x) as (it & Hx & Eix); [by simpl; rewrite En|].
    destruct (im_lookup _ _ _ _ Hx) as [Hxm _]. rewrite Ed2 in Hxm.
    erewrite bind_ret; [|apply lift_load_item_run; by rewrite Ed2].
    assert (it_deleted it = false) as Edel.
    { destruct (io_srv _ _ _ (ci_item _ _ _ _ Hi2 x it Hx)) as (s3 & sv3 & Hr3 & Hdel & _).
      rewrite Eix in Hr3. destruct (sreg_inj _ _ _ _ _ _ Hr2 Hr3) as [-> <-]. apply Hdel. simpl. by rewrite En. }
    rewrite Edel. destruct (it_putting it) eqn:Eput; cbn [orb].
    { exists OHC_ERROR, r1, st2. split; [done|]. right. split_and!; try done.
      intros x' it' Hs. pose proof (Huniq x' it' Hs) as ->. destruct Hs as (_ & _ & Hm & Hp & _). congruence. }
    destruct (server_item_valid_run st2 None G P x it Hi2 Hx) as (d & dv & s3 & sv3 & Hrd & Hr3 & Ev).
    rewrite Eix in Hr3. destruct (sreg_inj _ _ _ _ _ _ Hr2 Hr3) as [<- <-].
    assert (item_valid st2 it dv sv2 = item_valid st it dv sv) as Eval by (unfold item_valid; by rewrite En2).
    rewrite Eval in Ev. rewrite Ed2 in Hrd. erewrite bind_ret; [|exact Ev].
    destruct (item_valid st it dv sv) eqn:Evv; cbn [negb].
    + destruct (bump_spec st2 s sv2 inc_hits None G P Hi2 Es2) as (st3 & E3 & Hi3 & Est3).
      erewrite bind_ret; [|exact E3].
      destruct (get_hold_spec st3 G P x it s (bump inc_hits sv2) Hi3) as (st' & E4 & Hi' & Em); [..|done|].
      { by rewrite Est3. }
      { done. }
      { rewrite Eix, Est3. split_and!; [apply Hr2|apply lookup_insert_eq|done]. }
      exists OHC_OK, (set_r_item (Some x) r1), st'. split.
      { apply bind_inv in E4 as (d4 & st4 & F1 & E4). erewrite bind_ret; [|exact F1].
        apply bind_inv in E4 as (u4 & st5 & F2 & E4). erewrite bind_ret; [|exact F2].
        apply bind_inv in E4 as (u5 & st6 & F3 & E4). erewrite bind_ret; [|exact F3].
        apply bind_inv in E4 as (u6 & st7 & F4 & E4). erewrite bind_ret; [|exact F4].
        erewrite bind_ret; [|exact E4]. done. }
      left. split; [done|]. exists x, it. split_and!; try done.
      { split_and!; try done. by exists d, dv. }
      by rewrite Em, Est3, <- Ed2.
    + destruct (server_item_delete_spec kmalloc Hkm st2 None G P x it Hi2 Hx) as (st' & E3 & Hi' & _).
      erewrite bind_ret; [|exact E3]. exists OHC_ERROR, r1, st'. split; [done|]. right. split_and!; try done.
      intros x' it' Hs. pose proof (Huniq x' it' Hs) as ->. destruct Hs as (_ & _ & Hm & _ & d' & dv' & Hr' & Hv).
      rewrite Hxm in Hm. injection Hm as <-.
      destruct (registered_inj _ _ _ _ _ _ _ Hrd Hr' eq_refl) as [_ <-]. congruence.
  - destruct Ho as [Hin Hid].
    assert (p ∈ s_passby_lru_head sv2) as Hp by (apply (so_passbys _ _ _ _ Hso2); simpl; by rewrite En).
    eexists OHC_ERROR, r1, _. split.
    { erewrite bind_ret;
        [|unfold passby_lru_del; erewrite bind_ret; [|by apply load_srv_run]; rewrite decide_True by exact Hp;
          by apply upd_srv_run].
      erewrite bind_ret; [|unfold passby_lru_add; apply upd_srv_run; apply lookup_insert_eq].
      erewrite bind_ret; [|apply upd_srv_run; apply lookup_insert_eq]. reflexivity. }
    right. cbn [srvs set_srvs]. rewrite !insert_insert_eq. split_and!; try done.
    + eapply (cache_inv_srv_same st2 s sv2); [done..|]. split; try done; [|by split; [apply Hso2|]]. simpl.
      destruct (list_elem_of_split _ _ Hp) as (l1 & l2 & Epl). simpl in Epl. rewrite Epl.
      pose proof (so_passby_nodup _ _ _ _ Hso2) as Hnd. simpl in Hnd. rewrite Epl in Hnd.
      rewrite list_remove_one_split by done. by rewrite Permutation_middle.
    + intros x' it' (Hin' & Hid' & _). assert (NItem x' = NPassby p); [|done].
      by apply (so_ids _ _ _ _ Hso _ _ (MD5 key)).
  - exists OHC_ERROR, r1, st2. split; [done|]. right. split_and!; try done.
    intros x' it' (Hin' & Hid' & _). by apply (Ho (NItem x')).
Qed.
End get_handler.
