(* ===== verification/ServerFinalize.v ===== *)
(** * The end of a request

    [server_request_finalize]: the item a request held is released; a PUT that
    did not write the whole item, a disk error or a pending deletion makes the
    item go, at once when nobody else holds it. *)

From Stdlib Require Import String.
From stdpp Require Import prelude fin_maps gmap.
From S2P Require Import Prelude IdxPointer StrUtil IpBucket Slab Hash Device DeviceInv DeviceOps.
From S2P Require Import Http Server ServerInv ServerOps ServerExpire ServerPut.
From S2P Require Import ServerHandlers.
#[local] Arguments im : simpl never.

Section finalize.
Context {AS IS PS : Type} `{Allocator AS} `{Allocator IS} `{Allocator PS}.
Context (kmalloc : dstore AS → option Z).
Context (Hkm : ∀ ds a, kmalloc ds = Some a → devs ds !! a = None).
Implicit Types (st : sstore AS IS PS) (sv : ohc_server_t) (L : option Z) (G P l : list Z).

(** The item without this request's hold. *)
Definition released (it : ohc_item_t) : ohc_item_t :=
  if it_putting it then set_it_putting false it else set_it_used (it_used it - 1) it.

(** [G', P'] is [G, P] without one holder of [x]. *)
Definition releases G P (x : Z) G' P' : Prop :=
  (x ∈ P ∧ G' = G ∧ P' = list_remove_one x P) ∨ ((x ∉ P) ∧ G ≡ₚ x :: G' ∧ P' = P).

Lemma count_of_perm x l l' : l ≡ₚ l' → count_of x l = count_of x l'.
Proof. intros Hp. unfold count_of. by rewrite Hp. Qed.

Lemma remove_one_perm (x : Z) l : NoDup l → x ∈ l → l ≡ₚ x :: list_remove_one x l.
Proof.
  intros Hn (l1 & l2 & ->)%list_elem_of_split. rewrite list_remove_one_split by done.
  by rewrite Permutation_middle.
Qed.

Lemma releases_perm st G P x G' P' :
  cache_inv st None G P → releases G P x G' P' → x :: G' ++ P' ≡ₚ G ++ P.
Proof.
  intros Hi [(Hx & -> & ->)|(_ & Hp & ->)].
  - rewrite Permutation_middle. f_equiv. symmetry. apply remove_one_perm; [apply Hi|done].
  - by rewrite Hp.
Qed.

Lemma cache_inv_release st G P G' P' x it d dv :
  cache_inv st None G P → im st None !! x = Some it → registered (dst st) (it_device_index it) d dv →
  releases G P x G' P' →
  cache_inv (set_dst (set_devs (<[d := set_d_used (d_used dv - 1) dv]> (devs (dst st)))
               (set_item_mem (<[x := released it]> (item_mem (dst st))) (dst st))) st) None G' P'.
Proof.
  intros Hi Hx Hrd Hrel. pose proof (releases_perm _ _ _ _ _ _ Hi Hrel) as Hperm.
  destruct (ci_used _ _ _ _ Hi x it Hx) as [Hu Hp]. destruct (ci_putters _ _ _ _ Hi) as [HnP Hdis].
  assert (it_putting it = bool_decide (x ∈ P)) as Eput.
  { case_bool_decide; [by apply Hp|]. apply not_true_is_false. by rewrite Hp. }
  assert (∀ i, holders st None G P i = (if decide (it_device_index it = i) then 1 else 0) + holders st None G' P' i) as Hh.
  { intros i. apply (holders_cons st st None None G' P' G P x); [done|by rewrite Hx|done]. }
  apply (cache_inv_holders st None G P G' P' x it (released it) d dv); try done;
    try (unfold released; by destruct (it_putting it)).
  - unfold released. rewrite Eput. destruct Hrel as [(HxP & -> & ->)|(HxP & HG & ->)].
    + by rewrite bool_decide_true.
    + rewrite bool_decide_false by done. simpl. rewrite Hu, (count_of_perm x G (x :: G')) by done.
      rewrite count_of_cons, decide_True by done. lia.
  - unfold released. rewrite Eput. destruct Hrel as [(HxP & -> & ->)|(HxP & HG & ->)].
    + rewrite bool_decide_true by done. simpl. rewrite elem_of_list_remove_one. naive_solver.
    + rewrite bool_decide_false by done. simpl. rewrite Eput, bool_decide_false by done. done.
  - intros y Hne. destruct Hrel as [(HxP & -> & ->)|(HxP & HG & ->)].
    + rewrite elem_of_list_remove_one. naive_solver.
    + rewrite (count_of_perm y G (x :: G')) by done. by rewrite count_of_cons, decide_False by done.
  - destruct Hrel as [(_ & _ & ->)|(_ & _ & ->)]; [by apply NoDup_list_remove_one|done].
  - intros y Hy. destruct Hrel as [(_ & -> & ->)|(_ & HG & ->)].
    + apply elem_of_list_remove_one in Hy as [? _]. by apply Hdis.
    + intros Hy'. apply (Hdis y Hy). rewrite HG. by apply list_elem_of_further.
  - intros y Hy. apply (ci_held _ _ _ _ Hi). rewrite <- Hperm. by apply list_elem_of_further.
  - rewrite (ci_dused _ _ _ _ Hi _ _ _ Hrd), Hh, decide_True by done. lia.
  - intros i Hne. rewrite Hh, decide_False by done. lia.
Qed.

Lemma cache_inv_badblock st L G P x it :
  cache_inv st L G P → im st L !! x = Some it →
  cache_inv (set_dst (set_item_mem (<[x := set_it_badblock true it]> (item_mem (dst st))) (dst st)) st) L G P.
Proof.
  intros Hi Hx. destruct (io_dev _ _ _ (ci_item _ _ _ _ Hi x it Hx)) as (d & dv & Hrd & _).
  destruct (ci_used _ _ _ _ Hi x it Hx) as [Hu Hp].
  assert (cache_inv (set_dst (set_devs (<[d := set_d_used (d_used dv) dv]> (devs (dst st)))
    (set_item_mem (<[x := set_it_badblock true it]> (item_mem (dst st))) (dst st))) st) L G P) as Hc.
  { apply (cache_inv_holders st L G P G P x it (set_it_badblock true it) d dv); try done;
      try apply (ci_putters _ _ _ _ Hi); [apply (ci_held _ _ _ _ Hi)|by apply (ci_dused _ _ _ _ Hi _ d)]. }
  replace (set_d_used (d_used dv) dv) with dv in Hc by (by destruct dv).
  rewrite insert_id in Hc by apply Hrd. exact Hc.
Qed.

(** Whether the item goes when its request ends. *)
Definition discards (r : ohc_request_t) (it : ohc_item_t) : bool :=
  r_disk_error r || it_deleted it || (it_putting it && (r_process_size r <? it_length it)).

Lemma release_run {B} st G P G' P' x it d dv (K : ohc_item_t → M (sstore AS IS PS) B) :
  cache_inv st None G P → im st None !! x = Some it → registered (dst st) (it_device_index it) d dv →
  releases G P x G' P' → Z.of_nat (length G) < 65536 →
  (d ← lift (device_of_item x);
   lift (upd_dev d (λ dv, set_d_used (d_used dv - 1) dv));;
   it ← lift (load_item x);
   (if it_putting it then lift (upd_item x (set_it_putting false))
    else lift (upd_item x (set_it_used (u16 (it_used it - 1)))));; K it) st =
  K it (set_dst (set_devs (<[d := set_d_used (d_used dv - 1) dv]> (devs (dst st)))
               (set_item_mem (<[x := released it]> (item_mem (dst st))) (dst st))) st).
Proof.
  intros Hi Hx Hrd Hrel Hlen. destruct (im_lookup _ _ _ _ Hx) as [Hxm _].
  assert (u16 (it_used it - 1) = it_used it - 1 ∨ it_putting it = true) as Eu.
  { destruct (it_putting it) eqn:Ep; [by right|left]. apply wrap_small.
    destruct (ci_used _ _ _ _ Hi x it Hx) as [Hu Hp]. pose proof (count_of_le x G).
    assert (count_of x G ≠ 0); [|lia]. rewrite count_of_zero. intros Hn. apply Hn.
    destruct Hrel as [(HP & _)|(_ & HG & _)]; [apply Hp in HP; congruence|]. rewrite HG. apply list_elem_of_here. }
  erewrite bind_ret; [|apply (device_of_item_run st x it d); [done|apply Hrd]].
  erewrite bind_ret; [|apply (upd_dev_used_run _ d dv); apply Hrd].
  erewrite bind_ret; [|apply (lift_load_item_run _ x it); exact Hxm].
  unfold released. destruct (it_putting it) eqn:Ep.
  - erewrite bind_ret; [|apply lift_run; apply (upd_item_run _ x _ it); exact Hxm]. reflexivity.
  - destruct Eu as [Eu|?]; [|done].
    erewrite bind_ret; [|apply lift_run; apply (upd_item_run _ x _ it); exact Hxm]. rewrite Eu. reflexivity.
Qed.

Lemma server_request_finalize_spec r x st G P G' P' :
  cache_inv st None G P → r_item r = Some x → releases G P x G' P' → Z.of_nat (length G) < 65536 →
  ∃ it it' st', server_request_finalize kmalloc r st = Ret (set_r_item None r, st') ∧
    cache_inv st' None G' P' ∧ item_mem (dst st) !! x = Some it ∧
    (∀ y, y ≠ x → item_mem (dst st') !! y = item_mem (dst st) !! y) ∧
    item_mem (dst st') !! x =
      (if discards r it then (if decide (x ∈ G' ++ P') then Some it' else None) else Some (released it)) ∧
    it_deleted it' = true ∧
    (discards r it = false → ∃ d dv, registered (dst st) (it_device_index it) d dv ∧
       st' = set_dst (set_devs (<[d := set_d_used (d_used dv - 1) dv]> (devs (dst st)))
               (set_item_mem (<[x := released it]> (item_mem (dst st))) (dst st))) st).
Proof.
  intros Hi Er Hrel Hlen. pose proof (releases_perm _ _ _ _ _ _ Hi Hrel) as Hperm.
  destruct (ci_held _ _ _ _ Hi x) as [it Hx]; [rewrite <- Hperm; apply list_elem_of_here|].
  destruct (im_lookup _ _ _ _ Hx) as [Hxm _].
  destruct (io_dev _ _ _ (ci_item _ _ _ _ Hi x it Hx)) as (d & dv & Hrd & _).
  pose proof (cache_inv_release st G P G' P' x it d dv Hi Hx Hrd Hrel) as Hi1.
  unfold server_request_finalize. rewrite Er.
  rewrite (release_run st G P G' P' x it d dv _ Hi Hx Hrd Hrel Hlen).
  set (st1 := set_dst _ st) in *.
  assert (im st1 None !! x = Some (released it)) as Hx1 by apply lookup_insert_eq.
  assert (∀ y, y ≠ x → item_mem (dst st1) !! y = item_mem (dst st) !! y) as Hf1
    by (intros y Hne; by apply lookup_insert_ne).
  unfold discards. cbn [r_disk_error r_process_size set_r_item].
  destruct (r_disk_error r) eqn:Ed; cbn [orb].
  - pose proof (cache_inv_badblock _ _ _ _ _ _ Hi1 Hx1) as Hi2.
    set (st2 := set_dst _ st1) in Hi2.
    destruct (server_item_delete_spec kmalloc Hkm st2 None G' P' x (set_it_badblock true (released it)) Hi2)
      as (st3 & E3 & Hi3 & (_ & _ & Hf3 & _) & Em); [apply lookup_insert_eq|].
    exists it, (set_it_deleted true (set_it_badblock true (released it))), st3. split_and!; try done.
    + erewrite bind_ret; [reflexivity|]. 
      erewrite bind_ret; [|apply lift_run, upd_item_run; exact Hx1]. exact E3.
    + intros y Hne. rewrite Hf3 by done. unfold st2. simpl. rewrite lookup_insert_ne by done. by apply Hf1.
  - destruct (it_deleted it || it_putting it && (r_process_size r <? it_length it)) eqn:Edisc.
    + destruct (server_item_delete_spec kmalloc Hkm st1 None G' P' x (released it) Hi1 Hx1)
        as (st3 & E3 & Hi3 & (_ & _ & Hf3 & _) & Em).
      exists it, (set_it_deleted true (released it)), st3. split_and!; try done.
      * erewrite bind_ret; [|exact E3]. done.
      * intros y Hne. rewrite Hf3 by done. by apply Hf1.
      * by rewrite Edisc.
      * congruence.
    + exists it, (set_it_deleted true (released it)), st1. rewrite Edisc. split_and!; try done. intros _. by exists d, dv.
Qed.
End finalize.
