(* ===== verification/Conf.v ===== *)
(** * conf.c: the configuration file

    A file is a list of bytes; [fs] is what [fopen] finds under a name.  A
    [char *] into a line is the rest of the line from there.  A server of the
    configuration is an [ohc_server_t] of which only the settings are used yet:
    [server_conf].  The handlers write through [offsetof]; here each command
    names the field it sets.  [conf_set_int] stores an [int] also where the
    field has eight bytes: [low32] keeps the upper half.

    [conf_parse_file] counts the depth of includes; its recursion is on what is
    left of the eleven levels, its loop on the bytes left to read. *)

From Stdlib Require Import String.
From stdpp Require Import prelude fin_maps gmap.
From S2P Require Import Prelude StrUtil Hash Device Http Server.

Definition PATH_LENGTH : nat := 1024.

(** ** State *)

(** An [ohc_server_t] of the configuration; [hash] may be NULL, and what is not
    here is zero. *)
Record server_conf := SConf {
  sc_listen_port : Z;
  sc_listen_fd : Z;
  sc_hash : option (ohc_hash_t snode);
  sc_conf : option Z;
  sc_access_filp : option Z;
  sc_capacity : Z;
  sc_access_log : list Z;
  sc_connections_limit : Z;
  sc_rcvbuf : Z;
  sc_sndbuf : Z;
  sc_recv_timeout : Z;
  sc_request_timeout : Z;
  sc_send_timeout : Z;
  sc_expire_default : Z;
  sc_expire_force : Z;
  sc_keepalive_timeout : Z;
  sc_item_max_size : Z;
  sc_key_include_host : bool;
  sc_key_include_ohc_key : bool;
  sc_key_include_query : bool;
  sc_server_dump : bool;
  sc_shutdown_if_not_store : bool;
  sc_passby_enable : bool;
  sc_passby_begin_item_nr : Z;
  sc_passby_begin_consumed : Z;
  sc_passby_limit_nr : Z;
  sc_passby_expire : Z;
  sc_status_period : Z
}.

(** [ohc_conf_t] *)
Record ohc_conf_t := Conf {
  cf_threads : Z;
  cf_device_badblock_percent : Z;
  cf_device_check_270G : bool;
  cf_quit_timeout : Z;
  cf_error_log : list Z;
  cf_error_filp : option Z;
  cf_servers : list Z;
  cf_devices : list Z
}.

(** The static variables of conf.c and the servers and devices it allocated,
    by address. *)
Record cstate := CState {
  conf_cycle : ohc_conf_t;
  default_server : server_conf;
  reserved_servers : list Z;
  reserved_devices : list Z;
  cservers : gmap Z server_conf;
  cdevices : gmap Z ohc_device_t;
  conf_first : bool
}.

Definition set_sc_listen_port (v : Z) (r : server_conf) : server_conf :=
    SConf v (sc_listen_fd r) (sc_hash r) (sc_conf r) (sc_access_filp r) (sc_capacity r)
    (sc_access_log r) (sc_connections_limit r) (sc_rcvbuf r) (sc_sndbuf r) (sc_recv_timeout r)
    (sc_request_timeout r) (sc_send_timeout r) (sc_expire_default r) (sc_expire_force r)
    (sc_keepalive_timeout r) (sc_item_max_size r) (sc_key_include_host r) (sc_key_include_ohc_key
    r) (sc_key_include_query r) (sc_server_dump r) (sc_shutdown_if_not_store r) (sc_passby_enable
    r) (sc_passby_begin_item_nr r) (sc_passby_begin_consumed r) (sc_passby_limit_nr r)
    (sc_passby_expire r) (sc_status_period r).
Definition set_sc_listen_fd (v : Z) (r : server_conf) : server_conf :=
    SConf (sc_listen_port r) v (sc_hash r) (sc_conf r) (sc_access_filp r) (sc_capacity r)
    (sc_access_log r) (sc_connections_limit r) (sc_rcvbuf r) (sc_sndbuf r) (sc_recv_timeout r)
    (sc_request_timeout r) (sc_send_timeout r) (sc_expire_default r) (sc_expire_force r)
    (sc_keepalive_timeout r) (sc_item_max_size r) (sc_key_include_host r) (sc_key_include_ohc_key
    r) (sc_key_include_query r) (sc_server_dump r) (sc_shutdown_if_not_store r) (sc_passby_enable
    r) (sc_passby_begin_item_nr r) (sc_passby_begin_consumed r) (sc_passby_limit_nr r)
    (sc_passby_expire r) (sc_status_period r).
Definition set_sc_hash (v : option (ohc_hash_t snode)) (r : server_conf) : server_conf :=
    SConf (sc_listen_port r) (sc_listen_fd r) v (sc_conf r) (sc_access_filp r) (sc_capacity r)
    (sc_access_log r) (sc_connections_limit r) (sc_rcvbuf r) (sc_sndbuf r) (sc_recv_timeout r)
    (sc_request_timeout r) (sc_send_timeout r) (sc_expire_default r) (sc_expire_force r)
    (sc_keepalive_timeout r) (sc_item_max_size r) (sc_key_include_host r) (sc_key_include_ohc_key
    r) (sc_key_include_query r) (sc_server_dump r) (sc_shutdown_if_not_store r) (sc_passby_enable
    r) (sc_passby_begin_item_nr r) (sc_passby_begin_consumed r) (sc_passby_limit_nr r)
    (sc_passby_expire r) (sc_status_period r).
Definition set_sc_conf (v : option Z) (r : server_conf) : server_conf :=
    SConf (sc_listen_port r) (sc_listen_fd r) (sc_hash r) v (sc_access_filp r) (sc_capacity r)
    (sc_access_log r) (sc_connections_limit r) (sc_rcvbuf r) (sc_sndbuf r) (sc_recv_timeout r)
    (sc_request_timeout r) (sc_send_timeout r) (sc_expire_default r) (sc_expire_force r)
    (sc_keepalive_timeout r) (sc_item_max_size r) (sc_key_include_host r) (sc_key_include_ohc_key
    r) (sc_key_include_query r) (sc_server_dump r) (sc_shutdown_if_not_store r) (sc_passby_enable
    r) (sc_passby_begin_item_nr r) (sc_passby_begin_consumed r) (sc_passby_limit_nr r)
    (sc_passby_expire r) (sc_status_period r).
Definition set_sc_access_filp (v : option Z) (r : server_conf) : server_conf :=
    SConf (sc_listen_port r) (sc_listen_fd r) (sc_hash r) (sc_conf r) v (sc_capacity r)
    (sc_access_log r) (sc_connections_limit r) (sc_rcvbuf r) (sc_sndbuf r) (sc_recv_timeout r)
    (sc_request_timeout r) (sc_send_timeout r) (sc_expire_default r) (sc_expire_force r)
    (sc_keepalive_timeout r) (sc_item_max_size r) (sc_key_include_host r) (sc_key_include_ohc_key
    r) (sc_key_include_query r) (sc_server_dump r) (sc_shutdown_if_not_store r) (sc_passby_enable
    r) (sc_passby_begin_item_nr r) (sc_passby_begin_consumed r) (sc_passby_limit_nr r)
    (sc_passby_expire r) (sc_status_period r).
Definition set_sc_capacity (v : Z) (r : server_conf) : server_conf :=
    SConf (sc_listen_port r) (sc_listen_fd r) (sc_hash r) (sc_conf r) (sc_access_filp r) v
    (sc_access_log r) (sc_connections_limit r) (sc_rcvbuf r) (sc_sndbuf r) (sc_recv_timeout r)
    (sc_request_timeout r) (sc_send_timeout r) (sc_expire_default r) (sc_expire_force r)
    (sc_keepalive_timeout r) (sc_item_max_size r) (sc_key_include_host r) (sc_key_include_ohc_key
    r) (sc_key_include_query r) (sc_server_dump r) (sc_shutdown_if_not_store r) (sc_passby_enable
    r) (sc_passby_begin_item_nr r) (sc_passby_begin_consumed r) (sc_passby_limit_nr r)
    (sc_passby_expire r) (sc_status_period r).
Definition set_sc_access_log (v : list Z) (r : server_conf) : server_conf :=
    SConf (sc_listen_port r) (sc_listen_fd r) (sc_hash r) (sc_conf r) (sc_access_filp r)
    (sc_capacity r) v (sc_connections_limit r) (sc_rcvbuf r) (sc_sndbuf r) (sc_recv_timeout r)
    (sc_request_timeout r) (sc_send_timeout r) (sc_expire_default r) (sc_expire_force r)
    (sc_keepalive_timeout r) (sc_item_max_size r) (sc_key_include_host r) (sc_key_include_ohc_key
    r) (sc_key_include_query r) (sc_server_dump r) (sc_shutdown_if_not_store r) (sc_passby_enable
    r) (sc_passby_begin_item_nr r) (sc_passby_begin_consumed r) (sc_passby_limit_nr r)
    (sc_passby_expire r) (sc_status_period r).
Definition set_sc_connections_limit (v : Z) (r : server_conf) : server_conf :=
    SConf (sc_listen_port r) (sc_listen_fd r) (sc_hash r) (sc_conf r) (sc_access_filp r)
    (sc_capacity r) (sc_access_log r) v (sc_rcvbuf r) (sc_sndbuf r) (sc_recv_timeout r)
    (sc_request_timeout r) (sc_send_timeout r) (sc_expire_default r) (sc_expire_force r)
    (sc_keepalive_timeout r) (sc_item_max_size r) (sc_key_include_host r) (sc_key_include_ohc_key
    r) (sc_key_include_query r) (sc_server_dump r) (sc_shutdown_if_not_store r) (sc_passby_enable
    r) (sc_passby_begin_item_nr r) (sc_passby_begin_consumed r) (sc_passby_limit_nr r)
    (sc_passby_expire r) (sc_status_period r).
Definition set_sc_rcvbuf (v : Z) (r : server_conf) : server_conf :=
    SConf (sc_listen_port r) (sc_listen_fd r) (sc_hash r) (sc_conf r) (sc_access_filp r)
    (sc_capacity r) (sc_access_log r) (sc_connections_limit r) v (sc_sndbuf r) (sc_recv_timeout r)
    (sc_request_timeout r) (sc_send_timeout r) (sc_expire_default r) (sc_expire_force r)
    (sc_keepalive_timeout r) (sc_item_max_size r) (sc_key_include_host r) (sc_key_include_ohc_key
    r) (sc_key_include_query r) (sc_server_dump r) (sc_shutdown_if_not_store r) (sc_passby_enable
    r) (sc_passby_begin_item_nr r) (sc_passby_begin_consumed r) (sc_passby_limit_nr r)
    (sc_passby_expire r) (sc_status_period r).
Definition set_sc_sndbuf (v : Z) (r : server_conf) : server_conf :=
    SConf (sc_listen_port r) (sc_listen_fd r) (sc_hash r) (sc_conf r) (sc_access_filp r)
    (sc_capacity r) (sc_access_log r) (sc_connections_limit r) (sc_rcvbuf r) v (sc_recv_timeout r)
    (sc_request_timeout r) (sc_send_timeout r) (sc_expire_default r) (sc_expire_force r)
    (sc_keepalive_timeout r) (sc_item_max_size r) (sc_key_include_host r) (sc_key_include_ohc_key
    r) (sc_key_include_query r) (sc_server_dump r) (sc_shutdown_if_not_store r) (sc_passby_enable
    r) (sc_passby_begin_item_nr r) (sc_passby_begin_consumed r) (sc_passby_limit_nr r)
    (sc_passby_expire r) (sc_status_period r).
Definition set_sc_recv_timeout (v : Z) (r : server_conf) : server_conf :=
    SConf (sc_listen_port r) (sc_listen_fd r) (sc_hash r) (sc_conf r) (sc_access_filp r)
    (sc_capacity r) (sc_access_log r) (sc_connections_limit r) (sc_rcvbuf r) (sc_sndbuf r) v
    (sc_request_timeout r) (sc_send_timeout r) (sc_expire_default r) (sc_expire_force r)
    (sc_keepalive_timeout r) (sc_item_max_size r) (sc_key_include_host r) (sc_key_include_ohc_key
    r) (sc_key_include_query r) (sc_server_dump r) (sc_shutdown_if_not_store r) (sc_passby_enable
    r) (sc_passby_begin_item_nr r) (sc_passby_begin_consumed r) (sc_passby_limit_nr r)
    (sc_passby_expire r) (sc_status_period r).
Definition set_sc_request_timeout (v : Z) (r : server_conf) : server_conf :=
    SConf (sc_listen_port r) (sc_listen_fd r) (sc_hash r) (sc_conf r) (sc_access_filp r)
    (sc_capacity r) (sc_access_log r) (sc_connections_limit r) (sc_rcvbuf r) (sc_sndbuf r)
    (sc_recv_timeout r) v (sc_send_timeout r) (sc_expire_default r) (sc_expire_force r)
    (sc_keepalive_timeout r) (sc_item_max_size r) (sc_key_include_host r) (sc_key_include_ohc_key
    r) (sc_key_include_query r) (sc_server_dump r) (sc_shutdown_if_not_store r) (sc_passby_enable
    r) (sc_passby_begin_item_nr r) (sc_passby_begin_consumed r) (sc_passby_limit_nr r)
    (sc_passby_expire r) (sc_status_period r).
Definition set_sc_send_timeout (v : Z) (r : server_conf) : server_conf :=
    SConf (sc_listen_port r) (sc_listen_fd r) (sc_hash r) (sc_conf r) (sc_access_filp r)
    (sc_capacity r) (sc_access_log r) (sc_connections_limit r) (sc_rcvbuf r) (sc_sndbuf r)
    (sc_recv_timeout r) (sc_request_timeout r) v (sc_expire_default r) (sc_expire_force r)
    (sc_keepalive_timeout r) (sc_item_max_size r) (sc_key_include_host r) (sc_key_include_ohc_key
    r) (sc_key_include_query r) (sc_server_dump r) (sc_shutdown_if_not_store r) (sc_passby_enable
    r) (sc_passby_begin_item_nr r) (sc_passby_begin_consumed r) (sc_passby_limit_nr r)
    (sc_passby_expire r) (sc_status_period r).
Definition set_sc_expire_default (v : Z) (r : server_conf) : server_conf :=
    SConf (sc_listen_port r) (sc_listen_fd r) (sc_hash r) (sc_conf r) (sc_access_filp r)
    (sc_capacity r) (sc_access_log r) (sc_connections_limit r) (sc_rcvbuf r) (sc_sndbuf r)
    (sc_recv_timeout r) (sc_request_timeout r) (sc_send_timeout r) v (sc_expire_force r)
    (sc_keepalive_timeout r) (sc_item_max_size r) (sc_key_include_host r) (sc_key_include_ohc_key
    r) (sc_key_include_query r) (sc_server_dump r) (sc_shutdown_if_not_store r) (sc_passby_enable
    r) (sc_passby_begin_item_nr r) (sc_passby_begin_consumed r) (sc_passby_limit_nr r)
    (sc_passby_expire r) (sc_status_period r).
Definition set_sc_expire_force (v : Z) (r : server_conf) : server_conf :=
    SConf (sc_listen_port r) (sc_listen_fd r) (sc_hash r) (sc_conf r) (sc_access_filp r)
    (sc_capacity r) (sc_access_log r) (sc_connections_limit r) (sc_rcvbuf r) (sc_sndbuf r)
    (sc_recv_timeout r) (sc_request_timeout r) (sc_send_timeout r) (sc_expire_default r) v
    (sc_keepalive_timeout r) (sc_item_max_size r) (sc_key_include_host r) (sc_key_include_ohc_key
    r) (sc_key_include_query r) (sc_server_dump r) (sc_shutdown_if_not_store r) (sc_passby_enable
    r) (sc_passby_begin_item_nr r) (sc_passby_begin_consumed r) (sc_passby_limit_nr r)
    (sc_passby_expire r) (sc_status_period r).
Definition set_sc_keepalive_timeout (v : Z) (r : server_conf) : server_conf :=
    SConf (sc_listen_port r) (sc_listen_fd r) (sc_hash r) (sc_conf r) (sc_access_filp r)
    (sc_capacity r) (sc_access_log r) (sc_connections_limit r) (sc_rcvbuf r) (sc_sndbuf r)
    (sc_recv_timeout r) (sc_request_timeout r) (sc_send_timeout r) (sc_expire_default r)
    (sc_expire_force r) v (sc_item_max_size r) (sc_key_include_host r) (sc_key_include_ohc_key r)
    (sc_key_include_query r) (sc_server_dump r) (sc_shutdown_if_not_store r) (sc_passby_enable r)
    (sc_passby_begin_item_nr r) (sc_passby_begin_consumed r) (sc_passby_limit_nr r)
    (sc_passby_expire r) (sc_status_period r).
Definition set_sc_item_max_size (v : Z) (r : server_conf) : server_conf :=
    SConf (sc_listen_port r) (sc_listen_fd r) (sc_hash r) (sc_conf r) (sc_access_filp r)
    (sc_capacity r) (sc_access_log r) (sc_connections_limit r) (sc_rcvbuf r) (sc_sndbuf r)
    (sc_recv_timeout r) (sc_request_timeout r) (sc_send_timeout r) (sc_expire_default r)
    (sc_expire_force r) (sc_keepalive_timeout r) v (sc_key_include_host r) (sc_key_include_ohc_key
    r) (sc_key_include_query r) (sc_server_dump r) (sc_shutdown_if_not_store r) (sc_passby_enable
    r) (sc_passby_begin_item_nr r) (sc_passby_begin_consumed r) (sc_passby_limit_nr r)
    (sc_passby_expire r) (sc_status_period r).
Definition set_sc_key_include_host (v : bool) (r : server_conf) : server_conf :=
    SConf (sc_listen_port r) (sc_listen_fd r) (sc_hash r) (sc_conf r) (sc_access_filp r)
    (sc_capacity r) (sc_access_log r) (sc_connections_limit r) (sc_rcvbuf r) (sc_sndbuf r)
    (sc_recv_timeout r) (sc_request_timeout r) (sc_send_timeout r) (sc_expire_default r)
    (sc_expire_force r) (sc_keepalive_timeout r) (sc_item_max_size r) v (sc_key_include_ohc_key r)
    (sc_key_include_query r) (sc_server_dump r) (sc_shutdown_if_not_store r) (sc_passby_enable r)
    (sc_passby_begin_item_nr r) (sc_passby_begin_consumed r) (sc_passby_limit_nr r)
    (sc_passby_expire r) (sc_status_period r).
Definition set_sc_key_include_ohc_key (v : bool) (r : server_conf) : server_conf :=
    SConf (sc_listen_port r) (sc_listen_fd r) (sc_hash r) (sc_conf r) (sc_access_filp r)
    (sc_capacity r) (sc_access_log r) (sc_connections_limit r) (sc_rcvbuf r) (sc_sndbuf r)
    (sc_recv_timeout r) (sc_request_timeout r) (sc_send_timeout r) (sc_expire_default r)
    (sc_expire_force r) (sc_keepalive_timeout r) (sc_item_max_size r) (sc_key_include_host r) v
    (sc_key_include_query r) (sc_server_dump r) (sc_shutdown_if_not_store r) (sc_passby_enable r)
    (sc_passby_begin_item_nr r) (sc_passby_begin_consumed r) (sc_passby_limit_nr r)
    (sc_passby_expire r) (sc_status_period r).
Definition set_sc_key_include_query (v : bool) (r : server_conf) : server_conf :=
    SConf (sc_listen_port r) (sc_listen_fd r) (sc_hash r) (sc_conf r) (sc_access_filp r)
    (sc_capacity r) (sc_access_log r) (sc_connections_limit r) (sc_rcvbuf r) (sc_sndbuf r)
    (sc_recv_timeout r) (sc_request_timeout r) (sc_send_timeout r) (sc_expire_default r)
    (sc_expire_force r) (sc_keepalive_timeout r) (sc_item_max_size r) (sc_key_include_host r)
    (sc_key_include_ohc_key r) v (sc_server_dump r) (sc_shutdown_if_not_store r) (sc_passby_enable
    r) (sc_passby_begin_item_nr r) (sc_passby_begin_consumed r) (sc_passby_limit_nr r)
    (sc_passby_expire r) (sc_status_period r).
Definition set_sc_server_dump (v : bool) (r : server_conf) : server_conf :=
    SConf (sc_listen_port r) (sc_listen_fd r) (sc_hash r) (sc_conf r) (sc_access_filp r)
    (sc_capacity r) (sc_access_log r) (sc_connections_limit r) (sc_rcvbuf r) (sc_sndbuf r)
    (sc_recv_timeout r) (sc_request_timeout r) (sc_send_timeout r) (sc_expire_default r)
    (sc_expire_force r) (sc_keepalive_timeout r) (sc_item_max_size r) (sc_key_include_host r)
    (sc_key_include_ohc_key r) (sc_key_include_query r) v (sc_shutdown_if_not_store r)
    (sc_passby_enable r) (sc_passby_begin_item_nr r) (sc_passby_begin_consumed r)
    (sc_passby_limit_nr r) (sc_passby_expire r) (sc_status_period r).
Definition set_sc_shutdown_if_not_store (v : bool) (r : server_conf) : server_conf :=
    SConf (sc_listen_port r) (sc_listen_fd r) (sc_hash r) (sc_conf r) (sc_access_filp r)
    (sc_capacity r) (sc_access_log r) (sc_connections_limit r) (sc_rcvbuf r) (sc_sndbuf r)
    (sc_recv_timeout r) (sc_request_timeout r) (sc_send_timeout r) (sc_expire_default r)
    (sc_expire_force r) (sc_keepalive_timeout r) (sc_item_max_size r) (sc_key_include_host r)
    (sc_key_include_ohc_key r) (sc_key_include_query r) (sc_server_dump r) v (sc_passby_enable r)
    (sc_passby_begin_item_nr r) (sc_passby_begin_consumed r) (sc_passby_limit_nr r)
    (sc_passby_expire r) (sc_status_period r).
Definition set_sc_passby_enable (v : bool) (r : server_conf) : server_conf :=
    SConf (sc_listen_port r) (sc_listen_fd r) (sc_hash r) (sc_conf r) (sc_access_filp r)
    (sc_capacity r) (sc_access_log r) (sc_connections_limit r) (sc_rcvbuf r) (sc_sndbuf r)
    (sc_recv_timeout r) (sc_request_timeout r) (sc_send_timeout r) (sc_expire_default r)
    (sc_expire_force r) (sc_keepalive_timeout r) (sc_item_max_size r) (sc_key_include_host r)
    (sc_key_include_ohc_key r) (sc_key_include_query r) (sc_server_dump r)
    (sc_shutdown_if_not_store r) v (sc_passby_begin_item_nr r) (sc_passby_begin_consumed r)
    (sc_passby_limit_nr r) (sc_passby_expire r) (sc_status_period r).
Definition set_sc_passby_begin_item_nr (v : Z) (r : server_conf) : server_conf :=
    SConf (sc_listen_port r) (sc_listen_fd r) (sc_hash r) (sc_conf r) (sc_access_filp r)
    (sc_capacity r) (sc_access_log r) (sc_connections_limit r) (sc_rcvbuf r) (sc_sndbuf r)
    (sc_recv_timeout r) (sc_request_timeout r) (sc_send_timeout r) (sc_expire_default r)
    (sc_expire_force r) (sc_keepalive_timeout r) (sc_item_max_size r) (sc_key_include_host r)
    (sc_key_include_ohc_key r) (sc_key_include_query r) (sc_server_dump r)
    (sc_shutdown_if_not_store r) (sc_passby_enable r) v (sc_passby_begin_consumed r)
    (sc_passby_limit_nr r) (sc_passby_expire r) (sc_status_period r).
Definition set_sc_passby_begin_consumed (v : Z) (r : server_conf) : server_conf :=
    SConf (sc_listen_port r) (sc_listen_fd r) (sc_hash r) (sc_conf r) (sc_access_filp r)
    (sc_capacity r) (sc_access_log r) (sc_connections_limit r) (sc_rcvbuf r) (sc_sndbuf r)
    (sc_recv_timeout r) (sc_request_timeout r) (sc_send_timeout r) (sc_expire_default r)
    (sc_expire_force r) (sc_keepalive_timeout r) (sc_item_max_size r) (sc_key_include_host r)
    (sc_key_include_ohc_key r) (sc_key_include_query r) (sc_server_dump r)
    (sc_shutdown_if_not_store r) (sc_passby_enable r) (sc_passby_begin_item_nr r) v
    (sc_passby_limit_nr r) (sc_passby_expire r) (sc_status_period r).
Definition set_sc_passby_limit_nr (v : Z) (r : server_conf) : server_conf :=
    SConf (sc_listen_port r) (sc_listen_fd r) (sc_hash r) (sc_conf r) (sc_access_filp r)
    (sc_capacity r) (sc_access_log r) (sc_connections_limit r) (sc_rcvbuf r) (sc_sndbuf r)
    (sc_recv_timeout r) (sc_request_timeout r) (sc_send_timeout r) (sc_expire_default r)
    (sc_expire_force r) (sc_keepalive_timeout r) (sc_item_max_size r) (sc_key_include_host r)
    (sc_key_include_ohc_key r) (sc_key_include_query r) (sc_server_dump r)
    (sc_shutdown_if_not_store r) (sc_passby_enable r) (sc_passby_begin_item_nr r)
    (sc_passby_begin_consumed r) v (sc_passby_expire r) (sc_status_period r).
Definition set_sc_passby_expire (v : Z) (r : server_conf) : server_conf :=
    SConf (sc_listen_port r) (sc_listen_fd r) (sc_hash r) (sc_conf r) (sc_access_filp r)
    (sc_capacity r) (sc_access_log r) (sc_connections_limit r) (sc_rcvbuf r) (sc_sndbuf r)
    (sc_recv_timeout r) (sc_request_timeout r) (sc_send_timeout r) (sc_expire_default r)
    (sc_expire_force r) (sc_keepalive_timeout r) (sc_item_max_size r) (sc_key_include_host r)
    (sc_key_include_ohc_key r) (sc_key_include_query r) (sc_server_dump r)
    (sc_shutdown_if_not_store r) (sc_passby_enable r) (sc_passby_begin_item_nr r)
    (sc_passby_begin_consumed r) (sc_passby_limit_nr r) v (sc_status_period r).
Definition set_sc_status_period (v : Z) (r : server_conf) : server_conf :=
    SConf (sc_listen_port r) (sc_listen_fd r) (sc_hash r) (sc_conf r) (sc_access_filp r)
    (sc_capacity r) (sc_access_log r) (sc_connections_limit r) (sc_rcvbuf r) (sc_sndbuf r)
    (sc_recv_timeout r) (sc_request_timeout r) (sc_send_timeout r) (sc_expire_default r)
    (sc_expire_force r) (sc_keepalive_timeout r) (sc_item_max_size r) (sc_key_include_host r)
    (sc_key_include_ohc_key r) (sc_key_include_query r) (sc_server_dump r)
    (sc_shutdown_if_not_store r) (sc_passby_enable r) (sc_passby_begin_item_nr r)
    (sc_passby_begin_consumed r) (sc_passby_limit_nr r) (sc_passby_expire r) v.
Definition set_cf_threads (v : Z) (r : ohc_conf_t) : ohc_conf_t :=
    Conf v (cf_device_badblock_percent r) (cf_device_check_270G r) (cf_quit_timeout r)
    (cf_error_log r) (cf_error_filp r) (cf_servers r) (cf_devices r).
Definition set_cf_device_badblock_percent (v : Z) (r : ohc_conf_t) : ohc_conf_t :=
    Conf (cf_threads r) v (cf_device_check_270G r) (cf_quit_timeout r) (cf_error_log r)
    (cf_error_filp r) (cf_servers r) (cf_devices r).
Definition set_cf_device_check_270G (v : bool) (r : ohc_conf_t) : ohc_conf_t :=
    Conf (cf_threads r) (cf_device_badblock_percent r) v (cf_quit_timeout r) (cf_error_log r)
    (cf_error_filp r) (cf_servers r) (cf_devices r).
Definition set_cf_quit_timeout (v : Z) (r : ohc_conf_t) : ohc_conf_t :=
    Conf (cf_threads r) (cf_device_badblock_percent r) (cf_device_check_270G r) v (cf_error_log r)
    (cf_error_filp r) (cf_servers r) (cf_devices r).
Definition set_cf_error_log (v : list Z) (r : ohc_conf_t) : ohc_conf_t :=
    Conf (cf_threads r) (cf_device_badblock_percent r) (cf_device_check_270G r) (cf_quit_timeout
    r) v (cf_error_filp r) (cf_servers r) (cf_devices r).
Definition set_cf_error_filp (v : option Z) (r : ohc_conf_t) : ohc_conf_t :=
    Conf (cf_threads r) (cf_device_badblock_percent r) (cf_device_check_270G r) (cf_quit_timeout
    r) (cf_error_log r) v (cf_servers r) (cf_devices r).
Definition set_cf_servers (v : list Z) (r : ohc_conf_t) : ohc_conf_t :=
    Conf (cf_threads r) (cf_device_badblock_percent r) (cf_device_check_270G r) (cf_quit_timeout
    r) (cf_error_log r) (cf_error_filp r) v (cf_devices r).
Definition set_cf_devices (v : list Z) (r : ohc_conf_t) : ohc_conf_t :=
    Conf (cf_threads r) (cf_device_badblock_percent r) (cf_device_check_270G r) (cf_quit_timeout
    r) (cf_error_log r) (cf_error_filp r) (cf_servers r) v.
Definition set_conf_cycle (v : ohc_conf_t) (r : cstate) : cstate :=
    CState v (default_server r) (reserved_servers r) (reserved_devices r) (cservers r) (cdevices
    r) (conf_first r).
Definition set_default_server (v : server_conf) (r : cstate) : cstate :=
    CState (conf_cycle r) v (reserved_servers r) (reserved_devices r) (cservers r) (cdevices r)
    (conf_first r).
Definition set_reserved_servers (v : list Z) (r : cstate) : cstate :=
    CState (conf_cycle r) (default_server r) v (reserved_devices r) (cservers r) (cdevices r)
    (conf_first r).
Definition set_reserved_devices (v : list Z) (r : cstate) : cstate :=
    CState (conf_cycle r) (default_server r) (reserved_servers r) v (cservers r) (cdevices r)
    (conf_first r).
Definition set_cservers (v : gmap Z server_conf) (r : cstate) : cstate :=
    CState (conf_cycle r) (default_server r) (reserved_servers r) (reserved_devices r) v (cdevices
    r) (conf_first r).
Definition set_cdevices (v : gmap Z ohc_device_t) (r : cstate) : cstate :=
    CState (conf_cycle r) (default_server r) (reserved_servers r) (reserved_devices r) (cservers
    r) v (conf_first r).
Definition set_conf_first (v : bool) (r : cstate) : cstate :=
    CState (conf_cycle r) (default_server r) (reserved_servers r) (reserved_devices r) (cservers
    r) (cdevices r) v.

(** ** Characters and numbers *)

Fixpoint take_while (f : Z → bool) (s : list Z) : list Z :=
  match s with [] => [] | c :: s => if f c then c :: take_while f s else [] end.
Fixpoint drop_while (f : Z → bool) (s : list Z) : list Z :=
  match s with [] => [] | c :: s' => if f c then drop_while f s' else s end.

(** The characters of the string at [s], up to its NUL. *)
Definition cstr (s : list Z) : list Z := take_while (λ c, negb (c =? 0)) s.

Definition is_white (c : Z) : bool := (c =? 9) || (c =? 10) || (c =? 32).
Definition strwhite (s : list Z) : list Z := drop_while (λ c, negb (is_white c)) s.
Definition strnonwhite (s : list Z) : list Z := drop_while is_white s.

(** What [fgets] puts in the buffer, and what is left of the file. *)
Fixpoint fgets_loop (n : nat) (s : list Z) : list Z * list Z :=
  match n, s with
  | O, _ | _, [] => ([], s)
  | S n, c :: s =>
      if c =? 10 then ([c], s) else let r := fgets_loop n s in (c :: r.1, r.2)
  end.
Definition fgets (size : nat) (s : list Z) : option (list Z * list Z) :=
  match s with [] => None | _ => Some (fgets_loop (size - 1) s) end.

(** *** [strtol] and [strtoul] with base 0 *)

Definition digit_of (c : Z) : Z :=
  if (48 <=? c) && (c <=? 57) then c - 48
  else if (97 <=? c) && (c <=? 122) then c - 87
  else if (65 <=? c) && (c <=? 90) then c - 55 else 36.
Fixpoint number (base : Z) (s : list Z) (v : Z) : Z * list Z :=
  match s with
  | [] => (v, [])
  | c :: s' => if digit_of c <? base then number base s' (v * base + digit_of c) else (v, s)
  end.
(** Base 16 behind 0x and a digit, 8 behind 0, else 10; and the digits. *)
Definition number_base (s : list Z) : Z * list Z :=
  match s with
  | 48 :: 120 :: c :: _ | 48 :: 88 :: c :: _ =>
      if digit_of c <? 16 then (16, drop 2 s) else (8, s)
  | 48 :: _ => (8, s)
  | _ => (10, s)
  end.
(** Sign, magnitude and [endp]; None when there is no number. *)
Definition strto (s : list Z) : option (bool * Z * list Z) :=
  let s1 := drop_while is_space s in
  let neg := bool_decide (head s1 = Some 45) in
  let s2 := if neg || bool_decide (head s1 = Some 43) then tail s1 else s1 in
  let b := number_base s2 in
  let r := number b.1 b.2 0 in
  if bool_decide (r.2 = b.2) then None else Some (neg, r.1, r.2).

Definition LONG_MAX : Z := 2 ^ 63 - 1.
Definition INT_MAX : Z := 2 ^ 31 - 1.
Definition strtol (s : list Z) : Z * list Z :=
  match strto s with
  | None => (0, s)
  | Some (neg, v, e) =>
      (if neg : bool then Z.max (- v) (- 2 ^ 63) else Z.min v LONG_MAX, e)
  end.
(** [atoi]: [strtol] in base 10, cut to an [int]. *)
Definition atoi (s : list Z) : Z :=
  let s1 := drop_while is_space s in
  let neg := bool_decide (head s1 = Some 45) in
  let s2 := if neg || bool_decide (head s1 = Some 43) then tail s1 else s1 in
  let v := (number 10 s2 0).1 in
  i32 (if neg then Z.max (- v) (- 2 ^ 63) else Z.min v LONG_MAX).
Definition strtoul0 (s : list Z) : Z * list Z :=
  match strto s with
  | None => (0, s)
  | Some (neg, v, e) =>
      (if 2 ^ 64 <=? v then 2 ^ 64 - 1 else if neg : bool then u64 (- v) else v, e)
  end.

(** ** Arguments

    [inl] is the message of an error. *)

#[local] Instance msg_bind : MBind (sum string) := λ _ _ k c,
  match c with inl msg => inl msg | inr a => k a end.

Definition conf_path (arg : list Z) : string + list Z :=
  if decide (PATH_LENGTH ≤ length arg)%nat then inl "path too long"%string else inr arg.

Definition conf_int (arg : list Z) : string + Z :=
  let r := strtoul0 arg in
  let n := i64 r.1 in
  if negb (bool_decide (r.2 = [])) || (INT_MAX <? n) || (n <? 0)
  then inl "invalid integer"%string else inr n.

Definition conf_size (arg : list Z) : string + Z :=
  let bad := inl "invalid size"%string in
  let r := strtol arg in
  let n := r.1 in
  if bool_decide (strto arg = None) || (n =? LONG_MAX) || (n <? 0) then bad else
  let unit (shift : Z) (endp : list Z) :=
    if negb (bool_decide (endp = [])) then bad else
    if negb (shift =? 0) && negb (Z.land n (u64 (Z.shiftl (2 ^ 64 - 1) (64 - shift))) =? 0)
    then bad else inr (u64 (Z.shiftl n shift)) in
  match r.2 with
  | [] => unit 0 []
  | 84 :: e => unit 40 e
  | 71 :: e => unit 30 e
  | 77 :: e => unit 20 e
  | 75 :: e => unit 10 e
  | _ => bad
  end.

Definition conf_flag (arg : list Z) : string + bool :=
  if decide (arg = bytes "on") then inr true
  else if decide (arg = bytes "off") then inr false
  else inl "invalid flag"%string.

(** ** Commands *)

(** A 32-bit store to a field of 64 bits, on a little-endian machine. *)
Definition low32 (old n : Z) : Z := old / 2 ^ 32 * 2 ^ 32 + n.

Inductive handler :=
  | GInt (set : Z → ohc_conf_t → ohc_conf_t)
  | GPath (set : list Z → ohc_conf_t → ohc_conf_t)
  | GFlag (set : bool → ohc_conf_t → ohc_conf_t)
  | NewDevice
  | NewServer
  | SInt (set : Z → server_conf → server_conf)
  | SSize (set : Z → server_conf → server_conf)
  | SPath (set : list Z → server_conf → server_conf)
  | SFlag (set : bool → server_conf → server_conf).

Definition g_commands : list (string * handler) := [
  ("threads", GInt set_cf_threads);
  ("error_log", GPath set_cf_error_log);
  ("quit_timeout", GInt (λ n c, set_cf_quit_timeout (low32 (cf_quit_timeout c) n) c));
  ("device_badblock_percent", GInt set_cf_device_badblock_percent);
  ("device_check_270G", GFlag set_cf_device_check_270G);
  ("device", NewDevice);
  ("listen", NewServer);
  ("capacity", SSize set_sc_capacity);
  ("access_log", SPath set_sc_access_log);
  ("connections_limit", SInt set_sc_connections_limit);
  ("rcvbuf", SSize set_sc_rcvbuf);
  ("sndbuf", SSize set_sc_sndbuf);
  ("recv_timeout", SInt set_sc_recv_timeout);
  ("request_timeout", SInt set_sc_request_timeout);
  ("send_timeout", SInt set_sc_send_timeout);
  ("expire_default", SInt (λ n s, set_sc_expire_default (low32 (sc_expire_default s) n) s));
  ("expire_force", SInt (λ n s, set_sc_expire_force (low32 (sc_expire_force s) n) s));
  ("keepalive_timeout", SInt set_sc_keepalive_timeout);
  ("item_max_size", SSize set_sc_item_max_size);
  ("key_include_host", SFlag set_sc_key_include_host);
  ("key_include_ohc_key", SFlag set_sc_key_include_ohc_key);
  ("key_include_query", SFlag set_sc_key_include_query);
  ("server_dump", SFlag set_sc_server_dump);
  ("shutdown_if_not_store", SFlag set_sc_shutdown_if_not_store);
  ("passby_enable", SFlag set_sc_passby_enable);
  ("passby_begin_item_nr",
     SInt (λ n s, set_sc_passby_begin_item_nr (low32 (sc_passby_begin_item_nr s) n) s));
  ("passby_begin_consumed", SSize set_sc_passby_begin_consumed);
  ("passby_limit_nr", SInt (λ n s, set_sc_passby_limit_nr (low32 (sc_passby_limit_nr s) n) s));
  ("passby_expire", SInt (λ n s, set_sc_passby_expire (low32 (sc_passby_expire s) n) s));
  ("status_period", SInt (λ n s, set_sc_status_period (low32 (sc_status_period s) n) s))
]%string.

Definition find_command (cmd : list Z) : option (nat * (string * handler)) :=
  list_find (λ c, cmd = bytes c.1) g_commands.
Definition server_context_begin : nat :=
  match find_command (bytes "listen") with Some (i, _) => i | None => 0 end.

(** A line: the end of the file, nothing, an error, or a command. *)
Inductive line := LDone | LAgain | LError (msg : string) | LCommand (cmd arg : list Z).

Definition conf_readline (fp : list Z) : line * list Z :=
  match fgets PATH_LENGTH fp with
  | None => (LDone, [])
  | Some (buffer, fp) =>
      let comment s := match s with [] => true | c :: _ => c =? 35 end in
      let cmd_start := strnonwhite (cstr buffer) in
      if comment cmd_start then (LAgain, fp) else
      let cmd_end := strwhite cmd_start in
      if bool_decide (cmd_end = []) then (LError "miss argument", fp) else
      let arg_start := strnonwhite cmd_end in
      if bool_decide (arg_start = []) then (LError "miss argument", fp) else
      let arg_end := strwhite arg_start in
      let line_end := strnonwhite arg_end in
      if comment line_end
      then (LCommand (take (length cmd_start - length cmd_end) cmd_start)
                     (take (length arg_start - length arg_end) arg_start), fp)
      else (LError "too many arguments", fp)
  end.

(** [strrchr(filename, '/')]: what is up to the last slash, with it. *)
Fixpoint dir_len (s : list Z) (i : nat) (last : option nat) : option nat :=
  match s with
  | [] => last
  | c :: s => dir_len s (S i) (if c =? 47 then Some (S i) else last)
  end.

(** The path of an included file, in a buffer of [PATH_LENGTH] bytes; a path
    that fills it is not terminated, and [fopen] would read on behind it. *)
Definition included_file (filename arg : list Z) : outcome (list Z) :=
  match dir_len filename 0 None with
  | None => Ret arg
  | Some len =>
      if decide (len + length arg < PATH_LENGTH)%nat then Ret (take len filename ++ arg)
      else Fail OutOfBounds
  end.

Definition device_zero : ohc_device_t :=
  Device false false 0 0 0 [] 0 0 0 0 0 0 0 [] None.

Section parse.
Context (fs : list Z → option (list Z)).
(** The addresses [malloc] gives new servers and devices. *)
Context (malloc_server malloc_device : cstate → option Z).

Definition conf_new_device (arg : list Z) (c : cstate) : string + cstate :=
  match (match reserved_devices c with
         | d :: l => Some (d, set_reserved_devices l c)
         | [] => d ← malloc_device c; Some (d, c)
         end) with
  | None => inl "NoMem"%string
  | Some (d, c) =>
      let dv := set_d_filename arg (set_d_fd (-1) device_zero) in
      let cc := conf_cycle c in
      inr (set_conf_cycle (set_cf_devices (cf_devices cc ++ [d]) cc)
             (set_cdevices (<[d := dv]> (cdevices c)) c))
  end.

Definition conf_new_server (arg : list Z) (c : cstate) : string + cstate :=
  let r := strtol arg in
  if negb (bool_decide (r.2 = [])) || (r.1 <? 0) || (65535 <? r.1) then inl "invalid port"%string
  else
  match (match reserved_servers c with
         | s :: l => Some (s, set_reserved_servers l c)
         | [] => s ← malloc_server c; Some (s, c)
         end) with
  | None => inl "NoMem"%string
  | Some (s, c) =>
      let sv := set_sc_listen_fd (-1) (set_sc_listen_port r.1 (default_server c)) in
      let cc := conf_cycle c in
      inr (set_conf_cycle (set_cf_servers (cf_servers cc ++ [s]) cc)
             (set_cservers (<[s := sv]> (cservers c)) c))
  end.

(** [context] of a server command: the last server, or the default. *)
Definition on_server (f : server_conf → server_conf) (c : cstate) : cstate :=
  match last (cf_servers (conf_cycle c)) with
  | None => set_default_server (f (default_server c)) c
  | Some s => set_cservers (alter f s (cservers c)) c
  end.
Definition on_conf (f : ohc_conf_t → ohc_conf_t) (c : cstate) : cstate :=
  set_conf_cycle (f (conf_cycle c)) c.

Definition set_handler (h : handler) (arg : list Z) (c : cstate) : string + cstate :=
  match h with
  | GInt set => n ← conf_int arg; inr (on_conf (set n) c)
  | GPath set => p ← conf_path arg; inr (on_conf (set p) c)
  | GFlag set => b ← conf_flag arg; inr (on_conf (set b) c)
  | NewDevice => conf_new_device arg c
  | NewServer => conf_new_server arg c
  | SInt set => n ← conf_int arg; inr (on_server (set n) c)
  | SSize set => n ← conf_size arg; inr (on_server (set n) c)
  | SPath set => p ← conf_path arg; inr (on_server (set p) c)
  | SFlag set => b ← conf_flag arg; inr (on_server (set b) c)
  end.

(** A normal command. *)
Definition conf_command (cmd arg : list Z) (c : cstate) : string + cstate :=
  match find_command cmd with
  | None => inl "no command match"%string
  | Some (i, (_, h)) =>
      if decide (i < server_context_begin)%nat then
        if bool_decide (cf_servers (conf_cycle c) = []) then set_handler h arg c
        else inl "global command in server context"%string
      else set_handler h arg c
  end.

(** The loop over the lines of a file; [include] parses another file.  What the
    commands before an error did stays. *)
Fixpoint parse_lines (include : list Z → cstate → outcome (ohc_rc * cstate)) (fuel : nat)
    (filename fp : list Z) (c : cstate) : outcome (string + unit) * cstate :=
  match fuel with
  | O => (Fail Undef, c)
  | S fuel =>
      match conf_readline fp with
      | (LDone, _) => (Ret (inr tt), c)
      | (LAgain, fp) => parse_lines include fuel filename fp c
      | (LError msg, _) => (Ret (inl msg), c)
      | (LCommand cmd arg, fp) =>
          if decide (cmd = bytes "include") then
            match included_file filename arg with
            | Fail f => (Fail f, c)
            | Ret file =>
                match include file c with
                | Fail f => (Fail f, c)
                | Ret (OHC_OK, c) => parse_lines include fuel filename fp c
                | Ret (_, c) => (Ret (inl "error in include file"%string), c)
                end
            end
          else
            match conf_command cmd arg c with
            | inl msg => (Ret (inl msg), c)
            | inr c => parse_lines include fuel filename fp c
            end
      end
  end.

(** [levels] is [11 - deep]. *)
Fixpoint conf_parse_file (levels : nat) (filename : list Z) (c : cstate) :
    outcome (ohc_rc * cstate) :=
  match levels with
  | O => Ret (OHC_ERROR, c)
  | S levels =>
      match fs filename with
      | None => Ret (OHC_ERROR, c)
      | Some fp =>
          match parse_lines (conf_parse_file levels) (S (length fp)) filename fp c with
          | (Fail f, _) => Fail f
          | (Ret (inl _), c) => Ret (OHC_ERROR, c)
          | (Ret (inr _), c) => Ret (OHC_OK, c)
          end
      end
  end.

Definition conf_init : ohc_conf_t := Conf 4 1 true 60 (bytes "error.log") None [] [].
Definition server_init : server_conf :=
  SConf 0 0 None None None
    0 (bytes "access.log") 1000 0 0 60 60 60
    259200 0 60 (Z.shiftl 100 20) false false false
    true false false 1000000 (Z.shiftl 100 30) 1000000 3600 60.

(** [conf_cycle.error_filp] keeps what the last load left there. *)
Definition conf_parse (filename : list Z) (c : cstate) : outcome (option ohc_conf_t * cstate) :=
  let cc := conf_cycle c in
  let c1 := if conf_first c then set_conf_first false c
            else set_reserved_servers (cf_servers cc ++ reserved_servers c)
                   (set_reserved_devices (cf_devices cc ++ reserved_devices c) c) in
  let c2 := set_conf_cycle (set_cf_error_filp (cf_error_filp cc) conf_init)
              (set_default_server server_init c1) in
  match conf_parse_file 11 filename c2 with
  | Fail f => Fail f
  | Ret (OHC_ERROR, c) => Ret (None, c)
  | Ret (_, c) => Ret (Some (conf_cycle c), c)
  end.
End parse.
