(* ===== verification/ConfProofs.v ===== *)
(** * What the configuration parser guarantees

    A line is cut into a command and an argument that fit their buffers; sizes
    are what they say, without overflow; every setting of a parsed configuration
    is in the range of its type; includes end after eleven levels. *)

From Stdlib Require Import String.
From stdpp Require Import prelude fin_maps gmap.
From S2P Require Import Prelude StrUtil Hash Device Http HttpProofs Server Conf.

(** ** Prefixes *)

Section prefixes.
Implicit Types (f : Z → bool) (s : list Z).

Lemma take_drop_while f s : take_while f s ++ drop_while f s = s.
Proof. induction s as [|c s IH]; simpl; [done|]. destruct (f c); simpl; by rewrite ?IH. Qed.

Lemma take_while_all f s : Forall (λ c, f c = true) (take_while f s).
Proof. induction s as [|c s IH]; simpl; [done|]. destruct (f c) eqn:E; by constructor. Qed.

Lemma drop_while_stop f s c s' : drop_while f s = c :: s' → f c = false.
Proof.
  induction s as [|d s IH]; simpl; [done|]. destruct (f d) eqn:E; [done|]. by intros [= <- <-].
Qed.

Lemma drop_while_length f s : (length (drop_while f s) ≤ length s)%nat.
Proof. rewrite <- (take_drop_while f s) at 2. rewrite length_app. lia. Qed.

Lemma take_while_cut f s : take (length s - length (drop_while f s)) s = take_while f s.
Proof.
  rewrite <- (take_drop_while f s) at 1 3. rewrite length_app.
  replace (_ + _ - _)%nat with (length (take_while f s)) by lia. by rewrite take_app_length.
Qed.

Lemma drop_while_app f s1 s2 :
  Forall (λ c, f c = true) s1 → (∀ c s', s2 = c :: s' → f c = false) → drop_while f (s1 ++ s2) = s2.
Proof.
  induction s1 as [|c s1 IH]; simpl; intros H1 H2.
  - destruct s2 as [|c s2]; [done|]. simpl. by rewrite (H2 c s2).
  - apply Forall_cons in H1 as [-> H1]. auto.
Qed.
End prefixes.

(** ** Lines *)

Lemma fgets_loop_spec n s :
  (fgets_loop n s).1 ++ (fgets_loop n s).2 = s ∧ (length (fgets_loop n s).1 ≤ n)%nat ∧
  (s ≠ [] → n ≠ O → (fgets_loop n s).1 ≠ []).
Proof.
  revert s. induction n as [|n IH]; intros s; [by destruct s|]. destruct s as [|c s]; [simpl; split_and!; [done|lia|done]|].
  simpl. destruct (c =? 10); simpl; [split_and!; [done|lia|done]|].
  destruct (IH s) as (E & Hl & _). rewrite E. split_and!; [done|lia|done].
Qed.

(** The shape of a line with a command. *)
Record command_line (l cmd arg : list Z) : Prop := {
  cl_parts : ∃ w1 w2 w3 rest, l = w1 ++ cmd ++ w2 ++ arg ++ w3 ++ rest ∧
    Forall (λ c, is_white c = true) (w1 ++ w2 ++ w3) ∧ w2 ≠ [] ∧
    (rest = [] ∨ ∃ r, rest = 35 :: r);
  cl_cmd : cmd ≠ [] ∧ Forall (λ c, is_white c = false) cmd ∧ head cmd ≠ Some 35;
  cl_arg : arg ≠ [] ∧ Forall (λ c, is_white c = false) arg
}.

Lemma nonwhite_all s : Forall (λ c, is_white c = false) (take_while (λ c, negb (is_white c)) s).
Proof.
  eapply Forall_impl; [apply take_while_all|]. intros c. simpl. by destruct (is_white c).
Qed.

Lemma nonwhite_take s c s' : is_white c = false → s = c :: s' →
  ∃ t, take_while (λ c, negb (is_white c)) s = c :: t.
Proof. intros Hc ->. simpl. rewrite Hc. by eexists. Qed.

Lemma conf_readline_command fp cmd arg fp' :
  conf_readline fp = (LCommand cmd arg, fp') →
  ∃ l, fp = l ++ fp' ∧ l ≠ [] ∧ (length l < PATH_LENGTH)%nat ∧ command_line (cstr l) cmd arg.
Proof.
  unfold conf_readline, fgets. destruct fp as [|c0 fp0]; [done|].
  destruct (fgets_loop_spec (PATH_LENGTH - 1) (c0 :: fp0)) as (El & Hl & Hn).
  destruct (fgets_loop (PATH_LENGTH - 1) (c0 :: fp0)) as [l rest]. cbn [fst snd] in *.
  intros E. exists l.
  set (a := strnonwhite (cstr l)) in E. destruct a as [|ca sa] eqn:Ea; [done|].
  destruct (ca =? 35) eqn:Eca; [done|]. subst a. rewrite <- Ea in E.
  set (b := strwhite (strnonwhite (cstr l))) in E. case_bool_decide as Hb; [done|].
  set (d := strnonwhite b) in E. case_bool_decide as Hd; [done|].
  set (e := strwhite d) in E. set (g := strnonwhite e) in E.
  destruct (match g with [] => true | c :: _ => c =? 35 end) eqn:Eg; [|done].
  injection E as <- <- ->. split_and!; [done|by apply Hn|change (PATH_LENGTH - 1)%nat with 1023%nat in Hl; unfold PATH_LENGTH; lia|].
  subst e b. rewrite !(take_while_cut (λ c, negb (is_white c)) : ∀ s, take (length s - length (strwhite s)) s = _).
  set (nw := λ c, negb (is_white c)).
  assert (is_white ca = false) as Hca by (by apply (drop_while_stop _ _ _ _ Ea)).
  split.
  - exists (take_while is_white (cstr l)), (take_while is_white (drop_while nw (strnonwhite (cstr l)))),
      (take_while is_white (drop_while nw d)), g. split_and!.
    + subst g d. unfold strnonwhite, strwhite. fold nw. rewrite (take_drop_while is_white (drop_while nw _)).
      rewrite (take_drop_while nw), (take_drop_while is_white), (take_drop_while nw). by rewrite take_drop_while.
    + rewrite !Forall_app. split_and!; apply take_while_all.
    + intros Hw. destruct (drop_while nw (strnonwhite (cstr l))) as [|cb sb] eqn:Eb; [done|].
      pose proof (drop_while_stop _ _ _ _ Eb) as Hcb. unfold nw in Hcb. apply negb_false_iff in Hcb.
      simpl in Hw. by rewrite Hcb in Hw.
    + destruct g as [|cg sg]; [by left|]. right. apply Z.eqb_eq in Eg. subst. by eexists.
  - unfold nw. destruct (nonwhite_take _ _ _ Hca Ea) as [t Et]. rewrite Et. split_and!; [done| |].
    + rewrite <- Et. apply nonwhite_all.
    + simpl. intros [= ->]. done.
  - split; [|apply nonwhite_all]. destruct d as [|cd sd] eqn:Ed; [done|].
    assert (is_white cd = false) as Hcd by (by apply (drop_while_stop _ _ _ _ Ed)). simpl. unfold nw. by rewrite Hcd.
Qed.

Lemma conf_readline_shorter fp l fp' :
  conf_readline fp = (l, fp') → l = LDone ∧ fp = [] ∨ l ≠ LDone ∧ (length fp' < length fp)%nat.
Proof.
  unfold conf_readline, fgets. destruct fp as [|c0 fp0]; [left; by simplify_eq|]. right.
  destruct (fgets_loop_spec (PATH_LENGTH - 1) (c0 :: fp0)) as (El & _ & Hn).
  destruct (fgets_loop (PATH_LENGTH - 1) (c0 :: fp0)) as [b rest]. cbn [fst snd] in *.
  assert (length rest < length (c0 :: fp0))%nat as Hlt.
  { rewrite <- El, length_app. destruct b; [by destruct Hn|]. simpl. lia. }
  repeat case_match; simplify_eq; done.
Qed.

(** ** Numbers *)

Lemma number_app base s e v :
  Forall (λ c, digit_of c < base) s → (∀ c e', e = c :: e' → base ≤ digit_of c) →
  number base (s ++ e) v = (foldl (λ v c, v * base + digit_of c) v s, e).
Proof.
  revert v. induction s as [|c s IH]; intros v Hs He; simpl.
  - destruct e as [|c e]; [done|]. simpl. specialize (He c e eq_refl).
    by rewrite (proj2 (Z.ltb_ge _ _) He).
  - apply Forall_cons in Hs as [Hc Hs]. rewrite (proj2 (Z.ltb_lt _ _) Hc). by apply IH.
Qed.

Lemma digit_of_digit c : is_digit c = true → digit_of c = c - 48 ∧ 0 ≤ digit_of c < 10.
Proof.
  intros E. unfold is_digit in E. unfold digit_of. rewrite E. lia.
Qed.

Lemma digits_fold s v : Forall (λ c, is_digit c = true) s →
  foldl (λ v c, v * 10 + digit_of c) v s = foldl add_digit v s.
Proof.
  revert v. induction s as [|c s IH]; intros v Hs; [done|]. apply Forall_cons in Hs as [Hc Hs].
  simpl. rewrite IH by done. f_equal. rewrite (proj1 (digit_of_digit c Hc)). unfold add_digit. lia.
Qed.

Lemma dec_loop_head fuel n acc :
  0 < n < 10 ^ Z.of_nat fuel → ∃ c s, dec_loop fuel n acc = c :: s ∧ 49 ≤ c ≤ 57.
Proof.
  revert n acc. induction fuel as [|fuel IH]; intros n acc Hn; [simpl in Hn; lia|].
  rewrite Nat2Z.inj_succ, Z.pow_succ_r in Hn by lia. cbn [dec_loop].
  destruct (Z.eqb_spec (n / 10) 0) as [E|E].
  - eexists _, _. split; [done|]. assert (n < 10) by dlia. rewrite Z.mod_small by lia. lia.
  - apply IH. split; [|apply Z.div_lt_upper_bound; lia]. pose proof (Z.div_pos n 10). lia.
Qed.

(** The decimal numeral of [n], before what is no digit. *)
Lemma strto_dec n e :
  0 ≤ n < 10 ^ 20 → (∀ c e', e = c :: e' → is_digit c = false ∧ c ≠ 120 ∧ c ≠ 88) →
  strto (dec n ++ e) = Some (false, n, e).
Proof.
  intros Hn He.
  assert (Forall (λ c, is_digit c = true) (dec n)) as Hd by (apply dec_loop_digits; [lia|constructor]).
  assert (∀ c e', e = c :: e' → 10 ≤ digit_of c) as He'.
  { intros c e' ->. destruct (He c e' eq_refl) as [E _]. unfold is_digit in E. unfold digit_of. rewrite E.
    destruct ((97 <=? c) && (c <=? 122)) eqn:E1; [lia|]. destruct ((65 <=? c) && (c <=? 90)) eqn:E2; lia. }
  destruct (dec n) as [|c s] eqn:Es; [by destruct (dec_nonempty n)|].
  apply Forall_cons in Hd as [Hc Hd].
  assert (48 ≤ c ≤ 57) as Hr by (unfold is_digit in Hc; lia).
  unfold strto. cbn [app drop_while]. assert (is_space c = false) as -> by (unfold is_space; lia).
  cbn [head]. rewrite (bool_decide_false (Some c = Some 45)), (bool_decide_false (Some c = Some 43)) by (intros [= ->]; lia).
  cbn [orb].
  assert (∃ b, number_base (c :: s ++ e) = (b, c :: s ++ e) ∧ number b (c :: s ++ e) 0 = (n, e)) as (b & -> & En).
  { destruct (decide (n = 0)) as [->|Hn0].
    - vm_compute in Es. injection Es as <- <-. exists 8. cbn [app].
      destruct e as [|c1 e]; [done|]. destruct (He c1 e eq_refl) as (Hnd & Hx & HX).
      assert (number 8 (48 :: c1 :: e) 0 = (0, c1 :: e)) as ->.
      { apply (number_app 8 [48] (c1 :: e) 0); [by constructor|]. intros ? ? [= <- <-].
        specialize (He' c1 e eq_refl). lia. }
      split; [|done]. unfold number_base. 
      destruct c1 as [|p|p]; try done. by repeat (destruct p as [p|p|]; try done).
    - destruct (dec_loop_head 20 n []) as (c' & s' & E' & Hc'); [lia|].
      unfold dec in Es. rewrite Es in E'. injection E' as <- <-. exists 10. split.
      + destruct c as [|p|p]; try lia. repeat (destruct p as [p|p|]; try reflexivity); lia.
      + rewrite app_comm_cons, number_app, digits_fold.
        * f_equal. rewrite <- (dec_value n) by done. unfold dec. by rewrite Es.
        * by constructor.
        * constructor; [by apply digit_of_digit|]. eapply Forall_impl; [done|]. intros x Hx. by apply digit_of_digit.
        * done. }
  cbn [fst snd]. rewrite En. cbn [fst snd]. rewrite bool_decide_false; [done|].
  intros E. apply (f_equal length) in E. simpl in E. rewrite length_app in E. lia.
Qed.

Lemma digit_of_nonneg c : 0 ≤ digit_of c.
Proof. unfold digit_of. repeat (case_match; [lia|]). lia. Qed.

Lemma number_nonneg base s v : 0 ≤ base → 0 ≤ v → 0 ≤ (number base s v).1.
Proof.
  intros Hb. revert v. induction s as [|c s IH]; intros v Hv; [done|]. cbn [number].
  destruct (digit_of c <? base); [|done]. apply IH. pose proof (digit_of_nonneg c). nia.
Qed.

Lemma strto_nonneg s neg v e : strto s = Some (neg, v, e) → 0 ≤ v.
Proof.
  unfold strto. case_bool_decide; [done|]. intros [= _ <- _]. apply number_nonneg; [|done].
  unfold number_base. repeat case_match; simpl; lia.
Qed.

(** ** Sizes *)

(** K, M, G, T, or nothing. *)
Definition unit_of (e : list Z) : option Z :=
  match e with
  | [] => Some 0
  | [75] => Some 10
  | [77] => Some 20
  | [71] => Some 30
  | [84] => Some 40
  | _ => None
  end.

Lemma high_bits_zero n k : 0 ≤ n < 2 ^ 63 → 0 < k < 64 →
  (Z.land n (u64 (Z.shiftl (2 ^ 64 - 1) (64 - k))) =? 0) = (n * 2 ^ k <? 2 ^ 64).
Proof.
  intros Hn Hk. apply eq_true_iff_eq. rewrite Z.eqb_eq, Z.ltb_lt.
  assert (n * 2 ^ k < 2 ^ 64 ↔ n < 2 ^ (64 - k)) as ->.
  { replace (2 ^ 64) with (2 ^ (64 - k) * 2 ^ k) by (rewrite <- Z.pow_add_r by lia; f_equal; lia).
    symmetry. apply Z.mul_lt_mono_pos_r. lia. }
  assert (∀ i, 0 ≤ i → Z.testbit (u64 (Z.shiftl (2 ^ 64 - 1) (64 - k))) i =
                     (64 - k <=? i) && (i <? 64)) as Ht.
  { intros i Hi. unfold wrap. rewrite Z.testbit_mod_pow2 by lia. rewrite Z.shiftl_spec by lia.
    replace (2 ^ 64 - 1) with (Z.ones 64) by done.
    destruct (Z.leb_spec (64 - k) i).
    - rewrite Z.testbit_ones_nonneg by lia. destruct (i <? 64) eqn:E; [|done]. simpl. lia.
    - rewrite Z.testbit_neg_r by lia. by rewrite andb_false_r. }
  split.
  - intros E. destruct (decide (n < 2 ^ (64 - k))) as [|Hge]; [done|]. exfalso.
    assert (64 - k ≤ Z.log2 n) as Hl by (apply Z.log2_le_pow2; lia).
    assert (Z.log2 n < 63) as Hl2 by (destruct (decide (n = 0)) as [->|]; [done|]; apply Z.log2_lt_pow2; lia).
    assert (0 < n) by (pose proof (Z.pow_pos_nonneg 2 (64 - k)); lia).
    pose proof (Z.bit_log2 n ltac:(lia)) as Hb.
    assert (Z.testbit (Z.land n (u64 (Z.shiftl (2 ^ 64 - 1) (64 - k)))) (Z.log2 n) = true) as Hc.
    { rewrite Z.land_spec, Hb, Ht by lia. lia. }
    rewrite E, Z.bits_0 in Hc. done.
  - intros Hlt. apply Z.bits_inj'. intros i Hi. rewrite Z.land_spec, Ht, Z.bits_0 by done.
    destruct (Z.leb_spec (64 - k) i); [|by rewrite andb_false_r].
    destruct (decide (n = 0)) as [->|]; [by rewrite Z.bits_0|].
    rewrite Z.bits_above_log2; [done|lia|]. apply Z.lt_le_trans with (64 - k); [|done]. apply Z.log2_lt_pow2; lia.
Qed.

Lemma conf_size_iff arg v :
  conf_size arg = inr v ↔ ∃ n e k, strtol arg = (n, e) ∧ strto arg ≠ None ∧ 0 ≤ n < LONG_MAX ∧
    unit_of e = Some k ∧ v = n * 2 ^ k ∧ v < 2 ^ 64.
Proof.
  unfold conf_size. destruct (strtol arg) as [n e] eqn:En. cbn [fst snd].
  case_bool_decide as Hs; cbn [orb]; [split; [done|]; intros (? & ? & ? & ? & ? & _); done|].
  destruct (Z.eqb_spec n LONG_MAX) as [Hm|Hm]; cbn [orb].
  { split; [done|]. intros (n' & e' & k & [= <- <-] & _ & ? & _). lia. }
  destruct (Z.ltb_spec n 0) as [Hn|Hn].
  { split; [done|]. intros (n' & e' & k & [= <- <-] & _ & ? & _). lia. }
  assert (n ≤ LONG_MAX) as Hle.
  { unfold strtol in En. destruct (strto arg) as [[[neg w] e']|] eqn:Ew; [|by injection En as <- _].
    apply strto_nonneg in Ew. injection En as <- _. unfold LONG_MAX in *. destruct neg; lia. }
  assert (∀ k (e' : list Z), 0 ≤ k < 64 → unit_of e = (if decide (e' = []) then Some k else None) →
    (if negb (bool_decide (e' = [])) then inl "invalid size"%string else
     if negb (k =? 0) && negb (Z.land n (u64 (Z.shiftl (2 ^ 64 - 1) (64 - k))) =? 0)
     then inl "invalid size"%string else inr (u64 (Z.shiftl n k))) = inr v ↔
    ∃ n0 e0 k0, (n, e) = (n0, e0) ∧ strto arg ≠ None ∧ 0 ≤ n0 < LONG_MAX ∧
      unit_of e0 = Some k0 ∧ v = n0 * 2 ^ k0 ∧ v < 2 ^ 64) as Hunit.
  { intros k e' Hk Hu. destruct (decide (e' = [])) as [->|He'].
    2:{ rewrite bool_decide_false by done. split; [done|].
        intros (n0 & e0 & k0 & [= <- <-] & _ & _ & Hu' & _). by rewrite Hu in Hu'. }
    rewrite bool_decide_true by done. cbn [negb].
    assert ((negb (k =? 0) && negb (Z.land n (u64 (Z.shiftl (2 ^ 64 - 1) (64 - k))) =? 0)) =
            negb (n * 2 ^ k <? 2 ^ 64)) as ->.
    { destruct (Z.eqb_spec k 0) as [->|]; cbn [negb andb].
      - symmetry. apply negb_false_iff, Z.ltb_lt. unfold LONG_MAX in *. lia.
      - rewrite high_bits_zero; [done|unfold LONG_MAX in *; lia|lia]. }
    rewrite Z.shiftl_mul_pow2 by lia. destruct (Z.ltb_spec (n * 2 ^ k) (2 ^ 64)) as [Hlt|Hge]; cbn [negb].
    - rewrite wrap_small by (split; [|done]; pose proof (Z.pow_pos_nonneg 2 k); nia). split.
      + intros [= <-]. exists n, e, k. split_and!; try done. lia.
      + intros (n0 & e0 & k0 & [= <- <-] & _ & _ & Hu' & -> & _). rewrite Hu in Hu'. injection Hu' as <-. done.
    - split; [done|]. intros (n0 & e0 & k0 & [= <- <-] & _ & _ & Hu' & -> & ?). rewrite Hu in Hu'.
      injection Hu' as <-. lia. }
  assert (unit_of e = None → (inl "invalid size"%string : string + Z) = inr v ↔
    ∃ n0 e0 k0, (n, e) = (n0, e0) ∧ strto arg ≠ None ∧ 0 ≤ n0 < LONG_MAX ∧
      unit_of e0 = Some k0 ∧ v = n0 * 2 ^ k0 ∧ v < 2 ^ 64) as Hnone.
  { intros Hu. split; [done|]. intros (n0 & e0 & k0 & [= <- <-] & _ & _ & Hu' & _). by rewrite Hu in Hu'. }
  destruct e as [|c e']; [by apply Hunit|].
  destruct (decide (c = 84)) as [->|]; [apply (Hunit 40 e'); [lia|by destruct e']|].
  destruct (decide (c = 71)) as [->|]; [apply (Hunit 30 e'); [lia|by destruct e']|].
  destruct (decide (c = 77)) as [->|]; [apply (Hunit 20 e'); [lia|by destruct e']|].
  destruct (decide (c = 75)) as [->|]; [apply (Hunit 10 e'); [lia|by destruct e']|].
  assert (unit_of (c :: e') = None ∧ ∀ (A : Type) (a b d f g : A),
    match c with 84 => a | 71 => b | 77 => d | 75 => f | _ => g end = g) as [Hu Hm'].
  { destruct c as [|p|p]; try done. by repeat (destruct p as [p|p|]; try done). }
  rewrite Hm'. by apply Hnone.
Qed.

(** ** Settings in range *)

Definition int_ok (n : Z) : Prop := 0 ≤ n ≤ INT_MAX.
Definition size_ok (n : Z) : Prop := 0 ≤ n < 2 ^ 64.

Record server_conf_ok (sv : server_conf) : Prop := {
  sco_port : 0 ≤ sc_listen_port sv ≤ 65535;
  sco_hash : sc_hash sv = None ∧ sc_conf sv = None ∧ sc_access_filp sv = None;
  sco_log : (length (sc_access_log sv) < PATH_LENGTH)%nat;
  sco_sizes : Forall size_ok [sc_capacity sv; sc_rcvbuf sv; sc_sndbuf sv; sc_item_max_size sv;
    sc_passby_begin_consumed sv];
  sco_ints : Forall int_ok [sc_connections_limit sv; sc_recv_timeout sv; sc_request_timeout sv;
    sc_send_timeout sv; sc_expire_default sv; sc_expire_force sv; sc_keepalive_timeout sv;
    sc_passby_begin_item_nr sv; sc_passby_limit_nr sv; sc_passby_expire sv; sc_status_period sv]
}.

Record conf_ok (cc : ohc_conf_t) : Prop := {
  cfo_ints : Forall int_ok [cf_threads cc; cf_device_badblock_percent cc; cf_quit_timeout cc];
  cfo_log : (length (cf_error_log cc) < PATH_LENGTH)%nat
}.

Definition conf_device_ok (dv : ohc_device_t) : Prop :=
  ∃ name, dv = set_d_filename name (set_d_fd (-1) device_zero) ∧ (length name < PATH_LENGTH)%nat.

(** The servers and devices listed, and those kept for reuse, are apart. *)
Record conf_mem (c : cstate) : Prop := {
  cm_servers : NoDup (cf_servers (conf_cycle c) ++ reserved_servers c);
  cm_servers_mem : ∀ s, s ∈ cf_servers (conf_cycle c) ++ reserved_servers c → is_Some (cservers c !! s);
  cm_devices : NoDup (cf_devices (conf_cycle c) ++ reserved_devices c);
  cm_devices_mem : ∀ d, d ∈ cf_devices (conf_cycle c) ++ reserved_devices c → is_Some (cdevices c !! d)
}.

Record conf_inv (c : cstate) : Prop := {
  cfi_mem : conf_mem c;
  cfi_conf : conf_ok (conf_cycle c);
  cfi_default : server_conf_ok (default_server c);
  cfi_servers : ∀ s, s ∈ cf_servers (conf_cycle c) →
    ∃ sv, cservers c !! s = Some sv ∧ server_conf_ok sv ∧ sc_listen_fd sv = -1;
  cfi_devices : ∀ d, d ∈ cf_devices (conf_cycle c) →
    ∃ dv, cdevices c !! d = Some dv ∧ conf_device_ok dv
}.

Lemma low32_small old n : int_ok old → low32 old n = n.
Proof. unfold int_ok, INT_MAX, low32. intros. rewrite Z.div_small by lia. lia. Qed.

Lemma conf_int_ok arg n : conf_int arg = inr n → int_ok n.
Proof.
  unfold conf_int. destruct (negb _ || _ || _) eqn:E; [done|]. intros [= <-]. unfold int_ok.
  apply orb_false_iff in E as [[_ E1]%orb_false_iff E2]. lia.
Qed.
Lemma conf_size_ok arg n : conf_size arg = inr n → size_ok n.
Proof.
  intros (m & e & k & _ & _ & Hm & Hk & -> & Hn)%conf_size_iff. split; [|done].
  apply Z.mul_nonneg_nonneg; [lia|]. apply Z.pow_nonneg. lia.
Qed.
Lemma conf_path_ok arg p : conf_path arg = inr p → (length p < PATH_LENGTH)%nat.
Proof. unfold conf_path. case_decide; [done|]. intros [= <-]. lia. Qed.

(** What a handler of the table keeps. *)
Definition handler_ok (h : handler) : Prop :=
  match h with
  | GInt set => ∀ n cc, int_ok n → conf_ok cc → conf_ok (set n cc) ∧
      cf_servers (set n cc) = cf_servers cc ∧ cf_devices (set n cc) = cf_devices cc
  | GPath set => ∀ p cc, (length p < PATH_LENGTH)%nat → conf_ok cc → conf_ok (set p cc) ∧
      cf_servers (set p cc) = cf_servers cc ∧ cf_devices (set p cc) = cf_devices cc
  | GFlag set => ∀ b cc, conf_ok cc → conf_ok (set b cc) ∧
      cf_servers (set b cc) = cf_servers cc ∧ cf_devices (set b cc) = cf_devices cc
  | NewDevice | NewServer => True
  | SInt set => ∀ n sv, int_ok n → server_conf_ok sv → server_conf_ok (set n sv) ∧
      sc_listen_fd (set n sv) = sc_listen_fd sv
  | SSize set => ∀ n sv, size_ok n → server_conf_ok sv → server_conf_ok (set n sv) ∧
      sc_listen_fd (set n sv) = sc_listen_fd sv
  | SPath set => ∀ p sv, (length p < PATH_LENGTH)%nat → server_conf_ok sv → server_conf_ok (set p sv) ∧
      sc_listen_fd (set p sv) = sc_listen_fd sv
  | SFlag set => ∀ b sv, server_conf_ok sv → server_conf_ok (set b sv) ∧
      sc_listen_fd (set b sv) = sc_listen_fd sv
  end.

(** A field of a valid server is replaced by a valid value. *)
Ltac settings :=
  intros; repeat match goal with H : server_conf_ok _ |- _ => destruct H | H : conf_ok _ |- _ => destruct H end;
  repeat match goal with H : Forall _ (_ :: _) |- _ => apply Forall_cons in H as [? H] end;
  split; [|done || by split]; split; cbn; rewrite ?low32_small by done; try done;
  repeat (apply Forall_cons_2; [done|]); apply Forall_nil_2.

Lemma g_commands_ok : Forall (λ c, handler_ok c.2) g_commands.
Proof. repeat apply Forall_cons_2; try apply Forall_nil_2; cbn [snd handler_ok]; try exact I; settings. Qed.

Lemma find_command_ok cmd i name h : find_command cmd = Some (i, (name, h)) → handler_ok h.
Proof.
  intros (E & _ & _)%list_find_Some. pose proof g_commands_ok as Hf. rewrite Forall_forall in Hf.
  apply (Hf (name, h)). by eapply list_elem_of_lookup_2.
Qed.

(** ** The parser *)

Section parser.
Context (fs : list Z → option (list Z)).
Context (malloc_server malloc_device : cstate → option Z).
Context (Hms : ∀ c a, malloc_server c = Some a → cservers c !! a = None).
Context (Hmd : ∀ c a, malloc_device c = Some a → cdevices c !! a = None).
Implicit Types c : cstate.

Lemma conf_new_server_inv arg c c' :
  conf_inv c → conf_new_server malloc_server arg c = inr c' → conf_inv c'.
Proof.
  intros [[Hs Hsm Hd Hdm] Hcf Hdf Hsv Hdv]. unfold conf_new_server.
  destruct (negb _ || _ || _) eqn:Ep; [done|]. apply orb_false_iff in Ep as [[_ Ep1]%orb_false_iff Ep2].
  set (sv := set_sc_listen_fd (-1) (set_sc_listen_port (strtol arg).1 (default_server c))).
  assert (server_conf_ok sv) as Hok by (destruct Hdf; split; try done; simpl; lia).
  assert (∀ s r' , NoDup ((cf_servers (conf_cycle c) ++ [s]) ++ r') →
    (∀ t, t ∈ r' → is_Some (cservers c !! t)) → (∀ t, t ∈ cf_servers (conf_cycle c) → t ≠ s) →
    conf_inv (set_conf_cycle (set_cf_servers (cf_servers (conf_cycle c) ++ [s]) (conf_cycle c))
      (set_cservers (<[s := sv]> (cservers c)) (set_reserved_servers r' c)))) as Hgo.
  { intros s r' Hnd Hr' Hne. split; [split|..]; cbn; try done; try (by destruct Hcf).
    - intros t. rewrite !elem_of_app, list_elem_of_singleton. intros [[Ht| ->]|Ht].
      + rewrite lookup_insert_ne by (intros <-; by eapply Hne). apply Hsm. rewrite elem_of_app. by left.
      + rewrite lookup_insert_eq. by eexists.
      + rewrite lookup_insert_is_Some. destruct (decide (s = t)); [by left|right; split; [done|by apply Hr']].
    - intros t. rewrite elem_of_app, list_elem_of_singleton. intros [Ht| ->].
      + rewrite lookup_insert_ne by (intros <-; by eapply Hne). by apply Hsv.
      + rewrite lookup_insert_eq. by eexists. }
  destruct (reserved_servers c) as [|s r'] eqn:Er.
  - destruct (malloc_server c) as [s|] eqn:Em; [|done]. cbn [mbind option_bind]. intros [= <-].
    apply Hms in Em. assert (s ∉ cf_servers (conf_cycle c)) as Hn.
    { intros Hin. destruct (Hsm s) as [? E]; [rewrite elem_of_app; by left|]. congruence. }
    assert (set_reserved_servers [] c = c) as Ec by (rewrite <- Er; by destruct c).
    specialize (Hgo s []). rewrite Ec in Hgo. apply Hgo; [|by intros t ?%not_elem_of_nil|by intros t Ht ->].
    rewrite app_nil_r in *. apply NoDup_app. split_and!; [done|set_solver|apply NoDup_singleton].
  - intros [= <-].
    apply (Hgo s r').
    + by rewrite <- app_assoc.
    + intros t Ht. apply Hsm. set_solver.
    + intros t Ht ->. apply NoDup_app in Hs as (_ & Hx & _). apply (Hx s Ht), list_elem_of_here.
Qed.

Lemma conf_new_device_inv arg c c' :
  (length arg < PATH_LENGTH)%nat → conf_inv c → conf_new_device malloc_device arg c = inr c' → conf_inv c'.
Proof.
  intros Harg [[Hs Hsm Hd Hdm] Hcf Hdf Hsv Hdv]. unfold conf_new_device.
  set (dv := set_d_filename arg (set_d_fd (-1) device_zero)).
  assert (conf_device_ok dv) as Hok by (by exists arg).
  assert (∀ d r' , NoDup ((cf_devices (conf_cycle c) ++ [d]) ++ r') →
    (∀ t, t ∈ r' → is_Some (cdevices c !! t)) → (∀ t, t ∈ cf_devices (conf_cycle c) → t ≠ d) →
    conf_inv (set_conf_cycle (set_cf_devices (cf_devices (conf_cycle c) ++ [d]) (conf_cycle c))
      (set_cdevices (<[d := dv]> (cdevices c)) (set_reserved_devices r' c)))) as Hgo.
  { intros d r' Hnd Hr' Hne. split; [split|..]; cbn; try done; try (by destruct Hcf).
    - intros t. rewrite !elem_of_app, list_elem_of_singleton. intros [[Ht| ->]|Ht].
      + rewrite lookup_insert_ne by (intros <-; by eapply Hne). apply Hdm. rewrite elem_of_app. by left.
      + rewrite lookup_insert_eq. by eexists.
      + rewrite lookup_insert_is_Some. destruct (decide (d = t)); [by left|right; split; [done|by apply Hr']].
    - intros t. rewrite elem_of_app, list_elem_of_singleton. intros [Ht| ->].
      + rewrite lookup_insert_ne by (intros <-; by eapply Hne). by apply Hdv.
      + rewrite lookup_insert_eq. by eexists. }
  destruct (reserved_devices c) as [|d r'] eqn:Er.
  - destruct (malloc_device c) as [d|] eqn:Em; [|done]. cbn [mbind option_bind]. intros [= <-].
    apply Hmd in Em. assert (d ∉ cf_devices (conf_cycle c)) as Hn.
    { intros Hin. destruct (Hdm d) as [? E]; [rewrite elem_of_app; by left|]. congruence. }
    assert (set_reserved_devices [] c = c) as Ec by (rewrite <- Er; by destruct c).
    specialize (Hgo d []). rewrite Ec in Hgo. apply Hgo; [|by intros t ?%not_elem_of_nil|by intros t Ht ->].
    rewrite app_nil_r in *. apply NoDup_app. split_and!; [done|set_solver|apply NoDup_singleton].
  - intros [= <-]. apply (Hgo d r').
    + by rewrite <- app_assoc.
    + intros t Ht. apply Hdm. set_solver.
    + intros t Ht ->. apply NoDup_app in Hd as (_ & Hx & _). apply (Hx d Ht), list_elem_of_here.
Qed.

Lemma on_conf_inv c cc' :
  conf_inv c → conf_ok cc' → cf_servers cc' = cf_servers (conf_cycle c) →
  cf_devices cc' = cf_devices (conf_cycle c) → conf_inv (set_conf_cycle cc' c).
Proof.
  intros [[] ? ? ? ?] Hok Es Ed. split; [split|..]; cbn; rewrite ?Es, ?Ed; done.
Qed.

Lemma on_server_inv f c :
  conf_inv c → (∀ sv, server_conf_ok sv → server_conf_ok (f sv) ∧ sc_listen_fd (f sv) = sc_listen_fd sv) →
  conf_inv (on_server f c).
Proof.
  intros [[Hs Hsm Hd Hdm] Hcf Hdf Hsv Hdv] Hf. unfold on_server.
  destruct (last (cf_servers (conf_cycle c))) as [s|] eqn:El; split; try done; cbn.
  - split; try done. cbn. intros t Ht. rewrite lookup_alter_is_Some. by apply Hsm.
  - intros t Ht. destruct (Hsv t Ht) as (sv & E & Hok & Hfd). destruct (decide (s = t)) as [->|Hne].
    + exists (f sv). rewrite lookup_alter_eq, E. destruct (Hf sv Hok) as [? ->]. done.
    + exists sv. by rewrite lookup_alter_ne.
  - by apply Hf.
Qed.

Lemma set_handler_inv h arg c c' :
  handler_ok h → (length arg < PATH_LENGTH)%nat → conf_inv c →
  set_handler malloc_server malloc_device h arg c = inr c' → conf_inv c'.
Proof.
  intros Hh Harg Hi. destruct h as [set|set|set| | |set|set|set|set]; cbn [set_handler mbind msg_bind].
  - destruct (conf_int arg) as [?|n] eqn:E; [done|]. intros [= <-]. apply conf_int_ok in E.
    apply on_conf_inv; [done|..]; apply Hh; try done; apply Hi.
  - destruct (conf_path arg) as [?|n] eqn:E; [done|]. intros [= <-]. apply conf_path_ok in E.
    apply on_conf_inv; [done|..]; apply Hh; try done; apply Hi.
  - destruct (conf_flag arg) as [?|n] eqn:E; [done|]. intros [= <-].
    apply on_conf_inv; [done|..]; apply Hh; try done; apply Hi.
  - by apply conf_new_device_inv.
  - by apply conf_new_server_inv.
  - destruct (conf_int arg) as [?|n] eqn:E; [done|]. intros [= <-]. apply conf_int_ok in E.
    apply on_server_inv; [done|]. intros sv Hok. by apply Hh.
  - destruct (conf_size arg) as [?|n] eqn:E; [done|]. intros [= <-]. apply conf_size_ok in E.
    apply on_server_inv; [done|]. intros sv Hok. by apply Hh.
  - destruct (conf_path arg) as [?|n] eqn:E; [done|]. intros [= <-]. apply conf_path_ok in E.
    apply on_server_inv; [done|]. intros sv Hok. by apply Hh.
  - destruct (conf_flag arg) as [?|n] eqn:E; [done|]. intros [= <-].
    apply on_server_inv; [done|]. intros sv Hok. by apply Hh.
Qed.

Lemma conf_command_inv cmd arg c c' :
  (length arg < PATH_LENGTH)%nat → conf_inv c →
  conf_command malloc_server malloc_device cmd arg c = inr c' → conf_inv c'.
Proof.
  intros Harg Hi. unfold conf_command. destruct (find_command cmd) as [[i [name h]]|] eqn:E; [|done].
  apply find_command_ok in E. case_decide; [case_bool_decide; [|done]|]; by apply set_handler_inv.
Qed.

(** *** Lines, files and includes

    What each command keeps, the parser keeps; it ends, and the one fault it can
    have is a path of an included file that does not fit. *)
Section lines.
Context (I : cstate → Prop).
Context (HI : ∀ cmd arg c c', (length arg < PATH_LENGTH)%nat → I c →
  conf_command malloc_server malloc_device cmd arg c = inr c' → I c').
Definition parsed (o : outcome (ohc_rc * cstate)) : Prop :=
  match o with
  | Fail f => f = OutOfBounds
  | Ret (rc, c) => I c ∧ (rc = OHC_OK ∨ rc = OHC_ERROR)
  end.

Lemma parse_lines_spec include fuel filename fp c :
  (∀ file c, I c → parsed (include file c)) → (length fp < fuel)%nat → I c →
  match parse_lines malloc_server malloc_device include fuel filename fp c with
  | (Fail f, _) => f = OutOfBounds
  | (Ret _, c') => I c'
  end.
Proof.
  intros Hinc. revert fp c. induction fuel as [|fuel IH]; intros fp c Hf Hi; [lia|]. cbn [parse_lines].
  destruct (conf_readline fp) as [l fp'] eqn:El.
  destruct (conf_readline_shorter _ _ _ El) as [[-> ->]|[Hl Hlt]]; [done|].
  destruct l as [| |msg|cmd arg]; [done|apply IH; [lia|done]|done|].
  destruct (conf_readline_command _ _ _ _ El) as (line & _ & _ & Hlen & Hcl).
  assert (length arg < PATH_LENGTH)%nat as Harg.
  { destruct Hcl as [(w1 & w2 & w3 & rest & E & _) _ _].
    assert (length (cstr line) ≤ length line)%nat as Hc.
    { unfold cstr. rewrite <- (take_drop_while (λ b, negb (b =? 0)) line) at 2. rewrite length_app. lia. }
    rewrite E, !length_app in Hc. lia. }
  case_decide.
  - assert (∃ file, included_file filename arg = Ret file ∨ included_file filename arg = Fail OutOfBounds) as [file [-> | ->]];
      [|pose proof (Hinc file c Hi) as Hp|done].
    { exists (default arg (match included_file filename arg with Ret f => Some f | Fail _ => None end)).
      unfold included_file. destruct (dir_len filename 0 None); [case_decide|]; eauto. }
    destruct (include file c) as [[rc c1]|]; [|done].
    destruct Hp as [Hi1 [-> | ->]]; [apply IH; [lia|done]|done].
  - destruct (conf_command _ _ cmd arg c) as [?|c1] eqn:Ec; [done|]. apply IH; [lia|].
    by eapply HI.
Qed.

Lemma conf_parse_file_spec levels filename c :
  I c → parsed (conf_parse_file fs malloc_server malloc_device levels filename c).
Proof.
  revert filename c. induction levels as [|levels IH]; intros filename c Hi; cbn [conf_parse_file]; [by split; [|right]|].
  destruct (fs filename) as [fp|]; [|by split; [|right]].
  pose proof (parse_lines_spec (conf_parse_file fs malloc_server malloc_device levels) (S (length fp)) filename fp c IH) as Hp.
  destruct (parse_lines _ _ _ _ _ _ c) as [[[msg|u]|f] c']; cbn.
  - split; [apply Hp; [lia|done]|by right].
  - split; [apply Hp; [lia|done]|by left].
  - apply Hp; [lia|done].
Qed.
End lines.

(** Every address in use satisfies [Ps] or [Pd]. *)
Definition listed_in (Ps Pd : Z → Prop) c : Prop :=
  (∀ s, s ∈ cf_servers (conf_cycle c) ++ reserved_servers c → Ps s) ∧
  (∀ d, d ∈ cf_devices (conf_cycle c) ++ reserved_devices c → Pd d).

Lemma conf_command_in (Ps Pd : Z → Prop) cmd arg c c' :
  (∀ c a, malloc_server c = Some a → Ps a) → (∀ c a, malloc_device c = Some a → Pd a) →
  conf_inv c → listed_in Ps Pd c → conf_command malloc_server malloc_device cmd arg c = inr c' → listed_in Ps Pd c'.
Proof.
  intros Hps Hpd Hi [Hs Hd]. unfold conf_command. destruct (find_command cmd) as [[i [name h]]|] eqn:E; [|done].
  apply find_command_ok in E. intros Hset. assert (set_handler malloc_server malloc_device h arg c = inr c') as Hset'.
  { case_decide; [case_bool_decide; [|done]|]; done. }
  clear Hset. rename Hset' into Hset. assert (∀ f, listed_in Ps Pd (on_server f c)) as Hon.
  { intros f. unfold on_server. by destruct (last _). }
  assert (∀ cc', cf_servers cc' = cf_servers (conf_cycle c) ∧ cf_devices cc' = cf_devices (conf_cycle c) →
    listed_in Ps Pd (set_conf_cycle cc' c)) as Hcc.
  { intros cc' [E1 E2]. unfold listed_in. cbn. by rewrite E1, E2. }
  destruct h as [set|set|set| | |set|set|set|set]; cbn [set_handler mbind msg_bind handler_ok] in *.
  - destruct (conf_int arg) as [?|n] eqn:En; [done|]. injection Hset as <-. apply conf_int_ok in En.
    apply Hcc, (E n (conf_cycle c)); [done|apply Hi].
  - destruct (conf_path arg) as [?|n] eqn:En; [done|]. injection Hset as <-. apply conf_path_ok in En.
    apply Hcc, (E n (conf_cycle c)); [done|apply Hi].
  - destruct (conf_flag arg) as [?|n] eqn:En; [done|]. injection Hset as <-. apply Hcc, (E n (conf_cycle c)), Hi.
  - unfold conf_new_device in Hset. destruct (reserved_devices c) as [|d l] eqn:Er.
    + destruct (malloc_device c) as [d|] eqn:Em; [|done]. injection Hset as <-. apply Hpd in Em.
      split; [done|]. cbn. rewrite Er in *. set_solver.
    + injection Hset as <-. split; [done|]. cbn. set_solver.
  - unfold conf_new_server in Hset. destruct (negb _ || _ || _); [done|]. destruct (reserved_servers c) as [|s l] eqn:Er.
    + destruct (malloc_server c) as [s|] eqn:Em; [|done]. injection Hset as <-. apply Hps in Em.
      split; [|done]. cbn. rewrite Er in *. set_solver.
    + injection Hset as <-. split; [|done]. cbn. set_solver.
  - destruct (conf_int arg); [done|]. by injection Hset as <-.
  - destruct (conf_size arg); [done|]. by injection Hset as <-.
  - destruct (conf_path arg); [done|]. by injection Hset as <-.
  - destruct (conf_flag arg); [done|]. by injection Hset as <-.
Qed.

Lemma conf_command_first cmd arg c c' :
  conf_command malloc_server malloc_device cmd arg c = inr c' → conf_first c' = conf_first c.
Proof.
  unfold conf_command. destruct (find_command cmd) as [[i [name h]]|]; [|done]. intros Hset.
  assert (set_handler malloc_server malloc_device h arg c = inr c') as E.
  { case_decide; [case_bool_decide; [|done]|]; done. }
  clear Hset. assert (∀ f, conf_first (on_server f c) = conf_first c) as Hon by (intros f; unfold on_server; by destruct (last _)).
  destruct h; cbn [set_handler mbind msg_bind] in E.
  1, 6: destruct (conf_int arg); [done|]; by injection E as <-.
  1, 6: destruct (conf_path arg); [done|]; by injection E as <-.
  1, 5: destruct (conf_flag arg); [done|]; by injection E as <-.
  3: destruct (conf_size arg); [done|]; by injection E as <-.
  - unfold conf_new_device in E. destruct (reserved_devices c); [destruct (malloc_device c); [|done]|]; by injection E as <-.
  - unfold conf_new_server in E. destruct (negb _ || _ || _); [done|].
    destruct (reserved_servers c); [destruct (malloc_server c); [|done]|]; by injection E as <-.
Qed.

Lemma init_ok : conf_ok conf_init ∧ server_conf_ok server_init.
Proof.
  split; split; try (repeat (apply Forall_cons_2; [vm_compute; split; done|]); apply Forall_nil_2);
    apply Nat.ltb_lt || (vm_compute; split; done) || done; reflexivity.
Qed.

Lemma conf_parse_in Ps Pd filename c :
  (∀ c a, malloc_server c = Some a → Ps a) → (∀ c a, malloc_device c = Some a → Pd a) →
  conf_mem c → (conf_first c = true → cf_servers (conf_cycle c) = [] ∧ cf_devices (conf_cycle c) = []) → listed_in Ps Pd c →
  match conf_parse fs malloc_server malloc_device filename c with
  | Fail f => f = OutOfBounds
  | Ret (o, c') => (conf_inv c' ∧ listed_in Ps Pd c' ∧ conf_first c' = false) ∧ ∀ cc, o = Some cc → cc = conf_cycle c'
  end.
Proof.
  intros Hps Hpd [Hs Hsm Hd Hdm] Hfirst Hin. unfold conf_parse.
  match goal with |- context [conf_parse_file _ _ _ 11 filename ?c0] =>
    pose proof (conf_parse_file_spec (λ c, conf_inv c ∧ listed_in Ps Pd c ∧ conf_first c = false)
      ltac:(intros cmd arg c1 c1' Ha (Hi & Hl & Hf) E; split_and!;
        [by eapply conf_command_inv|by eapply conf_command_in|rewrite <- Hf; by eapply conf_command_first]) 11 filename c0) as Hp; set (c2 := c0) in * end.
  assert (conf_inv c2 ∧ listed_in Ps Pd c2 ∧ conf_first c2 = false) as Hi.
  { assert (if conf_first c then cf_servers (conf_cycle c) = [] ∧ cf_devices (conf_cycle c) = [] else True) as Hf
      by (destruct (conf_first c); auto).
    split_and!.
    - split; try apply init_ok; try (by intros ? ?%not_elem_of_nil); [|by destruct init_ok as [[] _]; split].
      unfold c2. destruct (conf_first c); [|by split]. destruct Hf as [E1 E2]. rewrite E1 in *. rewrite E2 in *. by split.
    - destruct Hin as [Hin1 Hin2]. unfold c2. destruct (conf_first c); [|by split]. destruct Hf as [E1 E2].
      rewrite E1 in *. rewrite E2 in *. by split.
    - unfold c2. by destruct (conf_first c) eqn:Ef. }
  specialize (Hp Hi). destruct (conf_parse_file _ _ _ 11 filename c2) as [[rc c']|f]; [|done].
  destruct Hp as [Hi' [-> | ->]]; (split; [done|]); congruence.
Qed.

Lemma conf_parse_spec filename c :
  conf_mem c → (conf_first c = true → cf_servers (conf_cycle c) = [] ∧ cf_devices (conf_cycle c) = []) →
  match conf_parse fs malloc_server malloc_device filename c with
  | Fail f => f = OutOfBounds
  | Ret (o, c') => conf_inv c' ∧ ∀ cc, o = Some cc → cc = conf_cycle c'
  end.
Proof.
  intros Hm Hfirst. pose proof (conf_parse_in (λ _, True) (λ _, True) filename c) as Hp.
  destruct (conf_parse _ _ _ filename c) as [[o c']|f]; [|by apply Hp].
  by destruct Hp as [[? _] ?].
Qed.

(** A file whose first command includes a file, and so on: the parser gives up
    at the twelfth. *)
Lemma include_cycle levels filename c rc c' :
  (∀ file fp, fs file = Some fp → ∃ arg fp', conf_readline fp = (LCommand (bytes "include") arg, fp')) →
  conf_parse_file fs malloc_server malloc_device levels filename c = Ret (rc, c') → rc = OHC_ERROR.
Proof.
  intros Hfs. revert filename c rc c'. induction levels as [|levels IH]; intros filename c rc c'; cbn [conf_parse_file].
  { by intros [= <- _]. }
  destruct (fs filename) as [fp|] eqn:Ef; [|by intros [= <- _]].
  destruct (Hfs _ _ Ef) as (arg & fp' & El). cbn [parse_lines]. rewrite El, decide_True by done.
  destruct (included_file filename arg) as [file|]; [|done].
  destruct (conf_parse_file fs malloc_server malloc_device levels file c) as [[rc1 c1]|] eqn:E; [|done].
  rewrite (IH _ _ _ _ E). by intros [= <- _].
Qed.
End parser.

(** ** Properties *)

(** The server a setting goes to: the last one, or the default. *)
Definition current_server (c : cstate) : option server_conf :=
  match last (cf_servers (conf_cycle c)) with
  | None => Some (default_server c)
  | Some s => cservers c !! s
  end.

(** The settings of a server that are integers, some in eight bytes. *)
Definition int_settings : list (string * (server_conf → Z)) := [
  ("connections_limit", sc_connections_limit); ("recv_timeout", sc_recv_timeout);
  ("request_timeout", sc_request_timeout); ("send_timeout", sc_send_timeout);
  ("expire_default", sc_expire_default); ("expire_force", sc_expire_force);
  ("keepalive_timeout", sc_keepalive_timeout);
  ("passby_begin_item_nr", sc_passby_begin_item_nr); ("passby_limit_nr", sc_passby_limit_nr);
  ("passby_expire", sc_passby_expire); ("status_period", sc_status_period)]%string.

Lemma int_settings_found : Forall (λ p, ∃ i set, find_command (bytes p.1) = Some (i, (p.1, SInt set)) ∧
  (server_context_begin ≤ i)%nat ∧ ∀ n sv, server_conf_ok sv → p.2 (set n sv) = n) int_settings.
Proof.
  repeat apply Forall_cons_2; try apply Forall_nil_2; cbn [fst snd]; eexists _, _;
    (split_and!; [reflexivity|apply Nat.leb_le; reflexivity|]); intros n sv [_ _ _ _ Hints];
    repeat (apply Forall_cons in Hints as [? Hints]); cbn; by rewrite ?low32_small.
Qed.

Lemma conf_int_dec n : int_ok n → conf_int (dec n) = inr n.
Proof.
  intros Hn. unfold int_ok, INT_MAX in Hn. unfold conf_int, strtoul0.
  rewrite <- (app_nil_r (dec n)), strto_dec by (lia || done). cbn [fst snd].
  rewrite bool_decide_true by done. cbn [negb orb].
  rewrite (proj2 (Z.leb_gt (2 ^ 64) n)) by lia. rewrite swrap_small by lia.
  unfold INT_MAX. rewrite (proj2 (Z.ltb_ge _ _)), (proj2 (Z.ltb_ge _ _)) by lia. done.
Qed.

(** [conf_readline].  A line that is taken as a command is at most 1023
    bytes of the file; its text up to a NUL is blanks, the command, blanks, the
    argument, blanks, and at most a comment; command and argument are not empty
    and have no blanks, so that each fits, with its NUL, the buffer of 1024
    bytes it is copied to. *)
Theorem conf_readline_correct fp cmd arg fp' :
  conf_readline fp = (LCommand cmd arg, fp') →
  (∃ l, fp = l ++ fp' ∧ (length l < PATH_LENGTH)%nat ∧ command_line (cstr l) cmd arg) ∧
  (length cmd + 1 ≤ PATH_LENGTH)%nat ∧ (length arg + 1 ≤ PATH_LENGTH)%nat.
Proof.
  intros (l & E & _ & Hl & Hc)%conf_readline_command.
  assert (length (cstr l) ≤ length l)%nat as Hle.
  { unfold cstr. rewrite <- (take_drop_while (λ b, negb (b =? 0)) l) at 2. rewrite length_app. lia. }
  split; [by exists l|]. destruct Hc as [(w1 & w2 & w3 & rest & Ec & _) _ _].
  rewrite Ec, !length_app in Hle. lia.
Qed.
Lemma conf_readline_correct_witness :
  ∃ l, bytes "  threads 8 # workers" = l ++ [] ∧ command_line (cstr l) (bytes "threads") (bytes "8").
Proof.
  destruct (conf_readline_correct (bytes "  threads 8 # workers") (bytes "threads") (bytes "8") [])
    as [(l & E & _ & Hc) _]; [vm_compute; reflexivity|]. by exists l.
Defined.

(** [conf_set_size].  It accepts an argument exactly when it is a number
    from 0 up to below [LONG_MAX], followed by nothing or one of K, M, G and T,
    whose value in bytes fits 64 bits; and that value is what it stores. *)
Theorem conf_size_correct arg v :
  conf_size arg = inr v ↔ ∃ n e k, strtol arg = (n, e) ∧ strto arg ≠ None ∧ 0 ≤ n < LONG_MAX ∧
    unit_of e = Some k ∧ v = n * 2 ^ k ∧ v < 2 ^ 64.
Proof. apply conf_size_iff. Qed.

(** An integer setting written in decimal is read back: each of the eleven
    integer commands of a server, with the numeral of [n] as its argument,
    succeeds and leaves [n] in its field of the current server, also where the
    handler stores four bytes in a field of eight. *)
Theorem conf_setting_round_trip ms md name get n c sv :
  (name, get) ∈ int_settings → 0 ≤ n ≤ INT_MAX → conf_inv c → current_server c = Some sv →
  ∃ c', conf_command ms md (bytes name) (dec n) c = inr c' ∧ get <$> current_server c' = Some n.
Proof.
  intros Hin Hn Hi Hsv. pose proof int_settings_found as Hf. rewrite Forall_forall in Hf.
  destruct (Hf _ Hin) as (i & set & E & Hlt & Hset). cbn [fst snd] in *. unfold conf_command. rewrite E.
  rewrite decide_False by lia. cbn [set_handler mbind msg_bind]. rewrite conf_int_dec by done.
  eexists. split; [done|]. unfold current_server, on_server in *.
  destruct (last (cf_servers (conf_cycle c))) as [s|] eqn:El; cbn.
  - rewrite El, lookup_alter_eq, Hsv. cbn. f_equal. apply Hset.
    destruct (cfi_servers _ Hi s) as (sv' & E' & Hok & _); [|congruence].
    apply last_Some in El as [l ->]. rewrite elem_of_app. right. apply list_elem_of_here.
  - rewrite El. cbn. f_equal. apply Hset, Hi.
Qed.

(** The state of conf.c when the program starts. *)
Definition cstate_init : cstate := CState conf_init server_init [] [] ∅ ∅ true.
Lemma cstate_init_inv : conf_inv cstate_init.
Proof.
  split; try apply init_ok; try (by intros ? ?%not_elem_of_nil). split; try apply NoDup_nil_2; by intros ? ?%not_elem_of_nil.
Qed.

Lemma conf_setting_round_trip_witness :
  ∃ c', conf_command (λ _, Some 1) (λ _, Some 1) (bytes "expire_default") (dec 86400) cstate_init = inr c' ∧
    sc_expire_default <$> current_server c' = Some 86400.
Proof.
  apply (conf_setting_round_trip (λ _, Some 1) (λ _, Some 1) "expire_default"%string sc_expire_default 86400 cstate_init
    server_init).
  - do 4 apply list_elem_of_further. apply list_elem_of_here.
  - vm_compute. split; discriminate.
  - apply cstate_init_inv.
  - reflexivity.
Defined.


Definition demo_fs (f : list Z) : option (list Z) :=
  if decide (f = bytes "olivehc.conf") then Some (bytes "device /dev/sdb" ++ [10] ++ bytes "listen 8535" ++ [10])
  else None.

(** Includes end.  When every file that can be opened begins with an
    include, no matter of which file, the parser still ends and no chain of them
    is accepted: it answers NULL, the error of the twelfth level, unless the path
    of an included file overruns its buffer first. *)
Theorem conf_include_cycle fs ms md filename c :
  (∀ c a, ms c = Some a → cservers c !! a = None) → (∀ c a, md c = Some a → cdevices c !! a = None) →
  conf_mem c → (conf_first c = true → cf_servers (conf_cycle c) = [] ∧ cf_devices (conf_cycle c) = []) →
  (∀ file fp, fs file = Some fp → ∃ arg fp', conf_readline fp = (LCommand (bytes "include") arg, fp')) →
  conf_parse fs ms md filename c = Fail OutOfBounds ∨ ∃ c', conf_parse fs ms md filename c = Ret (None, c').
Proof.
  intros Hms Hmd Hm Hf Hfs. pose proof (conf_parse_spec fs ms md Hms Hmd filename c Hm Hf) as Hs. revert Hs.
  unfold conf_parse. destruct (conf_parse_file _ _ _ 11 _ _) as [[rc c1]|f] eqn:E; [|intros ->; by left].
  apply include_cycle in E; [|done]. rewrite E. right. by eexists.
Qed.
Definition cycle_fs (f : list Z) : option (list Z) :=
  if decide (f = bytes "a.conf") then Some (bytes "include a.conf") else None.
Lemma conf_include_cycle_witness :
  conf_parse cycle_fs (λ _, None) (λ _, None) (bytes "a.conf") cstate_init = Fail OutOfBounds ∨
  ∃ c', conf_parse cycle_fs (λ _, None) (λ _, None) (bytes "a.conf") cstate_init = Ret (None, c').
Proof.
  apply (conf_include_cycle cycle_fs (λ _, None) (λ _, None) (bytes "a.conf") cstate_init).
  - discriminate.
  - discriminate.
  - apply cstate_init_inv.
  - intros _. split; reflexivity.
  - intros file fp. unfold cycle_fs. case_decide; [|done]. intros [= <-]. eexists _, _. vm_compute. reflexivity.
Defined.

(** Directories nested by two includes, 600 characters each. *)
Definition deep_dir (c : Z) : list Z := replicate 600 c ++ [47].
Definition deep_fs (f : list Z) : option (list Z) :=
  if decide (f = bytes "/olivehc.conf") then Some (bytes "include " ++ deep_dir 97 ++ bytes "a.conf") else
  if decide (f = bytes "/" ++ deep_dir 97 ++ bytes "a.conf")
  then Some (bytes "include " ++ deep_dir 98 ++ bytes "b.conf") else None.

(** The path of an included file is built in a buffer of 1024 bytes from
    the directory of the including file and the argument, and is not terminated
    when it fills the buffer: two includes of 600 characters reach the end, and
    [fopen] reads behind the buffer. *)
Theorem conf_include_overrun :
  conf_parse deep_fs (λ _, None) (λ _, None) (bytes "/olivehc.conf") cstate_init = Fail OutOfBounds.
Proof. vm_compute. reflexivity. Qed.
