(* ===== verification/Format.v ===== *)
(** * format.c: the items of a device, stored when the cache quits

    The file of a device is a list of bytes.  A structure is written as its
    fields in little-endian order with the compiler's padding, whose bytes are
    whatever was on the stack ([pad]).  A stream has a position and a script of
    which of the next calls succeed; an empty script means that all do. *)

From Stdlib Require Import String.
From stdpp Require Import prelude fin_maps gmap.
From S2P Require Import Prelude IdxPointer StrUtil IpBucket Slab Hash Device Http Server.

(** ** Bytes of integers *)

Fixpoint le (n : nat) (v : Z) : list Z :=
  match n with O => [] | S n => v mod 256 :: le n (v / 256) end.
Fixpoint unle (l : list Z) : Z :=
  match l with [] => 0 | b :: l => b + 256 * unle l end.
(** The bytes [i .. i+n-1] of a structure, as an unsigned integer. *)
Definition field (buf : list Z) (i n : nat) : Z := unle (take n (drop i buf)).

(** ** Streams *)

Record FILE := File { f_data : list Z; f_pos : nat; f_oks : list bool }.

Definition write_at (off : nat) (bs data : list Z) : list Z :=
  take off data ++ replicate (off - length data) 0 ++ bs ++ drop (off + length bs) data.
Definition io_ok (f : FILE) : bool := default true (head (f_oks f)).
Definition fseek (off : nat) (f : FILE) : bool * FILE :=
  (io_ok f, File (f_data f) (if io_ok f then off else f_pos f) (tail (f_oks f))).
Definition fwrite (bs : list Z) (f : FILE) : bool * FILE :=
  if io_ok f
  then (true, File (write_at (f_pos f) bs (f_data f)) (f_pos f + length bs) (tail (f_oks f)))
  else (false, File (f_data f) (f_pos f) (tail (f_oks f))).
Definition fread (n : nat) (f : FILE) : option (list Z) * FILE :=
  if io_ok f && bool_decide (f_pos f + n ≤ length (f_data f))%nat
  then (Some (take n (drop (f_pos f) (f_data f))),
        File (f_data f) (f_pos f + n) (tail (f_oks f)))
  else (None, File (f_data f) (f_pos f) (tail (f_oks f))).

(** ** Structures *)

Definition SERVERS_LIMIT : nat := Z.to_nat IPT_ARRAY_SIZE.
Definition OHC_FM_MAGIC : Z := 0x2143484556494c4f.
Definition OHC_FM_VERSION : Z := 1.
Definition OHC_FM_CHS_FEED : Z := 0x57eb0b4eecfeb465.
Definition SUPERBLOCK_SIZE : nat := 32.
Definition SERVER_PORTS_SIZE : nat := 2 * SERVERS_LIMIT.
Definition OHC_FM_INFO_SIZE : nat := SUPERBLOCK_SIZE + SERVER_PORTS_SIZE.
Definition FM_ITEM_SIZE : nat := 40.

Record ohc_superblock_t := Superblock {
  sb_magic : Z;
  sb_version : Z;
  sb_checksum : Z;
  sb_item_nr : Z
}.
Definition superblock_bytes (pad : list Z) (sb : ohc_superblock_t) : list Z :=
  le 8 (sb_magic sb) ++ le 4 (sb_version sb) ++ pad ++ le 8 (sb_checksum sb) ++ le 8 (sb_item_nr sb).
Definition superblock_of (buf : list Z) : ohc_superblock_t :=
  Superblock (field buf 0 8) (i32 (field buf 8 4)) (field buf 16 8) (i64 (field buf 24 8)).

Definition ports_bytes (ports : list Z) : list Z := ports ≫= le 2.
Fixpoint ports_of (n : nat) (buf : list Z) : list Z :=
  match n with O => [] | S n => unle (take 2 buf) :: ports_of n (drop 2 buf) end.

Definition fm_item_bytes (pad : list Z) (fm : ohc_format_item_t) : list Z :=
  le 8 (id_lo (fm_hash_id fm)) ++ le 8 (id_hi (fm_hash_id fm)) ++ le 8 (fm_offset fm) ++
  le 4 (fm_length fm) ++ le 4 (fm_expire fm) ++ le 2 (fm_headers_len fm) ++
  le 2 (fm_server_index fm) ++ pad.
Definition fm_item_of (buf : list Z) : ohc_format_item_t :=
  FmItem (Md5 (field buf 0 8) (field buf 8 8)) (i64 (field buf 16 8)) (field buf 24 4)
    (i32 (field buf 28 4)) (field buf 32 2) (i16 (field buf 34 2)).

Fixpoint checksum_loop (n : nat) (buf : list Z) (checksum : Z) : Z :=
  match n with
  | O => checksum
  | S n => checksum_loop n (drop 8 buf) (Z.lxor checksum (unle (take 8 buf)))
  end.
Definition format_checksum (buf : list Z) : Z := checksum_loop (length buf / 8) buf 0.

(** ** Storing *)

Section format.
Context {AS IS PS : Type} `{Allocator AS} `{Allocator IS} `{Allocator PS}.
Context (MD5 : list Z → md5_id).
Abbreviation V := (M (sstore AS IS PS)).

(** The entry of item [x], unless it is not to be stored. *)
Definition dump_item (x : Z) : V (option ohc_format_item_t) :=
  valid ← server_item_valid x;
  if negb valid then mret None else
  s ← server_of_item x;
  sv ← load_srv s;
  if negb (s_server_dump sv) then mret None else
  it ← lift (load_item x);
  st ← get;
  id ← deref Dangling (hids st !! NItem x);
  mret (Some (FmItem id (it_offset it) (it_length it) (it_expire it) (it_headers_len it)
                (i16 (s_index sv)))).

(** The loop over the order list; None when a write failed. *)
Fixpoint store_items (pad : list Z) (l : list onode) (item_nr : Z) (f : FILE) :
    V (option Z * FILE) :=
  match l with
  | [] => mret (Some item_nr, f)
  | OFb _ :: l => store_items pad l item_nr f
  | OItem x :: l =>
      o ← dump_item x;
      match o with
      | None => store_items pad l item_nr f
      | Some fm =>
          let w := fwrite (fm_item_bytes pad fm) f in
          if w.1 then store_items pad l (item_nr + 1) w.2 else mret (None, w.2)
      end
  end.

(** [f] is what [fdopen] gave. *)
Definition format_store_device (sbpad pad : list Z) (server_ports : list Z) (device : Z)
    (f : option FILE) : V (ohc_rc * option FILE) :=
  match f with
  | None => mret (OHC_ERROR, None)
  | Some f =>
      let w := fseek SUPERBLOCK_SIZE f in
      if negb w.1 then mret (OHC_ERROR, Some w.2) else
      let w := fwrite (ports_bytes server_ports) w.2 in
      if negb w.1 then mret (OHC_ERROR, Some w.2) else
      dv ← lift (load_dev device);
      r ← store_items pad (order_head dv) 0 w.2;
      match r.1 with
      | None => mret (OHC_ERROR, Some r.2)
      | Some item_nr =>
          if item_nr =? 0 then mret (OHC_ERROR, Some r.2) else
          let sb0 := Superblock OHC_FM_MAGIC OHC_FM_VERSION 0 item_nr in
          let checksum := Z.lxor (Z.lxor (format_checksum (superblock_bytes sbpad sb0))
                            (format_checksum (ports_bytes server_ports))) OHC_FM_CHS_FEED in
          let sb := Superblock OHC_FM_MAGIC OHC_FM_VERSION checksum item_nr in
          let w := fseek 0 r.2 in
          if negb w.1 then mret (OHC_ERROR, Some w.2) else
          let w := fwrite (superblock_bytes sbpad sb) w.2 in
          mret (if w.1 then OHC_OK else OHC_ERROR, Some w.2)
      end
  end.

(** ** Loading *)

(** [disk_servers]: the servers of the ports on disk; an entry whose port is 0
    is not written, and holds what was on the stack. *)
Fixpoint disk_servers (ports : list Z) : V (list (option (option Z))) :=
  match ports with
  | [] => mret []
  | port :: ports =>
      o ← (if port =? 0 then mret None else s ← server_by_port port; mret (Some s));
      l ← disk_servers ports;
      mret (o :: l)
  end.

(** One entry of the table. *)
Definition load_item_entry (calloc_ok : bool) (device override now : Z)
    (servers : list (option (option Z))) (fm : ohc_format_item_t) : V unit :=
  if (fm_offset fm <? override) || (fm_expire fm <=? now) then mret tt else
  if decide (0 ≤ fm_server_index fm) then
    match servers !! Z.to_nat (fm_server_index fm) with
    | None => fail OutOfBounds
    | Some None => fail Undef
    | Some (Some None) => mret tt
    | Some (Some (Some s)) => server_load_fm_item MD5 calloc_ok s device fm;; mret tt
    end
  else fail OutOfBounds.

(** The loop over the table; false for [goto out]. *)
Fixpoint load_items (n : nat) (calloc_ok : nat → bool) (device override now : Z)
    (servers : list (option (option Z))) (f : FILE) : V (bool * FILE) :=
  match n with
  | O => mret (true, f)
  | S n =>
      let r := fread FM_ITEM_SIZE f in
      match r.1 with
      | None => mret (false, r.2)
      | Some buf =>
          load_item_entry (calloc_ok n) device override now servers (fm_item_of buf);;
          load_items n calloc_ok device override now servers r.2
      end
  end.

(** [f] is what [fopen] gave. *)
Definition format_load_device (calloc_ok : nat → bool) (device : Z) (f : option FILE) :
    V (ohc_rc * option FILE) :=
  match f with
  | None => mret (OHC_ERROR, None)
  | Some f =>
      st ← get;
      let now := master_now st in
      let r := fread OHC_FM_INFO_SIZE f in
      match r.1 with
      | None => mret (OHC_ERROR, Some r.2)
      | Some buffer =>
          let sb := superblock_of buffer in
          if negb ((sb_magic sb =? OHC_FM_MAGIC) && (sb_version sb =? OHC_FM_VERSION))
          then mret (OHC_ERROR, Some r.2) else
          if negb (format_checksum buffer =? OHC_FM_CHS_FEED) then mret (OHC_ERROR, Some r.2) else
          servers ← disk_servers (ports_of SERVERS_LIMIT (drop SUPERBLOCK_SIZE buffer));
          let override := i64 (Z.of_nat OHC_FM_INFO_SIZE + sb_item_nr sb * Z.of_nat FM_ITEM_SIZE) in
          let w := fseek OHC_FM_INFO_SIZE r.2 in
          if negb w.1 then mret (OHC_ERROR, Some w.2) else
          r ← load_items (Z.to_nat (sb_item_nr sb)) calloc_ok device override now servers w.2;
          if negb r.1 then mret (OHC_ERROR, Some r.2) else
          lift (device_load_post device);;
          let w := fseek 0 r.2 in
          if negb w.1 then mret (OHC_ERROR, Some w.2) else
          let w := fwrite (bytes "FeiLiWuShi") w.2 in
          mret (if w.1 then OHC_OK else OHC_ERROR, Some w.2)
      end
  end.

(** ** All devices *)

(** device.c calls the two for every device; [files] are the streams. *)
Fixpoint format_load_all (calloc_ok : nat → bool) (l : list Z) (files : Z → option FILE) : V unit :=
  match l with
  | [] => mret tt
  | d :: l => format_load_device calloc_ok d (files d);; format_load_all calloc_ok l files
  end.
Definition device_format_load (calloc_ok : nat → bool) (files : Z → option FILE) : V unit :=
  st ← get; format_load_all calloc_ok (devices (dst st)) files.

Fixpoint format_store_all (sbpad pad ports : list Z) (l : list Z) (files : Z → option FILE) :
    V (list (Z * option FILE)) :=
  match l with
  | [] => mret []
  | d :: l =>
      r ← format_store_device sbpad pad ports d (files d);
      rs ← format_store_all sbpad pad ports l files;
      mret ((d, r.2) :: rs)
  end.
Definition device_format_store (sbpad pad : list Z) (files : Z → option FILE) :
    V (list (Z * option FILE)) :=
  ports ← server_dump_ports;
  st ← get;
  format_store_all sbpad pad ports (devices (dst st)) files.
End format.
