(* ===== verification/FormatProofs.v ===== *)
(** * Storing and loading a device

    What [format_store_device] writes, [format_load_device] reads back: the
    checksum of the superblock and the ports comes out as the seed, and the
    table holds the entries in order.  A load marks the file, so that it is not
    loaded twice. *)

From Stdlib Require Import String.
From stdpp Require Import prelude fin_maps gmap.
From S2P Require Import Prelude IdxPointer StrUtil IpBucket Slab Hash Device Http Server.
From S2P Require Import ServerOps ServerExpire DeviceConf Format.

(** ** Bytes *)

Lemma le_length n v : length (le n v) = n.
Proof. revert v. induction n as [|n IH]; intros v; simpl; by rewrite ?IH. Qed.

Lemma unle_le n v : unle (le n v) = v mod 2 ^ (8 * Z.of_nat n).
Proof.
  revert v. induction n as [|n IH]; intros v; cbn [le unle].
  - by rewrite Z.mod_1_r.
  - rewrite IH. replace (2 ^ (8 * Z.of_nat (S n))) with (256 * 2 ^ (8 * Z.of_nat n)).
    + rewrite Z.rem_mul_r by lia. lia.
    + replace (8 * Z.of_nat (S n)) with (8 + 8 * Z.of_nat n) by lia. by rewrite Z.pow_add_r by lia.
Qed.

(** The field behind [pre] in a structure that begins with [pre ++ le n v]. *)
Lemma field_le buf pre n v i :
  pre ++ le n v `prefix_of` buf → length pre = i → field buf i n = v mod 2 ^ (8 * Z.of_nat n).
Proof.
  intros [post ->] <-. unfold field. rewrite <- app_assoc, drop_app_length.
  rewrite <- (le_length n v) at 1. by rewrite take_app_length, unle_le.
Qed.
(** Proves the premises of [field_le] for a literal structure. *)
Ltac in_struct :=
  match goal with
  | |- _ `prefix_of` _ => rewrite <- ?app_assoc; repeat apply prefix_app; first [apply prefix_app_r; reflexivity|reflexivity]
  | |- length _ = _ => rewrite ?length_app, ?le_length; cbn [length]; lia
  end.

Lemma swrap_mod w v : 0 < w → - 2 ^ (w - 1) ≤ v < 2 ^ (w - 1) → swrap w (v mod 2 ^ w) = v.
Proof.
  intros Hw Hv. unfold swrap. rewrite Z.add_mod_idemp_l by lia. by apply swrap_small.
Qed.

(** ** Writing *)

Lemma write_at_next off a b data :
  write_at (off + length a) b (write_at off a data) = write_at off (a ++ b) data.
Proof.
  unfold write_at.
  set (pre := take off data ++ replicate (off - length data) 0).
  assert (length pre = off) as Hp by (unfold pre; rewrite length_app, length_take, length_replicate; lia).
  rewrite !(app_assoc (take off data)). fold pre.
  set (rest := drop (off + length a) data).
  rewrite (app_assoc pre a rest).
  rewrite (take_app_le (pre ++ a) rest), (take_ge (pre ++ a)), !length_app, Hp by (rewrite length_app; lia).
  replace (_ + _ - _)%nat with 0%nat by (rewrite ?length_app; lia). cbn [replicate app].
  rewrite (drop_app_ge (pre ++ a) rest) by (rewrite length_app; lia). unfold rest. rewrite drop_drop, length_app, Hp.
  rewrite <- !app_assoc. do 4 f_equal. lia.
Qed.

Lemma write_at_0 a data : write_at 0 a data = a ++ drop (length a) data.
Proof. unfold write_at. rewrite take_0. by destruct (length data). Qed.

Lemma write_at_front a b data :
  write_at 0 a (write_at (length a) b data) = a ++ b ++ drop (length a + length b) data.
Proof.
  rewrite write_at_0. f_equal. unfold write_at. rewrite (app_assoc (take (length a) data)).
  set (pre := take (length a) data ++ replicate (length a - length data) 0).
  assert (length pre = length a) as Hp by (unfold pre; rewrite length_app, length_take, length_replicate; lia).
  by rewrite <- Hp at 1; rewrite drop_app_length.
Qed.

(** ** The checksum *)

Lemma checksum_loop_acc n buf a : checksum_loop n buf a = Z.lxor a (checksum_loop n buf 0).
Proof.
  revert buf a. induction n as [|n IH]; intros buf a; cbn [checksum_loop]; [by rewrite Z.lxor_0_r|].
  rewrite IH, (IH _ (Z.lxor 0 _)), Z.lxor_0_l. by rewrite Z.lxor_assoc.
Qed.

Lemma checksum_cons w buf : length w = 8%nat → format_checksum (w ++ buf) = Z.lxor (unle w) (format_checksum buf).
Proof.
  intros Hw. unfold format_checksum. rewrite length_app, Hw.
  replace ((8 + length buf) / 8)%nat with (S (length buf / 8)).
  - cbn [checksum_loop]. rewrite <- Hw, take_app_length, drop_app_length, Z.lxor_0_l. apply checksum_loop_acc.
  - change (8 + length buf)%nat with (1 * 8 + length buf)%nat. rewrite Nat.div_add_l by lia. lia.
Qed.

Lemma checksum_app k a b :
  length a = (8 * k)%nat → format_checksum (a ++ b) = Z.lxor (format_checksum a) (format_checksum b).
Proof.
  revert a. induction k as [|k IH]; intros a Ha.
  - apply nil_length_inv in Ha as ->. by rewrite Z.lxor_0_l.
  - rewrite <- (take_drop 8 a), <- app_assoc.
    rewrite !(checksum_cons (take 8 a)) by (rewrite length_take; lia).
    rewrite IH by (rewrite length_drop; lia). by rewrite Z.lxor_assoc.
Qed.

Lemma superblock_length pad sb : length pad = 4%nat → length (superblock_bytes pad sb) = SUPERBLOCK_SIZE.
Proof. intros Hp. unfold superblock_bytes. rewrite !length_app, !le_length, Hp. done. Qed.

Lemma superblock_words pad m v c n :
  length pad = 4%nat →
  format_checksum (superblock_bytes pad (Superblock m v c n)) =
  Z.lxor (unle (le 8 m)) (Z.lxor (unle (le 4 v ++ pad)) (Z.lxor (c mod 2 ^ 64) (format_checksum (le 8 n)))).
Proof.
  intros Hp. unfold superblock_bytes. cbn [sb_magic sb_version sb_checksum sb_item_nr].
  rewrite (checksum_cons (le 8 m)) by apply le_length. rewrite (app_assoc (le 4 v)).
  rewrite (checksum_cons (le 4 v ++ pad)) by (by rewrite length_app, le_length, Hp).
  rewrite (checksum_cons (le 8 c)) by apply le_length. by rewrite (unle_le 8 c).
Qed.

Lemma superblock_checksum pad m v c n :
  length pad = 4%nat → 0 ≤ c < 2 ^ 64 →
  format_checksum (superblock_bytes pad (Superblock m v c n)) =
  Z.lxor c (format_checksum (superblock_bytes pad (Superblock m v 0 n))).
Proof.
  intros Hp Hc. rewrite !superblock_words by done. rewrite Z.mod_0_l, (Z.mod_small c), Z.lxor_0_l by done.
  rewrite <- !Z.lxor_assoc. f_equal. rewrite (Z.lxor_comm c), !Z.lxor_assoc. f_equal. apply Z.lxor_comm.
Qed.

Lemma lxor_range a b n : 0 ≤ n → 0 ≤ a < 2 ^ n → 0 ≤ b < 2 ^ n → 0 ≤ Z.lxor a b < 2 ^ n.
Proof.
  intros Hn Ha Hb. assert (0 ≤ Z.lxor a b) as H0 by (apply Z.lxor_nonneg; lia). split; [done|].
  destruct (decide (Z.lxor a b = 0)) as [->|Hne]; [lia|]. apply Z.log2_lt_pow2; [lia|].
  pose proof (Z.log2_lxor a b ltac:(lia) ltac:(lia)) as Hl.
  destruct (decide (n = 0)) as [->|]; [assert (a = 0) as -> by lia; assert (b = 0) as -> by lia; done|].
  assert (∀ x, 0 ≤ x < 2 ^ n → Z.log2 x < n) as Hx.
  { intros x Hx. destruct (decide (x = 0)) as [->|]; [simpl; lia|]. apply Z.log2_lt_pow2; lia. }
  pose proof (Hx a Ha). pose proof (Hx b Hb). lia.
Qed.

Definition byte (b : Z) : Prop := 0 ≤ b < 256.

Lemma le_bytes n v : Forall byte (le n v).
Proof. revert v. induction n as [|n IH]; intros v; constructor; [unfold byte; apply Z.mod_pos_bound; lia|apply IH]. Qed.

Lemma unle_range l : Forall byte l → 0 ≤ unle l < 2 ^ (8 * Z.of_nat (length l)).
Proof.
  induction 1 as [|b l Hb _ IH]; [done|]. cbn [unle length].
  replace (8 * Z.of_nat (S (length l))) with (8 + 8 * Z.of_nat (length l)) by lia.
  rewrite Z.pow_add_r by lia. unfold byte in Hb. lia.
Qed.

Lemma checksum_range buf : Forall byte buf → 0 ≤ format_checksum buf < 2 ^ 64.
Proof.
  unfold format_checksum. generalize (length buf / 8)%nat as n. intros n Hb.
  assert (∀ acc, 0 ≤ acc < 2 ^ 64 → 0 ≤ checksum_loop n buf acc < 2 ^ 64) as Hgo; [|by apply Hgo].
  revert buf Hb. induction n as [|n IH]; intros buf Hb acc Hacc; [done|]. cbn [checksum_loop].
  apply IH; [by apply Forall_drop|]. apply lxor_range; [lia|done|].
  pose proof (unle_range (take 8 buf) (Forall_take _ _ _ Hb)) as Hu. split; [lia|].
  eapply Z.lt_le_trans; [apply Hu|]. apply Z.pow_le_mono_r; [lia|]. rewrite length_take. lia.
Qed.

Lemma superblock_in_bytes pad sb : Forall byte pad → Forall byte (superblock_bytes pad sb).
Proof. intros Hp. unfold superblock_bytes. rewrite !Forall_app. split_and!; try apply le_bytes; done. Qed.

Lemma ports_cons p ports : ports_bytes (p :: ports) = le 2 p ++ ports_bytes ports.
Proof. done. Qed.

Lemma ports_in_bytes ports : Forall byte (ports_bytes ports).
Proof. induction ports as [|p ports IH]; [constructor|]. rewrite ports_cons, Forall_app. split; [apply le_bytes|done]. Qed.

Lemma ports_length ports : length (ports_bytes ports) = (2 * length ports)%nat.
Proof. induction ports as [|p ports IH]; [done|]. rewrite ports_cons, length_app, le_length, IH. cbn [length]. lia. Qed.

Lemma ports_of_bytes ports rest :
  Forall (λ p, 0 ≤ p < 2 ^ 16) ports → ports_of (length ports) (ports_bytes ports ++ rest) = ports.
Proof.
  induction ports as [|p ports IH]; intros Hp; [done|]. apply Forall_cons in Hp as [Hp1 Hp].
  rewrite ports_cons. cbn [length ports_of]. rewrite <- app_assoc.
  rewrite <- (le_length 2 p) at 1 3. rewrite take_app_length, drop_app_length, unle_le.
  f_equal; [by apply Z.mod_small|by apply IH].
Qed.

(** The checksum [format_store_device] computes makes that of the superblock
    with the ports the seed. *)
Definition store_checksum (sbpad ports : list Z) (item_nr : Z) : Z :=
  Z.lxor (Z.lxor (format_checksum (superblock_bytes sbpad (Superblock OHC_FM_MAGIC OHC_FM_VERSION 0 item_nr)))
    (format_checksum (ports_bytes ports))) OHC_FM_CHS_FEED.

Lemma store_checksum_range sbpad ports n :
  Forall byte sbpad → 0 ≤ store_checksum sbpad ports n < 2 ^ 64.
Proof.
  intros Hb. apply lxor_range; [lia| |vm_compute; split; done].
  apply lxor_range; [lia|..]; apply checksum_range; [by apply superblock_in_bytes|apply ports_in_bytes].
Qed.

Lemma info_checksum sbpad ports n :
  length sbpad = 4%nat → Forall byte sbpad →
  format_checksum (superblock_bytes sbpad
    (Superblock OHC_FM_MAGIC OHC_FM_VERSION (store_checksum sbpad ports n) n) ++ ports_bytes ports) = OHC_FM_CHS_FEED.
Proof.
  intros Hp Hb. rewrite (checksum_app 4) by (by rewrite superblock_length).
  rewrite superblock_checksum; [|done|].
  - unfold store_checksum. set (a := format_checksum (superblock_bytes _ _)). set (b := format_checksum (ports_bytes ports)).
    apply Z.bits_inj'. intros i _. rewrite !Z.lxor_spec.
    by destruct (Z.testbit a i), (Z.testbit b i), (Z.testbit OHC_FM_CHS_FEED i).
  - by apply store_checksum_range.
Qed.

(** ** Entries *)

Record fm_fits (fm : ohc_format_item_t) : Prop := {
  ff_id : 0 ≤ id_lo (fm_hash_id fm) < 2 ^ 64 ∧ 0 ≤ id_hi (fm_hash_id fm) < 2 ^ 64;
  ff_offset : - 2 ^ 63 ≤ fm_offset fm < 2 ^ 63;
  ff_length : 0 ≤ fm_length fm < 2 ^ 32;
  ff_expire : - 2 ^ 31 ≤ fm_expire fm < 2 ^ 31;
  ff_headers : 0 ≤ fm_headers_len fm < 2 ^ 16;
  ff_index : - 2 ^ 15 ≤ fm_server_index fm < 2 ^ 15
}.

Lemma fm_item_length pad fm : length pad = 4%nat → length (fm_item_bytes pad fm) = FM_ITEM_SIZE.
Proof. intros Hp. unfold fm_item_bytes. rewrite !length_app, !le_length, Hp. done. Qed.

Lemma fm_item_round_trip pad fm : fm_fits fm → fm_item_of (fm_item_bytes pad fm) = fm.
Proof.
  intros [[Hlo Hhi] Ho Hl He Hh Hx]. unfold fm_item_of, fm_item_bytes.
  destruct fm as [[lo hi] off len exp hd ix]. cbn [fm_hash_id id_lo id_hi fm_offset fm_length fm_expire fm_headers_len fm_server_index] in *.
  f_equal; [f_equal|..].
  - rewrite (field_le _ [] 8 lo 0) by in_struct. by apply Z.mod_small.
  - rewrite (field_le _ (le 8 lo) 8 hi 8) by in_struct. by apply Z.mod_small.
  - rewrite (field_le _ (le 8 lo ++ le 8 hi) 8 off 16) by in_struct. by apply swrap_mod.
  - rewrite (field_le _ (le 8 lo ++ le 8 hi ++ le 8 off) 4 len 24) by in_struct. by apply Z.mod_small.
  - rewrite (field_le _ (le 8 lo ++ le 8 hi ++ le 8 off ++ le 4 len) 4 exp 28) by in_struct. by apply swrap_mod.
  - rewrite (field_le _ (le 8 lo ++ le 8 hi ++ le 8 off ++ le 4 len ++ le 4 exp) 2 hd 32) by in_struct. by apply Z.mod_small.
  - rewrite (field_le _ (le 8 lo ++ le 8 hi ++ le 8 off ++ le 4 len ++ le 4 exp ++ le 2 hd) 2 ix 34) by in_struct.
    by apply swrap_mod.
Qed.

Lemma superblock_round_trip pad m v c n rest :
  length pad = 4%nat → 0 ≤ m < 2 ^ 64 → - 2 ^ 31 ≤ v < 2 ^ 31 → 0 ≤ c < 2 ^ 64 → - 2 ^ 63 ≤ n < 2 ^ 63 →
  superblock_of (superblock_bytes pad (Superblock m v c n) ++ rest) = Superblock m v c n.
Proof.
  intros Hp Hm Hv Hc Hn. unfold superblock_of, superblock_bytes. cbn [sb_magic sb_version sb_checksum sb_item_nr].
  f_equal.
  - rewrite (field_le _ [] 8 m 0) by in_struct. by apply Z.mod_small.
  - rewrite (field_le _ (le 8 m) 4 v 8) by in_struct. by apply swrap_mod.
  - rewrite (field_le _ (le 8 m ++ le 4 v ++ pad) 8 c 16) by in_struct. by apply Z.mod_small.
  - rewrite (field_le _ (le 8 m ++ le 4 v ++ pad ++ le 8 c) 8 n 24) by in_struct. by apply swrap_mod.
Qed.

(** ** The round trip *)

Section round_trip.
Context {AS IS PS : Type} `{Allocator AS} `{Allocator IS} `{Allocator PS}.
Context (MD5 : list Z → md5_id).
Implicit Types (st : sstore AS IS PS) (fms : list ohc_format_item_t).

(** The entries of the items of an order list. *)
Fixpoint dump_list (l : list onode) : M (sstore AS IS PS) (list ohc_format_item_t) :=
  match l with
  | [] => mret []
  | OFb _ :: l => dump_list l
  | OItem x :: l =>
      o ← dump_item x;
      fms ← dump_list l;
      mret (match o with None => fms | Some fm => fm :: fms end)
  end.

(** What loading a list of entries does. *)
Fixpoint load_list (calloc_ok : nat → bool) (device override now : Z)
    (servers : list (option (option Z))) fms : M (sstore AS IS PS) unit :=
  match fms with
  | [] => mret tt
  | fm :: fms =>
      load_item_entry MD5 (calloc_ok (length fms)) device override now servers fm;;
      load_list calloc_ok device override now servers fms
  end.

Definition table_bytes (pad : list Z) fms : list Z := fms ≫= fm_item_bytes pad.

Lemma table_length pad fms : length pad = 4%nat → length (table_bytes pad fms) = (FM_ITEM_SIZE * length fms)%nat.
Proof.
  intros Hp. induction fms as [|fm fms IH]; [done|]. unfold table_bytes in *. rewrite bind_cons, length_app, IH.
  rewrite fm_item_length by done. unfold FM_ITEM_SIZE. cbn [length]. lia.
Qed.

Lemma store_items_run pad l nr data pos st :
  store_items pad l nr (File data pos []) st =
  match dump_list l st with
  | Ret (fms, st') => Ret ((Some (nr + Z.of_nat (length fms)),
      File (match fms with [] => data | _ => write_at pos (table_bytes pad fms) data end)
        (pos + length (table_bytes pad fms)) []), st')
  | Fail f => Fail f
  end.
Proof.
  revert nr data pos st. induction l as [|[a|x] l IH]; intros nr data pos st; cbn [store_items dump_list].
  - cbn. unfold mret, M_ret. by rewrite Z.add_0_r, Nat.add_0_r.
  - apply IH.
  - unfold mbind, M_bind. destruct (dump_item x st) as [[[fm|] st1]|]; [..|done].
    + cbn [fwrite io_ok f_oks head default fst snd]. rewrite IH. destruct (dump_list l st1) as [[fms st2]|]; [|done].
      cbn [mret M_ret length f_data f_pos]. f_equal. f_equal. f_equal.
      { f_equal. lia. }
      unfold table_bytes. rewrite bind_cons, length_app. f_equal; [|cbn; lia].
      destruct fms as [|fm' fms]; [by rewrite app_nil_r|]. by rewrite write_at_next.
    + rewrite IH. by destruct (dump_list l st1) as [[fms st2]|].
Qed.

Lemma load_items_run pad calloc_ok device override now servers fms pre rest st :
  length pad = 4%nat → Forall fm_fits fms →
  load_items MD5 (length fms) calloc_ok device override now servers
    (File (pre ++ table_bytes pad fms ++ rest) (length pre) []) st =
  match load_list calloc_ok device override now servers fms st with
  | Ret (_, st') => Ret ((true, File (pre ++ table_bytes pad fms ++ rest) (length pre + length (table_bytes pad fms)) []), st')
  | Fail f => Fail f
  end.
Proof.
  intros Hp. revert pre st. induction fms as [|fm fms IH]; intros pre st Hf.
  { cbn. by rewrite Nat.add_0_r. }
  apply Forall_cons in Hf as [Hfm Hf]. cbn [length load_items load_list].
  assert (table_bytes pad (fm :: fms) = fm_item_bytes pad fm ++ table_bytes pad fms) as -> by done.
  rewrite <- (app_assoc (fm_item_bytes pad fm)). unfold fread. cbn [io_ok f_oks head default f_pos f_data andb].
  rewrite bool_decide_true; [|rewrite !length_app, fm_item_length by done; lia]. cbn [fst snd tail].
  rewrite drop_app_length. rewrite <- (fm_item_length pad fm Hp) at 1. rewrite take_app_length, fm_item_round_trip by done.
  unfold mbind, M_bind. destruct (load_item_entry _ _ _ _ _ _ fm st) as [[[] st1]|]; [|done].
  specialize (IH (pre ++ fm_item_bytes pad fm) st1 Hf). rewrite length_app, fm_item_length, <- app_assoc in IH by done.
  rewrite IH. destruct (load_list _ _ _ _ _ fms st1) as [[[] st2]|]; [|done].
  rewrite length_app, fm_item_length by done. by rewrite Nat.add_assoc.
Qed.

(** What loading does with a file that holds the ports and the entries. *)
Definition load_spec (calloc_ok : nat → bool) (device : Z) (ports : list Z) fms (data : list Z) :
    M (sstore AS IS PS) (ohc_rc * option FILE) :=
  st ← get;
  servers ← disk_servers ports;
  load_list calloc_ok device (Z.of_nat OHC_FM_INFO_SIZE + Z.of_nat (length fms) * Z.of_nat FM_ITEM_SIZE)
    (master_now st) servers fms;;
  lift (device_load_post device);;
  mret (OHC_OK, Some (File (write_at 0 (bytes "FeiLiWuShi") data) 10 [])).

(** A stored file: superblock, ports, table. *)
Definition dump_bytes (sbpad pad ports : list Z) fms : list Z :=
  superblock_bytes sbpad (Superblock OHC_FM_MAGIC OHC_FM_VERSION
    (store_checksum sbpad ports (Z.of_nat (length fms))) (Z.of_nat (length fms))) ++
  ports_bytes ports ++ table_bytes pad fms.

Record dump_fits (sbpad pad ports : list Z) fms : Prop := {
  du_sbpad : length sbpad = 4%nat ∧ Forall byte sbpad;
  du_pad : length pad = 4%nat;
  du_ports : length ports = SERVERS_LIMIT ∧ Forall (λ p, 0 ≤ p < 2 ^ 16) ports;
  du_items : Forall fm_fits fms;
  du_nr : Z.of_nat (length fms) < 2 ^ 48
}.

Lemma store_run sbpad pad ports device data pos dv st :
  length sbpad = 4%nat → length ports = SERVERS_LIMIT → devs (dst st) !! device = Some dv →
  format_store_device sbpad pad ports device (Some (File data pos [])) st =
  match dump_list (order_head dv) st with
  | Fail f => Fail f
  | Ret ([], st') => Ret ((OHC_ERROR, Some (File (write_at SUPERBLOCK_SIZE (ports_bytes ports) data)
      (SUPERBLOCK_SIZE + length (ports_bytes ports)) [])), st')
  | Ret (fms, st') => Ret ((OHC_OK, Some (File (dump_bytes sbpad pad ports fms ++
      drop (length (dump_bytes sbpad pad ports fms)) data) SUPERBLOCK_SIZE [])), st')
  end.
Proof.
  intros Hsb Hp Hd. unfold format_store_device. cbn [fseek fwrite io_ok f_oks head default fst snd tail negb f_data f_pos].
  erewrite bind_ret; [|by apply lift_load_dev_run].
  unfold mbind at 1, M_bind at 1. rewrite store_items_run. destruct (dump_list (order_head dv) st) as [[fms st']|]; [|done].
  cbn [fst snd]. rewrite Z.add_0_l. destruct fms as [|fm fms].
  { cbn [length Z.of_nat Z.eqb table_bytes]. cbn. by rewrite Nat.add_0_r. }
  rewrite (proj2 (Z.eqb_neq _ _)) by (cbn [length]; lia).
  cbn [fseek fwrite io_ok f_oks head default fst snd tail negb f_data f_pos mret M_ret].
  rewrite write_at_next.
  set (fms' := fm :: fms). fold (store_checksum sbpad ports (Z.of_nat (length fms'))).
  set (sb := superblock_bytes sbpad _). assert (length sb = SUPERBLOCK_SIZE) as Hl by (by apply superblock_length).
  assert (write_at 0 sb (write_at SUPERBLOCK_SIZE (ports_bytes ports ++ table_bytes pad fms') data) =
    dump_bytes sbpad pad ports fms' ++ drop (length (dump_bytes sbpad pad ports fms')) data) as Ew.
  { rewrite <- Hl, write_at_front. unfold dump_bytes. fold sb. by rewrite <- !app_assoc, (length_app sb). }
  rewrite Ew, Hl. reflexivity.
Qed.

Lemma format_load_run sbpad pad ports fms rest calloc_ok device st :
  dump_fits sbpad pad ports fms →
  let data := dump_bytes sbpad pad ports fms ++ rest in
  format_load_device MD5 calloc_ok device (Some (File data 0 [])) st = load_spec calloc_ok device ports fms data st.
Proof.
  intros [[Hsb Hsbb] Hpad [Hpl Hpr] Hfm Hnr] data.
  set (nr := Z.of_nat (length fms)) in *.
  set (sb := superblock_bytes sbpad (Superblock OHC_FM_MAGIC OHC_FM_VERSION (store_checksum sbpad ports nr) nr)).
  assert (length sb = SUPERBLOCK_SIZE) as Hsbl by (by apply superblock_length).
  assert (length (ports_bytes ports) = SERVER_PORTS_SIZE) as Hpbl by (rewrite ports_length, Hpl; done).
  assert (length (sb ++ ports_bytes ports) = OHC_FM_INFO_SIZE) as Hil by (rewrite length_app, Hsbl, Hpbl; done).
  assert (data = (sb ++ ports_bytes ports) ++ table_bytes pad fms ++ rest) as Edata
    by (unfold data, dump_bytes; fold nr; fold sb; by rewrite <- !app_assoc).
  assert (0 ≤ store_checksum sbpad ports nr < 2 ^ 64) as Hck by (by apply store_checksum_range).
  assert (fread OHC_FM_INFO_SIZE (File data 0 []) = (Some (sb ++ ports_bytes ports), File data OHC_FM_INFO_SIZE [])) as Er.
  { unfold fread. cbn [io_ok f_oks head default f_pos f_data andb Nat.add].
    rewrite bool_decide_true by (rewrite Edata, length_app; lia). rewrite drop_0. rewrite Edata at 1.
    rewrite <- Hil at 1. by rewrite take_app_length. }
  assert (superblock_of (sb ++ ports_bytes ports) =
    Superblock OHC_FM_MAGIC OHC_FM_VERSION (store_checksum sbpad ports nr) nr) as Esb
    by (apply superblock_round_trip; [done|vm_compute; split; done..|exact Hck|lia]).
  assert (ports_of SERVERS_LIMIT (drop SUPERBLOCK_SIZE (sb ++ ports_bytes ports)) = ports) as Epo.
  { rewrite <- Hsbl, drop_app_length, <- Hpl, <- (app_nil_r (ports_bytes ports)). by apply ports_of_bytes. }
  unfold format_load_device, load_spec. erewrite bind_ret; [|reflexivity]. erewrite (bind_ret get); [|reflexivity].
  rewrite Er. cbn [fst snd]. rewrite Esb, Epo. unfold sb. rewrite info_checksum by done.
  cbn [sb_magic sb_version sb_item_nr]. rewrite !Z.eqb_refl. cbn [andb negb].
  unfold mbind, M_bind. destruct (disk_servers ports st) as [[servers st1]|]; [|done].
  cbn [fseek io_ok f_oks head default fst snd tail negb f_data f_pos].
  assert (i64 (Z.of_nat OHC_FM_INFO_SIZE + nr * Z.of_nat FM_ITEM_SIZE) =
    Z.of_nat OHC_FM_INFO_SIZE + nr * Z.of_nat FM_ITEM_SIZE) as Eo.
  { apply swrap_small; [lia|]. change (Z.of_nat OHC_FM_INFO_SIZE) with 8224. change (Z.of_nat FM_ITEM_SIZE) with 40.
    unfold nr in *. lia. }
  rewrite Eo. unfold nr at 1. rewrite Nat2Z.id.
  assert (∀ o, load_items MD5 (length fms) calloc_ok device o (master_now st) servers (File data OHC_FM_INFO_SIZE []) st1 =
    match load_list calloc_ok device o (master_now st) servers fms st1 with
    | Ret (_, st') => Ret ((true, File data (OHC_FM_INFO_SIZE + length (table_bytes pad fms)) []), st')
    | Fail f => Fail f
    end) as El.
  { intros o. rewrite Edata, <- Hil. by apply load_items_run. }
  rewrite El. destruct (load_list _ _ _ _ _ fms st1) as [[[] st2]|]; [|done]. cbn [fst snd negb].
  destruct (lift (device_load_post device) st2) as [[[] st3]|]; [|done]. reflexivity.
Qed.

(** *** Loading leaves the file as it is, but for the mark *)

Lemma fread_data n f : f_data (fread n f).2 = f_data f.
Proof. unfold fread. by destruct (_ && _). Qed.

Lemma load_items_data n calloc_ok device override now servers f b f' st st' :
  load_items MD5 n calloc_ok device override now servers f st = Ret (b, f', st') → f_data f' = f_data f.
Proof.
  revert f st. induction n as [|n IH]; intros f st; cbn [load_items]; [by intros [= _ <- _]|].
  pose proof (fread_data FM_ITEM_SIZE f) as Ed. destruct (fread FM_ITEM_SIZE f) as [[buf|] f1]; cbn [fst snd] in *.
  - intros (u & st1 & _ & E)%bind_inv. by rewrite (IH _ _ E).
  - by intros [= _ <- _].
Qed.

Lemma load_ok_data calloc_ok device data oks f' st st' :
  format_load_device MD5 calloc_ok device (Some (File data 0 oks)) st = Ret (OHC_OK, Some f', st') →
  f_data f' = write_at 0 (bytes "FeiLiWuShi") data.
Proof.
  unfold format_load_device. erewrite bind_ret; [|reflexivity].
  pose proof (fread_data OHC_FM_INFO_SIZE (File data 0 oks)) as Ed.
  destruct (fread OHC_FM_INFO_SIZE (File data 0 oks)) as [[buf|] f1]; cbn [fst snd f_data] in *; [|done].
  destruct (negb _); [done|]. destruct (negb _); [done|]. intros (servers & st1 & _ & E)%bind_inv.
  unfold fseek in E at 1 2. cbn [fst snd] in E. destruct (io_ok f1); cbn [negb] in E; [|done].
  apply bind_inv in E as ([b f2] & st2 & El & E). apply load_items_data in El. cbn [fseek snd f_data] in El.
  cbn [fst snd] in E. destruct (negb b); [done|]. apply bind_inv in E as (u & st3 & _ & E).
  unfold fseek in E at 1 2. cbn [fst snd] in E. destruct (io_ok f2) eqn:Eio; cbn [negb] in E; [|done].
  unfold fwrite in E. destruct (io_ok _) in E; cbn [fst snd f_pos f_data f_oks] in E; [|done].
  injection E as <- _. cbn [f_data]. by rewrite Eio, El, Ed.
Qed.

Lemma load_no_magic calloc_ok device data oks st :
  field data 0 8 ≠ OHC_FM_MAGIC →
  ∃ f, format_load_device MD5 calloc_ok device (Some (File data 0 oks)) st = Ret (OHC_ERROR, f, st).
Proof.
  intros Hm. unfold format_load_device. erewrite bind_ret; [|reflexivity]. unfold fread.
  destruct (io_ok _ && _) eqn:E; cbn [fst snd]; [|by eexists]. unfold superblock_of. cbn [sb_magic f_pos f_data].
  assert (field (take OHC_FM_INFO_SIZE (drop 0 data)) 0 8 = field data 0 8) as ->.
  { unfold field. rewrite !drop_0, take_take. f_equal. }
  rewrite (proj2 (Z.eqb_neq _ _)) by done. cbn [andb negb]. by eexists.
Qed.

(** *** Damage *)

Lemma unle_inj a b : length a = length b → Forall byte a → Forall byte b → unle a = unle b → a = b.
Proof.
  revert b. induction a as [|x a IH]; intros [|y b] Hl Ha Hb E; try done. cbn [unle] in E.
  apply Forall_cons in Ha as [Hx Ha]. apply Forall_cons in Hb as [Hy Hb]. unfold byte in Hx, Hy.
  assert (x = y) as -> by lia. f_equal. apply IH; [by injection Hl|done..|lia].
Qed.

Lemma checksum_word k a w w' b :
  length a = (8 * k)%nat → length w = 8%nat → length w' = 8%nat → Forall byte w → Forall byte w' →
  format_checksum (a ++ w ++ b) = format_checksum (a ++ w' ++ b) → w = w'.
Proof.
  intros Ha Hw Hw' Hb Hb'. rewrite !(checksum_app k a) by done. rewrite (checksum_cons w), (checksum_cons w') by done.
  intros E. apply unle_inj; [congruence|done..|].
  apply (f_equal (Z.lxor (format_checksum a))) in E. rewrite <- !Z.lxor_assoc, !Z.lxor_nilpotent, !Z.lxor_0_l in E.
  apply (f_equal (λ z, Z.lxor z (format_checksum b))) in E.
  by rewrite !Z.lxor_assoc, !Z.lxor_nilpotent, !Z.lxor_0_r in E.
Qed.

(** ** Properties *)


(** A device is loaded once.  After a successful load the file begins with
    a mark instead of the magic, and every later load of it fails and changes
    nothing, whatever calls of it succeed. *)
Theorem format_load_once calloc_ok device data oks f st st' :
  format_load_device MD5 calloc_ok device (Some (File data 0 oks)) st = Ret (OHC_OK, Some f, st') →
  ∀ calloc_ok' device' oks' st2, ∃ f',
    format_load_device MD5 calloc_ok' device' (Some (File (f_data f) 0 oks')) st2 = Ret (OHC_ERROR, f', st2).
Proof.
  intros Hok%load_ok_data calloc_ok' device' oks' st2. apply load_no_magic. rewrite Hok, write_at_0.
  vm_compute. discriminate.
Qed.

(** C21: the checksum finds every change of a single 64-bit word of the
    superblock and the ports: when the original passes, the changed file is
    refused and the state untouched. *)
Theorem format_damage_refused calloc_ok device k a w w' b rest oks st :
  length a = (8 * k)%nat → length w = 8%nat → length w' = 8%nat → Forall byte w → Forall byte w' → w ≠ w' →
  length (a ++ w ++ b) = OHC_FM_INFO_SIZE → format_checksum (a ++ w ++ b) = OHC_FM_CHS_FEED →
  ∃ f, format_load_device MD5 calloc_ok device (Some (File ((a ++ w' ++ b) ++ rest) 0 oks)) st =
    Ret (OHC_ERROR, f, st).
Proof.
  intros Ha Hw Hw' Hb Hb' Hne Hl Hck. unfold format_load_device. erewrite bind_ret; [|reflexivity].
  unfold fread. destruct (io_ok _ && _) eqn:E; cbn [fst snd f_pos f_data]; [|by eexists]. rewrite drop_0.
  assert (take OHC_FM_INFO_SIZE ((a ++ w' ++ b) ++ rest) = a ++ w' ++ b) as ->.
  { rewrite <- Hl. replace (length (a ++ w ++ b)) with (length (a ++ w' ++ b)) by (rewrite !length_app; lia).
    apply take_app_length. }
  destruct (negb (_ && _)); [by eexists|]. rewrite (proj2 (Z.eqb_neq _ _)); [by eexists|].
  intros E'. apply Hne. apply (checksum_word k a w w' b); try done. congruence.
Qed.

(** The entries are not covered by the checksum, and the pointer of a port
    that is 0 is never set: a file with correct checksum whose first entry names
    such a server makes the loader use an uninitialised pointer. *)
Theorem format_load_uninitialised :
  ∃ data, ∀ calloc_ok device st, master_now st < 1000 →
    format_load_device MD5 calloc_ok device (Some (File data 0 [])) st = Fail Undef.
Proof.
  set (fm := FmItem (Md5 1 2) 10000 100 1000 10 5). set (ports := replicate SERVERS_LIMIT 0).
  exists (dump_bytes [0; 0; 0; 0] [0; 0; 0; 0] ports [fm] ++ []). intros calloc_ok device st Hnow.
  rewrite format_load_run.
  2:{ split; [split; [done|]; repeat constructor; done|done| | |done].
      - unfold ports. split; [apply length_replicate|]. apply Forall_replicate. done.
      - constructor; [|constructor]. split; cbn; try split; done. }
  assert (∀ n s, disk_servers (replicate n 0) s = Ret (replicate n None, s : sstore AS IS PS)) as Hds.
  { induction n as [|n IH]; intros s; [done|]. cbn [replicate disk_servers].
    erewrite bind_ret; [|reflexivity]. erewrite bind_ret; [|apply IH]. done. }
  unfold load_spec. erewrite (bind_ret get); [|reflexivity]. erewrite bind_ret; [|apply Hds].
  assert (∀ (K : unit → M (sstore AS IS PS) (ohc_rc * option FILE)) c s, c s = Fail Undef → (c ≫= K) s = Fail Undef) as Hb
    by (intros; by apply bind_fail).
  apply Hb. apply bind_fail. unfold load_item_entry. 
  assert ((fm_expire fm <=? master_now st) = false) as -> by (apply Z.leb_gt; cbn; lia).
  rewrite (proj2 (Z.ltb_ge _ _)); [|vm_compute; discriminate]. cbn [orb].
  rewrite decide_True by done. cbn [fm_server_index fm].
  rewrite lookup_replicate_2; [done|]. apply Nat.ltb_lt. reflexivity.
Qed.
End round_trip.

(** *** A device with one item *)

#[local] Instance demo_alloc : Allocator ohc_slab_t := slab_allocator bump_malloc bump_malloc_fresh.
Definition table_with (p : Z) : idx_pointer_t Z :=
  match idx_pointer_add IDX_POINTER_INIT p with Ret (_, t) => t | Fail _ => IDX_POINTER_INIT end.
Definition fmt_device : ohc_device_t :=
  Device false false 3 0 0 (bytes "/dev/sdb") 8 17 1 0 1048576 3072 0 [OItem 7] None.
Definition fmt_item : ohc_item_t := Item 3000 86400 65536 false false false 0 0 60 0 0.
Definition fmt_net : server_net := ServerNet 5 0 0 0 1000 60 60 60 60 false (bytes "access.log") (Some 9).
Definition fmt_stats : server_stats := Stats 0 0 0 0 0 0 0 0 0 0 0 0 0 0 0 0 0 0 0 0 0 0 0 0 0.
Definition fmt_hash : ohc_hash_t snode := default (Hash [] 0 0 None 0) (hash_init true true).
Definition fmt_server : ohc_server_t :=
  Server [7] [] 8535 fmt_hash 0 3072 3000 1 None 0 0 false true false false false false 0 0 0 0 0 0 259200 0
    fmt_stats 0 60 fmt_net.
Definition fmt_store : sstore ohc_slab_t ohc_slab_t ohc_slab_t :=
  SStore (set_device_indexs (table_with 50) (set_devices [50] (set_devs {[50 := fmt_device]}
            (set_item_mem {[7 := fmt_item]} (dstore_init (OHC_SLAB_INIT 65000))))))
    {[60 := fmt_server]} [60] [] (table_with 60) [] {[NItem 7 := Md5 11 22]} ∅
    (OHC_SLAB_INIT 65000) (OHC_SLAB_INIT 65000) 100.
Definition fmt_ports : list Z := 8535 :: replicate 4095 0.
Definition fmt_fms : list ohc_format_item_t := [FmItem (Md5 11 22) 65536 3000 86400 60 0].
Definition pad4 : list Z := [1; 2; 3; 4].

Lemma fmt_fits : dump_fits pad4 pad4 fmt_ports fmt_fms.
Proof.
  split; [split; [done|repeat constructor; done]|done| | |done].
  - unfold fmt_ports. split; [vm_compute; reflexivity|].
    constructor; [done|]. by apply Forall_replicate.
  - constructor; [|constructor]. split; cbn; try split; done.
Qed.


(** The file of a device to which nothing was stored but an entry no server
    takes. *)
Definition fmt_file : list Z :=
  dump_bytes pad4 pad4 fmt_ports [FmItem (Md5 11 22) 0 3000 86400 60 0] ++ [].
Definition fmt_store1 : sstore ohc_slab_t ohc_slab_t ohc_slab_t :=
  SStore (match device_add 50 (set_devs {[50 := demo_device]} (dstore_init (OHC_SLAB_INIT 65000))) with
          | Ret (_, ds) => ds | Fail _ => dst fmt_store end)
    {[60 := fmt_server]} [60] [] (table_with 60) [] ∅ ∅ (OHC_SLAB_INIT 65000) (OHC_SLAB_INIT 65000) 100.

Lemma fmt_load_ok : ∃ f st, format_load_device (λ _, Md5 0 0) (λ _, true) 50 (Some (File fmt_file 0 [])) fmt_store1 =
  Ret (OHC_OK, Some f, st).
Proof.
  unfold fmt_file. rewrite format_load_run.
  2:{ destruct fmt_fits as [H1 H2 H3 _ _]. split; [done..| |done]. constructor; [|constructor]. split; cbn; try split; done. }
  unfold load_spec. erewrite (bind_ret get); [|reflexivity].
  destruct (disk_servers fmt_ports fmt_store1) as [[l st1]|] eqn:E1; [|by vm_compute in E1].
  assert (st1 = fmt_store1) as ->.
  { assert (∀ n (s : sstore ohc_slab_t ohc_slab_t ohc_slab_t), disk_servers (replicate n 0) s = Ret (replicate n None, s)) as Hds.
    { induction n as [|n IH]; intros s; [done|]. cbn [replicate disk_servers].
      erewrite bind_ret; [|reflexivity]. erewrite bind_ret; [|apply IH]. done. }
    unfold fmt_ports in E1. cbn [disk_servers] in E1. erewrite bind_ret in E1; [|reflexivity].
    erewrite bind_ret in E1; [|apply Hds]. by injection E1. }
  erewrite bind_ret; [|exact E1]. erewrite bind_ret; [|reflexivity].
  destruct (lift (device_load_post 50) fmt_store1) as [[u st2]|] eqn:E2; [|by vm_compute in E2].
  erewrite bind_ret; [|exact E2]. by eexists _, _.
Qed.

Lemma format_load_once_witness :
  ∃ f st f', format_load_device (λ _, Md5 0 0) (λ _, true) 50 (Some (File fmt_file 0 [])) fmt_store1 = Ret (OHC_OK, Some f, st) ∧
    format_load_device (λ _, Md5 0 0) (λ _, true) 50 (Some (File (f_data f) 0 [])) st = Ret (OHC_ERROR, f', st).
Proof.
  destruct fmt_load_ok as (f & st & E).
  destruct (format_load_once (λ _, Md5 0 0) (λ _, true) 50 fmt_file [] f fmt_store1 st E (λ _, true) 50 [] st) as [f' E'].
  exists f, st, f'. exact (conj E E').
Defined.

Definition fmt_info : list Z := take OHC_FM_INFO_SIZE fmt_file.
Lemma word_split (l : list Z) : [] ++ take 8 l ++ drop 8 l = l.
Proof. apply take_drop. Qed.
Lemma fmt_info_ok : length fmt_info = OHC_FM_INFO_SIZE ∧ format_checksum fmt_info = OHC_FM_CHS_FEED ∧
  take 8 fmt_info = [79; 76; 73; 86; 69; 72; 67; 33].
Proof. split_and!; vm_compute; reflexivity. Qed.
Lemma format_damage_refused_witness :
  ∃ f, format_load_device (λ _, Md5 0 0) (λ _, true) 50
    (Some (File (([] ++ replicate 8 7 ++ drop 8 fmt_info) ++ []) 0 [])) fmt_store1 = Ret (OHC_ERROR, f, fmt_store1).
Proof.
  destruct fmt_info_ok as (Hl & Hck & E8).
  apply (format_damage_refused (λ _, Md5 0 0) (λ _, true) 50 0 [] (take 8 fmt_info) (replicate 8 7)).
  - done.
  - by rewrite E8.
  - done.
  - rewrite E8. repeat constructor; done.
  - repeat constructor; done.
  - by rewrite E8.
  - rewrite word_split. exact Hl.
  - rewrite word_split. exact Hck.
Defined.
