(* ===== verification/ServerConf.v ===== *)
(** * server.c: servers from a configuration

    A new configuration is first checked: each of its servers is matched by port
    with a live one or gets a socket, a hash table and a log file.  Then it is
    loaded: live servers without a match are deleted, the others updated, and
    new ones created; or rolled back.  A server of the configuration that is
    created leaves the configuration and becomes an [ohc_server_t] of the cache.

    [y_fds] are the listening sockets that are open, [y_logs] the log files,
    [y_epoll] the sockets the master thread watches.  [tcp_bind], [fopen] and
    [calloc] are parameters. *)

From Stdlib Require Import String.
From stdpp Require Import prelude fin_maps gmap.
From S2P Require Import Prelude IdxPointer StrUtil IpBucket Slab Hash Device Http Server Conf.

(** ** State *)

Section state.
Context {AS IS PS : Type}.

Record csys := CSys {
  y_st : sstore AS IS PS;
  y_conf : cstate;
  y_fds : gset Z;
  y_logs : gset Z;
  y_epoll : gset Z
}.
Definition set_y_st (v : sstore AS IS PS) (y : csys) : csys :=
  CSys v (y_conf y) (y_fds y) (y_logs y) (y_epoll y).
Definition set_y_conf (v : cstate) (y : csys) : csys :=
  CSys (y_st y) v (y_fds y) (y_logs y) (y_epoll y).
Definition set_y_fds (v : gset Z) (y : csys) : csys :=
  CSys (y_st y) (y_conf y) v (y_logs y) (y_epoll y).
Definition set_y_logs (v : gset Z) (y : csys) : csys :=
  CSys (y_st y) (y_conf y) (y_fds y) v (y_epoll y).
Definition set_y_epoll (v : gset Z) (y : csys) : csys :=
  CSys (y_st y) (y_conf y) (y_fds y) (y_logs y) v.
End state.
Arguments csys : clear implicits.

Section server_conf.
Context {AS IS PS : Type} `{Allocator AS} `{Allocator IS} `{Allocator PS}.
Context (tcp_bind : csys AS IS PS → Z → Z) (fopen : csys AS IS PS → list Z → option Z).
Context (hash_mem : csys AS IS PS → bool * bool).
Abbreviation Y := (M (csys AS IS PS)).

Definition cache {A} (c : M (sstore AS IS PS) A) : Y A := λ y,
  match c (y_st y) with Ret (a, st) => Ret (a, set_y_st st y) | Fail f => Fail f end.
Definition load_cserver (s : Z) : Y server_conf :=
  y ← get; deref Dangling (cservers (y_conf y) !! s).
Definition upd_cserver (s : Z) (f : server_conf → server_conf) : Y unit :=
  _ ← load_cserver s;
  modify (λ y, set_y_conf (set_cservers (alter f s (cservers (y_conf y))) (y_conf y)) y).
Definition upd_net (s : Z) (f : server_net → server_net) : Y unit :=
  cache (upd_srv s (λ sv, set_s_net (f (s_net sv)) sv)).

(** *** Sockets *)

Definition server_listen_close (s : Z) : Y unit :=
  sv ← cache (load_srv s);
  let fd := n_listen_fd (s_net sv) in
  modify (λ y, set_y_fds (y_fds y ∖ {[fd]}) (set_y_epoll (y_epoll y ∖ {[fd]}) y)).
Definition server_listen_start (s : Z) : Y unit :=
  sv ← cache (load_srv s);
  modify (λ y, set_y_epoll (y_epoll y ∪ {[n_listen_fd (s_net sv)]}) y).

(** [server_listen_update]; the socket options themselves are not modelled. *)
Definition listen_fields (conf : server_conf) (n : server_net) : server_net :=
  ServerNet (n_listen_fd n) (sc_sndbuf conf) (sc_rcvbuf conf) (n_connections n)
    (n_connections_limit n) (n_send_timeout n) (n_recv_timeout n) (sc_request_timeout conf)
    (n_keepalive_timeout n) (n_shutdown_if_not_store n) (n_access_log n) (n_access_filp n).
Definition server_listen_update (s : Z) (conf : server_conf) : Y unit := upd_net s (listen_fields conf).

(** *** Creating, deleting, updating *)

Definition stats_zero : server_stats :=
  Stats 0 0 0 0 0 0 0 0 0 0 0 0 0 0 0 0 0 0 0 0 0 0 0 0 0.
(** The server a configured one becomes; what was not set is zero. *)
Definition server_of_conf (c : server_conf) (hash : ohc_hash_t snode) (index : Z) : ohc_server_t :=
  Server [] [] (sc_listen_port c) hash (sc_capacity c) 0 0 0 (sc_conf c) index 0 false
    (sc_server_dump c) (sc_key_include_host c) (sc_key_include_ohc_key c) (sc_key_include_query c)
    (sc_passby_enable c) (sc_passby_begin_item_nr c) (sc_passby_begin_consumed c)
    (sc_passby_limit_nr c) (sc_passby_expire c) 0 (sc_item_max_size c) (sc_expire_default c)
    (sc_expire_force c) stats_zero 0 (sc_status_period c)
    (ServerNet (sc_listen_fd c) (sc_sndbuf c) (sc_rcvbuf c) 0 (sc_connections_limit c)
       (sc_send_timeout c) (sc_recv_timeout c) (sc_request_timeout c) (sc_keepalive_timeout c)
       (sc_shutdown_if_not_store c) (sc_access_log c) (sc_access_filp c)).

Definition server_create (s : Z) : Y unit :=
  c ← load_cserver s;
  hash ← deref NullPtr (sc_hash c);
  y ← get;
  r ← cache (out (idx_pointer_add (server_indexs (y_st y)) s));
  modify (λ y, set_y_conf
    (let cc := conf_cycle (y_conf y) in
     set_conf_cycle (set_cf_servers (list_remove_one s (cf_servers cc)) cc)
       (set_cservers (delete s (cservers (y_conf y))) (y_conf y))) y);;
  cache (modify (λ st, set_server_indexs r.2
    (set_srvs (<[s := server_of_conf c hash r.1]> (srvs st))
      (set_servers (servers st ++ [s]) st))));;
  server_listen_start s.

Definition server_delete (s : Z) : Y unit :=
  cache (upd_srv s (set_s_deleted true));;
  server_listen_close s;;
  cache (modify (λ st, set_deleted_servers (s :: deleted_servers st)
    (set_servers (list_remove_one s (servers st)) st))).

(** The fields [server_update] copies. *)
Definition update_fields (c : server_conf) (sv : ohc_server_t) : ohc_server_t :=
  let n := s_net sv in
  Server (s_lru_head sv) (s_passby_lru_head sv) (s_listen_port sv) (s_hash sv)
    (sc_capacity c) (s_consumed sv) (s_content sv) (s_item_nr sv) (s_conf sv) (s_index sv)
    (s_clear sv) (s_deleted sv) (sc_server_dump c) (sc_key_include_host c)
    (sc_key_include_ohc_key c) (sc_key_include_query c) (sc_passby_enable c)
    (sc_passby_begin_item_nr c) (sc_passby_begin_consumed c) (sc_passby_limit_nr c)
    (sc_passby_expire c) (s_passby_item_nr sv) (sc_item_max_size c) (sc_expire_default c)
    (sc_expire_force c) (s_stats sv) (s_last_clear sv) (sc_status_period c)
    (ServerNet (n_listen_fd n) (n_sndbuf n) (n_rcvbuf n) (n_connections n) (n_connections_limit n)
       (sc_send_timeout c) (sc_recv_timeout c) (n_request_timeout n) (sc_keepalive_timeout c)
       (sc_shutdown_if_not_store c) (n_access_log n) (n_access_filp n)).

Definition log_fields (log : list Z) (filp : Z) (n : server_net) : server_net :=
  ServerNet (n_listen_fd n) (n_sndbuf n) (n_rcvbuf n) (n_connections n) (n_connections_limit n)
    (n_send_timeout n) (n_recv_timeout n) (n_request_timeout n) (n_keepalive_timeout n)
    (n_shutdown_if_not_store n) log (Some filp).

Definition server_update (s : Z) (c : server_conf) : Y unit :=
  cache (modify (λ st, set_servers (list_remove_one s (servers st) ++ [s]) st));;
  sv ← cache (load_srv s);
  match sc_access_filp c with
  | None => mret tt
  | Some filp =>
      old ← deref NullPtr (n_access_filp (s_net sv));
      modify (λ y, set_y_logs (y_logs y ∖ {[old]}) y);;
      upd_net s (log_fields (sc_access_log c) filp)
  end;;
  cache (upd_srv s (update_fields c));;
  server_listen_update s c.

(** *** Checking *)

Fixpoint csearch_port (port : Z) (l : list Z) (stop : Z) : Y (option Z) :=
  match l with
  | [] => mret None
  | s :: l =>
      if decide (s = stop) then mret None else
      c ← load_cserver s;
      if sc_listen_port c =? port then mret (Some s) else csearch_port port l stop
  end.

(** A server with a new port: a socket and a hash table. *)
Definition check_new (s : Z) (c : server_conf) (l : list Z) : Y (option string) :=
  same ← csearch_port (sc_listen_port c) l s;
  match same with
  | Some _ => mret (Some "duplicated listen port"%string)
  | None =>
      y ← get;
      let fd := tcp_bind y (sc_listen_port c) in
      upd_cserver s (set_sc_listen_fd fd);;
      if fd <? 0 then mret (Some "error in bind port"%string) else
      modify (λ y, set_y_fds (y_fds y ∪ {[fd]}) y);;
      y ← get;
      match hash_init (hash_mem y).1 (hash_mem y).2 with
      | None => mret (Some "no mem when init hash"%string)
      | Some h => upd_cserver s (set_sc_hash (Some h));; mret None
      end
  end.

(** The live server with the same port, which it will update, or a new one. *)
Definition check_port (s : Z) (c : server_conf) (l : list Z) : Y (option string) :=
  y ← get;
  s2 ← cache (server_search_port (sc_listen_port c) (servers (y_st y)) (Some s));
  match s2 with
  | Some s2 =>
      sv2 ← cache (load_srv s2);
      match s_conf sv2 with
      | Some _ => mret (Some "duplicated listen port"%string)
      | None =>
          upd_cserver s (set_sc_conf (Some s2));;
          cache (upd_srv s2 (set_s_conf (Some s)));;
          mret None
      end
  | None => check_new s c l
  end.

(** The log file, when it is not the one the live server writes. *)
Definition check_log (s : Z) : Y (option string) :=
  c ← load_cserver s;
  differ ← match sc_conf c with
           | None => mret true
           | Some s2 =>
               sv2 ← cache (load_srv s2);
               mret (bool_decide (sc_access_log c ≠ n_access_log (s_net sv2)))
           end;
  if negb differ then mret None else
  y ← get;
  match fopen y (sc_access_log c) with
  | None => mret (Some "error in open log file"%string)
  | Some filp =>
      upd_cserver s (set_sc_access_filp (Some filp));;
      modify (λ y, set_y_logs (y_logs y ∪ {[filp]}) y);;
      mret None
  end.

Definition check_server (s : Z) (l : list Z) : Y (option string) :=
  c ← load_cserver s;
  if sc_send_timeout c <=? 0 then mret (Some "send_timeout must be positive"%string) else
  if sc_recv_timeout c <=? 0 then mret (Some "recv_timeout must be positive"%string) else
  if sc_status_period c =? 0 then mret (Some "status_period must be positive"%string) else
  e ← check_port s c l;
  match e with
  | Some msg => mret (Some msg)
  | None => check_log s
  end.

Fixpoint check_servers (todo l : list Z) (count : Z) : Y ohc_rc :=
  match todo with
  | [] => mret OHC_OK
  | s :: todo =>
      let count := count + 1 in
      if IPT_ARRAY_SIZE - 1 <=? count then mret OHC_ERROR else
      e ← check_server s l;
      match e with
      | Some _ => mret OHC_ERROR
      | None => check_servers todo l count
      end
  end.

Fixpoint for_each (f : Z → Y unit) (l : list Z) : Y unit :=
  match l with [] => mret tt | s :: l => f s;; for_each f l end.

Definition server_conf_check : Y ohc_rc :=
  y ← get;
  let l := cf_servers (conf_cycle (y_conf y)) in
  if decide (l = []) then mret OHC_ERROR else
  for_each (λ s, cache (upd_srv s (set_s_conf None))) (servers (y_st y));;
  check_servers l l (Z.of_nat (length (deleted_servers (y_st y)))).

(** *** Loading, or not *)

Definition load_server (s : Z) : Y unit :=
  c ← load_cserver s;
  match sc_conf c with
  | Some s2 => server_update s2 c
  | None => server_create s
  end.

Definition delete_unmatched (s : Z) : Y unit :=
  sv ← cache (load_srv s);
  match s_conf sv with None => server_delete s | Some _ => mret tt end.

Definition server_conf_load : Y unit :=
  y ← get;
  for_each delete_unmatched (servers (y_st y));;
  for_each load_server (cf_servers (conf_cycle (y_conf y))).

Definition rollback_server (s : Z) : Y unit :=
  c ← load_cserver s;
  match sc_access_filp c with
  | Some filp => modify (λ y, set_y_logs (y_logs y ∖ {[filp]}) y)
  | None => mret tt
  end;;
  if 0 <=? sc_listen_fd c then modify (λ y, set_y_fds (y_fds y ∖ {[sc_listen_fd c]}) y)
  else mret tt.
Definition server_conf_rollback : Y unit :=
  y ← get; for_each rollback_server (cf_servers (conf_cycle (y_conf y))).

Definition server_stop_service : Y unit :=
  y ← get; for_each server_listen_close (servers (y_st y)).
End server_conf.
