(* ===== verification/DeviceLoad.v ===== *)
(** * device.c: devices from a configuration

    As for the servers: each device of a new configuration is matched with a live
    one, by the device and inode numbers of its file, or opened and measured;
    then the configuration is loaded or rolled back.  A device that is added
    leaves the configuration for the store of devices.

    [stat], [open] and [ioctl] are parameters; the open files are in [y_fds]. *)

From Stdlib Require Import String.
From stdpp Require Import prelude fin_maps gmap.
From S2P Require Import Prelude IdxPointer StrUtil IpBucket Slab Hash Device Http Server Conf ServerConf.

(** What [stat] tells of a file: its numbers, and the size of a regular file or
    the sectors [BLKGETSIZE] answers for a block device. *)
Inductive file_mode := S_REG (size : Z) | S_BLK (sectors : option Z) | S_OTHER.
Record filestat := FileStat { st_dev : Z; st_ino : Z; st_mode : file_mode }.

Section device_load.
Context {AS IS PS : Type} `{Allocator AS} `{Allocator IS} `{Allocator PS}.
Context (stat : list Z → option filestat) (open : csys AS IS PS → list Z → Z).
Abbreviation Y := (M (csys AS IS PS)).

Definition dev {A} (c : M (dstore AS) A) : Y A := cache (lift c).
Definition load_cdevice (d : Z) : Y ohc_device_t :=
  y ← get; deref Dangling (cdevices (y_conf y) !! d).
Definition upd_cdevice (d : Z) (f : ohc_device_t → ohc_device_t) : Y unit :=
  _ ← load_cdevice d;
  modify (λ y, set_y_conf (set_cdevices (alter f d (cdevices (y_conf y))) (y_conf y)) y).

(** [device_search_inode]; [load] reads a device of the list. *)
Fixpoint device_search_inode (load : Z → Y ohc_device_t) (dev inode : Z) (head : list Z) (stop : Z) : Y (option Z) :=
  match head with
  | [] => mret None
  | d :: head =>
      if decide (d = stop) then mret None else
      dv ← load d;
      if (d_inode dv =? inode) && (d_dev dv =? dev) then mret (Some d)
      else device_search_inode load dev inode head stop
  end.
Definition device_check_same (load : Z → Y ohc_device_t) (head : list Z) (d : Z) : Y (option Z) :=
  dv ← load_cdevice d; device_search_inode load (d_dev dv) (d_inode dv) head d.
Definition load_live (d : Z) : Y ohc_device_t := dev (load_dev d).

(** The capacity of a new device, or what is wrong with it. *)
Definition device_capacity (check_270G : bool) (m : file_mode) : string + Z :=
  let limit c := if SENDFILE_LIMIT <? c
                 then if check_270G then inl "file is too big(at most 0x4020010000)"%string else inr SENDFILE_LIMIT
                 else inr c in
  match m with
  | S_REG size => limit (Z.land size (Z.lnot 0x1FF))
  | S_BLK None => inl "error in ioctl device"%string
  | S_BLK (Some n) => limit (u64 (Z.shiftl n 9))
  | S_OTHER => inl "error file type(only allow REGULAR and BLOCK)"%string
  end.

(** A device with a new file. *)
Definition check_new_device (d : Z) (fs : filestat) (check_270G : bool) (l : list Z) : Y (option string) :=
  same ← device_check_same load_cdevice l d;
  match same with
  | Some _ => mret (Some "duplicate devices"%string)
  | None =>
      dv ← load_cdevice d;
      y ← get;
      let fd := open y (d_filename dv) in
      upd_cdevice d (set_d_fd fd);;
      if fd <? 0 then mret (Some "error in open device"%string) else
      modify (λ y, set_y_fds (y_fds y ∪ {[fd]}) y);;
      match device_capacity check_270G (st_mode fs) with
      | inl msg => mret (Some msg)
      | inr c => upd_cdevice d (set_d_capacity c);; mret None
      end
  end.

Definition check_device (d : Z) (check_270G : bool) (l : list Z) : Y (option string) :=
  dv ← load_cdevice d;
  match stat (d_filename dv) with
  | None => mret (Some "error in stat device"%string)
  | Some fs =>
      upd_cdevice d (λ dv, set_d_dev (st_dev fs) (set_d_inode (st_ino fs) dv));;
      y ← get;
      d2 ← device_check_same load_live (deleted_devices (dst (y_st y))) d;
      closing ← match d2 with
                | Some d2 => dv2 ← load_live d2; mret (negb (d_fd dv2 =? -1))
                | None => mret false
                end;
      if closing : bool then mret (Some "in deleting, try later"%string) else
      d2 ← device_check_same load_live (devices (dst (y_st y))) d;
      match d2 with
      | Some d2 =>
          dv2 ← load_live d2;
          match d_conf dv2 with
          | Some _ => mret (Some "duplicate devices"%string)
          | None =>
              dev (upd_dev d2 (set_d_conf (Some d)));;
              upd_cdevice d (set_d_conf (Some d2));;
              mret None
          end
      | None => check_new_device d fs check_270G l
      end
  end.

Fixpoint check_devices (todo l : list Z) (check_270G : bool) (count : Z) : Y ohc_rc :=
  match todo with
  | [] => mret OHC_OK
  | d :: todo =>
      let count := count + 1 in
      if DEVICES_LIMIT - 1 <=? count then mret OHC_ERROR else
      e ← check_device d check_270G l;
      match e with
      | Some _ => mret OHC_ERROR
      | None => check_devices todo l check_270G count
      end
  end.

Definition device_conf_check : Y ohc_rc :=
  y ← get;
  let cc := conf_cycle (y_conf y) in
  let l := cf_devices cc in
  if decide (l = []) then mret OHC_ERROR else
  if 100 <=? cf_device_badblock_percent cc then mret OHC_ERROR else
  for_each (λ d, dev (upd_dev d (set_d_conf None))) (devices (dst (y_st y)));;
  check_devices l l (cf_device_check_270G cc) (Z.of_nat (length (deleted_devices (dst (y_st y))))).

Definition delete_unmatched_device (d : Z) : Y unit :=
  dv ← load_live d;
  match d_conf dv with None => dev (device_delete d) | Some _ => mret tt end.

(** [device_update], or [device_add] of a device that leaves the configuration. *)
Definition load_device (d : Z) : Y unit :=
  dv ← load_cdevice d;
  match d_conf dv with
  | Some d2 => dev (device_update d2 dv)
  | None =>
      modify (λ y, set_y_conf
        (let cc := conf_cycle (y_conf y) in
         set_conf_cycle (set_cf_devices (list_remove_one d (cf_devices cc)) cc)
           (set_cdevices (delete d (cdevices (y_conf y))) (y_conf y))) y);;
      dev (modify (λ ds, set_devs (<[d := dv]> (devs ds)) ds));;
      dev (device_add d)
  end.

(** The buckets of free blocks are empty at the start, which is what
    [ipbucket_init] makes of them the first time. *)
Definition device_conf_load : Y unit :=
  y ← get;
  let cc := conf_cycle (y_conf y) in
  dev (modify (λ ds, set_device_badblock_percent (cf_device_badblock_percent cc)
                       (set_device_check_270G (cf_device_check_270G cc) ds)));;
  for_each delete_unmatched_device (devices (dst (y_st y)));;
  for_each load_device (cf_devices cc).

Definition rollback_device (d : Z) : Y unit :=
  dv ← load_cdevice d;
  if 0 <=? d_fd dv then modify (λ y, set_y_fds (y_fds y ∖ {[d_fd dv]}) y) else mret tt.
Definition device_conf_rollback : Y unit :=
  y ← get; for_each rollback_device (cf_devices (conf_cycle (y_conf y))).
End device_load.
