(* ===== verification/Cache.v ===== *)
(** * The empty cache, and what the routine does to the servers

    The invariant of the cache holds in the empty one; creating a server keeps
    it, and so does the routine of the servers, which expires items and takes
    deleted servers apart.  The operations leave the lists of servers alone. *)

From Stdlib Require Import String.
From stdpp Require Import prelude fin_maps gmap.
From S2P Require Import Prelude IdxPointer StrUtil IpBucket Slab Hash Device DeviceInv DeviceOps DeviceConf.
From S2P Require Import Http HttpProofs Server ServerInv ServerOps ServerExpire ServerPut ServerHandlers ServerFinalize.
From S2P Require Import Conf ServerConf.
#[local] Arguments im : simpl never.

(** ** The empty cache, and a new server *)

Section create.
Context {AS IS PS : Type} `{Allocator AS} `{Allocator IS} `{Allocator PS}.
Implicit Types (st : sstore AS IS PS) (sv : ohc_server_t) (G P : list Z).

Definition sstore_init (ds : dstore AS) (isl : IS) (psl : PS) (now : Z) : sstore AS IS PS :=
  SStore ds ∅ [] [] IDX_POINTER_INIT [] ∅ ∅ isl psl now.

Lemma sstore_init_inv ds isl psl now :
  dev_inv ds → item_mem ds = ∅ → (∀ i d dv, registered ds i d dv → d_used dv = 0) →
  al_ok isl → (∀ x, ¬ al_live isl x) → al_ok psl → (∀ p, ¬ al_live psl p) →
  cache_inv (sstore_init ds isl psl now) None [] [].
Proof.
  intros Hd Em Hu Hi Hil Hp Hpl.
  assert (∀ x it, im (sstore_init ds isl psl now) None !! x = Some it → False) as Hno
    by (intros x it; unfold im; cbn; rewrite Em; by rewrite lookup_empty).
  assert (∀ i s sv, sreg (sstore_init ds isl psl now) i s sv → False) as Hns
    by (intros i s sv (E & _); by apply idx_init_get in E).
  split; cbn; try done; try (by intros ? ?%not_elem_of_nil); try apply NoDup_nil_2.
  - apply idx_init_inv.
  - intros i s E. by apply idx_init_get in E.
  - intros x it Hx. by apply Hno in Hx.
  - intros i s sv Hr. by apply Hns in Hr.
  - intros i s sv j s' sv' p Hr. by apply Hns in Hr.
  - intros x it Hx. by apply Hno in Hx.
  - split; [apply NoDup_nil_2|]. by intros ? ?%not_elem_of_nil.
  - intros x. rewrite Em, lookup_empty. split; [by intros ?%Hil|by intros []].
  - intros x. rewrite lookup_empty. split; [by intros ?%Hpl|by intros []].
Qed.

(** The lists of servers and the time are not in the invariant. *)
Lemma cache_inv_core st st' L G P :
  dst st' = dst st → srvs st' = srvs st → server_indexs st' = server_indexs st →
  shared_lru_head st' = shared_lru_head st → hids st' = hids st → passbys st' = passbys st →
  islab st' = islab st → pslab st' = pslab st → cache_inv st L G P → cache_inv st' L G P.
Proof.
  destruct st, st'. cbn. intros -> -> -> -> -> -> -> ->.
  intros [H_dev H_idx H_table H_sreg H_item H_server H_shn H_sh H_pone H_used H_put H_du H_held H_loose H_ia H_il H_pa H_pl].
  split; try done.
  - intros x it Hx. by destruct (H_item x it Hx).
  - intros i s sv Hr. by destruct (H_server i s sv Hr).
Qed.

(** A server with an empty table takes a free index. *)
Definition with_server st (t : idx_pointer_t Z) (s : Z) sv : sstore AS IS PS :=
  set_server_indexs t (set_srvs (<[s := sv]> (srvs st)) (set_servers (servers st ++ [s]) st)).

Record new_server (m : gmap snode md5_id) sv : Prop := {
  ns_hash : hash_inv m (s_hash sv) ∧ hash_nodes (s_hash sv) = [];
  ns_lists : s_lru_head sv = [] ∧ s_passby_lru_head sv = [];
  ns_counts : s_item_nr sv = 0 ∧ s_content sv = 0 ∧ s_consumed sv = 0 ∧ s_passby_item_nr sv = 0
}.

Lemma msum_zero (f : ohc_item_t → Z) (m : gmap Z ohc_item_t) :
  (∀ x it, m !! x = Some it → f it = 0) → msum f m = 0.
Proof.
  induction m as [|x it m Hx IH] using map_ind; intros Hf; [apply msum_empty|].
  rewrite msum_insert by done. rewrite (Hf x it) by apply lookup_insert_eq. rewrite IH; [done|].
  intros y it' Hy. apply (Hf y). rewrite lookup_insert_ne; [done|]. congruence.
Qed.

Lemma cache_inv_create st G P s sv i t :
  cache_inv st None G P → srvs st !! s = None → new_server (hids st) sv → s_index sv = i →
  (used_nr (server_indexs st) < Z.to_nat IPT_ARRAY_SIZE)%nat →
  idx_pointer_add (server_indexs st) s = Ret (i, t) →
  cache_inv (with_server st t s sv) None G P.
Proof.
  intros Hi Hs [[Hh Hn] [Hl Hpl] (Hc1 & Hc2 & Hc3 & Hc4)] Hix Hroom Hadd.
  destruct (idx_add_get (server_indexs st) s (ci_idx _ _ _ _ Hi) Hroom)
    as (i' & t' & E' & Hr & Ht & Hfree & Hget & _ & Hother).
  rewrite Hadd in E'. injection E' as <- <-.
  assert (∀ k s' sv', sreg st k s' sv' → k ≠ i ∧ s' ≠ s ∧ sreg (with_server st t s sv) k s' sv') as Hold.
  { intros k s' sv' (E1 & E2 & E3). assert (k ≠ i) by (intros ->; rewrite Hfree in E1; done). assert (s' ≠ s) by (intros ->; rewrite Hs in E2; done).
    split_and!; try done. split_and!; cbn; [by rewrite Hother|by rewrite lookup_insert_ne|done]. }
  assert (∀ k s' sv', sreg (with_server st t s sv) k s' sv' → k = i ∧ s' = s ∧ sv' = sv ∨ sreg st k s' sv') as Hnew.
  { intros k s' sv' (E1 & E2 & E3). cbn in E1, E2. destruct (decide (s' = s)) as [->|Hne].
    - rewrite lookup_insert_eq in E2. injection E2 as <-. left. split_and!; [congruence|done..].
    - right. rewrite lookup_insert_ne in E2 by done. split_and!; try done. destruct (decide (k = i)) as [->|]; [|by rewrite <- Hother].
      rewrite Hget in E1. by injection E1. }
  assert (∀ x it, im st None !! x = Some it → it_server_index it ≠ i) as Hnoit.
  { intros x it Hx E. destruct (io_srv _ _ _ (ci_item _ _ _ _ Hi x it Hx)) as (s' & sv' & (E1 & _) & _). congruence. }
  assert (∀ (g : ohc_item_t → Z), msum (of_server i g) (im st None) = 0) as Hsum.
  { intros g. apply msum_zero. intros x it Hx. unfold of_server. by rewrite (proj2 (Z.eqb_neq _ _)) by (by eapply Hnoit). }
  destruct Hi as [H_dev H_idx H_table H_sreg H_item H_server H_shn H_sh H_pone H_used H_put H_du H_held H_loose H_ia H_il H_pa H_pl].
  split; try done; cbn.
  - intros k s' E. destruct (decide (k = i)) as [->|Hne].
    + rewrite Hget in E. injection E as <-. split; [done|]. exists sv. by rewrite lookup_insert_eq.
    + rewrite Hother in E by done. destruct (H_table k s' E) as (? & sv' & E2 & E3). split; [done|]. exists sv'.
      rewrite lookup_insert_ne by (intros <-; congruence). done.
  - intros s' sv' E. destruct (decide (s' = s)) as [->|Hne].
    + rewrite lookup_insert_eq in E. injection E as <-. by rewrite Hix.
    + rewrite lookup_insert_ne in E by done. pose proof (H_sreg _ _ E) as E2. rewrite Hother; [done|]. congruence.
  - intros x it Hx. destruct (H_item x it Hx) as [Hd' (s' & sv' & Hrg & Hrest)]. split; [done|].
    exists s', sv'. split; [by apply Hold|done].
  - intros k s' sv' [(-> & -> & ->)|Hrg]%Hnew.
    + split; cbn; rewrite ?Hn, ?Hl, ?Hpl, ?Hix; try done; try (by intros ? ?%not_elem_of_nil); try apply NoDup_nil_2.
      * intros n n' id ?%not_elem_of_nil. done.
      * intros p. split; by intros ?%not_elem_of_nil.
      * by rewrite Hc1, Hsum.
      * by rewrite Hc2, Hsum.
      * by rewrite Hc3, Hsum.
    + destruct (H_server _ _ _ Hrg). by split.
  - intros k1 s1 sv1 k2 s2 sv2 p [(-> & -> & ->)|H1r]%Hnew [(-> & -> & ->)|H2r]%Hnew; [done|..].
    + rewrite Hpl. by intros ?%not_elem_of_nil.
    + rewrite Hpl. by intros _ ?%not_elem_of_nil.
    + by eapply H_pone.
Qed.
End create.

(** ** What the operations on items leave alone

    The lists and the table of the servers, and the time. *)

Section keeps.
Context {AS IS PS : Type} `{Allocator AS} `{Allocator IS} `{Allocator PS}.
Context (MD5 : list Z → md5_id) (kmalloc : dstore AS → option Z).
Implicit Types (st : sstore AS IS PS).

Record framed st st' : Prop := {
  fr_servers : servers st' = servers st;
  fr_deleted : deleted_servers st' = deleted_servers st;
  fr_table : server_indexs st' = server_indexs st;
  fr_srvs : dom (srvs st') = dom (srvs st);
  fr_now : master_now st' = master_now st
}.
Lemma framed_refl st : framed st st.
Proof. by split. Qed.
Lemma framed_trans st st' st'' : framed st st' → framed st' st'' → framed st st''.
Proof. intros [] []. split; congruence. Qed.

#[export] Instance framed_preorder : PreOrder framed.
Proof. split; [exact framed_refl|exact framed_trans]. Qed.
Abbreviation keeps := (within framed).

Lemma keeps_lift {A} (c : M (dstore AS) A) : keeps (lift c).
Proof. intros st a st'. unfold lift. destruct (c (dst st)) as [[a' ds]|]; [|done]. by intros [= _ <-]. Qed.
Lemma keeps_lift_st {A} (c : sstore AS IS PS → M (dstore AS) A) : keeps (λ st, lift (c st) st).
Proof. intros st a st'. unfold lift. destruct (c st (dst st)) as [[a' ds]|]; [|done]. by intros [= _ <-]. Qed.
Lemma keeps_out {A} (o : outcome A) : keeps (out o).
Proof. intros st a st'. unfold out. destruct o; [|done]. intros [= _ <-]. apply framed_refl. Qed.
Lemma keeps_load_srv s : keeps (load_srv s).
Proof. apply (within_bind framed); [apply (within_get framed)|]. intros. apply (within_deref framed). Qed.
Lemma keeps_upd_srv s f : keeps (upd_srv s f).
Proof.
  apply (within_bind framed); [apply keeps_load_srv|]. intros _. apply within_modify. intros st. split; try done.
  cbn. by rewrite dom_alter_L.
Qed.
Lemma keeps_server_at i : keeps (server_at i).
Proof.
  intros st a st'. unfold server_at. destruct (idx_pointer_get _ _) as [[s|]|]; try done. intros [= _ <-]. apply framed_refl.
Qed.
Lemma keeps_lru_del x : keeps (lru_del x).
Proof.
  intros st a st'. unfold lru_del. destruct (lru_linked st x); [|done]. intros [= _ <-]. split; try done.
  cbn. by rewrite dom_fmap_L.
Qed.
Lemma keeps_item_alloc : keeps (item_alloc (IS := IS)).
Proof. intros st a st'. unfold item_alloc. destruct (al_alloc _) as [[r sl]|]; [|done]. by intros [= _ <-]. Qed.
Lemma keeps_item_free x : keeps (item_free x).
Proof. intros st a st'. unfold item_free. destruct (al_free _ _); [|done]. by intros [= _ <-]. Qed.
Lemma keeps_passby_alloc : keeps (passby_alloc (PS := PS)).
Proof. intros st a st'. unfold passby_alloc. destruct (al_alloc _) as [[r sl]|]; [|done]. by intros [= _ <-]. Qed.
Lemma keeps_passby_free x : keeps (passby_free x).
Proof. intros st a st'. unfold passby_free. destruct (al_free _ _); [|done]. by intros [= _ <-]. Qed.

Ltac keep :=
  repeat first
    [ match goal with |- keeps (mbind _ _) => apply (within_bind framed); [|intros] end
    | apply (within_ret framed) | apply (within_get framed) | apply within_fail | apply (within_deref framed) | apply keeps_lift_st | apply keeps_lift
    | apply keeps_out | apply keeps_load_srv | apply keeps_upd_srv | apply keeps_server_at | apply keeps_lru_del
    | apply keeps_item_alloc | apply keeps_item_free | apply keeps_passby_alloc | apply keeps_passby_free
    | apply within_modify; intros; by split
    | progress cbv zeta
    | match goal with
      | |- keeps (if decide ?P then _ else _) => destruct (decide P)
      | |- keeps (if ?b then _ else _) => destruct b
      | |- keeps (match ?o with _ => _ end) => destruct o
      end
    | done ].

Lemma keeps_server_of_item x : keeps (server_of_item x). Proof. unfold server_of_item. keep. Qed.
Lemma keeps_lru_add s x : keeps (lru_add s x). Proof. unfold lru_add. keep. Qed.
Lemma keeps_passby_lru_del s p : keeps (passby_lru_del s p). Proof. unfold passby_lru_del. keep. Qed.
Lemma keeps_passby_lru_add s p : keeps (passby_lru_add s p). Proof. apply keeps_upd_srv. Qed.
Lemma keeps_srv_hash_del s n : keeps (srv_hash_del s n). Proof. unfold srv_hash_del. keep. Qed.
Lemma keeps_srv_hash_add c s n id : keeps (srv_hash_add MD5 c s n id). Proof. unfold srv_hash_add. keep. Qed.
Lemma keeps_srv_hash_get c s key : keeps (srv_hash_get MD5 c s key). Proof. unfold srv_hash_get. keep. Qed.

Ltac keep' :=
  repeat first
    [ progress keep
    | apply keeps_server_of_item | apply keeps_lru_add | apply keeps_passby_lru_del | apply keeps_passby_lru_add
    | apply keeps_srv_hash_del | apply keeps_srv_hash_add | apply keeps_srv_hash_get ].

Lemma keeps_server_item_delete x : keeps (server_item_delete kmalloc x).
Proof. unfold server_item_delete. keep'. Qed.
Lemma keeps_server_item_valid x : keeps (server_item_valid x).
Proof. unfold server_item_valid. keep'. Qed.
Lemma keeps_server_passby_item_delete s p : keeps (server_passby_item_delete s p).
Proof. unfold server_passby_item_delete. keep'. Qed.

Ltac keep2 :=
  repeat first
    [ progress keep' | apply keeps_server_item_delete | apply keeps_server_item_valid | apply keeps_server_passby_item_delete ].

Lemma keeps_server_item_expire s target : keeps (server_item_expire kmalloc s target).
Proof.
  assert (∀ before l count, keeps (expire_items kmalloc s before target l count)) as H1'.
  { intros before l. induction l as [|x l IH]; intros count; cbn [expire_items]; keep2; apply IH. }
  assert (∀ l count, keeps (expire_passbys s l count)) as H2'.
  { induction l as [|x l IH]; intros count; cbn [expire_passbys]; keep2; apply IH. }
  unfold server_item_expire. keep2.
Qed.
Lemma keeps_server_shared_expire target : keeps (server_shared_expire kmalloc target).
Proof.
  assert (∀ l size count, keeps (shared_expire_loop kmalloc target l size count)) as H1'.
  { induction l as [|x l IH]; intros size count; cbn [shared_expire_loop]; keep2; apply IH. }
  unfold server_shared_expire. keep2.
Qed.
Lemma keeps_device_free_block_extend target : keeps (device_free_block_extend kmalloc target).
Proof.
  assert (∀ p, keeps (device_delete_item kmalloc p)) as H1' by (intros p; unfold device_delete_item; keep2).
  unfold device_free_block_extend. generalize LOOP_LIMIT as n, (ipbucket_block_size target) as t, 0 as last_.
  induction n as [|n IH]; intros t last_; cbn [extend_loop]; keep2; first [apply H1'|apply IH].
Qed.
Lemma keeps_put_alloc n s x t : keeps (put_alloc kmalloc n s x t).
Proof.
  revert t. induction n as [|n IH]; intros t; cbn [put_alloc]; keep2;
    first [apply keeps_server_item_expire|apply keeps_server_shared_expire|apply keeps_device_free_block_extend|apply IH].
Qed.
Lemma keeps_server_hash_get c r : keeps (server_hash_get MD5 c r).
Proof. unfold server_hash_get. keep2. Qed.
Lemma keeps_get_handler c r : keeps (server_request_get_handler MD5 kmalloc c r).
Proof. unfold server_request_get_handler. keep2; apply keeps_server_hash_get. Qed.
Lemma keeps_delete_handler c r : keeps (server_request_delete_handler MD5 kmalloc c r).
Proof. unfold server_request_delete_handler. keep2; apply keeps_server_hash_get. Qed.
Lemma keeps_put_store c id r : keeps (put_store MD5 kmalloc c id r).
Proof. unfold put_store. keep2; apply keeps_put_alloc. Qed.
Lemma keeps_put_handler c1 c2 r : keeps (server_request_put_handler MD5 kmalloc c1 c2 r).
Proof.
  assert (∀ s id, keeps (server_passby_store MD5 c2 s id)) as H1' by (intros; unfold server_passby_store; keep2).
  unfold server_request_put_handler.
  keep2; first [apply keeps_server_hash_get|apply H1'|apply keeps_put_store].
Qed.
Lemma keeps_finalize r : keeps (server_request_finalize kmalloc r).
Proof. unfold server_request_finalize. keep2. Qed.
Lemma keeps_period s : keeps (server_period kmalloc s).
Proof. unfold server_period. keep2; apply keeps_server_item_expire. Qed.
End keeps.

(** ** The master's routine *)

Section routine.
Context {AS IS PS : Type} `{Allocator AS} `{Allocator IS} `{Allocator PS}.
Context (kmalloc : dstore AS → option Z).
Context (Hkm : ∀ ds a, kmalloc ds = Some a → devs ds !! a = None).
Implicit Types (st : sstore AS IS PS) (sv : ohc_server_t) (G P : list Z).

Lemma msum_nonneg (f : ohc_item_t → Z) (m : gmap Z ohc_item_t) : (∀ it, 0 ≤ f it) → 0 ≤ msum f m.
Proof.
  intros Hf. induction m as [|x it m Hx IH] using map_ind; [by rewrite msum_empty|].
  rewrite msum_insert by done. specialize (Hf it). lia.
Qed.

(** A server without items: no item carries its index. *)
Lemma no_items_of st G P s sv x it :
  cache_inv st None G P → srvs st !! s = Some sv → s_item_nr sv = 0 → im st None !! x = Some it →
  it_server_index it ≠ s_index sv.
Proof.
  intros Hi Es En Hx E. pose proof (ci_server _ _ _ _ Hi _ _ _ (sreg_lookup _ _ _ _ _ _ Hi Es)) as Hso.
  pose proof (so_item_nr _ _ _ _ Hso) as Hn. rewrite En, (msum_delete _ _ _ _ Hx) in Hn.
  assert (0 ≤ msum (of_server (s_index sv) (λ _, 1)) (delete x (im st None)))
    by (apply msum_nonneg; intros; unfold of_server; by case_match).
  unfold of_server in Hn at 1. rewrite E, Z.eqb_refl in Hn. lia.
Qed.

Definition without_server st (t : idx_pointer_t Z) (s : Z) : sstore AS IS PS :=
  set_srvs (delete s (srvs st)) (set_server_indexs t
    (set_deleted_servers (list_remove_one s (deleted_servers st)) st)).

Lemma idx_delete_get (ipt : idx_pointer_t Z) i :
  idx_inv ipt → 0 ≤ i < IPT_ARRAY_SIZE →
  ∃ t, idx_pointer_delete ipt i = Ret t ∧ idx_inv t ∧ idx_pointer_get t i = Ret None ∧
    ∀ k, k ≠ i → idx_pointer_get t k = idx_pointer_get ipt k.
Proof.
  intros Hinv Hi. pose proof Hinv as (Hlen & _).
  assert (∃ t, idx_pointer_delete ipt i = Ret t) as [t E].
  { unfold idx_pointer_delete, array_set. destruct (decide (0 ≤ i < Z.of_nat (length (array ipt)))); [by eexists|lia]. }
  destruct (idx_delete_spec ipt i t Hinv E) as (Ht & _ & Ea). exists t. split_and!; [done..| |].
  - unfold idx_pointer_get, array_get. rewrite decide_True by lia. rewrite Ea, list_lookup_insert_eq by lia. done.
  - intros k Hk. unfold idx_pointer_get, array_get. destruct (decide (0 ≤ k)); [|done].
    rewrite Ea, list_lookup_insert_ne by lia. done.
Qed.

Lemma cache_inv_remove st G P s sv t :
  cache_inv st None G P → srvs st !! s = Some sv → s_item_nr sv = 0 → s_passby_item_nr sv = 0 →
  idx_pointer_delete (server_indexs st) (s_index sv) = Ret t →
  cache_inv (without_server st t s) None G P.
Proof.
  intros Hi Es En Ep Edel. pose proof (sreg_lookup _ _ _ _ _ _ Hi Es) as Hreg. pose proof Hreg as (E1 & _).
  destruct (ci_table _ _ _ _ Hi _ _ E1) as (Hrange & _).
  destruct (idx_delete_get (server_indexs st) (s_index sv) (ci_idx _ _ _ _ Hi) Hrange) as (t' & E' & Ht & Hnone & Hother).
  rewrite Edel in E'. injection E' as <-.
  assert (∀ x it, im st None !! x = Some it → it_server_index it ≠ s_index sv) as Hnoit by (intros; by eapply no_items_of).
  assert (∀ k s' sv', sreg (without_server st t s) k s' sv' ↔ k ≠ s_index sv ∧ sreg st k s' sv') as Hsreg.
  { intros k s' sv'. split.
    - intros (F1 & F2 & F3). cbn in F1, F2. assert (k ≠ s_index sv) by (intros ->; congruence).
      apply lookup_delete_Some in F2 as [_ F2]. split_and!; [done|]. split_and!; [by rewrite <- Hother|done..].
    - intros (Hne & F1 & F2 & F3). split_and!; cbn; [by rewrite Hother| |done]. rewrite lookup_delete_ne; [done|].
      intros <-. congruence. }
  destruct Hi as [H_dev H_idx H_table H_sreg H_item H_server H_shn H_sh H_pone H_used H_put H_du H_held H_loose H_ia H_il H_pa H_pl].
  split; try done; cbn.
  - intros k s' E. destruct (decide (k = s_index sv)) as [->|Hne]; [congruence|]. rewrite Hother in E by done.
    destruct (H_table k s' E) as (? & sv' & F2 & F3). split; [done|]. exists sv'. split; [|done].
    rewrite lookup_delete_ne; [done|]. intros <-. congruence.
  - intros s' sv' [Hne F]%lookup_delete_Some. pose proof (H_sreg _ _ F) as F1. rewrite Hother; [done|].
    intros E. rewrite E in F1. congruence.
  - intros x it Hx. destruct (H_item x it Hx) as [Hd' (s' & sv' & Hrg & Hrest)]. split; [done|]. exists s', sv'.
    split; [|done]. apply Hsreg. split; [by eapply Hnoit|done].
  - intros k s' sv' [_ Hrg]%Hsreg. destruct (H_server _ _ _ Hrg). by split.
  - intros k1 s1 sv1 k2 s2 sv2 p [_ H1r]%Hsreg [_ H2r]%Hsreg. by eapply H_pone.
Qed.

(** A server without items stays so when items only go. *)
Lemma still_empty s sv sv1 st st1 G P :
  cache_inv st None G P → cache_inv st1 None G P → shrinks st st1 →
  srvs st !! s = Some sv → srvs st1 !! s = Some sv1 → srv_shrinks sv sv1 →
  s_item_nr sv = 0 → s_passby_item_nr sv = 0 → s_item_nr sv1 = 0 ∧ s_passby_item_nr sv1 = 0.
Proof.
  intros Hi Hi1 Hsh Es Es1 (l & h & c & b & k & pl & pn & E & _ & _ & Hpl) Hn Hp.
  pose proof (ci_server _ _ _ _ Hi _ _ _ (sreg_lookup _ _ _ _ _ _ Hi Es)) as Hso.
  pose proof (ci_server _ _ _ _ Hi1 _ _ _ (sreg_lookup _ _ _ _ _ _ Hi1 Es1)) as Hso1.
  split.
  - rewrite (so_item_nr _ _ _ _ Hso1). apply msum_zero. intros x it' Hx. unfold of_server.
    destruct (sh_items _ _ Hsh x it' Hx) as (it & Hit & Hm).
    pose proof (no_items_of _ _ _ _ _ _ _ Hi Es Hn Hit) as Hne.
    rewrite (proj2 (Z.eqb_neq _ _)); [done|]. rewrite E. by destruct Hm as [-> | ->].
  - rewrite (so_passby_nr _ _ _ _ Hso) in Hp. rewrite (so_passby_nr _ _ _ _ Hso1), E. cbn in *.
    destruct (s_passby_lru_head sv); [|cbn in Hp; lia]. destruct pl as [|q pl]; [done|].
    exfalso. eapply not_elem_of_nil, Hpl, list_elem_of_here.
Qed.

Lemma server_destroy_spec s sv st G P :
  cache_inv st None G P → srvs st !! s = Some sv →
  ∃ st', server_destroy kmalloc s st = Ret (tt, st') ∧ cache_inv st' None G P ∧ servers st' = servers st ∧
    master_now st' = master_now st ∧ (s_item_nr sv = 0 → s_passby_item_nr sv = 0 → srvs st' !! s = None) ∧
    (deleted_servers st' = deleted_servers st ∧ dom (srvs st') = dom (srvs st) ∨
     deleted_servers st' = list_remove_one s (deleted_servers st) ∧ dom (srvs st') = dom (srvs st) ∖ {[s]}).
Proof.
  intros Hi Es. unfold server_destroy. erewrite bind_ret; [|by apply load_srv_run].
  destruct (server_item_expire_spec kmalloc Hkm s (s_consumed sv) st None G P sv Hi Es) as (st1 & l1 & l2 & E1 & Hi1 & Hsh & _).
  erewrite bind_ret; [|exact E1]. destruct (sh_srvs _ _ Hsh s sv Es) as (sv1 & Es1 & Hss).
  pose proof (keeps_server_item_expire kmalloc s (s_consumed sv) st tt st1 E1) as [F1 F2 F3 F4 F5].
  erewrite bind_ret; [|by apply load_srv_run].
  destruct (negb (s_item_nr sv1 =? 0) || negb (s_passby_item_nr sv1 =? 0)) eqn:Eb.
  { exists st1. split_and!; try done; [|by left]. intros Hn Hp.
    destruct (still_empty s sv sv1 st st1 G P) as [E3 E4]; [done..|]. by rewrite E3, E4 in Eb. }
  apply orb_false_iff in Eb as [En Ep]. apply negb_false_iff, Z.eqb_eq in En. apply negb_false_iff, Z.eqb_eq in Ep.
  pose proof (sreg_lookup _ _ _ _ _ _ Hi1 Es1) as (Eg & _). destruct (ci_table _ _ _ _ Hi1 _ _ Eg) as (Hrange & _).
  destruct (idx_delete_get (server_indexs st1) (s_index sv1) (ci_idx _ _ _ _ Hi1) Hrange) as (t & Et & _).
  exists (without_server st1 t s). split_and!; try done.
  - erewrite bind_ret; [|reflexivity]. erewrite bind_ret; [|reflexivity].
    erewrite bind_ret; [|apply out_run; exact Et]. done.
  - by eapply cache_inv_remove.
  - intros _ _. apply lookup_delete_eq.
  - right. cbn. rewrite F2, dom_delete_L, F4. done.
Qed.

(** The lists of servers name the servers in memory. *)
Definition lists_ok st : Prop :=
  NoDup (servers st ++ deleted_servers st) ∧
  ∀ s, s ∈ servers st ++ deleted_servers st ↔ is_Some (srvs st !! s).

Lemma lists_ok_framed st st' : framed st st' → lists_ok st → lists_ok st'.
Proof.
  intros [E1 E2 _ E3 _] [Hn Hs]. unfold lists_ok. rewrite E1, E2. split; [done|]. intros s. rewrite Hs.
  by rewrite <- !elem_of_dom, E3.
Qed.

Lemma server_period_spec s sv st G P :
  cache_inv st None G P → srvs st !! s = Some sv →
  ∃ st', server_period kmalloc s st = Ret (tt, st') ∧ cache_inv st' None G P.
Proof.
  intros Hi Es. pose proof (ci_server _ _ _ _ Hi _ _ _ (sreg_lookup _ _ _ _ _ _ Hi Es)) as Hso.
  unfold server_period. erewrite bind_ret; [|by apply load_srv_run]. erewrite bind_ret; [|reflexivity].
  assert (∃ st1 sv1, (if s_status_period sv <=? master_now st - s_last_clear sv
      then upd_srv s (λ sv, bump roll_stats (set_s_last_clear (master_now st) sv)) else mret tt) st = Ret (tt, st1) ∧
    cache_inv st1 None G P ∧ srvs st1 !! s = Some sv1) as (st1 & sv1 & E1 & Hi1 & Es1).
  { destruct (_ <=? _).
    - eexists _, _. split; [by apply upd_srv_run|]. split; [|apply lookup_insert_eq].
      eapply cache_inv_srv_same; [done..|]. split; try done. split; [apply Hso|done].
    - by exists st, sv. }
  erewrite bind_ret; [|exact E1]. erewrite bind_ret; [|by apply load_srv_run].
  match goal with |- context [server_item_expire kmalloc s ?t] =>
    destruct (server_item_expire_spec kmalloc Hkm s t st1 None G P sv1 Hi1 Es1) as (st2 & l1 & l2 & E2 & Hi2 & _) end.
  by exists st2.
Qed.

Lemma server_routine_spec st G P :
  cache_inv st None G P → lists_ok st →
  ∃ st', server_routine kmalloc st = Ret (tt, st') ∧ cache_inv st' None G P ∧ lists_ok st' ∧
    servers st' = servers st ∧ master_now st' = master_now st.
Proof.
  intros Hi Hl. unfold server_routine. erewrite bind_ret; [|reflexivity].
  assert (∀ l st, cache_inv st None G P → (∀ s, s ∈ l → is_Some (srvs st !! s)) →
    ∃ st', for_all (server_period kmalloc) l st = Ret (tt, st') ∧ cache_inv st' None G P ∧ framed st st') as Hper.
  { clear - Hkm. intros l. induction l as [|s l IH]; intros st Hi Hs; cbn [for_all].
    { exists st. split_and!; [done..|apply framed_refl]. }
    destruct (Hs s) as [sv Es]; [apply list_elem_of_here|].
    destruct (server_period_spec s sv st G P Hi Es) as (st1 & E1 & Hi1). pose proof (keeps_period kmalloc s st tt st1 E1) as Hf.
    destruct (IH st1 Hi1) as (st2 & E2 & Hi2 & Hf2).
    { intros s' Hs'. rewrite <- elem_of_dom, (fr_srvs _ _ Hf), elem_of_dom. by apply Hs, list_elem_of_further. }
    exists st2. split_and!; [by erewrite bind_ret; [|exact E1]|done|by eapply framed_trans]. }
  destruct (Hper (servers st) st Hi) as (st1 & E1 & Hi1 & Hf1).
  { intros s Hs. apply Hl. rewrite elem_of_app. by left. }
  erewrite bind_ret; [|exact E1].
  destruct (server_shared_expire_spec kmalloc Hkm 0 st1 None G P Hi1) as (st2 & l1 & l2 & E2 & Hi2 & _).
  pose proof (keeps_server_shared_expire kmalloc 0 st1 tt st2 E2) as Hf2.
  erewrite bind_ret; [|exact E2]. erewrite bind_ret; [|reflexivity].
  pose proof (framed_trans _ _ _ Hf1 Hf2) as Hf. pose proof (lists_ok_framed _ _ Hf Hl) as Hl2.
  assert (∀ l st, cache_inv st None G P → lists_ok st → NoDup l → (∀ s, s ∈ l → s ∈ deleted_servers st) →
    ∃ st', for_all (server_destroy kmalloc) l st = Ret (tt, st') ∧ cache_inv st' None G P ∧ lists_ok st' ∧
      servers st' = servers st ∧ master_now st' = master_now st) as Hdes.
  { clear - Hkm. intros l. induction l as [|s l IH]; intros st Hi Hl Hnd Hs; cbn [for_all]; [by exists st|].
    apply NoDup_cons in Hnd as [Hsl Hnd]. pose proof Hl as [Hlnd Hls].
    assert (s ∈ deleted_servers st) as Hsd by (apply Hs, list_elem_of_here).
    destruct (Hls s) as [[sv Es] _]; [rewrite elem_of_app; by right|].
    destruct (server_destroy_spec s sv st G P Hi Es) as (st1 & E1 & Hi1 & F1 & F2 & _ & Hc).
    assert (lists_ok st1 ∧ ∀ s', s' ∈ l → s' ∈ deleted_servers st1) as [Hl1 Hs1].
    { destruct Hc as [[F3 F4]|[F3 F4]].
      - split; [|rewrite F3; intros; by apply Hs, list_elem_of_further]. unfold lists_ok. rewrite F1, F3. split; [done|].
        intros s'. by rewrite Hls, <- !elem_of_dom, F4.
      - apply NoDup_app in Hlnd as (Hn1 & Hn2 & Hn3). split.
        + unfold lists_ok. rewrite F1, F3. split.
          * apply NoDup_app. split_and!; [done| |by apply NoDup_list_remove_one].
            intros s' Hs'. rewrite elem_of_list_remove_one. intros [? _]. by apply (Hn2 s').
          * intros s'. rewrite elem_of_app, elem_of_list_remove_one, <- elem_of_dom, F4, elem_of_difference, elem_of_singleton.
            rewrite elem_of_dom, <- Hls, elem_of_app. split; [|tauto]. intros [Hs'|[? ?]]; [|tauto].
            split; [tauto|]. intros ->. by apply (Hn2 s Hs').
        + rewrite F3. intros s' Hs'. rewrite elem_of_list_remove_one. split; [by apply Hs, list_elem_of_further|].
          intros ->. done. }
    destruct (IH st1 Hi1 Hl1 Hnd Hs1) as (st2 & E2 & Hi2 & Hl2 & F5 & F6).
    exists st2. split_and!; [by erewrite bind_ret; [|exact E1]|done|done|congruence|congruence]. }
  destruct (Hdes (deleted_servers st2) st2 Hi2 Hl2) as (st3 & E3 & Hi3 & Hl3 & F1 & F2); [|done|].
  { destruct Hl2 as [Hn _]. by apply NoDup_app in Hn as (_ & _ & ?). }
  exists st3. split_and!; [done..| |]; [rewrite F1; apply Hf|rewrite F2; apply Hf].
Qed.
End routine.
