(* ===== verification/DeviceDestroy.v ===== *)
(** * Deleted devices are taken apart

    A deleted device, whether a reload removed it or too many of its blocks were
    bad, keeps its items until they are deleted and no request holds them.
    [device_routine] deletes them, a thousand nodes of the order list at a time,
    then closes the device and gives its entry in the table back.  It calls into
    the server, so the proofs are about the whole cache. *)

From stdpp Require Import prelude fin_maps gmap.
From S2P Require Import Prelude IdxPointer StrUtil IpBucket Slab Hash Timer Device DeviceInv DeviceOps.
From S2P Require Import Http Server ServerInv ServerOps ServerExpire ServerPut Cache.

Section destroy.
Context {AS IS PS : Type} `{Allocator AS} `{Allocator IS} `{Allocator PS}.
Context (kmalloc : dstore AS → option Z).
Context (Hkm : ∀ ds a, kmalloc ds = Some a → devs ds !! a = None).
Implicit Types (st : sstore AS IS PS) (dv : ohc_device_t) (G P : list Z).

(** What taking apart the device at [i] leaves alone: free blocks and items only
    go, and the items of other devices stay. *)
Record undone (i : Z) st st' : Prop := {
  ud_shrinks : shrinks st st';
  ud_table : device_indexs (dst st') = device_indexs (dst st);
  ud_deleted : deleted_devices (dst st') = deleted_devices (dst st);
  ud_fb : ∀ a fb, fblocks (dst st') !! a = Some fb → fblocks (dst st) !! a = Some fb;
  ud_other : ∀ x it, item_mem (dst st) !! x = Some it → it_device_index it ≠ i → item_mem (dst st') !! x = Some it
}.
Lemma undone_refl i st : undone i st st.
Proof. split; [apply shrinks_refl|done..]. Qed.
Lemma undone_trans i st1 st2 st3 : undone i st1 st2 → undone i st2 st3 → undone i st1 st3.
Proof. intros [] []. split; [by eapply shrinks_trans|congruence|congruence|auto|auto]. Qed.

(** The node is in memory. *)
Definition node_in st (n : onode) : Prop :=
  match n with OFb a => is_Some (fblocks (dst st) !! a) | OItem x => is_Some (item_mem (dst st) !! x) end.

Lemma undone_node_in i st st' n : undone i st st' → node_in st' n → node_in st n.
Proof.
  intros Hu. destruct n as [a|x]; simpl.
  - intros [fb Ha]. exists fb. by apply (ud_fb _ _ _ Hu).
  - intros [it Hx]. destruct (sh_items _ _ (ud_shrinks _ _ _ Hu) x it Hx) as (it0 & ? & _). eauto.
Qed.

(** The node is an item some request holds. *)
Definition held G P (n : onode) : Prop := match n with OFb _ => False | OItem x => x ∈ G ++ P end.

(** One node: the others of its device stay. *)
Lemma destroy_node n i d st G P :
  cache_inv st None G P → d ∈ deleted_devices (dst st) →
  idx_pointer_get (device_indexs (dst st)) i = Ret (Some d) → node_ok (dst st) i n →
  ∃ st', match n with OFb a => lift (device_fblock_delete a) | OItem x => server_item_delete kmalloc x end st = Ret (tt, st') ∧
    cache_inv st' None G P ∧ undone i st st' ∧ (∀ m, m ≠ n → node_ok (dst st) i m → node_ok (dst st') i m) ∧
    (¬ held G P n → ¬ node_in st' n).
Proof.
  intros Hi Hd Ei Hn. destruct n as [a|x].
  - destruct Hn as (fb & Ha & _).
    destruct (fblock_drop (dst st) (free_blocks (dst st)) a fb) as (ds' & E & Hdi & Hsi & Ef); [apply Hi|done|by left|].
    replace (set_free_blocks (free_blocks (dst st)) (dst st)) with (dst st) in E by (by destruct (dst st)).
    destruct (cache_inv_dev st ds' None G P) as [Hi' Hsh]; [done..|]. pose proof Hsi as (Em & Et & _ & Edl & _).
    exists (set_dst ds' st). split_and!; [by apply lift_run|done|split; try done| |].
    + simpl. rewrite Ef. by intros b fb' [_ ?]%lookup_delete_Some.
    + simpl. by rewrite Em.
    + intros [b|y] Hm; simpl; rewrite ?Em; [|done]. intros (fb' & Hb & ?). exists fb'. split; [|done].
      rewrite Ef, lookup_delete_ne; [done|]. congruence.
    + simpl. rewrite Ef, lookup_delete_eq. by intros _ [? ?].
  - destruct Hn as (it & Hx & Hix & _).
    destruct (server_item_delete_spec kmalloc Hkm st None G P x it Hi Hx) as (st' & E & Hi' & Hg & Hx').
    pose proof Hg as (Hsh & _ & Hoth & Hq). destruct (di_deleted _ (ci_dev _ _ _ _ Hi)) as [_ Hall].
    destruct (Hall d Hd) as (j & dv & Hr & Hdel).
    destruct (di_table _ (ci_dev _ _ _ _ Hi) i d Ei) as (_ & dv' & Ed' & Ei').
    assert (dv' = dv) as -> by (destruct Hr as (_ & ? & _); congruence).
    destruct (Hq it d dv Hx) as [Ef Edl]; [by rewrite Hix|done|].
    exists st'. split_and!; [done..|split; [done|apply (sh_devs _ _ Hsh)|done|by rewrite Ef|]| |].
    + intros y it' Hy Hne. rewrite Hoth; [done|]. intros ->. congruence.
    + intros [b|y] Hm; simpl; rewrite ?Ef; [done|]. rewrite Hoth by congruence. done.
    + simpl. intros Hnh. rewrite Hx', decide_False by done. by intros [? ?].
Qed.

Lemma destroy_loop_spec l count i d st G P :
  cache_inv st None G P → d ∈ deleted_devices (dst st) →
  idx_pointer_get (device_indexs (dst st)) i = Ret (Some d) → NoDup l → (∀ n, n ∈ l → node_ok (dst st) i n) →
  ∃ st', destroy_loop kmalloc l count st = Ret (tt, st') ∧ cache_inv st' None G P ∧ undone i st st' ∧
    ((count + length l ≤ LOOP_LIMIT)%nat → ∀ n, n ∈ l → ¬ held G P n → ¬ node_in st' n).
Proof.
  revert count st. induction l as [|n l IH]; intros count st Hi Hd Ei Hnd Hl; cbn [destroy_loop].
  { exists st. split_and!; [done..|apply undone_refl|]. by intros _ n ?%not_elem_of_nil. }
  apply NoDup_cons in Hnd as [Hnl Hnd].
  destruct (destroy_node n i d st G P) as (st1 & E1 & Hi1 & Hu1 & Hk & Hgone); [done..|apply Hl, list_elem_of_here|].
  erewrite bind_ret; [|exact E1]. case_decide as Hlim; [exists st1; split_and!; try done; cbn [length]; lia|].
  destruct (IH (S count) st1 Hi1) as (st2 & E2 & Hi2 & Hu2 & Hg2).
  - by rewrite (ud_deleted _ _ _ Hu1).
  - by rewrite (ud_table _ _ _ Hu1).
  - done.
  - intros m Hm. apply Hk; [by intros ->|]. by apply Hl, list_elem_of_further.
  - exists st2. split_and!; [done..|by eapply undone_trans|]. cbn [length]. intros Hc m [-> |Hm]%elem_of_cons Hnh Hin.
    + by eapply Hgone, undone_node_in.
    + eapply Hg2; [lia|done..].
Qed.

(** *** Closing a device *)

Lemma dev_inv_fd (ds : dstore AS) i d dv fd :
  dev_inv ds → registered ds i d dv → dev_inv (set_devs (<[d := set_d_fd fd dv]> (devs ds)) ds).
Proof.
  intros Hi Hr. pose proof Hr as (E1 & E2 & E3).
  apply (dev_inv_update ds _ i d dv (set_d_fd fd dv)); try done; try apply Hi; try (by left).
  - apply lookup_insert_eq.
  - intros d2 dv2 E Hne. simpl. by rewrite lookup_insert_ne.
  - intros j d2 dv2 _ _ [a|x] _; done.
  - eapply (device_ok_ext ds); [by intros [a|x] _|]. destruct (di_dev ds Hi _ _ _ Hr). by split.
  - intros a fb Ha. destruct (decide (fb_device_index fb = i)) as [E|]; [right|by left]. split; [done|].
    destruct (di_fb ds Hi a fb Ha) as (d2 & dv2 & Hr2 & Hin).
    by destruct (registered_inj _ _ _ _ _ _ _ Hr Hr2 (eq_sym E)) as [<- <-].
Qed.

(** *** Giving the entry of a device back *)

Definition without_device (t : idx_pointer_t Z) (d : Z) (ds : dstore AS) : dstore AS :=
  set_devs (delete d (devs ds)) (set_device_indexs t
    (set_devices (list_remove_one d (devices ds)) (set_deleted_devices (list_remove_one d (deleted_devices ds)) ds))).

Section remove.
Context (ds : dstore AS) i d dv t (Hi : dev_inv ds) (Hr : registered ds i d dv) (Ho : order_head dv = [])
  (Ht : idx_inv t) (Hnone : idx_pointer_get t i = Ret None)
  (Hother : ∀ k, k ≠ i → idx_pointer_get t k = idx_pointer_get (device_indexs ds) k).

Lemma without_registered k d' dv' :
  registered (without_device t d ds) k d' dv' ↔ k ≠ i ∧ registered ds k d' dv'.
Proof.
  split.
  - intros (E1 & E2 & E3). cbn in E1, E2. assert (k ≠ i) as Hne by (intros ->; congruence).
    apply lookup_delete_Some in E2 as [_ E2]. split; [done|]. split_and!; [by rewrite <- Hother|done..].
  - intros (Hne & E1 & E2 & E3). split_and!; cbn; [by rewrite Hother| |done]. rewrite lookup_delete_ne; [done|].
    intros <-. destruct Hr as (_ & Ed & Ei). congruence.
Qed.

Lemma dev_inv_without : dev_inv (without_device t d ds).
Proof.
  split; try apply Hi; [done|..].
  - intros k d' E. cbn in E. assert (k ≠ i) as Hne by (intros ->; congruence). rewrite Hother in E by done.
    destruct (di_table ds Hi k d' E) as (? & dv' & E2 & E3). split; [done|]. exists dv'.
    destruct (proj2 (without_registered k d' dv')) as (_ & ? & ?); [split_and!; done|done].
  - intros k d' dv' [_ Hr']%without_registered.
    eapply (device_ok_ext ds); [by intros [a|x] _|]. by eapply (di_dev ds Hi).
  - intros a fb Ha. destruct (di_fb ds Hi a fb Ha) as (d' & dv' & Hr' & Hin). exists d', dv'. split; [|done].
    apply without_registered. split; [|done]. intros E.
    destruct (registered_inj _ _ _ _ _ _ _ Hr Hr' (eq_sym E)) as [_ <-]. rewrite Ho in Hin. by apply not_elem_of_nil in Hin.
  - destruct (di_devices ds Hi) as [Hnd Hall]. cbn. split; [by apply NoDup_list_remove_one|].
    intros d' [Hin Hne]%elem_of_list_remove_one. destruct (Hall d' Hin) as (dv' & E' & Hor). exists dv'.
    split; [cbn; by rewrite lookup_delete_ne|]. destruct Hor as [(k & Hr' & ?)|[? Hno]]; [left|right].
    + exists k. split; [|done]. apply without_registered. split; [|done]. intros ->.
      by destruct (registered_inj _ _ _ _ _ _ _ Hr Hr' eq_refl) as [-> _].
    + split; [done|]. intros k. cbn. destruct (decide (k = i)) as [-> |]; [congruence|]. by rewrite Hother.
  - destruct (di_deleted ds Hi) as [Hnd Hall]. cbn. split; [by apply NoDup_list_remove_one|].
    intros d' [Hin Hne]%elem_of_list_remove_one. destruct (Hall d' Hin) as (k & dv' & Hr' & Hdel). exists k, dv'.
    split; [|done]. apply without_registered. split; [|done]. intros ->.
    by destruct (registered_inj _ _ _ _ _ _ _ Hr Hr' eq_refl).
Qed.
End remove.

(** *** A whole device *)

(** A node the device has later it had before. *)
Lemma left_over i d dv n st st1 G P :
  cache_inv st None G P → registered (dst st) i d dv → undone i st st1 → node_ok (dst st1) i n → n ∈ order_head dv.
Proof.
  intros Hi Hr Hu. destruct n as [a|x]; simpl.
  - intros (fb & Ha & Efb). apply (ud_fb _ _ _ Hu) in Ha.
    destruct (di_fb _ (ci_dev _ _ _ _ Hi) a fb Ha) as (d2 & dv2 & Hr2 & Hin).
    by destruct (registered_inj _ _ _ _ _ _ _ Hr Hr2 (eq_sym Efb)) as [_ <-].
  - intros (it & Hx & Eit & _). destruct (sh_items _ _ (ud_shrinks _ _ _ Hu) x it Hx) as (it0 & Hx0 & Hm).
    assert (it_device_index it0 = i) as E0 by (by destruct Hm as [-> | ->]).
    destruct (io_dev _ _ _ (ci_item _ _ _ _ Hi x it0 Hx0)) as (d2 & dv2 & Hr2 & Hin).
    by destruct (registered_inj _ _ _ _ _ _ _ Hr Hr2 (eq_sym E0)) as [_ <-].
Qed.

Lemma cache_inv_fd i d dv fd st G P :
  cache_inv st None G P → registered (dst st) i d dv →
  cache_inv (set_dst (set_devs (<[d := set_d_fd fd dv]> (devs (dst st))) (dst st)) st) None G P.
Proof.
  intros Hi Hr. pose proof Hr as (E1 & E2 & E3).
  apply cache_inv_devs; [done|by eapply dev_inv_fd; [apply Hi|]|done|..].
  - intros j d' dv' (F1 & F2 & F3). cbn in F1, F2. destruct (decide (d' = d)) as [-> |Hne].
    + rewrite lookup_insert_eq in F2. injection F2 as <-. left. exists dv. split_and!; done.
    + rewrite lookup_insert_ne in F2 by done. left. exists dv'. split_and!; done.
  - intros j d' dv' _ (F1 & F2 & F3) _. destruct (decide (d' = d)) as [-> |Hne].
    + exists (set_d_fd fd dv). split_and!; cbn; [done|apply lookup_insert_eq|congruence].
    + exists dv'. split_and!; cbn; [done| |done]. by rewrite lookup_insert_ne.
Qed.

Lemma cache_inv_without i d dv t st G P :
  cache_inv st None G P → registered (dst st) i d dv → order_head dv = [] → idx_inv t →
  idx_pointer_get t i = Ret None →
  (∀ k, k ≠ i → idx_pointer_get t k = idx_pointer_get (device_indexs (dst st)) k) →
  cache_inv (set_dst (without_device t d (dst st)) st) None G P.
Proof.
  intros Hi Hr Ho Ht Hnone Hother.
  apply cache_inv_devs; [done|eapply dev_inv_without; [apply Hi|done..]|done|..].
  - intros j d' dv' Hr'. apply (without_registered _ _ _ _ _ Hr Hnone Hother) in Hr' as [_ Hr']. left. exists dv'. done.
  - intros j d' dv' x Hr' Hin. exists dv'. apply (without_registered _ _ _ _ _ Hr Hnone Hother). split; [|done].
    intros ->. destruct (registered_inj _ _ _ _ _ _ _ Hr Hr' eq_refl) as [_ <-]. rewrite Ho in Hin.
    by apply not_elem_of_nil in Hin.
Qed.

(** What is left of the device [d]: it is closed or not, or it is gone. *)
Lemma device_destroy_spec d st G P :
  cache_inv st None G P → d ∈ deleted_devices (dst st) →
  ∃ st', device_destroy kmalloc d st = Ret (tt, st') ∧ cache_inv st' None G P ∧
    (deleted_devices (dst st') = deleted_devices (dst st) ∨
     deleted_devices (dst st') = list_remove_one d (deleted_devices (dst st))) ∧
    (∀ i d' dv', registered (dst st') i d' dv' → ∃ dv0, registered (dst st) i d' dv0) ∧
    (∀ i dv, registered (dst st) i d dv →
       (∀ x it, item_mem (dst st) !! x = Some it → it_device_index it ≠ i → item_mem (dst st') !! x = Some it) ∧
       ((length (order_head dv) ≤ LOOP_LIMIT)%nat → (∀ n, n ∈ order_head dv → ¬ held G P n) →
        (d ∉ deleted_devices (dst st')) ∧ devs (dst st') !! d = None ∧ idx_pointer_get (device_indexs (dst st')) i = Ret None)).
Proof.
  intros Hi Hd. pose proof (ci_dev _ _ _ _ Hi) as Hdi. destruct (di_deleted _ Hdi) as [Hnd Hall].
  destruct (Hall d Hd) as (i & dv & Hr & Hdel). pose proof Hr as (Ei & Ed & Eix).
  pose proof (di_dev _ Hdi _ _ _ Hr) as Hok. unfold device_destroy.
  erewrite bind_ret; [|by apply lift_load_dev_run].
  destruct (destroy_loop_spec (order_head dv) 0 i d st G P) as (st1 & E1 & Hi1 & Hu & Hgone); [done..| | |].
  { by eapply tiled_nodup, do_tiled. }
  { intros n Hn. rewrite <- Eix. by apply (do_nodes _ _ Hok). }
  erewrite bind_ret; [|exact E1]. pose proof (ci_dev _ _ _ _ Hi1) as Hdi1.
  destruct (di_table _ Hdi1 i d) as (Hrange & dv1 & Ed1 & Eix1); [by rewrite (ud_table _ _ _ Hu)|].
  assert (registered (dst st1) i d dv1) as Hr1 by (split_and!; [by rewrite (ud_table _ _ _ Hu)|done..]).
  erewrite bind_ret; [|by apply lift_load_dev_run].
  assert (∃ fd, (if (d_used dv1 =? 0) && negb (d_fd dv1 =? -1) then lift (upd_dev d (set_d_fd (-1))) else mret tt) st1
    = Ret (tt, set_dst (set_devs (<[d := set_d_fd fd dv1]> (devs (dst st1))) (dst st1)) st1)) as (fd & E2).
  { destruct (_ && _).
    - exists (-1). apply lift_run. by apply upd_dev_run.
    - exists (d_fd dv1). rewrite insert_id; [by destruct st1 as [[]]|]. rewrite Ed1. by destruct dv1. }
  erewrite bind_ret; [|exact E2]. pose proof (cache_inv_fd i d dv1 fd st1 G P Hi1 Hr1) as Hi2.
  set (st2 := set_dst _ st1) in *.
  assert (registered (dst st2) i d (set_d_fd fd dv1)) as Hr2 by (split_and!; [apply Hr1|apply lookup_insert_eq|done]).
  assert (∀ j d', idx_pointer_get (device_indexs (dst st2)) j = Ret (Some d') → ∃ dv0, registered (dst st) j d' dv0) as Hback.
  { intros j d'. unfold st2. cbn. rewrite (ud_table _ _ _ Hu). intros E. destruct (di_table _ Hdi j d' E) as (_ & dv0 & ? & ?).
    by exists dv0. }
  assert (∀ j dv0, registered (dst st) j d dv0 → j = i ∧ dv0 = dv) as Huniq.
  { intros j dv0 Hr0. by destruct (registered_addr _ _ _ _ _ _ Hr Hr0). }
  case_decide as Hempty.
  - destruct (idx_delete_get (device_indexs (dst st2)) i) as (t & Et & Hti & Hnone & Hother); [apply Hi2|done|].
    exists (set_dst (without_device t d (dst st2)) st2). split.
    { erewrite bind_ret; [|by apply lift_run]. erewrite bind_ret; [|reflexivity]. rewrite Eix1.
      erewrite bind_ret; [|apply out_run; exact Et]. done. }
    split; [by eapply cache_inv_without|]. split; [right; cbn; by rewrite (ud_deleted _ _ _ Hu)|]. split.
    { intros j d' dv' Hr'. apply (without_registered _ _ _ _ _ Hr2 Hnone Hother) in Hr' as [_ (? & _)]. by apply Hback. }
    intros j dv0 [-> ->]%Huniq. split; [apply (ud_other _ _ _ Hu)|]. intros _ _. split_and!; [|apply lookup_delete_eq|done].
    by intros [_ ?]%elem_of_list_remove_one.
  - exists st2. split_and!; [done..|left; apply (ud_deleted _ _ _ Hu)|by intros j d' dv' (? & _); apply Hback|].
    intros j dv0 [-> ->]%Huniq. split; [apply (ud_other _ _ _ Hu)|]. intros Hlen Hfree. exfalso.
    destruct (order_head dv1) as [|n l] eqn:El; [done|].
    assert (node_ok (dst st1) i n) as Hn1.
    { rewrite <- Eix1. apply (do_nodes _ _ (di_dev _ Hdi1 _ _ _ Hr1)). rewrite El. apply list_elem_of_here. }
    pose proof (left_over i d dv n st st1 G P Hi Hr Hu Hn1) as Hin. apply (Hgone Hlen n Hin (Hfree n Hin)).
    destruct n as [a|x]; [destruct Hn1 as (? & ? & _)|destruct Hn1 as (? & ? & _)]; by eexists.
Qed.

(** *** The routine *)

Lemma keeps_destroy_loop l count : within framed (destroy_loop (IS := IS) (PS := PS) kmalloc l count).
Proof.
  revert count. induction l as [|n l IH]; intros count; cbn [destroy_loop]; [apply (within_ret framed)|].
  apply (within_bind framed); [|intros []; case_decide; [apply (within_ret framed)|apply IH]].
  destruct n; [apply keeps_lift|apply keeps_server_item_delete].
Qed.
Lemma keeps_device_destroy d : within framed (device_destroy (IS := IS) (PS := PS) kmalloc d).
Proof.
  unfold device_destroy. apply (within_bind framed); [apply keeps_lift|]. intros dv.
  apply (within_bind framed); [apply keeps_destroy_loop|]. intros [].
  apply (within_bind framed); [apply keeps_lift|]. intros dv1.
  apply (within_bind framed); [case_match; [apply keeps_lift|apply (within_ret framed)]|]. intros [].
  case_decide; [|apply (within_ret framed)].
  apply (within_bind framed); [apply keeps_lift|]. intros [].
  apply (within_bind framed); [apply (within_get framed)|]. intros st.
  apply (within_bind framed); [apply keeps_out|]. intros t. apply keeps_lift.
Qed.

(** The items of the devices that are not being deleted stay. *)
Definition live_items_kept st st' : Prop :=
  ∀ x it, item_mem (dst st) !! x = Some it →
    (∀ i d dv, d ∈ deleted_devices (dst st) → registered (dst st) i d dv → it_device_index it ≠ i) →
    item_mem (dst st') !! x = Some it.

Lemma destroy_all_spec l st G P :
  cache_inv st None G P → NoDup l → (∀ d, d ∈ l → d ∈ deleted_devices (dst st)) →
  ∃ st', for_all (device_destroy kmalloc) l st = Ret (tt, st') ∧ cache_inv st' None G P ∧ framed st st' ∧
    live_items_kept st st'.
Proof.
  revert st. induction l as [|d l IH]; intros st Hi Hnd Hl; cbn [for_all].
  { exists st. split_and!; [done..|apply framed_refl|]. by intros x it. }
  apply NoDup_cons in Hnd as [Hdl Hnd].
  assert (d ∈ deleted_devices (dst st)) as Hd by apply Hl, list_elem_of_here.
  destruct (device_destroy_spec d st G P Hi Hd) as (st1 & E1 & Hi1 & Hdel & Hback & Hitems).
  assert (∀ d', d' ∈ deleted_devices (dst st1) → d' ∈ deleted_devices (dst st)) as Hsub.
  { intros d'. destruct Hdel as [-> | ->]; [done|]. rewrite elem_of_list_remove_one. tauto. }
  destruct (IH st1 Hi1 Hnd) as (st2 & E2 & Hi2 & Hf2 & Hk2).
  { intros d' Hd'. assert (d' ∈ deleted_devices (dst st)) by by apply Hl, list_elem_of_further.
    destruct Hdel as [-> | ->]; [done|]. apply elem_of_list_remove_one. split; [done|]. by intros ->. }
  exists st2. split_and!; [by erewrite bind_ret; [|exact E1]|done|by eapply framed_trans; [eapply keeps_device_destroy|]|].
  intros x it Hx Hlive. apply Hk2.
  - destruct (di_deleted _ (ci_dev _ _ _ _ Hi)) as [_ Hall]. destruct (Hall d Hd) as (i & dv & Hr & _).
    destruct (Hitems i dv Hr) as [Hoth _]. apply (Hoth x it Hx). by eapply Hlive.
  - intros i d' dv' Hd' Hr'. destruct (Hback i d' dv' Hr') as (dv0 & Hr0). eapply Hlive; [by apply Hsub|done].
Qed.

Lemma device_routine_spec st G P :
  cache_inv st None G P →
  ∃ st', device_routine kmalloc st = Ret (tt, st') ∧ cache_inv st' None G P ∧ framed st st' ∧ live_items_kept st st'.
Proof.
  intros Hi. unfold device_routine. erewrite bind_ret; [|reflexivity]. apply destroy_all_spec; [done| |done].
  apply (di_deleted _ (ci_dev _ _ _ _ Hi)).
Qed.
End destroy.
