(* ===== verification/DeviceLife.v ===== *)
(** * Devices that come and go

    What a reload does to one device, and that the cache stays consistent: a
    device of the new configuration is added, one that is in both is updated, and
    one that is not in the new one is deleted, to be taken apart by the routine. *)

From stdpp Require Import prelude fin_maps gmap.
From S2P Require Import Prelude IdxPointer StrUtil IpBucket Slab Hash Timer Device DeviceInv DeviceOps DeviceConf.
From S2P Require Import Http Server ServerInv ServerOps ServerExpire ServerPut Conf ServerConf DeviceLoad Cache DeviceDestroy.

Section device_life.
Context {AS IS PS : Type} `{Allocator AS} `{Allocator IS} `{Allocator PS}.
Implicit Types (st : sstore AS IS PS) (y : csys AS IS PS) (ds : dstore AS) (dv : ohc_device_t) (G P : list Z).

(** The fields the invariant is about. *)
Record same_dev dv dv' : Prop := {
  sd_index : d_index dv' = d_index dv;
  sd_order : order_head dv' = order_head dv;
  sd_capacity : d_capacity dv' = d_capacity dv;
  sd_fblock_nr : d_fblock_nr dv' = d_fblock_nr dv;
  sd_badblock : d_badblock dv' = d_badblock dv;
  sd_consumed : d_consumed dv' = d_consumed dv;
  sd_kicked : d_kicked dv' = d_kicked dv;
  sd_deleted : d_deleted dv' = d_deleted dv;
  sd_used : d_used dv' = d_used dv
}.
Lemma same_dev_refl dv : same_dev dv dv.
Proof. by split. Qed.

(** Between the devices of two states, the ones that are still in the list or in
    the table. *)
Definition same_devs ds ds' : Prop :=
  ∀ d dv, devs ds !! d = Some dv → (∃ i, idx_pointer_get (device_indexs ds) i = Ret (Some d)) ∨ d ∈ devices ds' →
    ∃ dv', devs ds' !! d = Some dv' ∧ same_dev dv dv'.

Section same.
Context ds ds' (Hi : dev_inv ds) (Hdv : same_devs ds ds')
  (Et : device_indexs ds' = device_indexs ds)
  (Hls : NoDup (devices ds') ∧ ∀ d, d ∈ devices ds' → d ∈ devices ds) (Edl : deleted_devices ds' = deleted_devices ds)
  (Ef : fblocks ds' = fblocks ds) (Eq : free_blocks ds' = free_blocks ds) (Es : fslab ds' = fslab ds)
  (Em : item_mem ds' = item_mem ds).

Lemma same_devs_later i d dv : registered ds i d dv → ∃ dv', registered ds' i d dv' ∧ same_dev dv dv'.
Proof.
  intros (E1 & E2 & E3). destruct (Hdv d dv) as (dv' & F2 & Hs); [done|eauto|]. exists dv'. split; [|done]. split_and!; [by rewrite Et|done|]. by rewrite (sd_index _ _ Hs).
Qed.
Lemma same_devs_before i d dv' : registered ds' i d dv' → ∃ dv, registered ds i d dv ∧ same_dev dv dv'.
Proof.
  intros (E1 & E2 & E3). rewrite Et in E1. destruct (di_table ds Hi i d E1) as (_ & dv & F1 & _).
  destruct (Hdv d dv) as (dv0 & F2 & Hs); [done|eauto|]. rewrite E2 in F2. injection F2 as <-. exists dv. split; [|done]. split_and!; [done..|]. by rewrite <- (sd_index _ _ Hs).
Qed.

Lemma dev_inv_same : dev_inv ds'.
Proof.
  pose proof Hi as [Hidx Htab Hdev Hfb Hbk Hlk Hal Hlv [_ Hlive] [Hnd Hall]].
  split; rewrite ?Et, ?Edl, ?Ef, ?Eq, ?Es; try done.
  - intros i d E. destruct (Htab i d E) as (Hr & dv & E2 & E3). split; [done|].
    destruct (same_devs_later i d dv) as (dv' & (_ & ? & ?) & _); [split_and!; done|]. eauto.
  - intros i d dv' Hr'. destruct (same_devs_before i d dv' Hr') as (dv & Hr & Hs).
    assert (∀ n, same_node ds ds' n) as Hn by (intros [a|x]; simpl; by rewrite ?Ef, ?Em).
    assert (device_ok ds' dv) as [] by (eapply device_ok_ext; [by intros|by eapply Hdev]).
    destruct Hs as [E1 E2 E3 E4 E5 E6 E7 E8 E9]. split; rewrite ?E1, ?E2, ?E3, ?E4, ?E5, ?E6, ?E7, ?E8; done.
  - intros a fb Ha. destruct (Hfb a fb Ha) as (d & dv & Hr & Hin).
    destruct (same_devs_later _ _ _ Hr) as (dv' & Hr' & Hs). exists d, dv'. by rewrite (sd_order _ _ Hs).
  - unfold fb_size. by rewrite Ef.
  - destruct Hls as [Hnd' Hsub]. split; [done|]. intros d Hd. destruct (Hlive d (Hsub d Hd)) as (dv & E & Hor).
    destruct (Hdv d dv) as (dv' & E' & Hs); [by auto..|]. exists dv'. split; [done|].
    destruct Hor as [(i & Hr & ?)|[? ?]]; [left|right; by rewrite (sd_kicked _ _ Hs), Et].
    destruct (same_devs_later _ _ _ Hr) as (dv2 & Hr' & _). exists i. rewrite (sd_deleted _ _ Hs). split; [|done].
    destruct Hr' as (? & E2 & ?). rewrite E' in E2. by injection E2 as <-.
  - split; [done|]. intros d Hd. destruct (Hall d Hd) as (i & dv & Hr & Hdel).
    destruct (same_devs_later _ _ _ Hr) as (dv' & Hr' & Hs). exists i, dv'. by rewrite (sd_deleted _ _ Hs).
Qed.
End same.

Lemma cache_inv_same st ds' G P :
  cache_inv st None G P → same_devs (dst st) ds' → device_indexs ds' = device_indexs (dst st) →
  NoDup (devices ds') ∧ (∀ d, d ∈ devices ds' → d ∈ devices (dst st)) → deleted_devices ds' = deleted_devices (dst st) →
  fblocks ds' = fblocks (dst st) → free_blocks ds' = free_blocks (dst st) → fslab ds' = fslab (dst st) →
  item_mem ds' = item_mem (dst st) → cache_inv (set_dst ds' st) None G P.
Proof.
  intros Hi Hdv Et Hls Edl Ef Eq Es Em. pose proof (ci_dev _ _ _ _ Hi) as Hdi.
  apply cache_inv_devs; [done|eapply dev_inv_same; [apply Hi|done..]|done|..].
  - intros i d dv' Hr'. destruct (same_devs_before _ _ Hdi Hdv Et i d dv' Hr') as (dv & Hr & Hs). left. exists dv.
    split_and!; [done|apply (sd_used _ _ Hs)|]. by rewrite (sd_order _ _ Hs).
  - intros i d dv x Hr _. destruct (same_devs_later _ _ Hdv Et i d dv Hr) as (dv' & ? & _). eauto.
Qed.

(** ** Deleting a device *)

Lemma devices_not_deleted ds d : dev_inv ds → d ∈ devices ds → d ∉ deleted_devices ds.
Proof.
  intros Hi Hin Hdel. destruct (di_deleted ds Hi) as [_ Hall]. destruct (Hall d Hdel) as (i & dv & Hr & Hd).
  destruct (di_devices ds Hi) as [_ Hlive]. destruct (Hlive d Hin) as (dv' & E & Hor). pose proof Hr as (E1 & E2 & _).
  destruct Hor as [(j & Hrj & Hf)|[_ Hno]]; [congruence|by apply (Hno i)].
Qed.

(** A device in the list, other than one that was marked as kicked while it was
    added, for want of memory: deleting that one would free it under the table. *)
Definition deletable ds (d : Z) : Prop :=
  d ∈ devices ds ∧ ∀ i dv, registered ds i d dv → d_kicked dv = false.

(** A device in the table is marked; the copy a kick has left is freed. *)
Record removed (d : Z) ds ds' : Prop := {
  rm_devices : devices ds' = list_remove_one d (devices ds);
  rm_items : item_mem ds' = item_mem ds;
  rm_table : device_indexs ds' = device_indexs ds;
  rm_other : ∀ d2, d2 ≠ d → devs ds' !! d2 = devs ds !! d2;
  rm_this : ∃ dv, devs ds !! d = Some dv ∧
    (d_kicked dv = false ∧ deleted_devices ds' = d :: deleted_devices ds ∧ devs ds' !! d = Some (set_d_deleted true dv) ∨
     d_kicked dv = true ∧ deleted_devices ds' = deleted_devices ds ∧ devs ds' !! d = None)
}.

Lemma cache_inv_deleted i d dv st ds' G P :
  cache_inv st None G P → registered (dst st) i d dv →
  ds' = set_deleted_devices (d :: list_remove_one d (deleted_devices (dst st)))
    (set_devs (<[d := set_d_deleted true dv]> (devs (dst st))) (set_devices (list_remove_one d (devices (dst st))) (dst st))) →
  cache_inv (set_dst ds' st) None G P.
Proof.
  intros Hi Hr ->. pose proof Hr as (E1 & E2 & E3). pose proof (ci_dev _ _ _ _ Hi) as Hdi.
  set (dv' := set_d_deleted true dv). apply cache_inv_devs; [done| |done|..].
  - apply (dev_inv_update (dst st) _ i d dv dv'); try done; try apply Hdi.
    + right. split_and!; [done..|]. by left.
    + apply lookup_insert_eq.
    + intros d2 dv2 F2 Hne. cbn. by rewrite lookup_insert_ne.
    + by intros j d2 dv2 _ _ [a|x] _.
    + eapply (device_ok_ext (dst st)); [by intros [a|x] _|]. destruct (di_dev _ Hdi _ _ _ Hr). by split.
    + intros a fb Ha. destruct (decide (fb_device_index fb = i)) as [E|]; [right|by left]. split; [done|].
      destruct (di_fb _ Hdi a fb Ha) as (d2 & dv2 & Hr2 & Hin).
      by destruct (registered_inj _ _ _ _ _ _ _ Hr Hr2 (eq_sym E)) as [<- <-].
  - intros j d2 dv2 (F1 & F2 & F3). cbn in F1, F2. left. destruct (decide (d2 = d)) as [-> |Hne].
    + rewrite lookup_insert_eq in F2. injection F2 as <-. exists dv. split_and!; done.
    + rewrite lookup_insert_ne in F2 by done. exists dv2. split_and!; done.
  - intros j d2 dv2 _ (F1 & F2 & F3) _. destruct (decide (d2 = d)) as [-> |Hne].
    + exists dv'. split_and!; cbn; [done|apply lookup_insert_eq|congruence].
    + exists dv2. split_and!; cbn; [done| |done]. by rewrite lookup_insert_ne.
Qed.

Lemma device_delete_spec d st G P :
  cache_inv st None G P → deletable (dst st) d →
  ∃ ds', lift (device_delete d) st = Ret (tt, set_dst ds' st) ∧ cache_inv (set_dst ds' st) None G P ∧ removed d (dst st) ds'.
Proof.
  intros Hi [Hin Htorn]. pose proof (ci_dev _ _ _ _ Hi) as Hdi. pose proof (devices_not_deleted _ _ Hdi Hin) as Hnd.
  destruct (di_devices _ Hdi) as [Hndl Hlive]. destruct (Hlive d Hin) as (dv & Ed & [(i & Hr & Hdf)|[Hk Hno]]).
  - pose proof (Htorn i dv Hr) as Hk. eexists. split_and!.
    { apply lift_run. unfold device_delete. erewrite bind_ret; [|apply load_dev_run; exact Ed].
      erewrite bind_ret; [|reflexivity]. rewrite Hk. erewrite bind_ret; [|apply upd_dev_run; exact Ed]. reflexivity. }
    { eapply cache_inv_deleted; [done..|reflexivity]. }
    split; cbn; try done; [by intros; rewrite lookup_insert_ne|]. exists dv. split; [done|]. left.
    split_and!; [done|by rewrite list_remove_one_notin|apply lookup_insert_eq].
  - eexists. split_and!.
    { apply lift_run. unfold device_delete. erewrite bind_ret; [|apply load_dev_run; exact Ed].
      erewrite bind_ret; [|reflexivity]. rewrite Hk. reflexivity. }
    + apply cache_inv_same; try done.
      * intros d2 dv2 E2 Hor. exists dv2. split; [|apply same_dev_refl]. cbn. rewrite lookup_delete_ne; [done|]. intros <-.
        destruct Hor as [[i E]|[_ ?]%elem_of_list_remove_one]; [by apply (Hno i)|done].
      * cbn. split; [by apply NoDup_list_remove_one|]. by intros d2 [? _]%elem_of_list_remove_one.
      * cbn. by apply list_remove_one_notin.
    + split; cbn; try done; [by intros; rewrite lookup_delete_ne|]. exists dv. split; [done|]. right.
      split_and!; [done|by apply list_remove_one_notin|apply lookup_delete_eq].
Qed.

(** ** Updating a device *)

Lemma not_in_table ds d i : dev_inv ds → devs ds !! d = None → idx_pointer_get (device_indexs ds) i ≠ Ret (Some d).
Proof. intros Hi Hd E. destruct (di_table ds Hi i d E) as (_ & dv & Ed & _). congruence. Qed.
Lemma not_in_devices ds d : dev_inv ds → devs ds !! d = None → d ∉ devices ds.
Proof. intros Hi Hd Hin. destruct (di_devices ds Hi) as [_ Hall]. destruct (Hall d Hin) as (? & ? & _). congruence. Qed.

(** The device is renamed, and goes to the end of the list. *)
Record renamed (d : Z) (name : list Z) ds ds' : Prop := {
  rn_devices : devices ds' = list_remove_one d (devices ds) ++ [d];
  rn_deleted : deleted_devices ds' = deleted_devices ds;
  rn_items : item_mem ds' = item_mem ds;
  rn_table : device_indexs ds' = device_indexs ds;
  rn_devs : ∃ dv, devs ds !! d = Some dv ∧ devs ds' = <[d := set_d_filename name dv]> (devs ds)
}.

Lemma device_update_spec d conf st G P :
  cache_inv st None G P → d ∈ devices (dst st) →
  ∃ ds', lift (device_update d conf) st = Ret (tt, set_dst ds' st) ∧ cache_inv (set_dst ds' st) None G P ∧
    renamed d (d_filename conf) (dst st) ds'.
Proof.
  intros Hi Hin. pose proof (ci_dev _ _ _ _ Hi) as Hdi. pose proof (devices_not_deleted _ _ Hdi Hin) as Hnd.
  destruct (di_devices _ Hdi) as [Hndl Hlive]. destruct (Hlive d Hin) as (dv & Ed & _). eexists. split_and!.
  { apply lift_run. unfold device_update. erewrite bind_ret; [|apply upd_dev_run; exact Ed]. reflexivity. }
  - apply cache_inv_same; try done.
    + intros d2 dv2 E2 _. cbn. destruct (decide (d2 = d)) as [-> |Hne].
      * assert (dv2 = dv) as -> by congruence. eexists. split; [apply lookup_insert_eq|by split].
      * exists dv2. split; [by rewrite lookup_insert_ne|apply same_dev_refl].
    + cbn. split.
      * apply NoDup_app. split_and!; [by apply NoDup_list_remove_one| |apply NoDup_singleton].
        intros d2 [_ ?]%elem_of_list_remove_one ->%list_elem_of_singleton. done.
      * by intros d2 [[? _]%elem_of_list_remove_one| ->%list_elem_of_singleton]%elem_of_app.
    + cbn. by apply list_remove_one_notin.
  - split; cbn; try done; [by apply list_remove_one_notin|]. by exists dv.
Qed.

(** ** Adding a device *)

Lemma cache_inv_new_dev d dv st G P :
  cache_inv st None G P → devs (dst st) !! d = None →
  cache_inv (set_dst (set_devs (<[d := dv]> (devs (dst st))) (dst st)) st) None G P.
Proof.
  intros Hi Hd. apply cache_inv_same; try done.
  - intros d2 dv2 E2 _. exists dv2. split; [|apply same_dev_refl]. cbn. rewrite lookup_insert_ne; [done|congruence].
  - split; [apply (di_devices _ (ci_dev _ _ _ _ Hi))|done].
Qed.

(** A new device is the last of the list and has an entry of the table. *)
Record added (d : Z) dv ds ds' : Prop := {
  ad_devices : devices ds' = devices ds ++ [d];
  ad_deleted : deleted_devices ds' = deleted_devices ds;
  ad_items : item_mem ds' = item_mem ds;
  ad_other : ∀ d2, d2 ≠ d → devs ds' !! d2 = devs ds !! d2;
  ad_table : ∃ i, idx_pointer_add (device_indexs ds) d = Ret (i, device_indexs ds');
  ad_kept : ∀ i d2 dv2, d2 ≠ d → registered ds' i d2 dv2 ↔ registered ds i d2 dv2;
  ad_this : ∃ i dv', registered ds' i d dv' ∧ same_file dv dv' ∧
    (d_capacity dv = 0 ∧ order_head dv' = [] ∨ d_kicked dv' = true ∨
     ∃ a, order_head dv' = [OFb a] ∧ fblocks ds' !! a = Some (FreeBlock i 0 (d_capacity dv)))
}.

Lemma device_add_cache d dv st G P :
  cache_inv st None G P → devs (dst st) !! d = Some dv → fresh_device dv → d_used dv = 0 →
  (∀ j, idx_pointer_get (device_indexs (dst st)) j ≠ Ret (Some d)) → d ∉ devices (dst st) →
  (used_nr (device_indexs (dst st)) < Z.to_nat IPT_ARRAY_SIZE)%nat →
  ∃ ds', lift (device_add d) st = Ret (tt, set_dst ds' st) ∧ cache_inv (set_dst ds' st) None G P ∧ added d dv (dst st) ds'.
Proof.
  intros Hi Ed Hf Hu Hno Hnl Hroom.
  destruct (device_add_spec (dst st) d dv (ci_dev _ _ _ _ Hi) Ed Hf Hno Hnl Hroom)
    as (ds' & i & dv' & E & Hdi & El & Em & Hr & Ho & Hnone & Hother & Hdevs & Hsf & Edl & Eadd).
  exists ds'. split; [by apply lift_run|].
  assert (∀ x, OItem x ∉ order_head dv') as Hnox.
  { destruct Ho as [[_ ->]|[Hk|(a & -> & _)]]; [..|].
    - by intros x ?%not_elem_of_nil.
    - rewrite (do_kicked _ _ (di_dev _ Hdi _ _ _ Hr) Hk). by intros x ?%not_elem_of_nil.
    - by intros x ?%list_elem_of_singleton. }
  assert (∀ k d2 dv2, k ≠ i → registered ds' k d2 dv2 ↔ registered (dst st) k d2 dv2) as Hreg.
  { intros k d2 dv2 Hk. unfold registered. rewrite (Hother k Hk). split; intros (F1 & F2 & F3).
    - rewrite Hdevs in F2; [done|]. intros ->. by apply (Hno k).
    - rewrite Hdevs; [done|]. intros ->. by apply (Hno k). }
  split; [|split; try done; [by exists i| |by exists i, dv']].
  2: { intros k d2 dv2 Hne. destruct (decide (k = i)) as [-> |]; [|by apply Hreg]. split; intros Hr2.
       - by destruct (registered_inj _ _ _ _ _ _ _ Hr Hr2 eq_refl) as [<- _].
       - destruct Hr2 as (F & _). congruence. }
  apply cache_inv_devs; [done..| |].
  - intros k d2 dv2 Hr2. destruct (decide (k = i)) as [-> |Hk].
    + destruct (registered_inj _ _ _ _ _ _ _ Hr Hr2 eq_refl) as [_ <-]. right.
      split_and!; [by rewrite (sf_used _ _ Hsf)|done|]. intros d0 dv0 (F & _). congruence.
    + left. exists dv2. split_and!; [by apply Hreg|done..].
  - intros k d2 dv2 x Hr2 _. exists dv2. apply Hreg; [|done]. intros ->. destruct Hr2 as (F & _). congruence.
Qed.

(** ** Loading a device of the configuration *)

(** What the check of the configuration leaves: a device that is matched has its
    live one; another is fresh, at an address no live
    device has, and there is room in the table. *)
Definition loadable y (d : Z) : Prop :=
  let ds := dst (y_st y) in
  ∃ dv, cdevices (y_conf y) !! d = Some dv ∧
    match d_conf dv with
    | Some d2 => d2 ∈ devices ds
    | None => fresh_device dv ∧ d_used dv = 0 ∧ devs ds !! d = None ∧
        (used_nr (device_indexs ds) < Z.to_nat IPT_ARRAY_SIZE)%nat
    end.

Lemma dev_run {A} (c : M (dstore AS) A) y a st :
  lift c (y_st y) = Ret (a, st) → dev c y = Ret (a, set_y_st st y).
Proof. intros E. unfold dev, cache. by rewrite E. Qed.

Lemma load_cdevice_run d dv y : cdevices (y_conf y) !! d = Some dv → load_cdevice d y = Ret (dv, y).
Proof. intros E. unfold load_cdevice. erewrite bind_ret; [|reflexivity]. by rewrite E. Qed.

Lemma load_device_match d d2 dv y G P :
  cache_inv (y_st y) None G P → cdevices (y_conf y) !! d = Some dv → d_conf dv = Some d2 → d2 ∈ devices (dst (y_st y)) →
  ∃ ds', load_device d y = Ret (tt, set_y_st (set_dst ds' (y_st y)) y) ∧ cache_inv (set_dst ds' (y_st y)) None G P ∧
    renamed d2 (d_filename dv) (dst (y_st y)) ds'.
Proof.
  intros Hi Ec Ed Hin. destruct (device_update_spec d2 dv (y_st y) G P Hi Hin) as (ds' & E & Hi' & Hr).
  exists ds'. split_and!; [|done..]. unfold load_device. erewrite bind_ret; [|by apply load_cdevice_run].
  rewrite Ed. by apply dev_run.
Qed.

(** The configuration without the device that was added. *)
Definition conf_taken (d : Z) (c : cstate) : cstate :=
  let cc := conf_cycle c in
  set_conf_cycle (set_cf_devices (list_remove_one d (cf_devices cc)) cc) (set_cdevices (delete d (cdevices c)) c).

Lemma load_device_new d dv y G P :
  let ds := dst (y_st y) in
  cache_inv (y_st y) None G P → cdevices (y_conf y) !! d = Some dv → d_conf dv = None →
  fresh_device dv → d_used dv = 0 → devs ds !! d = None → (used_nr (device_indexs ds) < Z.to_nat IPT_ARRAY_SIZE)%nat →
  ∃ ds', load_device d y = Ret (tt, set_y_conf (conf_taken d (y_conf y)) (set_y_st (set_dst ds' (y_st y)) y)) ∧
    cache_inv (set_dst ds' (y_st y)) None G P ∧ added d dv (set_devs (<[d := dv]> (devs ds)) ds) ds'.
Proof.
  intros ds Hi Ec Ed Hf Hu Hd Hroom. pose proof (cache_inv_new_dev d dv _ G P Hi Hd) as Hi1.
  destruct (device_add_cache d dv _ G P Hi1) as (ds' & E & Hi' & Ha);
    [apply lookup_insert_eq|done..|by intros j; apply (not_in_table _ d j (ci_dev _ _ _ _ Hi))|
     by apply (not_in_devices _ d (ci_dev _ _ _ _ Hi))|done|].
  exists ds'. split_and!; [|done..]. unfold load_device. erewrite bind_ret; [|by apply load_cdevice_run]. rewrite Ed.
  erewrite bind_ret; [|reflexivity]. erewrite bind_ret; [|apply dev_run, lift_run; reflexivity].
  erewrite (dev_run (device_add d)); [|exact E]. reflexivity.
Qed.

Lemma load_device_spec d y G P :
  cache_inv (y_st y) None G P → loadable y d →
  ∃ y', load_device d y = Ret (tt, y') ∧ cache_inv (y_st y') None G P ∧ framed (y_st y) (y_st y').
Proof.
  intros Hi (dv & Ec & Hdv). destruct (d_conf dv) as [d2|] eqn:Edc.
  - destruct (load_device_match d d2 dv y G P Hi Ec Edc Hdv) as (ds' & E & Hi' & _). by eexists.
  - destruct Hdv as (Hf & Hu & Hd & Hroom).
    destruct (load_device_new d dv y G P Hi Ec Edc Hf Hu Hd Hroom) as (ds' & E & Hi' & _). by eexists.
Qed.
End device_life.
