(* ===== verification/Life.v ===== *)
(** * The cache over its life: events, and the properties of each operation

    A state is the cache with the configuration it grows from, and the holds:
    for each request that has an item, whether it stores it and which item it
    is.  An event is one call of the code; its premise is what the callers
    establish: the server exists, the key fits, the size is a size. *)

From Stdlib Require Import String.
From stdpp Require Import prelude fin_maps gmap.
From S2P Require Import Prelude IdxPointer StrUtil IpBucket Slab Hash Device DeviceInv DeviceOps DeviceConf.
From S2P Require Import Http HttpProofs Server ServerInv ServerOps ServerExpire ServerPut ServerHandlers ServerFinalize.
From S2P Require Import Conf ServerConf DeviceLoad Cache DeviceDestroy DeviceLife.
#[local] Arguments im : simpl never.

Section life.
Context {AS IS PS : Type} `{Allocator AS} `{Allocator IS} `{Allocator PS}.
Context (MD5 : list Z → md5_id) (kmalloc : dstore AS → option Z).
Context (Hkm : ∀ ds a, kmalloc ds = Some a → devs ds !! a = None).
Implicit Types (st : sstore AS IS PS) (y : csys AS IS PS) (h : list (bool * Z)).

(** ** States and events *)

Definition getters h : list Z := omap (λ p : bool * Z, if p.1 then None else Some p.2) h.
Definition putters h : list Z := omap (λ p : bool * Z, if p.1 then Some p.2 else None) h.

Record life := Life { lf_y : csys AS IS PS; lf_holds : list (bool * Z) }.

Inductive event :=
  | EvGet (calloc_ok : bool) (r : ohc_request_t)
  | EvPut (c1 c2 : bool) (r : ohc_request_t)
  | EvDelete (calloc_ok : bool) (r : ohc_request_t)
  | EvEnd (i : nat) (r : ohc_request_t)
  | EvRoutine
  | EvTick (now : Z)
  | EvCreate (s : Z)
  | EvRemove (s : Z)
  | EvUpdate (s : Z) (c : server_conf)
  | EvDeviceRoutine
  | EvDeviceLoad (d : Z)
  | EvDeviceDelete (d : Z).

Definition hold (put : bool) (rc : ohc_rc) (r : ohc_request_t) h : list (bool * Z) :=
  match rc, r_item r with OHC_OK, Some x => (put, x) :: h | _, _ => h end.

(** What an event does, with the operations of the code. *)
Definition do_event (ev : event) (lf : life) : outcome life :=
  let y := lf_y lf in
  let h := lf_holds lf in
  match ev with
  | EvGet c r =>
      '(a, y) ← cache (server_request_get_handler MD5 kmalloc c r) y;
      Ret (Life y (hold false a.1 a.2 h))
  | EvPut c1 c2 r =>
      '(a, y) ← cache (server_request_put_handler MD5 kmalloc c1 c2 r) y;
      Ret (Life y (hold true a.1 a.2 h))
  | EvDelete c r =>
      '(a, y) ← cache (server_request_delete_handler MD5 kmalloc c r) y; Ret (Life y h)
  | EvEnd i r =>
      '(a, y) ← cache (server_request_finalize kmalloc r) y; Ret (Life y (delete i h))
  | EvRoutine => '(_, y) ← cache (server_routine kmalloc) y; Ret (Life y h)
  | EvTick now => Ret (Life (set_y_st (set_master_now now (y_st y)) y) h)
  | EvCreate s => '(_, y) ← server_create s y; Ret (Life y h)
  | EvRemove s => '(_, y) ← server_delete s y; Ret (Life y h)
  | EvUpdate s c => '(_, y) ← server_update s c y; Ret (Life y h)
  | EvDeviceRoutine => '(_, y) ← cache (device_routine kmalloc) y; Ret (Life y h)
  | EvDeviceLoad d => '(_, y) ← load_device d y; Ret (Life y h)
  | EvDeviceDelete d => '(_, y) ← dev (device_delete d) y; Ret (Life y h)
  end.

(** The premise of an event. *)
Definition request_ok st (r : ohc_request_t) : Prop :=
  ∃ sv key r1, srvs st !! r_server r = Some sv ∧ server_key sv r = Ret (key, r1).

Definition event_ok (lf : life) (ev : event) : Prop :=
  let st := y_st (lf_y lf) in
  match ev with
  | EvGet _ r => request_ok st r ∧ Z.of_nat (length (lf_holds lf)) < 65535
  | EvDelete _ r => request_ok st r
  | EvPut _ _ r =>
      0 < q_content_length (r_h r) + q_put_header_length (r_h r) < 2 ^ 32 ∧ r_item r = None ∧
      ∃ sv key, srvs st !! r_server r = Some sv ∧
        ∀ r2, put_expire sv (master_now st) r = Some r2 → ∃ r1, server_key sv r2 = Ret (key, r1)
  | EvEnd i r => ∃ b x, lf_holds lf !! i = Some (b, x) ∧ r_item r = Some x ∧
      Z.of_nat (length (lf_holds lf)) < 65536
  | EvRoutine | EvDeviceRoutine | EvTick _ => True
  | EvCreate s =>
      (∃ c, cservers (y_conf (lf_y lf)) !! s = Some c ∧ sc_hash c = hash_init true true) ∧
      srvs st !! s = None ∧ (used_nr (server_indexs st) < Z.to_nat IPT_ARRAY_SIZE)%nat
  | EvRemove s => s ∈ servers st
  | EvUpdate s c => s ∈ servers st ∧
      ∀ sv, srvs st !! s = Some sv → is_Some (sc_access_filp c) → is_Some (n_access_filp (s_net sv))
  | EvDeviceLoad d => loadable (lf_y lf) d
  | EvDeviceDelete d => deletable (dst st) d
  end.

(** A run from [lf0]: a sequence of events whose premises hold. *)
Inductive reach (lf0 : life) : life → Prop :=
  | reach_here : reach lf0 lf0
  | reach_step lf ev lf' :
      reach lf0 lf → event_ok lf ev → do_event ev lf = Ret lf' → reach lf0 lf'.

Record life_inv (lf : life) : Prop := {
  li_cache : cache_inv (y_st (lf_y lf)) None (getters (lf_holds lf)) (putters (lf_holds lf));
  li_lists : lists_ok (y_st (lf_y lf))
}.

(** ** Holds *)

Lemma cache_run {A} (c : M (sstore AS IS PS) A) y a st :
  c (y_st y) = Ret (a, st) → cache c y = Ret (a, set_y_st st y).
Proof. intros E. unfold cache. by rewrite E. Qed.

Lemma getters_length h : (length (getters h) ≤ length h)%nat.
Proof. unfold getters. induction h as [|[[] x] h IH]; cbn; [done|..]; unfold getters in *; cbn in *; lia. Qed.

Lemma elem_of_putters h x : x ∈ putters h ↔ (true, x) ∈ h.
Proof.
  unfold putters. rewrite list_elem_of_omap. split.
  - intros ([[] y] & Hin & E); cbn in E; [|done]. by injection E as ->.
  - intros Hin. by exists (true, x).
Qed.

(** The request at [i] lets its item go. *)
Lemma holds_release st h i b x :
  cache_inv st None (getters h) (putters h) → h !! i = Some (b, x) →
  releases (getters h) (putters h) x (getters (delete i h)) (putters (delete i h)).
Proof.
  intros Hi Hh. destruct (ci_putters _ _ _ _ Hi) as [Hnd Hdis].
  rewrite <- (take_drop_middle h i (b, x) Hh) in Hnd, Hdis |- * at 1 2.
  rewrite delete_take_drop. unfold getters, putters in *. rewrite !omap_app in *. destruct b; cbn in *.
  - left. split_and!; [set_solver|done|]. by rewrite list_remove_one_split.
  - right. split_and!; [|by rewrite Permutation_middle|done].
    intros Hx. eapply Hdis; [exact Hx|]. rewrite elem_of_app. right. apply list_elem_of_here.
Qed.

Lemma request_put_ok c1 c2 r y h :
  event_ok (Life y h) (EvPut c1 c2 r) → cache_inv (y_st y) None (getters h) (putters h) →
  ∃ rc r' st', server_request_put_handler MD5 kmalloc c1 c2 r (y_st y) = Ret (rc, r', st') ∧
    cache_inv st' None (getters (hold true rc r' h)) (putters (hold true rc r' h)).
Proof.
  intros (Hlen & Hnone & sv & key & Es & Hkey) Hi.
  destruct (server_request_put_spec MD5 kmalloc Hkm c1 c2 r (y_st y) sv key _ _ Hi Es Hlen Hkey) as (rc & r' & st' & E & Hres).
  exists rc, r', st'. split; [done|].
  destruct Hres as [r' Hi' _|r' Hi' _|r2 r' x _ _ Ex Hi' _]; cbn [hold]; [done..|]. by rewrite Ex.
Qed.

(** ** Servers *)

Lemma server_create_run s c hash y h :
  cservers (y_conf y) !! s = Some c → sc_hash c = Some hash → hash_init true true = Some hash →
  srvs (y_st y) !! s = None → (used_nr (server_indexs (y_st y)) < Z.to_nat IPT_ARRAY_SIZE)%nat →
  life_inv (Life y h) → ∃ y', server_create s y = Ret (tt, y') ∧ life_inv (Life y' h).
Proof.
  intros Ec Eh Einit Hs Hroom [Hi [Hnd Hls]]. cbn [lf_y lf_holds] in Hi, Hnd, Hls.
  destruct (idx_add_get (server_indexs (y_st y)) s (ci_idx _ _ _ _ Hi) Hroom) as (i & t & Et & _).
  eexists. split.
  { unfold server_create, load_cserver. erewrite bind_ret; [|erewrite bind_ret; [|reflexivity]; rewrite Ec; reflexivity].
    rewrite Eh. erewrite bind_ret; [|reflexivity]. erewrite bind_ret; [|reflexivity].
    erewrite bind_ret; [|apply cache_run, out_run; exact Et]. cbn [fst snd].
    erewrite bind_ret; [|reflexivity]. erewrite bind_ret; [|apply cache_run; reflexivity].
    unfold server_listen_start. erewrite bind_ret; [|apply cache_run, load_srv_run; apply lookup_insert_eq]. reflexivity. }
  split; cbn.
  - apply cache_inv_create with (i := i); try done.
    split; cbn; [|done|done]. by apply hash_init_inv.
  - destruct (Hls s) as [_ Hn]. split; cbn.
    + rewrite <- app_assoc. cbn. rewrite <- Permutation_middle. apply NoDup_cons. split; [|done].
      intros Hin. apply Hls in Hin as [? ?]. congruence.
    + intros s'. rewrite <- app_assoc. cbn. rewrite <- Permutation_middle, elem_of_cons, Hls, lookup_insert_is_Some.
      destruct (decide (s' = s)) as [->|]; [naive_solver|]. split; [|naive_solver]. intros [?|?]; [done|]. right. split; [congruence|done].
Qed.

Lemma lists_ok_perm st st' :
  lists_ok st → servers st' ++ deleted_servers st' ≡ₚ servers st ++ deleted_servers st →
  dom (srvs st') = dom (srvs st) → lists_ok st'.
Proof.
  intros [Hnd Hls] Hp Hd. split; [by rewrite Hp|]. intros s. rewrite Hp, Hls. by rewrite <- !elem_of_dom, Hd.
Qed.

Lemma srv_same_upd st G P s sv sv' :
  cache_inv st None G P → srvs st !! s = Some sv →
  s_lru_head sv' = s_lru_head sv → s_passby_lru_head sv' = s_passby_lru_head sv →
  s_passby_item_nr sv' = s_passby_item_nr sv → s_item_nr sv' = s_item_nr sv → s_content sv' = s_content sv →
  s_consumed sv' = s_consumed sv → s_index sv' = s_index sv → s_hash sv' = s_hash sv →
  cache_inv (set_srvs (<[s := sv']> (srvs st)) st) None G P.
Proof.
  intros Hi Es E1 E2 E3 E4 E5 E6 E7 E8. eapply cache_inv_srv_same; [done..|]. split; rewrite ?E2, ?E8; try done.
  split; [|done]. apply (ci_server _ _ _ _ Hi _ _ _ (sreg_lookup _ _ _ _ _ _ Hi Es)).
Qed.

Lemma server_delete_run s y h :
  life_inv (Life y h) → s ∈ servers (y_st y) → ∃ y', server_delete s y = Ret (tt, y') ∧ life_inv (Life y' h).
Proof.
  intros [Hi Hl] Hs. cbn [lf_y lf_holds] in Hi, Hl. pose proof Hl as [Hnd Hls].
  destruct (Hls s) as [[sv Es] _]; [rewrite elem_of_app; by left|].
  eexists. split.
  { unfold server_delete. erewrite bind_ret; [|apply cache_run, upd_srv_run; exact Es].
    unfold server_listen_close.
    erewrite bind_ret; [|erewrite bind_ret; [|apply cache_run, load_srv_run; apply lookup_insert_eq]; reflexivity].
    apply cache_run. reflexivity. }
  split; cbn.
  - pose proof (srv_same_upd _ _ _ s sv (set_s_deleted true sv) Hi Es) as Hc.
    specialize (Hc eq_refl eq_refl eq_refl eq_refl eq_refl eq_refl eq_refl eq_refl). by eapply cache_inv_core; [..|exact Hc].
  - assert (NoDup (servers (y_st y))) as Hnd1 by (by apply NoDup_app in Hnd as (? & _)).
    eapply lists_ok_perm; [exact Hl| |].
    + transitivity (s :: list_remove_one s (servers (y_st y)) ++ deleted_servers (y_st y)).
      * symmetry. apply Permutation_middle.
      * change (s :: ?a ++ ?b) with ((s :: a) ++ b). f_equiv. symmetry. by apply remove_one_perm.
    + apply dom_insert_lookup_L. by eexists.
Qed.

Lemma server_update_run s c y h :
  life_inv (Life y h) → s ∈ servers (y_st y) →
  (∀ sv, srvs (y_st y) !! s = Some sv → is_Some (sc_access_filp c) → is_Some (n_access_filp (s_net sv))) →
  ∃ y', server_update s c y = Ret (tt, y') ∧ life_inv (Life y' h).
Proof.
  intros [Hi Hl] Hs Hlog. cbn [lf_y lf_holds] in Hi, Hl. pose proof Hl as [Hnd Hls].
  destruct (Hls s) as [[sv Es] _]; [rewrite elem_of_app; by left|].
  assert (∃ y' sv', server_update s c y = Ret (tt, y') ∧
    y_st y' = set_srvs (<[s := sv']> (srvs (y_st y))) (set_servers (list_remove_one s (servers (y_st y)) ++ [s]) (y_st y)) ∧
    ∃ n n', sv' = set_s_net n' (update_fields c (set_s_net n sv))) as (y' & sv' & E & Est & n & n' & Esv).
  { unfold server_update. setoid_rewrite (bind_ret (cache (modify _)) _ y tt); [|apply cache_run; reflexivity].
    setoid_rewrite (bind_ret (cache (load_srv s)) _ _ sv); [|apply cache_run, load_srv_run; exact Es].
    destruct (sc_access_filp c) as [filp|] eqn:Ef.
    - destruct (Hlog sv Es) as [old Eo]; [by eexists|]. eexists _, _. split.
      + erewrite bind_ret; [|rewrite Eo; erewrite bind_ret; [|reflexivity]; erewrite bind_ret; [|reflexivity];
          unfold upd_net; apply cache_run, upd_srv_run; exact Es].
        erewrite bind_ret; [|apply cache_run, upd_srv_run; apply lookup_insert_eq].
        unfold server_listen_update, upd_net. apply cache_run, upd_srv_run. apply lookup_insert_eq.
      + cbn. rewrite !insert_insert_eq. split; [done|]. by eexists _, _.
    - eexists _, _. split.
      + erewrite bind_ret; [|reflexivity]. erewrite bind_ret; [|apply cache_run, upd_srv_run; exact Es].
        unfold server_listen_update, upd_net. apply cache_run, upd_srv_run. apply lookup_insert_eq.
      + cbn. rewrite !insert_insert_eq. split; [done|]. exists (s_net sv). eexists. by destruct sv. }
  exists y'. split; [done|]. split; cbn; rewrite Est.
  - pose proof (srv_same_upd _ _ _ s sv sv' Hi Es) as Hc. rewrite Esv in Hc at 1 2 3 4 5 6 7 8.
    specialize (Hc eq_refl eq_refl eq_refl eq_refl eq_refl eq_refl eq_refl eq_refl). by eapply cache_inv_core; [..|exact Hc].
  - assert (NoDup (servers (y_st y))) as Hnd1 by (by apply NoDup_app in Hnd as (? & _)).
    eapply lists_ok_perm; [exact Hl| |].
    + transitivity ((s :: list_remove_one s (servers (y_st y))) ++ deleted_servers (y_st y)).
      * apply Permutation_app_tail. symmetry. apply Permutation_cons_append.
      * f_equiv. symmetry. by apply remove_one_perm.
    + apply dom_insert_lookup_L. by eexists.
Qed.

(** ** Every event *)

Lemma event_safe lf ev :
  life_inv lf → event_ok lf ev → ∃ lf', do_event ev lf = Ret lf' ∧ life_inv lf'.
Proof.
  destruct lf as [y h]. intros Hlf Hok. pose proof Hlf as [Hi Hl]. cbn [lf_y lf_holds] in Hi, Hl.
  destruct ev as [c r|c1 c2 r|c r|i r| |now|s|s|s c| |d|d]; cbn [do_event lf_y lf_holds].
  - destruct Hok as [(sv & key & r1 & Es & Ek) Hlen]. cbn in Es, Hlen.
    destruct (server_request_get_spec MD5 kmalloc Hkm c r (y_st y) sv key r1 _ _ Hi Es Ek)
      as (rc & r' & st' & E & Hc); [pose proof (getters_length h); lia|].
    pose proof (keeps_get_handler MD5 kmalloc c r _ _ _ E) as Hf.
    rewrite (cache_run _ _ _ _ E). cbn. eexists. split; [reflexivity|]. split; cbn; [|by eapply lists_ok_framed].
    destruct Hc as [(-> & x & it & _ & -> & Hi' & _)|(-> & -> & Hi' & _)]; cbn; [done|]. done.
  - destruct (request_put_ok c1 c2 r y h Hok Hi) as (rc & r' & st' & E & Hi').
    pose proof (keeps_put_handler MD5 kmalloc c1 c2 r _ _ _ E) as Hf.
    rewrite (cache_run _ _ _ _ E). cbn. eexists. split; [reflexivity|]. split; cbn; [done|by eapply lists_ok_framed].
  - destruct Hok as (sv & key & r1 & Es & Ek). cbn in Es.
    destruct (server_request_delete_spec MD5 kmalloc Hkm c r (y_st y) sv key r1 _ _ Hi Es Ek) as (rc & st' & E & Hi' & _).
    pose proof (keeps_delete_handler MD5 kmalloc c r _ _ _ E) as Hf.
    rewrite (cache_run _ _ _ _ E). cbn. eexists. split; [reflexivity|]. split; cbn; [done|by eapply lists_ok_framed].
  - destruct Hok as (b & x & Hh & Er & Hlen). cbn in Hh, Hlen.
    destruct (server_request_finalize_spec kmalloc Hkm r x (y_st y) _ _ _ _ Hi Er (holds_release _ _ _ _ _ Hi Hh))
      as (it & it' & st' & E & Hi' & _); [pose proof (getters_length h); lia|].
    pose proof (keeps_finalize kmalloc r _ _ _ E) as Hf.
    rewrite (cache_run _ _ _ _ E). cbn. eexists. split; [reflexivity|]. split; cbn; [done|by eapply lists_ok_framed].
  - destruct (server_routine_spec kmalloc Hkm (y_st y) _ _ Hi Hl) as (st' & E & Hi' & Hl' & _).
    rewrite (cache_run _ _ _ _ E). cbn. eexists. split; [reflexivity|]. by split.
  - eexists. split; [reflexivity|]. split; cbn; [|done]. by eapply cache_inv_core; [..|exact Hi].
  - destruct Hok as ((c & Ec & Eh) & Hs & Hroom). cbn in Ec, Hs, Hroom.
    assert (∃ hash, hash_init (N := snode) true true = Some hash) as [hash Ehi] by (by eexists).
    destruct (server_create_run s c hash y h Ec) as (y' & E & Hlf'); [by rewrite Eh|done..|]. rewrite E. by eexists.
  - destruct (server_delete_run s y h Hlf Hok) as (y' & E & Hlf'). rewrite E. by eexists.
  - destruct Hok as [Hs Hlog]. destruct (server_update_run s c y h Hlf Hs Hlog) as (y' & E & Hlf'). rewrite E. by eexists.
  - destruct (device_routine_spec kmalloc Hkm (y_st y) _ _ Hi) as (st' & E & Hi' & Hf & _).
    rewrite (cache_run _ _ _ _ E). eexists. split; [reflexivity|]. split; [done|by eapply lists_ok_framed].
  - destruct (load_device_spec d y _ _ Hi Hok) as (y' & E & Hi' & Hf). rewrite E.
    eexists. split; [reflexivity|]. split; [done|by eapply lists_ok_framed].
  - destruct (device_delete_spec d (y_st y) _ _ Hi Hok) as (ds' & E & Hi' & _).
    pose proof (keeps_lift _ _ _ _ E) as Hf. rewrite (dev_run _ _ _ _ E).
    eexists. split; [reflexivity|]. split; [done|by eapply lists_ok_framed].
Qed.
End life.
