(* ===== verification/CacheProofs.v ===== *)
(** * Properties of the cache

    What a run of the cache guarantees, and what each operation of the server
    does in a consistent cache; with a cache of one server on one device of
    1 MiB to witness them. *)

From Stdlib Require Import String.
From stdpp Require Import prelude fin_maps gmap.
From S2P Require Import Prelude IdxPointer StrUtil IpBucket Slab Hash Device DeviceInv DeviceOps DeviceConf.
From S2P Require Import Http HttpProofs Server ServerInv ServerOps ServerExpire ServerPut ServerHandlers ServerFinalize.
From S2P Require Import Conf ServerConf DeviceLoad Cache DeviceDestroy DeviceLife Life.
#[local] Arguments im : simpl never.

Section properties.
Context {AS IS PS : Type} `{Allocator AS} `{Allocator IS} `{Allocator PS}.
Context (MD5 : list Z → md5_id) (kmalloc : dstore AS → option Z).
Context (Hkm : ∀ ds a, kmalloc ds = Some a → devs ds !! a = None).
Implicit Types (st : sstore AS IS PS) (sv : ohc_server_t) (y : csys AS IS PS) (G P : list Z).

(** An empty cache: devices without items, no server, empty slabs. *)
Record empty_cache y : Prop := {
  ec_st : ∃ ds isl psl now, y_st y = sstore_init ds isl psl now;
  ec_dev : dev_inv (dst (y_st y));
  ec_items : item_mem (dst (y_st y)) = ∅;
  ec_used : ∀ i d dv, registered (dst (y_st y)) i d dv → d_used dv = 0;
  ec_islab : al_ok (islab (y_st y)) ∧ ∀ x, ¬ al_live (islab (y_st y)) x;
  ec_pslab : al_ok (pslab (y_st y)) ∧ ∀ p, ¬ al_live (pslab (y_st y)) p
}.

Lemma empty_cache_inv y : empty_cache y → life_inv (Life y []).
Proof.
  intros [(ds & isl & psl & now & Est) Hd Hm Hu [Hi Hil] [Hp Hpl]]. split; cbn; rewrite Est in *.
  - by apply sstore_init_inv.
  - split; [apply NoDup_nil_2|]. intros s. cbn. rewrite lookup_empty.
    split; [by intros ?%not_elem_of_nil|by intros []].
Qed.

Lemma reach_inv (lf0 lf : life (AS := AS) (IS := IS) (PS := PS)) : life_inv lf0 → reach MD5 kmalloc lf0 lf → life_inv lf.
Proof.
  intros Hinit. induction 1 as [|lf ev lf' _ IH Hok E]; [done|].
  destruct (event_safe MD5 kmalloc Hkm lf ev IH Hok) as (lf2 & E2 & Hinv). congruence.
Qed.

(** C1: from an empty cache, whatever sequence of requests, ends of requests,
    expirations, creations, updates and removals of servers and of devices runs,
    with the routines that take deleted ones apart, the cache stays consistent:
    items, hash tables, LRU lists, counters, indexes, slabs and devices agree.  In every state such a run reaches, no operation the callers
    may call faults or fails to return. *)
Theorem cache_run_safe y lf :
  empty_cache y → reach MD5 kmalloc (Life y []) lf →
  life_inv lf ∧ ∀ ev, event_ok lf ev → ∃ lf', do_event MD5 kmalloc ev lf = Ret lf'.
Proof.
  intros Hy Hr. assert (life_inv lf) as Hlf by (eapply reach_inv; [by apply empty_cache_inv|done]).
  split; [done|]. intros ev Hok. destruct (event_safe MD5 kmalloc Hkm lf ev Hlf Hok) as (lf' & E & _). by exists lf'.
Qed.

(** C2: in every state a run reaches, two items never share a byte of a device:
    the blocks of different items on the same device are disjoint, and each lies
    within the capacity of the device. *)
Theorem cache_items_apart y lf x x' it it' :
  empty_cache y → reach MD5 kmalloc (Life y []) lf →
  let st := y_st (lf_y lf) in
  item_mem (dst st) !! x = Some it → item_mem (dst st) !! x' = Some it' → x ≠ x' →
  it_device_index it = it_device_index it' →
  apart (it_offset it, ipbucket_block_size (it_length it)) (it_offset it', ipbucket_block_size (it_length it')) ∧
  it_length it ≤ ipbucket_block_size (it_length it) ∧
  ∃ d dv, registered (dst st) (it_device_index it) d dv ∧ 0 ≤ it_offset it ∧
    it_offset it + ipbucket_block_size (it_length it) ≤ d_capacity dv.
Proof.
  intros Hy Hr st Hx Hx' Hne Ed. assert (life_inv lf) as [Hi _] by (eapply reach_inv; [by apply empty_cache_inv|done]).
  fold st in Hi. destruct (io_dev _ _ _ (ci_item _ _ _ _ Hi x it Hx)) as (d & dv & Hrd & Hin).
  destruct (io_dev _ _ _ (ci_item _ _ _ _ Hi x' it' Hx')) as (d' & dv' & Hrd' & Hin').
  rewrite <- Ed in Hrd'. destruct Hrd as (E1 & E2 & E3), Hrd' as (E1' & E2' & E3').
  assert (d' = d) as -> by congruence. assert (dv' = dv) as -> by congruence.
  pose proof (ci_dev _ _ _ _ Hi) as Hdi.
  destruct (do_nodes _ _ (di_dev _ Hdi _ _ _ (conj E1 (conj E2 E3))) _ Hin) as (it2 & Hx2 & _ & Hlen).
  assert (it2 = it) as -> by congruence.
  destruct (nodes_apart (dst st) (it_device_index it) d dv (OItem x) (OItem x') Hdi) as (Ha & Hlo & _ & Hhi);
    [by split_and!|done|done|congruence|].
  unfold ext in *. rewrite Hx, Hx' in *. split_and!; [done| |].
  - apply block_size_bounds; lia.
  - exists d, dv. by split_and!.
Qed.

(** C7: a GET finds exactly what can be served.  It returns the complete, valid
    item stored under the key if the server has one, which the request then
    holds; otherwise it returns an error and the request holds nothing.  Valid
    means: neither device nor server deleted, not cleared, not expired.  The
    cache stays consistent either way. *)
Theorem server_request_get_correct calloc_ok r st sv key r1 G P :
  cache_inv st None G P → srvs st !! r_server r = Some sv → server_key sv r = Ret (key, r1) →
  Z.of_nat (length G) < 65535 →
  ∃ rc r' st', server_request_get_handler MD5 kmalloc calloc_ok r st = Ret (rc, r', st') ∧
    (rc = OHC_OK ∧ (∃ x it, servable st sv (MD5 key) x it ∧ r' = set_r_item (Some x) r1 ∧
        cache_inv st' None (x :: G) P ∧
        item_mem (dst st') = <[x := set_it_used (it_used it + 1) it]> (item_mem (dst st))) ∨
     rc = OHC_ERROR ∧ r' = r1 ∧ cache_inv st' None G P ∧ ∀ x it, ¬ servable st sv (MD5 key) x it).
Proof. by apply server_request_get_spec. Qed.


(** C9: after a DELETE the server has no entry under the key; it returns OK
    exactly when there was one. *)
Theorem server_request_delete_correct calloc_ok r st sv key r1 G P :
  cache_inv st None G P → srvs st !! r_server r = Some sv → server_key sv r = Ret (key, r1) →
  ∃ rc st', server_request_delete_handler MD5 kmalloc calloc_ok r st = Ret (rc, r1, st') ∧
    cache_inv st' None G P ∧ no_entry st' (r_server r) (MD5 key) ∧
    (rc = OHC_OK ∧ (∃ n, n ∈ hash_nodes (s_hash sv) ∧ hids st !! n = Some (MD5 key)) ∨
     rc = OHC_ERROR ∧ no_entry st (r_server r) (MD5 key)).
Proof. by apply server_request_delete_spec. Qed.

(** C10: the end of a request lets its item go.  The item is removed if reading or
    writing it failed, if it was deleted meanwhile, or if its PUT did not
    complete; not before its last holder lets it go.  Otherwise it only loses
    the hold, and no other item changes. *)
Theorem server_request_finalize_correct r x st G P G' P' :
  cache_inv st None G P → r_item r = Some x → releases G P x G' P' → Z.of_nat (length G) < 65536 →
  ∃ it it' st', server_request_finalize kmalloc r st = Ret (set_r_item None r, st') ∧
    cache_inv st' None G' P' ∧ item_mem (dst st) !! x = Some it ∧
    (∀ z, z ≠ x → item_mem (dst st') !! z = item_mem (dst st) !! z) ∧
    item_mem (dst st') !! x =
      (if discards r it then (if decide (x ∈ G' ++ P') then Some it' else None) else Some (released it)) ∧
    it_deleted it' = true.
Proof.
  intros Hi Er Hrel Hlen.
  destruct (server_request_finalize_spec kmalloc Hkm r x st G P G' P' Hi Er Hrel Hlen)
    as (it & it' & st' & E & Hi' & Hx & Ho & Hx' & Hd & _). by exists it, it', st'.
Qed.

(** C11: deleting an item takes it from the hash table at once; its memory and its
    block are given back unless a request holds it, in which case it stays where
    it is, marked as deleted.  No other item changes. *)
Theorem server_item_delete_correct st L G P x it :
  cache_inv st L G P → im st L !! x = Some it →
  ∃ st', server_item_delete kmalloc x st = Ret (tt, st') ∧ cache_inv st' L G P ∧
    item_mem (dst st') !! x = (if decide (x ∈ G ++ P) then Some (set_it_deleted true it) else None) ∧
    (∀ z, z ≠ x → item_mem (dst st') !! z = item_mem (dst st) !! z) ∧
    ∀ s sv, srvs st' !! s = Some sv → NItem x ∉ hash_nodes (s_hash sv).
Proof.
  intros Hi Hx. destruct (server_item_delete_spec kmalloc Hkm st L G P x it Hi Hx)
    as (st' & E & Hi' & (_ & _ & Ho & _) & Hx'). exists st'. split_and!; try done.
  intros s sv Es Hin. pose proof (sreg_lookup _ _ _ _ _ _ Hi' Es) as Hr.
  destruct (so_items _ _ _ _ (ci_server _ _ _ _ Hi' _ _ _ Hr) x Hin) as (it' & Hit & Eix).
  destruct (io_srv _ _ _ (ci_item _ _ _ _ Hi' x it' Hit)) as (s2 & sv2 & Hr2 & Hdel & _).
  rewrite Eix in Hr2. destruct (sreg_inj _ _ _ _ _ _ Hr Hr2) as [-> ->].
  destruct (im_lookup _ _ _ _ Hit) as [Hm _]. rewrite Hm in Hx'.
  destruct (decide (x ∈ G ++ P)); [|done]. injection Hx' as ->. apply Hdel in Hin. done.
Qed.


(** C13: the retries of a PUT that finds no free block end: fourteen rounds of the
    loop are enough, whatever the state of the cache, and the loop then gives up
    or has a block of a device for the item. *)
Theorem put_alloc_terminates s x st G P it sv :
  cache_inv st (Some x) G P → srvs st !! s = Some sv → item_mem (dst st) !! x = Some it →
  0 < it_length it < 2 ^ 32 →
  ∃ st', (put_alloc kmalloc 14 s x 0 st = Ret (0, st') ∧ cache_inv st' (Some x) G P ∨
          put_alloc kmalloc 14 s x 0 st = Ret (ipbucket_block_size (it_length it), st') ∧ dev_inv (dst st') ∧
          ∃ it' d dv, item_mem (dst st') !! x = Some it' ∧ registered (dst st') (it_device_index it') d dv ∧
            OItem x ∈ order_head dv).
Proof.
  intros Hi Es Hx Hlen.
  destruct (put_alloc_spec kmalloc Hkm 14 s x 0 st G P it sv Hi Es Hx Hlen) as (b & st' & E & Hc); [lia|lia|].
  exists st'. destruct Hc as [(-> & Hi' & _)|(-> & _ & st1 & ds' & it1 & d & Hi1 & _ & Hx1 & El & Hd & Hg & ->)]; [by left|right].
  split_and!; [done..|]. destruct Hg as [(a & fb & dv & _ & _ & Hr & _ & _ & Em) Hst].
  pose proof Hst as (Et & _ & _ & _ & Hs). destruct Hr as (E1 & E2 & E3).
  destruct (di_table _ Hd (fb_device_index fb) d) as (_ & dv' & Ed & Eix); [by rewrite Et|].
  cbn [dst set_dst]. rewrite Em, lookup_insert_eq. eexists _, d, dv'. split_and!; [done| |].
  - cbn. split_and!; [by rewrite Et|done..].
  - destruct (Hs d dv' Ed) as (? & _ & _ & _ & _ & _ & _ & Hocc). apply Hocc. by right.
Qed.

(** A PUT whose body came in full leaves an item that can be served. *)
Lemma put_servable c1 c2 r st sv key G P rc r' st1 x r2 st2 sv2 :
  cache_inv st None G P → Z.of_nat (length G) < 65535 → srvs st !! r_server r = Some sv →
  0 < q_content_length (r_h r) + q_put_header_length (r_h r) < 2 ^ 32 →
  (∀ ra, put_expire sv (master_now st) r = Some ra → ∃ r1, server_key sv ra = Ret (key, r1)) →
  server_request_put_handler MD5 kmalloc c1 c2 r st = Ret (rc, r', st1) → rc = OHC_OK →
  r_item r' = Some x → r_item r2 = Some x → r_disk_error r2 = false →
  r_process_size r2 = q_content_length (r_h r) + q_put_header_length (r_h r) →
  server_request_finalize kmalloc r2 st1 = Ret (set_r_item None r2, st2) →
  srvs st2 !! r_server r = Some sv2 → s_deleted sv2 = false → master_now st < i32 (q_expire (r_h r')) →
  cache_inv st2 None G P ∧ ∃ it, servable st2 sv2 (MD5 key) x it.
Proof.
  intros Hi Hlen Es Hsz Hkey E Erc Ex' Ex2 Hde Hps Ef Es2 Hsd Hexp.
  destruct (server_request_put_spec MD5 kmalloc Hkm c1 c2 r st sv key G P Hi Es Hsz Hkey) as (? & ? & ? & E' & Hres).
  rewrite E in E'. injection E' as <- <- <-.
  destruct Hres as [? ? _|? ? _|ra r' x' Hra Hh Hx' Hi1 Hst]; [done..|].
  assert (x' = x) as -> by congruence.
  destruct (server_request_finalize_spec kmalloc Hkm r2 x st1 G (x :: P) G P Hi1 Ex2) as (it & it' & st2' & Ef' & Hi2 & Hx & _ & _ & _ & Hkeep).
  { left. split_and!; [apply list_elem_of_here|done|]. symmetry. apply (list_remove_one_split x []), (ci_putters _ _ _ _ Hi1). }
  { lia. }
  rewrite Ef in Ef'. injection Ef' as <-. split; [done|].
  destruct Hst as [(it1 & sv1 & Hx1 & Es1 & Elen & Eexp & Ecl & Eix & Eput & Edel & Hin) (it2 & d & dv & Hx2 & Hrd & Hdd) Hid _ Hnow].
  assert (it1 = it) as -> by congruence. assert (it2 = it) as -> by congruence.
  destruct (put_expire_same _ _ _ _ Hra) as (_ & _ & Ecl' & Ehl').
  destruct Hkeep as (d' & dv' & Hrd' & ->).
  { unfold discards. rewrite Hde, Edel, Hps, Elen, Ecl', Ehl', Z.ltb_irrefl. by rewrite andb_false_r. }
  cbn in Es2. rewrite Es1 in Es2. injection Es2 as <-.
  exists (set_it_putting false it). split_and!; [done|done| |done|].
  - cbn. rewrite lookup_insert_eq. unfold released. by rewrite Eput.
  - assert (d' = d ∧ dv' = dv) as [-> ->].
    { destruct Hrd as (R1 & R2 & _), Hrd' as (R1' & R2' & _). split; congruence. }
    exists d, (set_d_used (d_used dv - 1) dv). split.
    + apply (registered_used _ _ _ _ _ _ _ _ Hrd). exists dv. split; [done|]. by rewrite decide_True.
    + unfold item_valid. cbn. rewrite Hdd, Hsd, Ecl, Z.eqb_refl, Hnow, Eexp. cbn. apply Z.ltb_lt. by rewrite <- Hh.
Qed.


(** C19: [device_destroy] of a deleted device keeps the cache consistent, with
    every item a request holds, and leaves the items of the other devices as they
    are.  When the device has at most [LOOP_LIMIT] nodes and no request holds an
    item of it, one call is enough: the device is freed, it is in no list any
    more, and its entry in the table is empty. *)
Theorem device_destroy_correct st G P i d dv :
  cache_inv st None G P → d ∈ deleted_devices (dst st) → registered (dst st) i d dv →
  ∃ st', device_destroy kmalloc d st = Ret (tt, st') ∧ cache_inv st' None G P ∧
    (∀ x it, item_mem (dst st) !! x = Some it → it_device_index it ≠ i → item_mem (dst st') !! x = Some it) ∧
    ((length (order_head dv) ≤ LOOP_LIMIT)%nat → (∀ x, OItem x ∈ order_head dv → x ∉ G ++ P) →
     (d ∉ deleted_devices (dst st')) ∧ devs (dst st') !! d = None ∧
     idx_pointer_get (device_indexs (dst st')) i = Ret None).
Proof.
  intros Hi Hd Hr. destruct (device_destroy_spec kmalloc Hkm d st G P Hi Hd) as (st' & E & Hi' & _ & _ & Hdev).
  destruct (Hdev i dv Hr) as [Hoth Hgone]. exists st'. split_and!; [done..|]. intros Hlen Hfree. apply Hgone; [done|].
  intros [a|x] Hn; cbn; [by intros []|by apply Hfree].
Qed.
End properties.

(** *** One server on one device *)

#[local] Instance demo_alloc : Allocator ohc_slab_t := slab_allocator bump_malloc bump_malloc_fresh.
Definition demo_kmalloc (ds : dstore ohc_slab_t) : option Z := Some (fresh (dom (devs ds))).
Lemma demo_kmalloc_fresh ds a : demo_kmalloc ds = Some a → devs ds !! a = None.
Proof. intros E. injection E as <-. apply not_elem_of_dom, is_fresh. Qed.

Definition demo_sys : csys ohc_slab_t ohc_slab_t ohc_slab_t :=
  CSys (sstore_init (match device_add 50 (set_devs {[50 := demo_device]} (dstore_init (OHC_SLAB_INIT 65000))) with
                     | Ret (_, ds) => ds | Fail _ => demo_dstore end)
          (OHC_SLAB_INIT 65000) (OHC_SLAB_INIT 65000) 100)
    (CState conf_init server_init [] []
       {[60 := set_sc_listen_port 8535 (set_sc_capacity 524288 (set_sc_hash (hash_init true true) server_init))]} ∅ true) ∅ ∅ ∅.

(** PUT and GET of [/a], with 2940 bytes of body and 60 of headers. *)
Definition demo_req (m : http_method) (item : option Z) (done : Z) : ohc_request_t :=
  Request 60 (HReq m 2940 false 0 0 None (Some (Str 4 2)) None None [] 60 0 true 200 None)
    (bytes "PUT /a HTTP/1.1") item done false.
Definition demo_step (ev : event) (lf : life) : life :=
  match do_event toy_md5 demo_kmalloc ev lf with Ret lf' => lf' | Fail _ => lf end.
Definition demo_item_of (lf : life (AS := ohc_slab_t) (IS := ohc_slab_t) (PS := ohc_slab_t)) : Z :=
  match lf_holds lf with (_, x) :: _ => x | [] => 0 end.

Definition demo0 := Life demo_sys [].
Definition demo1 := demo_step (EvCreate 60) demo0.
Definition demo2 := demo_step (EvPut true true (demo_req METHOD_PUT None 0)) demo1.
Definition demo3 := demo_step (EvEnd 0 (demo_req METHOD_PUT (Some (demo_item_of demo2)) 3000)) demo2.
Definition demo4 := demo_step (EvGet true (demo_req METHOD_GET None 0)) demo3.
Definition demo5 := demo_step (EvPut true true (demo_req METHOD_PUT None 0)) demo4.

Definition is_ret {A} (o : outcome A) : bool := match o with Ret _ => true | Fail _ => false end.
Lemma demo_step_ret ev lf :
  is_ret (do_event toy_md5 demo_kmalloc ev lf) = true → do_event toy_md5 demo_kmalloc ev lf = Ret (demo_step ev lf).
Proof. unfold demo_step. by destruct (do_event _ _ ev lf). Qed.

Lemma demo_empty : empty_cache demo_sys.
Proof.
  destruct (device_add_spec (set_devs {[50 := demo_device]} (dstore_init (OHC_SLAB_INIT 65000))) 50 demo_device)
    as (ds & i & dv & E & Hd & Et & Em & Hu).
  { assert (dev_inv (dstore_init (OHC_SLAB_INIT 65000))) as [].
    { apply dstore_init_inv; [apply slab_init_inv; lia|]. by intros a (b & blk & Hb & _). }
    split; try done; [intros j d Ej; by apply idx_init_get in Ej|intros j d dv (Ej & _); by apply idx_init_get in Ej|..].
    all: split; [constructor|]; by intros d ?%not_elem_of_nil. }
  { reflexivity. } { apply demo_device_fresh. } { intros j. apply idx_init_get. } { by intros ?%not_elem_of_nil. } { by apply demo_table_room. }
  assert (y_st demo_sys = sstore_init ds (OHC_SLAB_INIT 65000) (OHC_SLAB_INIT 65000) 100) as Est
    by (unfold demo_sys; by rewrite E).
  assert (slab_inv (OHC_SLAB_INIT 65000) ∧ ∀ x, ¬ slab_live (OHC_SLAB_INIT 65000) x) as Hs.
  { split; [apply slab_init_inv; lia|]. by intros a (b & blk & Hb & _). }
  assert (bool_decide (map_Forall (λ _ dv, d_used dv = 0) (devs (dst (y_st demo_sys)))) = true) as Hu0 by (vm_compute; reflexivity).
  rewrite bool_decide_eq_true in Hu0. split; rewrite Est in *; try done.
  - by eexists _, _, _, _.
  - intros j d' dv' (_ & Hdv & _). by apply (Hu0 d').
Qed.

Lemma demo_reach (lf lf0 : life) ev :
  reach toy_md5 demo_kmalloc lf0 lf → event_ok lf ev → is_ret (do_event toy_md5 demo_kmalloc ev lf) = true →
  reach toy_md5 demo_kmalloc lf0 (demo_step ev lf).
Proof. intros Hr Hok Hd. eapply reach_step; [done..|by apply demo_step_ret]. Qed.

(** The key of a request, and the server it is for, by evaluation. *)
Lemma demo_request_ok (st : sstore ohc_slab_t ohc_slab_t ohc_slab_t) r :
  match srvs st !! r_server r with Some sv => is_ret (server_key sv r) | None => false end = true → request_ok st r.
Proof.
  unfold request_ok. destruct (srvs st !! r_server r) as [sv|]; [|done].
  destruct (server_key sv r) as [[key r1]|] eqn:E; [|done]. intros _. by exists sv, key, r1.
Qed.

Definition demo_server (lf : life (AS := ohc_slab_t) (IS := ohc_slab_t) (PS := ohc_slab_t)) : ohc_server_t :=
  default (server_of_conf server_init (Hash [] 0 0 None 0) 0) (srvs (y_st (lf_y lf)) !! 60).
Definition demo_key : list Z := bytes "/a".

Lemma demo_put_ok lf :
  bool_decide (is_Some (srvs (y_st (lf_y lf)) !! 60)) = true →
  match put_expire (demo_server lf) (master_now (y_st (lf_y lf))) (demo_req METHOD_PUT None 0) with
  | Some r2 => match server_key (demo_server lf) r2 with Ret (k, _) => bool_decide (k = demo_key) | _ => false end
  | None => true end = true →
  srvs (y_st (lf_y lf)) !! 60 = Some (demo_server lf) ∧
  ∀ r2, put_expire (demo_server lf) (master_now (y_st (lf_y lf))) (demo_req METHOD_PUT None 0) = Some r2 →
    ∃ r1, server_key (demo_server lf) r2 = Ret (demo_key, r1).
Proof.
  intros Hs Hk. rewrite bool_decide_eq_true in Hs. split.
  - unfold demo_server. destruct Hs as [sv ->]. done.
  - intros r2 E. rewrite E in Hk. destruct (server_key _ r2) as [[k r1]|]; [|done].
    rewrite bool_decide_eq_true in Hk. subst k. by exists r1.
Qed.
Lemma demo_event_put lf :
  bool_decide (is_Some (srvs (y_st (lf_y lf)) !! 60)) = true →
  match put_expire (demo_server lf) (master_now (y_st (lf_y lf))) (demo_req METHOD_PUT None 0) with
  | Some r2 => match server_key (demo_server lf) r2 with Ret (k, _) => bool_decide (k = demo_key) | _ => false end
  | None => true end = true →
  event_ok lf (EvPut true true (demo_req METHOD_PUT None 0)).
Proof.
  intros Hs Hk. destruct (demo_put_ok lf Hs Hk) as [Es Hkey]. split_and!; [done..|]. by exists (demo_server lf), demo_key.
Qed.

Lemma demo1_reach : reach toy_md5 demo_kmalloc demo0 demo1.
Proof.
  apply demo_reach; [apply reach_here| |vm_compute; reflexivity].
  cbn [event_ok]. split_and!.
  - eexists. split; [|]; reflexivity.
  - reflexivity.
  - apply Nat.ltb_lt. vm_compute. reflexivity.
Qed.
Lemma demo2_reach : reach toy_md5 demo_kmalloc demo0 demo2.
Proof. apply demo_reach; [apply demo1_reach|apply demo_event_put; vm_compute; reflexivity|vm_compute; reflexivity]. Qed.
Lemma demo3_reach : reach toy_md5 demo_kmalloc demo0 demo3.
Proof.
  apply demo_reach; [apply demo2_reach| |vm_compute; reflexivity].
  cbn [event_ok]. exists true, (demo_item_of demo2). split_and!; vm_compute; reflexivity.
Qed.
Lemma demo4_reach : reach toy_md5 demo_kmalloc demo0 demo4.
Proof.
  apply demo_reach; [apply demo3_reach| |vm_compute; reflexivity].
  split; [apply demo_request_ok; vm_compute; reflexivity|vm_compute; reflexivity].
Qed.
Lemma demo5_reach : reach toy_md5 demo_kmalloc demo0 demo5.
Proof. apply demo_reach; [apply demo4_reach|apply demo_event_put; vm_compute; reflexivity|vm_compute; reflexivity]. Qed.

Lemma demo_inv (lf : life) : reach toy_md5 demo_kmalloc demo0 lf →
  cache_inv (y_st (lf_y lf)) None (getters (lf_holds lf)) (putters (lf_holds lf)).
Proof. intros Hr. apply (reach_inv toy_md5 demo_kmalloc demo_kmalloc_fresh demo0 lf); [apply empty_cache_inv, demo_empty|done]. Qed.

(** *** The properties on it *)

Lemma cache_run_safe_witness :
  ∃ lf', do_event toy_md5 demo_kmalloc (EvRemove 60) demo5 = Ret lf'.
Proof.
  destruct (cache_run_safe toy_md5 demo_kmalloc demo_kmalloc_fresh demo_sys demo5 demo_empty demo5_reach) as [_ Hev].
  apply Hev. cbn [event_ok].
  assert (bool_decide (60 ∈ servers (y_st (lf_y demo5))) = true) as Hs by (vm_compute; reflexivity).
  by apply bool_decide_eq_true in Hs.
Defined.

(** The device goes while the item on it is stored but no longer held. *)
Definition demo_deleted := demo_step (EvDeviceDelete 50) demo3.
Definition demo_dev (lf : life (AS := ohc_slab_t) (IS := ohc_slab_t) (PS := ohc_slab_t)) : ohc_device_t :=
  default demo_device (devs (dst (y_st (lf_y lf))) !! 50).
Lemma demo_registered (lf : life (AS := ohc_slab_t) (IS := ohc_slab_t) (PS := ohc_slab_t)) :
  bool_decide (is_Some (devs (dst (y_st (lf_y lf))) !! 50)) = true →
  match idx_pointer_get (device_indexs (dst (y_st (lf_y lf)))) (d_index (demo_dev lf)) with
  | Ret (Some d) => bool_decide (d = 50) | _ => false end = true →
  registered (dst (y_st (lf_y lf))) (d_index (demo_dev lf)) 50 (demo_dev lf).
Proof.
  rewrite bool_decide_eq_true. intros [dv Ed] Ht. split_and!; [|unfold demo_dev; by rewrite Ed|done].
  destruct (idx_pointer_get _ _) as [[d|]|]; try done. apply bool_decide_eq_true in Ht. by subst d.
Qed.
Lemma demo_deleted_reach : reach toy_md5 demo_kmalloc demo0 demo_deleted.
Proof.
  apply demo_reach; [apply demo3_reach| |vm_compute; reflexivity].
  assert (bool_decide (50 ∈ devices (dst (y_st (lf_y demo3)))) = true) as Hin by (vm_compute; reflexivity).
  assert (d_kicked <$> devs (dst (y_st (lf_y demo3))) !! 50 = Some false) as Hk by (vm_compute; reflexivity).
  split; [by apply bool_decide_eq_true in Hin|]. intros i dv (_ & E & _). rewrite E in Hk. by injection Hk.
Qed.
Lemma device_destroy_correct_witness :
  ∃ st', device_destroy demo_kmalloc 50 (y_st (lf_y demo_deleted)) = Ret (tt, st') ∧ devs (dst st') !! 50 = None.
Proof.
  destruct (device_destroy_correct demo_kmalloc demo_kmalloc_fresh (y_st (lf_y demo_deleted)) [] []
    (d_index (demo_dev demo_deleted)) 50 (demo_dev demo_deleted)) as (st' & E & _ & _ & Hgone).
  - exact (demo_inv demo_deleted demo_deleted_reach).
  - assert (bool_decide (50 ∈ deleted_devices (dst (y_st (lf_y demo_deleted)))) = true) as Hd by (vm_compute; reflexivity).
    by apply bool_decide_eq_true in Hd.
  - apply demo_registered; vm_compute; reflexivity.
  - exists st'. split; [exact E|]. apply Hgone.
    + apply Nat.leb_le. vm_compute. reflexivity.
    + intros x _ Hx. inversion Hx.
Defined.

(** The item that is read and the one that replaces it. *)
Definition demo_new : Z := demo_item_of demo5.
Definition demo_old : Z := demo_item_of demo4.
Lemma cache_items_apart_witness :
  ∃ it it', item_mem (dst (y_st (lf_y demo5))) !! demo_new = Some it ∧
    item_mem (dst (y_st (lf_y demo5))) !! demo_old = Some it' ∧
    apart (it_offset it, ipbucket_block_size (it_length it)) (it_offset it', ipbucket_block_size (it_length it')).
Proof.
  destruct (item_mem (dst (y_st (lf_y demo5))) !! demo_new) as [it|] eqn:E; [|by vm_compute in E].
  destruct (item_mem (dst (y_st (lf_y demo5))) !! demo_old) as [it'|] eqn:E'; [|by vm_compute in E'].
  exists it, it'. split; [done|]. split; [done|].
  apply (cache_items_apart toy_md5 demo_kmalloc demo_kmalloc_fresh demo_sys demo5 demo_new demo_old it it'
    demo_empty demo5_reach E E').
  - vm_compute. discriminate.
  - assert (it_device_index <$> item_mem (dst (y_st (lf_y demo5))) !! demo_new =
      it_device_index <$> item_mem (dst (y_st (lf_y demo5))) !! demo_old) as Ed by (vm_compute; reflexivity).
    rewrite E, E' in Ed. by injection Ed.
Defined.

Lemma demo_key_of lf r :
  bool_decide (is_Some (srvs (y_st (lf_y lf)) !! 60)) = true →
  match server_key (demo_server lf) r with Ret (k, _) => bool_decide (k = demo_key) | _ => false end = true →
  srvs (y_st (lf_y lf)) !! 60 = Some (demo_server lf) ∧ ∃ r1, server_key (demo_server lf) r = Ret (demo_key, r1).
Proof.
  intros Hs Hk. rewrite bool_decide_eq_true in Hs. split.
  - unfold demo_server. destruct Hs as [sv ->]. done.
  - destruct (server_key _ r) as [[k r1]|]; [|done]. rewrite bool_decide_eq_true in Hk. subst k. by exists r1.
Qed.

Lemma server_request_get_correct_witness :
  ∃ rc r' st', server_request_get_handler toy_md5 demo_kmalloc true (demo_req METHOD_GET None 0) (y_st (lf_y demo3))
    = Ret (rc, r', st').
Proof.
  destruct (demo_key_of demo3 (demo_req METHOD_GET None 0)) as (Es & r1 & Ek); [vm_compute; reflexivity..|].
  destruct (server_request_get_correct toy_md5 demo_kmalloc demo_kmalloc_fresh true (demo_req METHOD_GET None 0)
    (y_st (lf_y demo3)) (demo_server demo3) demo_key r1 _ _ (demo_inv demo3 demo3_reach) Es Ek) as (rc & r' & st' & E & _).
  - vm_compute. reflexivity.
  - exists rc, r', st'. exact E.
Defined.


Lemma server_request_delete_correct_witness :
  ∃ rc r1 st', server_request_delete_handler toy_md5 demo_kmalloc true (demo_req METHOD_DELETE None 0) (y_st (lf_y demo4))
    = Ret (rc, r1, st') ∧ no_entry st' 60 (toy_md5 demo_key).
Proof.
  destruct (demo_key_of demo4 (demo_req METHOD_DELETE None 0)) as (Es & r1 & Ek); [vm_compute; reflexivity..|].
  destruct (server_request_delete_correct toy_md5 demo_kmalloc demo_kmalloc_fresh true (demo_req METHOD_DELETE None 0)
    (y_st (lf_y demo4)) (demo_server demo4) demo_key r1 _ _ (demo_inv demo4 demo4_reach) Es Ek) as (rc & st' & E & _ & Hno & _).
  exists rc, r1, st'. exact (conj E Hno).
Defined.

Lemma server_request_finalize_correct_witness :
  ∃ st', server_request_finalize demo_kmalloc (demo_req METHOD_PUT (Some demo_new) 1000) (y_st (lf_y demo5))
    = Ret (demo_req METHOD_PUT None 1000, st') ∧ item_mem (dst st') !! demo_old = item_mem (dst (y_st (lf_y demo5))) !! demo_old.
Proof.
  assert (lf_holds demo5 !! 0%nat = Some (true, demo_new)) as Hh by (vm_compute; reflexivity).
  destruct (server_request_finalize_correct demo_kmalloc demo_kmalloc_fresh (demo_req METHOD_PUT (Some demo_new) 1000)
    demo_new (y_st (lf_y demo5)) _ _ _ _ (demo_inv demo5 demo5_reach) eq_refl
    (holds_release demo_kmalloc demo_kmalloc_fresh _ _ _ _ _ (demo_inv demo5 demo5_reach) Hh)) as (it & it' & st' & E & _ & _ & Ho & _).
  - vm_compute. reflexivity.
  - exists st'. split; [exact E|]. apply Ho. vm_compute. discriminate.
Defined.

Lemma server_item_delete_correct_witness :
  ∃ st' it, server_item_delete demo_kmalloc demo_old (y_st (lf_y demo4)) = Ret (tt, st') ∧
    item_mem (dst st') !! demo_old = Some (set_it_deleted true it).
Proof.
  destruct (item_mem (dst (y_st (lf_y demo4))) !! demo_old) as [it|] eqn:E; [|by vm_compute in E].
  destruct (server_item_delete_correct demo_kmalloc demo_kmalloc_fresh (y_st (lf_y demo4)) None _ _ demo_old it
    (demo_inv demo4 demo4_reach) E) as (st' & Ed & _ & Hx & _).
  exists st', it. split; [exact Ed|]. rewrite Hx. rewrite decide_True; [done|]. vm_compute. left.
Defined.


Lemma demo_alloc_some : ∃ p, item_alloc (y_st (lf_y demo5)) = Ret p ∧ p.1 ≠ None.
Proof.
  assert (match item_alloc (y_st (lf_y demo5)) with Ret p => bool_decide (p.1 ≠ None) | Fail _ => false end = true) as Hb
    by (vm_compute; reflexivity).
  destruct (item_alloc (y_st (lf_y demo5))) as [p|]; [|done]. exists p. by rewrite bool_decide_eq_true in Hb.
Qed.
Lemma demo_allocating : ∃ x st G P, cache_inv (AS := ohc_slab_t) (IS := ohc_slab_t) (PS := ohc_slab_t) st (Some x) G P ∧
  item_mem (dst st) !! x = Some demo_item ∧ is_Some (srvs st !! 60).
Proof.
  pose proof (demo_put_ok demo5) as [Es _]; [vm_compute; reflexivity..|].
  destruct demo_alloc_some as (p & Ep & Hp). revert Es Ep.
  destruct (item_alloc_spec (y_st (lf_y demo5)) _ _ demo_item (demo_inv demo5 demo5_reach)) as (r & sl & E & Hr).
  revert E Hr. generalize (y_st (lf_y demo5)) as st. intros st E Hr Es Ep. rewrite E in Ep. injection Ep as <-.
  destruct r as [x|]; [|done]. destruct Hr as [_ Hi]. eexists x, _, _, _. split_and!; [exact Hi|apply lookup_insert_eq|].
  by eexists.
Qed.
Lemma put_alloc_terminates_witness :
  ∃ x (st st' : sstore ohc_slab_t ohc_slab_t ohc_slab_t) n, put_alloc demo_kmalloc 14 60 x 0 st = Ret (n, st').
Proof.
  destruct demo_allocating as (x & st & G & P & Hi & Hx & sv & Es).
  destruct (put_alloc_terminates demo_kmalloc demo_kmalloc_fresh 60 x st G P demo_item sv Hi Es Hx)
    as [st' [(Ep & _)|(Ep & _)]].
  - split; reflexivity.
  - exists x, st, st', 0. exact Ep.
  - exists x, st, st', (ipbucket_block_size (it_length demo_item)). exact Ep.
Defined.

Definition demo_end : ohc_request_t := demo_req METHOD_PUT (Some (demo_item_of demo2)) 3000.
Definition put_outcome (lf : life) : option (ohc_rc * option Z * Z) :=
  match server_request_put_handler toy_md5 demo_kmalloc true true (demo_req METHOD_PUT None 0) (y_st (lf_y lf)) with
  | Ret (rc, r', _) => Some (rc, r_item r', q_expire (r_h r'))
  | Fail _ => None
  end.
Lemma demo_put_done : ∃ r',
  server_request_put_handler toy_md5 demo_kmalloc true true (demo_req METHOD_PUT None 0) (y_st (lf_y demo1))
    = Ret (OHC_OK, r', y_st (lf_y demo2)) ∧ r_item r' = Some (demo_item_of demo2) ∧ q_expire (r_h r') = 259300.
Proof.
  assert (put_outcome demo1 = Some (OHC_OK, Some (demo_item_of demo2), 259300)) as Ho by (vm_compute; reflexivity).
  unfold put_outcome in Ho.
  destruct (server_request_put_handler _ _ _ _ _ (y_st (lf_y demo1))) as [[[rc r'] st]|] eqn:E; [|discriminate Ho].
  injection Ho as -> Ei Ee. exists r'. split_and!; [|exact Ei|exact Ee].
  unfold demo2 at 1, demo_step, do_event. rewrite (cache_run _ _ _ _ E). reflexivity.
Qed.
Lemma demo_end_done :
  server_request_finalize demo_kmalloc demo_end (y_st (lf_y demo2)) = Ret (set_r_item None demo_end, y_st (lf_y demo3)).
Proof.
  assert (lf_holds demo2 !! 0%nat = Some (true, demo_item_of demo2)) as Hh by (vm_compute; reflexivity).
  destruct (server_request_finalize_spec demo_kmalloc demo_kmalloc_fresh demo_end _ _ _ _ _ _ (demo_inv demo2 demo2_reach) eq_refl
    (holds_release demo_kmalloc demo_kmalloc_fresh _ _ _ _ _ (demo_inv demo2 demo2_reach) Hh)) as (it & it' & st' & E & _);
    [vm_compute; reflexivity|].
  rewrite E. unfold demo3, demo_step, do_event. fold demo_end. rewrite (cache_run _ _ _ _ E). reflexivity.
Qed.

