(* ===== verification/Owned.v ===== *)
(** * What a configuration has open

    While a configuration is checked its servers and devices open sockets and
    files.  [owned] says which of the open descriptors are theirs. *)

From stdpp Require Import prelude fin_maps gmap.
From S2P Require Import Prelude.

Section owned.
Context {C : Type} (g : C → option Z).
Implicit Types (l : list Z) (c : C) (cs : gmap Z C) (X : gset Z).

(** [X] is [X0] and what the objects of [l] have, which is new and not shared. *)
Record owned l cs X X0 : Prop := {
  ow_set : ∀ z, z ∈ X ↔ z ∈ X0 ∨ ∃ s c, s ∈ l ∧ cs !! s = Some c ∧ g c = Some z;
  ow_new : ∀ s c z, s ∈ l → cs !! s = Some c → g c = Some z → z ∉ X0;
  ow_inj : ∀ s s' c c' z, s ∈ l → s' ∈ l → cs !! s = Some c → cs !! s' = Some c' →
    g c = Some z → g c' = Some z → s = s'
}.

Lemma owned_same l cs X X0 s c c' :
  cs !! s = Some c → g c' = g c → owned l cs X X0 → owned l (<[s := c']> cs) X X0.
Proof.
  intros Es Eg [Hset Hnew Hinj].
  assert (∀ k d, <[s := c']> cs !! k = Some d → ∃ d0, cs !! k = Some d0 ∧ g d0 = g d) as Hback.
  { intros k d [[<- <-]|[? ?]]%lookup_insert_Some; eauto. }
  assert (∀ k d, cs !! k = Some d → ∃ d1, <[s := c']> cs !! k = Some d1 ∧ g d1 = g d) as Hforth.
  { intros k d Hk. destruct (decide (k = s)) as [->|]; [|rewrite lookup_insert_ne by done; eauto].
    rewrite lookup_insert_eq. exists c'. split; [done|]. congruence. }
  split.
  - intros z. rewrite Hset. split; (intros [?|(k & d & Hk & Ek & Eg')]; [by left|right]).
    + destruct (Hforth k d Ek) as (d1 & E1 & E2). exists k, d1. split_and!; [done..|congruence].
    + destruct (Hback k d Ek) as (d1 & E1 & E2). exists k, d1. split_and!; [done..|congruence].
  - intros k d z Hk (d0 & Ek & E0)%Hback Ez. apply (Hnew k d0); [done..|congruence].
  - intros k k' d d' z Hk Hk' (d0 & Ek & E0)%Hback (d0' & Ek' & E0')%Hback Ez Ez'. apply (Hinj k k' d0 d0' z); congruence.
Qed.

Lemma owned_add l cs X X0 s c c' z :
  s ∈ l → cs !! s = Some c → g c = None → g c' = Some z → z ∉ X →
  owned l cs X X0 → owned l (<[s := c']> cs) (X ∪ {[z]}) X0.
Proof.
  intros Hs Es Ec Ec' Hz [Hset Hnew Hinj].
  assert (∀ k d w, k ∈ l → <[s := c']> cs !! k = Some d → g d = Some w →
    k = s ∧ w = z ∨ k ≠ s ∧ cs !! k = Some d ∧ w ∈ X) as Hback.
  { intros k d w Hk [[<- <-]|[? ?]]%lookup_insert_Some Eg; [left; split; congruence|right].
    split_and!; [done..|]. apply Hset. right. by exists k, d. }
  split.
  - intros w. rewrite elem_of_union, elem_of_singleton, Hset. split.
    + intros [[?|(k & d & Hk & Ek & Eg)]| ->]; [by left|..]; right.
      * exists k, d. split_and!; [done| |done]. rewrite lookup_insert_ne; [done|]. intros ->. congruence.
      * exists s, c'. by rewrite lookup_insert_eq.
    + intros [?|(k & d & Hk & Ek & Eg)]; [by left; left|]. destruct (Hback k d w Hk Ek Eg) as [[-> ->]|(? & Ek' & Hw)]; [by right|].
      left. right. by exists k, d.
  - intros k d w Hk Ek Eg. destruct (Hback k d w Hk Ek Eg) as [[-> ->]|(? & Ek' & Hw)].
    + intros HX. apply Hz, Hset. by left.
    + by eapply Hnew.
  - intros k k' d d' w Hk Hk' Ek Ek' Eg Eg'.
    destruct (Hback k d w Hk Ek Eg) as [[-> ->]|(? & Ek1 & Hw)], (Hback k' d' _ Hk' Ek' Eg') as [[-> E2]|(? & Ek2 & Hw')]; try done.
    + by subst w.
    + by eapply Hinj.
Qed.
Lemma owns_cons k l cs c z : cs !! k = Some c →
  (∃ s c, s ∈ k :: l ∧ cs !! s = Some c ∧ g c = Some z) ↔ g c = Some z ∨ ∃ s c, s ∈ l ∧ cs !! s = Some c ∧ g c = Some z.
Proof.
  intros Ek. split.
  - intros (s & c' & [-> |Hs]%elem_of_cons & Es & Eg); [left; congruence|right; eauto].
  - intros [?|(s & c' & Hs & Es & Eg)]; [exists k, c; split_and!; [apply list_elem_of_here|done..]|].
    exists s, c'. split_and!; [by apply list_elem_of_further|done..].
Qed.

(** What is left when all of it is closed. *)
Lemma owned_close l cs X X0 X' :
  owned l cs X X0 → (∀ z, z ∈ X' ↔ z ∈ X ∧ ¬ ∃ s c, s ∈ l ∧ cs !! s = Some c ∧ g c = Some z) → X' = X0.
Proof.
  intros [Hset Hnew _] Hx. apply set_eq. intros z. rewrite Hx, Hset. split; [tauto|]. intros Hz. split; [by left|].
  intros (s & c & Hs & Es & Ez). by apply (Hnew s c z).
Qed.
End owned.
