(* ===== verification/ServerReload.v ===== *)
(** * A new configuration of the servers

    [server_conf_check] either prepares every configured server or fails, and
    then [server_conf_rollback] closes exactly what the check opened.  After a
    check that succeeded [server_conf_load] makes the live servers the configured
    ones: each keeps its items when its port was served before, and a server
    whose port is no longer configured is deleted.

    A check changes the live servers only in [s_conf]; [cat y m cs F L] is the
    system [y] with the servers [m], the configured servers [cs], and the open
    sockets and log files [F] and [L]. *)

From Stdlib Require Import String.
From stdpp Require Import prelude fin_maps gmap.
From S2P Require Import Prelude IdxPointer StrUtil IpBucket Slab Hash Device DeviceInv DeviceOps DeviceConf.
From S2P Require Import Http HttpProofs Server ServerInv ServerOps ServerExpire ServerPut ServerHandlers ServerFinalize.
From S2P Require Import Conf ServerConf Cache Life Owned.
#[local] Arguments im : simpl never.

(** The socket and the log file of a configured server. *)
Definition sock_of (c : server_conf) : option Z := if 0 <=? sc_listen_fd c then Some (sc_listen_fd c) else None.

(** What the check fills in. *)
Definition prep (c : server_conf) (fd : Z) (h : option (ohc_hash_t snode)) (o f : option Z) : server_conf :=
  set_sc_listen_fd fd (set_sc_hash h (set_sc_conf o (set_sc_access_filp f c))).

Definition same_settings (c0 c : server_conf) : Prop :=
  c = prep c0 (sc_listen_fd c) (sc_hash c) (sc_conf c) (sc_access_filp c).
Lemma same_settings_prep c0 c fd h o f : same_settings c0 c → same_settings c0 (prep c fd h o f).
Proof. intros ->. reflexivity. Qed.
(** As the parser leaves a configured server. *)
Definition fresh (c : server_conf) : Prop := c = prep c (-1) None None None.

Section reload.
Context {AS IS PS : Type} `{Allocator AS} `{Allocator IS} `{Allocator PS}.
Implicit Types (y : csys AS IS PS) (m : gmap Z ohc_server_t) (cs : gmap Z server_conf) (F L : gset Z) (l dn : list Z).

Definition listed y : list Z := cf_servers (conf_cycle (y_conf y)).

(** A parsed configuration: its servers are apart from each other and from the
    live ones. *)
Record conf_ok y : Prop := {
  cn_nodup : NoDup (listed y);
  cn_fresh : ∀ s, s ∈ listed y → ∃ c, cservers (y_conf y) !! s = Some c ∧ fresh c;
  cn_apart : ∀ s, s ∈ listed y → srvs (y_st y) !! s = None
}.

Definition cat y m cs F L : csys AS IS PS :=
  CSys (set_srvs m (y_st y)) (set_cservers cs (y_conf y)) F L (y_epoll y).

(** ** Steps of the check *)

Lemma load_cserver_cat y m cs F L s c : cs !! s = Some c → load_cserver s (cat y m cs F L) = Ret (c, cat y m cs F L).
Proof. intros E. unfold load_cserver. erewrite bind_ret; [|reflexivity]. cbn. by rewrite E. Qed.
Lemma upd_cserver_cat y m cs F L s f c :
  cs !! s = Some c → upd_cserver s f (cat y m cs F L) = Ret (tt, cat y m (<[s := f c]> cs) F L).
Proof.
  intros E. unfold upd_cserver. erewrite bind_ret; [|by apply load_cserver_cat]. unfold modify, cat. cbn.
  by rewrite (alter_at _ _ _ _ E).
Qed.
Lemma load_srv_cat y m cs F L s sv :
  m !! s = Some sv → cache (load_srv s) (cat y m cs F L) = Ret (sv, cat y m cs F L).
Proof. intros E. erewrite cache_run; [|apply load_srv_run; exact E]. reflexivity. Qed.
Lemma upd_srv_cat y m cs F L s f sv :
  m !! s = Some sv → cache (upd_srv s f) (cat y m cs F L) = Ret (tt, cat y (<[s := f sv]> m) cs F L).
Proof. intros E. erewrite cache_run; [|apply upd_srv_run; exact E]. reflexivity. Qed.

(** The first live server with the port. *)
Lemma search_port_cat y m cs F L s port l :
  (∀ k, k ∈ l → is_Some (m !! k)) → s ∉ l →
  ∃ o, cache (server_search_port port l (Some s)) (cat y m cs F L) = Ret (o, cat y m cs F L) ∧
    match o with
    | Some s2 => s2 ∈ l ∧ ∃ sv2, m !! s2 = Some sv2 ∧ s_listen_port sv2 = port
    | None => ∀ s2 sv2, s2 ∈ l → m !! s2 = Some sv2 → s_listen_port sv2 ≠ port
    end.
Proof.
  intros Hl Hs. induction l as [|k l IH]; [exists None; split; [done|]; by intros ? ? ?%not_elem_of_nil|].
  apply not_elem_of_cons in Hs as [Hne Hs]. destruct (Hl k (list_elem_of_here _ _)) as [sv Ek].
  destruct IH as (o & Eo & Ho); [intros; by apply Hl, list_elem_of_further|done|].
  unfold cache in *. cbn [server_search_port]. rewrite decide_False by congruence.
  erewrite (bind_ret (load_srv k)); [|by apply load_srv_run]. destruct (Z.eqb_spec (s_listen_port sv) port) as [Ep|Ep].
  - exists (Some k). split; [done|]. split; [apply list_elem_of_here|]. by exists sv.
  - exists o. split; [done|]. destruct o as [s2|].
    + destruct Ho as [? ?]. split; [by apply list_elem_of_further|done].
    + intros s2 sv2 [->|Hs2]%elem_of_cons E2; [congruence|by eapply Ho].
Qed.

(** The first configured server before [s] with the port. *)
Lemma csearch_port_cat y m cs F L s port dn todo :
  (∀ k, k ∈ dn → is_Some (cs !! k)) → s ∉ dn →
  ∃ o, csearch_port port (dn ++ s :: todo) s (cat y m cs F L) = Ret (o, cat y m cs F L) ∧
    (o = None → ∀ k c, k ∈ dn → cs !! k = Some c → sc_listen_port c ≠ port).
Proof.
  intros Hl Hs. induction dn as [|k dn IH].
  { exists None. cbn. rewrite decide_True by done. split; [done|]. by intros _ ? ? ?%not_elem_of_nil. }
  apply not_elem_of_cons in Hs as [Hne Hs]. destruct (Hl k (list_elem_of_here _ _)) as [c Ek].
  destruct IH as (o & Eo & Ho); [intros; by apply Hl, list_elem_of_further|done|].
  cbn [csearch_port app]. rewrite decide_False by congruence. erewrite (bind_ret (load_cserver k)); [|by apply load_cserver_cat].
  destruct (Z.eqb_spec (sc_listen_port c) port) as [Ep|Ep]; [by exists (Some k)|].
  exists o. split; [done|]. intros -> k' c' [->|Hk]%elem_of_cons E'; [congruence|by eapply Ho].
Qed.

(** ** Rolling back *)

Lemma rollback_server_cat y m cs F L s c :
  cs !! s = Some c → ∃ F' L', rollback_server s (cat y m cs F L) = Ret (tt, cat y m cs F' L') ∧
    (∀ z, z ∈ F' ↔ z ∈ F ∧ sock_of c ≠ Some z) ∧ (∀ z, z ∈ L' ↔ z ∈ L ∧ sc_access_filp c ≠ Some z).
Proof.
  intros Es. unfold rollback_server, sock_of. erewrite bind_ret; [|by apply load_cserver_cat].
  exists (if 0 <=? sc_listen_fd c then F ∖ {[sc_listen_fd c]} else F),
    (match sc_access_filp c with Some filp => L ∖ {[filp]} | None => L end).
  split_and!.
  - destruct (sc_access_filp c) as [f|]; erewrite bind_ret by reflexivity; by destruct (0 <=? sc_listen_fd c).
  - intros z. destruct (0 <=? sc_listen_fd c); set_solver.
  - intros z. destruct (sc_access_filp c); set_solver.
Qed.

Lemma rollback_spec y ls m cs F L :
  (∀ s, s ∈ ls → is_Some (cs !! s)) →
  ∃ F' L', for_each rollback_server ls (cat y m cs F L) = Ret (tt, cat y m cs F' L') ∧
    (∀ z, z ∈ F' ↔ z ∈ F ∧ ¬ ∃ s c, s ∈ ls ∧ cs !! s = Some c ∧ sock_of c = Some z) ∧
    (∀ z, z ∈ L' ↔ z ∈ L ∧ ¬ ∃ s c, s ∈ ls ∧ cs !! s = Some c ∧ sc_access_filp c = Some z).
Proof.
  revert F L. induction ls as [|k ls IH]; intros F L Hls; cbn [for_each].
  { exists F, L. split_and!; [done|..]; (intros z; split; [intros ?; split; [done|]; intros (? & ? & ?%not_elem_of_nil & _); done|by intros []]). }
  destruct (Hls k (list_elem_of_here _ _)) as [c Ek]. destruct (rollback_server_cat y m cs F L k c Ek) as (F1 & L1 & E & HF & HL).
  erewrite bind_ret; [|exact E]. destruct (IH F1 L1) as (F' & L' & E' & HF' & HL'); [intros; by apply Hls, list_elem_of_further|].
  exists F', L'. split_and!; [done|..]; intros z; [rewrite HF', HF|rewrite HL', HL]; rewrite (owns_cons _ k ls cs c _ Ek); naive_solver.
Qed.

Lemma cat_start y : y = cat y (srvs (y_st y)) (cservers (y_conf y)) (y_fds y) (y_logs y).
Proof. destruct y as [[] [] ? ? ?]. reflexivity. Qed.

Context (tcp_bind : csys AS IS PS → Z → Z) (fopen : csys AS IS PS → list Z → option Z).
Context (hash_mem : csys AS IS PS → bool * bool).
Context (Hbind : ∀ y port, 0 ≤ tcp_bind y port → tcp_bind y port ∉ y_fds y).
Context (Hopen : ∀ y name f, fopen y name = Some f → f ∉ y_logs y).

(** ** What a check keeps *)

Section check.
Context (y0 : csys AS IS PS) (G P : list Z).
Abbreviation l0 := (listed y0).

(** Whatever the check did: only what it fills in changed, and what is open now
    and was not before belongs to one configured server. *)
Record opened m cs F L : Prop := {
  op_inv : cache_inv (set_srvs m (y_st y0)) None G P;
  op_srv : ∀ s, set_s_conf None <$> m !! s = set_s_conf None <$> srvs (y_st y0) !! s;
  op_cs : ∀ s, s ∈ l0 → ∃ c0 c, cservers (y_conf y0) !! s = Some c0 ∧ cs !! s = Some c ∧ same_settings c0 c;
  op_fds : owned sock_of l0 cs F (y_fds y0);
  op_logs : owned sc_access_filp l0 cs L (y_logs y0)
}.

(** A configured server is ready to be loaded. *)
Definition prepared m (s : Z) (c : server_conf) : Prop :=
  match sc_conf c with
  | Some s2 => s2 ∈ servers (y_st y0) ∧ sc_listen_fd c = -1 ∧ ∃ sv2, m !! s2 = Some sv2 ∧ s_conf sv2 = Some s ∧
      s_listen_port sv2 = sc_listen_port c ∧ (sc_access_filp c = None → n_access_log (s_net sv2) = sc_access_log c)
  | None => 0 ≤ sc_listen_fd c ∧ sc_hash c = hash_init true true ∧ is_Some (sc_access_filp c) ∧
      ∀ s2 sv2, s2 ∈ servers (y_st y0) → m !! s2 = Some sv2 → s_listen_port sv2 ≠ sc_listen_port c
  end.

(** The servers [dn] passed the check. *)
Record checked dn m cs : Prop := {
  ck_done : ∀ s c, s ∈ dn → cs !! s = Some c → prepared m s c;
  ck_todo : ∀ s, s ∉ dn → cs !! s = cservers (y_conf y0) !! s;
  ck_conf : ∀ s2 sv2 s, s2 ∈ servers (y_st y0) → m !! s2 = Some sv2 → s_conf sv2 = Some s →
    s ∈ dn ∧ ∃ c, cs !! s = Some c ∧ sc_conf c = Some s2;
  ck_ports : ∀ s s' c c', s ∈ dn → s' ∈ dn → cs !! s = Some c → cs !! s' = Some c' →
    sc_listen_port c = sc_listen_port c' → s = s'
}.

Lemma opened_prep m cs F L s c c' fd h o f :
  s ∈ l0 → cs !! s = Some c → c' = prep c fd h o f → sock_of c' = sock_of c → f = sc_access_filp c →
  opened m cs F L → opened m (<[s := c']> cs) F L.
Proof.
  intros Hs Es -> Hk -> [Hi Hsrv Hcs Hfds Hlogs]. split; [done|done| |by eapply owned_same|by eapply owned_same].
  intros k Hk'. destruct (decide (k = s)) as [->|]; [|rewrite lookup_insert_ne by done; by apply Hcs].
  destruct (Hcs s Hs) as (c0 & c1 & E0 & E & Hss). rewrite lookup_insert_eq. assert (c1 = c) as -> by congruence.
  eexists c0, _. split_and!; [done..|]. by apply (same_settings_prep c0 c).
Qed.
Lemma opened_sock m cs F L s c fd :
  s ∈ l0 → cs !! s = Some c → sock_of c = None → 0 ≤ fd → fd ∉ F →
  opened m cs F L → opened m (<[s := set_sc_listen_fd fd c]> cs) (F ∪ {[fd]}) L.
Proof.
  intros Hs Es Hk Hfd Hn [Hi Hsrv Hcs Hfds Hlogs]. split; [done|done| | |by eapply owned_same].
  - intros k Hk'. destruct (decide (k = s)) as [->|]; [|rewrite lookup_insert_ne by done; by apply Hcs].
    destruct (Hcs s Hs) as (c0 & c1 & E0 & E & Hss). rewrite lookup_insert_eq. assert (c1 = c) as -> by congruence.
    eexists c0, _. split_and!; [done..|]. by apply (same_settings_prep c0 c).
  - eapply owned_add; try done. unfold sock_of. cbn. by rewrite (proj2 (Z.leb_le _ _)).
Qed.
Lemma opened_log m cs F L s c f :
  s ∈ l0 → cs !! s = Some c → sc_access_filp c = None → f ∉ L →
  opened m cs F L → opened m (<[s := set_sc_access_filp (Some f) c]> cs) F (L ∪ {[f]}).
Proof.
  intros Hs Es Hk Hn [Hi Hsrv Hcs Hfds Hlogs]. split; [done|done| |by eapply owned_same|by eapply owned_add].
  intros k Hk'. destruct (decide (k = s)) as [->|]; [|rewrite lookup_insert_ne by done; by apply Hcs].
  destruct (Hcs s Hs) as (c0 & c1 & E0 & E & Hss). rewrite lookup_insert_eq. assert (c1 = c) as -> by congruence.
  eexists c0, _. split_and!; [done..|]. by apply (same_settings_prep c0 c).
Qed.
Lemma opened_conf m cs F L s sv o :
  m !! s = Some sv → opened m cs F L → opened (<[s := set_s_conf o sv]> m) cs F L.
Proof.
  intros Es [Hi Hsrv Hcs Hfds Hlogs]. split; try done.
  { by apply (srv_same_upd (set_srvs m (y_st y0)) G P s sv (set_s_conf o sv) Hi Es). }
  intros k. rewrite <- Hsrv. destruct (decide (k = s)) as [->|]; [|by rewrite lookup_insert_ne]. by rewrite lookup_insert_eq, Es.
Qed.

Context (Hinv : cache_inv (y_st y0) None G P) (Hlive : lists_ok (y_st y0)) (Hconf : conf_ok y0).

Lemma live_srv m cs F L s : opened m cs F L → s ∈ servers (y_st y0) → is_Some (m !! s).
Proof.
  intros [_ Hsrv _ _ _] Hs. assert (is_Some (srvs (y_st y0) !! s)) as Hx by (apply Hlive, elem_of_app; by left).
  specialize (Hsrv s). destruct Hx as [sv Ex]. rewrite Ex in Hsrv. destruct (m !! s); [by eexists|done].
Qed.
Lemma listed_not_live s : s ∈ l0 → s ∉ servers (y_st y0).
Proof.
  intros Hs Hin. assert (is_Some (srvs (y_st y0) !! s)) as [? E] by (apply Hlive, elem_of_app; by left).
  rewrite (cn_apart _ Hconf s Hs) in E. done.
Qed.

(** Live servers differ in their ports. *)
Context (Hports : ∀ s s' sv sv', s ∈ servers (y_st y0) → s' ∈ servers (y_st y0) → srvs (y_st y0) !! s = Some sv →
  srvs (y_st y0) !! s' = Some sv' → s_listen_port sv = s_listen_port sv' → s = s').

Lemma opened_back m cs F L s sv :
  opened m cs F L → m !! s = Some sv → ∃ sv0 o, srvs (y_st y0) !! s = Some sv0 ∧ sv = set_s_conf o sv0.
Proof.
  intros [_ Hsrv _ _ _] Es. specialize (Hsrv s). rewrite Es in Hsrv. destruct (srvs (y_st y0) !! s) as [sv0|]; [|done].
  exists sv0, (s_conf sv). split; [done|]. destruct sv, sv0. cbn in *. by simplify_eq.
Qed.
Lemma port_one m cs F L s s' sv sv' :
  opened m cs F L → s ∈ servers (y_st y0) → s' ∈ servers (y_st y0) → m !! s = Some sv → m !! s' = Some sv' →
  s_listen_port sv = s_listen_port sv' → s = s'.
Proof.
  intros Ho Hs Hs' Es Es' Ep. destruct (opened_back _ _ _ _ _ _ Ho Es) as (? & ? & ? & ->), (opened_back _ _ _ _ _ _ Ho Es') as (? & ? & ? & ->).
  by eapply (Hports s s').
Qed.

Lemma checked_match dn s m cs F L c s2 sv2 f :
  opened m cs F L → checked dn m cs → s ∉ dn → s2 ∈ servers (y_st y0) → m !! s2 = Some sv2 → s_conf sv2 = None →
  s_listen_port sv2 = sc_listen_port c → (f = None → n_access_log (s_net sv2) = sc_access_log c) →
  checked (dn ++ [s]) (<[s2 := set_s_conf (Some s) sv2]> m) (<[s := prep c (-1) None (Some s2) f]> cs).
Proof.
  intros Ho [Hd Ht Hc Hp] Hs Hs2 E2 En Ep Hlog.
  assert (∀ k, k ∈ dn → k ≠ s) as Hne by (intros k Hk ->; done). split.
  - intros k ck [Hk| ->%list_elem_of_singleton]%elem_of_app.
    + rewrite lookup_insert_ne by (symmetry; by apply Hne). intros Ek. specialize (Hd k ck Hk Ek). unfold prepared in *.
      destruct (sc_conf ck) as [s3|] eqn:E3.
      * destruct Hd as (Hs3 & Hf & sv3 & E & Esv & Hpp). split_and!; [done..|]. exists sv3. rewrite lookup_insert_ne; [done|].
        intros ->. congruence.
      * destruct Hd as (? & ? & ? & Hno). split_and!; try done. intros s3 sv3 Hs3 [[<- <-]|[? ?]]%lookup_insert_Some; [|by eapply Hno].
        by apply (Hno s2 sv2).
    + rewrite lookup_insert_eq. intros [= <-]. unfold prepared. cbn. split_and!; [done..|]. eexists. rewrite lookup_insert_eq. done.
  - intros k [Hk ?]%not_elem_of_app. rewrite lookup_insert_ne by set_solver. by apply Ht.
  - intros s3 sv3 k Hs3 [[<- <-]|[? E3]]%lookup_insert_Some Ek.
    + cbn in Ek. injection Ek as <-. split; [set_solver|]. rewrite lookup_insert_eq. by eexists.
    + destruct (Hc s3 sv3 k Hs3 E3 Ek) as (Hk & ck & Eck & ?). split; [set_solver|]. exists ck.
      rewrite lookup_insert_ne; [done|]. intros <-. by apply Hs.
  - assert (∀ k ck, k ∈ dn → cs !! k = Some ck → sc_listen_port ck ≠ sc_listen_port c) as Hno.
    { intros k ck Hk Ek E. specialize (Hd k ck Hk Ek). unfold prepared in Hd. destruct (sc_conf ck) as [s3|].
      - destruct Hd as (Hs3 & _ & sv3 & E3 & Esv & Hpp & _). assert (s3 = s2) as -> by (eapply port_one; [exact Ho|..]; [done..|congruence]).
        congruence.
      - destruct Hd as (_ & _ & _ & Hd). apply (Hd s2 sv2); [done..|congruence]. }
    intros k k' ck ck' [Hk| ->%list_elem_of_singleton]%elem_of_app [Hk'| ->%list_elem_of_singleton]%elem_of_app; [..|done].
    + rewrite !lookup_insert_ne by (symmetry; by apply Hne). by apply Hp.
    + rewrite lookup_insert_ne, lookup_insert_eq by (symmetry; by apply Hne). intros Ek [= <-] E. by destruct (Hno k ck Hk Ek).
    + rewrite lookup_insert_eq, lookup_insert_ne by (symmetry; by apply Hne). intros [= <-] Ek E. by destruct (Hno k' ck' Hk' Ek).
Qed.

Lemma checked_new dn s m cs c fd f :
  checked dn m cs → s ∉ dn → 0 ≤ fd →
  (∀ s2 sv2, s2 ∈ servers (y_st y0) → m !! s2 = Some sv2 → s_listen_port sv2 ≠ sc_listen_port c) →
  (∀ k ck, k ∈ dn → cs !! k = Some ck → sc_listen_port ck ≠ sc_listen_port c) →
  checked (dn ++ [s]) m (<[s := prep c fd (hash_init true true) None (Some f)]> cs).
Proof.
  intros [Hd Ht Hc Hp] Hs Hfd Hlv Hno. assert (∀ k, k ∈ dn → k ≠ s) as Hne by (intros k Hk ->; done). split.
  - intros k ck [Hk| ->%list_elem_of_singleton]%elem_of_app.
    + rewrite lookup_insert_ne by (symmetry; by apply Hne). by apply Hd.
    + rewrite lookup_insert_eq. intros [= <-]. split_and!; try done.
  - intros k [Hk ?]%not_elem_of_app. rewrite lookup_insert_ne by set_solver. by apply Ht.
  - intros s3 sv3 k Hs3 E3 Ek. destruct (Hc s3 sv3 k Hs3 E3 Ek) as (Hk & ck & Eck & ?). split; [set_solver|]. exists ck.
    rewrite lookup_insert_ne; [done|]. intros <-. by apply Hs.
  - intros k k' ck ck' [Hk| ->%list_elem_of_singleton]%elem_of_app [Hk'| ->%list_elem_of_singleton]%elem_of_app; [..|done].
    + rewrite !lookup_insert_ne by (symmetry; by apply Hne). by apply Hp.
    + rewrite lookup_insert_ne, lookup_insert_eq by (symmetry; by apply Hne). intros Ek [= <-] E. by destruct (Hno k ck Hk Ek).
    + rewrite lookup_insert_eq, lookup_insert_ne by (symmetry; by apply Hne). intros [= <-] Ek E. by destruct (Hno k' ck' Hk' Ek).
Qed.

(** A server with a port nobody serves yet. *)
Lemma check_new_spec dn s todo m cs F L c :
  l0 = dn ++ s :: todo → s ∉ dn → opened m cs F L → cs !! s = Some c → fresh c →
  ∃ e c' F', check_new tcp_bind hash_mem s c l0 (cat y0 m cs F L) = Ret (e, cat y0 m (<[s := c']> cs) F' L) ∧
    opened m (<[s := c']> cs) F' L ∧
    (e = None → ∃ fd, 0 ≤ fd ∧ c' = prep c fd (hash_init true true) None None ∧
       ∀ k ck, k ∈ dn → cs !! k = Some ck → sc_listen_port ck ≠ sc_listen_port c).
Proof.
  intros El Hs Ho Ec Hc. assert (s ∈ l0) as Hin by (rewrite El; set_solver).
  assert (sock_of c = None) as Hsk by (rewrite Hc; done).
  unfold check_new. rewrite El. destruct (csearch_port_cat y0 m cs F L s (sc_listen_port c) dn todo) as (o & Eo & Hno); [|done|].
  { intros k Hk. destruct (op_cs _ _ _ _ Ho k) as (? & ? & _ & -> & _); [rewrite El; set_solver|]. by eexists. }
  erewrite bind_ret; [|exact Eo]. destruct o as [k|].
  { eexists _, c, F. rewrite insert_id by done. split_and!; [reflexivity|done|done]. }
  specialize (Hno eq_refl). erewrite bind_ret; [|reflexivity]. cbv zeta. set (fd := tcp_bind _ _).
  erewrite bind_ret; [|by apply upd_cserver_cat]. destruct (Z.ltb_spec fd 0) as [Hneg|Hfd].
  { eexists _, _, F. split_and!; [reflexivity| |done]. eapply opened_prep; [done..|reflexivity| |done|done].
    rewrite Hsk. unfold sock_of. cbn. by rewrite (proj2 (Z.leb_gt _ _)). }
  rewrite (bind_ret (modify _) _ _ tt (cat y0 m (<[s := set_sc_listen_fd fd c]> cs) (F ∪ {[fd]}) L)) by reflexivity.
  erewrite bind_ret; [|reflexivity].
  assert (opened m (<[s := set_sc_listen_fd fd c]> cs) (F ∪ {[fd]}) L) as Ho'
    by (apply opened_sock; [done..|by apply (Hbind (cat y0 m cs F L))|done]).
  match goal with |- context [hash_init (hash_mem ?y).1 _] => set (hm := hash_mem y) end.
  assert (hash_init hm.1 hm.2 = hash_init true true ∨ hash_init (N := snode) hm.1 hm.2 = None) as [-> | ->]
    by (destruct hm as [[] []]; cbn; first [by left|by right]).
  - destruct (hash_init true true) as [h|] eqn:Eh; [|done]. erewrite bind_ret; [|apply upd_cserver_cat, lookup_insert_eq].
    eexists _, _, _. split_and!; [rewrite insert_insert_eq; reflexivity|..].
    + rewrite <- (insert_insert_eq cs s _ (set_sc_listen_fd fd c)).
      eapply (opened_prep _ _ _ _ _ _ _ fd (Some h) (sc_conf c)); [done|apply lookup_insert_eq|reflexivity|done..].
    + intros _. exists fd. split_and!; [done| |done]. rewrite <- Eh. by rewrite Hc.
  - eexists _, _, _. split_and!; [reflexivity|done|done].
Qed.

(** The log file of [c] is open, or it is that of the live server. *)
Definition log_ok m (c : server_conf) (f : option Z) : Prop :=
  match sc_conf c with
  | None => is_Some f
  | Some s2 => f = None → ∀ sv2, m !! s2 = Some sv2 → n_access_log (s_net sv2) = sc_access_log c
  end.

(** The port of [s], the next server to check. *)
Lemma check_port_spec dn s todo m cs F L c :
  l0 = dn ++ s :: todo → s ∉ dn → opened m cs F L → checked dn m cs → cs !! s = Some c → fresh c →
  ∃ e m' c' F', check_port tcp_bind hash_mem s c l0 (cat y0 m cs F L) = Ret (e, cat y0 m' (<[s := c']> cs) F' L) ∧
    opened m' (<[s := c']> cs) F' L ∧
    (e = None → sc_access_filp c' = None ∧ sc_access_log c' = sc_access_log c ∧
       (∀ s2, sc_conf c' = Some s2 → is_Some (m' !! s2)) ∧
       ∀ f, log_ok m' c' f → checked (dn ++ [s]) m' (<[s := set_sc_access_filp f c']> cs)).
Proof.
  intros El Hs Ho Hck Ec Hc. assert (s ∈ l0) as Hin by (rewrite El; set_solver).
  unfold check_port. erewrite bind_ret; [|reflexivity].
  destruct (search_port_cat y0 m cs F L s (sc_listen_port c) (servers (y_st y0))) as (o & Eo & Hlv);
    [intros k Hk; by eapply live_srv|by apply listed_not_live|].
  erewrite bind_ret; [|exact Eo]. destruct o as [s2|].
  - destruct Hlv as (Hs2 & sv2 & E2 & Ep). erewrite bind_ret; [|by apply load_srv_cat]. destruct (s_conf sv2) as [k|] eqn:En.
    { eexists _, m, c, F. rewrite insert_id by done. split_and!; [reflexivity|done|done]. }
    erewrite bind_ret; [|by apply upd_cserver_cat]. erewrite bind_ret; [|by apply upd_srv_cat].
    eexists _, _, _, F. split_and!; [reflexivity|..].
    + apply opened_conf; [done|]. eapply (opened_prep _ _ _ _ _ c _ (sc_listen_fd c) (sc_hash c)); done.
    + intros _. split_and!; [by rewrite Hc|done|intros ? [= <-]; rewrite lookup_insert_eq; by eexists|]. intros f Hlog.
      replace (set_sc_access_filp f (set_sc_conf (Some s2) c)) with (prep c (-1) None (Some s2) f) by (by rewrite Hc).
      eapply checked_match; [done..|]. intros Hf. apply (Hlog Hf (set_s_conf (Some s) sv2)). apply lookup_insert_eq.
  - destruct (check_new_spec dn s todo m cs F L c) as (e & c' & F' & E & Ho' & Hok); [done..|].
    exists e, m, c', F'. split_and!; [done..|]. intros ->. destruct (Hok eq_refl) as (fd & Hfd & -> & Hno).
    split_and!; [done..|]. intros f [z ->]. by apply checked_new.
Qed.

(** The log file of [s]. *)
Lemma check_log_spec m cs F L s c :
  s ∈ l0 → opened m (<[s := c]> cs) F L → sc_access_filp c = None →
  (∀ s2, sc_conf c = Some s2 → is_Some (m !! s2)) →
  ∃ e f L', check_log fopen s (cat y0 m (<[s := c]> cs) F L) = Ret (e, cat y0 m (<[s := set_sc_access_filp f c]> cs) F L') ∧
    opened m (<[s := set_sc_access_filp f c]> cs) F L' ∧ (e = None → log_ok m c f).
Proof.
  intros Hs Ho Hf Hm. unfold check_log. erewrite bind_ret; [|apply load_cserver_cat, lookup_insert_eq].
  assert (set_sc_access_filp None c = c) as Ec by (rewrite <- Hf; by destruct c).
  assert (∃ differ, (match sc_conf c with
    | None => mret true
    | Some s2 => sv2 ← cache (load_srv s2); mret (bool_decide (sc_access_log c ≠ n_access_log (s_net sv2)))
    end) (cat y0 m (<[s := c]> cs) F L) = Ret (differ, cat y0 m (<[s := c]> cs) F L) ∧
      (differ = false → log_ok m c None))
    as (differ & Ed & Hd).
  { unfold log_ok. destruct (sc_conf c) as [s2|]; [|by exists true]. destruct (Hm s2 eq_refl) as [sv2 E2]. eexists.
    split; [erewrite bind_ret; [|apply load_srv_cat; exact E2]; reflexivity|].
    intros Hd%bool_decide_eq_false _ sv' E'. assert (sv' = sv2) as -> by congruence. symmetry. by apply dec_stable. }
  erewrite bind_ret; [|exact Ed]. destruct differ; cbn [negb].
  2:{ eexists _, None, L. rewrite Ec. split_and!; [reflexivity|done|]. intros _. by apply Hd. }
  erewrite bind_ret; [|reflexivity]. destruct (fopen _ _) as [f|] eqn:Eo.
  2:{ eexists _, None, L. rewrite Ec. split_and!; [reflexivity|done|done]. }
  erewrite bind_ret; [|apply upd_cserver_cat, lookup_insert_eq]. rewrite insert_insert_eq.
  eexists _, (Some f), _. split_and!; [reflexivity|..|by intros _; unfold log_ok; destruct (sc_conf c)].
  rewrite <- (insert_insert_eq cs s _ c). apply opened_log; [done|apply lookup_insert_eq|done| |done]. by apply Hopen in Eo.
Qed.

Lemma check_server_spec dn s todo m cs F L :
  l0 = dn ++ s :: todo → opened m cs F L → checked dn m cs →
  ∃ e m' cs' F' L', check_server tcp_bind fopen hash_mem s l0 (cat y0 m cs F L) = Ret (e, cat y0 m' cs' F' L') ∧
    opened m' cs' F' L' ∧ (e = None → checked (dn ++ [s]) m' cs').
Proof.
  intros El Ho Hck. assert (s ∈ l0) as Hin by (rewrite El; set_solver).
  assert (s ∉ dn) as Hs.
  { pose proof (cn_nodup _ Hconf) as Hnd. rewrite El in Hnd. apply NoDup_app in Hnd as (_ & Hd & _). intros Hx. apply (Hd s Hx). set_solver. }
  destruct (cn_fresh _ Hconf s Hin) as (c & Ec0 & Hc). assert (cs !! s = Some c) as Ec by (by rewrite (ck_todo _ _ _ Hck)).
  unfold check_server. erewrite bind_ret; [|by apply load_cserver_cat].
  assert (∀ msg : string, ∃ e m' cs' F' L', (mret (Some msg) : M _ _) (cat y0 m cs F L) = Ret (e, cat y0 m' cs' F' L') ∧
    opened m' cs' F' L' ∧ (e = None → checked (dn ++ [s]) m' cs')) as Hmsg.
  { intros msg. eexists _, m, cs, F, L. by split_and!; [reflexivity|..]. }
  destruct (sc_send_timeout c <=? 0); [apply Hmsg|]. destruct (sc_recv_timeout c <=? 0); [apply Hmsg|].
  destruct (sc_status_period c =? 0); [apply Hmsg|]. clear Hmsg.
  destruct (check_port_spec dn s todo m cs F L c) as (e & m' & c' & F' & E & Ho' & Hok); [done..|].
  erewrite bind_ret; [|exact E]. destruct e as [msg|].
  { eexists _, m', _, F', L. by split_and!; [reflexivity|..]. }
  destruct (Hok eq_refl) as (Hf & _ & Hm & Hall).
  destruct (check_log_spec m' cs F' L s c' Hin Ho' Hf Hm) as (e & f & L' & E' & Ho2 & Hok2).
  rewrite E'. exists e, m', (<[s := set_sc_access_filp f c']> cs), F', L'. split_and!; [done..|]. intros ->. apply Hall. by apply Hok2.
Qed.

Lemma check_servers_spec todo dn m cs F L count :
  l0 = dn ++ todo → opened m cs F L → checked dn m cs →
  ∃ rc m' cs' F' L', check_servers tcp_bind fopen hash_mem todo l0 count (cat y0 m cs F L) = Ret (rc, cat y0 m' cs' F' L') ∧
    opened m' cs' F' L' ∧ (rc = OHC_OK ∧ checked l0 m' cs' ∨ rc = OHC_ERROR).
Proof.
  revert dn m cs F L count. induction todo as [|s todo IH]; intros dn m cs F L count El Ho Hck; cbn [check_servers].
  { eexists _, m, cs, F, L. split_and!; [reflexivity|done|]. left. rewrite app_nil_r in El. by subst dn. }
  cbv zeta. destruct (IPT_ARRAY_SIZE - 1 <=? count + 1). { eexists _, m, cs, F, L. split_and!; [reflexivity|done|]. by right. }
  destruct (check_server_spec dn s todo m cs F L El Ho Hck) as (e & m' & cs' & F' & L' & E & Ho' & Hok).
  erewrite bind_ret; [|exact E]. destruct e as [msg|]. { eexists _, m', cs', F', L'. split_and!; [reflexivity|done|]. by right. }
  apply (IH (dn ++ [s])); [by rewrite <- app_assoc|done|by apply Hok].
Qed.


Lemma owned_start (g : server_conf → option Z) X :
  (∀ c, fresh c → g c = None) → owned g l0 (cservers (y_conf y0)) X X.
Proof.
  intros Hg. assert (∀ s c, s ∈ l0 → cservers (y_conf y0) !! s = Some c → g c = None) as Hn.
  { intros s c Hs Es. destruct (cn_fresh _ Hconf s Hs) as (c' & E' & Hc). apply Hg. congruence. }
  split; [|intros s c z Hs Es Ez; rewrite (Hn s c Hs Es) in Ez; done|intros s s' c c' z Hs _ Es _ Ez; rewrite (Hn s c Hs Es) in Ez; done].
  intros z. split; [by left|]. intros [?|(s & c & Hs & Es & Ez)]; [done|]. rewrite (Hn s c Hs Es) in Ez. done.
Qed.
Lemma opened_start : opened (srvs (y_st y0)) (cservers (y_conf y0)) (y_fds y0) (y_logs y0).
Proof.
  split; [by destruct (y_st y0)|done| |apply owned_start; by intros c ->|apply owned_start; by intros c ->].
  intros s Hs. destruct (cn_fresh _ Hconf s Hs) as (c & E & Hc). exists c, c. split_and!; [done..|]. unfold same_settings. by destruct c.
Qed.

(** No live server is matched yet. *)
Lemma reset_spec ls m cs F L :
  opened m cs F L → (∀ s, s ∈ ls → s ∈ servers (y_st y0)) →
  ∃ m', for_each (λ s, cache (upd_srv s (set_s_conf None))) ls (cat y0 m cs F L) = Ret (tt, cat y0 m' cs F L) ∧
    opened m' cs F L ∧ ∀ s sv, m' !! s = Some sv → s_conf sv = None ∨ ((s ∉ ls) ∧ m !! s = Some sv).
Proof.
  revert m. induction ls as [|k ls IH]; intros m Ho Hls; cbn [for_each].
  { exists m. split_and!; [done..|]. intros s sv E. right. split; [apply not_elem_of_nil|done]. }
  destruct (live_srv _ _ _ _ k Ho) as [sv Ek]; [by apply Hls, list_elem_of_here|].
  erewrite bind_ret; [|by apply upd_srv_cat].
  destruct (IH (<[k := set_s_conf None sv]> m)) as (m' & E & Ho' & Hm); [by apply opened_conf|intros; by apply Hls, list_elem_of_further|].
  exists m'. split_and!; [done..|]. intros s sv' Es. destruct (Hm s sv' Es) as [?|[Hn E']]; [by left|].
  apply lookup_insert_Some in E' as [[<- <-]|[Hne E']]; [by left|]. right. split; [|done]. by apply not_elem_of_cons.
Qed.

Lemma server_conf_check_spec :
  ∃ rc m cs F L, server_conf_check tcp_bind fopen hash_mem y0 = Ret (rc, cat y0 m cs F L) ∧
    opened m cs F L ∧ (rc = OHC_OK ∧ checked l0 m cs ∨ rc = OHC_ERROR).
Proof.
  unfold server_conf_check. erewrite bind_ret; [|reflexivity]. cbv zeta. fold l0. destruct (decide (l0 = [])).
  { eexists _, _, _, _, _. split_and!; [rewrite <- cat_start; reflexivity|apply opened_start|by right]. }
  destruct (reset_spec (servers (y_st y0)) _ _ _ _ opened_start) as (m & E & Ho & Hm); [done|].
  rewrite <- cat_start in E. erewrite bind_ret; [|exact E]. apply (check_servers_spec l0 []); [done..|]. split; try done.
  - by intros ? ? ?%not_elem_of_nil.
  - intros s2 sv2 s Hs2 E2 Es. destruct (Hm s2 sv2 E2) as [?|[? _]]; congruence.
  - by intros ? ? ? ? ?%not_elem_of_nil.
Qed.

(** ** Undoing the check *)

Lemma server_conf_rollback_spec m cs F L :
  opened m cs F L → server_conf_rollback (cat y0 m cs F L) = Ret (tt, cat y0 m cs (y_fds y0) (y_logs y0)).
Proof.
  intros [_ _ Hcs Hf Hl]. unfold server_conf_rollback. erewrite bind_ret; [|reflexivity]. change (cf_servers _) with l0.
  destruct (rollback_spec y0 l0 m cs F L) as (F' & L' & E & HF & HL); [intros s Hs; destruct (Hcs s Hs) as (? & ? & _ & -> & _); by eexists|].
  by rewrite E, (owned_close _ _ _ _ _ _ Hf HF), (owned_close _ _ _ _ _ _ Hl HL).
Qed.
End check.
End reload.
