(* ===== verification/ServerLoad.v ===== *)
(** * Loading a checked configuration of the servers

    [server_conf_load] after a check that succeeded.  The servers that are live
    and the configured ones that are still to be loaded share no socket, log file
    or port ([keyed]); each step of the load keeps this, and so the sockets
    watched are at every moment those of the live servers. *)

From Stdlib Require Import String.
From stdpp Require Import prelude fin_maps gmap.
From S2P Require Import Prelude IdxPointer StrUtil IpBucket Slab Hash Device DeviceInv DeviceOps DeviceConf.
From S2P Require Import Http HttpProofs Server ServerInv ServerOps ServerExpire ServerPut ServerHandlers ServerFinalize.
From S2P Require Import Conf ServerConf Cache Life CacheProofs Owned ServerReload.
#[local] Arguments im : simpl never.

(** What no two live servers may share, and what a configured server brings. *)
Definition kfd (sv : ohc_server_t) : option Z := Some (n_listen_fd (s_net sv)).
Definition klog (sv : ohc_server_t) : option Z := n_access_filp (s_net sv).
Definition kport (sv : ohc_server_t) : option Z := Some (s_listen_port sv).
Definition cport (c : server_conf) : option Z :=
  match sc_conf c with None => Some (sc_listen_port c) | Some _ => None end.

(** The server works by the configuration [c]; [connections_limit], which an
    update does not copy, is not among its settings. *)
Record serves (c : server_conf) (sv : ohc_server_t) : Prop := {
  sv_fields : update_fields c sv = sv;
  sv_listen : listen_fields c (s_net sv) = s_net sv;
  sv_port : s_listen_port sv = sc_listen_port c;
  sv_log : n_access_log (s_net sv) = sc_access_log c;
  sv_deleted : s_deleted sv = false
}.

(** The server has the items it had, in the same places. *)
Record same_items (sv sv' : ohc_server_t) : Prop := {
  si_hash : s_hash sv' = s_hash sv;
  si_lru : s_lru_head sv' = s_lru_head sv ∧ s_passby_lru_head sv' = s_passby_lru_head sv;
  si_index : s_index sv' = s_index sv ∧ s_clear sv' = s_clear sv;
  si_counts : s_item_nr sv' = s_item_nr sv ∧ s_content sv' = s_content sv ∧ s_consumed sv' = s_consumed sv ∧
    s_passby_item_nr sv' = s_passby_item_nr sv;
  si_port : s_listen_port sv' = s_listen_port sv;
  si_socket : n_listen_fd (s_net sv') = n_listen_fd (s_net sv) ∧ n_connections (s_net sv') = n_connections (s_net sv)
}.

Section live.
Context {AS IS PS : Type} `{Allocator AS} `{Allocator IS} `{Allocator PS}.
Implicit Types (y : csys AS IS PS) (k : ohc_server_t → option Z) (g : server_conf → option Z) (cs : gmap Z server_conf).

Definition live y (s : Z) (sv : ohc_server_t) : Prop := s ∈ servers (y_st y) ∧ srvs (y_st y) !! s = Some sv.
Definition distinct k y : Prop :=
  ∀ s s' sv sv' z, live y s sv → live y s' sv' → k sv = Some z → k sv' = Some z → s = s'.

(** The servers in service: each listens on a socket and writes a log file of
    its own, on a port of its own, and exactly their sockets are watched. *)
Record live_ok y : Prop := {
  lv_srv : ∀ s, s ∈ servers (y_st y) → ∃ sv f, live y s sv ∧ s_deleted sv = false ∧
    n_listen_fd (s_net sv) ∈ y_fds y ∧ n_access_filp (s_net sv) = Some f ∧ f ∈ y_logs y;
  lv_fd : distinct kfd y;
  lv_log : distinct klog y;
  lv_port : distinct kport y;
  lv_epoll : ∀ z, z ∈ y_epoll y ↔ ∃ s sv, live y s sv ∧ kfd sv = Some z
}.

(** A log file that is open, and none of the live servers writes to it. *)
Definition error_log_apart (e : Z) y : Prop := e ∈ y_logs y ∧ ∀ s sv, live y s sv → klog sv ≠ Some e.

(** The configured servers [todo] bring nothing that a live one has. *)
Definition keyed k g cs y (todo : list Z) : Prop :=
  distinct k y ∧ ∀ s c z s' sv', s ∈ todo → cs !! s = Some c → g c = Some z → live y s' sv' → k sv' ≠ Some z.
Definition own g cs (l : list Z) : Prop :=
  ∀ s s' c c' z, s ∈ l → s' ∈ l → cs !! s = Some c → cs !! s' = Some c' → g c = Some z → g c' = Some z → s = s'.

Lemma keyed_sub k g cs y y' todo :
  (∀ s sv, live y' s sv → ∃ sv0, live y s sv0 ∧ k sv0 = k sv) → keyed k g cs y todo → keyed k g cs y' todo.
Proof.
  intros Hsub [Hd Hk]. split.
  - intros s s' sv sv' z (sv0 & Hl0 & E)%Hsub (sv0' & Hl0' & E')%Hsub Ez Ez'. by apply (Hd s s' sv0 sv0' z); [..|rewrite E|rewrite E'].
  - intros s c z s' sv' Hs Es Eg (sv0 & Hl0 & E)%Hsub. rewrite <- E. by eapply Hk.
Qed.

(** The configured server [s] becomes, or updates, the live server [t]. *)
Lemma keyed_step k g cs y y' t sv' s c todo :
  (∀ x sv, live y' x sv → x = t ∧ sv = sv' ∨ x ≠ t ∧ live y x sv) →
  (∃ sv, live y t sv ∧ k sv' = k sv) ∨ (∀ z, k sv' = Some z → g c = Some z) →
  s ∉ todo → cs !! s = Some c → own g cs (s :: todo) → keyed k g cs y (s :: todo) → keyed k g cs y' todo.
Proof.
  intros Hsub Ht Hs Es Hown [Hd Hk].
  assert (∀ x svx z, x ≠ t → live y x svx → k svx = Some z → k sv' ≠ Some z) as Hne.
  { intros x svx z Hx Hlx Ez Ez'. destruct Ht as [(sv & Hl & E)|Hg].
    - apply Hx. apply (Hd x t svx sv z); [done..|congruence].
    - apply (Hk s c z x svx); [apply list_elem_of_here|done|by apply Hg|done..]. }
  split.
  - intros x x' svx svx' z [[-> ->]|[Hx Hlx]]%Hsub [[-> ->]|[Hx' Hlx']]%Hsub Ez Ez'; [done|..].
    + by destruct (Hne x' svx' z Hx' Hlx' Ez').
    + by destruct (Hne x svx z Hx Hlx Ez).
    + by apply (Hd x x' svx svx' z).
  - intros s1 c1 z x svx Hs1 Es1 Eg [[-> ->]|[Hx Hlx]]%Hsub.
    + destruct Ht as [(sv & Hl & E)|Hg].
      * rewrite E. eapply (Hk s1 c1 z t sv); [by apply list_elem_of_further|done..].
      * intros Ez. apply Hg in Ez. assert (s = s1) as <-; [|done].
        apply (Hown s s1 c c1 z); [apply list_elem_of_here|by apply list_elem_of_further|done..].
    + eapply (Hk s1); [by apply list_elem_of_further|done..].
Qed.
End live.

(** ** One server *)

Section steps.
Context {AS IS PS : Type} `{Allocator AS} `{Allocator IS} `{Allocator PS}.
Implicit Types (y : csys AS IS PS) (sv : ohc_server_t) (c : server_conf).

(** After [server_delete]. *)
Definition gone (s : Z) sv y : csys AS IS PS :=
  let fd := n_listen_fd (s_net sv) in
  CSys (set_deleted_servers (s :: deleted_servers (y_st y)) (set_servers (list_remove_one s (servers (y_st y)))
      (set_srvs (<[s := set_s_deleted true sv]> (srvs (y_st y))) (y_st y))))
    (y_conf y) (y_fds y ∖ {[fd]}) (y_logs y) (y_epoll y ∖ {[fd]}).
Lemma server_delete_eq s sv y : srvs (y_st y) !! s = Some sv → server_delete s y = Ret (tt, gone s sv y).
Proof.
  intros Es. unfold server_delete. erewrite bind_ret; [|apply cache_run, upd_srv_run; exact Es]. unfold server_listen_close.
  erewrite bind_ret; [|erewrite bind_ret; [|apply cache_run, load_srv_run; apply lookup_insert_eq]; reflexivity]. reflexivity.
Qed.

(** After [server_update]. *)
Definition updated c sv : ohc_server_t :=
  let sv1 := match sc_access_filp c with
             | None => sv
             | Some filp => set_s_net (log_fields (sc_access_log c) filp (s_net sv)) sv
             end in
  let sv2 := update_fields c sv1 in set_s_net (listen_fields c (s_net sv2)) sv2.
Definition renewed (s : Z) c sv y : csys AS IS PS :=
  CSys (set_srvs (<[s := updated c sv]> (srvs (y_st y))) (set_servers (list_remove_one s (servers (y_st y)) ++ [s]) (y_st y)))
    (y_conf y) (y_fds y)
    (match sc_access_filp c, n_access_filp (s_net sv) with Some _, Some old => y_logs y ∖ {[old]} | _, _ => y_logs y end) (y_epoll y).
Lemma server_update_eq s c sv y :
  srvs (y_st y) !! s = Some sv → is_Some (n_access_filp (s_net sv)) → server_update s c y = Ret (tt, renewed s c sv y).
Proof.
  intros Es [old Eo]. unfold server_update, renewed, updated. rewrite Eo. erewrite bind_ret; [|apply cache_run; reflexivity].
  erewrite bind_ret; [|apply cache_run, load_srv_run; exact Es]. destruct (sc_access_filp c) as [filp|].
  - erewrite bind_ret; [|rewrite Eo; erewrite bind_ret; [|reflexivity]; erewrite bind_ret; [|reflexivity]; apply cache_run, upd_srv_run; exact Es].
    erewrite bind_ret; [|apply cache_run, upd_srv_run; apply lookup_insert_eq].
    unfold server_listen_update, upd_net. erewrite cache_run; [|apply upd_srv_run; apply lookup_insert_eq].
    unfold set_y_st. cbn. by rewrite !insert_insert_eq.
  - erewrite bind_ret; [|reflexivity]. erewrite bind_ret; [|apply cache_run, upd_srv_run; exact Es].
    unfold server_listen_update, upd_net. erewrite cache_run; [|apply upd_srv_run; apply lookup_insert_eq].
    unfold set_y_st. cbn. by rewrite !insert_insert_eq.
Qed.

(** After [server_create]. *)
Definition added (s : Z) c (hash : ohc_hash_t snode) (i : Z) (t : idx_pointer_t Z) y : csys AS IS PS :=
  let cc := conf_cycle (y_conf y) in
  CSys (set_server_indexs t (set_srvs (<[s := server_of_conf c hash i]> (srvs (y_st y)))
      (set_servers (servers (y_st y) ++ [s]) (y_st y))))
    (set_conf_cycle (set_cf_servers (list_remove_one s (cf_servers cc)) cc) (set_cservers (delete s (cservers (y_conf y))) (y_conf y)))
    (y_fds y) (y_logs y) (y_epoll y ∪ {[sc_listen_fd c]}).
Lemma server_create_eq s c hash i t y :
  cservers (y_conf y) !! s = Some c → sc_hash c = Some hash → idx_pointer_add (server_indexs (y_st y)) s = Ret (i, t) →
  server_create s y = Ret (tt, added s c hash i t y).
Proof.
  intros Ec Eh Et. unfold server_create, load_cserver.
  erewrite bind_ret; [|erewrite bind_ret; [|reflexivity]; rewrite Ec; reflexivity]. rewrite Eh.
  erewrite bind_ret; [|reflexivity]. erewrite bind_ret; [|reflexivity]. erewrite bind_ret; [|apply cache_run, out_run; exact Et].
  cbn [fst snd]. erewrite bind_ret; [|reflexivity]. erewrite bind_ret; [|apply cache_run; reflexivity].
  unfold server_listen_start. erewrite bind_ret; [|apply cache_run, load_srv_run; apply lookup_insert_eq]. reflexivity.
Qed.
End steps.

Lemma update_fields_again c sv n :
  s_net (update_fields c (set_s_net n sv)) = n → update_fields c (set_s_net n (update_fields c sv)) = set_s_net n (update_fields c sv).
Proof. destruct sv. intros E. unfold update_fields, set_s_net in *. cbn in *. by rewrite E. Qed.
Lemma update_fields_net c sv :
  let n' := listen_fields c (s_net (update_fields c sv)) in s_net (update_fields c (set_s_net n' sv)) = n'.
Proof. destruct sv as [? ? ? ? ? ? ? ? ? ? ? ? ? ? ? ? ? ? ? ? ? ? ? ? ? ? ? ? []]. reflexivity. Qed.

Lemma updated_serves c0 c sv :
  same_settings c0 c → s_listen_port sv = sc_listen_port c → s_deleted sv = false →
  (sc_access_filp c = None → n_access_log (s_net sv) = sc_access_log c) → serves c0 (updated c sv).
Proof.
  intros Hss Hp Hd Hlog. assert (∃ fd hh o f, c = prep c0 fd hh o f) as (fd & hh & o & f & ->) by (by repeat eexists).
  unfold updated. set (c := prep c0 fd hh o f).
  set (sv1 := match sc_access_filp c with None => sv | Some filp => set_s_net (log_fields (sc_access_log c) filp (s_net sv)) sv end).
  assert (n_access_log (s_net sv1) = sc_access_log c ∧ s_listen_port sv1 = sc_listen_port c ∧ s_deleted sv1 = false) as (E1 & E2 & E3).
  { unfold sv1. destruct f; [done|]. split_and!; [exact (Hlog eq_refl)|done..]. }
  clearbody sv1. change (sc_access_log c) with (sc_access_log c0) in E1. split; [|done..].
  exact (update_fields_again c0 sv1 _ (update_fields_net c0 sv1)).
Qed.
Lemma updated_items c sv : same_items sv (updated c sv).
Proof. unfold updated. by destruct (sc_access_filp c). Qed.


(** The live server [t], now [sv], comes from the configured server [s]: it was
    live and keeps its items, or it is new, without items, on a port that nobody
    served. *)
Definition origin_of {AS IS PS} (y : csys AS IS PS) (s t : Z) (sv : ohc_server_t) : Prop :=
  (∃ sv0, live y t sv0 ∧ same_items sv0 sv) ∨
  (t = s ∧ s_hash sv = Hash (replicate (Z.to_nat HASH_BUCKET_SIZE_BEGIN) []) HASH_BUCKET_SIZE_BEGIN 0 None 0 ∧ s_item_nr sv = 0 ∧
   ∀ s2 sv2, live y s2 sv2 → s_listen_port sv2 ≠ s_listen_port sv).

(** ** The load *)

Section load.
Context {AS IS PS : Type} `{Allocator AS} `{Allocator IS} `{Allocator PS}.
Context (y0 : csys AS IS PS) (h : list (bool * Z)) (m : gmap Z ohc_server_t) (cs : gmap Z server_conf) (F L : gset Z).
Abbreviation l0 := (listed y0).
Abbreviation G := (getters h).
Abbreviation P := (putters h).
Context (Hinv : life_inv (Life y0 h)) (Hlive : live_ok y0) (Hconf : conf_ok y0).
Context (Hop : opened y0 G P m cs F L) (Hck : checked y0 l0 m cs).
Context (Hroom : (used_nr (server_indexs (y_st y0)) + length l0 ≤ Z.to_nat IPT_ARRAY_SIZE)%nat).
Abbreviation y1 := (cat y0 m cs F L).
Implicit Types (y : csys AS IS PS) (todo dn : list Z).

Lemma y1_back s sv : live y1 s sv → ∃ sv0 o, live y0 s sv0 ∧ sv = set_s_conf o sv0.
Proof.
  intros [Hs E]. destruct (opened_back y0 G P m cs F L s sv Hop E) as (sv0 & o & E0 & ->). exists sv0, o. by split.
Qed.
Lemma y1_forth s sv0 : live y0 s sv0 → ∃ o, live y1 s (set_s_conf o sv0).
Proof.
  intros [Hs E0]. destruct (live_srv y0 G P (li_lists _ Hinv) m cs F L s Hop Hs) as [sv E].
  destruct (opened_back y0 G P m cs F L s sv Hop E) as (sv0' & o & E0' & ->). exists o. split; [done|]. cbn. congruence.
Qed.

Lemma y1_inv : life_inv (Life y1 h).
Proof.
  split; [apply (op_inv _ _ _ _ _ _ _ Hop)|]. cbn. eapply lists_ok_perm; [apply (li_lists _ Hinv)|done|]. cbn.
  apply set_eq. intros s. rewrite !elem_of_dom. pose proof (op_srv _ _ _ _ _ _ _ Hop s) as E.
  destruct (m !! s), (srvs (y_st y0) !! s); done.
Qed.

(** What stays true while servers are deleted and loaded. *)
Record steady y todo : Prop := {
  sd_inv : life_inv (Life y h);
  sd_live : live_ok y;
  sd_fd : keyed kfd sock_of cs y todo;
  sd_log : keyed klog sc_access_filp cs y todo;
  sd_port : keyed kport cport cs y todo;
  sd_dst : dst (y_st y) = dst (y_st y0);
  sd_cs : ∀ s, s ∈ todo → cservers (y_conf y) !! s = cs !! s;
  sd_new : ∀ s c, s ∈ todo → cs !! s = Some c → sc_conf c = None → srvs (y_st y) !! s = None;
  sd_open : ∀ s c z, s ∈ todo → cs !! s = Some c → (sock_of c = Some z → z ∈ y_fds y) ∧ (sc_access_filp c = Some z → z ∈ y_logs y);
  sd_room : (used_nr (server_indexs (y_st y)) + length todo ≤ Z.to_nat IPT_ARRAY_SIZE)%nat
}.

Lemma y1_steady : steady y1 l0.
Proof.
  destruct Hlive as [Hsrv Hfd Hlog Hport Hep].
  assert (∀ k : ohc_server_t → option Z, (∀ o sv, k (set_s_conf o sv) = k sv) → distinct k y0 → distinct k y1) as Hdis.
  { intros k Hk Hd s s' sv sv' z (sv0 & o & Hl & ->)%y1_back (sv0' & o' & Hl' & ->)%y1_back. rewrite !Hk. by apply Hd. }
  assert (∀ s sv, live y1 s sv → kfd sv = Some (n_listen_fd (s_net sv)) ∧ s_deleted sv = false ∧ n_listen_fd (s_net sv) ∈ y_fds y0 ∧
    ∃ f, klog sv = Some f ∧ f ∈ y_logs y0) as Hl1.
  { intros s sv (sv0 & o & Hl & ->)%y1_back. destruct (Hsrv s (proj1 Hl)) as (sv' & f & Hl' & ? & ? & ? & ?).
    assert (sv' = sv0) as -> by (destruct Hl, Hl'; congruence). split_and!; [done..|]. by exists f. }
  split.
  - apply y1_inv.
  - split; [|by apply Hdis..|].
    + intros s Hs. destruct (Hsrv s Hs) as (sv0 & f & Hl & Hdel & Hf & Elog & Hfl). destruct (y1_forth s sv0 Hl) as [o Hl'].
      exists (set_s_conf o sv0), f. split_and!; [done|done| |done|].
      * apply (ow_set _ _ _ _ _ (op_fds _ _ _ _ _ _ _ Hop)). by left.
      * apply (ow_set _ _ _ _ _ (op_logs _ _ _ _ _ _ _ Hop)). by left.
    + intros z. cbn [cat y_epoll]. rewrite Hep. split.
      * intros (s & sv & Hl & E). destruct (y1_forth s sv Hl) as [o Hl']. by exists s, (set_s_conf o sv).
      * intros (s & sv & (sv0 & o & Hl & ->)%y1_back & E). by exists s, sv0.
  - split; [by apply Hdis|]. intros s c z s' sv' Hs Es Eg Hl' [= E]. destruct (Hl1 s' sv' Hl') as (_ & _ & Hin & _).
    subst z. by apply (ow_new _ _ _ _ _ (op_fds _ _ _ _ _ _ _ Hop) s c _ Hs Es Eg).
  - split; [by apply Hdis|]. intros s c z s' sv' Hs Es Eg Hl' E. destruct (Hl1 s' sv' Hl') as (_ & _ & _ & f & Ef & Hin).
    assert (f = z) as -> by congruence. by apply (ow_new _ _ _ _ _ (op_logs _ _ _ _ _ _ _ Hop) s c _ Hs Es Eg).
  - split; [by apply Hdis|]. intros s c z s' sv' Hs Es Eg [Hl' E'] [= E]. pose proof (ck_done _ _ _ _ Hck s c Hs Es) as Hp.
    unfold prepared, cport in *. destruct (sc_conf c); [done|]. destruct Hp as (_ & _ & _ & Hno). eapply Hno; [done..|congruence].
  - done.
  - done.
  - intros s c Hs Es Ec. cbn. pose proof (op_srv _ _ _ _ _ _ _ Hop s) as E. rewrite (cn_apart _ Hconf s Hs) in E. by destruct (m !! s).
  - intros s c z Hs Es. split; intros Ez.
    + apply (ow_set _ _ _ _ _ (op_fds _ _ _ _ _ _ _ Hop)). right. by exists s, c.
    + apply (ow_set _ _ _ _ _ (op_logs _ _ _ _ _ _ _ Hop)). right. by exists s, c.
  - done.
Qed.

(** *** Deleting *)

Lemma live_gone y s sv x svx : live (gone s sv y) x svx ↔ x ≠ s ∧ live y x svx.
Proof.
  unfold live. cbn. rewrite elem_of_list_remove_one. destruct (decide (x = s)) as [->|Hne]; [tauto|].
  rewrite lookup_insert_ne by done. tauto.
Qed.

Lemma gone_steady y s sv : steady y l0 → live y s sv → steady (gone s sv y) l0.
Proof.
  intros Hsd Hl. pose proof (live_gone y s sv) as Hlg. pose proof Hsd as [Hi [Hsrv Hfd Hlog Hport Hep] Kf Kl Kp Hd Hcs Hn Ho Hr].
  assert (∀ k g, keyed k g cs y l0 → keyed k g cs (gone s sv y) l0) as Hk.
  { intros k g. apply keyed_sub. intros x svx [_ Hx]%Hlg. by exists svx. }
  destruct (server_delete_run s y h Hi (proj1 Hl)) as (y' & E & Hi'). rewrite (server_delete_eq s sv y (proj2 Hl)) in E. injection E as <-.
  assert (∀ x svx, live y x svx → x ≠ s → n_listen_fd (s_net svx) ≠ n_listen_fd (s_net sv)) as Hne.
  { intros x svx Hx Hne E. apply Hne. eapply (Hfd x s svx sv); [done..|]. unfold kfd. by rewrite E. }
  split; [done| |by apply Hk..|done|done| | |done].
  - split; [|by apply (Hk _ _ Kf)|by apply (Hk _ _ Kl)|by apply (Hk _ _ Kp)|].
    + intros x [Hx Hxs]%elem_of_list_remove_one. destruct (Hsrv x Hx) as (svx & f & Hlx & ? & ? & ? & ?). exists svx, f.
      split_and!; [by apply Hlg|done| |done|done]. cbn. apply elem_of_difference. split; [done|].
      rewrite elem_of_singleton. by apply (Hne x).
    + intros z. cbn [gone y_epoll]. rewrite elem_of_difference, elem_of_singleton, Hep. split.
      * intros [(x & svx & Hlx & E) Hz]. exists x, svx. split; [|done]. apply Hlg. split; [|done]. intros ->.
        assert (svx = sv) as -> by (destruct Hl, Hlx; congruence). unfold kfd in E. congruence.
      * intros (x & svx & [Hxs Hlx]%Hlg & E). split; [by exists x, svx|]. intros ->. injection E. by apply (Hne x).
  - intros k c Hk' Ek Ec. cbn. rewrite lookup_insert_ne; [by eapply Hn|]. intros <-. destruct Hl as [_ E]. rewrite (Hn s c Hk' Ek Ec) in E. done.
  - intros k c z Hk' Ek. destruct (Ho k c z Hk' Ek) as [Ho1 Ho2]. split; [|done]. intros Ez. cbn. apply elem_of_difference.
    split; [by apply Ho1|]. rewrite elem_of_singleton. intros ->. by apply (proj2 Kf k c _ s sv Hk' Ek Ez Hl).
Qed.

(** The live servers that no configured one matched go; the others stay as they
    are. *)
Record purged y (ls : list Z) : Prop := {
  pg_steady : steady y l0;
  pg_back : ∀ s sv, live y s sv → live y1 s sv;
  pg_kept : ∀ s sv, live y1 s sv → s_conf sv ≠ None ∨ s ∈ ls → live y s sv;
  pg_gone : ∀ s sv, live y1 s sv → s_conf sv = None → s ∉ ls →
    s ∈ deleted_servers (y_st y) ∧ srvs (y_st y) !! s = Some (set_s_deleted true sv);
  pg_log : ∀ e, error_log_apart e y1 → error_log_apart e y
}.

Lemma delete_unmatched_run y s sv :
  srvs (y_st y) !! s = Some sv →
  delete_unmatched s y = Ret (tt, match s_conf sv with Some _ => y | None => gone s sv y end).
Proof.
  intros Es. unfold delete_unmatched. erewrite bind_ret; [|apply cache_run, load_srv_run; exact Es].
  replace (set_y_st (y_st y) y) with y by (by destruct y). destruct (s_conf sv); [done|]. by apply server_delete_eq.
Qed.

Lemma delete_loop ls y :
  purged y ls → NoDup ls → (∀ s, s ∈ ls → s ∈ servers (y_st y1)) →
  ∃ y', for_each delete_unmatched ls y = Ret (tt, y') ∧ purged y' [].
Proof.
  revert y. induction ls as [|s ls IH]; intros y Hp Hnd Hls; cbn [for_each]; [by exists y|].
  apply NoDup_cons in Hnd as [Hs Hnd]. pose proof Hp as [Hsd Hb Hkp Hg Hel].
  destruct (lv_srv _ (sd_live _ _ y1_steady) s) as (sv & f & Hl1 & _); [apply Hls, list_elem_of_here|].
  assert (live y s sv) as Hl by (apply Hkp; [done|right; apply list_elem_of_here]).
  erewrite bind_ret; [|apply delete_unmatched_run, Hl]. destruct (s_conf sv) as [k|] eqn:Ec.
  - apply IH; [|done|intros; by apply Hls, list_elem_of_further]. split; [done|done|..|done].
    + intros x svx Hx Hor. apply Hkp; [done|]. destruct Hor; [by left|right; by apply list_elem_of_further].
    + intros x svx Hx En Hxs. apply Hg; [done..|]. apply not_elem_of_cons. split; [|done]. intros ->. destruct Hl1, Hx. congruence.
  - pose proof (live_gone y s sv) as Hlg.
    apply IH; [|done|intros; by apply Hls, list_elem_of_further]. split.
    + by apply gone_steady.
    + intros x svx [_ Hx]%Hlg. by apply Hb.
    + intros x svx Hx Hor. apply Hlg. split.
      * intros ->. destruct Hor as [Hn|Hin]; [|done]. apply Hn. destruct Hl1, Hx. congruence.
      * apply Hkp; [done|]. destruct Hor; [by left|right; by apply list_elem_of_further].
    + intros x svx Hx En Hxs. cbn. destruct (decide (x = s)) as [->|Hne].
      * assert (svx = sv) as -> by (destruct Hl1, Hx; congruence). rewrite lookup_insert_eq. split; [apply list_elem_of_here|done].
      * rewrite lookup_insert_ne by done. destruct (Hg x svx Hx En) as [? ?]; [by apply not_elem_of_cons|].
        split; [by apply list_elem_of_further|done].
    + intros e He. destruct (Hel e He) as [He1 He2]. split; [done|]. intros x svx [_ Hx]%Hlg. by eapply He2.
Qed.

(** *** Updating *)

Lemma own_fd todo : (∀ s, s ∈ todo → s ∈ l0) → own sock_of cs todo.
Proof. intros Ht s s' c c' z Hs Hs'. eapply (ow_inj _ _ _ _ _ (op_fds _ _ _ _ _ _ _ Hop)); by apply Ht. Qed.
Lemma own_log todo : (∀ s, s ∈ todo → s ∈ l0) → own sc_access_filp cs todo.
Proof. intros Ht s s' c c' z Hs Hs'. eapply (ow_inj _ _ _ _ _ (op_logs _ _ _ _ _ _ _ Hop)); by apply Ht. Qed.
Lemma own_port todo : (∀ s, s ∈ todo → s ∈ l0) → own cport cs todo.
Proof.
  intros Ht s s' c c' z Hs Hs' Es Es' E E'. eapply (ck_ports _ _ _ _ Hck s s' c c'); [by apply Ht..|done|done|].
  unfold cport in *. destruct (sc_conf c), (sc_conf c'); congruence.
Qed.

Lemma live_renewed y s c sv x svx :
  live y s sv → live (renewed s c sv y) x svx ↔ x = s ∧ svx = updated c sv ∨ x ≠ s ∧ live y x svx.
Proof.
  intros [Hs _]. unfold live. cbn. rewrite elem_of_app, elem_of_list_remove_one, list_elem_of_singleton.
  destruct (decide (x = s)) as [->|Hne]; [rewrite lookup_insert_eq|rewrite lookup_insert_ne by done]; naive_solver.
Qed.

Lemma renewed_steady y s t c sv todo :
  steady y (s :: todo) → s ∉ todo → (∀ k, k ∈ s :: todo → k ∈ l0) → cs !! s = Some c → live y t sv →
  steady (renewed t c sv y) todo.
Proof.
  intros Hsd Hst Hl0 Es Hl. pose proof (λ x svx, live_renewed y t c sv x svx Hl) as Hlr.
  pose proof Hsd as [Hi [Hsrv Hfd Hlog Hport Hep] Kf Kl Kp Hd Hcs Hn Ho Hr].
  destruct (Hsrv t (proj1 Hl)) as (sv' & old & Hl' & Hdel & Hfds & Eold & Hlogs).
  assert (sv' = sv) as -> by (destruct Hl, Hl'; congruence).
  destruct (server_update_run t c y h Hi (proj1 Hl)) as (y' & E & Hi').
  { intros sv' E' _. assert (sv' = sv) as -> by (destruct Hl; congruence). by eexists. }
  rewrite (server_update_eq t c sv y (proj2 Hl)) in E by (by eexists). injection E as <-.
  assert (∀ x svx, live (renewed t c sv y) x svx → x = t ∧ svx = updated c sv ∨ x ≠ t ∧ live y x svx) as Hsub by (intros; by apply Hlr).
  assert (keyed kfd sock_of cs (renewed t c sv y) todo) as Kf'.
  { eapply keyed_step; [exact Hsub| |done|done|by apply own_fd|done]. left. exists sv. split; [done|]. unfold kfd, updated. by destruct (sc_access_filp c). }
  assert (keyed klog sc_access_filp cs (renewed t c sv y) todo) as Kl'.
  { eapply keyed_step; [exact Hsub| |done|done|by apply own_log|done]. unfold klog, updated. destruct (sc_access_filp c) eqn:Ef; [by right|].
    left. by exists sv. }
  assert (keyed kport cport cs (renewed t c sv y) todo) as Kp'.
  { eapply keyed_step; [exact Hsub| |done|done|by apply own_port|done]. left. exists sv. split; [done|]. unfold kport, updated. by destruct (sc_access_filp c). }
  assert (∀ z, z ∈ y_logs y → z ≠ old → z ∈ y_logs (renewed t c sv y)) as Hkeep.
  { intros z Hz Hne. cbn. rewrite Eold. destruct (sc_access_filp c); [|done]. set_solver. }
  split; [done| |done|done|done|done| | | |].
  - split; [|apply Kf'|apply Kl'|apply Kp'|].
    + intros x Hx. destruct (decide (x = t)) as [->|Hne].
      * exists (updated c sv). destruct (sc_access_filp c) as [f|] eqn:Ef.
        -- exists f. split_and!; [apply Hlr; by left|unfold updated; rewrite Ef; exact Hdel|unfold updated; rewrite Ef; exact Hfds|unfold updated; by rewrite Ef|].
           apply Hkeep; [by apply (Ho s c f (list_elem_of_here _ _) Es)|]. intros ->.
           by apply (proj2 Kl s c old t sv (list_elem_of_here _ _) Es Ef Hl).
        -- exists old. split_and!; [apply Hlr; by left|unfold updated; rewrite Ef; exact Hdel|unfold updated; rewrite Ef; exact Hfds|
             unfold updated; rewrite Ef; exact Eold|]. cbn. by rewrite Ef.
      * assert (x ∈ servers (y_st y)) as Hx'.
        { cbn in Hx. rewrite elem_of_app, elem_of_list_remove_one, list_elem_of_singleton in Hx. tauto. }
        destruct (Hsrv x Hx') as (svx & f & Hlx & ? & ? & Efx & ?). exists svx, f. split_and!; [apply Hlr; by right|done..|].
        apply Hkeep; [done|]. intros ->. apply Hne. by apply (Hlog x t svx sv old).
    + intros z. cbn [renewed y_epoll]. rewrite Hep. split.
      * intros (x & svx & Hlx & E). destruct (decide (x = t)) as [->|Hne].
        -- exists t, (updated c sv). split; [apply Hlr; by left|]. assert (svx = sv) as -> by (destruct Hl, Hlx; congruence).
           rewrite <- E. unfold kfd, updated. by destruct (sc_access_filp c).
        -- exists x, svx. split; [apply Hlr; by right|done].
      * intros (x & svx & [[-> ->]|[_ Hlx]]%Hlr & E); [|by exists x, svx]. exists t, sv. split; [done|].
        rewrite <- E. unfold kfd, updated. by destruct (sc_access_filp c).
  - intros k Hk. cbn. apply Hcs. by apply list_elem_of_further.
  - intros k ck Hk Ek Ec. cbn. rewrite lookup_insert_ne.
    + eapply Hn; [by apply list_elem_of_further|done..].
    + intros <-. destruct Hl as [_ E]. rewrite (Hn t ck) in E; [done|by apply list_elem_of_further|done..].
  - intros k ck z Hk Ek. destruct (Ho k ck z) as [Ho1 Ho2]; [by apply list_elem_of_further|done|]. split; [done|]. intros Ez.
    apply Hkeep; [by apply Ho2|]. intros ->. apply (proj2 Kl k ck old t sv); [by apply list_elem_of_further|done..].
  - cbn in *. lia.
Qed.

(** *** Creating *)

Lemma live_added y s c hash i t x svx :
  srvs (y_st y) !! s = None →
  live (added s c hash i t y) x svx ↔ x = s ∧ svx = server_of_conf c hash i ∨ x ≠ s ∧ live y x svx.
Proof.
  intros Hs. unfold live. cbn. rewrite elem_of_app, list_elem_of_singleton.
  destruct (decide (x = s)) as [->|Hne]; [rewrite lookup_insert_eq|rewrite lookup_insert_ne by done]; naive_solver.
Qed.

Lemma added_steady y s c hash i t todo :
  steady y (s :: todo) → s ∉ todo → (∀ k, k ∈ s :: todo → k ∈ l0) → cs !! s = Some c → sc_conf c = None →
  sc_hash c = Some hash → idx_pointer_add (server_indexs (y_st y)) s = Ret (i, t) → steady (added s c hash i t y) todo.
Proof.
  intros Hsd Hst Hl0 Es Ec Eh Et. pose proof Hsd as [Hi [Hsrv Hfd Hlog Hport Hep] Kf Kl Kp Hd Hcs Hn Ho Hr].
  pose proof (Hn s c (list_elem_of_here _ _) Es Ec) as Hs. pose proof (λ x svx, live_added y s c hash i t x svx Hs) as Hla.
  pose proof (ck_done _ _ _ _ Hck s c (Hl0 s (list_elem_of_here _ _)) Es) as Hp. unfold prepared in Hp. rewrite Ec in Hp.
  destruct Hp as (Hpos & Hh & [f Ef] & Hno). assert (used_nr (server_indexs (y_st y)) < Z.to_nat IPT_ARRAY_SIZE)%nat as Hrm by (cbn [length] in Hr; lia).
  assert (cservers (y_conf y) !! s = Some c) as Ecs by (rewrite Hcs; [done|apply list_elem_of_here]).
  assert (sock_of c = Some (sc_listen_fd c)) as Esk by (unfold sock_of; by rewrite (proj2 (Z.leb_le _ _))).
  destruct (server_create_run s c hash y h Ecs Eh) as (y' & E & Hi'); [congruence|done..|].
  rewrite (server_create_eq s c hash i t y Ecs Eh Et) in E. injection E as <-.
  assert (∀ x svx, live (added s c hash i t y) x svx → x = s ∧ svx = server_of_conf c hash i ∨ x ≠ s ∧ live y x svx) as Hsub by (intros; by apply Hla).
  assert (keyed kfd sock_of cs (added s c hash i t y) todo) as Kf'
    by (eapply keyed_step; [exact Hsub|right; intros z [= <-]; exact Esk|done|done|by apply own_fd|done]).
  assert (keyed klog sc_access_filp cs (added s c hash i t y) todo) as Kl'
    by (eapply keyed_step; [exact Hsub|right; intros z Ez; exact Ez|done|done|by apply own_log|done]).
  assert (keyed kport cport cs (added s c hash i t y) todo) as Kp'
    by (eapply keyed_step; [exact Hsub|right; intros z [= <-]; unfold cport; by rewrite Ec|done|done|by apply own_port|done]).
  destruct (Ho s c (sc_listen_fd c) (list_elem_of_here _ _) Es) as [Hof _], (Ho s c f (list_elem_of_here _ _) Es) as [_ Hol].
  split; [done| |done|done|done|done| | | |].
  - split; [|apply Kf'|apply Kl'|apply Kp'|].
    + intros x Hx. destruct (decide (x = s)) as [->|Hne].
      * exists (server_of_conf c hash i), f. split_and!; [apply Hla; by left|done|by apply Hof|done|by apply Hol].
      * cbn in Hx. rewrite elem_of_app, list_elem_of_singleton in Hx. destruct (Hsrv x) as (svx & fx & Hlx & ? & ? & ? & ?); [tauto|].
        exists svx, fx. split_and!; [apply Hla; by right|done..].
    + intros z. cbn [added y_epoll]. rewrite elem_of_union, elem_of_singleton, Hep. split.
      * intros [(x & svx & Hlx & E)| ->].
        -- exists x, svx. split; [|done]. apply Hla. right. split; [|done]. intros ->. destruct Hlx. congruence.
        -- exists s, (server_of_conf c hash i). split; [apply Hla; by left|done].
      * intros (x & svx & [[-> ->]|[_ Hlx]]%Hla & E); [right; by injection E|left; by exists x, svx].
  - intros k Hk. cbn. rewrite lookup_delete_ne; [apply Hcs; by apply list_elem_of_further|]. intros <-. done.
  - intros k ck Hk Ek Eck. cbn. rewrite lookup_insert_ne; [|intros <-; done]. eapply Hn; [by apply list_elem_of_further|done..].
  - intros k ck z Hk Ek. apply (Ho k); [by apply list_elem_of_further|done].
  - change (server_indexs (y_st (added s c hash i t y))) with t.
    rewrite (used_nr_add (server_indexs (y_st y)) s i t (ci_idx _ _ _ _ (li_cache _ Hi)) Hrm Et). cbn [length] in Hr. lia.
Qed.

(** *** All configured servers *)

(** The live server a configured one ends up as. *)
Definition target (s : Z) : Z := match cs !! s with Some c => default s (sc_conf c) | None => s end.

Abbreviation origin := (λ s, origin_of y0 s (target s)).

Record loading y dn todo : Prop := {
  lg_steady : steady y todo;
  lg_match : ∀ s c s2, s ∈ todo → cs !! s = Some c → sc_conf c = Some s2 → ∃ sv2, live y s2 sv2 ∧ m !! s2 = Some sv2;
  lg_servers : ∃ rest, servers (y_st y) = rest ++ (target <$> dn) ∧
    ∀ s2, s2 ∈ rest → ∃ s c, s ∈ todo ∧ cs !! s = Some c ∧ sc_conf c = Some s2;
  lg_done : ∀ s c0, s ∈ dn → cservers (y_conf y0) !! s = Some c0 → ∃ sv, srvs (y_st y) !! target s = Some sv ∧ serves c0 sv ∧ origin s sv;
  lg_gone : ∀ s sv, live y1 s sv → s_conf sv = None →
    s ∈ deleted_servers (y_st y) ∧ srvs (y_st y) !! s = Some (set_s_deleted true sv);
  lg_log : ∀ e, error_log_apart e y1 → (∀ s c, s ∈ l0 → cs !! s = Some c → sc_access_filp c ≠ Some e) → error_log_apart e y
}.

Lemma cs_at s : s ∈ l0 → ∃ c0 c, cservers (y_conf y0) !! s = Some c0 ∧ cs !! s = Some c ∧ same_settings c0 c ∧ prepared y0 m s c.
Proof.
  intros Hs. destruct (op_cs _ _ _ _ _ _ _ Hop s Hs) as (c0 & c & E0 & E & Hss). exists c0, c. split_and!; [done..|].
  by apply (ck_done _ _ _ _ Hck).
Qed.

Lemma target_inj s s' : s ∈ l0 → s' ∈ l0 → target s = target s' → s = s'.
Proof.
  intros Hs Hs' E. destruct (cs_at s Hs) as (? & c & _ & Es & _ & Hp), (cs_at s' Hs') as (? & c' & _ & Es' & _ & Hp').
  unfold target in E. rewrite Es, Es' in E. unfold prepared in *.
  pose proof (listed_not_live y0 (li_lists _ Hinv) Hconf) as Hnl.
  destruct (sc_conf c) as [t|], (sc_conf c') as [t'|]; cbn in E; [|..|done].
  - subst t'. destruct Hp as (_ & _ & sv & E1 & Ec & _), Hp' as (_ & _ & sv' & E1' & Ec' & _). congruence.
  - subst t. destruct Hp as (Hin & _). by destruct (Hnl s').
  - subst t'. destruct Hp' as (Hin & _). by destruct (Hnl s).
Qed.

(** Not the deleted servers: [x] is deleted, [t] is live or new. *)
Lemma gone_stays y y' t svt :
  (∀ s sv, live y1 s sv → s_conf sv = None → s ∈ deleted_servers (y_st y) ∧ srvs (y_st y) !! s = Some (set_s_deleted true sv)) →
  deleted_servers (y_st y') = deleted_servers (y_st y) → srvs (y_st y') = <[t := svt]> (srvs (y_st y)) → t ∉ deleted_servers (y_st y) →
  ∀ s sv, live y1 s sv → s_conf sv = None → s ∈ deleted_servers (y_st y') ∧ srvs (y_st y') !! s = Some (set_s_deleted true sv).
Proof.
  intros Hg Ed Es Ht s sv Hl Ec. destruct (Hg s sv Hl Ec) as [Hd E]. rewrite Ed, Es, lookup_insert_ne; [done|]. by intros ->.
Qed.

(** [s] is next: its target is [t], and no server loaded before has it. *)
Record next dn (s : Z) todo (c0 c : server_conf) : Prop := {
  nx_in : s ∈ l0;
  nx_out : s ∉ todo;
  nx_all : ∀ k, k ∈ s :: todo → k ∈ l0;
  nx_cs : cservers (y_conf y0) !! s = Some c0 ∧ cs !! s = Some c;
  nx_prep : same_settings c0 c ∧ prepared y0 m s c;
  nx_target : ∀ k, k ∈ dn → target k ≠ target s
}.
Lemma next_here dn s todo : l0 = dn ++ s :: todo → ∃ c0 c, next dn s todo c0 c.
Proof.
  intros El. pose proof (cn_nodup _ Hconf) as Hnd. rewrite El in Hnd. apply NoDup_app in Hnd as (_ & Hdis & [Hst _]%NoDup_cons).
  assert (s ∈ l0) as Hs by (rewrite El; set_solver). destruct (cs_at s Hs) as (c0 & c & E0 & Es & Hss & Hp). exists c0, c.
  split; [done..|intros k Hk; rewrite El; set_solver|done|done|]. intros k Hk E.
  assert (k = s) as -> by (apply target_inj; [rewrite El; set_solver|done..]). apply (Hdis s Hk), list_elem_of_here.
Qed.

Lemma done_next dn s todo c0 c y y' svt :
  next dn s todo c0 c → loading y dn (s :: todo) → srvs (y_st y') = <[target s := svt]> (srvs (y_st y)) → serves c0 svt → origin s svt →
  ∀ k ck, k ∈ dn ++ [s] → cservers (y_conf y0) !! k = Some ck → ∃ sv, srvs (y_st y') !! target k = Some sv ∧ serves ck sv ∧ origin k sv.
Proof.
  intros [_ _ _ [E0 _] _ Ht] Hld E' Hsv Hor k ck [Hk| ->%list_elem_of_singleton]%elem_of_app Ek; rewrite E'.
  - rewrite lookup_insert_ne by (symmetry; by apply Ht). by apply (lg_done _ _ _ Hld).
  - exists svt. rewrite lookup_insert_eq. assert (ck = c0) as -> by congruence. done.
Qed.

Lemma update_step y dn s todo c0 c t :
  next dn s todo c0 c → loading y dn (s :: todo) → sc_conf c = Some t →
  ∃ y', server_update t c y = Ret (tt, y') ∧ loading y' (dn ++ [s]) todo.
Proof.
  intros Hnx Hld Ec. pose proof Hnx as [Hs Hst Hl0 [E0 Es] [Hss Hp] Htn]. pose proof Hld as [Hsd Hm (rest & Er & Hrest) _ Hg Hel].
  destruct (Hm s c t (list_elem_of_here _ _) Es Ec) as (sv & Hl & Emt). assert (target s = t) as Et by (unfold target; by rewrite Es, Ec).
  destruct (lv_srv _ (sd_live _ _ Hsd) t (proj1 Hl)) as (sv' & f & Hl' & Hdel & _ & Ef & _).
  assert (sv' = sv) as -> by (destruct Hl, Hl'; congruence). rewrite (server_update_eq t c sv y (proj2 Hl)) by (by eexists).
  eexists. split; [reflexivity|]. unfold prepared in Hp. rewrite Ec in Hp. destruct Hp as (Hts & _ & sv2 & Em2 & Econf & Hport & Hlog).
  assert (sv2 = sv) as -> by congruence. split.
  - by eapply renewed_steady.
  - intros k ck s2 Hk Ek Eck. destruct (Hm k ck s2) as (svk & Hlk & Emk); [by apply list_elem_of_further|done..|]. exists svk.
    split; [|done]. apply live_renewed; [done|]. right. split; [|done]. intros ->. apply Hst.
    replace s with k; [done|]. apply target_inj; [apply Hl0; by apply list_elem_of_further|done|]. rewrite Et. unfold target. by rewrite Ek, Eck.
  - exists (list_remove_one t rest). cbn. rewrite Er. split.
    + rewrite fmap_app, app_assoc. cbn. rewrite Et. f_equal. unfold list_remove_one. rewrite filter_app. f_equal.
      apply list_remove_one_notin. intros (k & E & Hk)%list_elem_of_fmap. apply (Htn k Hk). congruence.
    + intros s2 [Hs2 Hne]%elem_of_list_remove_one. destruct (Hrest s2 Hs2) as (k & ck & [->|Hk]%elem_of_cons & Ek & Eck); [|by exists k, ck].
      congruence.
  - eapply (done_next dn s todo c0 c y _ (updated c sv)); [done|done|by rewrite Et|by apply updated_serves|]. left. rewrite Et.
    destruct (y1_back t sv) as (sv0 & o & Hl0' & Esv); [by split|]. exists sv0. split; [done|]. pose proof (updated_items c sv) as []. rewrite Esv in *. by split.
  - eapply (gone_stays _ _ t); [done|reflexivity|reflexivity|]. intros Hx. destruct (li_lists _ (sd_inv _ _ Hsd)) as [Hln _].
    apply NoDup_app in Hln as (_ & Hd & _). by apply (Hd t (proj1 Hl)).
  - intros e He Hce. destruct (Hel e He Hce) as [He1 He2]. pose proof (He2 t sv Hl) as Het. split.
    + cbn. unfold klog in Het. destruct (sc_access_filp c), (n_access_filp (s_net sv)); try done.
      apply elem_of_difference. split; [done|]. rewrite elem_of_singleton. congruence.
    + intros x svx [[-> ->]|[_ Hx]]%live_renewed; [|by eapply He2|done]. pose proof (Hce s c Hs Es) as Hc'.
      unfold klog, updated. by destruct (sc_access_filp c).
Qed.

Lemma create_step y dn s todo c0 c :
  next dn s todo c0 c → loading y dn (s :: todo) → sc_conf c = None →
  ∃ y', server_create s y = Ret (tt, y') ∧ loading y' (dn ++ [s]) todo.
Proof.
  intros Hnx Hld Ec. pose proof Hnx as [Hs Hst Hl0 [E0 Es] [Hss Hp] Htn]. pose proof Hld as [Hsd Hm (rest & Er & Hrest) _ Hg Hel].
  assert (cservers (y_conf y) !! s = Some c) as Ecs by (rewrite (sd_cs _ _ Hsd); [done|apply list_elem_of_here]).
  assert (target s = s) as Et by (unfold target; by rewrite Es, Ec). unfold prepared in Hp. rewrite Ec in Hp. destruct Hp as (Hpos & Hh & [f Ef] & Hno).
  assert (used_nr (server_indexs (y_st y)) < Z.to_nat IPT_ARRAY_SIZE)%nat as Hu by (pose proof (sd_room _ _ Hsd) as Hr; cbn [length] in Hr; lia).
  destruct (idx_add_get (server_indexs (y_st y)) s (ci_idx _ _ _ _ (li_cache _ (sd_inv _ _ Hsd))) Hu) as (i & tb & Etb & _).
  pose proof (sd_new _ _ Hsd s c (list_elem_of_here _ _) Es Ec) as Hsn.
  erewrite server_create_eq; [|done|exact Hh|exact Etb]. eexists. split; [reflexivity|]. split.
  - by eapply added_steady.
  - intros k ck s2 Hk Ek Eck. destruct (Hm k ck s2) as (svk & Hlk & Emk); [by apply list_elem_of_further|done..|]. exists svk.
    split; [|done]. apply live_added; [done|]. right. split; [|done]. intros ->. destruct Hlk. congruence.
  - exists rest. cbn. rewrite Er, fmap_app, <- app_assoc. cbn. rewrite Et. split; [done|]. intros s2 Hs2.
    destruct (Hrest s2 Hs2) as (k & ck & [->|Hk]%elem_of_cons & Ek & Eck); [congruence|by exists k, ck].
  - eapply (done_next dn s todo c0 c y); [done|done|cbn; by rewrite Et| |right; split_and!; [done..|]].
    2:{ intros s2 sv2 Hl2. destruct (y1_forth s2 sv2 Hl2) as [o [Hs2 Em]]. by apply (Hno s2 _ Hs2 Em). }
    assert (∃ fd hh o f, c = prep c0 fd hh o f) as (? & ? & ? & ? & ->) by (by repeat eexists). done.
  - eapply gone_stays; [done|reflexivity|reflexivity|]. intros Hx. destruct (li_lists _ (sd_inv _ _ Hsd)) as [_ Hls].
    assert (is_Some (srvs (y_st y) !! s)) as [? ?] by (apply Hls, elem_of_app; by right). congruence.
  - intros e He Hce. destruct (Hel e He Hce) as [He1 He2]. split; [done|].
    intros x svx [[-> ->]|[_ Hx]]%live_added; [|by eapply He2|done]. exact (Hce s c Hs Es).
Qed.

Lemma load_loop todo dn y :
  l0 = dn ++ todo → loading y dn todo → ∃ y', for_each load_server todo y = Ret (tt, y') ∧ loading y' l0 [].
Proof.
  revert dn y. induction todo as [|s todo IH]; intros dn y El Hld; cbn [for_each].
  { exists y. split; [done|]. rewrite app_nil_r in El. by rewrite El. }
  destruct (next_here dn s todo El) as (c0 & c & Hnx).
  assert (∃ y', load_server s y = Ret (tt, y') ∧ loading y' (dn ++ [s]) todo) as (y' & E & Hld').
  { unfold load_server, load_cserver. erewrite bind_ret; [|erewrite bind_ret; [|reflexivity]; rewrite (sd_cs _ _ (lg_steady _ _ _ Hld)) by apply list_elem_of_here;
      rewrite (proj2 (nx_cs _ _ _ _ _ Hnx)); reflexivity].
    destruct (sc_conf c) as [t|] eqn:Ec; [by eapply update_step|by eapply create_step]. }
  erewrite bind_ret; [|exact E]. apply (IH (dn ++ [s])); [by rewrite <- app_assoc|done].
Qed.

Lemma server_conf_load_spec : ∃ y', server_conf_load y1 = Ret (tt, y') ∧ loading y' l0 [].
Proof.
  unfold server_conf_load. erewrite bind_ret; [|reflexivity]. change (cf_servers (conf_cycle (y_conf y1))) with l0.
  assert (NoDup (servers (y_st y1))) as Hnd by (destruct (li_lists _ y1_inv) as [Hnd _]; by apply NoDup_app in Hnd as (? & _)).
  destruct (delete_loop (servers (y_st y1)) y1) as (y & E & [Hsd Hb Hkp Hg Hel]); [|done|done|].
  { split; [apply y1_steady|done|done| |done]. intros s sv [Hs _] _ Hn. done. }
  erewrite bind_ret; [|exact E]. apply (load_loop l0 []); [done|]. split; [done| | | | |auto].
  - intros s c s2 Hs Es Ec. destruct (cs_at s Hs) as (_ & c' & _ & Es' & _ & Hp). assert (c' = c) as -> by congruence.
    unfold prepared in Hp. rewrite Ec in Hp. destruct Hp as (Hin & _ & sv2 & E2 & Ek & _). exists sv2. split; [|done].
    apply Hkp; [by split|left; by rewrite Ek].
  - exists (servers (y_st y)). split; [by rewrite app_nil_r|]. intros s2 Hs2.
    destruct (lv_srv _ (sd_live _ _ Hsd) s2 Hs2) as (sv2 & _ & Hl & _). pose proof (Hb _ _ Hl) as Hl1. destruct (s_conf sv2) as [k|] eqn:Ek.
    + destruct (ck_conf _ _ _ _ Hck s2 sv2 k (proj1 Hl1) (proj2 Hl1) Ek) as (Hk & c & ? & ?). by exists k, c.
    + destruct (Hg s2 sv2 Hl1 Ek) as [Hd _]; [apply not_elem_of_nil|]. destruct (li_lists _ (sd_inv _ _ Hsd)) as [Hn _].
      apply NoDup_app in Hn as (_ & Hn & _). by destruct (Hn s2 Hs2).
  - by intros ? ? ?%not_elem_of_nil.
  - intros s sv Hl Ek. apply Hg; [done..|apply not_elem_of_nil].
Qed.
End load.

(** ** Check, then load or roll back *)

Section atomic.
Context {AS IS PS : Type} `{Allocator AS} `{Allocator IS} `{Allocator PS}.
Context (tcp_bind : csys AS IS PS → Z → Z) (fopen : csys AS IS PS → list Z → option Z).
Context (hash_mem : csys AS IS PS → bool * bool).
Implicit Types (y : csys AS IS PS).

(** Nothing happened, but that [s_conf], which only a check reads, changed. *)
Record undone y y' : Prop := {
  ud_fds : y_fds y' = y_fds y;
  ud_logs : y_logs y' = y_logs y;
  ud_epoll : y_epoll y' = y_epoll y;
  ud_st : y_st y' = set_srvs (srvs (y_st y')) (y_st y);
  ud_srvs : ∀ s, set_s_conf None <$> srvs (y_st y') !! s = set_s_conf None <$> srvs (y_st y) !! s
}.

(** The live servers are the configured ones, in their order; the others of [y]
    are deleted. *)
Record servers_reloaded y y' : Prop := {
  rl_nr : length (servers (y_st y')) = length (listed y);
  rl_servers : ∀ i s c, listed y !! i = Some s → cservers (y_conf y) !! s = Some c →
    ∃ t sv, servers (y_st y') !! i = Some t ∧ srvs (y_st y') !! t = Some sv ∧ serves c sv ∧ origin_of y s t sv;
  rl_gone : ∀ s sv, live y s sv →
    (∀ k c, k ∈ listed y → cservers (y_conf y) !! k = Some c → sc_listen_port c ≠ s_listen_port sv) →
    s ∈ deleted_servers (y_st y') ∧ ∃ o, srvs (y_st y') !! s = Some (set_s_deleted true (set_s_conf o sv))
}.
(** No item is touched. *)
Record reloaded y y' : Prop := {
  rl_items : dst (y_st y') = dst (y_st y);
  rl_live : servers_reloaded y y'
}.

Lemma loading_reloaded y h m cs F L y' :
  life_inv (Life y h) → conf_ok y → opened y (getters h) (putters h) m cs F L → checked y (listed y) m cs →
  loading y h m cs F L y' (listed y) [] → reloaded y y'.
Proof.
  intros Hi Hc Hop Hck [Hsd _ (rest & Er & Hrest) Hdone Hg _].
  assert (servers (y_st y') = target cs <$> listed y) as Es.
  { destruct rest as [|x rest]; [done|]. destruct (Hrest x) as (? & ? & ?%not_elem_of_nil & _); [apply list_elem_of_here|done]. }
  split; [apply (sd_dst _ _ _ _ _ Hsd)|]. split.
  - by rewrite Es, length_fmap.
  - intros i s c Hs Ec. destruct (Hdone s c) as (sv & Esv & Hsv & Hor); [by eapply list_elem_of_lookup_2|done|].
    exists (target cs s), sv. by rewrite Es, list_lookup_fmap, Hs.
  - intros s sv Hl Hno. destruct (y1_forth y h m cs F L Hi Hop s sv Hl) as [o Hl1]. destruct (Hg s (set_s_conf o sv) Hl1) as [Hd E].
    { destruct (s_conf (set_s_conf o sv)) as [k|] eqn:Ek; [|done]. destruct (ck_conf _ _ _ _ Hck s _ k (proj1 Hl1) (proj2 Hl1) Ek) as (Hk & c & Ec & Ecc).
      pose proof (ck_done _ _ _ _ Hck k c Hk Ec) as Hp. unfold prepared in Hp. rewrite Ecc in Hp. destruct Hp as (_ & _ & sv2 & E2 & _ & Hport & _).
      destruct (op_cs _ _ _ _ _ _ _ Hop k Hk) as (c0 & c' & E0 & E' & Hss). assert (c' = c) as -> by congruence.
      destruct (Hno k c0 Hk E0). rewrite Hss in Hport. cbn in Hport. rewrite <- Hport. destruct Hl1 as [_ Em].
      assert (sv2 = set_s_conf o sv) as -> by (cbn in Em; congruence). done. }
    split; [done|]. by exists o.
Qed.

Lemma live_ports y :
  live_ok y → ∀ s s' sv sv', s ∈ servers (y_st y) → s' ∈ servers (y_st y) → srvs (y_st y) !! s = Some sv → srvs (y_st y) !! s' = Some sv' →
    s_listen_port sv = s_listen_port sv' → s = s'.
Proof.
  intros Hl s s' sv sv' Hs Hs' Es Es' E. apply (lv_port _ Hl s s' sv sv' (s_listen_port sv)); [by split..|done|]. unfold kport. by rewrite E.
Qed.

Lemma server_reload_spec y h :
  (∀ y port, 0 ≤ tcp_bind y port → tcp_bind y port ∉ y_fds y) → (∀ y name f, fopen y name = Some f → f ∉ y_logs y) →
  life_inv (Life y h) → live_ok y → conf_ok y →
  (used_nr (server_indexs (y_st y)) + length (listed y) ≤ Z.to_nat IPT_ARRAY_SIZE)%nat →
  ∃ rc y1, server_conf_check tcp_bind fopen hash_mem y = Ret (rc, y1) ∧
    (rc = OHC_ERROR ∧ (∃ y2, server_conf_rollback y1 = Ret (tt, y2) ∧ life_inv (Life y2 h) ∧ undone y y2) ∨
     rc = OHC_OK ∧ (∃ y2, server_conf_load y1 = Ret (tt, y2) ∧ life_inv (Life y2 h) ∧ live_ok y2 ∧ reloaded y y2)).
Proof.
  intros Hb Hf Hi Hl Hc Hroom.
  pose proof (live_ports _ Hl) as Hports.
  destruct (server_conf_check_spec tcp_bind fopen hash_mem Hb Hf y _ _ (li_cache _ Hi) (li_lists _ Hi) Hc Hports)
    as (rc & m & cs & F & L & E & Hop & Hor).
  exists rc, (cat y m cs F L). split; [done|]. destruct Hor as [[-> Hck]| ->]; [right|left]; (split; [done|]).
  - destruct (server_conf_load_spec y h m cs F L Hi Hl Hc Hop Hck Hroom) as (y2 & E2 & Hld). exists y2. split; [done|].
    destruct (lg_steady _ _ _ _ _ _ _ _ _ Hld). split_and!; [done..|]. by eapply loading_reloaded.
  - exists (cat y m cs (y_fds y) (y_logs y)). split.
    { exact (server_conf_rollback_spec y _ _ m cs F L Hop). }
    split; [destruct (y1_inv y h m cs F L Hi Hop); by split|]. split; try done. apply (op_srv _ _ _ _ _ _ _ Hop).
Qed.

End atomic.

(** *** Two configurations in a row

    The first has servers on 8535 and 8536, the second on 8536 and 8537. *)

#[local] Existing Instance CacheProofs.demo_alloc.
Abbreviation demo_csys := (csys ohc_slab_t ohc_slab_t ohc_slab_t).
Definition demo_bind (y : demo_csys) (port : Z) : Z := if decide (port ∈ y_fds y) then -1 else port.
Definition demo_fopen (y : demo_csys) (name : list Z) : option Z :=
  let f := Z.of_nat (length name) in if decide (f ∈ y_logs y) then None else Some f.
Definition demo_hash_mem (y : demo_csys) : bool * bool := (true, true).
Definition demo_cserver (port : Z) (log : string) : server_conf :=
  set_sc_listen_fd (-1) (set_sc_listen_port port (set_sc_access_log (bytes log) server_init)).
Definition demo_cstate (l : list (Z * server_conf)) : cstate :=
  CState (set_cf_servers l.*1 conf_init) server_init [] [] (list_to_map l) ∅ true.
Definition demo_reload (l : list (Z * server_conf)) (y : demo_csys) : demo_csys :=
  match server_conf_check demo_bind demo_fopen demo_hash_mem (set_y_conf (demo_cstate l) y) with
  | Ret (OHC_OK, y1) => match server_conf_load y1 with Ret (_, y2) => y2 | Fail _ => y end
  | _ => y
  end.
Definition demo_first : list (Z * server_conf) := [(61, demo_cserver 8535 "a"); (62, demo_cserver 8536 "ab")].
Definition demo_second : list (Z * server_conf) := [(71, demo_cserver 8536 "ab"); (72, demo_cserver 8537 "abc")].

Lemma demo_bind_fresh (y : demo_csys) port : 0 ≤ demo_bind y port → demo_bind y port ∉ y_fds y.
Proof. unfold demo_bind. by destruct (decide _). Qed.
Lemma demo_fopen_fresh (y : demo_csys) name f : demo_fopen y name = Some f → f ∉ y_logs y.
Proof. unfold demo_fopen. destruct (decide _); [done|]. by intros [= <-]. Qed.

(** A configuration that is parsed changes nothing else. *)
Lemma life_inv_conf v (y : demo_csys) h : life_inv (Life y h) → life_inv (Life (set_y_conf v y) h).
Proof. intros []. by split. Qed.
Lemma live_ok_conf v (y : demo_csys) : live_ok y → live_ok (set_y_conf v y).
Proof. intros []. by split. Qed.

(** The hypotheses on the configuration, by evaluation. *)
Lemma demo_conf_ok l (y : demo_csys) :
  bool_decide (NoDup l.*1) = true →
  forallb (λ p : Z * server_conf, bool_decide (sc_listen_fd p.2 = -1 ∧ sc_conf p.2 = None ∧ sc_access_filp p.2 = None) &&
    match sc_hash p.2, srvs (y_st y) !! p.1 with None, None => true | _, _ => false end) l = true →
  conf_ok (set_y_conf (demo_cstate l) y).
Proof.
  rewrite bool_decide_eq_true. intros Hnd Hall. rewrite forallb_forall in Hall.
  assert (∀ s, s ∈ l.*1 → ∃ c, (s, c) ∈ l) as Hin by (intros s ([? c] & -> & ?)%list_elem_of_fmap; by exists c).
  split; [done|..]; intros s [c Hs]%Hin; pose proof (Hall _ (proj1 (list_elem_of_In _ _) Hs)) as Hp;
    apply andb_prop in Hp as [(E1 & E2 & E3)%bool_decide_eq_true E4]; cbn [fst snd] in *.
  - exists c. split; [by apply elem_of_list_to_map_1|]. unfold fresh. destruct c. cbn in *. subst. by destruct sc_hash.
  - cbn. by destruct (sc_hash c), (srvs (y_st y) !! s).
Qed.

Lemma demo_reloaded l h (y : demo_csys) :
  life_inv (Life y h) → live_ok y → conf_ok (set_y_conf (demo_cstate l) y) →
  (used_nr (server_indexs (y_st y)) + length l ≤ Z.to_nat IPT_ARRAY_SIZE)%nat →
  match server_conf_check demo_bind demo_fopen demo_hash_mem (set_y_conf (demo_cstate l) y) with Ret (OHC_OK, _) => true | _ => false end = true →
  life_inv (Life (demo_reload l y) h) ∧ live_ok (demo_reload l y) ∧ reloaded (set_y_conf (demo_cstate l) y) (demo_reload l y).
Proof.
  intros Hi Hl Hc Hr Hok. unfold demo_reload.
  destruct (server_reload_spec demo_bind demo_fopen demo_hash_mem (set_y_conf (demo_cstate l) y) h) as (rc & y1 & E & Hor);
    [apply demo_bind_fresh|apply demo_fopen_fresh|by apply life_inv_conf|by apply live_ok_conf|done|cbn; by rewrite length_fmap|].
  rewrite E in Hok |- *. destruct Hor as [[-> _]|[-> (y2 & E2 & ? & ? & ?)]]; [done|]. by rewrite E2.
Qed.

Lemma demo_first_ok : life_inv (Life (demo_reload demo_first demo_sys) []) ∧ live_ok (demo_reload demo_first demo_sys).
Proof.
  destruct (demo_reloaded demo_first [] demo_sys) as (? & ? & _); [apply empty_cache_inv, demo_empty| | | | |done].
  - split; try (by intros ? ? ? ? ? [?%not_elem_of_nil _]); [by intros ? ?%not_elem_of_nil|].
    intros z. split; [by intros ?%not_elem_of_empty|]. by intros (? & ? & [?%not_elem_of_nil _] & _).
  - apply demo_conf_ok; vm_compute; reflexivity.
  - apply Nat.leb_le. vm_compute. reflexivity.
  - vm_compute. reflexivity.
Qed.

