(* ===== verification/DeviceReload.v ===== *)
(** * A new configuration of the devices

    [device_conf_check] either prepares every configured device or fails, and
    then [device_conf_rollback] closes exactly what the check opened.  After a
    check that succeeded [device_conf_load] makes the live devices the configured
    ones: one whose file was in use before stays, with its items; another is added
    empty; and a device that is not configured any more is deleted.

    A check changes the live devices only in [d_conf]; [cad y m cs F] is the
    system [y] with the devices [m], the configured devices [cs], and the open
    files [F]. *)

From Stdlib Require Import String.
From stdpp Require Import prelude fin_maps gmap.
From S2P Require Import Prelude IdxPointer StrUtil IpBucket Slab Hash Device DeviceInv DeviceOps DeviceConf.
From S2P Require Import Http Server ServerInv ServerOps ServerExpire ServerPut.
From S2P Require Import Conf ServerConf DeviceLoad Cache DeviceLife Life CacheProofs Owned.

Lemma list_move_last (W T : list Z) d2 : d2 ∉ T →
  list_remove_one d2 (filter (λ d, d ∉ T) W ++ T) ++ [d2] = filter (λ d, d ∉ T ++ [d2]) W ++ (T ++ [d2]).
Proof.
  intros Hd. unfold list_remove_one. rewrite filter_app, list_filter_filter, (list_filter_all (λ x, x ≠ d2) T) by (by intros x Hx ->).
  rewrite <- app_assoc. f_equal. apply list_filter_iff. intros x. rewrite not_elem_of_app, list_elem_of_singleton. tauto.
Qed.
Lemma list_add_last (W T : list Z) d : d ∉ W → (filter (λ d, d ∉ T) W ++ T) ++ [d] = filter (λ x, x ∉ T ++ [d]) W ++ (T ++ [d]).
Proof.
  intros Hd. rewrite <- app_assoc. f_equal. apply filter_ext_in. intros x Hx.
  rewrite not_elem_of_app, list_elem_of_singleton. split; [|tauto]. intros ?. split; [done|]. by intros ->.
Qed.

(** The file of a device, and the descriptor it is open with. *)
Definition file_ids (dv : ohc_device_t) : Z * Z := (d_dev dv, d_inode dv).
Definition fd_of (dv : ohc_device_t) : option Z := if 0 <=? d_fd dv then Some (d_fd dv) else None.

(** As the parser leaves a configured device. *)
Definition parsed_device (c : ohc_device_t) : Prop := c = set_d_filename (d_filename c) (set_d_fd (-1) device_zero).
(** The check changes what it finds out of the file, and the match. *)
Definition same_dconf (c0 c : ohc_device_t) : Prop :=
  set_d_dev 0 (set_d_inode 0 (set_d_fd 0 (set_d_capacity 0 (set_d_conf None c)))) =
  set_d_dev 0 (set_d_inode 0 (set_d_fd 0 (set_d_capacity 0 (set_d_conf None c0)))).

Lemma same_dconf_name c0 c : same_dconf c0 c → d_filename c = d_filename c0.
Proof. intros E. apply (f_equal d_filename) in E. exact E. Qed.

(** ** The capacity of a file *)

Lemma device_capacity_ok check m cap :
  (∀ size, m = S_REG size → 0 ≤ size) → device_capacity check m = inr cap → 0 ≤ cap ≤ SENDFILE_LIMIT ∧ (512 | cap).
Proof.
  intros Hreg. unfold device_capacity.
  assert (∀ c, 0 ≤ c → (512 | c) →
    (if SENDFILE_LIMIT <? c then if check then inl "file is too big(at most 0x4020010000)"%string else inr SENDFILE_LIMIT
     else inr c) = inr cap → 0 ≤ cap ≤ SENDFILE_LIMIT ∧ (512 | cap)) as Hlim.
  { intros c Hc Hd. destruct (Z.ltb_spec SENDFILE_LIMIT c); [destruct check; [done|]|]; intros [= <-].
    - split; [done|]. by exists 537919616.
    - split; [lia|done]. }
  destruct m as [size|[n|]|]; [| |done|done]; apply Hlim.
  - specialize (Hreg size eq_refl). by apply Z.land_nonneg; left.
  - change (Z.lnot 0x1FF) with (Z.lnot (Z.ones 9)). rewrite <- Z.ldiff_land, Z.ldiff_ones_r, Z.shiftl_mul_pow2 by done.
    change (2 ^ 9) with 512. by eexists.
  - by apply wrap_range.
  - unfold wrap. rewrite Z.shiftl_mul_pow2 by done. change (2 ^ 9) with 512. change (2 ^ 64) with (512 * 2 ^ 55).
    rewrite (Z.mul_comm n), Z.mul_mod_distr_l by done. apply Z.divide_factor_l.
Qed.

Section reload.
Context {AS IS PS : Type} `{Allocator AS} `{Allocator IS} `{Allocator PS}.
Context (stat : list Z → option filestat).
Implicit Types (y : csys AS IS PS) (m cs : gmap Z ohc_device_t) (F : gset Z) (l dn : list Z).

Definition dlisted y : list Z := cf_devices (conf_cycle (y_conf y)).

(** A parsed configuration: its devices are apart from each other and from the
    live ones. *)
Record dconf_ok y : Prop := {
  dn_nodup : NoDup (dlisted y);
  dn_parsed : ∀ d, d ∈ dlisted y → ∃ c, cdevices (y_conf y) !! d = Some c ∧ parsed_device c;
  dn_apart : ∀ d, d ∈ dlisted y → devs (dst (y_st y)) !! d = None
}.

Definition cad y m cs F : csys AS IS PS :=
  CSys (set_dst (set_devs m (dst (y_st y))) (y_st y)) (set_cdevices cs (y_conf y)) F (y_logs y) (y_epoll y).

(** No two devices of the list are the same file. *)
Definition distinct_files (ds : dstore AS) : Prop :=
  ∀ d d' dv dv', d ∈ devices ds → d' ∈ devices ds → devs ds !! d = Some dv → devs ds !! d' = Some dv' →
    file_ids dv = file_ids dv' → d = d'.

(** The configured device [d] is the live device [d2]: the one that had the file,
    as it was but for its name, or a new and empty one, with the file open. *)
Definition took_over y y2 (d d2 : Z) : Prop :=
  ∃ c0 fs dv', cdevices (y_conf y) !! d = Some c0 ∧ stat (d_filename c0) = Some fs ∧
    devs (dst (y_st y2)) !! d2 = Some dv' ∧ d_filename dv' = d_filename c0 ∧ file_ids dv' = (st_dev fs, st_ino fs) ∧
    (d2 ∈ devices (dst (y_st y)) ∧ (∃ dv, devs (dst (y_st y)) !! d2 = Some dv ∧
       dv' = set_d_filename (d_filename c0) (set_d_conf (Some d) dv)) ∨
     d2 = d ∧ (d2 ∉ devices (dst (y_st y))) ∧ (∃ i, registered (dst (y_st y2)) i d2 dv') ∧
       0 ≤ d_fd dv' ∧ (d_fd dv' ∉ y_fds y) ∧ ∀ x, OItem x ∉ order_head dv').

(** What a successful reload of the devices leaves. *)
Record devices_reloaded y y2 : Prop := {
  dr_devices : Forall2 (took_over y y2) (dlisted y) (devices (dst (y_st y2)));
  dr_items : item_mem (dst (y_st y2)) = item_mem (dst (y_st y));
  dr_gone : ∀ d, d ∈ devices (dst (y_st y)) → d ∉ devices (dst (y_st y2)) →
    d ∈ deleted_devices (dst (y_st y2)) ∨ devs (dst (y_st y2)) !! d = None;
  dr_deleted : ∀ d, d ∈ deleted_devices (dst (y_st y)) → d ∈ deleted_devices (dst (y_st y2));
  dr_files : distinct_files (dst (y_st y)) → distinct_files (dst (y_st y2))
}.
(** The files that are open now and were not are those of the new devices. *)
Record dev_reloaded y y2 : Prop := {
  dr_live : devices_reloaded y y2;
  dr_fds : ∀ z, z ∈ y_fds y2 ↔
    z ∈ y_fds y ∨ ∃ d dv, d ∈ dlisted y ∧ devs (dst (y_st y2)) !! d = Some dv ∧ d_fd dv = z
}.

(** ** Steps of the check *)

Lemma load_cdevice_cad y m cs F d c : cs !! d = Some c → load_cdevice d (cad y m cs F) = Ret (c, cad y m cs F).
Proof. intros E. unfold load_cdevice. erewrite bind_ret; [|reflexivity]. cbn. by rewrite E. Qed.
Lemma upd_cdevice_cad y m cs F d f c :
  cs !! d = Some c → upd_cdevice d f (cad y m cs F) = Ret (tt, cad y m (<[d := f c]> cs) F).
Proof.
  intros E. unfold upd_cdevice. erewrite bind_ret; [|by apply load_cdevice_cad]. unfold modify, cad. cbn.
  by rewrite (alter_at f cs d c E).
Qed.
Lemma load_live_cad y m cs F d dv : m !! d = Some dv → load_live d (cad y m cs F) = Ret (dv, cad y m cs F).
Proof. intros E. unfold load_live. rewrite (dev_run _ _ dv (y_st (cad y m cs F))); [done|]. by apply lift_read, load_dev_run. Qed.
Lemma upd_live_cad y m cs F d f dv :
  m !! d = Some dv → dev (upd_dev d f) (cad y m cs F) = Ret (tt, cad y (<[d := f dv]> m) cs F).
Proof. intros E. erewrite dev_run; [|apply lift_run, upd_dev_run; exact E]. done. Qed.

(** The search compares the devices before [stop]. *)
Lemma search_inode_spec load dv ino head stop y (c : Z → ohc_device_t) :
  (∀ d, d ∈ head → load d y = Ret (c d, y)) →
  ∃ r, device_search_inode load dv ino head stop y = Ret (r, y) ∧
    match r with
    | Some d => d ∈ head ∧ file_ids (c d) = (dv, ino)
    | None => ∀ l1 l2 d, head = l1 ++ l2 → stop ∉ l1 → d ∈ l1 → file_ids (c d) ≠ (dv, ino)
    end.
Proof.
  induction head as [|k head IH]; intros Hload; cbn [device_search_inode].
  { exists None. split; [done|]. intros [|] l2 d E; [by intros _ ?%not_elem_of_nil|done]. }
  case_decide as Hk.
  { exists None. split; [done|]. intros [|k' l1] l2 d E Hs Hd; [by apply not_elem_of_nil in Hd|].
    injection E as <- _. subst k. rewrite not_elem_of_cons in Hs. by destruct Hs. }
  erewrite bind_ret; [|apply Hload, list_elem_of_here].
  destruct (Z.eqb_spec (d_inode (c k)) ino) as [E1|E1]; cbn [andb].
  2: destruct IH as (r & E & Hr); [intros; by apply Hload, list_elem_of_further|].
  1: destruct (Z.eqb_spec (d_dev (c k)) dv) as [E2|E2].
  1: { exists (Some k). split; [done|]. split; [apply list_elem_of_here|]. unfold file_ids. congruence. }
  1: destruct IH as (r & E & Hr); [intros; by apply Hload, list_elem_of_further|].
  all: exists r; split; [done|]; destruct r as [d|]; [split; [by apply list_elem_of_further; apply Hr|by apply Hr]|].
  all: intros [|k' l1] l2 d Eh Hs Hd; [by apply not_elem_of_nil in Hd|]; injection Eh as <- Eh.
  all: apply elem_of_cons in Hd as [-> |Hd]; [unfold file_ids; congruence|].
  all: rewrite not_elem_of_cons in Hs; by eapply Hr; [exact Eh|apply Hs|].
Qed.

(** A list without [stop]. *)
Lemma search_inode_all load dv ino head stop y c :
  (∀ d, d ∈ head → load d y = Ret (c d, y)) → stop ∉ head →
  ∃ r, device_search_inode load dv ino head stop y = Ret (r, y) ∧
    match r with
    | Some d => d ∈ head ∧ file_ids (c d) = (dv, ino)
    | None => ∀ d, d ∈ head → file_ids (c d) ≠ (dv, ino)
    end.
Proof.
  intros Hload Hs. destruct (search_inode_spec load dv ino head stop y c Hload) as (r & E & Hr). exists r. split; [done|].
  destruct r; [done|]. intros d Hd. apply (Hr head []); [by rewrite app_nil_r|done..].
Qed.

(** ** Rolling back *)

Lemma drollback_spec y ls m cs F :
  (∀ d, d ∈ ls → is_Some (cs !! d)) →
  ∃ F', for_each rollback_device ls (cad y m cs F) = Ret (tt, cad y m cs F') ∧
    ∀ z, z ∈ F' ↔ z ∈ F ∧ ¬ ∃ d c, d ∈ ls ∧ cs !! d = Some c ∧ fd_of c = Some z.
Proof.
  revert F. induction ls as [|k ls IH]; intros F Hls; cbn [for_each].
  { exists F. split; [done|]. intros z. split; [intros ?; split; [done|]; by intros (? & ? & ?%not_elem_of_nil & _)|by intros []]. }
  destruct (Hls k (list_elem_of_here _ _)) as [c Ek].
  assert (∃ F1, rollback_device k (cad y m cs F) = Ret (tt, cad y m cs F1) ∧ ∀ z, z ∈ F1 ↔ z ∈ F ∧ fd_of c ≠ Some z)
    as (F1 & E & HF).
  { unfold rollback_device, fd_of. exists (if 0 <=? d_fd c then F ∖ {[d_fd c]} else F).
    erewrite bind_ret; [|by apply load_cdevice_cad]. split; [by destruct (0 <=? d_fd c)|].
    intros z. destruct (0 <=? d_fd c); set_solver. }
  erewrite bind_ret; [|exact E]. destruct (IH F1) as (F' & E' & HF'); [intros; by apply Hls, list_elem_of_further|].
  exists F'. split; [done|]. intros z. rewrite HF', HF, (owns_cons _ k ls cs c _ Ek). naive_solver.
Qed.

Lemma cad_start y : y = cad y (devs (dst (y_st y))) (cdevices (y_conf y)) (y_fds y).
Proof. by destruct y as [[[]] [] ? ? ?]. Qed.

Context (open : csys AS IS PS → list Z → Z).
Context (Hopen : ∀ y name, 0 ≤ open y name → open y name ∉ y_fds y).
Context (Hstat : ∀ name fs size, stat name = Some fs → st_mode fs = S_REG size → 0 ≤ size).

Section check.
Context y0 (G P : list Z) (Hinv : cache_inv (y_st y0) None G P) (Hconf : dconf_ok y0).
Abbreviation ds0 := (dst (y_st y0)).
Abbreviation l0 := (dlisted y0).

(** What the check did so far: the live devices are as they were but for
    [d_conf], the configured ones have their settings, and the open files are the
    ones from before and those of configured devices. *)
Record dopened m cs F : Prop := {
  dop_devs : ∀ d, set_d_conf None <$> m !! d = set_d_conf None <$> devs ds0 !! d;
  dop_cs : ∀ d, d ∈ l0 → ∃ c0 c, cdevices (y_conf y0) !! d = Some c0 ∧ cs !! d = Some c ∧ same_dconf c0 c;
  dop_fds : owned fd_of l0 cs F (y_fds y0)
}.

(** A configured device is ready to be loaded. *)
Definition dprepared m (d : Z) (c : ohc_device_t) : Prop :=
  (∃ fs, stat (d_filename c) = Some fs ∧ file_ids c = (st_dev fs, st_ino fs)) ∧
  match d_conf c with
  | Some d2 => d2 ∈ devices ds0 ∧ d_fd c = -1 ∧ ∃ dv2, m !! d2 = Some dv2 ∧ d_conf dv2 = Some d ∧ file_ids dv2 = file_ids c
  | None => 0 ≤ d_fd c ∧ fresh_device c ∧ d_used c = 0 ∧
      ∀ d2 dv2, d2 ∈ devices ds0 → m !! d2 = Some dv2 → file_ids dv2 ≠ file_ids c
  end.

(** The devices [dn] passed the check. *)
Record dchecked dn m cs : Prop := {
  dck_done : ∀ d c, d ∈ dn → cs !! d = Some c → dprepared m d c;
  dck_todo : ∀ d, d ∉ dn → cs !! d = cdevices (y_conf y0) !! d;
  dck_conf : ∀ d2 dv2 d, d2 ∈ devices ds0 → m !! d2 = Some dv2 → d_conf dv2 = Some d →
    d ∈ dn ∧ ∃ c, cs !! d = Some c ∧ d_conf c = Some d2;
  dck_new : ∀ d d' c c', d ∈ dn → d' ∈ dn → cs !! d = Some c → cs !! d' = Some c' →
    d_conf c = None → d_conf c' = None → file_ids c = file_ids c' → d = d'
}.

Lemma dop_live m cs F d dv : dopened m cs F → devs ds0 !! d = Some dv →
  ∃ dv', m !! d = Some dv' ∧ set_d_conf None dv' = set_d_conf None dv.
Proof.
  intros Ho E. pose proof (dop_devs _ _ _ Ho d) as Hd. rewrite E in Hd. destruct (m !! d) as [dv'|]; [|done].
  apply (inj Some) in Hd. by exists dv'.
Qed.
Lemma dop_back m cs F d dv' : dopened m cs F → m !! d = Some dv' →
  ∃ dv, devs ds0 !! d = Some dv ∧ set_d_conf None dv' = set_d_conf None dv.
Proof.
  intros Ho E. pose proof (dop_devs _ _ _ Ho d) as Hd. rewrite E in Hd. destruct (devs ds0 !! d) as [dv|]; [|done].
  apply (inj Some) in Hd. by exists dv.
Qed.
Lemma live_in_devs d : d ∈ devices ds0 ∨ d ∈ deleted_devices ds0 → is_Some (devs ds0 !! d).
Proof.
  pose proof (ci_dev _ _ _ _ Hinv) as Hi. intros [Hd|Hd].
  - destruct (di_devices _ Hi) as [_ Hall]. destruct (Hall d Hd) as (dv & E & _). by eexists.
  - destruct (di_deleted _ Hi) as [_ Hall]. destruct (Hall d Hd) as (i & dv & (_ & E & _) & _). by eexists.
Qed.
Lemma dlisted_apart d : d ∈ l0 → (d ∉ devices ds0) ∧ d ∉ deleted_devices ds0.
Proof.
  intros Hd. pose proof (dn_apart _ Hconf d Hd) as Hn.
  split; intros Hin; (destruct (live_in_devs d) as [? E]; [auto|congruence]).
Qed.

(** A change of [d_conf] of a live device. *)
Lemma dopened_match m cs F d2 dv2 o : dopened m cs F → m !! d2 = Some dv2 → dopened (<[d2 := set_d_conf o dv2]> m) cs F.
Proof.
  intros [Hd Hc Hf] E. split; [|done..]. intros d. rewrite <- Hd. destruct (decide (d = d2)) as [-> |].
  - by rewrite lookup_insert_eq, E.
  - by rewrite lookup_insert_ne.
Qed.
(** A change of a configured device, which opens a file or none. *)
Lemma dopened_upd m cs F d c c' :
  d ∈ l0 → cs !! d = Some c → same_dconf c c' → fd_of c' = fd_of c → dopened m cs F → dopened m (<[d := c']> cs) F.
Proof.
  intros Hd E Hs Hfd [Hm Hc Hf]. split; [done| |by eapply owned_same].
  intros k Hk. destruct (decide (k = d)) as [-> |]; [|rewrite lookup_insert_ne by done; by apply Hc].
  destruct (Hc d Hd) as (c0 & c1 & E0 & E1 & Hs0). rewrite E in E1. injection E1 as <-.
  exists c0, c'. rewrite lookup_insert_eq. split_and!; [done..|]. unfold same_dconf in *. congruence.
Qed.
Lemma dopened_fd m cs F d c fd :
  d ∈ l0 → cs !! d = Some c → d_fd c = -1 → 0 ≤ fd → fd ∉ F → dopened m cs F →
  dopened m (<[d := set_d_fd fd c]> cs) (F ∪ {[fd]}).
Proof.
  intros Hd E Hc Hfd Hn [Hm Hcs Hf]. split; [done| |].
  - intros k Hk. destruct (decide (k = d)) as [-> |]; [|rewrite lookup_insert_ne by done; by apply Hcs].
    destruct (Hcs d Hd) as (c0 & c1 & E0 & E1 & Hs0). rewrite E in E1. injection E1 as <-.
    exists c0. eexists. rewrite lookup_insert_eq. split_and!; [done..|]. unfold same_dconf in *. by rewrite <- Hs0.
  - eapply owned_add; try done; unfold fd_of; [by rewrite Hc|]. cbn. by rewrite (proj2 (Z.leb_le _ _)).
Qed.

(** *** One device *)

Lemma dprepared_match m d c d2 dv2 o :
  m !! d2 = Some dv2 → d_conf dv2 = None → dprepared m d c → dprepared (<[d2 := set_d_conf o dv2]> m) d c.
Proof.
  intros E Ec [Hf Hp]. split; [done|]. destruct (d_conf c) as [k|].
  - destruct Hp as (Hk & Hfd & dvk & Ek & Ekc & Hids). split_and!; [done..|]. exists dvk. split_and!; [|done..].
    rewrite lookup_insert_ne; [done|]. intros ->. congruence.
  - destruct Hp as (Hfd & Hfr & Hu & Hne). split_and!; [done..|].
    intros k dvk Hk [[<- <-]|[? ?]]%lookup_insert_Some; [by apply (Hne d2 dv2)|by apply (Hne k)].
Qed.

Lemma dchecked_match dn m cs d c d2 dv2 :
  d ∉ dn → dchecked dn m cs → d2 ∈ devices ds0 → m !! d2 = Some dv2 → d_conf dv2 = None → d_fd c = -1 →
  (∃ fs, stat (d_filename c) = Some fs ∧ file_ids c = (st_dev fs, st_ino fs)) → file_ids dv2 = file_ids c →
  dchecked (dn ++ [d]) (<[d2 := set_d_conf (Some d) dv2]> m) (<[d := set_d_conf (Some d2) c]> cs).
Proof.
  intros Hdn [Hdone Htodo Hcf Hnew] H2 E2 Ec Hfd Hst Hids. split.
  - intros k ck [Hk| ->%list_elem_of_singleton]%elem_of_app.
    + rewrite lookup_insert_ne by (by intros ->). intros Ek. apply dprepared_match; [done..|]. by apply Hdone.
    + rewrite lookup_insert_eq. intros [= <-]. split; [done|]. cbn. split_and!; [done..|]. eexists.
      rewrite lookup_insert_eq. by split_and!.
  - intros k [Hk Hkd]%not_elem_of_app. rewrite lookup_insert_ne; [by apply Htodo|]. intros ->.
    by apply Hkd, list_elem_of_singleton.
  - intros k dvk e Hk [[<- <-]|[Hne Ek]]%lookup_insert_Some; cbn.
    + intros [= <-]. split; [apply elem_of_app; right; apply list_elem_of_here|]. eexists. by rewrite lookup_insert_eq.
    + intros Ee. destruct (Hcf k dvk e Hk Ek Ee) as (He & ce & Ece & Ecc). split; [apply elem_of_app; by left|].
      exists ce. rewrite lookup_insert_ne; [done|]. by intros ->.
  - assert (∀ k ck, k ∈ dn ++ [d] → <[d := set_d_conf (Some d2) c]> cs !! k = Some ck → d_conf ck = None →
      k ∈ dn ∧ cs !! k = Some ck) as Hold.
    { intros k ck Hk [[<- <-]|[Hne Ek]]%lookup_insert_Some; [done|]. intros _. split; [|done].
      apply elem_of_app in Hk as [?| ->%list_elem_of_singleton]; done. }
    intros k k' ck ck' Hk Hk' Ek Ek' En En'. destruct (Hold k ck Hk Ek En) as [? ?], (Hold k' ck' Hk' Ek' En') as [? ?].
    by eapply Hnew.
Qed.

Lemma dchecked_new dn m cs d c :
  d ∉ dn → dchecked dn m cs → d_conf c = None → dprepared m d c →
  (∀ k ck, k ∈ dn → cs !! k = Some ck → file_ids ck ≠ file_ids c) → dchecked (dn ++ [d]) m (<[d := c]> cs).
Proof.
  intros Hdn [Hdone Htodo Hcf Hnew] Ec Hp Hdiff. split.
  - intros k ck [Hk| ->%list_elem_of_singleton]%elem_of_app.
    + rewrite lookup_insert_ne by (by intros ->). intros Ek. by apply Hdone.
    + rewrite lookup_insert_eq. by intros [= <-].
  - intros k [Hk Hkd]%not_elem_of_app. rewrite lookup_insert_ne; [by apply Htodo|]. intros ->.
    by apply Hkd, list_elem_of_singleton.
  - intros k dvk e Hk Ek Ee. destruct (Hcf k dvk e Hk Ek Ee) as (He & ce & Ece & Ecc). split; [apply elem_of_app; by left|].
    exists ce. rewrite lookup_insert_ne; [done|]. by intros ->.
  - intros k k' ck ck' [Hk| ->%list_elem_of_singleton]%elem_of_app [Hk'| ->%list_elem_of_singleton]%elem_of_app;
      rewrite ?lookup_insert_eq, ?lookup_insert_ne by (by intros ->); [by apply Hnew|..].
    + intros Ek [= <-] _ _ Hids. by destruct (Hdiff k ck Hk Ek).
    + intros [= <-] Ek' _ _ Hids. by destruct (Hdiff k' ck' Hk' Ek').
    + done.
Qed.

Lemma check_new_device_spec dn d todo m cs F c fs b :
  l0 = dn ++ d :: todo → d ∉ dn → dchecked dn m cs → dopened m (<[d := c]> cs) F →
  c = set_d_dev (st_dev fs) (set_d_inode (st_ino fs) (set_d_filename (d_filename c) (set_d_fd (-1) device_zero))) →
  stat (d_filename c) = Some fs →
  (∀ d2 dv2, d2 ∈ devices ds0 → m !! d2 = Some dv2 → file_ids dv2 ≠ file_ids c) →
  ∃ e cs' F', check_new_device open d fs b l0 (cad y0 m (<[d := c]> cs) F) = Ret (e, cad y0 m cs' F') ∧ dopened m cs' F' ∧
    (e = None → dchecked (dn ++ [d]) m cs').
Proof.
  intros El Hdn Hck Ho Hc Hst Hlive. unfold check_new_device, device_check_same.
  assert (d ∈ l0) as Hd by (rewrite El; apply elem_of_app; right; apply list_elem_of_here).
  set (cs1 := <[d := c]> cs) in *. assert (cs1 !! d = Some c) as Ec by apply lookup_insert_eq.
  destruct (search_inode_spec load_cdevice (d_dev c) (d_inode c) l0 d (cad y0 m cs1 F) (λ k, default c (cs1 !! k)))
    as (r & Es & Hr).
  { intros k Hk. destruct (dop_cs _ _ _ Ho k Hk) as (_ & ck & _ & Ek & _). rewrite Ek. by apply load_cdevice_cad. }
  erewrite bind_ret; [|by erewrite bind_ret; [|by apply load_cdevice_cad]].
  destruct r as [k|]; [exists (Some "duplicate devices"%string), cs1, F; by split_and!|].
  erewrite bind_ret; [|by apply load_cdevice_cad]. erewrite bind_ret; [|reflexivity].
  set (fd := open _ _). pose proof (Hopen (cad y0 m cs1 F) (d_filename c)) as Hfd. fold fd in Hfd. cbn in Hfd.
  erewrite bind_ret; [|by apply upd_cdevice_cad]. destruct (Z.ltb_spec fd 0) as [Hneg|Hpos].
  { eexists (Some _), _, _. split_and!; [reflexivity| |done]. apply (dopened_upd m cs1 F d c); try done.
    unfold fd_of. rewrite Hc. cbn. by destruct (Z.leb_spec 0 fd); [lia|]. }
  assert (dopened m (<[d := set_d_fd fd c]> cs1) (F ∪ {[fd]})) as Ho1.
  { apply dopened_fd; [done..|by rewrite Hc|done|by apply Hfd|done]. }
  erewrite bind_ret; [|reflexivity]. cbn [y_fds set_y_fds].
  match goal with |- context [match device_capacity ?x ?y with _ => _ end ?z] =>
    change z with (cad y0 m (<[d := set_d_fd fd c]> cs1) (F ∪ {[fd]})) end.
  destruct (device_capacity b (st_mode fs)) as [msg|cap] eqn:Ecap; [by eexists (Some _), _, _|].
  erewrite bind_ret; [|apply upd_cdevice_cad, lookup_insert_eq].
  eexists None, _, _. split; [reflexivity|]. split; [by eapply dopened_upd; [done|apply lookup_insert_eq|..]|]. intros _.
  unfold cs1. rewrite !insert_insert_eq. apply dchecked_new; [done..|by rewrite Hc| |].
  - split; [exists fs; split; [done|by rewrite Hc]|]. replace (d_conf _) with (@None Z) by (by rewrite Hc).
    destruct (device_capacity_ok b (st_mode fs) cap) as [Hcap H512]; [intros size; by eapply Hstat|done|].
    split_and!; [done|split; [done..|rewrite Hc; by split_and!|by rewrite Hc]|by rewrite Hc|done].
  - intros k ck Hk Ek. specialize (Hr dn (d :: todo) k El Hdn Hk). unfold cs1 in Hr.
    rewrite lookup_insert_ne, Ek in Hr by (by intros ->). exact Hr.
Qed.

Lemma check_device_spec dn d todo m cs F b :
  l0 = dn ++ d :: todo → d ∉ dn → dchecked dn m cs → dopened m cs F →
  ∃ e m' cs' F', check_device stat open d b l0 (cad y0 m cs F) = Ret (e, cad y0 m' cs' F') ∧ dopened m' cs' F' ∧
    (e = None → dchecked (dn ++ [d]) m' cs').
Proof.
  intros El Hdn Hck Ho. unfold check_device, device_check_same.
  assert (d ∈ l0) as Hd by (rewrite El; apply elem_of_app; right; apply list_elem_of_here).
  destruct (dlisted_apart d Hd) as [Hnl Hnd]. destruct (dn_parsed _ Hconf d Hd) as (c & Ec0 & Hp). unfold parsed_device in Hp.
  assert (cs !! d = Some c) as Ec by (by rewrite (dck_todo _ _ _ Hck d Hdn)).
  erewrite bind_ret; [|by apply load_cdevice_cad].
  destruct (stat (d_filename c)) as [fs|] eqn:Est; [|by eexists (Some _), _, _, _].
  erewrite bind_ret; [|by apply upd_cdevice_cad]. set (c1 := set_d_dev (st_dev fs) (set_d_inode (st_ino fs) c)).
  assert (dopened m (<[d := c1]> cs) F) as Ho1 by (by apply (dopened_upd m cs F d c)).
  set (cs1 := <[d := c1]> cs) in *. assert (cs1 !! d = Some c1) as Ec1 by apply lookup_insert_eq.
  assert (∀ head : list Z, (∀ k, k ∈ head → k ∈ devices ds0 ∨ k ∈ deleted_devices ds0) →
    ∀ k, k ∈ head → load_live k (cad y0 m cs1 F) = Ret (default c1 (m !! k), cad y0 m cs1 F)) as Hload.
  { intros head Hh k Hk. destruct (live_in_devs k) as [dv Ek]; [by apply Hh|].
    destruct (dop_live _ _ _ k dv Ho1 Ek) as (dvk & Emk & _). rewrite Emk. by apply load_live_cad. }
  erewrite bind_ret; [|reflexivity]. cbn [y_st cad dst set_dst deleted_devices set_devs devices].
  destruct (search_inode_all load_live (d_dev c1) (d_inode c1) (deleted_devices ds0) d (cad y0 m cs1 F) _
    (Hload _ (λ k Hk, or_intror Hk)) Hnd) as (r & Er & Hr).
  erewrite bind_ret; [|by erewrite bind_ret; [|by apply load_cdevice_cad]].
  assert (∃ closing, match r with Some d2 => dv2 ← load_live d2; mret (negb (d_fd dv2 =? -1)) | None => mret false end
    (cad y0 m cs1 F) = Ret (closing, cad y0 m cs1 F)) as (closing & Ecl).
  { destruct r as [d2|]; [|by eexists]. eexists. erewrite bind_ret; [reflexivity|].
    apply (Hload _ (λ k Hk, or_intror Hk)). by apply Hr. }
  erewrite bind_ret; [|exact Ecl]. destruct closing; [by eexists (Some _), _, _, _|].
  destruct (search_inode_all load_live (d_dev c1) (d_inode c1) (devices ds0) d (cad y0 m cs1 F) _
    (Hload _ (λ k Hk, or_introl Hk)) Hnl) as (r2 & Er2 & Hr2).
  erewrite bind_ret; [|by erewrite bind_ret; [|by apply load_cdevice_cad]].
  destruct r2 as [d2|].
  - destruct Hr2 as [Hd2 Hids]. destruct (live_in_devs d2) as [dv Ed2]; [by left|].
    destruct (dop_live _ _ _ d2 dv Ho1 Ed2) as (dv2 & Em2 & _). rewrite Em2 in Hids. cbn in Hids.
    erewrite bind_ret; [|by apply load_live_cad]. destruct (d_conf dv2) eqn:Ecf; [by eexists (Some _), _, _, _|].
    erewrite bind_ret; [|by apply upd_live_cad]. erewrite bind_ret; [|by apply upd_cdevice_cad].
    eexists None, _, _, _. split; [reflexivity|]. split.
    + apply dopened_match; [|done]. by apply (dopened_upd m cs1 F d c1).
    + intros _. unfold cs1. rewrite insert_insert_eq. apply dchecked_match; try done; [unfold c1; by rewrite Hp|by exists fs].
  - destruct (check_new_device_spec dn d todo m cs F c1 fs b) as (e & cs' & F' & E & ? & ?); try done.
    + unfold c1. by rewrite Hp at 1.
    + intros k dvk Hk Ek. specialize (Hr2 k Hk). by rewrite Ek in Hr2.
    + by exists e, m, cs', F'.
Qed.

(** *** All of them *)

Lemma check_devices_spec todo dn m cs F b count :
  l0 = dn ++ todo → dopened m cs F → dchecked dn m cs →
  ∃ rc m' cs' F', check_devices stat open todo l0 b count (cad y0 m cs F) = Ret (rc, cad y0 m' cs' F') ∧
    dopened m' cs' F' ∧ (rc = OHC_OK ∧ dchecked l0 m' cs' ∨ rc = OHC_ERROR).
Proof.
  revert dn m cs F count. induction todo as [|d todo IH]; intros dn m cs F count El Ho Hck; cbn [check_devices].
  { rewrite app_nil_r in El. eexists _, _, _, _. split; [reflexivity|]. split; [done|]. left. by rewrite El. }
  destruct (_ <=? _); [eexists _, _, _, _; split_and!; [reflexivity|done|by right]|].
  assert (d ∉ dn) as Hdn.
  { pose proof (dn_nodup _ Hconf) as Hnd. rewrite El in Hnd. apply NoDup_app in Hnd as (_ & Hdis & _). intros Hin.
    apply (Hdis d Hin), list_elem_of_here. }
  destruct (check_device_spec dn d todo m cs F b El Hdn Hck Ho) as (e & m' & cs' & F' & E & Ho' & Hck').
  erewrite bind_ret; [|exact E]. destruct e; [eexists _, _, _, _; split_and!; [reflexivity|done|by right]|].
  apply (IH (dn ++ [d])); [by rewrite <- app_assoc|done|by apply Hck'].
Qed.

Lemma dreset_spec ls m cs F :
  dopened m cs F → (∀ d, d ∈ ls → d ∈ devices ds0) →
  ∃ m', for_each (λ d, dev (upd_dev d (set_d_conf None))) ls (cad y0 m cs F) = Ret (tt, cad y0 m' cs F) ∧
    dopened m' cs F ∧ ∀ d dv, m' !! d = Some dv → d_conf dv = None ∨ ((d ∉ ls) ∧ m !! d = Some dv).
Proof.
  revert m. induction ls as [|k ls IH]; intros m Ho Hls; cbn [for_each].
  { exists m. split_and!; [done..|]. intros d dv E. right. split; [apply not_elem_of_nil|done]. }
  destruct (live_in_devs k) as [dv0 E0]; [left; apply Hls, list_elem_of_here|].
  destruct (dop_live _ _ _ k dv0 Ho E0) as (dv & Ek & _). erewrite bind_ret; [|by apply upd_live_cad].
  destruct (IH (<[k := set_d_conf None dv]> m)) as (m' & E & Ho' & Hm); [by apply dopened_match|intros; by apply Hls, list_elem_of_further|].
  exists m'. split_and!; [done..|]. intros d dv' Ed. destruct (Hm d dv' Ed) as [?|[Hn E']]; [by left|].
  apply lookup_insert_Some in E' as [[<- <-]|[Hne E']]; [by left|]. right. split; [|done]. by apply not_elem_of_cons.
Qed.

Lemma dopened_start : dopened (devs ds0) (cdevices (y_conf y0)) (y_fds y0).
Proof.
  split; [done|..].
  - intros d Hd. destruct (dn_parsed _ Hconf d Hd) as (c & E & _). by exists c, c.
  - assert (∀ d c, d ∈ l0 → cdevices (y_conf y0) !! d = Some c → fd_of c = None) as Hno.
    { intros d c Hd Ec. destruct (dn_parsed _ Hconf d Hd) as (c' & E & Hp). rewrite Ec in E. injection E as <-.
      unfold parsed_device in Hp. by rewrite Hp. }
    split.
    + intros z. split; [by left|]. intros [?|(d & c & Hd & Ec & Ez)]; [done|]. by rewrite (Hno d c Hd Ec) in Ez.
    + intros d c z Hd Ec Ez. by rewrite (Hno d c Hd Ec) in Ez.
    + intros d d' c c' z Hd _ Ec _ Ez. by rewrite (Hno d c Hd Ec) in Ez.
Qed.

Lemma device_conf_check_spec :
  ∃ rc m cs F, device_conf_check stat open y0 = Ret (rc, cad y0 m cs F) ∧
    dopened m cs F ∧ (rc = OHC_OK ∧ dchecked l0 m cs ∨ rc = OHC_ERROR).
Proof.
  unfold device_conf_check. erewrite bind_ret; [|reflexivity]. cbv zeta. fold l0.
  assert (∃ rc m cs F, mret (M := M (csys AS IS PS)) OHC_ERROR y0 = Ret (rc, cad y0 m cs F) ∧
    dopened m cs F ∧ (rc = OHC_OK ∧ dchecked l0 m cs ∨ rc = OHC_ERROR)) as Herr.
  { eexists _, _, _, _. split_and!; [rewrite <- cad_start; reflexivity|apply dopened_start|by right]. }
  case_decide; [done|]. destruct (_ <=? _); [done|].
  destruct (dreset_spec (devices ds0) _ _ _ dopened_start) as (m & E & Ho & Hm); [done|].
  rewrite <- cad_start in E. erewrite bind_ret; [|exact E]. apply (check_devices_spec l0 []); [done..|]. split; try done.
  - by intros ? ? ?%not_elem_of_nil.
  - intros d2 dv2 d Hd2 E2 Ec. destruct (Hm d2 dv2 E2) as [?|[? _]]; [congruence|done].
  - by intros ? ? ? ? ?%not_elem_of_nil.
Qed.

Lemma device_conf_rollback_spec m cs F :
  dopened m cs F → device_conf_rollback (cad y0 m cs F) = Ret (tt, cad y0 m cs (y_fds y0)).
Proof.
  intros [_ Hcs Hf]. unfold device_conf_rollback. erewrite bind_ret; [|reflexivity]. change (cf_devices _) with l0.
  destruct (drollback_spec y0 l0 m cs F) as (F' & E & HF); [intros d Hd; destruct (Hcs d Hd) as (? & ? & _ & -> & _); by eexists|].
  by rewrite E, (owned_close _ _ _ _ _ _ Hf HF).
Qed.

(** ** Loading *)

Section load.
Context m cs F (Ho : dopened m cs F) (Hck : dchecked l0 m cs).
Context (Htorn : ∀ d i dv, d ∈ devices ds0 → registered ds0 i d dv → d_kicked dv = false).
Context (Hroom : (used_nr (device_indexs ds0) + length l0 ≤ Z.to_nat IPT_ARRAY_SIZE)%nat).
Implicit Types (ds : dstore AS) (C : cstate).

(** The system with devices [ds] and configuration [C]; only these change. *)
Definition at_load ds C : csys AS IS PS := CSys (set_dst ds (y_st y0)) C F (y_logs y0) (y_epoll y0).
Definition kept (d : Z) : Prop := d_conf <$> m !! d ≠ Some None.
#[local] Instance kept_dec d : Decision (kept d).
Proof. unfold kept. apply _. Defined.

Lemma same_devs_checked ds :
  (∀ d, devs ds !! d = m !! d) → same_devs ds0 ds.
Proof.
  intros Hm d dv E _. destruct (dop_live _ _ _ d dv Ho E) as (dv' & E' & Hs). exists dv'. rewrite Hm. split; [done|].
  destruct dv, dv'. injection Hs as -> -> -> -> -> -> -> -> -> -> -> -> -> ->. by split.
Qed.

(** *** Deleting what is not configured *)

Record deletions (ls : list Z) ds ds' : Prop := {
  dl_devices : devices ds' = filter (λ d, (d ∉ ls) ∨ kept d) (devices ds);
  dl_items : item_mem ds' = item_mem ds;
  dl_table : device_indexs ds' = device_indexs ds;
  dl_devs : ∀ d, (d ∉ ls) ∨ kept d → devs ds' !! d = devs ds !! d;
  dl_gone : ∀ d, d ∈ ls → ¬ kept d → d ∈ deleted_devices ds' ∨ devs ds' !! d = None;
  dl_deleted : ∀ d, d ∈ deleted_devices ds → d ∈ deleted_devices ds'
}.

Lemma deletions_keep k ls ds ds' : kept k → deletions ls ds ds' → deletions (k :: ls) ds ds'.
Proof.
  intros Hk [Q1 Q2 Q3 Q4 Q5 Q6]. split; try done.
  - rewrite Q1. apply list_filter_iff. intros d. rewrite not_elem_of_cons. destruct (decide (d = k)) as [-> |]; naive_solver.
  - intros d Hd. apply Q4. rewrite not_elem_of_cons in Hd. naive_solver.
  - intros d [-> |Hd]%elem_of_cons Hn; [done|by apply Q5].
Qed.

Lemma deletions_step k ls ds ds1 ds' :
  k ∉ ls → ¬ kept k → removed k ds ds1 → deletions ls ds1 ds' → deletions (k :: ls) ds ds'.
Proof.
  intros Hkl Hk [R1 R2 R3 R4 R5] [Q1 Q2 Q3 Q4 Q5 Q6]. split; try congruence.
  - rewrite Q1, R1. unfold list_remove_one. rewrite list_filter_filter. apply list_filter_iff. intros d.
    rewrite not_elem_of_cons. destruct (decide (d = k)) as [-> |]; naive_solver.
  - intros d Hd. rewrite not_elem_of_cons in Hd. destruct (decide (d = k)) as [-> |Hne]; [naive_solver|].
    rewrite Q4, R4; naive_solver.
  - intros d [-> |Hd]%elem_of_cons Hn; [|by apply Q5]. destruct R5 as (dv & _ & [(_ & Ed & _)|(_ & _ & En)]).
    + left. apply Q6. rewrite Ed. apply list_elem_of_here.
    + right. rewrite Q4; [done|by left].
  - intros d Hd. apply Q6. destruct R5 as (dv & _ & [(_ & -> & _)|(_ & -> & _)]); [by apply list_elem_of_further|done].
Qed.

Lemma load_live_at ds C d dv : devs ds !! d = Some dv → load_live d (at_load ds C) = Ret (dv, at_load ds C).
Proof.
  intros E. unfold load_live. rewrite (dev_run _ _ dv (y_st (at_load ds C))); [done|]. by apply lift_read, load_dev_run.
Qed.

Lemma ddelete_loop ls ds C :
  cache_inv (set_dst ds (y_st y0)) None G P → NoDup ls →
  (∀ d, d ∈ ls → deletable ds d ∧ devs ds !! d = m !! d) →
  ∃ ds', for_each delete_unmatched_device ls (at_load ds C) = Ret (tt, at_load ds' C) ∧
    cache_inv (set_dst ds' (y_st y0)) None G P ∧ deletions ls ds ds'.
Proof.
  revert ds. induction ls as [|k ls IH]; intros ds Hi Hnd Hls; cbn [for_each].
  { exists ds. split_and!; [done..|]. split; try done; [|by intros ? ?%not_elem_of_nil].
    symmetry. apply list_filter_all. intros d _. left. apply not_elem_of_nil. }
  apply NoDup_cons in Hnd as [Hk Hnd]. destruct (Hls k (list_elem_of_here _ _)) as [Hdel Em].
  pose proof Hdel as [Hin _]. destruct (di_devices _ (ci_dev _ _ _ _ Hi)) as [_ Hlive].
  destruct (Hlive k Hin) as (dv & Ed & _). cbn in Ed.
  destruct (decide (kept k)) as [Hkept|Hkept].
  - assert (delete_unmatched_device k (at_load ds C) = Ret (tt, at_load ds C)) as E1.
    { unfold delete_unmatched_device. erewrite bind_ret; [|by apply load_live_at].
      unfold kept in Hkept. rewrite <- Em, Ed in Hkept. cbn in Hkept. by destruct (d_conf dv). }
    erewrite bind_ret; [|exact E1]. destruct (IH ds Hi Hnd) as (ds' & E & Hi' & Hdl).
    { intros d Hd. by apply Hls, list_elem_of_further. }
    exists ds'. split_and!; [done..|]. by apply deletions_keep.
  - destruct (device_delete_spec k _ G P Hi Hdel) as (ds1 & E1 & Hi1 & Hrm). cbn in E1, Hi1, Hrm.
    assert (delete_unmatched_device k (at_load ds C) = Ret (tt, at_load ds1 C)) as E2.
    { unfold delete_unmatched_device. erewrite bind_ret; [|by apply load_live_at].
      assert (d_conf dv = None) as ->.
      { unfold kept in Hkept. rewrite <- Em, Ed in Hkept. cbn in Hkept. destruct (d_conf dv); [|done]. by destruct Hkept. }
      by erewrite dev_run; [|exact E1]. }
    erewrite bind_ret; [|exact E2]. destruct (IH ds1 Hi1 Hnd) as (ds' & E & Hi' & Hdl).
    + intros d Hd. assert (d ≠ k) as Hne by (by intros ->). destruct (Hls d) as [[Hdi Hdt] Edm]; [by apply list_elem_of_further|].
      split; [split|by rewrite (rm_other _ _ _ Hrm)].
      * rewrite (rm_devices _ _ _ Hrm). by apply elem_of_list_remove_one.
      * intros i dv2 (F1 & F2 & F3). rewrite (rm_table _ _ _ Hrm) in F1. rewrite (rm_other _ _ _ Hrm) in F2 by done.
        by apply (Hdt i).
    + exists ds'. split_and!; [done..|]. by eapply deletions_step.
Qed.

(** *** The live devices become the configured ones *)

(** The device [d] of the configuration is this live one, or itself. *)
Definition target (d : Z) : Z := default d (cs !! d ≫= d_conf).
Abbreviation stay := (filter kept (devices ds0)).

Lemma dcs_at d : d ∈ l0 → ∃ c, cs !! d = Some c ∧ dprepared m d c.
Proof.
  intros Hd. destruct (dop_cs _ _ _ Ho d Hd) as (_ & c & _ & Ec & _). exists c. split; [done|]. by apply (dck_done _ _ _ Hck).
Qed.

Lemma dtarget_inj d d' : d ∈ l0 → d' ∈ l0 → target d = target d' → d = d'.
Proof.
  intros Hd Hd'. destruct (dcs_at d Hd) as (c & Ec & _ & Hp), (dcs_at d' Hd') as (c' & Ec' & _ & Hp').
  unfold target. rewrite Ec, Ec'. cbn. destruct (d_conf c) as [k|], (d_conf c') as [k'|]; cbn; [..|done].
  - intros <-. destruct Hp as (_ & _ & dv & E & E1 & _), Hp' as (_ & _ & dv' & E' & E1' & _). congruence.
  - intros ->. destruct Hp as (Hin & _). by destruct (dlisted_apart d' Hd').
  - intros <-. destruct Hp' as (Hin & _). by destruct (dlisted_apart d Hd).
Qed.
Lemma stay_target d2 : d2 ∈ stay → ∃ d, d ∈ l0 ∧ target d = d2.
Proof.
  rewrite list_elem_of_filter. unfold kept. intros [Hk Hin]. destruct (live_in_devs d2) as [dv E]; [by left|].
  destruct (dop_live _ _ _ d2 dv Ho E) as (dv2 & E2 & _). rewrite E2 in Hk. cbn in Hk.
  destruct (d_conf dv2) as [d|] eqn:Ed; [|done]. destruct (dck_conf _ _ _ Hck d2 dv2 d Hin E2 Ed) as (Hd & c & Ec & Ecc).
  exists d. split; [done|]. unfold target. rewrite Ec. cbn. by rewrite Ecc.
Qed.

(** What became of the configured device [d]. *)
Definition taken ds (d : Z) : Prop :=
  ∃ c, cs !! d = Some c ∧
    match d_conf c with
    | Some d2 => ∃ dv2, m !! d2 = Some dv2 ∧ devs ds !! d2 = Some (set_d_filename (d_filename c) dv2)
    | None => ∃ i dv', registered ds i d dv' ∧ same_file c dv' ∧ ∀ x, OItem x ∉ order_head dv'
    end.

(** The devices [dn] are loaded, after the others were deleted in [ds1]. *)
Record dloading ds1 dn ds C : Prop := {
  dg_inv : cache_inv (set_dst ds (y_st y0)) None G P;
  dg_devices : devices ds = filter (λ d2, d2 ∉ target <$> dn) stay ++ (target <$> dn);
  dg_deleted : deleted_devices ds = deleted_devices ds1;
  dg_items : item_mem ds = item_mem ds1;
  dg_devs : ∀ d2, d2 ∉ target <$> dn → devs ds !! d2 = devs ds1 !! d2;
  dg_conf : ∀ d, d ∈ l0 → d ∉ dn → cdevices C !! d = cs !! d;
  dg_rest : ∃ l D, C = set_conf_cycle (set_cf_devices l (conf_cycle (y_conf y0))) (set_cdevices D (y_conf y0));
  dg_taken : ∀ d, d ∈ dn → taken ds d;
  dg_room : (used_nr (device_indexs ds) + length l0 ≤ Z.to_nat IPT_ARRAY_SIZE + length dn)%nat
}.

Lemma taken_keep ds ds' d :
  (∀ i dv, registered ds i (target d) dv → registered ds' i (target d) dv) → devs ds' !! target d = devs ds !! target d →
  taken ds d → taken ds' d.
Proof.
  intros Hr Hd (c & Ec & Hc). unfold target in Hr, Hd. rewrite Ec in Hr, Hd. cbn in Hr, Hd. exists c. split; [done|].
  destruct (d_conf c) as [d2|]; cbn in Hr, Hd.
  - destruct Hc as (dv2 & E2 & E2'). exists dv2. by rewrite Hd.
  - destruct Hc as (i & dv' & Hrd & Hs & Hx). exists i, dv'. split_and!; [by apply Hr|done..].
Qed.

Lemma next_listed dn d todo : l0 = dn ++ d :: todo →
  d ∈ l0 ∧ (d ∉ dn) ∧ (target d ∉ target <$> dn) ∧ ∀ k, k ∈ dn → target k ≠ target d.
Proof.
  intros El. pose proof (dn_nodup _ Hconf) as Hnd. rewrite El in Hnd. apply NoDup_app in Hnd as (_ & Hdis & _).
  assert (d ∈ l0) as Hd by (rewrite El; apply elem_of_app; right; apply list_elem_of_here).
  assert (d ∉ dn) as Hdn by (intros Hin; apply (Hdis d Hin), list_elem_of_here).
  assert (∀ k, k ∈ dn → target k ≠ target d) as Hne.
  { intros k Hk E. apply dtarget_inj in E; [by subst k|rewrite El; apply elem_of_app; by left|done]. }
  split_and!; [done..| |done]. intros (k & E & Hk)%list_elem_of_fmap. by apply (Hne k).
Qed.

Section after_deletion.
Context ds1 (Hds1 : ∀ d2, d2 ∈ stay → devs ds1 !! d2 = m !! d2) (Hnew1 : ∀ d, d ∈ l0 → devs ds1 !! d = None).

Lemma dupdate_step dn d todo ds C c d2 :
  l0 = dn ++ d :: todo → dloading ds1 dn ds C → cs !! d = Some c → d_conf c = Some d2 →
  ∃ ds', load_device d (at_load ds C) = Ret (tt, at_load ds' C) ∧ dloading ds1 (dn ++ [d]) ds' C.
Proof.
  intros El [Gi Gd Gdl Git Gdv Gc Gz Gt Gr] Ec Ed2. destruct (next_listed dn d todo El) as (Hd & Hdn & Htd & Hne).
  assert (target d = d2) as Et by (unfold target; rewrite Ec; cbn; by rewrite Ed2). rewrite Et in Htd, Hne.
  destruct (dcs_at d Hd) as (c' & Ec' & _ & Hp). rewrite Ec in Ec'. injection Ec' as <-. rewrite Ed2 in Hp.
  destruct Hp as (Hin & _ & dv2 & E2 & Ecf & _).
  assert (d2 ∈ stay) as Hst by (apply list_elem_of_filter; split; [unfold kept; rewrite E2; cbn; congruence|done]).
  destruct (load_device_match d d2 c (at_load ds C) G P Gi) as (ds' & E & Hi' & Hrn); [cbn; by rewrite Gc|done| |].
  { cbn. rewrite Gd. apply elem_of_app. left. by apply list_elem_of_filter. }
  destruct Hrn as [R1 R2 R3 R4 (dv & R5 & R6)]. cbn in R1, R2, R3, R4, R5, R6. exists ds'. split; [exact E|].
  assert (dv = dv2) as -> by (rewrite Gdv, Hds1 in R5 by done; congruence).
  split; rewrite ?fmap_app; cbn [fmap list_fmap]; rewrite ?Et.
  - exact Hi'.
  - rewrite R1, Gd. by apply list_move_last.
  - congruence.
  - congruence.
  - intros k [Hk Hk2]%not_elem_of_app. rewrite R6, lookup_insert_ne; [by apply Gdv|]. intros ->.
    by apply Hk2, list_elem_of_singleton.
  - intros k Hk [Hkn _]%not_elem_of_app. by apply Gc.
  - done.
  - intros k [Hk| ->%list_elem_of_singleton]%elem_of_app.
    + apply (taken_keep ds); [..|by apply Gt].
      * intros i dvk (F1 & F2 & F3). split_and!; [by rewrite R4| |done]. rewrite R6, lookup_insert_ne; [done|].
        intros F4. by apply (Hne k Hk).
      * rewrite R6, lookup_insert_ne; [done|]. intros F4. by apply (Hne k Hk).
    + exists c. split; [done|]. rewrite Ed2. exists dv2. split; [done|]. by rewrite R6, lookup_insert_eq.
  - rewrite R4, length_app. cbn. lia.
Qed.

Lemma dcreate_step dn d todo ds C c :
  l0 = dn ++ d :: todo → dloading ds1 dn ds C → cs !! d = Some c → d_conf c = None →
  ∃ ds' C', load_device d (at_load ds C) = Ret (tt, at_load ds' C') ∧ dloading ds1 (dn ++ [d]) ds' C'.
Proof.
  intros El [Gi Gd Gdl Git Gdv Gc Gz Gt Gr] Ec Ed2. destruct (next_listed dn d todo El) as (Hd & Hdn & Htd & Hne).
  assert (target d = d) as Et by (unfold target; rewrite Ec; cbn; by rewrite Ed2). rewrite Et in Htd, Hne.
  destruct (dcs_at d Hd) as (c' & Ec' & _ & Hp). rewrite Ec in Ec'. injection Ec' as <-. rewrite Ed2 in Hp.
  destruct Hp as (_ & Hf & Hu & _). pose proof (f_equal length El) as Hlen. rewrite length_app in Hlen. cbn in Hlen.
  destruct (load_device_new d c (at_load ds C) G P Gi) as (ds' & E & Hi' & Ha);
    [cbn; by rewrite Gc|done..|cbn; rewrite Gdv by done; by apply Hnew1|cbn; lia|].
  destruct Ha as [A1 A2 A3 A4 (i & A5) A6 (j & dv' & A7 & A8 & A9)]. cbn in A1, A2, A3, A4, A5.
  pose proof (di_idx _ (ci_dev _ _ _ _ Gi)) as Hix. cbn in Hix.
  exists ds', (conf_taken d C). split; [exact E|]. split; rewrite ?fmap_app; cbn [fmap list_fmap]; rewrite ?Et.
  - exact Hi'.
  - rewrite A1, Gd. apply list_add_last. rewrite list_elem_of_filter. intros [_ Hin]. by destruct (dlisted_apart d Hd).
  - congruence.
  - congruence.
  - intros k [Hk Hk2]%not_elem_of_app. rewrite list_elem_of_singleton in Hk2. rewrite A4, lookup_insert_ne by done. by apply Gdv.
  - intros k Hk [Hkn Hkd]%not_elem_of_app. rewrite list_elem_of_singleton in Hkd. cbn. rewrite lookup_delete_ne by done. by apply Gc.
  - destruct Gz as (l & D & ->). by eexists _, _.
  - intros k [Hk| ->%list_elem_of_singleton]%elem_of_app.
    + pose proof (Hne k Hk) as Hkd. apply (taken_keep ds); [..|by apply Gt].
      * intros i' dvk (F1 & F2 & F3). apply A6; [done|]. split_and!; [done| |done]. cbn. by rewrite lookup_insert_ne.
      * by rewrite A4, lookup_insert_ne.
    + exists c. split; [done|]. rewrite Ed2. exists j, dv'. split_and!; [done..|].
      destruct A9 as [[_ ->]|[Hk|(a & -> & _)]]; [by intros x ?%not_elem_of_nil| |by intros x ?%list_elem_of_singleton].
      rewrite (do_kicked _ _ (di_dev _ (ci_dev _ _ _ _ Hi') _ _ _ A7) Hk). by intros x ?%not_elem_of_nil.
  - rewrite (used_nr_add _ _ _ _ Hix) by (exact A5 || lia). rewrite length_app. cbn. lia.
Qed.

Lemma dload_loop todo dn ds C :
  l0 = dn ++ todo → dloading ds1 dn ds C →
  ∃ ds' C', for_each load_device todo (at_load ds C) = Ret (tt, at_load ds' C') ∧ dloading ds1 l0 ds' C'.
Proof.
  revert dn ds C. induction todo as [|d todo IH]; intros dn ds C El Hl; cbn [for_each].
  { rewrite app_nil_r in El. exists ds, C. by rewrite El. }
  assert (∃ ds' C', load_device d (at_load ds C) = Ret (tt, at_load ds' C') ∧ dloading ds1 (dn ++ [d]) ds' C') as (ds' & C' & E & Hl').
  { destruct (next_listed dn d todo El) as (Hd & _). destruct (dcs_at d Hd) as (c & Ec & _). destruct (d_conf c) as [d2|] eqn:Ed2.
    - destruct (dupdate_step dn d todo ds C c d2 El Hl Ec Ed2) as (ds' & E & Hl'). eauto.
    - by eapply dcreate_step. }
  erewrite bind_ret; [|exact E]. apply (IH (dn ++ [d])); [by rewrite <- app_assoc|done].
Qed.

(** *** What the loaded devices are *)

Section loaded.
Context ds2 C2 (Hld : dloading ds1 l0 ds2 C2).

Lemma loaded_devices : devices ds2 = target <$> l0.
Proof.
  rewrite (dg_devices _ _ _ _ Hld), list_filter_nil; [done|]. intros d2 (d & Hd & <-)%stay_target Hn.
  by apply Hn, list_elem_of_fmap_2.
Qed.

(** The file of the live device is the one of the configured device. *)
Lemma loaded_file d : d ∈ l0 → ∃ c dv, cs !! d = Some c ∧ devs ds2 !! target d = Some dv ∧ file_ids dv = file_ids c.
Proof.
  intros Hd. destruct (dg_taken _ _ _ _ Hld d Hd) as (c & Ec & Ht). destruct (dcs_at d Hd) as (c' & Ec' & _ & Hp).
  rewrite Ec in Ec'. injection Ec' as <-. exists c. unfold target. rewrite Ec. cbn. destruct (d_conf c) as [d2|]; cbn.
  - destruct Ht as (dv2 & E2 & E2'), Hp as (_ & _ & dv & E & _ & Hids). rewrite E2 in E. injection E as ->.
    eexists. by split_and!.
  - destruct Ht as (i & dv' & (_ & E' & _) & Hs & _). exists dv'. split_and!; [done..|]. unfold file_ids.
    by rewrite (sf_dev _ _ Hs), (sf_inode _ _ Hs).
Qed.

Lemma loaded_distinct : distinct_files ds0 → distinct_files ds2.
Proof.
  intros Hdist k k' dv dv'. rewrite loaded_devices.
  intros (d & -> & Hd)%list_elem_of_fmap (d' & -> & Hd')%list_elem_of_fmap Ek Ek' Hids.
  destruct (loaded_file d Hd) as (c & dv1 & Ec & E1 & Hf), (loaded_file d' Hd') as (c' & dv1' & Ec' & E1' & Hf').
  assert (file_ids c = file_ids c') as Hcc by congruence. clear dv dv' dv1 dv1' Ek Ek' E1 E1' Hf Hf' Hids.
  destruct (dcs_at d Hd) as (x & Ex & _ & Hp), (dcs_at d' Hd') as (x' & Ex' & _ & Hp').
  assert (x = c) as -> by congruence. assert (x' = c') as -> by congruence.
  assert (∀ e dve, m !! e = Some dve → ∃ dve0, devs ds0 !! e = Some dve0 ∧ file_ids dve0 = file_ids dve) as Hback.
  { intros e dve Ee. destruct (dop_back _ _ _ e dve Ho Ee) as (dve0 & E0 & Hs). exists dve0. split; [done|].
    apply (f_equal file_ids) in Hs. by destruct dve, dve0. }
  unfold target. rewrite Ec, Ec'. cbn. destruct (d_conf c) as [e|] eqn:Hc, (d_conf c') as [e'|] eqn:Hc'; cbn.
  - destruct Hp as (Hin & _ & dve & Ee & _ & Hi), Hp' as (Hin' & _ & dve' & Ee' & _ & Hi').
    destruct (Hback e dve Ee) as (dv0 & F0 & Hi0), (Hback e' dve' Ee') as (dv0' & F0' & Hi0').
    apply (Hdist e e' dv0 dv0'); congruence.
  - destruct Hp as (Hin & _ & dve & Ee & _ & Hi), Hp' as (_ & _ & _ & Hne). destruct (Hne e dve); [done..|congruence].
  - destruct Hp' as (Hin & _ & dve & Ee & _ & Hi), Hp as (_ & _ & _ & Hne). destruct (Hne e' dve); [done..|congruence].
  - by apply (dck_new _ _ _ Hck d d' c c').
Qed.

(** At the address of a configured device there is a live one when it was added. *)
Lemma loaded_new d dv : d ∈ l0 → devs ds2 !! d = Some dv →
  ∃ c, cs !! d = Some c ∧ d_conf c = None ∧ same_file c dv.
Proof.
  intros Hd E. destruct (decide (d ∈ target <$> l0)) as [(k & Ek & Hk)%list_elem_of_fmap|Hn].
  - destruct (dcs_at k Hk) as (c & Ec & _ & Hp). unfold target in Ek. rewrite Ec in Ek. cbn in Ek.
    destruct (d_conf c) as [d2|] eqn:Hc; cbn in Ek; subst.
    + destruct Hp as (Hin & _). by destruct (dlisted_apart d2 Hd).
    + exists c. split_and!; [done..|]. destruct (dg_taken _ _ _ _ Hld k Hk) as (c' & Ec' & Ht).
      rewrite Ec in Ec'. injection Ec' as <-. rewrite Hc in Ht. destruct Ht as (i & dv' & (_ & E' & _) & Hs & _). congruence.
  - rewrite (dg_devs _ _ _ _ Hld d Hn), (Hnew1 d Hd) in E. done.
Qed.

Lemma loaded_fds z : z ∈ F ↔ z ∈ y_fds y0 ∨ ∃ d dv, d ∈ l0 ∧ devs ds2 !! d = Some dv ∧ d_fd dv = z.
Proof.
  rewrite (ow_set _ _ _ _ _ (dop_fds _ _ _ Ho)). split; (intros [?|(d & c & Hd & E & Ez)]; [by left|right]).
  - destruct (loaded_file d Hd) as (c' & dv & Ec' & Edv & _). assert (c' = c) as -> by congruence.
    destruct (dcs_at d Hd) as (x & Ex & _ & Hp). assert (x = c) as -> by congruence.
    unfold target in Edv. rewrite E in Edv. cbn in Edv. unfold fd_of in Ez. destruct (d_conf c) as [d2|] eqn:Hc; cbn in Edv.
    + destruct Hp as (_ & Hfd & _). by rewrite Hfd in Ez.
    + destruct (loaded_new d dv Hd Edv) as (x & Ex' & _ & Hs). assert (x = c) as -> by congruence.
      exists d, dv. split_and!; [done..|]. rewrite (sf_fd _ _ Hs). destruct (0 <=? d_fd c); congruence.
  - destruct (loaded_new d c Hd E) as (x & Ex & Hc & Hs). destruct (dcs_at d Hd) as (x' & Ex' & _ & Hp).
    assert (x' = x) as -> by congruence. rewrite Hc in Hp. destruct Hp as (Hfd & _). exists d, x. split_and!; [done..|].
    unfold fd_of. rewrite (proj2 (Z.leb_le _ _)) by done. by rewrite <- Ez, (sf_fd _ _ Hs).
Qed.
Lemma loaded_took d : d ∈ l0 → took_over y0 (at_load ds2 C2) d (target d).
Proof.
  intros Hd. destruct (dop_cs _ _ _ Ho d Hd) as (c0 & c & Ec0 & Ec & Hs). destruct (dcs_at d Hd) as (x & Ex & (fs & Hfs & Hids) & Hp).
  assert (x = c) as -> by congruence. destruct (loaded_file d Hd) as (x & dv' & Ex' & Edv & Hf). assert (x = c) as -> by congruence.
  pose proof (same_dconf_name _ _ Hs) as Hname. destruct (dg_taken _ _ _ _ Hld d Hd) as (x & Ex2 & Ht).
  assert (x = c) as -> by congruence. exists c0, fs, dv'. unfold target in *. rewrite Ec in *. cbn in *.
  destruct (d_conf c) as [d2|] eqn:Hc; cbn in *.
  - destruct Ht as (dv2 & E2 & E2'), Hp as (Hin & _ & x & Ex2' & Hcf & _). assert (x = dv2) as -> by congruence.
    destruct (dop_back _ _ _ d2 dv2 Ho E2) as (dv & E0 & Hs0). assert (dv' = set_d_filename (d_filename c) dv2) as -> by congruence.
    assert (dv2 = set_d_conf (Some d) dv) as ->.
    { destruct dv, dv2. cbn in *. injection Hs0 as -> -> -> -> -> -> -> -> -> -> -> -> -> ->. by subst. }
    split_and!; try done; [congruence..|]. left. split; [done|]. exists dv. split; [done|]. by rewrite Hname.
  - destruct Ht as (i & x & Hr & Hsf & Hno). assert (x = dv') as -> by (destruct Hr as (_ & ? & _); congruence).
    destruct Hp as (Hfd & _). split_and!; try done; [congruence|by rewrite (sf_filename _ _ Hsf)|congruence|]. right.
    split_and!; [done|by apply dlisted_apart|by exists i|by rewrite (sf_fd _ _ Hsf)| |done]. rewrite (sf_fd _ _ Hsf).
    apply (ow_new _ _ _ _ _ (dop_fds _ _ _ Ho) d c); [done..|]. unfold fd_of. by rewrite (proj2 (Z.leb_le _ _)).
Qed.
End loaded.
End after_deletion.

Lemma device_conf_load_spec :
  ∃ ds2 C2, device_conf_load (cad y0 m cs F) = Ret (tt, at_load ds2 C2) ∧
    cache_inv (set_dst ds2 (y_st y0)) None G P ∧ dev_reloaded y0 (at_load ds2 C2) ∧
    ∃ l D, C2 = set_conf_cycle (set_cf_devices l (conf_cycle (y_conf y0))) (set_cdevices D (y_conf y0)).
Proof.
  unfold device_conf_load. erewrite bind_ret; [|reflexivity]. erewrite bind_ret; [|apply dev_run, lift_run; reflexivity].
  cbn [y_st cad dst set_dst devices set_devs y_conf]. change (cf_devices _) with l0.
  match goal with |- context [set_y_st (set_dst ?x _) _] => set (dsa := x) end.
  set (Ca := set_cdevices cs (y_conf y0)). change (set_y_st _ _) with (at_load dsa Ca).
  assert (cache_inv (set_dst dsa (y_st y0)) None G P) as Hia.
  { apply cache_inv_same; try done; [by apply same_devs_checked|]. split; [apply (di_devices _ (ci_dev _ _ _ _ Hinv))|done]. }
  destruct (ddelete_loop (devices ds0) dsa Ca Hia) as (ds1 & E1 & Hi1 & Hdl); [apply (di_devices _ (ci_dev _ _ _ _ Hinv))| |].
  { intros d Hd. split; [|done]. split; [done|]. intros i dv (F1 & F2 & F3).
    destruct (dop_back _ _ _ d dv Ho F2) as (dv0 & E0 & Hs). destruct (di_table _ (ci_dev _ _ _ _ Hinv) i d F1) as (_ & x & Ex & Hix).
    assert (x = dv0) as -> by congruence. rewrite <- (Htorn d i dv0 Hd); [|by split_and!].
    by apply (f_equal d_kicked) in Hs. }
  erewrite bind_ret; [|exact E1].
  assert (∀ d2, d2 ∈ stay → devs ds1 !! d2 = m !! d2) as Hds1.
  { intros d2 [Hk _]%list_elem_of_filter. by rewrite (dl_devs _ _ _ Hdl) by (by right). }
  assert (∀ d, d ∈ l0 → devs ds1 !! d = None) as Hnew1.
  { intros d Hd. rewrite (dl_devs _ _ _ Hdl) by (left; by apply dlisted_apart).
    pose proof (dop_devs _ _ _ Ho d) as Hm. rewrite (dn_apart _ Hconf d Hd) in Hm. cbn. by destruct (m !! d). }
  destruct (dload_loop ds1 Hds1 Hnew1 l0 [] ds1 Ca) as (ds2 & C2 & E2 & Hld); [done| |].
  { split; try done; [|exists (cf_devices (conf_cycle (y_conf y0))), cs; unfold Ca; clear; by destruct (y_conf y0) as [[]]|by intros d ?%not_elem_of_nil|].
    - rewrite (dl_devices _ _ _ Hdl). cbn. rewrite app_nil_r, (list_filter_all (λ d2, d2 ∉ [])) by (intros; apply not_elem_of_nil).
      apply filter_ext_in. intros x Hx. tauto.
    - rewrite (dl_table _ _ _ Hdl). cbn. lia. }
  exists ds2, C2. split; [exact E2|]. split; [apply Hld|]. pose proof (loaded_devices ds1 ds2 C2 Hld) as Edev.
  split; [|apply Hld]. split; [split; cbn|intros z; by eapply loaded_fds].
  - rewrite Edev. apply Forall2_fmap_r, Forall_Forall2_diag, Forall_forall. intros d Hd. by eapply loaded_took.
  - by rewrite (dg_items _ _ _ _ Hld), (dl_items _ _ _ Hdl).
  - intros d Hd Hn. rewrite Edev in Hn. rewrite (dg_deleted _ _ _ _ Hld), (dg_devs _ _ _ _ Hld d Hn).
    apply (dl_gone _ _ _ Hdl d Hd). intros Hk. destruct (stay_target d) as (e & He & <-); [by apply list_elem_of_filter|].
    by apply Hn, list_elem_of_fmap_2.
  - intros d Hd. rewrite (dg_deleted _ _ _ _ Hld). by apply (dl_deleted _ _ _ Hdl).
  - by eapply loaded_distinct.
Qed.
End load.
End check.

(** A failed reload leaves the devices, but for their matches, and the files. *)
Record dev_undone y y2 : Prop := {
  du_devs : ∀ d, set_d_conf None <$> devs (dst (y_st y2)) !! d = set_d_conf None <$> devs (dst (y_st y)) !! d;
  du_devices : devices (dst (y_st y2)) = devices (dst (y_st y));
  du_deleted : deleted_devices (dst (y_st y2)) = deleted_devices (dst (y_st y));
  du_items : item_mem (dst (y_st y2)) = item_mem (dst (y_st y));
  du_fds : y_fds y2 = y_fds y
}.

Lemma device_reload_spec y h :
  life_inv (Life y h) → dconf_ok y →
  (∀ d i dv, d ∈ devices (dst (y_st y)) → registered (dst (y_st y)) i d dv → d_kicked dv = false) →
  (used_nr (device_indexs (dst (y_st y))) + length (dlisted y) ≤ Z.to_nat IPT_ARRAY_SIZE)%nat →
  ∃ rc y1, device_conf_check stat open y = Ret (rc, y1) ∧
    (rc = OHC_ERROR ∧ (∃ y2, device_conf_rollback y1 = Ret (tt, y2) ∧ life_inv (Life y2 h) ∧ dev_undone y y2) ∨
     rc = OHC_OK ∧ (∃ y2, device_conf_load y1 = Ret (tt, y2) ∧ life_inv (Life y2 h) ∧ dev_reloaded y y2)).
Proof.
  intros [Hi Hl] Hc Htorn Hroom. cbn in Hi, Hl.
  destruct (device_conf_check_spec y _ _ Hi Hc) as (rc & m & cs & F & E & Hop & Hor).
  exists rc, (cad y m cs F). split; [done|]. destruct Hor as [[-> Hck]| ->]; [right|left]; (split; [done|]).
  - destruct (device_conf_load_spec y _ _ Hi Hc m cs F Hop Hck Htorn Hroom) as (ds2 & C2 & E2 & Hi2 & Hr & _).
    eexists. split; [exact E2|]. by split; [split|].
  - eexists. split; [by eapply device_conf_rollback_spec|]. split; [split; cbn; [|done]|].
    + apply cache_inv_same; try done; [by apply (same_devs_checked y m cs F)|]. split; [apply (di_devices _ (ci_dev _ _ _ _ Hi))|done].
    + split; try done. apply Hop.
Qed.

(** C26: a new configuration of the devices is taken over entirely or not at all.
    The check ends.  If it fails, the rollback closes every file it opened, and no
    others, and the live devices are as before.  If it succeeds, the load makes
    the live devices the configured ones, in their order: one whose file was in
    use keeps everything but its name, another is new, empty and open; no item is
    lost, the devices that are not configured any more are deleted, and if no two
    devices shared a file before, none do now. *)
Theorem device_reload_atomic y h :
  life_inv (Life y h) → dconf_ok y →
  (∀ d i dv, d ∈ devices (dst (y_st y)) → registered (dst (y_st y)) i d dv → d_kicked dv = false) →
  (used_nr (device_indexs (dst (y_st y))) + length (dlisted y) ≤ Z.to_nat IPT_ARRAY_SIZE)%nat →
  ∃ rc y1, device_conf_check stat open y = Ret (rc, y1) ∧
    (rc = OHC_ERROR ∧ (∃ y2, device_conf_rollback y1 = Ret (tt, y2) ∧ life_inv (Life y2 h) ∧ dev_undone y y2) ∨
     rc = OHC_OK ∧ (∃ y2, device_conf_load y1 = Ret (tt, y2) ∧ life_inv (Life y2 h) ∧ dev_reloaded y y2)).
Proof. apply device_reload_spec. Qed.
End reload.

(** *** A cache with an item, and a configuration that keeps its device

    The first configured device has the file of the live one, the second is new. *)

#[local] Existing Instance CacheProofs.demo_alloc.
Definition demo_stat (name : list Z) : option filestat :=
  if decide (name = bytes "a") then Some (FileStat 8 17 (S_REG 1048576)) else Some (FileStat 1 2 (S_REG 4096)).
Definition demo_open (y : csys ohc_slab_t ohc_slab_t ohc_slab_t) (name : list Z) : Z :=
  let fd := Z.of_nat (length name) in if decide (fd ∈ y_fds y) then -1 else fd.
Definition demo_cdevice (name : string) : ohc_device_t := set_d_filename (bytes name) (set_d_fd (-1) device_zero).
Definition demo_dconf : cstate :=
  CState (set_cf_devices [71; 70] conf_init) server_init [] [] ∅ {[71 := demo_cdevice "a"; 70 := demo_cdevice "bb"]} true.
Definition demo_reloading : csys ohc_slab_t ohc_slab_t ohc_slab_t := set_y_conf demo_dconf (lf_y demo3).

Lemma life_inv_reconf v (lf : life (AS := ohc_slab_t) (IS := ohc_slab_t) (PS := ohc_slab_t)) :
  life_inv lf → life_inv (Life (set_y_conf v (lf_y lf)) (lf_holds lf)).
Proof. intros []. by split. Qed.
Lemma demo_open_fresh y name : 0 ≤ demo_open y name → demo_open y name ∉ y_fds y.
Proof. unfold demo_open. by case_decide. Qed.
Lemma demo_stat_size name fs size : demo_stat name = Some fs → st_mode fs = S_REG size → 0 ≤ size.
Proof. unfold demo_stat. by case_decide; intros [= <-] [= <-]. Qed.
Lemma demo_dconf_ok : dconf_ok demo_reloading.
Proof.
  assert (∀ d, d ∈ dlisted demo_reloading → d = 71 ∨ d = 70) as Hl.
  { intros d. cbn. rewrite !elem_of_cons, elem_of_nil. tauto. }
  split.
  - apply (bool_decide_eq_true (NoDup (dlisted demo_reloading))). vm_compute. reflexivity.
  - intros d [-> | ->]%Hl; by eexists.
  - intros d [-> | ->]%Hl; vm_compute; reflexivity.
Qed.

Lemma device_reload_atomic_witness :
  ∃ y1 y2, device_conf_check demo_stat demo_open demo_reloading = Ret (OHC_OK, y1) ∧ device_conf_load y1 = Ret (tt, y2) ∧
    life_inv (Life y2 (lf_holds demo3)) ∧ dev_reloaded demo_stat demo_reloading y2.
Proof.
  destruct (device_reload_atomic demo_stat demo_open demo_open_fresh demo_stat_size demo_reloading (lf_holds demo3))
    as (rc & y1 & E & Hor).
  - unfold demo_reloading. apply life_inv_reconf.
    exact (reach_inv toy_md5 demo_kmalloc demo_kmalloc_fresh demo0 demo3 (empty_cache_inv _ demo_empty) demo3_reach).
  - exact demo_dconf_ok.
  - assert (bool_decide (map_Forall (λ _ dv, d_kicked dv = false) (devs (dst (y_st demo_reloading)))) = true) as Hk
      by (vm_compute; reflexivity).
    rewrite bool_decide_eq_true in Hk. intros d i dv _ (_ & Ed & _). exact (Hk d dv Ed).
  - apply Nat.leb_le. vm_compute. reflexivity.
  - assert (match device_conf_check demo_stat demo_open demo_reloading with Ret (OHC_OK, _) => true | _ => false end = true) as Hok
      by (vm_compute; reflexivity).
    rewrite E in Hok. destruct Hor as [[-> _]|[-> (y2 & E2 & Hr)]]; [discriminate Hok|]. exists y1, y2.
    split; [exact E|]. split; [exact E2|exact Hr].
Defined.
