(* ===== verification/Reload.v ===== *)
(** * A new configuration of devices and servers together

    [olivehc_load_conf] checks the devices, then the servers, and then loads both
    or rolls both back; the checks and loads of the two parts share the set of
    open descriptors and are interleaved.  They do not disturb each other: either
    part of the running system becomes what its own reload makes of it, or both
    are left as they were. *)

From stdpp Require Import prelude fin_maps gmap.
From S2P Require Import Prelude IdxPointer StrUtil IpBucket Slab Hash Device DeviceInv DeviceOps DeviceConf.
From S2P Require Import Http Server ServerInv ServerOps ServerExpire ServerPut.
From S2P Require Import Conf ServerConf DeviceLoad Cache DeviceLife Life Owned ServerReload ServerLoad DeviceReload.

(** The number of threads of a configuration, while it is loaded. *)
Section threads.
Context {AS IS PS : Type} `{Allocator AS} `{Allocator IS} `{Allocator PS}.
Definition same_threads (y y' : csys AS IS PS) : Prop := cf_threads (conf_cycle (y_conf y')) = cf_threads (conf_cycle (y_conf y)).
#[local] Instance same_threads_preorder : PreOrder same_threads.
Proof. split; [done|]. intros y1 y2 y3 E1 E2. unfold same_threads in *. by etrans. Qed.
#[local] Hint Resolve same_threads_preorder : within.
#[local] Hint Extern 1 (within _ (modify _)) => apply within_modify; by intros [? [[]] ? ? ?] : within.
Abbreviation keeps := (within same_threads).

Lemma threads_cache {A} (c : M (sstore AS IS PS) A) : keeps (cache c).
Proof. intros y a y' E. unfold cache in E. destruct (c (y_st y)) as [[]|]; by simplify_eq/=. Qed.
Lemma threads_for_each f l : (∀ s, keeps (f s)) → keeps (for_each f l).
Proof. intros Hf. induction l as [|s l IH]; [apply (within_ret _)|]. apply (within_bind _); [apply Hf|by intros _]. Qed.
#[local] Hint Resolve threads_cache threads_for_each : within.

Lemma server_update_threads s (c : server_conf) : keeps (server_update s c).
Proof. unfold server_update, server_listen_update, upd_net. destruct (sc_access_filp c); eauto 8 with within. Qed.
Lemma server_create_threads s : keeps (server_create s).
Proof. unfold server_create, server_listen_start, load_cserver. eauto 20 with within. Qed.
Lemma server_delete_threads s : keeps (server_delete s).
Proof. unfold server_delete, server_listen_close. eauto 12 with within. Qed.
#[local] Hint Resolve server_update_threads server_create_threads server_delete_threads : within.
Lemma server_load_threads : keeps (server_conf_load (AS := AS) (IS := IS) (PS := PS)).
Proof.
  apply (within_bind _); [apply (within_get _)|]. intros y. apply (within_bind _); [|intros _]; apply threads_for_each; intros s; (apply (within_bind _); [unfold load_cserver; auto 10 with within|]).
  - intros sv. destruct (s_conf sv); auto with within.
  - intros c. destruct (sc_conf c); auto with within.
Qed.
Lemma device_load_threads : keeps (device_conf_load (AS := AS) (IS := IS) (PS := PS)).
Proof.
  apply (within_bind _); [apply (within_get _)|]. intros y. apply (within_bind _); [apply threads_cache|intros _].
  apply (within_bind _); [|intros _]; apply threads_for_each; intros s; (apply (within_bind _); [unfold load_live, load_cdevice, dev; auto 10 with within|]).
  - intros dv. unfold dev. destruct (d_conf dv); auto with within.
  - intros dv. unfold dev. destruct (d_conf dv); auto 10 with within.
Qed.
End threads.

Section reload.
Context {AS IS PS : Type} `{Allocator AS} `{Allocator IS} `{Allocator PS}.
Implicit Types (st : sstore AS IS PS) (y : csys AS IS PS) (h : list (bool * Z)).
Implicit Types (dm dcs : gmap Z ohc_device_t) (sm : gmap Z ohc_server_t) (scs : gmap Z server_conf) (F L : gset Z).

(** ** What the two parts have to do with each other *)

(** Servers that differ in [s_conf] only. *)
Definition same_srvs sm sm' : Prop := ∀ s, set_s_conf None <$> sm' !! s = set_s_conf None <$> sm !! s.

Lemma same_srvs_upd st sm sm' s G P :
  same_srvs sm sm' → cache_inv (set_srvs sm st) None G P →
  ∀ sv', sm' !! s = Some sv' → cache_inv (set_srvs (<[s := sv']> sm) st) None G P.
Proof.
  intros Hs Hi sv' E'. specialize (Hs s). rewrite E' in Hs. destruct (sm !! s) as [sv|] eqn:E; [|done].
  apply (inj Some) in Hs. assert (sv' = set_s_conf (s_conf sv') sv) as ->.
  { clear -Hs. destruct sv, sv'. cbn in *. injection Hs. intros. by subst. }
  by apply (srv_same_upd (set_srvs sm st) G P s sv (set_s_conf (s_conf sv') sv) Hi E).
Qed.

Lemma cache_inv_same_srvs st sm sm' G P :
  same_srvs sm sm' → cache_inv (set_srvs sm st) None G P → cache_inv (set_srvs sm' st) None G P.
Proof.
  intros Hs Hi.
  assert (∀ l : list Z, ∃ m1, cache_inv (set_srvs m1 st) None G P ∧
    ∀ s, (s ∈ l → m1 !! s = sm' !! s) ∧ (m1 !! s = sm !! s ∨ m1 !! s = sm' !! s)) as Hl.
  { intros l. induction l as [|s l (m1 & Hi1 & Hm1)]; [exists sm; split; [done|]; intros s; split; [by intros ?%not_elem_of_nil|by left]|].
    assert (same_srvs m1 sm') as Hs1 by (intros k; destruct (Hm1 k) as [_ [-> | ->]]; [apply Hs|done]).
    destruct (sm' !! s) as [sv'|] eqn:E'.
    - exists (<[s := sv']> m1). split; [by eapply same_srvs_upd|]. intros k. destruct (decide (k = s)) as [-> |Hne].
      + rewrite lookup_insert_eq, E'. split; [done|by right].
      + rewrite lookup_insert_ne by done. split; [|apply Hm1]. intros [->|?]%elem_of_cons; [done|by apply Hm1].
    - exists m1. split; [done|]. intros k. split; [|apply Hm1]. intros [->|?]%elem_of_cons; [|by apply Hm1].
      specialize (Hs1 s). rewrite E' in Hs1. rewrite E'. by destruct (m1 !! s). }
  destruct (Hl (elements (dom sm'))) as (m1 & Hi1 & Hm1).
  replace sm' with m1; [done|]. apply map_eq. intros s. destruct (Hm1 s) as [Hin Hor].
  destruct (decide (s ∈ dom sm')) as [Hd|Hd]; [by apply Hin, elem_of_elements|].
  destruct Hor as [E|E]; [|done]. specialize (Hs s). apply not_elem_of_dom in Hd. rewrite Hd in Hs |- *. rewrite E.
  by destruct (sm !! s).
Qed.

(** The servers in service are what they were, and what they use is still open. *)
Lemma live_ok_ext y y' :
  servers (y_st y') = servers (y_st y) → same_srvs (srvs (y_st y)) (srvs (y_st y')) → y_epoll y' = y_epoll y →
  (∀ z, z ∈ y_fds y → z ∈ y_fds y') →
  (∀ s sv f, live y s sv → klog sv = Some f → f ∈ y_logs y → f ∈ y_logs y') → live_ok y → live_ok y'.
Proof.
  intros Es Hs Ee Hf Hl [Lsrv Lfd Llog Lport Lep].
  assert (∀ s sv', live y' s sv' → ∃ sv o, live y s sv ∧ sv' = set_s_conf o sv) as Hback.
  { intros s sv' [Hin E']. rewrite Es in Hin. destruct (Lsrv s Hin) as (sv & f & Hlv & _). specialize (Hs s).
    rewrite E', (proj2 Hlv) in Hs. apply (inj Some) in Hs. exists sv, (s_conf sv'). split; [done|].
    clear -Hs. destruct sv, sv'. cbn in *. injection Hs. intros. by subst. }
  assert (∀ s sv, live y s sv → ∃ o, live y' s (set_s_conf o sv)) as Hforth.
  { intros s sv [Hin E]. pose proof (Hs s) as Hss. rewrite E in Hss. destruct (srvs (y_st y') !! s) as [sv'|] eqn:E'; [|done].
    destruct (Hback s sv') as (sv0 & o & Hl0 & Eq); [split; [by rewrite Es|done]|]. exists o.
    assert (sv0 = sv) as -> by (destruct Hl0; congruence). split; [by rewrite Es|congruence]. }
  assert (∀ k : ohc_server_t → option Z, (∀ o sv, k (set_s_conf o sv) = k sv) → distinct k y → distinct k y') as Hdis.
  { intros k Hk Hd s s' sv sv' z (sv0 & o & Hl0 & ->)%Hback (sv0' & o' & Hl0' & ->)%Hback. rewrite !Hk. by apply Hd. }
  split; [|by apply Hdis..|].
  - intros s Hin. rewrite Es in Hin. destruct (Lsrv s Hin) as (sv & f & Hlv & Hdel & Hfd & Ef & Hfl).
    destruct (Hforth s sv Hlv) as [o Hlv']. exists (set_s_conf o sv), f. split_and!; [done..|by apply Hf|done|by eapply Hl].
  - intros z. rewrite Ee, Lep. split.
    + intros (s & sv & Hlv & E). destruct (Hforth s sv Hlv) as [o Hlv']. by exists s, (set_s_conf o sv).
    + intros (s & sv & (sv0 & o & Hlv & ->)%Hback & E). by exists s, sv0.
Qed.

Lemma same_srvs_refl sm : same_srvs sm sm.
Proof. by intros s. Qed.
Lemma same_srvs_sym sm sm' : same_srvs sm sm' → same_srvs sm' sm.
Proof. intros Hs s. by rewrite Hs. Qed.

Lemma life_inv_same_srvs st (y y' : csys AS IS PS) sm h :
  y_st y = set_srvs (srvs (y_st y)) st → y_st y' = set_srvs sm st → same_srvs (srvs (y_st y)) sm →
  life_inv (Life y h) → life_inv (Life y' h).
Proof.
  intros E E' Hs [Hi Hl]. cbn in Hi, Hl. split; cbn; rewrite E'.
  - rewrite E in Hi. by eapply cache_inv_same_srvs.
  - rewrite E in Hl. eapply lists_ok_perm; [exact Hl|done|]. cbn. apply set_eq. intros s. rewrite !elem_of_dom.
    specialize (Hs s). destruct (srvs (y_st y) !! s), (sm !! s); done.
Qed.

(** ** The system between check and load *)

(** Devices [dm] and servers [sm] with their matches, the configured ones as the
    checks left them, and what is open. *)
Definition both y dm dcs sm scs F L : csys AS IS PS := cat (cad y dm dcs F) sm scs F L.

Lemma both_dev y dm dcs sm scs F F' L : both y dm dcs sm scs F L = cad (cat y sm scs F' L) dm dcs F.
Proof. done. Qed.
Lemma both_srv y dm dcs sm scs F F' L : both y dm dcs sm scs F L = cat (cad y dm dcs F') sm scs F L.
Proof. done. Qed.

Lemma both_cad y dm dcs F : cad y dm dcs F = both y dm dcs (srvs (y_st y)) (cservers (y_conf y)) F (y_logs y).
Proof. unfold both. apply (cat_start (cad y dm dcs F)). Qed.
Lemma both_start y : y = both y (devs (dst (y_st y))) (cdevices (y_conf y)) (srvs (y_st y)) (cservers (y_conf y)) (y_fds y) (y_logs y).
Proof. rewrite <- both_cad. apply cad_start. Qed.

(** A running system: consistent, with its servers in service, and no device
    that was marked as kicked while it was added. *)
Record running y h : Prop := {
  rn_inv : life_inv (Life y h);
  rn_live : live_ok y;
  rn_torn : ∀ d i dv, d ∈ devices (dst (y_st y)) → registered (dst (y_st y)) i d dv → d_kicked dv = false
}.

Lemma same_devs_open y dm dcs F : dopened y dm dcs F → same_devs (dst (y_st y)) (set_devs dm (dst (y_st y))).
Proof. intros Ho. by apply (same_devs_checked y dm dcs F). Qed.

(** After the check of the devices. *)
Lemma devices_checked y h dm dcs F :
  life_inv (Life y h) → live_ok y → conf_ok y → dopened y dm dcs F →
  life_inv (Life (cad y dm dcs F) h) ∧ live_ok (cad y dm dcs F) ∧ conf_ok (cad y dm dcs F).
Proof.
  intros [Hi Hl] Hlv [C1 C2 C3] Ho. cbn in Hi, Hl. split_and!.
  - split; [|done]. cbn. apply cache_inv_same; try done; [by eapply same_devs_open|].
    split; [apply (di_devices _ (ci_dev _ _ _ _ Hi))|done].
  - apply (live_ok_ext y); try done. intros z Hz. apply (ow_set _ _ _ _ _ (dop_fds _ _ _ _ Ho)). by left.
  - by split.
Qed.

(** *** Rolling both back *)

Lemma rollback_both y G P dm dcs F1 sm scs F2 L2 L3 :
  dopened y dm dcs F1 → opened (cad y dm dcs F1) G P sm scs F2 L2 →
  ∃ F3 L4, device_conf_rollback (both y dm dcs sm scs F2 L3) = Ret (tt, both y dm dcs sm scs F3 L3) ∧
    server_conf_rollback (both y dm dcs sm scs F3 L3) = Ret (tt, both y dm dcs sm scs (y_fds y) L4) ∧
    ∀ z, z ∈ L4 ↔ z ∈ L3 ∧ ¬ ∃ s c, s ∈ listed y ∧ scs !! s = Some c ∧ sc_access_filp c = Some z.
Proof.
  intros [_ Hdcs Hdf] [_ _ Hscs Hsf _].
  destruct (drollback_spec (λ _, None) (cat y sm scs F2 L3) (dlisted y) dm dcs F2) as (F3 & E3 & HF3).
  { intros d Hd. destruct (Hdcs d Hd) as (? & ? & _ & -> & _). by eexists. }
  destruct (rollback_spec (cad y dm dcs F1) (listed y) sm scs F3 L3) as (F4 & L4 & E4 & HF4 & HL4).
  { intros s Hs. destruct (Hscs s Hs) as (? & ? & _ & -> & _). by eexists. }
  exists F3, L4. split; [unfold device_conf_rollback; erewrite bind_ret; [|reflexivity]; exact E3|]. split; [|exact HL4].
  unfold server_conf_rollback. erewrite bind_ret; [|reflexivity].
  replace (y_fds y) with F4; [exact E4|]. apply set_eq. intros z. rewrite HF4, HF3.
  rewrite (ow_set _ _ _ _ _ Hsf). cbn [y_fds cad]. rewrite (ow_set _ _ _ _ _ Hdf). split; [tauto|]. intros Hz.
  split; [split; [by left; left|]|].
  - intros (d & c & Hd & Ec & Ez). by apply (ow_new _ _ _ _ _ Hdf d c z).
  - intros (s & c & Hs & Ec & Ez). apply (ow_new _ _ _ _ _ Hsf s c z); [done..|]. cbn.
    apply (ow_set _ _ _ _ _ Hdf). by left.
Qed.

(** *** Loading both *)

(** [B]: the log files that were open before, as far as they still are. *)
Lemma load_both stat y h dm dcs F1 sm scs F2 L2 L3 B :
  running y h → conf_ok y → dconf_ok y →
  (used_nr (server_indexs (y_st y)) + length (listed y) ≤ Z.to_nat IPT_ARRAY_SIZE)%nat →
  (used_nr (device_indexs (dst (y_st y))) + length (dlisted y) ≤ Z.to_nat IPT_ARRAY_SIZE)%nat →
  dopened y dm dcs F1 → dchecked stat y (dlisted y) dm dcs →
  opened (cad y dm dcs F1) (getters h) (putters h) sm scs F2 L2 →
  checked (cad y dm dcs F1) (listed y) sm scs →
  owned sc_access_filp (listed y) scs L3 B → (∀ s sv f, live y s sv → klog sv = Some f → f ∈ B) →
  ∃ ya y2, device_conf_load (both y dm dcs sm scs F2 L3) = Ret (tt, ya) ∧ server_conf_load ya = Ret (tt, y2) ∧
    life_inv (Life y2 h) ∧ live_ok y2 ∧ devices_reloaded stat y y2 ∧ servers_reloaded y y2 ∧
    ∀ e, e ∈ L3 → (∀ s sv, live y s sv → klog sv ≠ Some e) →
      (∀ s c, s ∈ listed y → scs !! s = Some c → sc_access_filp c ≠ Some e) → error_log_apart e y2.
Proof.
  intros [Hi Hlv Htorn] Hc Hdc Hroom Hdroom Ho Hdck Hop Hck Hlog HB.
  set (Fd := F2 ∖ (F1 ∖ y_fds y)). set (yd := cat y sm scs Fd L3).
  assert (same_srvs (srvs (y_st y)) sm) as Hsm by (intros s; apply (op_srv _ _ _ _ _ _ _ Hop)).
  assert (life_inv (Life yd h)) as Hid.
  { apply (life_inv_same_srvs (y_st y) y yd sm h); [by destruct y as [[] ? ? ? ?]|done..]. }
  assert (∀ z, z ∈ F2 ↔ z ∈ F1 ∨ ∃ s c, s ∈ listed y ∧ scs !! s = Some c ∧ sock_of c = Some z) as HF2
    by apply (op_fds _ _ _ _ _ _ _ Hop).
  assert (∀ z, z ∈ F1 ↔ z ∈ y_fds y ∨ ∃ d c, d ∈ dlisted y ∧ dcs !! d = Some c ∧ fd_of c = Some z) as HF1
    by apply (dop_fds _ _ _ _ Ho).
  destruct (device_conf_load_spec stat yd (getters h) (putters h) (li_cache _ Hid)) with (m := dm) (cs := dcs) (F := F2)
    as (ds2 & C2 & E2 & Hi2 & Hdr & l & D & EC); [by destruct Hdc; split| | |done|done|].
  { destruct Ho as [O1 O2 O3]. split; [done..|]. split.
    - intros z. unfold yd, Fd. cbn. rewrite elem_of_difference, elem_of_difference.
      destruct (decide (z ∈ y_fds y)) as [Hy|Hy].
      { split; [tauto|]. intros _. apply HF2. left. apply HF1. by left. }
      destruct (decide (z ∈ F1)) as [Hz|Hz].
      { split; [|intros _; apply HF2; by left]. intros _. right. by apply HF1 in Hz as [?|?]. }
      split; [tauto|]. intros [[? _]|Hd]; [done|]. apply HF2. left. apply HF1. by right.
    - intros d c z Hd Ed Ez. unfold yd, Fd. cbn. rewrite elem_of_difference, elem_of_difference, HF1.
      pose proof (ow_new _ _ _ _ _ O3 d c z Hd Ed Ez) as Hn. intros [_ Hx]. apply Hx. split; [|done]. right. by exists d, c.
    - apply O3. }
  { by destruct Hdck. }
  set (Cs := set_conf_cycle (set_cf_devices l (conf_cycle (y_conf y))) (set_cdevices D (y_conf y))).
  set (ys := CSys (set_dst ds2 (y_st y)) Cs F1 B (y_epoll y)).
  assert (at_load yd F2 ds2 C2 = cat ys sm scs F2 L3) as Eya by (by rewrite EC).
  assert (life_inv (Life ys h)) as His.
  { apply (life_inv_same_srvs (set_dst ds2 (y_st y)) (at_load yd F2 ds2 C2) ys (srvs (y_st y)) h); [done| |by apply same_srvs_sym|].
    - by destruct y as [[] ? ? ? ?].
    - split; [exact Hi2|]. apply (li_lists _ Hid). }
  assert (opened ys (getters h) (putters h) sm scs F2 L3) as Hop2.
  { destruct Hop as [P1 P2 P3 P4 P5]. split; try done. }
  destruct (server_conf_load_spec ys h sm scs F2 L3 His) as (y2 & E3 & Hld); [|by destruct Hc; split|done|by destruct Hck|done|].
  { apply (live_ok_ext y); try done; [intros z Hz; apply HF1; by left|]. intros s sv f Hs Hk _. by eapply HB. }
  pose proof (loading_reloaded ys h sm scs F2 L3 y2 His) as Hrl.
  exists (cat ys sm scs F2 L3), y2. split; [rewrite <- Eya; exact E2|]. split; [exact E3|].
  pose proof (lg_log _ _ _ _ _ _ _ _ _ Hld) as Hlg.
  destruct (lg_steady _ _ _ _ _ _ _ _ _ Hld) as [Hinv2 Hlive2 _ _ _ Hdst _ _ _ _]. split; [done|]. split; [done|].
  destruct Hrl as [Hitems Hsr]; [by destruct Hc; split|done|by destruct Hck|done|].
  split; [|split; [by destruct Hsr; split|]].
  2:{ intros e He Hle Hce. apply Hlg; [|exact Hce]. split; [done|]. intros s sv Hl.
      destruct (y1_back ys h sm scs F2 L3 Hop2 s sv Hl) as (sv0 & o' & Hl0 & ->). by apply (Hle s sv0). }
  destruct Hdr as [[D1 D2 D3 D4 D5] _]. cbn in Hitems.
  split; rewrite ?Hitems; try done. eapply Forall2_impl; [exact D1|]. intros d d2 (c0 & fs & dv' & T1 & T2 & T3 & T4 & T5 & T6).
  exists c0, fs, dv'. rewrite Hitems. split_and!; [done..|]. destruct T6 as [?|(T7 & T8 & T9 & T10 & T11 & T12)]; [by left|right].
  split_and!; [done..| |done]. intros Hz. apply T11. unfold yd, Fd. cbn. rewrite !elem_of_difference, HF2, HF1. tauto.
Qed.
End reload.
