(* ===== verification/Apart.v ===== *)
(** * What a reload leaves to the parser

    The parser reuses the servers and devices that are left in its lists.
    [parser_apart]: they are in memory, each in one list, and none of them is a
    server or device of the running system.  No check and no rollback touches
    that ([tame]); a load moves what it adds out of the lists. *)

From Stdlib Require Import String.
From stdpp Require Import prelude fin_maps gmap.
From S2P Require Import Prelude IdxPointer StrUtil IpBucket Slab Hash Device DeviceInv.
From S2P Require Import Http Server ServerInv Conf ConfProofs ServerConf DeviceLoad Cache.

Section apart.
Context {AS IS PS : Type} `{Allocator AS} `{Allocator IS} `{Allocator PS}.
Implicit Types (y : csys AS IS PS) (st : sstore AS IS PS) (ds : dstore AS).

Record parser_apart y : Prop := {
  pa_mem : conf_mem (y_conf y);
  pa_first : conf_first (y_conf y) = false;
  pa_lists : listed_in (λ s, srvs (y_st y) !! s = None) (λ d, devs (dst (y_st y)) !! d = None) (y_conf y)
}.

(** The lists of the parser are the same, with at least the memory of before,
    and there are no new servers or devices. *)
Record tame y y' : Prop := {
  tm_servers : cf_servers (conf_cycle (y_conf y')) = cf_servers (conf_cycle (y_conf y));
  tm_devices : cf_devices (conf_cycle (y_conf y')) = cf_devices (conf_cycle (y_conf y));
  tm_reserved : reserved_servers (y_conf y') = reserved_servers (y_conf y) ∧ reserved_devices (y_conf y') = reserved_devices (y_conf y);
  tm_first : conf_first (y_conf y') = conf_first (y_conf y);
  tm_cservers : ∀ s, is_Some (cservers (y_conf y) !! s) → is_Some (cservers (y_conf y') !! s);
  tm_cdevices : ∀ d, is_Some (cdevices (y_conf y) !! d) → is_Some (cdevices (y_conf y') !! d);
  tm_srvs : ∀ s, srvs (y_st y) !! s = None → srvs (y_st y') !! s = None;
  tm_devs : ∀ d, devs (dst (y_st y)) !! d = None → devs (dst (y_st y')) !! d = None
}.
#[local] Instance tame_preorder : PreOrder tame.
Proof.
  split; [by split|]. intros y1 y2 y3 [A1 A2 [A3 A4] A5 A6 A7 A8 A9] [B1 B2 [B3 B4] B5 B6 B7 B8 B9].
  split; try congruence; try (split; congruence); eauto.
Qed.

Lemma tame_apart y y' : tame y y' → parser_apart y → parser_apart y'.
Proof.
  intros [A1 A2 [A3 A4] A5 A6 A7 A8 A9] [[M1 M2 M3 M4] Hf [L1 L2]]. split; [|congruence|].
  - split; rewrite ?A1, ?A2, ?A3, ?A4; auto.
  - split; rewrite ?A1, ?A2, ?A3, ?A4; auto.
Qed.

(** *** Steps on the cache *)

Definition no_new_devs ds ds' : Prop := ∀ d, devs ds !! d = None → devs ds' !! d = None.
Record no_new st st' : Prop := {
  nn_srvs : ∀ s, srvs st !! s = None → srvs st' !! s = None;
  nn_devs : no_new_devs (dst st) (dst st')
}.
#[local] Instance no_new_devs_preorder : PreOrder no_new_devs.
Proof. split; [by intros ds d|]. intros d1 d2 d3 Q1 Q2 d Hd. auto. Qed.
#[local] Instance no_new_preorder : PreOrder no_new.
Proof. split; [by split|]. intros s1 s2 s3 [A1 A2] [B1 B2]. split; [auto|by etrans]. Qed.
#[local] Hint Resolve tame_preorder no_new_preorder no_new_devs_preorder : within.

Lemma tame_cache {A} (c : M (sstore AS IS PS) A) : within no_new c → within tame (cache c).
Proof.
  intros Hc y a y' E. unfold cache in E. destruct (c (y_st y)) as [[a' st']|] eqn:Ec; [|done]. injection E as _ <-.
  destruct (Hc _ _ _ Ec). by split.
Qed.
Lemma no_new_lift {A} (c : M (dstore AS) A) : within no_new_devs c → within no_new (lift c).
Proof.
  intros Hc st a st' E. unfold lift in E. destruct (c (dst st)) as [[a' ds']|] eqn:Ec; [|done]. injection E as _ <-.
  split; [done|]. exact (Hc _ _ _ Ec).
Qed.
Lemma no_new_out {A} (o : outcome A) : within no_new (out o).
Proof. intros st a st' E. unfold out in E. destruct o; [|done]. by injection E as _ <-. Qed.
Lemma no_new_load_srv s : within no_new (load_srv s).
Proof. unfold load_srv. auto with within. Qed.
Lemma no_new_modify f : (∀ st, srvs (f st) = srvs st ∧ dst (f st) = dst st) → within no_new (modify f).
Proof. intros Hf. apply within_modify. intros st. destruct (Hf st) as [E1 E2]. split; [by rewrite E1|by rewrite E2]. Qed.
Lemma no_new_upd_srv s f : within no_new (upd_srv s f).
Proof.
  apply (within_bind _); [apply no_new_load_srv|intros _]. apply within_modify. intros st. split; [|done].
  intros k Hk. cbn. by rewrite lookup_alter_None.
Qed.
Lemma no_new_upd_dev d f : within no_new_devs (upd_dev (AS := AS) d f).
Proof.
  apply (within_bind _); [unfold load_dev; auto with within|intros _]. apply within_modify. intros ds k Hk. cbn. by rewrite lookup_alter_None.
Qed.
Lemma no_new_devs_modify f : (∀ ds, devs (f ds) = devs ds) → within no_new_devs (modify f).
Proof. intros Hf. apply within_modify. intros ds d Hd. by rewrite Hf. Qed.
Lemma no_new_devs_act {A} (f : dstore AS → outcome (A * dstore AS)) :
  (∀ ds a ds', f ds = Ret (a, ds') → devs ds' = devs ds) → within no_new_devs (act f).
Proof. intros Hf ds a ds' E d Hd. by rewrite (Hf ds a ds' E). Qed.

(** Goes through a computation; its calls are in the hint database. *)
Ltac tame :=
  repeat first
    [ match goal with |- within _ (mbind _ _) => apply (within_bind _); [|intros] end
    | apply (within_ret _) | apply (within_get _) | apply within_fail | apply (within_deref _)
    | solve [auto 2 with within]
    | apply no_new_lift | apply no_new_out | apply no_new_load_srv | apply no_new_upd_srv | apply no_new_upd_dev
    | apply no_new_modify; intros; by split | apply no_new_devs_modify; intros; done
    | apply tame_cache
    | apply within_modify; intros; by split
    | progress cbv zeta
    | match goal with
      | |- within _ (if decide ?P then _ else _) => destruct (decide P)
      | |- within _ (if ?b then _ else _) => destruct b
      | |- within _ (match ?o with _ => _ end) => destruct o
      end ].

Lemma no_new_load_dev d : within no_new_devs (load_dev (AS := AS) d).
Proof. unfold load_dev. tame. Qed.
Lemma no_new_device_add d : within no_new_devs (device_add (AS := AS) d).
Proof.
  unfold device_add, device_fblock_insert, device_ipbucket_add, upd_order, load_dev, load_fb. tame.
  - apply no_new_devs_act. intros ds1 r1 ds2 E. destruct (idx_pointer_add _ _) as [[]|]; by simplify_eq/=.
  - intros ds1 r1 ds2 E k Hk. unfold fb_alloc in E. destruct (al_alloc _) as [[]|]; by simplify_eq/=.
Qed.
Lemma no_new_device_update d c : within no_new_devs (device_update (AS := AS) d c).
Proof. unfold device_update, dnode_del. tame. Qed.
Lemma no_new_device_delete d : within no_new_devs (device_delete (AS := AS) d).
Proof.
  unfold device_delete, dnode_del, load_dev. tame. apply within_modify. intros ds k Hk. cbn. by rewrite lookup_delete_None; right.
Qed.
#[local] Hint Resolve no_new_load_dev no_new_device_add no_new_device_update no_new_device_delete : within.

(** *** Checks and rollbacks *)

Lemma tame_load_cserver s : within tame (load_cserver s).
Proof. unfold load_cserver. tame. Qed.
Lemma tame_load_cdevice d : within tame (load_cdevice d).
Proof. unfold load_cdevice. tame. Qed.
Lemma tame_upd_cserver s f : within tame (upd_cserver s f).
Proof.
  apply (within_bind _); [apply tame_load_cserver|intros _]. apply within_modify. intros y. split; try done.
  intros k [c Ek]. cbn. destruct (decide (k = s)) as [->|Hk]; [rewrite lookup_alter_eq|rewrite lookup_alter_ne by done]; rewrite Ek; by eexists.
Qed.
Lemma tame_upd_cdevice d f : within tame (upd_cdevice d f).
Proof.
  apply (within_bind _); [apply tame_load_cdevice|intros _]. apply within_modify. intros y. split; try done.
  intros k [c Ek]. cbn. destruct (decide (k = d)) as [->|Hk]; [rewrite lookup_alter_eq|rewrite lookup_alter_ne by done]; rewrite Ek; by eexists.
Qed.
Lemma tame_dev {A} (c : M (dstore AS) A) : within no_new_devs c → within tame (dev c).
Proof. intros Hc. by apply tame_cache, no_new_lift. Qed.
#[local] Hint Resolve tame_load_cserver tame_load_cdevice tame_upd_cserver tame_upd_cdevice tame_dev : within.
Lemma tame_for_each (f : Z → M (csys AS IS PS) unit) l : (∀ s, within tame (f s)) → within tame (for_each f l).
Proof. intros Hf. induction l as [|s l IH]; cbn [for_each]; [apply (within_ret _)|]. apply (within_bind _); [apply Hf|by intros _]. Qed.

Lemma tame_load_live d : within tame (load_live (AS := AS) (IS := IS) (PS := PS) d).
Proof. apply tame_dev, no_new_load_dev. Qed.
#[local] Hint Resolve tame_load_live : within.
Lemma tame_search_inode load i j l stop : (∀ d, within tame (load d)) → within tame (device_search_inode load i j l stop).
Proof.
  intros Hl. induction l as [|d l IH]; cbn [device_search_inode]; tame.
Qed.
Lemma tame_check_same load l d : (∀ d, within tame (load d)) → within tame (device_check_same load l d).
Proof. intros Hl. unfold device_check_same. tame. by apply tame_search_inode. Qed.
#[local] Hint Resolve tame_check_same : within.

Lemma tame_device_check stat open : within tame (device_conf_check stat open).
Proof.
  unfold device_conf_check. tame; [apply tame_for_each; intros d; apply tame_dev, no_new_upd_dev|].
  match goal with |- within _ (check_devices _ _ ?todo _ _ ?count) => generalize todo at 1; generalize count end.
  intros count todo. revert count. induction todo as [|d todo IH]; intros count; cbn [check_devices]; tame.
  unfold check_device, check_new_device. tame.
Qed.

Lemma no_new_search_port port l stop : within no_new (server_search_port port l stop).
Proof. induction l as [|s l IH]; cbn [server_search_port]; tame. Qed.
#[local] Hint Resolve no_new_search_port : within.
Lemma tame_csearch_port port l stop : within tame (csearch_port port l stop).
Proof. induction l as [|s l IH]; cbn [csearch_port]; tame. Qed.
#[local] Hint Resolve tame_csearch_port : within.
Lemma tame_server_check tcp_bind fopen hash_mem : within tame (server_conf_check tcp_bind fopen hash_mem).
Proof.
  unfold server_conf_check. tame; [apply tame_for_each; intros s; apply tame_cache, no_new_upd_srv|].
  match goal with |- within _ (check_servers _ _ _ ?todo _ ?count) => generalize todo at 1; generalize count end.
  intros count todo. revert count. induction todo as [|s todo IH]; intros count; cbn [check_servers]; tame.
  unfold check_server, check_port, check_new, check_log. tame.
Qed.

Lemma tame_device_rollback : within tame (device_conf_rollback (AS := AS) (IS := IS) (PS := PS)).
Proof. unfold device_conf_rollback. tame. apply tame_for_each. intros d. unfold rollback_device. tame. Qed.
Lemma tame_server_rollback : within tame (server_conf_rollback (AS := AS) (IS := IS) (PS := PS)).
Proof. unfold server_conf_rollback. tame. apply tame_for_each. intros s. unfold rollback_server. tame. Qed.

(** *** Loads *)

Lemma remove_one_app (x : Z) l k : x ∉ k → list_remove_one x l ++ k = list_remove_one x (l ++ k).
Proof. intros Hx. unfold list_remove_one. rewrite filter_app. f_equal. symmetry. by apply list_remove_one_notin. Qed.

(** A device, or a server, leaves the configuration for the running system. *)
Lemma device_moved y d c :
  d ∈ cf_devices (conf_cycle (y_conf y)) → parser_apart y →
  parser_apart (set_y_st (set_dst (set_devs (<[d := c]> (devs (dst (y_st y)))) (dst (y_st y))) (y_st y))
    (set_y_conf (let cc := conf_cycle (y_conf y) in
      set_conf_cycle (set_cf_devices (list_remove_one d (cf_devices cc)) cc) (set_cdevices (delete d (cdevices (y_conf y))) (y_conf y))) y)).
Proof.
  intros Hd [[M1 M2 M3 M4] Hf [L1 L2]]. assert (d ∉ reserved_devices (y_conf y)) as Hn.
  { apply NoDup_app in M3 as (_ & M3 & _). by apply M3. }
  pose proof (remove_one_app d (cf_devices (conf_cycle (y_conf y))) _ Hn) as El.
  split; [split|done|split]; cbn in *; try done; rewrite ?El.
  - by apply NoDup_filter.
  - intros k [Hk Hkd]%elem_of_list_remove_one. rewrite lookup_delete_ne by done. by apply M4.
  - intros k [Hk Hkd]%elem_of_list_remove_one. rewrite lookup_insert_ne by done. by apply L2.
Qed.
Lemma server_moved y s st :
  s ∈ cf_servers (conf_cycle (y_conf y)) → parser_apart y →
  (∀ k, k ≠ s → srvs st !! k = srvs (y_st y) !! k) → dst st = dst (y_st y) →
  parser_apart (set_y_st st (set_y_conf (let cc := conf_cycle (y_conf y) in
    set_conf_cycle (set_cf_servers (list_remove_one s (cf_servers cc)) cc) (set_cservers (delete s (cservers (y_conf y))) (y_conf y))) y)).
Proof.
  intros Hs [[M1 M2 M3 M4] Hf [L1 L2]] Hst Hdst. assert (s ∉ reserved_servers (y_conf y)) as Hn.
  { apply NoDup_app in M1 as (_ & M1 & _). by apply M1. }
  pose proof (remove_one_app s (cf_servers (conf_cycle (y_conf y))) _ Hn) as El.
  split; [split|done|split]; cbn in *; try done; rewrite ?El.
  - by apply NoDup_filter.
  - intros k [Hk Hkd]%elem_of_list_remove_one. rewrite lookup_delete_ne by done. by apply M2.
  - intros k [Hk Hkd]%elem_of_list_remove_one. rewrite Hst by done. by apply L1.
  - by rewrite Hdst.
Qed.

(** A loop that moves what it meets, at most. *)
Lemma load_loop_apart (f : Z → M (csys AS IS PS) unit) (lst : csys AS IS PS → list Z) :
  (∀ x y y', parser_apart y → x ∈ lst y → f x y = Ret (tt, y') → parser_apart y' ∧ ∀ k, k ≠ x → k ∈ lst y → k ∈ lst y') →
  ∀ todo y y', parser_apart y → NoDup todo → (∀ x, x ∈ todo → x ∈ lst y) → for_each f todo y = Ret (tt, y') → parser_apart y'.
Proof.
  intros Hf todo. induction todo as [|x todo IH]; intros y y' Hp Hnd Hin E; cbn [for_each] in E.
  { injection E as <-. done. }
  apply NoDup_cons in Hnd as [Hx Hnd]. apply bind_inv in E as ([] & y1 & E1 & E2).
  destruct (Hf x y y1 Hp (Hin x (list_elem_of_here _ _)) E1) as [Hp1 Hk]. apply (IH y1 y'); [done..| |done].
  intros k Hk'. apply Hk; [by intros ->|]. by apply Hin, list_elem_of_further.
Qed.

Lemma tame_listed y y' : tame y y' →
  (∀ k, k ∈ cf_servers (conf_cycle (y_conf y)) → k ∈ cf_servers (conf_cycle (y_conf y'))) ∧
  (∀ k, k ∈ cf_devices (conf_cycle (y_conf y)) → k ∈ cf_devices (conf_cycle (y_conf y'))).
Proof. intros [A1 A2 _ _ _ _ _ _]. by rewrite A1, A2. Qed.

Lemma load_device_apart d y y' :
  parser_apart y → d ∈ cf_devices (conf_cycle (y_conf y)) → load_device d y = Ret (tt, y') →
  parser_apart y' ∧ ∀ k, k ≠ d → k ∈ cf_devices (conf_cycle (y_conf y)) → k ∈ cf_devices (conf_cycle (y_conf y')).
Proof.
  intros Hp Hd E. unfold load_device in E. apply bind_inv in E as (c & y1 & E1 & E). 
  unfold load_cdevice in E1. apply bind_inv in E1 as (? & ? & [= <- <-] & E1).
  destruct (cdevices (y_conf y) !! d) as [c'|]; [|done]. injection E1 as <- <-.
  destruct (d_conf c') as [d2|].
  - assert (tame y y') as Ht by (apply (tame_dev _ (no_new_device_update d2 c') _ _ _ E)).
    split; [by eapply tame_apart|]. intros k _. by apply tame_listed.
  - apply bind_inv in E as ([] & y1 & [= <-] & E). apply bind_inv in E as ([] & y2 & [= <-] & E).
    apply (tame_dev _ (no_new_device_add d)) in E. split.
    + eapply tame_apart; [exact E|]. exact (device_moved y d c' Hd Hp).
    + intros k Hk Hin. apply (tame_listed _ _ E). cbn. by apply elem_of_list_remove_one.
Qed.
Lemma device_load_apart y y' : parser_apart y → device_conf_load y = Ret (tt, y') → parser_apart y'.
Proof.
  intros Hp E. unfold device_conf_load in E. apply bind_inv in E as (? & ? & [= <- <-] & E). cbv zeta in E.
  apply bind_inv in E as ([] & y1 & E1 & E). apply bind_inv in E as ([] & y2 & E2 & E).
  assert (tame y y2) as Ht.
  { etrans; [refine ((_ : within tame (dev (modify _))) _ _ _ E1); by apply tame_dev, no_new_devs_modify|].
    refine (tame_for_each _ _ _ _ _ _ E2). intros d. unfold delete_unmatched_device. tame. }
  refine (load_loop_apart load_device _ load_device_apart _ _ _ (tame_apart _ _ Ht Hp) _ _ E).
  - destruct Hp as [[_ _ Hnd _] _ _]. by apply NoDup_app in Hnd as [? _].
  - intros d. apply (tame_listed _ _ Ht).
Qed.

Lemma tame_server_update s (c : server_conf) : within tame (server_update s c).
Proof. unfold server_update, server_listen_update, upd_net. tame. Qed.
Lemma tame_server_delete s : within tame (server_delete s).
Proof. unfold server_delete, server_listen_close. tame. Qed.
#[local] Hint Resolve tame_server_update tame_server_delete : within.

Lemma load_cserver_same s y c y' : load_cserver s y = Ret (c, y') → y' = y.
Proof.
  intros E. unfold load_cserver in E. apply bind_inv in E as (? & ? & [= <- <-] & E). destruct (_ !! s); [|done]. by injection E.
Qed.
Lemma load_server_apart s y y' :
  parser_apart y → s ∈ cf_servers (conf_cycle (y_conf y)) → load_server s y = Ret (tt, y') →
  parser_apart y' ∧ ∀ k, k ≠ s → k ∈ cf_servers (conf_cycle (y_conf y)) → k ∈ cf_servers (conf_cycle (y_conf y')).
Proof.
  intros Hp Hs E. unfold load_server in E. apply bind_inv in E as (c & y1 & E1 & E).
  destruct (sc_conf c) as [s2|].
  - assert (tame y y') as Ht by (etrans; [exact (tame_load_cserver _ _ _ _ E1)|exact (tame_server_update _ _ _ _ _ E)]).
    split; [by eapply tame_apart|]. intros k _. by apply tame_listed.
  - assert (y1 = y) as -> by (by eapply load_cserver_same).
    unfold server_create in E. apply bind_inv in E as (c' & y1 & E2 & E).
    assert (y1 = y) as -> by (by eapply load_cserver_same).
    clear E1 E2.
    apply bind_inv in E as (hash & y1 & E1 & E). destruct (sc_hash c'); [|done]. injection E1 as <- <-.
    apply bind_inv in E as (? & ? & [= <- <-] & E). apply bind_inv in E as ([i t] & y1 & E1 & E).
    unfold cache, out in E1. destruct (idx_pointer_add _ _) as [[i' t']|]; [|done]. injection E1 as <- <- <-.
    apply bind_inv in E as ([] & y1 & [= <-] & E). apply bind_inv in E as ([] & y2 & [= <-] & E).
    match type of E with server_listen_start s ?y2 = _ => assert (tame y2 y') as Ht end.
    { refine ((_ : within tame (server_listen_start s)) _ _ _ E). unfold server_listen_start. tame. }
    split.
    + eapply tame_apart; [exact Ht|]. replace (set_y_st (y_st y) y) with y by (by destruct y). eapply server_moved; [exact Hs|exact Hp| |]; cbn.
      * intros k Hk. by rewrite lookup_insert_ne.
      * done.
    + intros k Hk Hin. apply (tame_listed _ _ Ht). cbn. by apply elem_of_list_remove_one.
Qed.
Lemma server_load_apart y y' : parser_apart y → server_conf_load y = Ret (tt, y') → parser_apart y'.
Proof.
  intros Hp E. unfold server_conf_load in E. apply bind_inv in E as (? & ? & [= <- <-] & E).
  apply bind_inv in E as ([] & y1 & E1 & E).
  assert (tame y y1) as Ht.
  { refine (tame_for_each _ _ _ _ _ _ E1). intros s. unfold delete_unmatched. tame. }
  refine (load_loop_apart load_server _ load_server_apart _ _ _ (tame_apart _ _ Ht Hp) _ _ E).
  - destruct Hp as [[Hnd _ _ _] _ _]. by apply NoDup_app in Hnd as [? _].
  - intros s. apply (tame_listed _ _ Ht).
Qed.
End apart.
