(* ===== verification/Net.v ===== *)
(** * request.h, worker.h, event.c: connections, workers and their events

    The state of the running program: the cache, the requests and the workers by
    address, the lists they are in, the two pipes of each worker, the timers,
    and the kernel's side of it: sockets, epoll sets and the data of the devices.

    What the kernel does next is data of the state.  A socket has the results its
    next [recv]s give and the numbers of bytes its next [send]s and [sendfile]s
    accept, or the error they fail with; a socket without a result left answers
    EAGAIN.  The bytes accepted are appended to [k_sent].  [k_epoll], [k_pipe]
    and [k_disk] are the errors the next calls of epoll_ctl, write to a pipe and
    pwrite fail with, 0 for a call that succeeds; so does a call for which
    nothing is left.

    A thread runs a handler to its end before another thread takes a step: a
    request belongs to one thread at a time, which is what the pipes are for. *)

From Stdlib Require Import String.
From stdpp Require Import prelude fin_maps gmap.
From S2P Require Import Prelude StrUtil Slab Timer Device Http Server Format.

(** ** The kernel *)

Definition EINTR : Z := 4.
Definition EIO : Z := 5.
Definition EAGAIN : Z := 11.
Definition EEXIST : Z := 17.
Definition ENOENT : Z := 2.
Definition EINVAL : Z := 22.

Inductive rx := Recv (l : list Z) | RecvErr (e : Z).
Inductive tx := Sent (n : Z) | SendErr (e : Z).
Record sock := Sock { k_rx : list rx; k_tx : list tx; k_sent : list Z }.

(** ** Requests and workers *)

(** The functions a request can have as its handler. *)
Inductive req_handler :=
  | H_request_read_request_header
  | H_request_put_read_request_body
  | H_request_put_read_request_body_preread
  | H_request_get_write_response
  | H_request_get_write_response_206_body
  | H_request_get_write_response_206_header_disk
  | H_request_get_write_response_206_header_mem
  | H_request_do_finalize.
#[global] Instance req_handler_eq_dec : EqDecision req_handler.
Proof. solve_decision. Defined.

(** [ohc_request_s]: the part the cache uses, and the rest. *)
Record req := Req {
  rq : ohc_request_t;
  rq_worker : option Z;
  rq_events : Z;
  rq_active : bool;
  rq_broken : bool;
  rq_cork : bool;
  rq_start_time : Z;
  rq_output : Z;
  rq_input : Z;
  rq_errno : Z;
  rq_step : string;
  rq_handler : option req_handler;
  rq_pos : nat;
  rq_fd : Z
}.

(** [ohc_worker_s]; [w_dispatch] and [w_return] are what is in the pipes. *)
Record worker := Worker {
  w_working : list Z;
  w_blocked : list Z;
  w_timer : ohc_timer_t;
  w_quit_time : Z;
  w_epoll_fd : Z;
  w_request_nr : Z;
  w_dispatch : list Z;
  w_return : list Z
}.

(** [current_worker]: NULL, a worker of the ring with the ones behind it, or a
    worker that was taken from the ring or freed. *)
Inductive wring := RNull | RRing (current : Z) (rest : list Z) | RGone.

Definition set_k_rx (v : list rx) (k : sock) : sock := Sock v (k_tx k) (k_sent k).
Definition set_k_tx (v : list tx) (k : sock) : sock := Sock (k_rx k) v (k_sent k).
Definition set_k_sent (v : list Z) (k : sock) : sock := Sock (k_rx k) (k_tx k) v.
Definition set_rq (v : ohc_request_t) (r : req) : req :=
    Req v (rq_worker r) (rq_events r) (rq_active r) (rq_broken r) (rq_cork r) (rq_start_time r)
    (rq_output r) (rq_input r) (rq_errno r) (rq_step r) (rq_handler r) (rq_pos r) (rq_fd r).
Definition set_rq_worker (v : option Z) (r : req) : req :=
    Req (rq r) v (rq_events r) (rq_active r) (rq_broken r) (rq_cork r) (rq_start_time r)
    (rq_output r) (rq_input r) (rq_errno r) (rq_step r) (rq_handler r) (rq_pos r) (rq_fd r).
Definition set_rq_events (v : Z) (r : req) : req :=
    Req (rq r) (rq_worker r) v (rq_active r) (rq_broken r) (rq_cork r) (rq_start_time r)
    (rq_output r) (rq_input r) (rq_errno r) (rq_step r) (rq_handler r) (rq_pos r) (rq_fd r).
Definition set_rq_active (v : bool) (r : req) : req :=
    Req (rq r) (rq_worker r) (rq_events r) v (rq_broken r) (rq_cork r) (rq_start_time r)
    (rq_output r) (rq_input r) (rq_errno r) (rq_step r) (rq_handler r) (rq_pos r) (rq_fd r).
Definition set_rq_broken (v : bool) (r : req) : req :=
    Req (rq r) (rq_worker r) (rq_events r) (rq_active r) v (rq_cork r) (rq_start_time r)
    (rq_output r) (rq_input r) (rq_errno r) (rq_step r) (rq_handler r) (rq_pos r) (rq_fd r).
Definition set_rq_cork (v : bool) (r : req) : req :=
    Req (rq r) (rq_worker r) (rq_events r) (rq_active r) (rq_broken r) v (rq_start_time r)
    (rq_output r) (rq_input r) (rq_errno r) (rq_step r) (rq_handler r) (rq_pos r) (rq_fd r).
Definition set_rq_start_time (v : Z) (r : req) : req :=
    Req (rq r) (rq_worker r) (rq_events r) (rq_active r) (rq_broken r) (rq_cork r) v (rq_output
    r) (rq_input r) (rq_errno r) (rq_step r) (rq_handler r) (rq_pos r) (rq_fd r).
Definition set_rq_output (v : Z) (r : req) : req :=
    Req (rq r) (rq_worker r) (rq_events r) (rq_active r) (rq_broken r) (rq_cork r)
    (rq_start_time r) v (rq_input r) (rq_errno r) (rq_step r) (rq_handler r) (rq_pos r) (rq_fd
    r).
Definition set_rq_input (v : Z) (r : req) : req :=
    Req (rq r) (rq_worker r) (rq_events r) (rq_active r) (rq_broken r) (rq_cork r)
    (rq_start_time r) (rq_output r) v (rq_errno r) (rq_step r) (rq_handler r) (rq_pos r) (rq_fd
    r).
Definition set_rq_errno (v : Z) (r : req) : req :=
    Req (rq r) (rq_worker r) (rq_events r) (rq_active r) (rq_broken r) (rq_cork r)
    (rq_start_time r) (rq_output r) (rq_input r) v (rq_step r) (rq_handler r) (rq_pos r) (rq_fd
    r).
Definition set_rq_step (v : string) (r : req) : req :=
    Req (rq r) (rq_worker r) (rq_events r) (rq_active r) (rq_broken r) (rq_cork r)
    (rq_start_time r) (rq_output r) (rq_input r) (rq_errno r) v (rq_handler r) (rq_pos r) (rq_fd
    r).
Definition set_rq_handler (v : option req_handler) (r : req) : req :=
    Req (rq r) (rq_worker r) (rq_events r) (rq_active r) (rq_broken r) (rq_cork r)
    (rq_start_time r) (rq_output r) (rq_input r) (rq_errno r) (rq_step r) v (rq_pos r) (rq_fd
    r).
Definition set_rq_pos (v : nat) (r : req) : req :=
    Req (rq r) (rq_worker r) (rq_events r) (rq_active r) (rq_broken r) (rq_cork r)
    (rq_start_time r) (rq_output r) (rq_input r) (rq_errno r) (rq_step r) (rq_handler r) v
    (rq_fd r).
Definition set_rq_fd (v : Z) (r : req) : req :=
    Req (rq r) (rq_worker r) (rq_events r) (rq_active r) (rq_broken r) (rq_cork r)
    (rq_start_time r) (rq_output r) (rq_input r) (rq_errno r) (rq_step r) (rq_handler r) (rq_pos
    r) v.
Definition set_w_working (v : list Z) (r : worker) : worker :=
    Worker v (w_blocked r) (w_timer r) (w_quit_time r) (w_epoll_fd r) (w_request_nr r)
    (w_dispatch r) (w_return r).
Definition set_w_blocked (v : list Z) (r : worker) : worker :=
    Worker (w_working r) v (w_timer r) (w_quit_time r) (w_epoll_fd r) (w_request_nr r)
    (w_dispatch r) (w_return r).
Definition set_w_timer (v : ohc_timer_t) (r : worker) : worker :=
    Worker (w_working r) (w_blocked r) v (w_quit_time r) (w_epoll_fd r) (w_request_nr r)
    (w_dispatch r) (w_return r).
Definition set_w_quit_time (v : Z) (r : worker) : worker :=
    Worker (w_working r) (w_blocked r) (w_timer r) v (w_epoll_fd r) (w_request_nr r) (w_dispatch
    r) (w_return r).
Definition set_w_epoll_fd (v : Z) (r : worker) : worker :=
    Worker (w_working r) (w_blocked r) (w_timer r) (w_quit_time r) v (w_request_nr r)
    (w_dispatch r) (w_return r).
Definition set_w_request_nr (v : Z) (r : worker) : worker :=
    Worker (w_working r) (w_blocked r) (w_timer r) (w_quit_time r) (w_epoll_fd r) v (w_dispatch
    r) (w_return r).
Definition set_w_dispatch (v : list Z) (r : worker) : worker :=
    Worker (w_working r) (w_blocked r) (w_timer r) (w_quit_time r) (w_epoll_fd r) (w_request_nr
    r) v (w_return r).
Definition set_w_return (v : list Z) (r : worker) : worker :=
    Worker (w_working r) (w_blocked r) (w_timer r) (w_quit_time r) (w_epoll_fd r) (w_request_nr
    r) (w_dispatch r) v.

(** ** The whole *)

Section net.
Context {AS IS PS RS : Type}.

Record net := NetSt {
  n_st : sstore AS IS PS;
  n_reqs : gmap Z req;
  n_rslab : RS;
  master_requests : list Z;
  connections_total : Z;
  n_workers : gmap Z worker;
  current_worker : wring;
  workers : Z;
  new_workers : Z;
  master_timer : ohc_timer_t;
  n_socks : gmap Z sock;
  n_epolls : gmap (Z * Z) (Z * Z);
  n_disks : gmap Z (list Z);
  k_epoll : list Z;
  k_pipe : list Z;
  k_disk : list Z
}.
Definition set_n_st (v : sstore AS IS PS) (r : net) : net :=
    NetSt v (n_reqs r) (n_rslab r) (master_requests r) (connections_total r) (n_workers r)
    (current_worker r) (workers r) (new_workers r) (master_timer r) (n_socks r) (n_epolls r)
    (n_disks r) (k_epoll r) (k_pipe r) (k_disk r).
Definition set_n_reqs (v : gmap Z req) (r : net) : net :=
    NetSt (n_st r) v (n_rslab r) (master_requests r) (connections_total r) (n_workers r)
    (current_worker r) (workers r) (new_workers r) (master_timer r) (n_socks r) (n_epolls r)
    (n_disks r) (k_epoll r) (k_pipe r) (k_disk r).
Definition set_n_rslab (v : RS) (r : net) : net :=
    NetSt (n_st r) (n_reqs r) v (master_requests r) (connections_total r) (n_workers r)
    (current_worker r) (workers r) (new_workers r) (master_timer r) (n_socks r) (n_epolls r)
    (n_disks r) (k_epoll r) (k_pipe r) (k_disk r).
Definition set_master_requests (v : list Z) (r : net) : net :=
    NetSt (n_st r) (n_reqs r) (n_rslab r) v (connections_total r) (n_workers r) (current_worker r)
    (workers r) (new_workers r) (master_timer r) (n_socks r) (n_epolls r) (n_disks r) (k_epoll
    r) (k_pipe r) (k_disk r).
Definition set_connections_total (v : Z) (r : net) : net :=
    NetSt (n_st r) (n_reqs r) (n_rslab r) (master_requests r) v (n_workers r) (current_worker r)
    (workers r) (new_workers r) (master_timer r) (n_socks r) (n_epolls r) (n_disks r) (k_epoll
    r) (k_pipe r) (k_disk r).
Definition set_n_workers (v : gmap Z worker) (r : net) : net :=
    NetSt (n_st r) (n_reqs r) (n_rslab r) (master_requests r) (connections_total r) v
    (current_worker r) (workers r) (new_workers r) (master_timer r) (n_socks r) (n_epolls r)
    (n_disks r) (k_epoll r) (k_pipe r) (k_disk r).
Definition set_current_worker (v : wring) (r : net) : net :=
    NetSt (n_st r) (n_reqs r) (n_rslab r) (master_requests r) (connections_total r) (n_workers r)
    v (workers r) (new_workers r) (master_timer r) (n_socks r) (n_epolls r) (n_disks r) (k_epoll
    r) (k_pipe r) (k_disk r).
Definition set_workers (v : Z) (r : net) : net :=
    NetSt (n_st r) (n_reqs r) (n_rslab r) (master_requests r) (connections_total r) (n_workers r)
    (current_worker r) v (new_workers r) (master_timer r) (n_socks r) (n_epolls r) (n_disks r)
    (k_epoll r) (k_pipe r) (k_disk r).
Definition set_new_workers (v : Z) (r : net) : net :=
    NetSt (n_st r) (n_reqs r) (n_rslab r) (master_requests r) (connections_total r) (n_workers r)
    (current_worker r) (workers r) v (master_timer r) (n_socks r) (n_epolls r) (n_disks r)
    (k_epoll r) (k_pipe r) (k_disk r).
Definition set_master_timer (v : ohc_timer_t) (r : net) : net :=
    NetSt (n_st r) (n_reqs r) (n_rslab r) (master_requests r) (connections_total r) (n_workers r)
    (current_worker r) (workers r) (new_workers r) v (n_socks r) (n_epolls r) (n_disks r)
    (k_epoll r) (k_pipe r) (k_disk r).
Definition set_n_socks (v : gmap Z sock) (r : net) : net :=
    NetSt (n_st r) (n_reqs r) (n_rslab r) (master_requests r) (connections_total r) (n_workers r)
    (current_worker r) (workers r) (new_workers r) (master_timer r) v (n_epolls r) (n_disks r)
    (k_epoll r) (k_pipe r) (k_disk r).
Definition set_n_epolls (v : gmap (Z * Z) (Z * Z)) (r : net) : net :=
    NetSt (n_st r) (n_reqs r) (n_rslab r) (master_requests r) (connections_total r) (n_workers r)
    (current_worker r) (workers r) (new_workers r) (master_timer r) (n_socks r) v (n_disks r)
    (k_epoll r) (k_pipe r) (k_disk r).
Definition set_n_disks (v : gmap Z (list Z)) (r : net) : net :=
    NetSt (n_st r) (n_reqs r) (n_rslab r) (master_requests r) (connections_total r) (n_workers r)
    (current_worker r) (workers r) (new_workers r) (master_timer r) (n_socks r) (n_epolls r) v
    (k_epoll r) (k_pipe r) (k_disk r).
Definition set_k_epoll (v : list Z) (r : net) : net :=
    NetSt (n_st r) (n_reqs r) (n_rslab r) (master_requests r) (connections_total r) (n_workers r)
    (current_worker r) (workers r) (new_workers r) (master_timer r) (n_socks r) (n_epolls r)
    (n_disks r) v (k_pipe r) (k_disk r).
Definition set_k_pipe (v : list Z) (r : net) : net :=
    NetSt (n_st r) (n_reqs r) (n_rslab r) (master_requests r) (connections_total r) (n_workers r)
    (current_worker r) (workers r) (new_workers r) (master_timer r) (n_socks r) (n_epolls r)
    (n_disks r) (k_epoll r) v (k_disk r).
Definition set_k_disk (v : list Z) (r : net) : net :=
    NetSt (n_st r) (n_reqs r) (n_rslab r) (master_requests r) (connections_total r) (n_workers r)
    (current_worker r) (workers r) (new_workers r) (master_timer r) (n_socks r) (n_epolls r)
    (n_disks r) (k_epoll r) (k_pipe r) v.
End net.
Arguments net : clear implicits.

(** ** Access *)

Section access.
Context {AS IS PS RS : Type} `{Allocator AS} `{Allocator IS} `{Allocator PS} `{Allocator RS}.
Abbreviation N := (M (net AS IS PS RS)).

Definition with_cache {A} (c : M (sstore AS IS PS) A) : N A := λ n,
  match c (n_st n) with Ret (a, st) => Ret (a, set_n_st st n) | Fail f => Fail f end.
Definition load_req (r : Z) : N req := n ← get; deref Dangling (n_reqs n !! r).
Definition upd_req (r : Z) (f : req → req) : N unit :=
  _ ← load_req r; modify (λ n, set_n_reqs (alter f r (n_reqs n)) n).
Definition load_worker (w : Z) : N worker := n ← get; deref Dangling (n_workers n !! w).
Definition upd_worker (w : Z) (f : worker → worker) : N unit :=
  _ ← load_worker w; modify (λ n, set_n_workers (alter f w (n_workers n)) n).

(** Fields of the part of the request the cache uses. *)
Definition upd_h (f : hreq → hreq) (q : req) : req := set_rq (set_r_h (f (r_h (rq q))) (rq q)) q.
Definition set_http_code (c : Z) : req → req := upd_h (set_q_http_code c).
Definition set_keepalive (b : bool) : req → req := upd_h (set_q_keepalive b).
Definition error_reason (why : string) : req → req := upd_h (set_q_error_reason (Some why)).
Definition process_size (q : req) : Z := r_process_size (rq q).
Definition set_process_size (v : Z) (q : req) : req :=
  set_rq (Request (r_server (rq q)) (r_h (rq q)) (r_buf (rq q)) (r_item (rq q)) v (r_disk_error (rq q))) q.
Definition set_disk_error (v : bool) (q : req) : req :=
  set_rq (Request (r_server (rq q)) (r_h (rq q)) (r_buf (rq q)) (r_item (rq q)) (r_process_size (rq q)) v) q.

(** *** System calls *)

Definition load_sock (fd : Z) : N sock := n ← get; deref Undef (n_socks n !! fd).
Definition upd_sock (fd : Z) (f : sock → sock) : N unit :=
  _ ← load_sock fd; modify (λ n, set_n_socks (alter f fd (n_socks n)) n).

(** [recv]: the bytes, none when the client closed, or the error.  What does not
    fit the buffer stays. *)
Definition recv (fd room : Z) : N (list Z + Z) :=
  s ← load_sock fd;
  match k_rx s with
  | [] => mret (inr EAGAIN)
  | RecvErr e :: l => upd_sock fd (set_k_rx l);; mret (inr e)
  | Recv b :: l =>
      let rest := drop (Z.to_nat room) b in
      upd_sock fd (set_k_rx (match rest with [] => l | _ => Recv rest :: l end));;
      mret (inl (take (Z.to_nat room) b))
  end.

(** The bytes [data] are handed to the socket, which takes some of them. *)
Definition transmit (fd : Z) (data : list Z) : N (Z + Z) :=
  s ← load_sock fd;
  match k_tx s with
  | [] => mret (inr EAGAIN)
  | SendErr e :: l => upd_sock fd (set_k_tx l);; mret (inr e)
  | Sent k :: l =>
      let b := take (Z.to_nat k) data in
      upd_sock fd (λ s, set_k_tx l (set_k_sent (k_sent s ++ b) s));; mret (inl (Z.of_nat (length b)))
  end.
Definition send : Z → list Z → N (Z + Z) := transmit.

(** [sendfile]: at most [count] bytes of the file from [off] on. *)
Definition sendfile (fd file off count : Z) : N (Z + Z) :=
  n ← get;
  data ← deref Undef (n_disks n !! file);
  if off <? 0 then mret (inr EINVAL)
  else transmit fd (take (Z.to_nat count) (drop (Z.to_nat off) data)).

(** [pwrite]: all of it, or the error; the offset is not negative. *)
Definition pwrite (file : Z) (buffer : list Z) (off : Z) : N (Z + Z) :=
  n ← get;
  data ← deref Undef (n_disks n !! file);
  let e := default 0 (head (k_disk n)) in
  modify (set_k_disk (tail (k_disk n)));;
  if off <? 0 then mret (inr EINVAL)
  else if e =? 0 then
    modify (λ n, set_n_disks (<[file := write_at (Z.to_nat off) buffer data]> (n_disks n)) n);;
    mret (inl (Z.of_nat (length buffer)))
  else mret (inr e).

(** [epoll_ctl] on the entry of [fd] in the set [epfd]: 0, or an error. *)
Definition epoll_call (c : N Z) : N Z :=
  n ← get;
  let e := default 0 (head (k_epoll n)) in
  modify (set_k_epoll (tail (k_epoll n)));;
  if e =? 0 then c else mret e.
Definition epoll_add (epfd fd ev : Z) (r : Z) : N Z :=
  epoll_call (n ← get;
    match n_epolls n !! (epfd, fd) with
    | Some _ => mret EEXIST
    | None => modify (λ n, set_n_epolls (<[(epfd, fd) := (ev, r)]> (n_epolls n)) n);; mret 0
    end).
Definition epoll_mod (epfd fd ev : Z) (r : Z) : N Z :=
  epoll_call (n ← get;
    match n_epolls n !! (epfd, fd) with
    | Some _ => modify (λ n, set_n_epolls (<[(epfd, fd) := (ev, r)]> (n_epolls n)) n);; mret 0
    | None => mret ENOENT
    end).
Definition epoll_del (epfd fd : Z) : N unit :=
  modify (λ n, set_n_epolls (delete (epfd, fd) (n_epolls n)) n).
End access.

(** ** event.c *)

Section events.
Context {AS IS PS RS : Type} `{Allocator AS} `{Allocator IS} `{Allocator PS} `{Allocator RS}.
(** [master_epoll_fd], and the [malloc] of timer groups. *)
Context (master_epoll_fd : Z) (tmalloc : ohc_timer_t → option Z).
Abbreviation N := (M (net AS IS PS RS)).

Definition OHC_EV_READ : Z := 1.
Definition OHC_EV_WRITE : Z := 2.
Definition EPOLLIN : Z := 1.
Definition EPOLLOUT : Z := 4.

(** The timer and the epoll set of the thread a request is with. *)
Definition thread_timer (w : option Z) : N ohc_timer_t :=
  match w with
  | Some w => wk ← load_worker w; mret (w_timer wk)
  | None => n ← get; mret (master_timer n)
  end.
Definition set_thread_timer (w : option Z) (t : ohc_timer_t) : N unit :=
  match w with Some w => upd_worker w (set_w_timer t) | None => modify (set_master_timer t) end.
Definition thread_epoll_fd (w : option Z) : N Z :=
  match w with Some w => wk ← load_worker w; mret (w_epoll_fd wk) | None => mret master_epoll_fd end.

Definition timer_step (w : option Z) (f : ohc_timer_t → outcome (Z * ohc_timer_t)) : N Z :=
  t ← thread_timer w;
  rt ← (λ n, a ← f t; Ret (a, n));
  set_thread_timer w rt.2;; mret rt.1.

Definition event_add (r : Z) (handler : req_handler) (event timeout : Z) : N ohc_rc :=
  q ← load_req r;
  let epoll_ev := if event =? OHC_EV_READ then EPOLLIN else EPOLLOUT in
  let w := rq_worker q in
  epoll_fd ← thread_epoll_fd w;
  let update := timer_step w (λ t, timer_update (tmalloc t) t r timeout) in
  let ok := upd_req r (λ q, set_rq_events event (set_rq_handler (Some handler) q));; mret OHC_OK in
  if rq_events q =? event then update;; ok
  else if negb (rq_events q =? 0) then
    rc ← epoll_mod epoll_fd (rq_fd q) epoll_ev r;
    if negb (rc =? 0) then mret OHC_ERROR else
    rc ← update;
    if negb (rc =? 0) then mret OHC_ERROR else ok
  else
    rc ← epoll_add epoll_fd (rq_fd q) epoll_ev r;
    if negb (rc =? 0) then mret OHC_ERROR else
    rc ← timer_step w (λ t, timer_add (tmalloc t) t r timeout);
    if negb (rc =? 0) then mret OHC_ERROR else ok.

Definition server_times (r : Z) : N server_net :=
  q ← load_req r; sv ← with_cache (load_srv (r_server (rq q))); mret (s_net sv).
Definition event_add_read (r : Z) (handler : req_handler) : N ohc_rc :=
  s ← server_times r; event_add r handler OHC_EV_READ (n_recv_timeout s).
Definition event_add_write (r : Z) (handler : req_handler) : N ohc_rc :=
  s ← server_times r; event_add r handler OHC_EV_WRITE (n_send_timeout s).
Definition event_add_keepalive (r : Z) (handler : req_handler) : N ohc_rc :=
  s ← server_times r; event_add r handler OHC_EV_READ (n_keepalive_timeout s).

Definition event_del (r : Z) : N unit :=
  q ← load_req r;
  if rq_events q =? 0 then mret tt else
  epoll_fd ← thread_epoll_fd (rq_worker q);
  epoll_del epoll_fd (rq_fd q);;
  timer_step (rq_worker q) (λ t, t ← timer_del t r; Ret (0, t));;
  upd_req r (set_rq_events 0).
End events.
