(* ===== verification/Status.v ===== *)
(** * What the program prints

    The status of devices and servers, the line of the access log, the error
    log, and [printf] with the conversions these use: [%d], [%ld], [%s] and
    [%02d]. *)

From Stdlib Require Import String.
From stdpp Require Import prelude fin_maps gmap.
From S2P Require Import Prelude StrUtil Slab Hash Timer Device Http HttpProofs Server Conf ConfProofs ServerConf Life CacheProofs Net.

(** ** printf *)

Inductive parg := PInt (n : Z) | PStr (s : list Z).

Definition dec_int (n : Z) : list Z := if n <? 0 then 45 :: dec (- n) else dec n.
Definition put_int (a : option parg) (f : Z → list Z) : outcome (list Z) :=
  match a with Some (PInt n) => Ret (f n) | _ => Fail Undef end.
Definition put_str (a : option parg) : outcome (list Z) :=
  match a with Some (PStr s) => Ret (cstr s) | _ => Fail Undef end.

(** A [%ld] takes eight bytes, signed; what it is given as a [size_t] above
    [LONG_MAX] comes out negative. *)
Fixpoint printf (fmt : list Z) (args : list parg) {struct fmt} : outcome (list Z) :=
  match fmt with
  | [] => Ret []
  | c :: fmt =>
      if c =? 37 then
        match fmt with
        | k :: fmt =>
            if k =? 115 then s ← put_str (head args); rest ← printf fmt (tail args); Ret (s ++ rest)
            else if k =? 100 then s ← put_int (head args) (λ n, dec_int (i32 n)); rest ← printf fmt (tail args); Ret (s ++ rest)
            else if k =? 108 then
              match fmt with
              | _ :: fmt => s ← put_int (head args) (λ n, dec_int (i64 n)); rest ← printf fmt (tail args); Ret (s ++ rest)
              | [] => Fail Undef
              end
            else
              match fmt with
              | _ :: _ :: fmt => s ← put_int (head args) (λ n, pad0 2 (dec_int (i32 n))); rest ← printf fmt (tail args); Ret (s ++ rest)
              | _ => Fail Undef
              end
        | [] => Fail Undef
        end
      else rest ← printf fmt args; Ret (c :: rest)
  end.
Definition NL : list Z := [10].

(** ** The status *)

Definition device_line (dv : ohc_device_t) : outcome (list Z) :=
  printf (bytes "++ %s %ld %ld %ld %s" ++ NL)
    [PStr (d_filename dv); PInt (d_capacity dv); PInt (d_consumed dv); PInt (d_badblock dv);
     PStr (bytes (if d_kicked dv then "kicked" else "ok"))].

Definition server_line (s : ohc_server_t) : outcome (list Z) :=
  let t := s_stats s in
  printf (bytes "-- %d %ld %ld " ++ bytes "| %ld %ld %ld %ld %d " ++ bytes "| %ld %ld %ld %ld %ld %ld "
      ++ bytes "| %ld %ld %ld %ld %ld %ld " ++ bytes "| %ld %ld " ++ bytes "| %ld %ld" ++ NL)
    [PInt (s_listen_port s); PInt (s_capacity s); PInt (s_status_period s);
     PInt (s_consumed s); PInt (s_content s); PInt (s_item_nr s); PInt (s_passby_item_nr s); PInt (n_connections (s_net s));
     PInt (t_gets t); PInt (t_gets_last t); PInt (t_hits t); PInt (t_hits_last t); PInt (t_passby_hits t); PInt (t_passby_hits_last t);
     PInt (t_puts t); PInt (t_puts_last t); PInt (t_stores t); PInt (t_stores_last t); PInt (t_passby_stores t);
     PInt (t_passby_stores_last t); PInt (t_deletes t); PInt (t_deletes_last t); PInt (t_output_last t); PInt (t_input_last t)].

Section status.
Context {AS IS PS : Type}.

(** The lines of a list, one after the other; each element is read from the
    memory. *)
Fixpoint print_each {A} (line : A → outcome (list Z)) (mem : gmap Z A) (l : list Z) : outcome (list Z) :=
  match l with
  | [] => Ret []
  | d :: l =>
      match mem !! d with
      | None => Fail Dangling
      | Some dv => s ← line dv; rest ← print_each line mem l; Ret (s ++ rest)
      end
  end.

Definition device_header : list Z := bytes "+ device capacity consumed badblock status".
Definition device_status (ds : dstore AS) : outcome (list Z) :=
  body ← print_each device_line (devs ds) (devices ds);
  Ret (NL ++ device_header ++ NL ++ body).

Definition server_header : list Z :=
  bytes "- listen capacity period " ++ bytes "| consumed content items passbyitems connections "
  ++ bytes "| gets _gets hits _hits passbyhits _passbyhits " ++ bytes "| puts _puts stores _stores passbystores _passbystores "
  ++ bytes "| deletes _deletes " ++ bytes "| output input".
Definition server_status (st : sstore AS IS PS) : outcome (list Z) :=
  body ← print_each server_line (srvs st) (servers st);
  Ret (NL ++ server_header ++ NL ++ body).

Definition olivehc_status (st : sstore AS IS PS) : outcome (list Z) :=
  a ← device_status (dst st); b ← server_status st; Ret (a ++ b).
End status.

(** ** The logs *)

(** [strshow] ends the string in its buffer; the pointer it returns is read
    when the line is printed. *)
Definition strshow (buf : list Z) (s : option string_t) : outcome (option nat * list Z) :=
  match s with
  | None => Ret (None, buf)
  | Some t =>
      let e := (str_base t + Z.to_nat (str_len t))%nat in
      if decide (e < length buf)%nat then Ret (Some (str_base t), <[e := 0]> buf) else Fail OutOfBounds
  end.
Definition read_ptr (buf : list Z) (p : option nat) : list Z :=
  match p with None => bytes "-" | Some b => cstr (drop b buf) end.

(** [http_methods[r->method].str.base] *)
Definition method_text (m : http_method) : list Z :=
  bytes (match m with
         | METHOD_GET => "GET " | METHOD_HEAD => "HEAD " | METHOD_PUT => "PUT " | METHOD_POST => "POST "
         | METHOD_PURGE => "PURGE " | METHOD_DELETE => "DELETE " | METHOD_INVALID => "XXX "
         end).

Section logs.
Context (localtime_r : Z → tm) (strerror : Z → list Z).

Definition LEN_TIME_FARMAT_LOG : Z := 20.
Definition format_log (time : Z) : outcome (list Z) :=
  let tm := localtime_r time in
  s ← printf (bytes "%d-%02d-%02d %02d:%02d:%02d")
    [PInt (tm_year tm + 1900); PInt (tm_mon tm + 1); PInt (tm_mday tm); PInt (tm_hour tm); PInt (tm_min tm); PInt (tm_sec tm)];
  Ret (take (Z.to_nat (LEN_TIME_FARMAT_LOG - 1)) s).
(** With its cache, as [timer_format_rfc1123]. *)
Definition timer_format_log (cache : option (list Z)) (time : Z) : outcome (list Z * option (list Z)) :=
  match cache with
  | Some s => Ret (s, cache)
  | None => s ← format_log time; Ret (s, Some s)
  end.

(** [log_error] with its message already formatted. *)
Definition log_error (prefix : option (list Z)) (errnum : Z) (msg : list Z) : list Z :=
  match prefix with Some p => p ++ [32] | None => [] end ++ msg ++
  (if errnum =? 0 then NL else bytes " [" ++ strerror errnum ++ bytes "]" ++ NL).
Definition log_error_run (time : list Z) : Z → list Z → list Z := log_error (Some time).
Definition log_error_admin : Z → list Z → list Z := log_error (Some (bytes "ERROR:")).

(** The end of the line. *)
Definition log_reason (q : req) : outcome (list Z) :=
  match q_error_reason (r_h (rq q)) with
  | None => Ret NL
  | Some why =>
      if q_http_code (r_h (rq q)) =? 204 then printf (bytes " [%s]" ++ NL) [PStr (bytes why)]
      else if negb (rq_errno q =? 0) then
        printf (bytes " [%s(%s) while %s]" ++ NL) [PStr (bytes why); PStr (strerror (rq_errno q)); PStr (bytes (rq_step q))]
      else printf (bytes " [%s while %s]" ++ NL) [PStr (bytes why); PStr (bytes (rq_step q))]
  end.

(** The log in [request_do_finalize]: the line, and the buffer after it; [time]
    is the time of the master's timer as text, [client] the address as text. *)
Definition request_log (time client : list Z) (now : Z) (q : req) : outcome (option (list Z) * list Z) :=
  let h := r_h (rq q) in
  if negb (rq_active q) then Ret (None, r_buf (rq q)) else
  uri ← strshow (r_buf (rq q)) (q_uri h);
  host ← strshow uri.2 (q_host h);
  key ← strshow host.2 (q_ohc_key h);
  range ← strshow key.2 (q_range h);
  let buf := range.2 in
  line ← printf (bytes "%s %s %d %ld %s%s %s %s %s")
    [PStr time; PStr client; PInt (q_http_code h); PInt (now - rq_start_time q); PStr (method_text (q_method h));
     PStr (read_ptr buf uri.1); PStr (read_ptr buf host.1); PStr (read_ptr buf key.1); PStr (read_ptr buf range.1)];
  why ← log_reason q;
  Ret (Some (line ++ why), buf).
End logs.
(** ** Reading the status

    What a client of the admin port sees: lines of words, and numbers. *)

Fixpoint split (c : Z) (s : list Z) : list (list Z) :=
  match s with
  | [] => [[]]
  | x :: s =>
      match split c s with
      | [] => [[x]]
      | w :: ws => if x =? c then [] :: w :: ws else (x :: w) :: ws
      end
  end.
Definition read_words (text : list Z) : list (list (list Z)) := split 32 <$> split 10 text.
Definition read_num (w : list Z) : option Z :=
  match strtol w with (n, []) => if decide (w = []) then None else Some n | _ => None end.
Definition read_device (ws : list (list Z)) : option (list Z * list Z * bool) :=
  match ws with
  | [mark; name; a; b; c; k] =>
      if decide (mark = bytes "++") then
        nums ← mapM read_num [a; b; c]; Some (name, nums, bool_decide (k = bytes "kicked"))
      else None
  | _ => None
  end.
Definition read_server (ws : list (list Z)) : option (list Z) :=
  match ws with
  | mark :: l => if decide (mark = bytes "--") then mapM read_num (filter (λ w, w ≠ bytes "|") l) else None
  | [] => None
  end.

(** The numbers in a server's line. *)
Definition server_groups (s : ohc_server_t) : list Z * list (list Z) :=
  let t := s_stats s in
  ([s_listen_port s; s_capacity s; s_status_period s],
   [[s_consumed s; s_content s; s_item_nr s; s_passby_item_nr s; n_connections (s_net s)];
    [t_gets t; t_gets_last t; t_hits t; t_hits_last t; t_passby_hits t; t_passby_hits_last t];
    [t_puts t; t_puts_last t; t_stores t; t_stores_last t; t_passby_stores t; t_passby_stores_last t];
    [t_deletes t; t_deletes_last t]; [t_output_last t; t_input_last t]]).
Definition server_numbers (s : ohc_server_t) : list Z := (server_groups s).1 ++ concat (server_groups s).2.
Definition device_numbers (dv : ohc_device_t) : list Z := [d_capacity dv; d_consumed dv; d_badblock dv].

Definition counter (n : Z) : Prop := 0 ≤ n < 2 ^ 63.
#[global] Instance counter_dec n : Decision (counter n).
Proof. unfold counter. apply _. Defined.
Record device_printable (dv : ohc_device_t) : Prop := {
  dp_name : Forall (λ c, c ≠ 0 ∧ c ≠ 10 ∧ c ≠ 32) (d_filename dv);
  dp_nums : Forall counter (device_numbers dv)
}.
Record server_printable (s : ohc_server_t) : Prop := {
  sp_nums : Forall counter (server_numbers s);
  sp_ints : s_listen_port s < 2 ^ 31 ∧ n_connections (s_net s) < 2 ^ 31
}.

(** *** Words and rows *)

Lemma split_nonempty c s : split c s ≠ [].
Proof. destruct s as [|x s]; [done|]. cbn [split]. destruct (split c s); [done|]. by destruct (x =? c). Qed.
Lemma split_app c w s : c ∉ w → split c (w ++ c :: s) = w :: split c s.
Proof.
  induction w as [|x w IH]; intros Hw.
  - cbn [app split]. rewrite Z.eqb_refl. destruct (split c s) eqn:E; [by destruct (split_nonempty c s)|done].
  - apply not_elem_of_cons in Hw as [Hx Hw]. cbn [app split]. rewrite (IH Hw). by rewrite (proj2 (Z.eqb_neq x c)).
Qed.
Lemma split_none c w : c ∉ w → split c w = [w].
Proof.
  induction w as [|x w IH]; intros Hw; [done|]. apply not_elem_of_cons in Hw as [Hx Hw]. cbn [split].
  rewrite (IH Hw). by rewrite (proj2 (Z.eqb_neq x c)).
Qed.

(** A row of words, and the line it is on. *)
Fixpoint row (ws : list (list Z)) : list Z :=
  match ws with [] => NL | [w] => w ++ NL | w :: ws => w ++ 32 :: row ws end.
Fixpoint row_line (ws : list (list Z)) : list Z :=
  match ws with [] => [] | [w] => w | w :: ws => w ++ 32 :: row_line ws end.
Definition word (w : list Z) : Prop := (32 ∉ w) ∧ (10 ∉ w).
#[global] Instance word_dec w : Decision (word w).
Proof. unfold word. apply _. Defined.
Lemma concrete_word w : bool_decide (word w) = true → word w.
Proof. apply bool_decide_eq_true. Qed.

Lemma row_row_line ws : row ws = row_line ws ++ NL.
Proof.
  induction ws as [|w [|w' ws] IH]; [done|done|]. change (row (w :: w' :: ws)) with (w ++ 32 :: row (w' :: ws)).
  rewrite IH. change (row_line (w :: w' :: ws)) with (w ++ 32 :: row_line (w' :: ws)). by rewrite <- app_assoc.
Qed.
Lemma row_line_no10 ws : Forall word ws → 10 ∉ row_line ws.
Proof.
  induction ws as [|w [|w' ws] IH]; intros Hws; [apply not_elem_of_nil|by apply Forall_cons in Hws as [[] _]|].
  apply Forall_cons in Hws as [[_ Hw] Hws]. change (row_line (w :: w' :: ws)) with (w ++ 32 :: row_line (w' :: ws)).
  rewrite elem_of_app, elem_of_cons. intros [?|[?|?]]; [done|done|by apply IH].
Qed.
Lemma split_row_line ws : ws ≠ [] → Forall word ws → split 32 (row_line ws) = ws.
Proof.
  induction ws as [|w [|w' ws] IH]; intros Hn Hws; [done|..]; apply Forall_cons in Hws as [[Hw _] Hws]; [by apply split_none|].
  change (row_line (w :: w' :: ws)) with (w ++ 32 :: row_line (w' :: ws)). rewrite split_app by done. by rewrite IH.
Qed.
Lemma read_rows wss s :
  Forall (λ ws, ws ≠ [] ∧ Forall word ws) wss → read_words (concat (row <$> wss) ++ s) = wss ++ read_words s.
Proof.
  induction wss as [|ws wss IH]; intros Hws; [done|]. apply Forall_cons in Hws as [[Hn Hw] Hws].
  cbn [fmap list_fmap concat]. rewrite row_row_line, <- !app_assoc. unfold read_words, NL.
  cbn [app]. rewrite split_app by by apply row_line_no10. cbn [fmap list_fmap]. rewrite split_row_line by done.
  cbn [app]. f_equal. apply IH, Hws.
Qed.

(** *** Numbers *)

Lemma dec_word n : 0 ≤ n → Forall (λ c, 48 ≤ c ≤ 57) (dec n).
Proof.
  intros Hn. eapply Forall_impl; [apply (dec_loop_digits 20 n []); [done|by constructor]|]. intros c Hc. unfold is_digit in Hc. lia.
Qed.
Lemma digits_word w : Forall (λ c, 48 ≤ c ≤ 57) w → word w ∧ w ≠ bytes "|".
Proof.
  rewrite Forall_forall. intros Hw. split; [split; intros Hc; specialize (Hw _ Hc); lia|].
  intros ->. specialize (Hw 124 ltac:(apply list_elem_of_here)). lia.
Qed.
Lemma read_num_dec n : counter n → read_num (dec n) = Some n.
Proof.
  intros Hn. unfold counter in Hn. unfold read_num, strtol. pose proof (strto_dec n [] ltac:(lia) ltac:(done)) as E.
  rewrite app_nil_r in E. rewrite E. rewrite decide_False by apply dec_nonempty. f_equal. unfold LONG_MAX. lia.
Qed.
Lemma read_nums l : Forall counter l → mapM read_num (dec <$> l) = Some l.
Proof.
  induction l as [|n l IH]; intros Hl; [done|]. apply Forall_cons in Hl as [Hn Hl]. cbn [fmap list_fmap mapM].
  rewrite read_num_dec by done. cbn [mbind option_bind]. fold (mapM (M := option) read_num (dec <$> l)). by rewrite (IH Hl).
Qed.
Lemma put_counter n : counter n → dec_int (i64 n) = dec n.
Proof. unfold counter. intros Hn. unfold dec_int, swrap. rewrite Z.mod_small by lia. by destruct (Z.ltb_spec (n + 2 ^ (64 - 1) - 2 ^ (64 - 1)) 0); [lia|]; f_equal; lia. Qed.
Lemma put_int_counter n : counter n → n < 2 ^ 31 → dec_int (i32 n) = dec n.
Proof. unfold counter. intros Hn Hn'. unfold dec_int, swrap. rewrite Z.mod_small by lia. by destruct (Z.ltb_spec (n + 2 ^ (32 - 1) - 2 ^ (32 - 1)) 0); [lia|]; f_equal; lia. Qed.

(** *** The lines *)

Definition device_words (dv : ohc_device_t) : list (list Z) :=
  [bytes "++"; d_filename dv] ++ (dec <$> device_numbers dv) ++ [bytes (if d_kicked dv then "kicked" else "ok")].
Definition server_words (s : ohc_server_t) : list (list Z) :=
  bytes "--" :: (dec <$> (server_groups s).1) ++ ((server_groups s).2 ≫= λ g, bytes "|" :: (dec <$> g)).

Lemma device_line_row dv : device_printable dv → device_line dv = Ret (row (device_words dv)).
Proof.
  intros [Hname Hnums]. unfold device_numbers in Hnums. rewrite !Forall_cons in Hnums. destruct Hnums as (H1 & H2 & H3 & _).
  assert (cstr (d_filename dv) = d_filename dv) as Hc.
  { clear -Hname. unfold cstr. induction Hname as [|c l (? & _ & _) _ IH]; [done|]. cbn [take_while].
    rewrite (proj2 (Z.eqb_neq c 0)) by done. cbn [negb]. by rewrite IH. }
  transitivity (Ret (row [bytes "++"; cstr (d_filename dv); dec_int (i64 (d_capacity dv)); dec_int (i64 (d_consumed dv));
    dec_int (i64 (d_badblock dv)); bytes (if d_kicked dv then "kicked" else "ok")])).
  - unfold device_line. by destruct (d_kicked dv).
  - by rewrite Hc, !put_counter.
Qed.
Lemma server_line_row s : server_printable s → server_line s = Ret (row (server_words s)).
Proof.
  intros [Hnums [Hp Hn]]. unfold server_numbers in Hnums. cbn [server_groups fst snd concat app] in Hnums.
  rewrite !Forall_cons in Hnums. destruct_and! Hnums. unfold server_words. cbn [server_groups fst snd fmap list_fmap mbind list_bind app].
  rewrite <- (put_int_counter (s_listen_port s)), <- (put_int_counter (n_connections (s_net s))) by done.
  rewrite <- !put_counter by done. reflexivity.
Qed.

Lemma dec_words l : Forall counter l → Forall (λ w, word w ∧ w ≠ bytes "|") (dec <$> l).
Proof.
  intros Hl. apply Forall_fmap. eapply Forall_impl; [exact Hl|]. intros n [Hn _]. apply digits_word. by apply dec_word.
Qed.
Lemma device_words_ok dv : device_printable dv → device_words dv ≠ [] ∧ Forall word (device_words dv).
Proof.
  intros [Hname Hnums]. split; [done|]. unfold device_words. rewrite !Forall_app. split_and!.
  - rewrite Forall_forall in Hname. repeat apply Forall_cons_2; [by apply concrete_word| |by apply Forall_nil_2].
    split; intros Hc; by destruct (Hname _ Hc) as (? & ? & ?).
  - eapply Forall_impl; [by apply dec_words|]. by intros w [? _].
  - apply Forall_singleton. destruct (d_kicked dv); by apply concrete_word.
Qed.
Lemma server_words_ok s : server_printable s → server_words s ≠ [] ∧ Forall word (server_words s).
Proof.
  intros [Hnums _]. split; [done|]. unfold server_numbers in Hnums. apply Forall_app in Hnums as [Hn1 Hn2].
  unfold server_words. constructor; [by apply concrete_word|]. apply Forall_app. split.
  - eapply Forall_impl; [by apply dec_words|]. by intros w [? _].
  - revert Hn2. generalize (server_groups s).2. intros gs. induction gs as [|g gs IH]; intros Hn2; [done|].
    cbn [concat] in Hn2. apply Forall_app in Hn2 as [Hg Hn2]. cbn [mbind list_bind app]. constructor.
    { by apply concrete_word. }
    apply Forall_app. split; [|by apply IH]. eapply Forall_impl; [by apply dec_words|]. by intros w [? _].
Qed.

Lemma filter_words l : Forall (λ w : list Z, word w ∧ w ≠ bytes "|") l → filter (λ w, w ≠ bytes "|") l = l.
Proof. induction 1 as [|w l [_ Hw] _ IH]; [done|]. rewrite filter_cons_True by done. by rewrite IH. Qed.
Lemma read_server_words s : server_printable s → read_server (server_words s) = Some (server_numbers s).
Proof.
  intros [Hnums _]. unfold read_server, server_words. rewrite decide_True by done. unfold server_numbers in *.
  apply Forall_app in Hnums as [Hn1 Hn2]. rewrite filter_app, filter_words by by apply dec_words.
  assert (∀ gs, Forall counter (concat gs) → filter (λ w, w ≠ bytes "|") (gs ≫= λ g, bytes "|" :: (dec <$> g)) = dec <$> concat gs) as ->.
  { intros gs. induction gs as [|g gs IH]; intros Hg; [done|]. cbn [concat] in Hg |- *. apply Forall_app in Hg as [Hg Hgs].
    cbn [mbind list_bind app]. rewrite filter_cons_False by (intros Hx; by apply Hx). rewrite filter_app, filter_words by by apply dec_words.
    rewrite fmap_app. f_equal. by apply IH. }
  - rewrite <- fmap_app. apply read_nums. by apply Forall_app.
  - done.
Qed.
Lemma read_device_words dv : device_printable dv → read_device (device_words dv) = Some (d_filename dv, device_numbers dv, d_kicked dv).
Proof.
  intros [_ Hnums]. unfold device_words. cbn [device_numbers fmap list_fmap app read_device]. rewrite decide_True by done.
  change [dec (d_capacity dv); dec (d_consumed dv); dec (d_badblock dv)] with (dec <$> device_numbers dv).
  rewrite read_nums by done. cbn [mbind option_bind]. by destruct (d_kicked dv).
Qed.
Lemma words_apart : (∀ dv, read_server (device_words dv) = None) ∧ (∀ s, read_device (server_words s) = None).
Proof. by split. Qed.

Lemma read_line w s : 10 ∉ w → read_words (w ++ NL ++ s) = split 32 w :: read_words s.
Proof. intros Hw. unfold read_words, NL. cbn [app]. by rewrite split_app. Qed.
Lemma headers_one_line : (10 ∉ device_header) ∧ (10 ∉ server_header).
Proof. apply (bool_decide_unpack ((10 ∉ device_header) ∧ (10 ∉ server_header))). vm_compute. exact I. Qed.
Lemma headers_not_rows :
  read_device (split 32 device_header) = None ∧ read_device (split 32 server_header) = None ∧
  read_server (split 32 device_header) = None ∧ read_server (split 32 server_header) = None.
Proof. by vm_compute. Qed.
Lemma read_blank s : read_words (NL ++ s) = [[]] :: read_words s.
Proof. exact (read_line [] s (not_elem_of_nil 10)). Qed.
Lemma omap_cons {A B} (g : A → option B) x xs : omap g (x :: xs) = (match g x with Some y => [y] | None => [] end) ++ omap g xs.
Proof. cbn [omap list_omap]. by destruct (g x). Qed.
Lemma print_each_rows {A} (line : A → outcome (list Z)) f mem l xs :
  Forall2 (λ d x, mem !! d = Some x) l xs → Forall (λ x, line x = Ret (row (f x))) xs →
  print_each line mem l = Ret (concat (row <$> (f <$> xs))).
Proof.
  induction 1 as [|d x l xs E _ IH]; intros Hf; [done|]. apply Forall_cons in Hf as [Hx Hf]. cbn [print_each].
  rewrite E, Hx. cbn [mbind outcome_bind]. by rewrite (IH Hf).
Qed.
Lemma omap_rows {A B} (f : A → list (list Z)) (g : list (list Z) → option B) (v : A → B) xs :
  Forall (λ x, g (f x) = Some (v x)) xs → omap g (f <$> xs) = v <$> xs.
Proof. induction 1 as [|x xs E _ IH]; [done|]. cbn [fmap list_fmap omap list_omap]. rewrite E. by f_equal. Qed.
Lemma omap_none {A B} (f : A → list (list Z)) (g : list (list Z) → option B) xs :
  (∀ x, g (f x) = None) → omap g (f <$> xs) = [].
Proof. intros Hn. induction xs as [|x xs IH]; [done|]. cbn [fmap list_fmap omap list_omap]. by rewrite Hn. Qed.

(** C22: the status that the admin port prints can be read back.  Whatever the
    devices and the servers hold, as long as the counters fit a [long] and no
    device has a blank in its name, the text is made of lines of words from which
    a client gets the name, the sizes and the state of each device, and the
    twenty-four numbers of each server, in the order of the lists. *)
Theorem status_readable {AS IS PS} (st : sstore AS IS PS) dvs svs :
  Forall2 (λ d dv, devs (dst st) !! d = Some dv) (devices (dst st)) dvs →
  Forall2 (λ s sv, srvs st !! s = Some sv) (servers st) svs →
  Forall device_printable dvs → Forall server_printable svs →
  ∃ text, olivehc_status st = Ret text ∧
    omap read_device (read_words text) = (λ dv, (d_filename dv, device_numbers dv, d_kicked dv)) <$> dvs ∧
    omap read_server (read_words text) = server_numbers <$> svs.
Proof.
  intros Hd Hs Hdv Hsv. eexists. split.
  { unfold olivehc_status, device_status, server_status.
    rewrite (print_each_rows device_line device_words _ _ dvs Hd) by (eapply Forall_impl; [done|apply device_line_row]).
    rewrite (print_each_rows server_line server_words _ _ svs Hs) by (eapply Forall_impl; [done|apply server_line_row]). reflexivity. }
  rewrite <- !app_assoc, read_blank, read_line by apply headers_one_line.
  rewrite read_rows by (apply Forall_fmap; eapply Forall_impl; [done|apply device_words_ok]).
  rewrite read_blank, read_line by apply headers_one_line.
  rewrite <- (app_nil_r (concat _)), read_rows by (apply Forall_fmap; eapply Forall_impl; [done|apply server_words_ok]).
  destruct words_apart as [Ha1 Ha2].
  rewrite !omap_cons, !omap_app, !omap_cons, !omap_app.
  rewrite (omap_none device_words read_server) by done. rewrite (omap_none server_words read_device) by done.
  rewrite (omap_rows device_words read_device) with (v := λ dv, (d_filename dv, device_numbers dv, d_kicked dv))
    by (eapply Forall_impl; [done|apply read_device_words]).
  rewrite (omap_rows server_words read_server) with (v := server_numbers) by (eapply Forall_impl; [done|apply read_server_words]).
  destruct headers_not_rows as (-> & -> & -> & ->). unfold read_words. cbn. by rewrite !app_nil_r.
Qed.

(** The cache after a PUT, a GET and another PUT. *)
Lemma demo_status_readable :
  let st := y_st (lf_y demo5) in
  let dvs := omap (λ d, devs (dst st) !! d) (devices (dst st)) in
  let svs := omap (λ s, srvs st !! s) (servers st) in
  dvs ≠ [] ∧ svs ≠ [] ∧ Forall2 (λ d dv, devs (dst st) !! d = Some dv) (devices (dst st)) dvs ∧
  Forall2 (λ s sv, srvs st !! s = Some sv) (servers st) svs ∧
  forallb (λ dv, forallb (λ c, negb (bool_decide (c = 0 ∨ c = 10 ∨ c = 32))) (d_filename dv) &&
    forallb (λ n, bool_decide (counter n)) (device_numbers dv)) dvs = true ∧
  forallb (λ s, forallb (λ n, bool_decide (counter n)) (server_numbers s) &&
    (s_listen_port s <? 2 ^ 31) && (n_connections (s_net s) <? 2 ^ 31)) svs = true.
Proof. vm_compute. repeat first [split|constructor|discriminate]. Qed.

Lemma status_readable_witness :
  let st := y_st (lf_y demo5) in
  ∃ text dvs svs, olivehc_status st = Ret text ∧ dvs ≠ [] ∧ svs ≠ [] ∧
    omap read_device (read_words text) = (λ dv, (d_filename dv, device_numbers dv, d_kicked dv)) <$> dvs ∧
    omap read_server (read_words text) = server_numbers <$> svs.
Proof.
  destruct demo_status_readable as (Hn1 & Hn2 & Hd & Hs & Hb1 & Hb2).
  destruct (status_readable (y_st (lf_y demo5)) _ _ Hd Hs) as (text & E & Hr).
  - apply Forall_forall. intros dv Hdv. rewrite forallb_forall in Hb1.
    specialize (Hb1 dv (proj1 (list_elem_of_In _ _) Hdv)). apply andb_prop in Hb1 as [H1 H2].
    rewrite !forallb_forall in H1, H2. split; apply Forall_forall; intros c Hc; apply list_elem_of_In in Hc.
    + apply H1, negb_true_iff, bool_decide_eq_false in Hc. split_and!; intros Hx; apply Hc; rewrite Hx; auto.
    + by apply H2, bool_decide_eq_true in Hc.
  - apply Forall_forall. intros sv Hsv. rewrite forallb_forall in Hb2.
    specialize (Hb2 sv (proj1 (list_elem_of_In _ _) Hsv)). apply andb_prop in Hb2 as [[H1 H2]%andb_prop H3].
    rewrite forallb_forall in H1. split; [|split; by apply Z.ltb_lt].
    apply Forall_forall. intros c Hc. apply list_elem_of_In in Hc. by apply H1, bool_decide_eq_true in Hc.
  - exists text, (omap (λ d, devs (dst (y_st (lf_y demo5))) !! d) (devices (dst (y_st (lf_y demo5))))),
      (omap (λ s, srvs (y_st (lf_y demo5)) !! s) (servers (y_st (lf_y demo5)))).
    split; [exact E|]. split; [exact Hn1|]. split; [exact Hn2|exact Hr].
Defined.

(** ** The logs *)

(** The time of the log has its 19 characters; [snprintf] cuts nothing. *)
Lemma format_log_length localtime_r time : tm_ok (localtime_r time) → ∃ s, format_log localtime_r time = Ret s ∧ length s = 19%nat.
Proof.
  intros Hok. destruct (localtime_r time) as [sec min hour mday mon year wday] eqn:E.
  assert (∀ n, 0 ≤ n < 100 → length (pad0 2 (dec_int (i32 n))) = 2%nat) as H2.
  { intros n Hn. rewrite put_int_counter by (unfold counter; lia). exact (f_equal length (dec02_digits localtime_r (λ _ _, None) n Hn)). }
  destruct Hok. cbn [tm_sec tm_min tm_hour tm_mday tm_mon tm_year tm_wday] in *. unfold format_log. rewrite E.
  cbn [tm_sec tm_min tm_hour tm_mday tm_mon tm_year tm_wday]. eexists. split; [reflexivity|]. rewrite length_take.
  repeat (rewrite ?length_app; cbn [length app]). rewrite !H2 by lia.
  rewrite put_int_counter by (unfold counter; lia). rewrite (dec_digits4 localtime_r (λ _ _, None)) by lia. cbn [length].
  change (Z.to_nat (LEN_TIME_FARMAT_LOG - 1)) with 19%nat. lia.
Qed.

(** The strings of a request that lie in its buffer, with the byte behind. *)
Definition string_fits (buf : list Z) (s : option string_t) : Prop :=
  ∀ t, s = Some t → (str_base t + Z.to_nat (str_len t) < length buf)%nat.

Lemma strshow_fits buf s : string_fits buf s → ∃ p buf', strshow buf s = Ret (p, buf') ∧ length buf' = length buf.
Proof.
  intros Hs. unfold strshow. destruct s as [t|]; [|by eexists _, _]. rewrite decide_True by by apply Hs.
  eexists _, _. split; [done|]. by rewrite length_insert.
Qed.

Lemma log_reason_ends strerror q : ∃ w, log_reason strerror q = Ret (w ++ NL).
Proof.
  assert (∀ a s, (∃ w, s = w ++ NL) → ∃ w, a ++ s = w ++ NL) as Happ.
  { intros a s [w ->]. exists (a ++ w). apply app_assoc. }
  assert (∀ c s, (∃ w, s = w ++ NL) → ∃ w, c :: s = w ++ NL) as Hcons by (intros c s; apply (Happ [c])).
  unfold log_reason. destruct (q_error_reason (r_h (rq q))) as [why|]; [|by exists []].
  destruct (q_http_code (r_h (rq q)) =? 204); [|destruct (negb (rq_errno q =? 0))];
    (match goal with |- ∃ w, printf ?f ?l = _ => assert (∃ t, printf f l = Ret t ∧ ∃ w, t = w ++ NL) as (t & -> & w & ->) end;
     [eexists; split; [reflexivity|]; repeat first [by exists []|apply Hcons|apply Happ]|by exists w]).
Qed.

(** A line of the access log is printed without leaving the buffer, and ends. *)
Lemma request_log_safe strerror time client now q :
  let h := r_h (rq q) in let buf := r_buf (rq q) in
  string_fits buf (q_uri h) → string_fits buf (q_host h) → string_fits buf (q_ohc_key h) → string_fits buf (q_range h) →
  ∃ line buf', request_log strerror time client now q = Ret (line, buf') ∧ length buf' = length buf ∧
    (∀ l, line = Some l → last l = Some 10).
Proof.
  intros h buf H1 H2 H3 H4. unfold request_log. fold h buf. destruct (rq_active q); [|by eexists _, _].
  cbn [negb]. destruct (strshow_fits buf _ H1) as (p1 & b1 & E1 & L1). rewrite E1. cbn [mbind outcome_bind fst snd].
  unfold string_fits in *. rewrite <- L1 in H2, H3, H4.
  destruct (strshow_fits b1 _ H2) as (p2 & b2 & E2 & L2). rewrite E2. cbn [mbind outcome_bind fst snd]. rewrite <- L2 in H3, H4.
  destruct (strshow_fits b2 _ H3) as (p3 & b3 & E3 & L3). rewrite E3. cbn [mbind outcome_bind fst snd]. rewrite <- L3 in H4.
  destruct (strshow_fits b3 _ H4) as (p4 & b4 & E4 & L4). rewrite E4. cbn [mbind outcome_bind fst snd].
  match goal with |- context [printf ?f ?a] => assert (∃ line, printf f a = Ret line) as [line El] by (eexists; reflexivity) end.
  rewrite El. cbn [mbind outcome_bind].
  destruct (log_reason_ends strerror q) as [w ->]. cbn [mbind outcome_bind]. eexists _, _. split; [done|].
  split; [congruence|]. intros l [= <-].
  unfold NL. by rewrite app_assoc, last_snoc.
Qed.
