(* ===== verification/Worker.v ===== *)
(** * worker.c: the workers, and handing requests over

    Creating and deleting workers, the configuration of their number, and the
    two directions of handing a request from one thread to another.  The loops
    that read the pipes call the handlers of the requests and come with them. *)

From Stdlib Require Import String.
From stdpp Require Import prelude fin_maps gmap.
From S2P Require Import Prelude StrUtil Slab Timer Device Http Server Conf Net.

(** The call of [worker_create] that fails, if one does. *)
Inductive create_call :=
  | CMalloc | CPipe | CNonblock | CPipe2 | CNonblock2 | CEpollCreate | CEpollAdd | CMasterAdd | CThread.

Section worker.
Context {AS IS PS RS : Type} `{Allocator AS} `{Allocator IS} `{Allocator PS} `{Allocator RS}.
Context (master_epoll_fd : Z).
Abbreviation N := (M (net AS IS PS RS)).

(** ** Workers *)

(** [worker_destory]; the descriptors are not modelled. *)
Definition worker_destory (w : Z) : N unit :=
  _ ← load_worker w; modify (λ n, set_n_workers (delete w (n_workers n)) n).

(** [list_add] behind [current_worker]; a worker not in the ring has null links. *)
Definition ring_add (w : Z) (c : wring) : outcome wring :=
  match c with
  | RNull => Ret (RRing w [])
  | RRing current rest => Ret (RRing current (w :: rest))
  | RGone => Fail NullPtr
  end.
(** [list_del] of the worker just added. *)
Definition ring_undo (c : wring) : wring :=
  match c with RRing current (_ :: rest) => RRing current rest | _ => RGone end.

(** [w], [epoll_fd] and [time] are what malloc, epoll_create and time answer. *)
Definition worker_create (fails : option create_call) (w epoll_fd time : Z) : N ohc_rc :=
  match fails with
  | None | Some CThread =>
      modify (λ n, set_n_workers
        (<[w := Worker [] [] (timer_init time ∅) 0 epoll_fd 0 [] []]> (n_workers n)) n);;
      n ← get;
      c ← (λ n', a ← ring_add w (current_worker n); Ret (a, n'));
      modify (set_current_worker c);;
      match fails with
      | None => modify (λ n, set_workers (workers n + 1) n);; mret OHC_OK
      | Some _ =>
          modify (λ n, set_current_worker (ring_undo c)
            (set_n_workers (delete w (n_workers n)) n));; mret OHC_ERROR
      end
  | Some _ => mret OHC_ERROR
  end.

(** [current_worker->next], taken from the ring. *)
Definition ring_take (c : wring) : outcome (Z * wring) :=
  match c with
  | RRing c (w :: rest) => Ret (w, RRing c rest)
  | RRing c [] => Ret (c, RGone)
  | RNull | RGone => Fail NullPtr
  end.
Fixpoint worker_delete (num : nat) (quit_time : Z) : N unit :=
  match num with
  | O => mret tt
  | S num =>
      n ← get;
      p ← (λ n', a ← ring_take (current_worker n); Ret (a, n'));
      modify (set_current_worker p.2);;
      upd_worker p.1 (set_w_quit_time (if quit_time =? 0 then BIG_TIME else quit_time));;
      modify (λ n, set_workers (workers n - 1) n);;
      worker_delete num quit_time
  end.

(** The loop of [worker_conf_check]; [i] workers were created. *)
Fixpoint create_workers (calls : list (option create_call * Z * Z * Z)) (todo : nat) (i : Z) {struct todo} : N ohc_rc :=
  match todo with
  | O => mret OHC_OK
  | S todo =>
      match calls with
      | [] => fail Undef
      | (fails, w, epoll_fd, time) :: calls =>
          rc ← worker_create fails w epoll_fd time;
          if decide (rc = OHC_ERROR) then modify (set_new_workers i);; mret OHC_ERROR
          else create_workers calls todo (i + 1)
      end
  end.

(** [calls] answers the calls of [worker_create], one entry for each. *)
Definition worker_conf_check (calls : list (option create_call * Z * Z * Z)) (conf_cycle : ohc_conf_t) : N ohc_rc :=
  if cf_threads conf_cycle =? 0 then mret OHC_ERROR else
  modify (λ n, set_new_workers (cf_threads conf_cycle - workers n) n);;
  n ← get;
  create_workers calls (Z.to_nat (new_workers n)) 0.
Definition worker_conf_load (conf_cycle : ohc_conf_t) : N unit :=
  n ← get;
  worker_delete (Z.to_nat (workers n - cf_threads conf_cycle)) 0;;
  modify (set_new_workers 0).
Definition worker_conf_rollback : N unit :=
  n ← get; worker_delete (Z.to_nat (new_workers n)) 0.
Definition worker_quit (quit_time : Z) : N unit :=
  n ← get; worker_delete (Z.to_nat (workers n)) quit_time.

(** ** Handing over *)

(** [list_del(&r->rnode)], whatever list the request is in. *)
Definition rnode_linked (n : net AS IS PS RS) (r : Z) : bool :=
  bool_decide (r ∈ master_requests n) ||
  existsb (λ p, bool_decide (r ∈ w_working p.2) || bool_decide (r ∈ w_blocked p.2)) (map_to_list (n_workers n)).
Definition worker_unlink (r : Z) (wk : worker) : worker :=
  set_w_working (list_remove_one r (w_working wk)) (set_w_blocked (list_remove_one r (w_blocked wk)) wk).
Definition rnode_del (r : Z) : N unit :=
  n ← get;
  if rnode_linked n r then
    modify (λ n, set_master_requests (list_remove_one r (master_requests n))
                   (set_n_workers (worker_unlink r <$> n_workers n) n))
  else fail NullPtr.

(** [write] of the pointer into a pipe: a pipe takes all of it or nothing. *)
Definition pipe_write (put : N unit) : N bool :=
  n ← get;
  let e := default 0 (head (k_pipe n)) in
  modify (set_k_pipe (tail (k_pipe n)));;
  if e =? 0 then put;; mret true else mret false.

Definition worker_do_request_write (r : Z) (handler : req_handler) (target : option Z) : N ohc_rc :=
  q ← load_req r;
  let old := rq_worker q in
  match target, old with
  | None, None => fail NullPtr                      (* old->return_fd *)
  | _, _ =>
      event_del master_epoll_fd r;;
      upd_req r (λ q, set_rq_worker target (set_rq_handler (Some handler) q));;
      rnode_del r;;
      ok ← pipe_write
        (match target, old with
         | Some t, _ => upd_worker t (λ wk, set_w_dispatch (w_dispatch wk ++ [r]) wk)
         | None, Some w => upd_worker w (λ wk, set_w_return (w_return wk ++ [r]) wk)
         | None, None => mret tt
         end);
      if ok : bool then mret OHC_OK else
      upd_req r (set_rq_worker old);;
      match old with
      | Some w => upd_worker w (λ wk, set_w_blocked (r :: w_blocked wk) wk)
      | None => modify (λ n, set_master_requests (r :: master_requests n) n)
      end;;
      mret OHC_ERROR
  end.

(** The worker to take, and the ring with [current_worker] moved on. *)
Definition ring_next (c : wring) : outcome (Z * wring) :=
  match c with
  | RRing c rest => Ret (c, match rest with [] => RRing c [] | w :: l => RRing w (l ++ [c]) end)
  | RNull | RGone => Fail NullPtr
  end.
Definition worker_request_dispatch (r : Z) (handler : req_handler) : N ohc_rc :=
  n ← get;
  if workers n =? 0 then mret OHC_ERROR else
  p ← (λ n', a ← ring_next (current_worker n); Ret (a, n'));
  modify (set_current_worker p.2);;
  rc ← worker_do_request_write r handler (Some p.1);
  (if decide (rc = OHC_OK) then upd_worker p.1 (λ wk, set_w_request_nr (w_request_nr wk + 1) wk) else mret tt);;
  mret rc.

Definition worker_request_return (r : Z) (handler : req_handler) : N ohc_rc :=
  worker_do_request_write r handler None.
End worker.
