(* ===== verification/Request.v ===== *)
(** * request.c, server_listen_handler, and the loops of worker.c

    A request is read and parsed by the master thread, which asks the cache and
    hands the request to a worker; the worker moves the bytes between socket and
    device, and hands the request back to be finished.  A definition here has
    the name of its function in C and takes the address of the request.

    A loop that a signal can repeat runs once for every result the kernel has
    left, and the loop over the body of a PUT once for every result and every
    byte left: [socket_fuel] is enough for both.  The line that is logged at the
    end of a request is [request_log] of Status.v. *)

From Stdlib Require Import String.
From stdpp Require Import prelude fin_maps gmap.
From S2P Require Import Prelude IdxPointer StrUtil Slab Hash Timer Device Http Server Conf Net Worker.

Section request.
Context {AS IS PS RS : Type} `{Allocator AS} `{Allocator IS} `{Allocator PS} `{Allocator RS}.
Context (MD5 : list Z → md5_id) (kmalloc : dstore AS → option Z).
Context (calloc_ok : sstore AS IS PS → bool).
Context (master_epoll_fd : Z) (tmalloc : ohc_timer_t → option Z).
(** For [timer_parse_rfc1123]. *)
Context (mktime : tm → Z → option (Z * Z)) (isdst : Z).
(** What the memory of a new request holds. *)
Context (junk : Z → req).
Abbreviation N := (M (net AS IS PS RS)).

(** ** Sending and writing *)

Definition request_cork_set (r : Z) : N unit := upd_req r (set_rq_cork true).
Definition request_cork_clear (r : Z) : N unit := upd_req r (set_rq_cork false).

(** [request_reset]; the fields not named keep what they held. *)
Definition request_reset (r : Z) : N unit :=
  q ← load_req r;
  sv ← with_cache (load_srv (r_server (rq q)));
  n ← get;
  upd_req r (λ q,
    let h := r_h (rq q) in
    Req (Request (r_server (rq q))
           (HReq METHOD_INVALID (-1) false (q_range_start h) (q_range_end h) None None None None
              (q_put_headers h) (q_put_header_length h) 0
              (negb (n_keepalive_timeout (s_net sv) =? 0)) 0 None)
           (r_buf (rq q)) None 0 false)
      None 0 false false false (timer_now (master_timer n)) 0 0 0 (rq_step q) None 0 (rq_fd q)).

(** What the socket still has to answer. *)
Definition rx_size (e : rx) : nat := match e with Recv b => S (length b) | RecvErr _ => 1 end.
Definition socket_fuel (s : sock) : nat := S (list_sum (rx_size <$> k_rx s) + length (k_tx s)).
Definition fuel_of (fd : Z) : N nat := s ← load_sock fd; mret (socket_fuel s).

(** A call that is repeated while a signal interrupts it. *)
Fixpoint interupted {A} (fuel : nat) (call : N (A + Z)) : N (A + Z) :=
  match fuel with
  | O => fail Undef
  | S fuel =>
      rc ← call;
      match rc with inr e => if e =? EINTR then interupted fuel call else mret rc | inl _ => mret rc end
  end.

Definition request_send_buffer (r : Z) (buffer : list Z) : N ohc_rc :=
  q ← load_req r;
  f ← fuel_of (rq_fd q);
  rc ← interupted f (send (rq_fd q) buffer);
  let fails e := upd_req r (λ q, set_rq_broken true (set_rq_errno e (error_reason "SendError" q)));; mret OHC_ERROR in
  match rc with
  | inl k => if k =? Z.of_nat (length buffer)
             then upd_req r (λ q, set_rq_output (rq_output q + k) q);; mret OHC_OK
             else fails 0
  | inr e => fails e
  end.

Definition request_send_file (r start length : Z) : N ohc_rc :=
  q ← load_req r;
  x ← deref NullPtr (r_item (rq q));
  d ← with_cache (lift (device_of_item x));
  dv ← with_cache (lift (load_dev d));
  let off := i64 (start + process_size q) in
  f ← fuel_of (rq_fd q);
  rc ← interupted f (sendfile (rq_fd q) (d_fd dv) off (u64 (length - process_size q)));
  match rc with
  | inr e =>
      if e =? EAGAIN then mret OHC_AGAIN else
      upd_req r (λ q, set_rq_errno e (error_reason "SendfileError"
        (if e =? EIO then set_disk_error true q else set_rq_broken true q)));;
      mret OHC_ERROR
  | inl k =>
      upd_req r (λ q, set_process_size (u64 (process_size q + k)) (set_rq_output (rq_output q + k) q));;
      q ← load_req r;
      mret (if u64 length =? process_size q then OHC_OK else OHC_AGAIN)
  end.

Definition request_write_disk (r : Z) (buffer : list Z) : N ohc_rc :=
  q ← load_req r;
  let done_ := upd_req r (λ q, set_process_size (u64 (process_size q + Z.of_nat (length buffer))) q);; mret OHC_OK in
  match r_item (rq q) with
  | None => done_
  | Some x =>
      d ← with_cache (lift (device_of_item x));
      dv ← with_cache (lift (load_dev d));
      it ← with_cache (lift (load_item x));
      rc ← pwrite (d_fd dv) buffer (i64 (it_offset it + process_size q));
      match rc with
      | inl _ => done_
      | inr e =>
          upd_req r (λ q, set_rq_errno e (error_reason "WriteDiskError" (set_disk_error true (set_http_code 500 q))));;
          mret OHC_ERROR
      end
  end.

(** ** The end of a request *)

Definition add_traffic (out inp : Z) (t : server_stats) : server_stats :=
  Stats (t_gets t) (t_gets_last t) (t_gets_cur t) (t_hits t) (t_hits_last t) (t_hits_cur t)
    (t_passby_hits t) (t_passby_hits_last t) (t_passby_hits_cur t) (t_puts t) (t_puts_last t)
    (t_puts_cur t) (t_stores t) (t_stores_last t) (t_stores_cur t) (t_passby_stores t)
    (t_passby_stores_last t) (t_passby_stores_cur t) (t_deletes t) (t_deletes_last t)
    (t_deletes_cur t) (t_output_last t) (t_output_cur t + out) (t_input_last t) (t_input_cur t + inp).
Definition add_connections (k : Z) (s : server_net) : server_net :=
  ServerNet (n_listen_fd s) (n_sndbuf s) (n_rcvbuf s) (n_connections s + k) (n_connections_limit s)
    (n_send_timeout s) (n_recv_timeout s) (n_request_timeout s) (n_keepalive_timeout s)
    (n_shutdown_if_not_store s) (n_access_log s) (n_access_filp s).

(** [close] also takes the descriptor from the epoll sets. *)
Definition close (fd : Z) : N unit :=
  modify (λ n, set_n_socks (delete fd (n_socks n))
    (set_n_epolls (filter (λ p, p.1.2 ≠ fd) (n_epolls n)) n)).

(** [slab_free], and the memory is gone. *)
Definition request_free (r : Z) : N unit :=
  n ← get;
  sl ← (λ n', a ← al_free (n_rslab n) r; Ret (a, n'));
  modify (λ n, set_n_rslab sl (set_n_reqs (delete r (n_reqs n)) n)).

Definition request_do_finalize (r : Z) : N unit :=
  q ← load_req r;
  let s := r_server (rq q) in
  r1 ← with_cache (server_request_finalize kmalloc (rq q));
  upd_req r (set_rq r1);;
  event_del master_epoll_fd r;;
  with_cache (upd_srv s (bump (add_traffic (rq_output q) (rq_input q))));;
  if q_keepalive (r_h (rq q)) && negb (rq_broken q) then
    request_reset r;;
    event_add_keepalive master_epoll_fd tmalloc r H_request_read_request_header;; mret tt
  else
    rnode_del r;;
    with_cache (upd_srv s (λ sv, set_s_net (add_connections (-1) (s_net sv)) sv));;
    modify (λ n, set_connections_total (connections_total n - 1) n);;
    close (rq_fd q);;
    request_free r.

(** [http_code_page] answers NULL for a code without a page. *)
Definition request_finalize (r : Z) : N unit :=
  q ← load_req r;
  (if negb (rq_broken q) && (rq_output q =? 0) then
     page ← deref NullPtr (http_code_page (q_http_code (r_h (rq q))));
     request_send_buffer r page;; mret tt
   else mret tt);;
  match rq_worker q with
  | Some _ => worker_request_return master_epoll_fd r H_request_do_finalize;; mret tt
  | None => request_do_finalize r
  end.

(** ** PUT *)

Definition RECV_BUF_SIZE : Z := 100 * 1024.

Fixpoint put_body_loop (fuel : nat) (r item_len : Z) : N unit :=
  match fuel with
  | O => fail Undef
  | S fuel =>
      q ← load_req r;
      if process_size q <? item_len then
        rc ← recv (rq_fd q) RECV_BUF_SIZE;
        match rc with
        | inr e =>
            if e =? EAGAIN then
              event_add_read master_epoll_fd tmalloc r H_request_put_read_request_body;; mret tt
            else if e =? EINTR then put_body_loop fuel r item_len
            else
              upd_req r (λ q, set_rq_broken true (set_rq_errno e (error_reason "ReceiveError" q)));;
              request_finalize r
        | inl [] =>
            upd_req r (λ q, set_rq_broken true (error_reason "ClientClose" q));;
            request_finalize r
        | inl buf =>
            let k := Z.of_nat (length buf) in
            upd_req r (λ q, set_rq_input (rq_input q + k) q);;
            if u64 (item_len - process_size q) <? k then
              upd_req r (λ q, set_keepalive false (set_http_code 400 (error_reason "BodyLargerThanDeclared" q)));;
              request_finalize r
            else
              rc ← request_write_disk r buf;
              if decide (rc = OHC_ERROR) then request_finalize r else put_body_loop fuel r item_len
        end
      else request_finalize r
  end.

Definition request_put_read_request_body (r : Z) : N unit :=
  q ← load_req r;
  let item_len := u64 (q_content_length (r_h (rq q)) + q_put_header_length (r_h (rq q))) in
  upd_req r (set_rq_step "ReadBody");;
  f ← fuel_of (rq_fd q);
  put_body_loop f r item_len.

(** The header of the response and the headers to keep, copied one by one into
    a buffer of REQ_BUF_SIZE bytes. *)
Fixpoint preread_copy (buf : list Z) (hs : list string_t) (acc : list Z) : outcome (list Z) :=
  match hs with
  | [] => Ret acc
  | s :: hs =>
      let acc := acc ++ str_bytes buf (Some s) in
      if Z.of_nat (length acc) <=? REQ_BUF_SIZE then preread_copy buf hs acc else Fail OutOfBounds
  end.

Definition request_put_read_request_body_preread (r : Z) : N unit :=
  q ← load_req r;
  upd_req r (set_rq_step "PreReadBody");;
  let h := r_h (rq q) in
  buffer ← (λ n, a ← preread_copy (r_buf (rq q)) (q_put_headers h)
                       (http_make_200_response_header (q_content_length h)); Ret (a, n));
  rc ← request_write_disk r buffer;
  if decide (rc = OHC_ERROR) then request_finalize r else request_put_read_request_body r.

(** ** GET *)

Definition load_item_of (q : req) : N ohc_item_t :=
  x ← deref NullPtr (r_item (rq q)); with_cache (lift (load_item x)).

Definition request_get_write_response (r : Z) : N unit :=
  q ← load_req r;
  upd_req r (set_rq_step "WriteResponse");;
  it ← load_item_of q;
  rc ← request_send_file r (it_offset it)
         (if decide (q_method (r_h (rq q)) = METHOD_HEAD) then it_headers_len it else it_length it);
  if decide (rc = OHC_AGAIN) then
    event_add_write master_epoll_fd tmalloc r H_request_get_write_response;; mret tt
  else request_finalize r.

Definition request_get_write_response_206_body (r : Z) : N unit :=
  q ← load_req r;
  upd_req r (set_rq_step "WriteBody");;
  it ← load_item_of q;
  let h := r_h (rq q) in
  rc ← request_send_file r (it_offset it + it_headers_len it + q_range_start h)
         (q_range_end h - q_range_start h + 1);
  request_cork_clear r;;
  if decide (rc = OHC_AGAIN) then
    event_add_write master_epoll_fd tmalloc r H_request_get_write_response_206_body;; mret tt
  else request_finalize r.

Definition request_get_write_response_206_header_disk (r : Z) : N unit :=
  q ← load_req r;
  it ← load_item_of q;
  let body_len := it_length it - it_headers_len it in
  let off := http_200_response_header_len body_len in
  upd_req r (set_rq_step "WriteHeaderDisk");;
  rc ← request_send_file r (it_offset it + off) (it_headers_len it - off);
  if decide (rc = OHC_AGAIN) then
    request_cork_clear r;;
    event_add_write master_epoll_fd tmalloc r H_request_get_write_response_206_header_disk;; mret tt
  else if decide (rc = OHC_ERROR) then request_finalize r
  else if decide (q_method (r_h (rq q)) = METHOD_HEAD) then request_cork_clear r;; request_finalize r
  else upd_req r (set_process_size 0);; request_get_write_response_206_body r.

(** The range, once the length of the body is known. *)
Definition range_of (start end_ body_len : Z) : Z * Z :=
  if start =? RANGE_NO_SET then (if body_len <? end_ then 0 else body_len - end_, body_len - 1)
  else if end_ =? RANGE_NO_SET then (start, body_len - 1)
  else if body_len <=? end_ then (start, body_len - 1)
  else (start, end_).

Definition request_get_write_response_206_header_mem (r : Z) : N unit :=
  q ← load_req r;
  it ← load_item_of q;
  let body_len := it_length it - it_headers_len it in
  upd_req r (set_rq_step "WriteHeaderMem");;
  let h := r_h (rq q) in
  let rg := range_of (q_range_start h) (q_range_end h) body_len in
  upd_req r (upd_h (λ h, set_q_range_end rg.2 (set_q_range_start rg.1 h)));;
  if body_len <=? rg.1 then upd_req r (set_http_code 416);; request_finalize r
  else
    request_cork_set r;;
    rc ← request_send_buffer r (http_make_206_response_header rg.1 rg.2 body_len);
    if decide (rc = OHC_OK) then request_get_write_response_206_header_disk r else request_finalize r.

(** ** The header *)

(** [recv] into the buffer at [pos]. *)
Definition buf_store (buf : list Z) (pos : nat) (data : list Z) : list Z :=
  take pos buf ++ data ++ drop (pos + length data) buf.

Definition too_busy (r : Z) (rc : ohc_rc) : N unit :=
  if decide (rc = OHC_ERROR) then
    upd_req r (λ q, error_reason "TooBusy" (set_http_code 500 q));; request_finalize r
  else mret tt.

(** What a complete request asks for. *)
Definition request_serve (r : Z) : N unit :=
  q ← load_req r;
  n ← get;
  let c := calloc_ok (n_st n) in
  let fails code := upd_req r (set_http_code code);; request_finalize r in
  match q_method (r_h (rq q)) with
  | METHOD_GET | METHOD_HEAD =>
      a ← with_cache (server_request_get_handler MD5 kmalloc c (rq q));
      upd_req r (set_rq a.2);;
      if decide (a.1 = OHC_ERROR) then fails 404
      else if q_range_set (r_h a.2) then
        upd_req r (set_http_code 206);;
        rc ← worker_request_dispatch master_epoll_fd r H_request_get_write_response_206_header_mem; too_busy r rc
      else
        upd_req r (set_http_code 200);;
        rc ← worker_request_dispatch master_epoll_fd r H_request_get_write_response; too_busy r rc
  | METHOD_PUT | METHOD_POST =>
      a ← with_cache (server_request_put_handler MD5 kmalloc c c (rq q));
      upd_req r (set_rq a.2);;
      if decide (a.1 = OHC_ERROR) then fails 500 else
      sv ← with_cache (load_srv (r_server (rq q)));
      if decide (a.1 = OHC_DECLINE) then
        upd_req r (set_http_code 204);;
        if n_shutdown_if_not_store (s_net sv) then upd_req r (set_keepalive false);; request_finalize r
        else rc ← worker_request_dispatch master_epoll_fd r H_request_put_read_request_body_preread; too_busy r rc
      else
        upd_req r (set_http_code 201);;
        rc ← worker_request_dispatch master_epoll_fd r H_request_put_read_request_body_preread; too_busy r rc
  | METHOD_PURGE | METHOD_DELETE =>
      a ← with_cache (server_request_delete_handler MD5 kmalloc c (rq q));
      upd_req r (set_rq a.2);;
      if decide (a.1 = OHC_ERROR) then fails 404 else fails 204
  | METHOD_INVALID => mret tt
  end.

Definition request_read_request_header (r : Z) : N unit :=
  upd_req r (set_rq_step "ReadHeader");;
  q ← load_req r;
  f ← fuel_of (rq_fd q);
  rc ← interupted f (recv (rq_fd q) (REQ_BUF_SIZE - Z.of_nat (rq_pos q) - 1));
  let again := event_add_read master_epoll_fd tmalloc r H_request_read_request_header;; mret tt in
  match rc with
  | inr e =>
      if e =? EAGAIN then again else
      upd_req r (λ q, set_rq_broken true (set_rq_errno e (error_reason "ReceiveError" q)));;
      request_finalize r
  | inl [] =>
      upd_req r (λ q, set_rq_broken true (error_reason "ClientClose" q));; request_finalize r
  | inl data =>
      let pos := (rq_pos q + length data)%nat in
      let buf := buf_store (r_buf (rq q)) (rq_pos q) data in
      sv ← with_cache (load_srv (r_server (rq q)));
      n ← get;
      p ← (λ n', a ← http_request_parse mktime isdst (timer_now (master_timer n)) (s_expire_force sv)
                       buf pos (r_h (rq q)); Ret (a, n'));
      upd_req r (λ q, set_rq_active true (set_rq_pos pos (set_rq_input (rq_input q + Z.of_nat (length data))
        (set_rq (set_r_h p.2 (set_r_buf (<[pos := 0]> buf) (rq q))) q))));;
      if decide (p.1 = OHC_AGAIN) then
        if REQ_BUF_SIZE - 1 <=? Z.of_nat pos then
          upd_req r (λ q, set_http_code 400 (error_reason "RequestHeadTooBig" q));; request_finalize r
        else again
      else if decide (p.1 = OHC_ERROR) then request_finalize r
      else request_serve r
  end.

(** ** Handlers *)

Definition run_handler (h : req_handler) (r : Z) : N unit :=
  match h with
  | H_request_read_request_header => request_read_request_header r
  | H_request_put_read_request_body => request_put_read_request_body r
  | H_request_put_read_request_body_preread => request_put_read_request_body_preread r
  | H_request_get_write_response => request_get_write_response r
  | H_request_get_write_response_206_body => request_get_write_response_206_body r
  | H_request_get_write_response_206_header_disk => request_get_write_response_206_header_disk r
  | H_request_get_write_response_206_header_mem => request_get_write_response_206_header_mem r
  | H_request_do_finalize => request_do_finalize r
  end.
(** [r->event_handler(r)] *)
Definition event_handler (r : Z) : N unit :=
  q ← load_req r; h ← deref NullPtr (rq_handler q); run_handler h r.

Definition request_process_entry (s sock_fd : Z) : N unit :=
  sv ← with_cache (load_srv s);
  if n_connections_limit (s_net sv) <=? n_connections (s_net sv) then close sock_fd else
  n ← get;
  a ← (λ n', a ← al_alloc (n_rslab n); Ret (a, n'));
  modify (set_n_rslab a.2);;
  match a.1 with
  | None => close sock_fd
  | Some r =>
      modify (λ n, set_master_requests (r :: master_requests n)
        (set_connections_total (connections_total n + 1)
          (set_n_reqs (<[r := set_rq_fd sock_fd (set_rq
             (let q := rq (junk r) in
              Request s (r_h q) (r_buf q) (r_item q) (r_process_size q) (r_disk_error q)) (junk r))]>
            (n_reqs n)) n)));;
      with_cache (upd_srv s (λ sv, set_s_net (add_connections 1 (s_net sv)) sv));;
      request_reset r;;
      request_read_request_header r
  end.

(** [server_listen_handler]: [accepts] are the sockets [tcp_accept] answers until
    it fails. *)
Fixpoint server_listen_handler (accepts : list (Z * sock)) (s : Z) : N unit :=
  match accepts with
  | [] => mret tt
  | (fd, k) :: accepts =>
      modify (λ n, set_n_socks (<[fd := k]> (n_socks n)) n);;
      request_process_entry s fd;;
      server_listen_handler accepts s
  end.

Definition request_timeout_handler (r : Z) : N unit :=
  upd_req r (λ q, set_rq_broken true (error_reason "Timeout" q));;
  request_finalize r.

(** [list_for_each_safe]: a handler takes its own request from the list and may
    put it back at the head, so the requests met are those of the list at the
    start.  No request has [request_finalize] itself as its handler. *)
Fixpoint request_clean (requests : list Z) (keepalive_only : bool) : N unit :=
  match requests with
  | [] => mret tt
  | r :: requests =>
      q ← load_req r;
      (if keepalive_only && rq_active q then mret tt else
       upd_req r (λ q, set_rq_broken true (error_reason "CleanByQuitTimeout" q));;
       request_finalize r);;
      request_clean requests keepalive_only
  end.

Definition request_check_quit (keepalive_only : bool) : N bool :=
  n ← get;
  request_clean (master_requests n) keepalive_only;;
  n ← get;
  mret (connections_total n =? 0).

(** ** The pipes *)

(** The requests of one [read]: each is linked and its handler called. *)
Fixpoint read_requests (link : Z → N unit) (reqs : list Z) : N unit :=
  match reqs with
  | [] => mret tt
  | r :: reqs => link r;; event_handler r;; read_requests link reqs
  end.

(** [worker_do_request_read] with its buffer of 50 pointers; [pull] takes what
    one [read] gives from the pipe. *)
Fixpoint worker_do_request_read (fuel : nat) (pull : N (list Z)) (link : Z → N unit) (count : Z) : N Z :=
  match fuel with
  | O => fail Undef
  | S fuel =>
      reqs ← pull;
      match reqs with
      | [] => mret count                            (* EAGAIN *)
      | _ =>
          read_requests link reqs;;
          let count := count + Z.of_nat (length reqs) in
          if (length reqs =? 50)%nat then worker_do_request_read fuel pull link count else mret count
      end
  end.

Definition worker_request_recycle (w : Z) : N unit :=
  wk ← load_worker w;
  count ← worker_do_request_read (S (length (w_return wk)))
    (wk ← load_worker w; upd_worker w (set_w_return (drop 50 (w_return wk)));; mret (take 50 (w_return wk)))
    (λ r, modify (λ n, set_master_requests (r :: master_requests n) n)) 0;
  upd_worker w (λ wk, set_w_request_nr (w_request_nr wk - count) wk).

Definition worker_request_receive (w : Z) : N unit :=
  wk ← load_worker w;
  worker_do_request_read (S (length (w_dispatch wk)))
    (wk ← load_worker w; upd_worker w (set_w_dispatch (drop 50 (w_dispatch wk)));; mret (take 50 (w_dispatch wk)))
    (λ r, upd_worker w (λ wk, set_w_working (r :: w_working wk) wk)) 0;;
  mret tt.

(** ** The worker thread *)

Definition worker_check_quit (w : Z) : N bool :=
  wk ← load_worker w;
  (if w_quit_time wk <=? timer_now (w_timer wk) then request_clean (w_working wk) false else mret tt);;
  wk ← load_worker w;
  mret (w_request_nr wk =? 0).

Fixpoint for_each_request (f : Z → N unit) (l : list Z) : N unit :=
  match l with [] => mret tt | r :: l => f r;; for_each_request f l end.

(** An entry of the array [epoll_wait] fills: the pipe, or a request. *)
Definition worker_ready (w : Z) (ev : option Z) : N unit :=
  match ev with None => worker_request_receive w | Some r => event_handler r end.
Fixpoint worker_events (w : Z) (evs : list (option Z)) : N unit :=
  match evs with [] => mret tt | ev :: evs => worker_ready w ev;; worker_events w evs end.

(** One round of the loop of [worker_entry]: whether the thread goes on.  [evs]
    is what [epoll_wait] answers, [time] what [time] does. *)
Definition worker_round (w : Z) (evs : list (option Z)) (time : Z) : N bool :=
  wk ← load_worker w;
  quit ← (if w_quit_time wk =? 0 then mret false else worker_check_quit w);
  if quit : bool then worker_destory w;; mret false else
  wk ← load_worker w;
  request_clean (w_blocked wk) false;;
  upd_worker w (λ wk, set_w_timer (timer_refresh time (w_timer wk)) wk);;
  worker_events w evs;;
  wk ← load_worker w;
  p ← (λ n, a ← timer_expire time (w_timer wk); Ret (a, n));
  upd_worker w (set_w_timer p.2);;
  for_each_request request_timeout_handler p.1;;
  mret true.
End request.
