(* ===== verification/Master.v ===== *)
(** * olivehc.c: the master thread

    Loading a configuration is all or nothing over the four parts of the program:
    each checks and prepares its part, then all load or all roll back.  The
    master's loop takes events, times requests out and runs the routines.

    [sys] joins the running program of Net.v with the configuration of Conf.v
    and the descriptors of ServerConf.v. *)

From Stdlib Require Import String.
From stdpp Require Import prelude fin_maps gmap.
From S2P Require Import Prelude StrUtil Slab Hash Timer Device Http Server Format Conf ServerConf DeviceLoad Net Status Worker Request.

Section state.
Context {AS IS PS RS : Type}.

Record sys := Sys {
  g_net : net AS IS PS RS;
  g_conf : cstate;
  g_fds : gset Z;
  g_logs : gset Z;
  g_listen : gset Z;
  error_log : list Z;
  error_filp : option Z;
  quit_timeout : Z;
  quit_time : Z;
  g_last : Z
}.
Definition set_g_net (v : net AS IS PS RS) (g : sys) : sys :=
  Sys v (g_conf g) (g_fds g) (g_logs g) (g_listen g) (error_log g) (error_filp g) (quit_timeout g) (quit_time g) (g_last g).
Definition set_g_conf (v : cstate) (g : sys) : sys :=
  Sys (g_net g) v (g_fds g) (g_logs g) (g_listen g) (error_log g) (error_filp g) (quit_timeout g) (quit_time g) (g_last g).
Definition set_g_logs (v : gset Z) (g : sys) : sys :=
  Sys (g_net g) (g_conf g) (g_fds g) v (g_listen g) (error_log g) (error_filp g) (quit_timeout g) (quit_time g) (g_last g).
Definition set_error_log (l : list Z) (f : option Z) (g : sys) : sys :=
  Sys (g_net g) (g_conf g) (g_fds g) (g_logs g) (g_listen g) l f (quit_timeout g) (quit_time g) (g_last g).
Definition set_quit_timeout (v : Z) (g : sys) : sys :=
  Sys (g_net g) (g_conf g) (g_fds g) (g_logs g) (g_listen g) (error_log g) (error_filp g) v (quit_time g) (g_last g).
Definition set_quit_time (v : Z) (g : sys) : sys :=
  Sys (g_net g) (g_conf g) (g_fds g) (g_logs g) (g_listen g) (error_log g) (error_filp g) (quit_timeout g) v (g_last g).
Definition set_g_last (v : Z) (g : sys) : sys :=
  Sys (g_net g) (g_conf g) (g_fds g) (g_logs g) (g_listen g) (error_log g) (error_filp g) (quit_timeout g) (quit_time g) v.

Definition csys_of (g : sys) : csys AS IS PS :=
  CSys (n_st (g_net g)) (g_conf g) (g_fds g) (g_logs g) (g_listen g).
Definition put_csys (y : csys AS IS PS) (g : sys) : sys :=
  Sys (set_n_st (y_st y) (g_net g)) (y_conf y) (y_fds y) (y_logs y) (y_epoll y)
    (error_log g) (error_filp g) (quit_timeout g) (quit_time g) (g_last g).
End state.
Arguments sys : clear implicits.

Section master.
Context {AS IS PS RS : Type} `{Allocator AS} `{Allocator IS} `{Allocator PS} `{Allocator RS}.
(** conf.c, server.c and device.c. *)
Context (fs : list Z → option (list Z)) (malloc_server malloc_device : cstate → option Z).
Context (tcp_bind : csys AS IS PS → Z → Z) (fopen : csys AS IS PS → list Z → option Z).
Context (hash_mem : csys AS IS PS → bool * bool).
Context (stat : list Z → option filestat) (open : csys AS IS PS → list Z → Z).
(** request.c. *)
Context (MD5 : list Z → md5_id) (kmalloc : dstore AS → option Z) (calloc_ok : sstore AS IS PS → bool).
Context (master_epoll_fd : Z) (tmalloc : ohc_timer_t → option Z).
Context (mktime : tm → Z → option (Z * Z)) (isdst : Z) (junk : Z → req).
Context (conf_filename : list Z).
Abbreviation G := (M (sys AS IS PS RS)).

Definition on_csys {A} (c : M (csys AS IS PS) A) : G A := λ g,
  match c (csys_of g) with Ret (a, y) => Ret (a, put_csys y g) | Fail f => Fail f end.
Definition on_net {A} (c : M (net AS IS PS RS) A) : G A := λ g,
  match c (g_net g) with Ret (a, n) => Ret (a, set_g_net n g) | Fail f => Fail f end.

(** ** Loading a configuration *)

Definition cycle (g : sys AS IS PS RS) : ohc_conf_t := conf_cycle (g_conf g).
Definition set_cycle_filp (f : option Z) (g : sys AS IS PS RS) : sys AS IS PS RS :=
  set_g_conf (set_conf_cycle (set_cf_error_filp f (cycle g)) (g_conf g)) g.

Definition olivehc_global_conf_check : G ohc_rc :=
  modify (set_cycle_filp None);;
  g ← get;
  if decide (cf_error_log (cycle g) = error_log g) then mret OHC_OK else
  match fopen (csys_of g) (cf_error_log (cycle g)) with
  | None => mret OHC_ERROR
  | Some filp =>
      modify (λ g, set_g_logs (g_logs g ∪ {[filp]}) (set_cycle_filp (Some filp) g));; mret OHC_OK
  end.

Definition olivehc_global_conf_load : G unit :=
  modify (λ g, set_quit_timeout (cf_quit_timeout (cycle g)) g);;
  g ← get;
  match cf_error_filp (cycle g) with
  | None => mret tt
  | Some filp =>
      old ← deref NullPtr (error_filp g);
      modify (λ g, set_cycle_filp None (set_error_log (cf_error_log (cycle g)) (Some filp)
        (set_g_logs (g_logs g ∖ {[old]}) g)))
  end.

Definition olivehc_global_conf_rollback : G unit :=
  g ← get;
  match cf_error_filp (cycle g) with
  | None => mret tt
  | Some filp => modify (λ g, set_g_logs (g_logs g ∖ {[filp]}) g)
  end.

Fixpoint conf_checks (l : list (G ohc_rc)) : G ohc_rc :=
  match l with
  | [] => mret OHC_OK
  | f :: l => rc ← f; if decide (rc = OHC_OK) then conf_checks l else mret OHC_ERROR
  end.

(** [calls] answers the calls that create workers. *)
Definition olivehc_load_conf (calls : list (option create_call * Z * Z * Z)) : G ohc_rc :=
  g ← get;
  p ← (λ g', a ← conf_parse fs malloc_server malloc_device conf_filename (g_conf g); Ret (a, g'));
  modify (set_g_conf p.2);;
  match p.1 with
  | None => mret OHC_ERROR
  | Some _ =>
      rc ← conf_checks
        [olivehc_global_conf_check;
         on_csys (device_conf_check stat open);
         on_csys (server_conf_check tcp_bind fopen hash_mem);
         (g ← get; on_net (worker_conf_check calls (cycle g)))];
      if decide (rc = OHC_OK) then
        olivehc_global_conf_load;;
        on_csys device_conf_load;;
        on_csys server_conf_load;;
        g ← get;
        on_net (worker_conf_load (cycle g));;
        mret OHC_OK
      else
        olivehc_global_conf_rollback;;
        on_csys device_conf_rollback;;
        on_csys server_conf_rollback;;
        on_net worker_conf_rollback;;
        mret OHC_ERROR
  end.

(** ** The admin port *)

Definition olivehc_quit : G unit :=
  g ← get;
  if negb (quit_time g =? 0) then mret tt else
  modify (λ g, set_quit_time (timer_now (master_timer (g_net g)) + quit_timeout g) g);;
  on_csys server_stop_service;;
  g ← get;
  on_net (worker_quit (quit_time g)).

Definition is_prefix (p l : list Z) : bool := bool_decide (take (length p) l = p).

Definition print_status : G (list Z) := λ g, text ← olivehc_status (n_st (g_net g)); Ret (text, g).

(** [recvd] is what [recv] of at most 99 bytes gave; nothing is done when it, the
    accept before it or the [fdopen] after it failed.  The result is what is
    printed, but for the messages of a configuration that is refused. *)
Definition olivehc_admin_handler (calls : list (option create_call * Z * Z * Z)) (recvd : option (list Z)) : G (list Z) :=
  match recvd with
  | None => mret []
  | Some buf =>
      let buf := cstr (take 99 buf) in
      if is_prefix (bytes "status") buf then
        print_status
      else if is_prefix (bytes "reload") buf then
        rc ← olivehc_load_conf calls;
        mret (if decide (rc = OHC_OK) then bytes "Reload successfully!" ++ NL else [])
      else if is_prefix (bytes "quit") buf then olivehc_quit;; mret (bytes "Quiting..." ++ NL)
      else if is_prefix (bytes "clear ") buf then
        rc ← on_net (with_cache (server_clear (u16 (atoi (drop 6 buf)))));
        mret (if decide (rc = OHC_OK) then bytes "Server cleared!" ++ NL else [])
      else mret (bytes "Invalid command!" ++ NL ++ bytes "Usage: status|reload|quit|clear SERVER" ++ NL)
  end.

(** ** The loop *)

(** What [epoll_wait] reports, with what the calls of the handler answer. *)
Inductive master_event :=
  | EvAdmin (calls : list (option create_call * Z * Z * Z)) (recvd : option (list Z))
  | EvListen (s : Z) (accepts : list (Z * sock))
  | EvPipe (w : Z)
  | EvSocket (r : Z).

Definition master_ready (ev : master_event) : G unit :=
  match ev with
  | EvAdmin calls recvd => olivehc_admin_handler calls recvd;; mret tt
  | EvListen s accepts =>
      on_net (server_listen_handler MD5 kmalloc calloc_ok master_epoll_fd tmalloc mktime isdst junk accepts s)
  | EvPipe w =>
      on_net (worker_request_recycle MD5 kmalloc calloc_ok master_epoll_fd tmalloc mktime isdst w)
  | EvSocket r => on_net (event_handler MD5 kmalloc calloc_ok master_epoll_fd tmalloc mktime isdst r)
  end.
Fixpoint master_events (evs : list master_event) : G unit :=
  match evs with [] => mret tt | ev :: evs => master_ready ev;; master_events evs end.

(** The time of the master is the time of its timer. *)
Definition master_refresh (time : Z) : G unit :=
  on_net (modify (λ n, set_n_st (set_master_now time (n_st n))
    (set_master_timer (timer_refresh time (master_timer n)) n))).

(** One round of [olivehc_master_entry]: whether the loop goes on. *)
Definition master_round (evs : list master_event) (time : Z) : G bool :=
  g ← get;
  quit ← (if quit_time g =? 0 then mret false
          else on_net (request_check_quit kmalloc master_epoll_fd tmalloc (g_last g <? quit_time g)));
  if quit : bool then mret false else
  master_refresh time;;
  master_events evs;;
  master_refresh time;;
  g ← get;
  p ← (λ g', a ← timer_expire time (master_timer (g_net g)); Ret (a, g'));
  on_net (modify (set_master_timer p.2));;
  on_net (for_each_request (request_timeout_handler kmalloc master_epoll_fd tmalloc) p.1);;
  g ← get;
  let now := timer_now (master_timer (g_net g)) in
  (if now =? g_last g then mret tt else
   modify (set_g_last now);;
   on_net (with_cache (server_routine kmalloc));;
   on_net (with_cache (device_routine kmalloc)));;
  mret true.

(** [olivehc_master_entry] over the answers of the kernel to its rounds: until it
    ends, or they run out.  The items of the devices are read first and written
    at the end. *)
Fixpoint master_rounds (rounds : list (list master_event * Z)) : G bool :=
  match rounds with
  | [] => mret false
  | (evs, time) :: rounds =>
      go ← master_round evs time;
      if go : bool then master_rounds rounds else mret true
  end.
Definition olivehc_master_entry (items : nat → bool) (files : Z → option FILE) (sbpad pad : list Z)
    (rounds : list (list master_event * Z)) : G (option (list (Z * option FILE))) :=
  modify (λ g, set_g_last (timer_now (master_timer (g_net g))) g);;
  on_net (with_cache (device_format_load MD5 items files));;
  ended ← master_rounds rounds;
  if ended : bool then l ← on_net (with_cache (device_format_store sbpad pad files)); mret (Some l)
  else mret None.
End master.
