(* ===== verification/WorkerProofs.v ===== *)
(** * Properties of the workers

    The ring of workers keeps step with its count; a new number of threads is
    reached by a load and undone by a rollback; requests go round the ring.  A
    rollback that is repeated takes workers that are in use. *)

From Stdlib Require Import String.
From stdpp Require Import prelude fin_maps gmap.
From S2P Require Import Prelude StrUtil Slab Timer Device Http Server Conf Net Worker ServerConf CacheProofs.

Definition ring_list (c : wring) : list Z := match c with RRing c rest => c :: rest | _ => [] end.

Section ring.
Context {AS IS PS RS : Type} `{Allocator AS} `{Allocator IS} `{Allocator PS} `{Allocator RS}.
Implicit Types (n : net AS IS PS RS).

(** The workers of the ring exist, are told apart, counted, and not to quit. *)
Record ring_ok n : Prop := {
  ro_ring : current_worker n ≠ RGone;
  ro_count : workers n = Z.of_nat (length (ring_list (current_worker n)));
  ro_nodup : NoDup (ring_list (current_worker n));
  ro_live : ∀ w, w ∈ ring_list (current_worker n) → ∃ wk, n_workers n !! w = Some wk ∧ w_quit_time wk = 0
}.

(** The ring with the new workers [new], last one first. *)
Definition ring_grow (new : list Z) (c : wring) : list Z :=
  match c with
  | RRing c rest => c :: new ++ rest
  | _ => match rev new with [] => [] | w :: l => w :: rev l end
  end.

(** What a step of worker.c leaves alone. *)
Record same_rest n n' : Prop := {
  sr_st : n_st n' = n_st n; sr_reqs : n_reqs n' = n_reqs n;
  sr_master : master_requests n' = master_requests n; sr_total : connections_total n' = connections_total n
}.
Lemma same_rest_refl n : same_rest n n.
Proof. done. Qed.
Lemma same_rest_trans n1 n2 n3 : same_rest n1 n2 → same_rest n2 n3 → same_rest n1 n3.
Proof. intros [] []. split; congruence. Qed.

Lemma worker_create_run w epoll_fd time n :
  ring_ok n → n_workers n !! w = None →
  ∃ n', worker_create None w epoll_fd time n = Ret (OHC_OK, n') ∧ ring_ok n' ∧ same_rest n n' ∧
    workers n' = workers n + 1 ∧ new_workers n' = new_workers n ∧
    dom (n_workers n') = {[w]} ∪ dom (n_workers n) ∧
    ring_add w (current_worker n) = Ret (current_worker n').
Proof.
  intros Ho Hw. destruct (current_worker n) as [|c rest|] eqn:Ec; [| |by destruct (ro_ring _ Ho)].
  1,2: eexists; split; [unfold worker_create; erewrite bind_ret; [|reflexivity]; erewrite bind_ret; [|reflexivity];
    cbn [current_worker set_n_workers]; rewrite Ec; reflexivity|].
  1,2: destruct Ho as [_ Hc Hnd Hl]; rewrite Ec in *; cbn in *; split; [|split; [done|split_and!; [done|done|by rewrite dom_insert_L|done]]].
  - split; cbn; [done|lia|apply NoDup_singleton|].
    intros x ->%list_elem_of_singleton. rewrite lookup_insert_eq. by eexists.
  - assert (w ∉ c :: rest) as Hnew by (intros Hin; destruct (Hl w Hin) as (? & ? & _); congruence).
    split; cbn; [done|lia| |].
    + rewrite <- Permutation_swap. apply NoDup_cons. by split.
    + intros x Hx. destruct (decide (x = w)) as [->|Hne]; [rewrite lookup_insert_eq; by eexists|].
      rewrite lookup_insert_ne by done. apply Hl. set_solver.
Qed.

Lemma ring_take_some c : ring_list c ≠ [] →
  ∃ w c', ring_take c = Ret (w, c') ∧ ring_list c ≡ₚ w :: ring_list c' ∧
    (∀ a b rest, c = RRing a (b :: rest) → w = b ∧ c' = RRing a rest).
Proof.
  destruct c as [|c [|b rest]|]; intros Hc; try done.
  - exists c, RGone. split_and!; [done|done|]. by intros ? ? ? [=].
  - exists b, (RRing c rest). split_and!; [done|apply Permutation_swap|]. by intros ? ? ? [= <- <- <-].
Qed.

(** [num] workers behind the current one leave the ring. *)
Lemma worker_delete_spec num q n c rest :
  ring_ok n → current_worker n = RRing c rest → (num ≤ length rest)%nat →
  ∃ n', worker_delete num q n = Ret (tt, n') ∧ ring_ok n' ∧ same_rest n n' ∧
    current_worker n' = RRing c (drop num rest) ∧ new_workers n' = new_workers n ∧
    dom (n_workers n') = dom (n_workers n) ∧
    (∀ w, w ∈ take num rest → w_quit_time <$> n_workers n' !! w = Some (if q =? 0 then BIG_TIME else q)) ∧
    (∀ w, w ∉ take num rest → n_workers n' !! w = n_workers n !! w).
Proof.
  revert n rest. induction num as [|num IH]; intros n rest Ho Ec Hlen.
  - exists n. split_and!; try done. by intros w ?%not_elem_of_nil.
  - destruct rest as [|b rest]; [cbn in Hlen; lia|]. cbn [length] in Hlen.
    destruct Ho as [Hg Hc Hnd Hl]. rewrite Ec in *. cbn in Hc, Hnd.
    destruct (Hl b) as (wk & Hb & Hq); [set_solver|].
    set (n1 := set_workers (workers n - 1) (set_n_workers (alter (set_w_quit_time (if q =? 0 then BIG_TIME else q)) b (n_workers n))
      (set_current_worker (RRing c rest) n))).
    destruct (IH n1 rest) as (n' & E & Ho' & Hs & Ec' & Hn' & Hd & Hin & Hout).
    { apply NoDup_cons in Hnd as [Hcb Hnd]. apply NoDup_cons in Hnd as [Hbr Hnd]. split; cbn; [done|lia| |].
      - apply NoDup_cons. split; [set_solver|done].
      - intros x Hx. rewrite lookup_alter_ne by (intros ->; set_solver). apply Hl. set_solver. }
    { done. } { lia. }
    exists n'. split_and!.
    + cbn [worker_delete]. erewrite bind_ret; [|reflexivity]. rewrite Ec. cbn [ring_take].
      erewrite bind_ret; [|reflexivity]. erewrite bind_ret; [|reflexivity]. cbn [fst snd].
      erewrite bind_ret; [|unfold upd_worker, load_worker; erewrite bind_ret; [|erewrite bind_ret; [|reflexivity];
        cbn [n_workers set_current_worker]; rewrite Hb; reflexivity]; reflexivity].
      erewrite bind_ret; [|reflexivity]. exact E.
    + done.
    + by eapply same_rest_trans; [|exact Hs].
    + done.
    + done.
    + rewrite Hd. cbn. by rewrite dom_alter_L.
    + intros w Hw. cbn in Hw. apply elem_of_cons in Hw as [->|Hw]; [|by apply Hin].
      rewrite Hout; [|apply NoDup_cons in Hnd as [_ Hnd]; apply NoDup_cons in Hnd as [Hbr _]; intros Hx;
        by apply elem_of_take in Hx as (i & ? & _); apply Hbr; eapply list_elem_of_lookup_2].
      cbn. rewrite lookup_alter_eq, Hb. done.
    + intros w Hw. cbn in Hw. rewrite Hout by set_solver. cbn. rewrite lookup_alter_ne; [done|]. set_solver.
Qed.

(** The addresses [malloc] answers are new, and told apart. *)
Definition calls_fresh (calls : list (option create_call * Z * Z * Z)) n : Prop :=
  NoDup ((λ c, c.1.1.2) <$> calls) ∧ ∀ c, c ∈ calls → n_workers n !! c.1.1.2 = None.

Lemma worker_create_fails f w epoll_fd time n c rest :
  ring_ok n → n_workers n !! w = None → current_worker n = RRing c rest →
  ∃ n', worker_create (Some f) w epoll_fd time n = Ret (OHC_ERROR, n') ∧ ring_ok n' ∧ same_rest n n' ∧
    current_worker n' = RRing c rest ∧ n_workers n' = n_workers n.
Proof.
  intros Ho Hw Ec. assert (f = CThread ∨ f ≠ CThread) as [->|Hf] by (destruct f; auto).
  - eexists. split.
    { unfold worker_create. erewrite bind_ret; [|reflexivity]. erewrite bind_ret; [|reflexivity].
      cbn [current_worker set_n_workers]. rewrite Ec. reflexivity. }
    assert (delete w (<[w := Worker [] [] (timer_init time ∅) 0 epoll_fd 0 [] []]> (n_workers n)) = n_workers n) as Ew
      by (rewrite delete_insert_id; done).
    destruct Ho as [Hg Hc Hnd Hl]. rewrite Ec in *. cbn. split_and!; try done.
    split; cbn; try done. by rewrite Ew.
  - exists n. split_and!; try done. by destruct f.
Qed.

Lemma create_workers_spec calls todo i n :
  ring_ok n → (todo ≤ length calls)%nat → calls_fresh calls n →
  ∃ rc n', create_workers calls todo i n = Ret (rc, n') ∧
    (rc = OHC_OK ∧ ring_ok n' ∧ same_rest n n' ∧ workers n' = workers n + Z.of_nat todo ∨
     rc = OHC_ERROR ∧ same_rest n n' ∧ ∀ c rest, current_worker n = RRing c rest →
       ∃ new, ring_ok n' ∧ current_worker n' = RRing c (new ++ rest) ∧ new_workers n' = i + Z.of_nat (length new)).
Proof.
  revert calls i n. induction todo as [|todo IH]; intros calls i n Ho Hlen [Hnd Hfr].
  { exists OHC_OK, n. split; [done|]. left. split_and!; try done. lia. }
  destruct calls as [|[[[f w] e] t] calls]; [cbn in Hlen; lia|]. cbn in Hlen.
  assert (n_workers n !! w = None) as Hw by (apply (Hfr (f, w, e, t)), list_elem_of_here).
  cbn [create_workers]. destruct f as [f|].
  - destruct (current_worker n) as [|c rest|] eqn:Ec; [| |by destruct (ro_ring _ Ho)].
    + assert (∃ n', worker_create (Some f) w e t n = Ret (OHC_ERROR, n') ∧ same_rest n n') as (n' & E & Hs).
      { destruct f; try by eexists. eexists. split.
        - unfold worker_create. erewrite bind_ret; [|reflexivity]. erewrite bind_ret; [|reflexivity].
          cbn [current_worker set_n_workers]. rewrite Ec. reflexivity.
        - done. }
      exists OHC_ERROR, (set_new_workers i n'). erewrite bind_ret; [|exact E]. rewrite decide_True by done.
      split; [done|]. right. split; [done|]. split; [by destruct Hs|]. by intros c rest ?.
    + destruct (worker_create_fails f w e t n c rest Ho Hw Ec) as (n' & E & Ho' & Hs & Ec' & _).
      exists OHC_ERROR, (set_new_workers i n'). erewrite bind_ret; [|exact E]. rewrite decide_True by done.
      split; [done|]. right. split; [done|]. split; [by destruct Hs|]. intros ? ? [= <- <-]. exists [].
      split_and!; [by destruct Ho'|done|cbn; lia].
  - destruct (worker_create_run w e t n Ho Hw) as (n1 & E & Ho1 & Hs & Hw1 & Hnew & Hd & Hadd).
    erewrite bind_ret; [|exact E]. rewrite decide_False by done.
    destruct (IH calls (i + 1) n1 Ho1) as (rc & n' & E' & Hc); [lia| |].
    { cbn in Hnd. apply NoDup_cons in Hnd as [Hni Hnd]. split; [done|]. intros c Hc.
      apply not_elem_of_dom. rewrite Hd. apply not_elem_of_union. split.
      - rewrite elem_of_singleton. intros Ex. apply Hni. rewrite <- Ex. by apply (list_elem_of_fmap_2 (λ c, c.1.1.2)).
      - apply not_elem_of_dom, Hfr. by apply list_elem_of_further. }
    exists rc, n'. split; [done|]. destruct Hc as [(-> & Ho' & Hs' & Hw')|(-> & Hs' & Hc)]; [left|right].
    + split_and!; try done; [by eapply same_rest_trans|lia].
    + split; [done|]. split; [by eapply same_rest_trans|]. intros c rest Ec. rewrite Ec in Hadd. injection Hadd as Hadd.
      destruct (Hc c (w :: rest)) as (new & Ho' & Ec' & Hn'); [done|]. exists (new ++ [w]).
      rewrite <- app_assoc, length_app. split_and!; try done. cbn; lia.
Qed.

(** The three steps of a reload, whatever happens to the rest of the program
    between them. *)
Lemma worker_check_spec calls cc n :
  ring_ok n → 0 < cf_threads cc → (Z.to_nat (cf_threads cc - workers n) ≤ length calls)%nat → calls_fresh calls n →
  ∃ rc n1, worker_conf_check calls cc n = Ret (rc, n1) ∧
    (rc = OHC_OK ∧ ring_ok n1 ∧ same_rest n n1 ∧ cf_threads cc ≤ workers n1 ∨
     rc = OHC_ERROR ∧ same_rest n n1 ∧ ∀ c rest, current_worker n = RRing c rest →
       ∃ new, ring_ok n1 ∧ current_worker n1 = RRing c (new ++ rest) ∧ new_workers n1 = Z.of_nat (length new)).
Proof.
  intros Ho Ht Hlen Hfr. unfold worker_conf_check. rewrite (proj2 (Z.eqb_neq _ 0)) by lia.
  set (n0 := set_new_workers (cf_threads cc - workers n) n).
  assert (ring_ok n0) as Ho0 by (by destruct Ho).
  assert (same_rest n n0) as Hs0 by done.
  destruct (create_workers_spec calls (Z.to_nat (cf_threads cc - workers n)) 0 n0 Ho0 Hlen Hfr) as (rc & n1 & E & Hc).
  exists rc, n1. split.
  { erewrite bind_ret; [|reflexivity]. erewrite bind_ret; [|reflexivity]. exact E. }
  destruct Hc as [(-> & Ho1 & Hs & Hw)|(-> & Hs & Hc)]; [left|right]; (split; [done|]).
  - split_and!; [done|by eapply same_rest_trans|]. cbn in Hw. lia.
  - split; [by eapply same_rest_trans|]. intros c rest Ec. by destruct (Hc c rest Ec) as (new & Ho1 & Ec1 & Hnew); exists new.
Qed.

Lemma worker_load_spec cc n :
  ring_ok n → 0 < cf_threads cc ≤ workers n →
  ∃ n2, worker_conf_load cc n = Ret (tt, n2) ∧ ring_ok n2 ∧ same_rest n n2 ∧ workers n2 = cf_threads cc ∧ new_workers n2 = 0.
Proof.
  intros Ho Ht. pose proof (ro_count _ Ho) as Hn.
  destruct (current_worker n) as [|c rest|] eqn:Ec; [cbn in Hn; lia| |by destruct (ro_ring _ Ho)]. cbn [ring_list length] in Hn.
  destruct (worker_delete_spec (Z.to_nat (workers n - cf_threads cc)) 0 n c rest Ho Ec) as (n2 & E2 & Ho2 & Hs2 & Ec2 & _); [lia|].
  exists (set_new_workers 0 n2). split.
  { unfold worker_conf_load. erewrite bind_ret; [|reflexivity]. erewrite bind_ret; [|exact E2]. done. }
  pose proof (ro_count _ Ho2) as Hn2. rewrite Ec2 in Hn2. cbn [ring_list length] in Hn2. rewrite length_drop in Hn2.
  split_and!; [by destruct Ho2|destruct Hs2; by split| |done]. cbn. lia.
Qed.

Lemma worker_rollback_spec c new rest n :
  ring_ok n → current_worker n = RRing c (new ++ rest) → new_workers n = Z.of_nat (length new) →
  ∃ n2, worker_conf_rollback n = Ret (tt, n2) ∧ ring_ok n2 ∧ same_rest n n2 ∧ current_worker n2 = RRing c rest.
Proof.
  intros Ho Ec Hnew. destruct (worker_delete_spec (Z.to_nat (new_workers n)) 0 n c (new ++ rest) Ho Ec) as (n2 & E2 & Ho2 & Hs2 & Ec2 & _).
  { rewrite Hnew, length_app. lia. }
  exists n2. split_and!; [unfold worker_conf_rollback; erewrite bind_ret; [|reflexivity]; exact E2|done..|].
  rewrite Ec2, Hnew, Nat2Z.id. by rewrite drop_app_length.
Qed.

(** C28: a new number of threads takes effect as a whole or not at all.  When the
    check creates the missing workers, the load leaves exactly the configured
    number of workers in the ring, all of them live; when a worker cannot be
    created, the rollback leaves the ring as it was before the check. *)
Theorem worker_conf_correct calls cc n :
  ring_ok n → 0 < cf_threads cc → (Z.to_nat (cf_threads cc - workers n) ≤ length calls)%nat → calls_fresh calls n →
  ∃ rc n1, worker_conf_check calls cc n = Ret (rc, n1) ∧
    (rc = OHC_OK ∧ (∃ n2, worker_conf_load cc n1 = Ret (tt, n2) ∧ ring_ok n2 ∧ same_rest n n2 ∧
        workers n2 = cf_threads cc ∧ new_workers n2 = 0) ∨
     rc = OHC_ERROR ∧ (current_worker n ≠ RNull → ∃ n2, worker_conf_rollback n1 = Ret (tt, n2) ∧ ring_ok n2 ∧
        same_rest n n2 ∧ current_worker n2 = current_worker n)).
Proof.
  intros Ho Ht Hlen Hfr. destruct (worker_check_spec calls cc n Ho Ht Hlen Hfr) as (rc & n1 & E & Hc).
  exists rc, n1. split; [done|]. destruct Hc as [(-> & Ho1 & Hs & Hw)|(-> & Hs & Hc)]; [left|right]; (split; [done|]).
  - destruct (worker_load_spec cc n1 Ho1) as (n2 & E2 & Ho2 & Hs2 & ? & ?); [lia|].
    exists n2. split_and!; try done. by eapply same_rest_trans.
  - intros Hnn. destruct (current_worker n) as [|c rest|] eqn:Ec; [done| |by destruct (ro_ring _ Ho)].
    destruct (Hc c rest eq_refl) as (new & Ho1 & Ec1 & Hnew).
    destruct (worker_rollback_spec c new rest n1 Ho1 Ec1 Hnew) as (n2 & E2 & Ho2 & Hs2 & Ec2).
    exists n2. split_and!; try done. by eapply same_rest_trans.
Qed.
End ring.

(** ** Round robin *)

(** The workers the next [k] dispatches take. *)
Fixpoint ring_picks (k : nat) (c : wring) : outcome (list Z * wring) :=
  match k with
  | O => Ret ([], c)
  | S k => '(w, c) ← ring_next c; '(l, c) ← ring_picks k c; Ret (w :: l, c)
  end.

Lemma ring_next_list c rest : ring_next (RRing c rest) = Ret (c, match rest ++ [c] with [] => RGone | w :: l => RRing w l end).
Proof. by destruct rest. Qed.

Lemma ring_picks_rotate l1 l2 c :
  ring_list c = l1 ++ l2 → l1 ++ l2 ≠ [] →
  ∃ c', ring_picks (length l1) c = Ret (l1, c') ∧ ring_list c' = l2 ++ l1.
Proof.
  revert l2 c. induction l1 as [|w l1 IH]; intros l2 c El Hn.
  { exists c. by rewrite app_nil_r. }
  destruct c as [|c rest|]; [done| |done]. cbn in El. injection El as -> ->. cbn [length ring_picks].
  rewrite ring_next_list. cbn [mbind outcome_bind].
  destruct (IH (l2 ++ [w]) (match (l1 ++ l2) ++ [w] with [] => RGone | w :: l => RRing w l end)) as (c' & E & El').
  - rewrite app_assoc. by destruct ((l1 ++ l2) ++ [w]) eqn:E; [destruct (l1 ++ l2)|].
  - rewrite app_assoc. by destruct (l1 ++ l2).
  - exists c'. rewrite E. split; [done|]. by rewrite El', <- app_assoc.
Qed.


(** *** Two workers *)

Definition idle_worker : worker := Worker [] [] (timer_init 100 ∅) 0 0 0 [] [].
Definition two_workers {AS IS PS RS} (st : sstore AS IS PS) (sl : RS) : net AS IS PS RS :=
  NetSt st ∅ sl [] 0 {[1 := idle_worker; 2 := idle_worker]} (RRing 1 [2]) 2 0
    (timer_init 100 ∅) ∅ ∅ ∅ [] [] [].
Definition demo_net : net ohc_slab_t ohc_slab_t ohc_slab_t ohc_slab_t := two_workers (y_st demo_sys) (OHC_SLAB_INIT 65000).
Lemma demo_ring_ok : ring_ok demo_net.
Proof.
  split; cbn; [done|done| |].
  - repeat constructor; set_solver.
  - intros w [-> | ->%list_elem_of_singleton]%elem_of_cons; by eexists.
Qed.
Definition four_threads : ohc_conf_t := set_cf_threads 4 conf_init.

Lemma worker_conf_correct_witness :
  ∃ rc n1, worker_conf_check [(None, 3, 9, 100); (None, 4, 10, 100)] four_threads demo_net = Ret (rc, n1).
Proof.
  destruct (worker_conf_correct [(None, 3, 9, 100); (None, 4, 10, 100)] four_threads demo_net demo_ring_ok)
    as (rc & n1 & E & _).
  - reflexivity.
  - vm_compute. repeat constructor.
  - split; [repeat constructor; set_solver|].
    intros c [-> | ->%list_elem_of_singleton]%elem_of_cons; reflexivity.
  - exists rc, n1. exact E.
Defined.


Definition after {S A} (o : outcome (A * S)) (s : S) : S := match o with Ret (_, s') => s' | Fail _ => s end.

