(* ===== verification/MasterProofs.v ===== *)
(** * Properties of the master thread

    [olivehc_load_conf] over its four parts: the error log, the devices, the
    servers and the workers all become what the new configuration says, or all
    are left as they were. *)

From Stdlib Require Import String.
From stdpp Require Import prelude fin_maps gmap.
From S2P Require Import Prelude IdxPointer StrUtil Slab Hash Timer Device DeviceInv DeviceConf.
From S2P Require Import Http Server ServerInv ServerOps ServerPut Format Conf ConfProofs ServerConf DeviceLoad Cache DeviceLife Life CacheProofs.
From S2P Require Import Owned ServerReload ServerLoad DeviceReload Reload Apart Net Worker Request Master WorkerProofs.

Lemma owned_drop {C} (g : C → option Z) l cs (X X0 : gset Z) z :
  owned g l cs X X0 → z ∈ X0 → owned g l cs (X ∖ {[z]}) (X0 ∖ {[z]}).
Proof.
  intros [Hs Hn Hi] Hz. split; [|intros s c w Hl E Ew; specialize (Hn s c w Hl E Ew); set_solver|done].
  intros w. rewrite !elem_of_difference, Hs, elem_of_singleton. split.
  - intros [[?|?] ?]; [by left|by right].
  - intros [[? ?]|(s & c & Hl & E & Ew)]; [tauto|]. split; [right; by exists s, c|]. intros ->. by apply (Hn s c z).
Qed.

Section master.
Context {AS IS PS RS : Type} `{Allocator AS} `{Allocator IS} `{Allocator PS} `{Allocator RS}.
Context (fs : list Z → option (list Z)) (malloc_server malloc_device : cstate → option Z).
Context (tcp_bind : csys AS IS PS → Z → Z) (fopen : csys AS IS PS → list Z → option Z).
Context (hash_mem : csys AS IS PS → bool * bool).
Context (stat : list Z → option filestat) (open : csys AS IS PS → list Z → Z).
Context (conf_filename : list Z).
Implicit Types (g : sys AS IS PS RS) (y : csys AS IS PS) (n : net AS IS PS RS) (h : list (bool * Z)).

(** The state with the files, sockets and cache of [y] and the workers and
    requests of [n]; the rest is as in [g]. *)
Definition gs g y n : sys AS IS PS RS :=
  Sys (set_n_st (y_st y) n) (y_conf y) (y_fds y) (y_logs y) (y_epoll y)
    (error_log g) (error_filp g) (quit_timeout g) (quit_time g) (g_last g).

Lemma csys_gs g y n : csys_of (gs g y n) = y.
Proof. by destruct y. Qed.
Lemma gs_start g : g = gs g (csys_of g) (g_net g).
Proof. by destruct g as [[] ? ? ? ? ? ? ? ? ?]. Qed.

Lemma on_csys_gs {A} (c : M (csys AS IS PS) A) g y n a y' :
  c y = Ret (a, y') → on_csys c (gs g y n) = Ret (a, gs g y' n).
Proof. intros E. unfold on_csys. by rewrite csys_gs, E. Qed.
Lemma on_net_gs {A} (c : M (net AS IS PS RS) A) g y n a n' :
  c (set_n_st (y_st y) n) = Ret (a, n') → same_rest (set_n_st (y_st y) n) n' → on_net c (gs g y n) = Ret (a, gs g y n').
Proof.
  intros E [Est _ _ _]. unfold on_net. cbn [g_net gs]. rewrite E. unfold gs, set_g_net. cbn. do 3 f_equal.
  destruct n'. cbn in *. by subst.
Qed.

(** ** The error log *)

(** The configuration with the new log file [o]. *)
Definition with_filp (o : option Z) (L : gset Z) y : csys AS IS PS :=
  CSys (y_st y) (set_conf_cycle (set_cf_error_filp o (conf_cycle (y_conf y))) (y_conf y)) (y_fds y) L (y_epoll y).

Lemma global_check_spec g y n :
  (∀ y name f, fopen y name = Some f → f ∉ y_logs y) →
  ∃ rc o L, olivehc_global_conf_check fopen (gs g y n) = Ret (rc, gs g (with_filp o L y) n) ∧
    (o = None ∧ L = y_logs y ∧ (rc = OHC_OK → cf_error_log (conf_cycle (y_conf y)) = error_log g) ∨
     rc = OHC_OK ∧ cf_error_log (conf_cycle (y_conf y)) ≠ error_log g ∧ ∃ f, o = Some f ∧ (f ∉ y_logs y) ∧ L = y_logs y ∪ {[f]}).
Proof.
  intros Hf. unfold olivehc_global_conf_check. erewrite bind_ret; [|reflexivity]. erewrite bind_ret; [|reflexivity].
  case_decide as E.
  { exists OHC_OK, None, (y_logs y). split; [done|]. by left. }
  destruct (fopen _ _) as [f|] eqn:Ef.
  - exists OHC_OK, (Some f), (y_logs y ∪ {[f]}). split; [done|]. right. split; [done|]. split; [done|]. exists f. split_and!; [done| |done].
    by apply Hf in Ef.
  - exists OHC_ERROR, None, (y_logs y). split; [done|]. by left.
Qed.

(** ** The configuration and the running system *)

Lemma conf_with_filp o L y : conf_ok y → conf_ok (with_filp o L y).
Proof. intros []. by split. Qed.
Lemma dconf_with_filp o L y : dconf_ok y → dconf_ok (with_filp o L y).
Proof. intros []. by split. Qed.
Lemma running_with_filp o L y h : (∀ f, f ∈ y_logs y → f ∈ L) → running y h → running (with_filp o L y) h.
Proof.
  intros HL [[Hi Hl] Hlv Ht]. split; [by split| |done]. apply (live_ok_ext y); try done. intros s sv f _ _. apply HL.
Qed.

Lemma running_reconf v y h : running y h → running (set_y_conf v y) h.
Proof. intros [[Hi Hl] Hlv Ht]. split; [by split| |exact Ht]. by apply (live_ok_ext y). Qed.

(** ** When a check fails *)

(** The system is as before, but for the matches of the last check. *)
Record sys_undone y y' : Prop := {
  su_devs : dev_undone y y';
  su_srvs : same_srvs (srvs (y_st y)) (srvs (y_st y'));
  su_servers : servers (y_st y') = servers (y_st y) ∧ deleted_servers (y_st y') = deleted_servers (y_st y);
  su_logs : y_logs y' = y_logs y;
  su_epoll : y_epoll y' = y_epoll y
}.

Lemma global_rollback_spec g o L y n :
  ∃ L', olivehc_global_conf_rollback (gs g y n) = Ret (tt, gs g (CSys (y_st y) (y_conf y) (y_fds y) L' (y_epoll y)) n) ∧
    (cf_error_filp (conf_cycle (y_conf y)) = o → y_logs y = L → L' = match o with Some f => L ∖ {[f]} | None => L end).
Proof.
  unfold olivehc_global_conf_rollback. erewrite bind_ret; [|reflexivity]. unfold cycle. cbn [g_conf gs].
  destruct (cf_error_filp (conf_cycle (y_conf y))) as [f|] eqn:Ef.
  - exists (y_logs y ∖ {[f]}). split; [done|]. by intros <- <-.
  - exists (y_logs y). split; [by destruct y|]. by intros <- <-.
Qed.

Lemma apart_with_filp o L y : parser_apart y → parser_apart (with_filp o L y).
Proof. intros [[? ? ? ?] ? [? ?]]. by split. Qed.

(** The four rollbacks, from any point of the checks; [Q] is what the workers'
    rollback makes of [n]. *)
Lemma rollbacks_spec g y h n (Q : net AS IS PS RS → Prop) o L0 dm dcs F1 sm scs F2 L2 :
  running y h → (match o with Some f => (f ∉ y_logs y) ∧ L0 = y_logs y ∪ {[f]} | None => L0 = y_logs y end) →
  dopened (with_filp o L0 y) dm dcs F1 →
  opened (cad (with_filp o L0 y) dm dcs F1) (getters h) (putters h) sm scs F2 L2 →
  (∀ st, ∃ n', worker_conf_rollback (set_n_st st n) = Ret (tt, n') ∧ same_rest (set_n_st st n) n' ∧ Q n') →
  ∃ y' n', (olivehc_global_conf_rollback;; on_csys device_conf_rollback;; on_csys server_conf_rollback;;
         on_net worker_conf_rollback;; mret OHC_ERROR) (gs g (both (with_filp o L0 y) dm dcs sm scs F2 L2) n)
      = Ret (OHC_ERROR, gs g y' n') ∧ running y' h ∧ sys_undone y y' ∧ same_rest (set_n_st (y_st y') n) n' ∧ Q n' ∧
    (parser_apart (both (with_filp o L0 y) dm dcs sm scs F2 L2) → parser_apart y').
Proof.
  intros Hrun Ho Hdo Hop Hw.
  destruct (global_rollback_spec g o L2 (both (with_filp o L0 y) dm dcs sm scs F2 L2) n) as (L3 & E1 & HL3).
  specialize (HL3 eq_refl eq_refl). erewrite bind_ret; [|exact E1].
  destruct (rollback_both _ _ _ dm dcs F1 sm scs F2 L2 L3 Hdo Hop) as (F3 & L4 & E2 & E3 & HL4).
  erewrite bind_ret; [|apply on_csys_gs; exact E2]. erewrite bind_ret; [|apply on_csys_gs; exact E3].
  set (y' := both _ _ _ _ _ _ _). destruct (Hw (y_st y')) as (n' & E4 & Hsr & HQ).
  erewrite bind_ret; [|apply on_net_gs; [exact E4|exact Hsr]]. exists y', n'. split; [done|].
  assert (L4 = y_logs y) as EL.
  { apply set_eq. intros z. rewrite HL4, HL3. pose proof (op_logs _ _ _ _ _ _ _ Hop) as Hlog. cbn in Hlog.
    assert (∀ z, z ∈ L2 ↔ z ∈ L0 ∨ ∃ s c, s ∈ listed y ∧ scs !! s = Some c ∧ sc_access_filp c = Some z) as HL2 by apply Hlog.
    assert (z ∈ L0 → ¬ ∃ s c, s ∈ listed y ∧ scs !! s = Some c ∧ sc_access_filp c = Some z) as Hnew.
    { intros Hz (s & c & Hs & Ec & Ez). by apply (ow_new _ _ _ _ _ Hlog s c z). }
    destruct o as [f|].
    - destruct Ho as [Hf ->]. rewrite elem_of_difference, HL2, elem_of_union, elem_of_singleton in *. split; [tauto|].
      intros Hz. split_and!; [tauto|by intros ->|tauto].
    - rewrite HL2, <- Ho. split; [tauto|]. intros Hz. split; [by left|by apply Hnew]. }
  pose proof (same_devs_open _ _ _ _ Hdo) as Hsd. destruct Hrun as [Hi Hlv Ht].
  assert (life_inv (Life (cad y dm dcs F1) h)) as Hi1.
  { destruct Hi as [Hi Hl]. cbn in Hi, Hl. split; [|done]. cbn. apply cache_inv_same; try done.
    split; [apply (di_devices _ (ci_dev _ _ _ _ Hi))|done]. }
  assert (same_srvs (srvs (y_st y)) sm) as Hsm by (intros s; apply (op_srv _ _ _ _ _ _ _ Hop)).
  split; [|split; [|split_and!; [done..|]]]; [split|split|].
  - apply (life_inv_same_srvs (y_st (cad y dm dcs F1)) (cad y dm dcs F1) y' sm h); [by destruct y as [[] ? ? ? ?]|done..].
  - apply (live_ok_ext y); try done. intros s sv f _ _ Hf. cbn. by rewrite EL.
  - cbn. intros d i dv Hd (F4 & F5 & F6). cbn in F4, F5.
    destruct (dop_back _ _ _ _ d dv Hdo F5) as (dv0 & E0 & Hs). pose proof (f_equal d_kicked Hs) as Hk. pose proof (f_equal d_index Hs) as Hx.
    cbn in Hk, Hx. rewrite Hk. apply (Ht d i); [done|]. split_and!; [done|done|congruence].
  - split; try done. apply Hdo.
  - done.
  - done.
  - exact EL.
  - done.
  - intros [[? ? ? ?] ? [? ?]]. by split.
Qed.

(** ** The checks *)

Context (Hbind : ∀ y port, 0 ≤ tcp_bind y port → tcp_bind y port ∉ y_fds y).
Context (Hfopen : ∀ y name f, fopen y name = Some f → f ∉ y_logs y).
Context (Hopen : ∀ y name, 0 ≤ open y name → open y name ∉ y_fds y).
Context (Hstat : ∀ name fs size, stat name = Some fs → st_mode fs = S_REG size → 0 ≤ size).

Lemma conf_checks_cons (f : M (sys AS IS PS RS) ohc_rc) l g rc g1 :
  f g = Ret (rc, g1) → conf_checks (f :: l) g = if decide (rc = OHC_OK) then conf_checks l g1 else Ret (OHC_ERROR, g1).
Proof. intros E. cbn [conf_checks]. erewrite bind_ret; [|exact E]. by case_decide. Qed.

Lemma same_rest_st st n n' : same_rest (set_n_st st n) n' → ∀ st', same_rest (set_n_st st' n) (set_n_st st' n').
Proof. intros [_ ? ? ?] st'. by split. Qed.
Lemma ring_ok_st st n : ring_ok n → ring_ok (set_n_st st n).
Proof. by intros []. Qed.

(** The log file a check opened. *)
Definition log_opened (o : option Z) (L0 : gset Z) y : Prop :=
  match o with Some f => (f ∉ y_logs y) ∧ L0 = y_logs y ∪ {[f]} | None => L0 = y_logs y end.

(** The new workers [new] stand behind the current one of [n]. *)
Definition ring_extends n n1 : Prop :=
  ∀ c rest, current_worker n = RRing c rest →
    ∃ new, ring_ok n1 ∧ current_worker n1 = RRing c (new ++ rest) ∧ new_workers n1 = Z.of_nat (length new).

(** What the checks may leave behind, all succeeded if [rc] is [OHC_OK]. *)
Record checks_left g y h n rc o L0 dm dcs F1 sm scs F2 L2 n1 : Prop := {
  kl_log : log_opened o L0 y;
  kl_new : ∀ f, o = Some f → cf_error_log (conf_cycle (y_conf y)) ≠ error_log g;
  kl_devs : dopened (with_filp o L0 y) dm dcs F1;
  kl_srvs : opened (cad (with_filp o L0 y) dm dcs F1) (getters h) (putters h) sm scs F2 L2;
  kl_net : ∀ st, same_rest (set_n_st st n) (set_n_st st n1);
  kl_fail : rc ≠ OHC_OK → ring_extends n n1;
  kl_dprep : rc = OHC_OK → dchecked stat (with_filp o L0 y) (dlisted y) dm dcs;
  kl_prep : rc = OHC_OK → checked (cad (with_filp o L0 y) dm dcs F1) (listed y) sm scs;
  kl_ring : rc = OHC_OK → ring_ok n1 ∧ 0 < cf_threads (conf_cycle (y_conf y)) ≤ workers n1;
  kl_same : rc = OHC_OK → o = None → cf_error_log (conf_cycle (y_conf y)) = error_log g;
  kl_apart : parser_apart y → parser_apart (both (with_filp o L0 y) dm dcs sm scs F2 L2)
}.

Lemma life_running y h : running y h → life_inv (Life y h).
Proof. by intros []. Qed.

Lemma worker_stage g y n calls :
  ring_ok n → new_workers n = 0 →
  0 ≤ cf_threads (conf_cycle (y_conf y)) →
  (Z.to_nat (cf_threads (conf_cycle (y_conf y)) - workers n) ≤ length calls)%nat → calls_fresh calls n →
  ∃ rc n1, conf_checks [g ← get; on_net (worker_conf_check calls (cycle g))] (gs g y n) = Ret (rc, gs g y n1) ∧
    (∀ st, same_rest (set_n_st st n) (set_n_st st n1)) ∧
    (rc = OHC_ERROR ∧ ring_extends n n1 ∨
     rc = OHC_OK ∧ ring_ok n1 ∧ 0 < cf_threads (conf_cycle (y_conf y)) ≤ workers n1).
Proof.
  intros Hring Hnew Ht Hcalls Hfr. set (cc := conf_cycle (y_conf y)) in *.
  assert (∀ rc n1, rc = OHC_OK ∨ rc = OHC_ERROR → worker_conf_check calls cc (set_n_st (y_st y) n) = Ret (rc, n1) → same_rest (set_n_st (y_st y) n) n1 →
    conf_checks [g ← get; on_net (worker_conf_check calls (cycle g))] (gs g y n) = Ret (rc, gs g y n1)) as Hw.
  { intros rc n1 Hor E Hs. rewrite (conf_checks_cons _ _ _ rc (gs g y n1)).
    - case_decide; [by subst|]. by destruct Hor as [-> | ->].
    - erewrite bind_ret; [|reflexivity]. by apply on_net_gs. }
  destruct (Z.eq_dec (cf_threads cc) 0) as [E0|E0].
  { exists OHC_ERROR, (set_n_st (y_st y) n). split_and!.
    - apply Hw; [by right| |done]. unfold worker_conf_check. by rewrite E0.
    - done.
    - left. split; [done|]. intros c rest Ec. exists []. split_and!; [by apply ring_ok_st|done..]. }
  destruct (worker_check_spec calls cc (set_n_st (y_st y) n)) as (rc & n1 & E & Hc); [by apply ring_ok_st|lia|done|done|].
  exists rc, n1. destruct Hc as [(-> & Ho & Hs & Hle)|(-> & Hs & Hc)].
  - split_and!; [apply Hw; [by left|done..]|exact (same_rest_st _ _ _ Hs)|]. right. split; [done|]. split; [done|]. lia.
  - split_and!; [apply Hw; [by right|done..]|exact (same_rest_st _ _ _ Hs)|]. left. by split.
Qed.

Lemma checks_spec g y h n calls :
  running y h → conf_ok y → dconf_ok y → ring_ok n → new_workers n = 0 →
  0 ≤ cf_threads (conf_cycle (y_conf y)) →
  (Z.to_nat (cf_threads (conf_cycle (y_conf y)) - workers n) ≤ length calls)%nat → calls_fresh calls n →
  ∃ rc o L0 dm dcs F1 sm scs F2 L2 n1,
    conf_checks [olivehc_global_conf_check fopen; on_csys (device_conf_check stat open);
      on_csys (server_conf_check tcp_bind fopen hash_mem);
      (g ← get; on_net (worker_conf_check calls (cycle g)))] (gs g y n)
      = Ret (rc, gs g (both (with_filp o L0 y) dm dcs sm scs F2 L2) n1) ∧
    checks_left g y h n rc o L0 dm dcs F1 sm scs F2 L2 n1.
Proof.
  intros Hrun Hc Hdc Hring Hnew Ht Hcalls Hfr.
  assert (ring_extends n n) as Hext.
  { intros c rest Ec. by exists []. }
  assert (∀ st, same_rest (set_n_st st n) (set_n_st st n)) as Hsame by done.
  destruct (global_check_spec g y n Hfopen) as (rc1 & o & L0 & E1 & Ho). erewrite conf_checks_cons; [|exact E1].
  assert (log_opened o L0 y ∧ (rc1 = OHC_OK → o = None → cf_error_log (conf_cycle (y_conf y)) = error_log g) ∧
    ∀ f, o = Some f → cf_error_log (conf_cycle (y_conf y)) ≠ error_log g) as (Hlog & Hsl & Hnw).
  { destruct Ho as [(-> & -> & Heq)|(-> & Hne & f & -> & Hf & ->)]; [split_and!; [done|by intros ? _; apply Heq|done]|by split_and!]. }
  assert (running (with_filp o L0 y) h) as Hrun1.
  { apply running_with_filp; [|done]. intros f Hf. destruct o as [f'|]; cbn in Hlog; [destruct Hlog as [_ ->]; set_solver|by subst]. }
  set (y1 := with_filp o L0 y) in *. assert (conf_ok y1) as Hc1 by by apply conf_with_filp.
  assert (dconf_ok y1) as Hdc1 by by apply dconf_with_filp.
  pose proof (dopened_start y1 Hdc1) as Hd0. pose proof (life_running _ _ Hrun1) as Hi1.
  assert (∀ dm dcs F, dopened y1 dm dcs F → opened (cad y1 dm dcs F) (getters h) (putters h) (srvs (y_st y1)) (cservers (y_conf y1)) F (y_logs y1)) as Hs0.
  { intros dm dcs F Hd. destruct (devices_checked y1 h dm dcs F) as (Hi & Hlv & Hck); try done; [apply Hrun1|].
    exact (opened_start (cad y1 dm dcs F) _ _ (li_cache _ Hi) (li_lists _ Hi) Hck (live_ports _ Hlv)). }
  case_decide as Erc1; [|exists OHC_ERROR, o, L0, (devs (dst (y_st y1))), (cdevices (y_conf y1)), (y_fds y1), (srvs (y_st y1)), (cservers (y_conf y1)), (y_fds y1), (y_logs y1), n].
  2: { rewrite <- both_start. split; [done|]. split; try done; [by apply Hs0|]. fold y1. rewrite <- both_start. apply apart_with_filp. }
  destruct (device_conf_check_spec stat open Hopen Hstat y1 (getters h) (putters h) (li_cache _ Hi1) Hdc1) as (rc2 & dm & dcs & F1 & E2 & Hd & Hdor).
  erewrite conf_checks_cons; [|apply on_csys_gs; exact E2]. set (y2 := cad y1 dm dcs F1) in *.
  assert (parser_apart y → parser_apart y2) as Ha2.
  { intros Hp. eapply tame_apart; [exact (tame_device_check stat open _ _ _ E2)|]. by apply apart_with_filp. }
  case_decide as Erc2; [|exists OHC_ERROR, o, L0, dm, dcs, F1, (srvs (y_st y1)), (cservers (y_conf y1)), F1, (y_logs y1), n].
  2: { split; [by rewrite <- both_cad|]. split; try done. by apply Hs0. }
  destruct Hdor as [[_ Hdck]|?]; [|congruence]. destruct (devices_checked y1 h dm dcs F1) as (Hi2 & Hlv2 & Hc2); try done; [apply Hrun1|].
  pose proof (live_ports _ Hlv2) as Hports.
  destruct (server_conf_check_spec tcp_bind fopen hash_mem Hbind Hfopen y2 _ _ (li_cache _ Hi2) (li_lists _ Hi2) Hc2 Hports)
    as (rc3 & sm & scs & F2 & L2 & E3 & Hop & Hor).
  erewrite conf_checks_cons; [|apply on_csys_gs; exact E3].
  assert (parser_apart y → parser_apart (cat y2 sm scs F2 L2)) as Ha3.
  { intros Hp. eapply tame_apart; [exact (tame_server_check tcp_bind fopen hash_mem _ _ _ E3)|]. by apply Ha2. }
  case_decide as Erc3; [|exists OHC_ERROR, o, L0, dm, dcs, F1, sm, scs, F2, L2, n; split; [done|by split]].
  destruct Hor as [[_ Hck]|?]; [|congruence].
  destruct (worker_stage g (cat y2 sm scs F2 L2) n calls) as (rc4 & n1 & E4 & Hs4 & H4); [done..|].
  exists rc4, o, L0, dm, dcs, F1, sm, scs, F2, L2, n1. split; [exact E4|]. split; try done.
  - intros Hne. by destruct H4 as [[_ ?]|[? _]].
  - intros ->. by destruct H4 as [[? _]|[_ ?]].
  - intros _. by apply Hsl.
Qed.
(** ** Loading everything *)

(** What the master keeps of [g] after the load of [cc]. *)
Record took_globals (cc : ohc_conf_t) (logs : gset Z) (old : Z) g g' : Prop := {
  tg_quit : quit_timeout g' = cf_quit_timeout cc;
  tg_log : error_log g' = cf_error_log cc;
  tg_filp : ∃ f, error_filp g' = Some f ∧ if decide (cf_error_log cc = error_log g) then f = old else f ∉ logs;
  tg_times : quit_time g' = quit_time g ∧ g_last g' = g_last g
}.

Lemma global_load_spec g Y n old :
  error_filp g = Some old →
  (cf_error_filp (conf_cycle (y_conf Y)) = None → cf_error_log (conf_cycle (y_conf Y)) = error_log g) →
  ∃ g1, let o := cf_error_filp (conf_cycle (y_conf Y)) in
    olivehc_global_conf_load (gs g Y n) = Ret (tt, gs g1
      (match o with Some _ => with_filp None (y_logs Y ∖ {[old]}) Y | None => Y end) n) ∧
    quit_timeout g1 = cf_quit_timeout (conf_cycle (y_conf Y)) ∧ error_log g1 = cf_error_log (conf_cycle (y_conf Y)) ∧
    error_filp g1 = match o with Some f => Some f | None => Some old end ∧ quit_time g1 = quit_time g ∧ g_last g1 = g_last g.
Proof.
  intros Hold Hsame. unfold olivehc_global_conf_load. erewrite bind_ret; [|reflexivity]. erewrite bind_ret; [|reflexivity].
  unfold cycle. cbn [g_conf set_quit_timeout gs]. destruct (cf_error_filp (conf_cycle (y_conf Y))) as [f|].
  - exists (set_error_log (cf_error_log (conf_cycle (y_conf Y))) (Some f) (set_quit_timeout (cf_quit_timeout (conf_cycle (y_conf Y))) g)).
    split; [|done]. erewrite bind_ret; [|cbn; rewrite Hold; reflexivity]. reflexivity.
  - exists (set_quit_timeout (cf_quit_timeout (conf_cycle (y_conf Y))) g). split; [done|]. split_and!; try done. symmetry. by apply Hsame.
Qed.

Lemma dopened_filp o o' L L' y dm dcs F : dopened (with_filp o L y) dm dcs F → dopened (with_filp o' L' y) dm dcs F.
Proof. intros []. by split. Qed.
Lemma dchecked_filp o o' L L' y l dm dcs : dchecked stat (with_filp o L y) l dm dcs → dchecked stat (with_filp o' L' y) l dm dcs.
Proof. intros []. by split. Qed.
Lemma checked_filp o o' L L' y dm dcs F l sm scs :
  checked (cad (with_filp o L y) dm dcs F) l sm scs → checked (cad (with_filp o' L' y) dm dcs F) l sm scs.
Proof. intros []. by split. Qed.

(** The four loads, once all checks have succeeded. *)
Lemma loads_spec g y h n old o L0 dm dcs F1 sm scs F2 L2 n1 :
  running y h → conf_ok y → dconf_ok y →
  (used_nr (server_indexs (y_st y)) + length (listed y) ≤ Z.to_nat IPT_ARRAY_SIZE)%nat →
  (used_nr (device_indexs (dst (y_st y))) + length (dlisted y) ≤ Z.to_nat IPT_ARRAY_SIZE)%nat →
  error_filp g = Some old → error_log_apart old y →
  checks_left g y h n OHC_OK o L0 dm dcs F1 sm scs F2 L2 n1 →
  ∃ g1 y2 n2, (olivehc_global_conf_load;; on_csys device_conf_load;; on_csys server_conf_load;;
      g ← get; on_net (worker_conf_load (cycle g));; mret OHC_OK) (gs g (both (with_filp o L0 y) dm dcs sm scs F2 L2) n1)
      = Ret (OHC_OK, gs g1 y2 n2) ∧
    took_globals (conf_cycle (y_conf y)) (y_logs y) old g g1 ∧
    life_inv (Life y2 h) ∧ live_ok y2 ∧ devices_reloaded stat y y2 ∧ servers_reloaded y y2 ∧
    ring_ok n2 ∧ workers n2 = cf_threads (conf_cycle (y_conf y)) ∧ new_workers n2 = 0 ∧ same_rest (set_n_st (y_st y2) n) n2 ∧
    (parser_apart y → parser_apart y2) ∧ current_worker n2 ≠ RNull ∧ ∃ f, error_filp g1 = Some f ∧ error_log_apart f y2.
Proof.
  intros Hrun Hc Hdc Hroom Hdroom Hold [Hin Hap] [Klog Knew Kd Ks Knet _ Kdp Kp Kr Ksame Kap].
  specialize (Kdp eq_refl). specialize (Kp eq_refl). specialize (Kr eq_refl) as [Hring Hthr]. specialize (Ksame eq_refl).
  set (Y := both (with_filp o L0 y) dm dcs sm scs F2 L2).
  destruct (global_load_spec g Y n1 old Hold Ksame) as (g1 & E1 & G1 & G2 & G3 & G4 & G5).
  change (cf_error_filp (conf_cycle (y_conf Y))) with o in E1, G3. erewrite bind_ret; [|exact E1].
  assert (∃ L3 B, match o with Some _ => with_filp None (y_logs Y ∖ {[old]}) Y | None => Y end = both (with_filp None L0 y) dm dcs sm scs F2 L3 ∧
    owned sc_access_filp (listed y) scs L3 B ∧ (∀ s sv f, live y s sv → klog sv = Some f → f ∈ y_logs y → f ∈ B) ∧ default old o ∈ L3) as (L3 & B & -> & Hlog & HB & HeL).
  { pose proof (op_logs _ _ _ _ _ _ _ Ks) as Hl.
    assert (∀ z, z ∈ L0 → z ∈ L2) as HL2 by (intros z Hz; apply (ow_set _ _ _ _ _ Hl); by left). destruct o as [f|]; cbn in Klog.
    - destruct Klog as [Hf ->]. exists (L2 ∖ {[old]}), ((y_logs y ∪ {[f]}) ∖ {[old]}). split; [done|]. split.
      + apply owned_drop; [exact Hl|]. set_solver.
      + split; [intros s sv z Hs Ez Hz; apply elem_of_difference; split; [set_solver|]; rewrite elem_of_singleton; intros ->; by destruct (Hap s sv Hs)|].
        apply elem_of_difference. split; [apply HL2; set_solver|]. rewrite elem_of_singleton. cbn; congruence.
    - subst L0. exists L2, (y_logs y). split; [done|]. split; [exact Hl|]. split; [done|]. by apply HL2. }
  assert (∀ z, z ∈ y_logs y → z ∈ L0) as HL0 by (destruct o; cbn in Klog; [destruct Klog as [_ ->]; set_solver|by subst]).
  destruct (load_both stat (with_filp None L0 y) h dm dcs F1 sm scs F2 L2 L3 B) as (ya & y2 & E2 & E3 & Hi & Hl & Hdr & Hsr & Hel).
  { by apply running_with_filp. } { by apply conf_with_filp. } { by apply dconf_with_filp. } { exact Hroom. } { exact Hdroom. }
  { by eapply dopened_filp. } { by eapply dchecked_filp. } { destruct Ks. by split. } { by eapply checked_filp. } { exact Hlog. }
  { intros s sv f Hs Ef. change (live y s sv) in Hs. apply (HB s sv f); [done|done|]. destruct (lv_srv _ (rn_live _ _ Hrun) s (proj1 Hs)) as (sv' & f' & Hs' & _ & _ & Ef' & Hf').
    assert (sv' = sv) as -> by (destruct Hs, Hs'; congruence). assert (f' = f) as -> by (unfold klog in Ef; congruence). done. }
  erewrite bind_ret; [|apply on_csys_gs; exact E2]. erewrite bind_ret; [|apply on_csys_gs; exact E3]. erewrite bind_ret; [|reflexivity].
  assert (cf_threads (conf_cycle (y_conf y2)) = cf_threads (conf_cycle (y_conf y))) as Et.
  { etrans; [exact (server_load_threads _ _ _ E3)|]. exact (device_load_threads _ _ _ E2). }
  destruct (worker_load_spec (conf_cycle (y_conf y2)) (set_n_st (y_st y2) n1)) as (n2 & E4 & Hr2 & Hs2 & Hw2 & Hn2); [by apply ring_ok_st|by rewrite Et|].
  erewrite bind_ret; [|apply on_net_gs; [exact E4|exact Hs2]]. exists g1, y2, n2. split; [done|].
  rewrite Et in Hw2. split_and!; try done; [|by destruct Hdr; split|by destruct Hsr; split|by eapply same_rest_trans| | |].
  2:{ intros Hp%Kap. eapply server_load_apart, E3. eapply device_load_apart, E2. destruct Hp as [[? ? ? ?] ? [? ?]]. by split. }
  2:{ intros Ec. pose proof (ro_count _ Hr2) as Hn. rewrite Ec in Hn. cbn in Hn. lia. }
  2:{ rewrite G3. exists (default old o). split; [by destruct o|]. apply Hel; [done|..].
      - intros s sv Hs Ez. change (live y s sv) in Hs. destruct (lv_srv _ (rn_live _ _ Hrun) s (proj1 Hs)) as (sv' & z & Hs' & _ & _ & Ez' & Hz).
        assert (sv' = sv) as -> by (destruct Hs, Hs'; congruence). assert (z = default old o) as -> by (unfold klog in Ez; congruence).
        destruct o as [f|]; [by destruct Klog|by apply (Hap s sv)].
      - intros s c Hs Es Ez. apply (ow_new _ _ _ _ _ (op_logs _ _ _ _ _ _ _ Ks) s c _ Hs Es Ez).
        cbn. destruct o as [f|]; cbn in Klog |- *; [destruct Klog as [_ ->]; set_solver|by subst]. }
  split; [done|done| |done]. rewrite G3. destruct o as [f|]; eexists; (split; [done|]).
  - rewrite decide_False by (apply (Knew f eq_refl)). apply Klog.
  - by rewrite decide_True by (apply (Ksame eq_refl)).
Qed.

(** ** A reload *)

(** A parsed configuration can be checked. *)
Lemma parsed_conf_ok y :
  conf_inv (y_conf y) → (∀ s, s ∈ cf_servers (conf_cycle (y_conf y)) ++ reserved_servers (y_conf y) → srvs (y_st y) !! s = None) → conf_ok y.
Proof.
  intros [[Hnd _ _ _] _ _ Hs _] Ha. split.
  - by apply NoDup_app in Hnd as [? _].
  - intros s Hin. destruct (Hs s Hin) as (c & E & Hc & Hfd). exists c. split; [done|].
    destruct (sco_hash _ Hc) as (E1 & E2 & E3). unfold fresh. destruct c. cbn in *. by subst.
  - intros s Hin. apply Ha, elem_of_app. by left.
Qed.
Lemma parsed_dconf_ok y :
  conf_inv (y_conf y) → (∀ d, d ∈ cf_devices (conf_cycle (y_conf y)) ++ reserved_devices (y_conf y) → devs (dst (y_st y)) !! d = None) → dconf_ok y.
Proof.
  intros [[_ _ Hnd _] _ _ _ Hs] Ha. split.
  - by apply NoDup_app in Hnd as [? _].
  - intros d Hin. destruct (Hs d Hin) as (c & E & (name & -> & _)). by eexists.
  - intros d Hin. apply Ha, elem_of_app. by left.
Qed.

(** What no reload touches: the requests, those of the master and of the workers. *)
Definition requests_kept g g' : Prop :=
  n_reqs (g_net g') = n_reqs (g_net g) ∧ master_requests (g_net g') = master_requests (g_net g) ∧
  connections_total (g_net g') = connections_total (g_net g).
(** Nothing changed: [y] is the system before, with the parsed configuration. *)
Record reload_undone y h g g' : Prop := {
  ru_running : running (csys_of g') h;
  ru_same : sys_undone y (csys_of g');
  ru_ring : ring_ok (g_net g') ∧ current_worker (g_net g') = current_worker (g_net g);
  ru_globals : error_log g' = error_log g ∧ error_filp g' = error_filp g ∧ quit_timeout g' = quit_timeout g ∧
    quit_time g' = quit_time g ∧ g_last g' = g_last g;
  ru_requests : requests_kept g g';
  ru_apart : parser_apart (csys_of g')
}.
(** Everything is as configured. *)
Record reload_done y h old g g' : Prop := {
  rd_inv : life_inv (Life (csys_of g') h);
  rd_live : live_ok (csys_of g');
  rd_devices : devices_reloaded stat y (csys_of g');
  rd_servers : servers_reloaded y (csys_of g');
  rd_ring : ring_ok (g_net g') ∧ workers (g_net g') = cf_threads (conf_cycle (y_conf y)) ∧ new_workers (g_net g') = 0 ∧
    current_worker (g_net g') ≠ RNull;
  rd_globals : took_globals (conf_cycle (y_conf y)) (y_logs y) old g g';
  rd_requests : requests_kept g g';
  rd_apart : parser_apart (csys_of g');
  rd_log : ∃ f, error_filp g' = Some f ∧ error_log_apart f (csys_of g')
}.

Lemma requests_kept_gs g g1 y n n' : same_rest (set_n_st (y_st y) n) n' → n = g_net g → requests_kept g (gs g1 y n').
Proof. by intros [_ ? ? ?] ->. Qed.

Lemma reload_failed g y h o L0 dm dcs F1 sm scs F2 L2 n1 rc :
  running y h → parser_apart y → ring_ok (g_net g) → current_worker (g_net g) ≠ RNull → rc ≠ OHC_OK →
  checks_left g y h (g_net g) rc o L0 dm dcs F1 sm scs F2 L2 n1 →
  ∃ g', (olivehc_global_conf_rollback;; on_csys device_conf_rollback;; on_csys server_conf_rollback;;
      on_net worker_conf_rollback;; mret OHC_ERROR) (gs g (both (with_filp o L0 y) dm dcs sm scs F2 L2) n1)
      = Ret (OHC_ERROR, g') ∧ reload_undone y h g g'.
Proof.
  intros Hrun Hpa Hring Hnn Hrc Hk. pose proof (kl_fail _ _ _ _ _ _ _ _ _ _ _ _ _ _ _ Hk Hrc) as Hext.
  destruct (current_worker (g_net g)) as [|c rest|] eqn:Ec; [done| |by destruct (ro_ring _ Hring)].
  destruct (Hext c rest Ec) as (new & Hr1 & Ec1 & Hn1).
  destruct (rollbacks_spec g y h n1 (λ n', ring_ok n' ∧ current_worker n' = RRing c rest) o L0 dm dcs F1 sm scs F2 L2)
    as (y' & n' & E & Hrun' & Hun & Hs & [Hr' Ec'] & Hpa'); [done|apply Hk|apply Hk|apply Hk| |].
  { intros st. destruct (worker_rollback_spec c new rest (set_n_st st n1)) as (n' & E & ? & ? & ?); [by apply ring_ok_st|done..|].
    by exists n'. }
  exists (gs g y' n'). split; [exact E|]. split; rewrite ?csys_gs; try done.
  - split; [by apply (ring_ok_st (y_st y'))|]. by rewrite Ec.
  - eapply requests_kept_gs; [|done]. eapply same_rest_trans; [apply (kl_net _ _ _ _ _ _ _ _ _ _ _ _ _ _ _ Hk)|]. by destruct Hs.
  - apply Hpa'. by apply (kl_apart _ _ _ _ _ _ _ _ _ _ _ _ _ _ _ Hk).
Qed.

(** The checks and what follows them, on a parsed configuration. *)
Definition all_checks (calls : list (option create_call * Z * Z * Z)) : M (sys AS IS PS RS) ohc_rc :=
  conf_checks [olivehc_global_conf_check fopen; on_csys (device_conf_check stat open);
    on_csys (server_conf_check tcp_bind fopen hash_mem); (g ← get; on_net (worker_conf_check calls (cycle g)))].
Definition all_loads : M (sys AS IS PS RS) ohc_rc :=
  olivehc_global_conf_load;; on_csys device_conf_load;; on_csys server_conf_load;;
  g ← get; on_net (worker_conf_load (cycle g));; mret OHC_OK.
Definition all_rollbacks : M (sys AS IS PS RS) ohc_rc :=
  olivehc_global_conf_rollback;; on_csys device_conf_rollback;; on_csys server_conf_rollback;;
  on_net worker_conf_rollback;; mret OHC_ERROR.

Lemma reload_stages calls g h old :
  let y := csys_of g in
  running y h → parser_apart y → conf_ok y → dconf_ok y →
  (used_nr (server_indexs (y_st y)) + length (listed y) ≤ Z.to_nat IPT_ARRAY_SIZE)%nat →
  (used_nr (device_indexs (dst (y_st y))) + length (dlisted y) ≤ Z.to_nat IPT_ARRAY_SIZE)%nat →
  ring_ok (g_net g) → new_workers (g_net g) = 0 →
  0 ≤ cf_threads (cycle g) → (Z.to_nat (cf_threads (cycle g) - workers (g_net g)) ≤ length calls)%nat →
  calls_fresh calls (g_net g) → error_filp g = Some old → error_log_apart old y →
  ∃ rc g1, all_checks calls g = Ret (rc, g1) ∧
    (rc = OHC_OK → ∃ g', all_loads g1 = Ret (OHC_OK, g') ∧ reload_done y h old g g') ∧
    (rc ≠ OHC_OK → current_worker (g_net g) ≠ RNull → ∃ g', all_rollbacks g1 = Ret (OHC_ERROR, g') ∧ reload_undone y h g g').
Proof.
  intros y Hrun Hpa Hc Hdc Hroom Hdroom Hring Hnew Ht Hcalls Hfr Hold Hap.
  destruct (checks_spec g y h (g_net g) calls) as (rc & o & L0 & dm & dcs & F1 & sm & scs & F2 & L2 & n1 & E & Hk); [done..|].
  rewrite <- gs_start in E. eexists rc, _. split; [exact E|]. split.
  - intros ->. destruct (loads_spec g y h (g_net g) old o L0 dm dcs F1 sm scs F2 L2 n1)
      as (g1 & y2 & n2 & E2 & Hg & Hi & Hl & Hd & Hs & Hr & Hw & Hn & Hsr & Hpa' & Hnn' & Hlog); [done..|].
    exists (gs g1 y2 n2). split; [exact E2|]. split; rewrite ?csys_gs; try done.
    + split; [by apply (ring_ok_st (y_st y2))|done].
    + by destruct Hg.
    + by eapply requests_kept_gs.
    + by apply Hpa'.
  - intros Hrc Hnn. by destruct (reload_failed g y h o L0 dm dcs F1 sm scs F2 L2 n1 rc) as (g' & E2 & Hun); [done..|exists g'].
Qed.

(** A program that runs, between two events: its cache and servers, its workers,
    its error log, and what the parser has to work with. *)
Record loadable g h (old : Z) : Prop := {
  rb_running : running (csys_of g) h;
  rb_mem : conf_mem (g_conf g);
  rb_first : conf_first (g_conf g) = true → cf_servers (cycle g) = [] ∧ cf_devices (cycle g) = [];
  rb_apart : listed_in (λ s, srvs (n_st (g_net g)) !! s = None) (λ d, devs (dst (n_st (g_net g))) !! d = None) (g_conf g);
  rb_ring : ring_ok (g_net g) ∧ new_workers (g_net g) = 0;
  rb_log : error_filp g = Some old ∧ error_log_apart old (csys_of g)
}.
(** With a thread, at least one. *)
Definition reloadable g h (old : Z) : Prop := loadable g h old ∧ current_worker (g_net g) ≠ RNull.

(** The index tables have room for what [C] lists, and the calls that create
    workers answer with new addresses. *)
Record room_for calls g C : Prop := {
  rf_servers : (used_nr (server_indexs (n_st (g_net g))) + length (cf_servers (conf_cycle C)) ≤ Z.to_nat IPT_ARRAY_SIZE)%nat;
  rf_devices : (used_nr (device_indexs (dst (n_st (g_net g)))) + length (cf_devices (conf_cycle C)) ≤ Z.to_nat IPT_ARRAY_SIZE)%nat;
  rf_calls : (Z.to_nat (cf_threads (conf_cycle C) - workers (g_net g)) ≤ length calls)%nat;
  rf_fresh : calls_fresh calls (g_net g)
}.

Section reload.
Context (calls : list (option create_call * Z * Z * Z)) (g : sys AS IS PS RS) (h : list (bool * Z)) (old : Z).
Context (Hms : ∀ c a, malloc_server c = Some a → cservers c !! a = None ∧ srvs (n_st (g_net g)) !! a = None).
Context (Hmd : ∀ c a, malloc_device c = Some a → cdevices c !! a = None ∧ devs (dst (n_st (g_net g))) !! a = None).
Context (Hload : loadable g h old).

(** The parser has run. *)
Lemma load_parsed : 
  match conf_parse fs malloc_server malloc_device conf_filename (g_conf g) with
  | Fail f => f = OutOfBounds
  | Ret (o, C) => loadable (set_g_conf C g) h old ∧ conf_first C = false ∧
      (o ≠ None → room_for calls g C → ∃ rc g1, all_checks calls (set_g_conf C g) = Ret (rc, g1) ∧
        (rc = OHC_OK → ∃ g', all_loads g1 = Ret (OHC_OK, g') ∧ reload_done (csys_of (set_g_conf C g)) h old g g') ∧
        (rc ≠ OHC_OK → current_worker (g_net g) ≠ RNull →
          ∃ g', all_rollbacks g1 = Ret (OHC_ERROR, g') ∧ reload_undone (csys_of (set_g_conf C g)) h g g'))
  end.
Proof.
  destruct Hload as [Hrun Hmem Hfirst Hin (Hring & Hnew) [Hold Hap]].
  pose proof (conf_parse_in fs malloc_server malloc_device ltac:(intros; by eapply Hms) ltac:(intros; by eapply Hmd) _ _
    conf_filename (g_conf g) ltac:(intros c a E; by apply (Hms c)) ltac:(intros c a E; by apply (Hmd c)) Hmem Hfirst Hin) as Hp.
  destruct (conf_parse _ _ _ conf_filename (g_conf g)) as [[o C]|f]; [|done].
  destruct Hp as [(Hci & Hc & Hcf) _].
  assert (running (csys_of (set_g_conf C g)) h) as Hrun' by exact (running_reconf C _ _ Hrun).
  split; [split; try done; [apply Hci|by cbn; rewrite Hcf]|]. split; [done|]. intros Ho [Hsr Hdr Hcalls Hfr].
  pose proof (parsed_conf_ok (csys_of (set_g_conf C g)) Hci (proj1 Hc)) as Hco.
  pose proof (parsed_dconf_ok (csys_of (set_g_conf C g)) Hci (proj2 Hc)) as Hdo.
  assert (0 ≤ cf_threads (conf_cycle C)) as Ht.
  { pose proof (cfo_ints _ (cfi_conf _ Hci)) as Hints. apply Forall_cons in Hints as [Hint _]. apply Hint. }
  assert (parser_apart (csys_of (set_g_conf C g))) as Hpa by (by split; [apply Hci| |]).
  destruct (reload_stages calls (set_g_conf C g) h old) as (rc & g1 & E & Hok & Hfail); try done.
  exists rc, g1. split; [exact E|]. split.
  - intros Hrc. destruct (Hok Hrc) as (g' & E' & Hu). exists g'. split; [done|]. destruct Hu as [? ? ? ? ? [] ? ? ?]. by split.
  - intros Hrc Hnn. destruct (Hfail Hrc Hnn) as (g' & E' & Hu). exists g'. split; [done|]. destruct Hu. by split.
Qed.

(** [olivehc_load_conf] in these terms. *)
Lemma load_conf_eq :
  olivehc_load_conf fs malloc_server malloc_device tcp_bind fopen hash_mem stat open conf_filename calls g =
  match conf_parse fs malloc_server malloc_device conf_filename (g_conf g) with
  | Fail f => Fail f
  | Ret (None, C) => Ret (OHC_ERROR, set_g_conf C g)
  | Ret (Some _, C) => (rc ← all_checks calls; if decide (rc = OHC_OK) then all_loads else all_rollbacks) (set_g_conf C g)
  end.
Proof.
  unfold olivehc_load_conf. rewrite (bind_ret get _ g g g) by done.
  destruct (conf_parse _ _ _ conf_filename (g_conf g)) as [[o C]|f] eqn:Ep; [|erewrite bind_fail; done].
  rewrite (bind_ret _ _ _ (o, C) g) by done. rewrite (bind_ret _ _ _ tt (set_g_conf C g)) by done. by destruct o.
Qed.

(** What succeeds, also when nothing runs yet. *)
Lemma load_succeeds rc g' :
  olivehc_load_conf fs malloc_server malloc_device tcp_bind fopen hash_mem stat open conf_filename calls g = Ret (rc, g') → rc ≠ OHC_ERROR →
  (∀ o C, conf_parse fs malloc_server malloc_device conf_filename (g_conf g) = Ret (Some o, C) → room_for calls g C) →
  ∃ C, reload_done (csys_of (set_g_conf C g)) h old g g'.
Proof.
  rewrite load_conf_eq. pose proof load_parsed as Hp. intros E Hne Hroom.
  destruct (conf_parse _ _ _ conf_filename (g_conf g)) as [[[o|] C]|f]; [|by injection E as <-|done].
  destruct Hp as (_ & _ & Hp). destruct (Hp ltac:(done) (Hroom o C eq_refl)) as (rc1 & g1 & E1 & Hok & _). exists C.
  erewrite bind_ret in E; [|exact E1]. case_decide as Hrc.
  - destruct (Hok Hrc) as (g2 & E2 & Hd). rewrite E2 in E. by injection E as _ <-.
  - unfold all_rollbacks in E. do 4 apply bind_inv in E as (? & ? & _ & E). by injection E as <-.
Qed.
End reload.

End master.

(** *** A running program and a new file

    Two servers, on 8535 and 8536, one device and two workers.  The new
    configuration keeps a server and the device, and has a server and a device
    more, a third thread and another error log. *)

#[local] Existing Instance CacheProofs.demo_alloc.
Definition demo_running : demo_csys :=
  let y := demo_reload demo_first demo_sys in set_y_conf cstate_init (set_y_logs (y_logs y ∪ {[99]}) y).
Definition demo_sys_of (y : demo_csys) : sys ohc_slab_t ohc_slab_t ohc_slab_t ohc_slab_t :=
  Sys (two_workers (y_st y) (OHC_SLAB_INIT 65000)) (y_conf y) (y_fds y) (y_logs y) (y_epoll y) (bytes "error.log") (Some 99) 60 0 100.
Definition demo_g : sys ohc_slab_t ohc_slab_t ohc_slab_t ohc_slab_t := demo_sys_of demo_running.
Definition demo_lines : list string :=
  ["threads 3"; "error_log e.log"; "device a"; "device bb"; "listen 8536"; "access_log ab"; "listen 8540"; "access_log xyzw"]%string.
Definition demo_file (name : list Z) : option (list Z) := Some (concat ((λ l, bytes l ++ [10]) <$> demo_lines)).
Definition demo_new_server (c : cstate) : option Z := Some (base.fresh (dom (cservers c) ∪ dom (srvs (y_st demo_running)))).
Definition demo_new_device (c : cstate) : option Z := Some (base.fresh (dom (cdevices c) ∪ dom (devs (dst (y_st demo_running))))).
Definition demo_parsed : cstate :=
  match conf_parse demo_file demo_new_server demo_new_device (bytes "olivehc.conf") cstate_init with Ret (_, C) => C | Fail _ => cstate_init end.
Definition demo_calls : list (option create_call * Z * Z * Z) := [(None, 3, 9, 100)].

Lemma running_relog (y : demo_csys) v h f :
  running y h → running (set_y_conf v (set_y_logs (y_logs y ∪ {[f]}) y)) h.
Proof.
  intros Hr. apply (running_reconf v (with_filp None (y_logs y ∪ {[f]}) y)), running_with_filp; [|done].
  intros z Hz. apply elem_of_union. by left.
Qed.
Lemma demo_running_ok : running demo_running [].
Proof.
  apply running_relog. destruct demo_first_ok as [Hi Hl]. split; [exact Hi|exact Hl|].
  assert (bool_decide (map_Forall (λ _ dv, d_kicked dv = false) (devs (dst (y_st (demo_reload demo_first demo_sys))))) = true) as Hk
    by (vm_compute; reflexivity).
  rewrite bool_decide_eq_true in Hk. intros d i dv _ (_ & Ed & _). exact (Hk d dv Ed).
Qed.

Lemma demo_sys_reloadable (y : demo_csys) :
  running y [] → y_conf y = cstate_init → error_log_apart 99 y → reloadable (demo_sys_of y) [] 99.
Proof.
  destruct y as [st C F L E]. cbn [y_conf]. intros Hr -> Hl. split; [|done]. split; [exact Hr|apply cstate_init_inv|by intros _| | |by split].
  - split; intros ? Hin; by apply not_elem_of_nil in Hin.
  - split; [|done]. exact (ring_ok_st st demo_net demo_ring_ok).
Qed.
Lemma demo_reloadable : reloadable demo_g [] 99.
Proof.
  apply demo_sys_reloadable; [exact demo_running_ok|reflexivity|]. split; [apply elem_of_union; right; by apply elem_of_singleton|].
  assert (bool_decide (map_Forall (λ _ sv, klog sv ≠ Some 99) (srvs (y_st demo_running))) = true) as Hk by (vm_compute; reflexivity).
  rewrite bool_decide_eq_true in Hk. intros s sv [_ Es]. exact (Hk s sv Es).
Qed.

Lemma fresh_apart {A B} (m1 : gmap Z A) (m2 : gmap Z B) a :
  Some (base.fresh (dom m1 ∪ dom m2)) = Some a → m1 !! a = None ∧ m2 !! a = None.
Proof. intros [= <-]. rewrite <- !not_elem_of_dom. apply not_elem_of_union, is_fresh. Qed.

