(* ===== verification/Reloads.v ===== *)
(** * Reloads, one after the other

    A program that can be reloaded can be reloaded again: what [reloadable] asks
    for is an invariant of [olivehc_load_conf], whether it succeeds, cannot parse
    the file or has to undo a check; and what the start leaves has it.  The two
    exceptions are the two errors of the code: a device that is kicked while it is
    added, and workers that a failed check has created and the rollback removed
    without forgetting them. *)

From Stdlib Require Import String.
From stdpp Require Import prelude fin_maps gmap.
From S2P Require Import Prelude IdxPointer StrUtil Slab Hash Timer Device DeviceInv DeviceConf.
From S2P Require Import Http Server ServerInv ServerOps ServerPut Format Conf ConfProofs ServerConf DeviceLoad Cache DeviceLife Life CacheProofs.
From S2P Require Import Owned ServerReload ServerLoad DeviceReload Reload Apart Net Worker Request Master WorkerProofs MasterProofs.

Section reloads.
Context {AS IS PS RS : Type} `{Allocator AS} `{Allocator IS} `{Allocator PS} `{Allocator RS}.
Implicit Types (g : sys AS IS PS RS) (y : csys AS IS PS) (h : list (bool * Z)).

(** What the system answers during one reload. *)
Record reload_input := ReloadInput {
  ri_fs : list Z → option (list Z);
  ri_malloc_server : cstate → option Z;
  ri_malloc_device : cstate → option Z;
  ri_tcp_bind : csys AS IS PS → Z → Z;
  ri_fopen : csys AS IS PS → list Z → option Z;
  ri_hash_mem : csys AS IS PS → bool * bool;
  ri_stat : list Z → option filestat;
  ri_open : csys AS IS PS → list Z → Z;
  ri_calls : list (option create_call * Z * Z * Z)
}.
Context (conf_filename : list Z).
Implicit Types e : reload_input.
Definition run_reload e : M (sys AS IS PS RS) ohc_rc :=
  olivehc_load_conf (ri_fs e) (ri_malloc_server e) (ri_malloc_device e) (ri_tcp_bind e) (ri_fopen e) (ri_hash_mem e)
    (ri_stat e) (ri_open e) conf_filename (ri_calls e).
Definition parse e g := conf_parse (ri_fs e) (ri_malloc_server e) (ri_malloc_device e) conf_filename (g_conf g).

(** New addresses, descriptors and files are new; the paths of included files
    fit, and so does what is configured into the tables. *)
Record input_ok e g : Prop := {
  io_server : ∀ c a, ri_malloc_server e c = Some a → cservers c !! a = None ∧ srvs (n_st (g_net g)) !! a = None;
  io_device : ∀ c a, ri_malloc_device e c = Some a → cdevices c !! a = None ∧ devs (dst (n_st (g_net g))) !! a = None;
  io_bind : ∀ y port, 0 ≤ ri_tcp_bind e y port → ri_tcp_bind e y port ∉ y_fds y;
  io_fopen : ∀ y name f, ri_fopen e y name = Some f → f ∉ y_logs y;
  io_open : ∀ y name, 0 ≤ ri_open e y name → ri_open e y name ∉ y_fds y;
  io_stat : ∀ name fs size, ri_stat e name = Some fs → st_mode fs = S_REG size → 0 ≤ size;
  io_path : ∀ f, parse e g ≠ Fail f;
  io_room : ∀ o C, parse e g = Ret (Some o, C) → room_for (ri_calls e) g C
}.

(** The two errors did not happen. *)
Definition none_kicked y : Prop :=
  ∀ d i dv, d ∈ devices (dst (y_st y)) → registered (dst (y_st y)) i d dv → d_kicked dv = false.
Definition sound g : Prop := none_kicked (csys_of g) ∧ new_workers (g_net g) = 0.

(** *** One reload *)

Lemma done_reloadable stat y h old g g' :
  reload_done stat y h old g g' → none_kicked (csys_of g') → ∃ old', reloadable g' h old'.
Proof.
  intros [Hi Hl _ _ (Hr & _ & Hn & Hnn) _ _ [Pm Pf Pl] (f & Ef & Ha)] Hk. exists f. split; [|done]. split; try done.
  intros Hf. cbn in Pf. congruence.
Qed.
Lemma undone_reloadable y h old g g' :
  reload_undone y h g g' → error_filp g = Some old → error_log_apart old y → current_worker (g_net g) ≠ RNull → new_workers (g_net g') = 0 →
  reloadable g' h old.
Proof.
  intros [Hrun [_ Hsrv [Hs _] Hlog _] [Hr Hc] (_ & Ef & _) _ [Pm Pf Pl]] Hold [Hin Hap] Hnn Hn.
  split; [|by rewrite Hc]. split; try done; [intros Hf; cbn in Pf; congruence|]. split; [congruence|].
  split; [by rewrite Hlog|]. intros s sv [Hs' Es] Ez. specialize (Hsrv s). rewrite Es in Hsrv. cbn in Hsrv.
  destruct (srvs (y_st y) !! s) as [sv0|] eqn:Es0; [|done]. cbn in Hsrv. apply (inj Some) in Hsrv. rewrite Hs in Hs'.
  apply (Hap s sv0); [by split|]. rewrite <- Ez. symmetry. exact (f_equal klog Hsrv).
Qed.

Lemma reload_safe e g h old :
  reloadable g h old → input_ok e g →
  ∃ rc g', run_reload e g = Ret (rc, g') ∧ requests_kept g g' ∧ (sound g' → ∃ old', reloadable g' h old').
Proof.
  intros [Hload Hnn] [Hms Hmd Hb Hf Ho Hst Hpath Hroom]. unfold run_reload, parse in *.
  rewrite load_conf_eq.
  pose proof (load_parsed (ri_fs e) (ri_malloc_server e) (ri_malloc_device e) (ri_tcp_bind e) (ri_fopen e) (ri_hash_mem e) (ri_stat e)
    (ri_open e) conf_filename Hb Hf Ho Hst (ri_calls e) g h old Hms Hmd Hload) as Hp.
  destruct (conf_parse _ _ _ conf_filename (g_conf g)) as [[[o|] C]|f]; [| |by destruct (Hpath f)].
  - destruct Hp as (_ & _ & Hp). destruct (Hp ltac:(done) (Hroom o C eq_refl)) as (rc & g1 & E1 & Hok & Hfail).
    erewrite bind_ret; [|exact E1]. case_decide as Hrc.
    + destruct (Hok Hrc) as (g' & E & Hd). exists OHC_OK, g'. split; [exact E|]. split; [apply Hd|].
      intros [Hk _]. by eapply done_reloadable.
    + destruct (Hfail Hrc Hnn) as (g' & E & Hu). exists OHC_ERROR, g'. split; [exact E|]. split; [apply Hu|].
      intros [_ Hn]. exists old. eapply undone_reloadable; [exact Hu|apply Hload..|done|done].
  - exists OHC_ERROR, (set_g_conf C g). split; [done|]. split; [done|]. intros _. exists old. by split; [apply Hp|].
Qed.

(** *** Any number of reloads *)

Fixpoint reloads (l : list reload_input) : M (sys AS IS PS RS) (list ohc_rc) :=
  match l with
  | [] => mret []
  | e :: l => rc ← run_reload e; rcs ← reloads l; mret (rc :: rcs)
  end.
(** Every input fits the state it meets, and none of the two errors happens. *)
Fixpoint smooth (l : list reload_input) g : Prop :=
  match l with
  | [] => True
  | e :: l => input_ok e g ∧ ∀ rc g', run_reload e g = Ret (rc, g') → sound g' ∧ smooth l g'
  end.

Lemma reloads_safe l g h old :
  reloadable g h old → smooth l g →
  ∃ rcs g' old', reloads l g = Ret (rcs, g') ∧ length rcs = length l ∧ reloadable g' h old' ∧ requests_kept g g'.
Proof.
  revert g old. induction l as [|e l IH]; intros g old Hg Hs; cbn [reloads].
  { by exists [], g, old. }
  destruct Hs as [He Hs]. destruct (reload_safe e g h old Hg He) as (rc & g1 & E & (K1 & K2 & K3) & Hg1).
  destruct (Hs rc g1 E) as [Hso Hs1]. destruct (Hg1 Hso) as [old1 Hr1].
  destruct (IH g1 old1 Hr1 Hs1) as (rcs & g' & old' & E' & Hlen & Hr' & K4 & K5 & K6).
  exists (rc :: rcs), g', old'. split; [erewrite bind_ret; [|exact E]; by erewrite bind_ret|]. split; [cbn; by f_equal|].
  split; [done|]. split_and!; congruence.
Qed.
End reloads.
