(* ===== verification/Main.v ===== *)
(** * main: options, start and end of the program

    [getopt] over the arguments, the steps of the start in their order, the
    loop, and the end.  What the system calls of the start answer is a record;
    [prog] adds to the running program what only [main] touches: the output
    before it becomes a daemon, the working directory and the pid file. *)

From Stdlib Require Import String.
From stdpp Require Import prelude fin_maps gmap.
From S2P Require Import Prelude IdxPointer StrUtil Slab Hash Timer Device Http HttpProofs Server Format Conf ConfProofs ServerConf DeviceLoad.
From S2P Require Import Cache DeviceConf CacheProofs ServerReload ServerLoad DeviceReload Reload Net Status Worker Request Master WorkerProofs MasterProofs Reloads.

(** ** Options *)

(** What a call of [getopt] answers: a letter with its argument, or a question
    mark. *)
Inductive getopt_answer := Opt (letter : Z) (optarg : list Z) | OptBad.

(** The letters of "hvbc:p:a:i:": whether one takes an argument. *)
Definition option_kind (c : Z) : option bool :=
  if bool_decide (c ∈ bytes "hvb") then Some false else if bool_decide (c ∈ bytes "cpai") then Some true else None.

(** One argument, without its dash, before the arguments [next]: the answers and
    the arguments left. *)
Fixpoint getopt_word (l : list Z) (next : list (list Z)) : list getopt_answer * list (list Z) :=
  match l with
  | [] => ([], next)
  | c :: l =>
      match option_kind c with
      | None => let r := getopt_word l next in (OptBad :: r.1, r.2)
      | Some false => let r := getopt_word l next in (Opt c [] :: r.1, r.2)
      | Some true =>
          match l, next with
          | _ :: _, _ => ([Opt c l], next)
          | [], a :: next => ([Opt c a], next)
          | [], [] => ([OptBad], [])
          end
      end
  end.
(** A dash with something behind it. *)
Definition dashed (a : list Z) : option (list Z) :=
  match a with c :: l => if (c =? 45) && negb (bool_decide (l = [])) then Some l else None | [] => None end.
(** Arguments that are no options are passed over, up to a double dash. *)
Fixpoint getopt_loop (fuel : nat) (args : list (list Z)) : list getopt_answer :=
  match fuel, args with
  | S fuel, a :: args =>
      match dashed a with
      | None => getopt_loop fuel args
      | Some l => if decide (l = [45]) then [] else let r := getopt_word l args in r.1 ++ getopt_loop fuel r.2
      end
  | _, _ => []
  end.
Definition getopt (args : list (list Z)) : list getopt_answer := getopt_loop (length args) args.

Record options := Options {
  o_conf_filename : list Z;
  o_pid_filename : list Z;
  o_admin_port : Z;
  o_prefix : option (list Z);
  o_daemon_mode : bool
}.
Definition default_options : options := Options (bytes "olivehc.conf") (bytes "olivehc.pid") 5210 None true.

Definition help : list Z :=
  bytes "Usage: olivehc [-hvb][-c conf_file][-p prefix][-a admin][-i pid]" ++ NL
  ++ [9] ++ bytes "h: print help" ++ NL ++ [9] ++ bytes "v: print version" ++ NL
  ++ [9] ++ bytes "b: block, non-daemon mode, for debug" ++ NL ++ [9] ++ bytes "c: set configure file [olivehc.conf]" ++ NL
  ++ [9] ++ bytes "p: set prefix [.]" ++ NL ++ [9] ++ bytes "a: set admin port [5210]" ++ NL
  ++ [9] ++ bytes "i: set pid file [olivehc.pid]" ++ NL.
Definition OHC_VERSION : list Z := bytes "OliveHC 1.2.2".

(** The loop over the options: the exit status and what is printed, or the
    options. *)
Fixpoint process_options (l : list getopt_answer) (o : options) : (Z * list Z) + options :=
  match l with
  | [] => inr o
  | OptBad :: _ => inl (1, help)
  | Opt c arg :: l =>
      if c =? 104 then inl (0, help)
      else if c =? 118 then inl (0, OHC_VERSION ++ NL)
      else if c =? 98 then process_options l (Options (o_conf_filename o) (o_pid_filename o) (o_admin_port o) (o_prefix o) false)
      else if c =? 99 then process_options l (Options arg (o_pid_filename o) (o_admin_port o) (o_prefix o) (o_daemon_mode o))
      else if c =? 112 then process_options l (Options (o_conf_filename o) (o_pid_filename o) (o_admin_port o) (Some arg) (o_daemon_mode o))
      else if c =? 97 then process_options l (Options (o_conf_filename o) (o_pid_filename o) (atoi arg) (o_prefix o) (o_daemon_mode o))
      else if c =? 105 then process_options l (Options (o_conf_filename o) arg (o_admin_port o) (o_prefix o) (o_daemon_mode o))
      else inl (1, help)
  end.

(** ** The program *)

(** What the calls of the start answer. *)
Record start_calls := StartCalls {
  sc_chdir : list Z → Z;
  sc_daemon : Z;
  sc_time : Z;
  sc_epoll_create : Z;
  sc_tcp_bind : Z → Z;
  sc_epoll_add : Z;
  sc_fopen_pid : list Z → bool;
  sc_getpid : Z
}.

Section main.
Context {AS IS PS RS : Type} `{Allocator AS} `{Allocator IS} `{Allocator PS} `{Allocator RS}.
Context (fs : list Z → option (list Z)) (malloc_server malloc_device : cstate → option Z).
Context (tcp_bind : csys AS IS PS → Z → Z) (fopen : csys AS IS PS → list Z → option Z).
Context (hash_mem : csys AS IS PS → bool * bool).
Context (stat : list Z → option filestat) (open : csys AS IS PS → list Z → Z).
Context (MD5 : list Z → md5_id) (kmalloc : dstore AS → option Z) (calloc_ok : sstore AS IS PS → bool).
Context (tmalloc : ohc_timer_t → option Z) (mktime : tm → Z → option (Z * Z)) (isdst : Z) (junk : Z → req).

Record prog := Prog {
  p_sys : sys AS IS PS RS;
  p_out : list Z;
  p_cwd : option (list Z);
  p_daemon : bool;
  p_pid : option (list Z * list Z)
}.
Abbreviation P := (M prog).
Definition on_sys {A} (c : M (sys AS IS PS RS) A) : P A := λ p,
  match c (p_sys p) with Ret (a, g) => Ret (a, Prog g (p_out p) (p_cwd p) (p_daemon p) (p_pid p)) | Fail f => Fail f end.
Definition print (text : list Z) : P unit := modify (λ p, Prog (p_sys p) (p_out p ++ text) (p_cwd p) (p_daemon p) (p_pid p)).
Definition set_pid_file (f : option (list Z * list Z)) : P unit := modify (λ p, Prog (p_sys p) (p_out p) (p_cwd p) (p_daemon p) f).

(** [stderr], which the error log is before the first configuration. *)
Definition STDERR : Z := 2.
Definition start_timer (time : Z) (g : sys AS IS PS RS) : sys AS IS PS RS :=
  set_g_net (set_n_st (set_master_now time (n_st (g_net g))) (set_master_timer (timer_init time ∅) (g_net g))) g.

(** The start up to the configuration: whether it succeeds. *)
Definition main_prepare (sc : start_calls) (calls : list (option create_call * Z * Z * Z)) (o : options) : P bool :=
  let prefixed := match o_prefix o with None => 0 | Some dir => sc_chdir sc dir end in
  if prefixed <? 0 then mret false else
  modify (λ p, Prog (p_sys p) (p_out p) (o_prefix o) (p_daemon p) (p_pid p));;
  if o_daemon_mode o && (sc_daemon sc <? 0) then mret false else
  modify (λ p, Prog (p_sys p) (p_out p) (p_cwd p) (o_daemon_mode o) (p_pid p));;
  on_sys (modify (set_error_log [] (Some STDERR)));;
  on_sys (modify (start_timer (sc_time sc)));;
  if sc_epoll_create sc <? 0 then mret false else
  if sc_tcp_bind sc (u16 (o_admin_port o)) <? 0 then mret false else
  if sc_epoll_add sc <? 0 then mret false else
  rc ← on_sys (olivehc_load_conf fs malloc_server malloc_device tcp_bind fopen hash_mem stat open (o_conf_filename o) calls);
  mret (negb (bool_decide (rc = OHC_ERROR))).

(** The start, up to the pid file: an exit status, or the options. *)
Definition main_start (sc : start_calls) (calls : list (option create_call * Z * Z * Z)) (argv : list (list Z)) :
    P (Z + options) :=
  match process_options (getopt argv) default_options with
  | inl (status, text) => print text;; mret (inl status)
  | inr o =>
      ok ← main_prepare sc calls o;
      if negb ok then mret (inl 1) else
      if negb (sc_fopen_pid sc (o_pid_filename o)) then mret (inl 1) else
      set_pid_file (Some (o_pid_filename o, dec_int (sc_getpid sc) ++ NL));;
      mret (inr o)
  end.

(** The exit status, [None] when the rounds run out before the end. *)
Definition main (sc : start_calls) (calls : list (option create_call * Z * Z * Z)) (argv : list (list Z))
    (items : nat → bool) (files : Z → option FILE) (sbpad pad : list Z) (rounds : list (list master_event * Z)) : P (option Z) :=
  r ← main_start sc calls argv;
  match r with
  | inl status => mret (Some status)
  | inr o =>
      dump ← on_sys (olivehc_master_entry fs malloc_server malloc_device tcp_bind fopen hash_mem stat open MD5 kmalloc calloc_ok
        (sc_epoll_create sc) tmalloc mktime isdst junk (o_conf_filename o) items files sbpad pad rounds);
      match dump with
      | None => mret None
      | Some _ => set_pid_file None;; mret (Some 0)
      end
  end.
End main.

(** ** Options are read back *)

(** What can be set on the command line, and how it is written: with its
    argument behind the letter or in an argument of its own. *)
Inductive setting := SBlock | SConf (f : list Z) | SPrefix (d : list Z) | SAdmin (port : Z) | SPid (f : list Z).
Definition setting_letter (s : setting) : Z :=
  match s with SBlock => 98 | SConf _ => 99 | SPrefix _ => 112 | SAdmin _ => 97 | SPid _ => 105 end.
Definition setting_arg (s : setting) : option (list Z) :=
  match s with SBlock => None | SConf f | SPrefix f | SPid f => Some f | SAdmin n => Some (dec n) end.
Definition write_setting (p : bool * setting) : list (list Z) :=
  match setting_arg p.2 with
  | None => [[45; setting_letter p.2]]
  | Some a => if p.1 then [45 :: setting_letter p.2 :: a] else [[45; setting_letter p.2]; a]
  end.
Definition apply_setting (o : options) (s : setting) : options :=
  match s with
  | SBlock => Options (o_conf_filename o) (o_pid_filename o) (o_admin_port o) (o_prefix o) false
  | SConf f => Options f (o_pid_filename o) (o_admin_port o) (o_prefix o) (o_daemon_mode o)
  | SPrefix d => Options (o_conf_filename o) (o_pid_filename o) (o_admin_port o) (Some d) (o_daemon_mode o)
  | SAdmin n => Options (o_conf_filename o) (o_pid_filename o) n (o_prefix o) (o_daemon_mode o)
  | SPid f => Options (o_conf_filename o) f (o_admin_port o) (o_prefix o) (o_daemon_mode o)
  end.
(** A port is an [int]; an argument behind its letter is not empty. *)
Definition setting_ok (p : bool * setting) : Prop :=
  (∀ n, p.2 = SAdmin n → 0 ≤ n < 2 ^ 31) ∧ (p.1 = true → setting_arg p.2 ≠ Some []).

Lemma getopt_word_left l next : (length (getopt_word l next).2 ≤ length next)%nat.
Proof.
  induction l as [|c l IH]; [done|]. cbn [getopt_word]. destruct (option_kind c) as [[]|]; [|apply IH..].
  destruct l, next; cbn; lia.
Qed.
Lemma getopt_fuel n m args : (length args ≤ n)%nat → (length args ≤ m)%nat → getopt_loop n args = getopt_loop m args.
Proof.
  revert m args. induction n as [|n IH]; intros m args Hn Hm.
  { destruct args; [by destruct m|]. cbn in Hn. lia. }
  destruct args as [|a args]; [by destruct m|]. destruct m as [|m]; [cbn in Hm; lia|]. cbn [length getopt_loop] in *.
  destruct (dashed a) as [l|]; [|apply IH; lia]. case_decide; [done|]. pose proof (getopt_word_left l args).
  cbv zeta. f_equal. apply IH; lia.
Qed.
Lemma getopt_cons a args :
  getopt (a :: args) = match dashed a with
    | None => getopt args
    | Some l => if decide (l = [45]) then [] else (getopt_word l args).1 ++ getopt (getopt_word l args).2
    end.
Proof.
  unfold getopt. cbn [length getopt_loop]. destruct (dashed a) as [l|]; [|done]. case_decide; [done|]. cbv zeta. f_equal.
  apply getopt_fuel; [apply getopt_word_left|done].
Qed.

Lemma getopt_setting p args :
  setting_ok p → getopt (write_setting p ++ args) = Opt (setting_letter p.2) (default [] (setting_arg p.2)) :: getopt args.
Proof.
  intros [_ Hne]. destruct p as [joined s]. cbn [fst snd] in *.
  assert (match setting_arg s with None => s = SBlock | Some _ => option_kind (setting_letter s) = Some true ∧ setting_letter s ≠ 45 end) as Hk
    by by destruct s.
  unfold write_setting. cbn [fst snd]. destruct (setting_arg s) as [arg|] eqn:Ea.
  - destruct Hk as [Hk H45]. destruct joined; cbn [app]; rewrite getopt_cons; cbn [dashed]; rewrite Z.eqb_refl; cbn [andb].
    + rewrite bool_decide_false by done. cbn [negb]. rewrite decide_False by (intros [= ?]; done). cbn [getopt_word].
      rewrite Hk. destruct arg as [|c arg]; [by destruct (Hne eq_refl)|]. done.
    + rewrite bool_decide_false by done. cbn [negb]. rewrite decide_False by (intros [= ?]; done). cbn [getopt_word]. by rewrite Hk.
  - rewrite Hk. cbn [app]. rewrite getopt_cons. reflexivity.
Qed.

Lemma atoi_dec n : 0 ≤ n < 2 ^ 31 → atoi (dec n) = n.
Proof.
  intros Hn. pose proof (dec_loop_digits 20 n [] ltac:(lia) ltac:(by constructor)) as Hd. change (dec_loop 20 n []) with (dec n) in Hd.
  pose proof (dec_value n ltac:(lia)) as Hv. destruct (dec n) as [|c s] eqn:Es; [by destruct (dec_nonempty n)|].
  pose proof Hd as Hd'. apply Forall_cons in Hd' as [Hc _]. assert (48 ≤ c ≤ 57) as Hr by (unfold is_digit in Hc; lia).
  unfold atoi. cbn [drop_while]. assert (is_space c = false) as -> by (unfold is_space; lia). cbn [head].
  rewrite (bool_decide_false (Some c = Some 45)), (bool_decide_false (Some c = Some 43)) by (intros [= ->]; lia). cbn [orb].
  pose proof (number_app 10 (c :: s) [] 0) as Hn'. rewrite app_nil_r in Hn'. rewrite Hn'; [|eapply Forall_impl; [exact Hd|]; intros x Hx; by apply digit_of_digit|done].
  cbn [fst]. rewrite digits_fold, Hv by done. unfold LONG_MAX, swrap. rewrite Z.min_l by lia. rewrite Z.mod_small by lia. lia.
Qed.

Lemma getopt_operands l args : Forall (λ a, dashed a = None) l → getopt (l ++ args) = getopt args.
Proof. induction 1 as [|a l Ha _ IH]; [done|]. cbn [app]. by rewrite getopt_cons, Ha. Qed.

(** C24: what is set on the command line is what the program starts with: settings
    in any order and number, each with its argument behind the letter or in an
    argument of its own, are read back, the last one of a kind counting; operands
    before a setting and what follows a double dash are passed over. *)
Theorem options_read_back (l : list (list (list Z) * (bool * setting))) rest :
  Forall (λ x, Forall (λ a, dashed a = None) x.1 ∧ setting_ok x.2) l →
  process_options (getopt (concat ((λ x, x.1 ++ write_setting x.2) <$> l) ++ bytes "--" :: rest)) default_options =
    inr (foldl apply_setting default_options ((λ x, x.2.2) <$> l)).
Proof.
  intros Hl. generalize default_options. induction Hl as [|[ops p] l [Hops Hp] _ IH]; intros o; [done|]. cbn [fst snd] in *.
  cbn [fmap list_fmap concat foldl fst snd]. rewrite <- !app_assoc, getopt_operands, getopt_setting by done.
  destruct p as [joined s]. destruct Hp as [Hport _]. cbn [snd] in *. rewrite <- IH.
  destruct s as [| | |n|]; try reflexivity.
  match goal with |- _ = process_options ?l _ => transitivity (process_options l (apply_setting o (SAdmin (atoi (dec n))))) end;
    [reflexivity|]. by rewrite atoi_dec by by apply Hport.
Qed.
Lemma options_read_back_witness :
  process_options (getopt [bytes "-b"; bytes "x"; bytes "-ca.conf"; bytes "-a"; bytes "5211"; bytes "--"; bytes "-h"]) default_options =
    inr (Options (bytes "a.conf") (bytes "olivehc.pid") 5211 None false).
Proof.
  apply (options_read_back [([], (false, SBlock)); ([bytes "x"], (true, SConf (bytes "a.conf"))); ([], (false, SAdmin 5211))] [bytes "-h"]).
  repeat apply Forall_cons_2; try apply Forall_nil_2; (split; [repeat apply Forall_cons_2; try apply Forall_nil_2; reflexivity|]);
    split; try done; by intros n [= <-].
Defined.

(** ** The pid file *)

Lemma process_options_status l o status text : process_options l o = inl (status, text) → status = 0 ∨ status = 1.
Proof.
  revert o. induction l as [|[c arg|] l IH]; intros o; cbn [process_options]; [done| |intros [= <- _]; by right].
  repeat case_match; try (by apply IH); intros [= <- _]; auto.
Qed.

Section main.
Context {AS IS PS RS : Type} `{Allocator AS} `{Allocator IS} `{Allocator PS} `{Allocator RS}.
Context (fs : list Z → option (list Z)) (malloc_server malloc_device : cstate → option Z).
Context (tcp_bind : csys AS IS PS → Z → Z) (fopen : csys AS IS PS → list Z → option Z).
Context (hash_mem : csys AS IS PS → bool * bool).
Context (stat : list Z → option filestat) (open : csys AS IS PS → list Z → Z).
Context (MD5 : list Z → md5_id) (kmalloc : dstore AS → option Z) (calloc_ok : sstore AS IS PS → bool).
Context (tmalloc : ohc_timer_t → option Z) (mktime : tm → Z → option (Z * Z)) (isdst : Z) (junk : Z → req).

Implicit Types p : prog (AS := AS) (IS := IS) (PS := PS) (RS := RS).

(** The pid file is as it was. *)
Definition same_pid p p' : Prop := p_pid p' = p_pid p.
#[local] Instance same_pid_preorder : PreOrder same_pid.
Proof. split; [done|]. unfold same_pid. intros p1 p2 p3 -> ->. done. Qed.
Lemma pid_on_sys {A} (c : M (sys AS IS PS RS) A) : within same_pid (on_sys c).
Proof. intros p a p' E. unfold on_sys in E. destruct (c (p_sys p)) as [[a' g]|]; [|done]. by injection E as _ <-. Qed.
Lemma pid_print text : within same_pid (print (AS := AS) (IS := IS) (PS := PS) (RS := RS) text).
Proof. by apply within_modify. Qed.

Lemma main_prepare_pid sc calls o : within same_pid (main_prepare fs malloc_server malloc_device tcp_bind fopen hash_mem stat open sc calls o).
Proof.
  assert (∀ f, (∀ p, same_pid p (f p)) → within same_pid (modify f)) as Hm by (intros; by apply within_modify).
  unfold main_prepare. cbv zeta. destruct (_ <? 0); [apply within_ret, _|]. apply (within_bind _); [by apply Hm|intros _].
  destruct (_ && _); [apply (within_ret _)|]. apply (within_bind _); [by apply Hm|intros _].
  do 2 (apply (within_bind _); [apply pid_on_sys|intros _]). destruct (sc_epoll_create sc <? 0); [apply (within_ret _)|].
  destruct (sc_tcp_bind sc _ <? 0); [apply (within_ret _)|]. destruct (sc_epoll_add sc <? 0); [apply (within_ret _)|].
  apply (within_bind _); [apply pid_on_sys|intros rc; apply (within_ret _)].
Qed.

(** What [main_start] makes of the pid file. *)
Lemma main_start_pid sc calls argv p r p' :
  main_start fs malloc_server malloc_device tcp_bind fopen hash_mem stat open sc calls argv p = Ret (r, p') →
  match r with
  | inl status => (status = 0 ∨ status = 1) ∧ p_pid p' = p_pid p
  | inr o => process_options (getopt argv) default_options = inr o ∧
      p_pid p' = Some (o_pid_filename o, dec_int (sc_getpid sc) ++ NL)
  end.
Proof.
  unfold main_start. destruct (process_options (getopt argv) default_options) as [[status text]|o] eqn:Eo.
  { intros E. minv E. injection E as <- <-. split; [by eapply process_options_status|by eapply pid_print]. }
  intros E. apply bind_inv in E as (ok & p1 & E1 & E). apply main_prepare_pid in E1. unfold same_pid in E1.
  destruct ok; cbn [negb] in E; [|injection E as <- <-; by split; [right|]].
  destruct (sc_fopen_pid sc (o_pid_filename o)); cbn [negb] in E; [|injection E as <- <-; by split; [right|]].
  apply bind_inv in E as ([] & p2 & E2 & E). injection E2 as <-. by injection E as <- <-.
Qed.

(** The program leaves its pid file exactly while it runs.  However the start
    goes, and however long it runs: when [main] has returned, its status is 0 or
    1 and there is the pid file that was there before, or none once it has
    served; while it serves, the file that the options name holds its pid. *)
Theorem main_pid_file sc calls argv items files sbpad pad rounds p r p' :
  main fs malloc_server malloc_device tcp_bind fopen hash_mem stat open MD5 kmalloc calloc_ok tmalloc mktime isdst junk
    sc calls argv items files sbpad pad rounds p = Ret (r, p') →
  match r with
  | Some status => (status = 0 ∧ p_pid p' = None) ∨ (status = 0 ∨ status = 1) ∧ p_pid p' = p_pid p
  | None => ∃ o, process_options (getopt argv) default_options = inr o ∧
      p_pid p' = Some (o_pid_filename o, dec_int (sc_getpid sc) ++ NL)
  end.
Proof.
  unfold main. intros E. apply bind_inv in E as ([status|o] & p1 & E1 & E); apply main_start_pid in E1.
  { injection E as <- <-. by right. }
  apply bind_inv in E as (dump & p2 & E2 & E). apply pid_on_sys in E2. unfold same_pid in E2. destruct E1 as [Eo Ep].
  destruct dump as [l|]; [|injection E as <- <-; exists o; split; [done|congruence]].
  apply bind_inv in E as ([] & p3 & E3 & E). injection E3 as <-. injection E as <- <-. by left.
Qed.
(** *** A program that has started can be reloaded *)

(** What [main] finds: static memory is zero, [stderr] is open. *)
Record fresh_program p : Prop := {
  fp_cache : empty_cache (csys_of (p_sys p));
  fp_devices : devices (dst (n_st (g_net (p_sys p)))) = [];
  fp_conf : g_conf (p_sys p) = cstate_init;
  fp_stderr : STDERR ∈ g_logs (p_sys p);
  fp_epoll : g_listen (p_sys p) = ∅;
  fp_workers : current_worker (g_net (p_sys p)) = RNull ∧ workers (g_net (p_sys p)) = 0 ∧ new_workers (g_net (p_sys p)) = 0
}.

(** The state in which the configuration is loaded. *)
Definition before_load (sc : start_calls) p : sys AS IS PS RS :=
  start_timer (sc_time sc) (set_error_log [] (Some STDERR) (p_sys p)).

Lemma fresh_loadable sc p : fresh_program p → loadable (before_load sc p) [] STDERR.
Proof.
  intros [[(ds & isl & psl & now & Est) Hd Hm Hu Hi Hp] Hdev Hc Hs He (Hw1 & Hw2 & Hw3)].
  assert (servers (y_st (csys_of (before_load sc p))) = []) as Hnil by (cbn in *; by rewrite Est).
  assert (empty_cache (csys_of (before_load sc p))) as Hy by (split; try done; exists ds, isl, psl, (sc_time sc); cbn in *; by rewrite Est).
  assert (∀ s sv, live (csys_of (before_load sc p)) s sv → False) as Hno.
  { intros s sv [Hin _]. rewrite Hnil in Hin. by apply not_elem_of_nil in Hin. }
  split.
  - split; [by apply empty_cache_inv| |].
    + split; try (by intros ? ? ? ? ? ?%Hno).
      * intros s Hin. rewrite Hnil in Hin. by apply not_elem_of_nil in Hin.
      * intros z. cbn. rewrite He. split; [by intros ?%elem_of_empty|]. by intros (s & sv & ?%Hno & _).
    + intros d i dv Hin. cbn in Hin. rewrite Hdev in Hin. by apply not_elem_of_nil in Hin.
  - cbn. rewrite Hc. apply cstate_init_inv.
  - intros _. unfold cycle. cbn. by rewrite Hc.
  - cbn. rewrite Hc. split; intros ? Hin; by apply not_elem_of_nil in Hin.
  - split; [|done]. split; cbn; rewrite ?Hw1, ?Hw2; [done|done|apply NoDup_nil_2|]. intros w Hin. by apply not_elem_of_nil in Hin.
  - split; [done|]. split; [done|]. by intros s sv ?%Hno.
Qed.

(** The start loads the configuration in this state, with success. *)
Definition start_input (calls : list (option create_call * Z * Z * Z)) : reload_input (AS := AS) (IS := IS) (PS := PS) :=
  ReloadInput fs malloc_server malloc_device tcp_bind fopen hash_mem stat open calls.
Lemma main_prepare_load sc calls o p p' :
  main_prepare fs malloc_server malloc_device tcp_bind fopen hash_mem stat open sc calls o p = Ret (true, p') →
  ∃ rc, run_reload (o_conf_filename o) (start_input calls) (before_load sc p) = Ret (rc, p_sys p') ∧ rc ≠ OHC_ERROR.
Proof.
  unfold main_prepare. cbv zeta. intros E. destruct (_ <? 0); [done|]. erewrite bind_ret in E; [|reflexivity].
  destruct (_ && _); [done|]. erewrite bind_ret in E; [|reflexivity]. erewrite bind_ret in E; [|reflexivity].
  erewrite bind_ret in E; [|reflexivity]. do 3 (destruct (_ <? 0); [done|]). apply bind_inv in E as (rc & p2 & E & E2).
  injection E2 as Hrc <-. unfold on_sys in E. unfold run_reload. cbn [start_input ri_fs ri_malloc_server ri_malloc_device ri_tcp_bind
    ri_fopen ri_hash_mem ri_stat ri_open ri_calls] in *. cbn [p_sys] in E. unfold before_load.
  destruct (olivehc_load_conf _ _ _ _ _ _ _ _ _ _ _) as [[rc' g]|]; [|done]. injection E as -> <-. exists rc. split; [done|].
  intros ->. by rewrite bool_decide_true in Hrc.
Qed.
Lemma main_start_load sc calls argv o p p' :
  main_start fs malloc_server malloc_device tcp_bind fopen hash_mem stat open sc calls argv p = Ret (inr o, p') →
  ∃ rc, run_reload (o_conf_filename o) (start_input calls) (before_load sc p) = Ret (rc, p_sys p') ∧ rc ≠ OHC_ERROR.
Proof.
  unfold main_start. destruct (process_options _ _) as [[status text]|o']; intros E.
  { apply bind_inv in E as (? & ? & _ & E). done. }
  apply bind_inv in E as (ok & p1 & E1 & E). destruct ok; cbn [negb] in E; [|done].
  destruct (sc_fopen_pid sc _); cbn [negb] in E; [|done]. erewrite bind_ret in E; [|reflexivity].
  injection E as -> <-. exact (main_prepare_load _ _ _ _ _ E1).
Qed.

(** C0: a program that has started can be reloaded, again and again.  When the
    start has succeeded, the cache is consistent, the servers and devices are
    those of the configuration file, with the configured number of threads; and
    however the file and the system change from then on, any number of reloads
    each end, touch no request, and leave a program for which the same holds, so
    that each of them is all or nothing.  (Excepted are the two errors of the
    code that [sound] names.) *)
Theorem started_reloads sc calls argv o p p' l :
  fresh_program p → input_ok (o_conf_filename o) (start_input calls) (before_load sc p) →
  main_start fs malloc_server malloc_device tcp_bind fopen hash_mem stat open sc calls argv p = Ret (inr o, p') →
  sound (p_sys p') →
  (∃ C old, reload_done stat (csys_of (set_g_conf C (before_load sc p))) [] STDERR (before_load sc p) (p_sys p') ∧
    reloadable (p_sys p') [] old) ∧
  (smooth (o_conf_filename o) l (p_sys p') → ∃ rcs g' old', reloads (o_conf_filename o) l (p_sys p') = Ret (rcs, g') ∧
    length rcs = length l ∧ reloadable g' [] old' ∧ requests_kept (p_sys p') g').
Proof.
  intros Hf [Hms Hmd Hb Hfo Ho Hst Hpath Hroom] (rc & E & Hrc)%main_start_load Hs. unfold run_reload, parse in *. cbn in *.
  destruct (load_succeeds fs malloc_server malloc_device tcp_bind fopen hash_mem stat open (o_conf_filename o) Hb Hfo Ho Hst calls
    (before_load sc p) [] STDERR Hms Hmd (fresh_loadable sc p Hf) rc (p_sys p') E Hrc Hroom) as [C Hd].
  destruct (done_reloadable _ _ _ _ _ _ Hd (proj1 Hs)) as [old Hr]. split; [by exists C, old|]. intros Hl.
  by eapply reloads_safe.
Qed.
End main.

(** *** A run

    From nothing: the program starts with three threads, two servers and two
    devices, is told to quit, and ends in the next round. *)

#[local] Existing Instance CacheProofs.demo_alloc.
Definition demo_start : prog (AS := ohc_slab_t) (IS := ohc_slab_t) (PS := ohc_slab_t) (RS := ohc_slab_t) :=
  Prog (Sys (NetSt (sstore_init (dstore_init (OHC_SLAB_INIT 65000)) (OHC_SLAB_INIT 65000) (OHC_SLAB_INIT 65000) 0)
              ∅ (OHC_SLAB_INIT 65000) [] 0 ∅ RNull 0 0 (timer_init 0 ∅) ∅ ∅ ∅ [] [] [])
         cstate_init ∅ ∅ ∅ [] None 0 0 0) [] None false None.
Definition demo_start_calls : start_calls := StartCalls (λ _, 0) 0 100 5 (λ _, 6) 0 (λ _, true) 4711.
Definition demo_threads : list (option create_call * Z * Z * Z) := [(None, 1, 7, 100); (None, 2, 8, 100); (None, 3, 9, 100)].
#[local] Abbreviation demo_main rounds :=
  (main demo_file demo_new_server demo_new_device demo_bind demo_fopen demo_hash_mem demo_stat demo_open toy_md5 demo_kmalloc
    (λ _, true) (λ _, Some 900) (λ _ _, None) 0 (λ _, Req (Request 0 (HReq METHOD_INVALID 0 false 0 0 None None None None [] 0 0 true 0 None)
      [] None 0 false) None 0 false false false 0 0 0 0 "" None 0 0)
    demo_start_calls demo_threads [bytes "-b"; bytes "-a"; bytes "5211"] (λ _, true) (λ _, None) [] [] rounds demo_start).
Definition demo_rounds : list (list master_event * Z) := [([EvAdmin [] (Some (bytes "quit"))], 101); ([], 102)].

Definition has_ended (o : outcome (option Z * prog (AS := ohc_slab_t) (IS := ohc_slab_t) (PS := ohc_slab_t) (RS := ohc_slab_t))) :
    option (option Z) := match o with Ret (r, _) => Some r | Fail _ => None end.
Lemma has_ended_ret o r : has_ended o = Some r → ∃ p, o = Ret (r, p).
Proof. destruct o as [[r' p]|]; [|done]. intros [= ->]. by exists p. Qed.

(** While it runs the file of the options' name holds the pid; at the end there is
    none. *)
Lemma main_pid_file_witness :
  (∃ p, demo_main [] = Ret (None, p) ∧ p_pid p = Some (bytes "olivehc.pid", bytes "4711" ++ NL)) ∧
  (∃ p, demo_main demo_rounds = Ret (Some 0, p) ∧ p_pid p = None).
Proof.
  split.
  - assert (has_ended (demo_main []) = Some None) as (p & E)%has_ended_ret by (vm_compute; reflexivity).
    exists p. split; [exact E|]. apply main_pid_file in E as (o & Eo & ->).
    assert (process_options (getopt [bytes "-b"; bytes "-a"; bytes "5211"]) default_options =
      inr (Options (bytes "olivehc.conf") (bytes "olivehc.pid") 5211 None false)) as Eo' by (vm_compute; reflexivity).
    rewrite Eo' in Eo. injection Eo as <-. vm_compute. reflexivity.
  - assert (has_ended (demo_main demo_rounds) = Some (Some 0)) as (p & E)%has_ended_ret by (vm_compute; reflexivity).
    exists p. split; [exact E|]. apply main_pid_file in E as [[_ ->]|[_ ->]]; reflexivity.
Defined.

(** *** A start and two reloads

    The first new file drops a device, a server and a thread; the second cannot be
    parsed. *)

Definition text_of (lines : list string) (name : list Z) : option (list Z) := Some (concat ((λ l, bytes l ++ [10]) <$> lines)).
Definition run_lines : list (list string) :=
  [["threads 3"; "error_log e.log"; "device a"; "device bb"; "listen 8536"; "access_log abc"; "listen 8540"; "access_log xyzw"];
   ["threads 2"; "error_log e.log"; "device bb"; "listen 8540"; "access_log xyzw"]; ["thread 1"]]%string.
Abbreviation demo_state := (sys ohc_slab_t ohc_slab_t ohc_slab_t ohc_slab_t).
(** New addresses are new in [g]. *)
Definition new_server_in (g : demo_state) (c : cstate) : option Z := Some (base.fresh (dom (cservers c) ∪ dom (srvs (n_st (g_net g))))).
Definition new_device_in (g : demo_state) (c : cstate) : option Z := Some (base.fresh (dom (cdevices c) ∪ dom (devs (dst (n_st (g_net g)))))).
Definition input_in (lines : list string) (calls : list (option create_call * Z * Z * Z)) (g : demo_state) :=
  ReloadInput (text_of lines) (new_server_in g) (new_device_in g) demo_bind demo_fopen demo_hash_mem demo_stat demo_open calls.

Definition fits (name : list Z) (e : reload_input) (g : demo_state) : bool :=
  match parse name e g with
  | Fail _ => false
  | Ret (None, _) => true
  | Ret (Some _, C) =>
      (used_nr (server_indexs (n_st (g_net g))) + length (cf_servers (conf_cycle C)) <=? Z.to_nat IPT_ARRAY_SIZE)%nat &&
      (used_nr (device_indexs (dst (n_st (g_net g)))) + length (cf_devices (conf_cycle C)) <=? Z.to_nat IPT_ARRAY_SIZE)%nat &&
      (Z.to_nat (cf_threads (conf_cycle C) - workers (g_net g)) <=? length (ri_calls e))%nat &&
      bool_decide (NoDup ((λ c, c.1.1.2) <$> ri_calls e)) &&
      forallb (λ c, negb (bool_decide (c.1.1.2 ∈ dom (n_workers (g_net g))))) (ri_calls e)
  end.
Lemma input_in_ok name lines calls g : fits name (input_in lines calls g) g = true → input_ok name (input_in lines calls g) g.
Proof.
  intros Hfit. unfold fits in Hfit. split.
  - intros c a E. exact (fresh_apart _ _ _ E).
  - intros c a E. exact (fresh_apart _ _ _ E).
  - exact demo_bind_fresh.
  - exact demo_fopen_fresh.
  - exact demo_open_fresh.
  - exact demo_stat_size.
  - intros f E. by rewrite E in Hfit.
  - intros o C E. rewrite E in Hfit. apply andb_prop in Hfit as [[[[H1 H2]%andb_prop H3]%andb_prop H4]%andb_prop H5].
    apply Nat.leb_le in H1, H2, H3. split; [exact H1|exact H2|exact H3|]. split; [by apply bool_decide_eq_true in H4|].
    intros c Hc. rewrite forallb_forall in H5. specialize (H5 c (proj1 (list_elem_of_In _ _) Hc)).
    by apply negb_true_iff, bool_decide_eq_false, not_elem_of_dom in H5.
Qed.
Lemma sound_test (g : demo_state) :
  bool_decide (map_Forall (λ _ dv, d_kicked dv = false) (devs (dst (n_st (g_net g))))) && (new_workers (g_net g) =? 0) = true → sound g.
Proof.
  intros [Hk Hn]%andb_prop. rewrite bool_decide_eq_true in Hk. apply Z.eqb_eq in Hn. split; [|done].
  intros d i dv _ (_ & Ed & _). exact (Hk d dv Ed).
Qed.
Lemma smooth_step name e l (g : demo_state) rc g1 :
  input_ok name e g → run_reload name e g = Ret (rc, g1) → sound g1 → smooth name l g1 → smooth name (e :: l) g.
Proof. intros He E Hs Hl. split; [done|]. intros rc' g' E'. rewrite E in E'. injection E' as <- <-. by split. Qed.

Definition run_start : prog (AS := ohc_slab_t) (IS := ohc_slab_t) (PS := ohc_slab_t) (RS := ohc_slab_t) :=
  let g := p_sys demo_start in Prog (set_g_logs {[STDERR]} g) [] None false None.
Definition run_file : list Z := bytes "olivehc.conf".
Definition run_input : reload_input := input_in (nth 0 run_lines []) demo_threads (before_load demo_start_calls run_start).
Abbreviation run_main_start :=
  (main_start (text_of (nth 0 run_lines [])) (new_server_in (before_load demo_start_calls run_start))
    (new_device_in (before_load demo_start_calls run_start)) demo_bind demo_fopen demo_hash_mem demo_stat demo_open
    demo_start_calls demo_threads [bytes "-b"] run_start).
Definition run_p1 := match run_main_start with Ret (_, p) => p | Fail _ => run_start end.
Definition run_e2 := input_in (nth 1 run_lines []) [] (p_sys run_p1).
Definition run_g2 : demo_state := match run_reload run_file run_e2 (p_sys run_p1) with Ret (_, g) => g | Fail _ => p_sys run_p1 end.
Definition run_e3 := input_in (nth 2 run_lines []) [] run_g2.
