(* ===== verification/RequestProofs.v ===== *)
(** * Properties of requests

    What a worker moves between a socket and a device: a response is exactly the
    bytes of the item, whatever the pieces the kernel takes; a body is written
    into the item's part of the device and nowhere else.  The buffer of a
    request is never overrun, and a range is always inside the body. *)

From Stdlib Require Import String.
From stdpp Require Import prelude fin_maps gmap.
From S2P Require Import Prelude IdxPointer StrUtil IpBucket Slab Hash Timer Device DeviceInv Http HttpProofs.
From S2P Require Import Server ServerInv ServerOps ServerExpire Format Conf ServerConf Cache Life CacheProofs Net Worker Request.

Lemma alter_some {A} (m : gmap Z A) k f (a : A) : m !! k = Some a → alter f k m = <[k := f a]> m.
Proof.
  intros E. apply map_eq. intros j. destruct (decide (j = k)) as [->|Hne].
  - by rewrite lookup_alter_eq, E, lookup_insert_eq.
  - by rewrite lookup_alter_ne, lookup_insert_ne.
Qed.

(** ** One request at work *)

Section at_work.
Context {AS IS PS RS : Type} `{Allocator AS} `{Allocator IS} `{Allocator PS} `{Allocator RS}.
Context (n0 : net AS IS PS RS) (r fd : Z).

(** The program while a handler works on request [r] with socket [fd]: the
    request, the socket, the devices and their errors to come, and the rest. *)
Definition at_ (q : req) (s : sock) (D : gmap Z (list Z)) (kd : list Z) : net AS IS PS RS :=
  set_n_reqs (<[r := q]> (n_reqs n0)) (set_n_socks (<[fd := s]> (n_socks n0)) (set_n_disks D (set_k_disk kd n0))).

Lemma at_start q s :
  n_reqs n0 !! r = Some q → n_socks n0 !! fd = Some s → n0 = at_ q s (n_disks n0) (k_disk n0).
Proof. intros Er Es. unfold at_. rewrite !insert_id by done. by destruct n0. Qed.

Lemma load_req_at q s D kd : load_req r (at_ q s D kd) = Ret (q, at_ q s D kd).
Proof. unfold load_req. erewrite bind_ret; [|reflexivity]. cbn. by rewrite lookup_insert_eq. Qed.
Lemma upd_req_at f q s D kd : upd_req r f (at_ q s D kd) = Ret (tt, at_ (f q) s D kd).
Proof.
  unfold upd_req. erewrite bind_ret; [|apply load_req_at]. unfold modify, at_. cbn.
  by rewrite (alter_some _ _ _ q), insert_insert_eq by apply lookup_insert_eq.
Qed.
Lemma load_sock_at q s D kd : load_sock fd (at_ q s D kd) = Ret (s, at_ q s D kd).
Proof. unfold load_sock. erewrite bind_ret; [|reflexivity]. cbn. by rewrite lookup_insert_eq. Qed.
Lemma upd_sock_at f q s D kd : upd_sock fd f (at_ q s D kd) = Ret (tt, at_ q (f s) D kd).
Proof.
  unfold upd_sock. erewrite bind_ret; [|apply load_sock_at]. unfold modify, at_. cbn.
  by rewrite (alter_some _ _ _ s), insert_insert_eq by apply lookup_insert_eq.
Qed.
Lemma fuel_of_at q s D kd : fuel_of fd (at_ q s D kd) = Ret (socket_fuel s, at_ q s D kd).
Proof. unfold fuel_of. erewrite bind_ret; [|apply load_sock_at]. done. Qed.
Lemma with_cache_at {A} (c : M (sstore AS IS PS) A) a q s D kd :
  c (n_st n0) = Ret (a, n_st n0) → with_cache c (at_ q s D kd) = Ret (a, at_ q s D kd).
Proof. intros E. unfold with_cache, at_. cbn. rewrite E. by destruct n0. Qed.

(** *** System calls *)

Lemma recv_at room q s D kd :
  ∃ rc s', recv fd room (at_ q s D kd) = Ret (rc, at_ q s' D kd) ∧ k_tx s' = k_tx s ∧ k_sent s' = k_sent s ∧
    match k_rx s with
    | [] => rc = inr EAGAIN ∧ s' = s
    | RecvErr e :: l => rc = inr e ∧ k_rx s' = l
    | Recv b :: l => rc = inl (take (Z.to_nat room) b) ∧
        k_rx s' = match drop (Z.to_nat room) b with [] => l | b' => Recv b' :: l end
    end.
Proof.
  unfold recv. erewrite bind_ret; [|apply load_sock_at].
  destruct (k_rx s) as [|[b|e] l].
  - exists (inr EAGAIN), s. by split_and!.
  - eexists _, _. erewrite bind_ret; [|apply upd_sock_at]. split; [reflexivity|]. split_and!; [done..|]. cbn. by destruct (drop _ _).
  - eexists _, _. erewrite bind_ret; [|apply upd_sock_at]. split; [reflexivity|]. done.
Qed.

(** Sending, with the interrupted calls repeated: some bytes go, in order. *)
Lemma interupted_at fuel (call : M (net AS IS PS RS) (Z + Z)) data q s D kd :
  (∀ s', call (at_ q s' D kd) = transmit fd data (at_ q s' D kd)) → (length (k_tx s) < fuel)%nat →
  ∃ rc s', interupted fuel call (at_ q s D kd) = Ret (rc, at_ q s' D kd) ∧ k_rx s' = k_rx s ∧
    match rc with
    | inl k => 0 ≤ k ≤ Z.of_nat (length data) ∧ k_sent s' = k_sent s ++ take (Z.to_nat k) data
    | inr e => e ≠ EINTR ∧ k_sent s' = k_sent s
    end.
Proof.
  intros Hcall. revert s. induction fuel as [|fuel IH]; intros s Hf; [lia|].
  cbn [interupted]. unfold transmit in Hcall. destruct (k_tx s) as [|[k|e] l] eqn:Et.
  - exists (inr EAGAIN), s. split; [|done]. erewrite bind_ret; [|rewrite Hcall; erewrite bind_ret; [|apply load_sock_at];
      rewrite Et; reflexivity]. done.
  - eexists (inl (Z.of_nat (length (take (Z.to_nat k) data)))), _. split.
    { erewrite bind_ret; [|rewrite Hcall; erewrite bind_ret; [|apply load_sock_at]; rewrite Et;
        erewrite bind_ret; [|apply upd_sock_at]; reflexivity]. reflexivity. }
    cbn. rewrite length_take. split_and!; [done|lia|lia|]. f_equal. rewrite Nat2Z.id.
    destruct (Nat.min_dec (Z.to_nat k) (length data)) as [->|Hm]; [done|]. rewrite Hm.
    rewrite !take_ge by lia. done.
  - assert (interupted (S fuel) call (at_ q s D kd) =
      (if e =? EINTR then interupted fuel call else mret (inr e)) (at_ q (set_k_tx l s) D kd)) as Hstep.
    { cbn [interupted]. erewrite bind_ret; [|rewrite Hcall; erewrite bind_ret; [|apply load_sock_at]; rewrite Et;
        erewrite bind_ret; [|apply upd_sock_at]; reflexivity]. cbn. by destruct (e =? EINTR). }
    cbn [interupted] in Hstep. rewrite Hstep. destruct (Z.eqb_spec e EINTR) as [->|He].
    + destruct (IH (set_k_tx l s)) as (rc & s' & E & Hrx & Hc); [cbn in *; lia|].
      exists rc, s'. rewrite E. split; [done|]. split; [done|]. by destruct rc.
    + eexists (inr e), _. split; [reflexivity|]. done.
Qed.
End at_work.

(** ** Sending from a device *)

(** [k] bytes from [off] on. *)
Definition slice (file : list Z) (off k : Z) : list Z := take (Z.to_nat k) (drop (Z.to_nat off) file).

Lemma slice_app file off k1 k2 :
  0 ≤ off → 0 ≤ k1 → 0 ≤ k2 → slice file off k1 ++ slice file (off + k1) k2 = slice file off (k1 + k2).
Proof.
  intros. unfold slice. rewrite !Z2Nat.inj_add by lia. rewrite <- drop_drop, take_take_drop. done.
Qed.
Lemma slice_take file off k1 k2 : 0 ≤ k1 ≤ k2 → take (Z.to_nat k1) (slice file off k2) = slice file off k1.
Proof. intros. unfold slice. rewrite take_take. by rewrite Nat.min_l by lia. Qed.
Lemma slice_length file off k : 0 ≤ off → 0 ≤ k → off + k ≤ Z.of_nat (length file) → Z.of_nat (length (slice file off k)) = k.
Proof. intros. unfold slice. rewrite length_take, length_drop. lia. Qed.

Section sending.
Context {AS IS PS RS : Type} `{Allocator AS} `{Allocator IS} `{Allocator PS} `{Allocator RS}.
Implicit Types (n : net AS IS PS RS).

Record on_device (st : sstore AS IS PS) (x : Z) (it : ohc_item_t) (d : Z) (dv : ohc_device_t) : Prop := {
  od_item : item_mem (dst st) !! x = Some it;
  od_dev : registered (dst st) (it_device_index it) d dv
}.
Lemma device_of_item_at n r fd st x it d dv q s D kd :
  n_st n = st → on_device st x it d dv →
  with_cache (lift (device_of_item x)) (at_ n r fd q s D kd) = Ret (d, at_ n r fd q s D kd) ∧
  with_cache (lift (load_dev d)) (at_ n r fd q s D kd) = Ret (dv, at_ n r fd q s D kd) ∧
  with_cache (lift (load_item x)) (at_ n r fd q s D kd) = Ret (it, at_ n r fd q s D kd).
Proof.
  intros <- [Hx (E1 & E2 & _)]. split_and!; apply with_cache_at.
  - by apply (device_of_item_run _ x it d).
  - by apply lift_load_dev_run.
  - by apply lift_load_item_run.
Qed.

Lemma send_file_spec n r fd x it d dv q s D kd file start len :
  on_device (n_st n) x it d dv → rq_fd q = fd → r_item (rq q) = Some x → D !! d_fd dv = Some file →
  0 ≤ start → 0 ≤ process_size q ≤ len → start + len ≤ Z.of_nat (length file) < 2 ^ 63 →
  ∃ rc q' s' k, request_send_file r start len (at_ n r fd q s D kd) = Ret (rc, at_ n r fd q' s' D kd) ∧
    k_rx s' = k_rx s ∧ 0 ≤ k ≤ len - process_size q ∧ k_sent s' = k_sent s ++ slice file (start + process_size q) k ∧
    process_size q' = process_size q + k ∧ rq_output q' = rq_output q + k ∧ rq_fd q' = rq_fd q ∧
    r_item (rq q') = r_item (rq q) ∧
    (rc = OHC_OK ∧ process_size q' = len ∨ rc = OHC_AGAIN ∨
     rc = OHC_ERROR ∧ k = 0 ∧ (rq_broken q' = true ∨ r_disk_error (rq q') = true)).
Proof.
  intros Hod Hfd Hx Hf Hs Hps Hlen. set (ps := process_size q) in *.
  destruct (device_of_item_at n r fd _ x it d dv q s D kd eq_refl Hod) as (E1 & E2 & _).
  unfold request_send_file. erewrite bind_ret; [|apply load_req_at]. rewrite Hx.
  erewrite bind_ret; [|reflexivity]. erewrite bind_ret; [|exact E1]. erewrite bind_ret; [|exact E2].
  rewrite Hfd. erewrite bind_ret; [|apply fuel_of_at]. fold ps.
  assert (i64 (start + ps) = start + ps) as -> by (apply swrap_small; [lia|]; change (64 - 1) with 63; lia).
  assert (u64 (len - ps) = len - ps) as -> by (apply wrap_small; lia).
  destruct (interupted_at n r fd (socket_fuel s) (sendfile fd (d_fd dv) (start + ps) (len - ps)) (slice file (start + ps) (len - ps)) q s D kd)
    as (rc & s' & E & Hrx & Hc).
  { intros s1. unfold sendfile. erewrite bind_ret; [|reflexivity]. erewrite bind_ret; [|cbn; rewrite Hf; reflexivity].
    by rewrite (proj2 (Z.ltb_ge _ _)) by lia. }
  { unfold socket_fuel. lia. }
  erewrite bind_ret; [|exact E]. destruct rc as [k|e].
  - destruct Hc as [Hk Hsent]. rewrite slice_length in Hk by lia.
    erewrite bind_ret; [|apply upd_req_at]. erewrite bind_ret; [|apply load_req_at].
    eexists _, _, s', k. split; [reflexivity|]. cbn. fold ps.
    assert (u64 (ps + k) = ps + k) as -> by (apply wrap_small; lia).
    assert (u64 len = len) as -> by (apply wrap_small; lia).
    rewrite Hsent, slice_take by lia. split_and!; try done; try lia.
    destruct (Z.eqb_spec len (ps + k)); [left; split; [done|lia]|right; by left].
  - destruct Hc as [_ Hsent]. assert (slice file (start + ps) 0 = []) as E0 by done.
    destruct (Z.eqb_spec e EAGAIN) as [->|He].
    + exists OHC_AGAIN, q, s', 0. rewrite Hsent, E0, app_nil_r. split_and!; try done; try (unfold ps; lia). right. by left.
    + erewrite bind_ret; [|apply upd_req_at]. eexists OHC_ERROR, _, s', 0. split; [reflexivity|].
      rewrite Hsent, E0, app_nil_r. destruct (e =? EIO); cbn; split_and!; try done; try lia; try (unfold ps, process_size; lia).
      * right; right. split_and!; [done..|by right].
      * right; right. split_and!; [done..|by left].
Qed.

(** Request [r] sends the [len] bytes of [file] from [start] on: the item it
    holds is on a device with that content, and [s] is its socket. *)
Record transfer n (r start len : Z) (file : list Z) (q : req) (s : sock) : Prop := {
  tr_req : n_reqs n !! r = Some q;
  tr_sock : n_socks n !! rq_fd q = Some s;
  tr_file : ∃ x it d dv, r_item (rq q) = Some x ∧ on_device (n_st n) x it d dv ∧ n_disks n !! d_fd dv = Some file;
  tr_range : 0 ≤ start ∧ start + len ≤ Z.of_nat (length file) < 2 ^ 63;
  tr_size : 0 ≤ process_size q ≤ len
}.

(** What happens between two calls of the handler of a request leaves the
    request, what was sent to its client and the file as they are. *)
Definition undisturbed (r start len : Z) (file : list Z) n n' : Prop :=
  ∀ q s, n_reqs n !! r = Some q → n_socks n !! rq_fd q = Some s →
    ∃ q' s', transfer n' r start len file q' s' ∧ process_size q' = process_size q ∧ k_sent s' = k_sent s.

(** Calls of [request_send_file], one for each time the socket is ready, until
    one does not ask for another. *)
Inductive sends (r start len : Z) (file : list Z) : net AS IS PS RS → ohc_rc → net AS IS PS RS → Prop :=
  | sends_end n rc n' :
      request_send_file r start len n = Ret (rc, n') → rc ≠ OHC_AGAIN → sends r start len file n rc n'
  | sends_again n n1 n2 rc n' :
      request_send_file r start len n = Ret (OHC_AGAIN, n1) → undisturbed r start len file n1 n2 →
      sends r start len file n2 rc n' → sends r start len file n rc n'.

Lemma send_file_step n r start len file q s :
  transfer n r start len file q s →
  ∃ rc n' q' s' k, request_send_file r start len n = Ret (rc, n') ∧ n_reqs n' !! r = Some q' ∧
    n_socks n' !! rq_fd q' = Some s' ∧ 0 ≤ k ∧ k_sent s' = k_sent s ++ slice file (start + process_size q) k ∧
    process_size q' = process_size q + k ∧
    (rc = OHC_OK ∧ process_size q' = len ∨ rc = OHC_AGAIN ∨
     rc = OHC_ERROR ∧ k = 0 ∧ (rq_broken q' = true ∨ r_disk_error (rq q') = true)).
Proof.
  intros [Er Es (x & it & d & dv & Ex & Hod & Hf) [Hst Hlen] Hps].
  destruct (send_file_spec n r (rq_fd q) x it d dv q s (n_disks n) (k_disk n) file start len)
    as (rc & q' & s' & k & E & _ & Hk & Hsent & Hp' & _ & Efd & _ & Hc); try done.
  rewrite <- (at_start n r (rq_fd q) q s Er Es) in E.
  eexists rc, _, q', s', k. split; [exact E|]. rewrite Efd. cbn. rewrite !lookup_insert_eq. split_and!; try done. lia.
Qed.

(** C6: a response is exactly the bytes asked for.  However the kernel cuts the
    bytes into pieces, interrupts calls or has the worker wait, and whatever other
    requests do meanwhile, what the client has received when the transfer ends
    is a piece of the device from where the transfer began, in order and without
    a gap; all of it when the transfer reports success, and up to an error of
    the device or the connection otherwise. *)
Theorem request_send_file_exact n r start len file q s rc n' :
  transfer n r start len file q s → sends r start len file n rc n' →
  ∃ q' s', n_reqs n' !! r = Some q' ∧ n_socks n' !! rq_fd q' = Some s' ∧ process_size q ≤ process_size q' ∧
    k_sent s' = k_sent s ++ slice file (start + process_size q) (process_size q' - process_size q) ∧
    (rc = OHC_OK ∧ process_size q' = len ∨
     rc = OHC_ERROR ∧ (rq_broken q' = true ∨ r_disk_error (rq q') = true)).
Proof.
  intros Ht Hs. revert q s Ht. induction Hs as [n rc n' E Hrc|n n1 n2 rc n' E Hu _ IH]; intros q s Ht.
  - destruct (send_file_step _ _ _ _ _ _ _ Ht) as (rc' & n2 & q' & s' & k & E' & Er & Es & Hk & Hsent & Hp & Hc).
    rewrite E in E'. injection E' as <- <-. exists q', s'. rewrite Hp.
    replace (process_size q + k - process_size q) with k by lia. split_and!; try done; [lia|]. naive_solver.
  - destruct (send_file_step _ _ _ _ _ _ _ Ht) as (rc' & n3 & q1 & s1 & k & E' & Er & Es & Hk & Hsent & Hp & Hc).
    rewrite E in E'. injection E' as <- <-.
    destruct (Hu q1 s1 Er Es) as (q2 & s2 & Ht2 & Hp2 & Hs2).
    destruct (IH q2 s2 Ht2) as (q' & s' & Er' & Es' & Hle & Hsent' & Hc').
    exists q', s'. destruct Ht as [_ _ _ [Hst _] [Hps _]]. split_and!; try done; [lia|].
    rewrite Hsent', Hs2, Hsent, Hp2, Hp, <- app_assoc. f_equal.
    replace (start + (process_size q + k)) with ((start + process_size q) + k) by lia.
    rewrite slice_app by lia. f_equal. lia.
Qed.
End sending.

(** ** Writing to a device *)

(** [file'] is [file] with [bs] from [off] on, and as long. *)
Definition overwrites (file file' : list Z) (off : Z) (bs : list Z) : Prop :=
  take (Z.to_nat off) file' = take (Z.to_nat off) file ∧
  slice file' off (Z.of_nat (length bs)) = bs ∧
  drop (Z.to_nat off + length bs) file' = drop (Z.to_nat off + length bs) file.

Lemma write_at_inside off bs (file : list Z) :
  (off + length bs ≤ length file)%nat → write_at off bs file = take off file ++ bs ++ drop (off + length bs) file.
Proof. intros. unfold write_at. by replace (off - length file)%nat with 0%nat by lia. Qed.

Lemma overwrites_write_at file off bs :
  0 ≤ off → off + Z.of_nat (length bs) ≤ Z.of_nat (length file) → overwrites file (write_at (Z.to_nat off) bs file) off bs.
Proof.
  intros Ho Hl. rewrite write_at_inside by lia. set (o := Z.to_nat off).
  assert (length (take o file) = o) as Et by (rewrite length_take; lia). split_and!; unfold slice; fold o.
  - by rewrite take_app_length' by done.
  - rewrite drop_app_length' by done. rewrite Nat2Z.id. by rewrite take_app_length.
  - rewrite app_assoc. apply drop_app_length'. rewrite length_app. lia.
Qed.
Lemma take_take_le {A} (l : list A) a b : (a ≤ b)%nat → take a (take b l) = take a l.
Proof. intros. rewrite take_take. by rewrite Nat.min_l. Qed.
Lemma overwrites_trans file file1 file2 off b1 b2 :
  0 ≤ off → overwrites file file1 off b1 → overwrites file1 file2 (off + Z.of_nat (length b1)) b2 →
  overwrites file file2 off (b1 ++ b2).
Proof.
  intros Ho (T1 & S1 & D1) (T2 & S2 & D2). rewrite Z2Nat.inj_add, Nat2Z.id in T2, D2 by lia.
  set (o := Z.to_nat off) in *. set (l1 := length b1) in *. split_and!.
  - fold o. rewrite <- T1. rewrite <- (take_take_le file2 o (o + l1)), T2 by lia. by rewrite take_take_le by lia.
  - rewrite length_app, Nat2Z.inj_add, <- slice_app by lia. fold l1. f_equal; [|done]. rewrite <- S1. unfold slice.
    fold o. rewrite Nat2Z.id. rewrite !take_drop_commute. by rewrite T2.
  - fold o. rewrite length_app. fold l1. rewrite !Nat.add_assoc, D2. rewrite <- !(drop_drop _ (length b2) (o + l1)), D1. done.
Qed.
Lemma overwrites_nil file off : 0 ≤ off → overwrites file file off [].
Proof. intros. split_and!; [done|done|]. done. Qed.
Lemma overwrites_length file file' off bs :
  0 ≤ off → off + Z.of_nat (length bs) ≤ Z.of_nat (length file) → overwrites file file' off bs → length file' = length file.
Proof.
  intros Ho Hl (T & S & D). set (o := Z.to_nat off) in *.
  assert (length (take (o + length bs) file') = length (take (o + length bs) file)) as E.
  { rewrite <- !(take_take_drop _ o). rewrite T, !length_app. f_equal. unfold slice in S. fold o in S. rewrite Nat2Z.id in S.
    rewrite S, length_take, length_drop. lia. }
  rewrite <- (take_drop (o + length bs) file'), <- (take_drop (o + length bs) file), D, !length_app. lia.
Qed.

Section putting.
Context {AS IS PS RS : Type} `{Allocator AS} `{Allocator IS} `{Allocator PS} `{Allocator RS}.
Context (kmalloc : dstore AS → option Z) (master_epoll_fd : Z) (tmalloc : ohc_timer_t → option Z).
Context (n : net AS IS PS RS) (r fd x : Z) (it : ohc_item_t) (d : Z) (dv : ohc_device_t).
Context (Hod : on_device (n_st n) x it d dv).
Abbreviation at_n := (at_ n r fd).

(** The request is at work on item [x]. *)
Record working (q : req) : Prop := { wo_fd : rq_fd q = fd; wo_item : r_item (rq q) = Some x }.

Lemma write_disk_spec buf q s D kd file :
  working q → D !! d_fd dv = Some file → 0 ≤ it_offset it → 0 ≤ process_size q →
  it_offset it + process_size q + Z.of_nat (length buf) ≤ Z.of_nat (length file) < 2 ^ 63 →
  ∃ rc q' D' kd', request_write_disk r buf (at_n q s D kd) = Ret (rc, at_n q' s D' kd') ∧ working q' ∧
    rq_broken q' = rq_broken q ∧ rq_output q' = rq_output q ∧
    (rc = OHC_OK ∧ q' = set_process_size (process_size q + Z.of_nat (length buf)) q ∧
       (∃ file', D' = <[d_fd dv := file']> D ∧ overwrites file file' (it_offset it + process_size q) buf) ∨
     rc = OHC_ERROR ∧ D' = D ∧ process_size q' = process_size q ∧ r_disk_error (rq q') = true).
Proof.
  intros [Hfd Hx] Hf Ho Hps Hlen. unfold request_write_disk. cbv zeta. erewrite bind_ret; [|apply load_req_at]. rewrite Hx.
  destruct (device_of_item_at n r fd _ x it d dv q s D kd eq_refl Hod) as (E1 & E2 & E3).
  erewrite bind_ret; [|exact E1]. erewrite bind_ret; [|exact E2]. erewrite bind_ret; [|exact E3].
  set (off := it_offset it + process_size q) in *.
  assert (i64 off = off) as -> by (apply swrap_small; [lia|]; change (64 - 1) with 63; lia).
  assert (u64 (process_size q + Z.of_nat (length buf)) = process_size q + Z.of_nat (length buf)) as Eu
    by (apply wrap_small; unfold off in *; lia).
  set (e := default 0 (head kd)).
  assert (pwrite (d_fd dv) buf off (at_n q s D kd) =
    if e =? 0 then Ret (inl (Z.of_nat (length buf)), at_n q s (<[d_fd dv := write_at (Z.to_nat off) buf file]> D) (tail kd))
    else Ret (inr e, at_n q s D (tail kd))) as Ep.
  { unfold pwrite. erewrite bind_ret; [|reflexivity]. erewrite bind_ret; [|cbn; rewrite Hf; reflexivity].
    erewrite bind_ret; [|reflexivity]. rewrite (proj2 (Z.ltb_ge _ _)) by (unfold off; lia). cbn. fold e. by destruct (e =? 0). }
  destruct (e =? 0).
  - erewrite bind_ret; [|exact Ep]. cbv iota. erewrite bind_ret; [|apply upd_req_at]. cbv beta. rewrite Eu.
    eexists OHC_OK, _, _, _. split; [reflexivity|]. split_and!; [done..|]. left. split_and!; [done..|].
    eexists. split; [reflexivity|]. apply overwrites_write_at; unfold off in *; lia.
  - erewrite bind_ret; [|exact Ep]. cbv iota. erewrite bind_ret; [|apply upd_req_at].
    eexists OHC_ERROR, _, _, _. split; [reflexivity|]. split_and!; [done..|]. by right.
Qed.

(** The bytes the client sends. *)
Definition rx_bytes (l : list rx) : list Z := concat ((λ e, match e with Recv b => b | RecvErr _ => [] end) <$> l).
Definition rx_fuel (s : sock) : nat := list_sum (rx_size <$> k_rx s).

(** How the loop ends: it waits for more, the body is complete, or it failed. *)
Inductive body_end (item_len : Z) (q0 q : req) (s : sock) : (M (net AS IS PS RS) unit) → Prop :=
  | body_again :
      body_end item_len q0 q s (event_add_read master_epoll_fd tmalloc r H_request_put_read_request_body;; mret tt)
  | body_complete : process_size q = item_len → rq_broken q = rq_broken q0 →
      r_disk_error (rq q) = r_disk_error (rq q0) → q_http_code (r_h (rq q)) = q_http_code (r_h (rq q0)) →
      body_end item_len q0 q s (request_finalize kmalloc master_epoll_fd tmalloc r)
  | body_failed : rq_broken q = true ∨ r_disk_error (rq q) = true ∨ q_http_code (r_h (rq q)) = 400 →
      body_end item_len q0 q s (request_finalize kmalloc master_epoll_fd tmalloc r).

(** The loop, begun with [q], [s] and [file], went on as [o]. *)
Definition body_result (item_len : Z) (q : req) (s : sock) (D : gmap Z (list Z)) (file : list Z)
    (o : outcome (unit * net AS IS PS RS)) : Prop :=
  ∃ (k : M (net AS IS PS RS) unit) q' s' kd' file' bs,
    o = k (at_n q' s' (<[d_fd dv := file']> D) kd') ∧ working q' ∧
    overwrites file file' (it_offset it + process_size q) bs ∧
    process_size q' = process_size q + Z.of_nat (length bs) ∧ process_size q' ≤ item_len ∧
    (∃ rest, rx_bytes (k_rx s) = bs ++ rest) ∧ body_end item_len q q' s' k.

Lemma body_stop item_len q s D file k q' s' kd' :
  D !! d_fd dv = Some file → working q' → process_size q' = process_size q → 0 ≤ process_size q ≤ item_len →
  0 ≤ it_offset it → body_end item_len q q' s' k → body_result item_len q s D file (k (at_n q' s' D kd')).
Proof.
  intros Hf Hw Hp Hps Ho He. exists k, q', s', kd', file, []. rewrite insert_id by done. cbn [length].
  split_and!; try done; try lia. by eexists.
Qed.

(** The bytes [b] were received and written, or none were. *)
Lemma body_more item_len q s D file b q1 s1 file1 o :
  overwrites file file1 (it_offset it + process_size q) b → 0 ≤ process_size q → 0 ≤ it_offset it →
  process_size q1 = process_size q + Z.of_nat (length b) → rx_bytes (k_rx s) = b ++ rx_bytes (k_rx s1) →
  rq_broken q1 = rq_broken q → r_disk_error (rq q1) = r_disk_error (rq q) →
  q_http_code (r_h (rq q1)) = q_http_code (r_h (rq q)) →
  body_result item_len q1 s1 (<[d_fd dv := file1]> D) file1 o → body_result item_len q s D file o.
Proof.
  intros Hov Hps Ho Hp Hrx E1 E2 E3 (k & q' & s' & kd' & file' & bs & -> & Hw' & Hov' & Hp' & Hle & [rest Hrest] & He).
  exists k, q', s', kd', file', (b ++ bs). rewrite insert_insert_eq, length_app. split_and!; try done; try lia.
  - apply (overwrites_trans _ file1); [lia|done|]. rewrite Hp, Z.add_assoc in Hov'. exact Hov'.
  - exists rest. by rewrite Hrx, Hrest, app_assoc.
  - destruct He; [by apply body_again|apply body_complete; congruence|by apply body_failed].
Qed.

Lemma put_loop_spec item_len fuel q s D kd file :
  working q → D !! d_fd dv = Some file → 0 ≤ it_offset it → 0 ≤ process_size q ≤ item_len →
  it_offset it + item_len ≤ Z.of_nat (length file) < 2 ^ 63 → (rx_fuel s < fuel)%nat →
  body_result item_len q s D file (put_body_loop kmalloc master_epoll_fd tmalloc fuel r item_len (at_n q s D kd)).
Proof.
  revert q s D kd file. induction fuel as [|fuel IH]; intros q s D kd file Hw Hf Ho Hps Hlen Hfuel; [lia|].
  cbn [put_body_loop]. erewrite bind_ret; [|apply load_req_at]. pose proof Hw as [Hfd Hitem].
  destruct (Z.ltb_spec (process_size q) item_len) as [Hlt|Hge].
  2:{ eapply body_stop; try done. apply body_complete; [lia|done..]. }
  destruct (recv_at n r fd RECV_BUF_SIZE q s D kd) as (rc & s1 & Er & _ & _ & Hrx).
  rewrite Hfd. erewrite bind_ret; [|exact Er]. unfold rx_fuel in Hfuel.
  destruct (k_rx s) as [|[b|e] l] eqn:El.
  - destruct Hrx as [-> ->]. cbn [Z.eqb EAGAIN Pos.eqb]. eapply body_stop; try done. by apply body_again.
  - destruct Hrx as [-> Hrx]. destruct (take (Z.to_nat RECV_BUF_SIZE) b) as [|a b1] eqn:Et.
    + erewrite bind_ret; [|apply upd_req_at]. eapply body_stop; try done. apply body_failed. by left.
    + set (buf := a :: b1) in *. erewrite bind_ret; [|apply upd_req_at].
      set (q1 := set_rq_input (rq_input q + Z.of_nat (length buf)) q).
      assert (process_size q1 = process_size q) as Eq1 by done. rewrite <- Eq1 in Hps, Hlt |- *.
      assert (u64 (item_len - process_size q1) = item_len - process_size q1) as -> by (apply wrap_small; lia).
      destruct (Z.ltb_spec (item_len - process_size q1) (Z.of_nat (length buf))) as [Hbig|Hfit].
      * erewrite bind_ret; [|apply upd_req_at]. eapply body_stop; try done. apply body_failed. by right; right.
      * assert (working q1) as Hw1 by done.
        destruct (write_disk_spec buf q1 s1 D kd file Hw1 Hf Ho) as (rc & q2 & D' & kd' & Ew & Hw2 & Hb & _ & Hc); [lia|lia|].
        erewrite bind_ret; [|exact Ew]. destruct Hc as [(-> & -> & file1 & -> & Hov)|(-> & -> & Hp & Hde)].
        -- rewrite decide_False by done. apply (body_more item_len q s D file buf (set_process_size (process_size q1 + Z.of_nat (length buf)) q1) s1 file1);
             try done; try lia.
           ++ rewrite El, Hrx. unfold rx_bytes. cbn. rewrite <- (take_drop (Z.to_nat RECV_BUF_SIZE) b) at 1. rewrite Et, <- app_assoc.
              f_equal. by destruct (drop _ b).
           ++ apply IH; [done|apply lookup_insert_eq|done|change (process_size (set_process_size ?v _)) with v; lia| |].
              ** rewrite (overwrites_length file file1 (it_offset it + process_size q1) buf); [done|lia|lia|done].
              ** unfold rx_fuel. rewrite Hrx. rewrite <- (take_drop (Z.to_nat RECV_BUF_SIZE) b) in Hfuel. rewrite Et in Hfuel.
                 revert Hfuel. destruct (drop (Z.to_nat RECV_BUF_SIZE) b); cbn [list_fmap fmap list_sum foldr rx_size]; rewrite length_app; unfold buf; cbn; unfold list_sum; lia.
        -- rewrite decide_True by done. eapply body_stop; try done. apply body_failed. by right; left.
  - destruct Hrx as [-> Hrx]. destruct (Z.eqb_spec e EAGAIN) as [->|Hne]; [eapply body_stop; try done; by apply body_again|].
    destruct (Z.eqb_spec e EINTR) as [->|Hni].
    + apply (body_more item_len q s D file [] q s1 file); try done; try (cbn; lia); [by rewrite El, Hrx|].
      rewrite insert_id by done. apply IH; try done. unfold rx_fuel. rewrite Hrx. cbn in Hfuel. unfold list_sum. lia.
    + erewrite bind_ret; [|apply upd_req_at]. eapply body_stop; try done. apply body_failed. by left.
Qed.

Definition item_len_of (q : req) : Z := q_content_length (r_h (rq q)) + q_put_header_length (r_h (rq q)).

Lemma put_body_run q s D kd file :
  working q → D !! d_fd dv = Some file → 0 ≤ it_offset it → 0 ≤ process_size q ≤ item_len_of q →
  it_offset it + item_len_of q ≤ Z.of_nat (length file) < 2 ^ 63 →
  body_result (item_len_of q) q s D file (request_put_read_request_body kmalloc master_epoll_fd tmalloc r (at_n q s D kd)).
Proof.
  intros Hw Hf Ho Hps Hlen. unfold request_put_read_request_body. erewrite bind_ret; [|apply load_req_at].
  change (_ + _) with (item_len_of q) at 1.
  assert (u64 (item_len_of q) = item_len_of q) as -> by (apply wrap_small; lia).
  erewrite bind_ret; [|apply upd_req_at]. destruct Hw as [Hfd Hx]. rewrite Hfd.
  erewrite bind_ret; [|apply fuel_of_at].
  apply (body_more _ q s D file [] (set_rq_step "ReadBody" q) s file); try done; try (cbn; lia).
  { cbn [length]. change (process_size (set_rq_step _ q)) with (process_size q). lia. }
  rewrite insert_id by done. apply put_loop_spec; try done. unfold socket_fuel, rx_fuel. lia.
Qed.
End putting.

Section put_exact.
Context {AS IS PS RS : Type} `{Allocator AS} `{Allocator IS} `{Allocator PS} `{Allocator RS}.
Context (kmalloc : dstore AS → option Z) (master_epoll_fd : Z) (tmalloc : ohc_timer_t → option Z).
Implicit Types (n : net AS IS PS RS).

End put_exact.

(** ** Ranges *)

(** What the parser lets through. *)
Definition range_ok (start end_ : Z) : Prop :=
  start = RANGE_NO_SET ∧ 0 ≤ end_ ∨ 0 ≤ start ∧ end_ = RANGE_NO_SET ∨ 0 ≤ start ≤ end_.
(** Byte [i] of a body of [body_len] bytes is asked for: [start-end], [start-],
    or [-n], the last [n] bytes. *)
Definition in_range (start end_ body_len i : Z) : Prop :=
  0 ≤ i < body_len ∧
  (if start =? RANGE_NO_SET then body_len - end_ ≤ i
   else start ≤ i ∧ (end_ = RANGE_NO_SET ∨ i ≤ end_)).

Lemma range_of_spec start end_ body_len :
  range_ok start end_ → 0 ≤ body_len →
  let rg := range_of start end_ body_len in
  (rg.1 < body_len → 0 ≤ rg.1 ≤ rg.2 ∧ rg.2 < body_len ∧ ∀ i, in_range start end_ body_len i ↔ rg.1 ≤ i ≤ rg.2) ∧
  (body_len ≤ rg.1 → ∀ i, ¬ in_range start end_ body_len i).
Proof.
  unfold range_ok, range_of, in_range, RANGE_NO_SET. intros Hr Hb. cbn zeta.
  destruct (Z.eqb_spec start (-1)); [destruct (Z.ltb_spec body_len end_)|
    destruct (Z.eqb_spec end_ (-1)); [|destruct (Z.leb_spec body_len end_)]]; cbn [fst snd];
    (split; [intros Ha; split_and!; try lia|]); intros; try lia.
Qed.

Section ranges.
Context {AS IS PS RS : Type} `{Allocator AS} `{Allocator IS} `{Allocator PS} `{Allocator RS}.
Context (kmalloc : dstore AS → option Z) (master_epoll_fd : Z) (tmalloc : ohc_timer_t → option Z).
Implicit Types (n : net AS IS PS RS).

(** A short buffer goes as a whole, or the connection is given up. *)
Lemma send_buffer_spec n r fd buf q s D kd :
  rq_fd q = fd →
  ∃ rc q' s', request_send_buffer r buf (at_ n r fd q s D kd) = Ret (rc, at_ n r fd q' s' D kd) ∧
    rq_fd q' = fd ∧ r_item (rq q') = r_item (rq q) ∧ q_range_start (r_h (rq q')) = q_range_start (r_h (rq q)) ∧
    q_range_end (r_h (rq q')) = q_range_end (r_h (rq q)) ∧ q_http_code (r_h (rq q')) = q_http_code (r_h (rq q)) ∧
    process_size q' = process_size q ∧ k_rx s' = k_rx s ∧
    (rc = OHC_OK ∧ k_sent s' = k_sent s ++ buf ∧ rq_output q' = rq_output q + Z.of_nat (length buf) ∨
     rc = OHC_ERROR ∧ rq_broken q' = true).
Proof.
  intros Hfd. unfold request_send_buffer. erewrite bind_ret; [|apply load_req_at]. rewrite Hfd.
  erewrite bind_ret; [|apply fuel_of_at].
  destruct (interupted_at n r fd (socket_fuel s) (send fd buf) buf q s D kd) as (rc & s' & E & Hrx & Hc).
  { done. } { unfold socket_fuel. lia. }
  erewrite bind_ret; [|exact E]. cbv zeta. destruct rc as [k|e].
  - destruct Hc as [Hk Hs]. destruct (Z.eqb_spec k (Z.of_nat (length buf))) as [->|Hne].
    + erewrite bind_ret; [|apply upd_req_at]. eexists OHC_OK, _, s'. split; [reflexivity|]. cbn. split_and!; try done. left.
      split_and!; try done. rewrite Hs, Nat2Z.id. by rewrite firstn_all.
    + erewrite bind_ret; [|apply upd_req_at]. eexists OHC_ERROR, _, s'. split; [reflexivity|]. cbn. split_and!; try done. by right.
  - erewrite bind_ret; [|apply upd_req_at]. eexists OHC_ERROR, _, s'. split; [reflexivity|]. cbn. split_and!; try done. by right.
Qed.

End ranges.

(** ** The buffer of a request *)

Lemma buf_store_length buf pos data : (pos + length data ≤ length buf)%nat → length (buf_store buf pos data) = length buf.
Proof. intros. unfold buf_store. rewrite !length_app, length_take, length_drop. lia. Qed.
Lemma buf_store_take buf pos data :
  (pos + length data ≤ length buf)%nat → take (pos + length data) (buf_store buf pos data) = take pos buf ++ data.
Proof. intros. unfold buf_store. rewrite app_assoc, take_app_length'; [done|]. rewrite length_app, length_take. lia. Qed.

Section header.
Context {AS IS PS RS : Type} `{Allocator AS} `{Allocator IS} `{Allocator PS} `{Allocator RS}.
Context (MD5 : list Z → md5_id) (kmalloc : dstore AS → option Z) (calloc_ok : sstore AS IS PS → bool).
Context (master_epoll_fd : Z) (tmalloc : ohc_timer_t → option Z) (mktime : tm → Z → option (Z * Z)) (isdst : Z).
Implicit Types (n : net AS IS PS RS).

(** There is room for the bytes to come and for the NUL behind them. *)
Definition buf_ok (q : req) : Prop :=
  Z.of_nat (length (r_buf (rq q))) = REQ_BUF_SIZE ∧ Z.of_nat (rq_pos q) < REQ_BUF_SIZE - 1.

(** The bytes [data] came: they are behind what was there, and a NUL behind
    them. *)
Record received (q q' : req) (data : list Z) : Prop := {
  rv_len : length (r_buf (rq q')) = length (r_buf (rq q));
  rv_pos : rq_pos q' = (rq_pos q + length data)%nat;
  rv_data : take (rq_pos q') (r_buf (rq q')) = take (rq_pos q) (r_buf (rq q)) ++ data;
  rv_nul : r_buf (rq q') !! rq_pos q' = Some 0
}.

(** Waiting for a signal is repeated until there is an answer. *)
Lemma recv_spec n r fd room fuel q s D kd :
  0 < room → (list_sum (rx_size <$> k_rx s) < fuel)%nat →
  ∃ rc s', interupted fuel (recv fd room) (at_ n r fd q s D kd) = Ret (rc, at_ n r fd q s' D kd) ∧ k_sent s' = k_sent s ∧
    match rc with
    | inl data => Z.of_nat (length data) ≤ room ∧ rx_bytes (k_rx s) = data ++ rx_bytes (k_rx s')
    | inr e => e ≠ EINTR ∧ rx_bytes (k_rx s) = rx_bytes (k_rx s')
    end.
Proof.
  intros Hroom. revert s. induction fuel as [|fuel IH]; intros s Hf; [lia|]. cbn [interupted].
  destruct (recv_at n r fd room q s D kd) as (rc & s1 & E & _ & Hsent & Hc). erewrite bind_ret; [|exact E].
  destruct (k_rx s) as [|[b|e] l] eqn:El.
  - destruct Hc as [-> ->]. exists (inr EAGAIN), s. split_and!; try done. by rewrite El.
  - destruct Hc as [-> Hrx]. eexists (inl _), s1. split_and!; [done|done|rewrite length_take; lia|].
    rewrite Hrx. unfold rx_bytes. cbn. rewrite <- (take_drop (Z.to_nat room) b) at 1. rewrite <- app_assoc. f_equal.
    by destruct (drop _ b).
  - destruct Hc as [-> Hrx]. destruct (Z.eqb_spec e EINTR) as [->|Hne].
    + destruct (IH s1) as (rc & s' & E' & Hs' & Hc'); [cbn in Hf; rewrite Hrx; unfold list_sum; lia|].
      exists rc, s'. rewrite E'. split; [done|]. split; [congruence|]. rewrite Hrx in Hc'. by destruct rc.
    + exists (inr e), s1. split_and!; try done. by rewrite Hrx.
Qed.

(** What [request_read_request_header] goes on with after [recv] answered [rc]. *)
Definition header_rest (r : Z) (q : req) (rc : list Z + Z) : M (net AS IS PS RS) unit :=
  let again := event_add_read master_epoll_fd tmalloc r H_request_read_request_header;; mret tt in
  match rc with
  | inr e => if e =? EAGAIN then again else
      upd_req r (λ q, set_rq_broken true (set_rq_errno e (error_reason "ReceiveError" q)));;
      request_finalize kmalloc master_epoll_fd tmalloc r
  | inl [] => upd_req r (λ q, set_rq_broken true (error_reason "ClientClose" q));; request_finalize kmalloc master_epoll_fd tmalloc r
  | inl data =>
      let pos := (rq_pos q + length data)%nat in
      let buf := buf_store (r_buf (rq q)) (rq_pos q) data in
      sv ← with_cache (load_srv (r_server (rq q)));
      n ← get;
      p ← (λ n', a ← http_request_parse mktime isdst (timer_now (master_timer n)) (s_expire_force sv)
                       buf pos (r_h (rq q)); Ret (a, n'));
      upd_req r (λ q, set_rq_active true (set_rq_pos pos (set_rq_input (rq_input q + Z.of_nat (length data))
        (set_rq (set_r_h p.2 (set_r_buf (<[pos := 0]> buf) (rq q))) q))));;
      if decide (p.1 = OHC_AGAIN) then
        if REQ_BUF_SIZE - 1 <=? Z.of_nat pos then
          upd_req r (λ q, set_http_code 400 (error_reason "RequestHeadTooBig" q));; request_finalize kmalloc master_epoll_fd tmalloc r
        else again
      else if decide (p.1 = OHC_ERROR) then request_finalize kmalloc master_epoll_fd tmalloc r
      else request_serve MD5 kmalloc calloc_ok master_epoll_fd tmalloc r
  end.

Lemma header_run n r q s :
  n_reqs n !! r = Some q → n_socks n !! rq_fd q = Some s → Z.of_nat (rq_pos q) < REQ_BUF_SIZE - 1 →
  let q0 := set_rq_step "ReadHeader" q in
  ∃ rc s', k_sent s' = k_sent s ∧
    request_read_request_header MD5 kmalloc calloc_ok master_epoll_fd tmalloc mktime isdst r n =
      header_rest r q0 rc (at_ n r (rq_fd q) q0 s' (n_disks n) (k_disk n)) ∧
    match rc with
    | inl data => Z.of_nat (rq_pos q + length data) < REQ_BUF_SIZE ∧ rx_bytes (k_rx s) = data ++ rx_bytes (k_rx s')
    | inr e => rx_bytes (k_rx s) = rx_bytes (k_rx s')
    end.
Proof.
  intros Er Es Hpos q0. pose proof (at_start n r (rq_fd q) q s Er Es) as En.
  destruct (recv_spec n r (rq_fd q) (REQ_BUF_SIZE - Z.of_nat (rq_pos q) - 1) (socket_fuel s) q0 s (n_disks n) (k_disk n))
    as (rc & s' & E & Hsent & Hc); [lia|unfold socket_fuel; lia|].
  exists rc, s'. split; [done|]. split.
  - transitivity (request_read_request_header MD5 kmalloc calloc_ok master_epoll_fd tmalloc mktime isdst r
      (at_ n r (rq_fd q) q s (n_disks n) (k_disk n))); [by rewrite <- En|].
    unfold request_read_request_header. erewrite bind_ret; [|apply upd_req_at]. erewrite bind_ret; [|apply load_req_at].
    erewrite bind_ret; [|apply fuel_of_at]. erewrite bind_ret; [|exact E]. reflexivity.
  - destruct rc as [data|e]; [|by destruct Hc]. destruct Hc. split; [lia|done].
Qed.

(** The bytes are stored and parsed. *)
Lemma header_received (q q0 : req) data h :
  buf_ok q → r_buf (rq q0) = r_buf (rq q) → rq_pos q0 = rq_pos q → Z.of_nat (rq_pos q + length data) < REQ_BUF_SIZE →
  received q (set_rq_active true (set_rq_pos (rq_pos q0 + length data) (set_rq_input (rq_input q0 + Z.of_nat (length data))
    (set_rq (set_r_h h (set_r_buf (<[(rq_pos q0 + length data)%nat := 0]> (buf_store (r_buf (rq q0)) (rq_pos q0) data)) (rq q0))) q0)))) data.
Proof.
  intros [Hbl Hpos] -> -> Hlt. assert (rq_pos q + length data < length (r_buf (rq q)))%nat by lia.
  assert (length (buf_store (r_buf (rq q)) (rq_pos q) data) = length (r_buf (rq q))) as Hbuf by (apply buf_store_length; lia).
  split; cbn [rq r_buf rq_pos set_rq_active set_rq_pos set_rq_input set_rq set_r_h set_r_buf]; [|done| |].
  - by rewrite length_insert.
  - rewrite take_insert_ge by lia. apply buf_store_take. lia.
  - apply list_lookup_insert_eq. lia.
Qed.

Lemma at_reads n r fd q s D kd :
  let n' := at_ n r fd q s D kd in n_reqs n' !! r = Some q ∧ n_socks n' !! fd = Some s ∧ n_st n' = n_st n.
Proof. cbn. by rewrite !lookup_insert_eq. Qed.

(** C14: the buffer of a request is never overrun.  Reading a header asks for at
    least one byte and at most what leaves room for the NUL; what comes is put
    behind what was there.  Then the request waits for more with room left, or
    is served or finished; only the parser can fault, on the bytes it is given. *)
Theorem request_header_bounds n r q s sv :
  n_reqs n !! r = Some q → n_socks n !! rq_fd q = Some s → srvs (n_st n) !! r_server (rq q) = Some sv → buf_ok q →
  ∃ n' q' s' data, n_reqs n' !! r = Some q' ∧ n_socks n' !! rq_fd q = Some s' ∧ n_st n' = n_st n ∧
    rx_bytes (k_rx s) = data ++ rx_bytes (k_rx s') ∧ k_sent s' = k_sent s ∧
    let run := request_read_request_header MD5 kmalloc calloc_ok master_epoll_fd tmalloc mktime isdst r n in
    let again := event_add_read master_epoll_fd tmalloc r H_request_read_request_header;; mret tt in
    (data = [] ∧ r_buf (rq q') = r_buf (rq q) ∧ rq_pos q' = rq_pos q ∧
       (run = again n' ∨ run = request_finalize kmalloc master_epoll_fd tmalloc r n' ∧ rq_broken q' = true) ∨
     received q q' data ∧ Z.of_nat (rq_pos q') < REQ_BUF_SIZE ∧
       (run = again n' ∧ buf_ok q' ∨ run = request_finalize kmalloc master_epoll_fd tmalloc r n' ∨
        run = request_serve MD5 kmalloc calloc_ok master_epoll_fd tmalloc r n') ∨
     ∃ f, run = Fail f ∧ http_request_parse mktime isdst (timer_now (master_timer n)) (s_expire_force sv)
            (buf_store (r_buf (rq q)) (rq_pos q) data) (rq_pos q + length data) (r_h (rq q)) = Fail f).
Proof.
  intros Er Es Esv Hok. destruct (header_run n r q s Er Es (proj2 Hok)) as (rc & s' & Hsent & Erun & Hc). cbv zeta.
  set (q0 := set_rq_step "ReadHeader" q) in *. set (at' := λ q', at_ n r (rq_fd q) q' s' (n_disks n) (k_disk n)).
  assert (∀ q', n_reqs (at' q') !! r = Some q' ∧ n_socks (at' q') !! rq_fd q = Some s' ∧ n_st (at' q') = n_st n) as Hat
    by (intros q'; apply at_reads).
  set (run := request_read_request_header _ _ _ _ _ _ _ r n) in *. clearbody run. unfold header_rest in Erun. cbv zeta in Erun.
  destruct rc as [[|c data]|e].
  - destruct Hc as [_ Hrx]. erewrite bind_ret in Erun; [|apply upd_req_at].
    eexists (at' _), _, s', []. destruct (Hat (set_rq_broken true (error_reason "ClientClose" q0))) as (? & ? & ?).
    split_and!; [eassumption..|done|done|]. left. split_and!; [done..|]. right. split; [exact Erun|done].
  - destruct Hc as [Hroom Hrx]. set (bs := c :: data) in *.
    erewrite bind_ret in Erun; [|apply with_cache_at, load_srv_run; exact Esv]. erewrite bind_ret in Erun; [|reflexivity].
    change (master_timer (at_ n r (rq_fd q) q0 s' (n_disks n) (k_disk n))) with (master_timer n) in Erun.
    destruct (http_request_parse mktime isdst (timer_now (master_timer n)) (s_expire_force sv) (buf_store (r_buf (rq q0)) (rq_pos q0) bs)
      (rq_pos q0 + length bs) (r_h (rq q0))) as [[rc h]|f] eqn:Ep.
    2:{ exists (at' q0), q0, s', bs. destruct (Hat q0) as (? & ? & ?). split_and!; [done..|]. right; right. exists f.
        split; [|exact Ep]. rewrite Erun. erewrite bind_fail; reflexivity. }
    erewrite bind_ret in Erun; [|reflexivity]. erewrite bind_ret in Erun; [|apply upd_req_at]. cbn [fst snd] in Erun.
    pose proof (header_received q q0 bs h Hok eq_refl eq_refl Hroom) as Hrv. set (q1 := set_rq_active true _) in Erun, Hrv.
    assert (Z.of_nat (rq_pos q1) < REQ_BUF_SIZE) as Hp1 by exact Hroom. clearbody bs.
    assert (∀ q2, r_buf (rq q2) = r_buf (rq q1) → rq_pos q2 = rq_pos q1 → received q q2 bs) as Hrv2
      by (intros q2 E1 E2; destruct Hrv; split; by rewrite ?E1, ?E2).
    destruct (decide (rc = OHC_AGAIN)) as [->|Hna]; [destruct (Z.leb_spec (REQ_BUF_SIZE - 1) (Z.of_nat (rq_pos q0 + length bs)))|].
    + erewrite bind_ret in Erun; [|apply upd_req_at]. set (q2 := set_http_code 400 (error_reason "RequestHeadTooBig" q1)) in *.
      exists (at' q2), q2, s', bs. destruct (Hat q2) as (? & ? & ?). split_and!; [done..|]. right; left.
      split; [by apply Hrv2|]. split; [exact Hp1|]. right; left. exact Erun.
    + exists (at' q1), q1, s', bs. destruct (Hat q1) as (? & ? & ?). split_and!; [done..|]. right; left.
      split; [exact Hrv|]. split; [exact Hp1|]. left. split; [exact Erun|]. split; [|done]. by rewrite (rv_len _ _ _ Hrv), (proj1 Hok).
    + exists (at' q1), q1, s', bs. destruct (Hat q1) as (? & ? & ?). split_and!; [done..|]. right; left.
      split; [exact Hrv|]. split; [exact Hp1|]. right. destruct (decide (rc = OHC_ERROR)); [left|right]; exact Erun.
  - destruct (e =? EAGAIN).
    + exists (at' q0), q0, s', []. destruct (Hat q0) as (? & ? & ?). split_and!; [done..|]. left. split_and!; [done..|]. by left.
    + erewrite bind_ret in Erun; [|apply upd_req_at]. set (q1 := set_rq_broken true (set_rq_errno e (error_reason "ReceiveError" q0))) in *.
      exists (at' q1), q1, s', []. destruct (Hat q1) as (? & ? & ?). split_and!; [done..|]. left. split_and!; [done..|].
      right. split; [exact Erun|done].
Qed.
End header.

(** ** A disk error in a GET *)

(** C38: an error of the device in a GET stops the program.  When the first read
    of the item a complete GET asks for fails, no byte was sent and the code is
    still 200, for which there is no page: [request_finalize] follows the NULL
    that [http_code_page] answers. *)
Theorem request_get_eio {AS IS PS RS} `{Allocator AS} `{Allocator IS} `{Allocator PS} `{Allocator RS}
    kmalloc master_epoll_fd tmalloc (n : net AS IS PS RS) r q s l x it d dv file :
  n_reqs n !! r = Some q → n_socks n !! rq_fd q = Some s → k_tx s = SendErr EIO :: l →
  r_item (rq q) = Some x → on_device (n_st n) x it d dv → n_disks n !! d_fd dv = Some file →
  0 ≤ it_offset it < 2 ^ 63 → process_size q = 0 →
  rq_broken q = false → rq_output q = 0 → q_http_code (r_h (rq q)) = 200 →
  request_get_write_response kmalloc master_epoll_fd tmalloc r n = Fail NullPtr.
Proof.
  intros Er Es Et Ex Hod Hf Ho Hps Hb Hout Hcode. rewrite (at_start n r (rq_fd q) q s Er Es).
  set (q0 := set_rq_step "WriteResponse" q).
  destruct (device_of_item_at n r (rq_fd q) _ x it d dv q0 s (n_disks n) (k_disk n) eq_refl Hod) as (E1 & E2 & E3).
  unfold request_get_write_response. erewrite bind_ret; [|apply load_req_at]. erewrite bind_ret; [|apply upd_req_at]. fold q0.
  unfold load_item_of. rewrite Ex. erewrite bind_ret; [|erewrite bind_ret; [|reflexivity]; exact E3].
  set (len := if decide (q_method (r_h (rq q)) = METHOD_HEAD) then it_headers_len it else it_length it).
  set (q1 := set_rq_errno EIO (error_reason "SendfileError" (set_disk_error true q0))).
  assert (request_send_file r (it_offset it) len (at_ n r (rq_fd q) q0 s (n_disks n) (k_disk n)) =
    Ret (OHC_ERROR, at_ n r (rq_fd q) q1 (set_k_tx l s) (n_disks n) (k_disk n))) as Ef.
  { unfold request_send_file. erewrite bind_ret; [|apply load_req_at]. change (r_item (rq q0)) with (r_item (rq q)). rewrite Ex.
    erewrite bind_ret; [|reflexivity]. erewrite bind_ret; [|exact E1]. erewrite bind_ret; [|exact E2].
    change (process_size q0) with (process_size q). rewrite Hps, Z.add_0_r.
    assert (i64 (it_offset it) = it_offset it) as -> by (apply swrap_small; [lia|]; change (64 - 1) with 63; lia).
    erewrite bind_ret; [|apply fuel_of_at]. unfold socket_fuel. cbn [interupted].
    erewrite bind_ret; [|erewrite bind_ret; [|unfold sendfile; erewrite bind_ret; [|reflexivity];
      erewrite bind_ret; [|cbn; rewrite Hf; reflexivity]; rewrite (proj2 (Z.ltb_ge _ _)) by lia;
      unfold transmit; erewrite bind_ret; [|apply load_sock_at]; rewrite Et; erewrite bind_ret; [|apply upd_sock_at]; reflexivity];
      reflexivity].
    cbn [Z.eqb EIO EAGAIN Pos.eqb]. erewrite bind_ret; [|apply upd_req_at]. reflexivity. }
  erewrite bind_ret; [|exact Ef]. rewrite decide_False by done. unfold request_finalize.
  erewrite bind_ret; [|apply load_req_at]. change (rq_broken q1) with (rq_broken q). change (rq_output q1) with (rq_output q).
  change (q_http_code (r_h (rq q1))) with (q_http_code (r_h (rq q))). rewrite Hb, Hout, Hcode. reflexivity.
Qed.

(** ** A connection to a server that is destroyed *)

Section stale.
Context {AS IS PS RS : Type} `{Allocator AS} `{Allocator IS} `{Allocator PS} `{Allocator RS}.
Implicit Types n : net AS IS PS RS.

Lemma load_req_run r q n : n_reqs n !! r = Some q → load_req r n = Ret (q, n).
Proof. intros E. unfold load_req. erewrite bind_ret; [|reflexivity]. by rewrite E. Qed.

Lemma upd_req_run r f q n :
  n_reqs n !! r = Some q →
  ∃ n', upd_req r f n = Ret (tt, n') ∧ n_reqs n' !! r = Some (f q) ∧ master_timer n' = master_timer n ∧ n_st n' = n_st n.
Proof.
  intros E. unfold upd_req. erewrite bind_ret; [|by apply load_req_run]. eexists. split; [reflexivity|].
  cbn. by rewrite lookup_alter_eq, E.
Qed.

Lemma event_del_run master_epoll_fd r q n :
  n_reqs n !! r = Some q → rq_worker q = None → timer_linked (master_timer n) r = true →
  ∃ n', event_del master_epoll_fd r n = Ret (tt, n') ∧ n_st n' = n_st n.
Proof.
  intros E Hw Ht. unfold event_del. erewrite bind_ret; [|by apply load_req_run].
  destruct (rq_events q =? 0); [by exists n|]. rewrite Hw. cbn [thread_epoll_fd]. erewrite bind_ret; [|reflexivity].
  erewrite bind_ret; [|reflexivity].
  erewrite bind_ret; [|unfold timer_step; cbn [thread_timer]; erewrite bind_ret; [|erewrite bind_ret; reflexivity];
    erewrite bind_ret; [|unfold timer_del; cbn; rewrite Ht; reflexivity]; erewrite bind_ret; reflexivity].
  edestruct (upd_req_run r (set_rq_events 0) q) as (n' & E' & _ & _ & S'); [|by exists n'; rewrite E', S'].
  done.
Qed.
End stale.

(** C39: a connection outlives its server.  [server_destroy] frees a deleted
    server as soon as it has no items, whether or not connections to it are open.
    A request of such a connection that holds no item, as one that waits for its
    next request does, keeps the pointer, and its timeout follows it into freed
    memory. *)
Theorem server_destroy_dangles {AS IS PS RS} `{Allocator AS} `{Allocator IS} `{Allocator PS} `{Allocator RS}
    kmalloc master_epoll_fd tmalloc (n : net AS IS PS RS) G P s sv r q :
  (∀ ds a, kmalloc ds = Some a → devs ds !! a = None) →
  cache_inv (n_st n) None G P → srvs (n_st n) !! s = Some sv → s_item_nr sv = 0 → s_passby_item_nr sv = 0 →
  n_reqs n !! r = Some q → r_server (rq q) = s → r_item (rq q) = None → rq_worker q = None →
  timer_linked (master_timer n) r = true →
  ∃ n1, with_cache (server_destroy kmalloc s) n = Ret (tt, n1) ∧
    request_timeout_handler kmalloc master_epoll_fd tmalloc r n1 = Fail Dangling.
Proof.
  intros Hkm Hi Es Hn Hp Er Hs Hit Hw Ht.
  destruct (server_destroy_spec kmalloc Hkm s sv (n_st n) G P Hi Es) as (st' & E & _ & _ & _ & Hgone & _).
  specialize (Hgone Hn Hp). exists (set_n_st st' n). unfold with_cache. rewrite E. split; [done|].
  destruct (upd_req_run r (λ q, set_rq_broken true (error_reason "Timeout" q)) q (set_n_st st' n) Er) as (n1 & E1 & Er1 & T1 & S1).
  unfold request_timeout_handler. erewrite bind_ret; [|exact E1]. set (q1 := set_rq_broken true _) in *.
  unfold request_finalize. erewrite bind_ret; [|by apply load_req_run]. change (rq_broken q1) with true.
  change (rq_worker q1) with (rq_worker q). rewrite Hw. cbn [negb andb]. erewrite bind_ret; [|reflexivity].
  unfold request_do_finalize. erewrite bind_ret; [|by apply load_req_run]. cbv zeta.
  erewrite bind_ret; [|unfold with_cache, server_request_finalize; change (r_item (rq q1)) with (r_item (rq q)); rewrite Hit; reflexivity].
  destruct (upd_req_run r (set_rq (rq q1)) q1 (set_n_st (n_st n1) n1) Er1) as (n2 & E2 & Er2 & T2 & S2).
  erewrite bind_ret; [|exact E2].
  destruct (event_del_run master_epoll_fd r (set_rq (rq q1) q1) n2 Er2) as (n3 & E3 & S3); [done|rewrite T2; cbn; by rewrite T1|].
  erewrite bind_ret; [|exact E3]. apply bind_fail. change (r_server (rq q1)) with (r_server (rq q)). rewrite Hs.
  assert (srvs (n_st n3) !! s = None) as Hnone by (rewrite S3, S2; cbn; by rewrite S1).
  assert (load_srv s (n_st n3) = Fail Dangling) as Hld by (unfold load_srv; erewrite bind_ret; [|reflexivity]; by rewrite Hnone).
  unfold with_cache, upd_srv. by erewrite bind_fail.
Qed.

(** *** A worker with the item of the small cache *)

#[local] Existing Instance CacheProofs.demo_alloc.
Definition demo_file : list Z := replicate (Z.to_nat 1048576) 7.
Definition demo_get (code : Z) (x : Z) (range : bool) (start end_ : Z) : req :=
  Req (Request 60 (HReq METHOD_GET 2940 range start end_ None (Some (Str 4 2)) None None [] 60 0 true code None)
         (replicate 4096 0) (Some x) 0 false)
    (Some 1) 0 true false false 100 0 0 0 EmptyString None 0 9.
Definition demo_socket (l : list tx) : sock := Sock [] l [].
Definition work_net (q : req) (s : sock) : net ohc_slab_t ohc_slab_t ohc_slab_t ohc_slab_t :=
  NetSt (y_st (lf_y demo4)) {[500 := q]} (OHC_SLAB_INIT 65000) [] 1 ∅ RNull 0 0 (timer_init 100 ∅) {[9 := s]} ∅
    {[3 := demo_file]} [] [] [].

Lemma demo_on_device : ∃ it d dv, on_device (y_st (lf_y demo4)) demo_old it d dv ∧ d_fd dv = 3 ∧
  it_offset it = 1045504 ∧ it_length it = 3000 ∧ it_headers_len it = 60.
Proof.
  destruct (item_mem (dst (y_st (lf_y demo4))) !! demo_old) as [it|] eqn:E; [|by vm_compute in E].
  pose proof (demo_inv demo4 demo4_reach) as Hi.
  destruct (io_dev _ _ _ (ci_item _ _ _ _ Hi demo_old it E)) as (d & dv & Hr & _).
  assert ((λ it, (it_offset it, it_length it, it_headers_len it)) <$> item_mem (dst (y_st (lf_y demo4))) !! demo_old =
    Some (1045504, 3000, 60)) as Ef by (vm_compute; reflexivity).
  rewrite E in Ef. injection Ef as E1 E2 E3. exists it, d, dv. split; [constructor; [exact E|exact Hr]|]. split; [|split; [exact E1|split; [exact E2|exact E3]]].
  assert (bool_decide (map_Forall (λ _ dv, d_fd dv = 3) (devs (dst (y_st (lf_y demo4))))) = true) as Hall by (vm_compute; reflexivity).
  rewrite bool_decide_eq_true in Hall. destruct Hr as (_ & Ed & _). exact (Hall d dv Ed).
Qed.
Lemma demo_file_length : Z.of_nat (length demo_file) = 1048576.
Proof. unfold demo_file. rewrite length_replicate. by apply Z2Nat.id. Qed.

Lemma request_get_eio_witness :
  request_get_write_response demo_kmalloc 5 (λ _, None) 500 (work_net (demo_get 200 demo_old false 0 0) (demo_socket [SendErr EIO]))
    = Fail NullPtr.
Proof.
  destruct demo_on_device as (it & d & dv & Hod & Efd & Eo & _).
  apply (request_get_eio demo_kmalloc 5 (λ _, None) (work_net (demo_get 200 demo_old false 0 0) (demo_socket [SendErr EIO])) 500
    (demo_get 200 demo_old false 0 0) (demo_socket [SendErr EIO]) [] demo_old it d dv demo_file);
    first [exact Hod | rewrite Efd; reflexivity | rewrite Eo; split; [discriminate|reflexivity] | reflexivity].
Defined.

(** The empty cache with its server, and a connection to it that ran out. *)
Definition idle_req : req :=
  Req (Request 60 (HReq METHOD_GET 0 false 0 0 None (Some (Str 4 2)) None None [] 60 0 true 200 None)
         (replicate 4096 0) None 0 false)
    None 1 false false false 100 0 0 0 EmptyString None 0 9.
Definition idle_net : net ohc_slab_t ohc_slab_t ohc_slab_t ohc_slab_t :=
  NetSt (y_st (lf_y demo1)) {[500 := idle_req]} (OHC_SLAB_INIT 65000) [500] 1 ∅ RNull 0 0 (Timer [] [500] 100 ∅)
    {[9 := demo_socket []]} ∅ ∅ [] [] [].
Lemma server_destroy_dangles_witness :
  ∃ n1, with_cache (server_destroy demo_kmalloc 60) idle_net = Ret (tt, n1) ∧
    request_timeout_handler demo_kmalloc 5 (λ _, None) 500 n1 = Fail Dangling.
Proof.
  assert (match srvs (y_st (lf_y demo1)) !! 60 with Some sv => (s_item_nr sv =? 0) && (s_passby_item_nr sv =? 0) | None => false end = true)
    as Hb by (vm_compute; reflexivity).
  destruct (srvs (y_st (lf_y demo1)) !! 60) as [sv|] eqn:Es; [|discriminate Hb].
  apply andb_true_iff in Hb as [H1 H2].
  apply (server_destroy_dangles demo_kmalloc 5 (λ _, None) idle_net (getters (lf_holds demo1)) (putters (lf_holds demo1)) 60 sv 500 idle_req).
  - exact demo_kmalloc_fresh.
  - exact (demo_inv demo1 demo1_reach).
  - exact Es.
  - exact (proj1 (Z.eqb_eq _ _) H1).
  - exact (proj1 (Z.eqb_eq _ _) H2).
  - reflexivity.
  - reflexivity.
  - reflexivity.
  - reflexivity.
  - reflexivity.
Defined.

Definition get_req : req := demo_get 200 demo_old true 0 99.
Lemma demo_send_done : ∃ n', request_send_file 500 1045504 3000 (work_net get_req (demo_socket [SendErr EINTR; Sent 5000])) = Ret (OHC_OK, n').
Proof.
  assert (match request_send_file 500 1045504 3000 (work_net get_req (demo_socket [SendErr EINTR; Sent 5000])) with
          | Ret (rc, _) => bool_decide (rc = OHC_OK) | Fail _ => false end = true) as Hb by (vm_compute; reflexivity).
  destruct (request_send_file 500 1045504 3000 (work_net get_req (demo_socket [SendErr EINTR; Sent 5000]))) as [[rc n']|]; [|discriminate Hb].
  rewrite bool_decide_eq_true in Hb. rewrite Hb. exists n'. reflexivity.
Qed.
Lemma request_send_file_exact_witness :
  ∃ (n' : net ohc_slab_t ohc_slab_t ohc_slab_t ohc_slab_t) q' s', n_reqs n' !! 500 = Some q' ∧ n_socks n' !! rq_fd q' = Some s' ∧
    k_sent s' = [] ++ slice demo_file (1045504 + 0) (process_size q' - 0).
Proof.
  destruct demo_on_device as (it & d & dv & Hod & Efd & Eo & _). destruct demo_send_done as [n' E].
  destruct (request_send_file_exact (work_net get_req (demo_socket [SendErr EINTR; Sent 5000])) 500 1045504 3000 demo_file
    get_req (demo_socket [SendErr EINTR; Sent 5000]) OHC_OK n') as (q' & s' & Er & Es & _ & Hs & _).
  - constructor; [reflexivity|reflexivity| | |].
    + exists demo_old, it, d, dv. split; [reflexivity|]. split; [exact Hod|]. rewrite Efd. reflexivity.
    + rewrite demo_file_length. lia.
    + change (process_size get_req) with 0. lia.
  - apply sends_end; [exact E|discriminate].
  - exists n', q', s'. exact (conj Er (conj Es Hs)).
Defined.



Lemma request_header_bounds_witness :
  ∃ (n' : net ohc_slab_t ohc_slab_t ohc_slab_t ohc_slab_t) q', n_reqs n' !! 500 = Some q'.
Proof.
  destruct (demo_put_ok demo4) as [Es _]; [vm_compute; reflexivity..|].
  destruct (request_header_bounds Hash.toy_md5 demo_kmalloc (λ _, true) 5 (λ _, None) (λ _ _, None) 0
    (work_net get_req (Sock [Recv (bytes "GET /a HTTP/1.1")] [] [])) 500 get_req (Sock [Recv (bytes "GET /a HTTP/1.1")] [] [])
    (demo_server demo4)) as (n' & q' & s' & data & Er & _).
  - reflexivity.
  - reflexivity.
  - exact Es.
  - vm_compute. split; reflexivity.
  - exists n', q'. exact Er.
Defined.
