(* ===== verification/Jstore.v ===== *)
(** * nginx-jstore: the nginx module that stores responses in the cache

    When a cache answered 404 and a back end then answered with a body, the
    module copies the body on its way to the client, and when it is complete
    posts it to the cache by a subrequest.  It consists of an access handler and
    of a filter for the header and one for the body of a response, which nginx
    calls; here they are functions on the state of one request.

    What belongs to nginx is a parameter: what its allocators answer, the size
    and kind of a buffer, reading a file, and the next filters, which may consume
    the buffers they are given.  [trace] lists the calls that matter to a client
    or to the cache.  A copied byte is [None] until something is written to it. *)

From stdpp Require Import prelude fin_maps gmap.
From S2P Require Import Prelude.

(** ** Data *)

Inductive ngx_rc := NGX_OK | NGX_DECLINED | NGX_ERROR | NGX_RC (x : Z).
#[global] Instance ngx_rc_eq : EqDecision ngx_rc.
Proof. solve_decision. Defined.

(** The fields of [ngx_buf_t] the module uses; [b_flags] are the other ones. *)
Record ngx_buf_t := NgxBuf {
  b_pos : Z; b_last : Z;
  b_file_pos : Z; b_file_last : Z;
  b_sync : bool; b_memory : bool; b_in_file : bool;
  b_file : option Z;
  b_flags : Z
}.

Abbreviation jbuf := (list (option Z)).

Record ngx_http_jstore_ctx_t := JCtx {
  buf_chain : list jbuf;
  copied_length : Z;
  subr_sent : bool;
  store_enable : bool
}.

(** [None]: [target.data] is NULL, or the value is not set. *)
Record ngx_http_jstore_loc_conf_t := JConf {
  target : option (list Z);
  max_size : option Z;
  check_cacheable : option Z
}.

(** The upstream of a request.  [u_headers] are the header lines, one after the
    other in memory, and [u_cache_control] the array of pointers to those that
    are Cache-Control ([None]: the array was never allocated). *)
Record ngx_upstream := Upstream {
  u_status : Z;
  u_chunked : bool;
  u_cacheable : bool;
  u_headers : list (list Z);
  u_cache_control : option (list nat);
  u_expires : option (list Z);
  u_pipe_done : option bool;
  u_length : Z
}.

Record subrequest := Subr {
  sr_method_name : Z * Z;       (* data and length *)
  sr_headers : list (list Z);
  sr_content_length_n : Z;
  sr_variables : bool;          (* not NULL *)
  sr_body : list jbuf
}.

Inductive action :=
  | NextHeader
  | NextBody (chain : list Z)
  | Subrequest
  | NamedLocation (sr : subrequest) (where_to : option (list Z)).

Record request := Req {
  r_is_main : bool;
  r_method_data : Z;
  r_ctx : option ngx_http_jstore_ctx_t;
  r_conf : option ngx_http_jstore_loc_conf_t;
  r_upstream : option ngx_upstream;
  r_valid_sec : option Z;       (* r->cache->valid_sec *)
  r_length : Z;                 (* headers_out.content_length_n *)
  r_status : Z;
  r_range : bool;               (* headers_in.range is set *)
  r_allow_ranges : bool;
  r_header_only : bool;
  r_count : Z;
  r_bufs : gmap Z ngx_buf_t;
  r_mem : Z → Z;
  r_offsets : gmap Z Z;         (* file->offset *)
  trace : list action
}.

Definition set_ctx (c : option ngx_http_jstore_ctx_t) (r : request) : request :=
  Req (r_is_main r) (r_method_data r) c (r_conf r) (r_upstream r) (r_valid_sec r) (r_length r) (r_status r)
    (r_range r) (r_allow_ranges r) (r_header_only r) (r_count r) (r_bufs r) (r_mem r) (r_offsets r) (trace r).
Definition set_bufs (b : gmap Z ngx_buf_t) (r : request) : request :=
  Req (r_is_main r) (r_method_data r) (r_ctx r) (r_conf r) (r_upstream r) (r_valid_sec r) (r_length r) (r_status r)
    (r_range r) (r_allow_ranges r) (r_header_only r) (r_count r) b (r_mem r) (r_offsets r) (trace r).
Definition set_count (n : Z) (r : request) : request :=
  Req (r_is_main r) (r_method_data r) (r_ctx r) (r_conf r) (r_upstream r) (r_valid_sec r) (r_length r) (r_status r)
    (r_range r) (r_allow_ranges r) (r_header_only r) n (r_bufs r) (r_mem r) (r_offsets r) (trace r).
Definition set_offset (f x : Z) (r : request) : request :=
  Req (r_is_main r) (r_method_data r) (r_ctx r) (r_conf r) (r_upstream r) (r_valid_sec r) (r_length r) (r_status r)
    (r_range r) (r_allow_ranges r) (r_header_only r) (r_count r) (r_bufs r) (r_mem r) (<[f := x]> (r_offsets r)) (trace r).
Definition note (a : action) (r : request) : request :=
  Req (r_is_main r) (r_method_data r) (r_ctx r) (r_conf r) (r_upstream r) (r_valid_sec r) (r_length r) (r_status r)
    (r_range r) (r_allow_ranges r) (r_header_only r) (r_count r) (r_bufs r) (r_mem r) (r_offsets r) (trace r ++ [a]).

(** ** The module *)

Section module_code.
(** The address of the string that marks the module's subrequests. *)
Context (JSUBR_METHOD_STR : Z).
(** Allocations: whether there is memory, and what a new context holds. *)
Context (ngx_palloc ngx_alloc_chain_link : request → bool) (ngx_create_temp_buf ngx_pcalloc : Z → request → bool).
Context (junk : ngx_http_jstore_ctx_t).
Context (ngx_buf_special : ngx_buf_t → bool) (ngx_buf_size : ngx_buf_t → Z).
(** The bytes read of a file from an offset, at most so many; [None] on error. *)
Context (ngx_read_file : Z → Z → Z → request → option (list Z)).
Context (ngx_strncasecmp : list Z → list Z → nat → Z) (ngx_http_parse_time : list Z → option Z) (ngx_time : Z).
(** The next filters: what they answer, and the buffers as they leave them. *)
Context (next_header : request → ngx_rc) (next_body : list Z → request → ngx_rc * gmap Z ngx_buf_t).
Context (ngx_http_subrequest : request → ngx_rc) (nvariables body_size : Z).
Context (ngx_conf_merge_value : option Z → option Z → Z → Z).

Definition JSUBR_METHOD_LEN : Z := 4.

Definition ngx_http_jstore_is_subrequest (r : request) : bool :=
  negb (r_is_main r) && (r_method_data r =? JSUBR_METHOD_STR).

Definition ngx_http_jstore_handler : M request ngx_rc :=
  r ← get;
  match r_conf r ≫= target with
  | None => mret NGX_DECLINED
  | Some _ =>
      match r_upstream r with
      | None => mret NGX_DECLINED
      | Some u =>
          if negb (u_status u =? 404) then mret NGX_DECLINED else
          match r_ctx r with
          | Some c =>
              modify (set_ctx (Some (JCtx (buf_chain c) (copied_length c) (subr_sent c) false)));;
              mret NGX_DECLINED
          | None =>
              if negb (ngx_palloc r) then mret NGX_DECLINED else
              modify (set_ctx (Some (JCtx (buf_chain junk) (copied_length junk) (subr_sent junk) false)));;
              mret NGX_DECLINED
          end
      end
  end.

Definition MAX_AGE : list Z := [109; 97; 120; 45; 97; 103; 101; 61].

(** The loop over the Cache-Control headers: [h] walks through the memory after
    the first one. *)
Fixpoint cache_control_ok (headers : list (list Z)) (h : nat) (nelts : nat) : M request bool :=
  match nelts with
  | O => mret true
  | S nelts =>
      value ← deref OutOfBounds (headers !! h);
      if negb (ngx_strncasecmp value MAX_AGE 8 =? 0) || bool_decide (value !! 8%nat = Some 48)
      then mret false
      else cache_control_ok headers (S h) nelts
  end.

Definition ngx_http_jstore_check_cacheable : M request bool :=
  r ← get;
  if match r_valid_sec r with Some v => negb (v =? 0) | None => false end then mret true else
  u ← deref NullPtr (r_upstream r);
  if u_cacheable u then mret true else
  ok ← match u_cache_control u with
       | Some (h :: elts) => cache_control_ok (u_headers u) h (length (h :: elts))
       | _ => mret true
       end;
  if negb ok then mret false else
  match u_expires u with
  | Some value =>
      match ngx_http_parse_time value with
      | None => mret false
      | Some expires => mret (negb (expires <? ngx_time))
      end
  | None => mret true
  end.

(** The end of the header filter. *)
Definition pipe_header : M request ngx_rc :=
  r ← get; modify (note NextHeader);; mret (next_header r).

Definition ngx_http_jstore_header_filter : M request ngx_rc :=
  r ← get;
  if ngx_http_jstore_is_subrequest r then pipe_header else
  match r_ctx r with
  | None => pipe_header
  | Some _ =>
      jlcf ← deref NullPtr (r_conf r);
      max ← deref Undef (max_size jlcf);
      check ← deref Undef (check_cacheable jlcf);
      chunked ← (if max <? r_length r then mret true
                 else if r_length r <? 0 then u ← deref NullPtr (r_upstream r); mret (u_chunked u)
                 else mret true);
      if (max <? r_length r)
         || ((r_length r <? 0) && negb chunked)
         || negb (r_status r =? 200)
         || (r_range r && r_allow_ranges r)
         || r_header_only r
      then pipe_header
      else
        cacheable ← (if check =? 0 then mret true else ngx_http_jstore_check_cacheable);
        if negb cacheable then pipe_header else
        modify (set_ctx (Some (JCtx [] 0 false true)));;
        pipe_header
  end.

(** Skipping a buffer of the response to a subrequest. *)
Definition skip_buf (b : ngx_buf_t) : ngx_buf_t :=
  NgxBuf (b_last b) (b_last b) (b_file_last b) (b_file_last b) true false false (b_file b) (b_flags b).
Fixpoint skip_chain (cl : list Z) : M request unit :=
  match cl with
  | [] => mret tt
  | p :: cl =>
      r ← get;
      b ← deref Dangling (r_bufs r !! p);
      modify (set_bufs (<[p := skip_buf b]> (r_bufs r)));;
      skip_chain cl
  end.

(** How the part of the body filter that copies goes on. *)
Inductive flow := Go | Pipe | Drop.

Definition with_ctx (g : ngx_http_jstore_ctx_t → ngx_http_jstore_ctx_t) : M request unit :=
  r ← get; c ← deref NullPtr (r_ctx r); modify (set_ctx (Some (g c))).
Definition link_buf (b : jbuf) (c : ngx_http_jstore_ctx_t) : ngx_http_jstore_ctx_t :=
  JCtx (buf_chain c ++ [b]) (copied_length c) (subr_sent c) (store_enable c).
Definition fill_buf (b : jbuf) (c : ngx_http_jstore_ctx_t) : ngx_http_jstore_ctx_t :=
  JCtx (removelast (buf_chain c) ++ [b]) (copied_length c) (subr_sent c) (store_enable c).
Definition add_copied (n : Z) (c : ngx_http_jstore_ctx_t) : ngx_http_jstore_ctx_t :=
  JCtx (buf_chain c) (copied_length c + n) (subr_sent c) (store_enable c).
Definition set_sent (c : ngx_http_jstore_ctx_t) : ngx_http_jstore_ctx_t :=
  JCtx (buf_chain c) (copied_length c) true (store_enable c).

(** What a buffer of [n] bytes holds after the bytes were written to its start. *)
Definition written (bytes : list Z) (n : Z) : jbuf :=
  (Some <$> bytes) ++ replicate (Z.to_nat n - length bytes) None.

(** [ngx_read_file] advances the offset of the file; the module takes that back. *)
Definition read_into (b : ngx_buf_t) (f clen : Z) : M request flow :=
  r ← get;
  match ngx_read_file f clen (b_file_pos b) r with
  | None => mret Drop
  | Some bytes =>
      let n := Z.of_nat (length bytes) in
      let off := default 0 (r_offsets r !! f) + n in
      modify (set_offset f off);;
      with_ctx (fill_buf (written bytes clen));;
      modify (set_offset f (off - n));;
      mret Go
  end.

Definition copy_content (b : ngx_buf_t) (clen : Z) : M request flow :=
  match b_in_file b, b_file b with
  | true, Some f => read_into b f clen
  | _, _ =>
      r ← get;
      with_ctx (fill_buf (written (r_mem r <$> seqZ (b_pos b) clen) clen));;
      mret Go
  end.

Definition copy_buf (content_length : Z) (b : ngx_buf_t) : M request flow :=
  let clen := ngx_buf_size b in
  r ← get;
  c ← deref NullPtr (r_ctx r);
  if (0 <=? content_length) && (content_length <? clen + copied_length c) then mret Drop else
  if negb (ngx_create_temp_buf clen r) then mret Drop else
  if negb (ngx_alloc_chain_link r) then mret Pipe else
  with_ctx (link_buf (replicate (Z.to_nat clen) None));;
  w ← copy_content b clen;
  match w with
  | Go => with_ctx (add_copied clen);; mret Go
  | w => mret w
  end.

Fixpoint copy_chain (content_length : Z) (cl : list Z) : M request flow :=
  match cl with
  | [] => mret Go
  | p :: cl =>
      r ← get;
      b ← deref Dangling (r_bufs r !! p);
      w ← (if ngx_buf_special b then mret Go else copy_buf content_length b);
      match w with
      | Go => copy_chain content_length cl
      | w => mret w
      end
  end.

(** The call of the next body filter. *)
Definition next_body_filter (chain : list Z) : M request ngx_rc :=
  r ← get;
  let '(rc, bufs) := next_body chain r in
  modify (set_bufs bufs);; modify (note (NextBody chain));; mret rc.

(** The labels [fail] and [pipe]. *)
Definition pipe_body (chain : list Z) : M request ngx_rc := next_body_filter chain.
Definition fail_body (chain : list Z) : M request ngx_rc := modify (set_ctx None);; pipe_body chain.

(** The subrequest that stores the body: [Some rc], or [None] for [goto fail].
    Both calls of nginx count the request. *)
Definition send_subrequest : M request (option unit) :=
  r ← get;
  u ← deref NullPtr (r_upstream r);
  if bool_decide (ngx_http_subrequest r = NGX_ERROR) then mret None else
  modify (note Subrequest);;
  modify (λ r, set_count (r_count r + 1) r);;
  r ← get;
  c ← deref NullPtr (r_ctx r);
  if negb (ngx_pcalloc body_size r) then mret None else
  modify (λ r, set_count (r_count r - 1) r);;
  jlcf ← deref NullPtr (r_conf r);
  modify (note (NamedLocation
    (Subr (JSUBR_METHOD_STR, JSUBR_METHOD_LEN) (u_headers u) (copied_length c)
       (ngx_pcalloc nvariables r) (buf_chain c)) (target jlcf)));;
  modify (λ r, set_count (r_count r + 1) r);;
  mret (Some tt).

Definition ngx_http_jstore_body_filter (chain : list Z) : M request ngx_rc :=
  r ← get;
  let content_length := r_length r in
  if bool_decide (chain = []) then pipe_body chain else
  if ngx_http_jstore_is_subrequest r then skip_chain chain;; mret NGX_OK else
  match r_ctx r with
  | None => pipe_body chain
  | Some c =>
      if negb (store_enable c) || subr_sent c then pipe_body chain else
      w ← copy_chain content_length chain;
      match w with
      | Pipe => pipe_body chain
      | Drop => fail_body chain
      | Go =>
          u ← deref NullPtr (r_upstream r);
          if negb (match u_pipe_done u with Some d => d | None => false end) && negb (u_length u =? 0)
          then pipe_body chain else
          r ← get;
          c ← deref NullPtr (r_ctx r);
          if (0 <=? content_length) && negb (copied_length c =? content_length) then fail_body chain else
          rc_next ← next_body_filter chain;
          with_ctx set_sent;;
          ok ← send_subrequest;
          match ok with
          | None => fail_body chain
          | Some _ => mret rc_next
          end
      end
  end.

(** ** Configuration *)

(** [None]: there was no memory. *)
Definition ngx_http_jstore_create_loc_conf (palloc : bool) : option ngx_http_jstore_loc_conf_t :=
  if palloc then Some (JConf None None None) else None.
Definition ngx_http_jstore_merge_loc_conf (prev conf : ngx_http_jstore_loc_conf_t) : ngx_http_jstore_loc_conf_t :=
  JConf (target conf)
    (Some (ngx_conf_merge_value (max_size conf) (max_size prev) (Z.shiftl 100 20)))
    (Some (ngx_conf_merge_value (check_cacheable conf) (check_cacheable prev) 1)).
End module_code.

(** The handlers of nginx, and the filters with the pointers the module keeps. *)
Inductive hook := Jstore | Other (x : Z).
Record hooks := Hooks {
  access_handlers : list hook;
  top_body : hook; next_body_ptr : option hook;
  top_header : hook; next_header_ptr : option hook
}.
(** [push]: whether [ngx_array_push] has memory. *)
Definition ngx_http_jstore_init (push : bool) (h : hooks) : ngx_rc * hooks :=
  if push then
    (NGX_OK, Hooks (access_handlers h ++ [Jstore]) Jstore (Some (top_body h)) Jstore (Some (top_header h)))
  else (NGX_ERROR, h).

(** ** A response *)

(** A call of the body filter, with what nginx has made of the request before:
    the buffers and the memory, and how far the upstream is. *)
Record delivery := Delivery {
  d_bufs : gmap Z ngx_buf_t;
  d_mem : Z → Z;
  d_upstream : ngx_upstream;
  d_chain : list Z
}.

Definition arrive (d : delivery) (r : request) : request :=
  Req (r_is_main r) (r_method_data r) (r_ctx r) (r_conf r) (Some (d_upstream d)) (r_valid_sec r) (r_length r)
    (r_status r) (r_range r) (r_allow_ranges r) (r_header_only r) (r_count r) (d_bufs d) (d_mem d)
    (r_offsets r) (trace r).

(** The upstream has nothing more to send. *)
Definition upstream_done (u : ngx_upstream) : bool :=
  match u_pipe_done u with Some d => d | None => false end || (u_length u =? 0).

(** The subrequests posted so far, and the chains the client was sent. *)
Definition stored (l : list action) : list subrequest :=
  omap (λ a, match a with NamedLocation sr _ => Some sr | _ => None end) l.
Definition passed (l : list action) : list (list Z) :=
  omap (λ a, match a with NextBody c => Some c | _ => None end) l.

Lemma sublist_full {A} (l k : list A) : l `sublist_of` k → (length k ≤ length l)%nat → l = k.
Proof.
  induction 1 as [|x l k Hs IH|x l k Hs IH]; cbn; intros; [done|f_equal; apply IH; lia|].
  apply sublist_length in Hs. lia.
Qed.

Section response.
Context (JSUBR_METHOD_STR : Z).
Context (ngx_alloc_chain_link : request → bool) (ngx_create_temp_buf ngx_pcalloc : Z → request → bool).
Context (ngx_buf_special : ngx_buf_t → bool) (ngx_buf_size : ngx_buf_t → Z).
Context (ngx_read_file : Z → Z → Z → request → option (list Z)).
Context (ngx_strncasecmp : list Z → list Z → nat → Z) (ngx_http_parse_time : list Z → option Z) (ngx_time : Z).
Context (next_header : request → ngx_rc) (next_body : list Z → request → ngx_rc * gmap Z ngx_buf_t).
Context (ngx_http_subrequest : request → ngx_rc) (nvariables body_size : Z).
Context (file_bytes : Z → Z → Z → list Z).
(** A file is read completely or not at all, and buffers have a size. *)
Context (Hread : ∀ f n off r bs, ngx_read_file f n off r = Some bs →
  bs = file_bytes f off n ∧ Z.of_nat (length bs) = n).
Context (Hsize : ∀ b, 0 ≤ ngx_buf_size b).

Abbreviation body_filter := (ngx_http_jstore_body_filter JSUBR_METHOD_STR ngx_alloc_chain_link
  ngx_create_temp_buf ngx_pcalloc ngx_buf_special ngx_buf_size ngx_read_file next_body
  ngx_http_subrequest nvariables body_size).
Abbreviation header_filter := (ngx_http_jstore_header_filter JSUBR_METHOD_STR ngx_strncasecmp
  ngx_http_parse_time ngx_time next_header).
Abbreviation copy_buf := (copy_buf ngx_alloc_chain_link ngx_create_temp_buf ngx_buf_size ngx_read_file).
Abbreviation copy_chain := (copy_chain ngx_alloc_chain_link ngx_create_temp_buf ngx_buf_special ngx_buf_size ngx_read_file).

Definition deliver (d : delivery) : M request unit :=
  modify (arrive d);; body_filter (d_chain d);; mret tt.
Fixpoint deliver_all (ds : list delivery) : M request unit :=
  match ds with
  | [] => mret tt
  | d :: ds => deliver d;; deliver_all ds
  end.

(** The bytes of a buffer, of a chain, of a delivery and of a response. *)
Definition buf_bytes (mem : Z → Z) (b : ngx_buf_t) : list Z :=
  match b_in_file b, b_file b with
  | true, Some f => file_bytes f (b_file_pos b) (ngx_buf_size b)
  | _, _ => mem <$> seqZ (b_pos b) (ngx_buf_size b)
  end.
Definition chain_bytes (mem : Z → Z) (bufs : gmap Z ngx_buf_t) (cl : list Z) : list Z :=
  cl ≫= λ p, match bufs !! p with
             | Some b => if ngx_buf_special b then [] else buf_bytes mem b
             | None => []
             end.
Definition bytes_of (d : delivery) : list Z := chain_bytes (d_mem d) (d_bufs d) (d_chain d).
Definition body_of (ds : list delivery) : list Z := ds ≫= bytes_of.

Definition links_ok : Prop := ∀ r, ngx_alloc_chain_link r = true.

(** nginx has memory, can read its files and makes the subrequest. *)
Definition nginx_ok : Prop :=
  links_ok ∧ (∀ n r, ngx_create_temp_buf n r = true) ∧
  (∀ f n off r, 0 ≤ n → is_Some (ngx_read_file f n off r)) ∧
  (∀ r, ngx_http_subrequest r ≠ NGX_ERROR) ∧ (∀ r, ngx_pcalloc body_size r = true).

(** The context while it copies: [T] is what went by so far.  Without memory for
    a link some of it may be missing. *)
Definition copying (L : Z) (T : list Z) (c : ngx_http_jstore_ctx_t) : Prop :=
  store_enable c = true ∧ subr_sent c = false ∧
  ∃ l, concat (buf_chain c) = Some <$> l ∧ l `sublist_of` T ∧ copied_length c = Z.of_nat (length l) ∧
    (links_ok → l = T) ∧ (0 ≤ L → Z.of_nat (length l) ≤ L).

(** Copying changes only the context and the offsets of files. *)
Definition upd (c : option ngx_http_jstore_ctx_t) (o : gmap Z Z) (r : request) : request :=
  Req (r_is_main r) (r_method_data r) c (r_conf r) (r_upstream r) (r_valid_sec r) (r_length r) (r_status r)
    (r_range r) (r_allow_ranges r) (r_header_only r) (r_count r) (r_bufs r) (r_mem r) o (trace r).

Lemma upd_self r : r = upd (r_ctx r) (r_offsets r) r.
Proof. by destruct r. Qed.

Lemma written_full (bs : list Z) n : Z.of_nat (length bs) = n → written bs n = Some <$> bs.
Proof.
  intros Hn. unfold written. replace (Z.to_nat n - length bs)%nat with 0%nat by lia. by rewrite app_nil_r.
Qed.

Lemma fill_link x y c : fill_buf y (link_buf x c) = link_buf y c.
Proof. unfold fill_buf, link_buf. cbn. by rewrite removelast_last. Qed.

Lemma with_ctx_run g c r : r_ctx r = Some c → with_ctx g r = Ret (tt, set_ctx (Some (g c)) r).
Proof. intros Hc. unfold with_ctx, mbind, M_bind, get, deref. by rewrite Hc. Qed.

Lemma run_with_ctx {A} g c (k : unit → M request A) r :
  r_ctx r = Some c → (with_ctx g ≫= k) r = k tt (set_ctx (Some (g c)) r).
Proof. intros Hc. apply bind_ret, with_ctx_run, Hc. Qed.

Lemma run_get {A} (k : request → M request A) r : (get ≫= k) r = k r r.
Proof. done. Qed.

Lemma run_modify {A} g (k : unit → M request A) r : (modify g ≫= k) r = k tt (g r).
Proof. done. Qed.

Lemma run_deref {A B} (x : A) f o (k : A → M request B) r : o = Some x → (deref f o ≫= k) r = k x r.
Proof. by intros ->. Qed.

(** The copy into a buffer just linked. *)
Lemma copy_content_spec b c x r :
  r_ctx r = Some (link_buf x c) →
  ∃ w r', copy_content ngx_read_file b (ngx_buf_size b) r = Ret (w, r') ∧
    ((w = Drop ∧ r' = r ∧ ¬ nginx_ok) ∨
     (w = Go ∧ Z.of_nat (length (buf_bytes (r_mem r) b)) = ngx_buf_size b ∧
      ∃ o, r' = upd (Some (link_buf (Some <$> buf_bytes (r_mem r) b) c)) o r)).
Proof.
  intros Hc. pose proof (Hsize b) as Hs. unfold copy_content, buf_bytes.
  destruct (b_in_file b), (b_file b) as [f|].
  { unfold read_into. rewrite run_get.
    destruct (ngx_read_file f (ngx_buf_size b) (b_file_pos b) r) as [bs|] eqn:Er.
    2: { eexists _, _. split; [reflexivity|]. left. split; [done|]. split; [done|]. intros (_ & _ & Hr & _).
         destruct (Hr f (ngx_buf_size b) (b_file_pos b) r Hs) as [? ?]. congruence. }
    destruct (Hread _ _ _ _ _ Er) as [-> Hl]. cbv zeta. rewrite run_modify, (run_with_ctx _ (link_buf x c)) by done.
    rewrite run_modify, fill_link, written_full by done. eexists _, _. split; [reflexivity|]. right. split; [done|].
    split; [done|]. by eexists. }
  all: rewrite run_get, (run_with_ctx _ _ _ _ Hc), fill_link, written_full by (rewrite length_fmap, length_seqZ; lia).
  all: eexists _, _; split; [reflexivity|]; right; split; [done|].
  all: split; [rewrite length_fmap, length_seqZ; lia|by exists (r_offsets r)].
Qed.

Lemma copying_next L T c (bs : list Z) :
  copying L T c → (0 ≤ L → copied_length c + Z.of_nat (length bs) ≤ L) →
  copying L (T ++ bs) (add_copied (Z.of_nat (length bs)) (link_buf (Some <$> bs) c)).
Proof.
  intros (He & Hn & l & Hl & Hsub & Hcl & Hok & HL) Hle. split; [done|]. split; [done|].
  exists (l ++ bs). cbn. rewrite concat_app, Hl, fmap_app. cbn. rewrite app_nil_r, length_app, Hcl in *.
  split; [done|]. split; [by apply sublist_app|]. split; [lia|]. split; [|lia].
  intros Hlk. by rewrite Hok.
Qed.

Lemma copying_skip L T c (bs : list Z) :
  ¬ links_ok → copying L T c → copying L (T ++ bs) c.
Proof.
  intros Hno (He & Hn & l & Hl & Hsub & Hcl & Hok & HL). split; [done|]. split; [done|].
  exists l. split; [done|]. split; [by apply sublist_inserts_r|]. done.
Qed.

(** How many bytes a buffer has, when it can be read. *)
Lemma length_buf_bytes mem b (r : request) :
  nginx_ok → Z.of_nat (length (buf_bytes mem b)) = ngx_buf_size b.
Proof.
  intros (_ & _ & Hr & _). pose proof (Hsize b) as Hs. unfold buf_bytes.
  destruct (b_in_file b), (b_file b) as [f|].
  2-4: rewrite length_fmap, length_seqZ; lia.
  destruct (Hr f (ngx_buf_size b) (b_file_pos b) r Hs) as [bs E].
  destruct (Hread _ _ _ _ _ E) as [-> ?]. done.
Qed.

(** The bytes seen fit the announced length. *)
Definition fits (L : Z) (T : list Z) : Prop := 0 ≤ L → Z.of_nat (length T) ≤ L.

Lemma fits_app_l L T1 T2 : fits L (T1 ++ T2) → fits L T1.
Proof. unfold fits. rewrite length_app. lia. Qed.

(** How copying [bs] may end: with the bytes copied; without memory for a link,
    when some are missing; or with a reason to give up. *)
Definition copied (L : Z) (T bs : list Z) (r : request) (w : flow) (r' : request) : Prop :=
  match w with
  | Drop => (∃ c o, r' = upd c o r) ∧ ¬ (nginx_ok ∧ fits L (T ++ bs))
  | _ => (w = Pipe → ¬ links_ok) ∧ ∃ c o, r' = upd (Some c) o r ∧ copying L (T ++ bs) c
  end.

Lemma copied_none L T c r : r_ctx r = Some c → copying L T c → copied L T [] r Go r.
Proof.
  intros Hc Hcp. split; [done|]. exists c, (r_offsets r). split; [rewrite <- Hc; apply upd_self|].
  by rewrite app_nil_r.
Qed.

(** One buffer. *)
Lemma copy_buf_spec L b c T r :
  r_ctx r = Some c → copying L T c →
  ∃ w r', copy_buf L b r = Ret (w, r') ∧ copied L T (buf_bytes (r_mem r) b) r w r'.
Proof.
  intros Hc Hcp. unfold Jstore.copy_buf. cbv zeta. rewrite run_get, (run_deref c) by done.
  destruct ((0 <=? L) && (L <? ngx_buf_size b + copied_length c)) eqn:Hbig.
  { eexists _, _. split; [reflexivity|]. split; [eauto using upd_self|]. intros [Hok Hfit]. unfold fits in Hfit. rewrite length_app in Hfit.
    pose proof (length_buf_bytes (r_mem r) b r Hok). destruct Hcp as (_ & _ & l & _ & _ & Hl & Hall & _).
    rewrite (Hall (proj1 Hok)) in Hl. lia. }
  destruct (ngx_create_temp_buf (ngx_buf_size b) r) eqn:Ht; cbn [negb].
  2: { eexists _, _. split; [reflexivity|]. split; [eauto using upd_self|].
       intros [(_ & H & _) _]. by rewrite H in Ht. }
  destruct (ngx_alloc_chain_link r) eqn:Hlk; cbn [negb].
  - rewrite (run_with_ctx _ _ _ _ Hc). set (r1 := set_ctx _ r).
    destruct (copy_content_spec b c (replicate (Z.to_nat (ngx_buf_size b)) None) r1) as (w & r2 & E & H); [done|].
    rewrite (bind_ret _ _ _ _ _ E). destruct H as [(-> & -> & Hno)|(-> & Hl & o & ->)].
    { eexists _, _; split; [reflexivity|]. split; [by eexists _, _|]. intros [? _]. by apply Hno. }
    rewrite (run_with_ctx _ (link_buf (Some <$> buf_bytes (r_mem r) b) c)) by done.
    eexists _, _. split; [reflexivity|]. split; [done|]. rewrite <- Hl. eexists _, _. split; [reflexivity|].
    apply copying_next; [done|]. change (r_mem r1) with (r_mem r) in Hl.
    intros HL. rewrite Hl. apply andb_false_iff in Hbig. lia.
  - eexists _, _. split; [reflexivity|]. assert (¬ links_ok) by (intros H; by rewrite H in Hlk).
    split; [done|]. exists c, (r_offsets r). split; [rewrite <- Hc; apply upd_self|].
    by apply copying_skip.
Qed.

(** A chain whose buffers are there. *)
Lemma copy_chain_spec L cl c T r :
  r_ctx r = Some c → copying L T c → (∀ p, p ∈ cl → is_Some (r_bufs r !! p)) →
  ∃ w r', copy_chain L cl r = Ret (w, r') ∧ copied L T (chain_bytes (r_mem r) (r_bufs r) cl) r w r'.
Proof.
  revert c T r. induction cl as [|p cl IH]; intros c T r Hc Hcp Hb; cbn [Jstore.copy_chain].
  { eexists _, _. split; [reflexivity|]. by eapply copied_none. }
  destruct (Hb p) as [b Hp]; [set_solver|]. rewrite run_get, (run_deref b) by done.
  set (bs := if ngx_buf_special b then [] else buf_bytes (r_mem r) b).
  assert (∃ w r1, (if ngx_buf_special b then mret Go else copy_buf L b) r = Ret (w, r1) ∧ copied L T bs r w r1)
    as (w & r1 & E & H).
  { subst bs. destruct (ngx_buf_special b); [|by eapply copy_buf_spec].
    eexists _, _. split; [reflexivity|]. by eapply copied_none. }
  rewrite (bind_ret _ _ _ _ _ E).
  assert (chain_bytes (r_mem r) (r_bufs r) (p :: cl) = bs ++ chain_bytes (r_mem r) (r_bufs r) cl) as ->
    by (unfold chain_bytes; cbn; by rewrite Hp).
  destruct w.
  - destruct H as (_ & c1 & o & -> & Hc1).
    destruct (IH c1 _ (upd (Some c1) o r) eq_refl Hc1) as (w & r2 & E2 & H2); [set_solver|].
    exists w, r2. split; [exact E2|]. unfold copied in *. cbn in H2. rewrite <- app_assoc in H2.
    destruct w; [done..|]. destruct H2 as [(c2 & o2 & ->) H2]. split; [by eexists _, _|done].
  - destruct H as (Hno & c1 & o & -> & Hc1). eexists _, _. split; [reflexivity|]. split; [done|].
    eexists _, _. split; [reflexivity|]. rewrite app_assoc. apply copying_skip; auto.
  - destruct H as [Hr H]. eexists _, _. split; [reflexivity|]. split; [done|].
    intros [? Hf]. apply H. split; [done|].
    rewrite app_assoc in Hf. by eapply fits_app_l.
Qed.

(** The filter only passes the body on. *)
Definition quiet (r : request) : Prop :=
  match r_ctx r with None => True | Some c => store_enable c = false ∨ subr_sent c = true end.

(** What no delivery changes. *)
Definition same_req (r r' : request) : Prop :=
  ngx_http_jstore_is_subrequest JSUBR_METHOD_STR r' = ngx_http_jstore_is_subrequest JSUBR_METHOD_STR r ∧
  r_conf r' = r_conf r ∧ r_length r' = r_length r.

(** The chain went to the client, once, and was not stored. *)
Definition passes (chain : list Z) (r r' : request) : Prop :=
  same_req r r' ∧ stored (trace r') = stored (trace r) ∧ passed (trace r') = passed (trace r) ++ [chain].

Lemma next_body_run chain r :
  ∃ rc r', next_body_filter next_body chain r = Ret (rc, r') ∧ r_ctx r' = r_ctx r ∧
    r_upstream r' = r_upstream r ∧ passes chain r r'.
Proof.
  unfold next_body_filter. rewrite run_get. destruct (next_body chain r) as [rc bufs].
  eexists _, _. split; [reflexivity|]. unfold passes, stored, passed. cbn. rewrite !omap_app. cbn.
  by rewrite app_nil_r.
Qed.

(** The body filter after [arrive]. *)
Lemma deliver_run d r rc r' :
  body_filter (d_chain d) (arrive d r) = Ret (rc, r') → deliver d r = Ret (tt, r').
Proof. intros E. unfold deliver. rewrite run_modify. by rewrite (bind_ret _ _ _ _ _ E). Qed.

Lemma deliver_pipe d r :
  body_filter (d_chain d) (arrive d r) = pipe_body next_body (d_chain d) (arrive d r) →
  ∃ r', deliver d r = Ret (tt, r') ∧ r_ctx r' = r_ctx r ∧ passes (d_chain d) r r'.
Proof.
  intros E. destruct (next_body_run (d_chain d) (arrive d r)) as (rc' & r1 & E1 & Hc & _ & Hp).
  exists r1. split; [|done]. apply (deliver_run d r rc'). by rewrite E.
Qed.

Lemma deliver_quiet d r :
  ngx_http_jstore_is_subrequest JSUBR_METHOD_STR r = false → quiet r →
  ∃ r', deliver d r = Ret (tt, r') ∧ quiet r' ∧ passes (d_chain d) r r'.
Proof.
  intros Hs Hq. destruct (deliver_pipe d r) as (r' & E & Hc & Hp).
  - unfold ngx_http_jstore_body_filter. rewrite run_get. cbv zeta.
    destruct (bool_decide (d_chain d = [])); [done|].
    change (ngx_http_jstore_is_subrequest JSUBR_METHOD_STR (arrive d r)) with
      (ngx_http_jstore_is_subrequest JSUBR_METHOD_STR r). rewrite Hs. cbn [arrive r_ctx].
    unfold quiet in Hq. destruct (r_ctx r) as [c|]; [|done].
    replace (negb (store_enable c) || subr_sent c) with true; [done|].
    destruct Hq as [-> | ->]; [done|]. by rewrite orb_true_r.
  - exists r'. split; [done|]. split; [|done]. unfold quiet in *. by rewrite Hc.
Qed.

(** The end of a body: the subrequest, or one of its failures. *)
Lemma send_spec u c r :
  r_upstream r = Some u → is_Some (r_conf r) → r_ctx r = Some c →
  ∃ o r', send_subrequest JSUBR_METHOD_STR ngx_pcalloc ngx_http_subrequest nvariables body_size r = Ret (o, r') ∧
    same_req r r' ∧ r_ctx r' = r_ctx r ∧ passed (trace r') = passed (trace r) ∧
    ((o = None ∧ ¬ nginx_ok ∧ stored (trace r') = stored (trace r)) ∨
     (o = Some tt ∧ ∃ v, stored (trace r') = stored (trace r) ++
        [Subr (JSUBR_METHOD_STR, JSUBR_METHOD_LEN) (u_headers u) (copied_length c) v (buf_chain c)])).
Proof.
  intros Hu [j Hj] Hc. unfold send_subrequest. rewrite run_get, (run_deref u) by done.
  case_bool_decide as Hrc.
  { eexists _, _. split; [reflexivity|]. split; [done|]. split; [done|]. split; [done|]. left. split; [done|].
    split; [|done]. intros (_ & _ & _ & H & _). by apply (H r). }
  rewrite !run_modify, run_get, (run_deref c) by done. set (r1 := set_count _ _).
  destruct (ngx_pcalloc body_size r1) eqn:Hp; cbn [negb].
  - rewrite run_modify, (run_deref j), !run_modify by done.
    eexists _, _. split; [reflexivity|]. unfold stored, passed. cbn. rewrite !omap_app. cbn. rewrite !app_nil_r.
    split; [done|]. split; [done|]. split; [done|]. right. split; [done|]. eauto.
  - eexists _, _. split; [reflexivity|]. unfold stored, passed. cbn. rewrite !omap_app. cbn. rewrite !app_nil_r.
    split; [done|]. split; [done|]. split; [done|]. left. split; [done|]. split; [|done].
    intros (_ & _ & _ & _ & H). by rewrite H in Hp.
Qed.

(** What a delivery does to a request that copies: it goes on; it stops without
    storing; or the body is complete and is stored. *)
Definition delivered (d : delivery) (T : list Z) (r r' : request) : Prop :=
  let L := r_length r in
  let T' := T ++ bytes_of d in
  same_req r r' ∧ (nginx_ok → passed (trace r') = passed (trace r) ++ [d_chain d]) ∧
  ((∃ c, r_ctx r' = Some c ∧ copying L T' c ∧ stored (trace r') = stored (trace r) ∧
      (nginx_ok → d_chain d ≠ [] → upstream_done (d_upstream d) = false))
   ∨ (quiet r' ∧ stored (trace r') = stored (trace r) ∧
      ¬ (nginx_ok ∧ fits L T' ∧ (0 ≤ L → upstream_done (d_upstream d) → Z.of_nat (length T') = L)))
   ∨ (quiet r' ∧ upstream_done (d_upstream d) ∧ ∃ c v, copying L T' c ∧ (0 ≤ L → copied_length c = L) ∧
      stored (trace r') = stored (trace r) ++
        [Subr (JSUBR_METHOD_STR, JSUBR_METHOD_LEN) (u_headers (d_upstream d)) (copied_length c) v (buf_chain c)])).

Lemma fail_run chain r :
  ∃ rc r', fail_body next_body chain r = Ret (rc, r') ∧ quiet r' ∧ passes chain r r'.
Proof.
  unfold fail_body. rewrite run_modify. destruct (next_body_run chain (set_ctx None r)) as (rc & r' & E & Hc & _ & Hp).
  exists rc, r'. split; [exact E|]. split; [|done]. unfold quiet. by rewrite Hc.
Qed.

(** The end of a delivery whose chain was copied: [r1] is the request then. *)
Definition finish (d : delivery) (L : Z) : M request ngx_rc :=
  u ← deref NullPtr (Some (d_upstream d));
  if negb (match u_pipe_done u with Some d => d | None => false end) && negb (u_length u =? 0)
  then pipe_body next_body (d_chain d) else
  r ← get;
  c ← deref NullPtr (r_ctx r);
  if (0 <=? L) && negb (copied_length c =? L) then fail_body next_body (d_chain d) else
  rc_next ← next_body_filter next_body (d_chain d);
  with_ctx set_sent;;
  ok ← send_subrequest JSUBR_METHOD_STR ngx_pcalloc ngx_http_subrequest nvariables body_size;
  match ok with
  | None => fail_body next_body (d_chain d)
  | Some _ => mret rc_next
  end.

Lemma finish_spec d T c o r :
  is_Some (r_conf r) → copying (r_length r) (T ++ bytes_of d) c →
  ∃ rc r', finish d (r_length r) (upd (Some c) o (arrive d r)) = Ret (rc, r') ∧ delivered d T r r'.
Proof.
  intros Hconf Hcp. set (r1 := upd (Some c) o (arrive d r)). unfold finish. rewrite (run_deref (d_upstream d)) by done.
  assert (negb (match u_pipe_done (d_upstream d) with Some d => d | None => false end)
    && negb (u_length (d_upstream d) =? 0) = negb (upstream_done (d_upstream d))) as ->
    by (unfold upstream_done; by rewrite negb_orb).
  destruct (upstream_done (d_upstream d)) eqn:Hdone; cbn [negb].
  2: { destruct (next_body_run (d_chain d) r1) as (rc & r' & E & Hc & _ & Hp & Hst & Hps).
       exists rc, r'. split; [exact E|]. split; [done|]. split; [done|]. left. exists c. by rewrite Hc. }
  rewrite run_get, (run_deref c) by done.
  destruct ((0 <=? r_length r) && negb (copied_length c =? r_length r)) eqn:Hlen.
  { destruct (fail_run (d_chain d) r1) as (rc & r' & E & Hq & Hp & Hst & Hps).
    exists rc, r'. split; [exact E|]. split; [done|]. split; [done|]. right. left. split; [done|]. split; [done|].
    rewrite Hdone. intros (Hok & _ & HL). destruct Hcp as (_ & _ & l & _ & _ & Hl & Hall & _).
    rewrite (Hall (proj1 Hok)) in Hl.
    apply andb_true_iff in Hlen as [H1 H2%negb_true_iff]. apply Z.eqb_neq in H2. rewrite HL in Hl; [done|lia|done]. }
  destruct (next_body_run (d_chain d) r1) as (rc & r2 & E2 & Hc2 & Hu2 & (Hs2 & Hf2 & Hl2) & Hst2 & Hps2).
  rewrite (bind_ret _ _ _ _ _ E2), (run_with_ctx _ c) by (by rewrite Hc2).
  destruct (send_spec (d_upstream d) (set_sent c) (set_ctx (Some (set_sent c)) r2)) as (ok & r3 & E3 & (Hs3 & Hf3 & Hl3) & Hc3 & Hps3 & H3);
    [cbn; by rewrite Hu2|cbn; by rewrite Hf2|done|].
  cbn [set_ctx trace] in Hst2, Hps2, Hps3, H3. rewrite (bind_ret _ _ _ _ _ E3).
  destruct H3 as [(-> & Hno & H3)|(-> & v & H3)].
  - destruct (fail_run (d_chain d) r3) as (rc' & r' & E & Hq & (Hs4 & Hf4 & Hl4) & Hst & Hps).
    exists rc', r'. split; [exact E|]. split; [split; [by rewrite Hs4, Hs3|split; [by rewrite Hf4, Hf3|by rewrite Hl4, Hl3]]|].
    split; [done|]. right. left. split; [done|]. split; [by rewrite Hst, H3, Hst2|]. by intros (? & _).
  - exists rc, r3. split; [done|]. split; [split; [by rewrite Hs3|split; [by rewrite Hf3|by rewrite Hl3]]|].
    split; [intros _; by rewrite Hps3, Hps2|]. right. right. split; [unfold quiet; rewrite Hc3; by right|].
    rewrite Hdone. split; [done|]. exists c, v. split; [done|]. split; [|by rewrite H3, Hst2].
    intros HL. apply andb_false_iff in Hlen as [?|H2%negb_false_iff]; lia.
Qed.

Lemma deliver_copying d T c r :
  ngx_http_jstore_is_subrequest JSUBR_METHOD_STR r = false → is_Some (r_conf r) →
  r_ctx r = Some c → copying (r_length r) T c → (∀ p, p ∈ d_chain d → is_Some (d_bufs d !! p)) →
  ∃ r', deliver d r = Ret (tt, r') ∧ delivered d T r r'.
Proof.
  intros Hs Hconf Hc Hcp Hb. cut (∃ rc r', body_filter (d_chain d) (arrive d r) = Ret (rc, r') ∧ delivered d T r r').
  { intros (rc & r' & E & H). exists r'. split; [|done]. by eapply deliver_run. }
  unfold ngx_http_jstore_body_filter. rewrite run_get. cbv zeta.
  change (ngx_http_jstore_is_subrequest JSUBR_METHOD_STR (arrive d r)) with
      (ngx_http_jstore_is_subrequest JSUBR_METHOD_STR r).
  change (r_length (arrive d r)) with (r_length r). change (r_ctx (arrive d r)) with (r_ctx r).
  change (r_upstream (arrive d r)) with (Some (d_upstream d)).
  rewrite Hs, Hc. pose proof Hcp as (He & Hn & _). rewrite He, Hn. cbn [negb orb].
  case_bool_decide as Hnil.
  { destruct (next_body_run (d_chain d) (arrive d r)) as (rc & r' & E & Hc' & _ & Hp & Hst & Hps).
    exists rc, r'. split; [exact E|]. split; [done|]. split; [done|]. left. exists c. split; [by rewrite Hc'|].
    split; [|done]. unfold bytes_of. rewrite Hnil. cbn. by rewrite app_nil_r. }
  destruct (copy_chain_spec (r_length r) (d_chain d) c T (arrive d r)) as (w & r1 & E & H); [done..|].
  rewrite (bind_ret _ _ _ _ _ E). change (chain_bytes _ _ _) with (bytes_of d) in H. destruct w.
  - destruct H as (_ & c1 & o & -> & Hc1). by apply finish_spec.
  - destruct H as (Hno & c1 & o & -> & Hc1).
    destruct (next_body_run (d_chain d) (upd (Some c1) o (arrive d r))) as (rc & r' & E' & Hc' & _ & Hp & Hst & Hps).
    exists rc, r'. split; [exact E'|]. split; [done|]. split; [done|]. left. exists c1. split; [by rewrite Hc'|].
    split; [done|]. split; [done|]. intros (? & _). by destruct Hno.
  - destruct H as [(c1 & o & ->) Hno].
    destruct (fail_run (d_chain d) (upd c1 o (arrive d r))) as (rc & r' & E' & Hq & Hp & Hst & Hps).
    exists rc, r'. split; [exact E'|]. split; [done|]. split; [done|]. right. left. split; [done|].
    split; [done|]. by intros (? & ? & _); apply Hno.
Qed.

Lemma run_deliver d ds r r1 : deliver d r = Ret (tt, r1) → deliver_all (d :: ds) r = deliver_all ds r1.
Proof. intros E. cbn [deliver_all]. by rewrite (bind_ret _ _ _ _ _ E). Qed.

Lemma deliver_all_quiet ds r :
  ngx_http_jstore_is_subrequest JSUBR_METHOD_STR r = false → quiet r →
  ∃ r', deliver_all ds r = Ret (tt, r') ∧ stored (trace r') = stored (trace r) ∧
    passed (trace r') = passed (trace r) ++ (d_chain <$> ds).
Proof.
  revert r. induction ds as [|d ds IH]; intros r Hs Hq; [exists r; cbn; by rewrite app_nil_r|].
  destruct (deliver_quiet d r Hs Hq) as (r1 & E1 & Hq1 & (Hs1 & _) & Hst1 & Hps1).
  destruct (IH r1) as (r2 & E2 & Hst2 & Hps2); [by rewrite Hs1|done|].
  exists r2. rewrite (run_deliver _ _ _ _ E1), Hst2, Hps2, Hst1, Hps1, <- app_assoc. done.
Qed.

(** What a subrequest stores of the deliveries so far. *)
Definition stores (L : Z) (T : list Z) (sr : subrequest) : Prop :=
  ∃ l, concat (sr_body sr) = Some <$> l ∧ sr_content_length_n sr = Z.of_nat (length l) ∧
    l `sublist_of` T ∧ (0 ≤ L → Z.of_nat (length l) = L) ∧ (links_ok ∨ Z.of_nat (length T) = L → l = T).

Lemma copying_stores L T c h v :
  copying L T c → (0 ≤ L → copied_length c = L) →
  stores L T (Subr (JSUBR_METHOD_STR, JSUBR_METHOD_LEN) h (copied_length c) v (buf_chain c)).
Proof.
  intros (_ & _ & l & Hl & Hsub & Hcl & Hall & _) HL. exists l. rewrite Hcl in HL.
  split; [done|]. split; [done|]. split; [done|]. split; [done|].
  intros [?|Hlen]; [auto|]. apply sublist_full; [done|]. lia.
Qed.

(** The deliveries are chains of buffers that are there. *)
Definition sane (ds : list delivery) : Prop := ∀ d p, d ∈ ds → p ∈ d_chain d → is_Some (d_bufs d !! p).

Lemma sane_cons d ds : sane (d :: ds) → (∀ p, p ∈ d_chain d → is_Some (d_bufs d !! p)) ∧ sane ds.
Proof. unfold sane. intros H. split; intros *; [apply H|intros; eapply H]; set_solver. Qed.

Lemma deliver_all_copying ds T c r :
  ngx_http_jstore_is_subrequest JSUBR_METHOD_STR r = false → is_Some (r_conf r) → sane ds →
  r_ctx r = Some c → copying (r_length r) T c →
  ∃ r', deliver_all ds r = Ret (tt, r') ∧
    (nginx_ok → passed (trace r') = passed (trace r) ++ (d_chain <$> ds)) ∧
    (stored (trace r') = stored (trace r) ∨
     ∃ ds1 d ds2 sr, ds = ds1 ++ d :: ds2 ∧ upstream_done (d_upstream d) ∧
       stored (trace r') = stored (trace r) ++ [sr] ∧ stores (r_length r) (T ++ body_of (ds1 ++ [d])) sr).
Proof.
  revert T c r. induction ds as [|d ds IH]; intros T c r Hs Hconf Hb Hc Hcp.
  { exists r. cbn. rewrite app_nil_r. auto. }
  apply sane_cons in Hb as [Hd Hb].
  destruct (deliver_copying d T c r) as (r1 & E1 & (Hs1 & Hf1 & Hl1) & Hps1 & H1); [done..|].
  rewrite (run_deliver _ _ _ _ E1). destruct H1 as [(c1 & Hc1 & Hcp1 & Hst1 & _)|[(Hq & Hst1 & _)|(Hq & Hdone & c1 & v & Hcp1 & HL & Hst1)]].
  - destruct (IH (T ++ bytes_of d) c1 r1) as (r2 & E2 & Hps2 & H2); [by rewrite ?Hs1, ?Hf1, ?Hl1..|].
    exists r2. split; [done|]. split; [intros Hok; by rewrite Hps2, Hps1, <- app_assoc|].
    rewrite Hst1 in H2. destruct H2 as [H2|(ds1 & d' & ds2 & sr & -> & ? & ? & H2)]; [by left|]. right.
    exists (d :: ds1), d', ds2, sr. split; [done|]. split; [done|]. split; [done|].
    rewrite Hl1, <- app_assoc in H2. done.
  - destruct (deliver_all_quiet ds r1) as (r2 & E2 & Hst2 & Hps2); [by rewrite Hs1|done|].
    exists r2. split; [done|]. split; [intros Hok; by rewrite Hps2, Hps1, <- app_assoc|]. left. congruence.
  - destruct (deliver_all_quiet ds r1) as (r2 & E2 & Hst2 & Hps2); [by rewrite Hs1|done|].
    exists r2. split; [done|]. split; [intros Hok; by rewrite Hps2, Hps1, <- app_assoc|]. right.
    eexists [], d, ds, _. split; [done|]. split; [done|]. split; [by rewrite Hst2, Hst1|].
    unfold body_of. cbn. rewrite app_nil_r. by apply copying_stores.
Qed.

Lemma deliver_all_stored ds1 d ds2 T c r :
  ngx_http_jstore_is_subrequest JSUBR_METHOD_STR r = false → is_Some (r_conf r) → sane (ds1 ++ d :: ds2) →
  r_ctx r = Some c → copying (r_length r) T c →
  nginx_ok → (∀ d', d' ∈ ds1 → upstream_done (d_upstream d') = false) →
  upstream_done (d_upstream d) → d_chain d ≠ [] →
  (0 ≤ r_length r → Z.of_nat (length (T ++ body_of (ds1 ++ [d]))) = r_length r) →
  ∃ r' sr, deliver_all (ds1 ++ d :: ds2) r = Ret (tt, r') ∧ stored (trace r') = stored (trace r) ++ [sr].
Proof.
  revert T c r. induction ds1 as [|d1 ds1 IH]; intros T c r Hs Hconf Hb Hc Hcp Hok Hnot Hdone Hne Hlen.
  - apply sane_cons in Hb as [Hd Hb].
    destruct (deliver_copying d T c r) as (r1 & E1 & (Hs1 & Hf1 & Hl1) & Hps1 & H1); [done..|].
    unfold body_of in Hlen. cbn in Hlen. rewrite app_nil_r in Hlen.
    destruct H1 as [(c1 & _ & _ & _ & H1)|[(_ & _ & H1)|(Hq & _ & c1 & v & _ & _ & Hst1)]].
    + rewrite H1 in Hdone; done.
    + destruct H1. split; [done|]. split; [intros HL; rewrite Hlen; [done|done]|auto].
    + destruct (deliver_all_quiet ds2 r1) as (r2 & E2 & Hst2 & Hps2); [by rewrite Hs1|done|].
      eexists r2, _. cbn [app]. rewrite (run_deliver _ _ _ _ E1). split; [done|]. by rewrite Hst2, Hst1.
  - apply sane_cons in Hb as [Hd Hb]. unfold body_of in Hlen. cbn in Hlen. rewrite app_assoc in Hlen.
    destruct (deliver_copying d1 T c r) as (r1 & E1 & (Hs1 & Hf1 & Hl1) & Hps1 & H1); [done..|].
    assert (upstream_done (d_upstream d1) = false) as Hd1 by (apply Hnot; set_solver).
    rewrite Hd1 in H1. destruct H1 as [(c1 & Hc1 & Hcp1 & Hst1 & _)|[(_ & _ & H1)|(_ & [] & _)]].
    + destruct (IH (T ++ bytes_of d1) c1 r1) as (r2 & sr & E2 & Hst2); [by rewrite ?Hs1, ?Hf1, ?Hl1..|done| |done|done| |].
      * intros; apply Hnot; set_solver.
      * by rewrite Hl1.
      * exists r2, sr. cbn [app]. rewrite (run_deliver _ _ _ _ E1). split; [done|]. congruence.
    + destruct H1. split; [done|]. split; [|done]. intros HL. rewrite !length_app in *. lia.
Qed.

(** Which responses the header filter lets the module store. *)
Definition storable (r : request) : Prop :=
  ngx_http_jstore_is_subrequest JSUBR_METHOD_STR r = false ∧ r_status r = 200 ∧ r_header_only r = false ∧
  r_range r && r_allow_ranges r = false ∧
  (∃ j m, r_conf r = Some j ∧ max_size j = Some m ∧ r_length r ≤ m) ∧
  (r_length r < 0 → ∃ u, r_upstream r = Some u ∧ u_chunked u = true).

Lemma cacheable_reads r b r' :
  ngx_http_jstore_check_cacheable ngx_strncasecmp ngx_http_parse_time ngx_time r = Ret (b, r') → r' = r.
Proof.
  assert (∀ hs n h b r', cache_control_ok ngx_strncasecmp hs h n r = Ret (b, r') → r' = r) as Hcc.
  { induction n as [|n IH]; intros h b0 r0; cbn [cache_control_ok]; [by intros [= _ <-]|].
    unfold deref. destruct (hs !! h) as [v|]; [|done]. change (mret v) with (λ s : request, Ret (v, s)).
    unfold mbind at 1, M_bind at 1. destruct (_ || _); [by intros [= _ <-]|]. apply IH. }
  unfold ngx_http_jstore_check_cacheable. rewrite run_get.
  destruct (match r_valid_sec r with Some v => _ | None => _ end); [by intros [= _ <-]|].
  destruct (r_upstream r) as [u|]; [|done]. rewrite (run_deref u) by done.
  destruct (u_cacheable u); [by intros [= _ <-]|]. intros H. minv H.
  assert (s = r) as -> by (destruct (u_cache_control u) as [[|? ?]|]; [by injection E|by eapply Hcc|by injection E]).
  destruct a; cbn [negb] in H; [|by injection H].
  destruct (u_expires u) as [v|]; [|by injection H]. destruct (ngx_http_parse_time v); by injection H.
Qed.

Lemma header_filter_spec r rc r' :
  header_filter r = Ret (rc, r') →
  same_req r r' ∧ stored (trace r') = stored (trace r) ∧ passed (trace r') = passed (trace r) ∧
  (r_ctx r' = r_ctx r ∨ (r_ctx r' = Some (JCtx [] 0 false true) ∧ storable r)).
Proof.
  assert (∀ r, pipe_header next_header r = Ret (next_header r, note NextHeader r)) as Hpipe by done.
  assert (∀ r, stored (trace (note NextHeader r)) = stored (trace r) ∧ passed (trace (note NextHeader r)) = passed (trace r)) as Htr.
  { intros r0. unfold stored, passed. cbn. rewrite !omap_app. cbn. by rewrite !app_nil_r. }
  assert (∀ r0 : request, same_req r0 (note NextHeader r0) ∧
    stored (trace (note NextHeader r0)) = stored (trace r0) ∧ passed (trace (note NextHeader r0)) = passed (trace r0) ∧
    (r_ctx (note NextHeader r0) = r_ctx r0 ∨ (r_ctx (note NextHeader r0) = Some (JCtx [] 0 false true) ∧ storable r0))) as Hsame.
  { intros r0. destruct (Htr r0). split; [done|]. auto. }
  unfold ngx_http_jstore_header_filter. rewrite run_get.
  destruct (ngx_http_jstore_is_subrequest JSUBR_METHOD_STR r) eqn:Hs; [by rewrite Hpipe; intros [= _ <-]|].
  destruct (r_ctx r) as [c|] eqn:Hc; [|by rewrite Hpipe, <- Hc; intros [= _ <-]].
  rewrite <- Hc.
  intros H. minv H. unfold deref in E. destruct (r_conf r) as [j|] eqn:Hj; [|done]. injection E as <- <-.
  minv H. unfold deref in E. destruct (max_size j) as [m|] eqn:Hm; [|done]. injection E as <- <-.
  minv H. unfold deref in E. destruct (check_cacheable j) as [k|] eqn:Hk; [|done]. injection E as <- <-.
  minv H. assert (s = r ∧ ((m <? r_length r) = false → r_length r < 0 → a = true → ∃ u, r_upstream r = Some u ∧ u_chunked u = true)) as [-> Hch].
  { destruct (m <? r_length r); [by injection E|]. destruct (r_length r <? 0) eqn:Hneg; [|injection E as _ <-; split; [done|lia]].
    unfold deref in E. destruct (r_upstream r) as [u|]; [|done]. injection E as <- <-. eauto. }
  destruct (_ || _) eqn:Hcond in H; [rewrite Hpipe in H; injection H as _ <-; apply Hsame|].
  minv H. assert (s = r) as -> by (destruct (k =? 0); [by injection E0|by eapply cacheable_reads]).
  destruct a0; cbn [negb] in H; [|rewrite Hpipe in H; injection H as _ <-; apply Hsame].
  rewrite run_modify, Hpipe in H. injection H as _ <-.
  destruct (Htr (set_ctx (Some (JCtx [] 0 false true)) r)) as [H1 H2]. split; [done|]. split; [done|]. split; [done|].
  right. split; [done|]. rewrite !orb_false_iff in Hcond. destruct Hcond as ((((H3 & H4) & H5) & H6) & H7).
  split; [done|]. split; [apply negb_false_iff, Z.eqb_eq in H5; done|]. split; [done|]. split; [done|].
  split; [exists j, m; split; [done|]; split; [done|]; lia|].
  intros Hneg. apply Hch; [done|done|]. rewrite (proj2 (Z.ltb_lt _ _) Hneg) in H4. by destruct a.
Qed.

End response.

(** ** An example *)

(** A response of five bytes in two deliveries: two bytes of memory and a flush
    marker, then three bytes of a file. *)
Module Sample.
Definition special (b : ngx_buf_t) : bool := b_flags b =? 1.
Definition size (b : ngx_buf_t) : Z :=
  Z.max 0 (if b_in_file b then b_file_last b - b_file_pos b else b_last b - b_pos b).
Definition file (f off n : Z) : list Z := (λ i, 1000 + i) <$> seqZ off n.
Definition read (f n off : Z) (r : request) : option (list Z) := if 0 <=? n then Some (file f off n) else None.
Definition header (r : request) : ngx_rc := NGX_OK.
Definition body (chain : list Z) (r : request) : ngx_rc * gmap Z ngx_buf_t := (NGX_OK, skip_buf <$> r_bufs r).
Definition up (left : Z) : ngx_upstream := Upstream 200 false true [] None None None left.
Definition conf : ngx_http_jstore_loc_conf_t := JConf (Some [64]) (Some 100) (Some 1).
Definition start : request :=
  Req true 7 (Some (JCtx [] 0 false false)) (Some conf) (Some (up 5)) None 5 200 false false false 1 ∅ (λ _, 0) ∅ [].
Definition deliveries : list delivery :=
  [Delivery {[1 := NgxBuf 50 52 0 0 false true false None 0; 2 := NgxBuf 0 0 0 0 false false false None 1]} (λ a, a) (up 3) [1; 2];
   Delivery {[3 := NgxBuf 0 0 20 23 false false true (Some 9) 0]} (λ a, a) (up 0) [3]].
Definition run : outcome (unit * request) :=
  (ngx_http_jstore_header_filter 42 (λ _ _ _, 0) (λ _, None) 0 header;;
   deliver_all 42 (λ _, true) (λ _ _, true) (λ _ _, true) special size read body (λ _, NGX_OK) 10 20 deliveries) start.
End Sample.

